(* ===== verification/_CoqProject ===== *)
-Q . S2P
Prelude.v
Memory.v
Errors.v
OrderedMap.v
ResourceModel.v
KernelBitmap.v
ProgramGroupParam.v
ProgramManifest.v
ProcessGroupHeader.v
Process.v
ProcessCells.v
ProcessExtension.v
ProcessCreate.v
Terminal.v
ProcessGroup.v
TerminalManifest.v
ProgramGroupManifest.v
ProgramGraph.v
GroupSelection.v
ManifestRegion.v
TerminalLayout.v
ProgramControlInit.v
TerminalCreate.v
GroupCreate.v
GroupPlan.v
GroupLoops.v
GroupConditions.v
GroupProcesses.v
GroupCreation.v
MetadataTables.v
MetadataTags.v
MetadataBuffer.v
MetadataPacket.v
MetadataMemory.v
MetadataAdd.v
MetadataEdit.v
MetadataFind.v
MetadataSteps.v
CameraMetadata.v
CameraMetadataHeap.v
CameraMetadataMap.v
MetadataTheorems.v
AiqResultStorage.v
Parameters.v
ParameterLaws.v
ParameterGenerator.v
RequestThread.v
RequestRuns.v
ParserBase.v
CameraSchedulerPolicy.v
CameraScheduler.v
SyncManager.v
V4l2Device.v
V4l2Video.v
V4l2Protocol.v
SensorHwCtrl.v
SensorManager.v
PixelFormats.v
ModeNames.v
CaptureDevice.v
CaptureUnit.v
ReferBufferPool.v
PolicyManager.v
RoutingBitmap.v
LensControl.v
MakerNote.v
Thread.v
BufferQueue.v
SwImageConverter.v
SwImageProcessor.v
CameraStream.v
CameraDevice.v
CameraDeviceRuns.v
