(* ===== verification/Prelude.v ===== *)
(** * Verification of the IPU6 camera HAL: process groups, metadata, requests,
    capture

    ** The program

    Four parts of the camera HAL are modelled.

    src/modules/ia_css/ipu6 is the C library with which the HAL
    describes work for the image processing system: a _program group_
    (a graph of firmware programs over a set of _kernels_) is instantiated as
    a _process group_ with one _process_ per program and one _terminal_ per
    buffer.  The library never allocates.  Every object is laid out by hand in
    a flat buffer and reached through byte offsets kept in other objects, so
    what has to be right is the layout, the offset arithmetic on narrow
    integers, and the rules on who may change what in which state.

    - Static data: program group manifest (header, program manifests, terminal
      manifests), which a tool generates and
      [ia_css_is_program_group_manifest_valid] checks.
    - Client data: the program group parameters, with the kernels a client
      enables and the frames it has.
    - Dynamic data: the process group (header, offset tables, processes,
      terminals).  [ia_css_process_group_exec_cmd] drives its states, buffers
      are attached to its terminals, cells of the hardware are claimed in its
      resource bitmap by its processes.

    src/src/metadata keeps the settings and results of a capture: a _packet_
    is one heap block with a header, an array of entries (tag, type, values or
    the offset of the values) and an area for the values that do not fit in
    their entry.  The C functions of icamera_metadata_base.cpp edit a packet
    in place; the C++ class [CameraMetadata] owns a packet, replaces it by a
    larger one when it is full, and can be locked while a client holds the
    raw pointer.  What type the values of a tag have is kept in tables.

    src/src/core, src/src/3a and src/src/scheduler run the captures: requests
    wait in the _request thread_ until one of them may go to the pipeline, 3A
    (the control of exposure, white balance and focus) says from which frame
    on its settings are in effect, the _parameter generator_ and the _result
    storage_ keep settings and results by frame for all who work on it, and
    the _scheduler_ runs the processing of a frame as a chain of threads that
    trigger each other.  These parts are C++ classes with mutexes, condition
    variables and shared pointers: what has to be right is what happens when
    their calls interleave.

    src/modules/v4l2 with the lower classes of src/src/core and src/src/3a bring
    the frames in: a _video node_ is a V4L2 device with its states and buffers,
    a _capture device_ gives empty buffers to a node and takes filled ones, the
    _capture unit_ starts, fills and polls the devices of a camera, the _sensor
    manager_ sends exposures to the sensor so that they meet the frames they
    were predicted for, and cameras whose frames belong together wait for each
    other.  Here the kernel is the other party, and what has to be right is
    that the state kept in the process is the one the driver is in.

    Above them all is the _camera device_ with its _streams_, the object a client
    opens: it chooses what the sensor and the processors deliver, and starts and
    stops every part in its order.

    ** The files: process groups

    These paths are below src/modules/ia_css/ipu6; definitions carry the names
    of the C functions, macros and struct members they model.

    - Prelude: fixed-width integers, the exit monad for the [verifexit] idiom
      (include/error_support.h), loops, bit lemmas, tactics and hint
      databases.
    - Memory: byte memory, little-endian loads and stores, struct members as
      [field]s, layouts checked to tile their structs.
    - ResourceModel: include/vied_nci_psys_resource_model.h,
      include/psys_system_global_impl.h.  Class [Platform] has the constants
      of an IPU generation, with [ipu6] and [ipu6ep] as instances, and
      [PlatformOk] what the operations need of them; class [ResourceTables]
      stands for the extern tables, whose contents are not in the repository.
    - KernelBitmap: src/ia_css_kernel_bitmap.c; the specification is the
      128-bit number.  RoutingBitmap: src/ia_css_rbm.c, 160 bits.
    - ProgramGroupParam: src/ia_css_program_group_param.c.
    - ProgramManifest: src/ia_css_psys_program_manifest.c.
    - ProcessGroupHeader: include/ia_css_psys_process_group_cmd_impl.h (the
      struct) and the field operations of
      include/ia_css_psys_process_group_impl.h.
    - Process, ProcessCells, ProcessExtension, ProcessCreate:
      src/ia_css_psys_process.c and include/ia_css_psys_process_impl.h; the
      operations are in the first file, the other three hold what is proved of
      cells, of memories and channels, and of creation.
    - Terminal: include/ia_css_psys_terminal_impl.h and
      include/ia_css_program_group_data_impl.h, operations on an existing
      terminal.
    - ProcessGroup: src/ia_css_psys_process_group_cmd_impl.c and the client
      interface of src/ia_css_psys_process_group.c.
    - TerminalManifest: src/ia_css_psys_terminal_manifest.c with
      include/ia_css_terminal_manifest_impl.h.
    - ProgramGroupManifest, ProgramGraph:
      src/ia_css_psys_program_group_manifest.c; the first has the lookups and
      the validity check, the second the abstract graph, class [ValidGraph],
      which is what the check promises its callers, and the proof that it
      does.
    - GroupSelection: the part of src/ia_css_psys_process_group.c that decides
      which programs and terminals a group has; it uses the check only through
      [ValidGraph].  ManifestRegion: the bytes it reads.
    - TerminalLayout: include/ia_css_terminal_impl.h, the sections, fragments
      and slices behind a parameter terminal; ProgramControlInit: the program
      control init part of include/ia_css_psys_terminal_impl.h;
      TerminalCreate: src/ia_css_psys_terminal.c.
    - GroupCreate: [ia_css_sizeof_process_group] and
      [ia_css_process_group_create].  GroupPlan has the specification, the
      group a manifest and parameters call for; GroupLoops and GroupProcesses
      follow the terminal and the process loop, which rest on class
      [Creatable], that each part can be made; GroupConditions discharges it
      from [GroupReady], conditions on the client's memory alone;
      GroupCreation has the theorems.

    ** The files: camera metadata

    These paths are below src/src/metadata.

    - MetadataTables: the enumerators of icamera_metadata_tags.h and
      include/api/intel_vendor_metadata_tags.h, the tables of
      icamera_metadata_tag_info.c and vendor_metadata_tag_info.c.
      MetadataTags: looking a tag up in them.
    - MetadataBuffer: the structs of a packet and every function of
      icamera_metadata_base.cpp that reads or changes one.
    - MetadataPacket: a packet as a list of entry slots and a data area, with
      the data it stands for, and the invariant that the values tile the used
      part of the area.  MetadataMemory: the packet at an address ([wf],
      [contents]), moves and copies in memory.  MetadataAdd, MetadataEdit, MetadataFind: what the
      operations do to a packet: adding and appending; deleting and updating;
      searching, sorting and validating.  MetadataSteps: the operations as a
      step relation, and an instance of [CLibrary].
    - CameraMetadata: the class of CameraMetadata.cpp over a [world] of
      memory, heap blocks and objects.  CameraMetadataHeap: who owns which
      block, and growing.  CameraMetadataMap: the container as a map from tags
      to values, and the simulation of its methods by map operations.
    - MetadataTheorems: the theorems on packets and on the container, with a
      packet, an allocator and a session on which they are evaluated.

    - Parameters: Parameters.cpp, ParameterHelper.cpp: the setters and getters
      of settings, over the map that the container is shown to be.
      ParameterLaws: what they do.
    - Errors: the status codes of iutils/Errors.h.

    ** The files: requests and frames

    These paths are below src/src.

    - OrderedMap: [std::map] with integer keys.
    - AiqResultStorage: 3a/AiqResultStorage.cpp, rings of results and of
      statistics, with their readers and writers.
    - ParameterGenerator: metadata/ParameterGenerator.cpp, settings by frame,
      as shared objects in a heap; the specification keeps them as values.
    - RequestThread: core/RequestThread.cpp.  A section of code under a lock is
      one function, [pc] and [agent] say where a thread is between them, and
      [perform] does the next section of any thread.  RequestRuns: what holds
      for all runs.
    - ParserBase: platformdata/ParserBase.cpp, what the parsers of XML files
      share, with the C library functions on strings.
      CameraSchedulerPolicy: scheduler/CameraSchedulerPolicy.cpp.
    - CameraScheduler: scheduler/CameraScheduler.cpp, executors as threads that
      wait, are signalled, process a frame or are between two waits.

    ** The files: capture

    - SyncManager: core/SyncManager.cpp, and the executors of
      core/psysprocessor/PipeLiteExecutor.cpp that wait on its counters while
      they are not stopped.
    - V4l2Device: src/modules/v4l2, v4l2_device.cc and v4l2_subdevice.cc, over
      the class [Kernel] of system calls.  V4l2Video: v4l2_video_node.cc,
      buffers, formats and nodes.  V4l2Protocol: class [KernelOk], what a V4L2
      driver promises of its buffer queue (it may grant any number of buffers,
      even none), and what a node keeps to then.
    - SensorHwCtrl: core/SensorHwCtrl.cpp, the controls of a sensor; class
      [SensorOps] is what it offers.  SensorManager: 3a/SensorManager.cpp,
      which is a client of that class.
    - PixelFormats: the formats of iutils/Utils.cpp, their names, strides and
      frame sizes.  ModeNames: the modes that file reads and prints.
    - CaptureDevice: core/DeviceBase.cpp.  The operations are given whole, and
      as the sections [act_step] that threads interleave; class [FrameQueue]
      is what the driver promises of the buffers it holds, which it may give
      back in any order.
    - CaptureUnit: core/CaptureUnit.cpp, a list of capture devices and the
      thread that polls them, [poll_loop] being its body.
    - ReferBufferPool: core/psysprocessor/ShareReferBufferPool.cpp, the
      reference frames that a video pipe shares with a still pipe.
    - PolicyManager: core/psysprocessor/PolicyManager.cpp, the barrier at which
      the executors of a bundle meet.
    - LensControl: core/LensHw.cpp (Module [Focus]) and 3a/LensManager.cpp, over
      the class [LensPlatform] of the lens sub-device.
    - MakerNote: 3a/MakerNote.cpp; Module [History] is its specification, class
      [IntelCca] the library that writes the notes.

    ** The files: pictures in software

    - Thread: iutils/Thread.cpp, the loop of a thread and the clients that start
      it, ask it to exit and wait for it.
    - BufferQueue: core/BufferQueue.cpp, the queues of a processor, its waits and
      the buffers it gives its producer.
    - SwImageConverter: iutils/SwImageConverter.cpp, formats of pixels.
    - SwImageProcessor: core/SwImageProcessor.cpp, which is made of the three.

    ** The files: the device

    - CameraStream: core/CameraStream.cpp with the parts of
      core/CameraBuffer.cpp it uses: user buffers and camera buffers as objects
      in a heap, calls of other parts in a log.
    - CameraDevice: core/CameraDevice.cpp and core/ProcessorManager.cpp, the
      states of a device and the order in which it configures, starts and stops
      the parts of a camera; what the parts answer, and the platform data, are
      the class [DeviceConfig].  CameraDeviceRuns: what holds for all sequences
      of calls.

    ** How the code is modelled

    Pointers are [Z] with [NULL] = 0, memory is [mem := Z -> Z], a C struct is
    a list of [field]s (offset, size, signedness).  A function that only reads
    takes the memory and returns its value; a function that writes is
    [mem -> Z * mem], return value and memory after; one with a [goto EXIT]
    is written in the monad [M] and closed by [with_retval], so that stores
    made before a failing check stay made.  The read-only validity checks, where
    the jump to EXIT only means [false], use [option] and the notation
    [verif b ;; k].  Narrow integers are reduced where C stores them ([u8],
    [u16], [u32], [signed]), [size_t] is [u64].  [assert]s are compiled out, as with NDEBUG, with
    the calls inside them; trace and log output is not modelled.  Loops run over
    explicit ranges ([for_each], [for_opt], [foldl] on [range]) or by
    structural recursion, so no fuel is needed except in the two loops that
    count bits, which recurse on the width of the bitmap and are shown to
    reach zero before it is used up.

    A method of [CameraMetadata] maps a [world] to a result and a world: the
    memory, the heap as a map from the address of a block to its size, and the
    members of every object, so that two objects may point to one block.  What
    the code relies on and the repository does not hold are classes with
    laws: [qsort] and [bsearch] are [CLibrary] and [CLibraryOk], [malloc] is
    [Allocator] and [AllocatorOk]; each has an instance.  Worlds are compared
    as functions (functional extensionality is used in CameraMetadataMap).

    Threads are modelled by the sections between which they can be
    interrupted, in any order, and a condition variable may wake a thread at
    any time; an object behind a shared pointer is a reference into a heap, so
    that its users can be seen to share it.  What comes from outside, the
    frame 3A predicts, whether a wait timed out, whether a node succeeds, is an
    argument of the step; the state of the driver is the state of [Kernel], which
    each system call takes and returns.  Sequences and request numbers do not wrap.
    Arithmetic on [int] in the sizes of frames answers [None] when it overflows.  The
    loops over tokens and attributes take fuel from the length of what they
    read, which is shown to be enough ([tokens_end], [attributes_pairs]).

    ** What is proved

    - State machines: process and process group commands refine the step
      relations [ProcessFsm.step] and [GroupFsm.step]; lifecycle properties by
      induction on command sequences; a client's create, attach, submit, start
      sequence succeeds ([created_group_launches]); the submission and start conditions are
      exactly the documented states of the terminals' frames.
    - Selection: a manifest that passes the check is a well-formed graph; in
      such a graph at most one alternative of a supernode runs, whatever
      kernels are enabled; the counts a group is sized with are right.
    - Creation: from inputs in class [Creatable] a group is exactly its plan
      ([group_create_ok]): tables, places, links, dependencies, and nothing
      outside group and program parameters written.  The layers below have
      theorems of the same form: a terminal of each type, a process, the
      program control init sections, each inside the size computed before.
    - Ownership: no two processes of a group ever hold the same cell, over all
      interleavings of requests; barriers and cells share the bitmap.
    - Layout: what initialisation and creation write, that it stays inside the
      computed size, and that the parts are found again through the offsets;
      arrays behave as arrays; setters change what they name and nothing else.
    - Data refinement: kernel bitmaps as sets, a data terminal manifest and a
      fragment window as abstract records.
    - Metadata packets: every operation keeps the invariant that entries and
      values tile the packet ([packet_operations_keep_invariant]) and does to
      the list of entries what its name says; validation accepts what the
      operations build; the tables agree with the enumerations.
    - Metadata container: for any sequence of calls on any number of objects
      the container behaves as a map from tags to values, refusals included
      ([container_refines_map]), and no block is leaked, freed twice or owned
      by two objects ([container_keeps_ownership]).
    - Settings: every setter keeps what its getter reads, and no other; frames
      never share an object with another frame or a request, so that
      [getParameters] finds the settings saved for the last frame up to the
      one asked for ([settings_in_effect]); results and statistics likewise.
    - Requests: the thread refines queues of requests and frames
      ([requests_in_order]), bounds the number in flight ([flight_bounded]),
      and a pass that is not blocked brings a request all the way to the
      listeners, its settings to where they are looked up ([request_handled]).
    - Scheduler: policies are read back as they are written; executors are
      linked to the ones they name; a trigger runs exactly the executors
      downstream, and every cascade ends ([cascade_ends]), also when waits run
      out of time.
    - Video nodes: for any sequence of calls the state of a node is one that
      its driver's queue is in ([node_follows_queue]).
    - Capture: whatever threads do, a buffer is in one place, none is lost, and
      the device's list keeps the order in which they were given
      ([capture_buffers_conserved]); filling the devices ends and leaves them
      in step ([filling_ends]); the polling thread runs while the unit is
      started and no poll has failed ([polling_while_started]).
    - Sensors: settings reach the sensor for the frame they were predicted for
      ([settings_meet_prediction]); timings and frame durations stay in range;
      cameras whose frames belong together advance together
      ([cameras_in_step], [every_camera_advances]), each stop letting one get
      ahead by a frame; a lens position that was
      set by hand is sent with its frame ([manual_focus_on_its_frame]); maker
      notes are kept as the last ones of a history
      ([makernotes_refine_history]).
    - Formats: a frame's buffer has room for all its lines
      ([frame_size_covers]); names are read back.
    - Pipelines: reference buffers stay with their owner, in the order of the
      frames ([queues_stay_in_order]); the executors of a bundle run together
      ([executors_run_together]).
    - Processors: a thread that was waited for calls its loop no more
      ([exited_when_wait_returns]); queues keep the order of arrival; a frame
      for which all buffers are there goes through ([frame_goes_through]), and
      conversions keep its samples ([yuv_conversion_round_trip],
      [delivered_picture]).
    - Devices: whatever is called and whatever the parts answer, the source of
      frames, the processors and 3A run in the states of the device they are
      meant to ([parts_follow_device]); listeners are removed as they were
      registered ([unbind_undoes_bind]); streams get ports in the order of their
      size ([streams_get_ports]); a user buffer keeps its camera buffer
      ([pool_one_buffer_each]).
    - Errors: what each failure returns and which stores it has already made.
      Several theorems state behaviour the code can hardly intend: a creation
      that fails without saying so, indices one past the end, offsets that
      wrap, a check that accepts or refuses by parity, a packet flagged as
      sorted that is not, a wake-up that is lost, a map that grows with every
      request without settings, links that depend on addresses, a barrier that a
      time-out leaves open, a copy made while its source may be overwritten, a
      check of a size that is always zero, a loop that compares a position with
      a frame number, a client that ends a run it did not mean, a check for the own
      thread that never fires, a processor used after it was deleted, output that is
      written behind its buffer.

    ** What is not modelled yet

    - The validity of a whole group and of its terminals;
      [ia_css_program_group_manifest_init].
    - Buffer sets.
    - Of the metadata: printing ([dump_icamera_metadata], the enumeration
      names); of [Parameters] the accessors that convert between integers and
      floating point, supported ranges and stream configurations; the results
      that the parameter generator adds to the settings of a frame.
    - Of the capture unit: the memory of buffers and the listeners of events;
      of the sensor manager the structures it fills for the 3A library.
    - Of the camera device: the default parameters; the memory that its parts
      allocate.
    - The rest of the HAL (src/src): the hardware processors and their pipelines, the media controller, the
      other parsers and the tables they fill, the drivers of the 3A library,
      the image processing through libyuv and libjpeg; code that is only I/O or
      glue to closed libraries is left out.
    - The trees ipu6ep and ipu6se repeat the ipu6 sources with other
      constants. *)

From Stdlib Require Export ZArith Lia Bool.
From stdpp Require Export base list numbers option.

Declare Scope css_scope.
Delimit Scope css_scope with css.

#[global] Open Scope Z_scope.

(** ** Fixed-width integers

    C integers are [Z]; storing into a [w]-bit unsigned object reduces modulo
    [2^w] ([u8] ... [u64]); a signed object of [w] bits holds the two's
    complement reading [signed w] of the same bits. *)

Definition u8 (x : Z) : Z := x mod 2 ^ 8.
Definition u16 (x : Z) : Z := x mod 2 ^ 16.
Definition u32 (x : Z) : Z := x mod 2 ^ 32.
Definition u64 (x : Z) : Z := x mod 2 ^ 64.

Definition signed (w x : Z) : Z :=
  let y := x mod 2 ^ w in if y <? 2 ^ (w - 1) then y else y - 2 ^ w.

Lemma pow2_half w : 0 < w -> 2 ^ w = 2 * 2 ^ (w - 1).
Proof. intros Hw. rewrite <- Z.pow_succ_r by lia. f_equal; lia. Qed.

Lemma signed_small w x :
  0 < w -> - 2 ^ (w - 1) <= x < 2 ^ (w - 1) -> signed w x = x.
Proof.
  intros Hw Hx. unfold signed. cbv zeta.
  pose proof (pow2_half w Hw) as E.
  destruct (Z.ltb_spec x 0) as [Hn | Hn].
  - assert (x mod 2 ^ w = x + 2 ^ w) as ->.
    { rewrite <- (Z.mod_small (x + 2 ^ w) (2 ^ w)) by lia.
      replace (x + 2 ^ w) with (x + 1 * 2 ^ w) by lia.
      rewrite Z.mod_add by lia. reflexivity. }
    destruct (Z.ltb_spec (x + 2 ^ w) (2 ^ (w - 1))); lia.
  - rewrite Z.mod_small by lia.
    destruct (Z.ltb_spec x (2 ^ (w - 1))); lia.
Qed.

Lemma signed_mod w x : signed w (x mod 2 ^ w) = signed w x.
Proof. unfold signed. rewrite Z.mod_mod_divide by reflexivity. reflexivity. Qed.

Lemma signed_range w x :
  0 < w -> - 2 ^ (w - 1) <= signed w x < 2 ^ (w - 1).
Proof.
  intros Hw. unfold signed. cbv zeta. pose proof (pow2_half w Hw).
  pose proof (Z.mod_pos_bound x (2 ^ w) ltac:(lia)).
  destruct (Z.ltb_spec (x mod 2 ^ w) (2 ^ (w - 1))); lia.
Qed.

(** ** math_support.h *)

Definition CEIL_DIV (a b : Z) : Z := if b =? 0 then 0 else (a + b - 1) / b.
Definition CEIL_MUL (a b : Z) : Z := CEIL_DIV a b * b.

Lemma CEIL_MUL_spec a b :
  0 < b -> a <= CEIL_MUL a b < a + b /\ (b | CEIL_MUL a b).
Proof.
  intros Hb. unfold CEIL_MUL, CEIL_DIV. destruct (Z.eqb_spec b 0); [lia |].
  pose proof (Z.div_mod (a + b - 1) b ltac:(lia)). pose proof (Z.mod_pos_bound (a + b - 1) b Hb).
  split; [nia |]. exists ((a + b - 1) / b). lia.
Qed.

(** ** Error paths: state passing with [goto EXIT]

    A C function of the library is a straight line of statements guarded by
    [verifexit]/[verifexitval]/[verifjmpexit], all of which jump to the label
    [EXIT] that ends the function (include/error_support.h).  A body is a
    state transformer that either continues with a value ([Some]) or has
    jumped ([None]); what was written before the jump stays written. *)

Definition M (S A : Type) : Type := S -> option A * S.

Section Exit_monad.
Context {S : Type}.

Definition ret {A} (a : A) : M S A := fun s => (Some a, s).
Definition exit {A} : M S A := fun s => (None, s).
Definition bind {A B} (c : M S A) (k : A -> M S B) : M S B :=
  fun s => match c s with
           | (Some a, s') => k a s'
           | (None, s') => (None, s')
           end.
Definition verifexit (c : bool) : M S unit := if c then ret tt else exit.
Definition gets {A} (f : S -> A) : M S A := fun s => (Some (f s), s).
Definition modify (f : S -> S) : M S unit := fun s => (Some tt, f s).
Definition call {A} (f : S -> A * S) : M S A :=
  fun s => let '(a, s') := f s in (Some a, s').

(** [T retval = dflt; ... EXIT: return retval;] where the body ends with the
    value it assigns to [retval]. *)
Definition with_retval {A} (dflt : A) (b : M S A) : S -> A * S :=
  fun s => match b s with
           | (Some r, s') => (r, s')
           | (None, s') => (dflt, s')
           end.

(** [for (i in l) body], the loop variables in [acc]. *)
Fixpoint for_each {A} (l : list Z) (acc : A) (body : Z -> A -> M S A) : M S A :=
  match l with
  | [] => ret acc
  | i :: l' => bind (body i acc) (fun acc' => for_each l' acc' body)
  end.

Lemma bind_ret_l {A B} (a : A) (k : A -> M S B) s : bind (ret a) k s = k a s.
Proof. reflexivity. Qed.

Lemma bind_assoc {A B C} (c : M S A) (k : A -> M S B) (h : B -> M S C) s :
  bind (bind c k) h s = bind c (fun a => bind (k a) h) s.
Proof. unfold bind. destruct (c s) as [[a |] s']; reflexivity. Qed.

Lemma for_each_app {A} (l1 l2 : list Z) (acc : A) body s :
  for_each (l1 ++ l2) acc body s
  = bind (for_each l1 acc body) (fun a => for_each l2 a body) s.
Proof.
  revert acc s. induction l1 as [| i l1 IH]; intros acc s; [reflexivity |].
  cbn [app for_each]. unfold bind at 1 3. unfold bind in IH |- *.
  destruct (body i acc s) as [[a |] s']; [apply IH | reflexivity].
Qed.
End Exit_monad.

Notation "x <- c ;; k" := (bind c (fun x => k))
  (at level 100, c at next level, right associativity) : css_scope.
Notation "c ;;; k" := (bind c (fun _ => k))
  (at level 100, right associativity) : css_scope.

(** [for (i = lo; i < hi; i++)]. *)
Definition range (lo hi : Z) : list Z := seqZ lo (hi - lo).

Lemma range_cons lo hi : lo < hi -> range lo hi = lo :: range (lo + 1) hi.
Proof.
  intros H. unfold range. rewrite (seqZ_cons lo) by lia. do 2 f_equal; lia.
Qed.

Lemma range_nil lo hi : hi <= lo -> range lo hi = [].
Proof. intros H. apply seqZ_nil. lia. Qed.

Lemma range_snoc lo hi : lo <= hi -> range lo (Z.succ hi) = range lo hi ++ [hi].
Proof.
  intros H. unfold range. replace (Z.succ hi - lo) with ((hi - lo) + 1) by lia.
  rewrite seqZ_app by lia. replace (lo + (hi - lo)) with hi by lia. reflexivity.
Qed.

Lemma elem_of_range lo hi i : i ∈ range lo hi <-> lo <= i < hi.
Proof. unfold range. rewrite elem_of_seqZ. lia. Qed.

(** Folds of functions that agree on the list. *)
Lemma foldl_ext_in {A B} (f g : A -> B -> A) (a : A) (l : list B) :
  (forall a b, b ∈ l -> f a b = g a b) -> foldl f a l = foldl g a l.
Proof.
  revert a. induction l as [| b l IH]; intros a H; [reflexivity |].
  cbn [foldl]. rewrite H by left. apply IH. intros a' b' Hb. apply H. right. exact Hb.
Qed.

(** ** Sums *)

Lemma sum_snoc l x : foldr Z.add 0 (l ++ [x]) = foldr Z.add 0 l + x.
Proof. induction l as [| y l IH]; cbn; [lia |]. rewrite IH. lia. Qed.

(** [count f i] adds up [f] over the first [i] programs. *)
Definition count (f : Z -> Z) (i : Z) : Z := foldr Z.add 0 (map f (range 0 i)).

Lemma count_succ f i : 0 <= i -> count f (i + 1) = count f i + f i.
Proof.
  intros Hi. unfold count. change (i + 1) with (Z.succ i). rewrite range_snoc by lia.
  rewrite map_app. apply sum_snoc.
Qed.

Lemma count_mono f i j : (forall k, 0 <= f k) -> 0 <= i <= j -> 0 <= count f i <= count f j.
Proof.
  intros Hf [Hi Hij]. assert (0 <= count f i).
  { clear Hij. pattern i. apply natlike_ind; [reflexivity | | exact Hi].
    intros k Hk IH. change (Z.succ k) with (k + 1). rewrite count_succ by exact Hk.
    specialize (Hf k). lia. }
  split; [assumption |]. replace j with (i + (j - i)) by lia.
  assert (Hd : 0 <= j - i) by lia. pattern (j - i). apply natlike_ind; [| | exact Hd].
  - rewrite Z.add_0_r. lia.
  - intros k Hk IH. replace (i + Z.succ k) with ((i + k) + 1) by lia.
    rewrite count_succ by lia. specialize (Hf (i + k)). lia.
Qed.

(** [rank on i]: how many of the first [i] are on, the place the [i]-th gets in
    an array of those that are. *)
Definition rank (on : Z -> bool) (i : Z) : Z := count (fun j => if on j then 1 else 0) i.

Lemma rank_succ on i : 0 <= i -> rank on (i + 1) = rank on i + (if on i then 1 else 0).
Proof. apply count_succ. Qed.

Lemma rank_mono on i j : 0 <= i <= j -> 0 <= rank on i <= rank on j.
Proof. apply count_mono. intros k. destruct (on k); lia. Qed.

Lemma rank_le on i : 0 <= i -> 0 <= rank on i <= i.
Proof.
  intros Hi. pattern i. apply natlike_ind; [change (rank on 0) with 0; lia | | exact Hi].
  clear i Hi. intros i Hi IH. unfold Z.succ. rewrite rank_succ by exact Hi. destruct (on i); lia.
Qed.

Lemma rank_lt on i j : 0 <= i < j -> on i = true -> rank on i < rank on j.
Proof.
  intros H E. pose proof (rank_mono on (i + 1) j ltac:(lia)).
  rewrite rank_succ, E in H0 by lia. lia.
Qed.

Lemma rank_list on n :
  0 <= n -> map (rank on) (List.filter on (range 0 n)) = range 0 (rank on n).
Proof.
  revert n. apply natlike_ind; [reflexivity |]. intros n Hn IH.
  rewrite range_snoc, List.filter_app, map_app, IH by exact Hn.
  change (Z.succ n) with (n + 1). rewrite rank_succ by exact Hn.
  pose proof (rank_mono on 0 n ltac:(lia)). change (rank on 0) with 0 in H.
  cbn [List.filter]. destruct (on n).
  - change (rank on n + 1) with (Z.succ (rank on n)). rewrite range_snoc by lia. reflexivity.
  - rewrite Z.add_0_r, app_nil_r. reflexivity.
Qed.

Lemma rank_inv on n r : 0 <= n -> 0 <= r < rank on n -> exists i, 0 <= i < n /\ on i = true /\ rank on i = r.
Proof.
  intros Hn Hr. apply elem_of_range in Hr. rewrite <- (rank_list on n Hn) in Hr.
  apply list_elem_of_In, in_map_iff in Hr. destruct Hr as (i & E & Hi). apply filter_In in Hi. destruct Hi as [Hi O].
  exists i. split; [apply elem_of_range, list_elem_of_In, Hi | auto].
Qed.

(** The invariant rule of a counting loop whose body does not exit. *)
Lemma for_range_inv {S A} (P : Z -> A -> S -> Prop) lo hi acc (body : Z -> A -> M S A) s :
  lo <= hi -> P lo acc s ->
  (forall i a s, lo <= i < hi -> P i a s ->
     exists a' s', body i a s = (Some a', s') /\ P (i + 1) a' s') ->
  exists a' s', for_each (range lo hi) acc body s = (Some a', s') /\ P hi a' s'.
Proof.
  intros Hle. remember (Z.to_nat (hi - lo)) as n eqn:Hn. revert lo acc s Hle Hn.
  induction n as [| n IH]; intros lo acc s Hle Hn HP Hb.
  - assert (lo = hi) as -> by lia. rewrite range_nil by lia. exists acc, s. auto.
  - rewrite range_cons by lia. cbn [for_each].
    destruct (Hb lo acc s ltac:(lia) HP) as (a' & s' & E & HP').
    unfold bind. rewrite E. apply IH; [lia | lia | exact HP' |].
    intros i a t Hi. apply Hb. lia.
Qed.

(** ** Checks that only read

    Where a function writes nothing, a jump to EXIT is [None]. *)

Notation "'verif' b ;; k" := (if b then k else None)
  (at level 100, b at next level, right associativity) : css_scope.

(** [for (i in l) body] with an exit. *)
Fixpoint for_opt {A} (l : list Z) (acc : A) (body : Z -> A -> option A) : option A :=
  match l with
  | [] => Some acc
  | i :: l' => match body i acc with Some acc' => for_opt l' acc' body | None => None end
  end.

Lemma for_opt_run {A} (f : Z -> A) lo hi (body : Z -> A -> option A) :
  lo <= hi -> (forall i, lo <= i < hi -> body i (f i) = Some (f (i + 1))) ->
  for_opt (range lo hi) (f lo) body = Some (f hi).
Proof.
  intros Hle. remember (Z.to_nat (hi - lo)) as n eqn:Hn. revert lo Hle Hn.
  induction n as [| n IH]; intros lo Hle Hn H.
  - assert (lo = hi) as -> by lia. rewrite range_nil by lia. reflexivity.
  - rewrite range_cons by lia. cbn [for_opt]. rewrite H by lia.
    apply IH; [lia | lia |]. intros i Hi. apply H. lia.
Qed.

Lemma for_opt_inv {A} (P : Z -> A -> Prop) lo hi acc (body : Z -> A -> option A) r :
  lo <= hi -> P lo acc ->
  (forall i a a', lo <= i < hi -> P i a -> body i a = Some a' -> P (i + 1) a') ->
  for_opt (range lo hi) acc body = Some r -> P hi r.
Proof.
  intros Hle. remember (Z.to_nat (hi - lo)) as n eqn:Hn. revert lo acc Hle Hn.
  induction n as [| n IH]; intros lo acc Hle Hn HP Hb.
  - assert (lo = hi) as -> by lia. rewrite range_nil by lia. cbn. intros E. congruence.
  - rewrite range_cons by lia. cbn [for_opt]. destruct (body lo acc) as [a' |] eqn:E; [| discriminate].
    apply IH; [lia | lia | apply (Hb lo acc a'); auto; lia |].
    intros i a b Hi. apply Hb. lia.
Qed.

(** Every iteration of a loop that ends has succeeded. *)
Lemma for_opt_all {A} lo hi acc (body : Z -> A -> option A) r :
  for_opt (range lo hi) acc body = Some r ->
  forall i, lo <= i < hi -> exists a a', body i a = Some a'.
Proof.
  intros H i Hi.
  assert (G : forall j, lo <= j < hi -> exists a a', body j a = Some a').
  { apply (for_opt_inv (fun n _ => forall j, lo <= j < n -> exists a a', body j a = Some a')
             lo hi acc body r); [lia | lia | | exact H].
    intros n a a' Hn IH E j Hj. destruct (Z.eq_dec j n) as [-> | Hne]; [eauto | apply IH; lia]. }
  apply G, Hi.
Qed.


(** What a check that succeeded has established. *)
Ltac verif_inv H :=
  repeat match type of H with
  | (if ?b then _ else None) = Some _ =>
      let E := fresh "V" in destruct b eqn:E; [| discriminate H]
  end.

(** ** Tactics *)

(** Runs the monadic plumbing of a body, leaving its guards as [if]s. *)
Ltac mrun :=
  cbv beta iota zeta delta [bind ret exit verifexit gets modify call with_retval].
Ltac mrun_in H :=
  cbv beta iota zeta delta [bind ret exit verifexit gets modify call with_retval] in H.

(** Splits on the boolean guards of a goal, in order, with the arithmetic
    reading of each. *)
Ltac split_guard :=
  match goal with
  | |- context [if ?b then _ else _] =>
      let E := fresh "G" in destruct b eqn:E
  end.

Ltac bsimp :=
  repeat match goal with
  | H : (_ && _)%bool = true |- _ => apply andb_true_iff in H; destruct H
  | H : (_ || _)%bool = false |- _ => apply orb_false_iff in H; destruct H
  | H : negb _ = true |- _ => apply negb_true_iff in H
  | H : negb _ = false |- _ => apply negb_false_iff in H
  | H : (_ =? _) = true |- _ => apply Z.eqb_eq in H
  | H : (_ =? _) = false |- _ => apply Z.eqb_neq in H
  | H : (_ <? _) = true |- _ => apply Z.ltb_lt in H
  | H : (_ <? _) = false |- _ => apply Z.ltb_ge in H
  | H : (_ <=? _) = true |- _ => apply Z.leb_le in H
  | H : (_ <=? _) = false |- _ => apply Z.leb_gt in H
  end.

(** [lia] for goals with division and remainder by constants. *)
Ltac divlia := Z.to_euclidean_division_equations; lia.

(** ** Bits *)

Create HintDb bits.
Create Rewrite HintDb bits.

#[export] Hint Rewrite Z.land_spec Z.lor_spec Z.lxor_spec Z.bits_0 : bits.
#[export] Hint Rewrite Z.shiftr_spec Z.lnot_spec using lia : bits.

(** Bit [i] of a value below [2^w] is clear from [w] on. *)
Lemma testbit_high w x i : 0 <= x < 2 ^ w -> w <= i -> 0 <= w -> Z.testbit x i = false.
Proof.
  intros Hx Hi Hw. rewrite <- (Z.mod_small x (2 ^ w)) by lia.
  apply Z.mod_pow2_bits_high. lia.
Qed.

(** Two values below [2^w] with the same [w] low bits are equal. *)
Lemma bits_eq_below w x y :
  0 <= w -> 0 <= x < 2 ^ w -> 0 <= y < 2 ^ w ->
  (forall i, 0 <= i < w -> Z.testbit x i = Z.testbit y i) -> x = y.
Proof.
  intros Hw Hx Hy H. apply Z.bits_inj'. intros i Hi.
  destruct (Z.lt_ge_cases i w); [apply H; lia |].
  rewrite !(testbit_high w) by lia. reflexivity.
Qed.

Lemma pow2_bit i j : 0 <= i -> 0 <= j -> Z.testbit (2 ^ i) j = (i =? j).
Proof.
  intros Hi Hj. destruct (Z.eqb_spec i j) as [-> | Hne].
  - apply Z.pow2_bits_true; lia.
  - apply Z.pow2_bits_false; lia.
Qed.

Lemma land_below w x y : 0 <= w -> 0 <= x < 2 ^ w -> 0 <= y -> 0 <= Z.land x y < 2 ^ w.
Proof.
  intros Hw Hx Hy. assert (0 <= Z.land x y) by (apply Z.land_nonneg; lia).
  split; [lia |].
  replace (Z.land x y) with (Z.land x y mod 2 ^ w); [apply Z.mod_pos_bound; lia |].
  apply Z.bits_inj'. intros i Hi. destruct (Z.lt_ge_cases i w).
  - apply Z.mod_pow2_bits_low; lia.
  - rewrite Z.mod_pow2_bits_high by lia. rewrite Z.land_spec, (testbit_high w x) by lia.
    reflexivity.
Qed.

Lemma lor_below w x y : 0 <= w -> 0 <= x < 2 ^ w -> 0 <= y < 2 ^ w -> 0 <= Z.lor x y < 2 ^ w.
Proof.
  intros Hw Hx Hy. assert (0 <= Z.lor x y) by (apply Z.lor_nonneg; lia).
  split; [lia |].
  replace (Z.lor x y) with (Z.lor x y mod 2 ^ w); [apply Z.mod_pos_bound; lia |].
  apply Z.bits_inj'. intros i Hi. destruct (Z.lt_ge_cases i w).
  - apply Z.mod_pow2_bits_low; lia.
  - rewrite Z.mod_pow2_bits_high by lia.
    rewrite Z.lor_spec, (testbit_high w x), (testbit_high w y) by lia. reflexivity.
Qed.

#[export] Hint Resolve land_below lor_below : bits.

(** The word [x] of [w] bits below the value [y]. *)
Lemma testbit_cat w x y i :
  0 <= w -> 0 <= x < 2 ^ w -> 0 <= i ->
  Z.testbit (x + 2 ^ w * y) i = if i <? w then Z.testbit x i else Z.testbit y (i - w).
Proof.
  intros Hw Hx Hi. destruct (Z.ltb_spec i w) as [Hlt | Hge].
  - rewrite <- (Z.mod_pow2_bits_low (x + 2 ^ w * y) w) by lia.
    replace (2 ^ w * y) with (y * 2 ^ w) by lia.
    rewrite Z.mod_add, Z.mod_small by lia. reflexivity.
  - replace i with ((i - w) + w) at 1 by lia.
    rewrite <- Z.div_pow2_bits by lia.
    replace (2 ^ w * y) with (y * 2 ^ w) by lia.
    rewrite Z.div_add, Z.div_small by lia. reflexivity.
Qed.

Lemma lor_cat w x y x' y' :
  0 <= w -> 0 <= x < 2 ^ w -> 0 <= x' < 2 ^ w ->
  Z.lor (x + 2 ^ w * y) (x' + 2 ^ w * y') = Z.lor x x' + 2 ^ w * Z.lor y y'.
Proof.
  intros Hw Hx Hx'. apply Z.bits_inj'. intros i Hi.
  rewrite Z.lor_spec, !testbit_cat by auto using lor_below.
  destruct (i <? w); rewrite Z.lor_spec; reflexivity.
Qed.

Lemma land_cat w x y x' y' :
  0 <= w -> 0 <= x < 2 ^ w -> 0 <= x' < 2 ^ w ->
  Z.land (x + 2 ^ w * y) (x' + 2 ^ w * y') = Z.land x x' + 2 ^ w * Z.land y y'.
Proof.
  intros Hw Hx Hx'. apply Z.bits_inj'. intros i Hi.
  rewrite Z.land_spec, !testbit_cat by (try apply land_below; lia).
  destruct (i <? w); rewrite Z.land_spec; reflexivity.
Qed.

(** Number of set bits among the low [n]. *)
Fixpoint popcount (n : nat) (x : Z) : Z :=
  match n with
  | O => 0
  | S n' => Z.b2z (Z.testbit x 0) + popcount n' (Z.shiftr x 1)
  end.

Lemma popcount_0 n : popcount n 0 = 0.
Proof. induction n as [| n IH]; cbn; [reflexivity | exact IH]. Qed.

Lemma popcount_nonneg n x : 0 <= popcount n x.
Proof. revert x. induction n as [| n IH]; intros x; cbn [popcount]; [lia |].
  specialize (IH (Z.shiftr x 1)). destruct (Z.testbit x 0); cbn [Z.b2z]; lia. Qed.

Lemma land_1_b2z x : Z.land x 1 = Z.b2z (Z.testbit x 0).
Proof. rewrite Z.bit0_mod. change 1 with (Z.ones 1). rewrite Z.land_ones by lia. reflexivity. Qed.

Lemma popcount_0_iff n x :
  0 <= x < 2 ^ Z.of_nat n -> popcount n x = 0 <-> x = 0.
Proof.
  revert x. induction n as [| n IH]; intros x Hx.
  - cbn in *. lia.
  - rewrite Nat2Z.inj_succ, Z.pow_succ_r in Hx by lia. cbn [popcount].
    assert (Hs : Z.shiftr x 1 = x / 2) by (rewrite Z.shiftr_div_pow2 by lia; reflexivity).
    pose proof (popcount_nonneg n (Z.shiftr x 1)) as Hp.
    specialize (IH (Z.shiftr x 1)). rewrite Hs in *. rewrite Z.bit0_mod.
    assert (0 <= x / 2 < 2 ^ Z.of_nat n) by (split; [apply Z.div_pos | apply Z.div_lt_upper_bound]; lia).
    pose proof (Z.div_mod x 2 ltac:(lia)). pose proof (Z.mod_pos_bound x 2 ltac:(lia)).
    intuition lia.
Qed.

(** A value with exactly one bit set among [n] is a power of two. *)
Lemma popcount_1_iff n x :
  0 <= x < 2 ^ Z.of_nat n ->
  popcount n x = 1 <-> exists k, 0 <= k < Z.of_nat n /\ x = 2 ^ k.
Proof.
  revert x. induction n as [| n IH]; intros x Hx.
  - cbn. split; [lia | intros [k [Hk _]]; lia].
  - rewrite Nat2Z.inj_succ in *. rewrite Z.pow_succ_r in Hx by lia. cbn [popcount].
    assert (Hs : Z.shiftr x 1 = x / 2) by (rewrite Z.shiftr_div_pow2 by lia; reflexivity).
    rewrite Hs, Z.bit0_mod.
    assert (Hb : 0 <= x / 2 < 2 ^ Z.of_nat n)
      by (split; [apply Z.div_pos | apply Z.div_lt_upper_bound]; lia).
    pose proof (Z.div_mod x 2 ltac:(lia)) as Hdm. pose proof (Z.mod_pos_bound x 2 ltac:(lia)).
    pose proof (popcount_nonneg n (x / 2)). pose proof (popcount_0_iff n (x / 2) Hb) as Hz.
    specialize (IH (x / 2) Hb). split.
    + intros Hp. destruct (Z.eq_dec (x mod 2) 1) as [E | E].
      * exists 0. split; [lia |]. change (2 ^ 0) with 1. lia.
      * destruct (proj1 IH ltac:(lia)) as [k [Hk Ek]].
        exists (k + 1). split; [lia |]. rewrite Z.pow_add_r by lia. change (2 ^ 1) with 2. lia.
    + intros [k [Hk Ek]]. destruct (Z.eq_dec k 0) as [-> | Hk0].
      * change (2 ^ 0) with 1 in Ek. subst x. change (1 / 2) with 0 in *.
        rewrite (proj2 Hz eq_refl). reflexivity.
      * assert (Ek' : x = 2 ^ (k - 1) * 2).
        { rewrite Ek. change 2 with (2 ^ 1) at 3. rewrite <- Z.pow_add_r by lia. f_equal; lia. }
        assert (Hq : x / 2 = 2 ^ (k - 1)) by (rewrite Ek'; apply Z.div_mul; lia).
        assert (Hm : x mod 2 = 0) by (rewrite Ek'; apply Z.mod_mul; lia).
        rewrite Hm, (proj2 IH); [reflexivity |]. exists (k - 1). split; [lia | exact Hq].
Qed.

(** At most [w] bits are set below [w], and [w] only when all are. *)
Lemma popcount_full n x w :
  0 <= w -> (forall i, w <= i -> Z.testbit x i = false) ->
  popcount n x <= w /\ (popcount n x = w -> forall i, 0 <= i < w -> Z.testbit x i = true).
Proof.
  revert x w. induction n as [| n IH]; intros x w Hw H; cbn [popcount]; [split; intros; lia |].
  assert (Hs : forall i, 0 <= i -> Z.testbit (Z.shiftr x 1) i = Z.testbit x (i + 1))
    by (intros i Hi; apply Z.shiftr_spec; exact Hi).
  destruct (Z.eq_dec w 0) as [-> | Hne].
  - rewrite H by lia. cbn [Z.b2z].
    destruct (IH (Z.shiftr x 1) 0) as [L _]; [lia | |].
    + intros i Hi. rewrite Hs by lia. apply H. lia.
    + split; [lia | intros; lia].
  - destruct (IH (Z.shiftr x 1) (w - 1)) as [L F]; [lia | |].
    + intros i Hi. rewrite Hs by lia. apply H. lia.
    + split; [destruct (Z.testbit x 0); cbn [Z.b2z]; lia |].
      intros E i Hi. destruct (Z.eq_dec i 0) as [-> | Hi0].
      * destruct (Z.testbit x 0); [reflexivity | cbn [Z.b2z] in E; lia].
      * replace i with ((i - 1) + 1) by lia. rewrite <- Hs by lia. apply F; [| lia].
        destruct (Z.testbit x 0); cbn [Z.b2z] in E; lia.
Qed.
