(* ===== verification/Memory.v ===== *)
(** * Byte memory and C struct access

    The library never allocates: it lays its structs out by hand in a flat
    buffer and reaches them through byte offsets stored in other structs.  The
    model is the same: a memory of bytes, pointers as addresses ([NULL] is 0),
    and little-endian reads and writes of 1, 2, 4 and 8 bytes.  A struct is a
    list of [field]s with the byte offsets the compiler gives them; each layout
    is checked to tile its struct ([tiles]). *)

From Stdlib Require Import FunctionalExtensionality.
From S2P Require Import Prelude.

Definition mem : Type := Z -> Z.

Definition NULL : Z := 0.
Definition is_null (p : Z) : bool := p =? NULL.

Definition byte_at (m : mem) (a : Z) : Z := m a mod 256.
Definition upd (m : mem) (a b : Z) : mem := fun x => if x =? a then b else m x.

Fixpoint ld (n : nat) (m : mem) (a : Z) : Z :=
  match n with
  | O => 0
  | S n' => byte_at m a + 256 * ld n' m (a + 1)
  end.

Fixpoint st (n : nat) (m : mem) (a v : Z) : mem :=
  match n with
  | O => m
  | S n' => st n' (upd m a (v mod 256)) (a + 1) (v / 256)
  end.

(** Two memories that agree on every byte; loads cannot tell them apart. *)
Definition mem_eq (m1 m2 : mem) : Prop := forall a, byte_at m1 a = byte_at m2 a.
Infix "≡ₘ" := mem_eq (at level 70) : css_scope.
#[local] Open Scope css_scope.

#[export] Instance mem_eq_equivalence : Equivalence mem_eq.
Proof.
  split; [intros m a; reflexivity | intros m1 m2 H a; symmetry; apply H |].
  intros m1 m2 m3 H1 H2 a. etransitivity; [apply H1 | apply H2].
Qed.

#[export] Instance ld_proper n : Proper (mem_eq ==> eq ==> eq) (ld n).
Proof.
  intros m1 m2 Hm a _ <-. revert a.
  induction n as [| n IH]; intros a; cbn; [reflexivity |]. rewrite Hm, IH. reflexivity.
Qed.

Lemma byte_at_upd m a b x :
  byte_at (upd m a b) x = if x =? a then b mod 256 else byte_at m x.
Proof. unfold byte_at, upd. destruct (x =? a); reflexivity. Qed.

#[export] Instance upd_proper : Proper (mem_eq ==> eq ==> eq ==> mem_eq) upd.
Proof.
  intros m1 m2 Hm a _ <- b _ <- x. rewrite !byte_at_upd. destruct (x =? a); auto.
Qed.

#[export] Instance st_proper n : Proper (mem_eq ==> eq ==> eq ==> mem_eq) (st n).
Proof.
  intros m1 m2 Hm a _ <- v _ <-. revert m1 m2 Hm a v.
  induction n as [| n IH]; intros m1 m2 Hm a v; cbn; [exact Hm |].
  apply IH. rewrite Hm. reflexivity.
Qed.

(** ** Loads and stores *)

Lemma ld_range n m a : 0 <= ld n m a < 256 ^ Z.of_nat n.
Proof.
  revert a. induction n as [| n IH]; intros a; [cbn; lia |].
  rewrite Nat2Z.inj_succ, Z.pow_succ_r by lia. cbn [ld].
  pose proof (Z.mod_pos_bound (m a) 256 ltac:(lia)). specialize (IH (a + 1)).
  unfold byte_at. lia.
Qed.

Lemma st_out n m a v x :
  x < a \/ a + Z.of_nat n <= x -> st n m a v x = m x.
Proof.
  revert m a v. induction n as [| n IH]; intros m a v Hx; [reflexivity |].
  cbn [st]. rewrite IH by lia. unfold upd.
  destruct (Z.eqb_spec x a); [lia | reflexivity].
Qed.

Lemma byte_at_st_out n m a v x :
  x < a \/ a + Z.of_nat n <= x -> byte_at (st n m a v) x = byte_at m x.
Proof. intros Hx. unfold byte_at. rewrite st_out by exact Hx. reflexivity. Qed.

Lemma ld_ext n m1 m2 a :
  (forall x, a <= x < a + Z.of_nat n -> byte_at m1 x = byte_at m2 x) ->
  ld n m1 a = ld n m2 a.
Proof.
  revert a. induction n as [| n IH]; intros a H; [reflexivity |].
  cbn [ld]. rewrite (H a) by lia. rewrite IH; [reflexivity |].
  intros x Hx. apply H. lia.
Qed.

Lemma ld_st_disj k n m a b v :
  b + Z.of_nat k <= a \/ a + Z.of_nat n <= b -> ld k (st n m a v) b = ld k m b.
Proof. intros H. apply ld_ext. intros x Hx. apply byte_at_st_out. lia. Qed.

Lemma ld_st_same n m a v : ld n (st n m a v) a = v mod 256 ^ Z.of_nat n.
Proof.
  revert m a v. induction n as [| n IH]; intros m a v.
  - cbn. symmetry. apply Z.mod_1_r.
  - cbn [ld st]. rewrite byte_at_st_out by lia. rewrite byte_at_upd, Z.eqb_refl, IH.
    rewrite Z.mod_mod by lia.
    rewrite Nat2Z.inj_succ, Z.pow_succ_r by lia.
    rewrite Z.rem_mul_r by lia. reflexivity.
Qed.

(** Reading the head of a stored value: a narrower load at the same address. *)
Lemma ld_st_low k n m a v :
  (k <= n)%nat -> ld k (st n m a v) a = v mod 256 ^ Z.of_nat k.
Proof.
  revert n m a v. induction k as [| k IH]; intros n m a v Hk.
  - cbn. symmetry. apply Z.mod_1_r.
  - destruct n as [| n]; [lia |]. cbn [ld st].
    rewrite byte_at_st_out by lia. rewrite byte_at_upd, Z.eqb_refl, IH by lia.
    rewrite Z.mod_mod by lia.
    rewrite Nat2Z.inj_succ, Z.pow_succ_r by lia.
    rewrite Z.rem_mul_r by lia. reflexivity.
Qed.

(** ** Frames: memories that agree outside [lo, hi) *)

Definition same_outside (lo hi : Z) (m m' : mem) : Prop :=
  forall a, a < lo \/ hi <= a -> m' a = m a.

Lemma same_outside_refl lo hi m : same_outside lo hi m m.
Proof. intros a _. reflexivity. Qed.

Lemma same_outside_trans lo hi m1 m2 m3 :
  same_outside lo hi m1 m2 -> same_outside lo hi m2 m3 -> same_outside lo hi m1 m3.
Proof. intros H1 H2 a Ha. rewrite H2, H1 by exact Ha. reflexivity. Qed.

Lemma same_outside_weaken lo hi lo' hi' m m' :
  lo' <= lo -> hi <= hi' -> same_outside lo hi m m' -> same_outside lo' hi' m m'.
Proof. intros H1 H2 H a Ha. apply H. lia. Qed.

Lemma st_same_outside lo hi n m a v :
  lo <= a -> a + Z.of_nat n <= hi -> same_outside lo hi m (st n m a v).
Proof. intros H1 H2 x Hx. apply st_out. lia. Qed.

Lemma ld_same_outside lo hi m m' n a :
  same_outside lo hi m m' -> a + Z.of_nat n <= lo \/ hi <= a -> ld n m' a = ld n m a.
Proof. intros H Ha. apply ld_ext. intros x Hx. unfold byte_at. rewrite H by lia. reflexivity. Qed.

(** ** Footprints: memories that agree outside a set of bytes *)

Definition same_except (W : Z -> bool) (m m' : mem) : Prop := forall a, W a = false -> m' a = m a.

Lemma same_except_refl W m : same_except W m m.
Proof. intros a _. reflexivity. Qed.

Lemma same_except_trans W m1 m2 m3 :
  same_except W m1 m2 -> same_except W m2 m3 -> same_except W m1 m3.
Proof. intros H1 H2 a Ha. rewrite H2, H1 by exact Ha. reflexivity. Qed.

Lemma same_except_weaken (W W' : Z -> bool) m1 m2 :
  (forall a, W a = true -> W' a = true) -> same_except W m1 m2 -> same_except W' m1 m2.
Proof.
  intros H S a Ha. apply S. destruct (W a) eqn:E; [| reflexivity]. rewrite (H a E) in Ha. discriminate.
Qed.

Lemma same_outside_except W lo hi m m' :
  (forall a, lo <= a < hi -> W a = true) -> same_outside lo hi m m' -> same_except W m m'.
Proof.
  intros HW S a Ha. apply S. destruct (Z.lt_ge_cases a lo); [lia |].
  destruct (Z.lt_ge_cases a hi); [rewrite HW in Ha by lia; discriminate | lia].
Qed.

(** What a reader sees of [m] is not touched by stores in [W]. *)
Definition unaffected {A} (W : Z -> bool) (m : mem) (f : mem -> A) : Prop :=
  forall m', same_except W m m' -> f m' = f m.

(** A memory that agrees with [m] outside [W] is [m] with other contents
    there; on concrete inputs a reader can be run on the latter. *)
Definition splice (W : Z -> bool) (inner m : mem) : mem := fun a => if W a then inner a else m a.

Lemma same_except_splice W m m' : same_except W m m' -> m' = splice W m' m.
Proof.
  intros H. apply functional_extensionality. intros a. unfold splice.
  destruct (W a) eqn:E; [reflexivity | apply H, E].
Qed.

Lemma unaffected_splice {A} W m (f : mem -> A) :
  (forall inner, f (splice W inner m) = f m) -> unaffected W m f.
Proof. intros H m' S. rewrite (same_except_splice W m m' S). apply H. Qed.

(** ** Struct fields *)

Record field := Fld { f_off : Z; f_len : nat; f_signed : bool }.

Definition U8 (o : Z) : field := Fld o 1 false.
Definition U16 (o : Z) : field := Fld o 2 false.
Definition U32 (o : Z) : field := Fld o 4 false.
Definition U64 (o : Z) : field := Fld o 8 false.
Definition S16 (o : Z) : field := Fld o 2 true.
Definition S32 (o : Z) : field := Fld o 4 true.

(** Element [i] of an array field. *)
Definition elt (f : field) (i : Z) : field :=
  Fld (f_off f + i * Z.of_nat (f_len f)) (f_len f) (f_signed f).

Definition f_bits (f : field) : Z := 8 * Z.of_nat (f_len f).

Definition rd (m : mem) (p : Z) (f : field) : Z :=
  let x := ld (f_len f) m (p + f_off f) in
  if f_signed f then signed (f_bits f) x else x.

Definition wr (m : mem) (p : Z) (f : field) (v : Z) : mem :=
  st (f_len f) m (p + f_off f) v.

(** The value a field holds after storing [v] into it. *)
Definition f_conv (f : field) (v : Z) : Z :=
  if f_signed f then signed (f_bits f) v else v mod 2 ^ f_bits f.

Definition f_disj (f g : field) : bool :=
  (f_off f + Z.of_nat (f_len f) <=? f_off g) || (f_off g + Z.of_nat (f_len g) <=? f_off f).

Lemma pow256 n : 256 ^ Z.of_nat n = 2 ^ (8 * Z.of_nat n).
Proof. change 256 with (2 ^ 8). rewrite <- Z.pow_mul_r by lia. reflexivity. Qed.

Lemma rd_wr_same m p f v : rd (wr m p f v) p f = f_conv f v.
Proof.
  unfold rd, wr, f_conv. rewrite ld_st_same, pow256.
  change (8 * Z.of_nat (f_len f)) with (f_bits f).
  destruct (f_signed f); [apply signed_mod | reflexivity].
Qed.

Lemma rd_wr_field m p f g v : f_disj g f = true -> rd (wr m p g v) p f = rd m p f.
Proof.
  intros H. unfold rd, wr. rewrite ld_st_disj; [reflexivity |].
  unfold f_disj in H. apply orb_true_iff in H. rewrite !Z.leb_le in H. lia.
Qed.

(** Accesses through different base pointers whose bytes do not overlap. *)
Lemma rd_wr_base m p q f g v :
  q + f_off f + Z.of_nat (f_len f) <= p + f_off g \/
  p + f_off g + Z.of_nat (f_len g) <= q + f_off f ->
  rd (wr m p g v) q f = rd m q f.
Proof. intros H. unfold rd, wr. rewrite ld_st_disj; [reflexivity | lia]. Qed.

Lemma rd_same_outside lo hi m m' p f :
  same_outside lo hi m m' ->
  p + f_off f + Z.of_nat (f_len f) <= lo \/ hi <= p + f_off f ->
  rd m' p f = rd m p f.
Proof.
  intros H Hp. unfold rd. rewrite (ld_same_outside lo hi m m'); [reflexivity | exact H | lia].
Qed.

Lemma rd_same_except W m m' p f :
  same_except W m m' -> (forall a, p + f_off f <= a < p + f_off f + Z.of_nat (f_len f) -> W a = false) ->
  rd m' p f = rd m p f.
Proof.
  intros H HW. unfold rd. rewrite (ld_ext _ m' m); [reflexivity |].
  intros a Ha. unfold byte_at. rewrite H by (apply HW; lia). reflexivity.
Qed.

Lemma rd_zero m p f :
  f_signed f = false -> (forall a, p + f_off f <= a < p + f_off f + Z.of_nat (f_len f) -> m a = 0) ->
  rd m p f = 0.
Proof.
  intros Hs. unfold rd. rewrite Hs. generalize (p + f_off f). induction (f_len f) as [| n IH]; intros a Ha.
  - reflexivity.
  - cbn [ld]. unfold byte_at. rewrite IH by (intros b Hb; apply Ha; lia). rewrite Ha by lia. reflexivity.
Qed.

Lemma wr_same_outside lo hi m p f v :
  lo <= p + f_off f -> p + f_off f + Z.of_nat (f_len f) <= hi ->
  same_outside lo hi m (wr m p f v).
Proof. intros H1 H2. apply st_same_outside; lia. Qed.

#[export] Instance rd_proper : Proper (mem_eq ==> eq ==> eq ==> eq) rd.
Proof.
  intros m1 m2 Hm p _ <- f _ <-. unfold rd. cbv zeta.
  rewrite (ld_proper (f_len f) _ _ Hm _ _ eq_refl). reflexivity.
Qed.

#[export] Instance wr_proper : Proper (mem_eq ==> eq ==> eq ==> eq ==> mem_eq) wr.
Proof. intros m1 m2 Hm p _ <- f _ <- v _ <-. unfold wr. rewrite Hm. reflexivity. Qed.

Lemma rd_range m p f :
  f_signed f = false -> 0 <= rd m p f < 2 ^ f_bits f.
Proof.
  intros H. unfold rd, f_bits. rewrite H, <- pow256. apply ld_range.
Qed.

Lemma f_conv_small f v :
  f_signed f = false -> 0 <= v < 2 ^ f_bits f -> f_conv f v = v.
Proof. intros H Hv. unfold f_conv. rewrite H. apply Z.mod_small, Hv. Qed.

Lemma f_conv_signed_small f v :
  f_signed f = true -> (0 < f_len f)%nat ->
  - 2 ^ (f_bits f - 1) <= v < 2 ^ (f_bits f - 1) -> f_conv f v = v.
Proof.
  intros H Hl Hv. unfold f_conv. rewrite H. apply signed_small; [unfold f_bits; lia | exact Hv].
Qed.

(** A list of fields tiles a struct of [n] bytes: consecutive, without gaps. *)
Fixpoint tiles_from (o : Z) (l : list (field * Z)) (n : Z) : bool :=
  match l with
  | [] => o =? n
  | (f, k) :: l' => (f_off f =? o) && tiles_from (o + k * Z.of_nat (f_len f)) l' n
  end.
Definition tiles := tiles_from 0.

(** State-passing forms. *)
Definition rdM (p : Z) (f : field) : M mem Z := gets (fun m => rd m p f).
Definition wrM (p : Z) (f : field) (v : Z) : M mem unit := modify (fun m => wr m p f v).

Ltac mrun ::=
  cbv beta iota zeta delta [bind ret exit verifexit gets modify call with_retval rdM wrM].
Ltac mrun_in H ::=
  cbv beta iota zeta delta [bind ret exit verifexit gets modify call with_retval rdM wrM] in H.

Create HintDb mem.
Create Rewrite HintDb mem.
#[export] Hint Rewrite rd_wr_same : mem.
#[export] Hint Rewrite rd_wr_field using reflexivity : mem.

(** Reads back what was stored, through any number of stores to the same
    object. *)
Ltac mem_simp := autorewrite with mem.

#[export] Hint Resolve same_outside_refl : mem.

(** Field names and struct sizes, unfolded by the tactics below. *)
Create HintDb layout.

(** Bounds of accesses: linear arithmetic on the base pointers once the
    offsets are numbers. *)
Ltac layout_simp :=
  autounfold with layout in *;
  cbn [f_off f_len f_signed f_bits elt U8 U16 U32 U64 S16 S32] in *.
Ltac mem_out := layout_simp; lia.

(** Reads a field after stores to the same object or elsewhere. *)
Ltac mem_read :=
  autounfold with layout;
  repeat first [ rewrite rd_wr_same
               | rewrite rd_wr_field by reflexivity
               | rewrite rd_wr_base by mem_out ].

(** A chain of stores stays inside the frame. *)
Ltac frame_chain :=
  repeat first [ apply same_outside_refl
               | eapply same_outside_trans; [| apply wr_same_outside; mem_out] ].

Lemma f_conv_U8 o v : 0 <= v < 2 ^ 8 -> f_conv (U8 o) v = v.
Proof. exact (f_conv_small (U8 o) v eq_refl). Qed.
Lemma f_conv_U16 o v : 0 <= v < 2 ^ 16 -> f_conv (U16 o) v = v.
Proof. exact (f_conv_small (U16 o) v eq_refl). Qed.
Lemma f_conv_U32 o v : 0 <= v < 2 ^ 32 -> f_conv (U32 o) v = v.
Proof. exact (f_conv_small (U32 o) v eq_refl). Qed.
Lemma f_conv_S16 o v : - 2 ^ 15 <= v < 2 ^ 15 -> f_conv (S16 o) v = v.
Proof. exact (f_conv_signed_small (S16 o) v eq_refl ltac:(cbn; lia)). Qed.
Lemma f_conv_S32 o v : - 2 ^ 31 <= v < 2 ^ 31 -> f_conv (S32 o) v = v.
Proof. exact (f_conv_signed_small (S32 o) v eq_refl ltac:(cbn; lia)). Qed.

Lemma f_conv_u8 o v : f_conv (U8 o) v = u8 v.
Proof. reflexivity. Qed.
(** A pointer difference cast to [uint16_t] and stored as [int16_t]. *)
Lemma f_conv_S16_u16 o v : - 2 ^ 15 <= v < 2 ^ 15 -> f_conv (S16 o) (u16 v) = v.
Proof.
  intros H. unfold f_conv. cbn [f_signed S16]. change (f_bits (S16 o)) with 16.
  unfold u16. rewrite signed_mod. apply signed_small; [lia | exact H].
Qed.

Lemma f_conv_u16 o v : f_conv (U16 o) v = u16 v.
Proof. reflexivity. Qed.
Lemma f_conv_u32 o v : f_conv (U32 o) v = u32 v.
Proof. reflexivity. Qed.
Lemma u8_small v : 0 <= v < 256 -> u8 v = v.
Proof. apply Z.mod_small. Qed.
Lemma u16_small v : 0 <= v < 65536 -> u16 v = v.
Proof. apply Z.mod_small. Qed.
Lemma u32_small v : 0 <= v < 2 ^ 32 -> u32 v = v.
Proof. apply Z.mod_small. Qed.

Lemma u64_small v : 0 <= v < 2 ^ 64 -> u64 v = v.
Proof. apply Z.mod_small. Qed.

Lemma rd_U8_range m p o : 0 <= rd m p (U8 o) < 2 ^ 8.
Proof. apply (rd_range m p (U8 o)). reflexivity. Qed.
Lemma rd_U16_range m p o : 0 <= rd m p (U16 o) < 2 ^ 16.
Proof. apply (rd_range m p (U16 o)). reflexivity. Qed.
Lemma rd_U32_range m p o : 0 <= rd m p (U32 o) < 2 ^ 32.
Proof. apply (rd_range m p (U32 o)). reflexivity. Qed.

Lemma not_null p : 0 < p -> is_null p = false.
Proof. intros H. apply Z.eqb_neq. unfold NULL. lia. Qed.

Lemma u32_add x y : u32 (u32 x + u32 y) = u32 (x + y).
Proof. symmetry. apply Z.add_mod. lia. Qed.

(** Reads through stores, and through steps known by their frame only. *)
Ltac rd_back :=
  repeat first
    [ progress mem_read
    | match goal with
      | S : same_outside ?lo ?hi ?m0 ?m1 |- context [rd ?m1 ?p ?f] =>
          rewrite (rd_same_outside lo hi m0 m1 p f S) by mem_out
      end ].

Ltac frame_back :=
  repeat first
    [ apply same_outside_refl
    | eapply same_outside_trans; [| apply wr_same_outside; mem_out]
    | match goal with
      | S : same_outside _ _ ?m0 ?m1 |- same_outside _ _ _ ?m1 =>
          eapply same_outside_trans; [| eapply same_outside_weaken; [| | exact S]; mem_out]
      end ].
