(* ===== verification/Errors.v ===== *)
(** * Status codes

    src/iutils/Errors.h, shared by the C++ of the HAL. *)

From S2P Require Import Prelude.
#[local] Open Scope Z_scope.

Definition OK : Z := 0.
Definition UNKNOWN_ERROR : Z := - 2147483647 - 1.
Definition NO_MEMORY : Z := -12.
Definition INVALID_OPERATION : Z := -38.
Definition BAD_VALUE : Z := -22.
Definition NAME_NOT_FOUND : Z := -2.
Definition NO_INIT : Z := -19.
Definition TIMED_OUT : Z := -110.
