(* ===== verification/OrderedMap.v ===== *)
(** * Ordered maps

    [std::map] with integer keys as the HAL's C++ uses it: a [gmap], iterators
    are keys ([None] is [end()]), and the order of the keys is that of the
    integers. *)

From S2P Require Import Prelude.
From stdpp Require Import gmap.
#[local] Open Scope Z_scope.

(** ** Operations *)

Definition lesser (b : option Z) (k : Z) : option Z :=
  match b with None => Some k | Some b => Some (Z.min b k) end.
Definition greater (b : option Z) (k : Z) : option Z :=
  match b with None => Some k | Some b => Some (Z.max b k) end.

Definition least (l : list Z) : option Z := foldl lesser None l.
Definition greatest (l : list Z) : option Z := foldl greater None l.

Section OrderedMap.
Context {A : Type}.
Implicit Types m : gmap Z A.

Definition keys m : list Z := map fst (map_to_list m).

Definition begin m : option Z := least (keys m).
Definition rbegin m : option Z := greatest (keys m).

(** The first key beyond [k]. *)
Definition upper_bound m (k : Z) : option Z := least (List.filter (fun k' => k <? k') (keys m)).

(** [--it]. *)
Definition prev m (it : option Z) : option Z :=
  match it with
  | None => rbegin m
  | Some k => greatest (List.filter (fun k' => k' <? k) (keys m))
  end.
End OrderedMap.

(** ** Their specifications *)

Lemma least_from l b :
  match foldl lesser b l with
  | None => b = None /\ l = []
  | Some k => (b = Some k \/ k ∈ l) /\ (forall k', b = Some k' \/ k' ∈ l -> k <= k')
  end.
Proof.
  revert b. induction l as [| x l IH]; intros b; cbn [foldl].
  - destruct b as [b |]; [| auto]. split; [auto |].
    intros k' [[= ->] | Hx]; [lia | apply not_elem_of_nil in Hx as []].
  - specialize (IH (lesser b x)). destruct (foldl lesser (lesser b x) l) as [k |].
    + destruct IH as [H1 H2]. split.
      * destruct H1 as [H1 | H1]; [| right; set_solver].
        destruct b as [b |]; cbn [lesser] in H1; injection H1 as H1.
        -- destruct (Z.min_spec b x) as [[_ E] | [_ E]]; [left; congruence | right; set_solver].
        -- right. set_solver.
      * intros k' [-> | Hx].
        -- etrans; [apply (H2 (Z.min k' x)); left; reflexivity | lia].
        -- apply elem_of_cons in Hx as [-> | Hx]; [| apply H2; right; exact Hx].
           destruct b as [b |]; cbn [lesser] in H2.
           ++ etrans; [apply (H2 (Z.min b x)); left; reflexivity | lia].
           ++ apply H2. left. reflexivity.
    + destruct IH as [IH _]. destruct b; discriminate IH.
Qed.

Lemma least_spec l k : least l = Some k <-> k ∈ l /\ forall k', k' ∈ l -> k <= k'.
Proof.
  pose proof (least_from l None) as H. unfold least. destruct (foldl lesser None l) as [k0 |].
  - destruct H as [[[=] | H1] H2]. split.
    + intros [= ->]. split; [exact H1 |]. intros k' Hk. apply H2. auto.
    + intros [G1 G2]. f_equal. pose proof (H2 k (or_intror G1)). pose proof (G2 k0 H1). lia.
  - destruct H as [_ ->]. split; [discriminate |]. intros [Hx _]. apply not_elem_of_nil in Hx as [].
Qed.

Lemma least_none l : least l = None <-> l = [].
Proof.
  pose proof (least_from l None) as H. unfold least. destruct (foldl lesser None l) as [k0 |].
  - destruct H as [[[=] | H1] _]. split; [discriminate |]. intros ->. apply not_elem_of_nil in H1 as [].
  - destruct H as [_ ->]. split; reflexivity.
Qed.

(** Greatest is least of the opposites. *)
Lemma greatest_opp l b :
  foldl greater b l = Z.opp <$> foldl lesser (Z.opp <$> b) (map Z.opp l).
Proof.
  revert b. induction l as [| x l IH]; intros b; cbn [foldl map].
  - destruct b; cbn; [rewrite Z.opp_involutive |]; reflexivity.
  - rewrite IH. f_equal. f_equal. destruct b as [b |]; cbn; [rewrite Z.opp_max_distr |]; reflexivity.
Qed.

Lemma greatest_spec l k : greatest l = Some k <-> k ∈ l /\ forall k', k' ∈ l -> k' <= k.
Proof.
  unfold greatest. rewrite greatest_opp. cbn [fmap option_fmap option_map].
  change (foldl lesser None (map Z.opp l)) with (least (map Z.opp l)).
  assert (forall x, - x ∈ map Z.opp l <-> x ∈ l) as E.
  { intros x. rewrite !list_elem_of_In, in_map_iff. split.
    - intros (y & Hy & Hi). assert (y = x) as <- by lia. exact Hi.
    - intros Hi. exists x. auto. }
  rewrite fmap_Some. split.
  - intros (y & Hy & ->). apply least_spec in Hy as [H1 H2].
    rewrite <- (Z.opp_involutive y), E in H1. split; [exact H1 |].
    intros k' Hk. apply E in Hk. specialize (H2 _ Hk). lia.
  - intros [H1 H2]. exists (- k). split; [| lia]. apply least_spec. split; [apply E, H1 |].
    intros k' Hk. rewrite <- (Z.opp_involutive k'), E in Hk. specialize (H2 _ Hk). lia.
Qed.

Lemma greatest_none l : greatest l = None <-> l = [].
Proof.
  unfold greatest. rewrite greatest_opp. cbn [fmap option_fmap option_map].
  change (foldl lesser None (map Z.opp l)) with (least (map Z.opp l)).
  rewrite fmap_None, least_none. destruct l; [split; reflexivity |]. split; discriminate.
Qed.

Section OrderedMapSpec.
Context {A : Type}.
Implicit Types m : gmap Z A.

Lemma keys_spec m k : k ∈ keys m <-> is_Some (m !! k).
Proof.
  unfold keys. rewrite list_elem_of_In, in_map_iff. split.
  - intros ([k' x] & <- & Hi). apply list_elem_of_In, elem_of_map_to_list in Hi. eauto.
  - intros [x Hx]. exists (k, x). split; [reflexivity |]. apply list_elem_of_In, elem_of_map_to_list, Hx.
Qed.

Lemma filter_keys_spec m (f : Z -> bool) k :
  k ∈ List.filter f (keys m) <-> is_Some (m !! k) /\ f k = true.
Proof. rewrite list_elem_of_In, filter_In, <- list_elem_of_In, keys_spec. reflexivity. Qed.

Lemma begin_spec m k :
  begin m = Some k <-> is_Some (m !! k) /\ forall k', is_Some (m !! k') -> k <= k'.
Proof. unfold begin. rewrite least_spec. setoid_rewrite keys_spec. reflexivity. Qed.

Lemma rbegin_spec m k :
  rbegin m = Some k <-> is_Some (m !! k) /\ forall k', is_Some (m !! k') -> k' <= k.
Proof. unfold rbegin. rewrite greatest_spec. setoid_rewrite keys_spec. reflexivity. Qed.

Lemma keys_nil m : keys m = [] <-> m = ∅.
Proof.
  unfold keys. split; [| intros ->; rewrite map_to_list_empty; reflexivity].
  intros E. apply map_to_list_empty_iff. destruct (map_to_list m); [reflexivity | discriminate E].
Qed.

Lemma begin_none m : begin m = None <-> m = ∅.
Proof. unfold begin. rewrite least_none. apply keys_nil. Qed.
Lemma rbegin_none m : rbegin m = None <-> m = ∅.
Proof. unfold rbegin. rewrite greatest_none. apply keys_nil. Qed.

Definition nearest m (k : Z) (o : option Z) : Prop :=
  match o with
  | Some k0 => is_Some (m !! k0) /\ k0 <= k /\ forall k', is_Some (m !! k') -> k' <= k -> k' <= k0
  | None => forall k', is_Some (m !! k') -> k < k'
  end.

Lemma upper_bound_spec m k it :
  upper_bound m k = it ->
  match it with
  | Some k1 => is_Some (m !! k1) /\ k < k1 /\ forall k', is_Some (m !! k') -> k < k' -> k1 <= k'
  | None => forall k', is_Some (m !! k') -> k' <= k
  end.
Proof.
  unfold upper_bound. intros E. destruct it as [k1 |].
  - apply least_spec in E as [H1 H2]. apply filter_keys_spec in H1 as [H1 H3]. apply Z.ltb_lt in H3.
    split; [exact H1 |]. split; [exact H3 |]. intros k' Hk Hl. apply H2, filter_keys_spec.
    split; [exact Hk | apply Z.ltb_lt, Hl].
  - apply least_none in E. intros k' Hk. destruct (Z.ltb_spec k k') as [Hl | Hl]; [| exact Hl].
    assert (k' ∈ List.filter (fun k' => k <? k') (keys m)) as Hx
      by (apply filter_keys_spec; split; [exact Hk | apply Z.ltb_lt, Hl]).
    rewrite E in Hx. apply not_elem_of_nil in Hx as [].
Qed.

(** The key before the first one beyond [k] is the last one up to [k]. *)
Lemma upper_bound_begin m k :
  m <> ∅ -> upper_bound m k = begin m -> nearest m k None.
Proof.
  intros Hm E k' Hk. destruct (begin m) as [b |] eqn:Eb; [| exfalso; apply Hm, begin_none, Eb].
  apply upper_bound_spec in E as (_ & E & _). apply begin_spec in Eb as [_ Eb]. specialize (Eb k' Hk). lia.
Qed.

Lemma prev_upper_bound m k :
  m <> ∅ -> upper_bound m k <> begin m ->
  exists k0, prev m (upper_bound m k) = Some k0 /\ nearest m k (Some k0).
Proof.
  intros Hm Hne. pose proof (upper_bound_spec m k _ eq_refl) as U.
  destruct (upper_bound m k) as [k1 |] eqn:E; cbn [prev].
  - destruct U as (U1 & U2 & U3). destruct (greatest _) as [k0 |] eqn:G.
    + apply greatest_spec in G as [G1 G2]. apply filter_keys_spec in G1 as [G1 G3]. apply Z.ltb_lt in G3.
      exists k0. split; [reflexivity |]. split; [exact G1 |]. split.
      * destruct (Z.le_gt_cases k0 k) as [H | H]; [exact H |]. specialize (U3 k0 G1 ltac:(lia)). lia.
      * intros k' Hk Hl. apply G2, filter_keys_spec. split; [exact Hk |]. apply Z.ltb_lt. lia.
    + apply greatest_none in G. exfalso. apply Hne. symmetry. apply begin_spec. split; [exact U1 |].
      intros k' Hk. destruct (Z.le_gt_cases k1 k') as [H | H]; [exact H |].
      assert (k' ∈ List.filter (fun k' => k' <? k1) (keys m)) as Hx
        by (apply filter_keys_spec; split; [exact Hk | apply Z.ltb_lt, H]).
      rewrite G in Hx. apply not_elem_of_nil in Hx as [].
  - destruct (rbegin m) as [k0 |] eqn:G; [| exfalso; apply Hm, rbegin_none, G].
    apply rbegin_spec in G as [G1 G2]. exists k0. split; [reflexivity |]. split; [exact G1 |].
    split; [apply U, G1 |]. intros k' Hk _. apply G2, Hk.
Qed.
End OrderedMapSpec.

(** ** Sizes *)

Lemma size_insert_le {A} (k : Z) (x : A) (m : gmap Z A) :
  (size (<[k := x]> m) <= S (size m))%nat.
Proof. rewrite map_size_insert. destruct (m !! k); [change (id ?n) with n |]; lia. Qed.

Lemma size_delete_le {A} (k : Z) (m : gmap Z A) : (size (delete k m) <= size m)%nat.
Proof. rewrite map_size_delete. destruct (m !! k); [lia|reflexivity]. Qed.
