(* ===== verification/ResourceModel.v ===== *)
(** * Resource model of the PSYS system

    The numbers of cells, memories, channels and DFM ports that the IPU
    generation fixes (include/vied_nci_psys_resource_model.h), the lookup
    tables that are linked in from outside this repository, and the bitmap
    operations of include/psys_system_global_impl.h (compiled by
    src/vied_nci_psys_system.c). *)

From S2P Require Import Prelude.

(** ** IPU generations *)

Class Platform := {
  VIED_NCI_N_CELL_ID : Z;
  VIED_NCI_N_CELL_TYPE_ID : Z;
  VIED_NCI_N_MEM_ID : Z;
  VIED_NCI_N_MEM_TYPE_ID : Z;
  VIED_NCI_N_DATA_MEM_TYPE_ID : Z;
  VIED_NCI_N_DEV_CHN_ID : Z;
  VIED_NCI_N_DEV_DFM_ID : Z;
  vied_nci_mem_is_ext_type : Z -> bool
}.

(** [ipu6/include/vied_nci_psys_resource_model.h]: 32 cells; the external
    memory types are TRANSFER_VMEM0 (0), TRANSFER_VMEM1 (1) and LB_VMEM (2). *)
Definition ipu6 : Platform := {|
  VIED_NCI_N_CELL_ID := 32;
  VIED_NCI_N_CELL_TYPE_ID := 8;
  VIED_NCI_N_MEM_ID := 10;
  VIED_NCI_N_MEM_TYPE_ID := 7;
  VIED_NCI_N_DATA_MEM_TYPE_ID := 6;
  VIED_NCI_N_DEV_CHN_ID := 5;
  VIED_NCI_N_DEV_DFM_ID := 6;
  vied_nci_mem_is_ext_type := fun t => (t =? 0) || (t =? 1) || (t =? 2)
|}.

(** [ipu6ep/include/vied_nci_psys_resource_model.h]: three cells fewer. *)
Definition ipu6ep : Platform := {|
  VIED_NCI_N_CELL_ID := 29;
  VIED_NCI_N_CELL_TYPE_ID := 8;
  VIED_NCI_N_MEM_ID := 10;
  VIED_NCI_N_MEM_TYPE_ID := 7;
  VIED_NCI_N_DATA_MEM_TYPE_ID := 6;
  VIED_NCI_N_DEV_CHN_ID := 5;
  VIED_NCI_N_DEV_DFM_ID := 6;
  vied_nci_mem_is_ext_type := fun t => (t =? 0) || (t =? 1) || (t =? 2)
|}.

(** What the operations rely on whatever the generation: cells fit a resource
    bitmap and an 8-bit resource id, the indices fit the [*_MAX] arrays of
    [ia_css_process_ext_s] (include/vied_nci_psys_resource_model_common.h). *)
Class PlatformOk (P : Platform) : Prop := {
  cells_fit : 0 < VIED_NCI_N_CELL_ID <= 32;
  mem_ids_fit : 0 < VIED_NCI_N_MEM_ID <= 255;
  data_mem_types_fit : 0 < VIED_NCI_N_DATA_MEM_TYPE_ID <= 6;
  dev_chns_fit : 0 < VIED_NCI_N_DEV_CHN_ID <= 5;
  dev_dfms_fit : 0 < VIED_NCI_N_DEV_DFM_ID <= 6
}.

#[export] Instance ipu6_ok : PlatformOk ipu6.
Proof. split; cbn; lia. Qed.

#[export] Instance ipu6ep_ok : PlatformOk ipu6ep.
Proof. split; cbn; lia. Qed.

(** The tables declared [extern] in the resource model and defined outside
    this repository: parameters of the operations that read them. *)
Class ResourceTables := {
  vied_nci_cell_type : Z -> Z;
  vied_nci_mem_type : Z -> Z;
  vied_nci_cell_mem : Z -> Z -> Z;
  vied_nci_cell_mem_type : Z -> Z -> Z;
  vied_nci_ext_mem : Z -> Z;
  vied_nci_N_cell_mem : Z -> Z;
  vied_nci_mem_size : Z -> Z;
  vied_nci_dev_chn_size : Z -> Z
}.

Definition VIED_NCI_RESOURCE_BITMAP_BITS : Z := 32.

(** ** Resource bitmaps (uint32_t) *)

Definition vied_nci_bit_mask (index : Z) : Z :=
  if index <? VIED_NCI_RESOURCE_BITMAP_BITS then u32 (Z.shiftl 1 index) else 0.

Definition vied_nci_bitmap_set (bitmap bit_mask : Z) : Z := Z.lor bitmap bit_mask.

Definition vied_nci_bitmap_clear (bitmap bit_mask : Z) : Z :=
  Z.land bitmap (u32 (Z.lnot bit_mask)).

(** [sizeof(vied_nci_resource_bitmap_t)] is 4; the shift count is an unsigned
    [size_t] difference, so a [size] above 4 gives a count above 31, for which
    the C shift is undefined: [None]. *)
Definition vied_nci_bitfield_mask (position size : Z) : option Z :=
  if position <? VIED_NCI_RESOURCE_BITMAP_BITS then
    let count := u64 (4 - size) in
    if count <? 32 then Some (u32 (Z.shiftl (Z.shiftr (u32 (-1)) count) position))
    else None
  else Some 0.

Definition vied_nci_bitmap_set_bitfield (bitmap index size : Z) : option Z :=
  match vied_nci_bitfield_mask index size with
  | Some bit_mask => Some (vied_nci_bitmap_set bitmap bit_mask)
  | None => None
  end.

Definition vied_nci_bitmap_set_unique (bitmap bit_mask : Z) : Z :=
  if Z.land bitmap bit_mask =? 0 then Z.lor bitmap bit_mask else 0.

Definition vied_nci_bit_mask_set_unique (bitmap index : Z) : Z :=
  let bit_mask := vied_nci_bit_mask index in
  if (Z.land bitmap bit_mask =? 0) && negb (bit_mask =? 0)
  then Z.lor bitmap bit_mask else 0.

Definition vied_nci_is_bitmap_empty (bitmap : Z) : bool := bitmap =? 0.

Definition vied_nci_is_bitmap_clear (bitmap bit_mask : Z) : bool :=
  Z.land bitmap bit_mask =? 0.

Definition vied_nci_is_bitmap_set (bitmap bit_mask : Z) : bool :=
  negb (vied_nci_is_bitmap_clear bitmap bit_mask).

Definition vied_nci_is_bit_set_in_bitmap (bitmap index : Z) : bool :=
  vied_nci_is_bitmap_set bitmap (vied_nci_bit_mask index).

(** [for (i = 0; i < BITS && loc_bitmap != 0; i++)]; the recursion is on the
    iterations the bound leaves. *)
Fixpoint bitmap_weight_loop (fuel : nat) (loc_bitmap weight : Z) : Z :=
  match fuel with
  | O => weight
  | S n => if loc_bitmap =? 0 then weight
           else bitmap_weight_loop n (Z.shiftr loc_bitmap 1) (weight + Z.land loc_bitmap 1)
  end.
Definition vied_nci_bitmap_compute_weight (bitmap : Z) : Z :=
  bitmap_weight_loop (Z.to_nat VIED_NCI_RESOURCE_BITMAP_BITS) bitmap 0.

Definition vied_nci_bitmap_union (bitmap0 bitmap1 : Z) : Z := Z.lor bitmap0 bitmap1.
Definition vied_nci_bitmap_intersection (bitmap0 bitmap1 : Z) : Z := Z.land bitmap0 bitmap1.
Definition vied_nci_bitmap_xor (bitmap0 bitmap1 : Z) : Z := Z.lxor bitmap0 bitmap1.

Section Masks.
Context {P : Platform}.

Definition vied_nci_cell_bit_mask (cell_id : Z) : Z :=
  if cell_id <? VIED_NCI_N_CELL_ID then u32 (Z.shiftl 1 cell_id) else 0.

Definition vied_nci_barrier_bit_mask (barrier_id : Z) : Z :=
  if barrier_id + VIED_NCI_N_CELL_ID <? VIED_NCI_RESOURCE_BITMAP_BITS
  then u32 (Z.shiftl 1 (barrier_id + VIED_NCI_N_CELL_ID)) else 0.
End Masks.

(** ** Lookups in the linked tables *)

Section Tables.
Context {P : Platform} {T : ResourceTables}.

Definition vied_nci_cell_get_type (cell_id : Z) : Z :=
  if cell_id <? VIED_NCI_N_CELL_ID then vied_nci_cell_type cell_id
  else VIED_NCI_N_CELL_TYPE_ID.

Definition vied_nci_ext_mem_get_id_from_type (mem_type : Z) : Z :=
  if (mem_type <? VIED_NCI_N_MEM_ID) && vied_nci_mem_is_ext_type mem_type
  then vied_nci_ext_mem mem_type else VIED_NCI_N_MEM_ID.

Definition vied_nci_mem_get_type (mem_id : Z) : Z :=
  if mem_id <? VIED_NCI_N_MEM_ID then vied_nci_mem_type mem_id
  else VIED_NCI_N_MEM_TYPE_ID.

Definition vied_nci_mem_get_size (mem_id : Z) : Z :=
  if mem_id <? VIED_NCI_N_MEM_ID then vied_nci_mem_size mem_id else 0.

Definition vied_nci_dev_chn_get_size (dev_chn_id : Z) : Z :=
  if dev_chn_id <? VIED_NCI_N_DEV_CHN_ID then vied_nci_dev_chn_size dev_chn_id else 0.

Definition vied_nci_cell_get_mem_type (cell_id mem_index : Z) : Z :=
  if (cell_id <? VIED_NCI_N_CELL_ID) && (mem_index <? VIED_NCI_N_MEM_TYPE_ID)
  then vied_nci_cell_mem_type (vied_nci_cell_get_type cell_id) mem_index
  else VIED_NCI_N_MEM_TYPE_ID.

Definition vied_nci_cell_get_mem (cell_id mem_index : Z) : Z :=
  if (cell_id <? VIED_NCI_N_CELL_ID) && (mem_index <? VIED_NCI_N_MEM_TYPE_ID)
  then vied_nci_cell_mem cell_id mem_index else VIED_NCI_N_MEM_ID.

Definition vied_nci_is_cell_of_type (cell_id cell_type_id : Z) : bool :=
  (vied_nci_cell_get_type cell_id =? cell_type_id)
  && negb (cell_type_id =? VIED_NCI_N_CELL_TYPE_ID).

Definition vied_nci_is_mem_of_type (mem_id mem_type_id : Z) : bool :=
  (vied_nci_mem_get_type mem_id =? mem_type_id)
  && negb (mem_type_id =? VIED_NCI_N_MEM_TYPE_ID).

Definition vied_nci_is_cell_mem_of_type (cell_id mem_index mem_type_id : Z) : bool :=
  (vied_nci_cell_get_mem_type cell_id mem_index =? mem_type_id)
  && negb (mem_type_id =? VIED_NCI_N_MEM_TYPE_ID).

(** The loop breaks at the first match, and the function tests whether it
    broke. *)
Definition vied_nci_has_cell_mem_of_id (cell_id mem_id : Z) : bool :=
  existsb (fun mem_index => (vied_nci_cell_get_mem cell_id mem_index =? mem_id)
                            && negb (mem_id =? VIED_NCI_N_MEM_ID))
          (range 0 VIED_NCI_N_MEM_TYPE_ID).

Definition vied_nci_cell_get_mem_count (cell_id : Z) : Z :=
  let cell_type := vied_nci_cell_get_type cell_id in
  if cell_type <? VIED_NCI_N_CELL_TYPE_ID then vied_nci_N_cell_mem cell_type else 0.

Definition vied_nci_cell_type_get_mem_type (cell_type_id mem_index : Z) : Z :=
  if (cell_type_id <? VIED_NCI_N_CELL_TYPE_ID) && (mem_index <? VIED_NCI_N_MEM_TYPE_ID)
  then vied_nci_cell_mem_type cell_type_id mem_index else VIED_NCI_N_MEM_TYPE_ID.
End Tables.

(** ** Lemmas on 32-bit masks *)

Definition rb_wf (bitmap : Z) : Prop := 0 <= bitmap < 2 ^ 32.

Lemma shiftl1_small i : 0 <= i < 32 -> u32 (Z.shiftl 1 i) = 2 ^ i.
Proof.
  intros Hi. rewrite Z.shiftl_1_l. apply Z.mod_small.
  split; [lia | apply Z.pow_lt_mono_r; lia].
Qed.

Lemma pow2_wf i : 0 <= i < 32 -> rb_wf (2 ^ i).
Proof. intros Hi. split; [lia | apply Z.pow_lt_mono_r; lia]. Qed.

Lemma bit_mask_pow2 i : 0 <= i -> vied_nci_bit_mask i = if i <? 32 then 2 ^ i else 0.
Proof.
  intros Hi. unfold vied_nci_bit_mask, VIED_NCI_RESOURCE_BITMAP_BITS.
  destruct (Z.ltb_spec i 32); [apply shiftl1_small; lia | reflexivity].
Qed.

Lemma land_pow2 x i : 0 <= i -> Z.land x (2 ^ i) = if Z.testbit x i then 2 ^ i else 0.
Proof.
  intros Hi. apply Z.bits_inj'. intros j Hj. rewrite Z.land_spec, pow2_bit by lia.
  destruct (Z.eqb_spec i j) as [-> | Hne].
  - rewrite andb_true_r. destruct (Z.testbit x j) eqn:E; [|symmetry; apply Z.bits_0].
    rewrite pow2_bit by lia. symmetry. apply Z.eqb_refl.
  - rewrite andb_false_r. destruct (Z.testbit x i); [|symmetry; apply Z.bits_0].
    rewrite pow2_bit by lia. symmetry. apply Z.eqb_neq, Hne.
Qed.

Lemma pow2_ne0 i : 0 <= i -> (2 ^ i =? 0) = false.
Proof. intros Hi. apply Z.eqb_neq. pose proof (Z.pow_pos_nonneg 2 i). lia. Qed.

Lemma is_bitmap_set_bit x i :
  0 <= i -> vied_nci_is_bitmap_set x (2 ^ i) = Z.testbit x i.
Proof.
  intros Hi. unfold vied_nci_is_bitmap_set, vied_nci_is_bitmap_clear. rewrite land_pow2 by lia.
  destruct (Z.testbit x i); [rewrite pow2_ne0 by lia |]; reflexivity.
Qed.

Lemma is_bitmap_set_bit' x i :
  0 <= i -> vied_nci_is_bitmap_set (2 ^ i) x = Z.testbit x i.
Proof.
  intros Hi. rewrite <- is_bitmap_set_bit by lia.
  unfold vied_nci_is_bitmap_set, vied_nci_is_bitmap_clear. rewrite Z.land_comm. reflexivity.
Qed.

Lemma is_bitmap_clear_bit' x i :
  0 <= i -> vied_nci_is_bitmap_clear (2 ^ i) x = negb (Z.testbit x i).
Proof.
  intros Hi. rewrite <- (is_bitmap_set_bit' x i) by lia. unfold vied_nci_is_bitmap_set.
  symmetry. apply negb_involutive.
Qed.

Lemma is_bit_set_testbit x i :
  rb_wf x -> 0 <= i -> vied_nci_is_bit_set_in_bitmap x i = Z.testbit x i.
Proof.
  intros Hx Hi. unfold vied_nci_is_bit_set_in_bitmap. rewrite bit_mask_pow2 by lia.
  destruct (Z.ltb_spec i 32); [apply is_bitmap_set_bit; lia |].
  rewrite (testbit_high 32 x) by (unfold rb_wf in Hx; lia).
  unfold vied_nci_is_bitmap_set, vied_nci_is_bitmap_clear. rewrite Z.land_0_r. reflexivity.
Qed.

Lemma bitmap_set_wf a b : rb_wf a -> rb_wf b -> rb_wf (vied_nci_bitmap_set a b).
Proof. apply lor_below. lia. Qed.

Lemma bitmap_clear_wf a b : rb_wf a -> rb_wf (vied_nci_bitmap_clear a b).
Proof. intros Ha. apply land_below; [lia | exact Ha | apply Z.mod_pos_bound; lia]. Qed.

Lemma bitmap_set_bit a i j :
  0 <= i -> 0 <= j -> Z.testbit (vied_nci_bitmap_set a (2 ^ i)) j = Z.testbit a j || (i =? j).
Proof.
  intros Hi Hj. unfold vied_nci_bitmap_set. rewrite Z.lor_spec, pow2_bit by lia. reflexivity.
Qed.

Lemma bitmap_clear_bit a i j :
  rb_wf a -> 0 <= i -> 0 <= j ->
  Z.testbit (vied_nci_bitmap_clear a (2 ^ i)) j = Z.testbit a j && negb (i =? j).
Proof.
  intros Ha Hi Hj. unfold vied_nci_bitmap_clear. rewrite Z.land_spec. unfold u32.
  destruct (Z.lt_ge_cases j 32).
  - rewrite Z.mod_pow2_bits_low, Z.lnot_spec, pow2_bit by lia. reflexivity.
  - rewrite (testbit_high 32 a) by (unfold rb_wf in Ha; lia). reflexivity.
Qed.

(** Setting a clear bit and clearing it again. *)
Lemma bitmap_clear_set a i :
  rb_wf a -> 0 <= i < 32 -> Z.testbit a i = false ->
  vied_nci_bitmap_clear (vied_nci_bitmap_set a (2 ^ i)) (2 ^ i) = a.
Proof.
  intros Ha Hi E.
  assert (rb_wf (vied_nci_bitmap_set a (2 ^ i))) as Hs by (apply bitmap_set_wf; auto using pow2_wf).
  apply (bits_eq_below 32); [lia | apply bitmap_clear_wf, Hs | exact Ha |]. intros j Hj.
  rewrite bitmap_clear_bit, bitmap_set_bit by (auto; lia).
  destruct (Z.eqb_spec i j) as [<- |]; [rewrite E; reflexivity |].
  rewrite orb_false_r. apply andb_true_r.
Qed.

Lemma weight_loop_popcount32 n x w :
  0 <= x < 2 ^ Z.of_nat n -> bitmap_weight_loop n x w = w + popcount n x.
Proof.
  revert x w. induction n as [| n IH]; intros x w Hx; [cbn; lia |].
  cbn [bitmap_weight_loop popcount]. destruct (Z.eqb_spec x 0) as [-> | Hne].
  - change (Z.shiftr 0 1) with 0. rewrite popcount_0. cbn. lia.
  - rewrite IH, land_1_b2z; [lia |]. rewrite Z.shiftr_div_pow2 by lia.
    rewrite Nat2Z.inj_succ, Z.pow_succ_r in Hx by lia.
    split; [apply Z.div_pos | apply Z.div_lt_upper_bound]; lia.
Qed.

Lemma cell_bit_mask_pow2 {P : Platform} {Pok : PlatformOk P} c :
  0 <= c -> vied_nci_cell_bit_mask c = if c <? VIED_NCI_N_CELL_ID then 2 ^ c else 0.
Proof.
  intros Hc. unfold vied_nci_cell_bit_mask. pose proof cells_fit.
  destruct (Z.ltb_spec c VIED_NCI_N_CELL_ID); [apply shiftl1_small; lia | reflexivity].
Qed.

#[export] Hint Resolve pow2_wf bitmap_set_wf bitmap_clear_wf : bits.

(** ** Theorems *)

(** Resource bitmaps are sets of the ids 0..31: set, clear and test
    agree, clearing undoes setting a free bit, and the weight counts the
    members. *)
Theorem resource_bitmap_set_clear x i j :
  rb_wf x -> 0 <= i < 32 -> 0 <= j ->
  let mask := vied_nci_bit_mask i in
  vied_nci_is_bit_set_in_bitmap (vied_nci_bitmap_set x mask) j
    = vied_nci_is_bit_set_in_bitmap x j || (i =? j)
  /\ vied_nci_is_bit_set_in_bitmap (vied_nci_bitmap_clear x mask) j
    = vied_nci_is_bit_set_in_bitmap x j && negb (i =? j)
  /\ (vied_nci_is_bit_set_in_bitmap x i = false ->
      vied_nci_bitmap_clear (vied_nci_bitmap_set x mask) mask = x)
  /\ vied_nci_bit_mask_set_unique x i
     = (if vied_nci_is_bit_set_in_bitmap x i then 0 else vied_nci_bitmap_set x mask)
  /\ vied_nci_bitmap_compute_weight x = popcount 32 x.
Proof.
  intros Hx Hi Hj. cbv zeta. rewrite bit_mask_pow2 by lia.
  destruct (Z.ltb_spec i 32); [| lia].
  rewrite !is_bit_set_testbit by (auto with bits; lia).
  split; [apply bitmap_set_bit; lia |]. split; [apply bitmap_clear_bit; auto; lia |].
  split; [apply bitmap_clear_set; auto |].
  split; [| apply weight_loop_popcount32, Hx].
  unfold vied_nci_bit_mask_set_unique. rewrite bit_mask_pow2 by lia. cbv zeta.
  destruct (Z.ltb_spec i 32); [| lia]. rewrite land_pow2, pow2_ne0 by lia.
  destruct (Z.testbit x i); [rewrite pow2_ne0 by lia |]; reflexivity.
Qed.

Lemma resource_bitmap_set_clear_witness :
  vied_nci_bit_mask_set_unique 5 2 = 0 /\ vied_nci_bitmap_compute_weight 5 = 2.
Proof.
  destruct (resource_bitmap_set_clear 5 2 0) as (_ & _ & _ & U & W); unfold rb_wf; try lia.
  rewrite U, W. split; reflexivity.
Defined.

(** A barrier's resource bit never is a cell's; the IPU6 has 32 cells
    and so no barrier at all, while the IPU6EP, with 29, has exactly the
    barriers 0, 1 and 2. *)
Theorem barrier_masks :
  (forall P, PlatformOk P -> forall c b, 0 <= c -> 0 <= b ->
     Z.land (vied_nci_cell_bit_mask c) (vied_nci_barrier_bit_mask b) = 0)
  /\ (forall b, 0 <= b -> @vied_nci_barrier_bit_mask ipu6 b = 0)
  /\ (forall b, 0 <= b -> @vied_nci_barrier_bit_mask ipu6ep b = if b <? 3 then 2 ^ (b + 29) else 0).
Proof.
  split; [| split].
  - intros P Pok c b Hc Hb. pose proof cells_fit. rewrite cell_bit_mask_pow2 by lia.
    unfold vied_nci_barrier_bit_mask, VIED_NCI_RESOURCE_BITMAP_BITS.
    destruct (Z.ltb_spec c VIED_NCI_N_CELL_ID); [| reflexivity].
    destruct (Z.ltb_spec (b + VIED_NCI_N_CELL_ID) 32); [| apply Z.land_0_r].
    rewrite shiftl1_small, land_pow2, pow2_bit by lia.
    destruct (Z.eqb_spec c (b + VIED_NCI_N_CELL_ID)); [lia | reflexivity].
  - intros b Hb. unfold vied_nci_barrier_bit_mask. cbn [VIED_NCI_N_CELL_ID ipu6].
    unfold VIED_NCI_RESOURCE_BITMAP_BITS. destruct (Z.ltb_spec (b + 32) 32); [lia | reflexivity].
  - intros b Hb. unfold vied_nci_barrier_bit_mask. cbn [VIED_NCI_N_CELL_ID ipu6ep].
    unfold VIED_NCI_RESOURCE_BITMAP_BITS.
    destruct (Z.ltb_spec (b + 29) 32), (Z.ltb_spec b 3); try lia.
    apply shiftl1_small. lia.
Qed.

Lemma barrier_masks_witness :
  @vied_nci_barrier_bit_mask ipu6 0 = 0 /\ @vied_nci_barrier_bit_mask ipu6ep 2 = 2147483648.
Proof.
  destruct barrier_masks as (_ & H6 & H6ep). rewrite H6, H6ep by lia. split; reflexivity.
Defined.

(** The mask of a bit field is not [size] bits wide: for the sizes
    1..4 that the shift is defined for it is [28 + size] bits wide, and for
    any larger size the shift is undefined, because the width is taken as
    [sizeof] (4 bytes) of the bitmap. *)
Theorem bitfield_mask_width position size :
  0 <= position < 32 -> 0 <= size < 2 ^ 32 ->
  vied_nci_bitfield_mask position size
  = if size <=? 4 then Some (u32 (Z.shiftl (Z.ones (28 + size)) position)) else None.
Proof.
  intros Hp Hs. unfold vied_nci_bitfield_mask, VIED_NCI_RESOURCE_BITMAP_BITS, u64.
  destruct (Z.ltb_spec position 32); [| lia]. cbv zeta.
  destruct (Z.leb_spec size 4).
  - rewrite (Z.mod_small (4 - size)) by lia. destruct (Z.ltb_spec (4 - size) 32); [| lia].
    do 2 f_equal. change (u32 (-1)) with (Z.ones 32). f_equal.
    rewrite Z.shiftr_div_pow2, Z.ones_div_pow2 by lia. f_equal. lia.
  - assert (E : (4 - size) mod 2 ^ 64 = 2 ^ 64 + 4 - size).
    { symmetry. apply (Z.mod_unique _ _ (-1)); lia. }
    rewrite E. destruct (Z.ltb_spec (2 ^ 64 + 4 - size) 32); [lia | reflexivity].
Qed.

Lemma bitfield_mask_width_witness :
  vied_nci_bitfield_mask 0 4 = Some (2 ^ 32 - 1) /\ vied_nci_bitfield_mask 0 8 = None.
Proof.
  rewrite (bitfield_mask_width 0 4), (bitfield_mask_width 0 8) by lia. split; reflexivity.
Defined.
