(* ===== verification/KernelBitmap.v ===== *)
(** * Kernel bitmaps

    src/ia_css_kernel_bitmap.c and include/ia_css_kernel_bitmap_impl.h with
    the 128-bit [ia_css_kernel_bitmap_elems_t]: an array of four [uint32_t]
    (IA_CSS_KERNEL_BITMAP_DO_NOT_USE_ELEMS is not defined by the build).  The
    specification is the 128-bit number the array denotes, [kb_val]; every
    operation is shown to compute the number-level operation it promises. *)

From S2P Require Import Prelude Memory.

Abbreviation ia_css_kernel_bitmap_t := (list Z).

Definition IA_CSS_KERNEL_BITMAP_BITS : Z := 128.
Definition IA_CSS_KERNEL_BITMAP_ELEM_BITS : Z := 32.
Definition IA_CSS_KERNEL_BITMAP_NOF_ELEMS : nat := 4.

(** ** Operations *)

(** [for (i = 0; i < NOF_ELEMS; i++) bitmap.data[i] = f i]. *)
Definition elems_loop (f : nat -> Z) (bitmap : ia_css_kernel_bitmap_t) : ia_css_kernel_bitmap_t :=
  foldl (fun b i => <[i := f i]> b) bitmap (seq 0 IA_CSS_KERNEL_BITMAP_NOF_ELEMS).

Definition zero_elems : ia_css_kernel_bitmap_t :=
  replicate IA_CSS_KERNEL_BITMAP_NOF_ELEMS 0.

Definition ia_css_kernel_bitmap_clear : ia_css_kernel_bitmap_t :=
  elems_loop (fun _ => 0) zero_elems.

Definition ia_css_is_kernel_bitmap_empty (bitmap : ia_css_kernel_bitmap_t) : bool :=
  foldl (fun is_empty i => is_empty && (bitmap !!! i =? 0)) true
        (seq 0 IA_CSS_KERNEL_BITMAP_NOF_ELEMS).

Definition ia_css_is_kernel_bitmap_equal (bitmap0 bitmap1 : ia_css_kernel_bitmap_t) : bool :=
  foldl (fun is_equal i => is_equal && (bitmap0 !!! i =? bitmap1 !!! i)) true
        (seq 0 IA_CSS_KERNEL_BITMAP_NOF_ELEMS).

Definition ia_css_kernel_bitmap_complement (bitmap : ia_css_kernel_bitmap_t) : ia_css_kernel_bitmap_t :=
  elems_loop (fun i => u32 (Z.lnot (bitmap !!! i))) zero_elems.

Definition ia_css_kernel_bitmap_union (bitmap0 bitmap1 : ia_css_kernel_bitmap_t) : ia_css_kernel_bitmap_t :=
  elems_loop (fun i => Z.lor (bitmap0 !!! i) (bitmap1 !!! i)) zero_elems.

Definition ia_css_kernel_bitmap_intersection (bitmap0 bitmap1 : ia_css_kernel_bitmap_t) : ia_css_kernel_bitmap_t :=
  elems_loop (fun i => Z.land (bitmap0 !!! i) (bitmap1 !!! i)) zero_elems.

Definition ia_css_is_kernel_bitmap_intersection_empty (bitmap0 bitmap1 : ia_css_kernel_bitmap_t) : bool :=
  ia_css_is_kernel_bitmap_empty (ia_css_kernel_bitmap_intersection bitmap0 bitmap1).

Definition ia_css_is_kernel_bitmap_subset (bitmap0 bitmap1 : ia_css_kernel_bitmap_t) : bool :=
  ia_css_is_kernel_bitmap_equal (ia_css_kernel_bitmap_intersection bitmap0 bitmap1) bitmap1.

(** [1 << elem_bit_index] converted to the [uint32_t] element. *)
Definition ia_css_kernel_bit_mask (index : Z) : ia_css_kernel_bitmap_t :=
  let bit_mask := ia_css_kernel_bitmap_clear in
  if index <? IA_CSS_KERNEL_BITMAP_BITS then
    let elem_index := index / IA_CSS_KERNEL_BITMAP_ELEM_BITS in
    let elem_bit_index := index mod IA_CSS_KERNEL_BITMAP_ELEM_BITS in
    <[Z.to_nat elem_index := u32 (Z.shiftl 1 elem_bit_index)]> bit_mask
  else bit_mask.

Definition ia_css_kernel_bitmap_set (bitmap : ia_css_kernel_bitmap_t) (index : Z) : ia_css_kernel_bitmap_t :=
  ia_css_kernel_bitmap_union bitmap (ia_css_kernel_bit_mask index).

Definition ia_css_kernel_bitmap_unset (bitmap : ia_css_kernel_bitmap_t) (index : Z) : ia_css_kernel_bitmap_t :=
  let result := ia_css_kernel_bit_mask index in
  let result := ia_css_kernel_bitmap_complement result in
  ia_css_kernel_bitmap_intersection bitmap result.

Definition ia_css_kernel_bitmap_set_unique (bitmap : ia_css_kernel_bitmap_t) (index : Z) : ia_css_kernel_bitmap_t :=
  let ret := ia_css_kernel_bitmap_clear in
  let bit_mask := ia_css_kernel_bit_mask index in
  if ia_css_is_kernel_bitmap_intersection_empty bitmap bit_mask
     && negb (ia_css_is_kernel_bitmap_empty bit_mask)
  then ia_css_kernel_bitmap_union bitmap bit_mask else ret.

(** An [index] of 128 or more reads past the array: [None]. *)
Definition ia_css_is_kernel_bitmap_set (bitmap : ia_css_kernel_bitmap_t) (index : Z) : option Z :=
  let elem_index := index / IA_CSS_KERNEL_BITMAP_ELEM_BITS in
  let elem_bit_index := index mod IA_CSS_KERNEL_BITMAP_ELEM_BITS in
  match bitmap !! Z.to_nat elem_index with
  | Some e => Some (Z.b2z (Z.land (Z.shiftr e elem_bit_index) 1 =? 1))
  | None => None
  end.

(** [for (i = NOF_ELEMS - 1; i >= 0; i--)] with the bit carried down. *)
Definition ia_css_kernel_bitmap_shift (bitmap : ia_css_kernel_bitmap_t) : ia_css_kernel_bitmap_t :=
  fst (foldl (fun '(loc_bitmap, lsb_previous_elem) i =>
         let lsb_current_elem := Z.land (bitmap !!! i) 1 in
         (<[i := Z.lor (Z.shiftr (loc_bitmap !!! i) 1)
                       (u32 (Z.shiftl lsb_previous_elem (IA_CSS_KERNEL_BITMAP_ELEM_BITS - 1)))]> loc_bitmap,
          lsb_current_elem))
       (bitmap, 0) (rev (seq 0 IA_CSS_KERNEL_BITMAP_NOF_ELEMS))).

Fixpoint weight_loop (fuel : nat) (loc_bitmap : ia_css_kernel_bitmap_t) (weight : Z) : Z :=
  match fuel with
  | O => weight
  | S n =>
      if ia_css_is_kernel_bitmap_empty loc_bitmap then weight
      else match ia_css_is_kernel_bitmap_set loc_bitmap 0 with
           | Some bit => weight_loop n (ia_css_kernel_bitmap_shift loc_bitmap) (weight + bit)
           | None => weight
           end
  end.
Definition ia_css_kernel_bitmap_compute_weight (bitmap : ia_css_kernel_bitmap_t) : Z :=
  weight_loop (Z.to_nat IA_CSS_KERNEL_BITMAP_BITS) bitmap 0.

Definition ia_css_is_kernel_bitmap_onehot (bitmap : ia_css_kernel_bitmap_t) : bool :=
  ia_css_kernel_bitmap_compute_weight bitmap =? 1.

(** Out of range, only the (compiled out) assertion runs. *)
Definition ia_css_kernel_bitmap_set_element_from_uint32
    (bitmap : ia_css_kernel_bitmap_t) (elem_index elem_value : Z) : ia_css_kernel_bitmap_t :=
  if elem_index <? Z.of_nat IA_CSS_KERNEL_BITMAP_NOF_ELEMS
  then <[Z.to_nat elem_index := elem_value]> bitmap else bitmap.

(** [MIN(nof_elems_bits64, NOF_ELEMS)] iterations. *)
Definition ia_css_kernel_bitmap_create_from_uint64 (value : Z) : ia_css_kernel_bitmap_t :=
  let nof_elems_bits64 := 64 / IA_CSS_KERNEL_BITMAP_ELEM_BITS in
  foldl (fun result i =>
           <[i := u32 (Z.shiftr value (Z.of_nat i * IA_CSS_KERNEL_BITMAP_ELEM_BITS))]> result)
        ia_css_kernel_bitmap_clear
        (seq 0 (Nat.min (Z.to_nat nof_elems_bits64) IA_CSS_KERNEL_BITMAP_NOF_ELEMS)).

(** The bound is [MIN(ELEM_BITS, nof_elems_bits64)] as written. *)
Definition ia_css_kernel_bitmap_to_uint64 (value : ia_css_kernel_bitmap_t) : Z :=
  let nof_elems_bits64 := 64 / IA_CSS_KERNEL_BITMAP_ELEM_BITS in
  foldl (fun res i =>
           Z.lor res (u64 (Z.shiftl (value !!! i) (Z.of_nat i * IA_CSS_KERNEL_BITMAP_ELEM_BITS))))
        0 (seq 0 (Z.to_nat (Z.min IA_CSS_KERNEL_BITMAP_ELEM_BITS nof_elems_bits64))).

(** A bitmap held in a struct, at the [uint32_t] array field [f]. *)
Definition rd_kb (m : mem) (p : Z) (f : field) : ia_css_kernel_bitmap_t :=
  map (fun i => rd m p (elt f i)) [0; 1; 2; 3].

Definition wr_kb (m : mem) (p : Z) (f : field) (b : ia_css_kernel_bitmap_t) : mem :=
  foldl (fun m i => wr m p (elt f (Z.of_nat i)) (b !!! i)) m
        (seq 0 IA_CSS_KERNEL_BITMAP_NOF_ELEMS).

(** ** The number a bitmap denotes *)

Fixpoint kb_val (bitmap : ia_css_kernel_bitmap_t) : Z :=
  match bitmap with
  | [] => 0
  | x :: l => x + 2 ^ 32 * kb_val l
  end.

(** Kernel [i] is in the bitmap. *)
Definition kbit (bitmap : ia_css_kernel_bitmap_t) (i : Z) : bool := Z.testbit (kb_val bitmap) i.

(** A value of the C type: four 32-bit elements. *)
Definition kb_wf (bitmap : ia_css_kernel_bitmap_t) : Prop :=
  length bitmap = IA_CSS_KERNEL_BITMAP_NOF_ELEMS /\ Forall (fun x => 0 <= x < 2 ^ 32) bitmap.

Lemma kb_wf_inv b :
  kb_wf b -> exists x0 x1 x2 x3, b = [x0; x1; x2; x3] /\
    0 <= x0 < 2 ^ 32 /\ 0 <= x1 < 2 ^ 32 /\ 0 <= x2 < 2 ^ 32 /\ 0 <= x3 < 2 ^ 32.
Proof.
  intros [Hl HF]. destruct b as [| x0 [| x1 [| x2 [| x3 [|]]]]]; try discriminate Hl.
  exists x0, x1, x2, x3. split; [reflexivity |].
  repeat match goal with H : Forall _ (_ :: _) |- _ => inversion_clear H end. auto.
Qed.

Lemma kb_wf_4 x0 x1 x2 x3 :
  0 <= x0 < 2 ^ 32 -> 0 <= x1 < 2 ^ 32 -> 0 <= x2 < 2 ^ 32 -> 0 <= x3 < 2 ^ 32 ->
  kb_wf [x0; x1; x2; x3].
Proof. intros. split; [reflexivity |]. repeat constructor; lia. Qed.

Ltac kb_cases H :=
  apply kb_wf_inv in H; destruct H as (? & ? & ? & ? & -> & ? & ? & ? & ?).

Lemma u32_range x : 0 <= u32 x < 2 ^ 32.
Proof. apply Z.mod_pos_bound. lia. Qed.

Create HintDb kb.
#[export] Hint Resolve u32_range lor_below : kb.
#[export] Hint Extern 2 (0 <= _ < 2 ^ 32) => lia : kb.
#[export] Hint Extern 1 (0 <= 32) => lia : kb.

Lemma clear_wf : kb_wf ia_css_kernel_bitmap_clear.
Proof. apply kb_wf_4; lia. Qed.

Lemma union_wf a b : kb_wf a -> kb_wf b -> kb_wf (ia_css_kernel_bitmap_union a b).
Proof. intros Ha Hb. kb_cases Ha. kb_cases Hb. apply kb_wf_4; auto with kb. Qed.

Lemma intersection_wf a b : kb_wf a -> kb_wf b -> kb_wf (ia_css_kernel_bitmap_intersection a b).
Proof.
  intros Ha Hb. kb_cases Ha. kb_cases Hb.
  apply kb_wf_4; cbn; apply (land_below 32); lia.
Qed.

Lemma complement_wf a : kb_wf (ia_css_kernel_bitmap_complement a).
Proof. apply kb_wf_4; auto with kb. Qed.

Lemma bit_mask_wf i : kb_wf (ia_css_kernel_bit_mask i).
Proof.
  unfold ia_css_kernel_bit_mask. cbv zeta. destruct (i <? _); [| apply clear_wf].
  destruct (clear_wf) as [Hl HF]. split.
  - exact (eq_trans (length_insert _ _ _) Hl).
  - apply (Forall_insert (A := Z)); [exact HF | apply u32_range].
Qed.

#[export] Hint Resolve clear_wf union_wf intersection_wf complement_wf bit_mask_wf : kb.

Lemma kb_val_range b : kb_wf b -> 0 <= kb_val b < 2 ^ 128.
Proof. intros Hb. kb_cases Hb. cbn [kb_val]. lia. Qed.

Lemma kb_val_inj a b : kb_wf a -> kb_wf b -> kb_val a = kb_val b -> a = b.
Proof.
  intros Ha Hb. kb_cases Ha. kb_cases Hb. cbn [kb_val]. intros E.
  repeat f_equal; lia.
Qed.

Lemma clear_val : kb_val ia_css_kernel_bitmap_clear = 0.
Proof. reflexivity. Qed.

Lemma union_val a b :
  kb_wf a -> kb_wf b -> kb_val (ia_css_kernel_bitmap_union a b) = Z.lor (kb_val a) (kb_val b).
Proof.
  intros Ha Hb. kb_cases Ha. kb_cases Hb. cbn [kb_val].
  rewrite !lor_cat by lia. reflexivity.
Qed.

Lemma intersection_val a b :
  kb_wf a -> kb_wf b ->
  kb_val (ia_css_kernel_bitmap_intersection a b) = Z.land (kb_val a) (kb_val b).
Proof.
  intros Ha Hb. kb_cases Ha. kb_cases Hb. cbn [kb_val].
  rewrite !land_cat by lia. reflexivity.
Qed.

Lemma complement_val a :
  kb_wf a -> kb_val (ia_css_kernel_bitmap_complement a) = 2 ^ 128 - 1 - kb_val a.
Proof.
  intros Ha. kb_cases Ha.
  assert (C : forall x, 0 <= x < 2 ^ 32 -> u32 (Z.lnot x) = 2 ^ 32 - 1 - x).
  { intros y Hy. unfold u32. rewrite <- (Z.mod_small (2 ^ 32 - 1 - y) (2 ^ 32)) by lia.
    replace (2 ^ 32 - 1 - y) with (Z.lnot y + 1 * 2 ^ 32) by (unfold Z.lnot; lia).
    rewrite Z.mod_add by lia. reflexivity. }
  unfold ia_css_kernel_bitmap_complement, elems_loop, zero_elems. cbn [foldl seq replicate].
  cbn. rewrite !C by lia. lia.
Qed.

Lemma complement_bit a i :
  kb_wf a -> 0 <= i < 128 -> kbit (ia_css_kernel_bitmap_complement a) i = negb (kbit a i).
Proof.
  intros Ha Hi. unfold kbit. rewrite complement_val by exact Ha.
  replace (2 ^ 128 - 1 - kb_val a) with (Z.lnot (kb_val a) + 1 * 2 ^ 128)
    by (unfold Z.lnot; lia).
  rewrite <- (Z.mod_pow2_bits_low _ 128), Z.mod_add, Z.mod_pow2_bits_low by lia.
  apply Z.lnot_spec. lia.
Qed.

Lemma empty_val a : kb_wf a -> ia_css_is_kernel_bitmap_empty a = (kb_val a =? 0).
Proof.
  intros Ha. kb_cases Ha. cbn. apply eq_bool_prop_intro.
  rewrite !Is_true_true, !andb_true_iff, !Z.eqb_eq. lia.
Qed.

Lemma equal_val a b :
  kb_wf a -> kb_wf b -> ia_css_is_kernel_bitmap_equal a b = (kb_val a =? kb_val b).
Proof.
  intros Ha Hb. kb_cases Ha. kb_cases Hb. cbn. apply eq_bool_prop_intro.
  rewrite !Is_true_true, !andb_true_iff, !Z.eqb_eq. lia.
Qed.

(** The mask of a kernel in range is that power of two, otherwise empty. *)
Lemma bit_mask_val i :
  0 <= i -> kb_val (ia_css_kernel_bit_mask i) = if i <? 128 then 2 ^ i else 0.
Proof.
  intros Hi. unfold ia_css_kernel_bit_mask.
  change IA_CSS_KERNEL_BITMAP_BITS with 128. change IA_CSS_KERNEL_BITMAP_ELEM_BITS with 32.
  destruct (Z.ltb_spec i 128) as [Hlt | Hge]; [| reflexivity]. cbv zeta.
  pose proof (Z.div_mod i 32 ltac:(lia)). pose proof (Z.mod_pos_bound i 32 ltac:(lia)).
  assert (Hu : u32 (Z.shiftl 1 (i mod 32)) = 2 ^ (i mod 32)).
  { rewrite Z.shiftl_1_l. apply Z.mod_small.
    split; [lia | apply Z.pow_lt_mono_r; lia]. }
  rewrite Hu. assert (Hq : i / 32 = 0 \/ i / 32 = 1 \/ i / 32 = 2 \/ i / 32 = 3) by lia.
  assert (Ei : 2 ^ i = 2 ^ (32 * (i / 32)) * 2 ^ (i mod 32)).
  { rewrite <- Z.pow_add_r by lia. f_equal. lia. }
  rewrite Ei. destruct Hq as [E | [E | [E | E]]]; rewrite E; generalize (2 ^ (i mod 32)); intros z;
    [change (2 ^ (32 * 0)) with 1 | change (2 ^ (32 * 1)) with (2 ^ 32)
    | change (2 ^ (32 * 2)) with (2 ^ 32 * 2 ^ 32)
    | change (2 ^ (32 * 3)) with (2 ^ 32 * 2 ^ 32 * 2 ^ 32)];
    [change (z + 2 ^ 32 * (0 + 2 ^ 32 * (0 + 2 ^ 32 * (0 + 2 ^ 32 * 0))) = 1 * z)
    |change (0 + 2 ^ 32 * (z + 2 ^ 32 * (0 + 2 ^ 32 * (0 + 2 ^ 32 * 0))) = 2 ^ 32 * z)
    |change (0 + 2 ^ 32 * (0 + 2 ^ 32 * (z + 2 ^ 32 * (0 + 2 ^ 32 * 0))) = 2 ^ 32 * 2 ^ 32 * z)
    |change (0 + 2 ^ 32 * (0 + 2 ^ 32 * (0 + 2 ^ 32 * (z + 2 ^ 32 * 0)))
             = 2 ^ 32 * 2 ^ 32 * 2 ^ 32 * z)]; lia.
Qed.

Lemma bit_mask_bit i j :
  0 <= i < 128 -> 0 <= j -> kbit (ia_css_kernel_bit_mask i) j = (i =? j).
Proof.
  intros Hi Hj. unfold kbit. rewrite bit_mask_val by lia.
  destruct (Z.ltb_spec i 128); [| lia]. apply pow2_bit; lia.
Qed.

(** ** Reading a kernel's bit *)

(** Bit [i] is bit [i mod 32] of element [i / 32]. *)
Lemma kbit_elem (b : list Z) i e :
  Forall (fun x => 0 <= x < 2 ^ 32) b -> 0 <= i ->
  b !! Z.to_nat (i / 32) = Some e -> kbit b i = Z.testbit e (i mod 32).
Proof.
  intros HF. revert i. unfold kbit.
  induction HF as [| x l Hx HF IH]; intros i Hi He; [destruct (Z.to_nat _); discriminate He |].
  cbn [kb_val]. rewrite testbit_cat by lia.
  pose proof (Z.div_mod i 32 ltac:(lia)). pose proof (Z.mod_pos_bound i 32 ltac:(lia)).
  destruct (Z.ltb_spec i 32) as [Hlt | Hge].
  - rewrite Z.div_small in He by lia. injection He as ->. rewrite Z.mod_small by lia. reflexivity.
  - assert (Hq : i / 32 = (i - 32) / 32 + 1).
    { rewrite <- Z.div_add by lia. f_equal. lia. }
    rewrite IH with (i := i - 32).
    + f_equal. rewrite <- (Z.mod_add (i - 32) 1) by lia. f_equal. lia.
    + lia.
    + rewrite Hq, Z2Nat.inj_add in He by (try apply Z.div_pos; lia).
      rewrite Nat.add_comm in He. exact He.
Qed.

Lemma is_set_bit b i :
  kb_wf b -> 0 <= i < 128 -> ia_css_is_kernel_bitmap_set b i = Some (Z.b2z (kbit b i)).
Proof.
  intros [Hl HF] Hi. unfold ia_css_is_kernel_bitmap_set. cbv zeta.
  change IA_CSS_KERNEL_BITMAP_ELEM_BITS with 32.
  assert (i / 32 < 4) by (apply Z.div_lt_upper_bound; lia).
  pose proof (Z.div_pos i 32 ltac:(lia) ltac:(lia)).
  destruct (lookup_lt_is_Some_2 b (Z.to_nat (i / 32))) as [e He].
  { rewrite Hl. change IA_CSS_KERNEL_BITMAP_NOF_ELEMS with 4%nat. lia. }
  rewrite (kbit_elem b i e HF) by (auto; lia). rewrite He.
  rewrite land_1_b2z, Z.shiftr_spec, Z.add_0_l by lia.
  destruct (Z.testbit e (i mod 32)); reflexivity.
Qed.

Lemma is_set_out b i :
  kb_wf b -> 128 <= i -> ia_css_is_kernel_bitmap_set b i = None.
Proof.
  intros [Hl _] Hi. unfold ia_css_is_kernel_bitmap_set.
  change IA_CSS_KERNEL_BITMAP_ELEM_BITS with 32.
  replace (b !! Z.to_nat (i / 32)) with (@None Z); [reflexivity |].
  symmetry. apply lookup_ge_None. rewrite Hl.
  assert (4 <= i / 32) by (apply Z.div_le_lower_bound; lia).
  change IA_CSS_KERNEL_BITMAP_NOF_ELEMS with 4%nat. lia.
Qed.

Lemma kbit_out b i : kb_wf b -> 128 <= i -> kbit b i = false.
Proof. intros Hb Hi. apply (testbit_high 128); [apply kb_val_range, Hb | lia | lia]. Qed.

Lemma kbit_ext a b :
  kb_wf a -> kb_wf b -> (forall i, 0 <= i < 128 -> kbit a i = kbit b i) -> a = b.
Proof.
  intros Ha Hb H. apply kb_val_inj; auto. apply (bits_eq_below 128); auto using kb_val_range.
  lia.
Qed.

Lemma union_bit a b i :
  kb_wf a -> kb_wf b -> kbit (ia_css_kernel_bitmap_union a b) i = kbit a i || kbit b i.
Proof. intros Ha Hb. unfold kbit. rewrite union_val, Z.lor_spec; auto. Qed.

Lemma intersection_bit a b i :
  kb_wf a -> kb_wf b -> kbit (ia_css_kernel_bitmap_intersection a b) i = kbit a i && kbit b i.
Proof. intros Ha Hb. unfold kbit. rewrite intersection_val, Z.land_spec; auto. Qed.

Lemma empty_iff a :
  kb_wf a -> ia_css_is_kernel_bitmap_empty a = true <-> forall i, 0 <= i < 128 -> kbit a i = false.
Proof.
  intros Ha. rewrite empty_val, Z.eqb_eq by exact Ha. split.
  - intros E i Hi. unfold kbit. rewrite E. apply Z.bits_0.
  - intros H. apply (bits_eq_below 128); [lia | apply kb_val_range, Ha | lia |].
    intros i Hi. rewrite Z.bits_0. apply H, Hi.
Qed.

Lemma equal_iff a b :
  kb_wf a -> kb_wf b -> ia_css_is_kernel_bitmap_equal a b = true <-> a = b.
Proof.
  intros Ha Hb. rewrite equal_val, Z.eqb_eq by assumption. split; [| congruence].
  apply kb_val_inj; assumption.
Qed.

Lemma set_bit b i j :
  kb_wf b -> 0 <= i < 128 -> 0 <= j -> kbit (ia_css_kernel_bitmap_set b i) j = kbit b j || (i =? j).
Proof.
  intros Hb Hi Hj. unfold ia_css_kernel_bitmap_set.
  rewrite union_bit, bit_mask_bit; auto with kb.
Qed.

Lemma set_wf b i : kb_wf b -> kb_wf (ia_css_kernel_bitmap_set b i).
Proof. intros Hb. apply union_wf; auto with kb. Qed.

Lemma unset_bit b i j :
  kb_wf b -> 0 <= i < 128 -> 0 <= j < 128 ->
  kbit (ia_css_kernel_bitmap_unset b i) j = kbit b j && negb (i =? j).
Proof.
  intros Hb Hi Hj. unfold ia_css_kernel_bitmap_unset. cbv zeta.
  rewrite intersection_bit, complement_bit, bit_mask_bit by (auto with kb; lia). reflexivity.
Qed.

Lemma unset_wf b i : kb_wf b -> kb_wf (ia_css_kernel_bitmap_unset b i).
Proof. intros Hb. apply intersection_wf; auto with kb. Qed.

(** An index of 128 or more leaves the bitmap as it is. *)
Lemma set_out b i : kb_wf b -> 128 <= i -> ia_css_kernel_bitmap_set b i = b.
Proof.
  intros Hb Hi. apply kb_val_inj; [apply set_wf, Hb | exact Hb |].
  unfold ia_css_kernel_bitmap_set. rewrite union_val, bit_mask_val by (auto with kb; lia).
  destruct (Z.ltb_spec i 128); [lia | apply Z.lor_0_r].
Qed.

Lemma unset_out b i : kb_wf b -> 128 <= i -> ia_css_kernel_bitmap_unset b i = b.
Proof.
  intros Hb Hi. apply kbit_ext; [apply unset_wf, Hb | exact Hb |]. intros j Hj.
  unfold ia_css_kernel_bitmap_unset. cbv zeta.
  rewrite intersection_bit, complement_bit by (auto with kb; lia).
  unfold kbit at 2. rewrite bit_mask_val by lia.
  destruct (Z.ltb_spec i 128); [lia |]. rewrite Z.bits_0. apply andb_true_r.
Qed.

#[export] Hint Resolve set_wf unset_wf : kb.

(** ** Shift, weight and conversions *)

Lemma shift_4 x0 x1 x2 x3 :
  ia_css_kernel_bitmap_shift [x0; x1; x2; x3] =
  [Z.lor (Z.shiftr x0 1) (u32 (Z.shiftl (Z.land x1 1) 31));
   Z.lor (Z.shiftr x1 1) (u32 (Z.shiftl (Z.land x2 1) 31));
   Z.lor (Z.shiftr x2 1) (u32 (Z.shiftl (Z.land x3 1) 31));
   Z.lor (Z.shiftr x3 1) 0].
Proof. reflexivity. Qed.

Lemma shift_elem x y :
  0 <= x < 2 ^ 32 ->
  Z.lor (Z.shiftr x 1) (u32 (Z.shiftl (Z.land y 1) 31)) = x / 2 + 2 ^ 31 * (y mod 2).
Proof.
  intros Hx. pose proof (Z.mod_pos_bound y 2 ltac:(lia)) as Hm.
  assert (Hy : Z.land y 1 = y mod 2) by (rewrite land_1_b2z, Z.bit0_mod; reflexivity).
  rewrite Hy, Z.shiftl_mul_pow2, Z.shiftr_div_pow2 by lia. change (2 ^ 1) with 2.
  unfold u32. rewrite (Z.mod_small (_ * _)) by lia.
  assert (Hd : 0 <= x / 2 < 2 ^ 31) by (split; [apply Z.div_pos | apply Z.div_lt_upper_bound]; lia).
  replace (y mod 2 * 2 ^ 31) with (0 + 2 ^ 31 * (y mod 2)) by lia.
  replace (x / 2) with (x / 2 + 2 ^ 31 * 0) at 1 by lia.
  rewrite lor_cat, Z.lor_0_r by lia. reflexivity.
Qed.

Lemma shift_elems x0 x1 x2 x3 :
  0 <= x0 < 2 ^ 32 -> 0 <= x1 < 2 ^ 32 -> 0 <= x2 < 2 ^ 32 ->
  ia_css_kernel_bitmap_shift [x0; x1; x2; x3] =
  [x0 / 2 + 2 ^ 31 * (x1 mod 2); x1 / 2 + 2 ^ 31 * (x2 mod 2);
   x2 / 2 + 2 ^ 31 * (x3 mod 2); x3 / 2].
Proof.
  intros H0 H1 H2. rewrite shift_4, !shift_elem, Z.lor_0_r by assumption.
  rewrite Z.shiftr_div_pow2 by lia. reflexivity.
Qed.

Lemma shift_wf b : kb_wf b -> kb_wf (ia_css_kernel_bitmap_shift b).
Proof. intros Hb. kb_cases Hb. rewrite shift_elems by lia. apply kb_wf_4; divlia. Qed.

Lemma shift_val b : kb_wf b -> kb_val (ia_css_kernel_bitmap_shift b) = kb_val b / 2.
Proof. intros Hb. kb_cases Hb. rewrite shift_elems by lia. cbn [kb_val]. divlia. Qed.

#[export] Hint Resolve shift_wf : kb.

(** The counting loop, at any point: the bits still to come. *)
Lemma weight_loop_popcount n b w :
  kb_wf b -> kb_val b < 2 ^ Z.of_nat n -> weight_loop n b w = w + popcount n (kb_val b).
Proof.
  revert b w. induction n as [| n IH]; intros b w Hb Hn; [cbn; lia |].
  cbn [weight_loop popcount]. rewrite empty_val by exact Hb.
  pose proof (kb_val_range b Hb).
  destruct (Z.eqb_spec (kb_val b) 0) as [E | E].
  - rewrite E. change (Z.shiftr 0 1) with 0. rewrite popcount_0. cbn. lia.
  - rewrite is_set_bit by (auto; lia). rewrite IH; [| auto with kb |].
    + rewrite shift_val by exact Hb. rewrite Z.shiftr_div_pow2 by lia.
      unfold kbit. change (2 ^ 1) with 2. lia.
    + rewrite shift_val by exact Hb. rewrite Nat2Z.inj_succ, Z.pow_succ_r in Hn by lia.
      apply Z.div_lt_upper_bound; lia.
Qed.

Lemma weight_val b :
  kb_wf b -> ia_css_kernel_bitmap_compute_weight b = popcount 128 (kb_val b).
Proof.
  intros Hb. unfold ia_css_kernel_bitmap_compute_weight.
  change (Z.to_nat IA_CSS_KERNEL_BITMAP_BITS) with 128%nat.
  rewrite weight_loop_popcount; [reflexivity | exact Hb |]. apply kb_val_range, Hb.
Qed.

Lemma from_uint64_2 v :
  ia_css_kernel_bitmap_create_from_uint64 v = [u32 (Z.shiftr v 0); u32 (Z.shiftr v 32); 0; 0].
Proof. reflexivity. Qed.

Lemma from_uint64_wf v : kb_wf (ia_css_kernel_bitmap_create_from_uint64 v).
Proof. rewrite from_uint64_2. apply kb_wf_4; auto using u32_range; lia. Qed.

Lemma from_uint64_val v :
  0 <= v < 2 ^ 64 -> kb_val (ia_css_kernel_bitmap_create_from_uint64 v) = v.
Proof.
  intros Hv. rewrite from_uint64_2, Z.shiftr_0_r, Z.shiftr_div_pow2 by lia.
  unfold u32. cbn [kb_val]. divlia.
Qed.

Lemma to_uint64_val b :
  kb_wf b -> ia_css_kernel_bitmap_to_uint64 b = kb_val b mod 2 ^ 64.
Proof.
  intros Hb. kb_cases Hb.
  change (ia_css_kernel_bitmap_to_uint64 [x; x0; x1; x2])
    with (Z.lor (u64 (Z.shiftl x 0)) (u64 (Z.shiftl x0 32))).
  rewrite Z.shiftl_0_r, Z.shiftl_mul_pow2 by lia. unfold u64.
  rewrite !Z.mod_small by lia.
  replace x with (x + 2 ^ 32 * 0) at 1 by lia.
  replace (x0 * 2 ^ 32) with (0 + 2 ^ 32 * x0) by lia.
  rewrite lor_cat, Z.lor_0_r, Z.lor_0_l by lia. cbn [kb_val].
  replace (x + 2 ^ 32 * (x0 + 2 ^ 32 * (x1 + 2 ^ 32 * (x2 + 2 ^ 32 * 0))))
    with (x + 2 ^ 32 * x0 + (x1 + 2 ^ 32 * x2) * 2 ^ 64) by lia.
  rewrite Z.mod_add, Z.mod_small by lia. reflexivity.
Qed.

Lemma subset_val a b :
  kb_wf a -> kb_wf b ->
  ia_css_is_kernel_bitmap_subset a b = true <-> forall i, 0 <= i < 128 -> kbit b i = true -> kbit a i = true.
Proof.
  intros Ha Hb. unfold ia_css_is_kernel_bitmap_subset.
  rewrite equal_iff by auto with kb. split.
  - intros E i Hi Hbi. rewrite <- E, intersection_bit in Hbi by assumption.
    apply andb_true_iff in Hbi. apply Hbi.
  - intros H. apply kbit_ext; auto with kb. intros i Hi. rewrite intersection_bit by assumption.
    specialize (H i Hi). destruct (kbit b i); [rewrite H by reflexivity; reflexivity |].
    apply andb_false_r.
Qed.

Lemma intersection_empty_iff a b :
  kb_wf a -> kb_wf b ->
  ia_css_is_kernel_bitmap_intersection_empty a b = true
  <-> forall i, 0 <= i < 128 -> kbit a i && kbit b i = false.
Proof.
  intros Ha Hb. unfold ia_css_is_kernel_bitmap_intersection_empty.
  rewrite empty_iff by auto with kb.
  split; intros H i Hi; specialize (H i Hi); rewrite intersection_bit in *; auto.
Qed.

Lemma bit_mask_empty i :
  0 <= i -> ia_css_is_kernel_bitmap_empty (ia_css_kernel_bit_mask i) = negb (i <? 128).
Proof.
  intros Hi. rewrite empty_val, bit_mask_val by auto with kb.
  destruct (i <? 128); [| reflexivity]. apply Z.eqb_neq.
  pose proof (Z.pow_pos_nonneg 2 i ltac:(lia) Hi). lia.
Qed.

(** ** Bitmaps in memory *)

Lemma rd_kb_wf m p o : kb_wf (rd_kb m p (U32 o)).
Proof. apply kb_wf_4; apply (rd_range m p (elt (U32 o) _)); reflexivity. Qed.

#[export] Hint Resolve rd_kb_wf : kb.

Lemma wr_kb_4 m p f x0 x1 x2 x3 :
  wr_kb m p f [x0; x1; x2; x3]
  = wr (wr (wr (wr m p (elt f 0) x0) p (elt f 1) x1) p (elt f 2) x2) p (elt f 3) x3.
Proof. reflexivity. Qed.

Lemma rd_kb_wr_same m p o b : kb_wf b -> rd_kb (wr_kb m p (U32 o) b) p (U32 o) = b.
Proof.
  intros Hb. kb_cases Hb. rewrite wr_kb_4. unfold rd_kb. cbn [map].
  repeat first [rewrite rd_wr_same | rewrite rd_wr_base by (cbn; lia)].
  rewrite !f_conv_small by (auto || (cbn; lia)). reflexivity.
Qed.

Lemma rd_wr_kb_out m p f b q g :
  q + f_off g + Z.of_nat (f_len g) <= p + f_off f \/
  p + f_off f + 4 * Z.of_nat (f_len f) <= q + f_off g ->
  rd (wr_kb m p f b) q g = rd m q g.
Proof.
  intros H. unfold wr_kb. cbn [foldl seq IA_CSS_KERNEL_BITMAP_NOF_ELEMS].
  rewrite !rd_wr_base by (cbn; lia). reflexivity.
Qed.

Lemma wr_kb_same_outside lo hi m p f b :
  lo <= p + f_off f -> p + f_off f + 4 * Z.of_nat (f_len f) <= hi ->
  same_outside lo hi m (wr_kb m p f b).
Proof.
  intros H1 H2. unfold wr_kb. cbn [foldl seq IA_CSS_KERNEL_BITMAP_NOF_ELEMS].
  repeat (eapply same_outside_trans; [| apply wr_same_outside; cbn; lia]). apply same_outside_refl.
Qed.

Lemma rd_kb_wr_out m p f v q g :
  q + f_off g + 4 * Z.of_nat (f_len g) <= p + f_off f \/
  p + f_off f + Z.of_nat (f_len f) <= q + f_off g ->
  rd_kb (wr m p f v) q g = rd_kb m q g.
Proof. intros H. unfold rd_kb. cbn [map]. rewrite !rd_wr_base by (cbn; lia). reflexivity. Qed.

Lemma rd_kb_same_outside lo hi m m' p f :
  same_outside lo hi m m' ->
  p + f_off f + 4 * Z.of_nat (f_len f) <= lo \/ hi <= p + f_off f ->
  rd_kb m' p f = rd_kb m p f.
Proof.
  intros H Hp. unfold rd_kb. cbn [map].
  rewrite !(rd_same_outside lo hi m m') by (auto; cbn; lia). reflexivity.
Qed.

(** ** Theorems *)

(** C40: the bitmap operations are the set operations on kernel indices
    0..127: every result is a valid bitmap, its members are those of the set
    operation, and the tests (empty, equal, subset, disjoint) decide the
    corresponding relation between the sets. *)
Theorem kernel_bitmap_set_algebra a b :
  kb_wf a -> kb_wf b ->
  (kb_wf (ia_css_kernel_bitmap_union a b)
   /\ kb_wf (ia_css_kernel_bitmap_intersection a b)
   /\ kb_wf (ia_css_kernel_bitmap_complement a))
  /\ (forall i, 0 <= i < 128 ->
        kbit (ia_css_kernel_bitmap_union a b) i = kbit a i || kbit b i
        /\ kbit (ia_css_kernel_bitmap_intersection a b) i = kbit a i && kbit b i
        /\ kbit (ia_css_kernel_bitmap_complement a) i = negb (kbit a i))
  /\ (ia_css_is_kernel_bitmap_empty a = true <-> a = ia_css_kernel_bitmap_clear)
  /\ (ia_css_is_kernel_bitmap_equal a b = true <-> a = b)
  /\ (ia_css_is_kernel_bitmap_subset a b = true
      <-> forall i, 0 <= i < 128 -> kbit b i = true -> kbit a i = true)
  /\ (ia_css_is_kernel_bitmap_intersection_empty a b = true
      <-> forall i, 0 <= i < 128 -> kbit a i && kbit b i = false).
Proof.
  intros Ha Hb. split; [auto with kb |]. split.
  { intros i Hi. rewrite union_bit, intersection_bit, complement_bit by assumption. auto. }
  split.
  { rewrite empty_val, Z.eqb_eq by exact Ha. split; [| intros ->; reflexivity].
    intros E. apply kb_val_inj; auto with kb. }
  auto using equal_iff, subset_val, intersection_empty_iff.
Qed.

Lemma kernel_bitmap_set_algebra_witness :
  ia_css_is_kernel_bitmap_subset [7; 0; 0; 1] [5; 0; 0; 1] = true
  /\ forall i, 0 <= i < 128 -> kbit [5; 0; 0; 1] i = true -> kbit [7; 0; 0; 1] i = true.
Proof.
  split; [reflexivity |].
  apply (kernel_bitmap_set_algebra [7; 0; 0; 1] [5; 0; 0; 1]);
    [apply kb_wf_4; lia | apply kb_wf_4; lia | reflexivity].
Defined.

(** Setting or clearing kernel [i] and then asking about kernel [j]
    answers the new state for [j = i] and the old one for every other [j];
    an index of 128 or more changes nothing. *)
Theorem kernel_bitmap_set_unset_lookup b i j :
  kb_wf b -> 0 <= i -> 0 <= j < 128 ->
  ia_css_is_kernel_bitmap_set (ia_css_kernel_bitmap_set b i) j
  = (if i =? j then Some 1 else ia_css_is_kernel_bitmap_set b j)
  /\ ia_css_is_kernel_bitmap_set (ia_css_kernel_bitmap_unset b i) j
     = (if i =? j then Some 0 else ia_css_is_kernel_bitmap_set b j)
  /\ (128 <= i -> ia_css_kernel_bitmap_set b i = b /\ ia_css_kernel_bitmap_unset b i = b).
Proof.
  intros Hb Hi Hj. split; [| split; [| auto using set_out, unset_out]].
  - destruct (Z.lt_ge_cases i 128).
    + rewrite !is_set_bit, set_bit by (auto with kb; lia).
      destruct (Z.eqb_spec i j); [rewrite orb_true_r | rewrite orb_false_r]; reflexivity.
    + rewrite set_out by auto. destruct (Z.eqb_spec i j); [lia | reflexivity].
  - destruct (Z.lt_ge_cases i 128).
    + rewrite !is_set_bit, unset_bit by (auto with kb; lia).
      destruct (Z.eqb_spec i j); [rewrite andb_false_r | rewrite andb_true_r]; reflexivity.
    + rewrite unset_out by auto. destruct (Z.eqb_spec i j); [lia | reflexivity].
Qed.

Lemma kernel_bitmap_set_unset_lookup_witness :
  ia_css_is_kernel_bitmap_set (ia_css_kernel_bitmap_set [1; 0; 0; 0] 70) 70 = Some 1.
Proof.
  apply (kernel_bitmap_set_unset_lookup [1; 0; 0; 0] 70 70); [apply kb_wf_4; lia | lia | lia].
Defined.

(** [set_unique] adds a kernel that is absent and in range, and
    returns the empty bitmap, losing the argument's members, in every other
    case. *)
Theorem kernel_bitmap_set_unique_spec b i :
  kb_wf b -> 0 <= i ->
  ia_css_kernel_bitmap_set_unique b i
  = if (i <? 128) && negb (kbit b i) then ia_css_kernel_bitmap_set b i
    else ia_css_kernel_bitmap_clear.
Proof.
  intros Hb Hi. unfold ia_css_kernel_bitmap_set_unique. cbv zeta.
  rewrite bit_mask_empty, negb_involutive by exact Hi.
  destruct (Z.ltb_spec i 128) as [Hlt | Hge]; [| rewrite andb_false_r; reflexivity].
  rewrite andb_true_r, andb_true_l.
  replace (ia_css_is_kernel_bitmap_intersection_empty b (ia_css_kernel_bit_mask i))
    with (negb (kbit b i)); [reflexivity |].
  apply eq_bool_prop_intro. rewrite !Is_true_true, intersection_empty_iff by auto with kb.
  rewrite negb_true_iff. split.
  - intros E j Hj. rewrite bit_mask_bit by lia.
    destruct (Z.eqb_spec i j) as [-> |]; [rewrite E; reflexivity | apply andb_false_r].
  - intros H. specialize (H i ltac:(lia)).
    rewrite bit_mask_bit, Z.eqb_refl, andb_true_r in H by lia. exact H.
Qed.

Lemma kernel_bitmap_set_unique_spec_witness :
  ia_css_kernel_bitmap_set_unique [0; 4; 0; 0] 34 = ia_css_kernel_bitmap_clear.
Proof.
  rewrite (kernel_bitmap_set_unique_spec [0; 4; 0; 0] 34); [reflexivity | apply kb_wf_4; lia | lia].
Defined.

Lemma onehot_iff b :
  kb_wf b ->
  ia_css_is_kernel_bitmap_onehot b = true
  <-> exists i, 0 <= i < 128 /\ b = ia_css_kernel_bit_mask i.
Proof.
  intros Hb. pose proof (kb_val_range b Hb) as Hr.
  unfold ia_css_is_kernel_bitmap_onehot. rewrite weight_val, Z.eqb_eq by exact Hb.
  rewrite popcount_1_iff by exact Hr. split.
  - intros [k [Hk E]]. exists k. split; [exact Hk |]. apply kb_val_inj; auto with kb.
    rewrite bit_mask_val by lia. destruct (Z.ltb_spec k 128); [exact E | lia].
  - intros [k [Hk ->]]. exists k. split; [exact Hk |]. rewrite bit_mask_val by lia.
    destruct (Z.ltb_spec k 128); [reflexivity | lia].
Qed.

(** The weight is the number of members, whatever the bitmap, the
    shift moves kernel [i + 1] to [i], and [onehot] holds exactly of the
    single-kernel bitmaps. *)
Theorem kernel_bitmap_weight_onehot b :
  kb_wf b ->
  ia_css_kernel_bitmap_compute_weight b = popcount 128 (kb_val b)
  /\ (forall i, 0 <= i < 128 -> kbit (ia_css_kernel_bitmap_shift b) i = kbit b (i + 1))
  /\ (ia_css_is_kernel_bitmap_onehot b = true
      <-> exists i, 0 <= i < 128 /\ b = ia_css_kernel_bit_mask i).
Proof.
  intros Hb. split; [apply weight_val, Hb |]. split.
  - intros i Hi. unfold kbit. rewrite shift_val by exact Hb.
    change 2 with (2 ^ 1). rewrite Z.div_pow2_bits by lia. reflexivity.
  - apply onehot_iff, Hb.
Qed.

Lemma kernel_bitmap_weight_onehot_witness :
  ia_css_kernel_bitmap_compute_weight [3; 0; 2147483648; 1] = 4.
Proof.
  rewrite (proj1 (kernel_bitmap_weight_onehot [3; 0; 2147483648; 1] ltac:(apply kb_wf_4; lia))).
  reflexivity.
Defined.

(** A 64-bit value survives the trip through a bitmap, and the trip
    back keeps exactly the kernels 0..63. *)
Theorem kernel_bitmap_uint64_roundtrip v b :
  0 <= v < 2 ^ 64 -> kb_wf b ->
  ia_css_kernel_bitmap_to_uint64 (ia_css_kernel_bitmap_create_from_uint64 v) = v
  /\ ia_css_kernel_bitmap_to_uint64 b = kb_val b mod 2 ^ 64
  /\ (ia_css_kernel_bitmap_create_from_uint64 (ia_css_kernel_bitmap_to_uint64 b) = b
      <-> kb_val b < 2 ^ 64).
Proof.
  intros Hv Hb. pose proof (kb_val_range b Hb).
  split; [rewrite to_uint64_val, from_uint64_val by auto using from_uint64_wf;
          apply Z.mod_small, Hv |].
  split; [apply to_uint64_val, Hb |]. rewrite to_uint64_val by exact Hb.
  pose proof (Z.mod_pos_bound (kb_val b) (2 ^ 64) ltac:(lia)) as Hm. split.
  - intros E. rewrite <- E, from_uint64_val by exact Hm. apply Hm.
  - intros Hlt. apply kb_val_inj; [apply from_uint64_wf | exact Hb |].
    rewrite from_uint64_val, Z.mod_small by lia. reflexivity.
Qed.

Lemma kernel_bitmap_uint64_roundtrip_witness :
  ia_css_kernel_bitmap_to_uint64 (ia_css_kernel_bitmap_create_from_uint64 81985529216486895)
  = 81985529216486895.
Proof.
  apply (kernel_bitmap_uint64_roundtrip 81985529216486895 [0; 0; 0; 0]);
    [lia | apply kb_wf_4; lia].
Defined.
