(* ===== verification/ProgramGroupParam.v ===== *)
(** * Program group parameters

    src/ia_css_program_group_param.c: the parameter blob the host fills before
    it asks for a process group.  One buffer holds the header, then an array
    of program parameters, then an array of terminal parameters; each element
    carries a negative offset back to the header.

    Every operation is a definition of the C function's name on the byte
    memory; [_print] functions only write traces and are left out. *)

From S2P Require Import Prelude Memory KernelBitmap.
#[local] Open Scope css_scope.

(** ** Layout *)

Definition IA_CSS_N_DATA_DIMENSION : Z := 2.
Definition IA_CSS_COL_DIMENSION : Z := 0.
Definition IA_CSS_ROW_DIMENSION : Z := 1.
Definition IA_CSS_N_FRAME_FORMAT_TYPES : Z := 68.
Definition IA_CSS_PROCESS_GROUP_PROTOCOL_LEGACY : Z := 0.
Definition IA_CSS_PROCESS_GROUP_PROTOCOL_PPG : Z := 1.
Definition IA_CSS_PROCESS_GROUP_N_PROTOCOLS : Z := 2.

(** [struct ia_css_program_group_param_s]. *)
Module pgp.
Definition kernel_enable_bitmap := U32 0.
Definition size := U32 16.
Definition program_param_offset := U32 20.
Definition terminal_param_offset := U32 24.
Definition fragment_count := U16 28.
Definition program_count := U8 30.
Definition terminal_count := U8 31.
Definition protocol_version := U8 32.
Definition padding := U8 33.
Definition layout : list (field * Z) :=
  [(kernel_enable_bitmap, 4); (size, 1); (program_param_offset, 1); (terminal_param_offset, 1);
   (fragment_count, 1); (program_count, 1); (terminal_count, 1); (protocol_version, 1);
   (padding, 7)].
End pgp.
Definition sizeof_ia_css_program_group_param_t : Z := 40.

(** [struct ia_css_program_param_s]. *)
Module pp.
Definition kernel_enable_bitmap := U32 0.
Definition size := U32 16.
Definition parent_offset := S32 20.
Definition layout : list (field * Z) :=
  [(kernel_enable_bitmap, 4); (size, 1); (parent_offset, 1)].
End pp.
Definition sizeof_ia_css_program_param_t : Z := 24.

(** [struct ia_css_terminal_param_s]. *)
Module tp.
Definition size := U32 0.
Definition frame_format_type := U32 4.
Definition parent_offset := S32 8.
Definition dimensions := U16 12.
Definition index := U16 16.
Definition fragment_dimensions := U16 20.
Definition stride := U32 24.
Definition offset := U16 28.
Definition bpp := U8 30.
Definition bpe := U8 31.
Definition layout : list (field * Z) :=
  [(size, 1); (frame_format_type, 1); (parent_offset, 1); (dimensions, 2); (index, 2);
   (fragment_dimensions, 2); (stride, 1); (offset, 1); (bpp, 1); (bpe, 1)].
End tp.
Definition sizeof_ia_css_terminal_param_t : Z := 32.

#[export] Hint Unfold pgp.kernel_enable_bitmap pgp.size pgp.program_param_offset
  pgp.terminal_param_offset pgp.fragment_count pgp.program_count pgp.terminal_count
  pgp.protocol_version pp.kernel_enable_bitmap pp.size pp.parent_offset tp.size
  tp.frame_format_type tp.parent_offset tp.dimensions tp.index tp.fragment_dimensions
  tp.stride tp.offset tp.bpp tp.bpe sizeof_ia_css_program_group_param_t
  sizeof_ia_css_program_param_t sizeof_ia_css_terminal_param_t : layout.

(** The layouts have neither holes nor overlaps, as the COMPILATION_ERROR_IF
    size checks of the source require. *)
Lemma param_layouts :
  tiles pgp.layout sizeof_ia_css_program_group_param_t = true
  /\ tiles pp.layout sizeof_ia_css_program_param_t = true
  /\ tiles tp.layout sizeof_ia_css_terminal_param_t = true.
Proof. split; [| split]; reflexivity. Qed.

(** ** Sizes *)

(** [program_count * fragment_count] is an [int] product of promoted
    operands; the sums are [size_t]. *)
Definition ia_css_sizeof_program_group_param (program_count terminal_count fragment_count : Z) : Z :=
  if negb (program_count =? 0) && negb (terminal_count =? 0) && negb (fragment_count =? 0) then
    let size := 0 in
    let size := size + sizeof_ia_css_program_group_param_t in
    let size := size + program_count * fragment_count * sizeof_ia_css_program_param_t in
    let size := size + terminal_count * sizeof_ia_css_terminal_param_t in
    size
  else 0.

(** ** Getters *)

Section Getters.
Variable m : mem.

Definition ia_css_program_group_param_get_size (program_group_param : Z) : Z :=
  if is_null program_group_param then 0 else rd m program_group_param pgp.size.

Definition ia_css_program_param_get_size (param : Z) : Z :=
  if is_null param then 0 else rd m param pp.size.

Definition ia_css_program_group_param_get_program_count (param : Z) : Z :=
  if is_null param then 0 else rd m param pgp.program_count.

Definition ia_css_program_group_param_get_terminal_count (param : Z) : Z :=
  if is_null param then 0 else rd m param pgp.terminal_count.

(** The local is a [uint8_t]. *)
Definition ia_css_program_group_param_get_fragment_count (param : Z) : Z :=
  if is_null param then 0 else u8 (rd m param pgp.fragment_count).

Definition ia_css_program_group_param_get_protocol_version (param : Z) : Z :=
  if is_null param then 0 else rd m param pgp.protocol_version.

(** [i] is an [int] and only its upper bound is checked. *)
Definition ia_css_program_group_param_get_program_param (param i : Z) : Z :=
  if is_null param then NULL
  else
    let program_count := ia_css_program_group_param_get_program_count param in
    if i <? program_count then
      let program_param_base := param + rd m param pgp.program_param_offset in
      program_param_base + i * sizeof_ia_css_program_param_t
    else NULL.

Definition ia_css_terminal_param_get_size (param : Z) : Z :=
  if is_null param then 0 else rd m param tp.size.

Definition ia_css_program_group_param_get_terminal_param (param i : Z) : Z :=
  if is_null param then NULL
  else
    let program_count := ia_css_program_group_param_get_terminal_count param in
    if i <? program_count then
      let terminal_param_base := param + rd m param pgp.terminal_param_offset in
      terminal_param_base + i * sizeof_ia_css_terminal_param_t
    else NULL.

Definition ia_css_program_group_param_get_kernel_enable_bitmap (param : Z) : ia_css_kernel_bitmap_t :=
  if is_null param then ia_css_kernel_bitmap_clear
  else rd_kb m param pgp.kernel_enable_bitmap.

Definition ia_css_program_param_get_kernel_enable_bitmap (program_param : Z) : ia_css_kernel_bitmap_t :=
  if is_null program_param then ia_css_kernel_bitmap_clear
  else if rd m program_param pp.parent_offset =? 0 then ia_css_kernel_bitmap_clear
  else
    let base := program_param + rd m program_param pp.parent_offset in
    rd_kb m base pgp.kernel_enable_bitmap.

Definition ia_css_terminal_param_get_kernel_enable_bitmap (param : Z) : ia_css_kernel_bitmap_t :=
  if is_null param then ia_css_kernel_bitmap_clear
  else if rd m param tp.parent_offset =? 0 then ia_css_kernel_bitmap_clear
  else
    let base := param + rd m param tp.parent_offset in
    rd_kb m base pgp.kernel_enable_bitmap.

Definition ia_css_terminal_param_get_frame_format_type (param : Z) : Z :=
  if is_null param then IA_CSS_N_FRAME_FORMAT_TYPES else rd m param tp.frame_format_type.

Definition ia_css_terminal_param_get_bpp (param : Z) : Z :=
  if is_null param then 0 else rd m param tp.bpp.

(** The two values stored through [dimensions]; [None] is the -1 return,
    with nothing stored. *)
Definition ia_css_terminal_param_get_dimensions (param : Z) : option (Z * Z) :=
  if is_null param then None
  else Some (rd m param (elt tp.dimensions IA_CSS_COL_DIMENSION),
             rd m param (elt tp.dimensions IA_CSS_ROW_DIMENSION)).

Definition ia_css_terminal_param_get_stride (param : Z) : Z :=
  if is_null param then 0 else rd m param tp.stride.

Definition ia_css_terminal_param_get_parent (param : Z) : Z :=
  if is_null param then NULL
  else
    let base := param + rd m param tp.parent_offset in
    base.
End Getters.

(** ** Setters *)

Definition ia_css_program_group_param_set_protocol_version (param protocol_version : Z) (m : mem) : Z * mem :=
  if is_null param then (-1, m) else (0, wr m param pgp.protocol_version protocol_version).

Definition ia_css_program_group_param_set_kernel_enable_bitmap
    (param : Z) (bitmap : ia_css_kernel_bitmap_t) (m : mem) : Z * mem :=
  if is_null param then (-1, m) else (0, wr_kb m param pgp.kernel_enable_bitmap bitmap).

(** Deprecated: [assert(0)] first, and -1 whatever it did. *)
Definition ia_css_program_param_set_kernel_enable_bitmap
    (program_param : Z) (bitmap : ia_css_kernel_bitmap_t) (m : mem) : Z * mem :=
  if is_null program_param then (-1, m)
  else (-1, wr_kb m program_param pp.kernel_enable_bitmap bitmap).

Definition ia_css_terminal_param_set_frame_format_type (param data_format_type : Z) (m : mem) : Z * mem :=
  if is_null param then (-1, m) else (0, wr m param tp.frame_format_type data_format_type).

Definition ia_css_terminal_param_set_bpp (param bpp : Z) (m : mem) : Z * mem :=
  if is_null param then (-1, m) else (0, wr m param tp.bpp bpp).

(** [dimensions] is passed as its (column, row) values. *)
Definition ia_css_terminal_param_set_dimensions (param : Z) (dimensions : Z * Z) (m : mem) : Z * mem :=
  if is_null param then (-1, m)
  else
    let m := wr m param (elt tp.dimensions IA_CSS_COL_DIMENSION) (fst dimensions) in
    let m := wr m param (elt tp.dimensions IA_CSS_ROW_DIMENSION) (snd dimensions) in
    (0, m).

Definition ia_css_terminal_param_set_stride (param stride : Z) : mem -> Z * mem :=
  with_retval (-1)
    (verifexit (negb (is_null param)) ;;;
     wrM param tp.stride stride ;;;
     ret 0).

(** ** Initialisation *)

Definition ia_css_program_param_init (program_param offset : Z) : mem -> Z * mem :=
  with_retval (-1)
    (verifexit (negb (is_null program_param)) ;;;
     wrM program_param pp.size sizeof_ia_css_program_param_t ;;;
     wrM program_param pp.parent_offset (- signed 32 offset) ;;;
     ret 0).

Definition ia_css_terminal_param_init (terminal_param offset frame_format_type : Z) : mem -> Z * mem :=
  with_retval (-1)
    (verifexit (negb (is_null terminal_param)) ;;;
     wrM terminal_param tp.size sizeof_ia_css_terminal_param_t ;;;
     wrM terminal_param tp.parent_offset (- signed 32 offset) ;;;
     wrM terminal_param tp.frame_format_type frame_format_type ;;;
     ret 0).

(** The first loop: [(param_base, offset)] run over the program parameters. *)
Definition init_program_params (program_count : Z) (base : Z * Z) : M mem (Z * Z) :=
  for_each (range 0 program_count) base (fun _ '(param_base, offset) =>
    call (ia_css_program_param_init param_base offset) ;;;
    ret (param_base + sizeof_ia_css_program_param_t, u32 (offset + sizeof_ia_css_program_param_t))).

(** The second loop, over the terminal parameters. *)
Definition init_terminal_params (terminal_count frame_format_types : Z) (base : Z * Z) : M mem (Z * Z) :=
  for_each (range 0 terminal_count) base (fun i '(param_base, offset) =>
    frame_format_type <- gets (fun m => rd m frame_format_types (elt (U32 0) i)) ;;
    call (ia_css_terminal_param_init param_base offset frame_format_type) ;;;
    ret (param_base + sizeof_ia_css_terminal_param_t, u32 (offset + sizeof_ia_css_terminal_param_t))).

Definition ia_css_program_group_param_init
    (blob program_count terminal_count fragment_count frame_format_types : Z) : mem -> Z * mem :=
  with_retval (-1)
    (verifexit (negb (is_null blob)) ;;;
     verifexit (negb (is_null frame_format_types)) ;;;
     wrM blob pgp.program_count program_count ;;;
     wrM blob pgp.fragment_count fragment_count ;;;
     wrM blob pgp.terminal_count terminal_count ;;;
     wrM blob pgp.program_param_offset sizeof_ia_css_program_group_param_t ;;;
     program_param_offset <- rdM blob pgp.program_param_offset ;;
     wrM blob pgp.terminal_param_offset
         (program_param_offset + sizeof_ia_css_program_param_t * program_count) ;;;
     init_program_params program_count (blob + program_param_offset, program_param_offset) ;;;
     terminal_param_offset <- rdM blob pgp.terminal_param_offset ;;
     init_terminal_params terminal_count frame_format_types
       (blob + terminal_param_offset, terminal_param_offset) ;;;
     wrM blob pgp.protocol_version IA_CSS_PROCESS_GROUP_PROTOCOL_LEGACY ;;;
     wrM blob pgp.size
         (ia_css_sizeof_program_group_param program_count terminal_count fragment_count) ;;;
     ret 0).

(** ** One array element *)

Lemma program_param_init_ok p off m :
  0 < p -> 0 <= off < 2 ^ 31 ->
  exists m', ia_css_program_param_init p off m = (0, m')
    /\ same_outside p (p + sizeof_ia_css_program_param_t) m m'
    /\ rd m' p pp.size = sizeof_ia_css_program_param_t
    /\ rd m' p pp.parent_offset = - off.
Proof.
  intros Hp Hoff.
  eexists. split; [| split; [| split]].
  - unfold ia_css_program_param_init. mrun. rewrite not_null by exact Hp. reflexivity.
  - eapply same_outside_trans; apply wr_same_outside; mem_out.
  - mem_read. reflexivity.
  - mem_read. rewrite signed_small, f_conv_S32 by lia. reflexivity.
Qed.

Lemma terminal_param_init_ok p off ft m :
  0 < p -> 0 <= off < 2 ^ 31 -> 0 <= ft < 2 ^ 32 ->
  exists m', ia_css_terminal_param_init p off ft m = (0, m')
    /\ same_outside p (p + sizeof_ia_css_terminal_param_t) m m'
    /\ rd m' p tp.size = sizeof_ia_css_terminal_param_t
    /\ rd m' p tp.parent_offset = - off
    /\ rd m' p tp.frame_format_type = ft.
Proof.
  intros Hp Hoff Hft. eexists. split; [| split; [| split; [| split]]].
  - unfold ia_css_terminal_param_init. mrun. rewrite not_null by exact Hp. reflexivity.
  - do 2 (eapply same_outside_trans; [| apply wr_same_outside; mem_out]).
    apply wr_same_outside; mem_out.
  - mem_read. reflexivity.
  - mem_read.
    rewrite signed_small, f_conv_S32 by lia. reflexivity.
  - mem_read. apply f_conv_U32. exact Hft.
Qed.

(** ** The two loops *)

Lemma init_program_params_ok base o0 pc m :
  0 < base -> 0 <= o0 -> 0 <= pc -> o0 + 24 * pc < 2 ^ 31 ->
  exists a m', init_program_params pc (base, o0) m = (Some a, m')
    /\ same_outside base (base + 24 * pc) m m'
    /\ forall j, 0 <= j < pc ->
         rd m' (base + 24 * j) pp.size = 24
         /\ rd m' (base + 24 * j) pp.parent_offset = - (o0 + 24 * j).
Proof.
  intros Hb Ho Hpc Hmax.
  destruct (for_range_inv (fun i (a : Z * Z) m' =>
      a = (base + 24 * i, o0 + 24 * i)
      /\ same_outside base (base + 24 * i) m m'
      /\ forall j, 0 <= j < i ->
           rd m' (base + 24 * j) pp.size = 24
           /\ rd m' (base + 24 * j) pp.parent_offset = - (o0 + 24 * j))
    0 pc (base, o0) (fun _ '(param_base, offset) =>
      call (ia_css_program_param_init param_base offset) ;;;
      ret (param_base + sizeof_ia_css_program_param_t, u32 (offset + sizeof_ia_css_program_param_t))) m)
    as (a' & m' & E & _ & Hso & Hall).
  - exact Hpc.
  - split; [f_equal; lia | split; [apply same_outside_refl | lia]].
  - intros i a m1 Hi (-> & Hso & Hall).
    destruct (program_param_init_ok (base + 24 * i) (o0 + 24 * i) m1) as (m2 & E & Hso2 & Hs & Hp);
      [lia | lia |].
    exists (base + 24 * (i + 1), o0 + 24 * (i + 1)), m2. unfold sizeof_ia_css_program_param_t in *.
    split; [| split; [reflexivity | split]].
    + mrun. rewrite E. cbv iota beta. unfold u32. rewrite Z.mod_small by lia.
      do 3 f_equal; lia.
    + eapply same_outside_trans; (eapply same_outside_weaken; [| | eassumption]); lia.
    + intros j Hj. destruct (Z.eq_dec j i) as [-> | Hne]; [auto |].
      rewrite !(rd_same_outside _ _ _ _ _ _ Hso2) by mem_out. apply Hall. lia.
  - exists a', m'. auto.
Qed.

Lemma init_terminal_params_ok base o0 tc fft m :
  0 < base -> 0 <= o0 -> 0 <= tc -> o0 + 32 * tc < 2 ^ 31 ->
  fft + 4 * tc <= base \/ base + 32 * tc <= fft ->
  exists a m', init_terminal_params tc fft (base, o0) m = (Some a, m')
    /\ same_outside base (base + 32 * tc) m m'
    /\ forall j, 0 <= j < tc ->
         rd m' (base + 32 * j) tp.size = 32
         /\ rd m' (base + 32 * j) tp.parent_offset = - (o0 + 32 * j)
         /\ rd m' (base + 32 * j) tp.frame_format_type = rd m fft (elt (U32 0) j).
Proof.
  intros Hb Ho Htc Hmax Hdisj.
  destruct (for_range_inv (fun i (a : Z * Z) m' =>
      a = (base + 32 * i, o0 + 32 * i)
      /\ same_outside base (base + 32 * i) m m'
      /\ forall j, 0 <= j < i ->
           rd m' (base + 32 * j) tp.size = 32
           /\ rd m' (base + 32 * j) tp.parent_offset = - (o0 + 32 * j)
           /\ rd m' (base + 32 * j) tp.frame_format_type = rd m fft (elt (U32 0) j))
    0 tc (base, o0) (fun i '(param_base, offset) =>
      frame_format_type <- gets (fun m => rd m fft (elt (U32 0) i)) ;;
      call (ia_css_terminal_param_init param_base offset frame_format_type) ;;;
      ret (param_base + sizeof_ia_css_terminal_param_t,
           u32 (offset + sizeof_ia_css_terminal_param_t))) m)
    as (a' & m' & E & _ & Hso & Hall).
  - exact Htc.
  - split; [f_equal; lia | split; [apply same_outside_refl | lia]].
  - intros i a m1 Hi (-> & Hso & Hall).
    destruct (terminal_param_init_ok (base + 32 * i) (o0 + 32 * i) (rd m1 fft (elt (U32 0) i)) m1)
      as (m2 & E & Hso2 & Hs & Hp & Hf); [lia | lia | apply rd_range; reflexivity |].
    rewrite (rd_same_outside _ _ _ _ _ _ Hso) in Hf by mem_out.
    exists (base + 32 * (i + 1), o0 + 32 * (i + 1)), m2. unfold sizeof_ia_css_terminal_param_t in *.
    split; [| split; [reflexivity | split]].
    + mrun. rewrite E. cbv iota beta. unfold u32. rewrite Z.mod_small by lia.
      do 3 f_equal; lia.
    + eapply same_outside_trans; (eapply same_outside_weaken; [| | eassumption]); lia.
    + intros j Hj. destruct (Z.eq_dec j i) as [-> | Hne]; [auto |].
      rewrite !(rd_same_outside _ _ _ _ _ _ Hso2) by mem_out. apply Hall. lia.
  - exists a', m'. auto.
Qed.

(** ** The initialised blob *)

(** Bytes the layout takes: one program parameter per program. *)
Definition param_extent (program_count terminal_count : Z) : Z :=
  40 + 24 * program_count + 32 * terminal_count.

(** What a client of the blob relies on. *)
Record param_blob (m : mem) (blob pc tc fc : Z) : Prop := {
  pb_pc : ia_css_program_group_param_get_program_count m blob = pc;
  pb_tc : ia_css_program_group_param_get_terminal_count m blob = tc;
  pb_fc : rd m blob pgp.fragment_count = fc;
  pb_proto : ia_css_program_group_param_get_protocol_version m blob
             = IA_CSS_PROCESS_GROUP_PROTOCOL_LEGACY;
  pb_size : ia_css_program_group_param_get_size m blob
            = u32 (ia_css_sizeof_program_group_param pc tc fc);
  pb_programs : forall i, 0 <= i < pc ->
    let p := ia_css_program_group_param_get_program_param m blob i in
    p = blob + 40 + 24 * i
    /\ ia_css_program_param_get_size m p = sizeof_ia_css_program_param_t
    /\ ia_css_program_param_get_kernel_enable_bitmap m p
       = ia_css_program_group_param_get_kernel_enable_bitmap m blob;
  pb_terminals : forall i, 0 <= i < tc ->
    let t := ia_css_program_group_param_get_terminal_param m blob i in
    t = blob + 40 + 24 * pc + 32 * i
    /\ ia_css_terminal_param_get_size m t = sizeof_ia_css_terminal_param_t
    /\ ia_css_terminal_param_get_parent m t = blob
    /\ ia_css_terminal_param_get_kernel_enable_bitmap m t
       = ia_css_program_group_param_get_kernel_enable_bitmap m blob
}.

Lemma init_header_fields blob pc tc fc m :
  0 <= pc < 2 ^ 8 -> 0 <= tc < 2 ^ 8 -> 0 <= fc < 2 ^ 16 ->
  let m1 := wr (wr (wr (wr (wr m blob pgp.program_count pc) blob pgp.fragment_count fc)
                blob pgp.terminal_count tc) blob pgp.program_param_offset 40)
                blob pgp.terminal_param_offset (40 + 24 * pc) in
  same_outside blob (blob + 40) m m1
  /\ rd_kb m1 blob pgp.kernel_enable_bitmap = rd_kb m blob pgp.kernel_enable_bitmap
  /\ rd m1 blob pgp.program_count = pc /\ rd m1 blob pgp.terminal_count = tc
  /\ rd m1 blob pgp.fragment_count = fc /\ rd m1 blob pgp.program_param_offset = 40
  /\ rd m1 blob pgp.terminal_param_offset = 40 + 24 * pc.
Proof.
  intros Hpc Htc Hfc. cbv zeta. split.
  { do 4 (eapply same_outside_trans; [| apply wr_same_outside; mem_out]).
    apply wr_same_outside; mem_out. }
  split; [rewrite !rd_kb_wr_out by mem_out; reflexivity |].
  mem_read. rewrite !f_conv_U8, f_conv_U16, !f_conv_U32 by lia. auto.
Qed.

(** What each program parameter, terminal parameter and header field holds
    once both loops have run, before the last two stores. *)
Lemma init_final blob pc tc fc m3 :
  0 < blob -> 0 <= pc < 2 ^ 8 -> 0 <= tc < 2 ^ 8 -> 0 <= fc < 2 ^ 16 ->
  rd m3 blob pgp.program_count = pc -> rd m3 blob pgp.terminal_count = tc ->
  rd m3 blob pgp.fragment_count = fc -> rd m3 blob pgp.program_param_offset = 40 ->
  rd m3 blob pgp.terminal_param_offset = 40 + 24 * pc ->
  (forall j, 0 <= j < pc -> rd m3 (blob + 40 + 24 * j) pp.size = 24
     /\ rd m3 (blob + 40 + 24 * j) pp.parent_offset = - (40 + 24 * j)) ->
  (forall j, 0 <= j < tc -> rd m3 (blob + 40 + 24 * pc + 32 * j) tp.size = 32
     /\ rd m3 (blob + 40 + 24 * pc + 32 * j) tp.parent_offset = - (40 + 24 * pc + 32 * j)) ->
  param_blob (wr (wr m3 blob pgp.protocol_version IA_CSS_PROCESS_GROUP_PROTOCOL_LEGACY)
                 blob pgp.size (ia_css_sizeof_program_group_param pc tc fc)) blob pc tc fc.
Proof.
  intros Hb Hpc Htc Hfc Epc Etc Efc Epo Eto AP AT.
  assert (N : is_null blob = false) by (apply not_null, Hb).
  split.
  - unfold ia_css_program_group_param_get_program_count. rewrite N. mem_read. exact Epc.
  - unfold ia_css_program_group_param_get_terminal_count. rewrite N. mem_read. exact Etc.
  - mem_read. exact Efc.
  - unfold ia_css_program_group_param_get_protocol_version. rewrite N. mem_read. reflexivity.
  - unfold ia_css_program_group_param_get_size. rewrite N. mem_read. reflexivity.
  - intros i Hi. specialize (AP i Hi). destruct AP as [A1 A2].
    assert (E : forall k, ia_css_program_group_param_get_program_param
        (wr (wr m3 blob pgp.protocol_version IA_CSS_PROCESS_GROUP_PROTOCOL_LEGACY)
            blob pgp.size k) blob i = blob + 40 + 24 * i).
    { intros k. unfold ia_css_program_group_param_get_program_param,
        ia_css_program_group_param_get_program_count. rewrite N. mem_read.
      autounfold with layout in *. rewrite Epc, Epo.
      destruct (Z.ltb_spec i pc); lia. }
    cbv zeta. rewrite E. split; [reflexivity |].
    unfold ia_css_program_param_get_size, ia_css_program_param_get_kernel_enable_bitmap,
      ia_css_program_group_param_get_kernel_enable_bitmap.
    rewrite N, not_null by lia. mem_read. autounfold with layout in *. rewrite A1, A2.
    split; [reflexivity |]. destruct (Z.eqb_spec (- (40 + 24 * i)) 0); [lia |].
    f_equal. lia.
  - intros i Hi. specialize (AT i Hi). destruct AT as [A1 A2].
    assert (E : forall k, ia_css_program_group_param_get_terminal_param
        (wr (wr m3 blob pgp.protocol_version IA_CSS_PROCESS_GROUP_PROTOCOL_LEGACY)
            blob pgp.size k) blob i = blob + 40 + 24 * pc + 32 * i).
    { intros k. unfold ia_css_program_group_param_get_terminal_param,
        ia_css_program_group_param_get_terminal_count. rewrite N. mem_read.
      autounfold with layout in *. rewrite Etc, Eto.
      destruct (Z.ltb_spec i tc); lia. }
    cbv zeta. rewrite E. split; [reflexivity |].
    unfold ia_css_terminal_param_get_size, ia_css_terminal_param_get_parent,
      ia_css_terminal_param_get_kernel_enable_bitmap,
      ia_css_program_group_param_get_kernel_enable_bitmap.
    rewrite N, not_null by lia. mem_read. autounfold with layout in *. rewrite A1, A2.
    split; [reflexivity | split; [lia |]].
    destruct (Z.eqb_spec (- (40 + 24 * pc + 32 * i)) 0); [lia |]. f_equal. lia.
Qed.

Lemma init_ok blob pc tc fc fft m :
  0 < blob -> 0 < fft -> 0 <= pc < 2 ^ 8 -> 0 <= tc < 2 ^ 8 -> 0 <= fc < 2 ^ 16 ->
  fft + 4 * tc <= blob \/ blob + param_extent pc tc <= fft ->
  exists m', ia_css_program_group_param_init blob pc tc fc fft m = (0, m')
    /\ same_outside blob (blob + param_extent pc tc) m m'
    /\ param_blob m' blob pc tc fc
    /\ ia_css_program_group_param_get_kernel_enable_bitmap m' blob
       = ia_css_program_group_param_get_kernel_enable_bitmap m blob
    /\ forall i, 0 <= i < tc ->
         rd m' (blob + 40 + 24 * pc + 32 * i) tp.frame_format_type
         = rd m fft (elt (U32 0) i).
Proof.
  intros Hb Hf Hpc Htc Hfc Hdisj. unfold param_extent in *.
  destruct (init_header_fields blob pc tc fc m Hpc Htc Hfc) as (S1 & K1 & P1 & T1 & F1 & O1 & O2).
  set (m1 := wr _ _ pgp.terminal_param_offset _) in *.
  destruct (init_program_params_ok (blob + 40) 40 pc m1) as (a2 & m2 & E2 & S2 & A2);
    [lia | lia | lia | lia |].
  destruct (init_terminal_params_ok (blob + (40 + 24 * pc)) (40 + 24 * pc) tc fft m2)
    as (a3 & m3 & E3 & S3 & A3); [lia | lia | lia | lia | lia |].
  assert (H3 : forall f, f_off f + Z.of_nat (f_len f) <= 40 -> rd m3 blob f = rd m1 blob f).
  { intros f Hfl. rewrite (rd_same_outside _ _ _ _ _ _ S3), (rd_same_outside _ _ _ _ _ _ S2);
      [reflexivity | lia | lia]. }
  eexists. split; [| split; [| split; [| split]]].
  - unfold ia_css_program_group_param_init. mrun.
    rewrite !not_null by lia. cbn [negb].
    assert (W : rd (wr (wr (wr (wr m blob pgp.program_count pc) blob pgp.fragment_count fc)
        blob pgp.terminal_count tc) blob pgp.program_param_offset
        sizeof_ia_css_program_group_param_t) blob pgp.program_param_offset = 40).
    { mem_read. reflexivity. }
    rewrite W.
    change (40 + sizeof_ia_css_program_param_t * pc) with (40 + 24 * pc).
    fold m1.
    change (wr (wr (wr (wr (wr m blob pgp.program_count pc) blob pgp.fragment_count fc) blob
      pgp.terminal_count tc) blob pgp.program_param_offset sizeof_ia_css_program_group_param_t) blob
      pgp.terminal_param_offset (40 + 24 * pc)) with m1.
    rewrite E2. rewrite (rd_same_outside _ _ _ _ _ pgp.terminal_param_offset S2) by mem_out.
    rewrite O2. rewrite E3. reflexivity.
  - eapply same_outside_trans; [eapply same_outside_weaken; [| | exact S1]; lia |].
    eapply same_outside_trans; [eapply same_outside_weaken; [| | exact S2]; lia |].
    eapply same_outside_trans; [eapply same_outside_weaken; [| | exact S3]; lia |].
    eapply same_outside_trans; apply wr_same_outside; mem_out.
  - apply init_final; try assumption; rewrite ?H3 by mem_out; try assumption.
    + intros j Hj. rewrite <- !Z.add_assoc.
      rewrite !(rd_same_outside _ _ _ _ _ _ S3) by mem_out.
      rewrite !Z.add_assoc. apply A2, Hj.
    + intros j Hj. destruct (A3 j Hj) as (B1 & B2 & _).
      rewrite Z.add_assoc in B1, B2. auto.
  - unfold ia_css_program_group_param_get_kernel_enable_bitmap. rewrite not_null by exact Hb.
    rewrite !rd_kb_wr_out by mem_out.
    rewrite (rd_kb_same_outside _ _ _ _ _ _ S3), (rd_kb_same_outside _ _ _ _ _ _ S2) by mem_out.
    exact K1.
  - intros i Hi. mem_read. destruct (A3 i Hi) as (_ & _ & B3).
    rewrite Z.add_assoc in B3. autounfold with layout in *. rewrite B3.
    rewrite (rd_same_outside _ _ _ _ _ _ S2), (rd_same_outside _ _ _ _ _ _ S1) by mem_out.
    reflexivity.
Qed.

Lemma sizeof_exact pc tc fc :
  0 < pc < 2 ^ 8 -> 0 < tc < 2 ^ 8 -> 0 < fc < 2 ^ 16 ->
  ia_css_sizeof_program_group_param pc tc fc = 40 + 24 * (pc * fc) + 32 * tc
  /\ 0 <= 40 + 24 * (pc * fc) + 32 * tc < 2 ^ 32.
Proof.
  intros Hp Ht Hf. unfold ia_css_sizeof_program_group_param.
  rewrite !(proj2 (Z.eqb_neq _ _)) by lia. cbn [negb andb]. autounfold with layout.
  split; [cbv zeta; lia | nia].
Qed.

(** ** Theorems *)

(** Initialising a blob that does not overlap the array of frame
    formats succeeds, writes nothing outside the blob's layout, keeps the
    kernel bitmap, and leaves a blob in which every program and terminal
    parameter is found at its slot, has its size, leads back to the blob and
    to the blob's kernel bitmap, and every terminal has the format asked for. *)
Theorem program_group_param_init_builds_blob blob pc tc fc fft m :
  0 < blob -> 0 < fft -> 0 <= pc < 2 ^ 8 -> 0 <= tc < 2 ^ 8 -> 0 <= fc < 2 ^ 16 ->
  fft + 4 * tc <= blob \/ blob + param_extent pc tc <= fft ->
  exists m', ia_css_program_group_param_init blob pc tc fc fft m = (0, m')
    /\ same_outside blob (blob + param_extent pc tc) m m'
    /\ param_blob m' blob pc tc fc
    /\ ia_css_program_group_param_get_kernel_enable_bitmap m' blob
       = ia_css_program_group_param_get_kernel_enable_bitmap m blob
    /\ forall i, 0 <= i < tc ->
         ia_css_terminal_param_get_frame_format_type m'
           (ia_css_program_group_param_get_terminal_param m' blob i)
         = rd m fft (elt (U32 0) i).
Proof.
  intros Hb Hf Hpc Htc Hfc Hd.
  destruct (init_ok blob pc tc fc fft m Hb Hf Hpc Htc Hfc Hd) as (m' & E & S & B & K & F).
  exists m'. split; [exact E | split; [exact S | split; [exact B | split; [exact K |]]]].
  intros i Hi. destruct (pb_terminals _ _ _ _ _ B i Hi) as [-> _].
  unfold ia_css_terminal_param_get_frame_format_type. rewrite not_null by lia. apply F, Hi.
Qed.

Lemma program_group_param_init_builds_blob_witness :
  exists m', ia_css_program_group_param_init 1000 2 3 1 500 (fun _ => 7) = (0, m')
    /\ param_blob m' 1000 2 3 1.
Proof.
  destruct (program_group_param_init_builds_blob 1000 2 3 1 500 (fun _ => 7))
    as (m' & E & _ & B & _); unfold param_extent; try lia.
  exists m'. split; [exact E | exact B].
Defined.

(** The size the blob records is exact (no 32-bit wrap) and covers
    what [init] lays out; it is larger as soon as there is more than one
    fragment, because it counts a program parameter per fragment while [init]
    lays out one per program. *)
Theorem program_group_param_size_covers_layout pc tc fc :
  0 < pc < 2 ^ 8 -> 0 < tc < 2 ^ 8 -> 0 < fc < 2 ^ 16 ->
  u32 (ia_css_sizeof_program_group_param pc tc fc) = ia_css_sizeof_program_group_param pc tc fc
  /\ param_extent pc tc <= ia_css_sizeof_program_group_param pc tc fc
  /\ (ia_css_sizeof_program_group_param pc tc fc = param_extent pc tc <-> fc = 1).
Proof.
  intros Hp Ht Hf. destruct (sizeof_exact pc tc fc Hp Ht Hf) as [E R]. rewrite E.
  unfold param_extent. split; [apply Z.mod_small, R | split; [nia |]].
  split; [intros H; nia | intros ->; lia].
Qed.

Lemma program_group_param_size_covers_layout_witness :
  param_extent 2 3 < ia_css_sizeof_program_group_param 2 3 4.
Proof.
  destruct (program_group_param_size_covers_layout 2 3 4) as (_ & H & N); lia.
Defined.

(** The fragment count read back is the stored 16-bit count modulo 256:
    the count asked for is returned exactly when it is below 256. *)
Theorem program_group_param_fragment_count_truncated m blob pc tc fc :
  param_blob m blob pc tc fc -> 0 < blob -> 0 <= fc < 2 ^ 16 ->
  ia_css_program_group_param_get_fragment_count m blob = fc mod 256
  /\ (ia_css_program_group_param_get_fragment_count m blob = fc <-> fc < 256).
Proof.
  intros B Hb Hf. unfold ia_css_program_group_param_get_fragment_count.
  rewrite not_null by exact Hb. rewrite (pb_fc _ _ _ _ _ B). unfold u8. change (2 ^ 8) with 256.
  split; [reflexivity |]. split; intros H.
  - rewrite <- H. apply Z.mod_pos_bound. lia.
  - apply Z.mod_small. lia.
Qed.

Lemma program_group_param_fragment_count_truncated_witness :
  exists m', ia_css_program_group_param_get_fragment_count m' 1000 = 44.
Proof.
  destruct (init_ok 1000 2 3 300 500 (fun _ => 7)) as (m' & _ & _ & B & _);
    unfold param_extent; try lia.
  exists m'. apply (program_group_param_fragment_count_truncated m' 1000 2 3 300 B); lia.
Defined.

(** Every field of a terminal parameter reads back what was stored
    (reduced to the field's width), the program group parameter's bitmap and
    protocol version read back too, and a null object is refused with -1 and
    no store. *)
Theorem program_group_param_set_get m p v w b :
  kb_wf b ->
  (0 < p ->
   ia_css_terminal_param_get_stride (snd (ia_css_terminal_param_set_stride p v m)) p = u32 v
   /\ ia_css_terminal_param_get_bpp (snd (ia_css_terminal_param_set_bpp p v m)) p = u8 v
   /\ ia_css_terminal_param_get_frame_format_type
        (snd (ia_css_terminal_param_set_frame_format_type p v m)) p = u32 v
   /\ ia_css_terminal_param_get_dimensions
        (snd (ia_css_terminal_param_set_dimensions p (v, w) m)) p = Some (u16 v, u16 w)
   /\ ia_css_program_group_param_get_protocol_version
        (snd (ia_css_program_group_param_set_protocol_version p v m)) p = u8 v
   /\ ia_css_program_group_param_get_kernel_enable_bitmap
        (snd (ia_css_program_group_param_set_kernel_enable_bitmap p b m)) p = b)
  /\ ia_css_terminal_param_set_stride NULL v m = (-1, m)
  /\ ia_css_terminal_param_set_bpp NULL v m = (-1, m)
  /\ ia_css_terminal_param_set_dimensions NULL (v, w) m = (-1, m)
  /\ ia_css_program_group_param_set_kernel_enable_bitmap NULL b m = (-1, m)
  /\ (forall pc tc fc fft, ia_css_program_group_param_init NULL pc tc fc fft m = (-1, m)).
Proof.
  intros Hwf. split; [| repeat split].
  intros Hp. unfold ia_css_terminal_param_get_stride, ia_css_terminal_param_set_stride,
    ia_css_terminal_param_get_bpp, ia_css_terminal_param_set_bpp,
    ia_css_terminal_param_get_frame_format_type, ia_css_terminal_param_set_frame_format_type,
    ia_css_terminal_param_get_dimensions, ia_css_terminal_param_set_dimensions,
    ia_css_program_group_param_get_protocol_version,
    ia_css_program_group_param_set_protocol_version,
    ia_css_program_group_param_get_kernel_enable_bitmap,
    ia_css_program_group_param_set_kernel_enable_bitmap. mrun.
  rewrite !not_null by exact Hp. cbn [negb snd fst]. mem_read.
  rewrite rd_kb_wr_same by exact Hwf. repeat split.
Qed.

Lemma program_group_param_set_get_witness :
  ia_css_terminal_param_get_dimensions
    (snd (ia_css_terminal_param_set_dimensions 64 (1920, 1080) (fun _ => 0))) 64
  = Some (1920, 1080).
Proof.
  apply (program_group_param_set_get (fun _ => 0) 64 1920 1080 [0; 0; 0; 0]);
    [apply kb_wf_4; lia | lia].
Defined.
