(* ===== verification/ProgramManifest.v ===== *)
(** * Program manifests

    src/ia_css_psys_program_manifest.c and
    include/ia_css_psys_program_manifest_impl.h: the metadata of one program
    of a program group, followed by an optional extension, its program
    dependencies and its terminal dependencies, all reached by byte offsets
    stored in the header.  The header of the enclosing program group manifest
    is here as far as programs read it. *)

From S2P Require Import Prelude Memory ResourceModel KernelBitmap.
#[local] Open Scope css_scope.

(** ** Layout *)

Definition IA_CSS_PROCESS_MAX_CELLS : Z := 1.
Definition IA_CSS_MAX_INPUT_DEC_RESOURCES : Z := 4.
Definition IA_CSS_MAX_OUTPUT_DEC_RESOURCES : Z := 4.
Definition IA_CSS_PROGRAM_INVALID_DEPENDENCY : Z := 255.
Definition IA_CSS_PROGRAM_INVALID_DEC_CONFIG : Z := 255.
Definition IA_CSS_PROGRAM_INVALID_ID : Z := 255.
Definition IA_CSS_PROGRAM_MANIFEST_RESOURCE_OFFSET_IS_RELOCATABLE : Z := 65535.

Definition IA_CSS_PROGRAM_TYPE_SINGULAR : Z := 0.
Definition IA_CSS_PROGRAM_TYPE_EXCLUSIVE_SUB : Z := 1.
Definition IA_CSS_PROGRAM_TYPE_EXCLUSIVE_SUPER : Z := 2.
Definition IA_CSS_PROGRAM_TYPE_PARALLEL_SUB : Z := 3.
Definition IA_CSS_PROGRAM_TYPE_PARALLEL_SUPER : Z := 4.
Definition IA_CSS_PROGRAM_TYPE_VIRTUAL_SUB : Z := 5.
Definition IA_CSS_PROGRAM_TYPE_VIRTUAL_SUPER : Z := 6.
Definition IA_CSS_N_PROGRAM_TYPES : Z := 7.

(** [struct ia_css_program_manifest_s]. *)
Module pm.
Definition kernel_bitmap := U32 0.
Definition parent_offset := S16 16.
Definition program_dependency_offset := U8 18.
Definition terminal_dependency_offset := U8 19.
Definition size := U8 20.
Definition program_extension_offset := U8 21.
Definition program_type := U8 22.
Definition ID := U8 23.
Definition cells := U8 24.
Definition cell_type_id := U8 25.
Definition program_dependency_count := U8 26.
Definition terminal_dependency_count := U8 27.
Definition layout : list (field * Z) :=
  [(kernel_bitmap, 4); (parent_offset, 1); (program_dependency_offset, 1);
   (terminal_dependency_offset, 1); (size, 1); (program_extension_offset, 1);
   (program_type, 1); (ID, 1); (cells, IA_CSS_PROCESS_MAX_CELLS); (cell_type_id, 1);
   (program_dependency_count, 1); (terminal_dependency_count, 1)].
End pm.
Definition sizeof_ia_css_program_manifest_t : Z := 28.

(** [struct ia_css_program_manifest_ext_s]. *)
Module pme.
Definition dfm_port_bitmap := U32 0.
Definition dfm_active_port_bitmap := U32 24.
Definition ext_mem_size := U16 48.
Definition ext_mem_offset := U16 60.
Definition dev_chn_size := U16 72.
Definition dev_chn_offset := U16 82.
Definition is_dfm_relocatable := U8 92.
Definition dec_resources_input := U8 98.
Definition dec_resources_input_terminal := U8 102.
Definition dec_resources_output := U8 106.
Definition dec_resources_output_terminal := U8 110.
Definition padding := U8 114.
Definition layout : list (field * Z) :=
  [(dfm_port_bitmap, 6); (dfm_active_port_bitmap, 6); (ext_mem_size, 6); (ext_mem_offset, 6);
   (dev_chn_size, 5); (dev_chn_offset, 5); (is_dfm_relocatable, 6); (dec_resources_input, 4);
   (dec_resources_input_terminal, 4); (dec_resources_output, 4);
   (dec_resources_output_terminal, 4); (padding, 2)].
End pme.
Definition sizeof_ia_css_program_manifest_ext_t : Z := 116.

(** [struct ia_css_program_group_manifest_s]. *)
Module pgm.
Definition kernel_bitmap := U32 0.
Definition ID := U32 16.
Definition program_manifest_offset := U16 20.
Definition terminal_manifest_offset := U16 22.
Definition private_data_offset := U16 24.
Definition rbm_manifest_offset := U16 26.
Definition size := U16 28.
Definition alignment := U8 30.
Definition kernel_count := U8 31.
Definition program_count := U8 32.
Definition terminal_count := U8 33.
Definition subgraph_count := U8 34.
Definition reserved := U8 35.
Definition layout : list (field * Z) :=
  [(kernel_bitmap, 4); (ID, 1); (program_manifest_offset, 1); (terminal_manifest_offset, 1);
   (private_data_offset, 1); (rbm_manifest_offset, 1); (size, 1); (alignment, 1);
   (kernel_count, 1); (program_count, 1); (terminal_count, 1); (subgraph_count, 1);
   (reserved, 5)].
End pgm.
Definition sizeof_ia_css_program_group_manifest_t : Z := 40.

#[export] Hint Unfold pm.kernel_bitmap pm.parent_offset pm.program_dependency_offset
  pm.terminal_dependency_offset pm.size pm.program_extension_offset pm.program_type pm.ID
  pm.cells pm.cell_type_id pm.program_dependency_count pm.terminal_dependency_count
  sizeof_ia_css_program_manifest_t pme.dfm_port_bitmap pme.dfm_active_port_bitmap
  pme.ext_mem_size pme.ext_mem_offset pme.dev_chn_size pme.dev_chn_offset
  pme.is_dfm_relocatable pme.dec_resources_input pme.dec_resources_input_terminal
  pme.dec_resources_output pme.dec_resources_output_terminal
  sizeof_ia_css_program_manifest_ext_t pgm.kernel_bitmap pgm.ID pgm.program_manifest_offset
  pgm.terminal_manifest_offset pgm.private_data_offset pgm.rbm_manifest_offset pgm.size
  pgm.alignment pgm.kernel_count pgm.program_count pgm.terminal_count pgm.subgraph_count
  sizeof_ia_css_program_group_manifest_t : layout.

Lemma manifest_layouts :
  tiles pm.layout sizeof_ia_css_program_manifest_t = true
  /\ tiles pme.layout sizeof_ia_css_program_manifest_ext_t = true
  /\ tiles pgm.layout sizeof_ia_css_program_group_manifest_t = true.
Proof. split; [| split]; reflexivity. Qed.

(** ** The enclosing program group manifest (ia_css_psys_program_group_manifest_impl.h) *)

Definition ia_css_program_group_manifest_get_program_count (m : mem) (manifest : Z) : Z :=
  if is_null manifest then 0 else rd m manifest pgm.program_count.

Definition ia_css_program_group_manifest_get_terminal_count (m : mem) (manifest : Z) : Z :=
  if is_null manifest then 0 else rd m manifest pgm.terminal_count.

(** ** Getters of the header *)

Section Getters.
Context {P : Platform} (m : mem).

Definition ia_css_program_manifest_get_extension (program : Z) : Z :=
  if is_null program then NULL
  else if negb (rd m program pm.program_extension_offset =? 0)
  then program + rd m program pm.program_extension_offset
  else NULL.

Definition ia_css_program_manifest_get_size (manifest : Z) : Z :=
  if is_null manifest then 0 else rd m manifest pm.size.

Definition ia_css_program_manifest_get_program_ID (manifest : Z) : Z :=
  if is_null manifest then IA_CSS_PROGRAM_INVALID_ID else rd m manifest pm.ID.

Definition ia_css_program_manifest_get_parent (manifest : Z) : Z :=
  if is_null manifest then NULL
  else let base := manifest + rd m manifest pm.parent_offset in base.

Definition ia_css_program_manifest_get_cell_type_ID (manifest : Z) : Z :=
  if is_null manifest then VIED_NCI_N_CELL_TYPE_ID else rd m manifest pm.cell_type_id.

(** The loop over the other cells only asserts; there are none. *)
Definition ia_css_program_manifest_get_cell_ID (manifest : Z) : Z :=
  if is_null manifest then VIED_NCI_N_CELL_ID else rd m manifest (elt pm.cells 0).

Definition ia_css_program_manifest_get_type (manifest : Z) : Z :=
  if is_null manifest then IA_CSS_N_PROGRAM_TYPES else rd m manifest pm.program_type.

Definition ia_css_program_manifest_get_terminal_dependency_count (manifest : Z) : Z :=
  if is_null manifest then 0 else rd m manifest pm.terminal_dependency_count.

Definition ia_css_program_manifest_get_program_dependency_count (manifest : Z) : Z :=
  if is_null manifest then 0 else rd m manifest pm.program_dependency_count.

Definition ia_css_program_manifest_get_kernel_bitmap (manifest : Z) : ia_css_kernel_bitmap_t :=
  if is_null manifest then ia_css_kernel_bitmap_clear else rd_kb m manifest pm.kernel_bitmap.

Definition ia_css_has_program_manifest_fixed_cell (manifest : Z) : bool :=
  if is_null manifest then false
  else
    let cell_id := ia_css_program_manifest_get_cell_ID manifest in
    let cell_type_id := ia_css_program_manifest_get_cell_type_ID manifest in
    negb (cell_id =? VIED_NCI_N_CELL_ID) && (cell_type_id =? VIED_NCI_N_CELL_TYPE_ID).

(** [1 << cell] on [int]: [None] where the C shift has no meaning. *)
Definition shift1 (cell : Z) : option Z :=
  if cell <? 32 then Some (u32 (Z.shiftl 1 cell)) else None.

Definition ia_css_program_manifest_get_cells_bitmap (manifest : Z) : option Z :=
  if is_null manifest then Some 0
  else foldl (fun bitmap i =>
         if negb (VIED_NCI_N_CELL_ID =? rd m manifest (elt pm.cells i)) then
           match bitmap, shift1 (rd m manifest (elt pm.cells i)) with
           | Some b, Some s => Some (Z.lor b s)
           | _, _ => None
           end
         else bitmap)
       (Some 0) (range 0 IA_CSS_PROCESS_MAX_CELLS).

Definition ia_css_is_program_manifest_subnode_program_type (manifest : Z) : bool :=
  let program_type := ia_css_program_manifest_get_type manifest in
  (program_type =? IA_CSS_PROGRAM_TYPE_PARALLEL_SUB)
  || (program_type =? IA_CSS_PROGRAM_TYPE_EXCLUSIVE_SUB)
  || (program_type =? IA_CSS_PROGRAM_TYPE_VIRTUAL_SUB).

Definition ia_css_is_program_manifest_supernode_program_type (manifest : Z) : bool :=
  let program_type := ia_css_program_manifest_get_type manifest in
  (program_type =? IA_CSS_PROGRAM_TYPE_PARALLEL_SUPER)
  || (program_type =? IA_CSS_PROGRAM_TYPE_EXCLUSIVE_SUPER)
  || (program_type =? IA_CSS_PROGRAM_TYPE_VIRTUAL_SUPER).

Definition ia_css_is_program_manifest_singular_program_type (manifest : Z) : bool :=
  let program_type := ia_css_program_manifest_get_type manifest in
  program_type =? IA_CSS_PROGRAM_TYPE_SINGULAR.
End Getters.

(** ** Getters of the extension and of the dependency lists *)

Section Ext_getters.
Context {P : Platform} (m : mem).

Definition ia_css_program_manifest_get_int_mem_size (manifest mem_type_id : Z) : Z := 0.

Definition ia_css_program_manifest_get_input_terminal_id (manifest idx : Z) : Z :=
  if is_null manifest then IA_CSS_PROGRAM_INVALID_DEC_CONFIG
  else if negb (idx <? IA_CSS_MAX_INPUT_DEC_RESOURCES) then IA_CSS_PROGRAM_INVALID_DEC_CONFIG
  else
    let manifest_ext := ia_css_program_manifest_get_extension m manifest in
    if is_null manifest_ext then IA_CSS_PROGRAM_INVALID_DEC_CONFIG
    else rd m manifest_ext (elt pme.dec_resources_input_terminal idx).

Definition ia_css_program_manifest_get_output_terminal_id (manifest idx : Z) : Z :=
  if is_null manifest then IA_CSS_PROGRAM_INVALID_DEC_CONFIG
  else if negb (idx <? IA_CSS_MAX_OUTPUT_DEC_RESOURCES) then IA_CSS_PROGRAM_INVALID_DEC_CONFIG
  else
    let manifest_ext := ia_css_program_manifest_get_extension m manifest in
    if is_null manifest_ext then IA_CSS_PROGRAM_INVALID_DEC_CONFIG
    else rd m manifest_ext (elt pme.dec_resources_output_terminal idx).

Definition ia_css_program_manifest_get_input_stream_id (manifest idx : Z) : Z :=
  if is_null manifest then IA_CSS_PROGRAM_INVALID_DEC_CONFIG
  else if negb (idx <? IA_CSS_MAX_INPUT_DEC_RESOURCES) then IA_CSS_PROGRAM_INVALID_DEC_CONFIG
  else
    let manifest_ext := ia_css_program_manifest_get_extension m manifest in
    if is_null manifest_ext then IA_CSS_PROGRAM_INVALID_DEC_CONFIG
    else rd m manifest_ext (elt pme.dec_resources_input idx).

Definition ia_css_program_manifest_get_output_stream_id (manifest idx : Z) : Z :=
  if is_null manifest then IA_CSS_PROGRAM_INVALID_DEC_CONFIG
  else if negb (idx <? IA_CSS_MAX_OUTPUT_DEC_RESOURCES) then IA_CSS_PROGRAM_INVALID_DEC_CONFIG
  else
    let manifest_ext := ia_css_program_manifest_get_extension m manifest in
    if is_null manifest_ext then IA_CSS_PROGRAM_INVALID_DEC_CONFIG
    else rd m manifest_ext (elt pme.dec_resources_output idx).

Definition ia_css_program_manifest_get_is_dfm_relocatable (manifest dfm_type_id : Z) : Z :=
  if is_null manifest then 0
  else if negb (dfm_type_id <? VIED_NCI_N_DEV_DFM_ID) then 0
  else
    let manifest_ext := ia_css_program_manifest_get_extension m manifest in
    if is_null manifest_ext then 0
    else rd m manifest_ext (elt pme.is_dfm_relocatable dfm_type_id).

Definition ia_css_program_manifest_get_dfm_port_bitmap (manifest dfm_type_id : Z) : Z :=
  if is_null manifest then 0
  else if negb (dfm_type_id <? VIED_NCI_N_DEV_DFM_ID) then 0
  else
    let manifest_ext := ia_css_program_manifest_get_extension m manifest in
    if is_null manifest_ext then 0
    else rd m manifest_ext (elt pme.dfm_port_bitmap dfm_type_id).

Definition ia_css_program_manifest_get_dfm_active_port_bitmap (manifest dfm_type_id : Z) : Z :=
  if is_null manifest then 0
  else if negb (dfm_type_id <? VIED_NCI_N_DEV_DFM_ID) then 0
  else
    let manifest_ext := ia_css_program_manifest_get_extension m manifest in
    if is_null manifest_ext then 0
    else rd m manifest_ext (elt pme.dfm_active_port_bitmap dfm_type_id).

Definition ia_css_program_manifest_get_ext_mem_size (manifest mem_type_id : Z) : Z :=
  if is_null manifest then 0
  else if negb (mem_type_id <? VIED_NCI_N_DATA_MEM_TYPE_ID) then 0
  else
    let manifest_ext := ia_css_program_manifest_get_extension m manifest in
    if is_null manifest_ext then 0
    else rd m manifest_ext (elt pme.ext_mem_size mem_type_id).

Definition ia_css_program_manifest_get_ext_mem_offset (manifest mem_type_id : Z) : Z :=
  if is_null manifest then 0
  else if negb (mem_type_id <? VIED_NCI_N_DATA_MEM_TYPE_ID) then 0
  else
    let manifest_ext := ia_css_program_manifest_get_extension m manifest in
    if is_null manifest_ext then 0
    else rd m manifest_ext (elt pme.ext_mem_offset mem_type_id).

Definition ia_css_program_manifest_get_dev_chn_size (manifest dev_chn_id : Z) : Z :=
  if is_null manifest then 0
  else if negb (dev_chn_id <? VIED_NCI_N_DEV_CHN_ID) then 0
  else
    let manifest_ext := ia_css_program_manifest_get_extension m manifest in
    if is_null manifest_ext then 0
    else rd m manifest_ext (elt pme.dev_chn_size dev_chn_id).

Definition ia_css_program_manifest_get_dev_chn_offset (manifest dev_chn_id : Z) : Z :=
  if is_null manifest then 0
  else if negb (dev_chn_id <? VIED_NCI_N_DEV_CHN_ID) then 0
  else
    let manifest_ext := ia_css_program_manifest_get_extension m manifest in
    if is_null manifest_ext then 0
    else rd m manifest_ext (elt pme.dev_chn_offset dev_chn_id).

Definition ia_css_program_manifest_get_terminal_dependency (manifest index : Z) : Z :=
  if is_null manifest then IA_CSS_PROGRAM_INVALID_DEPENDENCY
  else
    let terminal_dependency_count :=
      ia_css_program_manifest_get_terminal_dependency_count m manifest in
    if index <? terminal_dependency_count
    then rd m (manifest + rd m manifest pm.terminal_dependency_offset + index) (U8 0)
    else IA_CSS_PROGRAM_INVALID_DEPENDENCY.

Definition ia_css_program_manifest_get_program_dependency (manifest index : Z) : Z :=
  if is_null manifest then IA_CSS_PROGRAM_INVALID_DEPENDENCY
  else
    let program_dependency_count :=
      ia_css_program_manifest_get_program_dependency_count m manifest in
    if index <? program_dependency_count
    then rd m (manifest + rd m manifest pm.program_dependency_offset + index) (U8 0)
    else IA_CSS_PROGRAM_INVALID_DEPENDENCY.
End Ext_getters.

(** ** Size and initialisation *)

Definition ia_css_sizeof_program_manifest
    (program_needs_extension program_dependency_count terminal_dependency_count : Z) : Z :=
  let size := 0 in
  let size := size + sizeof_ia_css_program_manifest_t in
  let size := if program_needs_extension =? 1
              then CEIL_MUL size 4 + sizeof_ia_css_program_manifest_ext_t else size in
  let size := size + program_dependency_count in
  let size := size + terminal_dependency_count in
  CEIL_MUL size 4.

(** The size is asserted, not checked: the [uint8_t] fields keep its low
    byte. *)
Definition ia_css_program_manifest_init
    (blob program_needs_extension program_dependency_count terminal_dependency_count : Z)
    (m : mem) : mem :=
  if is_null blob then m
  else
    let m := wr m blob pm.ID 1 in
    let m := wr m blob pm.program_dependency_count program_dependency_count in
    let m := wr m blob pm.terminal_dependency_count terminal_dependency_count in
    let size := sizeof_ia_css_program_manifest_t in
    let '(size, m) :=
      if program_needs_extension =? 1 then
        let size := CEIL_MUL size 4 in
        let m := wr m blob pm.program_extension_offset size in
        (size + sizeof_ia_css_program_manifest_ext_t, m)
      else (size, wr m blob pm.program_extension_offset 0) in
    let m := wr m blob pm.program_dependency_offset size in
    let size := size + program_dependency_count in
    let m := wr m blob pm.terminal_dependency_offset size in
    let m := wr m blob pm.size
      (ia_css_sizeof_program_manifest program_needs_extension program_dependency_count
         terminal_dependency_count) in
    m.

(** ** Setters of the header *)

Section Setters.
Context {P : Platform}.

Definition ia_css_program_manifest_set_program_ID (manifest id : Z) (m : mem) : Z * mem :=
  if negb (is_null manifest) then (0, wr m manifest pm.ID id) else (-1, m).

Definition ia_css_program_manifest_set_parent_offset (manifest program_offset : Z) : mem -> Z * mem :=
  with_retval (-1)
    (verifexit (negb (is_null manifest)) ;;;
     wrM manifest pm.parent_offset (signed 16 (- program_offset)) ;;;
     ret 0).

Definition ia_css_program_manifest_set_type (manifest program_type : Z) (m : mem) : Z * mem :=
  if negb (is_null manifest) then (0, wr m manifest pm.program_type program_type) else (-1, m).

Definition ia_css_program_manifest_set_kernel_bitmap
    (manifest : Z) (kernel_bitmap : ia_css_kernel_bitmap_t) (m : mem) : Z * mem :=
  if negb (is_null manifest) then (0, wr_kb m manifest pm.kernel_bitmap kernel_bitmap) else (-1, m).

Definition ia_css_program_manifest_set_cell_ID (manifest cell_id : Z) : mem -> Z * mem :=
  with_retval (-1)
    (if negb (is_null manifest) then
       wrM manifest (elt pm.cells 0) cell_id ;;;
       for_each (range 1 IA_CSS_PROCESS_MAX_CELLS) tt (fun i _ =>
         wrM manifest (elt pm.cells i) VIED_NCI_N_CELL_ID) ;;;
       ret 0
     else ret (-1)).

Definition ia_css_program_manifest_set_cell_type_ID (manifest cell_type_id : Z) (m : mem) : Z * mem :=
  if negb (is_null manifest) then (0, wr m manifest pm.cell_type_id cell_type_id) else (-1, m).

(** [verifexit] inside the loop leaves the cells written so far. *)
Definition ia_css_program_manifest_set_cells_bitmap (manifest bitmap : Z) : mem -> Z * mem :=
  with_retval (-1)
    (if negb (is_null manifest) then
       array_index <- for_each (range 0 VIED_NCI_N_CELL_ID) 0 (fun bit_index array_index =>
         if vied_nci_is_bit_set_in_bitmap bitmap bit_index then
           verifexit (array_index <? IA_CSS_PROCESS_MAX_CELLS) ;;;
           wrM manifest (elt pm.cells array_index) bit_index ;;;
           ret (array_index + 1)
         else ret array_index) ;;
       for_each (range array_index IA_CSS_PROCESS_MAX_CELLS) tt (fun array_index _ =>
         wrM manifest (elt pm.cells array_index) VIED_NCI_N_CELL_ID) ;;;
       ret 0
     else ret (-1)).
End Setters.

(** ** Setters of the extension *)

Section Ext_setters.
Context {P : Platform}.

Definition ia_css_program_manifest_set_input_terminal_id (manifest idx val : Z) (m : mem) : mem :=
  if negb (is_null manifest) then
    let manifest_ext := ia_css_program_manifest_get_extension m manifest in
    if is_null manifest_ext then m
    else wr m manifest_ext (elt pme.dec_resources_input_terminal idx) val
  else m.

Definition ia_css_program_manifest_set_output_terminal_id (manifest idx val : Z) (m : mem) : mem :=
  if negb (is_null manifest) then
    let manifest_ext := ia_css_program_manifest_get_extension m manifest in
    if is_null manifest_ext then m
    else wr m manifest_ext (elt pme.dec_resources_output_terminal idx) val
  else m.

Definition ia_css_program_manifest_set_input_stream_id (manifest idx val : Z) (m : mem) : mem :=
  if negb (is_null manifest) then
    let manifest_ext := ia_css_program_manifest_get_extension m manifest in
    if is_null manifest_ext then m
    else wr m manifest_ext (elt pme.dec_resources_input idx) val
  else m.

Definition ia_css_program_manifest_set_output_stream_id (manifest idx val : Z) (m : mem) : mem :=
  if negb (is_null manifest) then
    let manifest_ext := ia_css_program_manifest_get_extension m manifest in
    if is_null manifest_ext then m
    else wr m manifest_ext (elt pme.dec_resources_output idx) val
  else m.

Definition ia_css_program_manifest_set_dfm_port_bitmap (manifest dfm_type_id bitmap : Z) : mem -> Z * mem :=
  with_retval (-1)
    (verifexit (negb (is_null manifest)) ;;;
     verifexit (dfm_type_id <? VIED_NCI_N_DEV_DFM_ID) ;;;
     manifest_ext <- gets (fun m => ia_css_program_manifest_get_extension m manifest) ;;
     if is_null manifest_ext && (bitmap =? 0) then ret 0
     else
       verifexit (negb (is_null manifest_ext)) ;;;
       wrM manifest_ext (elt pme.dfm_port_bitmap dfm_type_id) bitmap ;;;
       ret 0).

Definition ia_css_program_manifest_set_dfm_active_port_bitmap (manifest dfm_type_id bitmap : Z) : mem -> Z * mem :=
  with_retval (-1)
    (verifexit (negb (is_null manifest)) ;;;
     verifexit (dfm_type_id <? VIED_NCI_N_DEV_DFM_ID) ;;;
     manifest_ext <- gets (fun m => ia_css_program_manifest_get_extension m manifest) ;;
     if is_null manifest_ext && (bitmap =? 0) then ret 0
     else
       verifexit (negb (is_null manifest_ext)) ;;;
       wrM manifest_ext (elt pme.dfm_active_port_bitmap dfm_type_id) bitmap ;;;
       ret 0).

Definition ia_css_program_manifest_set_is_dfm_relocatable (manifest dfm_type_id is_relocatable : Z) : mem -> Z * mem :=
  with_retval (-1)
    (verifexit (negb (is_null manifest)) ;;;
     verifexit (dfm_type_id <? VIED_NCI_N_DEV_DFM_ID) ;;;
     manifest_ext <- gets (fun m => ia_css_program_manifest_get_extension m manifest) ;;
     if is_null manifest_ext then ret 0
     else
       wrM manifest_ext (elt pme.is_dfm_relocatable dfm_type_id) is_relocatable ;;;
       ret 0).

Definition ia_css_program_manifest_set_int_mem_size (manifest mem_type_id int_mem_size : Z) : Z :=
  if negb (int_mem_size =? 0) then -1 else 0.

Definition ia_css_program_manifest_set_ext_mem_size (manifest mem_type_id ext_mem_size : Z) (m : mem) : Z * mem :=
  if is_null manifest then (-1, m)
  else
    let manifest_ext := ia_css_program_manifest_get_extension m manifest in
    if is_null manifest_ext && (ext_mem_size =? 0) then (0, m)
    else if is_null manifest_ext then (-1, m)
    else if negb (is_null manifest) && (mem_type_id <? VIED_NCI_N_DATA_MEM_TYPE_ID)
    then (0, wr m manifest_ext (elt pme.ext_mem_size mem_type_id) ext_mem_size)
    else (-1, m).

Definition ia_css_program_manifest_set_ext_mem_offset (manifest mem_type_id ext_mem_offset : Z) (m : mem) : Z * mem :=
  if is_null manifest then (-1, m)
  else
    let manifest_ext := ia_css_program_manifest_get_extension m manifest in
    if is_null manifest_ext
       && (ext_mem_offset =? IA_CSS_PROGRAM_MANIFEST_RESOURCE_OFFSET_IS_RELOCATABLE) then (0, m)
    else if is_null manifest_ext then (-1, m)
    else if negb (is_null manifest) && (mem_type_id <? VIED_NCI_N_DATA_MEM_TYPE_ID)
    then (0, wr m manifest_ext (elt pme.ext_mem_offset mem_type_id) ext_mem_offset)
    else (-1, m).

Definition ia_css_program_manifest_set_dev_chn_size (manifest dev_chn_id dev_chn_size : Z) (m : mem) : Z * mem :=
  if is_null manifest then (-1, m)
  else
    let manifest_ext := ia_css_program_manifest_get_extension m manifest in
    if is_null manifest_ext && (dev_chn_size =? 0) then (0, m)
    else if is_null manifest_ext then (-1, m)
    else if negb (is_null manifest) && (dev_chn_id <? VIED_NCI_N_DEV_CHN_ID)
    then (0, wr m manifest_ext (elt pme.dev_chn_size dev_chn_id) dev_chn_size)
    else (-1, m).

Definition ia_css_program_manifest_set_dev_chn_offset (manifest dev_chn_id dev_chn_offset : Z) (m : mem) : Z * mem :=
  if is_null manifest then (-1, m)
  else
    let manifest_ext := ia_css_program_manifest_get_extension m manifest in
    if is_null manifest_ext
       && (dev_chn_offset =? IA_CSS_PROGRAM_MANIFEST_RESOURCE_OFFSET_IS_RELOCATABLE) then (0, m)
    else if is_null manifest_ext then (-1, m)
    else if negb (is_null manifest) && (dev_chn_id <? VIED_NCI_N_DEV_CHN_ID)
    then (0, wr m manifest_ext (elt pme.dev_chn_offset dev_chn_id) dev_chn_offset)
    else (-1, m).
End Ext_setters.

(** ** Setters of the dependency lists *)

Definition ia_css_program_manifest_set_program_dependency
    (manifest program_dependency index : Z) (m : mem) : Z * mem :=
  let program_dependency_count := ia_css_program_manifest_get_program_dependency_count m manifest in
  let program_count := ia_css_program_group_manifest_get_program_count m
                         (ia_css_program_manifest_get_parent m manifest) in
  if (index <? program_dependency_count) && (program_dependency <? program_count)
  then (0, wr m (manifest + rd m manifest pm.program_dependency_offset + index) (U8 0)
              program_dependency)
  else (-1, m).

Definition ia_css_program_manifest_set_terminal_dependency
    (manifest terminal_dependency index : Z) (m : mem) : Z * mem :=
  let terminal_dependency_count := ia_css_program_manifest_get_terminal_dependency_count m manifest in
  let terminal_count := ia_css_program_group_manifest_get_terminal_count m
                          (ia_css_program_manifest_get_parent m manifest) in
  if (index <? terminal_dependency_count) && (terminal_dependency <? terminal_count)
  then (0, wr m (manifest + rd m manifest pm.terminal_dependency_offset + index) (U8 0)
              terminal_dependency)
  else (-1, m).

(** ** Well-formed manifests *)

(** The header, the extension, the program dependencies and the terminal
    dependencies follow each other inside the recorded size. *)
Record manifest_wf (m : mem) (p : Z) : Prop := {
  mwf_ptr : 0 < p;
  mwf_ext : rd m p pm.program_extension_offset = 0
            \/ sizeof_ia_css_program_manifest_t <= rd m p pm.program_extension_offset
               /\ rd m p pm.program_extension_offset + sizeof_ia_css_program_manifest_ext_t
                  <= rd m p pm.program_dependency_offset;
  mwf_hdr : sizeof_ia_css_program_manifest_t <= rd m p pm.program_dependency_offset;
  mwf_pdeps : rd m p pm.program_dependency_offset + rd m p pm.program_dependency_count
              <= rd m p pm.terminal_dependency_offset;
  mwf_tdeps : rd m p pm.terminal_dependency_offset + rd m p pm.terminal_dependency_count
              <= rd m p pm.size
}.

(** Well-formedness only reads the header. *)
Lemma manifest_wf_frame m m' p :
  (forall f, f_off f + Z.of_nat (f_len f) <= 28 -> 0 <= f_off f -> rd m' p f = rd m p f) ->
  manifest_wf m p -> manifest_wf m' p.
Proof.
  intros H [W1 W2 W3 W4 W5].
  split; [exact W1 | ..]; rewrite !H by (cbn; lia); assumption.
Qed.

Lemma rd_header_wr_past m p q v f :
  p + 28 <= q -> f_off f + Z.of_nat (f_len f) <= 28 -> rd (wr m q (U8 0) v) p f = rd m p f.
Proof. intros Hq Hf. apply rd_wr_base. cbn. lia. Qed.

(** The bytes a program with these needs takes before alignment. *)
Definition manifest_extent (ext pd td : Z) : Z :=
  28 + (if ext =? 1 then 116 else 0) + pd + td.

Lemma sizeof_program_manifest_extent ext pd td :
  ia_css_sizeof_program_manifest ext pd td = CEIL_MUL (manifest_extent ext pd td) 4.
Proof.
  unfold ia_css_sizeof_program_manifest, manifest_extent. cbv zeta. autounfold with layout.
  destruct (ext =? 1); [change (CEIL_MUL (0 + 28) 4) with 28 |]; f_equal; lia.
Qed.

Lemma manifest_init_reads p ext pd td m :
  0 < p -> 0 <= pd < 2 ^ 8 -> 0 <= td < 2 ^ 8 ->
  let m' := ia_css_program_manifest_init p ext pd td m in
  same_outside p (p + 28) m m'
  /\ rd m' p pm.ID = 1
  /\ rd m' p pm.program_dependency_count = pd /\ rd m' p pm.terminal_dependency_count = td
  /\ rd m' p pm.program_extension_offset = (if ext =? 1 then 28 else 0)
  /\ rd m' p pm.program_dependency_offset = u8 (manifest_extent ext 0 0)
  /\ rd m' p pm.terminal_dependency_offset = u8 (manifest_extent ext pd 0)
  /\ rd m' p pm.size = u8 (ia_css_sizeof_program_manifest ext pd td).
Proof.
  intros Hp Hpd Htd. cbv zeta. unfold ia_css_program_manifest_init, manifest_extent.
  rewrite not_null by exact Hp. cbv zeta.
  destruct (ext =? 1); (split;
    [ repeat (eapply same_outside_trans; [| apply wr_same_outside; mem_out]);
      apply same_outside_refl
    | mem_read; rewrite !f_conv_u8, (u8_small pd), (u8_small td) by lia;
      change (CEIL_MUL 28 4) with 28; repeat split; f_equal; lia ]).
Qed.

(** ** Cells: scanning a resource bitmap into the cell array *)

(** The body of the loop over the bits that both [set_cells_bitmap]
    functions have. *)
Definition cells_scan (p : Z) (f : field) (bitmap bit_index array_index : Z) : M mem Z :=
  if vied_nci_is_bit_set_in_bitmap bitmap bit_index then
    verifexit (array_index <? IA_CSS_PROCESS_MAX_CELLS) ;;;
    wrM p (elt f array_index) bit_index ;;;
    ret (array_index + 1)
  else ret array_index.

(** The cells a bitmap asks for, in the order of the scan. *)
Definition cells_of (bitmap n : Z) : list Z :=
  filter (fun i => Z.testbit bitmap i = true) (range 0 n).

Lemma cells_scan_full p f bitmap l m :
  rb_wf bitmap -> Forall (fun i => 0 <= i) l ->
  for_each l 1 (cells_scan p f bitmap) m
  = match filter (fun i => Z.testbit bitmap i = true) l with
    | [] => (Some 1, m)
    | _ => (None, m)
    end.
Proof.
  intros Hb HF. revert m. induction HF as [| i l Hi HF IH]; intros m; [reflexivity |].
  cbn [for_each]. unfold cells_scan at 1. rewrite is_bit_set_testbit by auto.
  rewrite filter_cons. destruct (Z.testbit bitmap i) eqn:E.
  - rewrite decide_True by reflexivity. reflexivity.
  - rewrite decide_False by discriminate. apply IH.
Qed.

Lemma cells_scan_empty p f bitmap l m :
  rb_wf bitmap -> Forall (fun i => 0 <= i) l ->
  for_each l 0 (cells_scan p f bitmap) m
  = match filter (fun i => Z.testbit bitmap i = true) l with
    | [] => (Some 0, m)
    | [c] => (Some 1, wr m p (elt f 0) c)
    | c :: _ => (None, wr m p (elt f 0) c)
    end.
Proof.
  intros Hb HF. revert m. induction HF as [| i l Hi HF IH]; intros m; [reflexivity |].
  cbn [for_each]. unfold cells_scan at 1. rewrite is_bit_set_testbit by auto.
  rewrite filter_cons. destruct (Z.testbit bitmap i) eqn:E.
  - rewrite decide_True by reflexivity.
    transitivity (for_each l 1 (cells_scan p f bitmap) (wr m p (elt f 0) i)); [reflexivity |].
    rewrite cells_scan_full by assumption. destruct (filter _ l); reflexivity.
  - rewrite decide_False by discriminate. apply IH.
Qed.

Lemma range_nonneg n : Forall (fun i => 0 <= i) (range 0 n).
Proof. apply list.Forall_forall. intros i Hi. apply elem_of_range in Hi. lia. Qed.

Lemma cells_of_spec bitmap n c : c ∈ cells_of bitmap n <-> 0 <= c < n /\ Z.testbit bitmap c = true.
Proof. unfold cells_of. rewrite list_elem_of_filter, elem_of_range. tauto. Qed.

Lemma cells_bitmap_one {P : Platform} m p c :
  0 < p -> rd m p (elt pm.cells 0) = c -> 0 <= c < VIED_NCI_N_CELL_ID -> VIED_NCI_N_CELL_ID <= 32 ->
  ia_css_program_manifest_get_cells_bitmap m p = Some (2 ^ c).
Proof.
  intros Hp E Hc Hn. unfold ia_css_program_manifest_get_cells_bitmap. rewrite not_null by exact Hp.
  change (range 0 IA_CSS_PROCESS_MAX_CELLS) with [0]. cbn [foldl]. rewrite E.
  destruct (Z.eqb_spec VIED_NCI_N_CELL_ID c); [lia |]. cbn [negb]. unfold shift1.
  destruct (Z.ltb_spec c 32); [| lia]. rewrite shiftl1_small by lia. reflexivity.
Qed.

(** ** Theorems *)

(** Initialising a manifest writes only its header; when the program's
    needs fit in the 8-bit size, the result is well formed, with the extension
    directly after the header, and records its exact size; when they do not,
    the recorded size is too small. *)
Theorem program_manifest_init_layout p ext pd td m :
  0 < p -> 0 <= pd < 2 ^ 8 -> 0 <= td < 2 ^ 8 ->
  let m' := ia_css_program_manifest_init p ext pd td m in
  same_outside p (p + 28) m m'
  /\ ia_css_program_manifest_get_program_ID m' p = 1
  /\ ia_css_program_manifest_get_program_dependency_count m' p = pd
  /\ ia_css_program_manifest_get_terminal_dependency_count m' p = td
  /\ (ia_css_sizeof_program_manifest ext pd td <= 255 ->
      manifest_wf m' p
      /\ ia_css_program_manifest_get_size m' p = ia_css_sizeof_program_manifest ext pd td
      /\ ia_css_program_manifest_get_extension m' p = (if ext =? 1 then p + 28 else NULL))
  /\ (255 < ia_css_sizeof_program_manifest ext pd td ->
      ia_css_program_manifest_get_size m' p < ia_css_sizeof_program_manifest ext pd td).
Proof.
  intros Hp Hpd Htd. cbv zeta.
  destruct (manifest_init_reads p ext pd td m Hp Hpd Htd) as (S & I & C1 & C2 & E & O1 & O2 & Z).
  set (m' := ia_css_program_manifest_init p ext pd td m) in *.
  unfold ia_css_program_manifest_get_program_ID, ia_css_program_manifest_get_program_dependency_count,
    ia_css_program_manifest_get_terminal_dependency_count, ia_css_program_manifest_get_size,
    ia_css_program_manifest_get_extension.
  rewrite not_null, I, C1, C2, E, Z by exact Hp.
  rewrite sizeof_program_manifest_extent in *. unfold manifest_extent in *.
  destruct (CEIL_MUL_spec (28 + (if ext =? 1 then 116 else 0) + pd + td) 4 ltac:(lia)) as [B _].
  split; [exact S | split; [reflexivity | split; [reflexivity | split; [reflexivity | split]]]].
  - intros Hs. rewrite u8_small in * by (destruct (ext =? 1); lia).
    split; [| split; [reflexivity | destruct (ext =? 1); reflexivity]].
    split; rewrite ?E, ?O1, ?O2, ?C1, ?C2, ?Z; autounfold with layout;
      rewrite ?u8_small by (destruct (ext =? 1); lia); destruct (ext =? 1); lia.
  - intros Hs. pose proof (Z.mod_pos_bound (CEIL_MUL (28 + (if ext =? 1 then 116 else 0) + pd + td) 4)
      (2 ^ 8) ltac:(lia)). unfold u8. lia.
Qed.

Lemma program_manifest_init_layout_witness :
  manifest_wf (ia_css_program_manifest_init 4096 1 2 5 (fun _ => 0)) 4096
  /\ ia_css_program_manifest_get_size (ia_css_program_manifest_init 4096 1 200 5 (fun _ => 0)) 4096
     < ia_css_sizeof_program_manifest 1 200 5.
Proof.
  split.
  - apply (program_manifest_init_layout 4096 1 2 5 (fun _ => 0)); first [lia | vm_compute; (reflexivity || discriminate)].
  - apply (program_manifest_init_layout 4096 1 200 5 (fun _ => 0)); first [lia | vm_compute; (reflexivity || discriminate)].
Defined.

(** In a well-formed manifest, storing program dependency [i]
    succeeds exactly when [i] is below the dependency count and the dependency
    names a program of the group; then every dependency reads back the new
    list, the terminal dependencies and the well-formedness are kept. *)
Theorem program_dependency_set_get m p v i :
  manifest_wf m p -> 0 <= v -> 0 <= i ->
  let ok := (i <? ia_css_program_manifest_get_program_dependency_count m p)
            && (v <? ia_css_program_group_manifest_get_program_count m
                       (ia_css_program_manifest_get_parent m p)) in
  let '(r, m') := ia_css_program_manifest_set_program_dependency p v i m in
  r = (if ok then 0 else -1)
  /\ (ok = false -> m' = m)
  /\ manifest_wf m' p
  /\ (forall j, 0 <= j ->
        ia_css_program_manifest_get_program_dependency m' p j
        = if ok && (j =? i) then u8 v else ia_css_program_manifest_get_program_dependency m p j)
  /\ (forall j, 0 <= j ->
        ia_css_program_manifest_get_terminal_dependency m' p j
        = ia_css_program_manifest_get_terminal_dependency m p j).
Proof.
  intros W Hv Hi. cbv zeta. pose proof W as [W1 W2 W3 W4 W5].
  unfold ia_css_program_manifest_set_program_dependency. cbv zeta.
  destruct (_ && _) eqn:Hok; [| repeat split; auto; discriminate].
  apply andb_true_iff in Hok. destruct Hok as [Hc _]. apply Z.ltb_lt in Hc.
  unfold ia_css_program_manifest_get_program_dependency,
    ia_css_program_manifest_get_terminal_dependency,
    ia_css_program_manifest_get_program_dependency_count,
    ia_css_program_manifest_get_terminal_dependency_count in *.
  rewrite not_null in * by exact W1. autounfold with layout in W1, W2, W3, W4, W5, Hc.
  assert (Hh : forall f, f_off f + Z.of_nat (f_len f) <= 28 ->
            rd (wr m (p + rd m p pm.program_dependency_offset + i) (U8 0) v) p f = rd m p f)
    by (intros f Hf; apply rd_header_wr_past; [autounfold with layout; lia | exact Hf]).
  split; [reflexivity | split; [discriminate | split; [| split]]].
  - apply (manifest_wf_frame m); auto.
  - intros j Hj. rewrite !Hh by (cbn; lia). autounfold with layout in *.
    destruct (Z.ltb_spec j (rd m p (U8 26))); cbn [andb].
    + destruct (Z.eqb_spec j i) as [-> |]; mem_read; reflexivity.
    + destruct (Z.eqb_spec j i); [lia | reflexivity].
  - intros j Hj. rewrite !Hh by (cbn; lia). autounfold with layout in *.
    destruct (Z.ltb_spec j (rd m p (U8 27))); [| reflexivity]. mem_read. reflexivity.
Qed.

(** A group of three programs at 8192 with a first manifest at 8232 that has
    two program dependencies and three terminal dependencies. *)
Definition sample_manifest : mem :=
  ia_css_program_manifest_init 8232 1 2 3
    (snd (ia_css_program_manifest_set_parent_offset 8232 40
       (wr (fun _ => 0) 8192 pgm.program_count 3))).

Lemma sample_manifest_wf : manifest_wf sample_manifest 8232.
Proof. split; vm_compute; (reflexivity || (right; split; discriminate) || discriminate). Qed.

Lemma program_dependency_set_get_witness :
  ia_css_program_manifest_get_program_dependency
    (snd (ia_css_program_manifest_set_program_dependency 8232 2 1 sample_manifest)) 8232 1 = 2.
Proof.
  pose proof (program_dependency_set_get sample_manifest 8232 2 1 sample_manifest_wf
                ltac:(lia) ltac:(lia)) as H.
  cbv zeta in H.
  destruct (ia_css_program_manifest_set_program_dependency 8232 2 1 sample_manifest) as [r m'].
  destruct H as (_ & _ & _ & H & _). cbn [snd]. rewrite H by lia. vm_compute. reflexivity.
Defined.

(** A resource bitmap with at most one cell below the platform's
    count is stored and read back exactly; with several the call returns -1
    but has already stored the lowest of them. *)
Theorem program_manifest_cells_bitmap {P : Platform} {Pok : PlatformOk P} p bitmap m :
  0 < p -> rb_wf bitmap ->
  let '(r, m') := ia_css_program_manifest_set_cells_bitmap p bitmap m in
  match cells_of bitmap VIED_NCI_N_CELL_ID with
  | [] => r = 0 /\ ia_css_program_manifest_get_cells_bitmap m' p = Some 0
          /\ ia_css_program_manifest_get_cell_ID m' p = VIED_NCI_N_CELL_ID
  | [c] => r = 0 /\ ia_css_program_manifest_get_cells_bitmap m' p = Some (2 ^ c)
           /\ ia_css_program_manifest_get_cell_ID m' p = c
  | c :: _ => r = -1 /\ ia_css_program_manifest_get_cell_ID m' p = c
  end.
Proof.
  intros Hp Hb. pose proof cells_fit as Hn.
  unfold ia_css_program_manifest_set_cells_bitmap. rewrite not_null by exact Hp. cbn [negb].
  unfold with_retval, bind at 1.
  change (for_each (range 0 VIED_NCI_N_CELL_ID) 0 _ m)
    with (for_each (range 0 VIED_NCI_N_CELL_ID) 0 (cells_scan p pm.cells bitmap) m).
  rewrite cells_scan_empty by auto using range_nonneg. fold (cells_of bitmap VIED_NCI_N_CELL_ID).
  assert (Hin := cells_of_spec bitmap VIED_NCI_N_CELL_ID).
  destruct (cells_of bitmap VIED_NCI_N_CELL_ID) as [| c [| c' l]]; cbv iota beta.
  - change (range 0 IA_CSS_PROCESS_MAX_CELLS) with [0]. cbn [for_each]. mrun.
    split; [reflexivity |].
    unfold ia_css_program_manifest_get_cells_bitmap, ia_css_program_manifest_get_cell_ID.
    rewrite not_null by exact Hp. change (range 0 IA_CSS_PROCESS_MAX_CELLS) with [0]. cbn [foldl].
    rewrite !rd_wr_same. change (f_conv (elt pm.cells 0)) with u8. rewrite u8_small by lia.
    rewrite Z.eqb_refl. split; reflexivity.
  - assert (Hc : 0 <= c < VIED_NCI_N_CELL_ID) by (apply Hin; left).
    change (range 1 IA_CSS_PROCESS_MAX_CELLS) with (@nil Z). cbn [for_each]. mrun.
    assert (E : rd (wr m p (elt pm.cells 0) c) p (elt pm.cells 0) = c)
      by (rewrite rd_wr_same; apply u8_small; lia).
    split; [reflexivity |]. split; [apply cells_bitmap_one; auto; lia |].
    unfold ia_css_program_manifest_get_cell_ID. rewrite not_null by exact Hp. exact E.
  - assert (Hc : 0 <= c < VIED_NCI_N_CELL_ID) by (apply Hin; left).
    split; [reflexivity |].
    unfold ia_css_program_manifest_get_cell_ID. rewrite not_null by exact Hp.
    rewrite rd_wr_same. apply u8_small; lia.
Qed.

Lemma program_manifest_cells_bitmap_witness :
  let '(r, m') := @ia_css_program_manifest_set_cells_bitmap ipu6 64 24 (fun _ => 0) in
  r = -1 /\ @ia_css_program_manifest_get_cell_ID ipu6 m' 64 = 3.
Proof. apply (@program_manifest_cells_bitmap ipu6 ipu6_ok 64 24 (fun _ => 0)); unfold rb_wf; lia. Defined.
