(* ===== verification/ProcessGroupHeader.v ===== *)
(** * The process group header

    [struct ia_css_process_group_s] (include/ia_css_psys_process_group_cmd_impl.h)
    and the operations of include/ia_css_psys_process_group_impl.h and
    src/ia_css_psys_process_group.c that read or write its fields only:
    state, resource bitmap, fragment window, tokens, queues, counts, and the
    two offset tables that lead to its processes and terminals. *)

From S2P Require Import Prelude Memory ResourceModel KernelBitmap ProgramGroupParam.
#[local] Open Scope css_scope.

(** ** States and commands (include/ia_css_psys_process_types.h) *)

Definition IA_CSS_PROCESS_GROUP_ERROR : Z := 0.
Definition IA_CSS_PROCESS_GROUP_CREATED : Z := 1.
Definition IA_CSS_PROCESS_GROUP_READY : Z := 2.
Definition IA_CSS_PROCESS_GROUP_BLOCKED : Z := 3.
Definition IA_CSS_PROCESS_GROUP_STARTED : Z := 4.
Definition IA_CSS_PROCESS_GROUP_RUNNING : Z := 5.
Definition IA_CSS_PROCESS_GROUP_STALLED : Z := 6.
Definition IA_CSS_PROCESS_GROUP_STOPPED : Z := 7.
Definition IA_CSS_N_PROCESS_GROUP_STATES : Z := 8.

Definition IA_CSS_PSYS_CMD_QUEUE_DEVICE_ID : Z := 1.
Definition IA_CSS_N_PSYS_CMD_QUEUE_ID : Z := 32.

(** ** Layout *)

Module pg.
Definition token := U64 0.
Definition private_token := U64 8.
Definition routing_bitmap := U32 16.
Definition kernel_bitmap := U32 36.
Definition size := U32 52.
Definition psys_server_init_cycles := U32 56.
Definition pg_load_start_ts := U32 60.
Definition pg_load_cycles := U32 64.
Definition pg_init_cycles := U32 68.
Definition pg_processing_cycles := U32 72.
Definition pg_next_frame_init_cycles := U32 76.
Definition pg_complete_cycles := U32 80.
Definition ID := U32 84.
Definition state := U32 88.
Definition ipu_virtual_address := U32 92.
Definition resource_bitmap := U32 96.
Definition fragment_count := U16 100.
Definition fragment_state := U16 102.
Definition fragment_limit := U16 104.
Definition processes_offset := U16 106.
Definition terminals_offset := U16 108.
Definition process_count := U8 110.
Definition terminal_count := U8 111.
Definition subgraph_count := U8 112.
Definition protocol_version := U8 113.
Definition base_queue_id := U8 114.
Definition num_queues := U8 115.
Definition mask_irq := U8 116.
Definition error_handling_enable := U8 117.
Definition padding := U8 118.
Definition layout : list (field * Z) :=
  [(token, 1); (private_token, 1); (routing_bitmap, 5); (kernel_bitmap, 4); (size, 1);
   (psys_server_init_cycles, 1); (pg_load_start_ts, 1); (pg_load_cycles, 1);
   (pg_init_cycles, 1); (pg_processing_cycles, 1); (pg_next_frame_init_cycles, 1);
   (pg_complete_cycles, 1); (ID, 1); (state, 1); (ipu_virtual_address, 1);
   (resource_bitmap, 1); (fragment_count, 1); (fragment_state, 1); (fragment_limit, 1);
   (processes_offset, 1); (terminals_offset, 1); (process_count, 1); (terminal_count, 1);
   (subgraph_count, 1); (protocol_version, 1); (base_queue_id, 1); (num_queues, 1);
   (mask_irq, 1); (error_handling_enable, 1); (padding, 2)].
End pg.
Definition sizeof_ia_css_process_group_t : Z := 120.

#[export] Hint Unfold pg.token pg.private_token pg.routing_bitmap pg.kernel_bitmap pg.size
  pg.psys_server_init_cycles pg.pg_load_start_ts pg.pg_load_cycles pg.pg_init_cycles
  pg.pg_processing_cycles pg.pg_next_frame_init_cycles pg.pg_complete_cycles pg.ID pg.state
  pg.ipu_virtual_address pg.resource_bitmap pg.fragment_count pg.fragment_state
  pg.fragment_limit pg.processes_offset pg.terminals_offset pg.process_count
  pg.terminal_count pg.subgraph_count pg.protocol_version pg.base_queue_id pg.num_queues
  pg.mask_irq pg.error_handling_enable sizeof_ia_css_process_group_t : layout.

Lemma process_group_layout : tiles pg.layout sizeof_ia_css_process_group_t = true.
Proof. reflexivity. Qed.

(** ** Getters *)

Section Getters.
Variable m : mem.

Definition ia_css_process_group_get_fragment_limit (process_group : Z) : Z :=
  if is_null process_group then 0 else rd m process_group pg.fragment_limit.

Definition ia_css_process_group_get_size (process_group : Z) : Z :=
  if is_null process_group then 0 else rd m process_group pg.size.

Definition ia_css_process_group_get_state (process_group : Z) : Z :=
  if is_null process_group then IA_CSS_N_PROCESS_GROUP_STATES
  else rd m process_group pg.state.

Definition ia_css_process_group_get_kernel_bitmap (process_group : Z) : ia_css_kernel_bitmap_t :=
  if is_null process_group then ia_css_kernel_bitmap_clear
  else rd_kb m process_group pg.kernel_bitmap.

(** The address of the embedded bitmap. *)
Definition ia_css_process_group_get_routing_bitmap (process_group : Z) : Z :=
  if is_null process_group then NULL else process_group + f_off pg.routing_bitmap.

Definition ia_css_process_group_get_fragment_count (process_group : Z) : Z :=
  if is_null process_group then 0 else rd m process_group pg.fragment_count.

Definition ia_css_process_group_get_process_count (process_group : Z) : Z :=
  if is_null process_group then 0 else rd m process_group pg.process_count.

Definition ia_css_process_group_get_terminal_count (process_group : Z) : Z :=
  if is_null process_group then 0 else rd m process_group pg.terminal_count.

Definition ia_css_process_group_get_psys_server_init_cycles (process_group : Z) : Z :=
  if is_null process_group then 0 else rd m process_group pg.psys_server_init_cycles.

Definition ia_css_process_group_get_pg_load_start_ts (process_group : Z) : Z :=
  if is_null process_group then 0 else rd m process_group pg.pg_load_start_ts.

Definition ia_css_process_group_get_pg_load_cycles (process_group : Z) : Z :=
  if is_null process_group then 0 else rd m process_group pg.pg_load_cycles.

Definition ia_css_process_group_get_pg_init_cycles (process_group : Z) : Z :=
  if is_null process_group then 0 else rd m process_group pg.pg_init_cycles.

Definition ia_css_process_group_get_pg_processing_cycles (process_group : Z) : Z :=
  if is_null process_group then 0 else rd m process_group pg.pg_processing_cycles.

Definition ia_css_process_group_get_pg_next_frame_init_cycles (process_group : Z) : Z :=
  if is_null process_group then 0 else rd m process_group pg.pg_next_frame_init_cycles.

Definition ia_css_process_group_get_pg_complete_cycles (process_group : Z) : Z :=
  if is_null process_group then 0 else rd m process_group pg.pg_complete_cycles.

Definition ia_css_process_group_get_program_group_ID (process_group : Z) : Z :=
  if is_null process_group then 0 else rd m process_group pg.ID.

Definition ia_css_process_group_get_resource_bitmap (process_group : Z) : Z :=
  if is_null process_group then 0 else rd m process_group pg.resource_bitmap.

Definition ia_css_process_group_get_protocol_version (process_group : Z) : Z :=
  if is_null process_group then IA_CSS_PROCESS_GROUP_N_PROTOCOLS
  else rd m process_group pg.protocol_version.

Definition ia_css_process_group_get_base_queue_id (process_group : Z) : Z :=
  if is_null process_group then IA_CSS_N_PSYS_CMD_QUEUE_ID
  else rd m process_group pg.base_queue_id.

Definition ia_css_process_group_get_num_queues (process_group : Z) : Z :=
  if is_null process_group then 0 else rd m process_group pg.num_queues.

Definition ia_css_process_group_get_error_handling_enable (process_group : Z) : Z :=
  if is_null process_group then 255 else rd m process_group pg.error_handling_enable.

Definition ia_css_process_group_get_token (process_group : Z) : Z :=
  if is_null process_group then 0 else rd m process_group pg.token.

Definition ia_css_process_group_get_private_token (process_group : Z) : Z :=
  if is_null process_group then 0 else rd m process_group pg.private_token.

(** The value stored through the (non-null) out-parameter; [None] is the -1
    return, with nothing stored. *)
Definition ia_css_process_group_get_fragment_state (process_group : Z) : option Z :=
  if is_null process_group then None else Some (rd m process_group pg.fragment_state).

Definition ia_css_process_group_get_ipu_vaddress (process_group : Z) : option Z :=
  if is_null process_group then None else Some (rd m process_group pg.ipu_virtual_address).

(** The offset tables hold a [uint16_t] per process and per terminal. *)
Definition ia_css_process_group_get_terminal (process_grp terminal_num : Z) : Z :=
  if is_null process_grp then NULL
  else if terminal_num <? rd m process_grp pg.terminal_count then
    let terminal_offset_table := process_grp + rd m process_grp pg.terminals_offset in
    process_grp + rd m terminal_offset_table (elt (U16 0) terminal_num)
  else NULL.

Definition ia_css_process_group_get_process (process_grp process_num : Z) : Z :=
  if is_null process_grp then NULL
  else if process_num <? rd m process_grp pg.process_count then
    let process_offset_table := process_grp + rd m process_grp pg.processes_offset in
    process_grp + rd m process_offset_table (elt (U16 0) process_num)
  else NULL.
End Getters.

(** ** Setters *)

(** [retval] already holds the 0 of [get_fragment_state] when the two range
    checks jump to EXIT. *)
Definition ia_css_process_group_set_fragment_limit (process_group fragment_limit : Z) (m : mem) : Z * mem :=
  if is_null process_group then (-1, m)
  else
    match ia_css_process_group_get_fragment_state m process_group with
    | None => (-1, m)
    | Some fragment_state =>
        let retval := 0 in
        if negb (fragment_state <? fragment_limit) then (retval, m)
        else if negb (fragment_limit <=? ia_css_process_group_get_fragment_count m process_group)
        then (retval, m)
        else (0, wr m process_group pg.fragment_limit fragment_limit)
    end.

Definition ia_css_process_group_clear_fragment_limit (process_group : Z) : mem -> Z * mem :=
  with_retval (-1)
    (verifexit (negb (is_null process_group)) ;;;
     wrM process_group pg.fragment_limit 0 ;;;
     ret 0).

Definition ia_css_process_group_set_fragment_state (process_group fragment_state : Z) : mem -> Z * mem :=
  with_retval (-1)
    (verifexit (negb (is_null process_group)) ;;;
     fragment_count <- gets (fun m => ia_css_process_group_get_fragment_count m process_group) ;;
     verifexit (fragment_state <=? fragment_count) ;;;
     wrM process_group pg.fragment_state fragment_state ;;;
     ret 0).

Definition ia_css_process_group_set_resource_bitmap (process_group resource_bitmap : Z) : mem -> Z * mem :=
  with_retval (-1)
    (verifexit (negb (is_null process_group)) ;;;
     wrM process_group pg.resource_bitmap resource_bitmap ;;;
     ret 0).

(** [rbm] is a struct of five [uint32_t], assigned as a whole. *)
Definition ia_css_process_group_set_routing_bitmap (process_group : Z) (rbm : list Z) : mem -> Z * mem :=
  with_retval (-1)
    (verifexit (negb (is_null process_group)) ;;;
     for_each (range 0 5) tt (fun i _ =>
       wrM process_group (elt pg.routing_bitmap i) (rbm !!! Z.to_nat i)) ;;;
     ret 0).

Definition ia_css_process_group_set_ipu_vaddress (process_group ipu_vaddress : Z) : mem -> Z * mem :=
  with_retval (-1)
    (verifexit (negb (is_null process_group)) ;;;
     wrM process_group pg.ipu_virtual_address ipu_vaddress ;;;
     ret 0).

Definition ia_css_process_group_set_base_queue_id (process_group queue_id : Z) : mem -> Z * mem :=
  with_retval (-1)
    (verifexit (negb (is_null process_group)) ;;;
     num_queues <- rdM process_group pg.num_queues ;;
     if (IA_CSS_PSYS_CMD_QUEUE_DEVICE_ID <? queue_id)
        && (queue_id + num_queues - 1 <? IA_CSS_N_PSYS_CMD_QUEUE_ID)
     then wrM process_group pg.base_queue_id queue_id ;;; ret 0
     else ret (-1)).

Definition ia_css_process_group_set_num_queues (process_group num_queues : Z) : mem -> Z * mem :=
  with_retval (-1)
    (verifexit (negb (is_null process_group)) ;;;
     wrM process_group pg.num_queues num_queues ;;;
     ret 0).

Definition ia_css_process_group_set_error_handling_enable
    (process_group : Z) (error_handling_enable : bool) : mem -> Z * mem :=
  with_retval (-1)
    (verifexit (negb (is_null process_group)) ;;;
     wrM process_group pg.error_handling_enable (if error_handling_enable then 1 else 0) ;;;
     ret 0).

Definition ia_css_process_group_set_token (process_group token : Z) : mem -> Z * mem :=
  with_retval (-1)
    (verifexit (negb (is_null process_group)) ;;;
     verifexit (negb (token =? 0)) ;;;
     wrM process_group pg.token token ;;;
     ret 0).

Definition ia_css_process_group_set_private_token (process_group token : Z) : mem -> Z * mem :=
  with_retval (-1)
    (verifexit (negb (is_null process_group)) ;;;
     verifexit (negb (token =? 0)) ;;;
     wrM process_group pg.private_token token ;;;
     ret 0).

(** ** Barriers *)

Section Barriers.
Context {P : Platform}.

Definition ia_css_process_group_set_barrier (process_group barrier_index : Z) : mem -> Z * mem :=
  with_retval (-1)
    (verifexit (negb (is_null process_group)) ;;;
     resource_bitmap <- gets (fun m => ia_css_process_group_get_resource_bitmap m process_group) ;;
     let bit_mask := vied_nci_barrier_bit_mask barrier_index in
     verifexit (negb (bit_mask =? 0)) ;;;
     verifexit (vied_nci_is_bitmap_clear bit_mask resource_bitmap) ;;;
     let resource_bitmap := vied_nci_bitmap_set resource_bitmap bit_mask in
     call (ia_css_process_group_set_resource_bitmap process_group resource_bitmap)).

Definition ia_css_process_group_clear_barrier (process_group barrier_index : Z) : mem -> Z * mem :=
  with_retval (-1)
    (verifexit (negb (is_null process_group)) ;;;
     resource_bitmap <- gets (fun m => ia_css_process_group_get_resource_bitmap m process_group) ;;
     let bit_mask := vied_nci_barrier_bit_mask barrier_index in
     verifexit (negb (bit_mask =? 0)) ;;;
     verifexit (vied_nci_is_bitmap_set bit_mask resource_bitmap) ;;;
     let resource_bitmap := vied_nci_bitmap_clear resource_bitmap bit_mask in
     call (ia_css_process_group_set_resource_bitmap process_group resource_bitmap)).
End Barriers.

(** ** Lemmas *)

Lemma set_resource_bitmap_run p b m :
  0 < p -> ia_css_process_group_set_resource_bitmap p b m = (0, wr m p pg.resource_bitmap b).
Proof.
  intros Hp. unfold ia_css_process_group_set_resource_bitmap. mrun. rewrite not_null by exact Hp.
  reflexivity.
Qed.

Lemma get_resource_bitmap_wf m p : rb_wf (ia_css_process_group_get_resource_bitmap m p).
Proof.
  unfold ia_css_process_group_get_resource_bitmap. destruct (is_null p); [split; lia |].
  apply rd_U32_range.
Qed.

#[export] Hint Resolve get_resource_bitmap_wf : bits.

Lemma get_resource_bitmap_wr m p b :
  0 < p -> rb_wf b -> ia_css_process_group_get_resource_bitmap (wr m p pg.resource_bitmap b) p = b.
Proof.
  intros Hp Hb. unfold ia_css_process_group_get_resource_bitmap. rewrite not_null by exact Hp.
  mem_read. apply f_conv_U32, Hb.
Qed.

(** *** The fragment window *)

(** The fragment fields as the operations see them. *)
Record fragment_window := Window { w_count : Z; w_state : Z; w_limit : Z }.

Definition window (m : mem) (p : Z) : fragment_window :=
  Window (rd m p pg.fragment_count) (rd m p pg.fragment_state) (rd m p pg.fragment_limit).

(** The client operations that touch the window. *)
Inductive frag_op :=
  | OpSetLimit (limit : Z)
  | OpClearLimit
  | OpSetState (state : Z).

Definition frag_exec (p : Z) (o : frag_op) (m : mem) : Z * mem :=
  match o with
  | OpSetLimit l => ia_css_process_group_set_fragment_limit p l m
  | OpClearLimit => ia_css_process_group_clear_fragment_limit p m
  | OpSetState s => ia_css_process_group_set_fragment_state p s m
  end.

(** Their arguments are [uint16_t] values. *)
Definition frag_op_wf (o : frag_op) : Prop :=
  match o with
  | OpSetLimit v | OpSetState v => 0 <= v < 2 ^ 16
  | OpClearLimit => True
  end.

Definition window_ok (w : fragment_window) : Prop :=
  w_state w <= w_count w /\ w_limit w <= w_count w.

(** What each operation does to the window, and its return value. *)
Definition frag_spec (o : frag_op) (w : fragment_window) : Z * fragment_window :=
  match o with
  | OpSetLimit l =>
      (0, if (w_state w <? l) && (l <=? w_count w) then Window (w_count w) (w_state w) l else w)
  | OpClearLimit => (0, Window (w_count w) (w_state w) 0)
  | OpSetState s =>
      if s <=? w_count w then (0, Window (w_count w) s (w_limit w)) else (-1, w)
  end.

Lemma frag_exec_spec p o m :
  0 < p -> frag_op_wf o ->
  fst (frag_exec p o m) = fst (frag_spec o (window m p))
  /\ window (snd (frag_exec p o m)) p = snd (frag_spec o (window m p)).
Proof.
  intros Hp Ho.
  assert (N : is_null p = false) by (apply not_null, Hp).
  destruct o as [l | | s]; cbn [frag_exec frag_spec frag_op_wf] in *.
  - unfold ia_css_process_group_set_fragment_limit, ia_css_process_group_get_fragment_state,
      ia_css_process_group_get_fragment_count. rewrite N. cbn [window w_state w_count].
    destruct (rd m p pg.fragment_state <? l); [| split; reflexivity]. cbn [negb andb].
    destruct (l <=? rd m p pg.fragment_count); [| split; reflexivity]. cbn [negb fst snd].
    split; [reflexivity |]. unfold window. mem_read. rewrite f_conv_U16 by exact Ho. reflexivity.
  - unfold ia_css_process_group_clear_fragment_limit. mrun. rewrite N. cbn [negb fst snd].
    split; [reflexivity |]. unfold window. mem_read. reflexivity.
  - unfold ia_css_process_group_set_fragment_state, ia_css_process_group_get_fragment_count. mrun.
    rewrite N. cbn [negb window w_count w_limit].
    destruct (s <=? rd m p pg.fragment_count); [| split; reflexivity].
    cbn [fst snd]. split; [reflexivity |]. unfold window. mem_read.
    rewrite f_conv_U16 by exact Ho. reflexivity.
Qed.

Lemma frag_spec_ok o w :
  0 <= w_count w -> window_ok w -> window_ok (snd (frag_spec o w)) /\ w_count (snd (frag_spec o w)) = w_count w.
Proof.
  intros Hc [Hs Hl]. unfold window_ok. destruct o as [l | | s]; cbn.
  - destruct (w_state w <? l); cbn; [| auto]. destruct (Z.leb_spec l (w_count w)); cbn; auto.
  - auto.
  - destruct (Z.leb_spec s (w_count w)); cbn; auto.
Qed.

(** ** Theorems *)

(** Whatever sequence of fragment operations a client issues, the
    fragment state and the fragment limit stay within the fragment count, and
    the memory's window is at each step the one the abstract window reaches. *)
Theorem fragment_window_invariant p ops m :
  0 < p -> Forall frag_op_wf ops -> window_ok (window m p) ->
  let m' := foldl (fun m o => snd (frag_exec p o m)) m ops in
  window_ok (window m' p)
  /\ window m' p = foldl (fun w o => snd (frag_spec o w)) (window m p) ops
  /\ rd m' p pg.fragment_count = rd m p pg.fragment_count.
Proof.
  intros Hp Hops. cbv zeta. revert m. induction Hops as [| o ops Ho Hops IH]; intros m Hok.
  - repeat split; apply Hok.
  - cbn [foldl]. destruct (frag_exec_spec p o m Hp Ho) as [_ E].
    destruct (frag_spec_ok o (window m p)) as [Hok' Hc]; [apply rd_U16_range | exact Hok |].
    rewrite <- E in Hok', Hc |- *. destruct (IH _ Hok') as (I1 & I2 & I3).
    split; [exact I1 | split; [exact I2 |]]. rewrite I3. exact Hc.
Qed.

Lemma fragment_window_invariant_witness :
  window_ok (window (foldl (fun m o => snd (frag_exec 64 o m))
    (wr (fun _ => 0) 64 pg.fragment_count 4) [OpSetLimit 3; OpSetState 2; OpSetLimit 9]) 64).
Proof.
  apply (fragment_window_invariant 64 [OpSetLimit 3; OpSetState 2; OpSetLimit 9]
    (wr (fun _ => 0) 64 pg.fragment_count 4)); [lia | | split; vm_compute; discriminate].
  repeat constructor; vm_compute; discriminate.
Defined.

(** [set_fragment_limit] on a process group always returns 0: a limit
    outside (fragment state, fragment count] is dropped without being reported,
    while [set_fragment_state] does report -1 and leaves the memory alone. *)
Theorem fragment_limit_error_not_reported p l m :
  0 < p -> 0 <= l < 2 ^ 16 ->
  fst (ia_css_process_group_set_fragment_limit p l m) = 0
  /\ (rd m p pg.fragment_state < l <= rd m p pg.fragment_count ->
      rd (snd (ia_css_process_group_set_fragment_limit p l m)) p pg.fragment_limit = l)
  /\ (~ rd m p pg.fragment_state < l <= rd m p pg.fragment_count ->
      ia_css_process_group_set_fragment_limit p l m = (0, m))
  /\ (rd m p pg.fragment_count < l -> ia_css_process_group_set_fragment_state p l m = (-1, m)).
Proof.
  intros Hp Hl.
  pose proof (frag_exec_spec p (OpSetLimit l) m Hp Hl) as [E W].
  assert (N : is_null p = false) by (apply not_null, Hp).
  split; [exact E |]. split; [| split].
  - intros Hr. apply (f_equal w_limit) in W. cbn -[rd pg.fragment_limit] in W.
    rewrite (proj2 (Z.ltb_lt _ _)), (proj2 (Z.leb_le _ _)) in W by apply Hr. exact W.
  - intros Hr. unfold ia_css_process_group_set_fragment_limit,
      ia_css_process_group_get_fragment_state, ia_css_process_group_get_fragment_count.
    rewrite N. destruct (Z.ltb_spec (rd m p pg.fragment_state) l); [| reflexivity].
    destruct (Z.leb_spec l (rd m p pg.fragment_count)); [lia | reflexivity].
  - intros Hr. unfold ia_css_process_group_set_fragment_state,
      ia_css_process_group_get_fragment_count. mrun. rewrite N. cbn [negb].
    destruct (Z.leb_spec l (rd m p pg.fragment_count)); [lia | reflexivity].
Qed.

Lemma fragment_limit_error_not_reported_witness :
  ia_css_process_group_set_fragment_limit 64 9 (fun _ => 0) = (0, fun _ => 0).
Proof.
  apply (fragment_limit_error_not_reported 64 9 (fun _ => 0)); [lia | lia |].
  vm_compute. intuition discriminate.
Defined.

Lemma barrier_bit_mask_pow2 {P : Platform} {Pok : PlatformOk P} b :
  0 <= b -> vied_nci_barrier_bit_mask b
            = if b + VIED_NCI_N_CELL_ID <? 32 then 2 ^ (b + VIED_NCI_N_CELL_ID) else 0.
Proof.
  intros Hb. unfold vied_nci_barrier_bit_mask, VIED_NCI_RESOURCE_BITMAP_BITS. pose proof cells_fit.
  destruct (Z.ltb_spec (b + VIED_NCI_N_CELL_ID) 32); [apply shiftl1_small; lia | reflexivity].
Qed.

Section Barrier_facts.
Context {P : Platform} {Pok : PlatformOk P} (p b : Z) (Hp : 0 < p) (Hb : 0 <= b).
Let bit := b + VIED_NCI_N_CELL_ID.

Lemma set_barrier_run m :
  ia_css_process_group_set_barrier p b m
  = if (bit <? 32) && negb (Z.testbit (ia_css_process_group_get_resource_bitmap m p) bit)
    then (0, wr m p pg.resource_bitmap
               (vied_nci_bitmap_set (ia_css_process_group_get_resource_bitmap m p) (2 ^ bit)))
    else (-1, m).
Proof.
  pose proof cells_fit. unfold ia_css_process_group_set_barrier. mrun.
  rewrite not_null, barrier_bit_mask_pow2 by assumption. fold bit. cbn [negb].
  destruct (Z.ltb_spec bit 32); [| reflexivity].
  rewrite pow2_ne0 by (subst bit; lia). cbn [negb andb].
  rewrite is_bitmap_clear_bit' by (subst bit; lia).
  destruct (Z.testbit _ bit); [reflexivity |]. cbn [negb].
  rewrite set_resource_bitmap_run by exact Hp. reflexivity.
Qed.

Lemma clear_barrier_run m :
  ia_css_process_group_clear_barrier p b m
  = if (bit <? 32) && Z.testbit (ia_css_process_group_get_resource_bitmap m p) bit
    then (0, wr m p pg.resource_bitmap
               (vied_nci_bitmap_clear (ia_css_process_group_get_resource_bitmap m p) (2 ^ bit)))
    else (-1, m).
Proof.
  pose proof cells_fit. unfold ia_css_process_group_clear_barrier. mrun.
  rewrite not_null, barrier_bit_mask_pow2 by assumption. fold bit. cbn [negb].
  destruct (Z.ltb_spec bit 32); [| reflexivity].
  rewrite pow2_ne0 by (subst bit; lia). cbn [negb andb].
  rewrite is_bitmap_set_bit' by (subst bit; lia).
  destruct (Z.testbit _ bit); [| reflexivity].
  rewrite set_resource_bitmap_run by exact Hp. reflexivity.
Qed.
End Barrier_facts.

(** A barrier is taken once: setting a free barrier claims exactly its
    bit of the resource bitmap, a second set is refused without a store,
    clearing it restores the bitmap, and a barrier the platform does not have
    is always refused. *)
Theorem barrier_set_clear {P : Platform} {Pok : PlatformOk P} p b m :
  0 < p -> 0 <= b ->
  let bit := b + VIED_NCI_N_CELL_ID in
  let bm := ia_css_process_group_get_resource_bitmap m p in
  (bit < 32 -> Z.testbit bm bit = false ->
     exists m1, ia_css_process_group_set_barrier p b m = (0, m1)
       /\ (forall j, 0 <= j -> Z.testbit (ia_css_process_group_get_resource_bitmap m1 p) j
                               = Z.testbit bm j || (bit =? j))
       /\ ia_css_process_group_set_barrier p b m1 = (-1, m1)
       /\ exists m2, ia_css_process_group_clear_barrier p b m1 = (0, m2)
            /\ ia_css_process_group_get_resource_bitmap m2 p = bm)
  /\ (32 <= bit -> ia_css_process_group_set_barrier p b m = (-1, m)
                   /\ ia_css_process_group_clear_barrier p b m = (-1, m)).
Proof.
  intros Hp Hb. cbv zeta. pose proof cells_fit. split.
  - intros Hbit Hfree. set (bit := b + VIED_NCI_N_CELL_ID) in *.
    rewrite set_barrier_run by assumption. fold bit. rewrite Hfree.
    destruct (Z.ltb_spec bit 32); [cbn [andb negb] | lia].
    eexists; split; [reflexivity |].
    assert (W : rb_wf (vied_nci_bitmap_set (ia_css_process_group_get_resource_bitmap m p) (2 ^ bit)))
      by (apply bitmap_set_wf; [auto with bits | apply pow2_wf; subst bit; lia]).
    rewrite set_barrier_run, clear_barrier_run, get_resource_bitmap_wr by assumption. fold bit.
    rewrite bitmap_set_bit, Z.eqb_refl, orb_true_r by (subst bit; lia).
    destruct (Z.ltb_spec bit 32); [cbn [andb negb] | lia].
    split; [intros j Hj; apply bitmap_set_bit; subst bit; lia |].
    split; [reflexivity |]. eexists; split; [reflexivity |].
    rewrite bitmap_clear_set by (auto with bits; subst bit; lia).
    apply get_resource_bitmap_wr; auto with bits.
  - intros Hbit. rewrite set_barrier_run, clear_barrier_run by assumption.
    destruct (Z.ltb_spec (b + VIED_NCI_N_CELL_ID) 32); [lia | split; reflexivity].
Qed.

Lemma barrier_set_clear_witness :
  exists m1, @ia_css_process_group_set_barrier ipu6ep 64 1 (fun _ => 0) = (0, m1)
    /\ @ia_css_process_group_set_barrier ipu6ep 64 1 m1 = (-1, m1).
Proof.
  destruct (@barrier_set_clear ipu6ep ipu6ep_ok 64 1 (fun _ => 0)) as [H _]; [lia | lia |].
  destruct H as (m1 & E & _ & E2 & _); [reflexivity | reflexivity |]. exists m1. auto.
Defined.

(** A base queue is accepted exactly when the whole range of queues it
    starts is dedicated (2 .. 31); a rejected one leaves the memory as it was. *)
Theorem base_queue_id_range p q m :
  0 < p -> 0 <= q < 2 ^ 8 ->
  let n := ia_css_process_group_get_num_queues m p in
  let '(r, m') := ia_css_process_group_set_base_queue_id p q m in
  (r = 0 <-> IA_CSS_PSYS_CMD_QUEUE_DEVICE_ID < q /\ q + n <= IA_CSS_N_PSYS_CMD_QUEUE_ID)
  /\ (r = 0 -> ia_css_process_group_get_base_queue_id m' p = q
               /\ ia_css_process_group_get_num_queues m' p = n)
  /\ (r <> 0 -> r = -1 /\ m' = m).
Proof.
  intros Hp Hq. cbv zeta. unfold ia_css_process_group_set_base_queue_id,
    ia_css_process_group_get_num_queues, ia_css_process_group_get_base_queue_id. mrun.
  rewrite not_null by exact Hp. cbn [negb].
  destruct (Z.ltb_spec IA_CSS_PSYS_CMD_QUEUE_DEVICE_ID q),
    (Z.ltb_spec (q + rd m p pg.num_queues - 1) IA_CSS_N_PSYS_CMD_QUEUE_ID); cbn [andb];
    (split; [split; intros; lia || discriminate |]; split; intros; try lia; auto).
  mem_read. rewrite f_conv_U8 by exact Hq. auto.
Qed.

Lemma base_queue_id_range_witness :
  fst (ia_css_process_group_set_base_queue_id 64 31 (wr (fun _ => 0) 64 pg.num_queues 2)) = -1.
Proof.
  pose proof (base_queue_id_range 64 31 (wr (fun _ => 0) 64 pg.num_queues 2)) as H. cbv zeta in H.
  destruct (ia_css_process_group_set_base_queue_id _ _ _) as [r m'].
  destruct H as (H1 & _ & H3); [lia | lia |]. cbn [fst].
  destruct (Z.eq_dec r 0) as [E | E]; [| apply H3, E].
  apply H1 in E. vm_compute in E. intuition congruence.
Defined.
