(* ===== verification/Process.v ===== *)
(** * Processes

    src/ia_css_psys_process.c and include/ia_css_psys_process_impl.h: a
    process is the instance of one program in a process group.  Its header is
    followed by an optional extension (memories, channels and DFM ports) and
    the lists of cells and terminals it depends on; its parent group is found
    through a signed 16-bit offset. *)

From S2P Require Import Prelude Memory ResourceModel KernelBitmap ProgramManifest ProcessGroupHeader.
#[local] Open Scope css_scope.

(** ** States and commands (include/ia_css_psys_process_types.h) *)

Definition IA_CSS_PROCESS_ERROR : Z := 0.
Definition IA_CSS_PROCESS_CREATED : Z := 1.
Definition IA_CSS_PROCESS_READY : Z := 2.
Definition IA_CSS_PROCESS_STARTED : Z := 3.
Definition IA_CSS_PROCESS_RUNNING : Z := 4.
Definition IA_CSS_PROCESS_STOPPED : Z := 5.
Definition IA_CSS_PROCESS_SUSPENDED : Z := 6.
Definition IA_CSS_N_PROCESS_STATES : Z := 7.

Definition IA_CSS_PROCESS_CMD_NOP : Z := 0.
Definition IA_CSS_PROCESS_CMD_ACQUIRE : Z := 1.
Definition IA_CSS_PROCESS_CMD_RELEASE : Z := 2.
Definition IA_CSS_PROCESS_CMD_START : Z := 3.
Definition IA_CSS_PROCESS_CMD_LOAD : Z := 4.
Definition IA_CSS_PROCESS_CMD_STOP : Z := 5.
Definition IA_CSS_PROCESS_CMD_SUSPEND : Z := 6.
Definition IA_CSS_PROCESS_CMD_RESUME : Z := 7.
Definition IA_CSS_N_PROCESS_CMDS : Z := 8.

Definition IA_CSS_PROCESS_INVALID_OFFSET : Z := 65535.
Definition IA_CSS_PROCESS_INVALID_DEPENDENCY : Z := 255.
Definition IA_CSS_PROCESS_INVALID_PROGRAM_IDX : Z := 4294967295.

(** ** Layout *)

(** [struct ia_css_process_s]. *)
Module pr.
Definition parent_offset := S16 0.
Definition size := U8 2.
Definition cell_dependencies_offset := U8 3.
Definition terminal_dependencies_offset := U8 4.
Definition process_extension_offset := U8 5.
Definition ID := U8 6.
Definition program_idx := U8 7.
Definition state := U8 8.
Definition cells := U8 9.
Definition cell_dependency_count := U8 10.
Definition terminal_dependency_count := U8 11.
Definition layout : list (field * Z) :=
  [(parent_offset, 1); (size, 1); (cell_dependencies_offset, 1);
   (terminal_dependencies_offset, 1); (process_extension_offset, 1); (ID, 1);
   (program_idx, 1); (state, 1); (cells, IA_CSS_PROCESS_MAX_CELLS);
   (cell_dependency_count, 1); (terminal_dependency_count, 1)].
End pr.
Definition sizeof_ia_css_process_t : Z := 12.

(** [struct ia_css_process_ext_s]. *)
Module pre.
Definition dfm_port_bitmap := U32 0.
Definition dfm_active_port_bitmap := U32 24.
Definition ext_mem_offset := U16 48.
Definition dev_chn_offset := U16 60.
Definition ext_mem_id := U8 70.
Definition layout : list (field * Z) :=
  [(dfm_port_bitmap, 6); (dfm_active_port_bitmap, 6); (ext_mem_offset, 6);
   (dev_chn_offset, 5); (ext_mem_id, 6)].
End pre.
Definition sizeof_ia_css_process_ext_t : Z := 76.

#[export] Hint Unfold pr.parent_offset pr.size pr.cell_dependencies_offset
  pr.terminal_dependencies_offset pr.process_extension_offset pr.ID pr.program_idx pr.state
  pr.cells pr.cell_dependency_count pr.terminal_dependency_count sizeof_ia_css_process_t
  pre.dfm_port_bitmap pre.dfm_active_port_bitmap pre.ext_mem_offset pre.dev_chn_offset
  pre.ext_mem_id sizeof_ia_css_process_ext_t : layout.

Lemma process_layouts :
  tiles pr.layout sizeof_ia_css_process_t = true
  /\ tiles pre.layout sizeof_ia_css_process_ext_t = true.
Proof. split; reflexivity. Qed.

(** [x == a || x == b || ...]. *)
Definition one_of (x : Z) (l : list Z) : bool := existsb (Z.eqb x) l.

(** ** Getters *)

Section Getters.
Context {P : Platform} (m : mem).

Definition ia_css_process_get_extension (process : Z) : Z :=
  if is_null process then NULL
  else if negb (rd m process pr.process_extension_offset =? 0)
  then process + rd m process pr.process_extension_offset
  else NULL.

Definition ia_css_process_cells_get_cell (process index : Z) : Z :=
  rd m process (elt pr.cells index).

(** The loop over the other cells only asserts; there are none. *)
Definition ia_css_process_get_cell (process : Z) : Z :=
  if is_null process then VIED_NCI_N_CELL_ID else ia_css_process_cells_get_cell process 0.

Definition ia_css_process_get_ext_mem_id (process mem_type : Z) : Z :=
  if negb (negb (is_null process) && (mem_type <? VIED_NCI_N_DATA_MEM_TYPE_ID))
  then IA_CSS_PROCESS_INVALID_OFFSET
  else
    let process_ext := ia_css_process_get_extension process in
    if is_null process_ext then IA_CSS_PROCESS_INVALID_OFFSET
    else rd m process_ext (elt pre.ext_mem_id mem_type).

Definition ia_css_process_get_program_idx (process : Z) : Z :=
  if is_null process then IA_CSS_PROCESS_INVALID_PROGRAM_IDX else rd m process pr.program_idx.

Definition ia_css_process_get_dev_chn (process dev_chn_id : Z) : Z :=
  if negb (negb (is_null process) && (dev_chn_id <? VIED_NCI_N_DEV_CHN_ID))
  then IA_CSS_PROCESS_INVALID_OFFSET
  else
    let process_ext := ia_css_process_get_extension process in
    if is_null process_ext then IA_CSS_PROCESS_INVALID_OFFSET
    else rd m process_ext (elt pre.dev_chn_offset dev_chn_id).

Definition ia_css_process_get_int_mem_offset (process mem_id : Z) : Z := 0.

Definition ia_css_process_get_ext_mem_offset (process mem_type_id : Z) : Z :=
  if negb (negb (is_null process) && (mem_type_id <? VIED_NCI_N_DATA_MEM_TYPE_ID))
  then IA_CSS_PROCESS_INVALID_OFFSET
  else
    let process_ext := ia_css_process_get_extension process in
    if is_null process_ext then IA_CSS_PROCESS_INVALID_OFFSET
    else rd m process_ext (elt pre.ext_mem_offset mem_type_id).

Definition ia_css_process_get_size (process : Z) : Z :=
  if is_null process then 0 else rd m process pr.size.

Definition ia_css_process_get_state (process : Z) : Z :=
  if is_null process then IA_CSS_N_PROCESS_STATES else rd m process pr.state.

Definition ia_css_process_get_cell_dependency_count (process : Z) : Z :=
  if is_null process then 0 else rd m process pr.cell_dependency_count.

Definition ia_css_process_get_terminal_dependency_count (process : Z) : Z :=
  if is_null process then 0 else rd m process pr.terminal_dependency_count.

Definition ia_css_process_get_parent (process : Z) : Z :=
  if is_null process then NULL
  else if rd m process pr.parent_offset =? 0 then NULL
  else process + rd m process pr.parent_offset.

Definition ia_css_process_get_program_ID (process : Z) : Z :=
  if is_null process then 0 else rd m process pr.ID.

Definition ia_css_process_get_cell_dependency (process cell_num : Z) : Z :=
  if is_null process then IA_CSS_PROCESS_INVALID_DEPENDENCY
  else if negb (cell_num <? rd m process pr.cell_dependency_count)
  then IA_CSS_PROCESS_INVALID_DEPENDENCY
  else
    let cell_dep_ptr := process + rd m process pr.cell_dependencies_offset in
    rd m (cell_dep_ptr + cell_num) (U8 0).

Definition ia_css_process_get_terminal_dependency (process terminal_num : Z) : Z :=
  if is_null process then IA_CSS_PROCESS_INVALID_DEPENDENCY
  else if negb (terminal_num <? rd m process pr.terminal_dependency_count)
  then IA_CSS_PROCESS_INVALID_DEPENDENCY
  else
    let ter_dep_ptr := process + rd m process pr.terminal_dependencies_offset in
    rd m (ter_dep_ptr + terminal_num) (U8 0).

(** [1 << cell_id] on [int]: [None] where the C shift has no meaning. *)
Definition ia_css_process_get_cells_bitmap (process : Z) : option Z :=
  if is_null process then Some 0
  else foldl (fun bitmap i =>
         let cell_id := ia_css_process_cells_get_cell process i in
         if negb (VIED_NCI_N_CELL_ID =? cell_id) then
           match bitmap, shift1 cell_id with
           | Some b, Some s => Some (Z.lor b s)
           | _, _ => None
           end
         else bitmap)
       (Some 0) (range 0 IA_CSS_PROCESS_MAX_CELLS).

Definition ia_css_process_get_dfm_port_bitmap_ptr (process : Z) : Z :=
  if is_null process then NULL
  else
    let process_ext := ia_css_process_get_extension process in
    if is_null process_ext then NULL else process_ext + f_off pre.dfm_port_bitmap.

Definition ia_css_process_get_dfm_active_port_bitmap_ptr (process : Z) : Z :=
  if is_null process then NULL
  else
    let process_ext := ia_css_process_get_extension process in
    if is_null process_ext then NULL else process_ext + f_off pre.dfm_active_port_bitmap.

Definition ia_css_process_get_dfm_port_bitmap (process dfm_res_id : Z) : Z :=
  if is_null process then 0
  else
    let process_ext := ia_css_process_get_extension process in
    if is_null process_ext then 0
    else if negb (dfm_res_id <? VIED_NCI_N_DEV_DFM_ID) then 0
    else rd m process_ext (elt pre.dfm_port_bitmap dfm_res_id).

Definition ia_css_process_get_dfm_active_port_bitmap (process dfm_res_id : Z) : Z :=
  if is_null process then 0
  else
    let process_ext := ia_css_process_get_extension process in
    if is_null process_ext then 0
    else if negb (dfm_res_id <? VIED_NCI_N_DEV_DFM_ID) then 0
    else rd m process_ext (elt pre.dfm_active_port_bitmap dfm_res_id).

(** A program ID that differs from the manifest's jumps to EXIT without an
    error, where [invalid_flag] still is [false]. *)
Definition ia_css_is_process_valid (process p_manifest : Z) : bool :=
  if is_null process then false
  else if is_null p_manifest then false
  else
    let invalid_flag := false in
    let prog_id := ia_css_process_get_program_ID process in
    if negb (prog_id =? ia_css_program_manifest_get_program_ID m p_manifest)
    then negb invalid_flag
    else
      let invalid_flag :=
        (rd m process pr.size <=? rd m process pr.cell_dependencies_offset)
        || (rd m process pr.size <=? rd m process pr.terminal_dependencies_offset) in
      let invalid_flag :=
        if ia_css_has_program_manifest_fixed_cell m p_manifest then
          let cell_id := ia_css_program_manifest_get_cell_ID m p_manifest in
          invalid_flag || negb (cell_id =? ia_css_process_get_cell process)
        else invalid_flag in
      let invalid_flag :=
        invalid_flag
        || (rd m process pr.cell_dependency_count + rd m process pr.terminal_dependency_count =? 0)
        || negb (rd m process pr.cell_dependency_count
                 =? ia_css_program_manifest_get_program_dependency_count m p_manifest)
        || negb (rd m process pr.terminal_dependency_count
                 =? ia_css_program_manifest_get_terminal_dependency_count m p_manifest) in
      negb invalid_flag.
End Getters.

(** ** Commands *)

Definition ia_css_process_set_state (process state : Z) : mem -> Z * mem :=
  with_retval (-1)
    (verifexit (negb (is_null process)) ;;;
     wrM process pr.state state ;;;
     ret 0).

Definition ia_css_process_cmd (process cmd : Z) : mem -> Z * mem :=
  with_retval (-1)
    (verifexit (negb (is_null process)) ;;;
     state <- gets (fun m => ia_css_process_get_state m process) ;;
     verifexit (negb (state =? IA_CSS_PROCESS_ERROR)) ;;;
     verifexit (state <? IA_CSS_N_PROCESS_STATES) ;;;
     (if cmd =? IA_CSS_PROCESS_CMD_NOP then ret tt
      else if cmd =? IA_CSS_PROCESS_CMD_ACQUIRE then
        verifexit (state =? IA_CSS_PROCESS_READY)
      else if cmd =? IA_CSS_PROCESS_CMD_RELEASE then
        verifexit (state =? IA_CSS_PROCESS_READY)
      else if cmd =? IA_CSS_PROCESS_CMD_START then
        verifexit ((state =? IA_CSS_PROCESS_READY) || (state =? IA_CSS_PROCESS_STOPPED)) ;;;
        wrM process pr.state IA_CSS_PROCESS_STARTED
      else if cmd =? IA_CSS_PROCESS_CMD_LOAD then
        verifexit ((state =? IA_CSS_PROCESS_STARTED) || (state =? IA_CSS_PROCESS_READY)
                   || (state =? IA_CSS_PROCESS_STOPPED)) ;;;
        wrM process pr.state IA_CSS_PROCESS_RUNNING
      else if cmd =? IA_CSS_PROCESS_CMD_STOP then
        verifexit ((state =? IA_CSS_PROCESS_RUNNING) || (state =? IA_CSS_PROCESS_SUSPENDED)) ;;;
        wrM process pr.state IA_CSS_PROCESS_STOPPED
      else if cmd =? IA_CSS_PROCESS_CMD_SUSPEND then
        verifexit (state =? IA_CSS_PROCESS_RUNNING) ;;;
        wrM process pr.state IA_CSS_PROCESS_SUSPENDED
      else if cmd =? IA_CSS_PROCESS_CMD_RESUME then
        verifexit (state =? IA_CSS_PROCESS_SUSPENDED) ;;;
        wrM process pr.state IA_CSS_PROCESS_RUNNING
      else exit) ;;;
     ret 0).

Definition ia_css_process_acquire (process : Z) : Z := if is_null process then -1 else 0.
Definition ia_css_process_release (process : Z) : Z := if is_null process then -1 else 0.

(** ** Cells *)

Definition ia_css_process_cells_set_cell (process index cell_id : Z) : M mem unit :=
  wrM process (elt pr.cells index) cell_id.

Section Cells.
Context {P : Platform}.

Definition ia_css_process_cells_clear (process : Z) : M mem unit :=
  for_each (range 0 IA_CSS_PROCESS_MAX_CELLS) tt (fun i _ =>
    ia_css_process_cells_set_cell process i VIED_NCI_N_CELL_ID).

Definition ia_css_process_set_cell (process cell_id : Z) : mem -> Z * mem :=
  with_retval (-1)
    (verifexit (negb (is_null process)) ;;;
     parent <- gets (fun m => ia_css_process_get_parent m process) ;;
     verifexit (negb (is_null parent)) ;;;
     parent_state <- gets (fun m => ia_css_process_group_get_state m parent) ;;
     state <- gets (fun m => ia_css_process_get_state m process) ;;
     verifexit (one_of parent_state
       [IA_CSS_PROCESS_GROUP_BLOCKED; IA_CSS_PROCESS_GROUP_STARTED;
        IA_CSS_PROCESS_GROUP_CREATED; IA_CSS_PROCESS_GROUP_READY]) ;;;
     verifexit ((state =? IA_CSS_PROCESS_READY) || (state =? IA_CSS_PROCESS_STOPPED)) ;;;
     cell <- gets (fun m => ia_css_process_get_cell m process) ;;
     verifexit (cell =? VIED_NCI_N_CELL_ID) ;;;
     let bit_mask := vied_nci_cell_bit_mask cell_id in
     resource_bitmap <- gets (fun m => ia_css_process_group_get_resource_bitmap m parent) ;;
     verifexit (negb (bit_mask =? 0)) ;;;
     verifexit (vied_nci_is_bitmap_clear bit_mask resource_bitmap) ;;;
     ia_css_process_cells_clear process ;;;
     ia_css_process_cells_set_cell process 0 cell_id ;;;
     let resource_bitmap := vied_nci_bitmap_set resource_bitmap bit_mask in
     call (ia_css_process_group_set_resource_bitmap parent resource_bitmap)).

Definition ia_css_process_clear_cell (process : Z) : mem -> Z * mem :=
  with_retval (-1)
    (verifexit (negb (is_null process)) ;;;
     cell_id <- gets (fun m => ia_css_process_get_cell m process) ;;
     parent <- gets (fun m => ia_css_process_get_parent m process) ;;
     verifexit (negb (is_null parent)) ;;;
     parent_state <- gets (fun m => ia_css_process_group_get_state m parent) ;;
     state <- gets (fun m => ia_css_process_get_state m process) ;;
     verifexit (one_of parent_state
       [IA_CSS_PROCESS_GROUP_BLOCKED; IA_CSS_PROCESS_GROUP_STARTED]) ;;;
     verifexit ((state =? IA_CSS_PROCESS_READY) || (state =? IA_CSS_PROCESS_STOPPED)) ;;;
     let bit_mask := vied_nci_cell_bit_mask cell_id in
     resource_bitmap <- gets (fun m => ia_css_process_group_get_resource_bitmap m parent) ;;
     verifexit (negb (bit_mask =? 0)) ;;;
     verifexit (vied_nci_is_bitmap_set bit_mask resource_bitmap) ;;;
     ia_css_process_cells_clear process ;;;
     let resource_bitmap := vied_nci_bitmap_clear resource_bitmap bit_mask in
     call (ia_css_process_group_set_resource_bitmap parent resource_bitmap)).

(** The exit inside the loop leaves the cells written so far. *)
Definition ia_css_process_set_cells_bitmap (process bitmap : Z) : mem -> Z * mem :=
  with_retval (-1)
    (verifexit (negb (is_null process)) ;;;
     parent <- gets (fun m => ia_css_process_get_parent m process) ;;
     verifexit (negb (is_null parent)) ;;;
     state <- gets (fun m => ia_css_process_get_state m process) ;;
     parent_state <- gets (fun m => ia_css_process_group_get_state m parent) ;;
     verifexit (one_of parent_state
       [IA_CSS_PROCESS_GROUP_BLOCKED; IA_CSS_PROCESS_GROUP_STARTED;
        IA_CSS_PROCESS_GROUP_CREATED; IA_CSS_PROCESS_GROUP_READY]) ;;;
     verifexit ((state =? IA_CSS_PROCESS_READY) || (state =? IA_CSS_PROCESS_STOPPED)) ;;;
     array_index <- for_each (range 0 VIED_NCI_N_CELL_ID) 0 (fun bit_index array_index =>
       if vied_nci_is_bit_set_in_bitmap bitmap bit_index then
         verifexit (array_index <? IA_CSS_PROCESS_MAX_CELLS) ;;;
         ia_css_process_cells_set_cell process array_index bit_index ;;;
         ret (array_index + 1)
       else ret array_index) ;;
     for_each (range array_index IA_CSS_PROCESS_MAX_CELLS) tt (fun array_index _ =>
       ia_css_process_cells_set_cell process array_index VIED_NCI_N_CELL_ID) ;;;
     ret 0).
End Cells.

(** ** Memories, device channels and DFM ports *)

Definition ia_css_process_set_int_mem (process mem_type_id offset : Z) : Z := 0.
Definition ia_css_process_clear_int_mem (process mem_type_id : Z) : Z := 0.

Section Resources.
Context {P : Platform} {T : ResourceTables}.

(** HAS_PMEM is not defined by the build. *)
Definition ia_css_process_set_ext_mem (process mem_id offset : Z) : mem -> Z * mem :=
  with_retval (-1)
    (verifexit (negb (is_null process)) ;;;
     process_ext <- gets (fun m => ia_css_process_get_extension m process) ;;
     verifexit (negb (is_null process_ext)) ;;;
     parent <- gets (fun m => ia_css_process_get_parent m process) ;;
     verifexit (negb (is_null parent)) ;;;
     cell_id <- gets (fun m => ia_css_process_get_cell m process) ;;
     parent_state <- gets (fun m => ia_css_process_group_get_state m parent) ;;
     state <- gets (fun m => ia_css_process_get_state m process) ;;
     verifexit (one_of parent_state
       [IA_CSS_PROCESS_GROUP_BLOCKED; IA_CSS_PROCESS_GROUP_STARTED;
        IA_CSS_PROCESS_GROUP_RUNNING]) ;;;
     verifexit ((state =? IA_CSS_PROCESS_READY) || (state =? IA_CSS_PROCESS_STOPPED)) ;;;
     let mem_type_id := vied_nci_mem_get_type mem_id in
     if (negb (vied_nci_has_cell_mem_of_id cell_id mem_id)
         || vied_nci_mem_is_ext_type mem_type_id)
        && (mem_id <? VIED_NCI_N_MEM_ID)
     then
       verifexit (mem_type_id <? VIED_NCI_N_DATA_MEM_TYPE_ID) ;;;
       wrM process_ext (elt pre.ext_mem_id mem_type_id) mem_id ;;;
       wrM process_ext (elt pre.ext_mem_offset mem_type_id) offset ;;;
       ret 0
     else ret (-1)).

Definition ia_css_process_clear_ext_mem (process mem_type_id : Z) : mem -> Z * mem :=
  with_retval (-1)
    (verifexit (negb (is_null process)) ;;;
     verifexit (mem_type_id <? VIED_NCI_N_DATA_MEM_TYPE_ID) ;;;
     process_ext <- gets (fun m => ia_css_process_get_extension m process) ;;
     if is_null process_ext then ret 0
     else
       parent <- gets (fun m => ia_css_process_get_parent m process) ;;
       verifexit (negb (is_null parent)) ;;;
       state <- gets (fun m => ia_css_process_get_state m process) ;;
       verifexit ((state =? IA_CSS_PROCESS_READY) || (state =? IA_CSS_PROCESS_STOPPED)) ;;;
       parent_state <- gets (fun m => ia_css_process_group_get_state m parent) ;;
       verifexit (one_of parent_state
         [IA_CSS_PROCESS_GROUP_BLOCKED; IA_CSS_PROCESS_GROUP_STARTED]) ;;;
       wrM process_ext (elt pre.ext_mem_id mem_type_id) VIED_NCI_N_MEM_ID ;;;
       wrM process_ext (elt pre.ext_mem_offset mem_type_id) IA_CSS_PROCESS_INVALID_OFFSET ;;;
       ret 0).

(** The bound is [<=] as written: [dev_chn_id] may equal the count. *)
Definition ia_css_process_set_dev_chn (process dev_chn_id offset : Z) : mem -> Z * mem :=
  with_retval (-1)
    (verifexit (negb (is_null process)) ;;;
     verifexit (dev_chn_id <=? VIED_NCI_N_DEV_CHN_ID) ;;;
     process_ext <- gets (fun m => ia_css_process_get_extension m process) ;;
     verifexit (negb (is_null process_ext)) ;;;
     parent <- gets (fun m => ia_css_process_get_parent m process) ;;
     verifexit (negb (is_null parent)) ;;;
     state <- gets (fun m => ia_css_process_get_state m process) ;;
     parent_state <- gets (fun m => ia_css_process_group_get_state m parent) ;;
     verifexit (one_of parent_state
       [IA_CSS_PROCESS_GROUP_BLOCKED; IA_CSS_PROCESS_GROUP_STARTED;
        IA_CSS_PROCESS_GROUP_RUNNING]) ;;;
     verifexit ((state =? IA_CSS_PROCESS_READY) || (state =? IA_CSS_PROCESS_STOPPED)) ;;;
     wrM process_ext (elt pre.dev_chn_offset dev_chn_id) offset ;;;
     ret 0).

Definition ia_css_process_clear_dev_chn (process dev_chn_id : Z) : mem -> Z * mem :=
  with_retval (-1)
    (verifexit (negb (is_null process)) ;;;
     process_ext <- gets (fun m => ia_css_process_get_extension m process) ;;
     if is_null process_ext then ret 0
     else
       parent <- gets (fun m => ia_css_process_get_parent m process) ;;
       verifexit (negb (is_null parent)) ;;;
       parent_state <- gets (fun m => ia_css_process_group_get_state m parent) ;;
       state <- gets (fun m => ia_css_process_get_state m process) ;;
       verifexit (one_of parent_state
         [IA_CSS_PROCESS_GROUP_BLOCKED; IA_CSS_PROCESS_GROUP_STARTED]) ;;;
       verifexit ((state =? IA_CSS_PROCESS_READY) || (state =? IA_CSS_PROCESS_STOPPED)) ;;;
       verifexit (dev_chn_id <=? VIED_NCI_N_DEV_CHN_ID) ;;;
       wrM process_ext (elt pre.dev_chn_offset dev_chn_id) IA_CSS_PROCESS_INVALID_OFFSET ;;;
       ret 0).

Definition ia_css_process_set_dfm_port_bitmap (process dfm_dev_id bitmap : Z) : mem -> Z * mem :=
  with_retval (-1)
    (verifexit (negb (is_null process)) ;;;
     process_ext <- gets (fun m => ia_css_process_get_extension m process) ;;
     if is_null process_ext && (bitmap =? 0) then ret 0
     else
       verifexit (negb (is_null process_ext)) ;;;
       parent <- gets (fun m => ia_css_process_get_parent m process) ;;
       verifexit (negb (is_null parent)) ;;;
       state <- gets (fun m => ia_css_process_get_state m process) ;;
       parent_state <- gets (fun m => ia_css_process_group_get_state m parent) ;;
       verifexit (one_of parent_state
         [IA_CSS_PROCESS_GROUP_BLOCKED; IA_CSS_PROCESS_GROUP_STARTED;
          IA_CSS_PROCESS_GROUP_RUNNING]) ;;;
       verifexit ((state =? IA_CSS_PROCESS_READY) || (state =? IA_CSS_PROCESS_STOPPED)) ;;;
       verifexit (dfm_dev_id <=? VIED_NCI_N_DEV_DFM_ID) ;;;
       wrM process_ext (elt pre.dfm_port_bitmap dfm_dev_id) bitmap ;;;
       ret 0).

Definition ia_css_process_set_dfm_active_port_bitmap (process dfm_dev_id bitmap : Z) : mem -> Z * mem :=
  with_retval (-1)
    (verifexit (negb (is_null process)) ;;;
     process_ext <- gets (fun m => ia_css_process_get_extension m process) ;;
     if is_null process_ext && (bitmap =? 0) then ret 0
     else
       verifexit (negb (is_null process_ext)) ;;;
       parent <- gets (fun m => ia_css_process_get_parent m process) ;;
       verifexit (negb (is_null parent)) ;;;
       state <- gets (fun m => ia_css_process_get_state m process) ;;
       parent_state <- gets (fun m => ia_css_process_group_get_state m parent) ;;
       verifexit (one_of parent_state
         [IA_CSS_PROCESS_GROUP_BLOCKED; IA_CSS_PROCESS_GROUP_STARTED;
          IA_CSS_PROCESS_GROUP_RUNNING]) ;;;
       verifexit ((state =? IA_CSS_PROCESS_READY) || (state =? IA_CSS_PROCESS_STOPPED)) ;;;
       verifexit (dfm_dev_id <=? VIED_NCI_N_DEV_DFM_ID) ;;;
       wrM process_ext (elt pre.dfm_active_port_bitmap dfm_dev_id) bitmap ;;;
       ret 0).

Definition ia_css_process_clear_all (process : Z) : mem -> Z * mem :=
  with_retval (-1)
    (verifexit (negb (is_null process)) ;;;
     process_ext <- gets (fun m => ia_css_process_get_extension m process) ;;
     state <- gets (fun m => ia_css_process_get_state m process) ;;
     parent <- gets (fun m => ia_css_process_get_parent m process) ;;
     parent_state <- gets (fun m =>
       if negb (is_null parent) then ia_css_process_group_get_state m parent
       else IA_CSS_N_PROCESS_GROUP_STATES) ;;
     verifexit (negb (parent_state =? IA_CSS_PROCESS_GROUP_RUNNING)
                || (parent_state =? IA_CSS_N_PROCESS_GROUP_STATES)) ;;;
     verifexit ((state =? IA_CSS_PROCESS_CREATED) || (state =? IA_CSS_PROCESS_READY)) ;;;
     (if negb (is_null process_ext) then
        for_each (range 0 VIED_NCI_N_DEV_CHN_ID) tt (fun dev_chn_index _ =>
          wrM process_ext (elt pre.dev_chn_offset dev_chn_index) IA_CSS_PROCESS_INVALID_OFFSET)
      else ret tt) ;;;
     (if negb (is_null process_ext) then
        for_each (range 0 VIED_NCI_N_DATA_MEM_TYPE_ID) tt (fun mem_index _ =>
          wrM process_ext (elt pre.ext_mem_id mem_index) VIED_NCI_N_MEM_ID ;;;
          wrM process_ext (elt pre.ext_mem_offset mem_index) IA_CSS_PROCESS_INVALID_OFFSET)
      else ret tt) ;;;
     ia_css_process_cells_clear process ;;;
     ret 0).
End Resources.

(** ** Parent and dependencies *)

(** [(uint16_t)] first, then the [int16_t] field. *)
Definition ia_css_process_set_parent (process parent : Z) : mem -> Z * mem :=
  with_retval (-1)
    (verifexit (negb (is_null process)) ;;;
     verifexit (negb (is_null parent)) ;;;
     wrM process pr.parent_offset (u16 (parent - process)) ;;;
     ret 0).

(** The index is not checked. *)
Definition ia_css_process_set_cell_dependency (process dep_index id : Z) : mem -> Z * mem :=
  with_retval (-1)
    (verifexit (negb (is_null process)) ;;;
     cell_dependencies_offset <- rdM process pr.cell_dependencies_offset ;;
     let process_dep_ptr := process + cell_dependencies_offset + dep_index in
     wrM process_dep_ptr (U8 0) id ;;;
     ret 0).

Definition ia_css_process_set_terminal_dependency (process dep_index id : Z) : mem -> Z * mem :=
  with_retval (-1)
    (verifexit (negb (is_null process)) ;;;
     count <- gets (fun m => ia_css_process_get_terminal_dependency_count m process) ;;
     verifexit (dep_index <? count) ;;;
     terminal_dependencies_offset <- rdM process pr.terminal_dependencies_offset ;;
     let terminal_dep_ptr := process + terminal_dependencies_offset + dep_index in
     wrM terminal_dep_ptr (U8 0) id ;;;
     ret 0).

(** ** Creation *)

Section Create.
Context {P : Platform}.

Definition ia_css_program_manifest_process_requires_extension (m : mem) (manifest : Z) : bool :=
  if is_null manifest then false
  else
    let requires_extension := false in
    let requires_extension :=
      foldl (fun r i => r || negb (ia_css_program_manifest_get_ext_mem_size m manifest i =? 0))
            requires_extension (range 0 VIED_NCI_N_DATA_MEM_TYPE_ID) in
    let requires_extension :=
      foldl (fun r i => r || negb (ia_css_program_manifest_get_dev_chn_size m manifest i =? 0))
            requires_extension (range 0 VIED_NCI_N_DEV_CHN_ID) in
    let requires_extension :=
      foldl (fun r i =>
               r || negb (ia_css_program_manifest_get_dfm_port_bitmap m manifest i =? 0)
               || negb (ia_css_program_manifest_get_dfm_active_port_bitmap m manifest i =? 0))
            requires_extension (range 0 VIED_NCI_N_DEV_DFM_ID) in
    requires_extension.

Definition ia_css_sizeof_process (m : mem) (manifest param : Z) : Z :=
  if is_null manifest then 0
  else if is_null param then 0
  else
    let size := 0 in
    let size := size + sizeof_ia_css_process_t in
    let size := if ia_css_program_manifest_process_requires_extension m manifest
                then CEIL_MUL size 4 + sizeof_ia_css_process_ext_t else size in
    let program_dependency_count :=
      ia_css_program_manifest_get_program_dependency_count m manifest in
    let terminal_dependency_count :=
      ia_css_program_manifest_get_terminal_dependency_count m manifest in
    let size := size + program_dependency_count in
    let size := size + terminal_dependency_count in
    CEIL_MUL size 4.

(** The function only traces. *)
Definition ia_css_process_destroy (process : Z) : Z := process.

(** The statements of the body once [process] is [raw_mem]. *)
Definition process_create_body (process manifest param program_idx : Z) : M mem unit :=
  create_extension <- gets (fun m =>
    ia_css_program_manifest_process_requires_extension m manifest) ;;
  wrM process pr.state IA_CSS_PROCESS_CREATED ;;;
  program_dependency_count <- gets (fun m =>
    ia_css_program_manifest_get_program_dependency_count m manifest) ;;
  terminal_dependency_count <- gets (fun m =>
    ia_css_program_manifest_get_terminal_dependency_count m manifest) ;;
  verifexit (negb (program_dependency_count + terminal_dependency_count =? 0)) ;;;
  let size := 0 + sizeof_ia_css_process_t in
  size <- (if create_extension : bool then
             let size := CEIL_MUL size 4 in
             wrM process pr.process_extension_offset size ;;;
             ret (size + sizeof_ia_css_process_ext_t)
           else
             wrM process pr.process_extension_offset 0 ;;;
             ret size) ;;
  size <- (if negb (program_dependency_count =? 0) then
             wrM process pr.cell_dependencies_offset size ;;;
             ret (size + program_dependency_count)
           else
             wrM process pr.cell_dependencies_offset 0 ;;;
             ret size) ;;
  size <- (if negb (terminal_dependency_count =? 0) then
             wrM process pr.terminal_dependencies_offset size ;;;
             ret (size + terminal_dependency_count)
           else
             wrM process pr.terminal_dependencies_offset 0 ;;;
             ret size) ;;
  sizeof_process <- gets (fun m => ia_css_sizeof_process m manifest param) ;;
  wrM process pr.size sizeof_process ;;;
  program_ID <- gets (fun m => ia_css_program_manifest_get_program_ID m manifest) ;;
  wrM process pr.ID program_ID ;;;
  ID <- rdM process pr.ID ;;
  verifexit (negb (ID =? 0)) ;;;
  wrM process pr.program_idx program_idx ;;;
  wrM process pr.cell_dependency_count program_dependency_count ;;;
  wrM process pr.terminal_dependency_count terminal_dependency_count ;;;
  wrM process pr.parent_offset 0 ;;;
  cleared <- call (ia_css_process_clear_all process) ;;
  verifexit (cleared =? 0) ;;;
  wrM process pr.state IA_CSS_PROCESS_READY.

(** EXIT returns [destroy (process)], where [process] is NULL only until the
    three argument checks have passed. *)
Definition ia_css_process_create (raw_mem manifest param program_idx : Z) (m : mem) : Z * mem :=
  if is_null manifest then (ia_css_process_destroy NULL, m)
  else if is_null param then (ia_css_process_destroy NULL, m)
  else if is_null raw_mem then (ia_css_process_destroy NULL, m)
  else
    let process := raw_mem in
    match process_create_body process manifest param program_idx m with
    | (Some _, m') => (process, m')
    | (None, m') => (ia_css_process_destroy process, m')
    end.
End Create.

(** ** The process state machine *)

Module ProcessFsm.
Inductive pstate := Error | Created | Ready | Started | Running | Stopped | Suspended.
Inductive pcmd := Nop | Acquire | Release | Start | Load | Stop | Suspend | Resume.

#[export] Instance pstate_eq_dec : EqDecision pstate.
Proof. solve_decision. Defined.

Definition state_code (s : pstate) : Z :=
  match s with
  | Error => IA_CSS_PROCESS_ERROR | Created => IA_CSS_PROCESS_CREATED
  | Ready => IA_CSS_PROCESS_READY | Started => IA_CSS_PROCESS_STARTED
  | Running => IA_CSS_PROCESS_RUNNING | Stopped => IA_CSS_PROCESS_STOPPED
  | Suspended => IA_CSS_PROCESS_SUSPENDED
  end.

Definition cmd_code (c : pcmd) : Z :=
  match c with
  | Nop => IA_CSS_PROCESS_CMD_NOP | Acquire => IA_CSS_PROCESS_CMD_ACQUIRE
  | Release => IA_CSS_PROCESS_CMD_RELEASE | Start => IA_CSS_PROCESS_CMD_START
  | Load => IA_CSS_PROCESS_CMD_LOAD | Stop => IA_CSS_PROCESS_CMD_STOP
  | Suspend => IA_CSS_PROCESS_CMD_SUSPEND | Resume => IA_CSS_PROCESS_CMD_RESUME
  end.

(** The transitions, as a specification. *)
Inductive step : pstate -> pcmd -> pstate -> Prop :=
  | step_nop s : s <> Error -> step s Nop s
  | step_acquire : step Ready Acquire Ready
  | step_release : step Ready Release Ready
  | step_start s : s = Ready \/ s = Stopped -> step s Start Started
  | step_load s : s = Started \/ s = Ready \/ s = Stopped -> step s Load Running
  | step_stop s : s = Running \/ s = Suspended -> step s Stop Stopped
  | step_suspend : step Running Suspend Suspended
  | step_resume : step Suspended Resume Running.

Definition next (s : pstate) (c : pcmd) : option pstate :=
  match s, c with
  | Error, _ => None
  | _, Nop => Some s
  | Ready, (Acquire | Release) => Some Ready
  | (Ready | Stopped), Start => Some Started
  | (Started | Ready | Stopped), Load => Some Running
  | (Running | Suspended), Stop => Some Stopped
  | Running, Suspend => Some Suspended
  | Suspended, Resume => Some Running
  | _, _ => None
  end.

Lemma process_next_step s c s' : next s c = Some s' <-> step s c s'.
Proof.
  split.
  - destruct s, c; cbn; intros E; try discriminate; injection E as <-; constructor; auto;
      discriminate.
  - intros H. destruct H; try reflexivity.
    + destruct s; cbn; congruence.
    + destruct H as [-> | ->]; reflexivity.
    + destruct H as [-> | [-> | ->]]; reflexivity.
    + destruct H as [-> | ->]; reflexivity.
Qed.

(** Runs of accepted and rejected commands: a rejected one changes nothing. *)
Inductive run : pstate -> list pcmd -> pstate -> Prop :=
  | run_nil s : run s [] s
  | run_ok s c s' l s'' : step s c s' -> run s' l s'' -> run s (c :: l) s''
  | run_rejected s c l s'' : next s c = None -> run s l s'' -> run s (c :: l) s''.

Definition live (s : pstate) : Prop := s <> Error /\ s <> Created.

Lemma step_live s c s' : step s c s' -> live s -> live s'.
Proof. intros H [L1 L2]. destruct H; split; try discriminate; auto. Qed.

Lemma step_not_ready s c s' : step s c s' -> s <> Ready -> s' <> Ready.
Proof. intros H Hs. destruct H; try discriminate; auto. Qed.
End ProcessFsm.
Import ProcessFsm.

Lemma process_cmd_next p c m s :
  0 < p -> rd m p pr.state = state_code s ->
  ia_css_process_cmd p (cmd_code c) m
  = match next s c with
    | Some s' =>
        (0, match c with Nop | Acquire | Release => m | _ => wr m p pr.state (state_code s') end)
    | None => (-1, m)
    end.
Proof.
  intros Hp Hs. unfold ia_css_process_cmd, ia_css_process_get_state. mrun.
  rewrite not_null by exact Hp. cbn [negb]. rewrite Hs. destruct s, c; reflexivity.
Qed.

(** The memory as a state of the machine. *)
Definition in_state (p : Z) (m : mem) (s : pstate) : Prop := rd m p pr.state = state_code s.

Lemma in_state_wr p m s : in_state p (wr m p pr.state (state_code s)) s.
Proof. unfold in_state. mem_read. destruct s; reflexivity. Qed.

Lemma process_cmds_run p l m s :
  0 < p -> in_state p m s ->
  exists s', run s l s'
    /\ in_state p (foldl (fun m c => snd (ia_css_process_cmd p (cmd_code c) m)) m l) s'.
Proof.
  intros Hp. revert m s. induction l as [| c l IH]; intros m s Hs.
  - exists s. split; [constructor | exact Hs].
  - cbn [foldl]. rewrite (process_cmd_next p c m s Hp Hs). destruct (next s c) as [s1 |] eqn:E.
    + assert (H1 : in_state p (snd (0, match c with Nop | Acquire | Release => m
                              | _ => wr m p pr.state (state_code s1) end)) s1).
      { cbn [snd]. destruct c; try apply in_state_wr; destruct s; cbn in E; congruence. }
      destruct (IH _ _ H1) as (s' & R & I). exists s'. split; [| exact I].
      eapply run_ok; [apply process_next_step, E | exact R].
    + destruct (IH m s Hs) as (s' & R & I). exists s'. split; [| exact I].
      apply run_rejected; assumption.
Qed.

(** [ia_css_process_cmd] is the process state machine: it accepts a
    command exactly when the machine has that transition, then only the state
    byte changes and holds the target state; a rejected or unknown command
    returns -1 and changes nothing. *)
Theorem process_cmd_refines_fsm p c m s :
  0 < p -> in_state p m s ->
  (forall s', step s c s' ->
     exists m', ia_css_process_cmd p (cmd_code c) m = (0, m') /\ in_state p m' s'
       /\ same_outside (p + 8) (p + 9) m m')
  /\ ((forall s', ~ step s c s') -> ia_css_process_cmd p (cmd_code c) m = (-1, m))
  /\ (forall cmd, IA_CSS_N_PROCESS_CMDS <= cmd -> ia_css_process_cmd p cmd m = (-1, m)).
Proof.
  intros Hp Hs. rewrite (process_cmd_next p c m s Hp Hs). split; [| split].
  - intros s' H. apply process_next_step in H. rewrite H. eexists. split; [reflexivity |]. split.
    + destruct c; try apply in_state_wr; destruct s; cbn in H; congruence.
    + destruct c; try apply same_outside_refl; apply wr_same_outside; mem_out.
  - intros H. destruct (next s c) as [s' |] eqn:E; [| reflexivity].
    exfalso. apply (H s'), process_next_step, E.
  - intros cmd Hc. unfold IA_CSS_N_PROCESS_CMDS in Hc.
    unfold ia_css_process_cmd, ia_css_process_get_state. mrun.
    rewrite not_null by exact Hp. cbn [negb]. rewrite Hs.
    unfold IA_CSS_PROCESS_CMD_NOP, IA_CSS_PROCESS_CMD_ACQUIRE, IA_CSS_PROCESS_CMD_RELEASE,
      IA_CSS_PROCESS_CMD_START, IA_CSS_PROCESS_CMD_LOAD, IA_CSS_PROCESS_CMD_STOP,
      IA_CSS_PROCESS_CMD_SUSPEND, IA_CSS_PROCESS_CMD_RESUME.
    rewrite !(proj2 (Z.eqb_neq cmd _)) by lia. destruct s; reflexivity.
Qed.

Lemma process_cmd_refines_fsm_witness :
  exists m', ia_css_process_cmd 64 IA_CSS_PROCESS_CMD_LOAD (wr (fun _ => 0) 64 pr.state 2) = (0, m')
    /\ in_state 64 m' Running.
Proof.
  destruct (process_cmd_refines_fsm 64 Load (wr (fun _ => 0) 64 pr.state 2) Ready) as [H _];
    [lia | reflexivity |].
  destruct (H Running) as (m' & E & I & _); [constructor; auto |]. exists m'. split; [exact E | exact I].
Defined.

(** Once a process is ready, no sequence of commands, accepted or
    not, brings it to the error or created state or back to ready after it has
    left; and every live state can still be driven to running and to stopped. *)
Theorem process_lifecycle p m l :
  0 < p -> in_state p m Ready ->
  (exists s, in_state p (foldl (fun m c => snd (ia_css_process_cmd p (cmd_code c) m)) m l) s
             /\ live s /\ run Ready l s)
  /\ (forall s l' s', live s -> s <> Ready -> run s l' s' -> s' <> Ready)
  /\ (forall s, live s -> (exists l', run s l' Running) /\ (exists l', run s l' Stopped)).
Proof.
  intros Hp Hs. split; [| split].
  - destruct (process_cmds_run p l m Ready Hp Hs) as (s & R & I).
    exists s. split; [exact I | split; [| exact R]].
    assert (G : forall s0, run s0 l s -> live s0 -> live s).
    { clear. intros s0 R. induction R; eauto using step_live. }
    apply (G Ready R). split; discriminate.
  - intros s l' s' _ Hne R. induction R; eauto using step_not_ready.
  - intros s [L1 L2].
    assert (A : forall c s', step s c s' -> run s [c] s').
    { intros c s' H. eapply run_ok; [exact H | constructor]. }
    assert (B : forall c d s' s'', step s c s' -> step s' d s'' -> run s [c; d] s'').
    { intros c d s' s'' H H'. eapply run_ok; [exact H |]. eapply run_ok; [exact H' | constructor]. }
    destruct s; try congruence.
    + split; [exists [Load]; apply A; constructor; auto
             | exists [Load; Stop]; apply (B _ _ Running); constructor; auto].
    + split; [exists [Load]; apply A; constructor; auto
             | exists [Load; Stop]; apply (B _ _ Running); constructor; auto].
    + split; [exists []; constructor | exists [Stop]; apply A; constructor; auto].
    + split; [exists [Load]; apply A; constructor; auto | exists []; constructor].
    + split; [exists [Resume]; apply A; constructor | exists [Stop]; apply A; constructor; auto].
Qed.

Lemma process_lifecycle_witness :
  exists s, in_state 64 (foldl (fun m c => snd (ia_css_process_cmd 64 (cmd_code c) m))
      (wr (fun _ => 0) 64 pr.state 2) [Start; Load; Suspend; Acquire]) s /\ live s.
Proof.
  destruct (process_lifecycle 64 (wr (fun _ => 0) 64 pr.state 2) [Start; Load; Suspend; Acquire])
    as [(s & I & L & _) _]; [lia | reflexivity |]. exists s. auto.
Defined.
