(* ===== verification/ProcessCells.v ===== *)
(** * The cells of the processes of a group

    The ownership protocol between [ia_css_process_set_cell] and
    [ia_css_process_clear_cell] (src/ia_css_psys_process.c) and the resource
    bitmap of the parent group: which cells a group's processes hold, and that
    no cell is held twice. *)

From S2P Require Import Prelude Memory ResourceModel KernelBitmap ProgramManifest ProcessGroupHeader Process.
#[local] Open Scope css_scope.

(** ** Cell ownership *)

(** [p] is a process of the group [g]: its parent pointer leads there and the
    two headers do not overlap. *)
Record attached (m : mem) (p g : Z) : Prop := {
  at_p : 0 < p;
  at_g : 0 < g;
  at_parent : ia_css_process_get_parent m p = g;
  at_disj : p + sizeof_ia_css_process_t <= g \/ g + sizeof_ia_css_process_group_t <= p
}.

(** Stores that keep the process header's first two bytes keep the parent. *)
Lemma attached_frame m m' p g :
  rd m' p pr.parent_offset = rd m p pr.parent_offset -> attached m p g -> attached m' p g.
Proof.
  intros E [A1 A2 A3 A4]. split; auto. rewrite <- A3. unfold ia_css_process_get_parent.
  rewrite E. reflexivity.
Qed.

Section Ownership.
Context {P : Platform} {Pok : PlatformOk P}.

Definition may_set_cell (m : mem) (p g c : Z) : bool :=
  one_of (rd m g pg.state)
    [IA_CSS_PROCESS_GROUP_BLOCKED; IA_CSS_PROCESS_GROUP_STARTED;
     IA_CSS_PROCESS_GROUP_CREATED; IA_CSS_PROCESS_GROUP_READY]
  && ((rd m p pr.state =? IA_CSS_PROCESS_READY) || (rd m p pr.state =? IA_CSS_PROCESS_STOPPED))
  && (rd m p (elt pr.cells 0) =? VIED_NCI_N_CELL_ID)
  && (c <? VIED_NCI_N_CELL_ID)
  && negb (Z.testbit (rd m g pg.resource_bitmap) c).

Definition may_clear_cell (m : mem) (p g : Z) : bool :=
  one_of (rd m g pg.state) [IA_CSS_PROCESS_GROUP_BLOCKED; IA_CSS_PROCESS_GROUP_STARTED]
  && ((rd m p pr.state =? IA_CSS_PROCESS_READY) || (rd m p pr.state =? IA_CSS_PROCESS_STOPPED))
  && (rd m p (elt pr.cells 0) <? VIED_NCI_N_CELL_ID)
  && Z.testbit (rd m g pg.resource_bitmap) (rd m p (elt pr.cells 0)).

Lemma set_cell_run m p g c :
  attached m p g -> 0 <= c ->
  ia_css_process_set_cell p c m
  = if may_set_cell m p g c then
      (0, wr (wr (wr m p (elt pr.cells 0) VIED_NCI_N_CELL_ID) p (elt pr.cells 0) c) g pg.resource_bitmap
            (vied_nci_bitmap_set (rd m g pg.resource_bitmap) (2 ^ c)))
    else (-1, m).
Proof.
  intros [Hp Hg Hpar Hd] Hc. unfold ia_css_process_set_cell, may_set_cell. mrun.
  rewrite (not_null p) by exact Hp. cbn [negb]. rewrite Hpar, (not_null g) by exact Hg.
  unfold ia_css_process_group_get_state, ia_css_process_get_state, ia_css_process_get_cell,
    ia_css_process_cells_get_cell, ia_css_process_group_get_resource_bitmap.
  rewrite (not_null p), (not_null g) by assumption. cbn [negb]. rewrite cell_bit_mask_pow2 by lia.
  destruct (one_of (rd m g pg.state) _); [| reflexivity].
  destruct (_ || _); [| reflexivity].
  destruct (rd m p (elt pr.cells 0) =? VIED_NCI_N_CELL_ID); [| reflexivity].
  cbn [negb andb]. destruct (Z.ltb_spec c VIED_NCI_N_CELL_ID) as [Hlt | Hge]; [| reflexivity].
  rewrite pow2_ne0, is_bitmap_clear_bit' by lia. cbn [negb andb].
  destruct (Z.testbit _ c); [reflexivity |]. cbn [negb].
  unfold ia_css_process_cells_clear. change (range 0 IA_CSS_PROCESS_MAX_CELLS) with [0].
  cbn [for_each]. unfold ia_css_process_cells_set_cell. mrun.
  rewrite set_resource_bitmap_run by exact Hg. reflexivity.
Qed.

Lemma clear_cell_run m p g :
  attached m p g ->
  ia_css_process_clear_cell p m
  = if may_clear_cell m p g then
      (0, wr (wr m p (elt pr.cells 0) VIED_NCI_N_CELL_ID) g pg.resource_bitmap
            (vied_nci_bitmap_clear (rd m g pg.resource_bitmap) (2 ^ rd m p (elt pr.cells 0))))
    else (-1, m).
Proof.
  intros [Hp Hg Hpar Hd]. unfold ia_css_process_clear_cell, may_clear_cell. mrun.
  rewrite (not_null p) by exact Hp. cbn [negb]. rewrite Hpar, (not_null g) by exact Hg.
  unfold ia_css_process_group_get_state, ia_css_process_get_state, ia_css_process_get_cell,
    ia_css_process_cells_get_cell, ia_css_process_group_get_resource_bitmap.
  rewrite (not_null p), (not_null g) by assumption. cbn [negb].
  assert (Hc : 0 <= rd m p (elt pr.cells 0)) by (apply rd_range; reflexivity).
  rewrite cell_bit_mask_pow2 by lia.
  destruct (one_of (rd m g pg.state) _); [| reflexivity].
  destruct (_ || _); [| reflexivity].
  cbn [negb andb].
  destruct (Z.ltb_spec (rd m p (elt pr.cells 0)) VIED_NCI_N_CELL_ID); [| reflexivity].
  rewrite pow2_ne0, is_bitmap_set_bit' by lia. cbn [negb andb].
  destruct (Z.testbit _ (rd m p (elt pr.cells 0))); [| reflexivity].
  unfold ia_css_process_cells_clear. change (range 0 IA_CSS_PROCESS_MAX_CELLS) with [0].
  cbn [for_each]. unfold ia_css_process_cells_set_cell. mrun.
  rewrite set_resource_bitmap_run by exact Hg. reflexivity.
Qed.
End Ownership.

(** *** The processes of a group *)

Section Group_cells.
Context {P : Platform} {Pok : PlatformOk P} (g : Z) (ps : list Z).

Definition cell_of (m : mem) (p : Z) : Z := rd m p (elt pr.cells 0).

Record group_of (m : mem) : Prop := {
  go_attached : forall p, p ∈ ps -> attached m p g;
  go_disj : forall p q, p ∈ ps -> q ∈ ps -> p <> q -> p + 12 <= q \/ q + 12 <= p
}.

(** Every cell a process holds is claimed in the group's resource bitmap,
    and by that process alone. *)
Record cells_owned (m : mem) : Prop := {
  co_claimed : forall p, p ∈ ps -> cell_of m p <> VIED_NCI_N_CELL_ID ->
    cell_of m p < VIED_NCI_N_CELL_ID /\ Z.testbit (rd m g pg.resource_bitmap) (cell_of m p) = true;
  co_unique : forall p q, p ∈ ps -> q ∈ ps -> p <> q ->
    cell_of m p = cell_of m q -> cell_of m p = VIED_NCI_N_CELL_ID
}.

Inductive cell_op := SetCell (p c : Z) | ClearCell (p : Z).

Definition cell_op_wf (o : cell_op) : Prop :=
  match o with SetCell p c => p ∈ ps /\ 0 <= c | ClearCell p => p ∈ ps end.

Definition cell_exec (o : cell_op) (m : mem) : Z * mem :=
  match o with
  | SetCell p c => ia_css_process_set_cell p c m
  | ClearCell p => ia_css_process_clear_cell p m
  end.

(** The stores of both operations: a cell and the resource bitmap. *)
Definition cell_store (m : mem) (p c bm : Z) : mem :=
  wr (wr m p (elt pr.cells 0) c) g pg.resource_bitmap bm.

Lemma cell_store_reads m p c bm :
  group_of m -> p ∈ ps -> 0 <= c < 256 -> rb_wf bm ->
  group_of (cell_store m p c bm)
  /\ cell_of (cell_store m p c bm) p = c
  /\ (forall q, q ∈ ps -> q <> p -> cell_of (cell_store m p c bm) q = cell_of m q)
  /\ rd (cell_store m p c bm) g pg.resource_bitmap = bm.
Proof.
  intros [GA GD] Hin Hc Hbm. unfold cell_store, cell_of.
  pose proof (GA p Hin) as [Hp Hg _ Hd].
  assert (Q : forall q, q ∈ ps -> q + 12 <= g \/ g + 120 <= q) by (intros q Hq; apply (GA q Hq)).
  split; [| split; [| split]].
  - split; [| exact GD]. intros q Hq. pose proof (Q q Hq) as Dq.
    apply (attached_frame m); [| apply GA, Hq].
    destruct (Z.eq_dec q p) as [-> | Hne]; [mem_read; reflexivity |].
    pose proof (GD p q Hin Hq ltac:(congruence)). mem_read. reflexivity.
  - pose proof (Q p Hin). mem_read. change (f_conv (elt (U8 9) 0) c = c).
    apply u8_small. lia.
  - intros q Hq Hne. pose proof (Q q Hq). pose proof (GD p q Hin Hq ltac:(congruence)).
    mem_read. reflexivity.
  - mem_read. apply f_conv_U32, Hbm.
Qed.

Lemma cell_of_range m p : 0 <= cell_of m p < 256.
Proof. apply (rd_range m p (elt pr.cells 0)). reflexivity. Qed.

(** Two stores to the same cell are the last one, for every read. *)
Lemma double_cell_store m p c1 c2 bm q f :
  rd (wr (wr (wr m p (elt pr.cells 0) c1) p (elt pr.cells 0) c2) g pg.resource_bitmap bm) q f
  = rd (cell_store m p c2 bm) q f.
Proof.
  unfold cell_store. apply rd_proper; auto. apply wr_proper; auto.
  intros a. unfold wr, elt, pr.cells. cbn [f_len f_off U8 st].
  rewrite !byte_at_upd. destruct (a =? _); reflexivity.
Qed.

Lemma mem_eq_group_of m m' :
  (forall q f, rd m' q f = rd m q f) -> group_of m -> group_of m'.
Proof.
  intros H [A D]. split; [| exact D]. intros p Hp. apply (attached_frame m); auto.
Qed.

Lemma cells_owned_ext m m' :
  (forall q f, rd m' q f = rd m q f) -> cells_owned m -> cells_owned m'.
Proof. intros H [C U]. unfold cell_of in *. split; setoid_rewrite H; auto. Qed.

Lemma set_cell_owned m p c :
  group_of m -> cells_owned m -> p ∈ ps -> 0 <= c < VIED_NCI_N_CELL_ID ->
  cell_of m p = VIED_NCI_N_CELL_ID -> Z.testbit (rd m g pg.resource_bitmap) c = false ->
  cells_owned (cell_store m p c (vied_nci_bitmap_set (rd m g pg.resource_bitmap) (2 ^ c))).
Proof.
  intros G [C U] Hp Hc Hfree Hbit. pose proof cells_fit.
  destruct (cell_store_reads m p c (vied_nci_bitmap_set (rd m g pg.resource_bitmap) (2 ^ c)) G Hp)
    as (_ & Ep & Eq & Eb); [lia | apply bitmap_set_wf; [apply rd_U32_range | apply pow2_wf; lia] |].
  assert (Hne : forall q, q ∈ ps -> q <> p -> cell_of m q <> c).
  { intros q Hq Hqp E. destruct (C q Hq) as [_ B]; [lia |]. rewrite E in B. congruence. }
  split.
  - intros q Hq Hc'. rewrite Eb. destruct (Z.eq_dec q p) as [-> | Hqp].
    + rewrite Ep in *. split; [lia |]. rewrite bitmap_set_bit, Z.eqb_refl by lia. apply orb_true_r.
    + rewrite Eq in * by assumption. destruct (C q Hq Hc') as [L B]. split; [exact L |].
      rewrite bitmap_set_bit, B by (lia || apply cell_of_range). reflexivity.
  - intros q r Hq Hr Hqr. destruct (Z.eq_dec q p) as [-> | Hqp].
    + rewrite Ep, Eq by auto. intros E. exfalso. apply (Hne r); auto.
    + rewrite (Eq q) by assumption. destruct (Z.eq_dec r p) as [-> | Hrp].
      * rewrite Ep. intros E. exfalso. apply (Hne q); auto.
      * rewrite Eq by assumption. apply U; assumption.
Qed.

Lemma clear_cell_owned m p :
  group_of m -> cells_owned m -> p ∈ ps -> cell_of m p < VIED_NCI_N_CELL_ID ->
  cells_owned (cell_store m p VIED_NCI_N_CELL_ID
                 (vied_nci_bitmap_clear (rd m g pg.resource_bitmap) (2 ^ cell_of m p))).
Proof.
  intros G [C U] Hp Hc. pose proof cells_fit. pose proof (cell_of_range m p) as Hr0.
  destruct (cell_store_reads m p VIED_NCI_N_CELL_ID
    (vied_nci_bitmap_clear (rd m g pg.resource_bitmap) (2 ^ cell_of m p)) G Hp)
    as (_ & Ep & Eq & Eb); [lia | apply bitmap_clear_wf, rd_U32_range |].
  split.
  - intros q Hq Hc'. rewrite Eb. destruct (Z.eq_dec q p) as [-> | Hqp]; [congruence |].
    rewrite Eq in * by assumption. destruct (C q Hq Hc') as [L B]. split; [exact L |].
    rewrite bitmap_clear_bit, B by (apply rd_U32_range || lia || apply cell_of_range).
    destruct (Z.eqb_spec (cell_of m p) (cell_of m q)) as [E |]; [| reflexivity].
    rewrite <- E in Hc'. elim Hc'. apply (U p q); auto.
  - intros q r Hq Hr Hqr. destruct (Z.eq_dec q p) as [-> | Hqp]; [rewrite Ep; auto |].
    rewrite (Eq q) by assumption. destruct (Z.eq_dec r p) as [-> | Hrp].
    + rewrite Ep. auto.
    + rewrite Eq by assumption. apply U; assumption.
Qed.

Lemma cell_exec_owned o m :
  cell_op_wf o -> group_of m -> cells_owned m ->
  group_of (snd (cell_exec o m)) /\ cells_owned (snd (cell_exec o m)).
Proof.
  intros Ho G O. pose proof cells_fit. destruct o as [p c | p]; cbn [cell_exec cell_op_wf] in *.
  - destruct Ho as [Hp Hc]. rewrite (set_cell_run m p g c) by (auto; apply G, Hp).
    destruct (may_set_cell m p g c) eqn:Hm; [| auto]. cbn [snd].
    unfold may_set_cell in Hm. bsimp.
    split; [eapply mem_eq_group_of | eapply cells_owned_ext]; try (intros; apply double_cell_store).
    + apply cell_store_reads; auto; [lia | apply bitmap_set_wf; [apply rd_U32_range | apply pow2_wf; lia]].
    + apply set_cell_owned; auto.
  - rewrite (clear_cell_run m p g) by (apply G, Ho).
    destruct (may_clear_cell m p g) eqn:Hm; [| auto]. cbn [snd].
    unfold may_clear_cell in Hm. bsimp. split.
    + apply cell_store_reads; auto; [lia | apply bitmap_clear_wf, rd_U32_range].
    + apply clear_cell_owned; auto.
Qed.
End Group_cells.

(** C37: whatever cells the processes of a group ask for or give back, in
    any order, each cell stays claimed in the group's resource bitmap while a
    process holds it and no two processes ever hold the same cell. *)
Theorem cells_exclusive {P : Platform} {Pok : PlatformOk P} g ps ops m :
  group_of g ps m -> cells_owned g ps m -> Forall (cell_op_wf ps) ops ->
  let m' := foldl (fun m o => snd (cell_exec o m)) m ops in
  group_of g ps m' /\ cells_owned g ps m'.
Proof.
  intros G O Hops. cbv zeta. revert m G O.
  induction Hops as [| o ops Ho Hops IH]; intros m G O; [auto |].
  cbn [foldl]. destruct (cell_exec_owned g ps o m Ho G O) as [G' O']. apply IH; assumption.
Qed.

(** Two idle processes of a started group on the IPU6. *)
Definition sample_group : mem :=
  let m := wr (fun _ => 0) 1000 pg.state IA_CSS_PROCESS_GROUP_STARTED in
  let m := wr (wr m 1200 pr.state IA_CSS_PROCESS_READY) 1300 pr.state IA_CSS_PROCESS_READY in
  let m := wr (wr m 1200 (elt pr.cells 0) 32) 1300 (elt pr.cells 0) 32 in
  wr (wr m 1200 pr.parent_offset (-200)) 1300 pr.parent_offset (-300).

Lemma sample_group_ok : group_of 1000 [1200; 1300] sample_group.
Proof.
  split.
  - intros p Hp. rewrite !elem_of_cons, elem_of_nil in Hp. autounfold with layout.
    destruct Hp as [-> | [-> | []]]; split; vm_compute; try reflexivity;
      right; discriminate.
  - intros p q Hp Hq Hne. rewrite !elem_of_cons, elem_of_nil in Hp, Hq. lia.
Qed.

Lemma sample_group_owned : @cells_owned ipu6 1000 [1200; 1300] sample_group.
Proof.
  split.
  - intros p Hp Hc. rewrite !elem_of_cons, elem_of_nil in Hp.
    destruct Hp as [-> | [-> | []]]; elim Hc; vm_compute; reflexivity.
  - intros p q Hp _ _ _. rewrite !elem_of_cons, elem_of_nil in Hp.
    destruct Hp as [-> | [-> | []]]; vm_compute; reflexivity.
Qed.

Lemma cells_exclusive_witness :
  @cells_owned ipu6 1000 [1200; 1300]
    (foldl (fun m o => snd (@cell_exec ipu6 o m)) sample_group
       [SetCell 1200 5; SetCell 1300 5; SetCell 1300 6; ClearCell 1200]).
Proof.
  apply (@cells_exclusive ipu6 ipu6_ok 1000 [1200; 1300]
    [SetCell 1200 5; SetCell 1300 5; SetCell 1300 6; ClearCell 1200] sample_group
    sample_group_ok sample_group_owned).
  repeat constructor; cbn; rewrite ?elem_of_cons; auto; lia.
Defined.

(** A process gets a cell exactly when its group and its own state
    allow it, it holds none, and the cell exists and is free; it then holds
    that cell, a second request by anyone is refused, and giving the cell back
    (in a group that is blocked or started) restores the group's bitmap. *)
Theorem set_cell_clear_cell {P : Platform} {Pok : PlatformOk P} p g c m :
  attached m p g -> 0 <= c ->
  let r := fst (ia_css_process_set_cell p c m) in
  let m' := snd (ia_css_process_set_cell p c m) in
  (r = 0 <-> may_set_cell m p g c = true)
  /\ (r <> 0 -> r = -1 /\ m' = m)
  /\ (r = 0 ->
      ia_css_process_get_cell m' p = c
      /\ ia_css_process_group_get_resource_bitmap m' g
         = vied_nci_bitmap_set (ia_css_process_group_get_resource_bitmap m g) (2 ^ c)
      /\ (forall q, attached m' q g -> ia_css_process_set_cell q c m' = (-1, m'))
      /\ (one_of (rd m g pg.state) [IA_CSS_PROCESS_GROUP_BLOCKED; IA_CSS_PROCESS_GROUP_STARTED] = true ->
          exists m'', ia_css_process_clear_cell p m' = (0, m'')
            /\ ia_css_process_get_cell m'' p = VIED_NCI_N_CELL_ID
            /\ ia_css_process_group_get_resource_bitmap m'' g
               = ia_css_process_group_get_resource_bitmap m g)).
Proof.
  intros A Hc. cbv zeta. pose proof cells_fit. pose proof A as [Hp Hg Hpar Hd].
  autounfold with layout in Hd.
  rewrite (set_cell_run m p g c A Hc). destruct (may_set_cell m p g c) eqn:Hm.
  2: { cbn. split; [split; discriminate | split; [auto | intros; discriminate]]. }
  cbn [fst snd]. split; [tauto |]. split; [congruence |]. intros _.
  pose proof Hm as Hm'. unfold may_set_cell in Hm'. bsimp.
  set (bm := rd m g pg.resource_bitmap) in *.
  assert (Hbm : rb_wf bm) by apply rd_U32_range.
  set (m' := wr _ g pg.resource_bitmap _).
  assert (Hbm' : rb_wf (vied_nci_bitmap_set bm (2 ^ c))) by (apply bitmap_set_wf; auto; apply pow2_wf; lia).
  assert (Rg : rd m' g pg.resource_bitmap = vied_nci_bitmap_set bm (2 ^ c))
    by (subst m'; mem_read; apply f_conv_U32, Hbm').
  assert (Rc : rd m' p (elt pr.cells 0) = c).
  { subst m'. mem_read. change (f_conv (elt (U8 9) 0) c = c). apply u8_small. lia. }
  assert (Rs : rd m' g pg.state = rd m g pg.state) by (subst m'; mem_read; reflexivity).
  assert (Rp : rd m' p pr.state = rd m p pr.state) by (subst m'; mem_read; reflexivity).
  assert (A' : attached m' p g)
    by (apply (attached_frame m); [subst m'; mem_read; reflexivity | exact A]).
  unfold ia_css_process_get_cell, ia_css_process_cells_get_cell,
    ia_css_process_group_get_resource_bitmap.
  rewrite !(not_null p), !(not_null g) by assumption.
  split; [exact Rc | split; [exact Rg | split]].
  - intros q Aq. rewrite (set_cell_run m' q g c Aq Hc). unfold may_set_cell.
    rewrite Rg, bitmap_set_bit, Z.eqb_refl, orb_true_r, andb_false_r by lia. reflexivity.
  - intros Hst. rewrite (clear_cell_run m' p g A'). unfold may_clear_cell.
    rewrite Rs, Rp, Rc, Rg, Hst, bitmap_set_bit, Z.eqb_refl, orb_true_r by lia.
    rewrite (proj2 (Z.ltb_lt c _)) by lia.
    match goal with H : (rd m p pr.state =? _) || _ = true |- _ => rewrite H end.
    cbn [andb]. eexists. split; [reflexivity |]. rewrite bitmap_clear_set by (auto; lia).
    split.
    + mem_read. change (f_conv (elt (U8 9) 0) VIED_NCI_N_CELL_ID = VIED_NCI_N_CELL_ID).
      apply u8_small. lia.
    + mem_read. apply f_conv_U32, Hbm.
Qed.

Lemma set_cell_clear_cell_witness :
  ia_css_process_get_cell (P := ipu6) (snd (@ia_css_process_set_cell ipu6 1200 7 sample_group)) 1200 = 7.
Proof.
  assert (A : attached sample_group 1200 1000)
    by (apply sample_group_ok; rewrite !elem_of_cons; auto).
  destruct (@set_cell_clear_cell ipu6 ipu6_ok 1200 1000 7 sample_group A) as (H1 & _ & H3); [lia |].
  apply H3, H1. vm_compute. reflexivity.
Defined.

(** In the states that allow it, a bitmap of at most one cell is
    stored and read back; a bitmap of several is answered -1 after the lowest
    cell was stored.  In neither case is the group's resource bitmap consulted
    or changed. *)
Theorem process_cells_bitmap {P : Platform} {Pok : PlatformOk P} m p g bitmap :
  attached m p g -> rb_wf bitmap ->
  one_of (rd m g pg.state)
    [IA_CSS_PROCESS_GROUP_BLOCKED; IA_CSS_PROCESS_GROUP_STARTED;
     IA_CSS_PROCESS_GROUP_CREATED; IA_CSS_PROCESS_GROUP_READY] = true ->
  (rd m p pr.state =? IA_CSS_PROCESS_READY) || (rd m p pr.state =? IA_CSS_PROCESS_STOPPED) = true ->
  let '(r, m') := ia_css_process_set_cells_bitmap p bitmap m in
  same_outside (p + 9) (p + 10) m m'
  /\ match cells_of bitmap VIED_NCI_N_CELL_ID with
     | [] => r = 0 /\ ia_css_process_get_cells_bitmap m' p = Some 0
     | [c] => r = 0 /\ ia_css_process_get_cells_bitmap m' p = Some (2 ^ c)
     | c :: _ => r = -1 /\ ia_css_process_get_cell m' p = c
     end.
Proof.
  intros [Hp Hg Hpar Hd] Hb Hgs Hps. pose proof cells_fit.
  assert (Hrun : ia_css_process_set_cells_bitmap p bitmap m =
    with_retval (-1) (
      array_index <- for_each (range 0 VIED_NCI_N_CELL_ID) 0 (cells_scan p pr.cells bitmap) ;;
      for_each (range array_index IA_CSS_PROCESS_MAX_CELLS) tt (fun array_index _ =>
        ia_css_process_cells_set_cell p array_index VIED_NCI_N_CELL_ID) ;;; ret 0) m).
  { unfold ia_css_process_set_cells_bitmap, ia_css_process_group_get_state,
      ia_css_process_get_state, with_retval, bind, verifexit, gets, ret, exit.
    rewrite (not_null p) by exact Hp. cbn [negb]. rewrite Hpar, (not_null g) by exact Hg. cbn [negb].
    rewrite Hgs, Hps. reflexivity. }
  rewrite Hrun. unfold with_retval, bind.
  rewrite cells_scan_empty by auto using range_nonneg. fold (cells_of bitmap VIED_NCI_N_CELL_ID).
  assert (Hin := cells_of_spec bitmap VIED_NCI_N_CELL_ID).
  assert (S : forall c, same_outside (p + 9) (p + 10) m (wr m p (elt pr.cells 0) c))
    by (intros c; apply wr_same_outside; mem_out).
  assert (G : forall c, 0 <= c < 256 -> rd (wr m p (elt pr.cells 0) c) p (elt pr.cells 0) = c)
    by (intros c Hc; rewrite rd_wr_same; apply u8_small; lia).
  unfold ia_css_process_get_cells_bitmap, ia_css_process_get_cell, ia_css_process_cells_get_cell.
  rewrite (not_null p) by exact Hp.
  change (range 0 IA_CSS_PROCESS_MAX_CELLS) with [0]. cbn [foldl].
  destruct (cells_of bitmap VIED_NCI_N_CELL_ID) as [| c [| c' l]]; cbv iota beta.
  - change (range 0 IA_CSS_PROCESS_MAX_CELLS) with [0]. cbn [for_each].
    unfold ia_css_process_cells_set_cell. mrun. split; [apply S | split; [reflexivity |]].
    rewrite G by lia. rewrite Z.eqb_refl. reflexivity.
  - assert (Hc : 0 <= c < VIED_NCI_N_CELL_ID) by (apply Hin; left).
    change (range 1 IA_CSS_PROCESS_MAX_CELLS) with (@nil Z). cbn [for_each]. mrun.
    split; [apply S | split; [reflexivity |]]. rewrite G by lia.
    destruct (Z.eqb_spec VIED_NCI_N_CELL_ID c); [lia |]. cbn [negb]. unfold shift1.
    destruct (Z.ltb_spec c 32); [| lia]. rewrite shiftl1_small by lia. reflexivity.
  - assert (Hc : 0 <= c < VIED_NCI_N_CELL_ID) by (apply Hin; left).
    split; [apply S | split; [reflexivity |]]. apply G. lia.
Qed.

Lemma process_cells_bitmap_witness :
  let '(r, m') := ia_css_process_set_cells_bitmap (P := ipu6) 1200 48 sample_group in
  r = -1 /\ ia_css_process_get_cell (P := ipu6) m' 1200 = 4.
Proof.
  assert (A : attached sample_group 1200 1000)
    by (apply sample_group_ok; rewrite !elem_of_cons; auto).
  exact (proj2 (@process_cells_bitmap ipu6 ipu6_ok sample_group 1200 1000 48 A
    ltac:(unfold rb_wf; lia) eq_refl eq_refl)).
Defined.
