(* ===== verification/ProcessExtension.v ===== *)
(** * The resources in a process's extension

    What the setters of memories, device channels and DFM ports of
    src/ia_css_psys_process.c do on a process that has its extension, as read
    back through the getters of include/ia_css_psys_process_impl.h. *)

From S2P Require Import Prelude Memory ResourceModel KernelBitmap ProgramManifest ProcessGroupHeader Process ProcessCells.
#[local] Open Scope css_scope.

(** ** Extension resources *)

(** [p] has its extension at [e], past its header and off the group's. *)
Record extended (m : mem) (p g e : Z) : Prop := {
  ex_att : attached m p g;
  ex_ptr : ia_css_process_get_extension m p = e;
  ex_pos : p + sizeof_ia_css_process_t <= e;
  ex_disj : e + sizeof_ia_css_process_ext_t <= g \/ g + sizeof_ia_css_process_group_t <= e
}.

(** When the resources of a process may be assigned. *)
Definition may_configure (m : mem) (p g : Z) : bool :=
  one_of (rd m g pg.state)
    [IA_CSS_PROCESS_GROUP_BLOCKED; IA_CSS_PROCESS_GROUP_STARTED; IA_CSS_PROCESS_GROUP_RUNNING]
  && ((rd m p pr.state =? IA_CSS_PROCESS_READY) || (rd m p pr.state =? IA_CSS_PROCESS_STOPPED)).

(** A store into the extension keeps the shape. *)
Lemma extended_wr m p g e f v :
  0 <= f_off f -> f_off f + Z.of_nat (f_len f) <= 76 ->
  extended m p g e -> extended (wr m e f v) p g e.
Proof.
  intros H0 H1 [A E Hpos D]. autounfold with layout in Hpos, D. pose proof A as [Hp _ _ _].
  split; autounfold with layout; auto.
  - apply (attached_frame m); [| exact A]. mem_read. reflexivity.
  - transitivity (ia_css_process_get_extension m p); [| exact E].
    unfold ia_css_process_get_extension. mem_read. reflexivity.
Qed.

(** Runs a setter whose guards [may_configure] summarises. *)
Ltac configure_run X p g e :=
  mrun;
  destruct X as [[Hp Hg Hpar Hd] Hext Hpos _]; autounfold with layout in Hd, Hpos;
  rewrite !(not_null p) by exact Hp; cbn [negb];
  rewrite Hext; rewrite (not_null e) by lia; cbn [negb andb];
  rewrite Hpar; rewrite (not_null g) by exact Hg; cbn [negb andb];
  unfold ia_css_process_group_get_state, ia_css_process_get_state;
  rewrite (not_null p), (not_null g) by assumption;
  unfold may_configure.

Section Configure.
Context {P : Platform} {T : ResourceTables}.

Lemma set_dev_chn_run m p g e i v :
  extended m p g e -> i <= VIED_NCI_N_DEV_CHN_ID ->
  ia_css_process_set_dev_chn p i v m
  = if may_configure m p g then (0, wr m e (elt pre.dev_chn_offset i) v) else (-1, m).
Proof.
  intros X Hi. unfold ia_css_process_set_dev_chn. rewrite (proj2 (Z.leb_le _ _) Hi).
  configure_run X p g e.
  destruct (one_of _ _); [| reflexivity]. cbn [andb]. destruct (_ || _); reflexivity.
Qed.

Lemma set_dfm_port_bitmap_run m p g e i v :
  extended m p g e -> i <= VIED_NCI_N_DEV_DFM_ID ->
  ia_css_process_set_dfm_port_bitmap p i v m
  = if may_configure m p g then (0, wr m e (elt pre.dfm_port_bitmap i) v) else (-1, m).
Proof.
  intros X Hi. unfold ia_css_process_set_dfm_port_bitmap. configure_run X p g e.
  rewrite (proj2 (Z.leb_le _ _) Hi).
  destruct (one_of _ _); [| reflexivity]. cbn [andb]. destruct (_ || _); reflexivity.
Qed.

Lemma set_dfm_active_port_bitmap_run m p g e i v :
  extended m p g e -> i <= VIED_NCI_N_DEV_DFM_ID ->
  ia_css_process_set_dfm_active_port_bitmap p i v m
  = if may_configure m p g then (0, wr m e (elt pre.dfm_active_port_bitmap i) v) else (-1, m).
Proof.
  intros X Hi. unfold ia_css_process_set_dfm_active_port_bitmap. configure_run X p g e.
  rewrite (proj2 (Z.leb_le _ _) Hi).
  destruct (one_of _ _); [| reflexivity]. cbn [andb]. destruct (_ || _); reflexivity.
Qed.

Lemma set_ext_mem_run m p g e id off :
  extended m p g e ->
  ia_css_process_set_ext_mem p id off m
  = let ty := vied_nci_mem_get_type id in
    if may_configure m p g
       && (negb (vied_nci_has_cell_mem_of_id (rd m p (elt pr.cells 0)) id) || vied_nci_mem_is_ext_type ty)
       && (id <? VIED_NCI_N_MEM_ID) && (ty <? VIED_NCI_N_DATA_MEM_TYPE_ID)
    then (0, wr (wr m e (elt pre.ext_mem_id ty) id) e (elt pre.ext_mem_offset ty) off)
    else (-1, m).
Proof.
  intros X. cbv zeta. unfold ia_css_process_set_ext_mem, ia_css_process_get_cell,
    ia_css_process_cells_get_cell. configure_run X p g e.
  destruct (one_of _ _); [| reflexivity]. cbn [andb]. destruct (_ || _); [| reflexivity].
  cbn [andb]. destruct ((_ || _) && _); [| reflexivity]. cbn [andb].
  destruct (vied_nci_mem_get_type id <? VIED_NCI_N_DATA_MEM_TYPE_ID); reflexivity.
Qed.
End Configure.

(** What clients read of the extension. *)
Record ext_view {P : Platform} (m m' : mem) (p : Z)
    (chn : Z -> Z) (mid : Z -> Z) (moff : Z -> Z) (dfm : Z -> Z) (adfm : Z -> Z) : Prop := {
  ev_chn : forall j, 0 <= j < VIED_NCI_N_DEV_CHN_ID -> ia_css_process_get_dev_chn m' p j = chn j;
  ev_mid : forall j, 0 <= j < VIED_NCI_N_DATA_MEM_TYPE_ID -> ia_css_process_get_ext_mem_id m' p j = mid j;
  ev_moff : forall j, 0 <= j < VIED_NCI_N_DATA_MEM_TYPE_ID ->
    ia_css_process_get_ext_mem_offset m' p j = moff j;
  ev_dfm : forall j, 0 <= j < VIED_NCI_N_DEV_DFM_ID -> ia_css_process_get_dfm_port_bitmap m' p j = dfm j;
  ev_adfm : forall j, 0 <= j < VIED_NCI_N_DEV_DFM_ID ->
    ia_css_process_get_dfm_active_port_bitmap m' p j = adfm j
}.

Section View.
Context {P : Platform} {Pok : PlatformOk P}.

(** The getters in terms of the extension's address. *)
Lemma ext_getters m p g e j :
  extended m p g e -> 0 <= j ->
  (j < VIED_NCI_N_DEV_CHN_ID -> ia_css_process_get_dev_chn m p j = rd m e (elt pre.dev_chn_offset j))
  /\ (j < VIED_NCI_N_DATA_MEM_TYPE_ID ->
      ia_css_process_get_ext_mem_id m p j = rd m e (elt pre.ext_mem_id j)
      /\ ia_css_process_get_ext_mem_offset m p j = rd m e (elt pre.ext_mem_offset j))
  /\ (j < VIED_NCI_N_DEV_DFM_ID ->
      ia_css_process_get_dfm_port_bitmap m p j = rd m e (elt pre.dfm_port_bitmap j)
      /\ ia_css_process_get_dfm_active_port_bitmap m p j = rd m e (elt pre.dfm_active_port_bitmap j)).
Proof.
  intros [[Hp _ _ _] E Hpos _] Hj. autounfold with layout in Hpos.
  unfold ia_css_process_get_dev_chn, ia_css_process_get_ext_mem_id,
    ia_css_process_get_ext_mem_offset, ia_css_process_get_dfm_port_bitmap,
    ia_css_process_get_dfm_active_port_bitmap.
  rewrite !(not_null p), !E, !(not_null e) by lia. cbn [negb andb].
  repeat (split || intro); rewrite (proj2 (Z.ltb_lt j _)) by lia; reflexivity.
Qed.

(** Storing through the extension updates one observation and keeps the
    others. *)
Lemma view_wr_dev_chn m p g e i v :
  extended m p g e -> 0 <= i < VIED_NCI_N_DEV_CHN_ID ->
  ext_view m (wr m e (elt pre.dev_chn_offset i) v) p
    (fun j => if j =? i then u16 v else ia_css_process_get_dev_chn m p j)
    (ia_css_process_get_ext_mem_id m p) (ia_css_process_get_ext_mem_offset m p)
    (ia_css_process_get_dfm_port_bitmap m p) (ia_css_process_get_dfm_active_port_bitmap m p).
Proof.
  intros X Hi. pose proof dev_chns_fit. pose proof data_mem_types_fit. pose proof dev_dfms_fit.
  assert (X' : extended (wr m e (elt pre.dev_chn_offset i) v) p g e)
    by (apply extended_wr; [mem_out | mem_out | exact X]).
  split; intros j Hj; destruct (ext_getters _ _ _ _ j X ltac:(lia)) as (A1 & A2 & A3);
    destruct (ext_getters _ _ _ _ j X' ltac:(lia)) as (B1 & B2 & B3).
  - rewrite B1 by lia. destruct (Z.eqb_spec j i) as [-> |].
    + rewrite rd_wr_same. reflexivity.
    + rewrite A1 by lia. mem_read. reflexivity.
  - rewrite (proj1 (B2 ltac:(lia))), (proj1 (A2 ltac:(lia))). mem_read. reflexivity.
  - rewrite (proj2 (B2 ltac:(lia))), (proj2 (A2 ltac:(lia))). mem_read. reflexivity.
  - rewrite (proj1 (B3 ltac:(lia))), (proj1 (A3 ltac:(lia))). mem_read. reflexivity.
  - rewrite (proj2 (B3 ltac:(lia))), (proj2 (A3 ltac:(lia))). mem_read. reflexivity.
Qed.

Lemma view_wr_dfm m p g e i v :
  extended m p g e -> 0 <= i < VIED_NCI_N_DEV_DFM_ID ->
  ext_view m (wr m e (elt pre.dfm_port_bitmap i) v) p
    (ia_css_process_get_dev_chn m p) (ia_css_process_get_ext_mem_id m p)
    (ia_css_process_get_ext_mem_offset m p)
    (fun j => if j =? i then u32 v else ia_css_process_get_dfm_port_bitmap m p j)
    (ia_css_process_get_dfm_active_port_bitmap m p).
Proof.
  intros X Hi. pose proof dev_chns_fit. pose proof data_mem_types_fit. pose proof dev_dfms_fit.
  assert (X' : extended (wr m e (elt pre.dfm_port_bitmap i) v) p g e)
    by (apply extended_wr; [mem_out | mem_out | exact X]).
  split; intros j Hj; destruct (ext_getters _ _ _ _ j X ltac:(lia)) as (A1 & A2 & A3);
    destruct (ext_getters _ _ _ _ j X' ltac:(lia)) as (B1 & B2 & B3).
  - rewrite B1, A1 by lia. mem_read. reflexivity.
  - rewrite (proj1 (B2 ltac:(lia))), (proj1 (A2 ltac:(lia))). mem_read. reflexivity.
  - rewrite (proj2 (B2 ltac:(lia))), (proj2 (A2 ltac:(lia))). mem_read. reflexivity.
  - rewrite (proj1 (B3 ltac:(lia))). destruct (Z.eqb_spec j i) as [-> |].
    + rewrite rd_wr_same. reflexivity.
    + rewrite (proj1 (A3 ltac:(lia))). mem_read. reflexivity.
  - rewrite (proj2 (B3 ltac:(lia))), (proj2 (A3 ltac:(lia))). mem_read. reflexivity.
Qed.

Lemma view_wr_ext_mem m p g e ty id off :
  extended m p g e -> 0 <= ty < VIED_NCI_N_DATA_MEM_TYPE_ID ->
  ext_view m (wr (wr m e (elt pre.ext_mem_id ty) id) e (elt pre.ext_mem_offset ty) off) p
    (ia_css_process_get_dev_chn m p)
    (fun j => if j =? ty then u8 id else ia_css_process_get_ext_mem_id m p j)
    (fun j => if j =? ty then u16 off else ia_css_process_get_ext_mem_offset m p j)
    (ia_css_process_get_dfm_port_bitmap m p) (ia_css_process_get_dfm_active_port_bitmap m p).
Proof.
  intros X Hi. pose proof dev_chns_fit. pose proof data_mem_types_fit. pose proof dev_dfms_fit.
  assert (X' : extended (wr (wr m e (elt pre.ext_mem_id ty) id) e (elt pre.ext_mem_offset ty) off) p g e)
    by (do 2 (apply extended_wr; [mem_out | mem_out |]); exact X).
  split; intros j Hj; destruct (ext_getters _ _ _ _ j X ltac:(lia)) as (A1 & A2 & A3);
    destruct (ext_getters _ _ _ _ j X' ltac:(lia)) as (B1 & B2 & B3).
  - rewrite B1, A1 by lia. mem_read. reflexivity.
  - rewrite (proj1 (B2 ltac:(lia))). destruct (Z.eqb_spec j ty) as [-> |].
    + mem_read. reflexivity.
    + rewrite (proj1 (A2 ltac:(lia))). mem_read. reflexivity.
  - rewrite (proj2 (B2 ltac:(lia))). destruct (Z.eqb_spec j ty) as [-> |].
    + mem_read. reflexivity.
    + rewrite (proj2 (A2 ltac:(lia))). mem_read. reflexivity.
  - rewrite (proj1 (B3 ltac:(lia))), (proj1 (A3 ltac:(lia))). mem_read. reflexivity.
  - rewrite (proj2 (B3 ltac:(lia))), (proj2 (A3 ltac:(lia))). mem_read. reflexivity.
Qed.
End View.

(** ** Theorems on the extension *)

(** The sample group with an extension behind the first process's header. *)
Definition sample_ext_group : mem := wr sample_group 1200 pr.process_extension_offset 12.

Lemma sample_extended : extended sample_ext_group 1200 1000 1212.
Proof. split; [split | ..]; vm_compute; (reflexivity || discriminate || (right; discriminate)). Qed.

(** Tables in which memory [i] has type [i] and no cell has memories. *)
Definition sample_tables : ResourceTables := {|
  vied_nci_cell_type := fun _ => 0; vied_nci_mem_type := fun i => i;
  vied_nci_cell_mem := fun _ _ => 10; vied_nci_cell_mem_type := fun _ _ => 0;
  vied_nci_ext_mem := fun _ => 0; vied_nci_N_cell_mem := fun _ => 0;
  vied_nci_mem_size := fun _ => 0; vied_nci_dev_chn_size := fun _ => 0
|}.

(** Assigning a device channel or a DFM port bitmap in range succeeds
    exactly in the states that allow it, changes that one resource as read
    back and nothing else in the extension, and otherwise changes nothing. *)
Theorem dev_chn_dfm_set_get {P : Platform} {Pok : PlatformOk P} m p g e i v :
  extended m p g e -> 0 <= i ->
  (i < VIED_NCI_N_DEV_CHN_ID ->
   if may_configure m p g then
     exists m', ia_css_process_set_dev_chn p i v m = (0, m')
       /\ ext_view m m' p
            (fun j => if j =? i then u16 v else ia_css_process_get_dev_chn m p j)
            (ia_css_process_get_ext_mem_id m p) (ia_css_process_get_ext_mem_offset m p)
            (ia_css_process_get_dfm_port_bitmap m p) (ia_css_process_get_dfm_active_port_bitmap m p)
   else ia_css_process_set_dev_chn p i v m = (-1, m))
  /\ (i < VIED_NCI_N_DEV_DFM_ID ->
   if may_configure m p g then
     exists m', ia_css_process_set_dfm_port_bitmap p i v m = (0, m')
       /\ ext_view m m' p
            (ia_css_process_get_dev_chn m p) (ia_css_process_get_ext_mem_id m p)
            (ia_css_process_get_ext_mem_offset m p)
            (fun j => if j =? i then u32 v else ia_css_process_get_dfm_port_bitmap m p j)
            (ia_css_process_get_dfm_active_port_bitmap m p)
   else ia_css_process_set_dfm_port_bitmap p i v m = (-1, m)).
Proof.
  intros X Hi. split; intros Hlt.
  - rewrite (set_dev_chn_run m p g e i v X) by lia. destruct (may_configure m p g); [| reflexivity].
    eexists. split; [reflexivity | apply (view_wr_dev_chn m p g e); auto].
  - rewrite (set_dfm_port_bitmap_run m p g e i v X) by lia.
    destruct (may_configure m p g); [| reflexivity].
    eexists. split; [reflexivity | apply (view_wr_dfm m p g e); auto].
Qed.

Lemma dev_chn_dfm_set_get_witness :
  exists m', ia_css_process_set_dev_chn (P := ipu6) 1200 3 77 sample_ext_group = (0, m')
    /\ ia_css_process_get_dev_chn (P := ipu6) m' 1200 3 = 77.
Proof.
  destruct (@dev_chn_dfm_set_get ipu6 ipu6_ok sample_ext_group 1200 1000 1212 3 77 sample_extended)
    as [H _]; [lia |].
  destruct (H ltac:(cbn; lia)) as (m' & E & V). exists m'. split; [exact E |].
  rewrite (ev_chn _ _ _ _ _ _ _ _ V) by (cbn; lia). reflexivity.
Defined.

(** The external-memory and active-port getters of an IPU6 process, after a
    store into its extension. *)
Lemma ext_store_reads m p g e f v n :
  extended m p g e -> 0 <= f_off f -> f_off f + Z.of_nat (f_len f) <= 76 -> 0 <= n < 6 ->
  ia_css_process_get_ext_mem_id (P := ipu6) (wr m e f v) p n = rd (wr m e f v) e (elt pre.ext_mem_id n)
  /\ ia_css_process_get_ext_mem_offset (P := ipu6) (wr m e f v) p n
     = rd (wr m e f v) e (elt pre.ext_mem_offset n)
  /\ ia_css_process_get_dfm_active_port_bitmap (P := ipu6) (wr m e f v) p n
     = rd (wr m e f v) e (elt pre.dfm_active_port_bitmap n).
Proof.
  intros X H0 H1 Hn.
  destruct (ext_getters (P := ipu6) _ _ _ _ n (extended_wr m p g e f v H0 H1 X)) as (_ & A & B);
    [lia |]. cbn [VIED_NCI_N_DATA_MEM_TYPE_ID VIED_NCI_N_DEV_DFM_ID ipu6] in A, B.
  split; [apply A; lia | split; [apply A; lia | apply B; lia]].
Qed.

(** The setters accept an index one past the end: the fifth channel
    offset of an IPU6 process is stored over the ids of the first two external
    memories, the seventh DFM port bitmap over the first active one, and the
    seventh active bitmap over the first two external memory offsets. *)
Theorem resource_index_overruns m p g e v :
  extended m p g e -> may_configure m p g = true -> 0 <= v < 2 ^ 16 ->
  let get_id := ia_css_process_get_ext_mem_id (P := ipu6) in
  let get_off := ia_css_process_get_ext_mem_offset (P := ipu6) in
  let get_active := ia_css_process_get_dfm_active_port_bitmap (P := ipu6) in
  (exists m', ia_css_process_set_dev_chn (P := ipu6) p 5 v m = (0, m')
     /\ get_id m' p 0 = v mod 256 /\ get_id m' p 1 = v / 256)
  /\ (exists m', ia_css_process_set_dfm_port_bitmap (P := ipu6) p 6 v m = (0, m')
     /\ get_active m' p 0 = v)
  /\ (exists m', ia_css_process_set_dfm_active_port_bitmap (P := ipu6) p 6 v m = (0, m')
     /\ get_off m' p 0 = v /\ get_off m' p 1 = 0).
Proof.
  intros X Hm Hv. cbv zeta.
  pose proof (fun f n => ext_store_reads m p g e f v n X) as R.
  split; [| split].
  - exists (wr m e (elt pre.dev_chn_offset 5) v).
    rewrite (set_dev_chn_run m p g e 5 v X), Hm by (cbn; lia). split; [reflexivity |].
    destruct (R (elt pre.dev_chn_offset 5) 0) as (E0 & _); [mem_out | mem_out | lia |].
    destruct (R (elt pre.dev_chn_offset 5) 1) as (E1 & _); [mem_out | mem_out | lia |].
    rewrite E0, E1.
    change (elt pre.dev_chn_offset 5) with (U16 70).
    change (elt pre.ext_mem_id 0) with (U8 70). change (elt pre.ext_mem_id 1) with (U8 71).
    unfold rd, wr. cbn [f_off f_len f_signed U8 U16]. split.
    + rewrite ld_st_low by lia. reflexivity.
    + replace (e + 71) with (e + 70 + 1) by lia.
      cbn [st ld]. rewrite !byte_at_upd.
      destruct (Z.eqb_spec (e + 70 + 1) (e + 70 + 1)); [| lia]. divlia.
  - exists (wr m e (elt pre.dfm_port_bitmap 6) v).
    rewrite (set_dfm_port_bitmap_run m p g e 6 v X), Hm by (cbn; lia). split; [reflexivity |].
    destruct (R (elt pre.dfm_port_bitmap 6) 0) as (_ & _ & E0); [mem_out | mem_out | lia |].
    rewrite E0. change (elt pre.dfm_port_bitmap 6) with (U32 24).
    change (elt pre.dfm_active_port_bitmap 0) with (U32 24).
    rewrite rd_wr_same. apply f_conv_U32. lia.
  - exists (wr m e (elt pre.dfm_active_port_bitmap 6) v).
    rewrite (set_dfm_active_port_bitmap_run m p g e 6 v X), Hm by (cbn; lia). split; [reflexivity |].
    destruct (R (elt pre.dfm_active_port_bitmap 6) 0) as (_ & E0 & _); [mem_out | mem_out | lia |].
    destruct (R (elt pre.dfm_active_port_bitmap 6) 1) as (_ & E1 & _); [mem_out | mem_out | lia |].
    rewrite E0, E1. change (elt pre.dfm_active_port_bitmap 6) with (U32 48).
    change (elt pre.ext_mem_offset 0) with (U16 48). change (elt pre.ext_mem_offset 1) with (U16 50).
    unfold rd, wr. cbn [f_off f_len f_signed U32 U16]. split.
    + rewrite ld_st_low by lia. apply Z.mod_small. exact Hv.
    + replace (e + 50) with (e + 48 + 1 + 1) by lia.
      cbn [st ld]. rewrite !byte_at_upd.
      repeat match goal with |- context [?a =? ?b] => destruct (Z.eqb_spec a b); try lia end.
      divlia.
Qed.

Lemma resource_index_overruns_witness :
  exists m', ia_css_process_set_dev_chn (P := ipu6) 1200 5 515 sample_ext_group = (0, m')
    /\ ia_css_process_get_ext_mem_id (P := ipu6) m' 1200 0 = 3
    /\ ia_css_process_get_ext_mem_id (P := ipu6) m' 1200 1 = 2.
Proof.
  apply (resource_index_overruns sample_ext_group 1200 1000 1212 515 sample_extended);
    [vm_compute; reflexivity | lia].
Defined.

(** An external memory is assigned exactly when the states allow it,
    the memory exists, its type has a slot, and it is an external type or not
    one of the process's cell; the slot of its type then reads back the memory
    and the offset, and clearing the slot (when allowed) marks it unused. *)
Theorem ext_mem_set_get {P : Platform} {Pok : PlatformOk P} {T : ResourceTables} m p g e id off :
  extended m p g e -> 0 <= id < 256 -> 0 <= off < 2 ^ 16 -> 0 <= vied_nci_mem_get_type id ->
  let ty := vied_nci_mem_get_type id in
  let ok := may_configure m p g
            && (negb (vied_nci_has_cell_mem_of_id (ia_css_process_get_cell m p) id)
                || vied_nci_mem_is_ext_type ty)
            && (id <? VIED_NCI_N_MEM_ID) && (ty <? VIED_NCI_N_DATA_MEM_TYPE_ID) in
  (ok = false -> ia_css_process_set_ext_mem p id off m = (-1, m))
  /\ (ok = true -> exists m', ia_css_process_set_ext_mem p id off m = (0, m')
        /\ ia_css_process_get_ext_mem_id m' p ty = id
        /\ ia_css_process_get_ext_mem_offset m' p ty = off
        /\ forall j, 0 <= j < VIED_NCI_N_DATA_MEM_TYPE_ID -> j <> ty ->
             ia_css_process_get_ext_mem_id m' p j = ia_css_process_get_ext_mem_id m p j
             /\ ia_css_process_get_ext_mem_offset m' p j = ia_css_process_get_ext_mem_offset m p j).
Proof.
  intros X Hid Hoff Hty. cbv zeta. rewrite (set_ext_mem_run m p g e id off X). cbv zeta.
  unfold ia_css_process_get_cell, ia_css_process_cells_get_cell.
  rewrite (not_null p) by apply X. split; intros Hok; rewrite Hok; [reflexivity |].
  bsimp. assert (Hr : 0 <= vied_nci_mem_get_type id < VIED_NCI_N_DATA_MEM_TYPE_ID) by lia.
  pose proof (view_wr_ext_mem m p g e (vied_nci_mem_get_type id) id off X Hr) as V.
  eexists. split; [reflexivity |].
  rewrite (ev_mid _ _ _ _ _ _ _ _ V), (ev_moff _ _ _ _ _ _ _ _ V), Z.eqb_refl by lia.
  split; [apply u8_small; lia | split; [apply u16_small; lia |]].
  intros j Hj Hne.
  rewrite (ev_mid _ _ _ _ _ _ _ _ V), (ev_moff _ _ _ _ _ _ _ _ V) by lia.
  apply Z.eqb_neq in Hne. rewrite Hne. auto.
Qed.

Lemma ext_mem_set_get_witness :
  exists m', ia_css_process_set_ext_mem (P := ipu6) (T := sample_tables) 1200 2 640 sample_ext_group
             = (0, m')
    /\ ia_css_process_get_ext_mem_id (P := ipu6) m' 1200 2 = 2
    /\ ia_css_process_get_ext_mem_offset (P := ipu6) m' 1200 2 = 640.
Proof.
  destruct (@ext_mem_set_get ipu6 ipu6_ok sample_tables sample_ext_group 1200 1000 1212 2 640
              sample_extended) as [_ H]; [lia | lia | vm_compute; discriminate |].
  destruct (H ltac:(vm_compute; reflexivity)) as (m' & E & G1 & G2 & _). exists m'. auto.
Defined.

(** The parent that is set is the parent that is found exactly when it
    is within the reach of the signed 16-bit offset, and is not the process
    itself; [set_parent] reports success in every case. *)
Theorem set_parent_get_parent p g m :
  0 < p -> 0 < g ->
  fst (ia_css_process_set_parent p g m) = 0
  /\ (ia_css_process_get_parent (snd (ia_css_process_set_parent p g m)) p = g
      <-> g <> p /\ - 2 ^ 15 <= g - p < 2 ^ 15).
Proof.
  intros Hp Hg. unfold ia_css_process_set_parent, ia_css_process_get_parent. mrun.
  rewrite !not_null by assumption. cbn [negb fst snd]. split; [reflexivity |].
  mem_read. change (f_conv (S16 0) (u16 (g - p))) with (signed 16 ((g - p) mod 2 ^ 16)).
  rewrite signed_mod. pose proof (signed_range 16 (g - p) ltac:(lia)) as R.
  change (16 - 1) with 15 in R. split.
  - unfold NULL. destruct (Z.eqb_spec (signed 16 (g - p)) 0); intros E; [lia |].
    split; lia.
  - intros [Hne Hr]. rewrite signed_small by (cbn; lia).
    destruct (Z.eqb_spec (g - p) 0); lia.
Qed.

Lemma set_parent_get_parent_witness :
  ia_css_process_get_parent (snd (ia_css_process_set_parent 1200 1000 (fun _ => 0))) 1200 = 1000.
Proof. apply (set_parent_get_parent 1200 1000 (fun _ => 0)); lia. Defined.
