(* ===== verification/ProcessCreate.v ===== *)
(** * Creating a process

    [ia_css_process_clear_all], [ia_css_process_create] and
    [ia_css_is_process_valid]: the bytes creation writes, the layout it
    establishes, what its failures leave, the dependency lists of a created
    process and when the validity check accepts one. *)

From S2P Require Import Prelude Memory ResourceModel KernelBitmap ProgramManifest ProcessGroupHeader Process.
#[local] Open Scope css_scope.

(** ** Clearing a process's resources *)

Section Clear_all.
Context {P : Platform} {Pok : PlatformOk P}.

Definition ext_cleared (m : mem) (e : Z) : Prop :=
  (forall i, 0 <= i < VIED_NCI_N_DEV_CHN_ID ->
     rd m e (elt pre.dev_chn_offset i) = IA_CSS_PROCESS_INVALID_OFFSET)
  /\ (forall i, 0 <= i < VIED_NCI_N_DATA_MEM_TYPE_ID ->
        rd m e (elt pre.ext_mem_id i) = VIED_NCI_N_MEM_ID
        /\ rd m e (elt pre.ext_mem_offset i) = IA_CSS_PROCESS_INVALID_OFFSET).

Lemma clear_chn_loop e m :
  exists m', for_each (range 0 VIED_NCI_N_DEV_CHN_ID) tt (fun dev_chn_index _ =>
      wrM e (elt pre.dev_chn_offset dev_chn_index) IA_CSS_PROCESS_INVALID_OFFSET) m = (Some tt, m')
    /\ same_outside (e + 48) (e + 76) m m'
    /\ forall i, 0 <= i < VIED_NCI_N_DEV_CHN_ID ->
         rd m' e (elt pre.dev_chn_offset i) = IA_CSS_PROCESS_INVALID_OFFSET.
Proof.
  pose proof dev_chns_fit.
  destruct (for_range_inv (fun n (_ : unit) m' => same_outside (e + 48) (e + 76) m m'
      /\ forall i, 0 <= i < n -> rd m' e (elt pre.dev_chn_offset i) = IA_CSS_PROCESS_INVALID_OFFSET)
    0 VIED_NCI_N_DEV_CHN_ID tt (fun dev_chn_index _ =>
      wrM e (elt pre.dev_chn_offset dev_chn_index) IA_CSS_PROCESS_INVALID_OFFSET) m)
    as ([] & m' & E & S & A); [lia | split; [apply same_outside_refl | lia] | |].
  - intros n [] m1 Hn [S A]. exists tt. eexists. split; [reflexivity |]. split.
    + eapply same_outside_trans; [exact S |]. apply wr_same_outside; mem_out.
    + intros i Hi. destruct (Z.eq_dec i n) as [-> |].
      * rewrite rd_wr_same. reflexivity.
      * mem_read. apply A. lia.
  - exists m'. auto.
Qed.

Lemma clear_mem_loop e m :
  exists m', for_each (range 0 VIED_NCI_N_DATA_MEM_TYPE_ID) tt (fun mem_index _ =>
      wrM e (elt pre.ext_mem_id mem_index) VIED_NCI_N_MEM_ID ;;;
      wrM e (elt pre.ext_mem_offset mem_index) IA_CSS_PROCESS_INVALID_OFFSET) m = (Some tt, m')
    /\ same_outside (e + 48) (e + 76) m m'
    /\ (forall i, 0 <= i < VIED_NCI_N_DEV_CHN_ID ->
          rd m' e (elt pre.dev_chn_offset i) = rd m e (elt pre.dev_chn_offset i))
    /\ forall i, 0 <= i < VIED_NCI_N_DATA_MEM_TYPE_ID ->
         rd m' e (elt pre.ext_mem_id i) = VIED_NCI_N_MEM_ID
         /\ rd m' e (elt pre.ext_mem_offset i) = IA_CSS_PROCESS_INVALID_OFFSET.
Proof.
  pose proof data_mem_types_fit. pose proof mem_ids_fit. pose proof dev_chns_fit.
  destruct (for_range_inv (fun n (_ : unit) m' => same_outside (e + 48) (e + 76) m m'
      /\ (forall i, 0 <= i < VIED_NCI_N_DEV_CHN_ID ->
            rd m' e (elt pre.dev_chn_offset i) = rd m e (elt pre.dev_chn_offset i))
      /\ forall i, 0 <= i < n ->
           rd m' e (elt pre.ext_mem_id i) = VIED_NCI_N_MEM_ID
           /\ rd m' e (elt pre.ext_mem_offset i) = IA_CSS_PROCESS_INVALID_OFFSET)
    0 VIED_NCI_N_DATA_MEM_TYPE_ID tt (fun mem_index _ =>
      wrM e (elt pre.ext_mem_id mem_index) VIED_NCI_N_MEM_ID ;;;
      wrM e (elt pre.ext_mem_offset mem_index) IA_CSS_PROCESS_INVALID_OFFSET) m)
    as ([] & m' & E & S & C & A);
    [lia | split; [apply same_outside_refl | split; [reflexivity | lia]] | |].
  - intros n [] m1 Hn (S & C & A). exists tt. eexists. split; [reflexivity |].
    split; [| split].
    + eapply same_outside_trans; [exact S |].
      eapply same_outside_trans; apply wr_same_outside; mem_out.
    + intros i Hi. rewrite <- C by exact Hi. mem_read. reflexivity.
    + intros i Hi. destruct (Z.eq_dec i n) as [-> |].
      * mem_read. split; [| reflexivity].
        change (f_conv (elt (U8 70) n)) with u8. apply u8_small. lia.
      * mem_read. apply A. lia.
  - exists m'. auto.
Qed.

(** The two loops, skipped when there is no extension. *)
Lemma clear_all_ok m p e :
  0 < p -> ia_css_process_get_extension m p = e -> e = NULL \/ p + 12 <= e ->
  ia_css_process_get_parent m p = NULL ->
  (rd m p pr.state =? IA_CSS_PROCESS_CREATED) || (rd m p pr.state =? IA_CSS_PROCESS_READY) = true ->
  exists m', ia_css_process_clear_all p m = (0, m')
    /\ rd m' p (elt pr.cells 0) = VIED_NCI_N_CELL_ID
    /\ (e <> NULL -> ext_cleared m' e)
    /\ (forall lo hi, lo <= p + 9 -> p + 10 <= hi -> (e <> NULL -> lo <= e /\ e + 76 <= hi) ->
          same_outside lo hi m m')
    /\ (forall f, 0 <= f_off f -> f_off f + Z.of_nat (f_len f) <= 9 \/
                  10 <= f_off f /\ f_off f + Z.of_nat (f_len f) <= 12 ->
          rd m' p f = rd m p f).
Proof.
  intros Hp He Hpos Hpar Hst. pose proof cells_fit.
  assert (G : forall x, rd (wr x p (elt pr.cells 0) VIED_NCI_N_CELL_ID) p (elt pr.cells 0)
                        = VIED_NCI_N_CELL_ID)
    by (intros x; rewrite rd_wr_same; apply u8_small; lia).
  unfold ia_css_process_clear_all, ia_css_process_get_state, ia_css_process_cells_clear,
    ia_css_process_cells_set_cell.
  change (range 0 IA_CSS_PROCESS_MAX_CELLS) with [0].
  destruct Hpos as [-> | Hpos].
  - exists (wr m p (elt pr.cells 0) VIED_NCI_N_CELL_ID). split; [| split; [apply G | split]].
    + mrun. rewrite (not_null p) by exact Hp. cbn [negb]. rewrite He, Hpar.
      change (is_null NULL) with true. cbn [negb].
      rewrite Hst. reflexivity.
    + intros []; reflexivity.
    + split; [intros lo hi H1 H2 _; apply wr_same_outside; mem_out | intros f Hf0 Hf; mem_read; reflexivity].
  - destruct (clear_chn_loop e m) as (m1 & E1 & S1 & A1).
    destruct (clear_mem_loop e m1) as (m2 & E2 & S2 & C2 & A2).
    exists (wr m2 p (elt pr.cells 0) VIED_NCI_N_CELL_ID).
    split; [| split; [apply G | split; [| split]]].
    + unfold with_retval, bind, verifexit, gets, ret, exit.
      rewrite (not_null p) by exact Hp. cbn [negb]. rewrite He, Hpar.
      change (is_null NULL) with true. rewrite (not_null e) by lia. cbn [negb].
      rewrite Hst. cbn [negb orb Z.eqb].
      change (negb (IA_CSS_N_PROCESS_GROUP_STATES =? IA_CSS_PROCESS_GROUP_RUNNING)) with true.
      cbn [orb]. rewrite E1.
      match goal with |- context [for_each (range 0 VIED_NCI_N_DATA_MEM_TYPE_ID) tt ?b m1] =>
        change (for_each (range 0 VIED_NCI_N_DATA_MEM_TYPE_ID) tt b m1)
          with (for_each (range 0 VIED_NCI_N_DATA_MEM_TYPE_ID) tt (fun mem_index _ =>
            wrM e (elt pre.ext_mem_id mem_index) VIED_NCI_N_MEM_ID ;;;
            wrM e (elt pre.ext_mem_offset mem_index) IA_CSS_PROCESS_INVALID_OFFSET) m1) end.
      rewrite E2. reflexivity.
    + intros _. pose proof dev_chns_fit. pose proof data_mem_types_fit. split.
      * intros i Hi. rewrite rd_wr_base by mem_out. rewrite C2 by exact Hi. apply A1, Hi.
      * intros i Hi. rewrite !rd_wr_base by mem_out. apply A2, Hi.
    + intros lo hi H1 H2 H3. destruct H3 as [H3 H4]; [unfold NULL; lia |].
      eapply same_outside_trans; [eapply same_outside_weaken; [| | exact S1]; lia |].
      eapply same_outside_trans; [eapply same_outside_weaken; [| | exact S2]; lia |].
      apply wr_same_outside; mem_out.
    + intros f Hf0 Hf. rewrite rd_wr_base by mem_out.
      rewrite (rd_same_outside _ _ _ _ _ _ S2), (rd_same_outside _ _ _ _ _ _ S1) by lia.
      reflexivity.
Qed.
End Clear_all.

(** ** Creating a process *)

(** The manifest and its extension lie outside [lo, hi). *)
Record manifest_apart (m : mem) (man lo hi : Z) : Prop := {
  ma_ptr : 0 < man;
  ma_hdr : man + sizeof_ia_css_program_manifest_t <= lo \/ hi <= man;
  ma_ext : let e := ia_css_program_manifest_get_extension m man in
           e = NULL
           \/ 0 < e /\ (e + sizeof_ia_css_program_manifest_ext_t <= lo \/ hi <= e)
}.

Section Create_facts.
Context {P : Platform} {Pok : PlatformOk P}.

(** What creation reads of the manifest does not depend on the process. *)
Lemma manifest_frame m m' man lo hi :
  manifest_apart m man lo hi -> same_outside lo hi m m' ->
  ia_css_program_manifest_get_program_dependency_count m' man
    = ia_css_program_manifest_get_program_dependency_count m man
  /\ ia_css_program_manifest_get_terminal_dependency_count m' man
    = ia_css_program_manifest_get_terminal_dependency_count m man
  /\ ia_css_program_manifest_get_program_ID m' man = ia_css_program_manifest_get_program_ID m man
  /\ ia_css_program_manifest_process_requires_extension m' man
    = ia_css_program_manifest_process_requires_extension m man.
Proof.
  intros [Hp Hh He] S. autounfold with layout in Hh, He. cbv zeta in He.
  assert (R : forall f, 0 <= f_off f -> f_off f + Z.of_nat (f_len f) <= 28 ->
            rd m' man f = rd m man f) by (intros f H1 H2; apply (rd_same_outside lo hi); [exact S | lia]).
  assert (E : ia_css_program_manifest_get_extension m' man = ia_css_program_manifest_get_extension m man)
    by (unfold ia_css_program_manifest_get_extension; rewrite R by mem_out; reflexivity).
  unfold ia_css_program_manifest_get_program_dependency_count,
    ia_css_program_manifest_get_terminal_dependency_count, ia_css_program_manifest_get_program_ID.
  rewrite !R by mem_out. repeat (split; [reflexivity |]).
  pose proof data_mem_types_fit. pose proof dev_chns_fit. pose proof dev_dfms_fit.
  unfold ia_css_program_manifest_process_requires_extension. rewrite (not_null man) by exact Hp.
  cbv zeta.
  assert (X : forall f, 0 <= f_off f -> f_off f + Z.of_nat (f_len f) <= 116 ->
    is_null (ia_css_program_manifest_get_extension m man) = false ->
    rd m' (ia_css_program_manifest_get_extension m man) f
    = rd m (ia_css_program_manifest_get_extension m man) f).
  { intros f H3 H4 N. apply (rd_same_outside lo hi); [exact S |].
    destruct He as [He | He]; [rewrite He in N; discriminate N | lia]. }
  assert (G : forall i,
    (0 <= i < VIED_NCI_N_DATA_MEM_TYPE_ID ->
     ia_css_program_manifest_get_ext_mem_size m' man i = ia_css_program_manifest_get_ext_mem_size m man i)
    /\ (0 <= i < VIED_NCI_N_DEV_CHN_ID ->
     ia_css_program_manifest_get_dev_chn_size m' man i = ia_css_program_manifest_get_dev_chn_size m man i)
    /\ (0 <= i < VIED_NCI_N_DEV_DFM_ID ->
     ia_css_program_manifest_get_dfm_port_bitmap m' man i
       = ia_css_program_manifest_get_dfm_port_bitmap m man i
     /\ ia_css_program_manifest_get_dfm_active_port_bitmap m' man i
       = ia_css_program_manifest_get_dfm_active_port_bitmap m man i)).
  { intros i. unfold ia_css_program_manifest_get_ext_mem_size, ia_css_program_manifest_get_dev_chn_size,
      ia_css_program_manifest_get_dfm_port_bitmap, ia_css_program_manifest_get_dfm_active_port_bitmap.
    rewrite E, (not_null man) by exact Hp.
    destruct (is_null (ia_css_program_manifest_get_extension m man)) eqn:N; [auto |].
    split; [| split]; [intros Hi | intros Hi | intros Hi; split];
      (destruct (negb _); [reflexivity |]); apply X; auto; mem_out. }
  rewrite (foldl_ext_in _ (fun r i => r || negb (ia_css_program_manifest_get_ext_mem_size m man i =? 0))
             false (range 0 VIED_NCI_N_DATA_MEM_TYPE_ID)),
    (foldl_ext_in _ (fun r i => r || negb (ia_css_program_manifest_get_dev_chn_size m man i =? 0))
             _ (range 0 VIED_NCI_N_DEV_CHN_ID)),
    (foldl_ext_in _ (fun r i =>
               r || negb (ia_css_program_manifest_get_dfm_port_bitmap m man i =? 0)
               || negb (ia_css_program_manifest_get_dfm_active_port_bitmap m man i =? 0))
             _ (range 0 VIED_NCI_N_DEV_DFM_ID)); [reflexivity | ..];
    intros r i Hi; apply elem_of_range in Hi; destruct (G i) as (G1 & G2 & G3).
  - destruct (G3 Hi) as [-> ->]. reflexivity.
  - rewrite G2 by exact Hi. reflexivity.
  - rewrite G1 by exact Hi. reflexivity.
Qed.

Lemma sizeof_process_frame m m' man param lo hi :
  manifest_apart m man lo hi -> same_outside lo hi m m' ->
  ia_css_sizeof_process m' man param = ia_css_sizeof_process m man param.
Proof.
  intros A S. destruct (manifest_frame m m' man lo hi A S) as (E1 & E2 & _ & E4).
  unfold ia_css_sizeof_process. rewrite E1, E2, E4. reflexivity.
Qed.

Lemma manifest_counts_range m man :
  0 <= ia_css_program_manifest_get_program_dependency_count m man < 256
  /\ 0 <= ia_css_program_manifest_get_terminal_dependency_count m man < 256.
Proof.
  unfold ia_css_program_manifest_get_program_dependency_count,
    ia_css_program_manifest_get_terminal_dependency_count.
  split; (destruct (is_null man); [lia | apply rd_U8_range]).
Qed.

Lemma manifest_apart_weaken m man lo hi hi' :
  hi' <= hi -> manifest_apart m man lo hi -> manifest_apart m man lo hi'.
Proof. intros H [A B C]. cbv zeta in C. split; cbv zeta; [exact A | lia |]. intuition lia. Qed.

(** The bytes of a process: header, extension, the two lists. *)
Definition process_extent (ext : bool) (pd td : Z) : Z := 12 + (if ext then 76 else 0) + pd + td.

Lemma sizeof_process_extent m man param :
  0 < man -> 0 < param ->
  ia_css_sizeof_process m man param
  = CEIL_MUL (process_extent (ia_css_program_manifest_process_requires_extension m man)
                (ia_css_program_manifest_get_program_dependency_count m man)
                (ia_css_program_manifest_get_terminal_dependency_count m man)) 4.
Proof.
  intros H1 H2. unfold ia_css_sizeof_process, process_extent. rewrite !not_null by assumption.
  cbv zeta. autounfold with layout.
  destruct (ia_css_program_manifest_process_requires_extension m man);
    [change (CEIL_MUL (0 + 12) 4) with 12 |]; f_equal; lia.
Qed.

(** The header as [create] fills it before [clear_all]. *)
Definition create_header (m : mem) (p : Z) (ext : bool) (pd td size ID idx : Z) : mem :=
  let m := wr m p pr.state IA_CSS_PROCESS_CREATED in
  let m := wr m p pr.process_extension_offset (if ext then 12 else 0) in
  let m := wr m p pr.cell_dependencies_offset
             (if pd =? 0 then 0 else process_extent ext 0 0) in
  let m := wr m p pr.terminal_dependencies_offset
             (if td =? 0 then 0 else process_extent ext pd 0) in
  let m := wr m p pr.size size in
  let m := wr m p pr.ID ID in
  let m := wr m p pr.program_idx idx in
  let m := wr m p pr.cell_dependency_count pd in
  let m := wr m p pr.terminal_dependency_count td in
  wr m p pr.parent_offset 0.
(** What the body reads of the manifest along its stores. *)
Lemma create_reads m p man param :
  manifest_apart m man p (p + 12) -> forall m', same_outside p (p + 12) m m' ->
  ia_css_program_manifest_get_program_dependency_count m' man
    = ia_css_program_manifest_get_program_dependency_count m man
  /\ ia_css_program_manifest_get_terminal_dependency_count m' man
    = ia_css_program_manifest_get_terminal_dependency_count m man
  /\ ia_css_program_manifest_get_program_ID m' man = ia_css_program_manifest_get_program_ID m man
  /\ ia_css_sizeof_process m' man param = ia_css_sizeof_process m man param.
Proof.
  intros A m' S. destruct (manifest_frame m m' man p (p + 12) A S) as (-> & -> & -> & _).
  rewrite (sizeof_process_frame m m' man param p (p + 12)) by assumption. auto.
Qed.

(** Runs the body with [F : create_reads] and the guards on [pd] and [td]
    decided by [Hpt], [Epd] and [Etd]. *)
Ltac create_steps m man param pd td F Hpt Epd Etd :=
  repeat match goal with
  | |- context [ia_css_program_manifest_get_program_dependency_count ?x man] =>
      rewrite (proj1 (F x ltac:(frame_chain))); fold pd
  | |- context [ia_css_program_manifest_get_terminal_dependency_count ?x man] =>
      rewrite (proj1 (proj2 (F x ltac:(frame_chain)))); fold td
  | |- context [ia_css_program_manifest_get_program_ID ?x man] =>
      lazymatch x with m => fail | _ => rewrite (proj1 (proj2 (proj2 (F x ltac:(frame_chain))))) end
  | |- context [ia_css_sizeof_process ?x man param] =>
      lazymatch x with m => fail | _ => rewrite (proj2 (proj2 (proj2 (F x ltac:(frame_chain))))) end
  | |- context [pd + td =? 0] => rewrite (proj2 (Z.eqb_neq (pd + td) 0)) by exact Hpt; cbn [negb]
  | |- context [pd =? 0] => first [rewrite (proj2 (Z.eqb_eq pd 0)) by exact Epd
                                  | rewrite (proj2 (Z.eqb_neq pd 0)) by exact Epd]; cbn [negb]
  | |- context [td =? 0] => first [rewrite (proj2 (Z.eqb_eq td 0)) by exact Etd
                                  | rewrite (proj2 (Z.eqb_neq td 0)) by exact Etd]; cbn [negb]
  end.

(** The body up to [clear_all], or up to the test of the ID. *)
Lemma create_body_run m p man param idx :
  0 < p -> 0 < param -> manifest_apart m man p (p + 12) ->
  let pd := ia_css_program_manifest_get_program_dependency_count m man in
  let td := ia_css_program_manifest_get_terminal_dependency_count m man in
  let ID := ia_css_program_manifest_get_program_ID m man in
  pd + td <> 0 -> u8 ID <> 0 ->
  process_create_body p man param idx m
  = (cleared <- call (ia_css_process_clear_all p) ;;
     verifexit (cleared =? 0) ;;;
     wrM p pr.state IA_CSS_PROCESS_READY)
      (create_header m p (ia_css_program_manifest_process_requires_extension m man)
         pd td (ia_css_sizeof_process m man param) ID idx).
Proof.
  intros Hp Hparam A pd td ID Hpt HID. pose proof (create_reads m p man param A) as F.
  unfold process_create_body, create_header.
  destruct (ia_css_program_manifest_process_requires_extension m man) eqn:Eext;
    destruct (Z.eqb_spec pd 0) as [Epd | Epd]; destruct (Z.eqb_spec td 0) as [Etd | Etd]; try lia;
    mrun; cbv zeta; rewrite Eext; create_steps m man param pd td F Hpt Epd Etd;
    rewrite rd_wr_same; change (f_conv pr.ID (ia_css_program_manifest_get_program_ID m man)) with (u8 ID);
    rewrite (proj2 (Z.eqb_neq (u8 ID) 0)) by exact HID; cbn [negb];
    repeat match goal with
    | |- context [process_extent ?e pd 0] =>
        first [ replace (process_extent e pd 0) with (process_extent e 0 0)
                  by (unfold process_extent; lia)
              | replace (process_extent e pd 0) with (process_extent e 0 0 + pd)
                  by (unfold process_extent; lia) ]
    end; reflexivity.
Qed.

Lemma create_body_no_ID m p man param idx :
  0 < p -> 0 < param -> manifest_apart m man p (p + 12) ->
  ia_css_program_manifest_get_program_dependency_count m man
    + ia_css_program_manifest_get_terminal_dependency_count m man <> 0 ->
  u8 (ia_css_program_manifest_get_program_ID m man) = 0 ->
  exists m', process_create_body p man param idx m = (None, m')
    /\ rd m' p pr.state = IA_CSS_PROCESS_CREATED /\ same_outside p (p + 12) m m'.
Proof.
  intros Hp Hparam A Hpt HID. pose proof (create_reads m p man param A) as F.
  set (pd := ia_css_program_manifest_get_program_dependency_count m man) in *.
  set (td := ia_css_program_manifest_get_terminal_dependency_count m man) in *.
  unfold process_create_body.
  destruct (ia_css_program_manifest_process_requires_extension m man) eqn:Eext;
    destruct (Z.eqb_spec pd 0) as [Epd | Epd]; destruct (Z.eqb_spec td 0) as [Etd | Etd]; try lia;
    mrun; cbv zeta; rewrite Eext; create_steps m man param pd td F Hpt Epd Etd;
    rewrite rd_wr_same;
    change (f_conv pr.ID (ia_css_program_manifest_get_program_ID m man))
      with (u8 (ia_css_program_manifest_get_program_ID m man));
    rewrite HID; cbn [negb Z.eqb];
    (eexists; split; [reflexivity | split; [mem_read; reflexivity | frame_chain]]).
Qed.

Lemma create_header_fields m p ext pd td size ID idx :
  let h := create_header m p ext pd td size ID idx in
  rd h p pr.state = IA_CSS_PROCESS_CREATED
  /\ rd h p pr.process_extension_offset = (if ext then 12 else 0)
  /\ rd h p pr.cell_dependencies_offset = u8 (if pd =? 0 then 0 else process_extent ext 0 0)
  /\ rd h p pr.terminal_dependencies_offset = u8 (if td =? 0 then 0 else process_extent ext pd 0)
  /\ rd h p pr.size = u8 size /\ rd h p pr.ID = u8 ID /\ rd h p pr.program_idx = u8 idx
  /\ rd h p pr.cell_dependency_count = u8 pd /\ rd h p pr.terminal_dependency_count = u8 td
  /\ rd h p pr.parent_offset = 0.
Proof.
  unfold create_header. repeat split; mem_read; try reflexivity. destruct ext; reflexivity.
Qed.

Lemma create_header_frame m p ext pd td size ID idx :
  same_outside p (p + 12) m (create_header m p ext pd td size ID idx).
Proof. unfold create_header. frame_chain. Qed.

Lemma sizeof_process_bound m man param :
  0 < man -> 0 < param ->
  process_extent (ia_css_program_manifest_process_requires_extension m man)
    (ia_css_program_manifest_get_program_dependency_count m man)
    (ia_css_program_manifest_get_terminal_dependency_count m man)
  <= ia_css_sizeof_process m man param.
Proof.
  intros H1 H2. rewrite sizeof_process_extent by assumption. apply CEIL_MUL_spec. lia.
Qed.
End Create_facts.

(** A process of [ext], [pd] program and [td] terminal dependencies at [p]:
    header, extension and the two lists follow each other. *)
Record process_blob (m : mem) (p : Z) (ext : bool) (pd td : Z) : Prop := {
  pb_ptr : 0 < p;
  pb_pd : 0 <= pd < 256;
  pb_td : 0 <= td < 256;
  pb_fit : process_extent ext pd td <= 255;
  pb_ext : ia_css_process_get_extension m p
           = if ext then p + sizeof_ia_css_process_t else NULL;
  pb_pd_count : ia_css_process_get_cell_dependency_count m p = pd;
  pb_td_count : ia_css_process_get_terminal_dependency_count m p = td;
  pb_pd_off : 0 < pd -> rd m p pr.cell_dependencies_offset = process_extent ext 0 0;
  pb_td_off : 0 < td -> rd m p pr.terminal_dependencies_offset = process_extent ext pd 0;
  pb_pd_none : pd = 0 -> rd m p pr.cell_dependencies_offset = 0;
  pb_td_none : td = 0 -> rd m p pr.terminal_dependencies_offset = 0
}.

(** What [clear_all] leaves of the header. *)
Definition created_fields : list field :=
  [pr.process_extension_offset; pr.cell_dependencies_offset; pr.terminal_dependencies_offset;
   pr.size; pr.ID; pr.program_idx; pr.cell_dependency_count; pr.terminal_dependency_count;
   pr.parent_offset].

(** The end of the body: the state is READY once everything is cleared. *)
Lemma create_tail_run {P : Platform} {Pok : PlatformOk P} h p (ext : bool) :
  0 < p -> rd h p pr.process_extension_offset = (if ext then 12 else 0) ->
  rd h p pr.parent_offset = 0 -> rd h p pr.state = IA_CSS_PROCESS_CREATED ->
  exists m', (cleared <- call (ia_css_process_clear_all p) ;; verifexit (cleared =? 0) ;;;
              wrM p pr.state IA_CSS_PROCESS_READY) h = (Some tt, m')
    /\ same_outside p (p + process_extent ext 0 0) h m'
    /\ rd m' p pr.state = IA_CSS_PROCESS_READY
    /\ ia_css_process_get_cell m' p = VIED_NCI_N_CELL_ID
    /\ (ext = true -> ext_cleared m' (p + 12))
    /\ (forall f, In f created_fields -> rd m' p f = rd h p f).
Proof.
  intros Hp Hoff Hpar Hst. set (e := if ext then p + 12 else NULL).
  assert (He : ia_css_process_get_extension h p = e).
  { unfold ia_css_process_get_extension. rewrite (not_null p), Hoff by exact Hp.
    subst e. destruct ext; reflexivity. }
  assert (Hne : e = NULL \/ p + 12 <= e) by (subst e; destruct ext; [right; lia | left; reflexivity]).
  assert (Hpp : ia_css_process_get_parent h p = NULL)
    by (unfold ia_css_process_get_parent; rewrite (not_null p), Hpar by exact Hp; reflexivity).
  destruct (clear_all_ok h p e Hp He Hne Hpp) as (m1 & E1 & C1 & X1 & S1 & R1);
    [rewrite Hst; reflexivity |].
  exists (wr m1 p pr.state IA_CSS_PROCESS_READY).
  split; [mrun; rewrite E1; reflexivity |]. split; [| split; [mem_read; reflexivity | split; [| split]]].
  - assert (12 <= process_extent ext 0 0) by (unfold process_extent; destruct ext; lia).
    eapply same_outside_trans; [apply S1; [lia | lia |] | apply wr_same_outside; mem_out].
    subst e. unfold process_extent. intros Hn. destruct ext; [lia | destruct Hn; reflexivity].
  - unfold ia_css_process_get_cell, ia_css_process_cells_get_cell.
    rewrite !(not_null p) by exact Hp. mem_read. exact C1.
  - intros ->. destruct X1 as [X2 X3]; [subst e; unfold NULL; lia |].
    pose proof dev_chns_fit. pose proof data_mem_types_fit.
    split; intros i Hri; subst e; rewrite !rd_wr_base by mem_out; auto.
  - intros f Hf. cbn [In created_fields] in Hf.
    repeat (destruct Hf as [<- | Hf]; [mem_read; apply R1; mem_out |]). destruct Hf.
Qed.

(** Any memory with those fields of the created header holds a process of
    that shape. *)
Lemma created_blob m0 p (ext : bool) pd td size ID idx m' :
  0 < p -> 0 <= pd < 256 -> 0 <= td < 256 -> process_extent ext pd td <= 255 ->
  (forall f, In f created_fields ->
     rd m' p f = rd (create_header m0 p ext pd td size ID idx) p f) ->
  process_blob m' p ext pd td.
Proof.
  intros Hp Hpd Htd Hfit R.
  destruct (create_header_fields m0 p ext pd td size ID idx)
    as (_ & Hoff & Hco & Hto & _ & _ & _ & Hcc & Htc & _).
  split; unfold ia_css_process_get_extension, ia_css_process_get_cell_dependency_count,
    ia_css_process_get_terminal_dependency_count; rewrite ?(not_null p) by exact Hp;
    rewrite ?R by (cbn; tauto); try assumption; try lia.
  - rewrite Hoff. destruct ext; reflexivity.
  - rewrite Hcc. apply u8_small, Hpd.
  - rewrite Htc. apply u8_small, Htd.
  - intros Hn. rewrite Hco. destruct (Z.eqb_spec pd 0); [lia |]. destruct ext; reflexivity.
  - intros Hn. rewrite Hto. destruct (Z.eqb_spec td 0); [lia |].
    apply u8_small. unfold process_extent in *. destruct ext; lia.
  - intros E. rewrite Hco, E. reflexivity.
  - intros E. rewrite Hto, E. reflexivity.
Qed.

(** Creation, with the bytes it writes: the header and the extension. *)
Lemma process_create_ok {P : Platform} {Pok : PlatformOk P} m p man param idx :
  let ext := ia_css_program_manifest_process_requires_extension m man in
  let pd := ia_css_program_manifest_get_program_dependency_count m man in
  let td := ia_css_program_manifest_get_terminal_dependency_count m man in
  let size := ia_css_sizeof_process m man param in
  let ID := ia_css_program_manifest_get_program_ID m man in
  0 < p -> 0 < param -> manifest_apart m man p (p + 12) ->
  size <= 255 -> pd + td <> 0 -> u8 ID <> 0 ->
  exists m', ia_css_process_create p man param idx m = (p, m')
    /\ same_outside p (p + process_extent ext 0 0) m m'
    /\ process_blob m' p ext pd td
    /\ ia_css_process_get_state m' p = IA_CSS_PROCESS_READY
    /\ ia_css_process_get_size m' p = size
    /\ ia_css_process_get_program_ID m' p = u8 ID
    /\ ia_css_process_get_program_idx m' p = u8 idx
    /\ ia_css_process_get_parent m' p = NULL
    /\ ia_css_process_get_cell m' p = VIED_NCI_N_CELL_ID
    /\ (ext = true -> ext_cleared m' (p + 12)).
Proof.
  intros ext pd td size ID Hp Hparam A Hsz Hpt HID.
  pose proof (ma_ptr _ _ _ _ A) as Hman.
  pose proof (sizeof_process_bound m man param Hman Hparam) as Hb. fold ext pd td size in Hb.
  destruct (manifest_counts_range m man) as [Hpd Htd]. fold pd in Hpd. fold td in Htd.
  assert (Hx : 12 <= process_extent ext 0 0 <= process_extent ext pd td)
    by (unfold process_extent; destruct ext; lia).
  unfold ia_css_process_create. rewrite !not_null by assumption.
  rewrite (create_body_run m p man param idx Hp Hparam A Hpt HID). fold ext pd td size ID.
  pose proof (create_header_frame m p ext pd td size ID idx) as F.
  destruct (create_header_fields m p ext pd td size ID idx)
    as (Hst & Hoff & _ & _ & Hs & Hi & Hix & _ & _ & Hpar).
  destruct (create_tail_run _ p ext Hp Hoff Hpar Hst) as (m' & -> & S & St & C & X & R).
  exists m'. split; [reflexivity |]. split; [| split; [| split]].
  - eapply same_outside_trans; eapply same_outside_weaken; [| | exact F | | | exact S]; lia.
  - eapply created_blob; eauto. lia.
  - unfold ia_css_process_get_state. rewrite (not_null p), St by exact Hp. reflexivity.
  - unfold ia_css_process_get_size, ia_css_process_get_program_ID,
      ia_css_process_get_program_idx, ia_css_process_get_parent.
    rewrite !(not_null p) by exact Hp.
    rewrite (R pr.size), (R pr.ID), (R pr.program_idx), (R pr.parent_offset) by (cbn; tauto).
    rewrite Hs, Hi, Hix, Hpar, u8_small by lia. auto 10.
Qed.

(** On enough memory apart from the manifest, a process of at most 255
    bytes with a dependency and an ID is created READY, with its size, ID and
    index recorded, its parts laid out one after the other inside the
    computed size, no parent, no cell and no external resource, and without a
    byte written outside. *)
Theorem process_create_layout {P : Platform} {Pok : PlatformOk P} m p man param idx :
  let ext := ia_css_program_manifest_process_requires_extension m man in
  let pd := ia_css_program_manifest_get_program_dependency_count m man in
  let td := ia_css_program_manifest_get_terminal_dependency_count m man in
  let size := ia_css_sizeof_process m man param in
  let ID := ia_css_program_manifest_get_program_ID m man in
  0 < p -> 0 < param -> manifest_apart m man p (p + size) ->
  size <= 255 -> pd + td <> 0 -> u8 ID <> 0 ->
  exists m', ia_css_process_create p man param idx m = (p, m')
    /\ same_outside p (p + size) m m'
    /\ process_blob m' p ext pd td
    /\ ia_css_process_get_state m' p = IA_CSS_PROCESS_READY
    /\ ia_css_process_get_size m' p = size
    /\ ia_css_process_get_program_ID m' p = u8 ID
    /\ ia_css_process_get_program_idx m' p = u8 idx
    /\ ia_css_process_get_parent m' p = NULL
    /\ ia_css_process_get_cell m' p = VIED_NCI_N_CELL_ID
    /\ (ext = true -> ext_cleared m' (p + 12)).
Proof.
  intros ext pd td size ID Hp Hparam A Hsz Hpt HID.
  pose proof (sizeof_process_bound m man param (ma_ptr _ _ _ _ A) Hparam) as Hb.
  destruct (manifest_counts_range m man) as [Hpd Htd]. fold ext pd td size in Hb, Hpd, Htd.
  assert (Hx : 12 <= process_extent ext 0 0 <= process_extent ext pd td)
    by (unfold process_extent; destruct ext; lia).
  destruct (process_create_ok m p man param idx) as (m' & E & S & H); auto.
  { eapply manifest_apart_weaken; [| exact A]. fold ext pd td size. lia. }
  exists m'. split; [exact E |]. split; [| exact H].
  eapply same_outside_weaken; [| | exact S]; fold ext; lia.
Qed.

(** The sample manifest with an extension that asks for four bytes of memory
    of type 1, so that its processes have an extension too. *)
Definition sample_ext_manifest : mem :=
  wr (snd (ia_css_program_manifest_set_program_ID 8232 9 sample_manifest))
     (ia_css_program_manifest_get_extension sample_manifest 8232) (elt pme.ext_mem_size 1) 4.

Lemma sample_ext_manifest_apart :
  manifest_apart sample_ext_manifest 8232 400 (400 + ia_css_sizeof_process (P := ipu6) sample_ext_manifest 8232 1).
Proof. split; vm_compute; [reflexivity | right; discriminate | right; split; [reflexivity | right; discriminate]]. Qed.

Lemma process_create_layout_witness :
  let '(r, m') := ia_css_process_create (P := ipu6) 400 8232 1 5 sample_ext_manifest in
  r = 400 /\ ia_css_process_get_size m' 400 = 96
  /\ ia_css_process_get_state m' 400 = IA_CSS_PROCESS_READY
  /\ process_blob m' 400 true 2 3.
Proof.
  destruct (@process_create_layout ipu6 ipu6_ok sample_ext_manifest 400 8232 1 5)
    as (m' & -> & _ & B & Hst & Hsz & _);
    [lia | lia | exact sample_ext_manifest_apart | vm_compute; discriminate ..
    | split; [reflexivity | split; [rewrite Hsz; reflexivity | split; [exact Hst | exact B]]]].
Defined.

(** Creation reports only missing arguments. Without a dependency, or
    with an ID whose low byte is zero, the jump to EXIT returns [raw_mem]
    itself, so the caller receives a non-null process left in CREATED. *)
Theorem process_create_failures {P : Platform} {Pok : PlatformOk P} m p man param idx :
  (man = NULL \/ param = NULL \/ p = NULL ->
   ia_css_process_create p man param idx m = (NULL, m))
  /\ (0 < p -> 0 < param -> manifest_apart m man p (p + 12) ->
      let pd := ia_css_program_manifest_get_program_dependency_count m man in
      let td := ia_css_program_manifest_get_terminal_dependency_count m man in
      pd + td = 0 \/ u8 (ia_css_program_manifest_get_program_ID m man) = 0 ->
      exists m', ia_css_process_create p man param idx m = (p, m')
        /\ ia_css_process_get_state m' p = IA_CSS_PROCESS_CREATED
        /\ same_outside p (p + 12) m m').
Proof.
  unfold ia_css_process_create, ia_css_process_destroy, ia_css_process_get_state. split.
  - intros H. destruct (is_null man) eqn:E1, (is_null param) eqn:E2, (is_null p) eqn:E3; try reflexivity.
    unfold is_null in *. bsimp. tauto.
  - intros Hp Hparam A H. pose proof (ma_ptr _ _ _ _ A) as Hman.
    set (pd := ia_css_program_manifest_get_program_dependency_count m man) in *.
    set (td := ia_css_program_manifest_get_terminal_dependency_count m man) in *.
    rewrite !not_null by assumption.
    destruct (Z.eq_dec (pd + td) 0) as [E | E].
    + assert (B : process_create_body p man param idx m = (None, wr m p pr.state IA_CSS_PROCESS_CREATED)).
      { unfold process_create_body. mrun.
        destruct (create_reads m p man param A (wr m p pr.state IA_CSS_PROCESS_CREATED)) as (-> & -> & _);
          [frame_chain |]. fold pd td. rewrite E. reflexivity. }
      rewrite B. eexists. split; [reflexivity | split; [mem_read; reflexivity | frame_chain]].
    + destruct (create_body_no_ID m p man param idx Hp Hparam A E) as (m' & B & S & O); [tauto |].
      rewrite B. eauto.
Qed.

Lemma process_create_failures_witness :
  let '(r, m') := ia_css_process_create (P := ipu6) 400 8232 1 0
                    (snd (ia_css_program_manifest_set_program_ID 8232 256 sample_ext_manifest)) in
  r = 400 /\ ia_css_process_get_state m' 400 = IA_CSS_PROCESS_CREATED.
Proof.
  destruct (@process_create_failures ipu6 ipu6_ok
    (snd (ia_css_program_manifest_set_program_ID 8232 256 sample_ext_manifest)) 400 8232 1 0) as [_ H].
  destruct H as (m' & -> & S & _); [lia | lia | | right; reflexivity | split; [reflexivity | exact S]].
  split; vm_compute; [reflexivity | right; discriminate | right; split; [reflexivity | right; discriminate]].
Defined.

(** A byte stored behind the header and the extension keeps the layout. *)
Lemma blob_wr_list m p ext pd td o v :
  process_blob m p ext pd td -> 12 <= o ->
  let m' := wr m (p + o) (U8 0) v in
  process_blob m' p ext pd td
  /\ forall f, In f [pr.cell_dependencies_offset; pr.terminal_dependencies_offset;
       pr.cell_dependency_count; pr.terminal_dependency_count] -> rd m' p f = rd m p f.
Proof.
  intros [Hp Hpd Htd Hfit He Hcc Htc Hco Hto Hco0 Hto0] Ho m'.
  assert (R : forall f, 0 <= f_off f -> f_off f + Z.of_nat (f_len f) <= 12 -> rd m' p f = rd m p f)
    by (intros f H1 H2; subst m'; apply rd_wr_base; cbn; lia).
  unfold ia_css_process_get_extension, ia_css_process_get_cell_dependency_count,
    ia_css_process_get_terminal_dependency_count in *.
  split.
  - split; unfold ia_css_process_get_extension, ia_css_process_get_cell_dependency_count,
      ia_css_process_get_terminal_dependency_count; rewrite ?R by mem_out; assumption.
  - intros f Hf. cbn [In] in Hf.
    repeat (destruct Hf as [<- | Hf]; [apply R; mem_out |]). destruct Hf.
Qed.

Lemma process_extent_lists ext pd td k :
  process_extent ext k 0 = process_extent ext 0 0 + k
  /\ process_extent ext pd (td + k) = process_extent ext pd td + k
  /\ 12 <= process_extent ext 0 0.
Proof. unfold process_extent. destruct ext; lia. Qed.

(** The lists of a laid out process, as the getters read them. *)
Lemma dependency_lists m p ext pd td j :
  process_blob m p ext pd td ->
  ia_css_process_get_cell_dependency m p j
    = (if j <? pd then rd m (p + (process_extent ext 0 0 + j)) (U8 0)
       else IA_CSS_PROCESS_INVALID_DEPENDENCY)
  /\ ia_css_process_get_terminal_dependency m p j
    = (if j <? td then rd m (p + (process_extent ext pd 0 + j)) (U8 0)
       else IA_CSS_PROCESS_INVALID_DEPENDENCY)
  \/ j < 0.
Proof.
  intros [Hp Hpd Htd _ _ Hcc Htc Hco Hto _ _].
  unfold ia_css_process_get_cell_dependency_count in Hcc.
  unfold ia_css_process_get_terminal_dependency_count in Htc.
  rewrite not_null in Hcc, Htc by exact Hp.
  unfold ia_css_process_get_cell_dependency, ia_css_process_get_terminal_dependency,
    ia_css_process_get_terminal_dependency_count, ia_css_process_get_cell_dependency_count.
  rewrite !(not_null p), Hcc, Htc by exact Hp.
  destruct (Z.ltb_spec j 0); [right; lia | left].
  split; [destruct (Z.ltb_spec j pd) | destruct (Z.ltb_spec j td)]; cbn [negb]; try reflexivity;
    rewrite ?Hco, ?Hto, <- Z.add_assoc by lia; reflexivity.
Qed.

(** Entry [i] of either list is one byte. *)
Lemma set_cell_dependency_run m p ext pd td i v :
  process_blob m p ext pd td -> 0 <= i < pd ->
  ia_css_process_set_cell_dependency p i v m = (0, wr m (p + process_extent ext i 0) (U8 0) v).
Proof.
  intros [Hp _ _ _ _ _ _ Hco _ _ _] Hi. unfold ia_css_process_set_cell_dependency. mrun.
  rewrite (not_null p) by lia. cbn [negb]. rewrite Hco, <- Z.add_assoc by lia.
  destruct (process_extent_lists ext pd 0 i) as (-> & _). reflexivity.
Qed.

Lemma set_terminal_dependency_run m p ext pd td i v :
  process_blob m p ext pd td -> 0 <= i < td ->
  ia_css_process_set_terminal_dependency p i v m = (0, wr m (p + process_extent ext pd i) (U8 0) v).
Proof.
  intros [Hp _ _ _ _ _ Htc _ Hto _ _] Hi.
  unfold ia_css_process_set_terminal_dependency, ia_css_process_get_terminal_dependency_count in *.
  mrun. rewrite !(not_null p) in * by lia. cbn [negb]. rewrite Htc, (proj2 (Z.ltb_lt i td)), Hto, <- Z.add_assoc by lia.
  replace (process_extent ext pd 0 + i) with (process_extent ext pd i) by (unfold process_extent; lia).
  reflexivity.
Qed.

(** Compares the lists before and after a store at offset [o]. *)
Ltac dependency_reads m p ext pd td B W i X :=
  match goal with |- context [wr m (p + ?o) _ _] =>
    pose proof (W o ltac:(lia)) as B'; pose proof (X pd);
    split; intros j Hj;
      (destruct (dependency_lists _ p ext pd td j B) as [[E1 E2] |]; [| lia]);
      (destruct (dependency_lists _ p ext pd td j B') as [[E1' E2'] |]; [| lia]);
      rewrite ?E1, ?E2, ?E1', ?E2';
      repeat match goal with |- context [j <? ?c] => destruct (Z.ltb_spec j c) end;
      repeat match goal with |- context [j =? i] => destruct (Z.eqb_spec j i) end;
      try lia; try reflexivity;
      try (subst j; rewrite rd_wr_same; apply f_conv_U8; lia);
      rewrite rd_wr_base by (cbn; lia); reflexivity
  end.

(** The dependency lists of a process in its layout behave as arrays.
    Storing entry [i] below its count is read back there and changes no other
    entry of either list, nothing of the header or the extension; a terminal
    index out of range is refused, while a program (cell) dependency index is
    stored without a check. *)
Theorem process_dependency_arrays m p ext pd td i v :
  process_blob m p ext pd td -> 0 <= i -> 0 <= v < 256 ->
  (i < pd -> exists m', ia_css_process_set_cell_dependency p i v m = (0, m')
     /\ same_outside (p + process_extent ext i 0) (p + process_extent ext i 0 + 1) m m'
     /\ process_blob m' p ext pd td
     /\ (forall j, 0 <= j -> ia_css_process_get_cell_dependency m' p j
           = if j =? i then v else ia_css_process_get_cell_dependency m p j)
     /\ forall j, 0 <= j -> ia_css_process_get_terminal_dependency m' p j
           = ia_css_process_get_terminal_dependency m p j)
  /\ (i < td -> exists m', ia_css_process_set_terminal_dependency p i v m = (0, m')
     /\ same_outside (p + process_extent ext pd i) (p + process_extent ext pd i + 1) m m'
     /\ process_blob m' p ext pd td
     /\ (forall j, 0 <= j -> ia_css_process_get_terminal_dependency m' p j
           = if j =? i then v else ia_css_process_get_terminal_dependency m p j)
     /\ forall j, 0 <= j -> ia_css_process_get_cell_dependency m' p j
           = ia_css_process_get_cell_dependency m p j)
  /\ (td <= i -> ia_css_process_set_terminal_dependency p i v m = (-1, m))
  /\ fst (ia_css_process_set_cell_dependency p i v m) = 0.
Proof.
  intros B Hi Hv. pose proof B as [Hp Hpd Htd _ _ _ Htc Hco Hto _ _].
  pose proof (process_extent_lists ext pd 0) as X.
  assert (W : forall o, 12 <= o -> process_blob (wr m (p + o) (U8 0) v) p ext pd td)
    by (intros o Ho; exact (proj1 (blob_wr_list m p ext pd td o v B Ho))).
  split; [| split; [| split]].
  - intros Hlt. rewrite (set_cell_dependency_run _ _ _ _ _ _ _ B) by lia. destruct (X i) as (E & _ & X0).
    eexists. split; [reflexivity |]. split; [frame_chain | split; [apply W; lia |]].
    rewrite E. dependency_reads m p ext pd td B W i X.
  - intros Hlt. rewrite (set_terminal_dependency_run _ _ _ _ _ _ _ B) by lia.
    destruct (X i) as (_ & E & X0). rewrite Z.add_0_l in E. rewrite E.
    assert (process_extent ext 0 0 + pd = process_extent ext pd 0) by (unfold process_extent; lia).
    eexists. split; [reflexivity |]. split; [frame_chain | split; [apply W; lia |]].
    dependency_reads m p ext pd td B W i X.
  - intros Hge. unfold ia_css_process_set_terminal_dependency, ia_css_process_get_terminal_dependency_count in *.
    mrun. rewrite !(not_null p) in * by exact Hp. cbn [negb]. rewrite Htc, (proj2 (Z.ltb_ge i td)) by exact Hge. reflexivity.
  - unfold ia_css_process_set_cell_dependency. mrun. rewrite (not_null p) by exact Hp. reflexivity.
Qed.

Lemma process_dependency_arrays_witness :
  let m := snd (ia_css_process_create (P := ipu6) 400 8232 1 5 sample_ext_manifest) in
  exists m', ia_css_process_set_cell_dependency 400 1 7 m = (0, m')
    /\ ia_css_process_get_cell_dependency m' 400 1 = 7.
Proof.
  intros m. assert (B : process_blob m 400 true 2 3)
    by (split; vm_compute; (reflexivity || discriminate || (split; [discriminate | reflexivity]))).
  destruct (process_dependency_arrays m 400 true 2 3 1 7 B) as [H _]; [lia | lia |].
  destruct H as (m' & E & _ & _ & G & _); [lia |].
  exists m'. split; [exact E |]. rewrite G by lia. reflexivity.
Defined.

(** The validity check accepts a process in the layout of its manifest
    exactly when the cell the manifest fixes, if any, is the process's cell;
    but a process whose program ID is not the manifest's is accepted without
    any of the other checks. *)
Theorem process_validity {P : Platform} {Pok : PlatformOk P} m p man param :
  let ext := ia_css_program_manifest_process_requires_extension m man in
  let pd := ia_css_program_manifest_get_program_dependency_count m man in
  let td := ia_css_program_manifest_get_terminal_dependency_count m man in
  0 < man -> 0 < param ->
  process_blob m p ext pd td ->
  ia_css_process_get_size m p = ia_css_sizeof_process m man param ->
  (ia_css_process_get_program_ID m p = ia_css_program_manifest_get_program_ID m man ->
   ia_css_is_process_valid m p man
   = negb (pd + td =? 0)
     && (negb (ia_css_has_program_manifest_fixed_cell m man)
         || (ia_css_program_manifest_get_cell_ID m man =? ia_css_process_get_cell m p)))
  /\ (ia_css_process_get_program_ID m p <> ia_css_program_manifest_get_program_ID m man ->
      ia_css_is_process_valid m p man = true).
Proof.
  intros ext pd td Hman Hparam [Hp Hpd Htd Hfit _ Hcc Htc Hco Hto Hco0 Hto0] Hsz.
  pose proof (sizeof_process_bound m man param Hman Hparam) as Hb. fold ext pd td in Hb.
  rewrite <- Hsz in Hb.
  unfold ia_css_process_get_cell_dependency_count in Hcc.
  unfold ia_css_process_get_terminal_dependency_count in Htc.
  unfold ia_css_process_get_size in Hsz, Hb.
  rewrite not_null in Hcc, Htc, Hsz, Hb by exact Hp.
  assert (O1 : (rd m p pr.size <=? rd m p pr.cell_dependencies_offset) = false).
  { apply Z.leb_gt. unfold process_extent in *.
    destruct (Z.eq_dec pd 0) as [E | E]; [rewrite (Hco0 E) | rewrite (Hco ltac:(lia))];
      destruct ext; lia. }
  assert (O2 : (rd m p pr.size <=? rd m p pr.terminal_dependencies_offset) = false).
  { apply Z.leb_gt. unfold process_extent in *.
    destruct (Z.eq_dec td 0) as [E | E]; [rewrite (Hto0 E) | rewrite (Hto ltac:(lia))];
      destruct ext; lia. }
  unfold ia_css_is_process_valid. rewrite !not_null by assumption. cbv zeta.
  split; intros HID.
  - rewrite HID, O1, O2, Hcc, Htc. fold pd td. rewrite !Z.eqb_refl. cbn [negb orb].
    rewrite !orb_false_r.
    destruct (ia_css_has_program_manifest_fixed_cell m man); cbn [negb orb];
      [rewrite negb_orb, negb_involutive, andb_comm | rewrite andb_true_r]; reflexivity.
  - rewrite (proj2 (Z.eqb_neq _ _)) by exact HID. reflexivity.
Qed.

(** The sample process once its manifest fixes cell 3. *)
Definition sample_fixed_cell : mem :=
  let m := wr sample_ext_manifest 8232 pm.cell_type_id (VIED_NCI_N_CELL_TYPE_ID (Platform := ipu6)) in
  snd (ia_css_process_create (P := ipu6) 400 8232 1 5 (wr m 8232 (elt pm.cells 0) 3)).

Lemma process_validity_witness :
  ia_css_is_process_valid (P := ipu6) sample_fixed_cell 400 8232 = false
  /\ ia_css_is_process_valid (P := ipu6) (wr sample_fixed_cell 400 pr.ID 77) 400 8232 = true.
Proof.
  split.
  - destruct (@process_validity ipu6 ipu6_ok sample_fixed_cell 400 8232 1) as [H _];
      [lia | lia | | reflexivity | rewrite H by reflexivity; reflexivity].
    split; vm_compute; (reflexivity || discriminate || (split; [discriminate | reflexivity])).
  - destruct (@process_validity ipu6 ipu6_ok (wr sample_fixed_cell 400 pr.ID 77) 400 8232 1) as [_ H];
      [lia | lia | | reflexivity | apply H; vm_compute; discriminate].
    split; vm_compute; (reflexivity || discriminate || (split; [discriminate | reflexivity])).
Defined.
