(* ===== verification/Terminal.v ===== *)
(** * Terminals and frames

    The operations on an existing terminal of
    include/ia_css_psys_terminal_impl.h and on the frame inside a data terminal
    of include/ia_css_program_group_data_impl.h.  A terminal starts with a
    common header; a data terminal holds a frame descriptor and a frame, the
    parameter terminals hold a parameter payload right behind the header. *)

From S2P Require Import Prelude Memory KernelBitmap ProgramGroupParam ProcessGroupHeader.
#[local] Open Scope css_scope.

(** ** Enumerations *)

Definition VIED_NULL : Z := 0.

(** [ia_css_terminal_type_t] *)
Definition IA_CSS_TERMINAL_TYPE_DATA_IN : Z := 0.
Definition IA_CSS_TERMINAL_TYPE_DATA_OUT : Z := 1.
Definition IA_CSS_TERMINAL_TYPE_PARAM_STREAM : Z := 2.
Definition IA_CSS_TERMINAL_TYPE_PARAM_CACHED_IN : Z := 3.
Definition IA_CSS_TERMINAL_TYPE_PARAM_CACHED_OUT : Z := 4.
Definition IA_CSS_TERMINAL_TYPE_PARAM_SPATIAL_IN : Z := 5.
Definition IA_CSS_TERMINAL_TYPE_PARAM_SPATIAL_OUT : Z := 6.
Definition IA_CSS_TERMINAL_TYPE_PARAM_SLICED_IN : Z := 7.
Definition IA_CSS_TERMINAL_TYPE_PARAM_SLICED_OUT : Z := 8.
Definition IA_CSS_TERMINAL_TYPE_STATE_IN : Z := 9.
Definition IA_CSS_TERMINAL_TYPE_STATE_OUT : Z := 10.
Definition IA_CSS_TERMINAL_TYPE_PROGRAM : Z := 11.
Definition IA_CSS_TERMINAL_TYPE_PROGRAM_CONTROL_INIT : Z := 12.
Definition IA_CSS_N_TERMINAL_TYPES : Z := 13.

(** [ia_css_buffer_state_t] *)
Definition IA_CSS_BUFFER_NULL : Z := 0.
Definition IA_CSS_BUFFER_UNDEFINED : Z := 1.
Definition IA_CSS_BUFFER_EMPTY : Z := 2.
Definition IA_CSS_BUFFER_NONEMPTY : Z := 3.
Definition IA_CSS_BUFFER_FULL : Z := 4.
Definition IA_CSS_N_BUFFER_STATES : Z := 5.

(** [ia_css_pointer_state_t], [ia_css_connection_type_t] *)
Definition IA_CSS_N_POINTER_STATES : Z := 2.
Definition IA_CSS_N_CONNECTION_TYPES : Z := 3.

(** ** Layout *)

(** [struct ia_css_terminal_s]. *)
Module te.
Definition terminal_type := U32 0.
Definition payload_size := U32 4.
Definition parent_offset := S16 8.
Definition size := U16 10.
Definition tm_index := U16 12.
Definition ID := U8 14.
Definition padding := U8 15.
Definition layout : list (field * Z) :=
  [(terminal_type, 1); (payload_size, 1); (parent_offset, 1); (size, 1); (tm_index, 1);
   (ID, 1); (padding, 1)].
End te.
Definition sizeof_ia_css_terminal_t : Z := 16.

(** [struct ia_css_frame_descriptor_s]. *)
Module fd.
Definition frame_format_type := U32 0.
Definition plane_count := U32 4.
Definition plane_offsets := U32 8.
Definition stride := U32 32.
Definition ts_offsets := U32 36.
Definition dimension := U16 60.
Definition size := U16 64.
Definition bpp := U8 66.
Definition bpe := U8 67.
Definition is_compressed := U8 68.
Definition is_signed := U8 69.
Definition padding := U8 70.
Definition layout : list (field * Z) :=
  [(frame_format_type, 1); (plane_count, 1); (plane_offsets, 6); (stride, 1); (ts_offsets, 6);
   (dimension, 2); (size, 1); (bpp, 1); (bpe, 1); (is_compressed, 1); (is_signed, 1); (padding, 2)].
End fd.
Definition sizeof_ia_css_frame_descriptor_t : Z := 72.

(** [struct ia_css_frame_s]. *)
Module fr.
Definition buffer_state := U32 0.
Definition access_type := U32 4.
Definition pointer_state := U32 8.
Definition access_scope := U32 12.
Definition data := U32 16.
Definition data_index := U32 20.
Definition data_bytes := U32 24.
Definition padding := U8 28.
Definition layout : list (field * Z) :=
  [(buffer_state, 1); (access_type, 1); (pointer_state, 1); (access_scope, 1); (data, 1);
   (data_index, 1); (data_bytes, 1); (padding, 4)].
End fr.
Definition sizeof_ia_css_frame_t : Z := 32.

(** [struct ia_css_data_terminal_s]: the embedded structs by their bytes. *)
Module dt.
Definition base := U8 0.
Definition frame_descriptor := U8 16.
Definition frame := U8 88.
Definition stream := U64 120.
Definition reserved := U32 128.
Definition connection_type := U32 132.
Definition fragment_descriptor_offset := U16 136.
Definition stream2gen_buffer_size := U16 138.
Definition kernel_id := U8 140.
Definition subgraph_id := U8 141.
Definition link_id := U8 142.
Definition padding := U8 143.
Definition layout : list (field * Z) :=
  [(base, sizeof_ia_css_terminal_t); (frame_descriptor, sizeof_ia_css_frame_descriptor_t);
   (frame, sizeof_ia_css_frame_t); (stream, 1); (reserved, 1); (connection_type, 1);
   (fragment_descriptor_offset, 1); (stream2gen_buffer_size, 1); (kernel_id, 1);
   (subgraph_id, 1); (link_id, 1); (padding, 1)].
End dt.
Definition sizeof_ia_css_data_terminal_t : Z := 144.
Definition sizeof_ia_css_fragment_descriptor_t : Z := 16.

(** [param_payload], which follows the header in the parameter, program,
    program control init and spatial parameter terminals. *)
Module pay.
Definition base := U8 0.
Definition host_buffer := U64 16.
Definition buffer := U32 24.
Definition terminal_index := U32 28.
Definition layout : list (field * Z) :=
  [(base, sizeof_ia_css_terminal_t); (host_buffer, 1); (buffer, 1); (terminal_index, 1)].
End pay.

#[export] Hint Unfold te.terminal_type te.payload_size te.parent_offset te.size te.tm_index te.ID
  sizeof_ia_css_terminal_t fd.frame_format_type fd.plane_count fd.plane_offsets fd.stride
  fd.ts_offsets fd.dimension fd.size fd.bpp fd.bpe fd.is_compressed fd.is_signed
  sizeof_ia_css_frame_descriptor_t fr.buffer_state fr.access_type fr.pointer_state
  fr.access_scope fr.data fr.data_index fr.data_bytes sizeof_ia_css_frame_t
  dt.base dt.frame_descriptor dt.frame dt.stream dt.reserved dt.connection_type
  dt.fragment_descriptor_offset dt.stream2gen_buffer_size dt.kernel_id dt.subgraph_id dt.link_id
  sizeof_ia_css_data_terminal_t pay.host_buffer pay.buffer pay.terminal_index : layout.

Lemma terminal_layouts :
  tiles te.layout sizeof_ia_css_terminal_t = true
  /\ tiles fd.layout sizeof_ia_css_frame_descriptor_t = true
  /\ tiles fr.layout sizeof_ia_css_frame_t = true
  /\ tiles dt.layout sizeof_ia_css_data_terminal_t = true
  /\ tiles pay.layout 32 = true.
Proof. repeat split; reflexivity. Qed.

(** ** Frames *)

Section Frame_getters.
Variable m : mem.

Definition ia_css_frame_get_buffer_host_virtual_address (frame : Z) : Z :=
  if is_null frame then NULL else frame + f_off fr.data.

Definition ia_css_frame_get_buffer (frame : Z) : Z :=
  if is_null frame then VIED_NULL else rd m frame fr.data.

(** [uint32_t] returned as [int]. *)
Definition ia_css_frame_get_data_index (frame : Z) : Z :=
  if is_null frame then -1 else signed 32 (rd m frame fr.data_index).

Definition ia_css_frame_get_buffer_state (frame : Z) : Z :=
  if is_null frame then IA_CSS_N_BUFFER_STATES else rd m frame fr.buffer_state.

Definition ia_css_frame_get_pointer_state (frame : Z) : Z :=
  if is_null frame then IA_CSS_N_POINTER_STATES else rd m frame fr.pointer_state.
End Frame_getters.

Definition ia_css_frame_set_buffer (frame buffer : Z) : mem -> Z * mem :=
  with_retval (-1) (verifexit (negb (is_null frame)) ;;; wrM frame fr.data buffer ;;; ret 0).

Definition ia_css_frame_set_data_index (frame data_index : Z) : mem -> Z * mem :=
  with_retval (-1) (verifexit (negb (is_null frame)) ;;; wrM frame fr.data_index data_index ;;; ret 0).

Definition ia_css_frame_set_data_bytes (frame size : Z) : mem -> Z * mem :=
  with_retval (-1) (verifexit (negb (is_null frame)) ;;; wrM frame fr.data_bytes size ;;; ret 0).

Definition ia_css_frame_set_buffer_state (frame buffer_state : Z) : mem -> Z * mem :=
  with_retval (-1)
    (verifexit (negb (is_null frame)) ;;; wrM frame fr.buffer_state buffer_state ;;; ret 0).

Definition ia_css_frame_set_pointer_state (frame pointer_state : Z) : mem -> Z * mem :=
  with_retval (-1)
    (verifexit (negb (is_null frame)) ;;; wrM frame fr.pointer_state pointer_state ;;; ret 0).

(** [1 << frame_format_type] on [uint64_t]: [None] where the C shift has no
    meaning; there are more formats than bits. *)
Definition ia_css_frame_format_bit_mask (frame_format_type : Z) : option Z :=
  if frame_format_type <? IA_CSS_N_FRAME_FORMAT_TYPES then
    if frame_format_type <? 64 then Some (Z.shiftl 1 frame_format_type) else None
  else Some 0.

Definition ia_css_frame_format_bitmap_clear : Z := 0.

Definition ia_css_sizeof_frame_descriptor (plane_count : Z) : Z :=
  if 0 <? plane_count then sizeof_ia_css_frame_descriptor_t + plane_count * 4 else 0.

(** ** Reading a terminal *)

Section Terminal_getters.
Variable m : mem.

Definition ia_css_terminal_get_size (terminal : Z) : Z :=
  if is_null terminal then 0 else rd m terminal te.size.

Definition ia_css_terminal_get_type (terminal : Z) : Z :=
  if is_null terminal then IA_CSS_N_TERMINAL_TYPES else rd m terminal te.terminal_type.

Definition ia_css_terminal_get_terminal_manifest_index (terminal : Z) : Z :=
  if is_null terminal then 65535 else rd m terminal te.tm_index.

Definition ia_css_terminal_get_payload_size (terminal : Z) : Z :=
  if is_null terminal then 0 else rd m terminal te.payload_size.

Definition ia_css_terminal_get_ID (terminal : Z) : Z :=
  if is_null terminal then 0 else rd m terminal te.ID.

Definition ia_css_terminal_get_parent (terminal : Z) : Z :=
  if is_null terminal then NULL
  else if rd m terminal te.parent_offset =? 0 then NULL
  else terminal + rd m terminal te.parent_offset.

(** The types the switch lists; the default case leaves [false]. *)
Definition ia_css_is_terminal_input (terminal : Z) : bool :=
  if is_null terminal then false
  else
    let terminal_type := ia_css_terminal_get_type terminal in
    existsb (Z.eqb terminal_type)
      [IA_CSS_TERMINAL_TYPE_DATA_IN; IA_CSS_TERMINAL_TYPE_STATE_IN;
       IA_CSS_TERMINAL_TYPE_PARAM_STREAM; IA_CSS_TERMINAL_TYPE_PARAM_CACHED_IN;
       IA_CSS_TERMINAL_TYPE_PARAM_SPATIAL_IN; IA_CSS_TERMINAL_TYPE_PARAM_SLICED_IN;
       IA_CSS_TERMINAL_TYPE_PROGRAM; IA_CSS_TERMINAL_TYPE_PROGRAM_CONTROL_INIT].

Definition ia_css_is_terminal_parameter_terminal (terminal : Z) : bool :=
  let terminal_type := ia_css_terminal_get_type terminal in
  (terminal_type =? IA_CSS_TERMINAL_TYPE_PARAM_CACHED_IN)
  || (terminal_type =? IA_CSS_TERMINAL_TYPE_PARAM_CACHED_OUT).

Definition ia_css_is_terminal_data_terminal (terminal : Z) : bool :=
  let terminal_type := ia_css_terminal_get_type terminal in
  (terminal_type =? IA_CSS_TERMINAL_TYPE_DATA_IN)
  || (terminal_type =? IA_CSS_TERMINAL_TYPE_DATA_OUT).

Definition ia_css_is_terminal_program_terminal (terminal : Z) : bool :=
  ia_css_terminal_get_type terminal =? IA_CSS_TERMINAL_TYPE_PROGRAM.

Definition ia_css_is_terminal_program_control_init_terminal (terminal : Z) : bool :=
  ia_css_terminal_get_type terminal =? IA_CSS_TERMINAL_TYPE_PROGRAM_CONTROL_INIT.

Definition ia_css_is_terminal_spatial_parameter_terminal (terminal : Z) : bool :=
  let terminal_type := ia_css_terminal_get_type terminal in
  (terminal_type =? IA_CSS_TERMINAL_TYPE_PARAM_SPATIAL_IN)
  || (terminal_type =? IA_CSS_TERMINAL_TYPE_PARAM_SPATIAL_OUT).

(** *** Data terminals *)

Definition ia_css_data_terminal_get_frame (dterminal : Z) : Z :=
  if is_null dterminal then NULL else dterminal + f_off dt.frame.

Definition ia_css_data_terminal_get_frame_descriptor (dterminal : Z) : Z :=
  if is_null dterminal then NULL else dterminal + f_off dt.frame_descriptor.

Definition ia_css_data_terminal_get_kernel_id (dterminal : Z) : Z :=
  if is_null dterminal then 0 else rd m dterminal dt.kernel_id.

(** The value stored through the out-parameter; [None] is the -1 return. *)
Definition ia_css_data_terminal_is_compressed (dterminal : Z) : option Z :=
  let frame_descriptor := ia_css_data_terminal_get_frame_descriptor dterminal in
  if is_null frame_descriptor then None else Some (rd m frame_descriptor fd.is_compressed).

Definition ia_css_data_terminal_get_connection_type (dterminal : Z) : Z :=
  if is_null dterminal then IA_CSS_N_CONNECTION_TYPES else rd m dterminal dt.connection_type.

Definition ia_css_data_terminal_get_link_id (dterminal : Z) : Z :=
  if is_null dterminal then 0 else rd m dterminal dt.link_id.

Definition ia_css_data_terminal_get_fragment_count (dterminal : Z) : Z :=
  let parent := ia_css_terminal_get_parent dterminal in
  if is_null dterminal then 0
  else if is_null parent then 0
  else ia_css_process_group_get_fragment_count m parent.

Definition ia_css_data_terminal_get_fragment_descriptor (dterminal fragment_index : Z) : Z :=
  let fragment_count := ia_css_data_terminal_get_fragment_count dterminal in
  if is_null dterminal then NULL
  else if fragment_count =? 0 then NULL
  else if negb (fragment_index <? fragment_count) then NULL
  else
    let fragment_descriptor := dterminal + rd m dterminal dt.fragment_descriptor_offset in
    fragment_descriptor + fragment_index * sizeof_ia_css_fragment_descriptor_t.

(** The computation is missing in the source: always one plane. *)
Definition ia_css_data_terminal_compute_plane_count (manifest param : Z) : Z := 1.

(** *** The buffer and the terminal index *)

Definition ia_css_terminal_get_buffer (terminal : Z) : Z :=
  if is_null terminal then VIED_NULL
  else if ia_css_is_terminal_data_terminal terminal then
    let frame := ia_css_data_terminal_get_frame terminal in
    if is_null frame then VIED_NULL else ia_css_frame_get_buffer m frame
  else if ia_css_is_terminal_parameter_terminal terminal then rd m terminal pay.buffer
  else if ia_css_is_terminal_program_terminal terminal then rd m terminal pay.buffer
  else if ia_css_is_terminal_program_control_init_terminal terminal then rd m terminal pay.buffer
  else if ia_css_is_terminal_spatial_parameter_terminal terminal then rd m terminal pay.buffer
  else VIED_NULL.

(** [uint32_t] fields returned as [int]. *)
Definition ia_css_terminal_get_terminal_index (terminal : Z) : Z :=
  if is_null terminal then -1
  else if ia_css_is_terminal_data_terminal terminal then
    let frame := ia_css_data_terminal_get_frame terminal in
    if is_null frame then -1 else ia_css_frame_get_data_index m frame
  else if ia_css_is_terminal_parameter_terminal terminal
  then signed 32 (rd m terminal pay.terminal_index)
  else if ia_css_is_terminal_program_terminal terminal
  then signed 32 (rd m terminal pay.terminal_index)
  else if ia_css_is_terminal_program_control_init_terminal terminal
  then signed 32 (rd m terminal pay.terminal_index)
  else if ia_css_is_terminal_spatial_parameter_terminal terminal
  then signed 32 (rd m terminal pay.terminal_index)
  else -1.
End Terminal_getters.

(** ** Writing a terminal *)

Definition ia_css_terminal_set_type (terminal terminal_type : Z) : mem -> Z * mem :=
  with_retval (-1)
    (verifexit (negb (is_null terminal)) ;;; wrM terminal te.terminal_type terminal_type ;;; ret 0).

Definition ia_css_terminal_set_terminal_manifest_index
    (terminal terminal_manifest_index : Z) : mem -> Z * mem :=
  with_retval (-1)
    (verifexit (negb (is_null terminal)) ;;;
     wrM terminal te.tm_index terminal_manifest_index ;;; ret 0).

Definition ia_css_terminal_set_payload_size (terminal payload_size : Z) : mem -> Z * mem :=
  with_retval (-1)
    (verifexit (negb (is_null terminal)) ;;; wrM terminal te.payload_size payload_size ;;; ret 0).

(** [(uint16_t)] first, then the [int16_t] field. *)
Definition ia_css_terminal_set_parent (terminal parent : Z) : mem -> Z * mem :=
  with_retval (-1)
    (verifexit (negb (is_null terminal)) ;;;
     verifexit (negb (is_null parent)) ;;;
     wrM terminal te.parent_offset (u16 (parent - terminal)) ;;; ret 0).

Definition ia_css_data_terminal_set_link_id (dterminal link_id : Z) : mem -> Z * mem :=
  with_retval (-1)
    (verifexit (negb (is_null dterminal)) ;;; wrM dterminal dt.link_id link_id ;;; ret 0).

Definition ia_css_data_terminal_set_connection_type (dterminal connection_type : Z) : mem -> Z * mem :=
  with_retval (-1)
    (verifexit (negb (is_null dterminal)) ;;;
     wrM dterminal dt.connection_type connection_type ;;; ret 0).

Definition ia_css_data_terminal_set_stream2gen_buffer_size
    (dterminal stream2gen_buffer_size : Z) : mem -> Z * mem :=
  with_retval (-1)
    (verifexit (negb (is_null dterminal)) ;;;
     wrM dterminal dt.stream2gen_buffer_size stream2gen_buffer_size ;;; ret 0).

(** The [else return retval] of a terminal of another type is the final -1. *)
Definition ia_css_terminal_set_buffer (terminal buffer : Z) (m : mem) : Z * mem :=
  if ia_css_is_terminal_data_terminal m terminal then
    let frame := ia_css_data_terminal_get_frame terminal in
    if is_null frame then (-1, m)
    else
      let '(retval, m) := ia_css_frame_set_buffer frame buffer m in
      if negb (retval =? 0) then (retval, m) else (0, m)
  else if ia_css_is_terminal_parameter_terminal m terminal then
    if is_null terminal then (-1, m) else (0, wr m terminal pay.buffer buffer)
  else if ia_css_is_terminal_program_terminal m terminal then
    if is_null terminal then (-1, m) else (0, wr m terminal pay.buffer buffer)
  else if ia_css_is_terminal_program_control_init_terminal m terminal then
    if is_null terminal then (-1, m) else (0, wr m terminal pay.buffer buffer)
  else if ia_css_is_terminal_spatial_parameter_terminal m terminal then
    if is_null terminal then (-1, m) else (0, wr m terminal pay.buffer buffer)
  else (-1, m).

Definition ia_css_terminal_set_terminal_index (terminal terminal_index : Z) (m : mem) : Z * mem :=
  if ia_css_is_terminal_data_terminal m terminal then
    let frame := ia_css_data_terminal_get_frame terminal in
    if is_null frame then (-1, m)
    else
      let '(retval, m) := ia_css_frame_set_data_index frame terminal_index m in
      if negb (retval =? 0) then (retval, m) else (0, m)
  else if ia_css_is_terminal_parameter_terminal m terminal
  then (0, wr m terminal pay.terminal_index terminal_index)
  else if ia_css_is_terminal_program_terminal m terminal
  then (0, wr m terminal pay.terminal_index terminal_index)
  else if ia_css_is_terminal_program_control_init_terminal m terminal
  then (0, wr m terminal pay.terminal_index terminal_index)
  else if ia_css_is_terminal_spatial_parameter_terminal m terminal
  then (0, wr m terminal pay.terminal_index terminal_index)
  else (-1, m).

(** ** Lemmas *)

(** Where a terminal of a type keeps its buffer address and its terminal
    index, as fields of the terminal itself. *)
Definition is_data_type (ty : Z) : bool :=
  (ty =? IA_CSS_TERMINAL_TYPE_DATA_IN) || (ty =? IA_CSS_TERMINAL_TYPE_DATA_OUT).

Definition is_payload_type (ty : Z) : bool :=
  existsb (Z.eqb ty)
    [IA_CSS_TERMINAL_TYPE_PARAM_CACHED_IN; IA_CSS_TERMINAL_TYPE_PARAM_CACHED_OUT;
     IA_CSS_TERMINAL_TYPE_PROGRAM; IA_CSS_TERMINAL_TYPE_PROGRAM_CONTROL_INIT;
     IA_CSS_TERMINAL_TYPE_PARAM_SPATIAL_IN; IA_CSS_TERMINAL_TYPE_PARAM_SPATIAL_OUT].

Definition buffer_field (ty : Z) : option field :=
  if is_data_type ty then Some (U32 104)
  else if is_payload_type ty then Some pay.buffer else None.

Definition index_field (ty : Z) : option field :=
  if is_data_type ty then Some (U32 108)
  else if is_payload_type ty then Some pay.terminal_index else None.

(** The frame's fields from the terminal's address. *)
Lemma rd_frame m t o : rd m (t + f_off dt.frame) (U32 o) = rd m t (U32 (88 + o)).
Proof. unfold rd. cbn. rewrite Z.add_assoc. reflexivity. Qed.
Lemma wr_frame m t o v : wr m (t + f_off dt.frame) (U32 o) v = wr m t (U32 (88 + o)) v.
Proof. unfold wr. cbn. rewrite Z.add_assoc. reflexivity. Qed.

Ltac type_cases t :=
  unfold ia_css_is_terminal_data_terminal, ia_css_is_terminal_parameter_terminal,
    ia_css_is_terminal_program_terminal, ia_css_is_terminal_program_control_init_terminal,
    ia_css_is_terminal_spatial_parameter_terminal, ia_css_terminal_get_type;
  rewrite ?(not_null t) by assumption; cbv zeta;
  unfold is_data_type, is_payload_type; cbn [existsb];
  repeat (destruct (_ =? _); cbn [orb]; try reflexivity).

Lemma frame_not_null t : 0 < t -> is_null (ia_css_data_terminal_get_frame t) = false.
Proof.
  intros Ht. unfold ia_css_data_terminal_get_frame. rewrite (not_null t) by exact Ht.
  apply not_null. cbn. lia.
Qed.

Section Slots.
Variables (t : Z) (m : mem).
Hypothesis t_pos : 0 < t.

#[local] Abbreviation ty := (rd m t te.terminal_type).

Lemma set_buffer_run b :
  ia_css_terminal_set_buffer t b m
  = match buffer_field ty with Some f => (0, wr m t f b) | None => (-1, m) end.
Proof.
  unfold ia_css_terminal_set_buffer, buffer_field. rewrite frame_not_null by exact t_pos.
  assert (E : ia_css_frame_set_buffer (ia_css_data_terminal_get_frame t) b m = (0, wr m t (U32 104) b)).
  { unfold ia_css_frame_set_buffer. rewrite frame_not_null by exact t_pos. mrun. cbn [negb].
    unfold ia_css_data_terminal_get_frame. rewrite (not_null t) by exact t_pos.
    unfold fr.data. rewrite wr_frame. reflexivity. }
  rewrite E. cbn [negb Z.eqb]. type_cases t.
Qed.

Lemma set_terminal_index_run i :
  ia_css_terminal_set_terminal_index t i m
  = match index_field ty with Some f => (0, wr m t f i) | None => (-1, m) end.
Proof.
  unfold ia_css_terminal_set_terminal_index, index_field. rewrite frame_not_null by exact t_pos.
  assert (E : ia_css_frame_set_data_index (ia_css_data_terminal_get_frame t) i m = (0, wr m t (U32 108) i)).
  { unfold ia_css_frame_set_data_index. rewrite frame_not_null by exact t_pos. mrun. cbn [negb].
    unfold ia_css_data_terminal_get_frame. rewrite (not_null t) by exact t_pos.
    unfold fr.data_index. rewrite wr_frame. reflexivity. }
  rewrite E. cbn [negb Z.eqb]. type_cases t.
Qed.

Lemma get_buffer_run :
  ia_css_terminal_get_buffer m t
  = match buffer_field ty with Some f => rd m t f | None => VIED_NULL end.
Proof.
  unfold ia_css_terminal_get_buffer, buffer_field, ia_css_frame_get_buffer.
  rewrite !frame_not_null by exact t_pos. rewrite (not_null t) by exact t_pos.
  unfold ia_css_data_terminal_get_frame. rewrite (not_null t) by exact t_pos.
  unfold fr.data. rewrite rd_frame. type_cases t.
Qed.

Lemma get_terminal_index_run :
  ia_css_terminal_get_terminal_index m t
  = match index_field ty with Some f => signed 32 (rd m t f) | None => -1 end.
Proof.
  unfold ia_css_terminal_get_terminal_index, index_field, ia_css_frame_get_data_index.
  rewrite !frame_not_null by exact t_pos. rewrite (not_null t) by exact t_pos.
  unfold ia_css_data_terminal_get_frame. rewrite (not_null t) by exact t_pos.
  unfold fr.data_index. rewrite rd_frame. type_cases t.
Qed.
End Slots.

Lemma slot_cases ty :
  (buffer_field ty = Some (U32 104) /\ index_field ty = Some (U32 108) /\ is_data_type ty = true)
  \/ (buffer_field ty = Some pay.buffer /\ index_field ty = Some pay.terminal_index
      /\ is_data_type ty = false /\ is_payload_type ty = true)
  \/ (buffer_field ty = None /\ index_field ty = None
      /\ is_data_type ty = false /\ is_payload_type ty = false).
Proof.
  unfold buffer_field, index_field.
  destruct (is_data_type ty), (is_payload_type ty); tauto.
Qed.

(** What clients observe of a terminal: its type, buffer, index and, for a
    data terminal, the state of its frame. *)
Record terminal_view := TView { v_type : Z; v_buffer : Z; v_index : Z; v_state : Z }.

Definition view_of (m : mem) (t : Z) : terminal_view :=
  TView (ia_css_terminal_get_type m t) (ia_css_terminal_get_buffer m t)
    (ia_css_terminal_get_terminal_index m t)
    (if ia_css_is_terminal_data_terminal m t
     then ia_css_frame_get_buffer_state m (ia_css_data_terminal_get_frame t) else 0).

Lemma view_of_run m t :
  0 < t ->
  view_of m t
  = let ty := rd m t te.terminal_type in
    TView ty (match buffer_field ty with Some f => rd m t f | None => VIED_NULL end)
      (match index_field ty with Some f => signed 32 (rd m t f) | None => -1 end)
      (if is_data_type ty then rd m t (U32 88) else 0).
Proof.
  intros Ht. unfold view_of. rewrite get_buffer_run, get_terminal_index_run by exact Ht.
  unfold ia_css_is_terminal_data_terminal, ia_css_terminal_get_type, ia_css_frame_get_buffer_state.
  rewrite frame_not_null, (not_null t) by exact Ht.
  unfold ia_css_data_terminal_get_frame. rewrite (not_null t) by exact Ht.
  unfold fr.buffer_state. rewrite rd_frame. reflexivity.
Qed.

(** A data, parameter, program or spatial terminal keeps a buffer
    address and a terminal index independently of each other: each setter
    succeeds, changes exactly its own observation and four bytes of the
    terminal.  A terminal of any other type refuses both and reports no
    buffer and no index. *)
Theorem terminal_payload_set_get m t v :
  0 < t -> 0 <= v < 2 ^ 31 ->
  let ty := ia_css_terminal_get_type m t in
  let '(TView _ b i s) := view_of m t in
  if is_data_type ty || is_payload_type ty then
    (exists m', ia_css_terminal_set_buffer t v m = (0, m')
       /\ view_of m' t = TView ty v i s /\ same_outside (t + 16) (t + 112) m m')
    /\ (exists m', ia_css_terminal_set_terminal_index t v m = (0, m')
       /\ view_of m' t = TView ty b v s /\ same_outside (t + 16) (t + 112) m m')
  else
    ia_css_terminal_set_buffer t v m = (-1, m)
    /\ ia_css_terminal_set_terminal_index t v m = (-1, m) /\ b = VIED_NULL /\ i = -1.
Proof.
  intros Ht Hv ty. rewrite view_of_run by exact Ht.
  assert (Ety : ty = rd m t te.terminal_type)
    by (subst ty; unfold ia_css_terminal_get_type; rewrite not_null by exact Ht; reflexivity).
  rewrite <- Ety. cbv zeta. rewrite set_buffer_run, set_terminal_index_run, <- Ety by exact Ht.
  assert (Hs : signed 32 (u32 v) = v)
    by (rewrite u32_small by lia; apply signed_small; lia).
  assert (Hu : u32 v = v) by (apply u32_small; lia).
  destruct (slot_cases ty) as [(Eb & Ei & Ed) | [(Eb & Ei & Ed & Ep) | (Eb & Ei & Ed & Ep)]];
    rewrite Eb, Ei, Ed; cbn [orb]; [| rewrite Ep | rewrite Ep; auto].
  - split; (eexists; split; [reflexivity | split; [| apply wr_same_outside; mem_out]]);
      rewrite view_of_run by exact Ht; cbv zeta;
      rewrite (rd_wr_field _ _ te.terminal_type) by reflexivity;
      rewrite <- Ety, Eb, Ei, Ed; mem_read; rewrite ?f_conv_u32, ?Hs, ?Hu; reflexivity.
  - split; (eexists; split; [reflexivity | split; [| apply wr_same_outside; mem_out]]);
      rewrite view_of_run by exact Ht; cbv zeta;
      rewrite (rd_wr_field _ _ te.terminal_type) by reflexivity;
      rewrite <- Ety, Eb, Ei, Ed; mem_read; rewrite ?f_conv_u32, ?Hs, ?Hu; reflexivity.
Qed.

(** A program terminal at 600. *)
Lemma terminal_payload_set_get_witness :
  let m := wr (fun _ => 0) 600 te.terminal_type IA_CSS_TERMINAL_TYPE_PROGRAM in
  exists m', ia_css_terminal_set_buffer 600 4096 m = (0, m')
    /\ view_of m' 600 = TView IA_CSS_TERMINAL_TYPE_PROGRAM 4096 0 0.
Proof.
  intros m. destruct (terminal_payload_set_get m 600 4096) as [(m' & E & V & _) _]; [lia | lia |].
  exists m'. split; [exact E |]. rewrite V. reflexivity.
Defined.
