(* ===== verification/ProcessGroup.v ===== *)
(** * The process group's command interface

    src/ia_css_psys_process_group_cmd_impl.c ([ia_css_process_group_exec_cmd]),
    its wrappers in src/ia_css_psys_process_group.c, and from
    include/ia_css_psys_process_group_impl.h the submission and start
    conditions and the attachment of buffers and streams to the group's
    terminals. *)

From S2P Require Import Prelude Memory KernelBitmap ProgramGroupParam ProcessGroupHeader Terminal.
#[local] Open Scope css_scope.

(** ** Commands (include/ia_css_psys_process_types.h) *)

Definition IA_CSS_PROCESS_GROUP_CMD_NOP : Z := 0.
Definition IA_CSS_PROCESS_GROUP_CMD_SUBMIT : Z := 1.
Definition IA_CSS_PROCESS_GROUP_CMD_ATTACH : Z := 2.
Definition IA_CSS_PROCESS_GROUP_CMD_DETACH : Z := 3.
Definition IA_CSS_PROCESS_GROUP_CMD_START : Z := 4.
Definition IA_CSS_PROCESS_GROUP_CMD_DISOWN : Z := 5.
Definition IA_CSS_PROCESS_GROUP_CMD_RUN : Z := 6.
Definition IA_CSS_PROCESS_GROUP_CMD_STOP : Z := 7.
Definition IA_CSS_PROCESS_GROUP_CMD_SUSPEND : Z := 8.
Definition IA_CSS_PROCESS_GROUP_CMD_RESUME : Z := 9.
Definition IA_CSS_PROCESS_GROUP_CMD_ABORT : Z := 10.
Definition IA_CSS_PROCESS_GROUP_CMD_RESET : Z := 11.
Definition IA_CSS_N_PROCESS_GROUP_CMDS : Z := 12.

(** ** Submission and start conditions *)

(** The outcome of one iteration of a loop over the terminals. *)
Inductive verdict := Go | Break | Exit.

(** The loop [for (i = 0; i < n; i++)]: the value of [i] behind it, [None]
    when the body jumped to EXIT. *)
Fixpoint scan (body : Z -> verdict) (l : list Z) (n : Z) : option Z :=
  match l with
  | [] => Some n
  | i :: l' => match body i with
               | Go => scan body l' n
               | Break => Some i
               | Exit => None
               end
  end.

Section Conditions.
Variable m : mem.

(** The terminals of a submission that carry no frame. *)
Definition is_other_known_terminal (terminal : Z) : bool :=
  ia_css_is_terminal_parameter_terminal m terminal
  || ia_css_is_terminal_program_terminal m terminal
  || ia_css_is_terminal_program_control_init_terminal m terminal
  || ia_css_is_terminal_spatial_parameter_terminal m terminal.

Definition submit_body (process_group i : Z) : verdict :=
  let terminal := ia_css_process_group_get_terminal m process_group i in
  if is_null terminal then Exit
  else if ia_css_is_terminal_data_terminal m terminal then
    let frame := ia_css_data_terminal_get_frame terminal in
    if is_null frame then Exit
    else
      let buffer_state := ia_css_frame_get_buffer_state m frame in
      if (buffer_state =? IA_CSS_BUFFER_NULL) || (buffer_state =? IA_CSS_N_BUFFER_STATES)
      then Break else Go
  else if negb (is_other_known_terminal terminal) then Break
  else Go.

(** The buffer address read under the legacy protocol is only traced. *)
Definition ia_css_can_process_group_submit (process_group : Z) : bool :=
  let terminal_count := ia_css_process_group_get_terminal_count m process_group in
  if is_null process_group then false
  else match scan (submit_body process_group) (range 0 terminal_count) terminal_count with
       | Some i => i =? terminal_count
       | None => false
       end.

(** The buffer address read from the set is only traced. *)
Definition ia_css_can_enqueue_buffer_set (process_group buffer_set : Z) : bool :=
  if is_null process_group then false
  else if is_null buffer_set then false
  else
    let terminal_count := ia_css_process_group_get_terminal_count m process_group in
    if negb (rd m process_group pg.protocol_version =? IA_CSS_PROCESS_GROUP_PROTOCOL_PPG) then false
    else match scan (submit_body process_group) (range 0 terminal_count) terminal_count with
         | Some i => i =? terminal_count
         | None => false
         end.

Definition start_body (process_group i : Z) : verdict :=
  let terminal := ia_css_process_group_get_terminal m process_group i in
  if is_null terminal then Exit
  else if ia_css_is_terminal_data_terminal m terminal then
    let frame := ia_css_data_terminal_get_frame terminal in
    let is_input := ia_css_is_terminal_input m terminal in
    if is_null frame then Exit
    else
      let buffer_state := ia_css_frame_get_buffer_state m frame in
      let ok := (is_input && (buffer_state =? IA_CSS_BUFFER_FULL))
                || (negb is_input && (buffer_state =? IA_CSS_BUFFER_EMPTY)) in
      if negb ok then Break else Go
  else if ia_css_is_terminal_parameter_terminal m terminal then Go
  else if ia_css_is_terminal_program_terminal m terminal then Go
  else if ia_css_is_terminal_program_control_init_terminal m terminal then Go
  else if ia_css_is_terminal_spatial_parameter_terminal m terminal then Go
  else Break.

Definition ia_css_can_process_group_start (process_group : Z) : bool :=
  if is_null process_group then false
  else
    let terminal_count := ia_css_process_group_get_terminal_count m process_group in
    match scan (start_body process_group) (range 0 terminal_count) terminal_count with
    | Some i => i =? terminal_count
    | None => false
    end.
End Conditions.

(** ** Commands *)

Definition ia_css_process_group_exec_cmd (process_group cmd : Z) : mem -> Z * mem :=
  with_retval (-1)
    (state <- gets (fun m => ia_css_process_group_get_state m process_group) ;;
     verifexit (negb (is_null process_group)) ;;;
     verifexit (negb (state =? IA_CSS_PROCESS_GROUP_ERROR)) ;;;
     verifexit (state <? IA_CSS_N_PROCESS_GROUP_STATES) ;;;
     (if cmd =? IA_CSS_PROCESS_GROUP_CMD_NOP then ret tt
      else if cmd =? IA_CSS_PROCESS_GROUP_CMD_SUBMIT then
        verifexit (state =? IA_CSS_PROCESS_GROUP_READY) ;;;
        can_submit <- gets (fun m => ia_css_can_process_group_submit m process_group) ;;
        verifexit can_submit ;;;
        wrM process_group pg.state IA_CSS_PROCESS_GROUP_BLOCKED
      else if cmd =? IA_CSS_PROCESS_GROUP_CMD_ATTACH then
        verifexit (state =? IA_CSS_PROCESS_GROUP_READY)
      else if cmd =? IA_CSS_PROCESS_GROUP_CMD_DETACH then
        verifexit (state =? IA_CSS_PROCESS_GROUP_READY)
      else if cmd =? IA_CSS_PROCESS_GROUP_CMD_START then
        verifexit (state =? IA_CSS_PROCESS_GROUP_BLOCKED) ;;;
        can_start <- gets (fun m => ia_css_can_process_group_start m process_group) ;;
        verifexit can_start ;;;
        wrM process_group pg.state IA_CSS_PROCESS_GROUP_STARTED
      else if cmd =? IA_CSS_PROCESS_GROUP_CMD_DISOWN then ret tt
      else if cmd =? IA_CSS_PROCESS_GROUP_CMD_RUN then
        verifexit (state =? IA_CSS_PROCESS_GROUP_STARTED) ;;;
        wrM process_group pg.state IA_CSS_PROCESS_GROUP_RUNNING
      else if cmd =? IA_CSS_PROCESS_GROUP_CMD_STOP then
        verifexit (state =? IA_CSS_PROCESS_GROUP_RUNNING) ;;;
        wrM process_group pg.state IA_CSS_PROCESS_GROUP_STOPPED
      else if cmd =? IA_CSS_PROCESS_GROUP_CMD_SUSPEND then
        verifexit (state =? IA_CSS_PROCESS_GROUP_RUNNING) ;;;
        wrM process_group pg.state IA_CSS_PROCESS_GROUP_STARTED
      else if cmd =? IA_CSS_PROCESS_GROUP_CMD_RESUME then
        verifexit (state =? IA_CSS_PROCESS_GROUP_STARTED) ;;;
        wrM process_group pg.state IA_CSS_PROCESS_GROUP_RUNNING
      else if cmd =? IA_CSS_PROCESS_GROUP_CMD_ABORT then
        verifexit ((state =? IA_CSS_PROCESS_GROUP_RUNNING)
                   || (state =? IA_CSS_PROCESS_GROUP_STARTED)) ;;;
        wrM process_group pg.state IA_CSS_PROCESS_GROUP_STOPPED
      else if cmd =? IA_CSS_PROCESS_GROUP_CMD_RESET then
        verifexit ((state =? IA_CSS_PROCESS_GROUP_RUNNING)
                   || (state =? IA_CSS_PROCESS_GROUP_STARTED)
                   || (state =? IA_CSS_PROCESS_GROUP_STOPPED)) ;;;
        wrM process_group pg.state IA_CSS_PROCESS_GROUP_BLOCKED
      else verifexit false) ;;;
     ret 0).

Definition ia_css_process_group_submit (process_group : Z) : mem -> Z * mem :=
  ia_css_process_group_exec_cmd process_group IA_CSS_PROCESS_GROUP_CMD_SUBMIT.
Definition ia_css_process_group_start (process_group : Z) : mem -> Z * mem :=
  ia_css_process_group_exec_cmd process_group IA_CSS_PROCESS_GROUP_CMD_START.
Definition ia_css_process_group_stop (process_group : Z) : mem -> Z * mem :=
  ia_css_process_group_exec_cmd process_group IA_CSS_PROCESS_GROUP_CMD_STOP.
Definition ia_css_process_group_run (process_group : Z) : mem -> Z * mem :=
  ia_css_process_group_exec_cmd process_group IA_CSS_PROCESS_GROUP_CMD_RUN.
Definition ia_css_process_group_suspend (process_group : Z) : mem -> Z * mem :=
  ia_css_process_group_exec_cmd process_group IA_CSS_PROCESS_GROUP_CMD_SUSPEND.
Definition ia_css_process_group_resume (process_group : Z) : mem -> Z * mem :=
  ia_css_process_group_exec_cmd process_group IA_CSS_PROCESS_GROUP_CMD_RESUME.
Definition ia_css_process_group_reset (process_group : Z) : mem -> Z * mem :=
  ia_css_process_group_exec_cmd process_group IA_CSS_PROCESS_GROUP_CMD_RESET.
Definition ia_css_process_group_abort (process_group : Z) : mem -> Z * mem :=
  ia_css_process_group_exec_cmd process_group IA_CSS_PROCESS_GROUP_CMD_ABORT.
Definition ia_css_process_group_disown (process_group : Z) : mem -> Z * mem :=
  ia_css_process_group_exec_cmd process_group IA_CSS_PROCESS_GROUP_CMD_DISOWN.

(** The two callbacks of the simulated target do nothing. *)
Definition ia_css_process_group_on_create
    (process_group program_group_manifest program_group_param : Z) : Z := 0.
Definition ia_css_process_group_on_destroy (process_group : Z) : Z := 0.

(** The memory stays the caller's: only the callback runs. *)
Definition ia_css_process_group_destroy (process_group : Z) : Z :=
  if negb (is_null process_group) then
    let _ := ia_css_process_group_on_destroy process_group in NULL
  else process_group.

(** ** Buffers and streams *)

(** [retval] is 0 from the setter on, so a jump to EXIT behind it returns 0. *)
Definition ia_css_process_group_attach_buffer
    (process_group buffer buffer_state terminal_index : Z) (m : mem) : Z * mem :=
  if is_null process_group then (-1, m)
  else
    let terminal := ia_css_process_group_get_terminal m process_group terminal_index in
    if is_null terminal then (-1, m)
    else if negb (ia_css_process_group_get_state m process_group =? IA_CSS_PROCESS_GROUP_READY)
    then (-1, m)
    else
      let protocol_version := rd m process_group pg.protocol_version in
      if negb ((protocol_version =? IA_CSS_PROCESS_GROUP_PROTOCOL_LEGACY)
               || (protocol_version =? IA_CSS_PROCESS_GROUP_PROTOCOL_PPG)) then (-1, m)
      else
        let '(retval, m) :=
          if protocol_version =? IA_CSS_PROCESS_GROUP_PROTOCOL_LEGACY
          then ia_css_terminal_set_buffer terminal buffer m
          else ia_css_terminal_set_terminal_index terminal terminal_index m in
        if negb (retval =? 0) then (retval, m)
        else if ia_css_is_terminal_data_terminal m terminal then
          let frame := ia_css_data_terminal_get_frame terminal in
          if is_null frame then (retval, m)
          else
            let '(retval, m) := ia_css_frame_set_buffer_state frame buffer_state m in
            if negb (retval =? 0) then (retval, m) else (0, m)
        else (0, m).

Definition ia_css_process_group_detach_buffer
    (process_group terminal_index : Z) (m : mem) : Z * mem :=
  if is_null process_group then (VIED_NULL, m)
  else
    let terminal := ia_css_process_group_get_terminal m process_group terminal_index in
    let state := ia_css_process_group_get_state m process_group in
    if is_null terminal then (VIED_NULL, m)
    else if negb (state =? IA_CSS_PROCESS_GROUP_READY) then (VIED_NULL, m)
    else
      let buffer := ia_css_terminal_get_buffer m terminal in
      if ia_css_is_terminal_data_terminal m terminal then
        let frame := ia_css_data_terminal_get_frame terminal in
        if is_null frame then (buffer, m)
        else
          let '(retval, m) := ia_css_frame_set_buffer_state frame IA_CSS_BUFFER_NULL m in
          if negb (retval =? 0) then (buffer, m)
          else (buffer, snd (ia_css_terminal_set_buffer terminal VIED_NULL m))
      else (buffer, snd (ia_css_terminal_set_buffer terminal VIED_NULL m)).

(** Streams are not supported: neither function does anything. *)
Definition ia_css_process_group_attach_stream
    (process_group stream buffer_state terminal_index : Z) : Z := -1.
Definition ia_css_process_group_detach_stream (process_group terminal_index : Z) : Z := 0.

(** ** Lemmas *)

Lemma scan_all body lo n :
  0 <= lo <= n ->
  (match scan body (range lo n) n with Some i => i =? n | None => false end) = true
  <-> forall i, lo <= i < n -> body i = Go.
Proof.
  intros Hlo. remember (Z.to_nat (n - lo)) as k eqn:Hk. revert lo Hlo Hk.
  induction k as [| k IH]; intros lo Hlo Hk.
  - assert (lo = n) as -> by lia. rewrite range_nil by lia. cbn. rewrite Z.eqb_refl.
    split; [lia | reflexivity].
  - rewrite range_cons by lia. cbn [scan]. specialize (IH (lo + 1) ltac:(lia) ltac:(lia)).
    destruct (body lo) eqn:E.
    + rewrite IH. split; intros H i Hi.
      * destruct (Z.eq_dec i lo) as [-> |]; [exact E | apply H; lia].
      * apply H. lia.
    + split; [intros H; apply Z.eqb_eq in H; lia | intros H; rewrite H in E by lia; discriminate].
    + split; [discriminate | intros H; rewrite H in E by lia; discriminate].
Qed.

(** What submission and start ask of one terminal, by what is observed of it. *)
Definition may_submit (v : terminal_view) : Prop :=
  if is_data_type (v_type v)
  then v_state v <> IA_CSS_BUFFER_NULL /\ v_state v <> IA_CSS_N_BUFFER_STATES
  else is_payload_type (v_type v) = true.

Definition may_start (v : terminal_view) : Prop :=
  if v_type v =? IA_CSS_TERMINAL_TYPE_DATA_IN then v_state v = IA_CSS_BUFFER_FULL
  else if v_type v =? IA_CSS_TERMINAL_TYPE_DATA_OUT then v_state v = IA_CSS_BUFFER_EMPTY
  else is_payload_type (v_type v) = true.

Section Bodies.
Variables (m : mem) (p i : Z).
Let t := ia_css_process_group_get_terminal m p i.
Hypothesis t_pos : 0 < t.

Lemma other_known :
  is_other_known_terminal m t = is_payload_type (ia_css_terminal_get_type m t).
Proof.
  unfold is_other_known_terminal, is_payload_type, ia_css_is_terminal_parameter_terminal,
    ia_css_is_terminal_program_terminal, ia_css_is_terminal_program_control_init_terminal,
    ia_css_is_terminal_spatial_parameter_terminal. cbv zeta. cbn [existsb].
  repeat (destruct (_ =? _); [reflexivity |]). reflexivity.
Qed.

Lemma submit_body_go : submit_body m p i = Go <-> may_submit (view_of m t).
Proof.
  unfold submit_body, may_submit. fold t. cbv zeta. rewrite (not_null t), frame_not_null by exact t_pos.
  rewrite other_known. unfold view_of. cbn [v_type v_state].
  change (ia_css_is_terminal_data_terminal m t) with (is_data_type (ia_css_terminal_get_type m t)).
  destruct (is_data_type _).
  - set (s := ia_css_frame_get_buffer_state m _).
    destruct (Z.eqb_spec s IA_CSS_BUFFER_NULL), (Z.eqb_spec s IA_CSS_N_BUFFER_STATES);
      cbn [orb]; split; intros H; try discriminate; try tauto.
  - destruct (is_payload_type _); cbn [negb]; split; intros H; congruence.
Qed.

Lemma start_body_go : start_body m p i = Go <-> may_start (view_of m t).
Proof.
  unfold start_body, may_start. fold t. cbv zeta. rewrite (not_null t), frame_not_null by exact t_pos.
  unfold ia_css_is_terminal_input. rewrite (not_null t) by exact t_pos. unfold view_of.
  cbn [v_type v_state].
  change (ia_css_is_terminal_data_terminal m t) with (is_data_type (ia_css_terminal_get_type m t)).
  unfold ia_css_is_terminal_parameter_terminal,
    ia_css_is_terminal_program_terminal, ia_css_is_terminal_program_control_init_terminal,
    ia_css_is_terminal_spatial_parameter_terminal, is_data_type, is_payload_type.
  set (ty := ia_css_terminal_get_type m t). set (s := ia_css_frame_get_buffer_state m _).
  cbn [existsb]. destruct (Z.eqb_spec ty IA_CSS_TERMINAL_TYPE_DATA_IN) as [-> |]; cbn [orb].
  - cbn. destruct (Z.eqb_spec s IA_CSS_BUFFER_FULL); cbn; split; intros H; congruence.
  - destruct (Z.eqb_spec ty IA_CSS_TERMINAL_TYPE_DATA_OUT) as [-> |]; cbn [orb].
    + cbn. destruct (Z.eqb_spec s IA_CSS_BUFFER_EMPTY); cbn; split; intros H; congruence.
    + repeat (destruct (_ =? _); cbn [orb]; [tauto |]). split; discriminate.
Qed.
End Bodies.

Lemma get_terminal_pos m p i :
  0 < p -> i < ia_css_process_group_get_terminal_count m p ->
  ia_css_process_group_get_terminal m p i
    = p + rd m (p + rd m p pg.terminals_offset) (elt (U16 0) i)
  /\ 0 < ia_css_process_group_get_terminal m p i.
Proof.
  intros Hp Hi. unfold ia_css_process_group_get_terminal, ia_css_process_group_get_terminal_count in *.
  rewrite not_null in * by exact Hp. rewrite (proj2 (Z.ltb_lt i _)) by exact Hi.
  split; [reflexivity |]. cbv zeta.
  pose proof (rd_range m (p + rd m p pg.terminals_offset) (elt (U16 0) i) eq_refl). lia.
Qed.

Lemma terminal_count_range m p : 0 <= ia_css_process_group_get_terminal_count m p < 256.
Proof.
  unfold ia_css_process_group_get_terminal_count. destruct (is_null p); [lia |].
  apply rd_U8_range.
Qed.

(** The views of the group's terminals. *)
Definition terminal_view_at (m : mem) (p i : Z) : terminal_view :=
  view_of m (ia_css_process_group_get_terminal m p i).

Lemma can_submit_iff m p :
  0 < p ->
  ia_css_can_process_group_submit m p = true
  <-> forall i, 0 <= i < ia_css_process_group_get_terminal_count m p ->
      may_submit (terminal_view_at m p i).
Proof.
  intros Hp. pose proof (terminal_count_range m p) as Hn.
  unfold ia_css_can_process_group_submit. rewrite (not_null p) by exact Hp.
  rewrite (scan_all _ 0) by lia.
  split; intros H i Hi;
    pose proof (submit_body_go m p i (proj2 (get_terminal_pos m p i Hp (proj2 Hi)))) as B;
    apply B, H, Hi.
Qed.

Lemma can_start_iff m p :
  0 < p ->
  ia_css_can_process_group_start m p = true
  <-> forall i, 0 <= i < ia_css_process_group_get_terminal_count m p ->
      may_start (terminal_view_at m p i).
Proof.
  intros Hp. pose proof (terminal_count_range m p) as Hn.
  unfold ia_css_can_process_group_start. rewrite (not_null p) by exact Hp. cbv zeta.
  rewrite (scan_all _ 0) by lia.
  split; intros H i Hi;
    pose proof (start_body_go m p i (proj2 (get_terminal_pos m p i Hp (proj2 Hi)))) as B;
    apply B, H, Hi.
Qed.

Lemma start_submittable m p :
  0 < p -> ia_css_can_process_group_start m p = true -> ia_css_can_process_group_submit m p = true.
Proof.
  intros Hp. rewrite can_submit_iff, can_start_iff by exact Hp. intros H i Hi. specialize (H i Hi).
  unfold may_start, may_submit, is_data_type in *.
  destruct (Z.eqb_spec (v_type (terminal_view_at m p i)) IA_CSS_TERMINAL_TYPE_DATA_IN);
    [cbn [orb]; rewrite H; split; discriminate |].
  destruct (Z.eqb_spec (v_type (terminal_view_at m p i)) IA_CSS_TERMINAL_TYPE_DATA_OUT);
    [cbn [orb]; rewrite H; split; discriminate | cbn [orb]; exact H].
Qed.

(** A group may be submitted exactly when each of its terminals is a
    data terminal whose frame has a state other than NULL (and the enumeration
    limit) or a parameter, program or spatial terminal; it may be started
    exactly when, besides, input frames are FULL and output frames EMPTY, so
    that a group that may be started may be submitted.  The conditions for a
    buffer set are those of submission under the PPG protocol.  None of them
    looks at a buffer address. *)
Theorem submit_start_conditions m p bs :
  0 < p ->
  let n := ia_css_process_group_get_terminal_count m p in
  (ia_css_can_process_group_submit m p = true
   <-> forall i, 0 <= i < n -> may_submit (terminal_view_at m p i))
  /\ (ia_css_can_process_group_start m p = true
      <-> forall i, 0 <= i < n -> may_start (terminal_view_at m p i))
  /\ (ia_css_can_enqueue_buffer_set m p bs = true
      <-> bs <> NULL
          /\ ia_css_process_group_get_protocol_version m p = IA_CSS_PROCESS_GROUP_PROTOCOL_PPG
          /\ ia_css_can_process_group_submit m p = true)
  /\ (ia_css_can_process_group_start m p = true -> ia_css_can_process_group_submit m p = true)
  /\ (forall v b x, may_submit (TView (v_type v) b x (v_state v)) <-> may_submit v).
Proof.
  intros Hp n. split; [apply can_submit_iff, Hp | split; [apply can_start_iff, Hp | split; [| split]]].
  - unfold ia_css_can_enqueue_buffer_set, ia_css_can_process_group_submit,
      ia_css_process_group_get_protocol_version. rewrite (not_null p) by exact Hp. cbv zeta. fold n.
    unfold is_null. destruct (Z.eqb_spec bs NULL); [split; [discriminate | tauto] |].
    destruct (Z.eqb_spec (rd m p pg.protocol_version) IA_CSS_PROCESS_GROUP_PROTOCOL_PPG);
      cbn [negb]; [tauto | split; [discriminate | tauto]].
  - apply start_submittable, Hp.
  - intros v b x. reflexivity.
Qed.

(** ** The process group state machine *)

Module GroupFsm.
Inductive gstate := Error | Created | Ready | Blocked | Started | Running | Stalled | Stopped.
Inductive gcmd :=
  Nop | Submit | Attach | Detach | Start | Disown | Run | Stop | Suspend | Resume | Abort | Reset.

Definition state_code (s : gstate) : Z :=
  match s with
  | Error => IA_CSS_PROCESS_GROUP_ERROR | Created => IA_CSS_PROCESS_GROUP_CREATED
  | Ready => IA_CSS_PROCESS_GROUP_READY | Blocked => IA_CSS_PROCESS_GROUP_BLOCKED
  | Started => IA_CSS_PROCESS_GROUP_STARTED | Running => IA_CSS_PROCESS_GROUP_RUNNING
  | Stalled => IA_CSS_PROCESS_GROUP_STALLED | Stopped => IA_CSS_PROCESS_GROUP_STOPPED
  end.

Definition cmd_code (c : gcmd) : Z :=
  match c with
  | Nop => IA_CSS_PROCESS_GROUP_CMD_NOP | Submit => IA_CSS_PROCESS_GROUP_CMD_SUBMIT
  | Attach => IA_CSS_PROCESS_GROUP_CMD_ATTACH | Detach => IA_CSS_PROCESS_GROUP_CMD_DETACH
  | Start => IA_CSS_PROCESS_GROUP_CMD_START | Disown => IA_CSS_PROCESS_GROUP_CMD_DISOWN
  | Run => IA_CSS_PROCESS_GROUP_CMD_RUN | Stop => IA_CSS_PROCESS_GROUP_CMD_STOP
  | Suspend => IA_CSS_PROCESS_GROUP_CMD_SUSPEND | Resume => IA_CSS_PROCESS_GROUP_CMD_RESUME
  | Abort => IA_CSS_PROCESS_GROUP_CMD_ABORT | Reset => IA_CSS_PROCESS_GROUP_CMD_RESET
  end.

(** The transitions, given whether the group may be submitted and started. *)
Inductive step (submittable startable : Prop) : gstate -> gcmd -> gstate -> Prop :=
  | step_nop s c : s <> Error -> c = Nop \/ c = Disown -> step submittable startable s c s
  | step_buffers c : c = Attach \/ c = Detach -> step submittable startable Ready c Ready
  | step_submit : submittable -> step submittable startable Ready Submit Blocked
  | step_start : startable -> step submittable startable Blocked Start Started
  | step_run c : c = Run \/ c = Resume -> step submittable startable Started c Running
  | step_stop : step submittable startable Running Stop Stopped
  | step_suspend : step submittable startable Running Suspend Started
  | step_abort s : s = Running \/ s = Started -> step submittable startable s Abort Stopped
  | step_reset s : s = Running \/ s = Started \/ s = Stopped ->
      step submittable startable s Reset Blocked.

Definition next (submittable startable : bool) (s : gstate) (c : gcmd) : option gstate :=
  match s, c with
  | Error, _ => None
  | _, (Nop | Disown) => Some s
  | Ready, (Attach | Detach) => Some Ready
  | Ready, Submit => if submittable then Some Blocked else None
  | Blocked, Start => if startable then Some Started else None
  | Started, (Run | Resume) => Some Running
  | Running, Stop => Some Stopped
  | Running, Suspend => Some Started
  | (Running | Started), Abort => Some Stopped
  | (Running | Started | Stopped), Reset => Some Blocked
  | _, _ => None
  end.

Lemma group_next_step a b s c s' : next a b s c = Some s' <-> step (a = true) (b = true) s c s'.
Proof.
  split.
  - destruct s, c; cbn; intros E; try discriminate;
      try (destruct a; [| discriminate]); try (destruct b; [| discriminate]);
      injection E as <-; constructor; auto; discriminate.
  - intros H. destruct H as [s c Hs [-> | ->] | c [-> | ->] | H | H | c [-> | ->] | | | s [-> | ->]
      | s [-> | [-> | ->]]]; try reflexivity; try (destruct s; cbn; congruence);
      cbn; rewrite H; reflexivity.
Qed.

(** Past submission: the states commands can reach from BLOCKED. *)
Definition submitted (s : gstate) : Prop :=
  s = Blocked \/ s = Started \/ s = Running \/ s = Stopped.

Lemma step_submitted a b s c s' : step a b s c s' -> submitted s -> submitted s'.
Proof.
  unfold submitted. intros H Hs. destruct H; try (destruct Hs as [? | [? | [? | ?]]]; discriminate);
    tauto.
Qed.
End GroupFsm.
Import GroupFsm.

Definition in_gstate (p : Z) (m : mem) (s : gstate) : Prop := rd m p pg.state = state_code s.

Lemma in_gstate_wr p m s : in_gstate p (wr m p pg.state (state_code s)) s.
Proof. unfold in_gstate. mem_read. destruct s; reflexivity. Qed.

Lemma exec_cmd_next p c m s :
  0 < p -> in_gstate p m s ->
  ia_css_process_group_exec_cmd p (cmd_code c) m
  = match next (ia_css_can_process_group_submit m p) (ia_css_can_process_group_start m p) s c with
    | Some s' =>
        (0, match c with Nop | Disown | Attach | Detach => m | _ => wr m p pg.state (state_code s') end)
    | None => (-1, m)
    end.
Proof.
  intros Hp Hs. unfold ia_css_process_group_exec_cmd, ia_css_process_group_get_state. mrun.
  rewrite not_null by exact Hp. cbn [negb]. rewrite Hs.
  destruct s, c; try reflexivity;
    cbn -[ia_css_can_process_group_submit ia_css_can_process_group_start wr].
  - destruct (ia_css_can_process_group_submit m p); reflexivity.
  - destruct (ia_css_can_process_group_start m p); reflexivity.
Qed.

(** What the declarations of the commands say: the states that are their
    precondition and, where one is named, the state they lead to
    (ia_css_psys_process_group.hsys.kernel.h and .psys.h). *)
Definition declared (c : gcmd) : option (list gstate * option gstate) :=
  match c with
  | Suspend => Some ([Running], None)
  | Resume | Run => Some ([Started], None)
  | Reset => Some ([Running; Stopped], Some Started)
  | Abort => Some ([Running; Started], Some Stopped)
  | Disown => Some ([Started], None)
  | Detach => Some ([Stopped], None)
  | Nop | Submit | Attach | Start | Stop => None
  end.

(** The command is accepted in the states of its declaration only, and leads
    to the declared state. *)
Definition as_declared (p : Z) (m : mem) (c : gcmd) (s : gstate) : Prop :=
  forall pre post, declared c = Some (pre, post) ->
    let (r, m') := ia_css_process_group_exec_cmd p (cmd_code c) m in
    (r = 0 <-> In s pre) /\ (r = 0 -> forall s', post = Some s' -> in_gstate p m' s').

(** Where the code departs from the declarations. *)
Definition departs (c : gcmd) (s : gstate) : bool :=
  match c, s with
  | Reset, (Running | Started | Stopped) => true
  | Disown, (Error | Started) => false
  | Disown, _ => true
  | Detach, (Ready | Stopped) => true
  | _, _ => false
  end.

(** The code keeps to the declarations of its commands but for three: RESET
    leads to BLOCKED instead of STARTED and is accepted in STARTED too, DISOWN
    is accepted in every state but ERROR, and DETACH is accepted in READY and
    not in STOPPED. *)
Theorem commands_against_declarations p c m s :
  0 < p -> in_gstate p m s -> as_declared p m c s <-> departs c s = false.
Proof.
  intros Hp Hs. unfold as_declared. rewrite (exec_cmd_next p c m s Hp Hs).
  generalize (ia_css_can_process_group_submit m p), (ia_css_can_process_group_start m p). intros a b.
  assert (W : forall s1 s2, in_gstate p (wr m p pg.state (state_code s1)) s2 -> s1 = s2).
  { intros s1 s2. unfold in_gstate. mem_read. destruct s1, s2; intros H; (reflexivity || discriminate H). }
  destruct c; cbn [declared departs]; try (split; [destruct s; reflexivity | intros _ pre post E; discriminate E]);
    (split; [intros H; specialize (H _ _ eq_refl) | intros D pre post E; injection E as <- <-]);
    destruct s; cbn -[wr] in *; try reflexivity; try discriminate D.
  all: try (destruct H as [[H1 H2] H3]).
  all: try (exfalso; solve [intuition discriminate
                     | apply (W Blocked Started) in H3; [discriminate H3 | reflexivity | reflexivity]]).
  all: split; [split; intros E; intuition discriminate | intros E s' F; try discriminate E; try discriminate F].
  all: injection F as <-; exact (in_gstate_wr p m Stopped).
Qed.

(** The buffer of a stopped group cannot be detached; that of a group that
    was never submitted can. *)
Theorem detach_needs_ready p m i :
  0 < p -> in_gstate p m Stopped -> ia_css_process_group_detach_buffer p i m = (VIED_NULL, m).
Proof.
  intros Hp Hs. unfold ia_css_process_group_detach_buffer, ia_css_process_group_get_state.
  rewrite !(not_null p) by exact Hp. cbv zeta. rewrite Hs. destruct (is_null _); reflexivity.
Qed.

(** C2: [ia_css_process_group_exec_cmd] is the process group state machine:
    a command is accepted exactly when the machine has that transition, with
    submission and start guarded by the conditions on the terminals; then only
    the state word changes and holds the target state.  A rejected or unknown
    command returns -1 and changes nothing.  The machine is that of the code
    and of its comments; the declarations of the commands describe RESET,
    DISOWN and DETACH otherwise, which [commands_against_declarations] and a
    finding for each spell out. *)
Theorem exec_cmd_refines_fsm p c m s :
  0 < p -> in_gstate p m s ->
  let machine := step (ia_css_can_process_group_submit m p = true)
                      (ia_css_can_process_group_start m p = true) in
  (forall s', machine s c s' ->
     exists m', ia_css_process_group_exec_cmd p (cmd_code c) m = (0, m')
       /\ in_gstate p m' s' /\ same_outside (p + 88) (p + 92) m m')
  /\ ((forall s', ~ machine s c s') ->
      ia_css_process_group_exec_cmd p (cmd_code c) m = (-1, m))
  /\ (forall cmd, IA_CSS_N_PROCESS_GROUP_CMDS <= cmd ->
      ia_css_process_group_exec_cmd p cmd m = (-1, m)).
Proof.
  intros Hp Hs machine. rewrite (exec_cmd_next p c m s Hp Hs).
  set (a := ia_css_can_process_group_submit m p) in *.
  set (b := ia_css_can_process_group_start m p) in *.
  split; [| split].
  - intros s' H. apply group_next_step in H. rewrite H. eexists. split; [reflexivity |]. split.
    + destruct c; try apply in_gstate_wr; destruct s; cbn in H; congruence.
    + destruct c; try apply same_outside_refl; apply wr_same_outside; mem_out.
  - intros H. destruct (next a b s c) as [s' |] eqn:E; [| reflexivity].
    exfalso. apply (H s'), group_next_step, E.
  - intros cmd Hc. unfold IA_CSS_N_PROCESS_GROUP_CMDS in Hc.
    unfold ia_css_process_group_exec_cmd, ia_css_process_group_get_state. mrun.
    rewrite not_null by exact Hp. cbn [negb]. rewrite Hs.
    unfold IA_CSS_PROCESS_GROUP_CMD_NOP, IA_CSS_PROCESS_GROUP_CMD_SUBMIT,
      IA_CSS_PROCESS_GROUP_CMD_ATTACH, IA_CSS_PROCESS_GROUP_CMD_DETACH,
      IA_CSS_PROCESS_GROUP_CMD_START, IA_CSS_PROCESS_GROUP_CMD_DISOWN,
      IA_CSS_PROCESS_GROUP_CMD_RUN, IA_CSS_PROCESS_GROUP_CMD_STOP,
      IA_CSS_PROCESS_GROUP_CMD_SUSPEND, IA_CSS_PROCESS_GROUP_CMD_RESUME,
      IA_CSS_PROCESS_GROUP_CMD_ABORT, IA_CSS_PROCESS_GROUP_CMD_RESET.
    rewrite !(proj2 (Z.eqb_neq cmd _)) by lia. destruct s; reflexivity.
Qed.

(** A running group without terminals. *)
Lemma exec_cmd_refines_fsm_witness :
  exists m', ia_css_process_group_abort 64 (wr (fun _ => 0) 64 pg.state 5) = (0, m')
    /\ in_gstate 64 m' Stopped.
Proof.
  destruct (exec_cmd_refines_fsm 64 Abort (wr (fun _ => 0) 64 pg.state 5) Running) as [H _];
    [lia | reflexivity |].
  destruct (H Stopped) as (m' & E & I & _); [constructor; auto |]. exists m'. split; [exact E | exact I].
Defined.

Lemma submit_start_conditions_witness :
  ia_css_can_process_group_start (wr (fun _ => 0) 64 pg.state 5) 64 = true.
Proof.
  destruct (submit_start_conditions (wr (fun _ => 0) 64 pg.state 5) 64 1) as (_ & H & _); [lia |].
  apply H. intros i [H1 H2]. exfalso. vm_compute in H2. destruct i; try discriminate; apply H1; reflexivity.
Defined.

(** ** Groups with their terminals in place *)

(** Bounds of a field access, the field names kept. *)
Ltac fld_lia :=
  cbn [f_off f_len elt U8 U16 U32 U64 S16 S32];
  repeat match goal with
  | |- context [f_off ?f] => is_const f; let v := eval cbv in (f_off f) in change (f_off f) with v
  | |- context [f_len ?f] => is_const f; let v := eval cbv in (f_len f) in change (f_len f) with v
  end; lia.

(** The bytes of a terminal the operations look at: a data terminal's struct,
    or the header and payload of another. *)
Definition footprint (m : mem) (t : Z) : Z :=
  if is_data_type (rd m t te.terminal_type) then sizeof_ia_css_data_terminal_t else 32.

(** The offset table follows the header, the terminals follow the table and
    do not overlap. *)
Record group_wf (m : mem) (p : Z) : Prop := {
  gw_ptr : 0 < p;
  gw_table : sizeof_ia_css_process_group_t <= rd m p pg.terminals_offset;
  gw_behind : forall i, 0 <= i < rd m p pg.terminal_count ->
    p + rd m p pg.terminals_offset + 2 * rd m p pg.terminal_count
    <= ia_css_process_group_get_terminal m p i;
  gw_apart : forall i j, 0 <= i < rd m p pg.terminal_count ->
    0 <= j < rd m p pg.terminal_count -> i <> j ->
    ia_css_process_group_get_terminal m p i
      + footprint m (ia_css_process_group_get_terminal m p i)
    <= ia_css_process_group_get_terminal m p j
    \/ ia_css_process_group_get_terminal m p j
      + footprint m (ia_css_process_group_get_terminal m p j)
    <= ia_css_process_group_get_terminal m p i
}.

Lemma footprint_bounds m t : 32 <= footprint m t <= 144.
Proof. unfold footprint. destruct (is_data_type _); unfold sizeof_ia_css_data_terminal_t; lia. Qed.

(** What is observed of a terminal lies within its footprint. *)
Lemma view_frame m m' t lo hi :
  0 < t -> same_outside lo hi m m' -> t + footprint m t <= lo \/ hi <= t ->
  view_of m' t = view_of m t /\ footprint m' t = footprint m t.
Proof.
  intros Ht S D. pose proof (footprint_bounds m t) as B.
  assert (R : forall f, 0 <= f_off f -> f_off f + Z.of_nat (f_len f) <= footprint m t ->
    rd m' t f = rd m t f) by (intros f H1 H2; apply (rd_same_outside lo hi); [exact S | lia]).
  assert (Ety : rd m' t te.terminal_type = rd m t te.terminal_type) by (apply R; fld_lia).
  split; [| unfold footprint; rewrite Ety; reflexivity].
  rewrite !view_of_run by exact Ht. cbv zeta. rewrite Ety.
  unfold footprint, sizeof_ia_css_data_terminal_t in R, B.
  destruct (slot_cases (rd m t te.terminal_type))
    as [(-> & -> & Ed) | [(-> & -> & Ed & _) | (-> & -> & Ed & _)]];
    rewrite Ed in *; rewrite ?R by (fld_lia); reflexivity.
Qed.

(** A store inside the header that leaves the table's place and count alone. *)
Lemma group_header_wr m p f v :
  group_wf m p -> 0 <= f_off f -> f_off f + Z.of_nat (f_len f) <= 100 ->
  let m' := wr m p f v in
  group_wf m' p
  /\ rd m' p pg.terminal_count = rd m p pg.terminal_count
  /\ (forall i, 0 <= i < rd m p pg.terminal_count ->
        ia_css_process_group_get_terminal m' p i = ia_css_process_group_get_terminal m p i
        /\ terminal_view_at m' p i = terminal_view_at m p i).
Proof.
  intros [Hp Ht Hb Ha] H1 H2 m'. unfold sizeof_ia_css_process_group_t in Ht.
  assert (En : rd m' p pg.terminal_count = rd m p pg.terminal_count)
    by (subst m'; apply rd_wr_base; fld_lia).
  assert (Eo : rd m' p pg.terminals_offset = rd m p pg.terminals_offset)
    by (subst m'; apply rd_wr_base; fld_lia).
  assert (S : same_outside p (p + 100) m m') by (apply wr_same_outside; lia).
  assert (G : forall i, 0 <= i -> ia_css_process_group_get_terminal m' p i
                        = ia_css_process_group_get_terminal m p i).
  { intros i Hi. unfold ia_css_process_group_get_terminal. rewrite (not_null p), En, Eo by exact Hp.
    destruct (i <? _); [| reflexivity]. cbv zeta. f_equal.
    apply (rd_same_outside p (p + 100)); [exact S | fld_lia]. }
  assert (V : forall i, 0 <= i < rd m p pg.terminal_count ->
    view_of m' (ia_css_process_group_get_terminal m p i)
      = view_of m (ia_css_process_group_get_terminal m p i)
    /\ footprint m' (ia_css_process_group_get_terminal m p i)
      = footprint m (ia_css_process_group_get_terminal m p i)).
  { intros i Hi. specialize (Hb i Hi). apply (view_frame m m' _ p (p + 100)); [lia | exact S | lia]. }
  split; [| split; [exact En |]].
  - split; [exact Hp | rewrite Eo; exact Ht | |].
    + intros i Hi. rewrite En in Hi. rewrite En, Eo, G by lia. apply Hb, Hi.
    + intros i j Hi Hj Hij. rewrite En in Hi, Hj. rewrite !G by lia.
      rewrite (proj2 (V i Hi)), (proj2 (V j Hj)). apply Ha; assumption.
  - intros i Hi. split; [apply G; lia |]. unfold terminal_view_at. rewrite G by lia. apply V, Hi.
Qed.

(** A change inside one terminal's footprint behind its header. *)
Lemma group_terminal_change m m' p i :
  group_wf m p -> 0 <= i < rd m p pg.terminal_count ->
  let t := ia_css_process_group_get_terminal m p i in
  same_outside (t + 16) (t + footprint m t) m m' ->
  group_wf m' p
  /\ (forall f, 0 <= f_off f -> f_off f + Z.of_nat (f_len f) <= 120 -> rd m' p f = rd m p f)
  /\ (forall j, 0 <= j < rd m p pg.terminal_count ->
        ia_css_process_group_get_terminal m' p j = ia_css_process_group_get_terminal m p j
        /\ (j <> i -> terminal_view_at m' p j = terminal_view_at m p j)).
Proof.
  intros [Hp Ht Hb Ha] Hi t S. unfold sizeof_ia_css_process_group_t in Ht.
  pose proof (Hb i Hi) as Hbi. fold t in Hbi. pose proof (footprint_bounds m t) as B.
  assert (R : forall f, 0 <= f_off f -> f_off f + Z.of_nat (f_len f) <= 120 -> rd m' p f = rd m p f)
    by (intros f H1 H2; apply (rd_same_outside (t + 16) (t + footprint m t)); [exact S | lia]).
  assert (En : rd m' p pg.terminal_count = rd m p pg.terminal_count) by (apply R; fld_lia).
  assert (Eo : rd m' p pg.terminals_offset = rd m p pg.terminals_offset) by (apply R; fld_lia).
  assert (G : forall j, 0 <= j -> ia_css_process_group_get_terminal m' p j
                        = ia_css_process_group_get_terminal m p j).
  { intros j Hj. unfold ia_css_process_group_get_terminal. rewrite (not_null p), En, Eo by exact Hp.
    destruct (Z.ltb_spec j (rd m p pg.terminal_count)); [| reflexivity]. cbv zeta. f_equal.
    apply (rd_same_outside (t + 16) (t + footprint m t)); [exact S | fld_lia]. }
  assert (V : forall j, 0 <= j < rd m p pg.terminal_count -> j <> i ->
    view_of m' (ia_css_process_group_get_terminal m p j)
      = view_of m (ia_css_process_group_get_terminal m p j)
    /\ footprint m' (ia_css_process_group_get_terminal m p j)
      = footprint m (ia_css_process_group_get_terminal m p j)).
  { intros j Hj Hne. pose proof (Hb j Hj). specialize (Ha i j Hi Hj ltac:(congruence)). fold t in Ha.
    apply (view_frame m m' _ (t + 16) (t + footprint m t)); [lia | exact S | lia]. }
  assert (Fi : footprint m' t = footprint m t).
  { unfold footprint at 1 2. rewrite (rd_same_outside _ _ _ _ t te.terminal_type S); [reflexivity | fld_lia]. }
  assert (F : forall j, 0 <= j < rd m p pg.terminal_count ->
    footprint m' (ia_css_process_group_get_terminal m p j)
    = footprint m (ia_css_process_group_get_terminal m p j)).
  { intros j Hj. destruct (Z.eq_dec j i) as [-> | Hne]; [exact Fi | apply V; assumption]. }
  split; [| split; [exact R |]].
  - split; [exact Hp | rewrite Eo; exact Ht | |].
    + intros j Hj. rewrite En in Hj. rewrite En, Eo, G by lia. apply Hb, Hj.
    + intros j k Hj Hk Hjk. rewrite En in Hj, Hk. rewrite !G, !F by lia. apply Ha; assumption.
  - intros j Hj. split; [apply G; lia |]. intros Hne. unfold terminal_view_at.
    rewrite G by lia. apply V; assumption.
Qed.

(** ** Attaching and detaching *)

Definition protocol_known (v : Z) : bool :=
  (v =? IA_CSS_PROCESS_GROUP_PROTOCOL_LEGACY) || (v =? IA_CSS_PROCESS_GROUP_PROTOCOL_PPG).

Definition known_type (ty : Z) : bool := is_data_type ty || is_payload_type ty.

(** What attaching a buffer in a state to terminal [i] makes of its view:
    under the legacy protocol the address is stored in the terminal, under the
    PPG protocol the terminal's index into the buffer set. *)
Definition attached_view (legacy : bool) (buffer state i : Z) (v : terminal_view) : terminal_view :=
  TView (v_type v) (if legacy then u32 buffer else v_buffer v) (if legacy then v_index v else i)
    (if is_data_type (v_type v) then u32 state else v_state v).

Definition detached_view (v : terminal_view) : terminal_view :=
  TView (v_type v) VIED_NULL (v_index v)
    (if is_data_type (v_type v) then IA_CSS_BUFFER_NULL else v_state v).

Lemma set_buffer_state_run t s m :
  0 < t -> ia_css_frame_set_buffer_state (ia_css_data_terminal_get_frame t) s m = (0, wr m t (U32 88) s).
Proof.
  intros Ht. unfold ia_css_frame_set_buffer_state. rewrite frame_not_null by exact Ht. mrun. cbn [negb].
  unfold ia_css_data_terminal_get_frame. rewrite (not_null t) by exact Ht.
  unfold fr.buffer_state. rewrite wr_frame. reflexivity.
Qed.

Lemma is_data_terminal_run m t :
  0 < t -> ia_css_is_terminal_data_terminal m t = is_data_type (rd m t te.terminal_type).
Proof.
  intros Ht. unfold ia_css_is_terminal_data_terminal, ia_css_terminal_get_type.
  rewrite not_null by exact Ht. reflexivity.
Qed.

(** The two stores of an attachment, as seen on the terminal: into the buffer
    or into the index, then into the frame's state. *)
Lemma attach_stores m t (to_buffer : bool) f w s :
  0 < t ->
  let ty := rd m t te.terminal_type in
  (if to_buffer then buffer_field ty else index_field ty) = Some f ->
  let m1 := wr m t f w in
  let m2 := if is_data_type ty then wr m1 t (U32 88) s else m1 in
  same_outside (t + 16) (t + footprint m t) m m2
  /\ rd m1 t te.terminal_type = ty
  /\ view_of m2 t
     = TView ty (if to_buffer then u32 w else v_buffer (view_of m t))
         (if to_buffer then v_index (view_of m t) else signed 32 (u32 w))
         (if is_data_type ty then u32 s else v_state (view_of m t)).
Proof.
  intros Ht ty Hf m1 m2. rewrite !view_of_run by exact Ht. cbv zeta. fold ty. cbn [v_buffer v_index v_state].
  unfold footprint. fold ty.
  destruct (slot_cases ty) as [(Eb & Ei & Ed) | [(Eb & Ei & Ed & Ep) | (Eb & Ei & Ed & Ep)]];
    rewrite Eb, Ei in Hf; [| | destruct to_buffer; discriminate];
    destruct to_buffer; injection Hf as <-; subst m2 m1; rewrite ?Ed;
    rewrite ?(rd_wr_field _ _ te.terminal_type) by reflexivity; fold ty; rewrite ?Eb, ?Ei, ?Ed;
    (split; [unfold sizeof_ia_css_data_terminal_t; frame_chain | split; [reflexivity |]]);
    mem_read; reflexivity.
Qed.

Section Attach.
Variables (m : mem) (p i : Z).
Hypothesis wf : group_wf m p.
Hypothesis i_in : 0 <= i < rd m p pg.terminal_count.
Hypothesis ready : in_gstate p m Ready.

#[local] Abbreviation t := (ia_css_process_group_get_terminal m p i).

Lemma attach_target : 0 < t.
Proof.
  destruct wf as [Hp Ht Hb _]. specialize (Hb i i_in). unfold sizeof_ia_css_process_group_t in Ht. lia.
Qed.

Lemma attach_run buffer s :
  known_type (rd m t te.terminal_type) = true ->
  protocol_known (rd m p pg.protocol_version) = true ->
  exists m', ia_css_process_group_attach_buffer p buffer s i m = (0, m')
    /\ same_outside (t + 16) (t + footprint m t) m m'
    /\ view_of m' t
       = attached_view (rd m p pg.protocol_version =? IA_CSS_PROCESS_GROUP_PROTOCOL_LEGACY)
           buffer s (signed 32 (u32 i)) (view_of m t).
Proof.
  intros Hk Hv. pose proof attach_target as Ht. pose proof (gw_ptr _ _ wf) as Hp.
  unfold ia_css_process_group_attach_buffer, ia_css_process_group_get_state.
  rewrite !(not_null p), (not_null t) by assumption. cbv zeta. rewrite ready. cbn [negb Z.eqb state_code].
  unfold protocol_known in Hv. rewrite Hv. cbn [negb].
  change (IA_CSS_PROCESS_GROUP_READY =? IA_CSS_PROCESS_GROUP_READY) with true. cbn [negb].
  set (legacy := rd m p pg.protocol_version =? IA_CSS_PROCESS_GROUP_PROTOCOL_LEGACY).
  rewrite set_buffer_run, set_terminal_index_run by exact Ht.
  set (ty := rd m t te.terminal_type) in *.
  assert (Hf : exists f, (if legacy then buffer_field ty else index_field ty) = Some f).
  { unfold known_type in Hk. unfold buffer_field, index_field.
    destruct legacy, (is_data_type ty), (is_payload_type ty); try discriminate; eauto. }
  destruct Hf as [f Hf].
  destruct (attach_stores m t legacy f (if legacy then buffer else i) s Ht Hf) as (S & T & V).
  fold ty in S, T, V.
  assert (E : (if legacy then match buffer_field ty with Some f => (0, wr m t f buffer) | None => (-1, m) end
               else match index_field ty with Some f => (0, wr m t f i) | None => (-1, m) end)
              = (0, wr m t f (if legacy then buffer else i)))
    by (destruct legacy; rewrite Hf; reflexivity).
  rewrite E. cbn [negb Z.eqb]. rewrite is_data_terminal_run, T by exact Ht.
  rewrite frame_not_null, set_buffer_state_run by exact Ht. cbn [negb Z.eqb].
  exists (if is_data_type ty then wr (wr m t f (if legacy then buffer else i)) t (U32 88) s
          else wr m t f (if legacy then buffer else i)).
  split; [destruct (is_data_type ty); reflexivity |].
  assert (Ev : v_type (view_of m t) = ty)
    by (rewrite view_of_run by exact Ht; reflexivity).
  unfold attached_view. rewrite Ev.
  split; [exact S |]. rewrite V. destruct legacy; reflexivity.
Qed.

Lemma detach_run :
  known_type (rd m t te.terminal_type) = true ->
  exists m', ia_css_process_group_detach_buffer p i m = (v_buffer (view_of m t), m')
    /\ same_outside (t + 16) (t + footprint m t) m m'
    /\ view_of m' t = detached_view (view_of m t).
Proof.
  intros Hk. pose proof attach_target as Ht. pose proof (gw_ptr _ _ wf) as Hp.
  unfold ia_css_process_group_detach_buffer, ia_css_process_group_get_state.
  rewrite !(not_null p), (not_null t) by assumption. cbv zeta. rewrite ready.
  change (state_code Ready =? IA_CSS_PROCESS_GROUP_READY) with true. cbn [negb].
  rewrite is_data_terminal_run, frame_not_null, set_buffer_state_run by exact Ht. cbn [negb Z.eqb].
  rewrite !set_buffer_run by exact Ht.
  unfold detached_view. rewrite !view_of_run by exact Ht. cbv zeta. cbn [v_buffer v_type v_index v_state].
  rewrite get_buffer_run by exact Ht. unfold footprint, known_type in *.
  set (ty := rd m t te.terminal_type) in *.
  destruct (slot_cases ty) as [(Eb & Ei & Ed) | [(Eb & Ei & Ed & Ep) | (Eb & Ei & Ed & Ep)]];
    rewrite Eb, Ei, Ed in *; [| | rewrite Ep in Hk; discriminate];
    rewrite ?(rd_wr_field _ _ te.terminal_type) by reflexivity; fold ty; rewrite ?Eb; cbn [snd];
    (eexists; split; [reflexivity | split; [unfold sizeof_ia_css_data_terminal_t; frame_chain |]]);
    rewrite view_of_run by exact Ht; cbv zeta;
    rewrite ?(rd_wr_field _ _ te.terminal_type) by reflexivity; fold ty; rewrite ?Eb, ?Ei, ?Ed;
    mem_read; reflexivity.
Qed.
End Attach.

(** What an operation on terminal [i] leaves alone: the header, the shape of
    the group and the other terminals. *)
Definition kept (p i : Z) (m m' : mem) : Prop :=
  group_wf m' p
  /\ (forall f, 0 <= f_off f -> f_off f + Z.of_nat (f_len f) <= sizeof_ia_css_process_group_t ->
        rd m' p f = rd m p f)
  /\ (forall j, 0 <= j < rd m p pg.terminal_count -> j <> i ->
        terminal_view_at m' p j = terminal_view_at m p j).

Lemma change_kept m m' p i :
  group_wf m p -> 0 <= i < rd m p pg.terminal_count ->
  same_outside (ia_css_process_group_get_terminal m p i + 16)
    (ia_css_process_group_get_terminal m p i
     + footprint m (ia_css_process_group_get_terminal m p i)) m m' ->
  kept p i m m'
  /\ terminal_view_at m' p i = view_of m' (ia_css_process_group_get_terminal m p i).
Proof.
  intros wf Hi S. destruct (group_terminal_change m m' p i wf Hi S) as (W & R & G). split.
  - split; [exact W | split; [exact R |]]. intros j Hj. apply G, Hj.
  - unfold terminal_view_at. rewrite (proj1 (G i Hi)). reflexivity.
Qed.

Lemma index_roundtrip m p i :
  0 <= i < rd m p pg.terminal_count -> signed 32 (u32 i) = i.
Proof.
  intros Hi. pose proof (rd_U8_range m p 111). change (U8 111) with pg.terminal_count in *.
  rewrite u32_small by lia. apply signed_small; lia.
Qed.

Lemma view_type m p i :
  group_wf m p -> 0 <= i < rd m p pg.terminal_count ->
  v_type (terminal_view_at m p i) = rd m (ia_css_process_group_get_terminal m p i) te.terminal_type.
Proof.
  intros wf Hi. unfold terminal_view_at. rewrite view_of_run by (apply attach_target; assumption).
  reflexivity.
Qed.

Lemma attach_step m p i buffer s :
  group_wf m p -> 0 <= i < rd m p pg.terminal_count -> in_gstate p m Ready ->
  protocol_known (rd m p pg.protocol_version) = true ->
  known_type (v_type (terminal_view_at m p i)) = true ->
  exists m', ia_css_process_group_attach_buffer p buffer s i m = (0, m') /\ kept p i m m'
    /\ terminal_view_at m' p i
       = attached_view (rd m p pg.protocol_version =? IA_CSS_PROCESS_GROUP_PROTOCOL_LEGACY)
           buffer s i (terminal_view_at m p i).
Proof.
  intros wf Hi Hr Hv Hk. rewrite view_type in Hk by assumption.
  destruct (attach_run m p i wf Hi Hr buffer s Hk Hv) as (m' & E & S & V).
  destruct (change_kept m m' p i wf Hi S) as [K Kv].
  exists m'. split; [exact E | split; [exact K |]].
  rewrite Kv, V, (index_roundtrip m p i Hi). reflexivity.
Qed.

(** In a ready group whose terminals are in place, attaching a buffer to
    a data, parameter, program or spatial terminal returns 0, stores the
    address (legacy) or the terminal's index (PPG) and, on a data terminal, the
    state; detaching returns the address that was there and leaves none.
    Neither touches the header, another terminal or the group's shape; a
    terminal of another type is refused. *)
Theorem attach_detach m p i buffer s :
  group_wf m p -> 0 <= i < rd m p pg.terminal_count -> in_gstate p m Ready ->
  protocol_known (rd m p pg.protocol_version) = true ->
  let legacy := rd m p pg.protocol_version =? IA_CSS_PROCESS_GROUP_PROTOCOL_LEGACY in
  let v := terminal_view_at m p i in
  if known_type (v_type v) then
    (exists m', ia_css_process_group_attach_buffer p buffer s i m = (0, m') /\ kept p i m m'
       /\ terminal_view_at m' p i = attached_view legacy buffer s i v)
    /\ (exists m', ia_css_process_group_detach_buffer p i m = (v_buffer v, m') /\ kept p i m m'
       /\ terminal_view_at m' p i = detached_view v)
  else ia_css_process_group_attach_buffer p buffer s i m = (-1, m).
Proof.
  intros wf Hi Hr Hv legacy v.
  pose proof (attach_target m p i wf Hi) as Ht. pose proof (gw_ptr _ _ wf) as Hp.
  destruct (known_type (v_type v)) eqn:Hk; pose proof Hk as Hk'; subst v;
    rewrite view_type in Hk' by assumption.
  - split; [apply attach_step; assumption |].
    destruct (detach_run m p i wf Hi Hr Hk') as (m' & E & S & V).
    destruct (change_kept m m' p i wf Hi S) as [K Kv].
    exists m'. split; [exact E | split; [exact K |]]. rewrite Kv, V. reflexivity.
  - unfold ia_css_process_group_attach_buffer, ia_css_process_group_get_state.
    rewrite !(not_null p), (not_null (ia_css_process_group_get_terminal m p i)) by assumption.
    cbv zeta. rewrite Hr. unfold protocol_known in Hv. rewrite Hv. cbn [negb].
    change (negb (state_code Ready =? IA_CSS_PROCESS_GROUP_READY)) with false. cbv iota.
    rewrite set_buffer_run, set_terminal_index_run by exact Ht.
    unfold known_type in Hk'. unfold buffer_field, index_field.
    apply orb_false_iff in Hk'. destruct Hk' as [-> ->].
    destruct (rd m p pg.protocol_version =? IA_CSS_PROCESS_GROUP_PROTOCOL_LEGACY); reflexivity.
Qed.

(** A ready legacy group at 1000 with an input, an output and a cached
    parameter terminal. *)
Definition sample_io_group : mem :=
  let m := wr (fun _ => 0) 1000 pg.state IA_CSS_PROCESS_GROUP_READY in
  let m := wr m 1000 pg.terminals_offset 120 in
  let m := wr m 1000 pg.terminal_count 3 in
  let m := wr m 1120 (elt (U16 0) 0) 128 in
  let m := wr m 1120 (elt (U16 0) 1) 272 in
  let m := wr m 1120 (elt (U16 0) 2) 416 in
  let m := wr m 1272 te.terminal_type IA_CSS_TERMINAL_TYPE_DATA_OUT in
  wr m 1416 te.terminal_type IA_CSS_TERMINAL_TYPE_PARAM_CACHED_IN.

Lemma below_3 (P : Z -> Prop) : P 0 -> P 1 -> P 2 -> forall i, 0 <= i < 3 -> P i.
Proof.
  intros H0 H1 H2 i Hi. assert (i = 0 \/ i = 1 \/ i = 2) as [-> | [-> | ->]] by lia; assumption.
Qed.

Lemma sample_io_group_wf : group_wf sample_io_group 1000.
Proof.
  split; [lia | vm_compute; discriminate | |];
    change (rd sample_io_group 1000 pg.terminal_count) with 3.
  - apply below_3; vm_compute; discriminate.
  - intros i j Hi Hj. revert i Hi. refine (below_3 (fun i => _) _ _ _); revert j Hj;
      refine (below_3 (fun j => _) _ _ _); intros H;
      first [congruence | left; vm_compute; discriminate | right; vm_compute; discriminate].
Qed.

Lemma attach_detach_witness :
  exists m', ia_css_process_group_attach_buffer 1000 4096 IA_CSS_BUFFER_FULL 0 sample_io_group = (0, m')
    /\ terminal_view_at m' 1000 0 = TView IA_CSS_TERMINAL_TYPE_DATA_IN 4096 0 IA_CSS_BUFFER_FULL.
Proof.
  assert (Hk : known_type (v_type (terminal_view_at sample_io_group 1000 0)) = true)
    by (vm_compute; reflexivity).
  assert (V : attached_view true 4096 IA_CSS_BUFFER_FULL 0 (terminal_view_at sample_io_group 1000 0)
    = TView IA_CSS_TERMINAL_TYPE_DATA_IN 4096 0 IA_CSS_BUFFER_FULL) by (vm_compute; reflexivity).
  assert (L : (rd sample_io_group 1000 pg.protocol_version =? IA_CSS_PROCESS_GROUP_PROTOCOL_LEGACY) = true)
    by (vm_compute; reflexivity).
  pose proof (attach_detach sample_io_group 1000 0 4096 IA_CSS_BUFFER_FULL sample_io_group_wf
    ltac:(vm_compute; split; [discriminate | reflexivity])
    ltac:(unfold in_gstate; vm_compute; reflexivity) ltac:(vm_compute; reflexivity)) as H.
  cbv zeta in H. rewrite Hk, L, V in H. destruct H as [(m' & E & _ & W) _].
  exists m'. split; [exact E | exact W].
Defined.

(** ** The life of a group *)

Definition exec_cmds (p : Z) (l : list gcmd) (m : mem) : mem :=
  foldl (fun m c => snd (ia_css_process_group_exec_cmd p (cmd_code c) m)) m l.

(** One command on a group in place: the next state, the same terminals. *)
Lemma exec_cmd_group p c m s :
  group_wf m p -> in_gstate p m s ->
  let m' := snd (ia_css_process_group_exec_cmd p (cmd_code c) m) in
  let n := rd m p pg.terminal_count in
  group_wf m' p /\ rd m' p pg.terminal_count = n
  /\ (forall i, 0 <= i < n -> terminal_view_at m' p i = terminal_view_at m p i)
  /\ in_gstate p m' (default s (next (ia_css_can_process_group_submit m p)
                                     (ia_css_can_process_group_start m p) s c)).
Proof.
  intros wf Hs m' n. pose proof (gw_ptr _ _ wf) as Hp. subst m'. rewrite (exec_cmd_next p c m s Hp Hs).
  destruct (next _ _ s c) as [s' |] eqn:E; cbn [snd default]; [| auto].
  assert (W : forall s', let m' := wr m p pg.state (state_code s') in
    group_wf m' p /\ rd m' p pg.terminal_count = n
    /\ (forall i, 0 <= i < n -> terminal_view_at m' p i = terminal_view_at m p i)
    /\ in_gstate p m' s').
  { intros s1 m'. destruct (group_header_wr m p pg.state (state_code s1) wf) as (A & B & C);
      [fld_lia | fld_lia |].
    split; [exact A | split; [exact B | split; [intros i Hi; apply C, Hi | apply in_gstate_wr]]]. }
  destruct c; try apply W; destruct s; cbn in E; try discriminate; injection E as <-; auto.
Qed.

(** Submission and start conditions only depend on the views. *)
Lemma conditions_frame m m' p :
  0 < p -> rd m' p pg.terminal_count = rd m p pg.terminal_count ->
  (forall i, 0 <= i < rd m p pg.terminal_count -> terminal_view_at m' p i = terminal_view_at m p i) ->
  ia_css_can_process_group_submit m' p = ia_css_can_process_group_submit m p
  /\ ia_css_can_process_group_start m' p = ia_css_can_process_group_start m p.
Proof.
  intros Hp En V. pose proof (can_submit_iff m p Hp) as A. pose proof (can_start_iff m p Hp) as B.
  pose proof (can_submit_iff m' p Hp) as A'. pose proof (can_start_iff m' p Hp) as B'.
  unfold ia_css_process_group_get_terminal_count in *. rewrite not_null in * by exact Hp.
  rewrite En in *.
  split; apply eq_iff_eq_true; [rewrite A, A' | rewrite B, B']; split; intros H i Hi;
    specialize (H i Hi); rewrite V in * by exact Hi; exact H.
Qed.

Lemma exec_cmds_group p l m s :
  group_wf m p -> in_gstate p m s -> submitted s ->
  let m' := exec_cmds p l m in
  group_wf m' p /\ rd m' p pg.terminal_count = rd m p pg.terminal_count
  /\ (forall i, 0 <= i < rd m p pg.terminal_count -> terminal_view_at m' p i = terminal_view_at m p i)
  /\ exists s', in_gstate p m' s' /\ submitted s'.
Proof.
  revert m s. induction l as [| c l IH]; intros m s wf Hs Hsub; cbn [exec_cmds foldl].
  - repeat split; eauto; apply wf.
  - destruct (exec_cmd_group p c m s wf Hs) as (W & En & V & Hst).
    set (m1 := snd (ia_css_process_group_exec_cmd p (cmd_code c) m)) in *.
    assert (Hsub1 : submitted (default s (next (ia_css_can_process_group_submit m p)
                                 (ia_css_can_process_group_start m p) s c))).
    { destruct (next _ _ s c) as [s' |] eqn:E; cbn [default]; [| exact Hsub].
      apply group_next_step in E. eapply step_submitted; eauto. }
    destruct (IH m1 _ W Hst Hsub1) as (W' & En' & V' & Hst').
    split; [exact W' | split; [exact (eq_trans En' En) | split; [| exact Hst']]].
    intros i Hi. rewrite En in V'. etransitivity; [exact (V' i Hi) | exact (V i Hi)].
Qed.

(** Runs commands whose transitions are given. *)
Lemma exec_cmds_step p c l m s s' :
  group_wf m p -> in_gstate p m s -> ia_css_can_process_group_start m p = true ->
  next false true s c = Some s' ->
  exists m1, exec_cmds p (c :: l) m = exec_cmds p l m1 /\ group_wf m1 p /\ in_gstate p m1 s'
    /\ ia_css_can_process_group_start m1 p = true.
Proof.
  intros wf Hs Hcs Hn. pose proof (gw_ptr _ _ wf) as Hp.
  destruct (exec_cmd_group p c m s wf Hs) as (W & En & V & Hst).
  eexists. split; [reflexivity | split; [exact W | split]].
  - rewrite Hcs in Hst.
    assert (E : next (ia_css_can_process_group_submit m p) true s c = Some s')
      by (clear -Hn; destruct (ia_css_can_process_group_submit m p); destruct s, c; cbn in Hn |- *;
          (exact Hn || discriminate Hn)).
    rewrite E in Hst. exact Hst.
  - rewrite <- Hcs. apply conditions_frame; assumption.
Qed.

(** C14: once submitted, a group stays in BLOCKED, STARTED, RUNNING or
    STOPPED whatever commands follow, and keeps its terminals exactly as they
    were submitted: no buffer can be attached or detached any more.  If its
    frames satisfied the start condition it can always be brought to RUNNING.
    This is what the code does; the declarations say that the buffers of a
    stopped group can be detached, which it refuses ([detach_needs_ready] and
    a finding). *)
Theorem group_lifecycle p l m s :
  group_wf m p -> in_gstate p m s -> submitted s ->
  let m' := exec_cmds p l m in
  (exists s', in_gstate p m' s' /\ submitted s')
  /\ (forall i, 0 <= i < rd m p pg.terminal_count -> terminal_view_at m' p i = terminal_view_at m p i)
  /\ (forall buffer st i, ia_css_process_group_attach_buffer p buffer st i m' = (-1, m')
        /\ ia_css_process_group_detach_buffer p i m' = (VIED_NULL, m'))
  /\ (ia_css_can_process_group_start m p = true ->
      exists l', in_gstate p (exec_cmds p l' m') Running).
Proof.
  intros wf Hs Hsub m'. pose proof (gw_ptr _ _ wf) as Hp.
  destruct (exec_cmds_group p l m s wf Hs Hsub) as (W & En & V & s' & Hs' & Hsub').
  fold m' in W, En, V, Hs'. split; [eauto | split; [exact V | split]].
  - intros buffer st i. unfold ia_css_process_group_attach_buffer, ia_css_process_group_detach_buffer,
      ia_css_process_group_get_state. rewrite !(not_null p) by exact Hp. cbv zeta. rewrite Hs'.
    assert (N : (state_code s' =? IA_CSS_PROCESS_GROUP_READY) = false)
      by (destruct Hsub' as [-> | [-> | [-> | ->]]]; reflexivity).
    rewrite N. cbn [negb]. destruct (is_null _); split; reflexivity.
  - intros Hcs.
    assert (Hcs' : ia_css_can_process_group_start m' p = true)
      by (rewrite <- Hcs; apply conditions_frame; assumption).
    assert (G : forall l0 m0 s0 s1, group_wf m0 p -> in_gstate p m0 s0 ->
      ia_css_can_process_group_start m0 p = true ->
      foldl (fun s c => s ≫= fun s => next false true s c) (Some s0) l0 = Some s1 ->
      in_gstate p (exec_cmds p l0 m0) s1).
    { induction l0 as [| c l0 IH]; intros m0 s0 s1 W0 H0 C0 F0; cbn [foldl] in F0.
      - injection F0 as <-. exact H0.
      - cbn [mbind option_bind] in F0. destruct (next false true s0 c) as [s2 |] eqn:E.
        + destruct (exec_cmds_step p c l0 m0 s0 s2 W0 H0 C0 E) as (m1 & -> & W1 & H1 & C1).
          apply (IH m1 s2); assumption.
        + exfalso. clear -F0. induction l0 as [| c' l0 IH]; cbn in F0; [discriminate | auto]. }
    destruct Hsub' as [-> | [-> | [-> | ->]]].
    + exists [Start; Run]. apply (G _ m' Blocked); auto.
    + exists [Run]. apply (G _ m' Started); auto.
    + exists []. exact Hs'.
    + exists [Reset; Start; Run]. apply (G _ m' Stopped); auto.
Qed.

(** ** Launching a group *)

(** The state of a frame when its group is started. *)
Definition start_state (ty : Z) : Z :=
  if ty =? IA_CSS_TERMINAL_TYPE_DATA_IN then IA_CSS_BUFFER_FULL else IA_CSS_BUFFER_EMPTY.

(** The client's sequence: a buffer for every terminal, in order. *)
Definition attach_all (p : Z) (bufs : Z -> Z) (l : list Z) (m : mem) : mem :=
  foldl (fun m i => snd (ia_css_process_group_attach_buffer p (bufs i)
           (start_state (v_type (terminal_view_at m p i))) i m)) m l.

Lemma may_start_attached legacy buffer i v :
  known_type (v_type v) = true ->
  may_start (attached_view legacy buffer (start_state (v_type v)) i v).
Proof.
  unfold known_type, may_start, attached_view, start_state, is_data_type. cbn [v_type v_state].
  destruct (v_type v =? IA_CSS_TERMINAL_TYPE_DATA_IN); [reflexivity |].
  destruct (v_type v =? IA_CSS_TERMINAL_TYPE_DATA_OUT); [reflexivity | intros H; exact H].
Qed.

Lemma attach_all_ok p bufs m n :
  group_wf m p -> in_gstate p m Ready -> n = rd m p pg.terminal_count ->
  protocol_known (rd m p pg.protocol_version) = true ->
  (forall i, 0 <= i < n -> known_type (v_type (terminal_view_at m p i)) = true) ->
  forall k, 0 <= k <= n ->
  let m' := attach_all p bufs (range 0 k) m in
  group_wf m' p /\ in_gstate p m' Ready /\ rd m' p pg.terminal_count = n
  /\ protocol_known (rd m' p pg.protocol_version) = true
  /\ (forall i, 0 <= i < n -> v_type (terminal_view_at m' p i) = v_type (terminal_view_at m p i))
  /\ (forall i, 0 <= i < k -> may_start (terminal_view_at m' p i)).
Proof.
  intros wf Hr Hn Hv Hk k [Hk0 Hkn]. revert Hkn. pattern k. apply natlike_ind; [| | exact Hk0].
  - intros _. cbn. repeat split; try tauto; try apply wf; [symmetry; exact Hn | lia].
  - clear k Hk0. intros k Hk0 IH Hkn. destruct (IH ltac:(lia)) as (W & R & N & V & T & S). clear IH.
    unfold attach_all in *. rewrite range_snoc, foldl_app by lia. cbn [foldl].
    set (m1 := foldl _ m (range 0 k)) in *.
    assert (Ty : v_type (terminal_view_at m1 p k) = v_type (terminal_view_at m p k)) by (apply T; lia).
    destruct (attach_step m1 p k (bufs k) (start_state (v_type (terminal_view_at m1 p k))) W)
      as (m2 & E & (W2 & H2 & O2) & V2);
      [lia | exact R | exact V | rewrite Ty; apply Hk; lia |].
    rewrite E. cbn [snd].
    assert (P2 : rd m2 p pg.protocol_version = rd m1 p pg.protocol_version)
      by (apply H2; unfold sizeof_ia_css_process_group_t; fld_lia).
    assert (N2 : rd m2 p pg.terminal_count = rd m1 p pg.terminal_count)
      by (apply H2; unfold sizeof_ia_css_process_group_t; fld_lia).
    split; [exact W2 | split; [| split; [congruence | split; [rewrite P2; exact V | split]]]].
    + unfold in_gstate. rewrite H2 by (unfold sizeof_ia_css_process_group_t; fld_lia). exact R.
    + intros i Hi. rewrite <- T by exact Hi. destruct (Z.eq_dec i k) as [-> | Hne].
      * rewrite V2. reflexivity.
      * rewrite O2 by (lia || exact Hne). reflexivity.
    + intros i Hi. destruct (Z.eq_dec i k) as [-> | Hne].
      * rewrite V2. apply may_start_attached. rewrite Ty. apply Hk. lia.
      * rewrite O2 by (lia || exact Hne). apply S. lia.
Qed.

(** The client's sequence works: in a ready group whose terminals are in
    place and of known types, after a buffer has been attached to every
    terminal, FULL on inputs and EMPTY on outputs, submit and start succeed and
    the group is STARTED. *)
Theorem launch p bufs m :
  group_wf m p -> in_gstate p m Ready ->
  protocol_known (rd m p pg.protocol_version) = true ->
  let n := rd m p pg.terminal_count in
  (forall i, 0 <= i < n -> known_type (v_type (terminal_view_at m p i)) = true) ->
  let m1 := attach_all p bufs (range 0 n) m in
  exists m2 m3, ia_css_process_group_submit p m1 = (0, m2)
    /\ ia_css_process_group_start p m2 = (0, m3) /\ in_gstate p m3 Started.
Proof.
  intros wf Hr Hv n Hk m1. pose proof (gw_ptr _ _ wf) as Hp.
  pose proof (rd_U8_range m p 111) as B. change (U8 111) with pg.terminal_count in B. fold n in B.
  destruct (attach_all_ok p bufs m n wf Hr eq_refl Hv Hk n) as (W & R & N & _ & _ & S); [lia |].
  fold m1 in W, R, N, S.
  assert (Cs : ia_css_can_process_group_start m1 p = true).
  { apply can_start_iff; [exact Hp |]. unfold ia_css_process_group_get_terminal_count.
    rewrite (not_null p), N by exact Hp. exact S. }
  pose proof (exec_cmd_next p Submit m1 Ready Hp R) as E1. rewrite (start_submittable m1 p Hp Cs), Cs in E1. cbn [next] in E1.
  exists (wr m1 p pg.state (state_code Blocked)).
  exists (wr (wr m1 p pg.state (state_code Blocked)) p pg.state (state_code Started)).
  split; [exact E1 | split; [| apply in_gstate_wr]].
  unfold ia_css_process_group_start.
  change IA_CSS_PROCESS_GROUP_CMD_START with (cmd_code Start).
  rewrite (exec_cmd_next p Start _ Blocked Hp (in_gstate_wr p m1 Blocked)).
  assert (C2 : ia_css_can_process_group_start (wr m1 p pg.state (state_code Blocked)) p = true).
  { rewrite <- Cs. destruct (group_header_wr m1 p pg.state (state_code Blocked) W) as (_ & En & V);
      [fld_lia | fld_lia |].
    apply conditions_frame; [exact Hp | exact En | intros i Hi; apply V, Hi]. }
  rewrite C2. reflexivity.
Qed.

Lemma launch_witness :
  exists m2 m3,
    ia_css_process_group_submit 1000 (attach_all 1000 (fun i => 4096 * (i + 1)) [0; 1; 2] sample_io_group)
    = (0, m2)
    /\ ia_css_process_group_start 1000 m2 = (0, m3) /\ in_gstate 1000 m3 Started.
Proof.
  apply (launch 1000 (fun i => 4096 * (i + 1)) sample_io_group sample_io_group_wf).
  - unfold in_gstate. vm_compute. reflexivity.
  - vm_compute. reflexivity.
  - change (rd sample_io_group 1000 pg.terminal_count) with 3.
    refine (below_3 (fun i => _) _ _ _); vm_compute; reflexivity.
Defined.

Lemma group_lifecycle_witness :
  exists s', in_gstate 1000 (exec_cmds 1000 [Nop; Reset; Start; Attach]
               (wr sample_io_group 1000 pg.state (state_code Blocked))) s' /\ submitted s'.
Proof.
  apply (group_lifecycle 1000 [Nop; Reset; Start; Attach]
           (wr sample_io_group 1000 pg.state (state_code Blocked)) Blocked).
  - apply (group_header_wr sample_io_group 1000 pg.state (state_code Blocked) sample_io_group_wf); fld_lia.
  - apply in_gstate_wr.
  - left. reflexivity.
Defined.
