(* ===== verification/TerminalManifest.v ===== *)
(** * Terminal manifests

    include/ia_css_psys_terminal_manifest_impl.h,
    include/ia_css_terminal_manifest_impl.h and
    src/ia_css_psys_terminal_manifest.c: the static description of a terminal
    in a program group manifest.  A common header with a bit-field of
    attributes is followed by the data, parameter, spatial, sliced, program or
    program-control-init part, and that by an array of section descriptors. *)

From S2P Require Import Prelude Memory KernelBitmap ProgramGroupParam Terminal.
#[local] Open Scope css_scope.

(** ** Constants (include/ia_css_terminal_defs.h) *)

Definition IA_CSS_TERMINAL_INVALID_ID : Z := 255.
Definition IA_CSS_TERMINAL_CAT_LOAD : Z := 0.
Definition IA_CSS_TERMINAL_CAT_CONNECT : Z := 1.
Definition IA_CSS_TERMINAL_CAT_INVALID : Z := 2.
Definition IA_CSS_TERMINAL_DIR_IN : Z := 0.
Definition IA_CSS_TERMINAL_DIR_OUT : Z := 1.
Definition IA_CSS_TERMINAL_DIR_INVALID : Z := 2.
Definition IA_CSS_TERMINAL_ROU_STREAM : Z := 0.
Definition IA_CSS_TERMINAL_ROU_FRAME : Z := 1.
Definition IA_CSS_TERMINAL_ROU_FRAG : Z := 2.
Definition IA_CSS_TERMINAL_ROU_INVALID : Z := 3.
Definition IA_CSS_CONNECT_BUF_TYPE_DATA : Z := 0.
Definition IA_CSS_CONNECT_BUF_TYPE_META : Z := 1.
Definition IA_CSS_CONNECT_BUF_TYPE_UNKNOWN : Z := 2.
Definition IA_CSS_CONNECT_BUF_TYPE_INVALID : Z := 3.
Definition EFAULT : Z := 14.

(** ** Layouts *)

(** [struct ia_css_terminal_manifest_s]. *)
Module tm.
Definition terminal_type := U32 0.
Definition max_payload_size := U32 4.
Definition parent_offset := S16 8.
Definition size := U16 10.
Definition attributes := U16 12.
Definition ID := U8 14.
Definition assoc_ID := U8 15.
Definition layout : list (field * Z) :=
  [(terminal_type, 1); (max_payload_size, 1); (parent_offset, 1); (size, 1); (attributes, 1);
   (ID, 1); (assoc_ID, 1)].
End tm.
Definition sizeof_ia_css_terminal_manifest_t : Z := 16.

(** [struct ia_css_data_terminal_manifest_s]. *)
Module dtm.
Definition base := U8 0.
Definition frame_format_bitmap := U64 16.
Definition kernel_bitmap := U32 24.
Definition min_size := U16 40.
Definition max_size := U16 44.
Definition min_fragment_size := U16 48.
Definition max_fragment_size := U16 52.
Definition terminal_dependency := U16 56.
Definition connection_bitmap := U8 58.
Definition compression_support := U8 59.
Definition reserved := U8 60.
Definition layout : list (field * Z) :=
  [(base, sizeof_ia_css_terminal_manifest_t); (frame_format_bitmap, 1); (kernel_bitmap, 4);
   (min_size, 2); (max_size, 2); (min_fragment_size, 2); (max_fragment_size, 2);
   (terminal_dependency, 1); (connection_bitmap, 1); (compression_support, 1); (reserved, 4)].
End dtm.
Definition sizeof_ia_css_data_terminal_manifest_t : Z := 64.

(** [struct ia_css_param_terminal_manifest_s]. *)
Module ptm.
Definition base := U8 0.
Definition param_manifest_section_desc_count := U16 16.
Definition param_manifest_section_desc_offset := U16 18.
Definition padding := U8 20.
Definition layout : list (field * Z) :=
  [(base, sizeof_ia_css_terminal_manifest_t); (param_manifest_section_desc_count, 1);
   (param_manifest_section_desc_offset, 1); (padding, 4)].
End ptm.
Definition sizeof_ia_css_param_terminal_manifest_t : Z := 24.
Definition sizeof_ia_css_param_manifest_section_desc_t : Z := 4.

(** [struct ia_css_spatial_param_terminal_manifest_s]. *)
Module sptm.
Definition base := U8 0.
Definition frame_grid_desc := U16 16.
Definition common_fragment_grid_desc := U16 24.
Definition frame_grid_param_manifest_section_desc_count := U16 32.
Definition frame_grid_param_manifest_section_desc_offset := U16 34.
Definition kernel_id := U8 36.
Definition compute_units_p_elem := U8 37.
Definition padding := U8 38.
Definition layout : list (field * Z) :=
  [(base, sizeof_ia_css_terminal_manifest_t); (frame_grid_desc, 4);
   (common_fragment_grid_desc, 4); (frame_grid_param_manifest_section_desc_count, 1);
   (frame_grid_param_manifest_section_desc_offset, 1); (kernel_id, 1);
   (compute_units_p_elem, 1); (padding, 2)].
End sptm.
Definition sizeof_ia_css_spatial_param_terminal_manifest_t : Z := 40.
Definition sizeof_ia_css_frame_grid_param_manifest_section_desc_t : Z := 8.

(** [struct ia_css_sliced_param_terminal_manifest_s]. *)
Module sltm.
Definition base := U8 0.
Definition sliced_param_section_count := U16 16.
Definition sliced_param_section_offset := U16 18.
Definition kernel_id := U8 20.
Definition padding := U8 21.
Definition layout : list (field * Z) :=
  [(base, sizeof_ia_css_terminal_manifest_t); (sliced_param_section_count, 1);
   (sliced_param_section_offset, 1); (kernel_id, 1); (padding, 3)].
End sltm.
Definition sizeof_ia_css_sliced_param_terminal_manifest_t : Z := 24.
Definition sizeof_ia_css_sliced_param_manifest_section_desc_t : Z := 8.

(** [struct ia_css_program_terminal_manifest_s]. *)
Module prtm.
Definition base := U8 0.
Definition sequencer_info_kernel_id := U32 16.
Definition max_kernel_fragment_sequencer_command_desc := U16 20.
Definition fragment_param_manifest_section_desc_count := U16 22.
Definition fragment_param_manifest_section_desc_offset := U16 24.
Definition kernel_fragment_sequencer_info_manifest_info_count := U16 26.
Definition kernel_fragment_sequencer_info_manifest_info_offset := U16 28.
Definition padding := U8 30.
Definition layout : list (field * Z) :=
  [(base, sizeof_ia_css_terminal_manifest_t); (sequencer_info_kernel_id, 1);
   (max_kernel_fragment_sequencer_command_desc, 1);
   (fragment_param_manifest_section_desc_count, 1);
   (fragment_param_manifest_section_desc_offset, 1);
   (kernel_fragment_sequencer_info_manifest_info_count, 1);
   (kernel_fragment_sequencer_info_manifest_info_offset, 1); (padding, 2)].
End prtm.
Definition sizeof_ia_css_program_terminal_manifest_t : Z := 32.
Definition sizeof_ia_css_fragment_param_manifest_section_desc_t : Z := 4.
Definition sizeof_ia_css_kernel_fragment_sequencer_info_manifest_desc_t : Z := 40.

(** [struct ia_css_program_control_init_terminal_manifest_s] and its
    [_program_desc_s]. *)
Module pcitm.
Definition base := U8 0.
Definition program_count := U32 16.
Definition program_desc_offset := U16 20.
Definition padding := U8 22.
Definition layout : list (field * Z) :=
  [(base, sizeof_ia_css_terminal_manifest_t); (program_count, 1); (program_desc_offset, 1);
   (padding, 2)].
Definition load_section_count := U16 0.
Definition connect_section_count := U16 2.
Definition desc_padding := U8 4.
Definition desc_layout : list (field * Z) :=
  [(load_section_count, 1); (connect_section_count, 1); (desc_padding, 4)].
End pcitm.
Definition sizeof_ia_css_program_control_init_terminal_manifest_t : Z := 24.
Definition sizeof_ia_css_program_control_init_manifest_program_desc_t : Z := 8.

#[export] Hint Unfold tm.terminal_type tm.max_payload_size tm.parent_offset tm.size tm.attributes
  tm.ID tm.assoc_ID sizeof_ia_css_terminal_manifest_t dtm.frame_format_bitmap dtm.kernel_bitmap
  dtm.min_size dtm.max_size dtm.min_fragment_size dtm.max_fragment_size dtm.terminal_dependency
  dtm.connection_bitmap dtm.compression_support sizeof_ia_css_data_terminal_manifest_t
  ptm.param_manifest_section_desc_count ptm.param_manifest_section_desc_offset
  sizeof_ia_css_param_terminal_manifest_t sizeof_ia_css_param_manifest_section_desc_t
  sptm.frame_grid_param_manifest_section_desc_count
  sptm.frame_grid_param_manifest_section_desc_offset sptm.kernel_id
  sptm.compute_units_p_elem sizeof_ia_css_spatial_param_terminal_manifest_t
  sizeof_ia_css_frame_grid_param_manifest_section_desc_t sltm.sliced_param_section_count
  sltm.sliced_param_section_offset sltm.kernel_id
  sizeof_ia_css_sliced_param_terminal_manifest_t
  sizeof_ia_css_sliced_param_manifest_section_desc_t prtm.sequencer_info_kernel_id
  prtm.fragment_param_manifest_section_desc_count
  prtm.fragment_param_manifest_section_desc_offset
  prtm.kernel_fragment_sequencer_info_manifest_info_count
  prtm.kernel_fragment_sequencer_info_manifest_info_offset
  sizeof_ia_css_program_terminal_manifest_t
  sizeof_ia_css_fragment_param_manifest_section_desc_t
  sizeof_ia_css_kernel_fragment_sequencer_info_manifest_desc_t pcitm.program_count
  pcitm.program_desc_offset pcitm.load_section_count pcitm.connect_section_count
  sizeof_ia_css_program_control_init_terminal_manifest_t
  sizeof_ia_css_program_control_init_manifest_program_desc_t : layout.

Lemma terminal_manifest_layouts :
  tiles tm.layout sizeof_ia_css_terminal_manifest_t = true
  /\ tiles dtm.layout sizeof_ia_css_data_terminal_manifest_t = true
  /\ tiles ptm.layout sizeof_ia_css_param_terminal_manifest_t = true
  /\ tiles sptm.layout sizeof_ia_css_spatial_param_terminal_manifest_t = true
  /\ tiles sltm.layout sizeof_ia_css_sliced_param_terminal_manifest_t = true
  /\ tiles prtm.layout sizeof_ia_css_program_terminal_manifest_t = true
  /\ tiles pcitm.layout sizeof_ia_css_program_control_init_terminal_manifest_t = true
  /\ tiles pcitm.desc_layout sizeof_ia_css_program_control_init_manifest_program_desc_t = true.
Proof. repeat split. Qed.

(** ** Bit-fields

    The bit-field members of a struct share one integer, allocated from its
    low bits: [n] bits from bit [lo]. *)
Record bitfield := Bf { b_field : field; b_lo : Z; b_width : Z }.

Definition rd_bf (m : mem) (p : Z) (b : bitfield) : Z :=
  Z.land (Z.shiftr (rd m p (b_field b)) (b_lo b)) (Z.ones (b_width b)).

Definition wr_bf (m : mem) (p : Z) (b : bitfield) (v : Z) : mem :=
  let x := rd m p (b_field b) in
  let mask := Z.shiftl (Z.ones (b_width b)) (b_lo b) in
  wr m p (b_field b)
     (Z.lor (Z.ldiff x mask) (Z.shiftl (Z.land v (Z.ones (b_width b))) (b_lo b))).

(** [ia_css_terminal_manifest_attributes_t]. *)
Module attr.
Definition category := Bf tm.attributes 0 1.
Definition direction := Bf tm.attributes 1 1.
Definition rou := Bf tm.attributes 2 2.
Definition connect_buf_type := Bf tm.attributes 4 2.
End attr.

(** ** Getters *)

Section Getters.
Context (m : mem).

Definition ia_css_terminal_manifest_get_size (manifest : Z) : Z :=
  if is_null manifest then 0 else rd m manifest tm.size.

Definition ia_css_terminal_manifest_get_type (manifest : Z) : Z :=
  if is_null manifest then IA_CSS_N_TERMINAL_TYPES else rd m manifest tm.terminal_type.

Definition ia_css_is_terminal_manifest_spatial_parameter_terminal (manifest : Z) : bool :=
  let terminal_type := ia_css_terminal_manifest_get_type manifest in
  (terminal_type =? IA_CSS_TERMINAL_TYPE_PARAM_SPATIAL_IN)
  || (terminal_type =? IA_CSS_TERMINAL_TYPE_PARAM_SPATIAL_OUT).

Definition ia_css_is_terminal_manifest_program_terminal (manifest : Z) : bool :=
  let terminal_type := ia_css_terminal_manifest_get_type manifest in
  terminal_type =? IA_CSS_TERMINAL_TYPE_PROGRAM.

Definition ia_css_is_terminal_manifest_program_control_init_terminal (manifest : Z) : bool :=
  let terminal_type := ia_css_terminal_manifest_get_type manifest in
  terminal_type =? IA_CSS_TERMINAL_TYPE_PROGRAM_CONTROL_INIT.

Definition ia_css_is_terminal_manifest_parameter_terminal (manifest : Z) : bool :=
  let terminal_type := ia_css_terminal_manifest_get_type manifest in
  (terminal_type =? IA_CSS_TERMINAL_TYPE_PARAM_CACHED_IN)
  || (terminal_type =? IA_CSS_TERMINAL_TYPE_PARAM_CACHED_OUT).

Definition ia_css_is_terminal_manifest_data_terminal (manifest : Z) : bool :=
  let terminal_type := ia_css_terminal_manifest_get_type manifest in
  (terminal_type =? IA_CSS_TERMINAL_TYPE_DATA_IN)
  || (terminal_type =? IA_CSS_TERMINAL_TYPE_DATA_OUT).

Definition ia_css_is_terminal_manifest_sliced_terminal (manifest : Z) : bool :=
  let terminal_type := ia_css_terminal_manifest_get_type manifest in
  (terminal_type =? IA_CSS_TERMINAL_TYPE_PARAM_SLICED_IN)
  || (terminal_type =? IA_CSS_TERMINAL_TYPE_PARAM_SLICED_OUT).

Definition ia_css_terminal_manifest_get_ID (manifest : Z) : Z :=
  if is_null manifest then IA_CSS_TERMINAL_INVALID_ID else rd m manifest tm.ID.

Definition ia_css_terminal_manifest_get_connect_ID (manifest : Z) : Z :=
  if is_null manifest then IA_CSS_TERMINAL_INVALID_ID else rd m manifest tm.assoc_ID.

Definition ia_css_terminal_manifest_get_category (manifest : Z) : Z :=
  if is_null manifest then IA_CSS_TERMINAL_CAT_INVALID else rd_bf m manifest attr.category.

Definition ia_css_terminal_manifest_get_direction (manifest : Z) : Z :=
  if is_null manifest then IA_CSS_TERMINAL_DIR_INVALID else rd_bf m manifest attr.direction.

Definition ia_css_terminal_manifest_get_rate_of_update (manifest : Z) : Z :=
  if is_null manifest then IA_CSS_TERMINAL_ROU_INVALID else rd_bf m manifest attr.rou.

Definition ia_css_terminal_manifest_get_connect_buffer_type (manifest : Z) : Z :=
  if is_null manifest then IA_CSS_CONNECT_BUF_TYPE_INVALID
  else rd_bf m manifest attr.connect_buf_type.

(** The [uint32_t] goes through a local of type [ia_css_terminal_ID_t], a
    [uint8_t]. *)
Definition ia_css_terminal_manifest_get_max_payload_size (manifest : Z) : Z :=
  if is_null manifest then IA_CSS_TERMINAL_INVALID_ID
  else u8 (rd m manifest tm.max_payload_size).

Definition ia_css_terminal_manifest_get_parent (manifest : Z) : Z :=
  if is_null manifest then NULL
  else let base := manifest + rd m manifest tm.parent_offset in base.

Definition ia_css_data_terminal_manifest_get_frame_format_bitmap (manifest : Z) : Z :=
  if is_null manifest then 0 else rd m manifest dtm.frame_format_bitmap.

Definition ia_css_data_terminal_manifest_can_support_compression (manifest : Z) : bool :=
  if is_null manifest then false
  else negb (rd m manifest dtm.compression_support =? 0).

Definition ia_css_data_terminal_manifest_get_connection_bitmap (manifest : Z) : Z :=
  if is_null manifest then 0 else rd m manifest dtm.connection_bitmap.

Definition ia_css_data_terminal_manifest_get_kernel_bitmap (manifest : Z) : ia_css_kernel_bitmap_t :=
  if is_null manifest then ia_css_kernel_bitmap_clear else rd_kb m manifest dtm.kernel_bitmap.

(** The two-element arrays come back as a pair (column, row). *)
Definition ia_css_data_terminal_manifest_get_min_size (manifest : Z) : option (Z * Z) :=
  if is_null manifest then None
  else Some (rd m manifest (elt dtm.min_size IA_CSS_COL_DIMENSION),
             rd m manifest (elt dtm.min_size IA_CSS_ROW_DIMENSION)).

Definition ia_css_data_terminal_manifest_get_max_size (manifest : Z) : option (Z * Z) :=
  if is_null manifest then None
  else Some (rd m manifest (elt dtm.max_size IA_CSS_COL_DIMENSION),
             rd m manifest (elt dtm.max_size IA_CSS_ROW_DIMENSION)).

Definition ia_css_data_terminal_manifest_get_min_fragment_size (manifest : Z) : option (Z * Z) :=
  if is_null manifest then None
  else Some (rd m manifest (elt dtm.min_fragment_size IA_CSS_COL_DIMENSION),
             rd m manifest (elt dtm.min_fragment_size IA_CSS_ROW_DIMENSION)).

Definition ia_css_data_terminal_manifest_get_max_fragment_size (manifest : Z) : option (Z * Z) :=
  if is_null manifest then None
  else Some (rd m manifest (elt dtm.max_fragment_size IA_CSS_COL_DIMENSION),
             rd m manifest (elt dtm.max_fragment_size IA_CSS_ROW_DIMENSION)).
End Getters.

(** ** Setters of the header *)

Definition ia_css_terminal_manifest_set_category (manifest category : Z) (m : mem) : Z * mem :=
  if negb (is_null manifest) then (0, wr_bf m manifest attr.category category) else (-1, m).

Definition ia_css_terminal_manifest_set_direction (manifest direction : Z) (m : mem) : Z * mem :=
  if negb (is_null manifest) then (0, wr_bf m manifest attr.direction direction) else (-1, m).

Definition ia_css_terminal_manifest_set_rate_of_update
    (manifest rate_of_update : Z) (m : mem) : Z * mem :=
  if negb (is_null manifest) then (0, wr_bf m manifest attr.rou rate_of_update) else (-1, m).

Definition ia_css_terminal_manifest_set_connect_buffer_type
    (manifest connect_buf_type : Z) (m : mem) : Z * mem :=
  if negb (is_null manifest) then (0, wr_bf m manifest attr.connect_buf_type connect_buf_type)
  else (-1, m).

Definition ia_css_terminal_manifest_set_connect_ID (manifest ID : Z) (m : mem) : Z * mem :=
  if negb (is_null manifest)
     && ((IA_CSS_TERMINAL_CAT_LOAD =? ia_css_terminal_manifest_get_category m manifest)
         || (IA_CSS_TERMINAL_INVALID_ID =? ID))
  then (0, wr m manifest tm.assoc_ID ID)
  else (-1, m).

Definition ia_css_terminal_manifest_set_max_payload_size
    (manifest max_payload_size : Z) (m : mem) : Z * mem :=
  if negb (is_null manifest) then (0, wr m manifest tm.max_payload_size max_payload_size)
  else (-1, m).

Definition category_of_type (terminal_type : Z) : Z :=
  if (terminal_type =? IA_CSS_TERMINAL_TYPE_DATA_IN)
     || (terminal_type =? IA_CSS_TERMINAL_TYPE_DATA_OUT)
     || (terminal_type =? IA_CSS_TERMINAL_TYPE_PARAM_SPATIAL_IN)
     || (terminal_type =? IA_CSS_TERMINAL_TYPE_PARAM_SPATIAL_OUT)
  then IA_CSS_TERMINAL_CAT_CONNECT else IA_CSS_TERMINAL_CAT_LOAD.

Definition direction_of_type (terminal_type : Z) : Z :=
  if (terminal_type =? IA_CSS_TERMINAL_TYPE_DATA_OUT)
     || (terminal_type =? IA_CSS_TERMINAL_TYPE_PARAM_CACHED_OUT)
     || (terminal_type =? IA_CSS_TERMINAL_TYPE_PARAM_SPATIAL_OUT)
     || (terminal_type =? IA_CSS_TERMINAL_TYPE_PARAM_SLICED_OUT)
     || (terminal_type =? IA_CSS_TERMINAL_TYPE_STATE_OUT)
  then IA_CSS_TERMINAL_DIR_OUT else IA_CSS_TERMINAL_DIR_IN.

Definition rou_of_type (terminal_type : Z) : Z :=
  if (terminal_type =? IA_CSS_TERMINAL_TYPE_DATA_IN)
     || (terminal_type =? IA_CSS_TERMINAL_TYPE_DATA_OUT)
  then IA_CSS_TERMINAL_ROU_FRAG
  else if terminal_type =? IA_CSS_TERMINAL_TYPE_PROGRAM_CONTROL_INIT
  then IA_CSS_TERMINAL_ROU_STREAM
  else IA_CSS_TERMINAL_ROU_FRAME.

Definition connect_buf_type_of_type (terminal_type : Z) : Z :=
  if (terminal_type =? IA_CSS_TERMINAL_TYPE_DATA_IN)
     || (terminal_type =? IA_CSS_TERMINAL_TYPE_DATA_OUT)
  then IA_CSS_CONNECT_BUF_TYPE_DATA
  else if (terminal_type =? IA_CSS_TERMINAL_TYPE_PARAM_SPATIAL_IN)
          || (terminal_type =? IA_CSS_TERMINAL_TYPE_PARAM_SPATIAL_OUT)
  then IA_CSS_CONNECT_BUF_TYPE_META
  else IA_CSS_CONNECT_BUF_TYPE_UNKNOWN.

Definition ia_css_terminal_manifest_set_attributes_by_type
    (manifest terminal_type : Z) (m : mem) : mem :=
  let '(_, m) := ia_css_terminal_manifest_set_category manifest (category_of_type terminal_type) m in
  let '(_, m) := ia_css_terminal_manifest_set_direction manifest (direction_of_type terminal_type) m in
  let '(_, m) := ia_css_terminal_manifest_set_rate_of_update manifest (rou_of_type terminal_type) m in
  let '(_, m) := ia_css_terminal_manifest_set_connect_buffer_type manifest
                   (connect_buf_type_of_type terminal_type) m in
  m.

(** The calls that store the connect ID and the maximal payload size are the
    arguments of [assert]s: under NDEBUG they are not made. *)
Definition ia_css_terminal_manifest_set_new_fields
    (manifest terminal_type : Z) (m : mem) : mem :=
  ia_css_terminal_manifest_set_attributes_by_type manifest terminal_type m.

Definition ia_css_terminal_manifest_set_type (manifest terminal_type : Z) (m : mem) : Z * mem :=
  if negb (is_null manifest) then
    let m := wr m manifest tm.terminal_type terminal_type in
    (0, ia_css_terminal_manifest_set_new_fields manifest terminal_type m)
  else (-1, m).

Definition ia_css_terminal_manifest_set_ID (manifest ID : Z) (m : mem) : Z * mem :=
  if negb (is_null manifest) then (0, wr m manifest tm.ID ID) else (-1, m).

Definition ia_css_terminal_manifest_set_parent_offset (manifest terminal_offset : Z) : mem -> Z * mem :=
  with_retval (-1)
    (verifexit (negb (is_null manifest)) ;;;
     wrM manifest tm.parent_offset (- terminal_offset) ;;;
     ret 0).

(** ** Setters of a data terminal manifest *)

Definition ia_css_data_terminal_manifest_set_frame_format_bitmap
    (manifest bitmap : Z) (m : mem) : Z * mem :=
  if negb (is_null manifest) then (0, wr m manifest dtm.frame_format_bitmap bitmap) else (-1, m).

Definition ia_css_data_terminal_manifest_set_compression_support
    (manifest : Z) (compression_support : bool) (m : mem) : Z * mem :=
  if negb (is_null manifest)
  then (0, wr m manifest dtm.compression_support (if compression_support then 1 else 0))
  else (-1, m).

Definition ia_css_data_terminal_manifest_set_connection_bitmap
    (manifest bitmap : Z) (m : mem) : Z * mem :=
  if negb (is_null manifest) then (0, wr m manifest dtm.connection_bitmap bitmap) else (-1, m).

Definition ia_css_data_terminal_manifest_set_kernel_bitmap
    (manifest : Z) (kernel_bitmap : ia_css_kernel_bitmap_t) (m : mem) : Z * mem :=
  if negb (is_null manifest) then (0, wr_kb m manifest dtm.kernel_bitmap kernel_bitmap)
  else (-1, m).

Definition ia_css_data_terminal_manifest_set_kernel_bitmap_unique
    (manifest index : Z) : mem -> Z * mem :=
  with_retval (-1)
    (verifexit (negb (is_null manifest)) ;;;
     let kernel_bitmap := ia_css_kernel_bitmap_set ia_css_kernel_bitmap_clear index in
     verifexit (negb (ia_css_is_kernel_bitmap_empty kernel_bitmap)) ;;;
     r <- call (ia_css_data_terminal_manifest_set_kernel_bitmap manifest kernel_bitmap) ;;
     verifexit (r =? 0) ;;;
     ret 0).

Definition ia_css_data_terminal_manifest_set_min_size
    (manifest : Z) (min_size : Z * Z) : mem -> Z * mem :=
  with_retval (-1)
    (verifexit (negb (is_null manifest)) ;;;
     wrM manifest (elt dtm.min_size IA_CSS_COL_DIMENSION) (fst min_size) ;;;
     wrM manifest (elt dtm.min_size IA_CSS_ROW_DIMENSION) (snd min_size) ;;;
     ret 0).

Definition ia_css_data_terminal_manifest_set_max_size
    (manifest : Z) (max_size : Z * Z) : mem -> Z * mem :=
  with_retval (-1)
    (verifexit (negb (is_null manifest)) ;;;
     wrM manifest (elt dtm.max_size IA_CSS_COL_DIMENSION) (fst max_size) ;;;
     wrM manifest (elt dtm.max_size IA_CSS_ROW_DIMENSION) (snd max_size) ;;;
     ret 0).

Definition ia_css_data_terminal_manifest_set_min_fragment_size
    (manifest : Z) (min_size : Z * Z) : mem -> Z * mem :=
  with_retval (-1)
    (verifexit (negb (is_null manifest)) ;;;
     wrM manifest (elt dtm.min_fragment_size IA_CSS_COL_DIMENSION) (fst min_size) ;;;
     wrM manifest (elt dtm.min_fragment_size IA_CSS_ROW_DIMENSION) (snd min_size) ;;;
     ret 0).

Definition ia_css_data_terminal_manifest_set_max_fragment_size
    (manifest : Z) (max_size : Z * Z) : mem -> Z * mem :=
  with_retval (-1)
    (verifexit (negb (is_null manifest)) ;;;
     wrM manifest (elt dtm.max_fragment_size IA_CSS_COL_DIMENSION) (fst max_size) ;;;
     wrM manifest (elt dtm.max_fragment_size IA_CSS_ROW_DIMENSION) (snd max_size) ;;;
     ret 0).

(** ** Section descriptors (include/ia_css_terminal_manifest_impl.h) *)

Definition MANIFEST_SECTION_DESC_KERNEL_ID_MASK : Z := 255.
Definition MANIFEST_SECTION_DESC_KERNEL_ID_OFFSET : Z := 0.
Definition MANIFEST_SECTION_DESC_REGION_ID_MASK : Z := 15.
Definition MANIFEST_SECTION_DESC_REGION_ID_OFFSET : Z := 8.
Definition MANIFEST_SECTION_DESC_MEM_TYPE_ID_MASK : Z := 15.
Definition MANIFEST_SECTION_DESC_MEM_TYPE_ID_OFFSET : Z := 12.

(** [struct ia_css_param_manifest_section_desc_s] and
    [struct ia_css_fragment_param_manifest_section_desc_s] have the same two
    members. *)
Module psd.
Definition max_mem_size := U16 0.
Definition info := U16 2.
Definition layout : list (field * Z) := [(max_mem_size, 1); (info, 1)].
End psd.
#[export] Hint Unfold psd.max_mem_size psd.info : layout.

Section Section_descs.
Context (m : mem).

Definition ia_css_param_manifest_section_desc_get_kernel_id (section : Z) : Z :=
  Z.land (Z.shiftr (rd m section psd.info) MANIFEST_SECTION_DESC_KERNEL_ID_OFFSET)
         MANIFEST_SECTION_DESC_KERNEL_ID_MASK.

Definition ia_css_param_manifest_section_desc_get_region_id (section : Z) : Z :=
  Z.land (Z.shiftr (rd m section psd.info) MANIFEST_SECTION_DESC_REGION_ID_OFFSET)
         MANIFEST_SECTION_DESC_REGION_ID_MASK.

Definition ia_css_param_manifest_section_desc_get_mem_type_id (section : Z) : Z :=
  Z.land (Z.shiftr (rd m section psd.info) MANIFEST_SECTION_DESC_MEM_TYPE_ID_OFFSET)
         MANIFEST_SECTION_DESC_MEM_TYPE_ID_MASK.

Definition ia_css_fragment_param_manifest_section_desc_get_kernel_id (section : Z) : Z :=
  Z.land (Z.shiftr (rd m section psd.info) MANIFEST_SECTION_DESC_KERNEL_ID_OFFSET)
         MANIFEST_SECTION_DESC_KERNEL_ID_MASK.

Definition ia_css_fragment_param_manifest_section_desc_get_region_id (section : Z) : Z :=
  Z.land (Z.shiftr (rd m section psd.info) MANIFEST_SECTION_DESC_REGION_ID_OFFSET)
         MANIFEST_SECTION_DESC_REGION_ID_MASK.

Definition ia_css_fragment_param_manifest_section_desc_get_mem_type_id (section : Z) : Z :=
  Z.land (Z.shiftr (rd m section psd.info) MANIFEST_SECTION_DESC_MEM_TYPE_ID_OFFSET)
         MANIFEST_SECTION_DESC_MEM_TYPE_ID_MASK.

Definition ia_css_param_terminal_manifest_get_prm_sct_desc
    (param_terminal_manifest section_index : Z) : Z :=
  if is_null param_terminal_manifest then NULL
  else param_terminal_manifest
       + rd m param_terminal_manifest ptm.param_manifest_section_desc_offset
       + section_index * sizeof_ia_css_param_manifest_section_desc_t.

Definition ia_css_spatial_param_terminal_manifest_get_frm_grid_prm_sct_desc
    (spatial_param_terminal_manifest section_index : Z) : Z :=
  if is_null spatial_param_terminal_manifest then NULL
  else spatial_param_terminal_manifest
       + rd m spatial_param_terminal_manifest sptm.frame_grid_param_manifest_section_desc_offset
       + section_index * sizeof_ia_css_frame_grid_param_manifest_section_desc_t.

Definition ia_css_sliced_param_terminal_manifest_get_sliced_prm_sct_desc
    (sliced_param_terminal_manifest section_index : Z) : Z :=
  if is_null sliced_param_terminal_manifest then NULL
  else sliced_param_terminal_manifest
       + rd m sliced_param_terminal_manifest sltm.sliced_param_section_offset
       + section_index * sizeof_ia_css_sliced_param_manifest_section_desc_t.

Definition ia_css_program_terminal_manifest_get_frgmnt_prm_sct_desc
    (program_terminal_manifest section_index : Z) : Z :=
  if is_null program_terminal_manifest then NULL
  else program_terminal_manifest
       + rd m program_terminal_manifest prtm.fragment_param_manifest_section_desc_offset
       + section_index * sizeof_ia_css_fragment_param_manifest_section_desc_t.

Definition ia_css_program_terminal_manifest_get_kernel_frgmnt_seq_info_desc
    (program_terminal_manifest info_index : Z) : Z :=
  if is_null program_terminal_manifest then NULL
  else program_terminal_manifest
       + rd m program_terminal_manifest prtm.kernel_fragment_sequencer_info_manifest_info_offset
       + info_index * sizeof_ia_css_kernel_fragment_sequencer_info_manifest_desc_t.

Definition ia_css_program_control_init_terminal_manifest_get_connect_section_count (prog : Z) : Z :=
  rd m prog pcitm.connect_section_count.

Definition ia_css_program_control_init_terminal_manifest_get_load_section_count (prog : Z) : Z :=
  rd m prog pcitm.load_section_count.

Definition ia_css_program_control_init_terminal_manifest_get_program_desc
    (terminal program : Z) : Z :=
  let progs := terminal + rd m terminal pcitm.program_desc_offset in
  progs + program * sizeof_ia_css_program_control_init_manifest_program_desc_t.
End Section_descs.

(** ** Sizes and initialisation *)

Definition ia_css_param_terminal_manifest_get_size (nof_sections : Z) : Z :=
  u32 (sizeof_ia_css_param_terminal_manifest_t
       + nof_sections * sizeof_ia_css_param_manifest_section_desc_t).

Definition ia_css_spatial_param_terminal_manifest_get_size (nof_frame_param_sections : Z) : Z :=
  u32 (sizeof_ia_css_spatial_param_terminal_manifest_t
       + nof_frame_param_sections * sizeof_ia_css_frame_grid_param_manifest_section_desc_t).

(** The header counted is the one of a spatial terminal. *)
Definition ia_css_sliced_param_terminal_manifest_get_size (nof_slice_param_sections : Z) : Z :=
  u32 (sizeof_ia_css_spatial_param_terminal_manifest_t
       + nof_slice_param_sections * sizeof_ia_css_sliced_param_manifest_section_desc_t).

Definition ia_css_program_terminal_manifest_get_size
    (nof_fragment_param_sections nof_kernel_fragment_sequencer_infos : Z) : Z :=
  u32 (sizeof_ia_css_program_terminal_manifest_t
       + nof_fragment_param_sections * sizeof_ia_css_fragment_param_manifest_section_desc_t
       + nof_kernel_fragment_sequencer_infos
         * sizeof_ia_css_kernel_fragment_sequencer_info_manifest_desc_t).

Definition ia_css_program_control_init_terminal_manifest_get_size
    (nof_programs nof_load_sections nof_connect_sections : Z) : Z :=
  u32 (sizeof_ia_css_program_control_init_terminal_manifest_t
       + nof_programs * sizeof_ia_css_program_control_init_manifest_program_desc_t).

Definition ia_css_param_terminal_manifest_init
    (param_terminal section_count : Z) (m : mem) : Z * mem :=
  if is_null param_terminal then (- EFAULT, m)
  else
    let m := wr m param_terminal ptm.param_manifest_section_desc_count section_count in
    let m := wr m param_terminal ptm.param_manifest_section_desc_offset
               sizeof_ia_css_param_terminal_manifest_t in
    (0, m).

Definition ia_css_spatial_param_terminal_manifest_init
    (spatial_param_terminal section_count : Z) (m : mem) : Z * mem :=
  if is_null spatial_param_terminal then (- EFAULT, m)
  else
    let m := wr m spatial_param_terminal sptm.frame_grid_param_manifest_section_desc_count
               section_count in
    let m := wr m spatial_param_terminal sptm.frame_grid_param_manifest_section_desc_offset
               sizeof_ia_css_spatial_param_terminal_manifest_t in
    (0, m).

Definition ia_css_sliced_param_terminal_manifest_init
    (sliced_param_terminal section_count : Z) (m : mem) : Z * mem :=
  if is_null sliced_param_terminal then (- EFAULT, m)
  else
    let m := wr m sliced_param_terminal sltm.sliced_param_section_count section_count in
    let m := wr m sliced_param_terminal sltm.sliced_param_section_offset
               sizeof_ia_css_sliced_param_terminal_manifest_t in
    (0, m).

Definition ia_css_program_terminal_manifest_init
    (program_terminal fragment_param_section_count kernel_fragment_seq_info_section_count : Z)
    (m : mem) : Z * mem :=
  if is_null program_terminal then (- EFAULT, m)
  else
    let m := wr m program_terminal prtm.fragment_param_manifest_section_desc_count
               fragment_param_section_count in
    let m := wr m program_terminal prtm.fragment_param_manifest_section_desc_offset
               sizeof_ia_css_program_terminal_manifest_t in
    let m := wr m program_terminal prtm.kernel_fragment_sequencer_info_manifest_info_count
               kernel_fragment_seq_info_section_count in
    let m := wr m program_terminal prtm.kernel_fragment_sequencer_info_manifest_info_offset
               (sizeof_ia_css_program_terminal_manifest_t
                + fragment_param_section_count
                  * sizeof_ia_css_fragment_param_manifest_section_desc_t) in
    (0, m).

Definition ia_css_program_control_init_terminal_manifest_init
    (terminal nof_programs nof_load_sections nof_connect_sections : Z) (m : mem) : Z * mem :=
  if is_null terminal then (- EFAULT, m)
  else
    let m := wr m terminal pcitm.program_count nof_programs in
    let m := wr m terminal pcitm.program_desc_offset
               sizeof_ia_css_program_control_init_terminal_manifest_t in
    let progs := ia_css_program_control_init_terminal_manifest_get_program_desc m terminal 0 in
    let m := foldl (fun m i =>
      let prog := progs + i * sizeof_ia_css_program_control_init_manifest_program_desc_t in
      let m := wr m prog pcitm.load_section_count (rd m nof_load_sections (elt (U16 0) i)) in
      wr m prog pcitm.connect_section_count (rd m nof_connect_sections (elt (U16 0) i)))
      m (range 0 nof_programs) in
    (0, m).

(** ** Lemmas on bit-fields *)

Definition bf_ok (b : bitfield) : Prop :=
  f_signed (b_field b) = false /\ 0 <= b_lo b /\ 0 < b_width b
  /\ b_lo b + b_width b <= f_bits (b_field b).

Lemma rd_bf_bit m p b i :
  bf_ok b -> 0 <= i ->
  Z.testbit (rd_bf m p b) i
  = (i <? b_width b) && Z.testbit (rd m p (b_field b)) (i + b_lo b).
Proof.
  intros (_ & Hlo & Hw & _) Hi. unfold rd_bf.
  rewrite Z.land_spec, Z.shiftr_spec, Z.testbit_ones by lia.
  destruct (Z.leb_spec 0 i); [| lia]. cbn [andb]. apply andb_comm.
Qed.

(** The shared integer after a store into one bit-field. *)
Lemma wr_bf_bit m p b v i :
  bf_ok b -> 0 <= i ->
  Z.testbit (rd (wr_bf m p b v) p (b_field b)) i
  = if (b_lo b <=? i) && (i <? b_lo b + b_width b) then Z.testbit v (i - b_lo b)
    else Z.testbit (rd m p (b_field b)) i.
Proof.
  intros (Hs & Hlo & Hw & Hfit) Hi. unfold wr_bf. rewrite rd_wr_same. unfold f_conv. rewrite Hs.
  pose proof (rd_range m p (b_field b) Hs) as R.
  rewrite Z.testbit_mod_pow2 by (unfold f_bits; lia).
  rewrite Z.lor_spec, Z.ldiff_spec, !Z.shiftl_spec, Z.land_spec by lia.
  rewrite !Z.testbit_ones by lia.
  destruct (Z.ltb_spec i (f_bits (b_field b))) as [Hb | Hb]; cbn [andb];
    [| rewrite (testbit_high (f_bits (b_field b)) (rd m p (b_field b)) i) by (unfold f_bits in *; lia)];
    destruct (Z.leb_spec (b_lo b) i), (Z.ltb_spec i (b_lo b + b_width b));
    destruct (Z.leb_spec 0 (i - b_lo b)), (Z.ltb_spec (i - b_lo b) (b_width b)); try lia; cbn [andb negb];
    rewrite ?andb_false_r, ?andb_true_r, ?orb_false_l, ?orb_false_r; reflexivity.
Qed.

Lemma rd_bf_wr_same m p b v : bf_ok b -> rd_bf (wr_bf m p b v) p b = v mod 2 ^ b_width b.
Proof.
  intros B. pose proof B as (_ & Hlo & Hw & _). apply Z.bits_inj'. intros i Hi.
  rewrite rd_bf_bit, wr_bf_bit, Z.testbit_mod_pow2 by (auto; lia).
  replace (i + b_lo b - b_lo b) with i by lia.
  destruct (Z.ltb_spec i (b_width b)); cbn [andb]; [| reflexivity].
  destruct (Z.leb_spec (b_lo b) (i + b_lo b)), (Z.ltb_spec (i + b_lo b) (b_lo b + b_width b));
    try lia; reflexivity.
Qed.

Lemma rd_bf_wr_other m p b c v :
  bf_ok b -> bf_ok c -> b_field c = b_field b ->
  b_lo b + b_width b <= b_lo c \/ b_lo c + b_width c <= b_lo b ->
  rd_bf (wr_bf m p b v) p c = rd_bf m p c.
Proof.
  intros B C E D. pose proof B as (_ & Hlo & Hw & _). pose proof C as (_ & Hlo' & Hw' & _).
  apply Z.bits_inj'. intros i Hi. rewrite !rd_bf_bit by (auto; lia). rewrite E, wr_bf_bit by (auto; lia).
  destruct (Z.ltb_spec i (b_width c)); cbn [andb]; [| reflexivity].
  destruct (Z.leb_spec (b_lo b) (i + b_lo c)), (Z.ltb_spec (i + b_lo c) (b_lo b + b_width b));
    try lia; reflexivity.
Qed.

(** Bit-fields of an object and its other members. *)
Lemma rd_wr_bf m p b v f : f_disj (b_field b) f = true -> rd (wr_bf m p b v) p f = rd m p f.
Proof. intros H. unfold wr_bf. apply rd_wr_field, H. Qed.

Lemma rd_bf_wr m p b f v : f_disj f (b_field b) = true -> rd_bf (wr m p f v) p b = rd_bf m p b.
Proof. intros H. unfold rd_bf. rewrite rd_wr_field by exact H. reflexivity. Qed.

(** Runs the reads of a header after its bit-fields and members were set. *)
Ltac bf_side :=
  first [reflexivity | solve [repeat split; vm_compute; congruence] | solve [cbn; lia]].
Ltac bf_read :=
  repeat first [ rewrite rd_bf_wr_same by bf_side
               | rewrite rd_bf_wr_other by bf_side
               | rewrite rd_bf_wr by reflexivity
               | rewrite rd_wr_bf by reflexivity
               | rewrite rd_wr_same
               | rewrite rd_wr_field by reflexivity ].

(** ** The mapping of types to attributes *)

Module TypeTable.
Inductive ttype :=
  Data_in | Data_out | Cached_in | Cached_out | Spatial_in | Spatial_out | Sliced_in | Sliced_out
  | Program | Program_control_init.

Definition type_code (t : ttype) : Z :=
  match t with
  | Data_in => IA_CSS_TERMINAL_TYPE_DATA_IN | Data_out => IA_CSS_TERMINAL_TYPE_DATA_OUT
  | Cached_in => IA_CSS_TERMINAL_TYPE_PARAM_CACHED_IN
  | Cached_out => IA_CSS_TERMINAL_TYPE_PARAM_CACHED_OUT
  | Spatial_in => IA_CSS_TERMINAL_TYPE_PARAM_SPATIAL_IN
  | Spatial_out => IA_CSS_TERMINAL_TYPE_PARAM_SPATIAL_OUT
  | Sliced_in => IA_CSS_TERMINAL_TYPE_PARAM_SLICED_IN
  | Sliced_out => IA_CSS_TERMINAL_TYPE_PARAM_SLICED_OUT
  | Program => IA_CSS_TERMINAL_TYPE_PROGRAM
  | Program_control_init => IA_CSS_TERMINAL_TYPE_PROGRAM_CONTROL_INIT
  end.

(** Category, direction, rate of update and buffer type, as the table in
    include/ia_css_terminal_defs.h lists them. *)
Definition documented (t : ttype) : Z * Z * Z * Z :=
  match t with
  | Data_in => (IA_CSS_TERMINAL_CAT_CONNECT, IA_CSS_TERMINAL_DIR_IN, IA_CSS_TERMINAL_ROU_FRAG,
                IA_CSS_CONNECT_BUF_TYPE_DATA)
  | Data_out => (IA_CSS_TERMINAL_CAT_CONNECT, IA_CSS_TERMINAL_DIR_OUT, IA_CSS_TERMINAL_ROU_FRAG,
                 IA_CSS_CONNECT_BUF_TYPE_DATA)
  | Spatial_in => (IA_CSS_TERMINAL_CAT_CONNECT, IA_CSS_TERMINAL_DIR_IN, IA_CSS_TERMINAL_ROU_FRAME,
                   IA_CSS_CONNECT_BUF_TYPE_META)
  | Spatial_out => (IA_CSS_TERMINAL_CAT_CONNECT, IA_CSS_TERMINAL_DIR_OUT, IA_CSS_TERMINAL_ROU_FRAME,
                    IA_CSS_CONNECT_BUF_TYPE_META)
  | Cached_in | Sliced_in =>
      (IA_CSS_TERMINAL_CAT_LOAD, IA_CSS_TERMINAL_DIR_IN, IA_CSS_TERMINAL_ROU_FRAME,
       IA_CSS_CONNECT_BUF_TYPE_UNKNOWN)
  | Cached_out | Sliced_out =>
      (IA_CSS_TERMINAL_CAT_LOAD, IA_CSS_TERMINAL_DIR_OUT, IA_CSS_TERMINAL_ROU_FRAME,
       IA_CSS_CONNECT_BUF_TYPE_UNKNOWN)
  | Program => (IA_CSS_TERMINAL_CAT_LOAD, IA_CSS_TERMINAL_DIR_IN, IA_CSS_TERMINAL_ROU_FRAG,
                IA_CSS_CONNECT_BUF_TYPE_UNKNOWN)
  | Program_control_init =>
      (IA_CSS_TERMINAL_CAT_LOAD, IA_CSS_TERMINAL_DIR_IN, IA_CSS_TERMINAL_ROU_STREAM,
       IA_CSS_CONNECT_BUF_TYPE_UNKNOWN)
  end.
End TypeTable.

(** What the four attribute getters return. *)
Definition attributes_at (m : mem) (p : Z) : Z * Z * Z * Z :=
  (ia_css_terminal_manifest_get_category m p, ia_css_terminal_manifest_get_direction m p,
   ia_css_terminal_manifest_get_rate_of_update m p,
   ia_css_terminal_manifest_get_connect_buffer_type m p).

(** Setting the type of a terminal manifest sets the four attributes
    the documented table gives for it, in bit-fields that do not disturb each
    other, except that a program terminal gets the rate of update of a frame
    where the table has the one of a fragment.  Nothing else changes: the
    connect ID and the maximal payload size, which the function's comment says
    are reset, keep their values. *)
Theorem terminal_manifest_type_attributes p t m :
  0 < p ->
  let m' := snd (ia_css_terminal_manifest_set_type p (TypeTable.type_code t) m) in
  fst (ia_css_terminal_manifest_set_type p (TypeTable.type_code t) m) = 0
  /\ ia_css_terminal_manifest_get_type m' p = TypeTable.type_code t
  /\ (attributes_at m' p = TypeTable.documented t <-> t <> TypeTable.Program)
  /\ (t = TypeTable.Program ->
      ia_css_terminal_manifest_get_rate_of_update m' p = IA_CSS_TERMINAL_ROU_FRAME)
  /\ same_outside p (p + 14) m m'
  /\ (forall f, In f [tm.max_payload_size; tm.parent_offset; tm.size; tm.ID; tm.assoc_ID] ->
        rd m' p f = rd m p f).
Proof.
  intros Hp m'. subst m'. unfold ia_css_terminal_manifest_set_type,
    ia_css_terminal_manifest_set_new_fields, ia_css_terminal_manifest_set_attributes_by_type,
    ia_css_terminal_manifest_set_category, ia_css_terminal_manifest_set_direction,
    ia_css_terminal_manifest_set_rate_of_update, ia_css_terminal_manifest_set_connect_buffer_type,
    attributes_at, ia_css_terminal_manifest_get_category, ia_css_terminal_manifest_get_direction,
    ia_css_terminal_manifest_get_rate_of_update, ia_css_terminal_manifest_get_connect_buffer_type,
    ia_css_terminal_manifest_get_type.
  rewrite !(not_null p) by exact Hp. cbn [negb fst snd].
  split; [reflexivity |]. split; [| split; [| split; [| split]]].
  - bf_read. destruct t; reflexivity.
  - bf_read. destruct t; vm_compute; split; congruence.
  - intros ->. bf_read. reflexivity.
  - unfold wr_bf. cbv beta zeta delta [attr.category attr.direction attr.rou attr.connect_buf_type].
    cbn [b_field]. frame_chain.
  - intros f Hf. cbn [In] in Hf. repeat (destruct Hf as [<- | Hf]; [bf_read; reflexivity |]). destruct Hf.
Qed.

Lemma terminal_manifest_type_attributes_witness :
  let m' := snd (ia_css_terminal_manifest_set_type 64 5 (fun _ => 255)) in
  attributes_at m' 64 = (1, 0, 1, 1) /\ rd m' 64 tm.assoc_ID = 255.
Proof.
  destruct (terminal_manifest_type_attributes 64 TypeTable.Spatial_in (fun _ => 255))
    as (_ & _ & H & _ & _ & K); [lia |].
  split; [apply H; discriminate | exact (K tm.assoc_ID ltac:(cbn; tauto))].
Defined.

(** The maximal payload size is stored on 32 bits and read back on
    eight: a size of 256 bytes reads as none. *)
Theorem max_payload_size_truncated p v m :
  0 < p -> 0 <= v < 2 ^ 32 ->
  let r := ia_css_terminal_manifest_set_max_payload_size p v m in
  fst r = 0 /\ rd (snd r) p tm.max_payload_size = v
  /\ ia_css_terminal_manifest_get_max_payload_size (snd r) p = v mod 256
  /\ (ia_css_terminal_manifest_get_max_payload_size (snd r) p = v <-> v < 256).
Proof.
  intros Hp Hv. unfold ia_css_terminal_manifest_set_max_payload_size,
    ia_css_terminal_manifest_get_max_payload_size.
  rewrite !(not_null p) by exact Hp. cbn [negb fst snd]. rewrite rd_wr_same.
  change (f_conv tm.max_payload_size v) with (f_conv (U32 4) v). rewrite f_conv_U32 by exact Hv.
  split; [reflexivity | split; [reflexivity | split; [reflexivity |]]].
  unfold u8. change (2 ^ 8) with 256. divlia.
Qed.

Lemma max_payload_size_truncated_witness :
  ia_css_terminal_manifest_get_max_payload_size
    (snd (ia_css_terminal_manifest_set_max_payload_size 64 256 (fun _ => 0))) 64 = 0.
Proof. apply (max_payload_size_truncated 64 256 (fun _ => 0)); lia. Defined.

(** The variable members of a data terminal manifest, as its getters return
    them. *)
Record data_view := DataView {
  dv_format : Z; dv_kernels : ia_css_kernel_bitmap_t;
  dv_min : option (Z * Z); dv_max : option (Z * Z);
  dv_fmin : option (Z * Z); dv_fmax : option (Z * Z);
  dv_connection : Z; dv_compression : bool
}.

Definition data_view_at (m : mem) (p : Z) : data_view :=
  DataView (ia_css_data_terminal_manifest_get_frame_format_bitmap m p)
    (ia_css_data_terminal_manifest_get_kernel_bitmap m p)
    (ia_css_data_terminal_manifest_get_min_size m p)
    (ia_css_data_terminal_manifest_get_max_size m p)
    (ia_css_data_terminal_manifest_get_min_fragment_size m p)
    (ia_css_data_terminal_manifest_get_max_fragment_size m p)
    (ia_css_data_terminal_manifest_get_connection_bitmap m p)
    (ia_css_data_terminal_manifest_can_support_compression m p).

(** The setters as one set of operations, each with what it does to the
    view. *)
Inductive data_op :=
  | Set_format (v : Z) | Set_kernels (b : ia_css_kernel_bitmap_t) | Set_kernel_unique (i : Z)
  | Set_min (d : Z * Z) | Set_max (d : Z * Z) | Set_fmin (d : Z * Z) | Set_fmax (d : Z * Z)
  | Set_connection (v : Z) | Set_compression (c : bool).

Definition data_exec (p : Z) (o : data_op) : mem -> Z * mem :=
  match o with
  | Set_format v => ia_css_data_terminal_manifest_set_frame_format_bitmap p v
  | Set_kernels b => ia_css_data_terminal_manifest_set_kernel_bitmap p b
  | Set_kernel_unique i => ia_css_data_terminal_manifest_set_kernel_bitmap_unique p i
  | Set_min d => ia_css_data_terminal_manifest_set_min_size p d
  | Set_max d => ia_css_data_terminal_manifest_set_max_size p d
  | Set_fmin d => ia_css_data_terminal_manifest_set_min_fragment_size p d
  | Set_fmax d => ia_css_data_terminal_manifest_set_max_fragment_size p d
  | Set_connection v => ia_css_data_terminal_manifest_set_connection_bitmap p v
  | Set_compression c => ia_css_data_terminal_manifest_set_compression_support p c
  end.

Definition u16_pair (d : Z * Z) : option (Z * Z) := Some (u16 (fst d), u16 (snd d)).

(** Return value and view after an operation. *)
Definition data_spec (o : data_op) (w : data_view) : Z * data_view :=
  let 'DataView ff k mn mx fmn fmx cn cp := w in
  match o with
  | Set_format v => (0, DataView (u64 v) k mn mx fmn fmx cn cp)
  | Set_kernels b => (0, DataView ff b mn mx fmn fmx cn cp)
  | Set_kernel_unique i =>
      if i <? IA_CSS_KERNEL_BITMAP_BITS
      then (0, DataView ff (ia_css_kernel_bit_mask i) mn mx fmn fmx cn cp) else (-1, w)
  | Set_min d => (0, DataView ff k (u16_pair d) mx fmn fmx cn cp)
  | Set_max d => (0, DataView ff k mn (u16_pair d) fmn fmx cn cp)
  | Set_fmin d => (0, DataView ff k mn mx (u16_pair d) fmx cn cp)
  | Set_fmax d => (0, DataView ff k mn mx fmn (u16_pair d) cn cp)
  | Set_connection v => (0, DataView ff k mn mx fmn fmx (u8 v) cp)
  | Set_compression c => (0, DataView ff k mn mx fmn fmx cn c)
  end.

(** Bitmaps are of the right shape, kernel indices are [unsigned int]s. *)
Definition data_op_wf (o : data_op) : Prop :=
  match o with Set_kernels b => kb_wf b | Set_kernel_unique i => 0 <= i | _ => True end.

Lemma kernel_unique_bitmap i :
  0 <= i ->
  let b := ia_css_kernel_bitmap_set ia_css_kernel_bitmap_clear i in
  kb_wf b /\ negb (ia_css_is_kernel_bitmap_empty b) = (i <? IA_CSS_KERNEL_BITMAP_BITS)
  /\ b = ia_css_kernel_bit_mask i.
Proof.
  intros Hi b.
  assert (W : kb_wf b) by apply set_wf, clear_wf.
  assert (E : b = ia_css_kernel_bit_mask i).
  { apply kbit_ext; [exact W | apply bit_mask_wf |]. intros j Hj.
    subst b. unfold ia_css_kernel_bitmap_set. rewrite union_bit by (auto with kb).
    unfold kbit at 1. rewrite clear_val, Z.bits_0. reflexivity. }
  split; [exact W | split; [| exact E]].
  rewrite E, bit_mask_empty by lia. apply negb_involutive.
Qed.

(** One operation does to the view what the specification says. *)
Lemma data_exec_view p o m :
  0 < p -> data_op_wf o ->
  fst (data_exec p o m) = fst (data_spec o (data_view_at m p))
  /\ data_view_at (snd (data_exec p o m)) p = snd (data_spec o (data_view_at m p))
  /\ same_outside (p + 16) (p + 60) m (snd (data_exec p o m)).
Proof.
  intros Hp Ho. unfold data_view_at, ia_css_data_terminal_manifest_get_frame_format_bitmap,
    ia_css_data_terminal_manifest_get_kernel_bitmap, ia_css_data_terminal_manifest_get_min_size,
    ia_css_data_terminal_manifest_get_max_size, ia_css_data_terminal_manifest_get_min_fragment_size,
    ia_css_data_terminal_manifest_get_max_fragment_size,
    ia_css_data_terminal_manifest_get_connection_bitmap,
    ia_css_data_terminal_manifest_can_support_compression.
  rewrite !(not_null p) by exact Hp.
  assert (K : forall b, kb_wf b -> same_outside (p + 16) (p + 60) m (wr_kb m p dtm.kernel_bitmap b)).
  { intros b Hb. kb_cases Hb. rewrite wr_kb_4. frame_chain. }
  destruct o as [v | b | i | d | d | d | d | v | c]; cbn [data_exec data_spec data_op_wf] in *;
    unfold ia_css_data_terminal_manifest_set_frame_format_bitmap,
      ia_css_data_terminal_manifest_set_kernel_bitmap_unique,
      ia_css_data_terminal_manifest_set_kernel_bitmap, ia_css_data_terminal_manifest_set_min_size,
      ia_css_data_terminal_manifest_set_max_size, ia_css_data_terminal_manifest_set_min_fragment_size,
      ia_css_data_terminal_manifest_set_max_fragment_size,
      ia_css_data_terminal_manifest_set_connection_bitmap,
      ia_css_data_terminal_manifest_set_compression_support; mrun;
    rewrite !(not_null p) by exact Hp; cbn [negb fst snd];
    unfold IA_CSS_COL_DIMENSION, IA_CSS_ROW_DIMENSION.
  3: { destruct (kernel_unique_bitmap i Ho) as (W & N & E). rewrite N, E in *.
       destruct (i <? IA_CSS_KERNEL_BITMAP_BITS); cbn [fst snd];
         [| split; [reflexivity | split; [reflexivity | apply same_outside_refl]]].
       cbn [Z.eqb fst snd]. split; [reflexivity | split; [| apply K, W]].
       autounfold with layout. rewrite rd_kb_wr_same by assumption.
       repeat rewrite rd_wr_kb_out by mem_out. reflexivity. }
  2: { split; [reflexivity | split; [| apply K, Ho]].
       autounfold with layout. rewrite rd_kb_wr_same by assumption.
       repeat rewrite rd_wr_kb_out by mem_out. reflexivity. }
  all: split; [reflexivity | split; [| frame_chain]];
    rewrite !rd_kb_wr_out by mem_out; mem_read; try reflexivity.
  destruct c; reflexivity.
Qed.

(** Any sequence of stores into a data terminal manifest leaves it as
    the sequence of their specifications says: each member is what the last
    accepted store put there, cut to its width, no store disturbs another
    member, the header or bytes outside, and a kernel index out of range is
    refused without effect. *)
Theorem data_manifest_refines_view p ops m :
  0 < p -> Forall data_op_wf ops ->
  let m' := foldl (fun m o => snd (data_exec p o m)) m ops in
  data_view_at m' p = foldl (fun w o => snd (data_spec o w)) (data_view_at m p) ops
  /\ same_outside (p + 16) (p + 60) m m'
  /\ (forall o, data_op_wf o -> fst (data_exec p o m') = fst (data_spec o (data_view_at m' p))).
Proof.
  intros Hp Hops. cbv zeta. split; [| split].
  - revert m. induction Hops as [| o ops Ho Hops IH]; intros m; [reflexivity |].
    cbn [foldl]. rewrite IH. destruct (data_exec_view p o m Hp Ho) as (_ & -> & _). reflexivity.
  - revert m. induction Hops as [| o ops Ho Hops IH]; intros m; cbn [foldl];
      [apply same_outside_refl |].
    eapply same_outside_trans; [apply (data_exec_view p o m Hp Ho) | apply IH].
  - intros o Ho. apply data_exec_view; assumption.
Qed.

Lemma data_manifest_refines_view_witness :
  let m' := foldl (fun m o => snd (data_exec 64 o m)) (fun _ => 0)
              [Set_min (64, 32); Set_kernel_unique 200; Set_kernel_unique 3; Set_connection 5] in
  ia_css_data_terminal_manifest_get_min_size m' 64 = Some (64, 32)
  /\ dv_kernels (data_view_at m' 64) = [8; 0; 0; 0].
Proof.
  destruct (data_manifest_refines_view 64
    [Set_min (64, 32); Set_kernel_unique 200; Set_kernel_unique 3; Set_connection 5] (fun _ => 0))
    as [H _]; [lia | repeat constructor; cbn; lia |].
  cbv zeta. split; [exact (f_equal dv_min H) | rewrite H; vm_compute; reflexivity].
Defined.

(** ** Where the section descriptors are *)

(** [n] descriptors of [sz] bytes at [at_ i] lie one after the other in
    [lo, hi). *)
Definition in_sections (at_ : Z -> Z) (n sz lo hi : Z) : Prop :=
  forall i, 0 <= i < n -> at_ i = lo + i * sz /\ lo <= at_ i /\ at_ i + sz <= hi.

Lemma in_sections_intro at_ n sz lo hi :
  0 <= sz -> lo + n * sz <= hi -> (forall i, at_ i = lo + i * sz) -> in_sections at_ n sz lo hi.
Proof. intros Hsz Hhi E i Hi. rewrite E. split; [reflexivity | nia]. Qed.

(** The offset of the sequencer information in a program terminal manifest of
    [n] fragment sections. *)
Definition seq_info_offset (n : Z) : Z :=
  sizeof_ia_css_program_terminal_manifest_t
  + n * sizeof_ia_css_fragment_param_manifest_section_desc_t.

(** An initialised terminal manifest has its section descriptors right
    behind its header and inside the size computed for it, the sequencer
    information of a program terminal behind its fragment sections.  With more
    than 16375 fragment sections the 16-bit offset wraps and that information
    is placed over the header and the first sections. *)
Theorem terminal_manifest_sections p n k m :
  0 < p -> 0 <= n < 2 ^ 16 -> 0 <= k < 2 ^ 16 ->
  let mp := snd (ia_css_param_terminal_manifest_init p n m) in
  let ms := snd (ia_css_spatial_param_terminal_manifest_init p n m) in
  let ml := snd (ia_css_sliced_param_terminal_manifest_init p n m) in
  let mg := snd (ia_css_program_terminal_manifest_init p n k m) in
  in_sections (ia_css_param_terminal_manifest_get_prm_sct_desc mp p) n 4
    (p + 24) (p + ia_css_param_terminal_manifest_get_size n)
  /\ in_sections (ia_css_spatial_param_terminal_manifest_get_frm_grid_prm_sct_desc ms p) n 8
    (p + 40) (p + ia_css_spatial_param_terminal_manifest_get_size n)
  /\ in_sections (ia_css_sliced_param_terminal_manifest_get_sliced_prm_sct_desc ml p) n 8
    (p + 24) (p + ia_css_sliced_param_terminal_manifest_get_size n)
  /\ in_sections (ia_css_program_terminal_manifest_get_frgmnt_prm_sct_desc mg p) n 4
    (p + 32) (p + seq_info_offset n)
  /\ (n <= 16375 ->
      in_sections (ia_css_program_terminal_manifest_get_kernel_frgmnt_seq_info_desc mg p) k 40
        (p + seq_info_offset n) (p + ia_css_program_terminal_manifest_get_size n k))
  /\ (16375 < n ->
      ia_css_program_terminal_manifest_get_kernel_frgmnt_seq_info_desc mg p 0
        = p + seq_info_offset n mod 2 ^ 16
      /\ seq_info_offset n mod 2 ^ 16 < seq_info_offset n).
Proof.
  intros Hp Hn Hk. cbv zeta.
  unfold ia_css_param_terminal_manifest_init, ia_css_spatial_param_terminal_manifest_init,
    ia_css_sliced_param_terminal_manifest_init, ia_css_program_terminal_manifest_init,
    ia_css_param_terminal_manifest_get_prm_sct_desc,
    ia_css_spatial_param_terminal_manifest_get_frm_grid_prm_sct_desc,
    ia_css_sliced_param_terminal_manifest_get_sliced_prm_sct_desc,
    ia_css_program_terminal_manifest_get_frgmnt_prm_sct_desc,
    ia_css_program_terminal_manifest_get_kernel_frgmnt_seq_info_desc,
    ia_css_param_terminal_manifest_get_size, ia_css_spatial_param_terminal_manifest_get_size,
    ia_css_sliced_param_terminal_manifest_get_size, ia_css_program_terminal_manifest_get_size,
    seq_info_offset.
  rewrite !(not_null p) by exact Hp. cbv zeta. cbn [fst snd].
  autounfold with layout. rewrite !u32_small by lia.
  split; [| split; [| split; [| split; [| split]]]]; intros;
    try (apply in_sections_intro; [lia | lia | intros i; mem_read]);
    rewrite ?f_conv_U16 by lia; try lia.
  split; [mem_read; change (f_conv (U16 28) (32 + n * 4)) with ((32 + n * 4) mod 2 ^ 16); lia |].
  pose proof (Z.mod_pos_bound (32 + n * 4) (2 ^ 16)). lia.
Qed.

Lemma terminal_manifest_sections_witness :
  ia_css_program_terminal_manifest_get_kernel_frgmnt_seq_info_desc
    (snd (ia_css_program_terminal_manifest_init 64 16376 1 (fun _ => 0))) 64 0 = 64.
Proof.
  destruct (terminal_manifest_sections 64 16376 1 (fun _ => 0)) as (_ & _ & _ & _ & _ & H);
    [lia | lia | lia |].
  rewrite (proj1 (H ltac:(lia))). reflexivity.
Defined.
