(* ===== verification/ProgramGroupManifest.v ===== *)
(** * Program group manifests

    include/ia_css_psys_program_group_manifest_impl.h and
    src/ia_css_psys_program_group_manifest.c: the static description of a
    program group, a header followed by the program manifests and the terminal
    manifests, each reached by adding up the sizes of those before it; and the
    check [ia_css_is_program_group_manifest_valid] of the graph they form. *)

From S2P Require Import Prelude Memory ResourceModel KernelBitmap ProgramManifest Terminal TerminalManifest.
#[local] Open Scope css_scope.

(** ** Getters and setters *)

(** [IA_CSS_PROGRAM_GROUP_INVALID_ID] is [(uint32_t)-1]. *)
Definition IA_CSS_PROGRAM_GROUP_INVALID_ID : Z := 2 ^ 32 - 1.

Section Group_getters.
Context (m : mem).

Definition ia_css_program_group_manifest_get_size (manifest : Z) : Z :=
  if is_null manifest then 0 else rd m manifest pgm.size.

Definition ia_css_program_group_manifest_get_program_group_ID (manifest : Z) : Z :=
  if is_null manifest then IA_CSS_PROGRAM_GROUP_INVALID_ID else rd m manifest pgm.ID.

Definition ia_css_program_group_manifest_get_alignment (manifest : Z) : Z :=
  if is_null manifest then 0 else rd m manifest pgm.alignment.

Definition ia_css_program_group_manifest_get_kernel_bitmap (manifest : Z) : ia_css_kernel_bitmap_t :=
  if is_null manifest then ia_css_kernel_bitmap_clear else rd_kb m manifest pgm.kernel_bitmap.

Definition ia_css_program_group_manifest_get_private_data (manifest : Z) : Z :=
  if is_null manifest then NULL else manifest + rd m manifest pgm.private_data_offset.

Definition ia_css_program_group_manifest_get_rbm_manifest (manifest : Z) : Z :=
  if is_null manifest then NULL else manifest + rd m manifest pgm.rbm_manifest_offset.

(** The loop adds the size each program manifest records of itself. *)
Definition ia_css_program_group_manifest_get_prgrm_mnfst (manifest program_index : Z) : Z :=
  let program_count := ia_css_program_group_manifest_get_program_count m manifest in
  if is_null manifest then NULL
  else if negb (program_index <? program_count) then NULL
  else
    let prg_manifest_base := manifest + rd m manifest pgm.program_manifest_offset in
    foldl (fun program_manifest _ => program_manifest + rd m program_manifest pm.size)
          prg_manifest_base (range 0 program_index).

Definition ia_css_program_group_manifest_get_term_mnfst (manifest terminal_index : Z) : Z :=
  if is_null manifest then NULL
  else
    let terminal_count := ia_css_program_group_manifest_get_terminal_count m manifest in
    if negb (terminal_index <? terminal_count) then NULL
    else
      let terminal_manifest_base := manifest + rd m manifest pgm.terminal_manifest_offset in
      foldl (fun terminal_manifest _ =>
               let offset := u32 (ia_css_terminal_manifest_get_size m terminal_manifest) in
               terminal_manifest + offset)
            terminal_manifest_base (range 0 terminal_index).

Definition ia_css_program_group_manifest_get_data_terminal_manifest (manifest terminal_index : Z) : Z :=
  let terminal_manifest := ia_css_program_group_manifest_get_term_mnfst manifest terminal_index in
  if ia_css_is_terminal_manifest_data_terminal m terminal_manifest then terminal_manifest else NULL.

Definition ia_css_program_group_manifest_get_param_terminal_manifest (manifest terminal_index : Z) : Z :=
  let terminal_manifest := ia_css_program_group_manifest_get_term_mnfst manifest terminal_index in
  if ia_css_is_terminal_manifest_parameter_terminal m terminal_manifest
  then terminal_manifest else NULL.

Definition ia_css_program_group_manifest_get_spatial_param_terminal_manifest
    (manifest terminal_index : Z) : Z :=
  let terminal_manifest := ia_css_program_group_manifest_get_term_mnfst manifest terminal_index in
  if ia_css_is_terminal_manifest_spatial_parameter_terminal m terminal_manifest
  then terminal_manifest else NULL.

Definition ia_css_program_group_manifest_get_sliced_param_terminal_manifest
    (manifest terminal_index : Z) : Z :=
  let terminal_manifest := ia_css_program_group_manifest_get_term_mnfst manifest terminal_index in
  if ia_css_is_terminal_manifest_sliced_terminal m terminal_manifest then terminal_manifest else NULL.

Definition ia_css_program_group_manifest_get_program_terminal_manifest
    (manifest terminal_index : Z) : Z :=
  let terminal_manifest := ia_css_program_group_manifest_get_term_mnfst manifest terminal_index in
  if ia_css_is_terminal_manifest_program_terminal m terminal_manifest
  then terminal_manifest else NULL.
End Group_getters.

Definition ia_css_program_group_manifest_set_program_group_ID (manifest id : Z) (m : mem) : Z * mem :=
  if negb (is_null manifest) then (0, wr m manifest pgm.ID id) else (-1, m).

Definition ia_css_program_group_manifest_set_alignment (manifest alignment : Z) (m : mem) : Z * mem :=
  if negb (is_null manifest) then (0, wr m manifest pgm.alignment alignment) else (-1, m).

Definition ia_css_program_group_manifest_set_kernel_bitmap
    (manifest : Z) (bitmap : ia_css_kernel_bitmap_t) (m : mem) : Z * mem :=
  if negb (is_null manifest) then (0, wr_kb m manifest pgm.kernel_bitmap bitmap) else (-1, m).

(** ** The validity check

    A jump to EXIT is [None]; the function only reads memory, and the loops
    thread the variables they update. *)

Definition USE_SIMPLIFIED_GRAPH_MODEL : bool := true.

(** The variables of the terminal loop. *)
Record terminal_scan := TScan {
  terminal_bitmap : ia_css_kernel_bitmap_t;
  num_parameter_terminal_in : Z;
  num_parameter_terminal_out : Z;
  num_program_terminal : Z;
  num_program_terminal_sequencer_info : Z;
  has_program_control_init_terminal : bool
}.

Section Validity.
Context (m : mem).

(** The body of "Check the kernel bitmaps for terminals". *)
Definition valid_terminal_body (manifest : Z) (total_bitmap : ia_css_kernel_bitmap_t)
    (i : Z) (s : terminal_scan) : option terminal_scan :=
  let 'TScan tb nin nout nprog nseq pci := s in
  let terminal_manifest_i := ia_css_program_group_manifest_get_term_mnfst m manifest i in
  let is_parameter_in := IA_CSS_TERMINAL_TYPE_PARAM_CACHED_IN
                         =? ia_css_terminal_manifest_get_type m terminal_manifest_i in
  let is_parameter_out := IA_CSS_TERMINAL_TYPE_PARAM_CACHED_OUT
                          =? ia_css_terminal_manifest_get_type m terminal_manifest_i in
  let is_data := ia_css_is_terminal_manifest_data_terminal m terminal_manifest_i in
  let is_program := ia_css_is_terminal_manifest_program_terminal m terminal_manifest_i in
  let is_spatial_param :=
    ia_css_is_terminal_manifest_spatial_parameter_terminal m terminal_manifest_i in
  let is_program_control_init :=
    ia_css_is_terminal_manifest_program_control_init_terminal m terminal_manifest_i in
  if is_parameter_in then Some (TScan tb (Z.b2z is_parameter_in) nout nprog nseq pci)
  else if is_parameter_out then Some (TScan tb nin (Z.b2z is_parameter_out) nprog nseq pci)
  else if is_data then
    let terminal_bitmap_i :=
      ia_css_data_terminal_manifest_get_kernel_bitmap m terminal_manifest_i in
    verif negb (ia_css_is_kernel_bitmap_empty terminal_bitmap_i) ;;
    verif ia_css_is_kernel_bitmap_subset total_bitmap terminal_bitmap_i ;;
    verif ia_css_is_kernel_bitmap_onehot terminal_bitmap_i ;;
    Some s
  else if is_program then
    verif negb (is_null terminal_manifest_i) ;;
    Some (TScan tb nin nout (nprog + Z.b2z is_program)
            (nseq + rd m terminal_manifest_i
                       prtm.kernel_fragment_sequencer_info_manifest_info_count) pci)
  else if is_program_control_init then
    Some (TScan tb nin nout nprog nseq is_program_control_init)
  else
    verif negb (is_null terminal_manifest_i) ;;
    verif is_spatial_param ;;
    let tb := ia_css_kernel_bitmap_set tb (rd m terminal_manifest_i sptm.kernel_id) in
    verif negb (ia_css_is_kernel_bitmap_empty tb) ;;
    verif ia_css_is_kernel_bitmap_subset total_bitmap tb ;;
    Some (TScan tb nin nout nprog nseq pci).

(** The checks of a subnode and of a singular or supernode, before the loop
    over relations. *)
Definition valid_subnode (manifest : Z) (program_manifest_i : Z) : option unit :=
  let program_type_i := ia_css_program_manifest_get_type m program_manifest_i in
  let program_bitmap_i := ia_css_program_manifest_get_kernel_bitmap m program_manifest_i in
  let program_dependency_count_i :=
    ia_css_program_manifest_get_program_dependency_count m program_manifest_i in
  let terminal_dependency_count_i :=
    ia_css_program_manifest_get_terminal_dependency_count m program_manifest_i in
  let program_dependency_i0 := ia_css_program_manifest_get_program_dependency m program_manifest_i 0 in
  let is_exclusive_sub_i := program_type_i =? IA_CSS_PROGRAM_TYPE_EXCLUSIVE_SUB in
  let is_virtual_sub_i := program_type_i =? IA_CSS_PROGRAM_TYPE_VIRTUAL_SUB in
  let program_manifest_k :=
    ia_css_program_group_manifest_get_prgrm_mnfst m manifest program_dependency_i0 in
  let program_type_k := ia_css_program_manifest_get_type m program_manifest_k in
  let program_bitmap_k := ia_css_program_manifest_get_kernel_bitmap m program_manifest_k in
  verif program_dependency_count_i =? 1 ;;
  verif (if is_exclusive_sub_i || is_virtual_sub_i
         then terminal_dependency_count_i
              <=? ia_css_program_manifest_get_terminal_dependency_count m program_manifest_k
         else terminal_dependency_count_i =? 0) ;;
  verif program_type_k =? (if is_exclusive_sub_i then IA_CSS_PROGRAM_TYPE_EXCLUSIVE_SUPER
                           else if is_virtual_sub_i then IA_CSS_PROGRAM_TYPE_VIRTUAL_SUPER
                           else IA_CSS_PROGRAM_TYPE_PARALLEL_SUPER) ;;
  verif negb (ia_css_is_kernel_bitmap_equal program_bitmap_k program_bitmap_i) ;;
  verif ia_css_is_kernel_bitmap_subset program_bitmap_k program_bitmap_i ;;
  Some tt.

Definition valid_node (manifest : Z) (program_manifest_i : Z) : option unit :=
  let program_count := ia_css_program_group_manifest_get_program_count m manifest in
  let program_bitmap_i := ia_css_program_manifest_get_kernel_bitmap m program_manifest_i in
  let program_dependency_count_i :=
    ia_css_program_manifest_get_program_dependency_count m program_manifest_i in
  for_opt (range 0 program_dependency_count_i) tt (fun k _ =>
    let program_dependency_k :=
      ia_css_program_manifest_get_program_dependency m program_manifest_i k in
    let program_manifest_k :=
      ia_css_program_group_manifest_get_prgrm_mnfst m manifest program_dependency_k in
    let program_type_k := ia_css_program_manifest_get_type m program_manifest_k in
    let program_bitmap_k := ia_css_program_manifest_get_kernel_bitmap m program_manifest_k in
    verif program_dependency_k <? program_count ;;
    verif negb (program_type_k =? IA_CSS_PROGRAM_TYPE_EXCLUSIVE_SUB)
          && negb (program_type_k =? IA_CSS_PROGRAM_TYPE_VIRTUAL_SUB) ;;
    verif USE_SIMPLIFIED_GRAPH_MODEL
          || ia_css_is_kernel_bitmap_intersection_empty program_bitmap_i program_bitmap_k ;;
    Some tt).

(** The body of "Check for relations" for programs [i] and [j]. *)
Definition valid_relation (manifest i j : Z) : option unit :=
  let program_count := ia_css_program_group_manifest_get_program_count m manifest in
  let program_manifest_i := ia_css_program_group_manifest_get_prgrm_mnfst m manifest i in
  let program_type_i := ia_css_program_manifest_get_type m program_manifest_i in
  let program_bitmap_i := ia_css_program_manifest_get_kernel_bitmap m program_manifest_i in
  let program_dependency_i0 := ia_css_program_manifest_get_program_dependency m program_manifest_i 0 in
  let is_sub_i := ia_css_is_program_manifest_subnode_program_type m program_manifest_i in
  let is_exclusive_sub_i := program_type_i =? IA_CSS_PROGRAM_TYPE_EXCLUSIVE_SUB in
  let is_virtual_sub_i := program_type_i =? IA_CSS_PROGRAM_TYPE_VIRTUAL_SUB in
  let is_super_i := ia_css_is_program_manifest_supernode_program_type m program_manifest_i in
  let program_manifest_j := ia_css_program_group_manifest_get_prgrm_mnfst m manifest j in
  let program_type_j := ia_css_program_manifest_get_type m program_manifest_j in
  let program_bitmap_j := ia_css_program_manifest_get_kernel_bitmap m program_manifest_j in
  let program_dependency_count_j :=
    ia_css_program_manifest_get_program_dependency_count m program_manifest_j in
  let program_dependency_j0 := ia_css_program_manifest_get_program_dependency m program_manifest_j 0 in
  let is_sub_j := ia_css_is_program_manifest_subnode_program_type m program_manifest_j in
  let is_super_j := ia_css_is_program_manifest_supernode_program_type m program_manifest_j in
  let is_virtual_sub_j := program_type_j =? IA_CSS_PROGRAM_TYPE_VIRTUAL_SUB in
  let is_j_subset_i := ia_css_is_kernel_bitmap_subset program_bitmap_i program_bitmap_j in
  let is_i_subset_j := ia_css_is_kernel_bitmap_subset program_bitmap_j program_bitmap_i in
  if i =? j then Some tt
  else
    verif negb (ia_css_is_kernel_bitmap_empty program_bitmap_j) ;;
    (* mutual subnodes *)
    verif (if ((program_type_i =? IA_CSS_PROGRAM_TYPE_PARALLEL_SUB)
               && (program_type_j =? IA_CSS_PROGRAM_TYPE_PARALLEL_SUB))
              || ((program_type_i =? IA_CSS_PROGRAM_TYPE_EXCLUSIVE_SUB)
                  && (program_type_j =? IA_CSS_PROGRAM_TYPE_EXCLUSIVE_SUB))
              || ((program_type_i =? IA_CSS_PROGRAM_TYPE_VIRTUAL_SUB)
                  && (program_type_j =? IA_CSS_PROGRAM_TYPE_VIRTUAL_SUB)) then
             (program_dependency_count_j =? 1)
             && negb (program_dependency_i0 =? i)
             && negb (program_dependency_j0 =? i)
             && (if program_dependency_i0 =? program_dependency_j0 then
                   is_sub_i
                   && (if negb is_virtual_sub_i then is_j_subset_i || is_i_subset_j else true)
                   && xorb (is_j_subset_i && is_i_subset_j) (is_exclusive_sub_i || is_virtual_sub_i)
                 else true)
             && (if ia_css_is_kernel_bitmap_equal program_bitmap_i program_bitmap_j
                 then negb (program_dependency_i0 =? program_dependency_j0) else true)
           else true) ;;
    (* supernode and subnode *)
    verif (if ((program_type_i =? IA_CSS_PROGRAM_TYPE_PARALLEL_SUPER)
               && (program_type_j =? IA_CSS_PROGRAM_TYPE_PARALLEL_SUB))
              || ((program_type_i =? IA_CSS_PROGRAM_TYPE_EXCLUSIVE_SUPER)
                  && (program_type_j =? IA_CSS_PROGRAM_TYPE_EXCLUSIVE_SUB))
              || ((program_type_i =? IA_CSS_PROGRAM_TYPE_VIRTUAL_SUPER)
                  && (program_type_j =? IA_CSS_PROGRAM_TYPE_VIRTUAL_SUB)) then
             (program_dependency_count_j =? 1)
             && negb is_i_subset_j
             && (if program_dependency_j0 =? i then
                   negb (program_dependency_i0 =? program_dependency_j0)
                   && is_super_i && is_j_subset_i
                 else true)
           else true) ;;
    (* dependent nodes *)
    match for_opt (range 0 program_dependency_count_j) tt (fun k _ =>
      let program_dependency_k :=
        ia_css_program_manifest_get_program_dependency m program_manifest_j k in
      verif program_dependency_k <? program_count ;;
      if program_dependency_k =? i then
        verif negb (i =? j) ;;
        verif negb (program_type_i =? IA_CSS_PROGRAM_TYPE_EXCLUSIVE_SUB)
              && negb (program_type_i =? IA_CSS_PROGRAM_TYPE_VIRTUAL_SUB) ;;
        verif USE_SIMPLIFIED_GRAPH_MODEL
              || xorb (ia_css_is_kernel_bitmap_intersection_empty program_bitmap_i program_bitmap_j)
                      is_sub_j ;;
        Some tt
      else Some tt) with
    | None => None
    | Some _ =>
        (* supernodes and subnodes that intersect *)
        if negb (ia_css_is_kernel_bitmap_intersection_empty program_bitmap_i program_bitmap_j) then
          verif USE_SIMPLIFIED_GRAPH_MODEL
                || negb (ia_css_is_program_manifest_singular_program_type m program_manifest_i) ;;
          verif USE_SIMPLIFIED_GRAPH_MODEL
                || negb (ia_css_is_program_manifest_singular_program_type m program_manifest_j) ;;
          verif (if negb is_virtual_sub_j
                 then USE_SIMPLIFIED_GRAPH_MODEL || is_j_subset_i || is_i_subset_j else true) ;;
          verif (if is_super_i && is_super_j
                 then negb (ia_css_is_kernel_bitmap_equal program_bitmap_i program_bitmap_j)
                 else true) ;;
          Some tt
        else Some tt
    end.

(** The terminal dependencies of one program; [resource_bitmap] collects the
    terminals bound so far. *)
Definition valid_terminal_dependencies
    (manifest program_manifest_i resource_bitmap : Z) : option Z :=
  let terminal_count := ia_css_program_group_manifest_get_terminal_count m manifest in
  let program_type_i := ia_css_program_manifest_get_type m program_manifest_i in
  let terminal_dependency_count_i :=
    ia_css_program_manifest_get_terminal_dependency_count m program_manifest_i in
  for_opt (range 0 terminal_dependency_count_i) resource_bitmap (fun j resource_bitmap =>
    let terminal_dependency :=
      ia_css_program_manifest_get_terminal_dependency m program_manifest_i j in
    verif terminal_dependency <? terminal_count ;;
    if negb (program_type_i =? IA_CSS_PROGRAM_TYPE_EXCLUSIVE_SUB)
       && negb (program_type_i =? IA_CSS_PROGRAM_TYPE_VIRTUAL_SUB) then
      let resource_bitmap := vied_nci_bit_mask_set_unique resource_bitmap terminal_dependency in
      verif USE_SIMPLIFIED_GRAPH_MODEL || negb (vied_nci_is_bitmap_empty resource_bitmap) ;;
      Some resource_bitmap
    else Some resource_bitmap).

(** The body of "Check the kernel bitmaps for programs". *)
Definition valid_program_body (manifest : Z) (total_bitmap : ia_css_kernel_bitmap_t)
    (i : Z) (s : ia_css_kernel_bitmap_t * Z) : option (ia_css_kernel_bitmap_t * Z) :=
  let '(check_bitmap, resource_bitmap) := s in
  let program_count := ia_css_program_group_manifest_get_program_count m manifest in
  let program_manifest_i := ia_css_program_group_manifest_get_prgrm_mnfst m manifest i in
  let program_type_i := ia_css_program_manifest_get_type m program_manifest_i in
  let program_bitmap_i := ia_css_program_manifest_get_kernel_bitmap m program_manifest_i in
  let program_dependency_count_i :=
    ia_css_program_manifest_get_program_dependency_count m program_manifest_i in
  let terminal_dependency_count_i :=
    ia_css_program_manifest_get_terminal_dependency_count m program_manifest_i in
  let is_sub_i := ia_css_is_program_manifest_subnode_program_type m program_manifest_i in
  verif negb (ia_css_is_kernel_bitmap_empty program_bitmap_i) ;;
  verif ia_css_is_kernel_bitmap_subset total_bitmap program_bitmap_i ;;
  verif negb (program_type_i =? IA_CSS_N_PROGRAM_TYPES) ;;
  verif negb (program_dependency_count_i + terminal_dependency_count_i =? 0) ;;
  match (if is_sub_i then valid_subnode manifest program_manifest_i
         else valid_node manifest program_manifest_i) with
  | None => None
  | Some _ =>
      match for_opt (range 0 program_count) tt (fun j _ => valid_relation manifest i j) with
      | None => None
      | Some _ =>
          let check_bitmap := ia_css_kernel_bitmap_union check_bitmap program_bitmap_i in
          match valid_terminal_dependencies manifest program_manifest_i resource_bitmap with
          | None => None
          | Some resource_bitmap => Some (check_bitmap, resource_bitmap)
          end
      end
  end.

Definition ia_css_is_program_group_manifest_valid (manifest : Z) : bool :=
  match
    verif negb (is_null manifest) ;;
    verif negb (ia_css_program_group_manifest_get_size m manifest =? 0) ;;
    verif negb (ia_css_program_group_manifest_get_alignment m manifest =? 0) ;;
    verif negb (ia_css_program_group_manifest_get_program_group_ID m manifest =? 0) ;;
    let terminal_count := ia_css_program_group_manifest_get_terminal_count m manifest in
    let program_count := ia_css_program_group_manifest_get_program_count m manifest in
    let total_bitmap := ia_css_program_group_manifest_get_kernel_bitmap m manifest in
    let check_bitmap := ia_css_kernel_bitmap_clear in
    let resource_bitmap := vied_nci_bit_mask VIED_NCI_RESOURCE_BITMAP_BITS in
    verif negb (program_count =? 0) ;;
    verif negb (terminal_count =? 0) ;;
    verif negb (ia_css_is_kernel_bitmap_empty total_bitmap) ;;
    verif vied_nci_is_bitmap_empty resource_bitmap ;;
    match for_opt (range 0 terminal_count) (TScan ia_css_kernel_bitmap_clear 0 0 0 0 false)
            (valid_terminal_body manifest total_bitmap) with
    | None => None
    | Some s =>
        match for_opt (range 0 program_count) (check_bitmap, resource_bitmap)
                (valid_program_body manifest total_bitmap) with
        | None => None
        | Some (check_bitmap, resource_bitmap) =>
            verif ia_css_is_kernel_bitmap_equal total_bitmap check_bitmap ;;
            let terminal_bitmap_weight := vied_nci_bitmap_compute_weight resource_bitmap in
            verif 0 <=? terminal_bitmap_weight ;;
            if negb (num_parameter_terminal_in s =? 0) || negb (num_parameter_terminal_out s =? 0)
               || negb (num_program_terminal s =? 0) || has_program_control_init_terminal s then
              let skip_terminal_count := 0 in
              let skip_terminal_count := skip_terminal_count + num_parameter_terminal_in s in
              let skip_terminal_count := skip_terminal_count + num_parameter_terminal_out s in
              let skip_terminal_count := skip_terminal_count + num_program_terminal s in
              let skip_terminal_count :=
                skip_terminal_count - num_program_terminal_sequencer_info s in
              let skip_terminal_count := if has_program_control_init_terminal s
                                         then skip_terminal_count + 1 else skip_terminal_count in
              verif USE_SIMPLIFIED_GRAPH_MODEL
                    || (terminal_bitmap_weight =? terminal_count - skip_terminal_count) ;;
              Some tt
            else
              verif terminal_bitmap_weight =? terminal_count ;;
              Some tt
        end
    end
  with Some _ => true | None => false end.
End Validity.

(** ** Sample manifests, built with the library's own setters *)

Definition put_program (g p ty kernels : Z) (pdeps tdeps : list Z) (m : mem) : mem :=
  let m := ia_css_program_manifest_init p 0 (Z.of_nat (length pdeps)) (Z.of_nat (length tdeps)) m in
  let m := snd (ia_css_program_manifest_set_parent_offset p (p - g) m) in
  let m := snd (ia_css_program_manifest_set_type p ty m) in
  let m := snd (ia_css_program_manifest_set_kernel_bitmap p
                  (ia_css_kernel_bitmap_create_from_uint64 kernels) m) in
  let m := foldl (fun m '(i, d) => snd (ia_css_program_manifest_set_program_dependency p d i m)) m
                 (zip (seqZ 0 (Z.of_nat (length pdeps))) pdeps) in
  foldl (fun m '(i, d) => snd (ia_css_program_manifest_set_terminal_dependency p d i m)) m
        (zip (seqZ 0 (Z.of_nat (length tdeps))) tdeps).

Definition put_data_terminal (p ty kernel : Z) (m : mem) : mem :=
  let m := snd (ia_css_terminal_manifest_set_type p ty m) in
  let m := snd (ia_css_data_terminal_manifest_set_kernel_bitmap_unique p kernel m) in
  wr m p tm.size sizeof_ia_css_data_terminal_manifest_t.

Definition put_group (p kernels program_count terminal_count terminals : Z) (m : mem) : mem :=
  let m := snd (ia_css_program_group_manifest_set_kernel_bitmap p
                  (ia_css_kernel_bitmap_create_from_uint64 kernels) m) in
  let m := snd (ia_css_program_group_manifest_set_program_group_ID p 1 m) in
  let m := snd (ia_css_program_group_manifest_set_alignment p 8 m) in
  let m := wr (wr m p pgm.program_count program_count) p pgm.terminal_count terminal_count in
  let m := wr m p pgm.program_manifest_offset sizeof_ia_css_program_group_manifest_t in
  let m := wr m p pgm.terminal_manifest_offset terminals in
  wr m p pgm.size 512.

(** An exclusive supernode on kernels 0 and 1, its subnode on kernel 0 and a
    singular program on kernel 2; two data terminals. *)
Definition sample_group_manifest : mem :=
  let m := put_group 1000 7 3 2 136 (fun _ => 0) in
  let m := put_program 1000 1040 IA_CSS_PROGRAM_TYPE_EXCLUSIVE_SUPER 3 [] [0] m in
  let m := put_program 1000 1072 IA_CSS_PROGRAM_TYPE_EXCLUSIVE_SUB 1 [0] [0] m in
  let m := put_program 1000 1104 IA_CSS_PROGRAM_TYPE_SINGULAR 4 [] [1] m in
  let m := put_data_terminal 1136 IA_CSS_TERMINAL_TYPE_DATA_IN 0 m in
  put_data_terminal 1200 IA_CSS_TERMINAL_TYPE_DATA_OUT 2 m.

(** [n] singular programs, each on a kernel of its own, all bound to the one
    data terminal. *)
Definition sample_shared_terminal (n : Z) : mem :=
  let m := put_group 1000 (2 ^ n - 1) n 1 (40 + 32 * n) (fun _ => 0) in
  let m := foldl (fun m i => put_program 1000 (1040 + 32 * i) IA_CSS_PROGRAM_TYPE_SINGULAR (2 ^ i) [] [0] m)
                 m (range 0 n) in
  put_data_terminal (1040 + 32 * n) IA_CSS_TERMINAL_TYPE_DATA_IN 0 m.
