(* ===== verification/ProgramGraph.v ===== *)
(** * The graph of a program group

    What a program group manifest describes, apart from its bytes: programs
    with their type, kernels and dependencies, and terminals.  [ValidGraph] is
    the promise of [ia_css_is_program_group_manifest_valid] to its callers;
    the instance at the end shows that the check keeps it. *)

From S2P Require Import Prelude Memory ResourceModel KernelBitmap ProgramManifest Terminal TerminalManifest ProgramGroupManifest.
#[local] Open Scope css_scope.

(** ** The abstract graph *)

Record program := Program {
  p_type : Z;
  p_kernels : ia_css_kernel_bitmap_t;
  p_deps : list Z;
  p_tdeps : list Z
}.

Record graph := Graph {
  g_kernels : ia_css_kernel_bitmap_t;
  g_programs : Z;
  g_terminals : Z;
  g_program : Z -> program;
  g_terminal : Z -> Z * ia_css_kernel_bitmap_t
}.

(** Kernel sets as predicates. *)
Definition has_kernel (b : ia_css_kernel_bitmap_t) (k : Z) : Prop := 0 <= k < 128 /\ kbit b k = true.

Definition is_sub (ty : Z) : bool :=
  (ty =? IA_CSS_PROGRAM_TYPE_PARALLEL_SUB) || (ty =? IA_CSS_PROGRAM_TYPE_EXCLUSIVE_SUB)
  || (ty =? IA_CSS_PROGRAM_TYPE_VIRTUAL_SUB).
(** Subnodes of which at most one runs. *)
Definition is_alternative (ty : Z) : bool :=
  (ty =? IA_CSS_PROGRAM_TYPE_EXCLUSIVE_SUB) || (ty =? IA_CSS_PROGRAM_TYPE_VIRTUAL_SUB).
Definition super_of (ty : Z) : Z :=
  if ty =? IA_CSS_PROGRAM_TYPE_EXCLUSIVE_SUB then IA_CSS_PROGRAM_TYPE_EXCLUSIVE_SUPER
  else if ty =? IA_CSS_PROGRAM_TYPE_VIRTUAL_SUB then IA_CSS_PROGRAM_TYPE_VIRTUAL_SUPER
  else IA_CSS_PROGRAM_TYPE_PARALLEL_SUPER.
Definition is_super (ty : Z) : bool :=
  (ty =? IA_CSS_PROGRAM_TYPE_PARALLEL_SUPER) || (ty =? IA_CSS_PROGRAM_TYPE_EXCLUSIVE_SUPER)
  || (ty =? IA_CSS_PROGRAM_TYPE_VIRTUAL_SUPER).

(** Terminal types a valid manifest may have. *)
Definition is_free_terminal (ty : Z) : bool :=
  (ty =? IA_CSS_TERMINAL_TYPE_PARAM_CACHED_IN) || (ty =? IA_CSS_TERMINAL_TYPE_PARAM_CACHED_OUT)
  || (ty =? IA_CSS_TERMINAL_TYPE_PROGRAM) || (ty =? IA_CSS_TERMINAL_TYPE_PROGRAM_CONTROL_INIT).
Definition is_spatial_terminal (ty : Z) : bool :=
  (ty =? IA_CSS_TERMINAL_TYPE_PARAM_SPATIAL_IN) || (ty =? IA_CSS_TERMINAL_TYPE_PARAM_SPATIAL_OUT).

(** [sub] is a subnode of program [s]. *)
Definition sub_of (g : graph) (sub s : Z) : Prop :=
  is_sub (p_type (g_program g sub)) = true /\ p_deps (g_program g sub) = [s].

Class ValidGraph (g : graph) : Prop := {
  vg_programs : 1 <= g_programs g < 256;
  vg_terminals : 1 <= g_terminals g < 256;
  (** the programs cover the group's kernels, and nothing else *)
  vg_cover k : has_kernel (g_kernels g) k
    <-> exists i, 0 <= i < g_programs g /\ has_kernel (p_kernels (g_program g i)) k;
  vg_wf i : kb_wf (p_kernels (g_program g i));
  vg_nonempty i : 0 <= i < g_programs g -> exists k, has_kernel (p_kernels (g_program g i)) k;
  vg_depends i : 0 <= i < g_programs g ->
    p_deps (g_program g i) <> [] \/ p_tdeps (g_program g i) <> [];
  (** dependencies lead to programs and terminals of the group *)
  vg_node_deps i d : 0 <= i < g_programs g -> is_sub (p_type (g_program g i)) = false ->
    d ∈ p_deps (g_program g i) ->
    0 <= d < g_programs g /\ is_alternative (p_type (g_program g d)) = false;
  vg_tdeps i t : 0 <= i < g_programs g -> t ∈ p_tdeps (g_program g i) -> 0 <= t < g_terminals g;
  (** a subnode has one supernode of its kind, with strictly more kernels *)
  vg_sub i : 0 <= i < g_programs g -> is_sub (p_type (g_program g i)) = true ->
    exists s, p_deps (g_program g i) = [s] /\ 0 <= s < g_programs g
      /\ p_type (g_program g s) = super_of (p_type (g_program g i))
      /\ (forall k, has_kernel (p_kernels (g_program g i)) k ->
            has_kernel (p_kernels (g_program g s)) k)
      /\ p_kernels (g_program g i) <> p_kernels (g_program g s)
      /\ (if is_alternative (p_type (g_program g i))
          then (length (p_tdeps (g_program g i)) <= length (p_tdeps (g_program g s)))%nat
          else p_tdeps (g_program g i) = []);
  (** subnodes of one supernode are alternatives with different kernels *)
  vg_siblings i j s : 0 <= i < g_programs g -> 0 <= j < g_programs g -> i <> j ->
    p_type (g_program g i) = p_type (g_program g j) -> sub_of g i s -> sub_of g j s ->
    is_alternative (p_type (g_program g i)) = true
    /\ p_kernels (g_program g i) <> p_kernels (g_program g j);
  vg_supers i j : 0 <= i < g_programs g -> 0 <= j < g_programs g -> i <> j ->
    is_super (p_type (g_program g i)) = true -> is_super (p_type (g_program g j)) = true ->
    p_kernels (g_program g i) <> p_kernels (g_program g j);
  (** terminals *)
  vg_terminal t : 0 <= t < g_terminals g ->
    is_free_terminal (fst (g_terminal g t)) = true
    \/ (is_data_type (fst (g_terminal g t)) = true
        /\ exists k, has_kernel (g_kernels g) k
             /\ forall k', has_kernel (snd (g_terminal g t)) k' <-> k' = k)
    \/ is_spatial_terminal (fst (g_terminal g t)) = true;
  (** where only data and spatial terminals exist, each is bound to a program *)
  vg_bound : (forall t, 0 <= t < g_terminals g -> is_free_terminal (fst (g_terminal g t)) = false) ->
    g_terminals g <= 32
    /\ forall t, 0 <= t < g_terminals g -> exists i, 0 <= i < g_programs g
         /\ is_alternative (p_type (g_program g i)) = false /\ t ∈ p_tdeps (g_program g i)
}.

(** ** The graph in memory *)

Definition program_at (m : mem) (manifest i : Z) : program :=
  let p := ia_css_program_group_manifest_get_prgrm_mnfst m manifest i in
  Program (ia_css_program_manifest_get_type m p)
    (ia_css_program_manifest_get_kernel_bitmap m p)
    (map (ia_css_program_manifest_get_program_dependency m p)
         (range 0 (ia_css_program_manifest_get_program_dependency_count m p)))
    (map (ia_css_program_manifest_get_terminal_dependency m p)
         (range 0 (ia_css_program_manifest_get_terminal_dependency_count m p))).

Definition terminal_at (m : mem) (manifest t : Z) : Z * ia_css_kernel_bitmap_t :=
  let p := ia_css_program_group_manifest_get_term_mnfst m manifest t in
  (ia_css_terminal_manifest_get_type m p, ia_css_data_terminal_manifest_get_kernel_bitmap m p).

Definition graph_of (m : mem) (manifest : Z) : graph :=
  Graph (ia_css_program_group_manifest_get_kernel_bitmap m manifest)
    (ia_css_program_group_manifest_get_program_count m manifest)
    (ia_css_program_group_manifest_get_terminal_count m manifest)
    (program_at m manifest) (terminal_at m manifest).

(** ** Lemmas: kernel sets *)

Lemma manifest_kernels_wf m p : kb_wf (ia_css_program_manifest_get_kernel_bitmap m p).
Proof.
  unfold ia_css_program_manifest_get_kernel_bitmap. destruct (is_null p); [apply clear_wf | apply rd_kb_wf].
Qed.
Lemma data_kernels_wf m p : kb_wf (ia_css_data_terminal_manifest_get_kernel_bitmap m p).
Proof.
  unfold ia_css_data_terminal_manifest_get_kernel_bitmap.
  destruct (is_null p); [apply clear_wf | apply rd_kb_wf].
Qed.
Lemma group_kernels_wf m p : kb_wf (ia_css_program_group_manifest_get_kernel_bitmap m p).
Proof.
  unfold ia_css_program_group_manifest_get_kernel_bitmap.
  destruct (is_null p); [apply clear_wf | apply rd_kb_wf].
Qed.
Lemma program_at_wf m man i : kb_wf (p_kernels (program_at m man i)).
Proof. apply manifest_kernels_wf. Qed.
#[export] Hint Resolve manifest_kernels_wf data_kernels_wf group_kernels_wf program_at_wf union_wf : kb.

Lemma subset_kernels a b :
  kb_wf a -> kb_wf b ->
  ia_css_is_kernel_bitmap_subset a b = true <-> forall k, has_kernel b k -> has_kernel a k.
Proof.
  intros Ha Hb. rewrite subset_val by assumption. unfold has_kernel.
  split; [intros H k [Hk E]; auto | intros H k Hk E; apply H; auto].
Qed.

Lemma nonempty_kernels a :
  kb_wf a -> ia_css_is_kernel_bitmap_empty a = false <-> exists k, has_kernel a k.
Proof.
  intros Ha. rewrite <- not_true_iff_false. split.
  - rewrite empty_val, Z.eqb_eq by exact Ha. intros Hne.
    pose proof (kb_val_range a Ha) as R. exists (Z.log2 (kb_val a)). split.
    + split; [apply Z.log2_nonneg | apply Z.log2_lt_pow2; lia].
    + apply Z.bit_log2. lia.
  - rewrite empty_iff by exact Ha. intros (k & Hk & E) H. rewrite H in E by exact Hk. discriminate.
Qed.

Lemma equal_kernels_neq a b :
  kb_wf a -> kb_wf b -> ia_css_is_kernel_bitmap_equal a b = false -> a <> b.
Proof. intros Ha Hb H E. apply (equal_iff a b Ha Hb) in E. congruence. Qed.

Lemma subset_refl a : kb_wf a -> ia_css_is_kernel_bitmap_subset a a = true.
Proof. intros Ha. apply subset_kernels; auto. Qed.

Lemma subset_antisym a b :
  kb_wf a -> kb_wf b -> ia_css_is_kernel_bitmap_subset a b = true ->
  ia_css_is_kernel_bitmap_subset b a = true -> a = b.
Proof.
  intros Ha Hb H1 H2. rewrite subset_val in H1, H2 by assumption.
  apply kbit_ext; [assumption | assumption |]. intros k Hk.
  apply eq_iff_eq_true. split; [apply H2, Hk | apply H1, Hk].
Qed.

Lemma union_kernels a b k :
  kb_wf a -> kb_wf b ->
  has_kernel (ia_css_kernel_bitmap_union a b) k <-> has_kernel a k \/ has_kernel b k.
Proof.
  intros Ha Hb. unfold has_kernel. rewrite union_bit, orb_true_iff by assumption. tauto.
Qed.

(** Sets that do not meet, of which one is not empty, differ. *)
Lemma disjoint_kernels_neq a b :
  kb_wf a -> kb_wf b -> ia_css_is_kernel_bitmap_intersection_empty a b = true ->
  ia_css_is_kernel_bitmap_empty b = false -> a <> b.
Proof.
  intros Ha Hb H N ->. apply nonempty_kernels in N; [| exact Hb]. destruct N as (k & Hk & E).
  rewrite intersection_empty_iff in H by assumption. specialize (H k Hk). rewrite E in H. discriminate.
Qed.

Lemma onehot_kernels a :
  kb_wf a -> ia_css_is_kernel_bitmap_onehot a = true ->
  exists k, has_kernel a k /\ forall k', has_kernel a k' <-> k' = k.
Proof.
  intros Ha H. apply (onehot_iff a Ha) in H. destruct H as (k & Hk & ->).
  assert (G : forall k', has_kernel (ia_css_kernel_bit_mask k) k' <-> k' = k).
  { intros k'. unfold has_kernel. split.
    - intros [Hk' E]. rewrite bit_mask_bit in E by lia. apply Z.eqb_eq in E. congruence.
    - intros ->. rewrite bit_mask_bit, Z.eqb_refl by lia. auto. }
  exists k. split; [apply G; reflexivity | exact G].
Qed.

(** Binding one more terminal: a bit that was there before, or the new one. *)
Lemma set_unique_bit b t j :
  rb_wf b -> 0 <= t ->
  rb_wf (vied_nci_bit_mask_set_unique b t)
  /\ (Z.testbit (vied_nci_bit_mask_set_unique b t) j = true ->
      Z.testbit b j = true \/ (j = t /\ t < 32)).
Proof.
  intros Hb Ht. unfold vied_nci_bit_mask_set_unique. cbv zeta. rewrite bit_mask_pow2 by lia.
  destruct (Z.ltb_spec t 32).
  - destruct ((Z.land b (2 ^ t) =? 0) && negb (2 ^ t =? 0)).
    + split; [apply lor_below; [lia | exact Hb | apply pow2_wf; lia] |].
      rewrite Z.lor_spec, orb_true_iff. intros [E | E]; [auto |].
      destruct (Z.lt_ge_cases j 0); [rewrite Z.testbit_neg_r in E by lia; discriminate |].
      rewrite pow2_bit in E by lia. apply Z.eqb_eq in E. auto.
    + rewrite Z.bits_0. split; [split; cbn; lia | discriminate].
  - cbn [negb Z.eqb]. rewrite andb_false_r, Z.bits_0. split; [split; cbn; lia | discriminate].
Qed.

(** ** The terminal loop *)

Definition terminal_ok (total : ia_css_kernel_bitmap_t) (t : Z * ia_css_kernel_bitmap_t) : Prop :=
  is_free_terminal (fst t) = true
  \/ (is_data_type (fst t) = true
      /\ exists k, has_kernel total k /\ forall k', has_kernel (snd t) k' <-> k' = k)
  \/ is_spatial_terminal (fst t) = true.

(** Whether a terminal that need not be bound was seen. *)
Definition no_free (s : terminal_scan) : Prop :=
  num_parameter_terminal_in s = 0 /\ num_parameter_terminal_out s = 0
  /\ num_program_terminal s = 0 /\ has_program_control_init_terminal s = false.

Lemma valid_terminal_step m man total t s s' :
  kb_wf total -> valid_terminal_body m man total t s = Some s' ->
  terminal_ok total (terminal_at m man t)
  /\ (is_free_terminal (fst (terminal_at m man t)) = false -> no_free s -> no_free s').
Proof.
  intros Ht H. unfold valid_terminal_body in H. destruct s as [tb nin nout nprog nseq pci].
  unfold terminal_at, ia_css_is_terminal_manifest_data_terminal,
    ia_css_is_terminal_manifest_program_terminal,
    ia_css_is_terminal_manifest_spatial_parameter_terminal,
    ia_css_is_terminal_manifest_program_control_init_terminal in *. cbv zeta in *.
  set (p := ia_css_program_group_manifest_get_term_mnfst m man t) in *.
  set (ty := ia_css_terminal_manifest_get_type m p) in *.
  unfold terminal_ok, is_free_terminal, is_spatial_terminal, is_data_type, no_free. cbn [fst snd].
  rewrite !(Z.eqb_sym _ ty) in H.
  destruct (ty =? IA_CSS_TERMINAL_TYPE_PARAM_CACHED_IN); [split; [auto | cbn; discriminate] |].
  destruct (ty =? IA_CSS_TERMINAL_TYPE_PARAM_CACHED_OUT); [split; [auto | cbn; discriminate] |].
  destruct ((ty =? IA_CSS_TERMINAL_TYPE_DATA_IN) || (ty =? IA_CSS_TERMINAL_TYPE_DATA_OUT)).
  - verif_inv H. injection H as <-. split; [| auto]. right. left. split; [reflexivity |].
    destruct (onehot_kernels _ (data_kernels_wf m p) V1) as (k & Hk & U).
    exists k. split; [| exact U]. revert Hk. apply subset_kernels; auto with kb.
  - destruct (ty =? IA_CSS_TERMINAL_TYPE_PROGRAM); [split; [auto | cbn; discriminate] |].
    destruct (ty =? IA_CSS_TERMINAL_TYPE_PROGRAM_CONTROL_INIT); [split; [auto | cbn; discriminate] |].
    verif_inv H. injection H as <-. split; [auto | intros _ N; exact N].
Qed.

Lemma valid_terminals_scan m man total nt s0 s :
  kb_wf total -> 0 <= nt -> no_free s0 ->
  for_opt (range 0 nt) s0 (valid_terminal_body m man total) = Some s ->
  (forall t, 0 <= t < nt -> terminal_ok total (terminal_at m man t))
  /\ ((forall t, 0 <= t < nt -> is_free_terminal (fst (terminal_at m man t)) = false) -> no_free s).
Proof.
  intros Ht Hn N0 H.
  apply (for_opt_inv (fun n s =>
    (forall t, 0 <= t < n -> terminal_ok total (terminal_at m man t))
    /\ ((forall t, 0 <= t < n -> is_free_terminal (fst (terminal_at m man t)) = false) -> no_free s)))
    in H; [exact H | exact Hn | split; [intros; lia | auto] |].
  intros t s1 s2 Hi [A N] E. destruct (valid_terminal_step m man total t s1 s2 Ht E) as [B N'].
  split.
  - intros t' Ht'. destruct (Z.eq_dec t' t) as [-> | Hne]; [exact B | apply A; lia].
  - intros F. apply N'; [apply F; lia | apply N; intros; apply F; lia].
Qed.

(** ** The terminal dependencies of one program *)

Lemma tdeps_elem m man i t :
  t ∈ p_tdeps (program_at m man i) <->
  exists j, 0 <= j < ia_css_program_manifest_get_terminal_dependency_count m
                       (ia_css_program_group_manifest_get_prgrm_mnfst m man i)
    /\ t = ia_css_program_manifest_get_terminal_dependency m
             (ia_css_program_group_manifest_get_prgrm_mnfst m man i) j.
Proof.
  cbn [p_tdeps program_at]. rewrite list_elem_of_fmap.
  split; intros (j & A & B); exists j; rewrite elem_of_range in *; auto.
Qed.

Lemma deps_elem m man i d :
  d ∈ p_deps (program_at m man i) <->
  exists j, 0 <= j < ia_css_program_manifest_get_program_dependency_count m
                       (ia_css_program_group_manifest_get_prgrm_mnfst m man i)
    /\ d = ia_css_program_manifest_get_program_dependency m
             (ia_css_program_group_manifest_get_prgrm_mnfst m man i) j.
Proof.
  cbn [p_deps program_at]. rewrite list_elem_of_fmap.
  split; intros (j & A & B); exists j; rewrite elem_of_range in *; auto.
Qed.

Lemma dependency_range m p j :
  0 <= ia_css_program_manifest_get_program_dependency m p j < 256
  /\ 0 <= ia_css_program_manifest_get_terminal_dependency m p j < 256.
Proof.
  unfold ia_css_program_manifest_get_program_dependency,
    ia_css_program_manifest_get_terminal_dependency, IA_CSS_PROGRAM_INVALID_DEPENDENCY.
  destruct (is_null p); [lia |]. cbv zeta.
  split; (destruct (_ <? _); [apply rd_U8_range | lia]).
Qed.

Lemma dependency_counts_range m p :
  0 <= ia_css_program_manifest_get_program_dependency_count m p
  /\ 0 <= ia_css_program_manifest_get_terminal_dependency_count m p.
Proof.
  unfold ia_css_program_manifest_get_program_dependency_count,
    ia_css_program_manifest_get_terminal_dependency_count.
  split; (destruct (is_null p); [lia | apply rd_U8_range]).
Qed.

Lemma valid_tdeps_step m man i rb rb' :
  rb_wf rb ->
  valid_terminal_dependencies m man (ia_css_program_group_manifest_get_prgrm_mnfst m man i) rb = Some rb' ->
  (forall t, t ∈ p_tdeps (program_at m man i) -> 0 <= t < g_terminals (graph_of m man))
  /\ rb_wf rb'
  /\ (forall t, Z.testbit rb' t = true ->
        Z.testbit rb t = true
        \/ (t < 32 /\ is_alternative (p_type (program_at m man i)) = false
            /\ t ∈ p_tdeps (program_at m man i))).
Proof.
  intros Hrb H. unfold valid_terminal_dependencies in H. cbv zeta in H.
  set (p := ia_css_program_group_manifest_get_prgrm_mnfst m man i) in *.
  destruct (dependency_counts_range m p) as [_ Hc].
  split.
  - intros t Ht. apply tdeps_elem in Ht. fold p in Ht. destruct Ht as (j & Hj & ->).
    split; [apply dependency_range |].
    destruct (for_opt_all _ _ _ _ _ H j Hj) as (a & a' & E). verif_inv E. apply Z.ltb_lt, V.
  - apply (for_opt_inv (fun n rb' => rb_wf rb' /\ forall t, Z.testbit rb' t = true ->
        Z.testbit rb t = true
        \/ (t < 32 /\ is_alternative (p_type (program_at m man i)) = false
            /\ t ∈ p_tdeps (program_at m man i)))) in H; [exact H | exact Hc | auto |].
    intros j b b' Hj [W B] E. verif_inv E.
    destruct (dependency_range m p j) as [_ R].
    destruct (_ && _) eqn:A; [| injection E as <-; auto].
    cbn [USE_SIMPLIFIED_GRAPH_MODEL orb] in E. injection E as <-.
    destruct (set_unique_bit b (ia_css_program_manifest_get_terminal_dependency m p j) 0 W (proj1 R))
      as [W' _]. split; [exact W' |].
    intros t Ht. destruct (set_unique_bit b (ia_css_program_manifest_get_terminal_dependency m p j) t W
      (proj1 R)) as [_ S]. destruct (S Ht) as [F | [-> L]]; [apply B, F |].
    right. split; [exact L | split].
    + apply andb_true_iff in A. destruct A as [A1 A2]. apply negb_true_iff in A1, A2.
      unfold is_alternative. cbn [p_type program_at]. fold p. rewrite A1, A2. reflexivity.
    + apply tdeps_elem. exists j. auto.
Qed.

(** ** Subnodes and other nodes *)

Lemma deps_single m man i d :
  p_deps (program_at m man i) = [d] <->
  ia_css_program_manifest_get_program_dependency_count m
    (ia_css_program_group_manifest_get_prgrm_mnfst m man i) = 1
  /\ ia_css_program_manifest_get_program_dependency m
       (ia_css_program_group_manifest_get_prgrm_mnfst m man i) 0 = d.
Proof.
  cbn [p_deps program_at].
  set (p := ia_css_program_group_manifest_get_prgrm_mnfst m man i).
  destruct (dependency_counts_range m p) as [Hc _].
  split.
  - intros E. assert (L := f_equal (@length Z) E).
    rewrite length_map in L. unfold range in L. rewrite length_seqZ in L. cbn in L.
    assert (C : ia_css_program_manifest_get_program_dependency_count m p = 1) by lia.
    split; [exact C |]. rewrite C in E. injection E as E. exact E.
  - intros [-> <-]. reflexivity.
Qed.

Lemma length_tdeps m man i :
  Z.of_nat (length (p_tdeps (program_at m man i)))
  = ia_css_program_manifest_get_terminal_dependency_count m
      (ia_css_program_group_manifest_get_prgrm_mnfst m man i).
Proof.
  cbn [p_tdeps program_at].
  set (p := ia_css_program_group_manifest_get_prgrm_mnfst m man i).
  destruct (dependency_counts_range m p) as [_ Hc].
  rewrite length_map. unfold range. rewrite length_seqZ. lia.
Qed.

(** A program manifest past the last one has no type. *)
Lemma prgrm_mnfst_in_range m man i :
  ia_css_program_manifest_get_type m (ia_css_program_group_manifest_get_prgrm_mnfst m man i)
    <> IA_CSS_N_PROGRAM_TYPES ->
  i < g_programs (graph_of m man).
Proof.
  unfold ia_css_program_group_manifest_get_prgrm_mnfst. cbn [g_programs graph_of].
  unfold ia_css_program_group_manifest_get_program_count. cbv zeta.
  destruct (is_null man); [intros H; exfalso; apply H; reflexivity |].
  destruct (Z.ltb_spec i (rd m man pgm.program_count)); [auto |].
  intros N. exfalso. apply N. reflexivity.
Qed.

Lemma valid_subnode_ok m man i :
  is_sub (p_type (program_at m man i)) = true ->
  valid_subnode m man (ia_css_program_group_manifest_get_prgrm_mnfst m man i) = Some tt ->
  exists s, p_deps (program_at m man i) = [s] /\ 0 <= s < g_programs (graph_of m man)
    /\ p_type (program_at m man s) = super_of (p_type (program_at m man i))
    /\ (forall k, has_kernel (p_kernels (program_at m man i)) k ->
          has_kernel (p_kernels (program_at m man s)) k)
    /\ p_kernels (program_at m man i) <> p_kernels (program_at m man s)
    /\ (if is_alternative (p_type (program_at m man i))
        then (length (p_tdeps (program_at m man i)) <= length (p_tdeps (program_at m man s)))%nat
        else p_tdeps (program_at m man i) = []).
Proof.
  intros Hsub H. unfold valid_subnode in H. cbv zeta in H.
  set (p := ia_css_program_group_manifest_get_prgrm_mnfst m man i) in *.
  set (s := ia_css_program_manifest_get_program_dependency m p 0) in *.
  verif_inv H. apply Z.eqb_eq in V, V1. apply negb_true_iff in V2. exists s.
  pose proof (length_tdeps m man i) as Li. pose proof (length_tdeps m man s) as Ls. fold p in Li.
  split; [apply deps_single; auto |].
  assert (T : p_type (program_at m man s) = super_of (p_type (program_at m man i))) by exact V1.
  split; [split; [apply dependency_range |] |].
  { apply prgrm_mnfst_in_range. change (p_type (program_at m man s) <> IA_CSS_N_PROGRAM_TYPES).
    rewrite T. unfold super_of. destruct (_ =? _); [discriminate |]. destruct (_ =? _); discriminate. }
  split; [exact T |]. split; [rewrite subset_kernels in V3 by auto with kb; exact V3 |]. split.
  - intros E. eapply equal_kernels_neq in V2; [| auto with kb | auto with kb]. apply V2. symmetry. exact E.
  - unfold is_alternative. cbn [p_type program_at]. fold p.
    destruct ((_ =? _) || _) in V0 |- *.
    + apply Z.leb_le in V0. lia.
    + apply Z.eqb_eq in V0. apply length_zero_iff_nil. lia.
Qed.

Lemma valid_node_ok m man i d :
  valid_node m man (ia_css_program_group_manifest_get_prgrm_mnfst m man i) = Some tt ->
  d ∈ p_deps (program_at m man i) ->
  0 <= d < g_programs (graph_of m man) /\ is_alternative (p_type (program_at m man d)) = false.
Proof.
  intros H Hd. apply deps_elem in Hd. destruct Hd as (k & Hk & ->).
  unfold valid_node in H. cbv zeta in H.
  destruct (for_opt_all _ _ _ _ _ H k Hk) as (a & a' & E). verif_inv E.
  apply Z.ltb_lt in V. apply andb_true_iff in V0. destruct V0 as [A B].
  apply negb_true_iff in A, B. split; [split; [apply dependency_range | exact V] |].
  unfold is_alternative. cbn [p_type program_at]. rewrite A, B. reflexivity.
Qed.

(** ** Pairs of programs *)

Lemma is_sub_cases ty :
  is_sub ty = true ->
  ty = IA_CSS_PROGRAM_TYPE_PARALLEL_SUB \/ ty = IA_CSS_PROGRAM_TYPE_EXCLUSIVE_SUB
  \/ ty = IA_CSS_PROGRAM_TYPE_VIRTUAL_SUB.
Proof. unfold is_sub. rewrite !orb_true_iff, !Z.eqb_eq. tauto. Qed.

Lemma valid_relation_siblings m man i j s :
  i <> j -> valid_relation m man i j = Some tt ->
  p_type (program_at m man i) = p_type (program_at m man j) ->
  sub_of (graph_of m man) i s -> sub_of (graph_of m man) j s ->
  is_alternative (p_type (program_at m man i)) = true
  /\ p_kernels (program_at m man i) <> p_kernels (program_at m man j).
Proof.
  intros Hne H Hty [Si Di] [Sj Dj]. cbn [g_program graph_of] in *.
  apply deps_single in Di, Dj. destruct Di as [_ Di], Dj as [_ Dj].
  unfold valid_relation in H. cbv zeta in H. rewrite (proj2 (Z.eqb_neq i j) Hne) in H.
  verif_inv H. clear H V V1.
  set (pi := ia_css_program_group_manifest_get_prgrm_mnfst m man i) in *.
  set (pj := ia_css_program_group_manifest_get_prgrm_mnfst m man j) in *.
  cbn [p_type p_kernels program_at] in *. fold pi pj in Hty, Si, Sj |- *.
  rewrite Di, Dj, Z.eqb_refl, <- Hty in V0.
  pose proof (manifest_kernels_wf m pi) as Wi. pose proof (manifest_kernels_wf m pj) as Wj.
  set (ki := ia_css_program_manifest_get_kernel_bitmap m pi) in *.
  set (kj := ia_css_program_manifest_get_kernel_bitmap m pj) in *.
  assert (K : ia_css_is_kernel_bitmap_equal ki kj = false).
  { destruct (ia_css_is_kernel_bitmap_equal ki kj); [| reflexivity].
    destruct (is_sub_cases _ Si) as [E | [E | E]]; rewrite E in V0; cbn in V0;
      rewrite !andb_false_r in V0; discriminate. }
  split; [| apply equal_kernels_neq; assumption].
  destruct (is_sub_cases _ Si) as [E | [E | E]]; rewrite E in V0 |- *; [| reflexivity | reflexivity].
  exfalso. rewrite K in V0. cbn in V0. rewrite !andb_true_iff in V0.
  destruct V0 as ((_ & (_ & X)) & _). rewrite xorb_false_r in X.
  apply andb_true_iff in X. destruct X as [X1 X2].
  rewrite (subset_antisym _ _ Wi Wj X1 X2) in K.
  rewrite (proj2 (equal_iff kj kj Wj Wj) eq_refl) in K. discriminate.
Qed.

Lemma valid_relation_supers m man i j :
  i <> j -> valid_relation m man i j = Some tt ->
  is_super (p_type (program_at m man i)) = true -> is_super (p_type (program_at m man j)) = true ->
  p_kernels (program_at m man i) <> p_kernels (program_at m man j).
Proof.
  intros Hne H Si Sj. unfold valid_relation in H. cbv zeta in H.
  rewrite (proj2 (Z.eqb_neq i j) Hne) in H. verif_inv H. clear V0 V1.
  destruct (for_opt _ _ _); [| discriminate].
  unfold ia_css_is_program_manifest_supernode_program_type in H.
  cbn [p_type p_kernels program_at] in *. unfold is_super in Si, Sj. rewrite Si, Sj in H.
  apply negb_true_iff in V. cbn [andb] in H.
  set (pi := ia_css_program_group_manifest_get_prgrm_mnfst m man i) in *.
  set (pj := ia_css_program_group_manifest_get_prgrm_mnfst m man j) in *.
  destruct (ia_css_is_kernel_bitmap_intersection_empty _ _) eqn:I; cbn [negb] in H.
  - apply disjoint_kernels_neq; auto with kb.
  - verif_inv H. apply equal_kernels_neq; auto with kb. apply negb_true_iff. assumption.
Qed.

(** ** The program loop *)

(** What one iteration checks, whatever was collected before it. *)
Definition program_checked (m : mem) (man : Z) (total : ia_css_kernel_bitmap_t) (i : Z) : Prop :=
  let p := ia_css_program_group_manifest_get_prgrm_mnfst m man i in
  let pg := program_at m man i in
  ia_css_is_kernel_bitmap_empty (p_kernels pg) = false
  /\ ia_css_is_kernel_bitmap_subset total (p_kernels pg) = true
  /\ (p_deps pg <> [] \/ p_tdeps pg <> [])
  /\ (if is_sub (p_type pg) then valid_subnode m man p else valid_node m man p) = Some tt
  /\ (forall j, 0 <= j < g_programs (graph_of m man) -> valid_relation m man i j = Some tt)
  /\ (forall t, t ∈ p_tdeps pg -> 0 <= t < g_terminals (graph_of m man)).

(** What the loop has collected after [n] programs. *)
Definition collected (m : mem) (man n : Z) (s : ia_css_kernel_bitmap_t * Z) : Prop :=
  kb_wf (fst s) /\ rb_wf (snd s)
  /\ (forall k, has_kernel (fst s) k
        <-> exists i, 0 <= i < n /\ has_kernel (p_kernels (program_at m man i)) k)
  /\ (forall t, Z.testbit (snd s) t = true ->
        0 <= t < 32 /\ t < g_terminals (graph_of m man)
        /\ exists i, 0 <= i < n /\ is_alternative (p_type (program_at m man i)) = false
             /\ t ∈ p_tdeps (program_at m man i)).

Lemma some_unit (u : unit) : Some u = Some tt.
Proof. destruct u. reflexivity. Qed.

Lemma valid_program_step m man total i s s' :
  0 <= i -> collected m man i s -> valid_program_body m man total i s = Some s' ->
  program_checked m man total i /\ collected m man (i + 1) s'.
Proof.
  intros Hi (Wc & Wr & Ck & Ct) H. destruct s as [cb rb]. unfold valid_program_body in H. cbv zeta in H.
  set (p := ia_css_program_group_manifest_get_prgrm_mnfst m man i) in *.
  verif_inv H. apply negb_true_iff in V, V2. apply Z.eqb_neq in V2.
  pose proof (dependency_counts_range m p) as [Cp Ctd].
  destruct (if ia_css_is_program_manifest_subnode_program_type m p then _ else _) as [[] |] eqn:N;
    [| discriminate].
  destruct (for_opt _ tt _) as [[] |] eqn:R; [| discriminate].
  destruct (valid_terminal_dependencies m man p rb) as [rb' |] eqn:T; [| discriminate].
  injection H as <-. cbn [fst snd] in *.
  destruct (valid_tdeps_step m man i rb rb' Wr T) as (Td & Wr' & Tb).
  split.
  - split; [exact V |]. split; [exact V0 |]. split.
    + pose proof (length_tdeps m man i) as L. fold p in L.
      assert (Lp : Z.of_nat (length (p_deps (program_at m man i)))
                   = ia_css_program_manifest_get_program_dependency_count m p).
      { cbn [p_deps program_at]. fold p. rewrite length_map. unfold range. rewrite length_seqZ. lia. }
      destruct (p_deps (program_at m man i)); [| left; discriminate].
      destruct (p_tdeps (program_at m man i)); [cbn in L, Lp; lia | right; discriminate].
    + split; [exact N |]. split; [| exact Td].
      intros j Hj. destruct (for_opt_all _ _ _ _ _ R j Hj) as (a & a' & E). rewrite E. apply some_unit.
  - split; [apply union_wf; auto with kb |]. split; [exact Wr' |]. split.
    + intros k. cbn [fst]. rewrite union_kernels, Ck by auto with kb. split.
      * intros [(i' & Hi' & E) | E]; [exists i' | exists i]; split; (lia || exact E).
      * intros (i' & Hi' & E). destruct (Z.eq_dec i' i) as [-> | Hne]; [right; exact E |].
        left. exists i'. split; [lia | exact E].
    + intros t Ht. cbn [snd] in Ht. destruct (Tb t Ht) as [B | (L & A & E)].
      * destruct (Ct t B) as (R1 & R2 & i' & Hi' & X). repeat split; try lia. exists i'. split; [lia | exact X].
      * pose proof (Td t E). repeat split; try lia. exists i. split; [lia | auto].
Qed.

Lemma valid_programs_scan m man total np s :
  0 <= np -> for_opt (range 0 np) (ia_css_kernel_bitmap_clear, 0) (valid_program_body m man total) = Some s ->
  (forall i, 0 <= i < np -> program_checked m man total i) /\ collected m man np s.
Proof.
  intros Hn H.
  apply (for_opt_inv (fun n s => 0 <= n /\ (forall i, 0 <= i < n -> program_checked m man total i)
                                 /\ collected m man n s)) in H; [tauto | exact Hn | |].
  - split; [lia |]. split; [intros; lia |]. split; [apply clear_wf |]. split; [split; cbn; lia |].
    split.
    + intros k. split; [| intros (i & Hi & _); lia]. intros [_ E]. cbn [fst] in E. unfold kbit in E.
      rewrite clear_val, Z.bits_0 in E. discriminate.
    + intros t E. cbn [snd] in E. rewrite Z.bits_0 in E. discriminate.
  - intros i s1 s2 Hi (_ & A & C) E. destruct (valid_program_step m man total i s1 s2 (proj1 Hi) C E) as [P C'].
    split; [lia | split; [| exact C']].
    intros i' Hi'. destruct (Z.eq_dec i' i) as [-> | Hne]; [exact P | apply A; lia].
Qed.

(** ** The check as a whole *)

Lemma group_counts_range m man :
  0 <= g_programs (graph_of m man) < 256 /\ 0 <= g_terminals (graph_of m man) < 256.
Proof.
  cbn [g_programs g_terminals graph_of]. unfold ia_css_program_group_manifest_get_program_count,
    ia_css_program_group_manifest_get_terminal_count.
  split; (destruct (is_null man); [lia | apply rd_U8_range]).
Qed.

Lemma valid_manifest_inv m man :
  ia_css_is_program_group_manifest_valid m man = true ->
  let g := graph_of m man in
  g_programs g <> 0 /\ g_terminals g <> 0
  /\ exists s kb rb, for_opt (range 0 (g_terminals g)) (TScan ia_css_kernel_bitmap_clear 0 0 0 0 false)
                    (valid_terminal_body m man (g_kernels g)) = Some s
     /\ for_opt (range 0 (g_programs g)) (ia_css_kernel_bitmap_clear, 0)
          (valid_program_body m man (g_kernels g)) = Some (kb, rb)
     /\ ia_css_is_kernel_bitmap_equal (g_kernels g) kb = true
     /\ (no_free s -> vied_nci_bitmap_compute_weight rb = g_terminals g).
Proof.
  intros H. unfold ia_css_is_program_group_manifest_valid in H.
  change (vied_nci_bit_mask VIED_NCI_RESOURCE_BITMAP_BITS) with 0 in H. cbv zeta in H.
  cbn [g_programs g_terminals g_kernels graph_of].
  destruct (negb (is_null man)); [| discriminate].
  destruct (negb (ia_css_program_group_manifest_get_size m man =? 0)); [| discriminate].
  destruct (negb (ia_css_program_group_manifest_get_alignment m man =? 0)); [| discriminate].
  destruct (negb (ia_css_program_group_manifest_get_program_group_ID m man =? 0)); [| discriminate].
  destruct (Z.eqb_spec (ia_css_program_group_manifest_get_program_count m man) 0) as [| Np]; [discriminate |].
  destruct (Z.eqb_spec (ia_css_program_group_manifest_get_terminal_count m man) 0) as [| Nt]; [discriminate |].
  cbn [negb] in H.
  destruct (negb (ia_css_is_kernel_bitmap_empty _)); [| discriminate].
  cbn [vied_nci_is_bitmap_empty Z.eqb] in H.
  destruct (for_opt _ (TScan _ _ _ _ _ _) _) as [s |] eqn:T; [| discriminate].
  destruct (for_opt _ (_, 0) _) as [[kb rb] |] eqn:R; [| discriminate].
  destruct (ia_css_is_kernel_bitmap_equal _ kb) eqn:E; [| discriminate].
  split; [exact Np | split; [exact Nt |]]. exists s, kb, rb.
  split; [reflexivity | split; [reflexivity | split; [exact E |]]].
  intros (N1 & N2 & N3 & N4). rewrite N1, N2, N3, N4 in H. cbn [negb orb Z.eqb] in H.
  destruct (0 <=? _); [| discriminate].
  destruct (Z.eqb_spec (vied_nci_bitmap_compute_weight rb)
              (ia_css_program_group_manifest_get_terminal_count m man)); [assumption | discriminate].
Qed.

Lemma check_graph_of m man :
  ia_css_is_program_group_manifest_valid m man = true -> ValidGraph (graph_of m man).
Proof.
  intros H. destruct (valid_manifest_inv m man H) as (Np & Nt & s & kb & rb & T & R & E & W).
  destruct (group_counts_range m man) as [Rp Rt].
  assert (Kw : kb_wf (g_kernels (graph_of m man))) by apply group_kernels_wf.
  destruct (valid_terminals_scan m man (g_kernels (graph_of m man)) (g_terminals (graph_of m man))
    (TScan ia_css_kernel_bitmap_clear 0 0 0 0 false) s Kw (proj1 Rt)) as [To Tf];
    [repeat split | exact T |].
  destruct (valid_programs_scan m man _ _ (kb, rb) (proj1 Rp) R) as [Pc (Wc & Wr & Ck & Ct)].
  cbn [fst snd] in *. apply (equal_iff _ _ Kw Wc) in E.
  split.
  - lia.
  - lia.
  - intros k. rewrite E. apply Ck.
  - intros i. apply manifest_kernels_wf.
  - intros i Hi. destruct (Pc i Hi) as (V & _). rewrite nonempty_kernels in V by auto with kb. exact V.
  - intros i Hi. apply (Pc i Hi).
  - intros i d Hi Hs Hd. destruct (Pc i Hi) as (_ & _ & _ & N & _). cbn [g_program graph_of] in *.
    rewrite Hs in N. apply (valid_node_ok m man i d N Hd).
  - intros i t Hi Ht. destruct (Pc i Hi) as (_ & _ & _ & _ & _ & D). apply D, Ht.
  - intros i Hi Hs. destruct (Pc i Hi) as (_ & _ & _ & N & _). cbn [g_program graph_of] in *.
    rewrite Hs in N. apply (valid_subnode_ok m man i Hs N).
  - intros i j s' Hi Hj Hne. destruct (Pc i Hi) as (_ & _ & _ & _ & Rl & _).
    apply (valid_relation_siblings m man i j s' Hne (Rl j Hj)).
  - intros i j Hi Hj Hne. destruct (Pc i Hi) as (_ & _ & _ & _ & Rl & _).
    apply (valid_relation_supers m man i j Hne (Rl j Hj)).
  - intros t Ht. apply To, Ht.
  - intros F. specialize (W (Tf F)). unfold vied_nci_bitmap_compute_weight in W.
    rewrite weight_loop_popcount32, Z.add_0_l in W by exact Wr.
    destruct (popcount_full (Z.to_nat VIED_NCI_RESOURCE_BITMAP_BITS) rb
                (Z.min 32 (g_terminals (graph_of m man)))) as [L Fu]; [lia | |].
    { intros j Hj. destruct (Z.testbit rb j) eqn:B; [| reflexivity]. destruct (Ct j B). lia. }
    split; [lia |]. intros t Ht. apply Ct, Fu; lia.
Qed.

(** ** Theorems *)

(** C33: a manifest that passes the check describes a well-formed graph: the
    programs cover the group's kernels, dependencies stay inside the group,
    every subnode has exactly one supernode of its kind with strictly more
    kernels, subnodes of one supernode are alternatives with different kernels,
    and every terminal is of an accepted type and, when there are only data
    and spatial terminals, bound to a program. *)
Theorem manifest_check_sound m man :
  ia_css_is_program_group_manifest_valid m man = true ->
  man <> NULL
  /\ ia_css_program_group_manifest_get_size m man <> 0
  /\ ia_css_program_group_manifest_get_program_group_ID m man <> 0
  /\ ValidGraph (graph_of m man).
Proof.
  intros H. pose proof (check_graph_of m man H) as G.
  unfold ia_css_is_program_group_manifest_valid in H.
  destruct (negb (is_null man)) eqn:E1; [| discriminate].
  destruct (negb (ia_css_program_group_manifest_get_size m man =? 0)) eqn:E2; [| discriminate].
  destruct (negb (ia_css_program_group_manifest_get_alignment m man =? 0)); [| discriminate].
  destruct (negb (ia_css_program_group_manifest_get_program_group_ID m man =? 0)) eqn:E3; [| discriminate].
  unfold is_null in E1. bsimp. auto.
Qed.

Lemma manifest_check_sound_witness :
  ValidGraph (graph_of sample_group_manifest 1000)
  /\ p_deps (g_program (graph_of sample_group_manifest 1000) 1) = [0].
Proof.
  split; [| vm_compute; reflexivity].
  apply (manifest_check_sound sample_group_manifest 1000). vm_compute. reflexivity.
Defined.

(** The check refuses what the library otherwise supports: a manifest
    with a sliced or a state terminal is never valid, and neither is one with
    two parallel subnodes of the same supernode, although the check's comments
    say that such subnodes must have equal kernels. *)
Theorem manifest_check_refusals m man :
  ((exists t, 0 <= t < g_terminals (graph_of m man)
      /\ In (fst (terminal_at m man t))
           [IA_CSS_TERMINAL_TYPE_PARAM_SLICED_IN; IA_CSS_TERMINAL_TYPE_PARAM_SLICED_OUT;
            IA_CSS_TERMINAL_TYPE_STATE_IN; IA_CSS_TERMINAL_TYPE_STATE_OUT])
   \/ (exists i j s, 0 <= i < g_programs (graph_of m man) /\ 0 <= j < g_programs (graph_of m man)
       /\ i <> j /\ sub_of (graph_of m man) i s /\ sub_of (graph_of m man) j s
       /\ p_type (program_at m man i) = IA_CSS_PROGRAM_TYPE_PARALLEL_SUB
       /\ p_type (program_at m man j) = IA_CSS_PROGRAM_TYPE_PARALLEL_SUB)) ->
  ia_css_is_program_group_manifest_valid m man = false.
Proof.
  intros H. destruct (ia_css_is_program_group_manifest_valid m man) eqn:V; [| reflexivity]. exfalso.
  pose proof (check_graph_of m man V) as G.
  destruct H as [(t & Ht & K) | (i & j & s & Hi & Hj & Hne & Si & Sj & Ti & Tj)].
  - pose proof (vg_terminal t Ht) as O. cbn [g_terminal graph_of] in O.
    cbn [In] in K. destruct K as [K | [K | [K | [K | []]]]]; rewrite <- K in O;
      destruct O as [O | [(O & _) | O]]; vm_compute in O; discriminate.
  - destruct (vg_siblings i j s Hi Hj Hne) as [A _]; [cbn [g_program graph_of]; congruence | exact Si | exact Sj |].
    cbn [g_program graph_of] in A. rewrite Ti in A. discriminate.
Qed.

(** A singular program and a sliced parameter terminal. *)
Definition sample_sliced : mem :=
  snd (ia_css_terminal_manifest_set_type 1072 IA_CSS_TERMINAL_TYPE_PARAM_SLICED_IN
         (sample_shared_terminal 1)).

Lemma manifest_check_refusals_witness :
  ia_css_is_program_group_manifest_valid sample_sliced 1000 = false
  /\ ia_css_is_program_group_manifest_valid (sample_shared_terminal 1) 1000 = true.
Proof.
  split; [| vm_compute; reflexivity].
  apply (manifest_check_refusals sample_sliced 1000). left. exists 0.
  split; [vm_compute; split; [discriminate | reflexivity] | vm_compute; auto].
Defined.

(** With data terminals only, whether programs may share a terminal
    depends on how many do: one or three singular programs bound to the only
    terminal make a valid manifest, two or four do not, although the
    simplified graph model is there to allow several programs per terminal. *)
Theorem shared_terminal_parity :
  map (fun n => ia_css_is_program_group_manifest_valid (sample_shared_terminal n) 1000) [1; 2; 3; 4]
  = [true; false; true; false].
Proof. vm_compute. reflexivity. Qed.
