(* ===== verification/GroupSelection.v ===== *)
(** * Which programs and terminals of a group run

    src/ia_css_psys_process_group.c and
    include/ia_css_psys_process_group_impl.h: given the kernels a client
    enables, which programs of a program group become processes and which
    terminals are needed, and how many of each the process group has room
    for.  The theorems rely on a valid manifest only through [ValidGraph]. *)

From S2P Require Import Prelude Memory ResourceModel KernelBitmap ProgramGroupParam ProgramManifest Terminal TerminalManifest ProgramGroupManifest ProgramGraph.
#[local] Open Scope css_scope.

(** ** Operations *)

Section Selection.
Context (m : mem).

Definition ia_css_process_group_is_program_enabled
    (program_manifest : Z) (enable_bitmap : ia_css_kernel_bitmap_t) : bool :=
  let program_bitmap := ia_css_program_manifest_get_kernel_bitmap m program_manifest in
  let program_type := ia_css_program_manifest_get_type m program_manifest in
  if negb (ia_css_is_kernel_bitmap_intersection_empty enable_bitmap program_bitmap) then
    if (program_type =? IA_CSS_PROGRAM_TYPE_EXCLUSIVE_SUB)
       || (program_type =? IA_CSS_PROGRAM_TYPE_EXCLUSIVE_SUPER)
       || (program_type =? IA_CSS_PROGRAM_TYPE_VIRTUAL_SUB) then
      match
        (if (program_type =? IA_CSS_PROGRAM_TYPE_EXCLUSIVE_SUB)
            || (program_type =? IA_CSS_PROGRAM_TYPE_VIRTUAL_SUB) then
           let prog_group_manifest := ia_css_program_manifest_get_parent m program_manifest in
           let super_prog_idx := ia_css_program_manifest_get_program_dependency m program_manifest 0 in
           let super_program_manifest :=
             ia_css_program_group_manifest_get_prgrm_mnfst m prog_group_manifest super_prog_idx in
           verif negb (is_null super_program_manifest) ;;
           verif negb (((program_type =? IA_CSS_PROGRAM_TYPE_EXCLUSIVE_SUB)
                        && negb (ia_css_program_manifest_get_type m super_program_manifest
                                 =? IA_CSS_PROGRAM_TYPE_EXCLUSIVE_SUPER))
                       || ((program_type =? IA_CSS_PROGRAM_TYPE_VIRTUAL_SUB)
                           && negb (ia_css_program_manifest_get_type m super_program_manifest
                                    =? IA_CSS_PROGRAM_TYPE_VIRTUAL_SUPER))) ;;
           let super_program_bitmap :=
             ia_css_program_manifest_get_kernel_bitmap m super_program_manifest in
           Some (ia_css_kernel_bitmap_intersection enable_bitmap super_program_bitmap)
         else Some (ia_css_kernel_bitmap_intersection enable_bitmap program_bitmap)) with
      | None => false
      | Some program_enable_bitmap =>
          ia_css_is_kernel_bitmap_equal program_enable_bitmap program_bitmap
      end
    else if program_type =? IA_CSS_PROGRAM_TYPE_VIRTUAL_SUPER then false
    else true
  else false.

Definition ia_css_process_group_is_data_terminal_enabled
    (data_term_manifest : Z) (enable_bitmap : ia_css_kernel_bitmap_t) : bool :=
  let term_bitmap := ia_css_data_terminal_manifest_get_kernel_bitmap m data_term_manifest in
  negb (ia_css_is_kernel_bitmap_intersection_empty enable_bitmap term_bitmap).

Definition ia_css_process_group_is_spatial_terminal_enabled
    (spatial_term_man : Z) (enable_bitmap : ia_css_kernel_bitmap_t) : bool :=
  let term_kernel_bitmap :=
    ia_css_kernel_bitmap_set ia_css_kernel_bitmap_clear (rd m spatial_term_man sptm.kernel_id) in
  negb (ia_css_is_kernel_bitmap_intersection_empty enable_bitmap term_kernel_bitmap).

Definition ia_css_process_group_is_terminal_enabled
    (terminal_manifest : Z) (enable_bitmap : ia_css_kernel_bitmap_t) : bool :=
  if is_null terminal_manifest then false
  else
    let terminal_type := ia_css_terminal_manifest_get_type m terminal_manifest in
    if ia_css_is_terminal_manifest_data_terminal m terminal_manifest then
      ia_css_process_group_is_data_terminal_enabled terminal_manifest enable_bitmap
    else if ia_css_is_terminal_manifest_spatial_parameter_terminal m terminal_manifest then
      ia_css_process_group_is_spatial_terminal_enabled terminal_manifest enable_bitmap
    else if ia_css_is_terminal_manifest_parameter_terminal m terminal_manifest
            && (terminal_type =? IA_CSS_TERMINAL_TYPE_PARAM_CACHED_IN) then true
    else if ia_css_is_terminal_manifest_parameter_terminal m terminal_manifest
            && (terminal_type =? IA_CSS_TERMINAL_TYPE_PARAM_CACHED_OUT) then
      match
        for_opt (range 0 (rd m terminal_manifest ptm.param_manifest_section_desc_count))
          ia_css_kernel_bitmap_clear (fun section term_kernel_bitmap =>
            let section_desc :=
              ia_css_param_terminal_manifest_get_prm_sct_desc m terminal_manifest section in
            verif negb (is_null section_desc) ;;
            let kernel_id := ia_css_param_manifest_section_desc_get_kernel_id m section_desc in
            Some (ia_css_kernel_bitmap_set term_kernel_bitmap kernel_id)) with
      | None => false
      | Some term_kernel_bitmap =>
          negb (ia_css_is_kernel_bitmap_intersection_empty enable_bitmap term_kernel_bitmap)
      end
    else if ia_css_is_terminal_manifest_program_terminal m terminal_manifest then
      match
        for_opt (range 0 (rd m terminal_manifest prtm.fragment_param_manifest_section_desc_count))
          ia_css_kernel_bitmap_clear (fun section term_kernel_bitmap =>
            let desc :=
              ia_css_program_terminal_manifest_get_frgmnt_prm_sct_desc m terminal_manifest section in
            verif negb (is_null desc) ;;
            Some (ia_css_kernel_bitmap_set term_kernel_bitmap
                    (ia_css_fragment_param_manifest_section_desc_get_kernel_id m desc))) with
      | None => false
      | Some term_kernel_bitmap =>
          negb (ia_css_is_kernel_bitmap_intersection_empty enable_bitmap term_kernel_bitmap)
      end
    else if ia_css_is_terminal_manifest_program_control_init_terminal m terminal_manifest then true
    else false.

(** EXIT returns the count, which is still 0 there. *)
Definition ia_css_process_group_compute_process_count (manifest param : Z) : Z :=
  if is_null manifest then 0
  else if is_null param then 0
  else
    let total_bitmap := ia_css_program_group_manifest_get_kernel_bitmap m manifest in
    let enable_bitmap := ia_css_program_group_param_get_kernel_enable_bitmap m param in
    if negb (ia_css_is_program_group_manifest_valid m manifest) then 0
    else if negb (ia_css_is_kernel_bitmap_subset total_bitmap enable_bitmap) then 0
    else if ia_css_is_kernel_bitmap_empty enable_bitmap then 0
    else
      foldl (fun process_count i =>
        let program_manifest := ia_css_program_group_manifest_get_prgrm_mnfst m manifest i in
        let program_bitmap := ia_css_program_manifest_get_kernel_bitmap m program_manifest in
        if negb (ia_css_is_kernel_bitmap_intersection_empty enable_bitmap program_bitmap) then
          let program_type := ia_css_program_manifest_get_type m program_manifest in
          if negb (program_type =? IA_CSS_PROGRAM_TYPE_EXCLUSIVE_SUB)
             && negb (program_type =? IA_CSS_PROGRAM_TYPE_VIRTUAL_SUB)
          then u8 (process_count + 1) else process_count
        else process_count)
        0 (range 0 (ia_css_program_group_manifest_get_program_count m manifest)).

Definition ia_css_process_group_compute_terminal_count (manifest param : Z) : Z :=
  if is_null manifest then 0
  else if is_null param then 0
  else
    let total_bitmap := ia_css_program_group_manifest_get_kernel_bitmap m manifest in
    let enable_bitmap := ia_css_program_group_param_get_kernel_enable_bitmap m param in
    if negb (ia_css_is_program_group_manifest_valid m manifest) then 0
    else if negb (ia_css_is_kernel_bitmap_subset total_bitmap enable_bitmap) then 0
    else if ia_css_is_kernel_bitmap_empty enable_bitmap then 0
    else
      foldl (fun terminal_count i =>
        let tmanifest := ia_css_program_group_manifest_get_term_mnfst m manifest i in
        if ia_css_process_group_is_terminal_enabled tmanifest enable_bitmap
        then u8 (terminal_count + 1) else terminal_count)
        0 (range 0 (ia_css_program_group_manifest_get_terminal_count m manifest)).
End Selection.

(** ** Selection on the graph *)

(** A program runs when it uses an enabled kernel and, among alternatives, is
    the one whose kernels are exactly the enabled ones of the supernode. *)
Definition enabled (g : graph) (e : ia_css_kernel_bitmap_t) (i : Z) : bool :=
  let p := g_program g i in
  negb (ia_css_is_kernel_bitmap_intersection_empty e (p_kernels p))
  && if is_alternative (p_type p) then
       match p_deps p with
       | s :: _ => ia_css_is_kernel_bitmap_equal
                     (ia_css_kernel_bitmap_intersection e (p_kernels (g_program g s))) (p_kernels p)
       | [] => false
       end
     else if p_type p =? IA_CSS_PROGRAM_TYPE_EXCLUSIVE_SUPER then
       ia_css_is_kernel_bitmap_equal (ia_css_kernel_bitmap_intersection e (p_kernels p)) (p_kernels p)
     else negb (p_type p =? IA_CSS_PROGRAM_TYPE_VIRTUAL_SUPER).

(** Counted as a process: uses an enabled kernel and is no alternative. *)
Definition counted (g : graph) (e : ia_css_kernel_bitmap_t) (i : Z) : bool :=
  negb (ia_css_is_kernel_bitmap_intersection_empty e (p_kernels (g_program g i)))
  && negb (is_alternative (p_type (g_program g i))).

Definition enabled_programs (g : graph) (e : ia_css_kernel_bitmap_t) : list Z :=
  filter (fun i => enabled g e i = true) (range 0 (g_programs g)).
Definition counted_programs (g : graph) (e : ia_css_kernel_bitmap_t) : list Z :=
  filter (fun i => counted g e i = true) (range 0 (g_programs g)).

(** The program an alternative stands for, or the program itself. *)
Definition represents (g : graph) (i : Z) : Z :=
  if is_alternative (p_type (g_program g i))
  then match p_deps (g_program g i) with s :: _ => s | [] => i end else i.

Lemma alternative_sub ty : is_alternative ty = true -> is_sub ty = true.
Proof.
  unfold is_alternative, is_sub. rewrite !orb_true_iff. tauto.
Qed.

Lemma alternative_cases ty :
  is_alternative ty = true ->
  ty = IA_CSS_PROGRAM_TYPE_EXCLUSIVE_SUB \/ ty = IA_CSS_PROGRAM_TYPE_VIRTUAL_SUB.
Proof. unfold is_alternative. rewrite orb_true_iff, !Z.eqb_eq. tauto. Qed.

(** The interface in use: theorems about any valid graph. *)
Section On_graph.
Context (g : graph) {V : ValidGraph g} (e : ia_css_kernel_bitmap_t) (We : kb_wf e).

#[local] Hint Resolve vg_wf intersection_wf : kb.

(** An enabled alternative and its supernode. *)
Lemma enabled_alternative i :
  0 <= i < g_programs g -> enabled g e i = true -> is_alternative (p_type (g_program g i)) = true ->
  exists s, represents g i = s /\ sub_of g i s /\ 0 <= s < g_programs g
    /\ p_type (g_program g s) = super_of (p_type (g_program g i))
    /\ ia_css_kernel_bitmap_intersection e (p_kernels (g_program g s)) = p_kernels (g_program g i)
    /\ p_kernels (g_program g i) <> p_kernels (g_program g s).
Proof.
  intros Hi E A. destruct (vg_sub i Hi (alternative_sub _ A)) as (s & D & Hs & T & _ & N & _).
  exists s. unfold enabled in E. cbv zeta in E. unfold represents. rewrite A, D in *.
  apply andb_true_iff in E. destruct E as [_ E].
  apply (equal_iff _ _ (intersection_wf _ _ We (vg_wf s)) (vg_wf i)) in E.
  repeat split; auto; try apply Hs. apply alternative_sub, A.
Qed.

Lemma enabled_node i :
  enabled g e i = true -> is_alternative (p_type (g_program g i)) = false ->
  p_type (g_program g i) <> IA_CSS_PROGRAM_TYPE_VIRTUAL_SUPER
  /\ (p_type (g_program g i) = IA_CSS_PROGRAM_TYPE_EXCLUSIVE_SUPER ->
      ia_css_kernel_bitmap_intersection e (p_kernels (g_program g i)) = p_kernels (g_program g i)).
Proof.
  intros E A. unfold enabled in E. cbv zeta in E. rewrite A in E.
  apply andb_true_iff in E. destruct E as [_ E].
  destruct (Z.eqb_spec (p_type (g_program g i)) IA_CSS_PROGRAM_TYPE_EXCLUSIVE_SUPER) as [T | T].
  - split; [rewrite T; discriminate | intros _].
    apply (equal_iff _ _ (intersection_wf _ _ We (vg_wf i)) (vg_wf i)) in E. exact E.
  - apply negb_true_iff, Z.eqb_neq in E. tauto.
Qed.

(** No two enabled programs stand for the same one. *)
Lemma represents_inj i j :
  0 <= i < g_programs g -> 0 <= j < g_programs g ->
  enabled g e i = true -> enabled g e j = true -> represents g i = represents g j -> i = j.
Proof.
  assert (M : forall i j, 0 <= i < g_programs g -> 0 <= j < g_programs g ->
    enabled g e i = true -> enabled g e j = true ->
    is_alternative (p_type (g_program g i)) = true -> is_alternative (p_type (g_program g j)) = false ->
    represents g i = represents g j -> False).
  { intros i' j' Hi Hj Ei Ej Ai Aj R.
    destruct (enabled_alternative i' Hi Ei Ai) as (s & Rs & _ & _ & T & K & N).
    destruct (enabled_node j' Ej Aj) as [NV KE].
    assert (s = j') as -> by (rewrite <- Rs, R; unfold represents; rewrite Aj; reflexivity).
    destruct (alternative_cases _ Ai) as [C | C]; rewrite C in T.
    - rewrite (KE T) in K. congruence.
    - apply NV, T. }
  intros Hi Hj Ei Ej R.
  destruct (is_alternative (p_type (g_program g i))) eqn:Ai,
    (is_alternative (p_type (g_program g j))) eqn:Aj.
  - destruct (enabled_alternative i Hi Ei Ai) as (s & Rs & Si & _ & T & K & _).
    destruct (enabled_alternative j Hj Ej Aj) as (s' & Rs' & Sj & _ & T' & K' & _).
    assert (s' = s) as -> by congruence.
    destruct (Z.eq_dec i j) as [| Hne]; [assumption | exfalso].
    assert (Ty : p_type (g_program g i) = p_type (g_program g j)).
    { destruct (alternative_cases _ Ai) as [C | C], (alternative_cases _ Aj) as [C' | C'];
        rewrite C, C' in *; try reflexivity; rewrite T in T'; discriminate. }
    apply (vg_siblings i j s Hi Hj Hne Ty Si Sj). congruence.
  - exfalso. apply (M i j); assumption.
  - exfalso. apply (M j i); auto.
  - unfold represents in R. rewrite Ai, Aj in R. exact R.
Qed.

(** What an enabled program stands for is counted. *)
Lemma represents_counted i :
  0 <= i < g_programs g -> enabled g e i = true ->
  0 <= represents g i < g_programs g /\ counted g e (represents g i) = true.
Proof.
  intros Hi E. destruct (is_alternative (p_type (g_program g i))) eqn:A.
  - destruct (enabled_alternative i Hi E A) as (s & -> & _ & Hs & T & K & _).
    split; [exact Hs |]. unfold counted. apply andb_true_iff. split.
    + unfold ia_css_is_kernel_bitmap_intersection_empty. rewrite K.
      apply negb_true_iff, nonempty_kernels; [apply vg_wf | apply vg_nonempty, Hi].
    + rewrite T. destruct (alternative_cases _ A) as [-> | ->]; reflexivity.
  - unfold represents. rewrite A. split; [exact Hi |]. unfold counted. rewrite A.
    unfold enabled in E. cbv zeta in E. apply andb_true_iff in E. destruct E as [E _].
    rewrite E. reflexivity.
Qed.

Lemma enabled_elem i :
  i ∈ enabled_programs g e <-> 0 <= i < g_programs g /\ enabled g e i = true.
Proof. unfold enabled_programs. rewrite list_elem_of_filter, elem_of_range. tauto. Qed.
Lemma counted_elem i :
  i ∈ counted_programs g e <-> 0 <= i < g_programs g /\ counted g e i = true.
Proof. unfold counted_programs. rewrite list_elem_of_filter, elem_of_range. tauto. Qed.

Lemma represented_nodup : NoDup (map (represents g) (enabled_programs g e)).
Proof.
  apply NoDup_fmap_2_strong; [| apply stdpp.list_relations.list.NoDup_filter, NoDup_seqZ].
  intros i j Hi Hj. apply enabled_elem in Hi, Hj. apply represents_inj; tauto.
Qed.

Lemma represented_counted : map (represents g) (enabled_programs g e) ⊆+ counted_programs g e.
Proof.
  apply NoDup_submseteq; [apply represented_nodup |].
  intros s Hs. apply list_elem_of_fmap in Hs. destruct Hs as (i & -> & Hi).
  apply enabled_elem in Hi. apply counted_elem, represents_counted; tauto.
Qed.
End On_graph.

(** ** From memory to the graph *)

(** Every program manifest leads back to the group, as its initialisation
    sets it up. *)
Definition parents_ok (m : mem) (man : Z) : Prop :=
  forall i, 0 <= i < g_programs (graph_of m man) ->
    ia_css_program_manifest_get_parent m (ia_css_program_group_manifest_get_prgrm_mnfst m man i) = man.

Lemma foldl_size_pos (f : Z -> Z) (l : list Z) p : 0 < p -> (forall x, 0 <= f x) -> 0 < foldl (fun p _ => p + f p) p l.
Proof.
  intros Hp Hf. revert p Hp. induction l as [| i l IH]; intros p Hp; [exact Hp |].
  cbn [foldl]. apply IH. specialize (Hf p). lia.
Qed.

Lemma prgrm_mnfst_pos m man i :
  0 < man -> i < g_programs (graph_of m man) ->
  0 < ia_css_program_group_manifest_get_prgrm_mnfst m man i.
Proof.
  intros Hm Hi. cbn [g_programs graph_of] in Hi. unfold ia_css_program_group_manifest_get_prgrm_mnfst.
  cbv zeta. rewrite (not_null man) by exact Hm. rewrite (proj2 (Z.ltb_lt _ _) Hi). cbn [negb].
  apply foldl_size_pos; [| intros x; apply rd_U8_range].
  pose proof (rd_U16_range m man 20). change (U16 20) with pgm.program_manifest_offset in *. lia.
Qed.

(** The function computes the graph-level selection. *)
Lemma program_enabled_graph m man e i :
  0 < man -> ValidGraph (graph_of m man) -> parents_ok m man ->
  0 <= i < g_programs (graph_of m man) ->
  ia_css_process_group_is_program_enabled m
    (ia_css_program_group_manifest_get_prgrm_mnfst m man i) e
  = enabled (graph_of m man) e i.
Proof.
  intros Hm G P Hi. unfold ia_css_process_group_is_program_enabled, enabled. cbv zeta.
  rewrite (P i Hi). pose proof (vg_sub i Hi) as S. cbn [g_program graph_of] in *.
  destruct (negb (ia_css_is_kernel_bitmap_intersection_empty e (p_kernels (program_at m man i)))) eqn:I;
    cbn [p_kernels program_at] in I; rewrite I; [| reflexivity]. cbn [andb].
  destruct (is_alternative (p_type (program_at m man i))) eqn:A.
  - destruct (S (alternative_sub _ A)) as (s & D & Hs & T & _). rewrite D.
    apply deps_single in D. destruct D as [_ ->].
    rewrite (not_null (ia_css_program_group_manifest_get_prgrm_mnfst m man s))
      by (apply prgrm_mnfst_pos; tauto). cbn [negb].
    cbn [p_type program_at] in T, A. rewrite T.
    destruct (alternative_cases _ A) as [-> | ->]; reflexivity.
  - unfold is_alternative in A. cbn [p_type p_kernels program_at] in A |- *.
    apply orb_false_iff in A. destruct A as [-> ->]. cbn [orb].
    destruct (_ =? IA_CSS_PROGRAM_TYPE_EXCLUSIVE_SUPER); [reflexivity |].
    destruct (_ =? IA_CSS_PROGRAM_TYPE_VIRTUAL_SUPER); reflexivity.
Qed.

(** A byte counter over at most 255 rounds counts. *)
Lemma count_loop (f : Z -> bool) n :
  0 <= n < 256 ->
  foldl (fun c i => if f i then u8 (c + 1) else c) 0 (range 0 n)
  = Z.of_nat (length (filter (fun i => f i = true) (range 0 n))).
Proof.
  intros [Hn Hlt]. revert Hlt. pattern n. apply natlike_ind; [reflexivity | | exact Hn].
  clear n Hn. intros n Hn IH Hlt. rewrite range_snoc, foldl_app, IH by lia. cbn [foldl].
  rewrite stdpp.list_basics.list.filter_app, length_app.
  assert (L : (length (filter (fun i => f i = true) (range 0 n)) <= Z.to_nat n)%nat).
  { etransitivity; [apply length_filter |]. unfold range. rewrite length_seqZ. lia. }
  destruct (f n) eqn:E.
  - rewrite filter_cons_True by exact E. cbn [length filter]. rewrite u8_small by lia. cbn. lia.
  - rewrite filter_cons_False by congruence. cbn. lia.
Qed.

(** The arguments for which the counts are computed. *)
Definition selectable (m : mem) (man param : Z) : Prop :=
  0 < man /\ 0 < param /\ ia_css_is_program_group_manifest_valid m man = true
  /\ ia_css_is_kernel_bitmap_subset (ia_css_program_group_manifest_get_kernel_bitmap m man)
       (ia_css_program_group_param_get_kernel_enable_bitmap m param) = true
  /\ ia_css_is_kernel_bitmap_empty (ia_css_program_group_param_get_kernel_enable_bitmap m param) = false.

Lemma process_count_graph m man param :
  selectable m man param ->
  ia_css_process_group_compute_process_count m man param
  = Z.of_nat (length (counted_programs (graph_of m man)
                        (ia_css_program_group_param_get_kernel_enable_bitmap m param))).
Proof.
  intros (Hm & Hp & Hv & Hs & He). unfold ia_css_process_group_compute_process_count. cbv zeta.
  rewrite (not_null man), (not_null param), Hv, Hs, He by assumption. cbn [negb].
  set (e := ia_css_program_group_param_get_kernel_enable_bitmap m param).
  unfold counted_programs. rewrite <- count_loop by (apply group_counts_range).
  apply foldl_ext_in. intros c i _.
  unfold counted, is_alternative. cbn [g_program graph_of p_kernels p_type program_at].
  rewrite negb_orb. destruct (negb (ia_css_is_kernel_bitmap_intersection_empty e _)); reflexivity.
Qed.

(** The programs [ia_css_sizeof_process_group] makes room for. *)
Definition programs_run (m : mem) (man : Z) (e : ia_css_kernel_bitmap_t) : list Z :=
  filter (fun i => ia_css_process_group_is_program_enabled m
                     (ia_css_program_group_manifest_get_prgrm_mnfst m man i) e = true)
         (range 0 (ia_css_program_group_manifest_get_program_count m man)).

Lemma programs_run_graph m man e :
  0 < man -> ValidGraph (graph_of m man) -> parents_ok m man ->
  programs_run m man e ≡ₚ enabled_programs (graph_of m man) e.
Proof.
  intros Hm G P. apply NoDup_Permutation.
  - apply stdpp.list_relations.list.NoDup_filter, NoDup_seqZ.
  - apply stdpp.list_relations.list.NoDup_filter, NoDup_seqZ.
  - intros i. unfold programs_run. rewrite enabled_elem, list_elem_of_filter, elem_of_range.
    cbn [g_programs graph_of]. split.
    + intros [E Hi]. rewrite program_enabled_graph in E by assumption. auto.
    + intros [Hi E]. rewrite program_enabled_graph by assumption. auto.
Qed.

(** ** Kernels of a terminal *)

Lemma enable_meets e a :
  kb_wf e -> kb_wf a ->
  negb (ia_css_is_kernel_bitmap_intersection_empty e a) = true
  <-> exists k, has_kernel e k /\ has_kernel a k.
Proof.
  intros He Ha. unfold ia_css_is_kernel_bitmap_intersection_empty.
  rewrite negb_true_iff, nonempty_kernels by auto with kb. unfold has_kernel.
  split; intros (k & H); exists k; rewrite intersection_bit, andb_true_iff in *; tauto.
Qed.

Lemma set_kernels b i k :
  kb_wf b -> 0 <= i ->
  has_kernel (ia_css_kernel_bitmap_set b i) k <-> has_kernel b k \/ (k = i /\ i < 128).
Proof.
  intros Hb Hi. unfold has_kernel. destruct (Z.lt_ge_cases i 128) as [L | L].
  - split.
    + intros [Hk E]. rewrite set_bit, orb_true_iff, Z.eqb_eq in E by (assumption || lia).
      destruct E as [E | ->]; auto.
    + intros [[Hk E] | [-> _]]; (split; [lia |]); rewrite set_bit by (assumption || lia);
        [rewrite E; reflexivity | rewrite Z.eqb_refl; apply orb_true_r].
  - rewrite set_out by assumption. split; [auto | intros [H | [_ H]]; [exact H | lia]].
Qed.

(** Adding the kernels [f 0 .. f (n - 1)] one by one. *)
Lemma kernel_union_loop (f ptr : Z -> Z) n :
  0 <= n -> (forall i, 0 <= i < n -> is_null (ptr i) = false) -> (forall i, 0 <= f i) ->
  exists b, for_opt (range 0 n) ia_css_kernel_bitmap_clear (fun i b =>
              verif negb (is_null (ptr i)) ;; Some (ia_css_kernel_bitmap_set b (f i))) = Some b
    /\ kb_wf b /\ forall k, has_kernel b k <-> exists i, 0 <= i < n /\ f i = k /\ k < 128.
Proof.
  intros Hn. pattern n. apply natlike_ind; [| | exact Hn]; clear n Hn.
  - intros _ _. exists ia_css_kernel_bitmap_clear. split; [reflexivity | split; [apply clear_wf |]].
    intros k. split; [| intros (i & Hi & _); lia]. intros [_ E]. unfold kbit in E.
    rewrite clear_val, Z.bits_0 in E. discriminate.
  - intros n Hn IH Hp Hf. destruct IH as (b & E & W & K); [intros i Hi; apply Hp; lia | exact Hf |].
    exists (ia_css_kernel_bitmap_set b (f n)).
    split; [| split; [apply set_wf, W |]].
    + rewrite range_snoc by lia. revert E. generalize ia_css_kernel_bitmap_clear.
      induction (range 0 n) as [| i l IHl]; intros b0 E; cbn [for_opt app] in *.
      * injection E as ->. rewrite Hp by lia. reflexivity.
      * destruct (negb (is_null (ptr i))); [apply IHl, E | discriminate].
    + intros k. rewrite set_kernels, K by auto. split.
      * intros [(i & Hi & X) | [-> L]]; [exists i | exists n]; repeat split; (lia || tauto).
      * intros (i & Hi & <- & L). destruct (Z.eq_dec i n) as [-> |]; [auto |].
        left. exists i. repeat split; lia.
Qed.

(** ** Theorems *)

(** The sample group with only kernels 0 and 2 enabled, then with all. *)
Definition sample_selection (kernels : Z) : mem :=
  snd (ia_css_program_group_param_set_kernel_enable_bitmap 3000
         (ia_css_kernel_bitmap_create_from_uint64 kernels) sample_group_manifest).

Lemma sample_parents kernels : parents_ok (sample_selection kernels) 1000.
Proof.
  intros i Hi.
  assert (E : i = 0 \/ i = 1 \/ i = 2).
  { change (g_programs (graph_of (sample_selection kernels) 1000)) with 3 in Hi. lia. }
  destruct E as [-> | [-> | ->]]; vm_compute; reflexivity.
Qed.

(** C31: in a valid group, whatever kernels are enabled, at most one of a
    supernode and its alternatives runs: two exclusive or virtual subnodes of
    the same supernode are never enabled together, nor a subnode with its
    supernode, a virtual supernode never runs, and the subnode that runs has
    exactly the enabled kernels of its supernode. *)
Theorem alternatives_exclusive m man e :
  0 < man -> ia_css_is_program_group_manifest_valid m man = true -> parents_ok m man -> kb_wf e ->
  let runs i := 0 <= i < g_programs (graph_of m man)
    /\ ia_css_process_group_is_program_enabled m
         (ia_css_program_group_manifest_get_prgrm_mnfst m man i) e = true in
  (forall i s, runs i -> p_type (program_at m man i) = IA_CSS_PROGRAM_TYPE_EXCLUSIVE_SUB
       \/ p_type (program_at m man i) = IA_CSS_PROGRAM_TYPE_VIRTUAL_SUB ->
     sub_of (graph_of m man) i s ->
     ~ runs s
     /\ (forall j, runs j -> sub_of (graph_of m man) j s -> j = i)
     /\ ia_css_kernel_bitmap_intersection e (p_kernels (program_at m man s))
        = p_kernels (program_at m man i))
  /\ (forall s, runs s -> p_type (program_at m man s) <> IA_CSS_PROGRAM_TYPE_VIRTUAL_SUPER).
Proof.
  intros Hm Hv P We runs. pose proof (check_graph_of m man Hv) as G.
  assert (R : forall i, runs i -> 0 <= i < g_programs (graph_of m man) /\ enabled (graph_of m man) e i = true).
  { intros i [Hi E]. rewrite program_enabled_graph in E by assumption. auto. }
  split.
  - intros i s Ri T Si. destruct (R i Ri) as [Hi Ei].
    assert (A : is_alternative (p_type (g_program (graph_of m man) i)) = true)
      by (cbn [g_program graph_of]; destruct T as [-> | ->]; reflexivity).
    destruct (enabled_alternative (graph_of m man) e We i Hi Ei A) as (s' & Rs & [_ D'] & Hs & Ts & K & _).
    destruct Si as [_ D]. assert (s' = s) as -> by congruence.
    assert (As : is_alternative (p_type (g_program (graph_of m man) s)) = false).
    { rewrite Ts. destruct (alternative_cases _ A) as [-> | ->]; reflexivity. }
    split; [| split; [| exact K]].
    + intros Rn. destruct (R s Rn) as [_ Es].
      assert (i = s) as -> by (apply (represents_inj (graph_of m man) e We); auto;
        rewrite Rs; unfold represents; rewrite As; reflexivity). congruence.
    + intros j Rj [Sj Dj]. destruct (R j Rj) as [Hj Ej].
      assert (Aj : is_alternative (p_type (g_program (graph_of m man) j)) = true).
      { destruct (vg_sub j Hj Sj) as (s'' & D'' & _ & Tj & _). assert (s'' = s) as -> by congruence.
        rewrite Ts in Tj. destruct (is_sub_cases _ Sj) as [E | [E | E]]; rewrite E in Tj |- *;
          destruct (alternative_cases _ A) as [F | F]; rewrite F in Tj; (reflexivity || discriminate Tj). }
      apply (represents_inj (graph_of m man) e We); auto. rewrite Rs. unfold represents.
      rewrite Aj, Dj. reflexivity.
  - intros s Rs T. destruct (R s Rs) as [_ E].
    apply (enabled_node (graph_of m man) e We s E); cbn [g_program graph_of]; rewrite T; reflexivity.
Qed.

Lemma alternatives_exclusive_witness :
  let m := sample_selection 5 in
  let e := ia_css_program_group_param_get_kernel_enable_bitmap m 3000 in
  let runs i := 0 <= i < g_programs (graph_of m 1000)
    /\ ia_css_process_group_is_program_enabled m
         (ia_css_program_group_manifest_get_prgrm_mnfst m 1000 i) e = true in
  runs 1 /\ ~ runs 0.
Proof.
  intros m e runs.
  assert (R : runs 1) by (split; [split; [discriminate | reflexivity] | vm_compute; reflexivity]).
  split; [exact R |].
  destruct (alternatives_exclusive m 1000 e) as [H _];
    [lia | vm_compute; reflexivity | apply sample_parents | apply rd_kb_wf |].
  apply (H 1 0 R); [left | split]; vm_compute; reflexivity.
Defined.

(** The process count a group is sized with is the number of programs
    that use an enabled kernel, alternatives not counted.  Never more programs
    run than that, and exactly as many when for every program counted either
    it or one of its alternatives runs; otherwise the size computation gives
    up. *)
Theorem process_count_bounds_runs m man param :
  selectable m man param -> parents_ok m man ->
  let g := graph_of m man in
  let e := ia_css_program_group_param_get_kernel_enable_bitmap m param in
  let count := ia_css_process_group_compute_process_count m man param in
  count = Z.of_nat (length (counted_programs g e))
  /\ Z.of_nat (length (programs_run m man e)) <= count
  /\ (Z.of_nat (length (programs_run m man e)) = count
      <-> forall i, i ∈ counted_programs g e -> exists j, j ∈ programs_run m man e /\ represents g j = i).
Proof.
  intros S P. cbv zeta. pose proof S as (Hm & Hp & Hv & _).
  pose proof (check_graph_of m man Hv) as G.
  set (e := ia_css_program_group_param_get_kernel_enable_bitmap m param).
  assert (We : kb_wf e).
  { subst e. unfold ia_css_program_group_param_get_kernel_enable_bitmap.
    rewrite (not_null param) by exact Hp. apply rd_kb_wf. }
  rewrite (process_count_graph m man param S). fold e.
  pose proof (programs_run_graph m man e Hm G P) as Perm.
  pose proof (represented_counted (graph_of m man) e We) as Sub.
  rewrite (Permutation_length Perm).
  pose proof (submseteq_length _ _ Sub) as L. rewrite length_map in L.
  split; [reflexivity | split; [lia |]]. split.
  - intros E i Hi.
    assert (Eq : map (represents (graph_of m man)) (enabled_programs (graph_of m man) e)
                 ≡ₚ counted_programs (graph_of m man) e)
      by (apply submseteq_length_Permutation; [exact Sub | rewrite length_map; lia]).
    rewrite <- Eq in Hi. apply list_elem_of_fmap in Hi. destruct Hi as (j & -> & Hj).
    exists j. rewrite Perm. auto.
  - intros H. f_equal. apply Nat.le_antisymm; [lia |].
    rewrite <- (length_map (represents (graph_of m man)) (enabled_programs (graph_of m man) e)).
    apply submseteq_length.
    apply NoDup_submseteq; [apply stdpp.list_relations.list.NoDup_filter, NoDup_seqZ |].
    intros i Hi. destruct (H i Hi) as (j & Hj & <-). rewrite Perm in Hj.
    apply list_elem_of_fmap. eauto.
Qed.

Lemma process_count_bounds_runs_witness :
  Z.of_nat (length (programs_run (sample_selection 5) 1000 [5; 0; 0; 0]))
  = ia_css_process_group_compute_process_count (sample_selection 5) 1000 3000
  /\ Z.of_nat (length (programs_run (sample_selection 5) 1000 [5; 0; 0; 0])) <= 2.
Proof.
  destruct (process_count_bounds_runs (sample_selection 5) 1000 3000) as (_ & L & _);
    [repeat split; try lia; vm_compute; reflexivity | apply sample_parents |].
  split; [vm_compute; reflexivity | exact L].
Defined.

(** Which kernels make a terminal needed, if not all do. *)
Definition terminal_needed (m : mem) (t : Z) (e : ia_css_kernel_bitmap_t) : Prop :=
  let ty := ia_css_terminal_manifest_get_type m t in
  if is_data_type ty then
    exists k, has_kernel e k /\ has_kernel (ia_css_data_terminal_manifest_get_kernel_bitmap m t) k
  else if is_spatial_terminal ty then has_kernel e (rd m t sptm.kernel_id)
  else if ty =? IA_CSS_TERMINAL_TYPE_PARAM_CACHED_OUT then
    exists i, 0 <= i < rd m t ptm.param_manifest_section_desc_count
      /\ has_kernel e (ia_css_param_manifest_section_desc_get_kernel_id m
                         (ia_css_param_terminal_manifest_get_prm_sct_desc m t i))
  else if ty =? IA_CSS_TERMINAL_TYPE_PROGRAM then
    exists i, 0 <= i < rd m t prtm.fragment_param_manifest_section_desc_count
      /\ has_kernel e (ia_css_fragment_param_manifest_section_desc_get_kernel_id m
                         (ia_css_program_terminal_manifest_get_frgmnt_prm_sct_desc m t i))
  else ty = IA_CSS_TERMINAL_TYPE_PARAM_CACHED_IN \/ ty = IA_CSS_TERMINAL_TYPE_PROGRAM_CONTROL_INIT.

(** A terminal whose kernels are those of its section descriptors. *)
Lemma sections_needed e n (f ptr : Z -> Z) :
  kb_wf e -> 0 <= n -> (forall i, 0 <= i < n -> is_null (ptr i) = false) -> (forall i, 0 <= f i) ->
  match for_opt (range 0 n) ia_css_kernel_bitmap_clear (fun i b =>
          verif negb (is_null (ptr i)) ;; Some (ia_css_kernel_bitmap_set b (f i))) with
  | None => false
  | Some b => negb (ia_css_is_kernel_bitmap_intersection_empty e b)
  end = true <-> exists i, 0 <= i < n /\ has_kernel e (f i).
Proof.
  intros We Hn Hp Hf. destruct (kernel_union_loop f ptr n Hn Hp Hf) as (b & -> & Wb & K).
  rewrite enable_meets by assumption. split.
  - intros (k & E & B). apply K in B. destruct B as (i & Hi & <- & _). eauto.
  - intros (i & Hi & E). exists (f i). split; [exact E |]. apply K. exists i.
    destruct E as [[_ L] _]. auto.
Qed.

Lemma spatial_needed m t e :
  kb_wf e ->
  ia_css_process_group_is_spatial_terminal_enabled m t e = true <-> has_kernel e (rd m t sptm.kernel_id).
Proof.
  intros We. pose proof (rd_U8_range m t 36) as R. change (U8 36) with sptm.kernel_id in R.
  unfold ia_css_process_group_is_spatial_terminal_enabled. cbv zeta.
  rewrite enable_meets by auto using set_wf, clear_wf. split.
  - intros (k & E & S). rewrite set_kernels in S by (apply clear_wf || lia).
    destruct S as [[_ S] | [-> _]]; [| exact E]. unfold kbit in S.
    rewrite clear_val, Z.bits_0 in S. discriminate.
  - intros E. eexists. split; [exact E |]. apply set_kernels; [apply clear_wf | lia |].
    right. split; [reflexivity | apply E].
Qed.

(** The sections of a terminal are never at the null address. *)
Lemma sections_not_null m t i :
  0 < t -> 0 <= i ->
  is_null (ia_css_param_terminal_manifest_get_prm_sct_desc m t i) = false
  /\ is_null (ia_css_program_terminal_manifest_get_frgmnt_prm_sct_desc m t i) = false.
Proof.
  intros Ht Hi. unfold ia_css_param_terminal_manifest_get_prm_sct_desc,
    ia_css_program_terminal_manifest_get_frgmnt_prm_sct_desc,
    sizeof_ia_css_param_manifest_section_desc_t, sizeof_ia_css_fragment_param_manifest_section_desc_t.
  rewrite (not_null t) by exact Ht.
  pose proof (rd_U16_range m t 18). change (U16 18) with ptm.param_manifest_section_desc_offset in *.
  pose proof (rd_U16_range m t 24).
  change (U16 24) with prtm.fragment_param_manifest_section_desc_offset in *.
  split; apply not_null; lia.
Qed.

Lemma terminal_enabled_iff m t e :
  0 < t -> kb_wf e ->
  ia_css_process_group_is_terminal_enabled m t e = true <-> terminal_needed m t e.
Proof.
  intros Ht We. unfold ia_css_process_group_is_terminal_enabled, terminal_needed,
    ia_css_is_terminal_manifest_data_terminal, ia_css_is_terminal_manifest_spatial_parameter_terminal,
    ia_css_is_terminal_manifest_parameter_terminal, ia_css_is_terminal_manifest_program_terminal,
    ia_css_is_terminal_manifest_program_control_init_terminal,
    ia_css_process_group_is_data_terminal_enabled, is_data_type, is_spatial_terminal. cbv zeta.
  rewrite (not_null t) by exact Ht. set (ty := ia_css_terminal_manifest_get_type m t).
  destruct ((ty =? IA_CSS_TERMINAL_TYPE_DATA_IN) || (ty =? IA_CSS_TERMINAL_TYPE_DATA_OUT));
    [apply enable_meets; auto with kb |].
  destruct ((ty =? IA_CSS_TERMINAL_TYPE_PARAM_SPATIAL_IN) || (ty =? IA_CSS_TERMINAL_TYPE_PARAM_SPATIAL_OUT));
    [apply spatial_needed, We |].
  destruct (Z.eqb_spec ty IA_CSS_TERMINAL_TYPE_PARAM_CACHED_IN) as [-> | N1]; [cbn; split; auto |].
  cbn [orb]. rewrite andb_false_r.
  destruct (ty =? IA_CSS_TERMINAL_TYPE_PARAM_CACHED_OUT).
  { cbn [andb]. apply sections_needed; [exact We | apply rd_U16_range | |].
    - intros i Hi. apply sections_not_null; tauto.
    - intros i. apply Z.land_nonneg. right. discriminate. }
  cbn [andb]. destruct (ty =? IA_CSS_TERMINAL_TYPE_PROGRAM).
  { apply sections_needed; [exact We | apply rd_U16_range | |].
    - intros i Hi. apply sections_not_null; tauto.
    - intros i. apply Z.land_nonneg. right. discriminate. }
  destruct (Z.eqb_spec ty IA_CSS_TERMINAL_TYPE_PROGRAM_CONTROL_INIT); split; auto; try discriminate.
  intros [|]; congruence.
Qed.

(** A terminal is part of the group exactly when one of the kernels it
    serves is enabled, those being its kernel bitmap, its spatial kernel or the
    kernels of its sections; cached inputs and program control terminals
    always are, terminals of other types never.  The terminal count a group is
    sized with is the number of such terminals. *)
Theorem terminal_enabled_spec m t e :
  0 < t -> kb_wf e ->
  (ia_css_process_group_is_terminal_enabled m t e = true <-> terminal_needed m t e)
  /\ (forall man param, selectable m man param ->
      ia_css_process_group_compute_terminal_count m man param
      = Z.of_nat (length (filter (fun i => ia_css_process_group_is_terminal_enabled m
            (ia_css_program_group_manifest_get_term_mnfst m man i)
            (ia_css_program_group_param_get_kernel_enable_bitmap m param) = true)
          (range 0 (ia_css_program_group_manifest_get_terminal_count m man))))).
Proof.
  intros Ht We. split; [apply terminal_enabled_iff; assumption |].
  intros man param (Hm & Hp & Hv & Hs & He). unfold ia_css_process_group_compute_terminal_count.
  cbv zeta. rewrite (not_null man), (not_null param), Hv, Hs, He by assumption. cbn [negb].
  apply (count_loop (fun i => ia_css_process_group_is_terminal_enabled m
          (ia_css_program_group_manifest_get_term_mnfst m man i)
          (ia_css_program_group_param_get_kernel_enable_bitmap m param))), group_counts_range.
Qed.

(** A program terminal with one section, for kernel 9. *)
Definition sample_program_terminal : mem :=
  let m := snd (ia_css_terminal_manifest_set_type 64 IA_CSS_TERMINAL_TYPE_PROGRAM (fun _ => 0)) in
  let m := snd (ia_css_program_terminal_manifest_init 64 1 0 m) in
  wr m 96 psd.info 9.

Lemma terminal_enabled_spec_witness :
  ia_css_process_group_is_terminal_enabled sample_program_terminal 64 [512; 0; 0; 0] = true
  /\ ia_css_process_group_compute_terminal_count (sample_selection 5) 1000 3000 = 2.
Proof.
  assert (W : kb_wf [512; 0; 0; 0]) by (apply kb_wf_4; lia).
  destruct (terminal_enabled_spec sample_program_terminal 64 [512; 0; 0; 0]) as [E _]; [lia | exact W |].
  destruct (terminal_enabled_spec (sample_selection 5) 64 [512; 0; 0; 0]) as [_ C]; [lia | exact W |].
  split.
  - apply E. exists 0. split; [split; [discriminate | reflexivity] |].
    split; [split; [discriminate | reflexivity] | vm_compute; reflexivity].
  - rewrite C by (repeat split; try lia; vm_compute; reflexivity). vm_compute. reflexivity.
Defined.
