(* ===== verification/ManifestRegion.v ===== *)
(** * What selection reads

    The functions of GroupSelection read the group manifest and the program
    manifests; stores elsewhere do not change which programs run.  Creation
    writes a group while it reads the manifests, so its theorems need to know
    that the group is clear of them. *)

From S2P Require Import Prelude Memory ResourceModel KernelBitmap ProgramGroupParam ProgramManifest Terminal TerminalManifest ProgramGroupManifest GroupSelection.
#[local] Open Scope css_scope.

(** [n] bytes at [a] are outside [lo, hi). *)
Definition clear_of (lo hi a n : Z) : bool := (a + n <=? lo) || (hi <=? a).

Lemma clear_spec lo hi a n : clear_of lo hi a n = true <-> a + n <= lo \/ hi <= a.
Proof. unfold clear_of. rewrite orb_true_iff, !Z.leb_le. reflexivity. Qed.

Lemma clear_weaken lo hi lo' hi' a n :
  lo <= lo' -> hi' <= hi -> clear_of lo hi a n = true -> clear_of lo' hi' a n = true.
Proof. rewrite !clear_spec. lia. Qed.

(** The header of a program manifest and its first program dependency, the
    only one selection looks at. *)
Definition program_clear (m : mem) (lo hi p : Z) : bool :=
  clear_of lo hi p sizeof_ia_css_program_manifest_t
  && clear_of lo hi (p + rd m p pm.program_dependency_offset) 1.

Definition programs_clear (m : mem) (man lo hi : Z) : bool :=
  clear_of lo hi man sizeof_ia_css_program_group_manifest_t
  && forallb (fun i => program_clear m lo hi (ia_css_program_group_manifest_get_prgrm_mnfst m man i))
       (range 0 (ia_css_program_group_manifest_get_program_count m man)).

Lemma prgrm_mnfst_step m man i :
  0 < man -> 0 <= i -> i + 1 < ia_css_program_group_manifest_get_program_count m man ->
  ia_css_program_group_manifest_get_prgrm_mnfst m man (i + 1)
  = let p := ia_css_program_group_manifest_get_prgrm_mnfst m man i in p + rd m p pm.size.
Proof.
  intros Hm H0 Hi. unfold ia_css_program_group_manifest_get_prgrm_mnfst. cbv zeta.
  rewrite (not_null man), !(proj2 (Z.ltb_lt _ _)) by lia. cbn [negb].
  change (i + 1) with (Z.succ i). rewrite range_snoc by lia. rewrite foldl_app. reflexivity.
Qed.

Section Locality.
Context (m m' : mem) (lo hi : Z) (S : same_outside lo hi m m').

Lemma rd_clear p n f :
  clear_of lo hi p n = true -> 0 <= f_off f -> f_off f + Z.of_nat (f_len f) <= n -> rd m' p f = rd m p f.
Proof. intros C H1 H2. apply (rd_same_outside _ _ _ _ _ _ S). apply clear_spec in C. lia. Qed.

Lemma rd_kb_clear p n f :
  clear_of lo hi p n = true -> 0 <= f_off f -> f_off f + 4 * Z.of_nat (f_len f) <= n ->
  rd_kb m' p f = rd_kb m p f.
Proof. intros C H1 H2. apply (rd_kb_same_outside _ _ _ _ _ _ S). apply clear_spec in C. lia. Qed.

Ltac clear_rd C := rewrite ?(rd_clear _ _ _ C) by mem_out; rewrite ?(rd_kb_clear _ _ _ C) by mem_out.

Lemma program_locality p :
  program_clear m lo hi p = true ->
  ia_css_program_manifest_get_kernel_bitmap m' p = ia_css_program_manifest_get_kernel_bitmap m p
  /\ ia_css_program_manifest_get_type m' p = ia_css_program_manifest_get_type m p
  /\ ia_css_program_manifest_get_parent m' p = ia_css_program_manifest_get_parent m p
  /\ ia_css_program_manifest_get_program_dependency m' p 0
     = ia_css_program_manifest_get_program_dependency m p 0.
Proof.
  unfold program_clear. rewrite andb_true_iff. intros [C D].
  unfold ia_css_program_manifest_get_kernel_bitmap, ia_css_program_manifest_get_type,
    ia_css_program_manifest_get_parent, ia_css_program_manifest_get_program_dependency,
    ia_css_program_manifest_get_program_dependency_count. cbv zeta.
  clear_rd C. rewrite Z.add_0_r. clear_rd D. repeat split; reflexivity.
Qed.

Context (man : Z) (Hm : 0 < man) (C : programs_clear m man lo hi = true).

Lemma header_clear : clear_of lo hi man sizeof_ia_css_program_group_manifest_t = true.
Proof. unfold programs_clear in C. apply andb_true_iff in C. tauto. Qed.

Lemma program_count_locality :
  ia_css_program_group_manifest_get_program_count m' man
  = ia_css_program_group_manifest_get_program_count m man.
Proof.
  pose proof header_clear as H. unfold ia_css_program_group_manifest_get_program_count.
  clear_rd H. reflexivity.
Qed.

Lemma programs_clear_at i :
  0 <= i < ia_css_program_group_manifest_get_program_count m man ->
  program_clear m lo hi (ia_css_program_group_manifest_get_prgrm_mnfst m man i) = true.
Proof.
  intros Hi. unfold programs_clear in C. apply andb_true_iff in C. destruct C as [_ F].
  rewrite forallb_forall in F. apply F. apply list_elem_of_In, elem_of_range. exact Hi.
Qed.

(** Program manifests are found at the same place, *)
Lemma prgrm_mnfst_locality i :
  0 <= i ->
  ia_css_program_group_manifest_get_prgrm_mnfst m' man i
  = ia_css_program_group_manifest_get_prgrm_mnfst m man i.
Proof.
  intros H0. pose proof program_count_locality as Ec.
  destruct (Z_lt_ge_dec i (ia_css_program_group_manifest_get_program_count m man)) as [Hi | Hi].
  2: { unfold ia_css_program_group_manifest_get_prgrm_mnfst. cbv zeta.
       rewrite Ec, (proj2 (Z.ltb_ge _ _)) by lia. reflexivity. }
  revert i H0 Hi.
  apply (natlike_ind (fun i => i < ia_css_program_group_manifest_get_program_count m man ->
    ia_css_program_group_manifest_get_prgrm_mnfst m' man i
    = ia_css_program_group_manifest_get_prgrm_mnfst m man i)).
  - intros H. unfold ia_css_program_group_manifest_get_prgrm_mnfst. cbv zeta. rewrite Ec.
    pose proof header_clear as Hh. clear_rd Hh. reflexivity.
  - intros i H0 IH Hi. unfold Z.succ in *.
    rewrite !prgrm_mnfst_step by lia. cbv zeta. rewrite IH by lia. f_equal.
    pose proof (programs_clear_at i ltac:(lia)) as H.
    unfold program_clear in H. apply andb_true_iff in H. destruct H as [H _]. clear_rd H. reflexivity.
Qed.

(** and the same ones run. *)
Lemma program_enabled_locality i e :
  parents_ok m man -> 0 <= i < ia_css_program_group_manifest_get_program_count m man ->
  ia_css_process_group_is_program_enabled m' (ia_css_program_group_manifest_get_prgrm_mnfst m man i) e
  = ia_css_process_group_is_program_enabled m (ia_css_program_group_manifest_get_prgrm_mnfst m man i) e.
Proof.
  intros P Hi. unfold ia_css_process_group_is_program_enabled. cbv zeta.
  destruct (program_locality _ (programs_clear_at i Hi)) as (-> & -> & -> & ->).
  rewrite (P i Hi).
  set (s := ia_css_program_manifest_get_program_dependency m _ 0).
  assert (Hs : 0 <= s).
  { unfold s, ia_css_program_manifest_get_program_dependency. cbv zeta.
    repeat case_match; try discriminate. apply rd_U8_range. }
  rewrite prgrm_mnfst_locality by exact Hs.
  assert (L : ia_css_program_manifest_get_type m' (ia_css_program_group_manifest_get_prgrm_mnfst m man s)
              = ia_css_program_manifest_get_type m (ia_css_program_group_manifest_get_prgrm_mnfst m man s)
     /\ ia_css_program_manifest_get_kernel_bitmap m' (ia_css_program_group_manifest_get_prgrm_mnfst m man s)
        = ia_css_program_manifest_get_kernel_bitmap m (ia_css_program_group_manifest_get_prgrm_mnfst m man s)).
  { destruct (Z_lt_ge_dec s (ia_css_program_group_manifest_get_program_count m man)) as [Hlt | Hge].
    - destruct (program_locality _ (programs_clear_at s (conj Hs Hlt))) as (-> & -> & _). auto.
    - unfold ia_css_program_group_manifest_get_prgrm_mnfst at 1 2 3 4. cbv zeta.
      rewrite (not_null man Hm), (proj2 (Z.ltb_ge _ _)) by lia. auto. }
  destruct L as [-> ->]. reflexivity.
Qed.
End Locality.
