(* ===== verification/TerminalLayout.v ===== *)
(** * The parts of parameter terminals

    include/ia_css_terminal_types.h and include/ia_css_terminal_impl.h: behind
    its header and payload a parameter, spatial, sliced, program or
    program-control-init terminal keeps 16-bit offsets to arrays of section,
    fragment, slice or program descriptors.  The sizes, the accessors that
    follow the offsets, and the [_create] functions that set them. *)

From S2P Require Import Prelude Memory ResourceModel ProgramGroupParam Terminal TerminalManifest.
#[local] Open Scope css_scope.

Definition EINVAL : Z := 22.

(** ** Layout *)

(** [struct ia_css_param_section_desc_s],
    [struct ia_css_fragment_param_section_desc_s] and
    [struct ia_css_slice_param_section_desc_s] have the same members. *)
Module sec.
Definition mem_offset := U32 0.
Definition mem_size := U32 4.
Definition layout : list (field * Z) := [(mem_offset, 1); (mem_size, 1)].
End sec.
Definition sizeof_ia_css_param_section_desc_t : Z := 8.
Definition sizeof_ia_css_fragment_param_section_desc_t : Z := 8.
Definition sizeof_ia_css_slice_param_section_desc_t : Z := 8.

(** [struct ia_css_param_terminal_s]. *)
Module pt.
Definition base := U8 0.
Definition param_payload := U8 16.
Definition param_section_desc_offset := U16 32.
Definition padding := U8 34.
Definition layout : list (field * Z) :=
  [(base, 16); (param_payload, 16); (param_section_desc_offset, 1); (padding, 6)].
End pt.
Definition sizeof_ia_css_param_terminal_t : Z := 40.

(** [struct ia_css_spatial_param_terminal_s]. *)
Module spt.
Definition base := U8 0.
Definition param_payload := U8 16.
Definition frame_grid_desc := U8 32.
Definition kernel_id := U32 40.
Definition frame_grid_param_section_desc_offset := U16 44.
Definition fragment_grid_desc_offset := U16 46.
Definition layout : list (field * Z) :=
  [(base, 16); (param_payload, 16); (frame_grid_desc, 8); (kernel_id, 1);
   (frame_grid_param_section_desc_offset, 1); (fragment_grid_desc_offset, 1)].
End spt.
Definition sizeof_ia_css_spatial_param_terminal_t : Z := 48.
Definition sizeof_ia_css_fragment_grid_desc_t : Z := 8.
Definition sizeof_ia_css_frame_grid_param_section_desc_t : Z := 16.

(** [struct ia_css_sliced_param_terminal_s] and its slice descriptors. *)
Module slt.
Definition base := U8 0.
Definition param_payload := U8 16.
Definition kernel_id := U32 32.
Definition fragment_slice_desc_offset := U16 36.
Definition padding := U8 38.
Definition layout : list (field * Z) :=
  [(base, 16); (param_payload, 16); (kernel_id, 1); (fragment_slice_desc_offset, 1); (padding, 2)].
End slt.
Definition sizeof_ia_css_sliced_param_terminal_t : Z := 40.

Module fsd.
Definition slice_section_desc_offset := U16 0.
Definition slice_count := U16 2.
Definition padding := U8 4.
Definition layout : list (field * Z) :=
  [(slice_section_desc_offset, 1); (slice_count, 1); (padding, 4)].
End fsd.
Definition sizeof_ia_css_fragment_slice_desc_t : Z := 8.

(** [struct ia_css_program_terminal_s]. *)
Module prt.
Definition base := U8 0.
Definition param_payload := U8 16.
Definition fragment_param_section_desc_offset := U16 32.
Definition kernel_fragment_sequencer_info_desc_offset := U16 34.
Definition payload_fragment_stride := U32 36.
Definition layout : list (field * Z) :=
  [(base, 16); (param_payload, 16); (fragment_param_section_desc_offset, 1);
   (kernel_fragment_sequencer_info_desc_offset, 1); (payload_fragment_stride, 1)].
End prt.
Definition sizeof_ia_css_program_terminal_t : Z := 40.
Definition sizeof_ia_css_kernel_fragment_sequencer_info_desc_t : Z := 24.
Definition sizeof_ia_css_kernel_fragment_sequencer_command_desc_t : Z := 8.

(** [struct ia_css_program_control_init_terminal_s] and its program
    descriptors. *)
Module pcit.
Definition base := U8 0.
Definition param_payload := U8 16.
Definition payload_fragment_stride := U32 32.
Definition program_section_desc_offset := U16 36.
Definition program_count := U16 38.
Definition layout : list (field * Z) :=
  [(base, 16); (param_payload, 16); (payload_fragment_stride, 1);
   (program_section_desc_offset, 1); (program_count, 1)].
End pcit.
Definition sizeof_ia_css_program_control_init_terminal_t : Z := 40.

Module pcd.
Definition load_section_count := U16 0.
Definition load_section_desc_offset := U16 2.
Definition connect_section_count := U16 4.
Definition connect_section_desc_offset := U16 6.
Definition process_id := U16 8.
Definition num_done_events := U8 10.
Definition control_padding := U8 11.
Definition filled_load_sections := U8 12.
Definition filled_connect_sections := U8 13.
Definition load_section_mem_offset := U16 14.
Definition layout : list (field * Z) :=
  [(load_section_count, 1); (load_section_desc_offset, 1); (connect_section_count, 1);
   (connect_section_desc_offset, 1); (process_id, 1); (num_done_events, 1);
   (control_padding, 1); (filled_load_sections, 1); (filled_connect_sections, 1);
   (load_section_mem_offset, 1)].
End pcd.
Definition sizeof_ia_css_program_control_init_program_desc_t : Z := 16.
Definition sizeof_ia_css_program_control_init_load_section_desc_t : Z := 8.
Definition sizeof_ia_css_program_control_init_connect_section_desc_t : Z := 8.

(** [struct ia_css_fragment_descriptor_s] of a data terminal. *)
Module fgd.
Definition dimension := U16 0.
Definition index := U16 4.
Definition offset := U16 8.
Definition padding := U8 12.
Definition layout : list (field * Z) :=
  [(dimension, 2); (index, 2); (offset, 2); (padding, 4)].
End fgd.

#[export] Hint Unfold sec.mem_offset sec.mem_size sizeof_ia_css_param_section_desc_t
  sizeof_ia_css_fragment_param_section_desc_t sizeof_ia_css_slice_param_section_desc_t
  pt.param_section_desc_offset sizeof_ia_css_param_terminal_t
  spt.kernel_id spt.frame_grid_param_section_desc_offset spt.fragment_grid_desc_offset
  sizeof_ia_css_spatial_param_terminal_t sizeof_ia_css_fragment_grid_desc_t
  sizeof_ia_css_frame_grid_param_section_desc_t
  slt.kernel_id slt.fragment_slice_desc_offset sizeof_ia_css_sliced_param_terminal_t
  fsd.slice_section_desc_offset fsd.slice_count sizeof_ia_css_fragment_slice_desc_t
  prt.fragment_param_section_desc_offset prt.kernel_fragment_sequencer_info_desc_offset
  prt.payload_fragment_stride sizeof_ia_css_program_terminal_t
  sizeof_ia_css_kernel_fragment_sequencer_info_desc_t
  sizeof_ia_css_kernel_fragment_sequencer_command_desc_t
  pcit.payload_fragment_stride pcit.program_section_desc_offset pcit.program_count
  sizeof_ia_css_program_control_init_terminal_t
  pcd.load_section_count pcd.load_section_desc_offset pcd.connect_section_count
  pcd.connect_section_desc_offset pcd.process_id pcd.num_done_events
  pcd.load_section_mem_offset sizeof_ia_css_program_control_init_program_desc_t
  sizeof_ia_css_program_control_init_load_section_desc_t
  sizeof_ia_css_program_control_init_connect_section_desc_t
  fgd.dimension fgd.index fgd.offset sizeof_ia_css_fragment_descriptor_t : layout.

Lemma terminal_part_layouts :
  tiles sec.layout sizeof_ia_css_param_section_desc_t = true
  /\ tiles pt.layout sizeof_ia_css_param_terminal_t = true
  /\ tiles spt.layout sizeof_ia_css_spatial_param_terminal_t = true
  /\ tiles slt.layout sizeof_ia_css_sliced_param_terminal_t = true
  /\ tiles fsd.layout sizeof_ia_css_fragment_slice_desc_t = true
  /\ tiles prt.layout sizeof_ia_css_program_terminal_t = true
  /\ tiles pcit.layout sizeof_ia_css_program_control_init_terminal_t = true
  /\ tiles pcd.layout sizeof_ia_css_program_control_init_program_desc_t = true
  /\ tiles fgd.layout sizeof_ia_css_fragment_descriptor_t = true.
Proof. repeat split; reflexivity. Qed.

(** ** Sizes: [unsigned int] *)

Definition ia_css_param_in_terminal_get_descriptor_size (nof_sections : Z) : Z :=
  u32 (sizeof_ia_css_param_terminal_t + nof_sections * sizeof_ia_css_param_section_desc_t).

Definition ia_css_param_out_terminal_get_descriptor_size (nof_sections nof_fragments : Z) : Z :=
  u32 (sizeof_ia_css_param_terminal_t
       + u32 (nof_fragments * nof_sections) * sizeof_ia_css_param_section_desc_t).

Definition ia_css_spatial_param_terminal_get_descriptor_size
    (nof_frame_param_sections nof_fragments : Z) : Z :=
  u32 (sizeof_ia_css_spatial_param_terminal_t
       + nof_frame_param_sections * sizeof_ia_css_frame_grid_param_section_desc_t
       + nof_fragments * sizeof_ia_css_fragment_grid_desc_t).

(** [nof_slices] is an array of [nof_fragments] counts ([None] is NULL). *)
Definition ia_css_sliced_param_terminal_get_descriptor_size
    (nof_slice_param_sections : Z) (nof_slices : option (list Z)) (nof_fragments : Z) : Z :=
  match nof_slices with
  | None => 0
  | Some nof_slices =>
      let nof_slices_total :=
        foldl (fun total i => u32 (total + nof_slices !!! Z.to_nat i)) 0 (range 0 nof_fragments) in
      u32 (sizeof_ia_css_sliced_param_terminal_t
           + nof_fragments * sizeof_ia_css_fragment_slice_desc_t
           + u32 (nof_slices_total * nof_slice_param_sections)
             * sizeof_ia_css_fragment_param_section_desc_t)
  end.

Definition ia_css_program_terminal_get_descriptor_size
    (nof_fragments nof_fragment_param_sections nof_kernel_fragment_sequencer_infos
     nof_command_objs : Z) : Z :=
  u32 (sizeof_ia_css_program_terminal_t
       + nof_fragment_param_sections * sizeof_ia_css_fragment_param_section_desc_t
       + u32 (nof_fragments * nof_kernel_fragment_sequencer_infos)
         * sizeof_ia_css_kernel_fragment_sequencer_info_desc_t
       + nof_command_objs * sizeof_ia_css_kernel_fragment_sequencer_command_desc_t).

(** ** Accessors *)

Section Accessors.
Context (m : mem).

Definition ia_css_param_in_terminal_get_param_section_desc
    (param_terminal section_index : Z) : Z :=
  if is_null param_terminal then NULL
  else param_terminal + rd m param_terminal pt.param_section_desc_offset
       + section_index * sizeof_ia_css_param_section_desc_t.

Definition ia_css_param_out_terminal_get_param_section_desc
    (param_terminal section_index nof_sections fragment_index : Z) : Z :=
  if is_null param_terminal then NULL
  else param_terminal + rd m param_terminal pt.param_section_desc_offset
       + u32 (nof_sections * fragment_index + section_index) * sizeof_ia_css_param_section_desc_t.

Definition ia_css_spatial_param_terminal_get_fragment_grid_desc
    (spatial_param_terminal fragment_index : Z) : Z :=
  if is_null spatial_param_terminal then NULL
  else spatial_param_terminal + rd m spatial_param_terminal spt.fragment_grid_desc_offset
       + fragment_index * sizeof_ia_css_fragment_grid_desc_t.

Definition ia_css_spatial_param_terminal_get_frame_grid_param_section_desc
    (spatial_param_terminal section_index : Z) : Z :=
  if is_null spatial_param_terminal then NULL
  else spatial_param_terminal
       + rd m spatial_param_terminal spt.frame_grid_param_section_desc_offset
       + section_index * sizeof_ia_css_frame_grid_param_section_desc_t.

Definition ia_css_sliced_param_terminal_get_fragment_slice_desc
    (sliced_param_terminal fragment_index : Z) : Z :=
  if is_null sliced_param_terminal then NULL
  else sliced_param_terminal + rd m sliced_param_terminal slt.fragment_slice_desc_offset
       + fragment_index * sizeof_ia_css_fragment_slice_desc_t.

(** The section base is taken from the terminal's address. *)
Definition ia_css_sliced_param_terminal_get_slice_param_section_desc
    (sliced_param_terminal fragment_index slice_index section_index
     nof_slice_param_sections : Z) : Z :=
  let fragment_slice_desc :=
    ia_css_sliced_param_terminal_get_fragment_slice_desc sliced_param_terminal fragment_index in
  if is_null fragment_slice_desc then NULL
  else sliced_param_terminal + rd m fragment_slice_desc fsd.slice_section_desc_offset
       + u32 (slice_index * nof_slice_param_sections + section_index)
         * sizeof_ia_css_slice_param_section_desc_t.

Definition ia_css_program_terminal_get_frgmnt_prm_sct_desc
    (program_terminal fragment_index section_index nof_fragment_param_sections : Z) : Z :=
  if is_null program_terminal then NULL
  else if negb (section_index <? nof_fragment_param_sections) then NULL
  else program_terminal + rd m program_terminal prt.fragment_param_section_desc_offset
       + section_index * sizeof_ia_css_fragment_param_section_desc_t.

Definition ia_css_program_terminal_get_kernel_frgmnt_seq_info_desc
    (program_terminal fragment_index info_index nof_kernel_fragment_sequencer_infos : Z) : Z :=
  if is_null program_terminal then NULL
  else if (0 <? nof_kernel_fragment_sequencer_infos)
          && negb (info_index <? nof_kernel_fragment_sequencer_infos) then NULL
  else program_terminal + rd m program_terminal prt.kernel_fragment_sequencer_info_desc_offset
       + u32 (fragment_index * nof_kernel_fragment_sequencer_infos + info_index)
         * sizeof_ia_css_kernel_fragment_sequencer_info_desc_t.

(** [Some offset] is what is stored through [command_desc_offset] with the
    return value 0; -EFAULT is [None]. *)
Definition ia_css_program_terminal_get_command_base_offset
    (program_terminal nof_fragments nof_kernel_fragment_sequencer_infos
     commands_slots_used : Z) : option Z :=
  if is_null program_terminal then None
  else Some (u16 (rd m program_terminal prt.kernel_fragment_sequencer_info_desc_offset
                  + u32 (nof_fragments * nof_kernel_fragment_sequencer_infos)
                    * sizeof_ia_css_kernel_fragment_sequencer_info_desc_t
                  + commands_slots_used
                    * sizeof_ia_css_kernel_fragment_sequencer_command_desc_t)).

(** The address of entry [set_count & 3] of command object
    [set_count >> 2]. *)
Definition ia_css_program_terminal_get_line_count
    (kernel_fragment_sequencer_command_desc_base set_count : Z) : Z :=
  if is_null kernel_fragment_sequencer_command_desc_base then NULL
  else kernel_fragment_sequencer_command_desc_base
       + Z.shiftr set_count 2 * sizeof_ia_css_kernel_fragment_sequencer_command_desc_t
       + Z.land set_count 3 * 2.

(** *** Program control init terminals (ia_css_psys_terminal_impl.h) *)

Definition ia_css_program_control_init_terminal_get_program_desc
    (prog_ctrl_init_terminal program_index : Z) : Z :=
  if is_null prog_ctrl_init_terminal then NULL
  else if negb (program_index <? rd m prog_ctrl_init_terminal pcit.program_count) then NULL
  else prog_ctrl_init_terminal + rd m prog_ctrl_init_terminal pcit.program_section_desc_offset
       + program_index * sizeof_ia_css_program_control_init_program_desc_t.

Definition ia_css_program_control_init_terminal_get_process_id (program_desc : Z) : Z :=
  if is_null program_desc then 0 else rd m program_desc pcd.process_id.

Definition ia_css_program_control_init_terminal_get_num_done_events (program_desc : Z) : Z :=
  if is_null program_desc then 0 else rd m program_desc pcd.num_done_events.

Definition ia_css_program_control_init_terminal_get_connect_section_count (program_desc : Z) : Z :=
  rd m program_desc pcd.connect_section_count.

Definition ia_css_program_control_init_terminal_get_load_section_count (program_desc : Z) : Z :=
  rd m program_desc pcd.load_section_count.

Definition ia_css_program_control_init_terminal_get_load_section_mem_offset
    (program_desc : Z) : Z :=
  rd m program_desc pcd.load_section_mem_offset.

Definition ia_css_program_control_init_terminal_get_load_section_desc
    (program_desc load_section_index : Z) : Z :=
  if is_null program_desc then NULL
  else if negb (load_section_index <? rd m program_desc pcd.load_section_count) then NULL
  else program_desc + rd m program_desc pcd.load_section_desc_offset
       + load_section_index * sizeof_ia_css_program_control_init_load_section_desc_t.

Definition ia_css_program_control_init_terminal_get_connect_section_desc
    (program_desc connect_section_index : Z) : Z :=
  if is_null program_desc then NULL
  else if negb (connect_section_index <? rd m program_desc pcd.connect_section_count) then NULL
  else program_desc + rd m program_desc pcd.connect_section_desc_offset
       + connect_section_index * sizeof_ia_css_program_control_init_connect_section_desc_t.
End Accessors.

Definition ia_css_program_control_init_terminal_set_control_info
    (program_desc process_id num_done_events : Z) (m : mem) : mem :=
  if is_null program_desc then m
  else wr (wr m program_desc pcd.process_id process_id) program_desc pcd.num_done_events
         num_done_events.

(** ** Creation from a description *)

(** [base.terminal_type], [base.parent_offset = 0 - ((int16_t)terminal_offset)]
    and [base.size]. *)
Definition create_base (terminal terminal_type terminal_offset terminal_size : Z) (m : mem) : mem :=
  let m := wr m terminal te.terminal_type terminal_type in
  let m := wr m terminal te.parent_offset (0 - signed 16 terminal_offset) in
  wr m terminal te.size terminal_size.

Definition ia_css_param_terminal_create
    (param_terminal terminal_offset terminal_size is_input_terminal : Z) (m : mem) : Z * mem :=
  if is_null param_terminal then (- EFAULT, m)
  else if terminal_offset >? Z.shiftl 1 15 then (- EINVAL, m)
  else
    let m := create_base param_terminal
               (if negb (is_input_terminal =? 0) then IA_CSS_TERMINAL_TYPE_PARAM_CACHED_IN
                else IA_CSS_TERMINAL_TYPE_PARAM_CACHED_OUT) terminal_offset terminal_size m in
    (0, wr m param_terminal pt.param_section_desc_offset sizeof_ia_css_param_terminal_t).

Definition ia_css_spatial_param_terminal_create
    (spatial_param_terminal terminal_offset terminal_size is_input_terminal
     nof_fragments kernel_id : Z) (m : mem) : Z * mem :=
  if is_null spatial_param_terminal then (- EFAULT, m)
  else if terminal_offset >? Z.shiftl 1 15 then (- EINVAL, m)
  else
    let m := create_base spatial_param_terminal
               (if negb (is_input_terminal =? 0) then IA_CSS_TERMINAL_TYPE_PARAM_SPATIAL_IN
                else IA_CSS_TERMINAL_TYPE_PARAM_SPATIAL_OUT) terminal_offset terminal_size m in
    let m := wr m spatial_param_terminal spt.kernel_id kernel_id in
    let m := wr m spatial_param_terminal spt.fragment_grid_desc_offset
               sizeof_ia_css_spatial_param_terminal_t in
    (0, wr m spatial_param_terminal spt.frame_grid_param_section_desc_offset
          (rd m spatial_param_terminal spt.fragment_grid_desc_offset
           + nof_fragments * sizeof_ia_css_fragment_grid_desc_t)).

(** The loop keeps the total of the slices of the fragments before. *)
Definition ia_css_sliced_param_terminal_create
    (sliced_param_terminal terminal_offset terminal_size is_input_terminal
     nof_slice_param_sections : Z) (nof_slices : list Z) (nof_fragments kernel_id : Z)
    (m : mem) : Z * mem :=
  if is_null sliced_param_terminal then (- EFAULT, m)
  else if terminal_offset >? Z.shiftl 1 15 then (- EINVAL, m)
  else
    let m := create_base sliced_param_terminal
               (if negb (is_input_terminal =? 0) then IA_CSS_TERMINAL_TYPE_PARAM_SLICED_IN
                else IA_CSS_TERMINAL_TYPE_PARAM_SLICED_OUT) terminal_offset terminal_size m in
    let m := wr m sliced_param_terminal slt.kernel_id kernel_id in
    let m := wr m sliced_param_terminal slt.fragment_slice_desc_offset
               sizeof_ia_css_sliced_param_terminal_t in
    let '(_, m) :=
      foldl (fun '(nof_slices_total, m) fragment_index =>
        let fragment_slice_desc :=
          ia_css_sliced_param_terminal_get_fragment_slice_desc m sliced_param_terminal
            fragment_index in
        let m := wr m fragment_slice_desc fsd.slice_count (nof_slices !!! Z.to_nat fragment_index) in
        let m := wr m fragment_slice_desc fsd.slice_section_desc_offset
                   (rd m sliced_param_terminal slt.fragment_slice_desc_offset
                    + nof_fragments * sizeof_ia_css_fragment_slice_desc_t
                    + u32 (nof_slices_total * nof_slice_param_sections)
                      * sizeof_ia_css_slice_param_section_desc_t) in
        (u32 (nof_slices_total + nof_slices !!! Z.to_nat fragment_index), m))
        (0, m) (range 0 nof_fragments) in
    (0, m).

Definition ia_css_program_terminal_create
    (program_terminal terminal_offset terminal_size nof_fragments
     nof_kernel_fragment_sequencer_infos nof_command_objs : Z) (m : mem) : Z * mem :=
  if is_null program_terminal then (- EFAULT, m)
  else if terminal_offset >? Z.shiftl 1 15 then (- EINVAL, m)
  else
    let m := create_base program_terminal IA_CSS_TERMINAL_TYPE_PROGRAM terminal_offset
               terminal_size m in
    let m := wr m program_terminal prt.kernel_fragment_sequencer_info_desc_offset
               sizeof_ia_css_program_terminal_t in
    (0, wr m program_terminal prt.fragment_param_section_desc_offset
          (rd m program_terminal prt.kernel_fragment_sequencer_info_desc_offset
           + u32 (nof_fragments * nof_kernel_fragment_sequencer_infos)
             * sizeof_ia_css_kernel_fragment_sequencer_info_desc_t
           + nof_command_objs * sizeof_ia_css_kernel_fragment_sequencer_command_desc_t)).
