(* ===== verification/ProgramControlInit.v ===== *)
(** * Program control init terminals

    The program control init part of include/ia_css_psys_terminal_impl.h
    ([ia_css_program_control_init_terminal_init] and its size): a terminal with
    a descriptor for every program of the manifest, behind them the load
    sections and then the connect sections of the programs that run. *)

From S2P Require Import Prelude Memory ResourceModel KernelBitmap ProgramGroupParam ProgramManifest Terminal TerminalManifest ProgramGroupManifest ProgramGraph GroupSelection ManifestRegion TerminalLayout.
#[local] Open Scope css_scope.

(** ** Operations *)

Section Program_control_init.
Context (m : mem).

(** The sections of the programs that run: the first loop of
    [ia_css_program_control_init_terminal_init] and the loop of
    [..._get_descriptor_size]; [None] when a program manifest is missing. *)
Definition enabled_section_counts (manifest pg_manifest man_progs : Z)
    (kernel_bitmap : ia_css_kernel_bitmap_t) : option (Z * Z) :=
  for_opt (range 0 (rd m manifest pcitm.program_count)) (0, 0)
    (fun i '(load_section_count, connect_section_count) =>
       let prog_manifest := ia_css_program_group_manifest_get_prgrm_mnfst m pg_manifest i in
       verif negb (is_null prog_manifest) ;;
       if negb (ia_css_process_group_is_program_enabled m prog_manifest kernel_bitmap)
       then Some (load_section_count, connect_section_count)
       else
         let man_prog :=
           man_progs + i * sizeof_ia_css_program_control_init_manifest_program_desc_t in
         Some (u32 (load_section_count + rd m man_prog pcitm.load_section_count),
               u32 (connect_section_count + rd m man_prog pcitm.connect_section_count))).

Definition ia_css_program_control_init_terminal_get_descriptor_size
    (manifest pg_manifest : Z) (kernel_bitmap : ia_css_kernel_bitmap_t) : Z :=
  if is_null manifest then 0
  else
    let man_progs :=
      ia_css_program_control_init_terminal_manifest_get_program_desc m manifest 0 in
    if is_null man_progs then 0
    else
      match enabled_section_counts manifest pg_manifest man_progs kernel_bitmap with
      | None => 0
      | Some (load_section_count, connect_section_count) =>
          u32 (sizeof_ia_css_program_control_init_terminal_t
               + rd m manifest pcitm.program_count
                 * sizeof_ia_css_program_control_init_program_desc_t
               + load_section_count
                 * sizeof_ia_css_program_control_init_load_section_desc_t
               + connect_section_count
                 * sizeof_ia_css_program_control_init_connect_section_desc_t)
      end.
End Program_control_init.

(** The second loop: one program descriptor. *)
Definition program_desc_body (terminal pg_manifest man_progs : Z)
    (kernel_bitmap : ia_css_kernel_bitmap_t) (base_load_sec base_connect_sec : Z)
    (i : Z) (idx : Z * Z) : M mem (Z * Z) :=
  let '(load_index, connect_index) := idx in
  prog <- gets (fun m => ia_css_program_control_init_terminal_get_program_desc m terminal i) ;;
  verifexit (negb (is_null prog)) ;;;
  prog_manifest <- gets (fun m => ia_css_program_group_manifest_get_prgrm_mnfst m pg_manifest i) ;;
  verifexit (negb (is_null prog_manifest)) ;;;
  enabled <- gets (fun m => ia_css_process_group_is_program_enabled m prog_manifest kernel_bitmap) ;;
  if negb enabled then
    wrM prog pcd.load_section_count 0 ;;;
    wrM prog pcd.connect_section_count 0 ;;;
    wrM prog pcd.load_section_desc_offset 0 ;;;
    wrM prog pcd.connect_section_desc_offset 0 ;;;
    ret (load_index, connect_index)
  else
    let man_prog := man_progs + i * sizeof_ia_css_program_control_init_manifest_program_desc_t in
    man_load <- rdM man_prog pcitm.load_section_count ;;
    wrM prog pcd.load_section_count man_load ;;;
    man_connect <- rdM man_prog pcitm.connect_section_count ;;
    wrM prog pcd.connect_section_count man_connect ;;;
    wrM prog pcd.load_section_desc_offset
      (base_load_sec + load_index * sizeof_ia_css_program_control_init_load_section_desc_t
       - i * sizeof_ia_css_program_control_init_program_desc_t) ;;;
    wrM prog pcd.connect_section_desc_offset
      (base_connect_sec + connect_index * sizeof_ia_css_program_control_init_connect_section_desc_t
       - i * sizeof_ia_css_program_control_init_program_desc_t) ;;;
    man_load <- rdM man_prog pcitm.load_section_count ;;
    man_connect <- rdM man_prog pcitm.connect_section_count ;;
    ret (u32 (load_index + man_load), u32 (connect_index + man_connect)).

Definition ia_css_program_control_init_terminal_init (terminal manifest pg_manifest : Z)
    (kernel_bitmap : ia_css_kernel_bitmap_t) : mem -> Z * mem :=
  with_retval (-1)
    (verifexit (negb (is_null terminal)) ;;;
     man_progs <- gets (fun m =>
       ia_css_program_control_init_terminal_manifest_get_program_desc m manifest 0) ;;
     verifexit (negb (is_null man_progs)) ;;;
     counts <- gets (fun m => enabled_section_counts m manifest pg_manifest man_progs kernel_bitmap) ;;
     match counts with
     | None => exit
     | Some (load_section_count, connect_section_count) =>
         program_count <- rdM manifest pcitm.program_count ;;
         wrM terminal pcit.program_count program_count ;;;
         wrM terminal pcit.program_section_desc_offset
           sizeof_ia_css_program_control_init_terminal_t ;;;
         program_count <- rdM terminal pcit.program_count ;;
         let base_load_sec :=
           u32 (program_count * sizeof_ia_css_program_control_init_program_desc_t) in
         let base_connect_sec :=
           u32 (base_load_sec
                + load_section_count * sizeof_ia_css_program_control_init_load_section_desc_t) in
         for_each (range 0 program_count) (0, 0)
           (program_desc_body terminal pg_manifest man_progs kernel_bitmap
              base_load_sec base_connect_sec) ;;;
         ret 0
     end).

(** ** Where the sections are *)

Section Program_control.
Variables (m : mem) (t man g : Z) (kb : ia_css_kernel_bitmap_t).

Definition man_prog (i : Z) : Z :=
  man + rd m man pcitm.program_desc_offset
  + i * sizeof_ia_css_program_control_init_manifest_program_desc_t.

Definition program_runs (i : Z) : bool :=
  ia_css_process_group_is_program_enabled m
    (ia_css_program_group_manifest_get_prgrm_mnfst m g i) kb.

(** The sections of program [i], none when it does not run. *)
Definition loads (i : Z) : Z :=
  if program_runs i then rd m (man_prog i) pcitm.load_section_count else 0.
Definition connects (i : Z) : Z :=
  if program_runs i then rd m (man_prog i) pcitm.connect_section_count else 0.

Definition programs : Z := rd m man pcitm.program_count.

(** Header, program descriptors, load sections, connect sections. *)
Definition control_room : Z :=
  40 + programs * 16 + count loads programs * 8 + count connects programs * 8.

(** What initialisation reads is not in the terminal, and the group has a
    program for every descriptor. *)
Record control_inputs (hi : Z) : Prop := {
  ci_man : 0 < man /\ (man + 24 <= t \/ hi <= man);
  ci_descs : man_prog programs <= t \/ hi <= man_prog 0;
  ci_group : 0 < g /\ programs_clear m g t hi = true /\ parents_ok m g
             /\ programs <= ia_css_program_group_manifest_get_program_count m g
}.

Lemma loads_connects i :
  if program_runs i
  then loads i = rd m (man_prog i) pcitm.load_section_count
       /\ connects i = rd m (man_prog i) pcitm.connect_section_count
  else loads i = 0 /\ connects i = 0.
Proof. unfold loads, connects. destruct (program_runs i); auto. Qed.

Lemma loads_range i : 0 <= loads i < 65536.
Proof. unfold loads. destruct (program_runs i); [apply rd_U16_range | lia]. Qed.
Lemma connects_range i : 0 <= connects i < 65536.
Proof. unfold connects. destruct (program_runs i); [apply rd_U16_range | lia]. Qed.

Lemma enabled_counts hi :
  control_inputs hi -> control_room < 65536 ->
  enabled_section_counts m man g (man_prog 0) kb = Some (count loads programs, count connects programs).
Proof.
  intros CI Hr. unfold enabled_section_counts. fold programs.
  assert (Hp : 0 <= programs) by apply (rd_U32_range m man 16).
  assert (B : forall i, 0 <= i <= programs -> 0 <= count loads i <= count loads programs
              /\ 0 <= count connects i <= count connects programs).
  { intros i Hi. split; apply count_mono; try lia; intros k; [apply loads_range | apply connects_range]. }
  destruct (B programs ltac:(lia)) as [B1 B2]. unfold control_room in Hr.
  apply (for_opt_run (fun i => (count loads i, count connects i))); [exact Hp |].
  intros i Hi. destruct (ci_group _ CI) as (Hg & _ & _ & Hc).
  rewrite not_null by (apply prgrm_mnfst_pos; cbn [g_programs graph_of]; lia). cbn [negb]. fold (program_runs i).
  rewrite !count_succ by lia. destruct (B (i + 1) ltac:(lia)) as [C1 C2]. rewrite !count_succ in C1, C2 by lia.
  replace (man_prog 0 + _) with (man_prog i) by (unfold man_prog; lia).
  pose proof (loads_connects i) as E12.
  destruct (program_runs i); destruct E12 as [E1 E2]; cbn [negb].
  - rewrite <- E1, <- E2, !u32_small by lia. reflexivity.
  - rewrite E1, E2, !Z.add_0_r. reflexivity.
Qed.

(** The descriptor of program [i], and where its sections are. *)
Record program_described (s : mem) (i : Z) : Prop := {
  pd_loads : rd s (t + 40 + i * 16) pcd.load_section_count = loads i;
  pd_connects : rd s (t + 40 + i * 16) pcd.connect_section_count = connects i;
  pd_load_offset : program_runs i = true ->
    rd s (t + 40 + i * 16) pcd.load_section_desc_offset
    = (programs - i) * 16 + count loads i * 8;
  pd_connect_offset : program_runs i = true ->
    rd s (t + 40 + i * 16) pcd.connect_section_desc_offset
    = (programs - i) * 16 + count loads programs * 8 + count connects i * 8
}.

Definition described (i : Z) (acc : Z * Z) (s : mem) : Prop :=
  acc = (count loads i, count connects i)
  /\ same_outside (t + 36) (t + (40 + programs * 16)) m s
  /\ rd s t pcit.program_count = programs
  /\ rd s t pcit.program_section_desc_offset = sizeof_ia_css_program_control_init_terminal_t
  /\ forall j, 0 <= j < i -> program_described s j.

Lemma man_prog_at j : man_prog j = man_prog 0 + j * 8.
Proof. unfold man_prog, sizeof_ia_css_program_control_init_manifest_program_desc_t. lia. Qed.

Lemma count_range i :
  0 <= i <= programs ->
  0 <= count loads i <= count loads programs /\ 0 <= count connects i <= count connects programs.
Proof.
  intros Hi. split; apply count_mono; try lia; intros k; [apply loads_range | apply connects_range].
Qed.

(** What the step on program [i] reads of the manifests, on any memory that
    differs inside the terminal only. *)
Lemma control_inputs_at hi s i :
  control_inputs hi -> same_outside t hi m s -> 0 <= i < programs ->
  ia_css_program_group_manifest_get_prgrm_mnfst s g i
    = ia_css_program_group_manifest_get_prgrm_mnfst m g i
  /\ is_null (ia_css_program_group_manifest_get_prgrm_mnfst m g i) = false
  /\ ia_css_process_group_is_program_enabled s
       (ia_css_program_group_manifest_get_prgrm_mnfst m g i) kb = program_runs i
  /\ rd s (man_prog 0 + i * 8) pcitm.load_section_count = rd m (man_prog i) pcitm.load_section_count
  /\ rd s (man_prog 0 + i * 8) pcitm.connect_section_count
     = rd m (man_prog i) pcitm.connect_section_count.
Proof.
  intros CI S Hi. destruct (ci_group _ CI) as (Hg & C & P & Hc). pose proof (ci_descs _ CI) as D.
  rewrite man_prog_at in D. rewrite (man_prog_at i).
  split; [apply (prgrm_mnfst_locality m s t hi S); auto; lia |].
  split; [apply not_null, prgrm_mnfst_pos; cbn [g_programs graph_of]; lia |].
  split; [apply (program_enabled_locality m s t hi S); auto; lia |].
  split; apply (rd_same_outside _ _ _ _ _ _ S); mem_out.
Qed.

(** The stores of the step keep the terminal's header and the descriptors of
    the other programs. *)
Lemma described_keep i s s' :
  0 <= i < programs ->
  same_outside (t + 40 + i * 16) (t + 40 + i * 16 + 16) s s' ->
  rd s' t pcit.program_count = rd s t pcit.program_count
  /\ rd s' t pcit.program_section_desc_offset = rd s t pcit.program_section_desc_offset
  /\ forall j, 0 <= j < programs -> j <> i -> program_described s j -> program_described s' j.
Proof.
  intros Hi S.
  split; [apply (rd_same_outside _ _ _ _ _ _ S); mem_out |].
  split; [apply (rd_same_outside _ _ _ _ _ _ S); mem_out |].
  intros j Hj Hne [D1 D2 D3 D4].
  assert (R : forall f, 0 <= f_off f -> f_off f + Z.of_nat (f_len f) <= 16 ->
    rd s' (t + 40 + j * 16) f = rd s (t + 40 + j * 16) f)
    by (intros f H1 H2; apply (rd_same_outside _ _ _ _ _ _ S); lia).
  constructor; rewrite R by mem_out; assumption.
Qed.

Lemma described_step i acc s :
  0 < t -> control_inputs (t + control_room) -> control_room < 65536 -> 0 <= i < programs ->
  described i acc s ->
  exists acc' s',
    program_desc_body t g (man_prog 0) kb (programs * 16) (programs * 16 + count loads programs * 8)
      i acc s = (Some acc', s') /\ described (i + 1) acc' s'.
Proof.
  intros Ht CI Hr Hi (-> & S & Epc & Eo & Hd).
  pose proof (count_range i ltac:(lia)) as B. pose proof (count_range (i + 1) ltac:(lia)) as B'.
  rewrite !count_succ in B' by lia. pose proof (count_range programs ltac:(lia)) as Bp.
  unfold control_room in CI, Hr. change sizeof_ia_css_program_control_init_terminal_t with 40 in Eo.
  assert (S0 : same_outside t (t + control_room) m s)
    by (eapply same_outside_weaken; [| | exact S]; unfold control_room; lia).
  pose proof (loads_range i) as Rl. pose proof (connects_range i) as Rc.
  destruct (control_inputs_at _ s i CI S0 Hi) as (Eg & Hn & Er & El & Ec).
  pose proof (ci_descs _ CI) as Dm. rewrite man_prog_at in Dm.
  remember (t + 40 + i * 16) as p eqn:Hp.
  assert (Ep : ia_css_program_control_init_terminal_get_program_desc s t i = p).
  { unfold ia_css_program_control_init_terminal_get_program_desc.
    rewrite (not_null t), Epc, Eo, (proj2 (Z.ltb_lt i programs)) by lia.
    subst p. reflexivity. }
  assert (Np : is_null p = false) by (apply not_null; lia).
  pose proof (loads_connects i) as E12.
  assert (G : exists acc' s', program_desc_body t g (man_prog 0) kb (programs * 16)
      (programs * 16 + count loads programs * 8) i (count loads i, count connects i) s = (Some acc', s')
    /\ acc' = (count loads (i + 1), count connects (i + 1))
    /\ same_outside p (p + 16) s s' /\ program_described s' i).
  { unfold program_desc_body. mrun. rewrite Ep, Np. cbn [negb]. mrun. rewrite Eg, Hn. cbn [negb]. mrun.
    rewrite Er.
    rewrite !count_succ by lia. destruct (program_runs i) eqn:Een; destruct E12 as [E1 E2]; cbn [negb].
    - eexists _, _. split; [reflexivity |]. change sizeof_ia_css_program_control_init_manifest_program_desc_t with 8.
      split; [| split].
      + autounfold with layout in E1, E2. rd_back. rewrite <- man_prog_at, <- E1, <- E2, !u32_small by lia.
        reflexivity.
      + frame_back.
      + autounfold with layout in E1, E2. constructor; rewrite <- Hp; intros; rd_back;
          rewrite <- ?man_prog_at, <- ?E1, <- ?E2, f_conv_u16, u16_small by lia; lia.
    - eexists _, _. split; [reflexivity |]. split; [| split].
      + rewrite E1, E2, !Z.add_0_r. reflexivity.
      + frame_back.
      + constructor; rewrite <- Hp; intros; try congruence; rd_back; rewrite ?E1, ?E2; reflexivity. }
  destruct G as (acc' & s' & E & -> & S' & D).
  subst p. destruct (described_keep i s s' Hi S') as (K1 & K2 & K3).
  eexists _, s'. split; [exact E |]. split; [reflexivity |]. split; [| split; [| split]].
  - eapply same_outside_trans; [exact S |]. eapply same_outside_weaken; [| | exact S']; lia.
  - congruence.
  - rewrite K2, Eo. reflexivity.
  - intros j Hj. destruct (Z.eq_dec j i) as [-> | Hne]; [exact D |].
    apply K3; [lia | exact Hne | apply Hd; lia].
Qed.

(** Where the accessors find the sections of a described program. *)
Lemma described_sections s i :
  0 < t -> 0 <= i < programs -> rd s t pcit.program_count = programs ->
  rd s t pcit.program_section_desc_offset = sizeof_ia_css_program_control_init_terminal_t ->
  program_described s i ->
  ia_css_program_control_init_terminal_get_program_desc s t i = t + 40 + i * 16
  /\ (forall j, 0 <= j < loads i ->
        ia_css_program_control_init_terminal_get_load_section_desc s (t + 40 + i * 16) j
        = t + 40 + programs * 16 + (count loads i + j) * 8)
  /\ (forall j, 0 <= j < connects i ->
        ia_css_program_control_init_terminal_get_connect_section_desc s (t + 40 + i * 16) j
        = t + 40 + programs * 16 + count loads programs * 8 + (count connects i + j) * 8).
Proof.
  intros Ht Hi Hc Ho [D1 D2 D3 D4].
  assert (R : 0 < loads i \/ 0 < connects i -> program_runs i = true).
  { unfold loads, connects. destruct (program_runs i); [reflexivity | lia]. }
  unfold ia_css_program_control_init_terminal_get_program_desc,
    ia_css_program_control_init_terminal_get_load_section_desc,
    ia_css_program_control_init_terminal_get_connect_section_desc,
    sizeof_ia_css_program_control_init_load_section_desc_t,
    sizeof_ia_css_program_control_init_connect_section_desc_t.
  rewrite D1, D2, Hc, Ho, (not_null t), (not_null (t + 40 + i * 16)) by lia.
  split; [rewrite (proj2 (Z.ltb_lt _ _)) by lia; reflexivity |].
  split; intros j Hj; rewrite (proj2 (Z.ltb_lt _ _)) by lia; cbn [negb].
  - rewrite D3 by (apply R; lia). lia.
  - rewrite D4 by (apply R; lia). lia.
Qed.
End Program_control.

Lemma program_control_size m t man g kb :
  control_room m man g kb < 65536 ->
  control_inputs m t man g (t + control_room m man g kb) ->
  ia_css_program_control_init_terminal_get_descriptor_size m man g kb = control_room m man g kb.
Proof.
  intros Hr CI. pose proof (enabled_counts m t man g kb _ CI Hr) as Ec.
  pose proof (ci_man _ _ _ _ _ CI) as [Hm _]. pose proof (rd_U32_range m man 16) as Hp.
  change (rd m man (U32 16)) with (programs m man) in Hp.
  pose proof (count_range m man g kb (programs m man) ltac:(lia)) as B.
  unfold ia_css_program_control_init_terminal_get_descriptor_size. cbv zeta.
  assert (Ep : ia_css_program_control_init_terminal_manifest_get_program_desc m man 0 = man_prog m man 0)
    by reflexivity.
  rewrite (not_null man Hm), Ep, (not_null (man_prog m man 0)), Ec
    by (unfold man_prog; pose proof (rd_U16_range m man 20); autounfold with layout in *; lia).
  unfold control_room in *. fold (programs m man). apply u32_small. autounfold with layout.
  unfold sizeof_ia_css_program_control_init_load_section_desc_t,
    sizeof_ia_css_program_control_init_connect_section_desc_t. lia.
Qed.

(** The first loop and the stores to the header. *)
Lemma program_control_init_run m t man g kb :
  0 < t -> control_room m man g kb < 65536 ->
  control_inputs m t man g (t + control_room m man g kb) ->
  exists m', ia_css_program_control_init_terminal_init t man g kb m = (0, m')
    /\ exists acc, described m t man g kb (programs m man) acc m'.
Proof.
  intros Ht Hr CI. pose proof (enabled_counts m t man g kb _ CI Hr) as Ec.
  pose proof (ci_man _ _ _ _ _ CI) as [Hm Dm]. pose proof (rd_U32_range m man 16) as Hp.
  change (rd m man (U32 16)) with (programs m man) in Hp.
  pose proof (count_range m man g kb (programs m man) ltac:(lia)) as B.
  unfold control_room in Hr, Dm.
  assert (Ep : ia_css_program_control_init_terminal_manifest_get_program_desc m man 0 = man_prog m man 0)
    by reflexivity.
  assert (Hn : is_null (man_prog m man 0) = false).
  { apply not_null. unfold man_prog. pose proof (rd_U16_range m man 20). autounfold with layout in *. lia. }
  set (m1 := wr (wr m t pcit.program_count (programs m man)) t pcit.program_section_desc_offset
                sizeof_ia_css_program_control_init_terminal_t).
  assert (H1 : described m t man g kb 0 (0, 0) m1).
  { unfold described, m1. split; [reflexivity |].
    split; [frame_chain; lia |]. split; [| split; [| lia]]; rd_back.
    - rewrite f_conv_u16, u16_small by lia. reflexivity.
    - reflexivity. }
  destruct (for_range_inv (described m t man g kb) 0 (programs m man) (0, 0)
              (program_desc_body t g (man_prog m man 0) kb (programs m man * 16)
                 (programs m man * 16 + count (loads m man g kb) (programs m man) * 8)) m1)
    as (acc & m' & E & D); [lia | exact H1 | |].
  { intros i a s Hi Hd. apply described_step; auto. }
  exists m'. split; [| exists acc; exact D].
  unfold ia_css_program_control_init_terminal_init, with_retval. mrun.
  rewrite (not_null t Ht). cbn [negb]. mrun. rewrite Ep, Hn. cbn [negb]. mrun. rewrite Ec. cbn beta iota. mrun.
  fold (programs m man). fold m1.
  destruct H1 as (_ & _ & -> & _).
  unfold sizeof_ia_css_program_control_init_program_desc_t, sizeof_ia_css_program_control_init_load_section_desc_t.
  rewrite !u32_small, E by (rewrite ?u32_small; lia). reflexivity.
Qed.

(** ** Theorems *)

(** Initialising a program control init terminal succeeds and writes the
    terminal's header and program descriptors only; the size computed for the
    descriptors is the room they and their sections take, and the accessors
    find the [j]-th load and connect section of every program that runs at
    consecutive places behind the descriptors: all load sections first, then
    all connect sections, in the order of the programs. *)
Theorem program_control_init_layout m t man g kb :
  0 < t -> control_room m man g kb < 65536 ->
  control_inputs m t man g (t + control_room m man g kb) ->
  let '(r, m') := ia_css_program_control_init_terminal_init t man g kb m in
  r = 0
  /\ ia_css_program_control_init_terminal_get_descriptor_size m man g kb = control_room m man g kb
  /\ same_outside (t + 36) (t + 40 + programs m man * 16) m m'
  /\ forall i, 0 <= i < programs m man ->
       let p := ia_css_program_control_init_terminal_get_program_desc m' t i in
       p = t + 40 + i * 16
       /\ rd m' p pcd.load_section_count = loads m man g kb i
       /\ rd m' p pcd.connect_section_count = connects m man g kb i
       /\ (forall j, 0 <= j < loads m man g kb i ->
             ia_css_program_control_init_terminal_get_load_section_desc m' p j
             = t + 40 + programs m man * 16 + (count (loads m man g kb) i + j) * 8)
       /\ (forall j, 0 <= j < connects m man g kb i ->
             ia_css_program_control_init_terminal_get_connect_section_desc m' p j
             = t + 40 + programs m man * 16 + count (loads m man g kb) (programs m man) * 8
               + (count (connects m man g kb) i + j) * 8).
Proof.
  intros Ht Hr CI. destruct (program_control_init_run m t man g kb Ht Hr CI) as (m' & -> & acc & D).
  destruct D as (_ & S & Hc & Ho & Hd).
  split; [reflexivity |]. split.
  { apply program_control_size with (t := t); assumption. }
  split; [eapply same_outside_weaken; [| | exact S]; lia |].
  intros i Hi. cbv zeta.
  destruct (described_sections m t man g kb m' i Ht Hi Hc Ho (Hd i Hi)) as (-> & L & C).
  destruct (Hd i Hi). auto.
Qed.

(** Three programs, of which the supernode does not run, with one, two and one
    load sections and two, one and no connect sections. *)
Definition sample_control : mem :=
  let m := sample_selection 5 in
  let m := wr (wr m 5000 pcitm.program_count 3) 5000 pcitm.program_desc_offset 24 in
  foldl (fun m '(i, (l, c)) =>
           wr (wr m (5024 + i * 8) pcitm.load_section_count l) (5024 + i * 8) pcitm.connect_section_count c)
        m [(0, (1, 2)); (1, (2, 1)); (2, (1, 0))].

Lemma program_control_init_layout_witness :
  let m := sample_control in
  let kb := ia_css_kernel_bitmap_create_from_uint64 5 in
  let '(r, m') := ia_css_program_control_init_terminal_init 9000 5000 1000 kb m in
  control_room m 5000 1000 kb = 120
  /\ (r = 0 /\ ia_css_program_control_init_terminal_get_descriptor_size m 5000 1000 kb = 120)
  /\ ia_css_program_control_init_terminal_get_load_section_desc m'
       (ia_css_program_control_init_terminal_get_program_desc m' 9000 2) 0 = 9000 + 40 + 48 + 16.
Proof.
  intros m kb.
  pose proof (program_control_init_layout m 9000 5000 1000 kb) as H.
  assert (Er : control_room m 5000 1000 kb = 120) by (vm_compute; reflexivity).
  assert (E : programs m 5000 = 3 /\ loads m 5000 1000 kb 2 = 1
              /\ count (loads m 5000 1000 kb) 2 = 2) by (repeat split; vm_compute; reflexivity).
  destruct E as (Ep & El & Ec). rewrite Er, Ep in H.
  destruct (ia_css_program_control_init_terminal_init 9000 5000 1000 kb m) as [r m'].
  destruct H as (R & D & _ & H); [lia | lia | |].
  { constructor; [lia | | ].
    - left. vm_compute. discriminate.
    - rewrite Ep. split; [lia |]. split; [vm_compute; reflexivity |].
      split; [| vm_compute; discriminate].
      intros i Hi.
      assert (Hi' : i = 0 \/ i = 1 \/ i = 2).
      { change (g_programs (graph_of m 1000)) with 3 in Hi. lia. }
      destruct Hi' as [-> | [-> | ->]]; vm_compute; reflexivity. }
  split; [reflexivity |]. split; [split; assumption |].
  destruct (H 2 ltac:(lia)) as (-> & _ & _ & L & _). rewrite (L 0), Ec by lia. lia.
Defined.
