(* ===== verification/TerminalCreate.v ===== *)
(** * Creating a terminal

    src/ia_css_psys_terminal.c ([ia_css_sizeof_terminal],
    [ia_css_terminal_create]) and the program control init part of
    include/ia_css_psys_terminal_impl.h: a terminal is built in the group's
    buffer from its manifest and the client's parameters for it.  The frame of
    a data terminal is described plane by plane; a parameter or program
    terminal gets the places of its sections in the payload; a program control
    init terminal gets descriptors for the programs that run. *)

From S2P Require Import Prelude Memory ResourceModel KernelBitmap ProgramGroupParam ProgramManifest Terminal TerminalManifest ProgramGroupManifest GroupSelection TerminalLayout ProgramControlInit.
#[local] Open Scope css_scope.

(** ** Frame formats (include/ia_css_program_group_data_defs.h) *)

Definition IA_CSS_DATA_FORMAT_YUV420 : Z := 3.
Definition IA_CSS_DATA_FORMAT_YV12 : Z := 4.
Definition IA_CSS_DATA_FORMAT_NV12 : Z := 5.
Definition IA_CSS_DATA_FORMAT_NV12_TILEY : Z := 7.
Definition IA_CSS_DATA_FORMAT_NV21 : Z := 8.
Definition IA_CSS_DATA_FORMAT_NV16 : Z := 11.
Definition IA_CSS_DATA_FORMAT_NV61 : Z := 12.
Definition IA_CSS_DATA_FORMAT_UYVY : Z := 13.
Definition IA_CSS_DATA_FORMAT_YUYV : Z := 14.
Definition IA_CSS_DATA_FORMAT_YUV444 : Z := 15.
Definition IA_CSS_DATA_FORMAT_Y800 : Z := 16.
Definition IA_CSS_DATA_FORMAT_RGB565 : Z := 17.
Definition IA_CSS_DATA_FORMAT_RGB888 : Z := 18.
Definition IA_CSS_DATA_FORMAT_RGBA888 : Z := 19.
Definition IA_CSS_DATA_FORMAT_BAYER_GRBG : Z := 20.
Definition IA_CSS_DATA_FORMAT_BAYER_RGGB : Z := 21.
Definition IA_CSS_DATA_FORMAT_BAYER_BGGR : Z := 22.
Definition IA_CSS_DATA_FORMAT_BAYER_GBRG : Z := 23.
Definition IA_CSS_DATA_FORMAT_YUV420_LINE : Z := 24.
Definition IA_CSS_DATA_FORMAT_RAW : Z := 25.
Definition IA_CSS_DATA_FORMAT_RAW_PACKED : Z := 26.
Definition IA_CSS_DATA_FORMAT_BAYER_PLANAR : Z := 44.
Definition IA_CSS_DATA_FORMAT_YUV420_VECTORIZED : Z := 46.
Definition IA_CSS_DATA_FORMAT_YYUVYY_VECTORIZED : Z := 47.
Definition IA_CSS_DATA_FORMAT_P010 : Z := 49.
Definition IA_CSS_DATA_FORMAT_P010_MSB : Z := 50.
Definition IA_CSS_DATA_FORMAT_P016 : Z := 51.
Definition IA_CSS_DATA_FORMAT_P016_MSB : Z := 52.
Definition IA_CSS_DATA_FORMAT_P010_TILEY : Z := 53.
Definition IA_CSS_DATA_FORMAT_P010_MSB_TILEY : Z := 54.
Definition IA_CSS_DATA_FORMAT_P016_TILEY : Z := 55.
Definition IA_CSS_DATA_FORMAT_P016_MSB_TILEY : Z := 56.
Definition IA_CSS_DATA_FORMAT_PAF_NON_INTERLEAVED : Z := 61.
Definition IA_CSS_DATA_FORMAT_PAF_INTERLEAVED : Z := 62.
Definition IA_CSS_DATA_FORMAT_IR : Z := 63.
Definition IA_CSS_DATA_FORMAT_P012_MSB : Z := 64.

(** ** The size of a terminal *)

(** The [else] of the parameter terminals is unreachable: the test that leads
    there admits the two types only. *)
Definition ia_css_sizeof_terminal (m : mem) (manifest param : Z) : Z :=
  let fragment_count := ia_css_program_group_param_get_fragment_count m param in
  if is_null manifest then 0
  else if is_null param then 0
  else if ia_css_is_terminal_manifest_parameter_terminal m manifest then
    let nof_sections := rd m manifest ptm.param_manifest_section_desc_count in
    if ia_css_terminal_manifest_get_type m manifest =? IA_CSS_TERMINAL_TYPE_PARAM_CACHED_IN
    then ia_css_param_in_terminal_get_descriptor_size nof_sections
    else if ia_css_terminal_manifest_get_type m manifest =? IA_CSS_TERMINAL_TYPE_PARAM_CACHED_OUT
    then ia_css_param_out_terminal_get_descriptor_size nof_sections fragment_count
    else 0
  else if ia_css_is_terminal_manifest_data_terminal m manifest then
    sizeof_ia_css_data_terminal_t + fragment_count * sizeof_ia_css_fragment_descriptor_t
  else if ia_css_is_terminal_manifest_program_terminal m manifest then
    ia_css_program_terminal_get_descriptor_size fragment_count
      (rd m manifest prtm.fragment_param_manifest_section_desc_count)
      (rd m manifest prtm.kernel_fragment_sequencer_info_manifest_info_count)
      (fragment_count * rd m manifest prtm.max_kernel_fragment_sequencer_command_desc)
  else if ia_css_is_terminal_manifest_spatial_parameter_terminal m manifest then
    ia_css_spatial_param_terminal_get_descriptor_size
      (rd m manifest sptm.frame_grid_param_manifest_section_desc_count) fragment_count
  else if ia_css_is_terminal_manifest_program_control_init_terminal m manifest then
    let pg_manifest := ia_css_terminal_manifest_get_parent m manifest in
    let kernel_bitmap := ia_css_program_group_param_get_kernel_enable_bitmap m param in
    if is_null pg_manifest then 0
    else ia_css_program_control_init_terminal_get_descriptor_size m manifest pg_manifest
           kernel_bitmap
  else 0.

(** ** The frame of a data terminal *)

(** [plane_offsets[k] = plane_offsets[k - 1] + size] in [uint32_t]. *)
Definition next_plane (frame_descriptor k size : Z) : M mem unit :=
  previous <- rdM frame_descriptor (elt fd.plane_offsets (k - 1)) ;;
  wrM frame_descriptor (elt fd.plane_offsets k) (u32 (previous + u32 size)).

Definition first_plane (frame_descriptor plane_count : Z) : M mem unit :=
  wrM frame_descriptor fd.plane_count plane_count ;;;
  wrM frame_descriptor (elt fd.plane_offsets 0) 0.

(** The [switch] over [frame_format_type]. *)
Definition set_planes (frame_descriptor : Z) : M mem unit :=
  frame_format_type <- rdM frame_descriptor fd.frame_format_type ;;
  stride <- rdM frame_descriptor (elt fd.stride IA_CSS_COL_DIMENSION) ;;
  dimension <- rdM frame_descriptor (elt fd.dimension IA_CSS_ROW_DIMENSION) ;;
  let case := existsb (Z.eqb frame_format_type) in
  if case [IA_CSS_DATA_FORMAT_UYVY; IA_CSS_DATA_FORMAT_YUYV; IA_CSS_DATA_FORMAT_YUV420_LINE;
           IA_CSS_DATA_FORMAT_Y800; IA_CSS_DATA_FORMAT_RGB565; IA_CSS_DATA_FORMAT_RGBA888;
           IA_CSS_DATA_FORMAT_BAYER_GRBG; IA_CSS_DATA_FORMAT_BAYER_RGGB;
           IA_CSS_DATA_FORMAT_BAYER_BGGR; IA_CSS_DATA_FORMAT_BAYER_GBRG;
           IA_CSS_DATA_FORMAT_RAW; IA_CSS_DATA_FORMAT_RAW_PACKED;
           IA_CSS_DATA_FORMAT_YYUVYY_VECTORIZED; IA_CSS_DATA_FORMAT_PAF_NON_INTERLEAVED;
           IA_CSS_DATA_FORMAT_PAF_INTERLEAVED; IA_CSS_DATA_FORMAT_IR]
  then first_plane frame_descriptor 1
  else if case [IA_CSS_DATA_FORMAT_NV12; IA_CSS_DATA_FORMAT_NV21; IA_CSS_DATA_FORMAT_NV16;
                IA_CSS_DATA_FORMAT_NV61; IA_CSS_DATA_FORMAT_P010; IA_CSS_DATA_FORMAT_P010_MSB;
                IA_CSS_DATA_FORMAT_P016; IA_CSS_DATA_FORMAT_P016_MSB;
                IA_CSS_DATA_FORMAT_P012_MSB]
  then
    first_plane frame_descriptor 2 ;;;
    next_plane frame_descriptor 1 (stride * dimension)
  else if case [IA_CSS_DATA_FORMAT_P010_TILEY; IA_CSS_DATA_FORMAT_P016_TILEY;
                IA_CSS_DATA_FORMAT_P016_MSB_TILEY; IA_CSS_DATA_FORMAT_P010_MSB_TILEY;
                IA_CSS_DATA_FORMAT_NV12_TILEY]
  then
    first_plane frame_descriptor 2 ;;;
    next_plane frame_descriptor 1 (stride * CEIL_MUL dimension 32)
  else if case [IA_CSS_DATA_FORMAT_YUV444; IA_CSS_DATA_FORMAT_RGB888;
                IA_CSS_DATA_FORMAT_YUV420_VECTORIZED]
  then
    first_plane frame_descriptor 3 ;;;
    next_plane frame_descriptor 1 (stride * dimension) ;;;
    next_plane frame_descriptor 2 (stride * dimension)
  else if case [IA_CSS_DATA_FORMAT_YUV420; IA_CSS_DATA_FORMAT_YV12]
  then
    first_plane frame_descriptor 3 ;;;
    next_plane frame_descriptor 1 (stride * dimension) ;;;
    next_plane frame_descriptor 2 (u32 (stride / 2 * dimension) / 2)
  else if case [IA_CSS_DATA_FORMAT_BAYER_PLANAR]
  then
    first_plane frame_descriptor 4 ;;;
    next_plane frame_descriptor 1 (u32 (stride / 2 * dimension) / 2) ;;;
    next_plane frame_descriptor 2 (u32 (stride / 2 * dimension) / 2) ;;;
    next_plane frame_descriptor 3 (u32 (stride / 2 * dimension) / 2)
  else first_plane frame_descriptor 1.

(** [while (!empty(intersection)) { shift; kernel_id++; }]; a bitmap has 128
    bits to shift out. *)
Fixpoint kernel_id_loop (fuel : nat) (dterminal : Z) (intersection : ia_css_kernel_bitmap_t)
    (m : mem) : mem :=
  match fuel with
  | O => m
  | S fuel' =>
      if negb (ia_css_is_kernel_bitmap_empty intersection) then
        kernel_id_loop fuel' dterminal (ia_css_kernel_bitmap_shift intersection)
          (wr m dterminal dt.kernel_id (rd m dterminal dt.kernel_id + 1))
      else m
  end.

(** [for (i = 0; i < IA_CSS_N_DATA_DIMENSION; i++) dst[i] = src[i]]. *)
Definition copy_dimensions (dst : Z) (f : field) (src : Z) (g : field) : M mem unit :=
  for_each (range 0 IA_CSS_N_DATA_DIMENSION) tt (fun i _ =>
    v <- rdM src (elt g i) ;; wrM dst (elt f i) v).

(** The frame descriptor, the first fragment and the stream buffer size, from
    the client's parameters. *)
Definition describe_frame (terminal terminal_param fragment_count : Z) : M mem unit :=
  let frame_descriptor := terminal + f_off dt.frame_descriptor in
  let terminal_raw_ptr := terminal + sizeof_ia_css_data_terminal_t in
  v <- rdM terminal_param tp.frame_format_type ;; wrM frame_descriptor fd.frame_format_type v ;;;
  copy_dimensions frame_descriptor fd.dimension terminal_param tp.dimensions ;;;
  v <- rdM terminal_param tp.stride ;; wrM frame_descriptor (elt fd.stride IA_CSS_COL_DIMENSION) v ;;;
  v <- rdM terminal_param tp.bpp ;; wrM frame_descriptor fd.bpp v ;;;
  v <- rdM terminal_param tp.bpe ;; wrM frame_descriptor fd.bpe v ;;;
  set_planes frame_descriptor ;;;
  (if 0 <? fragment_count then
     let fragment_descriptor := terminal_raw_ptr in
     v <- rdM terminal_param (elt tp.index IA_CSS_COL_DIMENSION) ;;
     wrM fragment_descriptor (elt fgd.index IA_CSS_COL_DIMENSION) v ;;;
     v <- rdM terminal_param (elt tp.index IA_CSS_ROW_DIMENSION) ;;
     wrM fragment_descriptor (elt fgd.index IA_CSS_ROW_DIMENSION) v ;;;
     v <- rdM terminal_param tp.offset ;; wrM fragment_descriptor (elt fgd.offset 0) v ;;;
     copy_dimensions fragment_descriptor fgd.dimension terminal_param tp.fragment_dimensions
   else ret tt) ;;;
  v <- rdM frame_descriptor (elt fd.dimension IA_CSS_ROW_DIMENSION) ;;
  wrM terminal dt.stream2gen_buffer_size v.

Definition create_data_terminal (terminal manifest terminal_param : Z)
    (enable_bitmap : ia_css_kernel_bitmap_t) (fragment_count : Z) : M mem unit :=
  let frame := ia_css_data_terminal_get_frame terminal in
  intersection <- gets (fun m => ia_css_kernel_bitmap_intersection enable_bitmap
                    (ia_css_data_terminal_manifest_get_kernel_bitmap m manifest)) ;;
  verifexit (negb (is_null frame)) ;;;
  ok <- call (ia_css_frame_set_buffer_state frame IA_CSS_BUFFER_NULL) ;;
  verifexit (ok =? 0) ;;;
  verifexit (ia_css_is_kernel_bitmap_onehot intersection) ;;;
  let terminal_raw_ptr := terminal + sizeof_ia_css_data_terminal_t in
  wrM terminal dt.fragment_descriptor_offset (u16 (terminal_raw_ptr - terminal)) ;;;
  wrM terminal dt.kernel_id 0 ;;;
  modify (kernel_id_loop (Z.to_nat IA_CSS_KERNEL_BITMAP_BITS) terminal intersection) ;;;
  kernel_id <- rdM terminal dt.kernel_id ;;
  wrM terminal dt.kernel_id (kernel_id - 1) ;;;
  describe_frame terminal terminal_param fragment_count.

(** ** The sections of a parameter and of a program terminal *)

(** One section: its size and, as its place, the sizes before it
    ([curr_offset] is a [size_t]). *)
Definition place_section (section man_section curr_offset : Z) : M mem Z :=
  verifexit (negb (is_null man_section)) ;;;
  verifexit (negb (is_null section)) ;;;
  v <- rdM man_section psd.max_mem_size ;; wrM section sec.mem_size v ;;;
  wrM section sec.mem_offset curr_offset ;;;
  v <- rdM man_section psd.max_mem_size ;; ret (u64 (curr_offset + v)).

Definition create_param_terminal (terminal manifest : Z) : M mem unit :=
  section_count <- rdM manifest ptm.param_manifest_section_desc_count ;;
  wrM terminal pt.param_section_desc_offset sizeof_ia_css_param_terminal_t ;;;
  for_each (range 0 section_count) 0 (fun i curr_offset =>
    section <- gets (fun m => ia_css_param_in_terminal_get_param_section_desc m terminal i) ;;
    man_section <- gets (fun m => ia_css_param_terminal_manifest_get_prm_sct_desc m manifest i) ;;
    place_section section man_section curr_offset) ;;;
  ret tt.

(** [nof_command_objs] is 0; the fragment loop runs once ("Save fragments set
    fragment_count to 1"). *)
Definition create_program_terminal (terminal manifest fragment_count : Z) : M mem unit :=
  section_count <- rdM manifest prtm.fragment_param_manifest_section_desc_count ;;
  manifest_info_count <- rdM manifest prtm.kernel_fragment_sequencer_info_manifest_info_count ;;
  let nof_command_objs := 0 in
  wrM terminal prt.kernel_fragment_sequencer_info_desc_offset sizeof_ia_css_program_terminal_t ;;;
  o <- rdM terminal prt.kernel_fragment_sequencer_info_desc_offset ;;
  wrM terminal prt.fragment_param_section_desc_offset
    (o + fragment_count * manifest_info_count
         * sizeof_ia_css_kernel_fragment_sequencer_info_desc_t
       + nof_command_objs * sizeof_ia_css_kernel_fragment_sequencer_command_desc_t) ;;;
  for_each (range 0 1) 0 (fun i curr_offset =>
    curr_offset <- for_each (range 0 section_count) curr_offset (fun j curr_offset =>
      section <- gets (fun m =>
        ia_css_program_terminal_get_frgmnt_prm_sct_desc m terminal i j section_count) ;;
      man_section <- gets (fun m =>
        ia_css_program_terminal_manifest_get_frgmnt_prm_sct_desc m manifest j) ;;
      place_section section man_section curr_offset) ;;
    wrM terminal prt.payload_fragment_stride curr_offset ;;;
    ret curr_offset) ;;;
  ret tt.

Definition create_spatial_terminal (terminal manifest fragment_count : Z) : M mem unit :=
  wrM terminal spt.fragment_grid_desc_offset sizeof_ia_css_spatial_param_terminal_t ;;;
  o <- rdM terminal spt.fragment_grid_desc_offset ;;
  wrM terminal spt.frame_grid_param_section_desc_offset
    (o + fragment_count * sizeof_ia_css_fragment_grid_desc_t) ;;;
  v <- rdM manifest sptm.kernel_id ;; wrM terminal spt.kernel_id v.

Definition create_sliced_terminal (terminal manifest : Z) : M mem unit :=
  wrM terminal slt.fragment_slice_desc_offset sizeof_ia_css_sliced_param_terminal_t ;;;
  v <- rdM manifest sltm.kernel_id ;; wrM terminal slt.kernel_id v.

Definition create_program_control_init_terminal (terminal manifest terminal_param : Z) : M mem unit :=
  pg_manifest <- gets (fun m => ia_css_terminal_manifest_get_parent m manifest) ;;
  pg_param <- gets (fun m => ia_css_terminal_param_get_parent m terminal_param) ;;
  verifexit (negb (is_null pg_manifest) && negb (is_null pg_param)) ;;;
  kernel_bitmap <- gets (fun m => ia_css_program_group_param_get_kernel_enable_bitmap m pg_param) ;;
  ok <- call (ia_css_program_control_init_terminal_init terminal manifest pg_manifest kernel_bitmap) ;;
  verifexit (ok =? 0).

(** ** [ia_css_terminal_create] *)

(** From the store of the size to [retval = 0]. *)
Definition terminal_create_body (terminal manifest terminal_param : Z)
    (enable_bitmap : ia_css_kernel_bitmap_t) (param fragment_count : Z) : M mem unit :=
  size <- gets (fun m => u16 (ia_css_sizeof_terminal m manifest param)) ;;
  wrM terminal te.size size ;;;
  ty <- gets (fun m => ia_css_terminal_manifest_get_type m manifest) ;;
  ok <- call (ia_css_terminal_set_type terminal ty) ;;
  verifexit (ok =? 0) ;;;
  id <- gets (fun m => ia_css_terminal_manifest_get_ID m manifest) ;;
  wrM terminal te.ID id ;;;
  ok <- call (ia_css_terminal_set_buffer terminal VIED_NULL) ;;
  verifexit (ok =? 0) ;;;
  is_data <- gets (fun m => ia_css_is_terminal_manifest_data_terminal m manifest) ;;
  is_param <- gets (fun m => ia_css_is_terminal_manifest_parameter_terminal m manifest) ;;
  is_program <- gets (fun m => ia_css_is_terminal_manifest_program_terminal m manifest) ;;
  is_spatial <- gets (fun m => ia_css_is_terminal_manifest_spatial_parameter_terminal m manifest) ;;
  is_sliced <- gets (fun m => ia_css_is_terminal_manifest_sliced_terminal m manifest) ;;
  is_pci <- gets (fun m => ia_css_is_terminal_manifest_program_control_init_terminal m manifest) ;;
  ty <- gets (fun m => ia_css_terminal_manifest_get_type m manifest) ;;
  if is_data then create_data_terminal terminal manifest terminal_param enable_bitmap fragment_count
  else if is_param then create_param_terminal terminal manifest
  else if is_program && (ty =? IA_CSS_TERMINAL_TYPE_PROGRAM)
  then create_program_terminal terminal manifest fragment_count
  else if is_spatial then create_spatial_terminal terminal manifest fragment_count
  else if is_sliced then create_sliced_terminal terminal manifest
  else if is_pci then create_program_control_init_terminal terminal manifest terminal_param
  else exit.

Definition ia_css_terminal_destroy (terminal : Z) : Z := terminal.

(** A failure after the argument checks ends in [ia_css_terminal_destroy],
    which returns its argument: the result does not tell it from success. *)
Definition ia_css_terminal_create (raw_mem manifest terminal_param : Z)
    (enable_bitmap : ia_css_kernel_bitmap_t) (m : mem) : Z * mem :=
  let param := ia_css_terminal_param_get_parent m terminal_param in
  let fragment_count := ia_css_program_group_param_get_fragment_count m param in
  if is_null manifest then (ia_css_terminal_destroy NULL, m)
  else if is_null param then (ia_css_terminal_destroy NULL, m)
  else if is_null raw_mem then (ia_css_terminal_destroy raw_mem, m)
  else
    let terminal := raw_mem in
    match terminal_create_body terminal manifest terminal_param enable_bitmap param
            fragment_count m with
    | (Some _, m') => (terminal, m')
    | (None, m') => (ia_css_terminal_destroy terminal, m')
    end.

Definition ia_css_param_terminal_compute_section_count (m : mem) (manifest param : Z) : Z :=
  if is_null manifest then 0 else rd m manifest ptm.param_manifest_section_desc_count.

(** ** Data terminals *)

(** The planes of a frame that another plane follows, by their sizes: what a
    format's description asks for, in exact arithmetic. *)
Definition leading_planes (frame_format_type stride lines : Z) : list Z :=
  let case := existsb (Z.eqb frame_format_type) in
  if case [IA_CSS_DATA_FORMAT_NV12; IA_CSS_DATA_FORMAT_NV21; IA_CSS_DATA_FORMAT_NV16;
           IA_CSS_DATA_FORMAT_NV61; IA_CSS_DATA_FORMAT_P010; IA_CSS_DATA_FORMAT_P010_MSB;
           IA_CSS_DATA_FORMAT_P016; IA_CSS_DATA_FORMAT_P016_MSB; IA_CSS_DATA_FORMAT_P012_MSB]
  then [stride * lines]
  else if case [IA_CSS_DATA_FORMAT_P010_TILEY; IA_CSS_DATA_FORMAT_P016_TILEY;
                IA_CSS_DATA_FORMAT_P016_MSB_TILEY; IA_CSS_DATA_FORMAT_P010_MSB_TILEY;
                IA_CSS_DATA_FORMAT_NV12_TILEY]
  then [stride * CEIL_MUL lines 32]
  else if case [IA_CSS_DATA_FORMAT_YUV444; IA_CSS_DATA_FORMAT_RGB888;
                IA_CSS_DATA_FORMAT_YUV420_VECTORIZED]
  then [stride * lines; stride * lines]
  else if case [IA_CSS_DATA_FORMAT_YUV420; IA_CSS_DATA_FORMAT_YV12]
  then [stride * lines; stride / 2 * lines / 2]
  else if case [IA_CSS_DATA_FORMAT_BAYER_PLANAR]
  then [stride / 2 * lines / 2; stride / 2 * lines / 2; stride / 2 * lines / 2]
  else [].

(** [planes_at m d l]: the descriptor [d] has one plane more than [l], each at
    the sum of the sizes before it. *)
Definition planes_at (m : mem) (d : Z) (l : list Z) : Prop :=
  rd m d fd.plane_count = Z.of_nat (length l) + 1
  /\ forall k : nat, (k <= length l)%nat ->
       rd m d (elt fd.plane_offsets (Z.of_nat k)) = u32 (foldr Z.add 0 (take k l)).

(** Entry [i] of the offsets against the entry [k] stored last. *)
Lemma plane_other m d k i v :
  i <> k -> rd (wr m d (elt fd.plane_offsets k) v) d (elt fd.plane_offsets i)
            = rd m d (elt fd.plane_offsets i).
Proof. intros H. apply rd_wr_base. mem_out. Qed.

(** The [next_plane]s of a case, one per size. *)
Fixpoint planes_from (d k : Z) (l : list Z) : M mem unit :=
  match l with
  | [] => ret tt
  | size :: l' => next_plane d k size ;;; planes_from d (k + 1) l'
  end.

Lemma planes_from_run d l : forall l0 m,
  (length l0 + length l <= 5)%nat ->
  (forall j : nat, (j <= length l0)%nat ->
     rd m d (elt fd.plane_offsets (Z.of_nat j)) = u32 (foldr Z.add 0 (take j l0))) ->
  exists m', planes_from d (Z.of_nat (length l0) + 1) l m = (Some tt, m')
    /\ same_outside (d + 8) (d + 32) m m'
    /\ (forall j : nat, (j <= length (l0 ++ l))%nat ->
         rd m' d (elt fd.plane_offsets (Z.of_nat j)) = u32 (foldr Z.add 0 (take j (l0 ++ l)))).
Proof.
  induction l as [| size l IH]; intros l0 m Hl H0.
  { exists m. rewrite app_nil_r. auto with mem. }
  cbn [length] in Hl. set (k := Z.of_nat (length l0) + 1).
  set (m1 := wr m d (elt fd.plane_offsets k)
               (u32 (rd m d (elt fd.plane_offsets (k - 1)) + u32 size))).
  assert (S1 : same_outside (d + 8) (d + 32) m m1) by (apply wr_same_outside; subst k; mem_out).
  destruct (IH (l0 ++ [size]) m1) as (m' & E & S & H).
  - rewrite length_app. cbn. lia.
  - intros j Hj. rewrite length_app in Hj. cbn in Hj. subst m1.
    destruct (decide (j = S (length l0))) as [-> | Hne].
    + replace (Z.of_nat (S (length l0))) with k by (subst k; lia). rewrite rd_wr_same.
      replace (k - 1) with (Z.of_nat (length l0)) by (subst k; lia). rewrite (H0 (length l0)) by lia.
      change (f_conv (elt fd.plane_offsets k)) with u32.
      rewrite u32_add, (take_ge l0), (take_ge (l0 ++ [size])) by (rewrite ?length_app; cbn; lia).
      rewrite sum_snoc. unfold u32. apply Z.mod_mod. lia.
    + rewrite plane_other by (subst k; lia). rewrite take_app_le by lia. apply H0. lia.
  - exists m'. split; [| split].
    + cbn [planes_from]. unfold next_plane. mrun. fold k m1. rewrite <- E. f_equal.
      rewrite length_app. cbn. subst k. lia.
    + eapply same_outside_trans; [exact S1 | exact S].
    + replace (l0 ++ size :: l) with ((l0 ++ [size]) ++ l) by (rewrite <- app_assoc; reflexivity).
      exact H.
Qed.

Lemma planes_run d l m :
  (length l <= 5)%nat ->
  exists m', (first_plane d (Z.of_nat (length l) + 1) ;;; planes_from d 1 l) m = (Some tt, m')
    /\ same_outside (d + 4) (d + 32) m m' /\ planes_at m' d l.
Proof.
  intros Hl. set (m1 := wr (wr m d fd.plane_count (Z.of_nat (length l) + 1)) d (elt fd.plane_offsets 0) 0).
  assert (S1 : same_outside (d + 4) (d + 32) m m1) by (subst m1; frame_chain).
  destruct (planes_from_run d l [] m1) as (m' & E & S & H); [cbn; lia | | exists m'].
  { intros j Hj. cbn in Hj. assert (j = 0%nat) as -> by lia. subst m1. apply rd_wr_same. }
  split; [exact E |]. split; [| split; [| exact H]].
  - eapply same_outside_trans; [exact S1 |]. eapply same_outside_weaken; [| | exact S]; lia.
  - rewrite (rd_same_outside _ _ _ _ d fd.plane_count S) by mem_out. subst m1. mem_read.
    change (f_conv (U32 4)) with u32. apply u32_small. lia.
Qed.

(** The descriptor's planes are the leading planes of its format, as long as
    the first of them does not overflow 32 bits. *)
Lemma set_planes_run m d :
  let fmt := rd m d fd.frame_format_type in
  let stride := rd m d (elt fd.stride IA_CSS_COL_DIMENSION) in
  let lines := rd m d (elt fd.dimension IA_CSS_ROW_DIMENSION) in
  stride * lines < 2 ^ 32 ->
  exists m', set_planes d m = (Some tt, m') /\ same_outside (d + 4) (d + 32) m m'
    /\ planes_at m' d (leading_planes fmt stride lines).
Proof.
  intros fmt stride lines Hsz.
  assert (Hs : 0 <= stride < 2 ^ 32) by apply (rd_U32_range m d 32).
  assert (Hl : 0 <= lines < 2 ^ 16) by apply (rd_U16_range m d 62).
  assert (Hh : u32 (stride / 2 * lines) = stride / 2 * lines).
  { apply u32_small. assert (0 <= stride / 2 <= stride)
      by (split; [apply Z.div_pos | apply Z.div_le_upper_bound]; lia). nia. }
  assert (G : forall l, (length l <= 3)%nat ->
    exists m', (first_plane d (Z.of_nat (length l) + 1) ;;; planes_from d 1 l) m = (Some tt, m')
      /\ same_outside (d + 4) (d + 32) m m' /\ planes_at m' d l)
    by (intros l H; apply planes_run; lia).
  unfold set_planes. cbv delta [rdM gets bind] beta iota. fold fmt stride lines. cbv zeta.
  clearbody fmt stride lines. rewrite Hh.
  match goal with |- context [if existsb (Z.eqb fmt) ?l then _ else _] =>
    destruct (existsb (Z.eqb fmt) l) eqn:E0 end.
  - replace (leading_planes fmt stride lines) with (@nil Z); [exact (G [] ltac:(cbn; lia)) |].
    apply existsb_exists in E0 as (x & Hin & ->%Z.eqb_eq).
    repeat (destruct Hin as [<- | Hin]; [reflexivity |]). destruct Hin.
  - clear E0. unfold leading_planes.
    repeat match goal with |- context [if existsb (Z.eqb fmt) ?l then _ else _] =>
      destruct (existsb (Z.eqb fmt) l) end;
      match goal with |- context [planes_at _ _ ?l] => exact (G l ltac:(cbn; lia)) end.
Qed.

Lemma kernel_id_loop_run t k : forall fuel b m,
  kb_wf b -> kb_val b = 2 ^ k -> 0 <= k < Z.of_nat fuel ->
  same_outside (t + 140) (t + 141) m (kernel_id_loop fuel t b m)
  /\ rd (kernel_id_loop fuel t b m) t dt.kernel_id = u8 (rd m t dt.kernel_id + k + 1).
Proof.
  intros fuel. revert k. induction fuel as [| fuel IH]; intros k b m Hb Hv Hk; [lia |].
  cbn [kernel_id_loop]. rewrite empty_val, Hv by exact Hb.
  rewrite (proj2 (Z.eqb_neq (2 ^ k) 0)) by lia. cbn [negb].
  set (m1 := wr m t dt.kernel_id (rd m t dt.kernel_id + 1)).
  assert (S1 : same_outside (t + 140) (t + 141) m m1) by (apply wr_same_outside; mem_out).
  assert (R1 : rd m1 t dt.kernel_id = u8 (rd m t dt.kernel_id + 1)) by apply rd_wr_same.
  pose proof (shift_wf b Hb) as Hw. pose proof (shift_val b Hb) as Hs. rewrite Hv in Hs.
  destruct (Z.eq_dec k 0) as [-> | Hk0].
  - change (2 ^ 0 / 2) with 0 in Hs.
    assert (E : kernel_id_loop fuel t (ia_css_kernel_bitmap_shift b) m1 = m1).
    { destruct fuel; [reflexivity |]. cbn [kernel_id_loop]. rewrite empty_val, Hs by exact Hw. reflexivity. }
    rewrite E. split; [exact S1 |]. rewrite R1. f_equal. lia.
  - replace (2 ^ k / 2) with (2 ^ (k - 1)) in Hs
      by (rewrite (pow2_half k) by lia; rewrite Z.mul_comm, Z.div_mul; lia).
    destruct (IH (k - 1) _ m1 Hw Hs ltac:(lia)) as [S R]. split.
    + eapply same_outside_trans; [exact S1 | exact S].
    + rewrite R, R1. unfold u8. rewrite <- (Z.add_assoc _ (k - 1) 1), Zplus_mod_idemp_l. f_equal. lia.
Qed.

(** What creation makes of the client's parameters [tp] and the kernel [k] in
    the data terminal [t] of [fc] fragments. *)
Record data_described (m m' : mem) (t tp k fc : Z) : Prop := {
  dd_state : ia_css_frame_get_buffer_state m' (t + f_off dt.frame) = IA_CSS_BUFFER_NULL;
  dd_kernel : rd m' t dt.kernel_id = k;
  dd_fragments : rd m' t dt.fragment_descriptor_offset = sizeof_ia_css_data_terminal_t;
  dd_format : rd m' (t + 16) fd.frame_format_type = rd m tp tp.frame_format_type;
  dd_dims : forall i, 0 <= i < IA_CSS_N_DATA_DIMENSION ->
    rd m' (t + 16) (elt fd.dimension i) = rd m tp (elt tp.dimensions i);
  dd_stride : rd m' (t + 16) fd.stride = rd m tp tp.stride;
  dd_bpp : rd m' (t + 16) fd.bpp = rd m tp tp.bpp;
  dd_bpe : rd m' (t + 16) fd.bpe = rd m tp tp.bpe;
  dd_planes : planes_at m' (t + 16)
    (leading_planes (rd m tp tp.frame_format_type) (rd m tp tp.stride)
       (rd m tp (elt tp.dimensions IA_CSS_ROW_DIMENSION)));
  dd_lines : rd m' t dt.stream2gen_buffer_size = rd m tp (elt tp.dimensions IA_CSS_ROW_DIMENSION);
  dd_fragment : 0 < fc -> forall i, 0 <= i < IA_CSS_N_DATA_DIMENSION ->
    rd m' (t + sizeof_ia_css_data_terminal_t) (elt fgd.index i) = rd m tp (elt tp.index i)
    /\ rd m' (t + sizeof_ia_css_data_terminal_t) (elt fgd.dimension i)
       = rd m tp (elt tp.fragment_dimensions i)
    /\ rd m' (t + sizeof_ia_css_data_terminal_t) (elt fgd.offset 0) = rd m tp tp.offset
}.

(** Up to the frame: the buffer state and the kernel. *)
Definition data_kernel_part (t : Z) (intersection : ia_css_kernel_bitmap_t) (m : mem) : mem :=
  let m := wr m (t + f_off dt.frame) fr.buffer_state IA_CSS_BUFFER_NULL in
  let m := wr m t dt.fragment_descriptor_offset (u16 (t + sizeof_ia_css_data_terminal_t - t)) in
  let m := wr m t dt.kernel_id 0 in
  let m := kernel_id_loop (Z.to_nat IA_CSS_KERNEL_BITMAP_BITS) t intersection m in
  wr m t dt.kernel_id (rd m t dt.kernel_id - 1).

Lemma data_kernel_part_ok t k m :
  0 <= k < 128 ->
  let m' := data_kernel_part t (ia_css_kernel_bit_mask k) m in
  same_outside (t + 88) (t + 141) m m'
  /\ rd m' (t + 88) fr.buffer_state = IA_CSS_BUFFER_NULL /\ rd m' t dt.kernel_id = k
  /\ rd m' t dt.fragment_descriptor_offset = sizeof_ia_css_data_terminal_t
  /\ (forall f, f_off f + Z.of_nat (f_len f) <= 136 -> 92 <= f_off f -> rd m' t f = rd m t f).
Proof.
  intros Hk m'. subst m'. unfold data_kernel_part. cbv zeta.
  set (m2 := wr (wr (wr _ _ _ _) _ _ _) t dt.kernel_id 0).
  pose proof (bit_mask_wf k) as Hw.
  assert (Hv : kb_val (ia_css_kernel_bit_mask k) = 2 ^ k)
    by (rewrite bit_mask_val by lia; destruct (Z.ltb_spec k 128); [reflexivity | lia]).
  destruct (kernel_id_loop_run t k (Z.to_nat IA_CSS_KERNEL_BITMAP_BITS) _ m2 Hw Hv Hk) as [S3 K3].
  assert (R2 : rd m2 t dt.kernel_id = 0) by (subst m2; apply rd_wr_same).
  rewrite R2, (u8_small (0 + k + 1)) in K3 by lia.
  generalize dependent (kernel_id_loop (Z.to_nat IA_CSS_KERNEL_BITMAP_BITS) t
    (ia_css_kernel_bit_mask k) m2). intros m3 S3 K3. rewrite K3.
  change (f_off dt.frame) with 88 in *. subst m2.
  split; [| split; [| split; [| split]]].
  - frame_back.
  - rd_back. reflexivity.
  - rewrite rd_wr_same. change (f_conv dt.kernel_id) with u8. rewrite u8_small; lia.
  - rd_back. unfold u16. replace (t + 144 - t) with 144 by lia. reflexivity.
  - intros f H1 H2. rd_back. reflexivity.
Qed.

Lemma copy_dimensions_run d f s g m :
  copy_dimensions d f s g m
  = (Some tt, let m := wr m d (elt f 0) (rd m s (elt g 0)) in
              wr m d (elt f 1) (rd m s (elt g 1))).
Proof. reflexivity. Qed.

Lemma dims_cases (P : Z -> Prop) :
  P 0 -> P 1 -> forall i, 0 <= i < IA_CSS_N_DATA_DIMENSION -> P i.
Proof.
  unfold IA_CSS_N_DATA_DIMENSION. intros P0 P1 i Hi.
  assert (i = 0 \/ i = 1) as [-> | ->] by lia; assumption.
Qed.

(** A store of a field's value into a field of the same shape. *)
Lemma conv_rd f m p g :
  f_len g = f_len f -> f_signed f = false -> f_signed g = false -> f_conv f (rd m p g) = rd m p g.
Proof.
  intros E Hf Hg. apply f_conv_small; [exact Hf |].
  replace (f_bits f) with (f_bits g) by (unfold f_bits; congruence). apply rd_range, Hg.
Qed.

Definition frame_stores (m : mem) (d tp : Z) : mem :=
  let m := wr m d fd.frame_format_type (rd m tp tp.frame_format_type) in
  let m := wr m d (elt fd.dimension 0) (rd m tp (elt tp.dimensions 0)) in
  let m := wr m d (elt fd.dimension 1) (rd m tp (elt tp.dimensions 1)) in
  let m := wr m d (elt fd.stride IA_CSS_COL_DIMENSION) (rd m tp tp.stride) in
  let m := wr m d fd.bpp (rd m tp tp.bpp) in
  wr m d fd.bpe (rd m tp tp.bpe).

Definition fragment_stores (m : mem) (d tp : Z) : mem :=
  let m := wr m d (elt fgd.index 0) (rd m tp (elt tp.index 0)) in
  let m := wr m d (elt fgd.index 1) (rd m tp (elt tp.index 1)) in
  let m := wr m d (elt fgd.offset 0) (rd m tp tp.offset) in
  let m := wr m d (elt fgd.dimension 0) (rd m tp (elt tp.fragment_dimensions 0)) in
  wr m d (elt fgd.dimension 1) (rd m tp (elt tp.fragment_dimensions 1)).

Ltac field_back :=
  rd_back; rewrite ?conv_rd by reflexivity; rd_back; reflexivity.

Lemma frame_stores_ok m d tp :
  tp + 32 <= d \/ d + 72 <= tp ->
  let m' := frame_stores m d tp in
  same_outside d (d + 72) m m'
  /\ rd m' d fd.frame_format_type = rd m tp tp.frame_format_type
  /\ (forall i, 0 <= i < IA_CSS_N_DATA_DIMENSION ->
       rd m' d (elt fd.dimension i) = rd m tp (elt tp.dimensions i))
  /\ rd m' d fd.stride = rd m tp tp.stride
  /\ rd m' d fd.bpp = rd m tp tp.bpp /\ rd m' d fd.bpe = rd m tp tp.bpe.
Proof.
  intros D m'. subst m'. unfold frame_stores. cbv zeta. unfold IA_CSS_COL_DIMENSION.
  split; [frame_back |]. split; [field_back |]. split; [| split; [| split]; field_back].
  apply dims_cases; field_back.
Qed.

Lemma fragment_stores_ok m d tp :
  tp + 32 <= d \/ d + 16 <= tp ->
  let m' := fragment_stores m d tp in
  same_outside d (d + 16) m m'
  /\ forall i, 0 <= i < IA_CSS_N_DATA_DIMENSION ->
     rd m' d (elt fgd.index i) = rd m tp (elt tp.index i)
     /\ rd m' d (elt fgd.dimension i) = rd m tp (elt tp.fragment_dimensions i)
     /\ rd m' d (elt fgd.offset 0) = rd m tp tp.offset.
Proof.
  intros D m'. subst m'. unfold fragment_stores. cbv zeta. split; [frame_back |].
  apply dims_cases; (split; [field_back | split; field_back]).
Qed.

(** The room a data terminal of [fc] fragments takes. *)
Definition data_room (fc : Z) : Z :=
  sizeof_ia_css_data_terminal_t + fc * sizeof_ia_css_fragment_descriptor_t.

Lemma leading_planes_short fmt stride lines : (length (leading_planes fmt stride lines) <= 3)%nat.
Proof. unfold leading_planes. repeat destruct (existsb _ _); cbn; lia. Qed.

Lemma planes_at_keep m m' d fmt stride lines :
  (forall f, 4 <= f_off f -> f_off f + Z.of_nat (f_len f) <= 32 -> rd m' d f = rd m d f) ->
  planes_at m d (leading_planes fmt stride lines) ->
  planes_at m' d (leading_planes fmt stride lines).
Proof.
  intros R [Hc Ho]. pose proof (leading_planes_short fmt stride lines) as Hl. split.
  - rewrite R by (cbn; lia). exact Hc.
  - intros k Hk. rewrite R by (cbn; lia). apply Ho, Hk.
Qed.

Lemma describe_frame_run m t tp fc :
  0 < t -> 0 <= fc -> tp + sizeof_ia_css_terminal_param_t <= t \/ t + data_room fc <= tp ->
  rd m tp tp.stride * rd m tp (elt tp.dimensions IA_CSS_ROW_DIMENSION) < 2 ^ 32 ->
  exists m', describe_frame t tp fc m = (Some tt, m')
    /\ same_outside (t + 16) (t + data_room fc) m m'
    /\ (forall f, 88 <= f_off f -> f_off f + Z.of_nat (f_len f) <= 138 -> rd m' t f = rd m t f)
    /\ rd m' t dt.kernel_id = rd m t dt.kernel_id
    /\ (rd m (t + 88) fr.buffer_state = IA_CSS_BUFFER_NULL ->
        rd m t dt.fragment_descriptor_offset = sizeof_ia_css_data_terminal_t ->
        data_described m m' t tp (rd m t dt.kernel_id) fc).
Proof.
  unfold data_room. intros Ht Hfc D Hsz.
  change (sizeof_ia_css_terminal_param_t) with 32 in D.
  change sizeof_ia_css_data_terminal_t with 144 in *.
  change sizeof_ia_css_fragment_descriptor_t with 16 in *.
  set (m1 := frame_stores m (t + 16) tp).
  destruct (frame_stores_ok m (t + 16) tp ltac:(lia)) as (S1 & Ffmt & Fdim & Fst & Fbpp & Fbpe).
  fold m1 in S1, Ffmt, Fdim, Fst, Fbpp, Fbpe.
  pose proof (Fdim 1 ltac:(unfold IA_CSS_N_DATA_DIMENSION; lia)) as Fl.
  destruct (set_planes_run m1 (t + 16)) as (m2 & E2 & S2 & P2).
  { change (elt fd.stride IA_CSS_COL_DIMENSION) with fd.stride.
    change IA_CSS_ROW_DIMENSION with 1. rewrite Fst, Fl. exact Hsz. }
  change (elt fd.stride IA_CSS_COL_DIMENSION) with fd.stride in P2.
  change IA_CSS_ROW_DIMENSION with 1 in P2. rewrite Ffmt, Fst, Fl in P2.
  set (m3 := if 0 <? fc then fragment_stores m2 (t + 144) tp else m2).
  assert (F3 : same_outside (t + 144) (t + (144 + fc * 16)) m2 m3
    /\ (0 < fc -> forall i, 0 <= i < IA_CSS_N_DATA_DIMENSION ->
        rd m3 (t + 144) (elt fgd.index i) = rd m2 tp (elt tp.index i)
        /\ rd m3 (t + 144) (elt fgd.dimension i) = rd m2 tp (elt tp.fragment_dimensions i)
        /\ rd m3 (t + 144) (elt fgd.offset 0) = rd m2 tp tp.offset)).
  { subst m3. destruct (Z.ltb_spec 0 fc) as [H | H].
    - destruct (fragment_stores_ok m2 (t + 144) tp ltac:(lia)) as [S F]. split.
      + eapply same_outside_weaken; [| | exact S]; lia.
      + intros _. exact F.
    - split; [apply same_outside_refl | lia]. }
  destruct F3 as [S3 F3].
  set (m4 := wr m3 t dt.stream2gen_buffer_size (rd m3 (t + 16) (elt fd.dimension 1))).
  assert (E : describe_frame t tp fc m = (Some tt, m4)).
  { unfold describe_frame. cbv zeta. change (t + f_off dt.frame_descriptor) with (t + 16).
    change sizeof_ia_css_data_terminal_t with 144.
    cbv beta iota delta [bind gets rdM wrM modify]. rewrite copy_dimensions_run.
    cbv beta iota zeta.
    change (set_planes (t + 16) _) with (set_planes (t + 16) m1). rewrite E2.
    subst m4 m3. destruct (0 <? fc); reflexivity. }
  clearbody m1 m3. exists m4. split; [exact E |]. subst m4. clear E E2.
  split; [frame_back | split; [| split]].
  - intros f H1 H2. rd_back. reflexivity.
  - rd_back. reflexivity.
  - intros Hb Hf. constructor.
    + unfold ia_css_frame_get_buffer_state. change (f_off dt.frame) with 88.
      rewrite not_null by lia. rd_back. exact Hb.
    + rd_back. reflexivity.
    + rd_back. exact Hf.
    + rd_back. exact Ffmt.
    + intros i Hi. rewrite <- (Fdim i Hi). unfold IA_CSS_N_DATA_DIMENSION in Hi. rd_back. reflexivity.
    + rd_back. exact Fst.
    + rd_back. exact Fbpp.
    + rd_back. exact Fbpe.
    + change IA_CSS_ROW_DIMENSION with 1. apply (planes_at_keep m2); [| exact P2].
      intros f H1 H2. rd_back. reflexivity.
    + change IA_CSS_ROW_DIMENSION with 1. rewrite <- Fl. field_back.
    + intros Hpos i Hi. destruct (F3 Hpos i Hi) as (Fx & Fd & Fo).
      change sizeof_ia_css_data_terminal_t with 144. unfold IA_CSS_N_DATA_DIMENSION in Hi.
      repeat split; rd_back; (etransitivity; [first [exact Fx | exact Fd | exact Fo] |]);
        rd_back; reflexivity.
Qed.

(** The client's parameters may be read before or after other stores. *)
Lemma data_described_keep m0 m m' t tp k fc :
  (forall f, 0 <= f_off f -> f_off f + Z.of_nat (f_len f) <= sizeof_ia_css_terminal_param_t ->
     rd m tp f = rd m0 tp f) ->
  data_described m m' t tp k fc -> data_described m0 m' t tp k fc.
Proof.
  intros R [H1 H2 H3 H4 H5 H6 H7 H8 H9 H10 H11].
  assert (R1 : forall f i, In f [tp.dimensions; tp.index; tp.fragment_dimensions] ->
    0 <= i < IA_CSS_N_DATA_DIMENSION -> rd m tp (elt f i) = rd m0 tp (elt f i)).
  { unfold IA_CSS_N_DATA_DIMENSION. intros f i Hf Hi. apply R; cbn in Hf;
      (decompose [or] Hf; subst; [..| contradiction]); mem_out. }
  assert (R2 : forall f, In f [tp.frame_format_type; tp.stride; tp.bpp; tp.bpe; tp.offset] ->
    rd m tp f = rd m0 tp f).
  { intros f Hf. apply R; cbn in Hf; (decompose [or] Hf; subst; [..| contradiction]); mem_out. }
  unfold IA_CSS_N_DATA_DIMENSION, IA_CSS_ROW_DIMENSION in *.
  rewrite (R2 tp.frame_format_type) in H4, H9 by (cbn; tauto).
  rewrite (R2 tp.stride) in H6, H9 by (cbn; tauto).
  rewrite (R2 tp.bpp) in H7 by (cbn; tauto). rewrite (R2 tp.bpe) in H8 by (cbn; tauto).
  rewrite (R1 tp.dimensions 1) in H9, H10 by (cbn; tauto || lia).
  constructor; try assumption.
  - intros i Hi. rewrite <- (R1 tp.dimensions i) by (cbn; tauto || exact Hi). apply H5, Hi.
  - intros Hfc i Hi. rewrite <- (R1 tp.index i), <- (R1 tp.fragment_dimensions i),
      <- (R2 tp.offset) by (cbn; tauto || exact Hi). apply H11; assumption.
Qed.

Lemma create_data_terminal_run m t man tp en fc k :
  0 < t -> 0 <= fc ->
  tp + sizeof_ia_css_terminal_param_t <= t \/ t + data_room fc <= tp ->
  0 <= k < IA_CSS_KERNEL_BITMAP_BITS ->
  ia_css_kernel_bitmap_intersection en (ia_css_data_terminal_manifest_get_kernel_bitmap m man)
    = ia_css_kernel_bit_mask k ->
  rd m tp tp.stride * rd m tp (elt tp.dimensions IA_CSS_ROW_DIMENSION) < 2 ^ 32 ->
  exists m', create_data_terminal t man tp en fc m = (Some tt, m')
    /\ same_outside (t + 16) (t + data_room fc) m m'
    /\ rd m' t (U32 104) = rd m t (U32 104)
    /\ data_described m m' t tp k fc.
Proof.
  intros Ht Hfc D Hk Hone Hsz.
  assert (Hroom : data_room fc = 144 + fc * 16) by reflexivity.
  assert (D' : tp + 32 <= t \/ t + (144 + fc * 16) <= tp) by (rewrite <- Hroom; exact D).
  set (m2 := data_kernel_part t (ia_css_kernel_bit_mask k) m).
  destruct (data_kernel_part_ok t k m Hk) as (S2 & B2 & K2 & F2 & R2). fold m2 in S2, B2, K2, F2, R2.
  assert (Rtp : forall f, 0 <= f_off f ->
    f_off f + Z.of_nat (f_len f) <= sizeof_ia_css_terminal_param_t -> rd m2 tp f = rd m tp f).
  { intros f H1 H2. change sizeof_ia_css_terminal_param_t with 32 in H2. rd_back. reflexivity. }
  destruct (describe_frame_run m2 t tp fc Ht Hfc D) as (m' & E & S & R & _ & H).
  { rewrite (Rtp tp.stride), (Rtp (elt tp.dimensions IA_CSS_ROW_DIMENSION)) by (vm_compute; congruence). exact Hsz. }
  exists m'. split; [| split; [| split]].
  - unfold create_data_terminal, ia_css_frame_set_buffer_state, bind, gets, call.
    rewrite Hone, frame_not_null by exact Ht. mrun. cbn [negb Z.eqb].
    rewrite (proj2 (onehot_iff _ (bit_mask_wf k)) (ex_intro _ k (conj Hk eq_refl))).
    rewrite <- E. unfold ia_css_data_terminal_get_frame. rewrite (not_null t) by exact Ht. reflexivity.
  - eapply same_outside_trans; (eapply same_outside_weaken; [| | first [exact S2 | exact S]]); lia.
  - rewrite R by (cbn; lia). apply R2; cbn; lia.
  - rewrite K2 in H. apply (data_described_keep m m2); [exact Rtp |]. apply H; assumption.
Qed.

(** ** From the header to the parts *)

(** What creation stores before it looks at the kind of terminal. *)
Definition header_stores (m : mem) (t size ty id : Z) (buffer : field) : mem :=
  let m := wr m t te.size (u16 size) in
  let m := wr m t te.terminal_type ty in
  let m := wr m t te.ID id in
  wr m t buffer VIED_NULL.

(** The parts of the kinds that take a buffer. *)
Definition create_parts (ty t man tp : Z) (en : ia_css_kernel_bitmap_t) (fc : Z) : M mem unit :=
  if is_data_type ty then create_data_terminal t man tp en fc
  else if (ty =? IA_CSS_TERMINAL_TYPE_PARAM_CACHED_IN)
          || (ty =? IA_CSS_TERMINAL_TYPE_PARAM_CACHED_OUT) then create_param_terminal t man
  else if ty =? IA_CSS_TERMINAL_TYPE_PROGRAM then create_program_terminal t man fc
  else if (ty =? IA_CSS_TERMINAL_TYPE_PARAM_SPATIAL_IN)
          || (ty =? IA_CSS_TERMINAL_TYPE_PARAM_SPATIAL_OUT) then create_spatial_terminal t man fc
  else create_program_control_init_terminal t man tp.

(** The types of the terminals that take a buffer. *)
Lemma buffer_types ty bf :
  buffer_field ty = Some bf ->
  exists x, In x [IA_CSS_TERMINAL_TYPE_DATA_IN; IA_CSS_TERMINAL_TYPE_DATA_OUT;
     IA_CSS_TERMINAL_TYPE_PARAM_CACHED_IN; IA_CSS_TERMINAL_TYPE_PARAM_CACHED_OUT;
     IA_CSS_TERMINAL_TYPE_PROGRAM; IA_CSS_TERMINAL_TYPE_PROGRAM_CONTROL_INIT;
     IA_CSS_TERMINAL_TYPE_PARAM_SPATIAL_IN; IA_CSS_TERMINAL_TYPE_PARAM_SPATIAL_OUT] /\ ty = x.
Proof.
  unfold buffer_field, is_data_type, is_payload_type. cbn [existsb]. intros H. exists ty.
  split; [| reflexivity]. cbn [In].
  repeat match type of H with context [ty =? ?c] => destruct (Z.eqb_spec ty c); [subst ty; tauto |] end.
  discriminate.
Qed.

Section Create.
Variables (m : mem) (t man tp : Z) (en : ia_css_kernel_bitmap_t).
Hypothesis t_pos : 0 < t.
Hypothesis man_pos : 0 < man.
(** The manifest's header is off the first [room] bytes of the terminal,
    which have the terminal's header and buffer. *)
Variable room : Z.
Hypothesis man_apart : man + sizeof_ia_css_terminal_manifest_t <= t \/ t + room <= man.
Hypothesis room_data : is_data_type (rd m man tm.terminal_type) = true -> 108 <= room.
Hypothesis room_payload : 32 <= room.

#[local] Abbreviation mty := (rd m man tm.terminal_type).

Lemma manifest_header_keep m' :
  same_outside t (t + room) m m' ->
  ia_css_terminal_manifest_get_type m' man = mty /\ ia_css_terminal_manifest_get_ID m' man = rd m man tm.ID.
Proof.
  intros S. unfold ia_css_terminal_manifest_get_type, ia_css_terminal_manifest_get_ID.
  rewrite !(not_null man) by exact man_pos.
  change sizeof_ia_css_terminal_manifest_t with 16 in *. split; rd_back; reflexivity.
Qed.

Lemma create_body_parts param fc bf :
  buffer_field mty = Some bf ->
  terminal_create_body t man tp en param fc m
  = create_parts mty t man tp en fc
      (header_stores m t (ia_css_sizeof_terminal m man param) mty (rd m man tm.ID) bf).
Proof.
  intros Hbf. unfold terminal_create_body, ia_css_terminal_set_type. cbv beta iota delta [bind gets call wrM modify].
  set (m1 := wr m t te.size _).
  destruct (manifest_header_keep m1) as [E1 _]; [subst m1; frame_back |]. rewrite E1.
  mrun. rewrite (not_null t) by exact t_pos. cbn [negb Z.eqb].
  set (m2 := wr m1 t te.terminal_type mty).
  destruct (manifest_header_keep m2) as [_ E2]; [subst m2 m1; frame_back |]. rewrite E2.
  set (m3 := wr m2 t te.ID (rd m man tm.ID)).
  assert (Ety : rd m3 t te.terminal_type = mty).
  { subst m3 m2. rd_back. apply Z.mod_small. apply (rd_U32_range m man 0). }
  rewrite set_buffer_run by exact t_pos. rewrite Ety, Hbf. cbn [Z.eqb].
  set (m4 := wr m3 t bf VIED_NULL).
  assert (S4 : same_outside t (t + room) m m4).
  { destruct (slot_cases mty) as [(B & _ & D) | [(B & _) | (B & _)]]; rewrite B in Hbf;
      [injection Hbf as <-; specialize (room_data D) | injection Hbf as <- | discriminate];
      subst m4 m3 m2 m1; frame_back. }
  destruct (manifest_header_keep m4 S4) as [E4 _].
  unfold ia_css_is_terminal_manifest_data_terminal, ia_css_is_terminal_manifest_parameter_terminal,
    ia_css_is_terminal_manifest_program_terminal, ia_css_is_terminal_manifest_spatial_parameter_terminal,
    ia_css_is_terminal_manifest_sliced_terminal, ia_css_is_terminal_manifest_program_control_init_terminal.
  rewrite E4. cbv zeta. change (header_stores m t _ _ _ bf) with m4. clearbody m4.
  unfold create_parts. destruct (buffer_types mty bf Hbf) as (x & Hin & ->).
  repeat (destruct Hin as [<- | Hin]; [reflexivity |]). destruct Hin.
Qed.
End Create.

(** What the common part of creation leaves of the terminal. *)
Record terminal_created (m m' : mem) (t man size : Z) : Prop := {
  tc_size : ia_css_terminal_get_size m' t = u16 size;
  tc_type : ia_css_terminal_get_type m' t = ia_css_terminal_manifest_get_type m man;
  tc_ID : ia_css_terminal_get_ID m' t = ia_css_terminal_manifest_get_ID m man;
  tc_buffer : ia_css_terminal_get_buffer m' t = VIED_NULL
}.

Lemma header_created m m' t man bf size :
  0 < t -> 0 < man -> buffer_field (rd m man tm.terminal_type) = Some bf ->
  (forall f, In f [te.size; te.terminal_type; te.ID; bf] ->
     rd m' t f = rd (header_stores m t size (rd m man tm.terminal_type) (rd m man tm.ID) bf) t f) ->
  terminal_created m m' t man size.
Proof.
  intros Ht Hman Hbf R. unfold header_stores in R.
  assert (Ety : rd m' t te.terminal_type = rd m man tm.terminal_type).
  { rewrite R by (cbn; tauto).
    destruct (slot_cases (rd m man tm.terminal_type)) as [(B & _) | [(B & _) | (B & _)]];
      rewrite B in Hbf; [injection Hbf as <- | injection Hbf as <- | discriminate]; field_back. }
  constructor.
  - unfold ia_css_terminal_get_size. rewrite (not_null t), R by (assumption || cbn; tauto).
    destruct (slot_cases (rd m man tm.terminal_type)) as [(B & _) | [(B & _) | (B & _)]];
      rewrite B in Hbf; [injection Hbf as <- | injection Hbf as <- | discriminate];
      rd_back; rewrite f_conv_u16; unfold u16; apply Z.mod_mod; lia.
  - unfold ia_css_terminal_get_type, ia_css_terminal_manifest_get_type.
    rewrite (not_null t), (not_null man) by assumption. exact Ety.
  - unfold ia_css_terminal_get_ID, ia_css_terminal_manifest_get_ID.
    rewrite (not_null t), (not_null man), R by (assumption || cbn; tauto).
    destruct (slot_cases (rd m man tm.terminal_type)) as [(B & _) | [(B & _) | (B & _)]];
      rewrite B in Hbf; [injection Hbf as <- | injection Hbf as <- | discriminate]; field_back.
  - rewrite get_buffer_run, Ety, Hbf, R by (assumption || cbn; tauto). rewrite rd_wr_same.
    destruct (slot_cases (rd m man tm.terminal_type)) as [(B & _) | [(B & _) | (B & _)]];
      rewrite B in Hbf; [injection Hbf as <- | injection Hbf as <- | discriminate]; reflexivity.
Qed.

Lemma fragment_count_range m param :
  0 <= ia_css_program_group_param_get_fragment_count m param < 256.
Proof.
  unfold ia_css_program_group_param_get_fragment_count.
  destruct (is_null param); [lia | apply Z.mod_pos_bound; lia].
Qed.

Lemma sizeof_data_terminal m man param :
  0 < man -> param <> NULL -> is_data_type (rd m man tm.terminal_type) = true ->
  ia_css_sizeof_terminal m man param
  = data_room (ia_css_program_group_param_get_fragment_count m param).
Proof.
  intros Hman Hp Hty. unfold ia_css_sizeof_terminal,
    ia_css_is_terminal_manifest_parameter_terminal, ia_css_is_terminal_manifest_data_terminal,
    ia_css_terminal_manifest_get_type. rewrite (not_null man) by exact Hman.
  rewrite (proj2 (Z.eqb_neq param NULL) Hp : is_null param = false). cbv zeta.
  unfold is_data_type in Hty. rewrite Hty.
  apply orb_true_iff in Hty. rewrite !Z.eqb_eq in Hty. destruct Hty as [-> | ->]; reflexivity.
Qed.

(** Creation of such a terminal, for the callers of [ia_css_terminal_create]. *)
Lemma terminal_create_data_ok m t man tp en k :
  let param := ia_css_terminal_param_get_parent m tp in
  let fc := ia_css_program_group_param_get_fragment_count m param in
  let lines := rd m tp (elt tp.dimensions IA_CSS_ROW_DIMENSION) in
  0 < t -> 0 < man -> param <> NULL ->
  ia_css_is_terminal_manifest_data_terminal m man = true ->
  man + sizeof_ia_css_data_terminal_manifest_t <= t \/ t + data_room fc <= man ->
  tp + sizeof_ia_css_terminal_param_t <= t \/ t + data_room fc <= tp ->
  0 <= k < IA_CSS_KERNEL_BITMAP_BITS ->
  ia_css_kernel_bitmap_intersection en (ia_css_data_terminal_manifest_get_kernel_bitmap m man)
    = ia_css_kernel_bit_mask k ->
  rd m tp tp.stride * lines < 2 ^ 32 ->
  exists m', ia_css_terminal_create t man tp en m = (t, m')
    /\ ia_css_terminal_get_size m' t = ia_css_sizeof_terminal m man param
    /\ same_outside t (t + ia_css_sizeof_terminal m man param) m m'
    /\ terminal_created m m' t man (ia_css_sizeof_terminal m man param)
    /\ data_described m m' t tp k fc.
Proof.
  intros param fc lines Ht Hman Hparam Hd Dm Dp Hk Hone Hsz.
  assert (Hfc : 0 <= fc < 256) by apply fragment_count_range.
  set (ty := rd m man tm.terminal_type).
  assert (Hty : is_data_type ty = true).
  { unfold ia_css_is_terminal_manifest_data_terminal, ia_css_terminal_manifest_get_type in Hd.
    rewrite (not_null man) in Hd by exact Hman. exact Hd. }
  assert (Hbf : buffer_field ty = Some (U32 104)) by (unfold buffer_field; rewrite Hty; reflexivity).
  assert (Esz : ia_css_sizeof_terminal m man param = data_room fc).
  { apply sizeof_data_terminal; assumption. }
  assert (Hroom : data_room fc = 144 + fc * 16) by reflexivity.
  change sizeof_ia_css_data_terminal_manifest_t with 64 in Dm.
  rewrite Esz. unfold ia_css_terminal_create. fold param fc.
  rewrite (not_null man), (not_null t) by assumption.
  rewrite (proj2 (Z.eqb_neq param NULL) Hparam : is_null param = false).
  rewrite (create_body_parts m t man tp en Ht Hman 108
             ltac:(unfold sizeof_ia_css_terminal_manifest_t; lia) ltac:(lia) ltac:(lia) param fc (U32 104) Hbf).
  rewrite Esz. fold ty. set (m1 := header_stores m t (data_room fc) ty (rd m man tm.ID) (U32 104)).
  assert (S1 : same_outside t (t + 108) m m1) by (subst m1; unfold header_stores; frame_back).
  assert (Ek : ia_css_data_terminal_manifest_get_kernel_bitmap m1 man
               = ia_css_data_terminal_manifest_get_kernel_bitmap m man).
  { unfold ia_css_data_terminal_manifest_get_kernel_bitmap. rewrite (not_null man) by exact Hman.
    apply (rd_kb_same_outside t (t + 108)); [exact S1 | mem_out]. }
  assert (Rtp : forall f, 0 <= f_off f ->
    f_off f + Z.of_nat (f_len f) <= sizeof_ia_css_terminal_param_t -> rd m1 tp f = rd m tp f).
  { intros f H1 H2. change sizeof_ia_css_terminal_param_t with 32 in *. rd_back. reflexivity. }
  destruct (create_data_terminal_run m1 t man tp en fc k Ht ltac:(lia) Dp Hk) as (m' & E & S & B & F).
  { rewrite Ek. exact Hone. }
  { rewrite (Rtp tp.stride), (Rtp (elt tp.dimensions IA_CSS_ROW_DIMENSION)) by (vm_compute; congruence). exact Hsz. }
  unfold create_parts. rewrite Hty, E. exists m'. split; [reflexivity |].
  assert (C : terminal_created m m' t man (data_room fc)).
  { apply (header_created m m' t man (U32 104)); [assumption | assumption | exact Hbf |].
    intros f Hf. destruct Hf as [<- | [<- | [<- | [<- | []]]]];
      [apply (rd_same_outside _ _ _ _ _ _ S); mem_out .. | exact B]. }
  split; [| split; [| split]].
  - rewrite (tc_size _ _ _ _ _ C). apply u16_small. lia.
  - eapply same_outside_trans; (eapply same_outside_weaken; [| | first [exact S1 | exact S]]); lia.
  - exact C.
  - apply (data_described_keep m m1); assumption.
Qed.

(** Creating a data terminal that serves exactly one of the enabled
    kernels builds it from its manifest and the client's parameters: the
    computed size and nothing outside it is written, the terminal has no
    buffer yet, knows its kernel, and describes the frame as the client asked,
    each plane behind the planes before it for the frame's format. *)
Theorem terminal_create_data m t man tp en k :
  let param := ia_css_terminal_param_get_parent m tp in
  let fc := ia_css_program_group_param_get_fragment_count m param in
  let lines := rd m tp (elt tp.dimensions IA_CSS_ROW_DIMENSION) in
  0 < t -> 0 < man -> param <> NULL ->
  ia_css_is_terminal_manifest_data_terminal m man = true ->
  man + sizeof_ia_css_data_terminal_manifest_t <= t \/ t + data_room fc <= man ->
  tp + sizeof_ia_css_terminal_param_t <= t \/ t + data_room fc <= tp ->
  0 <= k < IA_CSS_KERNEL_BITMAP_BITS ->
  ia_css_kernel_bitmap_intersection en (ia_css_data_terminal_manifest_get_kernel_bitmap m man)
    = ia_css_kernel_bit_mask k ->
  rd m tp tp.stride * lines < 2 ^ 32 ->
  exists m', ia_css_terminal_create t man tp en m = (t, m')
    /\ ia_css_terminal_get_size m' t = ia_css_sizeof_terminal m man param
    /\ same_outside t (t + ia_css_sizeof_terminal m man param) m m'
    /\ terminal_created m m' t man (ia_css_sizeof_terminal m man param)
    /\ data_described m m' t tp k fc.
Proof. exact (terminal_create_data_ok m t man tp en k). Qed.

(** The sample manifest with parameters at 3000 for its first terminal, an
    NV12 frame of 1920 by 1080 in one fragment, and an enabled kernel 0. *)
Definition sample_frame_param : mem :=
  let m := wr sample_group_manifest 3000 pgp.fragment_count 1 in
  let m := wr_kb m 3000 pgp.kernel_enable_bitmap (ia_css_kernel_bit_mask 0) in
  let m := wr m 3100 tp.parent_offset (-100) in
  let m := wr m 3100 tp.frame_format_type IA_CSS_DATA_FORMAT_NV12 in
  let m := wr (wr m 3100 (elt tp.dimensions 0) 1920) 3100 (elt tp.dimensions 1) 1080 in
  let m := wr (wr m 3100 (elt tp.fragment_dimensions 0) 1920) 3100 (elt tp.fragment_dimensions 1) 1080 in
  wr (wr (wr m 3100 tp.stride 1920) 3100 tp.bpp 8) 3100 tp.bpe 8.

Lemma terminal_create_data_witness :
  let '(r, m') := ia_css_terminal_create 5000 1136 3100 (ia_css_kernel_bit_mask 0) sample_frame_param in
  r = 5000 /\ ia_css_terminal_get_size m' 5000 = 160
  /\ data_described sample_frame_param m' 5000 3100 0 1
  /\ rd m' 5016 (elt fd.plane_offsets 1) = 2073600.
Proof.
  destruct (terminal_create_data sample_frame_param 5000 1136 3100 (ia_css_kernel_bit_mask 0) 0)
    as (m' & -> & Hs & _ & _ & D);
    [lia | lia | vm_compute; discriminate | vm_compute; reflexivity
    | left; vm_compute; discriminate | left; vm_compute; discriminate
    | split; [discriminate | reflexivity] | vm_compute; reflexivity | vm_compute; reflexivity |].
  split; [reflexivity |]. split; [rewrite Hs; vm_compute; reflexivity |]. split; [exact D |].
  destruct (dd_planes _ _ _ _ _ _ D) as [_ O].
  assert (N : (1 <= length (leading_planes (rd sample_frame_param 3100 tp.frame_format_type)
    (rd sample_frame_param 3100 tp.stride)
    (rd sample_frame_param 3100 (elt tp.dimensions IA_CSS_ROW_DIMENSION))))%nat)
    by (vm_compute; constructor).
  specialize (O 1%nat N). transitivity (rd m' (5000 + 16) (elt fd.plane_offsets (Z.of_nat 1)));
    [reflexivity | rewrite O; vm_compute; reflexivity].
Defined.

(** ** Sections *)

(** The sizes of the first [i] sections described from [mb] on. *)
Definition sections_sum (m : mem) (mb i : Z) : Z :=
  foldr Z.add 0 (map (fun j => rd m (mb + j * 4) psd.max_mem_size) (range 0 i)).

(** [n] sections at [b], of the sizes described at [mb], one after the other
    in the payload. *)
Definition sections_placed (m m' : mem) (b mb n : Z) : Prop :=
  forall i, 0 <= i < n ->
    rd m' (b + i * 8) sec.mem_size = rd m (mb + i * 4) psd.max_mem_size
    /\ rd m' (b + i * 8) sec.mem_offset = sections_sum m mb i.

Lemma sections_sum_succ m mb i :
  0 <= i -> sections_sum m mb (i + 1) = sections_sum m mb i + rd m (mb + i * 4) psd.max_mem_size.
Proof.
  intros Hi. unfold sections_sum. change (i + 1) with (Z.succ i). rewrite range_snoc by lia.
  rewrite map_app. apply sum_snoc.
Qed.

Lemma sections_sum_keep m m' mb n :
  (forall j, 0 <= j < n -> rd m' (mb + j * 4) psd.max_mem_size = rd m (mb + j * 4) psd.max_mem_size) ->
  sections_sum m' mb n = sections_sum m mb n.
Proof.
  intros R. unfold sections_sum. f_equal. apply map_ext_in. intros j Hj.
  apply R. apply elem_of_range. apply list_elem_of_In. exact Hj.
Qed.

Lemma sections_sum_bound m mb n : 0 <= n -> 0 <= sections_sum m mb n <= n * 65535.
Proof.
  intros Hn. pattern n. apply natlike_ind; [change (sections_sum m mb 0) with 0; lia | | exact Hn].
  intros i Hi IH. change (Z.succ i) with (i + 1). rewrite sections_sum_succ by exact Hi.
  pose proof (rd_U16_range m (mb + i * 4) 0) as R. change (U16 0) with psd.max_mem_size in R. lia.
Qed.

(** The section loops: [sp] and [mp] are what the accessors answer as long as
    only the sections have been written. *)
Lemma sections_loop (sp mp : mem -> Z -> Z) m b mb n :
  0 <= n <= 65535 -> 0 < b -> 0 < mb -> mb + n * 4 <= b \/ b + n * 8 <= mb ->
  (forall m' i, same_outside b (b + n * 8) m m' -> 0 <= i < n ->
     sp m' i = b + i * 8 /\ mp m' i = mb + i * 4) ->
  exists m', for_each (range 0 n) 0 (fun i curr_offset =>
      section <- gets (fun m => sp m i) ;;
      man_section <- gets (fun m => mp m i) ;;
      place_section section man_section curr_offset) m = (Some (sections_sum m mb n), m')
    /\ same_outside b (b + n * 8) m m' /\ sections_placed m m' b mb n.
Proof.
  intros Hn Hb Hmb D Hp.
  edestruct (for_range_inv (fun i off s => off = sections_sum m mb i
      /\ same_outside b (b + n * 8) m s /\ sections_placed m s b mb i) 0 n 0) as (off & m' & E & -> & S & P);
    [lia | | | exists m'; split; [exact E | split; [exact S | exact P]]].
  { split; [reflexivity |]. split; [apply same_outside_refl |]. intros i Hi. lia. }
  intros i off s Hi (-> & S & P). destruct (Hp s i S Hi) as [E1 E2].
  pose proof (sections_sum_bound m mb i ltac:(lia)) as B.
  pose proof (rd_U16_range m (mb + i * 4) 0) as R.
  eexists _, _. split.
  { unfold place_section. mrun. rewrite E1, E2. rewrite !not_null by lia. cbn [negb]. reflexivity. }
  split; [| split].
  - rd_back. unfold u64. rewrite Z.mod_small by lia. symmetry. apply sections_sum_succ. lia.
  - frame_back.
  - intros j Hj. destruct (Z.eq_dec j i) as [-> | Hne].
    + split; rd_back; rewrite f_conv_u32; apply u32_small; lia.
    + destruct (P j ltac:(lia)) as [P1 P2]. split; rd_back; [exact P1 | exact P2].
Qed.

(** The manifest [man] with a header of [hdr] bytes and its [n] section
    descriptors at [mb] are off [lo, hi). *)
Definition sections_apart (man hdr mb n lo hi : Z) : Prop :=
  (man + hdr <= lo \/ hi <= man) /\ (mb + n * 4 <= lo \/ hi <= mb).

Section Section_kinds.
Variables (m : mem) (t man : Z).
Hypothesis t_pos : 0 < t.
Hypothesis man_pos : 0 < man.

Lemma create_param_run :
  let n := rd m man ptm.param_manifest_section_desc_count in
  let mb := man + rd m man ptm.param_manifest_section_desc_offset in
  sections_apart man sizeof_ia_css_param_terminal_manifest_t mb n t (t + (40 + n * 8)) ->
  exists m', create_param_terminal t man m = (Some tt, m')
    /\ same_outside (t + 32) (t + (40 + n * 8)) m m'
    /\ sections_placed m m' (t + 40) mb n
    /\ rd m' t pt.param_section_desc_offset = sizeof_ia_css_param_terminal_t.
Proof.
  intros n mb [Dm Db]. change sizeof_ia_css_param_terminal_manifest_t with 24 in Dm.
  pose proof (rd_U16_range m man 16) as Rn. pose proof (rd_U16_range m man 18) as Ro.
  change (rd m man (U16 16)) with n in Rn.
  assert (Hmb : 0 < mb) by (subst mb; change (rd m man (U16 18)) with
    (rd m man ptm.param_manifest_section_desc_offset) in Ro; lia).
  set (m1 := wr m t pt.param_section_desc_offset sizeof_ia_css_param_terminal_t).
  assert (R1 : rd m1 t pt.param_section_desc_offset = 40) by apply rd_wr_same.
  destruct (sections_loop (fun m => ia_css_param_in_terminal_get_param_section_desc m t)
    (fun m => ia_css_param_terminal_manifest_get_prm_sct_desc m man) m1 (t + 40) mb n)
    as (m' & E & S & P); [lia | lia | lia | lia | |].
  { intros m' i S Hi. unfold ia_css_param_in_terminal_get_param_section_desc,
      ia_css_param_terminal_manifest_get_prm_sct_desc.
    rewrite (not_null t), (not_null man) by assumption. split.
    - rewrite (rd_same_outside _ _ _ _ t pt.param_section_desc_offset S), R1 by mem_out. mem_out.
    - rewrite (rd_same_outside _ _ _ _ man ptm.param_manifest_section_desc_offset S) by mem_out.
      subst m1. rewrite rd_wr_base by mem_out. subst mb. reflexivity. }
  exists m'. split; [| split; [| split]].
  - unfold create_param_terminal. unfold bind at 1 2, rdM, gets at 1, wrM, modify. fold n m1.
    unfold bind at 1. rewrite E. reflexivity.
  - subst m1. frame_back.
  - intros i Hi. destruct (P i Hi) as [P1 P2]. split.
    + rewrite P1. subst m1. rd_back. reflexivity.
    + rewrite P2. apply sections_sum_keep. intros j Hj. subst m1. rd_back. reflexivity.
  - rewrite (rd_same_outside _ _ _ _ t pt.param_section_desc_offset S) by mem_out. exact R1.
Qed.

Lemma create_program_run fc :
  let n := rd m man prtm.fragment_param_manifest_section_desc_count in
  let mb := man + rd m man prtm.fragment_param_manifest_section_desc_offset in
  let o := 40 + fc * rd m man prtm.kernel_fragment_sequencer_info_manifest_info_count * 24 in
  0 <= fc -> o < 65536 ->
  sections_apart man sizeof_ia_css_program_terminal_manifest_t mb n t (t + (o + n * 8)) ->
  exists m', create_program_terminal t man fc m = (Some tt, m')
    /\ same_outside (t + 32) (t + (o + n * 8)) m m'
    /\ sections_placed m m' (t + o) mb n
    /\ rd m' t prt.fragment_param_section_desc_offset = o
    /\ rd m' t prt.kernel_fragment_sequencer_info_desc_offset = sizeof_ia_css_program_terminal_t
    /\ rd m' t prt.payload_fragment_stride = sections_sum m mb n.
Proof.
  intros n mb o Hfc Ho [Dm Db]. change sizeof_ia_css_program_terminal_manifest_t with 32 in Dm.
  pose proof (rd_U16_range m man 22) as Rn. pose proof (rd_U16_range m man 24) as Ro.
  pose proof (rd_U16_range m man 26) as Ri.
  change (rd m man (U16 26)) with (rd m man prtm.kernel_fragment_sequencer_info_manifest_info_count) in Ri.
  change (rd m man (U16 22)) with n in Rn.
  assert (H0 : 0 <= fc * rd m man prtm.kernel_fragment_sequencer_info_manifest_info_count) by nia.
  assert (Hmb : 0 < mb) by (subst mb; change (rd m man (U16 24)) with
    (rd m man prtm.fragment_param_manifest_section_desc_offset) in Ro; lia).
  set (m1 := wr (wr m t prt.kernel_fragment_sequencer_info_desc_offset sizeof_ia_css_program_terminal_t)
               t prt.fragment_param_section_desc_offset o).
  assert (R1 : rd m1 t prt.fragment_param_section_desc_offset = o)
    by (subst m1; rewrite rd_wr_same; apply u16_small; lia).
  destruct (sections_loop
    (fun m j => ia_css_program_terminal_get_frgmnt_prm_sct_desc m t 0 j n)
    (fun m => ia_css_program_terminal_manifest_get_frgmnt_prm_sct_desc m man) m1 (t + o) mb n)
    as (m2 & E & S & P); [lia | lia | lia | lia | |].
  { intros m' i S Hi. unfold ia_css_program_terminal_get_frgmnt_prm_sct_desc,
      ia_css_program_terminal_manifest_get_frgmnt_prm_sct_desc.
    rewrite (not_null t), (not_null man) by assumption.
    rewrite (proj2 (Z.ltb_lt i n)) by lia. cbn [negb]. split.
    - rewrite (rd_same_outside _ _ _ _ t prt.fragment_param_section_desc_offset S), R1 by mem_out. mem_out.
    - rewrite (rd_same_outside _ _ _ _ man prtm.fragment_param_manifest_section_desc_offset S) by mem_out.
      subst m1. rewrite !rd_wr_base by mem_out. subst mb. reflexivity. }
  assert (Esum : sections_sum m1 mb n = sections_sum m mb n).
  { apply sections_sum_keep. intros j Hj. subst m1. rd_back. reflexivity. }
  pose proof (sections_sum_bound m mb n ltac:(lia)) as B.
  exists (wr m2 t prt.payload_fragment_stride (sections_sum m mb n)).
  split; [| split; [| split; [| split; [| split]]]].
  - unfold create_program_terminal. cbv beta iota zeta delta [bind rdM wrM gets modify].
    rewrite rd_wr_same. change (f_conv _ sizeof_ia_css_program_terminal_t) with 40.
    fold n. rewrite Z.add_0_r. change sizeof_ia_css_kernel_fragment_sequencer_info_desc_t with 24. fold o m1.
    change (range 0 1) with [0]. cbn [for_each]. cbv beta iota delta [bind gets wrM modify ret] in E |- *.
    rewrite E, Esum. reflexivity.
  - frame_back.
  - intros i Hi. destruct (P i Hi) as [P1 P2]. split.
    + rd_back. etransitivity; [exact P1 |]. subst m1. rd_back. reflexivity.
    + rd_back. etransitivity; [exact P2 |]. apply sections_sum_keep. intros j Hj. subst m1. rd_back. reflexivity.
  - rd_back. exact R1.
  - rd_back. subst m1. rd_back. reflexivity.
  - rewrite rd_wr_same. apply u32_small. lia.
Qed.
End Section_kinds.

(** The section descriptors of a parameter or program terminal manifest, and
    where their copies start in a terminal of [fc] fragments. *)
Definition sections_of (m : mem) (man : Z) : Z * Z :=
  if ia_css_is_terminal_manifest_program_terminal m man
  then (rd m man prtm.fragment_param_manifest_section_desc_count,
        man + rd m man prtm.fragment_param_manifest_section_desc_offset)
  else (rd m man ptm.param_manifest_section_desc_count,
        man + rd m man ptm.param_manifest_section_desc_offset).

Definition section_start (m : mem) (man fc : Z) : Z :=
  if ia_css_is_terminal_manifest_program_terminal m man
  then 40 + fc * rd m man prtm.kernel_fragment_sequencer_info_manifest_info_count * 24
  else 40.

Lemma sections_placed_keep m0 m m' b mb n :
  (forall j, 0 <= j < n -> rd m (mb + j * 4) psd.max_mem_size = rd m0 (mb + j * 4) psd.max_mem_size) ->
  sections_placed m m' b mb n -> sections_placed m0 m' b mb n.
Proof.
  intros R P i Hi. destruct (P i Hi) as [P1 P2]. rewrite P1, P2. split; [apply R, Hi |].
  apply sections_sum_keep. intros j Hj. apply R. lia.
Qed.

(** The sizes, exactly: none of the products leaves 32 bits. *)
Lemma sizeof_sections m man param :
  let fc := ia_css_program_group_param_get_fragment_count m param in
  let ty := ia_css_terminal_manifest_get_type m man in
  let n := rd m man ptm.param_manifest_section_desc_count in
  let k := rd m man prtm.fragment_param_manifest_section_desc_count in
  0 < man -> param <> NULL ->
  (ty = IA_CSS_TERMINAL_TYPE_PARAM_CACHED_IN -> ia_css_sizeof_terminal m man param = 40 + n * 8)
  /\ (ty = IA_CSS_TERMINAL_TYPE_PARAM_CACHED_OUT ->
      ia_css_sizeof_terminal m man param = 40 + fc * n * 8)
  /\ (ty = IA_CSS_TERMINAL_TYPE_PROGRAM ->
      ia_css_sizeof_terminal m man param
      = 40 + k * 8 + fc * rd m man prtm.kernel_fragment_sequencer_info_manifest_info_count * 24
        + fc * rd m man prtm.max_kernel_fragment_sequencer_command_desc * 8).
Proof.
  intros fc ty n k Hman Hp.
  assert (Hfc : 0 <= fc < 256) by apply fragment_count_range.
  pose proof (rd_U16_range m man 16) as Rn. change (rd m man (U16 16)) with n in Rn.
  pose proof (rd_U16_range m man 22) as Rk. change (rd m man (U16 22)) with k in Rk.
  set (i := rd m man prtm.kernel_fragment_sequencer_info_manifest_info_count).
  pose proof (rd_U16_range m man 26) as Ri. change (rd m man (U16 26)) with i in Ri.
  set (x := rd m man prtm.max_kernel_fragment_sequencer_command_desc).
  pose proof (rd_U16_range m man 20) as Rx. change (rd m man (U16 20)) with x in Rx.
  unfold ia_css_sizeof_terminal,
    ia_css_is_terminal_manifest_parameter_terminal, ia_css_is_terminal_manifest_data_terminal,
    ia_css_is_terminal_manifest_program_terminal.
  fold fc ty n k i x. rewrite (not_null man) by exact Hman.
  rewrite (proj2 (Z.eqb_neq param NULL) Hp : is_null param = false). cbv zeta.
  unfold ia_css_param_in_terminal_get_descriptor_size, ia_css_param_out_terminal_get_descriptor_size,
    ia_css_program_terminal_get_descriptor_size.
  layout_simp.
  split; [| split]; intros ->; cbn [Z.eqb Pos.eqb orb];
    rewrite ?(u32_small (fc * n)), ?(u32_small (fc * i)) by nia; apply u32_small; nia.
Qed.

(** Creation of a terminal with a payload: what is left is the part of its
    kind, run on the memory [m1] after the header's stores. *)
Lemma create_payload_run m t man tp en :
  let param := ia_css_terminal_param_get_parent m tp in
  let fc := ia_css_program_group_param_get_fragment_count m param in
  let ty := ia_css_terminal_manifest_get_type m man in
  let size := ia_css_sizeof_terminal m man param in
  0 < t -> 0 < man -> param <> NULL ->
  is_data_type ty = false -> is_payload_type ty = true ->
  man + 16 <= t \/ t + 32 <= man ->
  exists m1, same_outside t (t + 32) m m1
    /\ ia_css_terminal_create t man tp en m
       = (t, snd (create_parts ty t man tp en fc m1))
    /\ forall hi m', same_outside (t + 32) hi m1 m' -> terminal_created m m' t man size.
Proof.
  intros param fc ty size Ht Hman Hparam Hd Hpl D.
  assert (Ety : ty = rd m man tm.terminal_type)
    by (subst ty; unfold ia_css_terminal_manifest_get_type; rewrite (not_null man) by exact Hman; reflexivity).
  rewrite Ety in Hd, Hpl.
  assert (Hbf : buffer_field (rd m man tm.terminal_type) = Some pay.buffer)
    by (unfold buffer_field; rewrite Hd, Hpl; reflexivity).
  exists (header_stores m t size (rd m man tm.terminal_type) (rd m man tm.ID) pay.buffer).
  split; [unfold header_stores; frame_back | split].
  - unfold ia_css_terminal_create. fold param fc. rewrite (not_null man), (not_null t) by assumption.
    rewrite (proj2 (Z.eqb_neq param NULL) Hparam : is_null param = false).
    rewrite (create_body_parts m t man tp en Ht Hman 32 D ltac:(congruence) ltac:(lia) param fc pay.buffer Hbf).
    fold size. rewrite <- Ety. destruct (create_parts _ _ _ _ _ _ _) as [[u |] m']; reflexivity.
  - intros hi m' S. apply (header_created m m' t man pay.buffer); [assumption .. |].
    intros f Hf. destruct Hf as [<- | [<- | [<- | [<- | []]]]];
      apply (rd_same_outside _ _ _ _ _ _ S); mem_out.
Qed.

(** The same, given what the part of the kind does on any such [m1]. *)
Lemma create_payload_ok m t man tp en hi (Q : mem -> mem -> Prop) :
  let param := ia_css_terminal_param_get_parent m tp in
  let fc := ia_css_program_group_param_get_fragment_count m param in
  let ty := ia_css_terminal_manifest_get_type m man in
  0 < t -> 0 < man -> param <> NULL ->
  is_data_type ty = false -> is_payload_type ty = true ->
  man + 16 <= t \/ t + 32 <= man -> t + 32 <= hi ->
  (forall m1, same_outside t (t + 32) m m1 ->
     exists m', create_parts ty t man tp en fc m1 = (Some tt, m')
       /\ same_outside (t + 32) hi m1 m' /\ Q m1 m') ->
  exists m1 m', same_outside t (t + 32) m m1
    /\ ia_css_terminal_create t man tp en m = (t, m')
    /\ same_outside t hi m m'
    /\ terminal_created m m' t man (ia_css_sizeof_terminal m man param)
    /\ Q m1 m'.
Proof.
  intros param fc ty Ht Hman Hparam Hd Hpl D Hhi H.
  destruct (create_payload_run m t man tp en) as (m1 & S1 & E & C); [assumption .. |].
  fold param fc ty in E, C. destruct (H m1 S1) as (m' & Em & S & HQ).
  exists m1, m'. rewrite E, Em. split; [exact S1 |]. split; [reflexivity |].
  split; [| split; [eapply C, S | exact HQ]].
  eapply same_outside_trans; (eapply same_outside_weaken; [| | first [exact S1 | exact S]]); lia.
Qed.

Lemma create_param_ok m t man tp en :
  let param := ia_css_terminal_param_get_parent m tp in
  let ty := ia_css_terminal_manifest_get_type m man in
  let n := rd m man ptm.param_manifest_section_desc_count in
  let mb := man + rd m man ptm.param_manifest_section_desc_offset in
  0 < t -> 0 < man -> param <> NULL ->
  ty = IA_CSS_TERMINAL_TYPE_PARAM_CACHED_IN \/ ty = IA_CSS_TERMINAL_TYPE_PARAM_CACHED_OUT ->
  sections_apart man 32 mb n t (t + (40 + n * 8)) ->
  exists m', ia_css_terminal_create t man tp en m = (t, m')
    /\ same_outside t (t + (40 + n * 8)) m m'
    /\ terminal_created m m' t man (ia_css_sizeof_terminal m man param)
    /\ sections_placed m m' (t + 40) mb n.
Proof.
  intros param ty n mb Ht Hman Hparam Hty [Dm Db].
  pose proof (rd_U16_range m man 16) as Rn. change (rd m man (U16 16)) with n in Rn.
  destruct (create_payload_ok m t man tp en (t + (40 + n * 8))
    (fun _ m' => sections_placed m m' (t + 40) mb n))
    as (m1 & m' & _ & E & S & C & P); [assumption .. | | | lia | lia | |
    exists m'; split; [exact E | split; [exact S | split; [exact C | exact P]]]].
  1,2: fold ty; destruct Hty as [-> | ->]; reflexivity.
  intros m1 S1. fold ty.
  assert (R1 : forall f, 0 <= f_off f -> f_off f + Z.of_nat (f_len f) <= 32 -> rd m1 man f = rd m man f)
    by (intros f H1 H2; apply (rd_same_outside _ _ _ _ _ _ S1); lia).
  pose proof (create_param_run m1 t man Ht Hman) as X. cbv zeta in X.
  rewrite (R1 ptm.param_manifest_section_desc_count), (R1 ptm.param_manifest_section_desc_offset)
    in X by mem_out. fold n mb in X.
  destruct X as (m' & E & S & P & _).
  { split; [change sizeof_ia_css_param_terminal_manifest_t with 24; lia | exact Db]. }
  exists m'. split; [| split; [exact S |]].
  - destruct Hty as [-> | ->]; exact E.
  - apply (sections_placed_keep m m1); [| exact P].
    intros j Hj. apply (rd_same_outside _ _ _ _ _ _ S1). mem_out.
Qed.

Lemma create_program_ok m t man tp en :
  let param := ia_css_terminal_param_get_parent m tp in
  let fc := ia_css_program_group_param_get_fragment_count m param in
  let n := rd m man prtm.fragment_param_manifest_section_desc_count in
  let mb := man + rd m man prtm.fragment_param_manifest_section_desc_offset in
  let o := 40 + fc * rd m man prtm.kernel_fragment_sequencer_info_manifest_info_count * 24 in
  0 < t -> 0 < man -> param <> NULL ->
  ia_css_terminal_manifest_get_type m man = IA_CSS_TERMINAL_TYPE_PROGRAM ->
  o < 65536 -> sections_apart man 32 mb n t (t + (o + n * 8)) ->
  exists m', ia_css_terminal_create t man tp en m = (t, m')
    /\ same_outside t (t + (o + n * 8)) m m'
    /\ terminal_created m m' t man (ia_css_sizeof_terminal m man param)
    /\ sections_placed m m' (t + o) mb n
    /\ rd m' t prt.payload_fragment_stride = sections_sum m mb n.
Proof.
  intros param fc n mb o Ht Hman Hparam Hty Ho [Dm Db].
  pose proof (rd_U16_range m man 22) as Rn. change (rd m man (U16 22)) with n in Rn.
  pose proof (rd_U16_range m man 26) as Ri.
  change (rd m man (U16 26)) with (rd m man prtm.kernel_fragment_sequencer_info_manifest_info_count) in Ri.
  assert (Hfc : 0 <= fc < 256) by apply fragment_count_range.
  assert (Ho' : 40 <= o) by (subst o; nia).
  destruct (create_payload_ok m t man tp en (t + (o + n * 8))
    (fun _ m' => sections_placed m m' (t + o) mb n
       /\ rd m' t prt.payload_fragment_stride = sections_sum m mb n))
    as (m1 & m' & _ & E & S & C & P); [assumption .. | | | lia | lia | |
    exists m'; split; [exact E | split; [exact S | split; [exact C | exact P]]]].
  1,2: rewrite Hty; reflexivity.
  intros m1 S1. rewrite Hty. fold param fc.
  assert (R1 : forall f, 0 <= f_off f -> f_off f + Z.of_nat (f_len f) <= 32 -> rd m1 man f = rd m man f)
    by (intros f H1 H2; apply (rd_same_outside _ _ _ _ _ _ S1); lia).
  assert (Rs : forall j, 0 <= j < n -> rd m1 (mb + j * 4) psd.max_mem_size = rd m (mb + j * 4) psd.max_mem_size)
    by (intros j Hj; apply (rd_same_outside _ _ _ _ _ _ S1); mem_out).
  pose proof (create_program_run m1 t man Ht Hman fc) as X. cbv zeta in X.
  rewrite (R1 prtm.fragment_param_manifest_section_desc_count),
    (R1 prtm.fragment_param_manifest_section_desc_offset),
    (R1 prtm.kernel_fragment_sequencer_info_manifest_info_count) in X by mem_out.
  fold n mb o in X.
  destruct X as (m' & E & S & P & _ & _ & T); [lia | exact Ho | split; [exact Dm | exact Db] |].
  exists m'. split; [exact E | split; [exact S |]]. split.
  - apply (sections_placed_keep m m1); assumption.
  - rewrite T. apply sections_sum_keep, Rs.
Qed.

(** Creation of such a terminal, for the callers of [ia_css_terminal_create]. *)
Lemma terminal_create_sections_ok m t man tp en :
  let param := ia_css_terminal_param_get_parent m tp in
  let fc := ia_css_program_group_param_get_fragment_count m param in
  let ty := ia_css_terminal_manifest_get_type m man in
  let size := ia_css_sizeof_terminal m man param in
  let '(n, mb) := sections_of m man in
  let o := section_start m man fc in
  0 < t -> 0 < man -> param <> NULL ->
  In ty [IA_CSS_TERMINAL_TYPE_PARAM_CACHED_IN; IA_CSS_TERMINAL_TYPE_PARAM_CACHED_OUT;
         IA_CSS_TERMINAL_TYPE_PROGRAM] ->
  size < 65536 -> sections_apart man 32 mb n t (t + (o + n * 8)) ->
  exists m', ia_css_terminal_create t man tp en m = (t, m')
    /\ same_outside t (t + (o + n * 8)) m m'
    /\ terminal_created m m' t man size
    /\ sections_placed m m' (t + o) mb n
    /\ (ty = IA_CSS_TERMINAL_TYPE_PROGRAM ->
        rd m' t prt.payload_fragment_stride = sections_sum m mb n)
    /\ (ty <> IA_CSS_TERMINAL_TYPE_PARAM_CACHED_OUT \/ 0 < fc -> o + n * 8 <= size)
    /\ (ty = IA_CSS_TERMINAL_TYPE_PARAM_CACHED_OUT -> fc = 0 -> size = o).
Proof.
  intros param fc ty size. pose proof (fragment_count_range m param) as Hfc. fold fc in Hfc.
  unfold sections_of, section_start.
  change (ia_css_is_terminal_manifest_program_terminal m man) with (ty =? IA_CSS_TERMINAL_TYPE_PROGRAM).
  destruct (Z.eqb_spec ty IA_CSS_TERMINAL_TYPE_PROGRAM) as [Ep | Np];
    intros Ht Hman Hparam Hty Hsz D;
    destruct (sizeof_sections m man param Hman Hparam) as (Zi & Zo & Zp); fold fc ty size in Zi, Zo, Zp.
  - specialize (Zp Ep).
    pose proof (rd_U16_range m man 20) as Rx. change (rd m man (U16 20)) with
      (rd m man prtm.max_kernel_fragment_sequencer_command_desc) in Rx.
    pose proof (rd_U16_range m man 22) as Rn. change (rd m man (U16 22)) with
      (rd m man prtm.fragment_param_manifest_section_desc_count) in Rn.
    destruct (create_program_ok m t man tp en Ht Hman Hparam Ep) as (m' & E & S & C & P & T);
      [fold param fc; nia | exact D |].
    exists m'. repeat (split; [assumption || (intros; assumption) |]). rewrite Ep. split.
    + intros _. nia.
    + discriminate.
  - assert (Hty' : ty = IA_CSS_TERMINAL_TYPE_PARAM_CACHED_IN \/ ty = IA_CSS_TERMINAL_TYPE_PARAM_CACHED_OUT)
      by (destruct Hty as [H | [H | [H | []]]]; auto; congruence).
    destruct (create_param_ok m t man tp en Ht Hman Hparam Hty' D) as (m' & E & S & C & P).
    exists m'. repeat (split; [assumption || (intros; congruence) |]). split.
    + intros H. destruct Hty' as [E1 | E1]; [rewrite (Zi E1); lia |]. rewrite (Zo E1).
      destruct H as [H | H]; [congruence |].
      pose proof (rd_U16_range m man 16) as Rn. change (rd m man (U16 16)) with
        (rd m man ptm.param_manifest_section_desc_count) in Rn. nia.
    + intros E1 E0. rewrite (Zo E1), E0. lia.
Qed.

(** Creating a parameter or a program terminal places its sections one
    after the other in the payload, in the order and with the sizes of the
    manifest, and records the total as the stride of a program terminal.  The
    section descriptors stay inside the computed size, except those of a cached
    output when the fragment count reads as 0 (as 256 fragments do): then the
    size leaves no room for them and they are written behind the terminal. *)
Theorem terminal_create_sections m t man tp en :
  let param := ia_css_terminal_param_get_parent m tp in
  let fc := ia_css_program_group_param_get_fragment_count m param in
  let ty := ia_css_terminal_manifest_get_type m man in
  let size := ia_css_sizeof_terminal m man param in
  let '(n, mb) := sections_of m man in
  let o := section_start m man fc in
  0 < t -> 0 < man -> param <> NULL ->
  In ty [IA_CSS_TERMINAL_TYPE_PARAM_CACHED_IN; IA_CSS_TERMINAL_TYPE_PARAM_CACHED_OUT;
         IA_CSS_TERMINAL_TYPE_PROGRAM] ->
  size < 65536 -> sections_apart man 32 mb n t (t + (o + n * 8)) ->
  exists m', ia_css_terminal_create t man tp en m = (t, m')
    /\ same_outside t (t + (o + n * 8)) m m'
    /\ terminal_created m m' t man size
    /\ sections_placed m m' (t + o) mb n
    /\ (ty = IA_CSS_TERMINAL_TYPE_PROGRAM ->
        rd m' t prt.payload_fragment_stride = sections_sum m mb n)
    /\ (ty <> IA_CSS_TERMINAL_TYPE_PARAM_CACHED_OUT \/ 0 < fc -> o + n * 8 <= size)
    /\ (ty = IA_CSS_TERMINAL_TYPE_PARAM_CACHED_OUT -> fc = 0 -> size = o).
Proof. exact (terminal_create_sections_ok m t man tp en). Qed.

(** A cached output with two sections of 24 and 40 bytes, for a client that
    asks for 256 fragments. *)
Definition sample_cached_out : mem :=
  let m := snd (ia_css_terminal_manifest_set_type 2000 IA_CSS_TERMINAL_TYPE_PARAM_CACHED_OUT sample_frame_param) in
  let m := snd (ia_css_param_terminal_manifest_init 2000 2 m) in
  let m := wr (wr m 2024 psd.max_mem_size 24) 2028 psd.max_mem_size 40 in
  wr m 3000 pgp.fragment_count 256.

Lemma terminal_create_sections_witness :
  let '(r, m') := ia_css_terminal_create 5000 2000 3100 ia_css_kernel_bitmap_clear sample_cached_out in
  r = 5000 /\ ia_css_terminal_get_size m' 5000 = 40
  /\ rd m' 5048 sec.mem_offset = 24 /\ rd m' 5048 sec.mem_size = 40.
Proof.
  pose proof (terminal_create_sections sample_cached_out 5000 2000 3100 ia_css_kernel_bitmap_clear) as T.
  cbv zeta in T.
  assert (Es : sections_of sample_cached_out 2000 = (2, 2024)) by (vm_compute; reflexivity).
  rewrite Es in T.
  replace (section_start _ _ _) with 40 in T by (vm_compute; reflexivity).
  destruct T as (m' & -> & _ & C & P & _);
    [lia | lia | vm_compute; discriminate | right; left; vm_compute; reflexivity
    | vm_compute; reflexivity | split; left; vm_compute; discriminate |].
  split; [reflexivity |]. split; [rewrite (tc_size _ _ _ _ _ C); vm_compute; reflexivity |].
  destruct (P 1 ltac:(lia)) as [P1 P2]. split; [etransitivity; [exact P2 |] | etransitivity; [exact P1 |]];
    vm_compute; reflexivity.
Defined.

(** ** Failures *)

Lemma create_body_refused m t man tp en param fc :
  0 < t -> 0 < man -> man + 16 <= t \/ t + 16 <= man ->
  buffer_field (rd m man tm.terminal_type) = None ->
  terminal_create_body t man tp en param fc m
  = (None, wr (wr (wr m t te.size (u16 (ia_css_sizeof_terminal m man param)))
                  t te.terminal_type (rd m man tm.terminal_type)) t te.ID (rd m man tm.ID)).
Proof.
  intros Ht Hman D Hbf.
  assert (K : forall m', same_outside t (t + 16) m m' ->
    ia_css_terminal_manifest_get_type m' man = rd m man tm.terminal_type
    /\ ia_css_terminal_manifest_get_ID m' man = rd m man tm.ID).
  { intros m' S. unfold ia_css_terminal_manifest_get_type, ia_css_terminal_manifest_get_ID.
    rewrite !(not_null man) by exact Hman. split; rd_back; reflexivity. }
  unfold terminal_create_body, ia_css_terminal_set_type. cbv beta iota delta [bind gets call wrM modify].
  set (m1 := wr m t te.size _).
  destruct (K m1) as [E1 _]; [subst m1; frame_back |]. rewrite E1.
  mrun. rewrite (not_null t) by exact Ht. cbn [negb Z.eqb].
  set (m2 := wr m1 t te.terminal_type (rd m man tm.terminal_type)).
  destruct (K m2) as [_ E2]; [subst m2 m1; frame_back |]. rewrite E2.
  set (m3 := wr m2 t te.ID (rd m man tm.ID)).
  assert (Ety : rd m3 t te.terminal_type = rd m man tm.terminal_type).
  { subst m3 m2. rd_back. apply Z.mod_small. apply (rd_U32_range m man 0). }
  rewrite set_buffer_run by exact Ht. rewrite Ety, Hbf. reflexivity.
Qed.

Lemma sizeof_refused m man param :
  is_data_type (ia_css_terminal_manifest_get_type m man) = false ->
  is_payload_type (ia_css_terminal_manifest_get_type m man) = false ->
  ia_css_sizeof_terminal m man param = 0.
Proof.
  unfold ia_css_sizeof_terminal,
    ia_css_is_terminal_manifest_parameter_terminal, ia_css_is_terminal_manifest_data_terminal,
    ia_css_is_terminal_manifest_program_terminal, ia_css_is_terminal_manifest_spatial_parameter_terminal,
    ia_css_is_terminal_manifest_program_control_init_terminal, is_data_type, is_payload_type.
  cbv zeta. cbn [existsb]. set (ty := ia_css_terminal_manifest_get_type m man). intros Hd Hp.
  rewrite Hd. bsimp. destruct (is_null man), (is_null param); try reflexivity.
  repeat match goal with H : ty <> ?c |- _ => rewrite (proj2 (Z.eqb_neq ty c) H); clear H end.
  reflexivity.
Qed.

Lemma create_not_null m t man tp en :
  let param := ia_css_terminal_param_get_parent m tp in
  0 < t -> 0 < man -> param <> NULL ->
  ia_css_terminal_create t man tp en m
  = (t, snd (terminal_create_body t man tp en param
               (ia_css_program_group_param_get_fragment_count m param) m)).
Proof.
  intros param Ht Hman Hparam. unfold ia_css_terminal_create. fold param.
  rewrite (not_null man), (not_null t) by assumption.
  rewrite (proj2 (Z.eqb_neq param NULL) Hparam : is_null param = false).
  destruct (terminal_create_body _ _ _ _ _ _ _) as [[u |] m']; reflexivity.
Qed.

Lemma create_data_refused m t man tp en :
  let param := ia_css_terminal_param_get_parent m tp in
  let ty := ia_css_terminal_manifest_get_type m man in
  0 < t -> 0 < man -> param <> NULL -> is_data_type ty = true ->
  man + sizeof_ia_css_data_terminal_manifest_t <= t \/ t + 108 <= man ->
  ia_css_is_kernel_bitmap_onehot (ia_css_kernel_bitmap_intersection en
    (ia_css_data_terminal_manifest_get_kernel_bitmap m man)) = false ->
  exists m', ia_css_terminal_create t man tp en m = (t, m')
    /\ same_outside t (t + 108) m m'
    /\ ia_css_terminal_get_type m' t = ty /\ ia_css_terminal_get_buffer m' t = VIED_NULL.
Proof.
  intros param ty Ht Hman Hparam Hd D H1.
  change sizeof_ia_css_data_terminal_manifest_t with 64 in D.
  assert (Ety : ty = rd m man tm.terminal_type)
    by (subst ty; unfold ia_css_terminal_manifest_get_type; rewrite (not_null man) by exact Hman; reflexivity).
  rewrite Ety in Hd.
  assert (Hbf : buffer_field (rd m man tm.terminal_type) = Some (U32 104))
    by (unfold buffer_field; rewrite Hd; reflexivity).
  rewrite (create_not_null m t man tp en) by assumption. fold param.
  rewrite (create_body_parts m t man tp en Ht Hman 108
    ltac:(unfold sizeof_ia_css_terminal_manifest_t; lia) ltac:(lia) ltac:(lia) param _ (U32 104) Hbf).
  set (size := ia_css_sizeof_terminal m man param).
  set (m1 := header_stores m t size (rd m man tm.terminal_type) (rd m man tm.ID) (U32 104)).
  assert (S1 : same_outside t (t + 108) m m1) by (subst m1; unfold header_stores; frame_back).
  assert (Ek : ia_css_data_terminal_manifest_get_kernel_bitmap m1 man
               = ia_css_data_terminal_manifest_get_kernel_bitmap m man).
  { unfold ia_css_data_terminal_manifest_get_kernel_bitmap. rewrite (not_null man) by exact Hman.
    apply (rd_kb_same_outside t (t + 108)); [exact S1 | mem_out]. }
  set (m' := wr m1 (t + f_off dt.frame) fr.buffer_state IA_CSS_BUFFER_NULL).
  exists m'. split.
  { f_equal. unfold create_parts. rewrite Hd.
    unfold create_data_terminal, ia_css_frame_set_buffer_state, bind, gets, call.
    rewrite Ek, frame_not_null by exact Ht. mrun. cbn [negb Z.eqb]. rewrite H1. cbn [snd].
    unfold ia_css_data_terminal_get_frame. rewrite (not_null t) by exact Ht. reflexivity. }
  assert (C : terminal_created m m' t man size).
  { apply (header_created m m' t man (U32 104)); [assumption .. |]. fold m1. subst m'.
    change (f_off dt.frame) with 88.
    intros f Hf. destruct Hf as [<- | [<- | [<- | [<- | []]]]]; rd_back; reflexivity. }
  split; [| split; [apply (tc_type _ _ _ _ _ C) | apply (tc_buffer _ _ _ _ _ C)]].
  subst m'. change (f_off dt.frame) with 88. frame_back.
Qed.

(** Creation reports only missing arguments.  A sliced, state or stream
    terminal is refused a buffer, and a data terminal that serves no enabled
    kernel or several fails its check, but the caller gets the address of the
    half-made terminal: header stored, no buffer, and the size of a sliced
    terminal is 0. *)
Theorem terminal_create_failures m t man tp en :
  let param := ia_css_terminal_param_get_parent m tp in
  let ty := ia_css_terminal_manifest_get_type m man in
  (man = NULL \/ param = NULL \/ t = NULL -> ia_css_terminal_create t man tp en m = (NULL, m))
  /\ (0 < t -> 0 < man -> param <> NULL -> man + 16 <= t \/ t + 16 <= man ->
      is_data_type ty = false -> is_payload_type ty = false ->
      exists m', ia_css_terminal_create t man tp en m = (t, m')
        /\ same_outside t (t + 16) m m'
        /\ ia_css_terminal_get_type m' t = ty /\ ia_css_terminal_get_size m' t = 0
        /\ ia_css_terminal_get_buffer m' t = VIED_NULL)
  /\ (0 < t -> 0 < man -> param <> NULL -> is_data_type ty = true ->
      man + sizeof_ia_css_data_terminal_manifest_t <= t \/ t + 108 <= man ->
      ia_css_is_kernel_bitmap_onehot (ia_css_kernel_bitmap_intersection en
        (ia_css_data_terminal_manifest_get_kernel_bitmap m man)) = false ->
      exists m', ia_css_terminal_create t man tp en m = (t, m')
        /\ same_outside t (t + 108) m m'
        /\ ia_css_terminal_get_type m' t = ty
        /\ ia_css_terminal_get_buffer m' t = VIED_NULL).
Proof.
  intros param ty. split; [| split].
  - intros H. unfold ia_css_terminal_create. fold param.
    destruct (is_null man) eqn:E1; [reflexivity |]. destruct (is_null param) eqn:E2; [reflexivity |].
    destruct (is_null t) eqn:E3; [apply Z.eqb_eq in E3; rewrite E3; reflexivity |].
    apply Z.eqb_neq in E1, E2, E3. tauto.
  - intros Ht Hman Hparam D Hd Hp.
    assert (Ety : ty = rd m man tm.terminal_type)
      by (subst ty; unfold ia_css_terminal_manifest_get_type; rewrite (not_null man) by exact Hman; reflexivity).
    pose proof (sizeof_refused m man param Hd Hp) as Esz.
    assert (Hbf : buffer_field (rd m man tm.terminal_type) = None)
      by (rewrite <- Ety; unfold buffer_field; rewrite Hd, Hp; reflexivity).
    rewrite (create_not_null m t man tp en) by assumption. fold param.
    rewrite (create_body_refused m t man tp en param _ Ht Hman D Hbf), Esz. cbn [snd].
    eexists. split; [reflexivity |]. split; [frame_back |].
    unfold ia_css_terminal_get_type, ia_css_terminal_get_size. rewrite get_buffer_run by exact Ht.
    rewrite (not_null t) by exact Ht.
    assert (R : f_conv te.terminal_type (rd m man tm.terminal_type) = ty)
      by (rewrite Ety; apply conv_rd; reflexivity).
    assert (E : forall v w, rd (wr (wr (wr m t te.size v) t te.terminal_type (rd m man tm.terminal_type))
      t te.ID w) t te.terminal_type = ty) by (intros v w; rd_back; exact R).
    rewrite E. unfold buffer_field. rewrite Hd, Hp. split; [reflexivity |]. split; [| reflexivity].
    rd_back. reflexivity.
  - intros Ht Hman Hparam Hd D H1. destruct (create_data_refused m t man tp en Ht Hman Hparam Hd D H1)
      as (m' & E & S & T & B). exists m'. auto.
Qed.

Definition sample_sliced_terminal : mem :=
  snd (ia_css_terminal_manifest_set_type 2000 IA_CSS_TERMINAL_TYPE_PARAM_SLICED_IN sample_frame_param).

Lemma terminal_create_failures_witness :
  let '(r, m') := ia_css_terminal_create 5000 2000 3100 ia_css_kernel_bitmap_clear sample_sliced_terminal in
  r = 5000 /\ ia_css_terminal_get_type m' 5000 = IA_CSS_TERMINAL_TYPE_PARAM_SLICED_IN
  /\ ia_css_terminal_get_size m' 5000 = 0.
Proof.
  destruct (terminal_create_failures sample_sliced_terminal 5000 2000 3100 ia_css_kernel_bitmap_clear)
    as (_ & T & _).
  destruct T as (m' & -> & _ & Ht & Hs & _);
    [lia | lia | vm_compute; discriminate | left; lia | vm_compute; reflexivity .. |].
  rewrite Ht, Hs. split; [reflexivity |]. split; [vm_compute; reflexivity | reflexivity].
Defined.
