(* ===== verification/GroupCreate.v ===== *)
(** * Creating a process group

    [ia_css_sizeof_process_group] and [ia_css_process_group_create] of
    src/ia_css_psys_process_group.c: the group's header, its two offset
    tables, a terminal for every terminal manifest that is needed and a
    process for every program that runs, one behind the other in the client's
    buffer, with the processes' dependencies resolved. *)

From S2P Require Import Prelude Memory ResourceModel KernelBitmap ProgramGroupParam ProgramManifest ProcessGroupHeader Process Terminal ProcessGroup TerminalManifest ProgramGroupManifest GroupSelection TerminalCreate.
#[local] Open Scope css_scope.

(** ** Operations *)

(** include/misc_support.h; [pow2] is a power of two. *)
Definition tot_bytes_for_pow2_align (pow2 cur_bytes : Z) : Z :=
  Z.land (cur_bytes + (pow2 - 1)) (Z.lnot (pow2 - 1)).

(** include/cpu_mem_support.h: [memset (dst, 0, size)]. *)
Definition ia_css_cpu_mem_set_zero (dst size : Z) : M mem unit :=
  modify (fun m a => if (dst <=? a) && (a <? dst + size) then 0 else m a).

Section Group_create.
Context {P : Platform}.

(** EXIT returns 0 when a check has failed.  [size] is a [size_t]: at most 510
    parts of at most 2^32 bytes do not wrap it. *)
Definition ia_css_sizeof_process_group (m : mem) (manifest param : Z) : Z :=
  if is_null manifest then 0
  else if is_null param then 0
  else
    let process_count := ia_css_process_group_compute_process_count m manifest param in
    let terminal_count := ia_css_process_group_compute_terminal_count m manifest param in
    if process_count =? 0 then 0
    else if terminal_count =? 0 then 0
    else
      let size := sizeof_ia_css_process_group_t in
      let size := size + tot_bytes_for_pow2_align 8 (process_count * 2) in
      let size := size + tot_bytes_for_pow2_align 8 (terminal_count * 2) in
      let enable_bitmap := ia_css_program_group_param_get_kernel_enable_bitmap m param in
      match
        '(process_num, size) ← for_opt (range 0 (ia_css_program_group_manifest_get_program_count m manifest))
          (0, size) (fun i '(process_num, size) =>
            let program_manifest := ia_css_program_group_manifest_get_prgrm_mnfst m manifest i in
            let program_param := ia_css_program_group_param_get_program_param m param i in
            if ia_css_process_group_is_program_enabled m program_manifest enable_bitmap then
              verif process_num <? process_count ;;
              Some (u8 (process_num + 1), size + ia_css_sizeof_process m program_manifest program_param)
            else Some (process_num, size));
        verif process_num =? process_count ;;
        Some (foldl (fun size i =>
          let terminal_manifest := ia_css_program_group_manifest_get_term_mnfst m manifest i in
          if ia_css_process_group_is_terminal_enabled m terminal_manifest enable_bitmap
          then size + ia_css_sizeof_terminal m terminal_manifest param else size)
          size (range 0 (ia_css_program_group_manifest_get_terminal_count m manifest)))
      with
      | None => 0
      | Some size => size
      end.

(** The body of the terminal loop; the state is the raw pointer and
    [terminal_num]. *)
Definition create_terminal_step (process_group manifest param terminal_tab_ptr : Z)
    (enable_bitmap : ia_css_kernel_bitmap_t) (i : Z) (st : Z * Z) : M mem (Z * Z) :=
  let '(process_grp_raw_ptr, terminal_num) := st in
  t_manifest <- gets (fun m => ia_css_program_group_manifest_get_term_mnfst m manifest i) ;;
  verifexit (negb (is_null t_manifest)) ;;;
  enabled <- gets (fun m => ia_css_process_group_is_terminal_enabled m t_manifest enable_bitmap) ;;
  if enabled : bool then
    terminal_param <- gets (fun m => ia_css_program_group_param_get_terminal_param m param i) ;;
    verifexit (negb (is_null terminal_param)) ;;;
    wrM terminal_tab_ptr (elt (U16 0) terminal_num) (process_grp_raw_ptr - process_group) ;;;
    terminal <- call (ia_css_terminal_create process_grp_raw_ptr t_manifest terminal_param enable_bitmap) ;;
    verifexit (negb (is_null terminal)) ;;;
    ok <- call (ia_css_terminal_set_parent terminal process_group) ;;
    verifexit (ok =? 0) ;;;
    ok <- call (ia_css_terminal_set_terminal_manifest_index terminal i) ;;
    verifexit (ok =? 0) ;;;
    size <- gets (fun m => ia_css_terminal_get_size m terminal) ;;
    ret (process_grp_raw_ptr + size, u8 (terminal_num + 1))
  else ret (process_grp_raw_ptr, terminal_num).

(** The search for the process of a program among those created so far, up to
    the [break]. *)
Fixpoint find_dependency (process_group process prog_dep_index id : Z) (procs : list Z) : M mem unit :=
  match procs with
  | [] => ret tt
  | proc_dep_index :: procs =>
      dep_process <- gets (fun m => ia_css_process_group_get_process m process_group proc_dep_index) ;;
      call (ia_css_process_set_cell_dependency process prog_dep_index 0) ;;;
      dep_id <- gets (fun m => ia_css_process_get_program_ID m dep_process) ;;
      if dep_id =? id
      then call (ia_css_process_set_cell_dependency process prog_dep_index proc_dep_index) ;;; ret tt
      else find_dependency process_group process prog_dep_index id procs
  end.

(** The search for the terminal of a terminal manifest. *)
Fixpoint find_terminal (process_group process term_dep_index pm_term_index : Z) (terms : list Z) : M mem unit :=
  match terms with
  | [] => ret tt
  | term_index :: terms =>
      terminal <- gets (fun m => ia_css_process_group_get_terminal m process_group term_index) ;;
      index <- gets (fun m => ia_css_terminal_get_terminal_manifest_index m terminal) ;;
      if index =? pm_term_index
      then call (ia_css_process_set_terminal_dependency process term_dep_index term_index) ;;; ret tt
      else find_terminal process_group process term_dep_index pm_term_index terms
  end.

Definition resolve_program_dependency (process_group process manifest program_manifest process_num : Z)
    (prog_dep_index : Z) (_ : unit) : M mem unit :=
  dep_prog_idx <- gets (fun m =>
    ia_css_program_manifest_get_program_dependency m program_manifest prog_dep_index) ;;
  dep_prg_manifest <- gets (fun m =>
    ia_css_program_group_manifest_get_prgrm_mnfst m manifest dep_prog_idx) ;;
  id <- gets (fun m => ia_css_program_manifest_get_program_ID m dep_prg_manifest) ;;
  verifexit (negb (id =? 0)) ;;;
  find_dependency process_group process prog_dep_index id (range 0 process_num).

Definition resolve_terminal_dependency
    (process_group process program_manifest manifest_terminal_count terminal_count : Z)
    (term_dep_index : Z) (_ : unit) : M mem unit :=
  pm_term_index <- gets (fun m =>
    ia_css_program_manifest_get_terminal_dependency m program_manifest term_dep_index) ;;
  verifexit (pm_term_index <? manifest_terminal_count) ;;;
  find_terminal process_group process term_dep_index pm_term_index (range 0 terminal_count).

(** The parent, and the cell of a program that has a fixed one; the results
    are not looked at. *)
Definition attach_process (process process_group program_manifest : Z) : M mem unit :=
  call (ia_css_process_set_parent process process_group) ;;;
  fixed <- gets (fun m => ia_css_has_program_manifest_fixed_cell m program_manifest) ;;
  (if fixed : bool then
     cell_id <- gets (fun m => ia_css_program_manifest_get_cell_ID m program_manifest) ;;
     call (ia_css_process_set_cell process cell_id) ;;; ret tt
   else ret tt).

(** The body of the process loop.  The bitmap of the program parameters is
    overwritten although [param] is declared [const]. *)
Definition create_process_step
    (process_group manifest param process_tab_ptr process_count terminal_count manifest_terminal_count : Z)
    (enable_bitmap : ia_css_kernel_bitmap_t) (i : Z) (st : Z * Z) : M mem (Z * Z) :=
  let '(process_grp_raw_ptr, process_num) := st in
  program_manifest <- gets (fun m => ia_css_program_group_manifest_get_prgrm_mnfst m manifest i) ;;
  program_param <- gets (fun m => ia_css_program_group_param_get_program_param m param i) ;;
  verifexit (negb (is_null program_manifest)) ;;;
  verifexit (negb (is_null program_param)) ;;;
  enabled <- gets (fun m => ia_css_process_group_is_program_enabled m program_manifest enable_bitmap) ;;
  if enabled : bool then
    verifexit (process_num <? process_count) ;;;
    wrM process_tab_ptr (elt (U16 0) process_num) (process_grp_raw_ptr - process_group) ;;;
    program_bitmap <- gets (fun m => ia_css_program_manifest_get_kernel_bitmap m program_manifest) ;;
    modify (fun m => wr_kb m program_param pp.kernel_enable_bitmap
                       (ia_css_kernel_bitmap_intersection program_bitmap enable_bitmap)) ;;;
    process <- call (ia_css_process_create process_grp_raw_ptr program_manifest program_param i) ;;
    verifexit (negb (is_null process)) ;;;
    attach_process process process_group program_manifest ;;;
    size <- gets (fun m => ia_css_process_get_size m process) ;;
    program_dependency_count <- gets (fun m =>
      ia_css_program_manifest_get_program_dependency_count m program_manifest) ;;
    for_each (range 0 program_dependency_count) tt
      (resolve_program_dependency process_group process manifest program_manifest process_num) ;;;
    terminal_dependency_count <- gets (fun m =>
      ia_css_program_manifest_get_terminal_dependency_count m program_manifest) ;;
    for_each (range 0 terminal_dependency_count) tt
      (resolve_terminal_dependency process_group process program_manifest manifest_terminal_count
         terminal_count) ;;;
    ret (process_grp_raw_ptr + size, u8 (process_num + 1))
  else ret (process_grp_raw_ptr, process_num).

(** The statements of [ia_css_process_group_create] from the store of the
    state; the counts are computed again on the zeroed buffer. *)
Definition group_create_body (process_group manifest param : Z) : M mem unit :=
  wrM process_group pg.state IA_CSS_PROCESS_GROUP_CREATED ;;;
  version <- gets (fun m => ia_css_program_group_param_get_protocol_version m param) ;;
  wrM process_group pg.protocol_version version ;;;
  fragment_count <- gets (fun m => ia_css_program_group_param_get_fragment_count m param) ;;
  process_count <- gets (fun m => ia_css_process_group_compute_process_count m manifest param) ;;
  terminal_count <- gets (fun m => ia_css_process_group_compute_terminal_count m manifest param) ;;
  enable_bitmap <- gets (fun m => ia_css_program_group_param_get_kernel_enable_bitmap m param) ;;
  wrM process_group pg.fragment_count fragment_count ;;;
  wrM process_group pg.process_count process_count ;;;
  wrM process_group pg.terminal_count terminal_count ;;;
  modify (fun m => wr_kb m process_group pg.kernel_bitmap enable_bitmap) ;;;
  let process_tab_ptr := process_group + sizeof_ia_css_process_group_t in
  wrM process_group pg.processes_offset (process_tab_ptr - process_group) ;;;
  let terminal_tab_ptr := process_tab_ptr + tot_bytes_for_pow2_align 8 (process_count * 2) in
  wrM process_group pg.terminals_offset (terminal_tab_ptr - process_group) ;;;
  let process_grp_raw_ptr := terminal_tab_ptr + tot_bytes_for_pow2_align 8 (terminal_count * 2) in
  ok <- call (ia_css_process_group_set_fragment_limit process_group fragment_count) ;;
  verifexit (ok =? 0) ;;;
  manifest_terminal_count <- gets (fun m => ia_css_program_group_manifest_get_terminal_count m manifest) ;;
  st <- for_each (range 0 manifest_terminal_count)
    (process_grp_raw_ptr, 0)
    (create_terminal_step process_group manifest param terminal_tab_ptr enable_bitmap) ;;
  let '(process_grp_raw_ptr, terminal_num) := st : Z * Z in
  verifexit (terminal_num =? terminal_count) ;;;
  program_count <- gets (fun m => ia_css_program_group_manifest_get_program_count m manifest) ;;
  st <- for_each (range 0 program_count) (process_grp_raw_ptr, 0)
    (create_process_step process_group manifest param process_tab_ptr process_count terminal_count
       manifest_terminal_count enable_bitmap) ;;
  let '(_, process_num) := st : Z * Z in
  verifexit (process_num =? process_count) ;;;
  size <- gets (fun m => u32 (ia_css_sizeof_process_group m manifest param)) ;;
  wrM process_group pg.size size ;;;
  ID <- gets (fun m => ia_css_program_group_manifest_get_program_group_ID m manifest) ;;
  wrM process_group pg.ID ID ;;;
  wrM process_group pg.pg_load_start_ts 0 ;;;
  wrM process_group pg.pg_load_cycles 0 ;;;
  wrM process_group pg.pg_init_cycles 0 ;;;
  wrM process_group pg.pg_processing_cycles 0 ;;;
  wrM process_group pg.pg_complete_cycles 0 ;;;
  wrM process_group pg.error_handling_enable 0 ;;;
  size <- rdM process_group pg.size ;;
  verifexit (negb (size =? 0)) ;;;
  ID <- rdM process_group pg.ID ;;
  verifexit (negb (ID =? 0)) ;;;
  verifexit (ia_css_process_group_on_create process_group manifest param =? 0) ;;;
  wrM process_group pg.state IA_CSS_PROCESS_GROUP_READY.

(** EXIT returns what [ia_css_process_group_destroy] makes of the pointer:
    NULL, whether it was already set or not. *)
Definition ia_css_process_group_create (process_grp_mem manifest param : Z) (m : mem) : Z * mem :=
  let size := ia_css_sizeof_process_group m manifest param in
  if is_null process_grp_mem || is_null manifest || is_null param
     || negb (ia_css_is_program_group_manifest_valid m manifest) || (size =? 0)
  then (ia_css_process_group_destroy NULL, m)
  else
    let process_group := process_grp_mem in
    match (ia_css_cpu_mem_set_zero process_group size ;;;
           group_create_body process_group manifest param) m with
    | (Some _, m') => (process_group, m')
    | (None, m') => (ia_css_process_group_destroy process_group, m')
    end.
End Group_create.
