(* ===== verification/GroupPlan.v ===== *)
(** * The plan of a process group

    What [ia_css_process_group_create] reads of the manifests and the
    parameters, gathered in one value: which terminals and processes there
    will be, in which order, of which size and with which dependencies.  The
    group is described by its plan alone; the functions here are the
    specification the loops of GroupCreate are compared with. *)

From S2P Require Import Prelude Memory ResourceModel KernelBitmap ProgramGroupParam ProgramManifest ProcessGroupHeader Process Terminal TerminalManifest ProgramGroupManifest ProgramGraph GroupSelection ProcessCreate TerminalLayout ProgramControlInit TerminalCreate GroupCreate.
#[local] Open Scope css_scope.

(** ** The view *)

Record terminal_plan := TerminalPlan {
  t_man : Z; t_param : Z; t_on : bool; t_type : Z; t_size : Z
}.

(** [p_ids] and [p_terms]: the IDs of the programs and the indices of the
    terminal manifests it depends on. *)
Record program_plan := ProgramPlan {
  q_man : Z; q_param : Z; q_on : bool; q_size : Z; q_ext : bool; q_ID : Z;
  q_kernels : ia_css_kernel_bitmap_t; q_fixed : bool; q_cell : Z;
  q_ids : list Z; q_terms : list Z
}.

Record group_plan := GroupPlan {
  gp_version : Z; gp_fragments : Z; gp_process_count : Z; gp_terminal_count : Z;
  gp_kernels : ia_css_kernel_bitmap_t; gp_size : Z; gp_ID : Z;
  gp_terminals : list terminal_plan; gp_programs : list program_plan
}.

Section View.
Context {P : Platform} (man param : Z).

Definition terminal_plan_of (m : mem) (i : Z) : terminal_plan :=
  let t := ia_css_program_group_manifest_get_term_mnfst m man i in
  let e := ia_css_program_group_param_get_kernel_enable_bitmap m param in
  TerminalPlan t (ia_css_program_group_param_get_terminal_param m param i)
    (ia_css_process_group_is_terminal_enabled m t e) (ia_css_terminal_manifest_get_type m t)
    (ia_css_sizeof_terminal m t param).

Definition program_plan_of (m : mem) (i : Z) : program_plan :=
  let q := ia_css_program_group_manifest_get_prgrm_mnfst m man i in
  let q' := ia_css_program_group_param_get_program_param m param i in
  let e := ia_css_program_group_param_get_kernel_enable_bitmap m param in
  ProgramPlan q q' (ia_css_process_group_is_program_enabled m q e)
    (ia_css_sizeof_process m q q') (ia_css_program_manifest_process_requires_extension m q)
    (ia_css_program_manifest_get_program_ID m q)
    (ia_css_kernel_bitmap_intersection (ia_css_program_manifest_get_kernel_bitmap m q) e)
    (ia_css_has_program_manifest_fixed_cell m q) (ia_css_program_manifest_get_cell_ID m q)
    (map (fun d => ia_css_program_manifest_get_program_ID m
            (ia_css_program_group_manifest_get_prgrm_mnfst m man
               (ia_css_program_manifest_get_program_dependency m q d)))
       (range 0 (ia_css_program_manifest_get_program_dependency_count m q)))
    (map (ia_css_program_manifest_get_terminal_dependency m q)
       (range 0 (ia_css_program_manifest_get_terminal_dependency_count m q))).

Definition plan_of (m : mem) : group_plan :=
  GroupPlan (ia_css_program_group_param_get_protocol_version m param)
    (ia_css_program_group_param_get_fragment_count m param)
    (ia_css_process_group_compute_process_count m man param)
    (ia_css_process_group_compute_terminal_count m man param)
    (ia_css_program_group_param_get_kernel_enable_bitmap m param)
    (ia_css_sizeof_process_group m man param)
    (ia_css_program_group_manifest_get_program_group_ID m man)
    (map (terminal_plan_of m) (range 0 (ia_css_program_group_manifest_get_terminal_count m man)))
    (map (program_plan_of m) (range 0 (ia_css_program_group_manifest_get_program_count m man))).
End View.

(** ** Places *)

Lemma pow2_align_spec x : 0 <= x -> x <= tot_bytes_for_pow2_align 8 x < x + 8.
Proof.
  intros Hx. unfold tot_bytes_for_pow2_align. change (8 - 1) with (Z.ones 3).
  rewrite <- Z.ldiff_land, Z.ldiff_ones_r, Z.shiftl_mul_pow2, Z.shiftr_div_pow2 by lia.
  change (Z.ones 3) with 7. change (2 ^ 3) with 8.
  pose proof (Z.div_mod (x + 7) 8 ltac:(lia)). pose proof (Z.mod_pos_bound (x + 7) 8 ltac:(lia)). lia.
Qed.

Section Places.
Context {P : Platform} (m : mem) (man param : Z).

Definition T (i : Z) : terminal_plan := terminal_plan_of man param m i.
Definition Q (i : Z) : program_plan := program_plan_of man param m i.
Definition t_run (i : Z) : bool := t_on (T i).
Definition q_run (i : Z) : bool := q_on (Q i).
Definition NT : Z := ia_css_program_group_manifest_get_terminal_count m man.
Definition NQ : Z := ia_css_program_group_manifest_get_program_count m man.

(** Bytes of the terminals and processes of the first [i] manifests. *)
Definition t_bytes : Z -> Z := count (fun i => if t_run i then t_size (T i) else 0).
Definition q_bytes : Z -> Z := count (fun i => if q_run i then q_size (Q i) else 0).

(** Offsets in the group: process table, terminal table, terminals,
    processes, end. *)
Definition process_tab : Z := sizeof_ia_css_process_group_t.
Definition terminal_tab : Z := process_tab + tot_bytes_for_pow2_align 8 (rank q_run NQ * 2).
Definition t_place (i : Z) : Z :=
  terminal_tab + tot_bytes_for_pow2_align 8 (rank t_run NT * 2) + t_bytes i.
Definition q_place (i : Z) : Z := t_place NT + q_bytes i.
Definition group_room : Z := q_place NQ.

Lemma t_size_nonneg i : 0 <= t_size (T i).
Proof.
  pose proof (fragment_count_range m param) as F.
  assert (R : forall p o, 0 <= rd m p (U16 o)) by (intros p o; apply rd_U16_range).
  assert (U : forall x, 0 <= u32 x) by (intros x; apply Z.mod_pos_bound; reflexivity).
  cbn [T terminal_plan_of t_size]. unfold ia_css_sizeof_terminal, ia_css_param_in_terminal_get_descriptor_size,
    ia_css_param_out_terminal_get_descriptor_size, ia_css_program_terminal_get_descriptor_size,
    ia_css_spatial_param_terminal_get_descriptor_size,
    ia_css_program_control_init_terminal_get_descriptor_size. cbv zeta.
  repeat case_match; try lia; try apply U; autounfold with layout; lia.
Qed.

Lemma q_size_nonneg i : 0 <= q_size (Q i).
Proof.
  cbn [Q program_plan_of q_size]. unfold ia_css_sizeof_process.
  destruct (is_null _); [lia |]. destruct (is_null _); [lia |]. cbv zeta.
  set (q := ia_css_program_group_manifest_get_prgrm_mnfst m man i).
  destruct (manifest_counts_range m q) as [H1 H2].
  eapply Z.le_trans; [| apply CEIL_MUL_spec; lia]. autounfold with layout.
  change (CEIL_MUL (0 + 12) 4) with 12. case_match; lia.
Qed.

Lemma t_bytes_mono i j : 0 <= i <= j -> 0 <= t_bytes i <= t_bytes j.
Proof. apply count_mono. intros k. pose proof (t_size_nonneg k). destruct (t_run k); lia. Qed.
Lemma q_bytes_mono i j : 0 <= i <= j -> 0 <= q_bytes i <= q_bytes j.
Proof. apply count_mono. intros k. pose proof (q_size_nonneg k). destruct (q_run k); lia. Qed.

Lemma t_bytes_succ i : 0 <= i -> t_bytes (i + 1) = t_bytes i + (if t_run i then t_size (T i) else 0).
Proof. apply count_succ. Qed.
Lemma q_bytes_succ i : 0 <= i -> q_bytes (i + 1) = q_bytes i + (if q_run i then q_size (Q i) else 0).
Proof. apply count_succ. Qed.

Lemma NT_range : 0 <= NT < 256.
Proof.
  unfold NT, ia_css_program_group_manifest_get_terminal_count.
  destruct (is_null man); [lia | apply rd_U8_range].
Qed.
Lemma NQ_range : 0 <= NQ < 256.
Proof.
  unfold NQ, ia_css_program_group_manifest_get_program_count.
  destruct (is_null man); [lia | apply rd_U8_range].
Qed.

(** The terminals counted are the ones that run. *)
Lemma terminal_count_rank :
  ia_css_process_group_compute_terminal_count m man param <> 0 ->
  ia_css_process_group_compute_terminal_count m man param = rank t_run NT.
Proof.
  unfold ia_css_process_group_compute_terminal_count. cbv zeta.
  destruct (is_null man); [lia |]. destruct (is_null param); [lia |].
  destruct (negb _); [lia |]. destruct (negb _); [lia |].
  destruct (ia_css_is_kernel_bitmap_empty _); [lia |]. intros _.
  fold NT. pose proof NT_range as H. revert H. generalize NT. intros n Hn.
  enough (G : forall k, 0 <= k -> k <= n ->
    foldl (fun c i => if t_run i then u8 (c + 1) else c) 0 (range 0 k) = rank t_run k)
    by (apply G; lia).
  intros k Hk. pattern k. apply natlike_ind; [reflexivity | | exact Hk].
  clear k Hk. intros k Hk IH Hk1. rewrite (range_snoc 0 k Hk), foldl_app, IH by lia. cbn [foldl].
  unfold Z.succ. rewrite rank_succ by exact Hk.
  pose proof (rank_le t_run k Hk).
  destruct (t_run k); [apply u8_small; lia | lia].
Qed.

Lemma process_count_range : ia_css_process_group_compute_process_count m man param < 256.
Proof.
  unfold ia_css_process_group_compute_process_count. cbv zeta.
  repeat (match goal with |- (if ?b then _ else _) < _ => destruct b; [lia |] end).
  generalize (range 0 (ia_css_program_group_manifest_get_program_count m man)). intros l.
  assert (H : 0 < 256) by lia. revert H. generalize 0 at 1 2. induction l as [| i l IH]; intros c Hc; [exact Hc |].
  cbn [foldl]. apply IH. repeat case_match; try exact Hc. apply Z.mod_pos_bound. lia.
Qed.

(** A size that is not 0 is the room of the plan, and the two counts are those
    of the plan. *)
Lemma sizeof_group_room :
  ia_css_sizeof_process_group m man param <> 0 ->
  ia_css_process_group_compute_process_count m man param = rank q_run NQ
  /\ ia_css_process_group_compute_terminal_count m man param = rank t_run NT
  /\ ia_css_sizeof_process_group m man param = group_room
  /\ man <> NULL /\ param <> NULL.
Proof.
  unfold ia_css_sizeof_process_group.
  destruct (is_null man) eqn:N1; [lia |]. destruct (is_null param) eqn:N2; [lia |]. cbv zeta.
  apply Z.eqb_neq in N1, N2.
  pose proof (terminal_count_rank) as Ht.
  set (N := ia_css_process_group_compute_process_count m man param).
  set (K := ia_css_process_group_compute_terminal_count m man param) in *.
  destruct (N =? 0); [lia |]. destruct (Z.eqb_spec K 0) as [| Hk]; [lia |]. specialize (Ht Hk).
  destruct (for_opt _ _ _) as [[num size] |] eqn:E; [| intros F; destruct F; reflexivity]. cbn [mbind option_bind].
  destruct (Z.eqb_spec num N) as [En | _]; [intros _ | intros F; destruct F; reflexivity].
  set (start := process_tab + tot_bytes_for_pow2_align 8 (N * 2) + tot_bytes_for_pow2_align 8 (K * 2)).
  assert (Hn : num = rank q_run NQ /\ size = start + q_bytes NQ).
  { change (range 0 _) with (range 0 NQ) in E. pose proof NQ_range as H.
    apply (for_opt_inv (fun i '(num, size) => num = rank q_run i /\ size = start + q_bytes i)) in E;
      [exact E | lia | split; [reflexivity |] |].
    - change (q_bytes 0) with 0. rewrite Z.add_0_r. reflexivity.
    - intros i [k z] [k' z'] Hi [-> ->].
      rewrite rank_succ, q_bytes_succ by lia.
      change (ia_css_process_group_is_program_enabled m _ _) with (q_run i).
      destruct (q_run i).
      + destruct (Z.ltb_spec (rank q_run i) N) as [Hlt |]; [| discriminate].
        assert (N < 256) by (apply process_count_range).
        pose proof (rank_mono q_run 0 i ltac:(lia)) as B. change (rank q_run 0) with 0 in B.
        rewrite u8_small by lia. intros [= <- <-]. split; [reflexivity |].
        cbn [Q program_plan_of q_size]. lia.
      + intros [= <- <-]. split; lia. }
  destruct Hn as [Hn ->]. rewrite Hn in En. split; [auto |]. split; [exact Ht |].
  split; [| split; assumption].
  unfold group_room, q_place, t_place, terminal_tab, start. rewrite <- En, <- Ht. fold NT.
  match goal with |- foldl _ ?s0 _ = _ => enough (G : forall k, 0 <= k ->
    foldl (fun size i => if t_run i then size + t_size (T i) else size) s0 (range 0 k) = s0 + t_bytes k) end.
  { pose proof NT_range. etransitivity; [apply G; lia |]. lia. }
  intros k Hk'. pattern k. apply natlike_ind; [change (t_bytes 0) with 0; symmetry; apply Z.add_0_r | | exact Hk'].
  clear k Hk'. intros k Hk0 IH. rewrite (range_snoc 0 k Hk0), foldl_app, IH. cbn [foldl].
  unfold Z.succ. rewrite t_bytes_succ by exact Hk0. destruct (t_run k); lia.
Qed.
End Places.
