(* ===== verification/GroupLoops.v ===== *)
(** * The loops of process group creation

    What each iteration of the terminal loop and of the process loop of
    [ia_css_process_group_create] makes, over any memory that differs from the
    client's in the group and the program parameters only.  What creation
    needs of the manifests and of the functions that create one terminal and
    one process is the class [Creatable]. *)

From S2P Require Import Prelude Memory ResourceModel KernelBitmap ProgramGroupParam ProgramManifest ProcessGroupHeader Process ProcessCells ProcessCreate Terminal ProcessGroup TerminalManifest ProgramGroupManifest GroupSelection TerminalCreate GroupCreate GroupPlan.
#[local] Open Scope css_scope.

Section Creation.
Context {P : Platform} {Pok : PlatformOk P} (m : mem) (man param g : Z).

#[local] Abbreviation T := (GroupPlan.T m man param).
#[local] Abbreviation Q := (@GroupPlan.Q P m man param).
#[local] Abbreviation t_run := (GroupPlan.t_run m man param).
#[local] Abbreviation q_run := (@GroupPlan.q_run P m man param).
#[local] Abbreviation t_place := (@GroupPlan.t_place P m man param).
#[local] Abbreviation q_place := (@GroupPlan.q_place P m man param).
#[local] Abbreviation terminal_tab := (@GroupPlan.terminal_tab P m man param).
#[local] Abbreviation NT := (NT m man).
#[local] Abbreviation NQ := (NQ m man).
#[local] Abbreviation room := (@group_room P m man param).
#[local] Abbreviation kernels := (gp_kernels (@plan_of P man param m)).

(** The bitmaps in the program parameters, and all that creation writes. *)
Definition param_bytes (a : Z) : bool :=
  existsb (fun i => (q_param (Q i) <=? a) && (a <? q_param (Q i) + 16)) (range 0 NQ).
Definition writes (a : Z) : bool := ((g <=? a) && (a <? g + room)) || param_bytes a.

(** ** The view on another memory *)

Lemma plan_parts s :
  unaffected writes m (plan_of man param) -> same_except writes m s ->
  (forall i, 0 <= i < NT -> terminal_plan_of man param s i = T i)
  /\ (forall i, 0 <= i < NQ -> program_plan_of man param s i = Q i)
  /\ ia_css_program_group_manifest_get_terminal_count s man = NT
  /\ ia_css_program_group_manifest_get_program_count s man = NQ
  /\ ia_css_program_group_param_get_kernel_enable_bitmap s param = kernels.
Proof.
  intros V S. pose proof (V s S) as E. unfold plan_of in E. injection E as _ _ _ _ Ek _ _ Et Eq.
  assert (L : forall {A} (f h : Z -> A) a b, 0 <= a -> 0 <= b ->
    map f (range 0 a) = map h (range 0 b) -> a = b /\ forall i, 0 <= i < b -> f i = h i).
  { intros A f h a b Ha Hb H.
    assert (a = b) as ->.
    { apply (f_equal length) in H. rewrite !length_map in H. unfold range in H.
      rewrite !length_seqZ in H. lia. }
    split; [reflexivity |]. intros i Hi.
    revert i Hi. setoid_rewrite <- elem_of_range. setoid_rewrite list_elem_of_In. apply map_ext_in_iff, H. }
  destruct (L _ _ _ _ _ (proj1 (NT_range s man)) (proj1 (NT_range m man)) Et) as [Ct Vt].
  destruct (L _ _ _ _ _ (proj1 (NQ_range s man)) (proj1 (NQ_range m man)) Eq) as [Cq Vq].
  auto.
Qed.

(** What [ia_css_terminal_create] and [ia_css_process_create] promise for the
    terminals and processes of the plan. *)
Definition terminal_creatable (i : Z) : Prop :=
  forall s, same_except writes m s ->
  exists s', ia_css_terminal_create (g + t_place i) (t_man (T i)) (t_param (T i)) kernels s = (g + t_place i, s')
    /\ same_outside (g + t_place i) (g + t_place i + t_size (T i)) s s'
    /\ ia_css_terminal_get_size s' (g + t_place i) = t_size (T i)
    /\ ia_css_terminal_get_type s' (g + t_place i) = t_type (T i).

Definition process_creatable (i : Z) : Prop :=
  forall s, same_except writes m s ->
  let p := g + q_place i in
  exists s', ia_css_process_create p (q_man (Q i)) (q_param (Q i)) i s = (p, s')
    /\ same_outside p (p + process_extent (q_ext (Q i)) 0 0) s s'
    /\ process_blob s' p (q_ext (Q i)) (Z.of_nat (length (q_ids (Q i)))) (Z.of_nat (length (q_terms (Q i))))
    /\ ia_css_process_get_state s' p = IA_CSS_PROCESS_READY
    /\ ia_css_process_get_size s' p = q_size (Q i)
    /\ ia_css_process_get_program_ID s' p = q_ID (Q i)
    /\ ia_css_process_get_program_idx s' p = i.

(** The buffer is apart from all that is read, is small enough for 16-bit
    offsets and signed 16-bit parent offsets, and each part can be created. *)
Class Creatable : Prop := {
  cr_g : 0 < g;
  cr_room : room <= 32768;
  cr_view : unaffected writes m (plan_of man param);
  cr_params : forall a, g <= a < g + room -> param_bytes a = false;
  cr_terminal : forall i, 0 <= i < NT ->
    0 < t_man (T i) /\ (t_run i = true -> t_param (T i) <> NULL
      /\ (if is_data_type (t_type (T i)) then sizeof_ia_css_data_terminal_t else 32) <= t_size (T i)
      /\ terminal_creatable i);
  cr_program : forall i, 0 <= i < NQ ->
    0 < q_man (Q i) /\ 0 < q_param (Q i)
    /\ (q_run i = true -> process_extent (q_ext (Q i)) (Z.of_nat (length (q_ids (Q i))))
                            (Z.of_nat (length (q_terms (Q i)))) <= q_size (Q i)
                          /\ Forall (fun id => id <> 0) (q_ids (Q i))
                          /\ Forall (fun t => 0 <= t < NT) (q_terms (Q i))
                          /\ process_creatable i)
}.
Context `{Cr : Creatable}.

Lemma view_parts s :
  same_except writes m s ->
  (forall i, 0 <= i < NT -> terminal_plan_of man param s i = T i)
  /\ (forall i, 0 <= i < NQ -> program_plan_of man param s i = Q i)
  /\ ia_css_program_group_manifest_get_terminal_count s man = NT
  /\ ia_css_program_group_manifest_get_program_count s man = NQ
  /\ ia_css_program_group_param_get_kernel_enable_bitmap s param = kernels.
Proof. apply plan_parts, cr_view. Qed.

(** ** Places *)

Lemma t_place_succ i : 0 <= i -> t_place (i + 1) = t_place i + (if t_run i then t_size (T i) else 0).
Proof. intros Hi. unfold GroupPlan.t_place. rewrite t_bytes_succ by exact Hi. lia. Qed.
Lemma q_place_succ i : 0 <= i -> q_place (i + 1) = q_place i + (if q_run i then q_size (Q i) else 0).
Proof. intros Hi. unfold GroupPlan.q_place. rewrite q_bytes_succ by exact Hi. lia. Qed.

Lemma t_place_mono i j : 0 <= i <= j -> t_place 0 <= t_place i <= t_place j.
Proof.
  intros H. unfold GroupPlan.t_place. pose proof (t_bytes_mono m man param i j H).
  change (t_bytes m man param 0) with 0. lia.
Qed.
Lemma q_place_mono i j : 0 <= i <= j -> t_place NT <= q_place i <= q_place j.
Proof. intros H. unfold GroupPlan.q_place. pose proof (q_bytes_mono m man param i j H). lia. Qed.

(** Header, process table, terminal table, terminals, processes. *)
Lemma places :
  120 + 2 * rank q_run NQ <= terminal_tab
  /\ terminal_tab + 2 * rank t_run NT <= t_place 0
  /\ t_place NT <= room.
Proof.
  pose proof (NT_range m man). pose proof (NQ_range m man).
  pose proof (rank_mono q_run 0 NQ ltac:(lia)) as B1. pose proof (rank_mono t_run 0 NT ltac:(lia)) as B2.
  change (rank q_run 0) with 0 in B1. change (rank t_run 0) with 0 in B2.
  pose proof (pow2_align_spec (rank q_run NQ * 2) ltac:(lia)).
  pose proof (pow2_align_spec (rank t_run NT * 2) ltac:(lia)).
  split; [| split].
  - unfold GroupPlan.terminal_tab, process_tab, sizeof_ia_css_process_group_t. lia.
  - unfold GroupPlan.t_place. change (t_bytes m man param 0) with 0. lia.
  - pose proof (q_place_mono 0 NQ ltac:(lia)). unfold group_room. lia.
Qed.

Lemma writes_group a : g <= a < g + room -> writes a = true.
Proof. intros H. unfold writes. rewrite (proj2 (Z.leb_le _ _)), (proj2 (Z.ltb_lt _ _)) by lia. reflexivity. Qed.

(** ** One terminal *)

Lemma terminal_plan_at s i :
  same_except writes m s -> 0 <= i < NT ->
  ia_css_program_group_manifest_get_term_mnfst s man i = t_man (T i)
  /\ ia_css_process_group_is_terminal_enabled s (t_man (T i)) kernels = t_run i
  /\ ia_css_program_group_param_get_terminal_param s param i = t_param (T i).
Proof.
  intros S Hi. destruct (view_parts s S) as (V & _ & _ & _ & Ek). specialize (V i Hi).
  unfold terminal_plan_of in V. cbv zeta in V. rewrite Ek in V.
  unfold GroupPlan.t_run. rewrite <- V. auto.
Qed.

Definition t_bytes_of (i a : Z) : bool :=
  ((g + terminal_tab + 2 * rank t_run i <=? a) && (a <? g + terminal_tab + 2 * rank t_run i + 2))
  || ((g + t_place i <=? a) && (a <? g + t_place (i + 1))).

(** Terminal [i] in memory [s]: found through the table, of the size of the
    plan, linked to the group and to its manifest, and otherwise as
    [ia_css_terminal_create] left it. *)
Record terminal_made (s : mem) (i : Z) : Prop := {
  tm_entry : rd s (g + terminal_tab) (elt (U16 0) (rank t_run i)) = t_place i;
  tm_size : ia_css_terminal_get_size s (g + t_place i) = t_size (T i);
  tm_type : ia_css_terminal_get_type s (g + t_place i) = t_type (T i);
  tm_index_set : ia_css_terminal_get_terminal_manifest_index s (g + t_place i) = i;
  tm_parent : ia_css_terminal_get_parent s (g + t_place i) = g;
  tm_create : exists s0 s1, same_except writes m s0
    /\ ia_css_terminal_create (g + t_place i) (t_man (T i)) (t_param (T i)) kernels s0 = (g + t_place i, s1)
    /\ forall a, g + t_place i <= a < g + t_place (i + 1) ->
         f_off te.parent_offset <= a - (g + t_place i) < f_off te.parent_offset + 2
         \/ f_off te.tm_index <= a - (g + t_place i) < f_off te.tm_index + 2
         \/ s a = s1 a
}.

Lemma terminal_step i s :
  0 <= i < NT -> t_run i = true -> same_except writes m s ->
  exists s', create_terminal_step g man param (g + terminal_tab) kernels i (g + t_place i, rank t_run i) s
             = (Some (g + t_place (i + 1), rank t_run (i + 1)), s')
    /\ same_except (t_bytes_of i) s s' /\ terminal_made s' i.
Proof.
  intros Hi Hon S. destruct (terminal_plan_at s i S Hi) as (E1 & E2 & E3).
  destruct (cr_terminal i Hi) as (Hman & Hrun). destruct (Hrun Hon) as (Hpar & Hsz' & C). assert (Hsz : 32 <= t_size (T i)) by (unfold sizeof_ia_css_data_terminal_t in Hsz'; destruct (is_data_type _); lia).
  pose proof places as (L1 & L2 & L3). pose proof (t_place_mono i (i + 1) ltac:(lia)) as M1.
  pose proof (t_place_mono (i + 1) NT ltac:(lia)) as M2. pose proof cr_room as Hroom. pose proof cr_g as Hg.
  pose proof (rank_lt t_run i NT ltac:(lia) Hon) as R. pose proof (rank_le t_run i ltac:(lia)) as R0.
  pose proof (rank_le q_run NQ ltac:(pose proof (NQ_range m man); lia)) as R1.
  pose proof (NT_range m man) as HNT.
  assert (Es : t_place (i + 1) = t_place i + t_size (T i)) by (rewrite t_place_succ, Hon by lia; reflexivity).
  set (t := g + t_place i) in *.
  set (s1 := wr s (g + terminal_tab) (elt (U16 0) (rank t_run i)) (t_place i)).
  assert (F1 : same_except (t_bytes_of i) s s1).
  { eapply same_outside_except; [| apply wr_same_outside; [apply Z.le_refl | apply Z.le_refl]].
    intros a Ha. cbn in Ha. unfold t_bytes_of. apply orb_true_iff. left.
    rewrite andb_true_iff, Z.leb_le, Z.ltb_lt. lia. }
  assert (HW : forall a, t_bytes_of i a = true -> writes a = true).
  { intros a Ha. apply writes_group. unfold t_bytes_of in Ha.
    rewrite orb_true_iff, !andb_true_iff, !Z.leb_le, !Z.ltb_lt in Ha. lia. }
  assert (S1 : same_except writes m s1) by (eapply same_except_trans; [exact S | eapply same_except_weaken; eassumption]).
  destruct (C s1 S1) as (s2 & Ec & S2 & Esz & Ety). fold t in Ec, S2, Esz, Ety.
  assert (F2 : same_except (t_bytes_of i) s1 s2).
  { eapply same_outside_except; [| exact S2]. intros a Ha. unfold t_bytes_of. apply orb_true_iff. right.
    fold t. rewrite andb_true_iff, Z.leb_le, Z.ltb_lt. lia. }
  set (s3 := wr s2 t te.parent_offset (u16 (g - t))). set (s4 := wr s3 t te.tm_index i).
  assert (F4 : same_outside t (t + 14) s2 s4) by (unfold s4, s3; frame_chain; lia).
  exists s4. split; [| split].
  - unfold create_terminal_step. mrun. rewrite E1, (not_null (t_man (T i))) by exact Hman. cbn [negb].
    rewrite E2, Hon, E3, (proj2 (Z.eqb_neq _ _) Hpar : is_null _ = false). cbn [negb].
    replace (t - g) with (t_place i) by (subst t; lia). fold s1. rewrite Ec.
    unfold ia_css_terminal_set_parent, ia_css_terminal_set_terminal_manifest_index. mrun.
    rewrite (not_null t), (not_null g) by lia. cbn [negb Z.eqb]. fold s3. fold s4.
    replace (ia_css_terminal_get_size s4 t) with (t_size (T i)).
    + rewrite rank_succ, Hon by lia. rewrite u8_small by lia. do 3 f_equal. subst t. lia.
    + rewrite <- Esz. unfold ia_css_terminal_get_size. rewrite (not_null t) by lia.
      subst s4 s3. rd_back. reflexivity.
  - eapply same_except_trans; [exact F1 |]. eapply same_except_trans; [exact F2 |].
    eapply same_outside_except; [| exact F4]. intros a Ha. unfold t_bytes_of. apply orb_true_iff. right.
    fold t. rewrite andb_true_iff, Z.leb_le, Z.ltb_lt. lia.
  - constructor; fold t.
    + rewrite (rd_same_outside _ _ _ _ _ _ F4) by (left; cbn; lia).
      rewrite (rd_same_outside _ _ _ _ _ _ S2) by (left; cbn; lia).
      unfold s1. rewrite rd_wr_same. apply u16_small. lia.
    + rewrite <- Esz. unfold ia_css_terminal_get_size. rewrite (not_null t) by lia.
      subst s4 s3. rd_back. reflexivity.
    + rewrite <- Ety. unfold ia_css_terminal_get_type. rewrite (not_null t) by lia.
      subst s4 s3. rd_back. reflexivity.
    + unfold ia_css_terminal_get_terminal_manifest_index. rewrite (not_null t) by lia.
      subst s4. rewrite rd_wr_same. apply u16_small. lia.
    + unfold ia_css_terminal_get_parent. rewrite (not_null t) by lia.
      assert (E : rd s4 t te.parent_offset = g - t).
      { subst s4 s3. rd_back. apply f_conv_S16_u16. subst t. lia. }
      rewrite E, (proj2 (Z.eqb_neq _ _)) by lia. lia.
    + exists s1, s2. split; [exact S1 |]. split; [exact Ec |]. intros a Ha.
      subst s4 s3. unfold wr. cbn [f_off te.parent_offset te.tm_index S16 U16] in *.
      destruct (Z.lt_ge_cases (a - t) 8); [| destruct (Z.lt_ge_cases (a - t) 10); [lia |]];
        [| destruct (Z.lt_ge_cases (a - t) 12); [| destruct (Z.lt_ge_cases (a - t) 14); [lia |]]];
        right; right; rewrite !st_out by (cbn; lia); reflexivity.
Qed.

(** Stores outside the terminal and its table entry keep it. *)
Lemma terminal_keep W s s' i :
  0 <= i < NT -> t_run i = true -> same_except W s s' ->
  (forall a, t_bytes_of i a = true -> W a = false) ->
  terminal_made s i -> terminal_made s' i.
Proof.
  intros Hi Hon S HW [D1 D2 Dt D3 D4 (s0 & s1 & D5 & D6 & D7)].
  destruct (cr_terminal i Hi) as (_ & Hrun). destruct (Hrun Hon) as (_ & Hsz' & _).
  assert (Hsz : 32 <= t_size (T i)) by (unfold sizeof_ia_css_data_terminal_t in Hsz'; destruct (is_data_type _); lia).
  pose proof (t_place_succ i ltac:(lia)) as Es. rewrite Hon in Es.
  assert (HT : forall a, g + t_place i <= a < g + t_place (i + 1) -> W a = false).
  { intros a Ha. apply HW. unfold t_bytes_of. apply orb_true_iff. right.
    rewrite andb_true_iff, Z.leb_le, Z.ltb_lt. lia. }
  assert (R : forall f, 0 <= f_off f -> f_off f + Z.of_nat (f_len f) <= 16 ->
              rd s' (g + t_place i) f = rd s (g + t_place i) f).
  { intros f H1 H2. apply (rd_same_except _ _ _ _ _ S). intros a Ha. apply HT. lia. }
  constructor.
  - etransitivity; [| exact D1]. apply (rd_same_except _ _ _ _ _ S). intros a Ha. cbn in Ha. apply HW.
    unfold t_bytes_of. apply orb_true_iff. left. rewrite andb_true_iff, Z.leb_le, Z.ltb_lt. lia.
  - etransitivity; [| exact D2]. unfold ia_css_terminal_get_size. rewrite R by mem_out. reflexivity.
  - etransitivity; [| exact Dt]. unfold ia_css_terminal_get_type. rewrite R by mem_out. reflexivity.
  - etransitivity; [| exact D3]. unfold ia_css_terminal_get_terminal_manifest_index. rewrite R by mem_out. reflexivity.
  - etransitivity; [| exact D4]. unfold ia_css_terminal_get_parent. rewrite !R by mem_out. reflexivity.
  - exists s0, s1. split; [exact D5 |]. split; [exact D6 |]. intros a Ha. rewrite (S a) by (apply HT, Ha).
    apply D7, Ha.
Qed.

Definition terminals_made (s : mem) (i : Z) : Prop :=
  forall j, 0 <= j < i -> t_run j = true -> terminal_made s j.

Lemma t_bytes_disjoint i j a :
  0 <= i < NT -> 0 <= j < NT -> i <> j -> t_run i = true -> t_run j = true ->
  t_bytes_of i a = true -> t_bytes_of j a = false.
Proof.
  intros Hi Hj Hne Oi Oj. unfold t_bytes_of.
  rewrite orb_true_iff, orb_false_iff, !andb_true_iff, !andb_false_iff, !Z.leb_le, !Z.ltb_lt, !Z.leb_gt, !Z.ltb_ge.
  pose proof places as (L1 & L2 & L3).
  pose proof (t_place_mono i (i + 1) ltac:(lia)). pose proof (t_place_mono j (j + 1) ltac:(lia)).
  pose proof (rank_lt t_run i NT ltac:(lia) Oi). pose proof (rank_lt t_run j NT ltac:(lia) Oj).
  destruct (Z.lt_ge_cases i j).
  - pose proof (rank_lt t_run i j ltac:(lia) Oi). pose proof (t_place_mono (i + 1) j ltac:(lia)). lia.
  - pose proof (rank_lt t_run j i ltac:(lia) Oj). pose proof (t_place_mono (j + 1) i ltac:(lia)). lia.
Qed.

(** The terminal loop. *)
Lemma terminal_loop h :
  same_except writes m h ->
  exists s, for_each (range 0 NT) (g + t_place 0, 0)
              (create_terminal_step g man param (g + terminal_tab) kernels) h
            = (Some (g + t_place NT, rank t_run NT), s)
    /\ same_outside (g + terminal_tab) (g + t_place NT) h s /\ terminals_made s NT.
Proof.
  intros Sh. pose proof (NT_range m man) as HNT. pose proof places as (L1 & L2 & L3).
  destruct (for_range_inv (fun i acc s => acc = (g + t_place i, rank t_run i)
      /\ same_outside (g + terminal_tab) (g + t_place NT) h s /\ terminals_made s i)
    0 NT (g + t_place 0, 0) (create_terminal_step g man param (g + terminal_tab) kernels) h)
    as (acc & s & E & -> & H); [lia | | | exists s; auto].
  { split; [reflexivity |]. split; [apply same_outside_refl | intros j Hj; lia]. }
  intros i acc s Hi (-> & S & D).
  assert (Ss : same_except writes m s).
  { eapply same_except_trans; [exact Sh |]. eapply same_outside_except; [| exact S].
    intros a Ha. apply writes_group. pose proof (rank_le q_run NQ ltac:(pose proof (NQ_range m man); lia)). lia. }
  destruct (t_run i) eqn:Hon.
  - destruct (terminal_step i s Hi Hon Ss) as (s' & E & S' & D').
    exists (g + t_place (i + 1), rank t_run (i + 1)), s'. split; [exact E |]. split; [reflexivity |].
    split.
    { eapply same_outside_trans; [exact S |]. intros a Ha. apply S'. unfold t_bytes_of.
      pose proof (t_place_mono i (i + 1) ltac:(lia)). pose proof (t_place_mono (i + 1) NT ltac:(lia)).
      pose proof (rank_lt t_run i NT ltac:(lia) Hon). pose proof (rank_le t_run i ltac:(lia)).
      rewrite orb_false_iff, !andb_false_iff, !Z.leb_gt, !Z.ltb_ge. lia. }
    intros j Hj Oj. destruct (Z.eq_dec j i) as [-> | Hne]; [exact D' |].
    apply (terminal_keep _ s s' j ltac:(lia) Oj S'); [| apply D; [lia | exact Oj]].
    intros a Ha. apply (t_bytes_disjoint j i); auto; lia.
  - exists (g + t_place (i + 1), rank t_run (i + 1)), s. split.
    { destruct (terminal_plan_at s i Ss Hi) as (E1 & E2 & _). destruct (cr_terminal i Hi) as (Hman & _).
      unfold create_terminal_step. mrun. rewrite E1, (not_null (t_man (T i))) by exact Hman. cbn [negb].
      rewrite E2, Hon, rank_succ, Hon, t_place_succ, Hon, !Z.add_0_r by lia. reflexivity. }
    split; [reflexivity |]. split; [exact S |].
    intros j Hj Oj. apply D; [| exact Oj]. destruct (Z.eq_dec j i) as [-> | Hne]; [congruence | lia].
Qed.
End Creation.
