(* ===== verification/GroupConditions.v ===== *)
(** * When the parts of a process group can be created

    Conditions on the client's memory alone under which
    [ia_css_terminal_create] and [ia_css_process_create] make the terminals and
    processes of a group: the buffer of the group is apart from the manifests
    and parameters, and these have what each kind of terminal needs.  They
    discharge the class [Creatable] that the loops of creation rest on. *)

From S2P Require Import Prelude Memory ResourceModel KernelBitmap ProgramGroupParam ProgramManifest ProcessGroupHeader Process ProcessCells ProcessCreate Terminal ProcessGroup TerminalManifest ProgramGroupManifest GroupSelection TerminalCreate GroupCreate GroupPlan GroupLoops.
#[local] Open Scope css_scope.

(** Nothing is written to the [n] bytes at [lo]. *)
Definition apart (W : Z -> bool) (lo n : Z) : Prop := forall a, lo <= a < lo + n -> W a = false.

Lemma apart_outside W lo n b e :
  apart W lo n -> 0 < n -> b < e -> (forall a, b <= a < e -> W a = true) -> lo + n <= b \/ e <= lo.
Proof.
  intros A Hn Hb Hw. destruct (Z.le_gt_cases (lo + n) b) as [| H1]; [left; assumption |].
  destruct (Z.le_gt_cases e lo) as [| H2]; [right; assumption |]. exfalso.
  specialize (A (Z.max lo b) ltac:(lia)). rewrite Hw in A by lia. discriminate.
Qed.

Lemma apart_rd W m s p n f :
  same_except W m s -> apart W p n -> 0 <= f_off f -> f_off f + Z.of_nat (f_len f) <= n -> rd s p f = rd m p f.
Proof. intros S A H1 H2. apply (rd_same_except W); [exact S |]. intros a Ha. apply A. lia. Qed.

Lemma apart_rd_kb W m s p n f :
  same_except W m s -> apart W p n -> 0 <= f_off f -> f_off f + 16 <= n -> f_len f = 4%nat -> rd_kb s p f = rd_kb m p f.
Proof.
  intros S A H1 H2 H3. unfold rd_kb. cbn [map].
  rewrite !(apart_rd W m s p n) by (try assumption; unfold elt; cbn [f_off f_len]; rewrite ?H3; lia). reflexivity.
Qed.

Section Conditions.
Context {P : Platform} {Pok : PlatformOk P} (m : mem) (man param g : Z).

#[local] Abbreviation T := (GroupPlan.T m man param).
#[local] Abbreviation Q := (@GroupPlan.Q P m man param).
#[local] Abbreviation t_run := (GroupPlan.t_run m man param).
#[local] Abbreviation q_run := (@GroupPlan.q_run P m man param).
#[local] Abbreviation t_place := (@GroupPlan.t_place P m man param).
#[local] Abbreviation q_place := (@GroupPlan.q_place P m man param).
#[local] Abbreviation NT := (NT m man).
#[local] Abbreviation NQ := (NQ m man).
#[local] Abbreviation room := (@group_room P m man param).
#[local] Abbreviation kernels := (gp_kernels (@plan_of P man param m)).
#[local] Abbreviation fragments := (gp_fragments (@plan_of P man param m)).
#[local] Abbreviation writes := (@GroupLoops.writes P m man param g).
#[local] Abbreviation param_bytes := (@GroupLoops.param_bytes P m man param).

(** A data terminal serves exactly one of the enabled kernels, and its frame
    has less than 2^32 bytes. *)
Definition data_ready (i : Z) : Prop :=
  let t := t_man (T i) in let p := t_param (T i) in
  is_data_type (t_type (T i)) = true
  /\ apart writes t sizeof_ia_css_data_terminal_manifest_t
  /\ (exists k, 0 <= k < IA_CSS_KERNEL_BITMAP_BITS
        /\ ia_css_kernel_bitmap_intersection kernels (ia_css_data_terminal_manifest_get_kernel_bitmap m t)
           = ia_css_kernel_bit_mask k)
  /\ rd m p tp.stride * rd m p (elt tp.dimensions IA_CSS_ROW_DIMENSION) < 2 ^ 32.

(** A cached parameter or a program terminal: its sections are apart, too,
    and a cached output has fragments. *)
Definition sections_ready (i : Z) : Prop :=
  let t := t_man (T i) in let ty := t_type (T i) in
  In ty [IA_CSS_TERMINAL_TYPE_PARAM_CACHED_IN; IA_CSS_TERMINAL_TYPE_PARAM_CACHED_OUT; IA_CSS_TERMINAL_TYPE_PROGRAM]
  /\ apart writes t 32
  /\ apart writes (snd (sections_of m t)) (Z.max 1 (fst (sections_of m t) * 4))
  /\ (ty = IA_CSS_TERMINAL_TYPE_PARAM_CACHED_OUT -> 0 < fragments).

(** Its parameters belong to those of the group. *)
Definition terminal_ready (i : Z) : Prop :=
  let p := t_param (T i) in
  0 < p /\ apart writes p sizeof_ia_css_terminal_param_t /\ ia_css_terminal_param_get_parent m p = param
  /\ (data_ready i \/ sections_ready i).

(** A program has dependencies, an ID that fits its process, and a process
    that fits into 255 bytes. *)
Record program_ready (i : Z) : Prop := {
  ry_header : apart writes (q_man (Q i)) sizeof_ia_css_program_manifest_t;
  ry_ext : let e := ia_css_program_manifest_get_extension m (q_man (Q i)) in
           e = NULL \/ 0 < e /\ apart writes e sizeof_ia_css_program_manifest_ext_t;
  ry_deps : 0 < Z.of_nat (length (q_ids (Q i))) + Z.of_nat (length (q_terms (Q i)));
  ry_ID : 0 < q_ID (Q i) < 256;
  ry_size : q_size (Q i) <= 255;
  ry_ids : Forall (fun id => id <> 0) (q_ids (Q i));
  ry_terms : Forall (fun t => 0 <= t < NT) (q_terms (Q i))
}.

(** The whole group: the buffer is apart from all that is read and small
    enough for its offsets, and every part that the group has is ready. *)
Class GroupReady : Prop := {
  gr_g : 0 < g;
  gr_param : 0 < param;
  gr_room : room <= 32768;
  gr_view : unaffected writes m (plan_of man param);
  gr_params : forall a, g <= a < g + room -> param_bytes a = false;
  gr_terminal : forall i, 0 <= i < NT -> 0 < t_man (T i) /\ (t_run i = true -> terminal_ready i);
  gr_program : forall i, 0 <= i < NQ -> 0 < q_man (Q i) /\ 0 < q_param (Q i) /\ (q_run i = true -> program_ready i)
}.
Context `{Gr : GroupReady}.

Lemma inside_writes b n : 0 <= b -> b + n <= room -> forall a, g + b <= a < g + b + n -> writes a = true.
Proof. intros H1 H2 a Ha. apply (writes_group m man param g). lia. Qed.

Lemma terminal_span i :
  0 <= i < NT -> t_run i = true -> 120 <= t_place i /\ t_place i + t_size (T i) <= room.
Proof.
  intros Hi Oi. destruct (places m man param) as (L1 & L2 & L3).
  pose proof (t_place_mono m man param 0 i ltac:(lia)). pose proof (t_place_mono m man param (i + 1) NT ltac:(lia)).
  pose proof (t_place_succ m man param i ltac:(lia)) as E. rewrite Oi in E.
  pose proof (NQ_range m man). pose proof (NT_range m man).
  pose proof (rank_mono q_run 0 NQ ltac:(lia)) as B1. pose proof (rank_mono t_run 0 NT ltac:(lia)) as B2.
  change (rank q_run 0) with 0 in B1. change (rank t_run 0) with 0 in B2. lia.
Qed.

Lemma program_span i :
  0 <= i < NQ -> q_run i = true -> 120 <= q_place i /\ q_place i + q_size (Q i) <= room.
Proof.
  intros Hi Oi. destruct (places m man param) as (L1 & L2 & L3).
  pose proof (q_place_mono m man param 0 i ltac:(lia)). pose proof (q_place_mono m man param (i + 1) NQ ltac:(lia)).
  pose proof (q_place_succ m man param i ltac:(lia)) as E. rewrite Oi in E. unfold group_room in *.
  pose proof (NQ_range m man). pose proof (NT_range m man).
  pose proof (rank_mono q_run 0 NQ ltac:(lia)) as B1. pose proof (rank_mono t_run 0 NT ltac:(lia)) as B2.
  pose proof (t_place_mono m man param 0 NT ltac:(lia)).
  change (rank q_run 0) with 0 in B1. change (rank t_run 0) with 0 in B2. lia.
Qed.

(** What creation of a terminal reads, in any memory that creation leaves. *)
Lemma terminal_reads s i :
  same_except writes m s -> 0 <= i < NT -> terminal_ready i ->
  ia_css_terminal_param_get_parent s (t_param (T i)) = param
  /\ ia_css_program_group_param_get_fragment_count s param = fragments
  /\ ia_css_terminal_manifest_get_type s (t_man (T i)) = t_type (T i)
  /\ ia_css_sizeof_terminal s (t_man (T i)) param = t_size (T i).
Proof.
  intros S Hi (Hp & Ap & Ep & _). destruct (plan_parts m man param g s gr_view S) as (V & _ & _ & _ & Ek).
  specialize (V i Hi). unfold terminal_plan_of in V. cbv zeta in V.
  assert (Em : ia_css_program_group_manifest_get_term_mnfst s man i = t_man (T i)) by (rewrite <- V; reflexivity).
  split; [| split; [exact (f_equal gp_fragments (gr_view s S)) |]].
  - rewrite <- Ep at 2. unfold ia_css_terminal_param_get_parent. rewrite !(not_null _ Hp).
    rewrite (apart_rd writes m s _ _ _ S Ap) by (vm_compute; discriminate). reflexivity.
  - rewrite <- Em. rewrite <- V. split; reflexivity.
Qed.

Lemma data_creatable i :
  0 <= i < NT -> t_run i = true -> terminal_ready i -> 0 < t_man (T i) -> data_ready i ->
  terminal_creatable m man param g i.
Proof.
  intros Hi Oi Ry Hm (Ty & At & (k & Hk & Ek) & Hf) s S. pose proof gr_g. pose proof gr_param.
  destruct (terminal_reads s i S Hi Ry) as (R1 & R2 & R3 & R4). destruct Ry as (Hp & Ap & _ & _).
  destruct (terminal_span i Hi Oi) as [P1 P2].
  assert (Rm : data_room fragments = t_size (T i)).
  { rewrite <- R4, <- R2. symmetry. apply sizeof_data_terminal; [exact Hm | unfold NULL; lia |].
    unfold ia_css_terminal_manifest_get_type in R3. rewrite (not_null _ Hm) in R3. rewrite R3. exact Ty. }
  assert (Hsz : 0 < t_size (T i)).
  { rewrite <- Rm. pose proof (fragment_count_range m param). unfold data_room, fragments, plan_of. cbn [gp_fragments].
    unfold sizeof_ia_css_data_terminal_t, sizeof_ia_css_fragment_descriptor_t. lia. }
  pose proof (inside_writes (t_place i) (t_size (T i)) ltac:(lia) P2) as In_w.
  pose proof (terminal_create_data_ok s (g + t_place i) (t_man (T i)) (t_param (T i)) kernels k) as H1.
  cbv zeta in H1. rewrite R1, R2, R4 in H1.
  destruct H1 as (s' & E & Sz & Fr & Cr & _); try assumption; try lia.
  - unfold NULL. lia.
  - unfold ia_css_is_terminal_manifest_data_terminal. rewrite R3. exact Ty.
  - rewrite Rm. apply (apart_outside writes); [exact At | reflexivity | lia | exact In_w].
  - rewrite Rm. apply (apart_outside writes); [exact Ap | reflexivity | lia | exact In_w].
  - rewrite <- Ek. f_equal. unfold ia_css_data_terminal_manifest_get_kernel_bitmap. rewrite !(not_null _ Hm).
    apply (apart_rd_kb writes m s _ _ _ S At); vm_compute; (discriminate || reflexivity).
  - rewrite !(apart_rd writes m s _ _ _ S Ap) by (vm_compute; discriminate). exact Hf.
  - exists s'. split; [exact E |]. split; [exact Fr |]. split; [exact Sz |].
    rewrite (tc_type _ _ _ _ _ Cr). exact R3.
Qed.

Lemma sections_same s t :
  same_except writes m s -> 0 < t -> apart writes t 32 ->
  sections_of s t = sections_of m t /\ forall fc, section_start s t fc = section_start m t fc.
Proof.
  intros S Ht A. unfold sections_of, section_start, ia_css_is_terminal_manifest_program_terminal,
    ia_css_terminal_manifest_get_type.
  rewrite !(not_null _ Ht), !(apart_rd writes m s _ _ _ S A) by (vm_compute; discriminate). split; reflexivity.
Qed.

Lemma sections_creatable i :
  0 <= i < NT -> t_run i = true -> terminal_ready i -> 0 < t_man (T i) -> sections_ready i ->
  32 <= t_size (T i) /\ terminal_creatable m man param g i.
Proof.
  intros Hi Oi Ry Hm (Ty & At & As & Hfc). pose proof gr_g. pose proof gr_param. pose proof gr_room.
  destruct (terminal_span i Hi Oi) as [P1 P2].
  pose proof (inside_writes (t_place i) (t_size (T i)) ltac:(lia) P2) as In_w.
  destruct (sections_of m (t_man (T i))) as [n mb] eqn:Es. cbn [fst snd] in As.
  assert (G : forall s, same_except writes m s -> exists s', 
    ia_css_terminal_create (g + t_place i) (t_man (T i)) (t_param (T i)) kernels s = (g + t_place i, s')
    /\ same_outside (g + t_place i) (g + t_place i + t_size (T i)) s s'
    /\ terminal_created s s' (g + t_place i) (t_man (T i)) (t_size (T i)) /\ 32 <= t_size (T i)).
  { intros s S. destruct (terminal_reads s i S Hi Ry) as (R1 & R2 & R3 & R4).
    destruct (sections_same s (t_man (T i)) S Hm At) as [Es' Eo].
    assert (Ty' : In (ia_css_terminal_manifest_get_type s (t_man (T i)))
      [IA_CSS_TERMINAL_TYPE_PARAM_CACHED_IN; IA_CSS_TERMINAL_TYPE_PARAM_CACHED_OUT; IA_CSS_TERMINAL_TYPE_PROGRAM])
      by (rewrite R3; exact Ty).
    set (o := section_start m (t_man (T i)) fragments) in *.
    assert (Hn : 0 <= n) by (unfold sections_of in Es; case_match; injection Es as <- _; apply rd_U16_range).
    assert (Ho : 40 <= o).
    { subst o. unfold section_start. assert (0 <= fragments) by exact (proj1 (fragment_count_range m param)).
      assert (0 <= rd m (t_man (T i)) prtm.kernel_fragment_sequencer_info_manifest_info_count)
        by apply rd_U16_range.
      case_match; [| lia]. generalize dependent fragments. intros f Hf _. nia. }
    (* the sections end inside the terminal *)
    assert (Hfit : o + n * 8 <= t_size (T i)).
    { destruct (sizeof_sections s (t_man (T i)) param Hm ltac:(unfold NULL; lia)) as (Zi & Zo & Zp).
      rewrite R2, R3, R4 in *. subst o. rewrite <- (Eo fragments). unfold section_start, sections_of in *.
      change (ia_css_is_terminal_manifest_program_terminal s (t_man (T i)))
        with (ia_css_terminal_manifest_get_type s (t_man (T i)) =? IA_CSS_TERMINAL_TYPE_PROGRAM) in *.
      rewrite Es in Es'. rewrite R3 in *.
      destruct Ty as [E | [E | [E | []]]]; rewrite <- E in *; cbn [Z.eqb Pos.eqb] in *.
      - change (_ =? _) with false in *. pose proof (f_equal fst Es' : rd s (t_man (T i)) ptm.param_manifest_section_desc_count = n) as E1. rewrite Zi by reflexivity. lia.
      - change (_ =? _) with false in *. pose proof (f_equal fst Es' : rd s (t_man (T i)) ptm.param_manifest_section_desc_count = n) as E1. rewrite Zo by reflexivity. specialize (Hfc eq_refl). nia.
      - change (_ =? _) with true in *. pose proof (f_equal fst Es' : rd s (t_man (T i)) prtm.fragment_param_manifest_section_desc_count = n) as E1. rewrite Zp by reflexivity.
        pose proof (rd_U16_range s (t_man (T i)) 20). change (U16 20) with prtm.max_kernel_fragment_sequencer_command_desc in *.
        pose proof (fragment_count_range s param) as F. rewrite R2 in F. nia. }
    pose proof (terminal_create_sections_ok s (g + t_place i) (t_man (T i)) (t_param (T i)) kernels) as H2.
    cbv zeta in H2. rewrite R1, R2, R4, Es', Es, Eo in H2. fold o in H2.
    destruct H2 as (s' & E & Fr & Cr & _); try assumption; try lia.
    - unfold NULL. lia.
    - split.
      + destruct (apart_outside writes _ _ (g + t_place i) (g + t_place i + (o + n * 8)) At) as [H3 | H3]; [lia | lia | | lia | lia].
        intros a Ha. apply In_w. lia.
      + destruct (apart_outside writes _ _ (g + t_place i) (g + t_place i + (o + n * 8)) As) as [H3 | H3]; [lia | lia | | lia | lia].
        intros a Ha. apply In_w. lia.
    - exists s'. split; [exact E |]. split; [| split; [exact Cr | lia]].
      eapply same_outside_weaken; [| | exact Fr]; lia. }
  split; [destruct (G m (same_except_refl _ _)) as (_ & _ & _ & _ & H3); exact H3 |].
  intros s S. destruct (G s S) as (s' & E & Fr & Cr & _). destruct (terminal_reads s i S Hi Ry) as (_ & _ & R3 & _).
  exists s'. split; [exact E |]. split; [exact Fr |].
  rewrite (tc_size _ _ _ _ _ Cr), (tc_type _ _ _ _ _ Cr). split; [apply u16_small; pose proof (t_size_nonneg m man param i); lia | exact R3].
Qed.

Lemma program_reads s i :
  same_except writes m s -> 0 <= i < NQ ->
  ia_css_program_manifest_process_requires_extension s (q_man (Q i)) = q_ext (Q i)
  /\ ia_css_program_manifest_get_program_dependency_count s (q_man (Q i)) = Z.of_nat (length (q_ids (Q i)))
  /\ ia_css_program_manifest_get_terminal_dependency_count s (q_man (Q i)) = Z.of_nat (length (q_terms (Q i)))
  /\ ia_css_sizeof_process s (q_man (Q i)) (q_param (Q i)) = q_size (Q i)
  /\ ia_css_program_manifest_get_program_ID s (q_man (Q i)) = q_ID (Q i).
Proof.
  intros S Hi. destruct (plan_parts m man param g s gr_view S) as (_ & V & _). specialize (V i Hi).
  unfold program_plan_of in V. cbv zeta in V.
  assert (Em : ia_css_program_group_manifest_get_prgrm_mnfst s man i = q_man (Q i)) by (rewrite <- V; reflexivity).
  assert (Ep : ia_css_program_group_param_get_program_param s param i = q_param (Q i)) by (rewrite <- V; reflexivity).
  rewrite <- Em, <- Ep. rewrite <- V. cbn [q_ext q_ids q_terms q_size q_ID]. rewrite !length_map. unfold range.
  rewrite !length_seqZ.
  destruct (manifest_counts_range s (ia_css_program_group_manifest_get_prgrm_mnfst s man i)).
  split; [reflexivity |]. split; [lia |]. split; [lia |]. split; reflexivity.
Qed.

Lemma ready_process_creatable i :
  0 <= i < NQ -> q_run i = true -> 0 < q_man (Q i) -> 0 < q_param (Q i) -> program_ready i ->
  process_extent (q_ext (Q i)) (Z.of_nat (length (q_ids (Q i)))) (Z.of_nat (length (q_terms (Q i)))) <= q_size (Q i)
  /\ process_creatable m man param g i.
Proof.
  intros Hi Oi Hm Hq [Ah Ax Hd HID Hs _ _]. pose proof gr_g. pose proof (NQ_range m man).
  destruct (program_span i Hi Oi) as [P1 P2].
  assert (Hx : process_extent (q_ext (Q i)) (Z.of_nat (length (q_ids (Q i)))) (Z.of_nat (length (q_terms (Q i)))) <= q_size (Q i)).
  { destruct (program_reads m i (same_except_refl _ _) Hi) as (R1 & R2 & R3 & R4 & R5).
    rewrite <- R1, <- R2, <- R3, <- R4. apply sizeof_process_bound; assumption. }
  split; [exact Hx |]. intros s S p. subst p. destruct (program_reads s i S Hi) as (R1 & R2 & R3 & R4 & R5).
  assert (Hw : forall a, g + q_place i <= a < g + q_place i + 12 -> writes a = true).
  { intros a Ha. apply (inside_writes (q_place i) 12); [lia | | exact Ha].
    unfold process_extent in Hx. destruct (q_ext (Q i)); lia. }
  pose proof (process_create_ok s (g + q_place i) (q_man (Q i)) (q_param (Q i)) i) as H1. cbv zeta in H1.
  rewrite R1, R2, R3, R4, R5 in H1.
  destruct H1 as (s' & E & Fr & B & St & Sz & ID & Ix & _); try assumption; try lia.
  - constructor; [exact Hm | |].
    + apply (apart_outside writes); [exact Ah | reflexivity | lia | exact Hw].
    + cbv zeta. replace (ia_css_program_manifest_get_extension s (q_man (Q i)))
        with (ia_css_program_manifest_get_extension m (q_man (Q i))).
      * destruct Ax as [-> | [He Ae]]; [left; reflexivity | right]. split; [exact He |].
        apply (apart_outside writes); [exact Ae | reflexivity | lia | exact Hw].
      * unfold ia_css_program_manifest_get_extension.
        rewrite !(apart_rd writes m s _ _ _ S Ah) by (vm_compute; discriminate). reflexivity.
  - rewrite u8_small by lia. lia.
  - exists s'. rewrite u8_small in ID, Ix by lia. auto 10.
Qed.

(** Such a group can be created. *)
#[export] Instance ready_creatable : Creatable m man param g.
Proof.
  constructor; [exact gr_g | exact gr_room | exact gr_view | exact gr_params | |].
  - intros i Hi. destruct (gr_terminal i Hi) as [Hm Hr]. split; [exact Hm |]. intros Oi. specialize (Hr Oi).
    pose proof Hr as (Hp & _ & _ & [D | D]); (split; [unfold NULL; lia |]).
    + pose proof D as (Ty & _). rewrite Ty. split; [| apply data_creatable; assumption].
      destruct (terminal_reads m i (same_except_refl _ _) Hi Hr) as (_ & _ & R3 & R4). rewrite <- R4.
      pose proof gr_param. rewrite sizeof_data_terminal; [| exact Hm | unfold NULL; lia |].
      * pose proof (fragment_count_range m param). unfold data_room, sizeof_ia_css_fragment_descriptor_t. lia.
      * unfold ia_css_terminal_manifest_get_type in R3. rewrite (not_null _ Hm) in R3. rewrite R3. exact Ty.
    + destruct (sections_creatable i Hi Oi Hr Hm D) as [H1 H2]. split; [| exact H2].
      destruct D as ([E | [E | [E | []]]] & _); rewrite <- E; exact H1.
  - intros i Hi. destruct (gr_program i Hi) as (Hm & Hq & Hr). split; [exact Hm |]. split; [exact Hq |].
    intros Oi. specialize (Hr Oi). destruct (ready_process_creatable i Hi Oi Hm Hq Hr) as [H1 H2].
    split; [exact H1 |]. split; [apply Hr |]. split; [apply Hr | exact H2].
Qed.
End Conditions.
