(* ===== verification/GroupProcesses.v ===== *)
(** * The process loop of group creation

    One process per program that runs: created behind the ones before it,
    given its parent and fixed cell, and its two dependency lists filled with
    the places of the processes and terminals it depends on. *)

From S2P Require Import Prelude Memory ResourceModel KernelBitmap ProgramGroupParam ProgramManifest ProcessGroupHeader Process ProcessCells ProcessCreate Terminal ProcessGroup TerminalManifest ProgramGroupManifest GroupSelection TerminalCreate GroupCreate GroupPlan GroupLoops.
#[local] Open Scope css_scope.

Section Processes.
Context {P : Platform} {Pok : PlatformOk P} (m : mem) (man param g : Z).

#[local] Abbreviation T := (GroupPlan.T m man param).
#[local] Abbreviation Q := (@GroupPlan.Q P m man param).
#[local] Abbreviation t_run := (GroupPlan.t_run m man param).
#[local] Abbreviation q_run := (@GroupPlan.q_run P m man param).
#[local] Abbreviation t_place := (@GroupPlan.t_place P m man param).
#[local] Abbreviation q_place := (@GroupPlan.q_place P m man param).
#[local] Abbreviation terminal_tab := (@GroupPlan.terminal_tab P m man param).
#[local] Abbreviation NT := (NT m man).
#[local] Abbreviation NQ := (NQ m man).
#[local] Abbreviation room := (@group_room P m man param).
#[local] Abbreviation kernels := (gp_kernels (@plan_of P man param m)).
#[local] Abbreviation writes := (@GroupLoops.writes P m man param g).
#[local] Abbreviation param_bytes := (@GroupLoops.param_bytes P m man param).
#[local] Abbreviation pd i := (Z.of_nat (length (q_ids (Q i)))).
#[local] Abbreviation td i := (Z.of_nat (length (q_terms (Q i)))).
#[local] Abbreviation ext i := (q_ext (Q i)).

Context `{Cr : !Creatable m man param g}.

(** ** Dependencies *)

Definition at_ (l : list Z) (d : Z) : Z := nth (Z.to_nat d) l 0.

(** The place of the first process before the [i]-th program whose program has
    the ID, the terminal of a terminal manifest; 0 when there is none. *)
Definition process_with (i id : Z) : Z :=
  match List.find (fun j => q_ID (Q j) =? id) (List.filter q_run (range 0 i)) with
  | Some j => rank q_run j
  | None => 0
  end.
Definition terminal_of (k : Z) : Z :=
  match List.find (fun j => j =? k) (List.filter t_run (range 0 NT)) with
  | Some j => rank t_run j
  | None => 0
  end.

Lemma find_app {A} (f : A -> bool) l l' :
  List.find f (l ++ l') = match List.find f l with Some x => Some x | None => List.find f l' end.
Proof. induction l as [| x l IH]; cbn; [reflexivity |]. destruct (f x); [reflexivity | exact IH]. Qed.

Lemma find_range (f p : Z -> bool) i :
  0 <= i ->
  match List.find p (List.filter f (range 0 i)) with
  | Some j => 0 <= j < i /\ f j = true /\ p j = true /\ forall k, 0 <= k < j -> f k = true -> p k = false
  | None => forall k, 0 <= k < i -> f k = true -> p k = false
  end.
Proof.
  intros Hi. pattern i. apply natlike_ind; [cbn; intros k Hk; lia | | exact Hi].
  clear i Hi. intros i Hi IH. rewrite range_snoc, filter_app, find_app by exact Hi.
  destruct (List.find p (List.filter f (range 0 i))) as [j |].
  - destruct IH as (H1 & H2 & H3 & H4). repeat (split; [assumption || lia |]). exact H4.
  - cbn [List.filter]. destruct (f i) eqn:Ef; [cbn [List.find]; destruct (p i) eqn:Ep |].
    + split; [lia |]. split; [exact Ef |]. split; [exact Ep | exact IH].
    + intros k Hk Fk. destruct (Z.eq_dec k i) as [-> | Hne]; [exact Ep | apply IH; [lia | exact Fk]].
    + intros k Hk Fk. destruct (Z.eq_dec k i) as [-> | Hne]; [congruence | apply IH; [lia | exact Fk]].
Qed.

(** The first process that has the ID among those before, and 0 when none has
    it; the terminal of the manifest, and 0 when the group has none. *)
Lemma process_with_spec i id :
  0 <= i ->
  (exists j, 0 <= j < i /\ q_run j = true /\ q_ID (Q j) = id
     /\ (forall k, 0 <= k < j -> q_run k = true -> q_ID (Q k) <> id) /\ process_with i id = rank q_run j)
  \/ ((forall j, 0 <= j < i -> q_run j = true -> q_ID (Q j) <> id) /\ process_with i id = 0).
Proof.
  intros Hi. unfold process_with. pose proof (find_range q_run (fun j => q_ID (Q j) =? id) i Hi) as F.
  destruct (List.find _ _) as [j |]; [left | right].
  - destruct F as (H1 & H2 & H3%Z.eqb_eq & H4). exists j. repeat (split; [assumption || lia |]).
    split; [| reflexivity]. intros k Hk Ok. apply Z.eqb_neq, (H4 k Hk Ok).
  - split; [| reflexivity]. intros k Hk Ok. apply Z.eqb_neq, (F k Hk Ok).
Qed.

Lemma terminal_of_spec k :
  0 <= k < NT -> terminal_of k = if t_run k then rank t_run k else 0.
Proof.
  intros Hk. unfold terminal_of. pose proof (find_range t_run (fun j => j =? k) NT ltac:(lia)) as F.
  destruct (List.find _ _) as [j |].
  - destruct F as (H1 & H2 & ->%Z.eqb_eq & H4). rewrite H2. reflexivity.
  - destruct (t_run k) eqn:Ok; [| reflexivity]. specialize (F k Hk Ok). cbn in F. rewrite Z.eqb_refl in F. discriminate.
Qed.

Record header_made (s : mem) : Prop := {
  hm_processes : rd s g pg.process_count = rank q_run NQ;
  hm_process_tab : rd s g pg.processes_offset = process_tab;
  hm_terminals : rd s g pg.terminal_count = rank t_run NT;
  hm_terminal_tab : rd s g pg.terminals_offset = terminal_tab
}.

(** Process [i] in memory [s]. *)
Record process_made (s : mem) (i : Z) : Prop := {
  qm_entry : rd s (g + process_tab) (elt (U16 0) (rank q_run i)) = q_place i;
  qm_blob : process_blob s (g + q_place i) (ext i) (pd i) (td i);
  qm_state : rd s (g + q_place i) pr.state = IA_CSS_PROCESS_READY;
  qm_size : rd s (g + q_place i) pr.size = q_size (Q i);
  qm_ID : rd s (g + q_place i) pr.ID = q_ID (Q i);
  qm_idx : rd s (g + q_place i) pr.program_idx = i;
  qm_parent : ia_css_process_get_parent s (g + q_place i) = g;
  qm_deps : forall d, 0 <= d < pd i ->
    rd s (g + q_place i + process_extent (ext i) d 0) (U8 0) = process_with i (at_ (q_ids (Q i)) d);
  qm_terms : forall d, 0 <= d < td i ->
    rd s (g + q_place i + process_extent (ext i) (pd i) d) (U8 0) = terminal_of (at_ (q_terms (Q i)) d)
}.

(** ** The view on another memory *)

Lemma program_plan_at s i :
  same_except writes m s -> 0 <= i < NQ ->
  let q := q_man (Q i) in
  ia_css_program_group_manifest_get_prgrm_mnfst s man i = q
  /\ ia_css_program_group_param_get_program_param s param i = q_param (Q i)
  /\ ia_css_process_group_is_program_enabled s q kernels = q_run i
  /\ ia_css_kernel_bitmap_intersection (ia_css_program_manifest_get_kernel_bitmap s q) kernels = q_kernels (Q i)
  /\ ia_css_program_manifest_get_program_dependency_count s q = pd i
  /\ ia_css_program_manifest_get_terminal_dependency_count s q = td i
  /\ (forall d, 0 <= d < pd i ->
       ia_css_program_manifest_get_program_ID s (ia_css_program_group_manifest_get_prgrm_mnfst s man
         (ia_css_program_manifest_get_program_dependency s q d)) = at_ (q_ids (Q i)) d)
  /\ (forall d, 0 <= d < td i ->
       ia_css_program_manifest_get_terminal_dependency s q d = at_ (q_terms (Q i)) d).
Proof.
  intros S Hi. destruct (view_parts m man param g s S) as (_ & V & _ & _ & Ek). specialize (V i Hi).
  unfold program_plan_of in V. cbv zeta in V. rewrite Ek in V. cbv zeta.
  unfold GroupPlan.q_run. rewrite <- V. cbn [q_man q_param q_on q_kernels q_ids q_terms].
  set (q := ia_css_program_group_manifest_get_prgrm_mnfst s man i).
  destruct (manifest_counts_range s q) as [H1 H2].
  assert (L : forall (f : Z -> Z) n, 0 <= n ->
    Z.of_nat (length (map f (range 0 n))) = n
    /\ forall d, 0 <= d < n -> at_ (map f (range 0 n)) d = f d).
  { intros f n Hn. unfold range. rewrite length_map, length_seqZ. split; [lia |].
    intros d Hd. unfold at_. rewrite nth_lookup, list_lookup_fmap, lookup_seqZ_lt by lia.
    cbn. f_equal. lia. }
  destruct (L (fun d => ia_css_program_manifest_get_program_ID s
    (ia_css_program_group_manifest_get_prgrm_mnfst s man
      (ia_css_program_manifest_get_program_dependency s q d))) _ (proj1 H1)) as [L1 A1].
  destruct (L (ia_css_program_manifest_get_terminal_dependency s q) _ (proj1 H2)) as [L2 A2].
  rewrite L1, L2. repeat (split; [reflexivity |]). split; intros d Hd; [rewrite A1 | rewrite A2]; auto.
Qed.

(** ** The search among processes and among terminals *)

Lemma process_room i :
  0 <= i < NQ -> q_run i = true ->
  12 <= process_extent (ext i) 0 0
  /\ process_extent (ext i) 0 0 <= process_extent (ext i) (pd i) (td i) <= q_size (Q i)
  /\ q_place (i + 1) = q_place i + q_size (Q i) /\ q_place (i + 1) <= room
  /\ 120 + 2 * rank q_run NQ <= terminal_tab /\ terminal_tab <= terminal_tab + 2 * rank t_run NT <= t_place 0
  /\ t_place 0 <= t_place NT /\ t_place NT <= q_place i
  /\ 0 <= rank q_run i < rank q_run NQ /\ rank q_run NQ < 256.
Proof.
  intros Hi Hon. destruct (cr_program m man param g i Hi) as (_ & _ & H). destruct (H Hon) as (Hx & _).
  pose proof (q_place_succ m man param i ltac:(lia)) as E. rewrite Hon in E.
  destruct (places m man param) as (L1 & L2 & L3).
  pose proof (NT_range m man). pose proof (NQ_range m man).
  pose proof (t_place_mono m man param 0 NT ltac:(lia)).
  pose proof (q_place_mono m man param 0 i ltac:(lia)).
  pose proof (q_place_mono m man param (i + 1) NQ ltac:(lia)).
  pose proof (rank_lt q_run i NQ ltac:(lia) Hon). pose proof (rank_le q_run i ltac:(lia)).
  pose proof (rank_le q_run NQ ltac:(lia)). pose proof (rank_le t_run NT ltac:(lia)).
  unfold group_room. unfold process_extent in *. destruct (ext i); lia.
Qed.

(** The processes before [i], as the search reads them. *)
Definition listed (s : mem) (i : Z) (js : list Z) : Prop :=
  Forall (fun j => 0 <= j < i /\ q_run j = true
    /\ rd s (g + process_tab) (elt (U16 0) (rank q_run j)) = q_place j
    /\ rd s (g + q_place j) pr.ID = q_ID (Q j)) js.

(** Stores in the lists of process [i] leave all that alone. *)
Lemma listed_keep s s' i js lo :
  0 <= i < NQ -> q_run i = true -> g + q_place i <= lo ->
  same_outside lo (g + room) s s' -> listed s i js -> listed s' i js.
Proof.
  intros Hi Hon Hlo S. apply Forall_impl. intros j (Hj & Oj & E1 & E2).
  destruct (process_room i Hi Hon) as (X1 & X2 & X3 & X4 & X5 & X6 & X7 & X8 & X9 & X10).
  destruct (process_room j ltac:(lia) Oj) as (Y1 & Y2 & Y3 & Y4 & Y5 & Y6 & Y7 & Y8 & Y9 & Y10).
  pose proof (q_place_mono m man param (j + 1) i ltac:(lia)).
  pose proof (process_extent_lists (ext j) (pd j) (td j) 0) as Z1.
  assert (process_extent (ext j) 0 0 <= process_extent (ext j) (pd j) (td j)) by (unfold process_extent; lia).
  split; [exact Hj |]. split; [exact Oj |].
  rewrite !(rd_same_outside _ _ _ _ _ _ S); [auto | left; unfold process_tab, sizeof_ia_css_process_group_t; cbn; lia ..].
Qed.

Lemma header_keep s s' lo hi :
  g + 112 <= lo -> same_outside lo hi s s' -> header_made s -> header_made s'.
Proof.
  intros Hlo S [H1 H2 H3 H4].
  constructor; rewrite (rd_same_outside _ _ _ _ _ _ S); auto; left; cbn; lia.
Qed.

(** The layout of a process does not depend on its parent and its cell. *)
Definition layout_byte (f : field) : Prop :=
  2 <= f_off f /\ f_off f + Z.of_nat (f_len f) <= 12 /\ (f_off f + Z.of_nat (f_len f) <= 9 \/ 10 <= f_off f).

Lemma blob_ext s s' p x a b :
  (forall f, layout_byte f -> rd s' p f = rd s p f) -> process_blob s p x a b -> process_blob s' p x a b.
Proof.
  intros R [B1 B2 B3 B4 B5 B6 B7 B8 B9 B10 B11].
  unfold ia_css_process_get_extension, ia_css_process_get_cell_dependency_count,
    ia_css_process_get_terminal_dependency_count in *.
  split; unfold ia_css_process_get_extension, ia_css_process_get_cell_dependency_count,
    ia_css_process_get_terminal_dependency_count; rewrite ?R by (unfold layout_byte; mem_out); assumption.
Qed.

Lemma blob_keep s s' p x a b lo hi :
  p + 12 <= lo -> same_outside lo hi s s' -> process_blob s p x a b -> process_blob s' p x a b.
Proof.
  intros Hlo S. apply blob_ext. intros f (H1 & H2 & _). apply (rd_same_outside _ _ _ _ _ _ S). lia.
Qed.

Lemma listed_process s i j js :
  header_made s -> listed s i js -> j ∈ js -> i <= NQ ->
  ia_css_process_group_get_process s g (rank q_run j) = g + q_place j
  /\ ia_css_process_get_program_ID s (g + q_place j) = q_ID (Q j)
  /\ 0 <= rank q_run j < 256.
Proof.
  intros H L Hj Hi. unfold listed in L. rewrite Forall_forall in L. destruct (L j (proj1 (list_elem_of_In _ _) Hj)) as (B & O & E1 & E2).
  destruct (process_room j ltac:(lia) O) as (X1 & X2 & X3 & X4 & X5 & X6 & X7 & X8 & X9 & X10).
  pose proof (cr_g m man param g) as Hg.
  unfold ia_css_process_group_get_process, ia_css_process_get_program_ID.
  rewrite (not_null g Hg), (hm_processes _ H), (proj2 (Z.ltb_lt _ _)), (hm_process_tab _ H) by lia.
  cbv zeta. rewrite E1, (not_null (g + q_place j)) by lia. split; [reflexivity |]. split; [exact E2 | lia].
Qed.

Lemma find_dependency_run i d id js : forall s,
  0 <= i < NQ -> q_run i = true -> 0 <= d < pd i ->
  let p := g + q_place i in
  let c := p + process_extent (ext i) d 0 in
  header_made s -> process_blob s p (ext i) (pd i) (td i) -> listed s i js -> rd s c (U8 0) = 0 ->
  exists s', find_dependency g p d id (map (rank q_run) js) s = (Some tt, s')
    /\ same_outside c (c + 1) s s'
    /\ rd s' c (U8 0) = match List.find (fun j => q_ID (Q j) =? id) js with
                        | Some j => rank q_run j | None => 0 end.
Proof.
  intros s Hi Hon Hd p c. revert s.
  destruct (process_room i Hi Hon) as (X1 & X2 & X3 & X4 & X5 & X6 & X7 & X8 & X9 & X10).
  assert (Hc : p + 12 <= c /\ c + 1 <= g + room).
  { subst c p. unfold process_extent in *. destruct (ext i); lia. }
  pose proof (cr_g m man param g) as Hg.
  assert (F : forall s v, same_outside c (c + 1) s (wr s c (U8 0) v))
    by (intros s v; apply wr_same_outside; cbn; lia).
  induction js as [| j js IH]; intros s H B L Z0.
  - exists s. split; [reflexivity |]. split; [apply same_outside_refl | exact Z0].
  - destruct (listed_process s i j (j :: js) H L) as (E1 & _ & Rj); [left | lia |].
    set (s1 := wr s c (U8 0) 0).
    assert (L1 : listed s1 i (j :: js)).
    { apply (listed_keep s s1 i _ c Hi Hon); [lia | | exact L].
      eapply same_outside_weaken; [reflexivity | | apply F]; lia. }
    assert (H1 : header_made s1) by (eapply header_keep; [| apply F | exact H]; lia).
    assert (B1 : process_blob s1 p (ext i) (pd i) (td i)) by (eapply blob_keep; [| apply F | exact B]; lia).
    destruct (listed_process s1 i j (j :: js) H1 L1) as (_ & E2 & _); [left | lia |].
    cbn [map find_dependency List.find]. mrun. rewrite E1.
    rewrite (set_cell_dependency_run _ _ _ _ _ _ _ B) by lia. fold c. fold s1. rewrite E2.
    destruct (Z.eqb_spec (q_ID (Q j)) id) as [_ | _].
    + rewrite (set_cell_dependency_run _ _ _ _ _ _ _ B1) by lia. fold c.
      eexists. split; [reflexivity |]. split; [eapply same_outside_trans; apply F |].
      rewrite rd_wr_same. apply f_conv_U8. lia.
    + destruct (IH s1 H1 B1) as (s' & E & S' & V).
      * inversion L1; assumption.
      * subst s1. rewrite rd_wr_same. reflexivity.
      * exists s'. split; [exact E |]. split; [eapply same_outside_trans; [apply F | exact S'] | exact V].
Qed.

Lemma terminals_keep s s' lo hi :
  g + t_place NT <= lo -> same_outside lo hi s s' ->
  terminals_made m man param g s NT -> terminals_made m man param g s' NT.
Proof.
  intros Hlo S D j Hj Oj. destruct (places m man param) as (L1 & L2 & L3).
  pose proof (t_place_mono m man param 0 j ltac:(lia)).
  pose proof (t_place_mono m man param (j + 1) NT ltac:(lia)).
  pose proof (rank_lt t_run j NT ltac:(lia) Oj).
  apply (terminal_keep m man param g (fun a => (lo <=? a) && (a <? hi)) s s' j Hj Oj); [| | apply D; auto].
  - eapply same_outside_except; [| exact S]. intros a Ha. rewrite andb_true_iff, Z.leb_le, Z.ltb_lt. exact Ha.
  - intros a. unfold t_bytes_of. rewrite orb_true_iff, andb_false_iff, !andb_true_iff, !Z.leb_le, !Z.ltb_lt, Z.leb_gt. lia.
Qed.

Lemma find_terminal_run i d k js : forall s,
  0 <= i < NQ -> q_run i = true -> 0 <= d < td i ->
  let p := g + q_place i in
  let c := p + process_extent (ext i) (pd i) d in
  header_made s -> process_blob s p (ext i) (pd i) (td i) -> terminals_made m man param g s NT ->
  Forall (fun j => 0 <= j < NT /\ t_run j = true) js -> rd s c (U8 0) = 0 ->
  exists s', find_terminal g p d k (map (rank t_run) js) s = (Some tt, s')
    /\ same_outside c (c + 1) s s'
    /\ rd s' c (U8 0) = match List.find (fun j => j =? k) js with Some j => rank t_run j | None => 0 end.
Proof.
  intros s Hi Hon Hd p c H B D L Z0.
  destruct (process_room i Hi Hon) as (X1 & X2 & X3 & X4 & X5 & X6 & X7 & X8 & X9 & X10).
  assert (Hc : p + 12 <= c /\ c + 1 <= g + room).
  { subst c p. unfold process_extent in *. destruct (ext i); lia. }
  pose proof (cr_g m man param g) as Hg. pose proof (NT_range m man) as HNT.
  induction L as [| j js [Hj Oj] L IH].
  - exists s. split; [reflexivity |]. split; [apply same_outside_refl | exact Z0].
  - pose proof (rank_lt t_run j NT ltac:(lia) Oj) as Rj. pose proof (rank_le t_run j ltac:(lia)) as Rj'.
    pose proof (rank_le t_run NT ltac:(lia)) as RNT.
    pose proof (t_place_mono m man param 0 j ltac:(lia)).
    destruct (D j Hj Oj) as [D1 _ _ D3 _ _].
    assert (E : ia_css_process_group_get_terminal s g (rank t_run j) = g + t_place j).
    { unfold ia_css_process_group_get_terminal.
      rewrite (not_null g Hg), (hm_terminals _ H), (proj2 (Z.ltb_lt _ _)), (hm_terminal_tab _ H) by lia.
      cbv zeta. rewrite D1. reflexivity. }
    cbn [map find_terminal List.find]. mrun. rewrite E, D3.
    destruct (j =? k).
    + rewrite (set_terminal_dependency_run _ _ _ _ _ _ _ B) by lia. fold c.
      eexists. split; [reflexivity |]. split; [apply wr_same_outside; cbn; lia |].
      rewrite rd_wr_same. apply f_conv_U8. lia.
    + exact IH.
Qed.

(** A loop that sets one byte at a time. *)
Lemma fill_run (body : Z -> unit -> M mem unit) (f : Z -> Z) (I : mem -> Prop) b n s :
  0 <= n -> I s -> (forall d, 0 <= d < n -> rd s (b + d) (U8 0) = 0) ->
  (forall s s', I s -> same_outside b (b + n) s s' -> I s') ->
  (forall d s, 0 <= d < n -> I s -> rd s (b + d) (U8 0) = 0 ->
     exists s', body d tt s = (Some tt, s') /\ same_outside (b + d) (b + d + 1) s s'
                /\ rd s' (b + d) (U8 0) = f d) ->
  exists s', for_each (range 0 n) tt body s = (Some tt, s') /\ same_outside b (b + n) s s'
    /\ forall d, 0 <= d < n -> rd s' (b + d) (U8 0) = f d.
Proof.
  intros Hn HI HZ HK HB.
  destruct (for_range_inv (fun d _ t => same_outside b (b + d) s t
      /\ forall e, 0 <= e < d -> rd t (b + e) (U8 0) = f e) 0 n tt body s)
    as ([] & s' & E & S & V); [lia | | | exists s'; auto].
  - split; [apply same_outside_refl | intros e He; lia].
  - intros d [] t Hd [S V].
    destruct (HB d t Hd) as (t' & E & S' & V').
    + apply (HK s); [exact HI |]. eapply same_outside_weaken; [| | exact S]; lia.
    + rewrite (rd_same_outside _ _ _ _ _ _ S) by (right; cbn; lia). apply HZ, Hd.
    + exists tt, t'. split; [exact E |]. split.
      * eapply same_outside_trans; eapply same_outside_weaken; [| | exact S | | | exact S']; lia.
      * intros e He. destruct (Z.eq_dec e d) as [-> | Hne]; [exact V' |].
        rewrite (rd_same_outside _ _ _ _ _ _ S') by (cbn; lia). apply V. lia.
Qed.

(** ** The two dependency loops of one process *)

(** What they rely on. *)
Record resolvable (s : mem) (i : Z) : Prop := {
  rs_writes : same_except writes m s;
  rs_header : header_made s;
  rs_blob : process_blob s (g + q_place i) (ext i) (pd i) (td i);
  rs_listed : listed s i (List.filter q_run (range 0 i));
  rs_terminals : terminals_made m man param g s NT
}.

Lemma resolvable_keep s s' i lo hi :
  0 <= i < NQ -> q_run i = true -> g + q_place i + 12 <= lo -> hi <= g + room ->
  same_outside lo hi s s' -> resolvable s i -> resolvable s' i.
Proof.
  intros Hi Hon Hlo Hhi S [W H B L D].
  destruct (process_room i Hi Hon) as (X1 & X2 & X3 & X4 & X5 & X6 & X7 & X8 & X9 & X10).
  constructor.
  - eapply same_except_trans; [exact W |]. eapply same_outside_except; [| exact S].
    intros a Ha. apply writes_group. lia.
  - eapply header_keep; [| exact S | exact H]. lia.
  - eapply blob_keep; [| exact S | exact B]. lia.
  - apply (listed_keep s s' i _ lo Hi Hon); [lia | | exact L].
    eapply same_outside_weaken; [| | exact S]; lia.
  - eapply terminals_keep; [| exact S | exact D]. lia.
Qed.

Lemma program_dependencies_run i s :
  0 <= i < NQ -> q_run i = true -> resolvable s i ->
  let p := g + q_place i in
  let b := p + process_extent (ext i) 0 0 in
  (forall d, 0 <= d < pd i -> rd s (b + d) (U8 0) = 0) ->
  exists s', for_each (range 0 (pd i)) tt
      (resolve_program_dependency g p man (q_man (Q i)) (rank q_run i)) s = (Some tt, s')
    /\ same_outside b (b + pd i) s s'
    /\ forall d, 0 <= d < pd i -> rd s' (b + d) (U8 0) = process_with i (at_ (q_ids (Q i)) d).
Proof.
  intros Hi Hon R p b Z0.
  destruct (process_room i Hi Hon) as (X1 & X2 & X3 & X4 & X5 & X6 & X7 & X8 & X9 & X10).
  pose proof (process_extent_lists (ext i) 0 0 (pd i)) as [Y1 _].
  destruct (cr_program m man param g i Hi) as (_ & _ & C). destruct (C Hon) as (_ & Hids & _).
  assert (Hx : process_extent (ext i) 0 0 + pd i <= q_size (Q i)) by (unfold process_extent in *; lia).
  apply (fill_run _ (fun d => process_with i (at_ (q_ids (Q i)) d)) (fun s => resolvable s i));
    [lia | exact R | exact Z0 | |].
  - intros t t' Rt S. eapply (resolvable_keep t t'); eauto; lia.
  - intros d t Hd Rt Zd. pose proof (process_extent_lists (ext i) 0 0 d) as [Yd _].
    destruct (program_plan_at t i (rs_writes _ _ Rt) Hi) as (_ & _ & _ & _ & _ & _ & V & _).
    unfold resolve_program_dependency. mrun. rewrite (V d Hd).
    assert (N : at_ (q_ids (Q i)) d <> 0).
    { rewrite Forall_forall in Hids. apply Hids. unfold at_. apply nth_In. lia. }
    rewrite (proj2 (Z.eqb_neq _ _) N). cbn [negb].
    rewrite <- (rank_list q_run i) by lia.
    replace (b + d) with (p + process_extent (ext i) d 0) in * by (subst b; lia).
    destruct (find_dependency_run i d (at_ (q_ids (Q i)) d) (List.filter q_run (range 0 i)) t Hi Hon Hd)
      as (t' & E & S & Vd); try apply Rt; [exact Zd |]. fold p in E, S, Vd.
    exists t'. auto.
Qed.

Lemma terminal_dependencies_run i s :
  0 <= i < NQ -> q_run i = true -> resolvable s i ->
  let p := g + q_place i in
  let b := p + process_extent (ext i) (pd i) 0 in
  (forall d, 0 <= d < td i -> rd s (b + d) (U8 0) = 0) ->
  exists s', for_each (range 0 (td i)) tt
      (resolve_terminal_dependency g p (q_man (Q i)) NT (rank t_run NT)) s = (Some tt, s')
    /\ same_outside b (b + td i) s s'
    /\ forall d, 0 <= d < td i -> rd s' (b + d) (U8 0) = terminal_of (at_ (q_terms (Q i)) d).
Proof.
  intros Hi Hon R p b Z0.
  destruct (process_room i Hi Hon) as (X1 & X2 & X3 & X4 & X5 & X6 & X7 & X8 & X9 & X10).
  destruct (cr_program m man param g i Hi) as (_ & _ & C). destruct (C Hon) as (_ & _ & Hts & _).
  assert (Hx : process_extent (ext i) 0 0 <= process_extent (ext i) (pd i) 0
               /\ process_extent (ext i) (pd i) 0 + td i <= q_size (Q i)) by (unfold process_extent in *; lia).
  apply (fill_run _ (fun d => terminal_of (at_ (q_terms (Q i)) d)) (fun s => resolvable s i));
    [lia | exact R | exact Z0 | |].
  - intros t t' Rt S. eapply (resolvable_keep t t'); eauto; lia.
  - intros d t Hd Rt Zd.
    destruct (program_plan_at t i (rs_writes _ _ Rt) Hi) as (_ & _ & _ & _ & _ & _ & _ & V).
    unfold resolve_terminal_dependency. mrun. rewrite (V d Hd).
    assert (N : 0 <= at_ (q_terms (Q i)) d < NT).
    { rewrite Forall_forall in Hts. apply Hts. unfold at_. apply nth_In. lia. }
    rewrite (proj2 (Z.ltb_lt _ _)) by lia. rewrite <- (rank_list t_run NT) by (apply NT_range).
    replace (b + d) with (p + process_extent (ext i) (pd i) d) in * by (subst b; unfold process_extent; lia).
    destruct (find_terminal_run i d (at_ (q_terms (Q i)) d) (List.filter t_run (range 0 NT)) t Hi Hon Hd)
      as (t' & E & S & Vd); try apply Rt; [| exact Zd |].
    + apply Forall_forall. intros j Hj. apply filter_In in Hj. destruct Hj as [Hj O].
      split; [apply elem_of_range, list_elem_of_In, Hj | exact O].
    + fold p in E, S, Vd. exists t'. auto.
Qed.

(** ** One process *)

Definition header_cells (a : Z) : bool := (g + 96 <=? a) && (a <? g + 100).

Lemma set_cell_frame p c s :
  attached s p g -> 0 <= c ->
  exists r s', ia_css_process_set_cell p c s = (r, s')
    /\ same_except (fun a => (a =? p + 9) || header_cells a) s s'.
Proof.
  intros A Hc. rewrite (set_cell_run s p g c A Hc).
  destruct (may_set_cell s p g c); eexists _, _; (split; [reflexivity |]); [| apply same_except_refl].
  intros a Ha. apply orb_false_iff in Ha. destruct Ha as [H1 H2].
  apply Z.eqb_neq in H1. unfold header_cells in H2. rewrite andb_false_iff, Z.leb_gt, Z.ltb_ge in H2.
  unfold wr. rewrite !st_out by (cbn; lia). reflexivity.
Qed.

Definition q_bytes_of (i a : Z) : bool :=
  header_cells a
  || ((g + process_tab + 2 * rank q_run i <=? a) && (a <? g + process_tab + 2 * rank q_run i + 2))
  || ((g + q_place i <=? a) && (a <? g + q_place (i + 1)))
  || param_bytes a.

Lemma q_bytes_writes i a :
  0 <= i < NQ -> q_run i = true -> q_bytes_of i a = true -> writes a = true.
Proof.
  intros Hi Hon H.
  destruct (process_room i Hi Hon) as (X1 & X2 & X3 & X4 & X5 & X6 & X7 & X8 & X9 & X10).
  unfold q_bytes_of, header_cells in H. rewrite !orb_true_iff, !andb_true_iff, !Z.leb_le, !Z.ltb_lt in H.
  unfold process_tab, sizeof_ia_css_process_group_t in H.
  destruct H as [H | H]; [apply writes_group; lia |].
  unfold GroupLoops.writes. rewrite H. apply orb_true_r.
Qed.

(** The bitmap stored into the parameters of program [i]. *)
Lemma param_bitmap_frame i s b :
  0 <= i < NQ -> same_except param_bytes s (wr_kb s (q_param (Q i)) pp.kernel_enable_bitmap b).
Proof.
  intros Hi. eapply same_outside_except; [| apply wr_kb_same_outside; [apply Z.le_refl | apply Z.le_refl]].
  intros a Ha. unfold GroupLoops.param_bytes. apply existsb_exists. exists i.
  split; [apply list_elem_of_In, elem_of_range, Hi |].
  rewrite andb_true_iff, Z.leb_le, Z.ltb_lt. cbn [f_off f_len pp.kernel_enable_bitmap U32] in Ha. lia.
Qed.

(** What the loop has at the [i]-th program. *)
Record loop_state (h : mem) (i : Z) (s : mem) : Prop := {
  ls_writes : same_except writes m s;
  ls_header : header_made s;
  ls_terminals : terminals_made m man param g s NT;
  ls_made : forall j, 0 <= j < i -> q_run j = true -> process_made s j;
  ls_zero : forall a, g + q_place i <= a < g + room -> s a = 0;
  ls_frame : same_except (fun a => header_cells a || param_bytes a
      || ((g + process_tab <=? a) && (a <? g + terminal_tab))
      || ((g + q_place 0 <=? a) && (a <? g + room))) h s
}.

Lemma made_listed s i :
  0 <= i <= NQ -> (forall j, 0 <= j < i -> q_run j = true -> process_made s j) ->
  listed s i (List.filter q_run (range 0 i)).
Proof.
  intros Hi D. apply Forall_forall. intros j Hj. apply filter_In in Hj. destruct Hj as [Hj O].
  apply list_elem_of_In, elem_of_range in Hj. destruct (D j Hj O). auto.
Qed.

(** The part of the step before the dependencies: [s4] has the process with
    its parent, [s5] also its fixed cell. *)
Record process_placed (s s5 : mem) (i : Z) : Prop := {
  pp_frame : same_except (fun a => header_cells a
      || ((g + process_tab + 2 * rank q_run i <=? a) && (a <? g + process_tab + 2 * rank q_run i + 2))
      || ((g + q_place i <=? a) && (a <? g + q_place i + process_extent (ext i) 0 0))
      || param_bytes a) s s5;
  pp_entry : rd s5 (g + process_tab) (elt (U16 0) (rank q_run i)) = q_place i;
  pp_blob : process_blob s5 (g + q_place i) (ext i) (pd i) (td i);
  pp_state : rd s5 (g + q_place i) pr.state = IA_CSS_PROCESS_READY;
  pp_size : rd s5 (g + q_place i) pr.size = q_size (Q i);
  pp_ID : rd s5 (g + q_place i) pr.ID = q_ID (Q i);
  pp_idx : rd s5 (g + q_place i) pr.program_idx = i;
  pp_parent : ia_css_process_get_parent s5 (g + q_place i) = g
}.

Lemma attach_process_run q p s :
  0 < q -> 0 < g -> g + sizeof_ia_css_process_group_t <= p <= g + 32768 ->
  exists s', attach_process p g q s = (Some tt, s')
    /\ same_except (fun a => ((p <=? a) && (a <? p + 2)) || ((a =? p + 9) || header_cells a)) s s'
    /\ rd s' p pr.parent_offset = g - p.
Proof.
  intros Hq Hg Hp. unfold sizeof_ia_css_process_group_t in Hp. unfold attach_process, ia_css_process_set_parent. mrun.
  rewrite (not_null p), (not_null g) by lia. cbn [negb].
  set (s4 := wr s p pr.parent_offset (u16 (g - p))).
  assert (F4 : same_outside p (p + 2) s s4) by (apply wr_same_outside; cbn; lia).
  assert (E4 : rd s4 p pr.parent_offset = g - p)
    by (unfold s4; rewrite rd_wr_same; apply f_conv_S16_u16; lia).
  assert (W4 : same_except (fun a => ((p <=? a) && (a <? p + 2)) || ((a =? p + 9) || header_cells a)) s s4).
  { eapply same_outside_except; [| exact F4]. intros a Ha.
    rewrite (proj2 (Z.leb_le _ _)), (proj2 (Z.ltb_lt _ _)) by lia. reflexivity. }
  destruct (ia_css_has_program_manifest_fixed_cell s4 q); [| exists s4; auto].
  assert (A : attached s4 p g).
  { constructor; [lia | lia | | right; unfold sizeof_ia_css_process_group_t; lia].
    unfold ia_css_process_get_parent. rewrite (not_null p), E4, (proj2 (Z.eqb_neq _ _)) by lia. lia. }
  destruct (set_cell_frame p (ia_css_program_manifest_get_cell_ID s4 q) s4 A) as (r & s5 & -> & F5).
  { unfold ia_css_program_manifest_get_cell_ID. rewrite (not_null q Hq). apply rd_U8_range. }
  exists s5. split; [reflexivity |]. split.
  - eapply same_except_trans; [exact W4 |]. eapply same_except_weaken; [| exact F5].
    intros a ->. apply orb_true_r.
  - rewrite <- E4. apply (rd_same_except _ _ _ _ _ F5). intros a Ha. cbn in Ha.
    unfold header_cells. rewrite orb_false_iff, Z.eqb_neq, andb_false_iff, Z.leb_gt, Z.ltb_ge. lia.
Qed.

Lemma place_process_run i s :
  0 <= i < NQ -> q_run i = true -> same_except writes m s ->
  let p := g + q_place i in
  let s1 := wr s (g + process_tab) (elt (U16 0) (rank q_run i)) (q_place i) in
  let s2 := wr_kb s1 (q_param (Q i)) pp.kernel_enable_bitmap (q_kernels (Q i)) in
  same_except writes m s1
  /\ exists s3 s5, ia_css_process_create p (q_man (Q i)) (q_param (Q i)) i s2 = (p, s3)
    /\ attach_process p g (q_man (Q i)) s3 = (Some tt, s5) /\ process_placed s s5 i.
Proof.
  intros Hi Hon Ss p s1 s2.
  destruct (process_room i Hi Hon) as (X1 & X2 & X3 & X4 & X5 & X6 & X7 & X8 & X9 & X10).
  destruct (cr_program m man param g i Hi) as (Hman & _ & C). destruct (C Hon) as (_ & _ & _ & C').
  pose proof (cr_g m man param g) as Hg. pose proof (cr_room m man param g) as Hroom.
  set (x0 := process_extent (ext i) 0 0) in *.
  set (W := fun a => header_cells a
      || ((g + process_tab + 2 * rank q_run i <=? a) && (a <? g + process_tab + 2 * rank q_run i + 2))
      || ((p <=? a) && (a <? p + x0)) || param_bytes a).
  assert (WW : forall a, W a = true -> writes a = true).
  { intros a Ha. apply (q_bytes_writes i); auto. unfold W in Ha. unfold q_bytes_of.
    rewrite !orb_true_iff, !andb_true_iff, !Z.leb_le, !Z.ltb_lt in *. fold p. intuition lia. }
  assert (F1 : same_except W s s1).
  { eapply same_outside_except; [| apply wr_same_outside; [apply Z.le_refl | apply Z.le_refl]].
    intros a Ha. cbn [f_off f_len elt U16] in Ha. unfold W. rewrite !orb_true_iff, !andb_true_iff, !Z.leb_le, !Z.ltb_lt. lia. }
  assert (F2 : same_except W s1 s2).
  { eapply same_except_weaken; [| apply (param_bitmap_frame i); exact Hi]. intros a Ha. unfold W. rewrite Ha. apply orb_true_r. }
  assert (S1 : same_except writes m s1) by (eapply same_except_trans; [exact Ss | eapply same_except_weaken; eassumption]).
  split; [exact S1 |].
  destruct (C' s2) as (s3 & E3 & F3 & B3 & St3 & Sz3 & ID3 & Ix3).
  { eapply same_except_trans; [exact S1 | eapply same_except_weaken; eassumption]. }
  destruct (attach_process_run (q_man (Q i)) p s3 Hman Hg) as (s5 & E5 & F5 & P5).
  { unfold sizeof_ia_css_process_group_t. lia. }
  exists s3, s5. split; [exact E3 |]. split; [exact E5 |]. fold p x0 in F3, B3, St3, Sz3, ID3, Ix3.
  assert (F3' : same_except W s2 s3).
  { eapply same_outside_except; [| exact F3]. intros a Ha. unfold W.
    rewrite !orb_true_iff, !andb_true_iff, !Z.leb_le, !Z.ltb_lt. lia. }
  assert (F5' : same_except W s3 s5).
  { eapply same_except_weaken; [| exact F5]. intros a Ha. unfold W.
    rewrite !orb_true_iff, !andb_true_iff, !Z.leb_le, !Z.ltb_lt, ?Z.eqb_eq in *. intuition lia. }
  assert (R : forall f, layout_byte f -> rd s5 p f = rd s3 p f).
  { intros f (H1 & H2 & H3). apply (rd_same_except _ _ _ _ _ F5). intros a Ha. unfold header_cells.
    rewrite !orb_false_iff, !andb_false_iff, !Z.leb_gt, !Z.ltb_ge, Z.eqb_neq. lia. }
  unfold ia_css_process_get_state, ia_css_process_get_size, ia_css_process_get_program_ID,
    ia_css_process_get_program_idx in St3, Sz3, ID3, Ix3.
  rewrite (not_null p) in St3, Sz3, ID3, Ix3 by lia.
  constructor; fold p.
  - exact (same_except_trans _ _ _ _ F1 (same_except_trans _ _ _ _ F2 (same_except_trans _ _ _ _ F3' F5'))).
  - transitivity (rd s1 (g + process_tab) (elt (U16 0) (rank q_run i))).
    2: { unfold s1. rewrite rd_wr_same. apply u16_small. lia. }
    transitivity (rd s3 (g + process_tab) (elt (U16 0) (rank q_run i)));
      [apply (rd_same_except _ _ _ _ _ F5) | transitivity (rd s2 (g + process_tab) (elt (U16 0) (rank q_run i)));
        [apply (rd_same_outside _ _ _ _ _ _ F3) | apply (rd_same_except _ _ _ _ _ (param_bitmap_frame i s1 _ Hi))]];
      unfold process_tab, sizeof_ia_css_process_group_t; cbn [f_off f_len elt U16].
    + intros a Ha. unfold header_cells.
      rewrite !orb_false_iff, !andb_false_iff, !Z.leb_gt, !Z.ltb_ge, Z.eqb_neq. lia.
    + lia.
    + intros a Ha. apply (cr_params m man param g). lia.
  - eapply blob_ext; [exact R | exact B3].
  - rewrite R by (unfold layout_byte; cbn; lia). exact St3.
  - rewrite R by (unfold layout_byte; cbn; lia). exact Sz3.
  - rewrite R by (unfold layout_byte; cbn; lia). exact ID3.
  - rewrite R by (unfold layout_byte; cbn; lia). exact Ix3.
  - unfold ia_css_process_get_parent. rewrite (not_null p), P5, (proj2 (Z.eqb_neq _ _)) by lia. lia.
Qed.

Lemma placed_resolvable h s s5 i :
  0 <= i < NQ -> q_run i = true -> loop_state h i s -> process_placed s s5 i -> resolvable s5 i.
Proof.
  intros Hi Hon L Pl.
  destruct (process_room i Hi Hon) as (X1 & X2 & X3 & X4 & X5 & X6 & X7 & X8 & X9 & X10).
  pose proof (cr_params m man param g) as Hpar. pose proof (pp_frame _ _ _ Pl) as F.
  assert (K : forall a, g <= a < g + room ->
    (a < g + 96 \/ g + 100 <= a) -> (a < g + 120 + 2 * rank q_run i \/ g + 120 + 2 * rank q_run i + 2 <= a) ->
    (a < g + q_place i \/ g + q_place i + process_extent (ext i) 0 0 <= a) -> s5 a = s a).
  { intros a H1 H2 H3 H4. apply F. rewrite Hpar by exact H1. unfold header_cells, process_tab, sizeof_ia_css_process_group_t.
    rewrite !orb_false_iff, !andb_false_iff, !Z.leb_gt, !Z.ltb_ge. intuition lia. }
  assert (KR : forall q f, (forall a, q + f_off f <= a < q + f_off f + Z.of_nat (f_len f) ->
      g <= a < g + room /\ (a < g + 96 \/ g + 100 <= a)
      /\ (a < g + 120 + 2 * rank q_run i \/ g + 120 + 2 * rank q_run i + 2 <= a)
      /\ (a < g + q_place i \/ g + q_place i + process_extent (ext i) 0 0 <= a)) -> rd s5 q f = rd s q f).
  { intros q f H. unfold rd. rewrite (ld_ext _ s5 s); [reflexivity |]. intros a Ha. unfold byte_at.
    destruct (H a Ha) as (H1 & H2 & H3 & H4). rewrite K by assumption. reflexivity. }
  constructor.
  - eapply same_except_trans; [exact (ls_writes _ _ _ L) |]. eapply same_except_weaken; [| exact F].
    intros a Ha. apply (q_bytes_writes i); auto. unfold q_bytes_of.
    rewrite !orb_true_iff, !andb_true_iff, !Z.leb_le, !Z.ltb_lt in *. intuition lia.
  - destruct (ls_header _ _ _ L) as [H1 H2 H3 H4].
    constructor; rewrite KR; auto; intros a Ha; cbn [f_off f_len pg.process_count pg.processes_offset pg.terminal_count pg.terminals_offset U8 U16] in Ha; lia.
  - exact (pp_blob _ _ _ Pl).
  - pose proof (made_listed s i ltac:(lia) (ls_made _ _ _ L)) as M. unfold listed in M |- *.
    eapply Forall_impl; [| exact M]. intros j (Hj & Oj & E1 & E2).
    destruct (process_room j ltac:(lia) Oj) as (Y1 & Y2 & Y3 & Y4 & Y5 & Y6 & Y7 & Y8 & Y9 & Y10).
    pose proof (q_place_mono m man param (j + 1) i ltac:(lia)). pose proof (rank_lt q_run j i ltac:(lia) Oj).
    split; [exact Hj |]. split; [exact Oj |].
    rewrite !KR; [auto | intros a Ha; unfold process_tab, sizeof_ia_css_process_group_t in *; cbn [f_off f_len pr.ID elt U8 U16] in Ha; lia ..].
  - intros j Hj Oj. apply (terminal_keep m man param g _ s s5 j Hj Oj F); [| apply (ls_terminals _ _ _ L); auto].
    intros a Ha.
    pose proof (t_place_mono m man param 0 j ltac:(lia)). pose proof (t_place_mono m man param (j + 1) NT ltac:(lia)).
    pose proof (rank_lt t_run j NT ltac:(lia) Oj). pose proof (rank_le t_run j ltac:(lia)).
    unfold t_bytes_of in Ha. rewrite orb_true_iff, !andb_true_iff, !Z.leb_le, !Z.ltb_lt in Ha.
    rewrite Hpar by lia. unfold header_cells, process_tab, sizeof_ia_css_process_group_t.
    rewrite !orb_false_iff, !andb_false_iff, !Z.leb_gt, !Z.ltb_ge. intuition lia.
Qed.

Lemma placed_zero h s s5 i a :
  0 <= i < NQ -> q_run i = true -> loop_state h i s -> process_placed s s5 i ->
  g + q_place i + process_extent (ext i) 0 0 <= a < g + room -> rd s5 a (U8 0) = 0.
Proof.
  intros Hi Hon L Pl Ha.
  destruct (process_room i Hi Hon) as (X1 & X2 & X3 & X4 & X5 & X6 & X7 & X8 & X9 & X10).
  apply rd_zero; [reflexivity |]. intros b Hb. cbn [f_off f_len U8] in Hb. replace b with a by lia.
  rewrite (pp_frame _ _ _ Pl a); [apply (ls_zero _ _ _ L); lia |].
  rewrite (cr_params m man param g) by lia. unfold header_cells, process_tab, sizeof_ia_css_process_group_t.
  rewrite !orb_false_iff, !andb_false_iff, !Z.leb_gt, !Z.ltb_ge. intuition lia.
Qed.

(** The dependency loops keep what [process_placed] says of the header and
    the table. *)
Lemma placed_made s s5 s7 i :
  0 <= i < NQ -> q_run i = true -> process_placed s s5 i ->
  same_outside (g + q_place i + process_extent (ext i) 0 0)
    (g + q_place i + process_extent (ext i) (pd i) (td i)) s5 s7 ->
  (forall d, 0 <= d < pd i -> rd s7 (g + q_place i + process_extent (ext i) d 0) (U8 0)
     = process_with i (at_ (q_ids (Q i)) d)) ->
  (forall d, 0 <= d < td i -> rd s7 (g + q_place i + process_extent (ext i) (pd i) d) (U8 0)
     = terminal_of (at_ (q_terms (Q i)) d)) ->
  same_except (q_bytes_of i) s s7 /\ process_made s7 i.
Proof.
  intros Hi Hon Pl S Vp Vt.
  destruct (process_room i Hi Hon) as (X1 & X2 & X3 & X4 & X5 & X6 & X7 & X8 & X9 & X10).
  destruct Pl as [F E B St Sz ID Ix Pa].
  assert (R : forall f, 0 <= f_off f -> f_off f + Z.of_nat (f_len f) <= 12 ->
            rd s7 (g + q_place i) f = rd s5 (g + q_place i) f)
    by (intros f H1 H2; apply (rd_same_outside _ _ _ _ _ _ S); lia).
  split.
  - apply (same_except_trans _ _ s5).
    + eapply same_except_weaken; [| exact F]. intros a Ha. unfold q_bytes_of.
      rewrite !orb_true_iff, !andb_true_iff, !Z.leb_le, !Z.ltb_lt in *. intuition lia.
    + eapply same_outside_except; [| exact S]. intros a Ha. unfold q_bytes_of.
      rewrite !orb_true_iff, !andb_true_iff, !Z.leb_le, !Z.ltb_lt. lia.
  - constructor; [| | | | | | | exact Vp | exact Vt].
    + rewrite (rd_same_outside _ _ _ _ _ _ S); [exact E |]. left.
      unfold process_tab, sizeof_ia_css_process_group_t. cbn [f_off f_len elt U16]. lia.
    + eapply blob_keep; [| exact S | exact B]. lia.
    + rewrite R by mem_out. exact St.
    + rewrite R by mem_out. exact Sz.
    + rewrite R by mem_out. exact ID.
    + rewrite R by mem_out. exact Ix.
    + rewrite <- Pa at 2. unfold ia_css_process_get_parent. rewrite !R by mem_out. reflexivity.
Qed.

Lemma process_step h i s :
  0 <= i < NQ -> q_run i = true -> loop_state h i s ->
  exists s', create_process_step g man param (g + process_tab) (rank q_run NQ) (rank t_run NT) NT kernels
               i (g + q_place i, rank q_run i) s
             = (Some (g + q_place (i + 1), rank q_run (i + 1)), s')
    /\ same_except (q_bytes_of i) s s' /\ process_made s' i.
Proof.
  intros Hi Hon L.
  destruct (process_room i Hi Hon) as (X1 & X2 & X3 & X4 & X5 & X6 & X7 & X8 & X9 & X10).
  destruct (cr_program m man param g i Hi) as (Hman & Hpp & _).
  pose proof (cr_g m man param g) as Hg.
  destruct (program_plan_at s i (ls_writes _ _ _ L) Hi) as (E1 & E2 & E3 & _).
  destruct (place_process_run i s Hi Hon (ls_writes _ _ _ L)) as (S1 & s3 & s5 & Ec & Ea & Pl).
  destruct (program_plan_at _ i S1 Hi) as (_ & _ & _ & E4 & _).
  pose proof (placed_resolvable h s s5 i Hi Hon L Pl) as Rs.
  pose proof (process_extent_lists (ext i) 0 0 (pd i)) as [Y1 _].
  destruct (program_dependencies_run i s5 Hi Hon Rs) as (s6 & E6 & S6 & V6).
  { intros d Hd. apply (placed_zero h s s5 i _ Hi Hon L Pl). unfold process_extent in *. lia. }
  assert (Y2 : process_extent (ext i) 0 0 + pd i = process_extent (ext i) (pd i) 0
    /\ process_extent (ext i) (pd i) 0 + td i = process_extent (ext i) (pd i) (td i))
    by (unfold process_extent; lia).
  assert (Rs6 : resolvable s6 i).
  { eapply (resolvable_keep s5 s6); eauto; [| lia]. lia. }
  destruct (terminal_dependencies_run i s6 Hi Hon Rs6) as (s7 & E7 & S7 & V7).
  { intros d Hd. rewrite (rd_same_outside _ _ _ _ _ _ S6) by (right; cbn [f_off f_len U8]; lia).
    apply (placed_zero h s s5 i _ Hi Hon L Pl). lia. }
  exists s7. split.
  - unfold create_process_step. mrun. rewrite E1, E2, (not_null (q_man (Q i))), (not_null (q_param (Q i))) by assumption.
    cbn [negb]. rewrite E3, Hon, (proj2 (Z.ltb_lt _ _)) by lia.
    replace (g + q_place i - g) with (q_place i) by lia. rewrite E4, Ec, (not_null (g + q_place i)) by lia.
    cbn [negb]. rewrite Ea.
    destruct (program_plan_at s5 i (rs_writes _ _ Rs) Hi) as (_ & _ & _ & _ & C5 & _).
    destruct (program_plan_at s6 i (rs_writes _ _ Rs6) Hi) as (_ & _ & _ & _ & _ & C6 & _).
    rewrite C5, E6, C6, E7. unfold ia_css_process_get_size. rewrite (not_null (g + q_place i)), (pp_size _ _ _ Pl) by lia.
    rewrite rank_succ, Hon, X3, u8_small by lia. do 3 f_equal. lia.
  - apply (placed_made s s5 s7 i Hi Hon Pl).
    + eapply same_outside_trans; eapply same_outside_weaken; [| | exact S6 | | | exact S7]; lia.
    + intros d Hd. pose proof (process_extent_lists (ext i) 0 0 d) as [Yd _].
      rewrite (rd_same_outside _ _ _ _ _ _ S7) by (left; cbn [f_off f_len U8]; lia).
      rewrite <- (V6 d Hd). f_equal. lia.
    + intros d Hd. rewrite <- (V7 d Hd). f_equal. unfold process_extent. lia.
Qed.

(** ** The loop *)

(** A process needs its table entry and its own bytes. *)
Lemma process_keep W s s' j :
  0 <= j < NQ -> q_run j = true -> same_except W s s' ->
  (forall a, g + process_tab + 2 * rank q_run j <= a < g + process_tab + 2 * rank q_run j + 2
             \/ g + q_place j <= a < g + q_place (j + 1) -> W a = false) ->
  process_made s j -> process_made s' j.
Proof.
  intros Hj Oj S HW [D1 D2 D3 D4 D5 D6 D7 D8 D9].
  destruct (process_room j Hj Oj) as (X1 & X2 & X3 & X4 & _).
  assert (R : forall q f, q + f_off f + Z.of_nat (f_len f) <= g + q_place (j + 1) -> g + q_place j <= q + f_off f ->
            rd s' q f = rd s q f).
  { intros q f H1 H2. apply (rd_same_except _ _ _ _ _ S). intros a Ha. apply HW. lia. }
  constructor.
  - etransitivity; [| exact D1]. apply (rd_same_except _ _ _ _ _ S). intros a Ha. apply HW. cbn [f_off f_len elt U16] in Ha. lia.
  - eapply blob_ext; [| exact D2]. intros f (H1 & H2 & _). apply R; lia.
  - rewrite R by mem_out. exact D3.
  - rewrite R by mem_out. exact D4.
  - rewrite R by mem_out. exact D5.
  - rewrite R by mem_out. exact D6.
  - etransitivity; [| exact D7]. unfold ia_css_process_get_parent. rewrite !R by mem_out. reflexivity.
  - intros d Hd. pose proof (process_extent_lists (ext j) 0 0 d) as [Yd _].
    rewrite R by (unfold process_extent in *; cbn [f_off f_len U8]; lia). apply D8, Hd.
  - intros d Hd. rewrite R by (unfold process_extent in *; cbn [f_off f_len U8]; destruct (ext j); lia). apply D9, Hd.
Qed.

Lemma step_keeps h i s s' :
  0 <= i < NQ -> q_run i = true -> loop_state h i s ->
  same_except (q_bytes_of i) s s' -> process_made s' i -> loop_state h (i + 1) s'.
Proof.
  intros Hi Hon L F D.
  destruct (process_room i Hi Hon) as (X1 & X2 & X3 & X4 & X5 & X6 & X7 & X8 & X9 & X10).
  pose proof (cr_params m man param g) as Hpar.
  pose proof (q_place_mono m man param 0 i ltac:(lia)) as Q0.
  assert (N : forall a, g <= a < g + room -> q_bytes_of i a = false <->
    (a < g + 96 \/ g + 100 <= a)
    /\ (a < g + 120 + 2 * rank q_run i \/ g + 120 + 2 * rank q_run i + 2 <= a)
    /\ (a < g + q_place i \/ g + q_place (i + 1) <= a)).
  { intros a Ha. unfold q_bytes_of, header_cells, process_tab, sizeof_ia_css_process_group_t. rewrite Hpar by exact Ha.
    rewrite !orb_false_iff, !andb_false_iff, !Z.leb_gt, !Z.ltb_ge. intuition lia. }
  destruct L as [L1 L2 L3 L4 L5 L6]. constructor.
  - eapply same_except_trans; [exact L1 |]. eapply same_except_weaken; [| exact F].
    intros a Ha. apply (q_bytes_writes i); auto.
  - destruct L2 as [H1 H2 H3 H4].
    constructor; rewrite (rd_same_except _ _ _ _ _ F); auto; intros a Ha; apply N;
      cbn [f_off f_len pg.process_count pg.processes_offset pg.terminal_count pg.terminals_offset U8 U16] in Ha; lia.
  - intros j Hj Oj. apply (terminal_keep m man param g _ s s' j Hj Oj F); [| apply L3; auto].
    intros a Ha.
    pose proof (t_place_mono m man param 0 j ltac:(lia)). pose proof (t_place_mono m man param (j + 1) NT ltac:(lia)).
    pose proof (rank_lt t_run j NT ltac:(lia) Oj). pose proof (rank_le t_run j ltac:(lia)).
    unfold t_bytes_of in Ha. rewrite orb_true_iff, !andb_true_iff, !Z.leb_le, !Z.ltb_lt in Ha. apply N; lia.
  - intros j Hj Oj. destruct (Z.eq_dec j i) as [-> | Hne]; [exact D |].
    destruct (process_room j ltac:(lia) Oj) as (Y1 & Y2 & Y3 & Y4 & Y5 & Y6 & Y7 & Y8 & Y9 & Y10).
    pose proof (rank_lt q_run j i ltac:(lia) Oj). pose proof (q_place_mono m man param (j + 1) i ltac:(lia)).
    apply (process_keep _ s s' j ltac:(lia) Oj F); [| apply L4; [lia | exact Oj]].
    unfold process_tab, sizeof_ia_css_process_group_t. intros a Ha. apply N; lia.
  - intros a Ha. rewrite F by (apply N; lia). apply L5. lia.
  - eapply same_except_trans; [exact L6 |]. eapply same_except_weaken; [| exact F].
    intros a Ha. unfold q_bytes_of in Ha. unfold process_tab, sizeof_ia_css_process_group_t in *.
    rewrite !orb_true_iff, !andb_true_iff, !Z.leb_le, !Z.ltb_lt in *. intuition lia.
Qed.

Lemma process_loop h :
  loop_state h 0 h ->
  exists s, for_each (range 0 NQ) (g + q_place 0, 0)
      (create_process_step g man param (g + process_tab) (rank q_run NQ) (rank t_run NT) NT kernels) h
      = (Some (g + q_place NQ, rank q_run NQ), s)
    /\ loop_state h NQ s.
Proof.
  intros Hh. pose proof (NQ_range m man) as HNQ.
  destruct (for_range_inv (fun i acc s => acc = (g + q_place i, rank q_run i) /\ loop_state h i s)
    0 NQ (g + q_place 0, 0)
    (create_process_step g man param (g + process_tab) (rank q_run NQ) (rank t_run NT) NT kernels) h)
    as (acc & s & E & -> & L); [lia | split; [reflexivity | exact Hh] | | exists s; auto].
  intros i acc s Hi (-> & L). destruct (q_run i) eqn:Hon.
  - destruct (process_step h i s Hi Hon L) as (s' & E & F & D).
    exists (g + q_place (i + 1), rank q_run (i + 1)), s'. split; [exact E |]. split; [reflexivity |].
    eapply step_keeps; eassumption.
  - exists (g + q_place (i + 1), rank q_run (i + 1)), s.
    destruct (program_plan_at s i (ls_writes _ _ _ L) Hi) as (E1 & E2 & E3 & _).
    destruct (cr_program m man param g i Hi) as (Hman & Hpp & _).
    pose proof (q_place_succ m man param i ltac:(lia)) as Es. rewrite Hon, Z.add_0_r in Es.
    split; [| split; [reflexivity |]].
    + unfold create_process_step. mrun. rewrite E1, E2, (not_null (q_man (Q i))), (not_null (q_param (Q i))) by assumption.
      cbn [negb]. rewrite E3, Hon, rank_succ, Hon, Es, Z.add_0_r by lia. reflexivity.
    + destruct L as [L1 L2 L3 L4 L5 L6]. constructor; auto.
      * intros j Hj Oj. apply L4; [| exact Oj]. destruct (Z.eq_dec j i) as [-> | Hne]; [congruence | lia].
      * intros a Ha. apply L5. lia.
Qed.
End Processes.
