(* ===== verification/GroupCreation.v ===== *)
(** * What process group creation promises

    The header, the two loops and the finish of [ia_css_process_group_create]
    put together. *)

From S2P Require Import Prelude Memory ResourceModel KernelBitmap ProgramGroupParam ProgramManifest ProcessGroupHeader Process ProcessCells ProcessCreate Terminal ProcessGroup TerminalManifest ProgramGroupManifest GroupSelection TerminalCreate GroupCreate GroupPlan GroupLoops GroupConditions GroupProcesses.
#[local] Open Scope css_scope.

Section Group.
Context {P : Platform} {Pok : PlatformOk P} (m : mem) (man param g : Z).

#[local] Abbreviation t_run := (GroupPlan.t_run m man param).
#[local] Abbreviation q_run := (@GroupPlan.q_run P m man param).
#[local] Abbreviation t_place := (@GroupPlan.t_place P m man param).
#[local] Abbreviation q_place := (@GroupPlan.q_place P m man param).
#[local] Abbreviation terminal_tab := (@GroupPlan.terminal_tab P m man param).
#[local] Abbreviation NT := (NT m man).
#[local] Abbreviation NQ := (NQ m man).
#[local] Abbreviation room := (@group_room P m man param).
#[local] Abbreviation plan := (@plan_of P man param m).
#[local] Abbreviation writes := (@GroupLoops.writes P m man param g).

Context `{Cr : !Creatable m man param g} (Hsize : ia_css_sizeof_process_group m man param <> 0).

Lemma view_header s :
  same_except writes m s ->
  ia_css_program_group_param_get_protocol_version s param = gp_version plan
  /\ ia_css_program_group_param_get_fragment_count s param = gp_fragments plan
  /\ ia_css_process_group_compute_process_count s man param = rank q_run NQ
  /\ ia_css_process_group_compute_terminal_count s man param = rank t_run NT
  /\ ia_css_program_group_param_get_kernel_enable_bitmap s param = gp_kernels plan
  /\ ia_css_sizeof_process_group s man param = room
  /\ ia_css_program_group_manifest_get_program_group_ID s man = gp_ID plan
  /\ ia_css_program_group_manifest_get_terminal_count s man = NT
  /\ ia_css_program_group_manifest_get_program_count s man = NQ.
Proof.
  intros S. pose proof (cr_view m man param g s S) as E.
  destruct (sizeof_group_room m man param Hsize) as (EN & EK & ES & _).
  destruct (view_parts m man param g s S) as (_ & _ & ET & EQ & _).
  split; [exact (f_equal gp_version E) |]. split; [exact (f_equal gp_fragments E) |].
  split; [rewrite <- EN; exact (f_equal gp_process_count E) |].
  split; [rewrite <- EK; exact (f_equal gp_terminal_count E) |].
  split; [exact (f_equal gp_kernels E) |].
  split; [rewrite <- ES; exact (f_equal gp_size E) |].
  split; [exact (f_equal gp_ID E) |]. split; assumption.
Qed.

(** ** The header *)

Definition zeroed (s : mem) : mem :=
  snd (ia_css_cpu_mem_set_zero g (ia_css_sizeof_process_group m man param) s).

Lemma zeroed_frame s : same_outside g (g + room) s (zeroed s).
Proof.
  destruct (sizeof_group_room m man param Hsize) as (_ & _ & E & _).
  intros a Ha. cbn. rewrite E. destruct (Z.leb_spec g a), (Z.ltb_spec a (g + room)); cbn; try reflexivity. lia.
Qed.

Lemma zeroed_zero s a : g <= a < g + room -> zeroed s a = 0.
Proof.
  destruct (sizeof_group_room m man param Hsize) as (_ & _ & E & _).
  intros Ha. cbn. rewrite E, (proj2 (Z.leb_le _ _)), (proj2 (Z.ltb_lt _ _)) by lia. reflexivity.
Qed.

(** The stores before the fragment limit. *)
Definition header_stores (s : mem) : mem :=
  let s := wr s g pg.state IA_CSS_PROCESS_GROUP_CREATED in
  let s := wr s g pg.protocol_version (gp_version plan) in
  let s := wr s g pg.fragment_count (gp_fragments plan) in
  let s := wr s g pg.process_count (rank q_run NQ) in
  let s := wr s g pg.terminal_count (rank t_run NT) in
  let s := wr_kb s g pg.kernel_bitmap (gp_kernels plan) in
  let s := wr s g pg.processes_offset process_tab in
  wr s g pg.terminals_offset terminal_tab.

Lemma header_stores_frame s : same_outside g (g + 120) s (header_stores s).
Proof.
  unfold header_stores. cbv zeta.
  repeat first [eapply same_outside_trans; [| apply wr_same_outside; mem_out]
               | eapply same_outside_trans; [| apply wr_kb_same_outside; mem_out] | apply same_outside_refl].
Qed.

Lemma view_ranges :
  0 <= gp_version plan < 256 /\ 0 <= gp_fragments plan < 256 /\ kb_wf (gp_kernels plan)
  /\ 0 <= rank q_run NQ < 256 /\ 0 <= rank t_run NT < 256
  /\ 120 <= terminal_tab /\ terminal_tab <= t_place 0 /\ t_place 0 <= t_place NT
  /\ t_place NT = q_place 0 /\ q_place 0 <= room <= 32768.
Proof.
  destruct (sizeof_group_room m man param Hsize) as (_ & _ & _ & Hman & Hpar).
  pose proof (NT_range m man). pose proof (NQ_range m man).
  pose proof (rank_le q_run NQ ltac:(lia)). pose proof (rank_le t_run NT ltac:(lia)).
  destruct (places m man param) as (L1 & L2 & L3). pose proof (t_place_mono m man param 0 NT ltac:(lia)).
  pose proof (cr_room m man param g). pose proof (q_place_mono m man param 0 NQ ltac:(lia)).
  unfold plan_of. cbn [gp_version gp_fragments gp_kernels].
  pose proof (fragment_count_range m param).
  unfold ia_css_program_group_param_get_protocol_version, ia_css_program_group_param_get_kernel_enable_bitmap.
  rewrite (proj2 (Z.eqb_neq _ _) Hpar : is_null param = false).
  pose proof (rd_U8_range m param 32) as V. change (U8 32) with pgp.protocol_version in V.
  assert (E : q_place 0 = t_place NT) by (unfold GroupPlan.q_place; change (q_bytes m man param 0) with 0; lia).
  split; [exact V |]. split; [assumption |]. split; [apply rd_kb_wf |]. unfold group_room in *. lia.
Qed.

Record header_fields (s : mem) (state : Z) : Prop := {
  hf_state : rd s g pg.state = state;
  hf_version : rd s g pg.protocol_version = gp_version plan;
  hf_fragments : rd s g pg.fragment_count = gp_fragments plan;
  hf_limit : rd s g pg.fragment_limit = gp_fragments plan;
  hf_kernels : rd_kb s g pg.kernel_bitmap = gp_kernels plan;
  hf_made : header_made m man param g s
}.

(** The header is complete when the terminal loop starts. *)
Lemma header_run s :
  (forall a, g <= a < g + 120 -> s a = 0) ->
  exists h, ia_css_process_group_set_fragment_limit g (gp_fragments plan) (header_stores s) = (0, h)
    /\ same_outside g (g + 120) s h /\ header_fields h IA_CSS_PROCESS_GROUP_CREATED.
Proof.
  intros Z0. destruct view_ranges as (R1 & R2 & R3 & R4 & R5 & R6 & R7 & R8 & R9 & R10).
  pose proof (cr_g m man param g) as Hg. set (h := header_stores s).
  assert (Rd0 : forall f, 0 <= f_off f -> f_off f + Z.of_nat (f_len f) <= 120 -> f_signed f = false -> rd s g f = 0).
  { intros f H1 H2 H3. apply rd_zero; [exact H3 |]. intros a Ha. apply Z0. lia. }
  assert (F : rd h g pg.state = IA_CSS_PROCESS_GROUP_CREATED
    /\ rd h g pg.protocol_version = gp_version plan
    /\ rd h g pg.fragment_count = gp_fragments plan
    /\ rd h g pg.process_count = rank q_run NQ /\ rd h g pg.terminal_count = rank t_run NT
    /\ rd h g pg.processes_offset = process_tab /\ rd h g pg.terminals_offset = terminal_tab
    /\ rd h g pg.fragment_state = 0 /\ rd h g pg.fragment_limit = 0).
  { subst h. unfold header_stores. cbv zeta.
    repeat (split; [mem_read; rewrite ?rd_wr_kb_out by mem_out; mem_read;
                    rewrite ?f_conv_U8, ?f_conv_U16 by lia; first [reflexivity | apply Rd0; cbn; first [lia | reflexivity]] |]).
    mem_read. rewrite ?rd_wr_kb_out by mem_out. mem_read. apply Rd0; cbn; first [lia | reflexivity]. }
  destruct F as (F1 & F2 & F3 & F4 & F5 & F6 & F7 & F8 & F9).
  assert (Fk : rd_kb h g pg.kernel_bitmap = gp_kernels plan).
  { subst h. unfold header_stores. cbv zeta. rewrite !rd_kb_wr_out by mem_out. apply rd_kb_wr_same, R3. }
  assert (E : ia_css_process_group_set_fragment_limit g (gp_fragments plan) h
              = (0, if 0 <? gp_fragments plan then wr h g pg.fragment_limit (gp_fragments plan) else h)).
  { unfold ia_css_process_group_set_fragment_limit, ia_css_process_group_get_fragment_state,
      ia_css_process_group_get_fragment_count.
    rewrite (not_null g Hg), F8, F3. destruct (Z.ltb_spec 0 (gp_fragments plan)); [| reflexivity].
    rewrite Z.leb_refl. reflexivity. }
  rewrite E. eexists. split; [reflexivity |].
  pose proof (header_stores_frame s) as S. fold h in S.
  destruct (Z.ltb_spec 0 (gp_fragments plan)) as [Hf | Hf].
  - split; [eapply same_outside_trans; [exact S | apply wr_same_outside; mem_out] |].
    assert (R : forall f, f_off f + Z.of_nat (f_len f) <= 104 \/ 106 <= f_off f ->
      rd (wr h g pg.fragment_limit (gp_fragments plan)) g f = rd h g f)
      by (intros f H; apply rd_wr_base; cbn [f_off f_len pg.fragment_limit U16]; lia).
    constructor; [rewrite R; [exact F1 |] | rewrite R; [exact F2 |] | rewrite R; [exact F3 |]
      | rewrite rd_wr_same; apply f_conv_U16; lia | rewrite rd_kb_wr_out; [exact Fk |]
      | constructor; rewrite R; [exact F4 | | exact F6 | | exact F5 | | exact F7 |]]; cbn; lia.
  - split; [exact S |].
    constructor; [exact F1 | exact F2 | exact F3 | | exact Fk | constructor; assumption].
    rewrite F9. lia.
Qed.

(** The header fields that the loops do not touch. *)
Lemma header_fields_keep W s s' state :
  same_except W s s' -> (forall a, g + 36 <= a < g + 96 -> W a = false) ->
  (forall a, g + 100 <= a < g + 120 -> W a = false) -> header_fields s state -> header_fields s' state.
Proof.
  intros S W1 W2 [H1 H2 H3 H4 H5 [M1 M2 M3 M4]].
  assert (R : forall f, (36 <= f_off f /\ f_off f + Z.of_nat (f_len f) <= 96)
            \/ (100 <= f_off f /\ f_off f + Z.of_nat (f_len f) <= 120) -> rd s' g f = rd s g f).
  { intros f H. apply (rd_same_except _ _ _ _ _ S). intros a Ha. destruct H as [H | H]; [apply W1 | apply W2]; lia. }
  constructor; [rewrite R; [exact H1 |] | rewrite R; [exact H2 |] | rewrite R; [exact H3 |] | rewrite R; [exact H4 |]
    | rewrite <- H5; unfold rd_kb; cbn [map]; rewrite !R; [reflexivity | ..]
    | constructor; rewrite R; [exact M1 | | exact M2 | | exact M3 | | exact M4 |]]; cbn; lia.
Qed.

Lemma group_same_except lo hi s s' :
  g <= lo -> hi <= g + room -> same_except writes m s -> same_outside lo hi s s' -> same_except writes m s'.
Proof.
  intros H1 H2 S S'. eapply same_except_trans; [exact S |]. eapply same_outside_except; [| exact S'].
  intros a Ha. apply writes_group. lia.
Qed.

(** Up to the process loop. *)
Lemma loop_start h s :
  same_except writes m h -> header_fields h IA_CSS_PROCESS_GROUP_CREATED ->
  (forall a, g + 120 <= a < g + room -> h a = 0) ->
  same_outside (g + terminal_tab) (g + t_place NT) h s -> terminals_made m man param g s NT ->
  loop_state m man param g s 0 s /\ header_fields s IA_CSS_PROCESS_GROUP_CREATED.
Proof.
  intros Sh Hh Z0 S D. destruct view_ranges as (R1 & R2 & R3 & R4 & R5 & R6 & R7 & R8 & R9 & R10).
  assert (Hs : header_fields s IA_CSS_PROCESS_GROUP_CREATED).
  { apply (header_fields_keep (fun a => (g + terminal_tab <=? a) && (a <? g + t_place NT)) h); [| | | exact Hh].
    - eapply same_outside_except; [| exact S]. intros a Ha. rewrite andb_true_iff, Z.leb_le, Z.ltb_lt. exact Ha.
    - intros a Ha. rewrite andb_false_iff, Z.leb_gt. lia.
    - intros a Ha. rewrite andb_false_iff, Z.leb_gt. lia. }
  split; [| exact Hs]. constructor.
  - eapply group_same_except; [| | exact Sh | exact S]; lia.
  - apply Hs.
  - exact D.
  - intros j Hj. lia.
  - intros a Ha. rewrite S by lia. apply Z0. lia.
  - apply same_except_refl.
Qed.

(** From the end of the process loop. *)
Definition finish_stores (s : mem) : mem :=
  let s := wr s g pg.size (u32 room) in
  let s := wr s g pg.ID (gp_ID plan) in
  let s := wr s g pg.pg_load_start_ts 0 in
  let s := wr s g pg.pg_load_cycles 0 in
  let s := wr s g pg.pg_init_cycles 0 in
  let s := wr s g pg.pg_processing_cycles 0 in
  let s := wr s g pg.pg_complete_cycles 0 in
  wr s g pg.error_handling_enable 0.

Lemma finish_frame s : same_outside g (g + 120) s (finish_stores s).
Proof. unfold finish_stores. cbv zeta. frame_chain. Qed.

Lemma finish_ok s :
  0 < gp_ID plan < 2 ^ 32 -> header_fields s IA_CSS_PROCESS_GROUP_CREATED ->
  rd (finish_stores s) g pg.size = room /\ rd (finish_stores s) g pg.ID = gp_ID plan
  /\ let s' := wr (finish_stores s) g pg.state IA_CSS_PROCESS_GROUP_READY in
     header_fields s' IA_CSS_PROCESS_GROUP_READY /\ rd s' g pg.size = room /\ rd s' g pg.ID = gp_ID plan
     /\ same_outside g (g + 120) s s'.
Proof.
  intros HID [H1 H2 H3 H4 H5 [M1 M2 M3 M4]].
  destruct view_ranges as (R1 & R2 & R3 & R4 & R5 & R6 & R7 & R8 & R9 & R10).
  assert (Esz : rd (finish_stores s) g pg.size = room).
  { unfold finish_stores. cbv zeta. rewrite !rd_wr_base by (cbn; lia). rewrite rd_wr_same.
    assert (0 <= room < 2 ^ 32) by lia. rewrite (u32_small room) by assumption.
    apply f_conv_U32. lia. }
  assert (EID : rd (finish_stores s) g pg.ID = gp_ID plan).
  { unfold finish_stores. cbv zeta. rewrite !rd_wr_base by (cbn; lia). rewrite rd_wr_same. apply f_conv_U32. lia. }
  split; [exact Esz |]. split; [exact EID |]. cbv zeta.
  set (s' := wr (finish_stores s) g pg.state IA_CSS_PROCESS_GROUP_READY).
  assert (R : forall f, 92 <= f_off f -> f_off f + Z.of_nat (f_len f) <= 117 -> rd s' g f = rd s g f).
  { intros f X1 X2. unfold s', finish_stores. cbv zeta. rewrite !rd_wr_base by (cbn; lia). reflexivity. }
  split; [| split; [| split]].
  - constructor; [unfold s'; rewrite rd_wr_same; reflexivity | rewrite R; [exact H2 | ..] | rewrite R; [exact H3 | ..]
      | rewrite R; [exact H4 | ..] | | constructor; rewrite R; [exact M1 | | | exact M2 | | | exact M3 | | | exact M4 | |]];
      try (cbn; lia).
    unfold s', finish_stores. cbv zeta. rewrite !rd_kb_wr_out by (cbn; lia). exact H5.
  - unfold s'. rewrite rd_wr_base by (cbn; lia). exact Esz.
  - unfold s'. rewrite rd_wr_base by (cbn; lia). exact EID.
  - eapply same_outside_trans; [apply finish_frame | apply wr_same_outside; mem_out].
Qed.

(** The created group. *)
Record group_created (s : mem) : Prop := {
  gc_header : header_fields s IA_CSS_PROCESS_GROUP_READY;
  gc_size : rd s g pg.size = room;
  gc_ID : rd s g pg.ID = gp_ID plan;
  gc_terminals : terminals_made m man param g s NT;
  gc_processes : forall i, 0 <= i < NQ -> q_run i = true -> process_made m man param g s i
}.

Lemma finish_created s s' :
  loop_state m man param g s NQ s' -> header_fields s' IA_CSS_PROCESS_GROUP_CREATED -> 0 < gp_ID plan < 2 ^ 32 ->
  let s'' := wr (finish_stores s') g pg.state IA_CSS_PROCESS_GROUP_READY in
  same_except writes m s'' /\ group_created s''.
Proof.
  intros L H HID s''. destruct (finish_ok s' HID H) as (_ & _ & F1 & F2 & F3 & S). fold s'' in F1, F2, F3, S.
  destruct view_ranges as (R1 & R2 & R3 & R4 & R5 & R6 & R7 & R8 & R9 & R10).
  assert (W : same_except (fun a => (g <=? a) && (a <? g + 120)) s' s'').
  { eapply same_outside_except; [| exact S]. intros a Ha. rewrite andb_true_iff, Z.leb_le, Z.ltb_lt. exact Ha. }
  split; [eapply group_same_except; [| | exact (ls_writes _ _ _ _ _ _ _ L) | exact S]; lia |].
  constructor; [exact F1 | exact F2 | exact F3 | |].
  - intros j Hj Oj. apply (terminal_keep m man param g _ s' s'' j Hj Oj W); [| apply (ls_terminals _ _ _ _ _ _ _ L); auto].
    intros a Ha. pose proof (t_place_mono m man param 0 j ltac:(lia)). pose proof (rank_le t_run j ltac:(lia)).
    unfold t_bytes_of in Ha. rewrite orb_true_iff, !andb_true_iff, !Z.leb_le, !Z.ltb_lt in Ha.
    rewrite andb_false_iff, Z.leb_gt, Z.ltb_ge. lia.
  - intros j Hj Oj. apply (process_keep m man param g _ s' s'' j Hj Oj W); [| apply (ls_made _ _ _ _ _ _ _ L); auto].
    intros a Ha. pose proof (q_place_mono m man param 0 j ltac:(lia)). pose proof (rank_le q_run j ltac:(lia)).
    unfold process_tab, sizeof_ia_css_process_group_t in Ha. rewrite andb_false_iff, Z.leb_gt, Z.ltb_ge. lia.
Qed.

Lemma group_create_run :
  0 < gp_ID plan < 2 ^ 32 ->
  exists s, group_create_body g man param (zeroed m) = (Some tt, s)
    /\ same_except writes m s /\ group_created s.
Proof.
  intros HID. destruct view_ranges as (R1 & R2 & R3 & R4 & R5 & R6 & R7 & R8 & R9 & R10).
  pose proof (cr_g m man param g) as Hg. set (z := zeroed m).
  assert (Sz : same_except writes m z) by (eapply (group_same_except g (g + room)); [lia | lia | apply same_except_refl | apply zeroed_frame]).
  assert (S1 : same_except writes m (wr z g pg.state IA_CSS_PROCESS_GROUP_CREATED))
    by (eapply (group_same_except g (g + 120)); [lia | lia | exact Sz | apply wr_same_outside; mem_out]).
  assert (S2 : same_except writes m (wr (wr z g pg.state IA_CSS_PROCESS_GROUP_CREATED) g pg.protocol_version (gp_version plan)))
    by (eapply (group_same_except g (g + 120)); [lia | lia | exact S1 | apply wr_same_outside; mem_out]).
  destruct (view_header _ S1) as (V1 & _). destruct (view_header _ S2) as (_ & V2 & V3 & V4 & V5 & _).
  destruct (header_run z) as (h & Eh & Sh & Fh).
  { intros a Ha. apply zeroed_zero. lia. }
  assert (Wh : same_except writes m h) by (eapply (group_same_except g (g + 120)); [lia | lia | exact Sz | exact Sh]).
  destruct (view_header _ Wh) as (_ & _ & _ & _ & _ & _ & _ & V6 & _).
  destruct (terminal_loop m man param g h Wh) as (s & Es & Ss & Ds).
  destruct (loop_start h s Wh Fh) as (L & Fs); [| exact Ss | exact Ds |].
  { intros a Ha. rewrite Sh by lia. apply zeroed_zero. lia. }
  destruct (view_header _ (ls_writes _ _ _ _ _ _ _ L)) as (_ & _ & _ & _ & _ & _ & _ & _ & V7).
  destruct (process_loop m man param g s L) as (s' & Es' & L').
  assert (Fs' : header_fields s' IA_CSS_PROCESS_GROUP_CREATED).
  { eapply header_fields_keep; [exact (ls_frame _ _ _ _ _ _ _ L') | | | exact Fs]; intros a Ha;
      cbv beta; rewrite (cr_params m man param g) by lia; unfold header_cells, process_tab, sizeof_ia_css_process_group_t;
      rewrite !orb_false_iff, !andb_false_iff, !Z.leb_gt, !Z.ltb_ge; intuition lia. }
  destruct (view_header _ (ls_writes _ _ _ _ _ _ _ L')) as (_ & _ & _ & _ & _ & V8 & _).
  assert (S9 : same_except writes m (wr s' g pg.size (u32 room)))
    by (eapply (group_same_except g (g + 120)); [lia | lia | exact (ls_writes _ _ _ _ _ _ _ L') | apply wr_same_outside; mem_out]).
  destruct (view_header _ S9) as (_ & _ & _ & _ & _ & _ & V9 & _).
  destruct (finish_ok s' HID Fs') as (Z1 & Z2 & _).
  destruct (finish_created s s' L' Fs' HID) as (W & C).
  eexists. split; [| exact (conj W C)].
  unfold group_create_body. mrun. rewrite V1, V2, V3, V4, V5.
  change (g + sizeof_ia_css_process_group_t) with (g + process_tab).
  replace (g + process_tab + tot_bytes_for_pow2_align 8 (rank q_run NQ * 2)) with (g + terminal_tab)
    by (unfold GroupPlan.terminal_tab; lia).
  replace (g + terminal_tab + tot_bytes_for_pow2_align 8 (rank t_run NT * 2)) with (g + t_place 0)
    by (unfold GroupPlan.t_place; change (t_bytes m man param 0) with 0; lia).
  replace (g + process_tab - g) with process_tab by lia.
  replace (g + terminal_tab - g) with terminal_tab by lia.
  fold (header_stores z). rewrite Eh. cbn [Z.eqb]. cbv beta iota. rewrite V6, Es. cbv beta iota.
  rewrite Z.eqb_refl. cbv beta iota. rewrite V7, R9, Es'. cbv beta iota. rewrite Z.eqb_refl. cbv beta iota.
  rewrite V8, V9. fold (finish_stores s'). rewrite Z1, (proj2 (Z.eqb_neq _ _)) by lia. cbn [negb]. cbv beta iota.
  rewrite Z2, (proj2 (Z.eqb_neq _ _)) by lia. reflexivity.
Qed.

(** The whole function. *)
Lemma group_create_returns :
  ia_css_is_program_group_manifest_valid m man = true -> gp_ID plan <> 0 ->
  exists s, ia_css_process_group_create g man param m = (g, s) /\ same_except writes m s /\ group_created s.
Proof.
  intros Hv HID. destruct (sizeof_group_room m man param Hsize) as (_ & _ & _ & Hman & Hpar).
  assert (B : 0 < gp_ID plan < 2 ^ 32).
  { unfold plan_of in *. cbn [gp_ID] in *. unfold ia_css_program_group_manifest_get_program_group_ID in *.
    rewrite (proj2 (Z.eqb_neq _ _) Hman : is_null man = false) in *.
    pose proof (rd_U32_range m man 16) as R. change (U32 16) with pgm.ID in R. lia. }
  destruct (group_create_run B) as (s & E & S & C). exists s. split; [| auto].
  unfold ia_css_process_group_create. cbv zeta.
  rewrite (not_null g (cr_g m man param g)), (proj2 (Z.eqb_neq _ _) Hman : is_null man = false),
    (proj2 (Z.eqb_neq _ _) Hpar : is_null param = false), Hv, (proj2 (Z.eqb_neq _ _) Hsize).
  cbn [orb negb]. unfold bind at 1. unfold ia_css_cpu_mem_set_zero, modify.
  change (fun a => _) with (zeroed m) at 1. rewrite E. reflexivity.
Qed.

(** ** As a client reads it *)

Lemma created_terminal s i :
  group_created s -> 0 <= i < NT -> t_run i = true ->
  ia_css_process_group_get_terminal s g (rank t_run i) = g + t_place i /\ terminal_made m man param g s i.
Proof.
  intros C Hi Oi. destruct view_ranges as (R1 & R2 & R3 & R4 & R5 & R6 & R7 & R8 & R9 & R10).
  pose proof (gc_terminals _ C i Hi Oi) as D. split; [| exact D].
  pose proof (rank_lt t_run i NT ltac:(lia) Oi). destruct (hf_made _ _ (gc_header _ C)) as [_ _ H3 H4].
  unfold ia_css_process_group_get_terminal. rewrite (not_null g (cr_g m man param g)), H3, (proj2 (Z.ltb_lt _ _)), H4 by lia.
  cbv zeta. rewrite (tm_entry _ _ _ _ _ _ D). reflexivity.
Qed.

Lemma created_process s i :
  group_created s -> 0 <= i < NQ -> q_run i = true ->
  ia_css_process_group_get_process s g (rank q_run i) = g + q_place i /\ process_made m man param g s i.
Proof.
  intros C Hi Oi. destruct view_ranges as (R1 & R2 & R3 & R4 & R5 & R6 & R7 & R8 & R9 & R10).
  pose proof (gc_processes _ C i Hi Oi) as D. split; [| exact D].
  pose proof (rank_lt q_run i NQ ltac:(lia) Oi). destruct (hf_made _ _ (gc_header _ C)) as [H1 H2 _ _].
  unfold ia_css_process_group_get_process. rewrite (not_null g (cr_g m man param g)), H1, (proj2 (Z.ltb_lt _ _)), H2 by lia.
  cbv zeta. rewrite (qm_entry _ _ _ _ _ _ D). reflexivity.
Qed.

Lemma created_dependencies s i :
  group_created s -> 0 <= i < NQ -> q_run i = true ->
  let p := g + q_place i in let q := @GroupPlan.Q P m man param i in
  (forall d, 0 <= d < Z.of_nat (length (q_ids q)) ->
     ia_css_process_get_cell_dependency s p d = process_with m man param i (at_ (q_ids q) d))
  /\ (forall d, 0 <= d < Z.of_nat (length (q_terms q)) ->
     ia_css_process_get_terminal_dependency s p d = terminal_of m man param (at_ (q_terms q) d)).
Proof.
  intros C Hi Oi p q. subst p q. pose proof (gc_processes _ C i Hi Oi) as D.
  pose proof (qm_blob _ _ _ _ _ _ D) as B.
  split; intros d Hd; (destruct (dependency_lists s _ _ _ _ d B) as [[E1 E2] |]; [| lia]).
  - rewrite E1. rewrite (proj2 (Z.ltb_lt _ _)) by (apply Hd).
    rewrite <- (qm_deps _ _ _ _ _ _ D d Hd). f_equal. unfold process_extent. lia.
  - rewrite E2. rewrite (proj2 (Z.ltb_lt _ _)) by (apply Hd).
    rewrite <- (qm_terms _ _ _ _ _ _ D d Hd). f_equal. unfold process_extent. lia.
Qed.

(** The terminals do not overlap. *)
Lemma created_wf s : group_created s -> group_wf s g.
Proof.
  intros C. destruct view_ranges as (R1 & R2 & R3 & R4 & R5 & R6 & R7 & R8 & R9 & R10).
  destruct (hf_made _ _ (gc_header _ C)) as [_ _ H3 H4]. pose proof (NT_range m man) as HNT.
  destruct (places m man param) as (L1 & L2 & L3).
  assert (A : forall r, 0 <= r < rank t_run NT -> exists i, 0 <= i < NT /\ t_run i = true /\ rank t_run i = r
    /\ ia_css_process_group_get_terminal s g r = g + t_place i
    /\ footprint s (g + t_place i) <= t_place (i + 1) - t_place i).
  { intros r Hr. destruct (rank_inv t_run NT r ltac:(lia) Hr) as (i & Hi & Oi & <-).
    destruct (created_terminal s i C Hi Oi) as [E D]. exists i. repeat (split; [assumption || reflexivity |]).
    pose proof (t_place_mono m man param 0 i ltac:(lia)).
    pose proof (tm_type _ _ _ _ _ _ D) as Ty. unfold ia_css_terminal_get_type in Ty.
    rewrite not_null in Ty by (pose proof (cr_g m man param g); lia). unfold footprint. rewrite Ty.
    destruct (cr_terminal m man param g i Hi) as (_ & Hrun). destruct (Hrun Oi) as (_ & Hsz & _).
    rewrite (t_place_succ m man param i), Oi by lia. lia. }
  constructor.
  - exact (cr_g m man param g).
  - rewrite H4. unfold sizeof_ia_css_process_group_t. lia.
  - intros r Hr. rewrite H3 in *. rewrite H4. destruct (A r Hr) as (i & Hi & _ & _ & -> & _).
    pose proof (t_place_mono m man param 0 i ltac:(lia)). lia.
  - intros r r' Hr Hr' Hne. rewrite H3 in *. destruct (A r Hr) as (i & Hi & Oi & Ei & -> & Fi).
    destruct (A r' Hr') as (j & Hj & Oj & Ej & -> & Fj). destruct (Z.lt_trichotomy i j) as [Hlt | [-> | Hlt]]; [| congruence |].
    + pose proof (t_place_mono m man param (i + 1) j ltac:(lia)). lia.
    + pose proof (t_place_mono m man param (j + 1) i ltac:(lia)). lia.
Qed.
End Group.

(** ** A sample *)

#[local] Existing Instance ipu6.
#[local] Existing Instance ipu6_ok.

(** Three singular programs, the second after the first and, which cannot be,
    the third, the third after both; two data terminals; parameters at 3000
    that enable everything. *)
Definition sample_create : mem :=
  let ID p id m := snd (ia_css_program_manifest_set_program_ID p id m) in
  let m := put_group 1000 7 3 2 136 (fun _ => 0) in
  let m := ID 1040 5 (put_program 1000 1040 IA_CSS_PROGRAM_TYPE_SINGULAR 1 [] [0] m) in
  let m := ID 1072 6 (put_program 1000 1072 IA_CSS_PROGRAM_TYPE_SINGULAR 2 [0; 2] [] m) in
  let m := ID 1104 7 (put_program 1000 1104 IA_CSS_PROGRAM_TYPE_SINGULAR 4 [0; 1] [1] m) in
  let m := put_data_terminal 1136 IA_CSS_TERMINAL_TYPE_DATA_IN 0 m in
  let m := put_data_terminal 1200 IA_CSS_TERMINAL_TYPE_DATA_OUT 2 m in
  let m := snd (ia_css_program_group_param_init 3000 3 2 1 3500 m) in
  snd (ia_css_program_group_param_set_kernel_enable_bitmap 3000 (ia_css_kernel_bitmap_create_from_uint64 7) m).

(** The bytes its creation at 8000 writes. *)
Definition sample_writes (a : Z) : bool :=
  ((8000 <=? a) && (a <? 8504)) || ((3040 <=? a) && (a <? 3104)).

Lemma sample_writes_bound a :
  writes (P := ipu6) sample_create 1000 3000 8000 a = true -> sample_writes a = true.
Proof.
  assert (Er : group_room (P := ipu6) sample_create 1000 3000 = 504) by (vm_compute; reflexivity).
  unfold writes, param_bytes. rewrite Er.
  replace (range 0 (NQ sample_create 1000)) with [0; 1; 2] by (vm_compute; reflexivity).
  cbn [existsb].
  replace (q_param (Q (P := ipu6) sample_create 1000 3000 0)) with 3040 by (vm_compute; reflexivity).
  replace (q_param (Q (P := ipu6) sample_create 1000 3000 1)) with 3064 by (vm_compute; reflexivity).
  replace (q_param (Q (P := ipu6) sample_create 1000 3000 2)) with 3088 by (vm_compute; reflexivity).
  unfold sample_writes. rewrite !orb_true_iff, !andb_true_iff, !Z.leb_le, !Z.ltb_lt. intuition lia.
Qed.

Lemma sample_writes_ok s :
  same_except (writes (P := ipu6) sample_create 1000 3000 8000) sample_create s ->
  exists inner, s = splice sample_writes inner sample_create.
Proof.
  intros S. exists s. apply same_except_splice. eapply same_except_weaken; [exact sample_writes_bound | exact S].
Qed.

Lemma sample_view : unaffected (writes (P := ipu6) sample_create 1000 3000 8000) sample_create (plan_of (P := ipu6) 1000 3000).
Proof.
  intros s S. destruct (sample_writes_ok s S) as [inner ->]. vm_compute. reflexivity.
Qed.

Lemma sample_apart lo n :
  lo + n <= 3040 \/ 3104 <= lo /\ lo + n <= 8000 ->
  apart (writes (P := ipu6) sample_create 1000 3000 8000) lo n.
Proof.
  intros H a Ha. destruct (writes _ _ _ _ a) eqn:E; [| reflexivity]. exfalso.
  apply sample_writes_bound in E. unfold sample_writes in E.
  rewrite orb_true_iff, !andb_true_iff, !Z.leb_le, !Z.ltb_lt in E. lia.
Qed.

Lemma sample_terminals i :
  0 <= i < 2 ->
  let T := GroupPlan.T sample_create 1000 3000 in
  0 < t_man (T i) /\ terminal_ready (P := ipu6) sample_create 1000 3000 8000 i.
Proof.
  intros Hi T. assert (C : i = 0 \/ i = 1) by lia. subst T.
  destruct C as [-> | ->]; (split; [vm_compute; reflexivity |]);
    (split; [vm_compute; reflexivity |]);
    (split; [apply sample_apart; right; vm_compute; split; discriminate |]);
    (split; [vm_compute; reflexivity | left; split; [vm_compute; reflexivity |]]);
    (split; [apply sample_apart; left; vm_compute; discriminate |]); (split; [| vm_compute; reflexivity]);
    [exists 0 | exists 2]; (split; [split; [discriminate | reflexivity] | vm_compute; reflexivity]).
Qed.

Lemma sample_programs i :
  0 <= i < 3 ->
  let Q := GroupPlan.Q (P := ipu6) sample_create 1000 3000 in
  0 < q_man (Q i) /\ 0 < q_param (Q i) /\ program_ready (P := ipu6) sample_create 1000 3000 8000 i.
Proof.
  intros Hi Q. assert (C : i = 0 \/ i = 1 \/ i = 2) by lia. subst Q.
  destruct C as [-> | [-> | ->]]; (split; [vm_compute; reflexivity |]); (split; [vm_compute; reflexivity |]);
    (constructor;
     [apply sample_apart; left; vm_compute; discriminate | left; vm_compute; reflexivity
     | vm_compute; reflexivity | split; vm_compute; reflexivity | vm_compute; discriminate
     | vm_compute; repeat constructor; discriminate
     | change (NT sample_create 1000) with 2; vm_compute; repeat constructor; (discriminate || reflexivity)]).
Qed.

#[local] Instance sample_ready : GroupReady (P := ipu6) sample_create 1000 3000 8000.
Proof.
  constructor.
  - lia.
  - lia.
  - vm_compute. discriminate.
  - exact sample_view.
  - intros a Ha. destruct (param_bytes _ _ _ a) eqn:E; [| reflexivity]. exfalso.
    assert (Er : group_room (P := ipu6) sample_create 1000 3000 = 504) by (vm_compute; reflexivity).
    rewrite Er in Ha. unfold param_bytes in E. apply existsb_exists in E. destruct E as (i & Hi & E).
    apply list_elem_of_In, elem_of_range in Hi. change (NQ sample_create 1000) with 3 in Hi.
    assert (B : q_param (Q (P := ipu6) sample_create 1000 3000 i) <= 3088).
    { assert (C : i = 0 \/ i = 1 \/ i = 2) by lia. destruct C as [-> | [-> | ->]]; vm_compute; discriminate. }
    rewrite andb_true_iff, Z.leb_le, Z.ltb_lt in E. lia.
  - intros i Hi. destruct (sample_terminals i Hi) as [H1 H2]. split; [exact H1 | intros _; exact H2].
  - intros i Hi. destruct (sample_programs i Hi) as (H1 & H2 & H3). auto.
Qed.

(** ** Theorems *)

(** C15: creation of a group makes what the manifests and the parameters ask
    for.  The conditions ([GroupReady]) are on the client's memory: the buffer
    is apart from all that is read and has at most 32 KiB, the terminals needed
    are data, cached parameter or program terminals whose parameters belong to
    the group's, and the programs that run have dependencies, an ID below 256
    and a process of at most 255 bytes.  Then, for a valid manifest with an ID,
    creation returns the buffer as a READY group and writes nothing but the
    group and the bitmaps in the program parameters.  Its size is the computed
    one; its counts, kernels, ID, version and fragments are those asked for;
    every terminal that is needed and every program that runs is found through
    the tables, one behind the other, of its size, linked to the group; each
    terminal knows its manifest and is otherwise as [ia_css_terminal_create]
    made it.  A program dependency is the place of the first process before
    this one that runs the program, and 0 when there is none (see
    [missing_dependency_is_first]); a terminal dependency is the place of the
    terminal of that manifest, and 0 when the group does not have it. *)
Theorem group_create_ok {P : Platform} {Pok : PlatformOk P} m man param g `{Gr : !GroupReady m man param g} :
  let t_run := t_run m man param in let q_run := q_run m man param in
  let T := T m man param in let Q := Q m man param in
  ia_css_is_program_group_manifest_valid m man = true ->
  ia_css_sizeof_process_group m man param <> 0 ->
  ia_css_program_group_manifest_get_program_group_ID m man <> 0 ->
  exists m', ia_css_process_group_create g man param m = (g, m')
  /\ same_except (writes m man param g) m m'
  /\ ia_css_process_group_get_state m' g = IA_CSS_PROCESS_GROUP_READY
  /\ ia_css_process_group_get_size m' g = ia_css_sizeof_process_group m man param
  /\ ia_css_process_group_get_program_group_ID m' g = ia_css_program_group_manifest_get_program_group_ID m man
  /\ ia_css_process_group_get_kernel_bitmap m' g = ia_css_program_group_param_get_kernel_enable_bitmap m param
  /\ ia_css_process_group_get_protocol_version m' g = ia_css_program_group_param_get_protocol_version m param
  /\ ia_css_process_group_get_fragment_count m' g = ia_css_program_group_param_get_fragment_count m param
  /\ ia_css_process_group_get_process_count m' g = rank q_run (NQ m man)
  /\ ia_css_process_group_get_terminal_count m' g = rank t_run (NT m man)
  /\ (forall i, 0 <= i < NT m man -> t_run i = true ->
       let t := ia_css_process_group_get_terminal m' g (rank t_run i) in
       t = g + t_place m man param i
       /\ ia_css_terminal_get_parent m' t = g /\ ia_css_terminal_get_terminal_manifest_index m' t = i
       /\ ia_css_terminal_get_size m' t = t_size (T i) /\ ia_css_terminal_get_type m' t = t_type (T i)
       /\ exists s0 s1, same_except (writes m man param g) m s0
          /\ ia_css_terminal_create t (t_man (T i)) (t_param (T i))
               (ia_css_program_group_param_get_kernel_enable_bitmap m param) s0 = (t, s1)
          /\ forall a, t <= a < t + t_size (T i) ->
               f_off te.parent_offset <= a - t < f_off te.parent_offset + 2
               \/ f_off te.tm_index <= a - t < f_off te.tm_index + 2 \/ m' a = s1 a)
  /\ (forall i, 0 <= i < NQ m man -> q_run i = true ->
       let p := ia_css_process_group_get_process m' g (rank q_run i) in
       p = g + q_place m man param i
       /\ ia_css_process_get_parent m' p = g /\ ia_css_process_get_program_ID m' p = q_ID (Q i)
       /\ ia_css_process_get_program_idx m' p = i /\ ia_css_process_get_size m' p = q_size (Q i)
       /\ ia_css_process_get_state m' p = IA_CSS_PROCESS_READY
       /\ (forall d, 0 <= d < Z.of_nat (length (q_ids (Q i))) ->
             let c := ia_css_process_get_cell_dependency m' p d in let id := at_ (q_ids (Q i)) d in
             (exists j, 0 <= j < i /\ q_run j = true /\ q_ID (Q j) = id
                /\ (forall k, 0 <= k < j -> q_run k = true -> q_ID (Q k) <> id) /\ c = rank q_run j)
             \/ ((forall j, 0 <= j < i -> q_run j = true -> q_ID (Q j) <> id) /\ c = 0))
       /\ (forall d, 0 <= d < Z.of_nat (length (q_terms (Q i))) ->
             let c := ia_css_process_get_terminal_dependency m' p d in let k := at_ (q_terms (Q i)) d in
             c = if t_run k then rank t_run k else 0)).
Proof.
  intros t_run q_run T Q Hv Hs HID. subst t_run q_run T Q.
  destruct (group_create_returns m man param g Hs Hv HID) as (m' & E & S & C).
  exists m'. split; [exact E |]. split; [exact S |].
  pose proof (cr_g m man param g) as Hg. destruct (gc_header _ _ _ _ _ C) as [H1 H2 H3 _ H5 [M1 _ M3 _]].
  destruct (sizeof_group_room m man param Hs) as (_ & _ & -> & _).
  unfold ia_css_process_group_get_state, ia_css_process_group_get_size, ia_css_process_group_get_program_group_ID,
    ia_css_process_group_get_kernel_bitmap, ia_css_process_group_get_protocol_version,
    ia_css_process_group_get_fragment_count, ia_css_process_group_get_process_count,
    ia_css_process_group_get_terminal_count.
  rewrite !(not_null g Hg).
  split; [exact H1 |]. split; [exact (gc_size _ _ _ _ _ C) |]. split; [exact (gc_ID _ _ _ _ _ C) |].
  split; [exact H5 |]. split; [exact H2 |]. split; [exact H3 |]. split; [exact M1 |]. split; [exact M3 |].
  split; intros i Hi Oi.
  - destruct (created_terminal m man param g Hs m' i C Hi Oi) as [-> D].
    destruct D as [_ D2 D3 D4 D5 (s0 & s1 & D6 & D7 & D8)].
    rewrite (t_place_succ m man param i) in D8 by lia. rewrite Oi in D8.
    repeat (split; [first [reflexivity | assumption] |]). exists s0, s1.
    split; [exact D6 |]. split; [exact D7 |]. intros a Ha. apply D8. lia.
  - destruct (created_process m man param g Hs m' i C Hi Oi) as [-> D].
    destruct (created_dependencies m man param g m' i C Hi Oi) as [Dp Dt].
    destruct (process_room m man param g i Hi Oi) as (X1 & X2 & X3 & X4 & X5 & X6 & X7 & X8 & X9 & X10).
    unfold ia_css_process_get_program_ID, ia_css_process_get_program_idx, ia_css_process_get_size, ia_css_process_get_state.
    rewrite !(not_null (g + q_place m man param i)) by lia.
    destruct D as [_ _ Ds Dz DI Dx DP _ _].
    do 6 (split; [first [reflexivity | assumption] |]). split; intros d Hd; cbv zeta.
    + rewrite (Dp d Hd). apply process_with_spec. lia.
    + rewrite (Dt d Hd). apply terminal_of_spec. destruct (cr_program m man param g i Hi) as (_ & _ & Hr).
      destruct (Hr Oi) as (_ & _ & Hts & _). rewrite List.Forall_forall in Hts. apply Hts, nth_In. lia.
Qed.

Lemma group_create_ok_witness :
  let '(r, m') := ia_css_process_group_create 8000 1000 3000 sample_create in
  r = 8000
  /\ ia_css_process_group_get_size m' 8000 = 504
  /\ ia_css_process_get_parent m' 8488 = 8000
  /\ map (ia_css_process_get_cell_dependency m' 8488) [0; 1] = [0; 1]
  /\ ia_css_process_get_terminal_dependency m' 8488 0 = 1
  /\ ia_css_terminal_get_terminal_manifest_index m' (ia_css_process_group_get_terminal m' 8000 1) = 1.
Proof.
  destruct (group_create_ok sample_create 1000 3000 8000) as (m' & -> & _ & _ & Hs & _ & _ & _ & _ & _ & _ & T & Q);
    [vm_compute; reflexivity | vm_compute; discriminate | vm_compute; discriminate |].
  split; [reflexivity |]. split; [rewrite Hs; vm_compute; reflexivity |].
  destruct (T 1) as (_ & _ & T1 & _); [split; [discriminate | vm_compute; reflexivity] | vm_compute; reflexivity |].
  destruct (Q 2) as (Ep & Qp & _ & _ & _ & _ & Qd & Qt); [split; [discriminate | vm_compute; reflexivity] | vm_compute; reflexivity |].
  assert (E : 8000 + q_place sample_create 1000 3000 2 = 8488) by (vm_compute; reflexivity).
  rewrite Ep, E in *. split; [exact Qp |].
  assert (D : forall d, d = 0 \/ d = 1 -> ia_css_process_get_cell_dependency m' 8488 d = d).
  { intros d Hd. destruct (Qd d) as [(k & Hk & _ & Ek & _ & ->) | [N _]].
    - change (Z.of_nat (length (q_ids (GroupPlan.Q sample_create 1000 3000 2)))) with 2. lia.
    - assert (Ck : k = 0 \/ k = 1) by lia.
      destruct Hd as [-> | ->], Ck as [-> | ->]; vm_compute in Ek; try discriminate Ek; vm_compute; reflexivity.
    - exfalso. apply (N d); [lia | |]; destruct Hd as [-> | ->]; vm_compute; reflexivity. }
  cbn [map]. rewrite !D by auto. split; [reflexivity |].
  rewrite (Qt 0) by (split; [discriminate | vm_compute; reflexivity]). split; [vm_compute; reflexivity |].
  replace (rank (t_run sample_create 1000 3000) 1) with 1 in T1 by (vm_compute; reflexivity). exact T1.
Defined.

(** C16: the whole life of a client's first frame works.  A group created as
    in [group_create_ok], under a known protocol and with terminals of known
    types, is ready; once a buffer is attached to each of its terminals, as
    FULL to the inputs and as EMPTY to the outputs, in order of the terminals,
    submit and start succeed and the group is STARTED. *)
Theorem created_group_launches {P : Platform} {Pok : PlatformOk P} m man param g `{Gr : !GroupReady m man param g} bufs :
  ia_css_is_program_group_manifest_valid m man = true ->
  ia_css_sizeof_process_group m man param <> 0 ->
  ia_css_program_group_manifest_get_program_group_ID m man <> 0 ->
  protocol_known (ia_css_program_group_param_get_protocol_version m param) = true ->
  exists m1 m2 m3, ia_css_process_group_create g man param m = (g, m1)
    /\ ia_css_process_group_submit g
         (attach_all g bufs (range 0 (ia_css_process_group_get_terminal_count m1 g)) m1) = (0, m2)
    /\ ia_css_process_group_start g m2 = (0, m3) /\ in_gstate g m3 GroupFsm.Started.
Proof.
  intros Hv Hs HID Hp. pose proof (cr_g m man param g) as Hg.
  assert (Hk : forall i, 0 <= i < NT m man -> t_run m man param i = true -> known_type (t_type (T m man param i)) = true).
  { intros i Hi Oi. destruct (gr_terminal m man param g i Hi) as [_ Hr].
    destruct (Hr Oi) as (_ & _ & _ & [[Ty _] | [Ty _]]); unfold known_type; [rewrite Ty; reflexivity |].
    destruct Ty as [E | [E | [E | []]]]; rewrite <- E; reflexivity. }
  destruct (group_create_returns m man param g Hs Hv HID) as (m1 & E & _ & C).
  destruct (gc_header _ _ _ _ _ C) as [H1 H2 _ _ _ [_ _ M3 _]].
  destruct (launch g bufs m1) as (m2 & m3 & E2 & E3 & F).
  - apply (created_wf m man param g Hs), C.
  - exact H1.
  - rewrite H2. exact Hp.
  - intros r Hr. rewrite M3 in Hr.
    destruct (rank_inv (t_run m man param) (NT m man) r) as (i & Hi & Oi & <-); [pose proof (NT_range m man); lia | exact Hr |].
    destruct (created_terminal m man param g Hs m1 i C Hi Oi) as [Et D].
    pose proof (tm_type _ _ _ _ _ _ D) as Ty. rewrite <- (Hk i Hi Oi), <- Ty.
    unfold terminal_view_at. rewrite Et. reflexivity.
  - exists m1, m2, m3. unfold ia_css_process_group_get_terminal_count. rewrite (not_null g Hg). auto.
Qed.

Lemma created_group_launches_witness :
  exists m1 m2 m3, ia_css_process_group_create 8000 1000 3000 sample_create = (8000, m1)
    /\ ia_css_process_group_submit 8000
         (attach_all 8000 (fun i => 65536 * (i + 1)) (range 0 (ia_css_process_group_get_terminal_count m1 8000)) m1)
       = (0, m2)
    /\ ia_css_process_group_start 8000 m2 = (0, m3) /\ in_gstate 8000 m3 GroupFsm.Started.
Proof.
  apply (created_group_launches sample_create 1000 3000 8000);
    [vm_compute; reflexivity | vm_compute; discriminate | vm_compute; discriminate | vm_compute; reflexivity].
Defined.

(** ** Failures *)

(** A body that ends in a store has made it when it gets to its end. *)
Definition ends_with (p : Z) (f : field) (v : Z) (c : M mem unit) : Prop :=
  forall s s', c s = (Some tt, s') -> rd s' p f = f_conv f v.

Lemma ends_with_wrM p f v : ends_with p f v (wrM p f v).
Proof. intros s s' E. injection E as <-. apply rd_wr_same. Qed.

Lemma ends_with_bind {A} p f v (c : M mem A) k :
  (forall x, ends_with p f v (k x)) -> ends_with p f v (bind c k).
Proof.
  intros H s s' E. unfold bind in E. destruct (c s) as [[x |] t]; [| discriminate]. exact (H x t s' E).
Qed.

(** Creation answers NULL or the buffer, and the buffer only with a READY
    group in it.  Missing arguments, a manifest that does not pass the check
    and parameters that select no program or no terminal are refused before
    anything is written; the buffer of any later failure is already zeroed. *)
Theorem group_create_failures {P : Platform} g man param m :
  let '(r, m') := ia_css_process_group_create g man param m in
  (g = NULL \/ man = NULL \/ param = NULL \/ ia_css_is_program_group_manifest_valid m man = false
     \/ ia_css_process_group_compute_process_count m man param = 0
     \/ ia_css_process_group_compute_terminal_count m man param = 0 ->
   r = NULL /\ m' = m)
  /\ (r = NULL \/ r = g /\ ia_css_process_group_get_state m' g = IA_CSS_PROCESS_GROUP_READY).
Proof.
  unfold ia_css_process_group_create. cbv zeta.
  set (size := ia_css_sizeof_process_group m man param).
  assert (Hsz : man = NULL \/ param = NULL \/ ia_css_process_group_compute_process_count m man param = 0
     \/ ia_css_process_group_compute_terminal_count m man param = 0 -> size = 0).
  { unfold size, ia_css_sizeof_process_group. intros H.
    destruct (is_null man) eqn:N1; [reflexivity |]. destruct (is_null param) eqn:N2; [reflexivity |].
    apply Z.eqb_neq in N1, N2. cbv zeta.
    destruct H as [H | [H | [H | H]]]; [congruence | congruence | rewrite H; reflexivity |].
    destruct (_ =? 0); [reflexivity |]. rewrite H. reflexivity. }
  destruct (is_null g || is_null man || is_null param || negb (ia_css_is_program_group_manifest_valid m man)
            || (size =? 0)) eqn:G.
  - split; [intros _; split; reflexivity | left; reflexivity].
  - rewrite !orb_false_iff, negb_false_iff in G. destruct G as [[[[G1 G2] G3] G4] G5].
    pose proof G1 as Hg. apply Z.eqb_neq in G1, G2, G3, G5.
    destruct ((ia_css_cpu_mem_set_zero g size ;;; group_create_body g man param) m) as [[[] |] m'] eqn:E.
    + split; [intros H; exfalso; apply G5, Hsz; intuition congruence | right].
      split; [reflexivity |]. unfold ia_css_process_group_get_state. rewrite Hg.
      enough (W : ends_with g pg.state IA_CSS_PROCESS_GROUP_READY
                    (ia_css_cpu_mem_set_zero g size ;;; group_create_body g man param))
        by exact (W m m' E).
      apply ends_with_bind. intros _. unfold group_create_body.
      repeat first [apply ends_with_wrM | apply ends_with_bind; intros ?
                   | match goal with x : (Z * Z)%type |- _ => destruct x end].
    + split; [intros H; exfalso; apply G5, Hsz; intuition congruence | left].
      unfold ia_css_process_group_destroy. rewrite Hg. reflexivity.
Qed.

(** No kernel enabled. *)
Lemma group_create_failures_witness :
  let m := snd (ia_css_program_group_param_set_kernel_enable_bitmap 3000 ia_css_kernel_bitmap_clear sample_create) in
  ia_css_process_group_create 8000 1000 3000 m = (NULL, m).
Proof.
  intros m. pose proof (group_create_failures 8000 1000 3000 m) as H.
  destruct (ia_css_process_group_create 8000 1000 3000 m) as [r m']. destruct H as [H _].
  destruct H as [-> ->]; [| reflexivity].
  do 4 right. left. vm_compute. reflexivity.
Defined.

(** A dependency on a program that has no process before this one (its
    kernels are not enabled, or it comes later in the manifest) is not
    reported: the process is created with that dependency set to 0, as if it
    depended on the group's first process. *)
Theorem missing_dependency_is_first {P : Platform} {Pok : PlatformOk P} m man param g `{Cr : !Creatable m man param g} i d :
  let q := Q m man param i in
  ia_css_is_program_group_manifest_valid m man = true ->
  ia_css_sizeof_process_group m man param <> 0 ->
  ia_css_program_group_manifest_get_program_group_ID m man <> 0 ->
  0 <= i < NQ m man -> q_run m man param i = true -> 0 <= d < Z.of_nat (length (q_ids q)) ->
  (forall j, 0 <= j < i -> q_run m man param j = true -> q_ID (Q m man param j) <> at_ (q_ids q) d) ->
  exists m', ia_css_process_group_create g man param m = (g, m')
    /\ let p := ia_css_process_group_get_process m' g (rank (q_run m man param) i) in
       ia_css_process_get_program_idx m' p = i /\ ia_css_process_get_cell_dependency m' p d = 0.
Proof.
  intros q Hv Hs HID Hi Oi Hd Hno.
  destruct (group_create_returns m man param g Hs Hv HID) as (m' & E & _ & C).
  exists m'. split; [exact E |]. destruct (created_process m man param g Hs m' i C Hi Oi) as [-> D].
  destruct (created_dependencies m man param g m' i C Hi Oi) as [Dp _].
  destruct (process_room m man param g i Hi Oi) as (X1 & X2 & X3 & X4 & X5 & X6 & X7 & X8 & X9 & X10).
  split.
  - unfold ia_css_process_get_program_idx. pose proof (cr_g m man param g).
    rewrite not_null by lia. apply (qm_idx _ _ _ _ _ _ D).
  - rewrite (Dp d Hd). unfold process_with.
    destruct (List.find _ _) as [j |] eqn:F; [| reflexivity].
    apply List.find_some in F. destruct F as [Hj Ej]. apply filter_In in Hj. destruct Hj as [Hj Oj].
    apply list_elem_of_In, elem_of_range in Hj. apply Z.eqb_eq in Ej. destruct (Hno j Hj Oj Ej).
Qed.

(** The second program and its dependency on the third. *)
Lemma missing_dependency_is_first_witness :
  exists m', ia_css_process_group_create 8000 1000 3000 sample_create = (8000, m')
    /\ ia_css_process_get_cell_dependency m' (ia_css_process_group_get_process m' 8000 1) 1 = 0.
Proof.
  destruct (missing_dependency_is_first sample_create 1000 3000 8000 1 1) as (m' & E & _ & H);
    [vm_compute; reflexivity | vm_compute; discriminate | vm_compute; discriminate
    | split; [discriminate | vm_compute; reflexivity] | vm_compute; reflexivity
    | split; [discriminate | vm_compute; reflexivity] | |].
  - intros j Hj _. assert (Ej : j = 0) by lia. subst j. vm_compute. discriminate.
  - exists m'. split; [exact E |].
    assert (R : rank (q_run sample_create 1000 3000) 1 = 1) by (vm_compute; reflexivity).
    rewrite R in H. exact H.
Defined.
