(* ===== verification/MetadataTables.v ===== *)
(** * The tables of metadata tags

    src/metadata/icamera_metadata_tags.h and
    include/api/intel_vendor_metadata_tags.h enumerate the tags of a camera's
    metadata by section; src/metadata/icamera_metadata_tag_info.c and
    src/metadata/vendor_metadata_tag_info.c keep a name and a type for each.
    The two sides are positional arrays that are edited separately. *)

From Stdlib Require Import Ascii String.
From S2P Require Import Prelude.
From stdpp Require Import strings.
#[local] Open Scope string_scope.
#[local] Open Scope Z_scope.

(** ** Types of values (src/metadata/icamera_metadata_base.h) *)

Definition ICAMERA_TYPE_BYTE : Z := 0.
Definition ICAMERA_TYPE_INT32 : Z := 1.
Definition ICAMERA_TYPE_FLOAT : Z := 2.
Definition ICAMERA_TYPE_INT64 : Z := 3.
Definition ICAMERA_TYPE_DOUBLE : Z := 4.
Definition ICAMERA_TYPE_RATIONAL : Z := 5.
Definition ICAMERA_NUM_TYPES : Z := 6.

Definition icamera_metadata_type_size : list Z := [1; 4; 4; 8; 8; 8].

(** [icamera_metadata_type_size[type]]. *)
Definition type_size (type : Z) : Z := icamera_metadata_type_size !!! Z.to_nat type.

(** [tag_info_t]. *)
Record tag_info_t := Tag { tag_name : string; tag_type : Z }.

#[export] Instance tag_info_inhabited : Inhabited tag_info_t := populate (Tag "" 0).
#[local] Abbreviation BYTE := ICAMERA_TYPE_BYTE.
#[local] Abbreviation INT32 := ICAMERA_TYPE_INT32.
#[local] Abbreviation FLOAT := ICAMERA_TYPE_FLOAT.
#[local] Abbreviation INT64 := ICAMERA_TYPE_INT64.
#[local] Abbreviation DOUBLE := ICAMERA_TYPE_DOUBLE.
#[local] Abbreviation RATIONAL := ICAMERA_TYPE_RATIONAL.

(** ** Sections *)

Definition icamera_metadata_section : list string := [
  "CAMERA_AE"; "CAMERA_AWB"; "CAMERA_AF"; "CAMERA_CONTROL"; "CAMERA_DEMOSAIC"; "CAMERA_EDGE";
  "CAMERA_FLASH"; "CAMERA_FLASH_INFO"; "CAMERA_HOT_PIXEL"; "CAMERA_JPEG"; "CAMERA_LENS";
  "CAMERA_LENS_INFO"; "CAMERA_NOISE_REDUCTION"; "CAMERA_REQUEST"; "CAMERA_SCALER";
  "CAMERA_SENSOR"; "CAMERA_SENSOR_INFO"; "CAMERA_SHADING"; "CAMERA_STATISTICS";
  "CAMERA_STATISTICS_INFO"; "CAMERA_TONEMAP"; "CAMERA_LED"; "CAMERA_INFO";
  "CAMERA_BLACK_LEVEL"; "CAMERA_SYNC"; "CAMERA_REPROCESS"; "INTEL_INFO"; "INTEL_CONTROL";
  "INTEL_CONTROL_ISP"].

Definition vendor_metadata_section : list string := ["INTEL_VENDOR_CAMERA"].

(** ** The enumerators of each section, in order

    From [..._START] on; the one after the last is [..._END]. *)

Definition CAMERA_AE_tags : list string := [
  "CAMERA_AE_MODE"; "CAMERA_AE_LOCK"; "CAMERA_AE_REGIONS"; "CAMERA_AE_ANTIBANDING_MODE";
  "CAMERA_AE_COMPENSATION"; "CAMERA_AE_TARGET_FPS_RANGE"; "CAMERA_AE_PRECAPTURE_TRIGGER";
  "CAMERA_AE_STATE"; "CAMERA_AE_AVAILABLE_MODES"; "CAMERA_AE_AVAILABLE_ANTIBANDING_MODES";
  "CAMERA_AE_COMPENSATION_STEP"; "CAMERA_AE_COMPENSATION_RANGE";
  "CAMERA_AE_AVAILABLE_TARGET_FPS_RANGES"; "CAMERA_AE_LOCK_AVAILABLE"].

Definition CAMERA_AWB_tags : list string := [
  "CAMERA_AWB_MODE"; "CAMERA_AWB_COLOR_TRANSFORM"; "CAMERA_AWB_COLOR_GAINS"; "CAMERA_AWB_LOCK";
  "CAMERA_AWB_REGIONS"; "CAMERA_AWB_CCT_RANGE"; "CAMERA_AWB_GAINS"; "CAMERA_AWB_GAIN_SHIFT";
  "CAMERA_AWB_WHITE_POINT"; "CAMERA_AWB_CONVERGE_SPEED"; "CAMERA_AWB_CONVERGE_SPEED_MODE";
  "CAMERA_AWB_STATE"; "CAMERA_AWB_RESULT"; "CAMERA_AWB_AVAILABLE_MODES";
  "CAMERA_AWB_LOCK_AVAILABLE"].

Definition CAMERA_AF_tags : list string := [
  "CAMERA_AF_MODE"; "CAMERA_AF_REGIONS"; "CAMERA_AF_TRIGGER"; "CAMERA_AF_AVAILABLE_MODES";
  "CAMERA_AF_STATE"].

Definition CAMERA_CONTROL_tags : list string := [
  "CAMERA_CONTROL_CAPTUREINTENT"; "CAMERA_CONTROL_EFFECT_MODE"; "CAMERA_CONTROL_MODE";
  "CAMERA_CONTROL_SCENE_MODE"; "CAMERA_CONTROL_VIDEO_STABILIZATION_MODE";
  "CAMERA_CONTROL_AVAILABLE_EFFECTS"; "CAMERA_CONTROL_AVAILABLE_MODES";
  "CAMERA_CONTROL_AVAILABLE_SCENE_MODES"; "CAMERA_CONTROL_AVAILABLE_VIDEO_STABILIZATION_MODES";
  "CAMERA_CONTROL_MAX_REGIONS"; "CAMERA_CONTROL_SCENE_MODE_OVERRIDES";
  "CAMERA_CONTROL_AVAILABLE_HIGH_SPEED_VIDEO_CONFIGURATIONS"].

Definition CAMERA_DEMOSAIC_tags : list string := [
  "CAMERA_DEMOSAIC_MODE"].

Definition CAMERA_EDGE_tags : list string := [
  "CAMERA_EDGE_MODE"; "CAMERA_EDGE_STRENGTH"; "CAMERA_EDGE_AVAILABLE_EDGE_MODES"].

Definition CAMERA_FLASH_tags : list string := [
  "CAMERA_FLASH_FIRING_POWER"; "CAMERA_FLASH_FIRING_TIME"; "CAMERA_FLASH_MODE";
  "CAMERA_FLASH_COLOR_TEMPERATURE"; "CAMERA_FLASH_MAX_ENERGY"; "CAMERA_FLASH_STATE"].

Definition CAMERA_FLASH_INFO_tags : list string := [
  "CAMERA_FLASH_INFO_AVAILABLE"; "CAMERA_FLASH_INFO_CHARGE_DURATION"].

Definition CAMERA_HOT_PIXEL_tags : list string := [
  "CAMERA_HOT_PIXEL_MODE"; "CAMERA_HOT_PIXEL_AVAILABLE_HOT_PIXEL_MODES"].

Definition CAMERA_JPEG_tags : list string := [
  "CAMERA_JPEG_GPS_COORDINATES"; "CAMERA_JPEG_GPS_PROCESSING_METHOD";
  "CAMERA_JPEG_GPS_TIMESTAMP"; "CAMERA_JPEG_ORIENTATION"; "CAMERA_JPEG_QUALITY";
  "CAMERA_JPEG_THUMBNAIL_QUALITY"; "CAMERA_JPEG_THUMBNAIL_SIZE";
  "CAMERA_JPEG_AVAILABLE_THUMBNAIL_SIZES"; "CAMERA_JPEG_MAX_SIZE"; "CAMERA_JPEG_SIZE"].

Definition CAMERA_LENS_tags : list string := [
  "CAMERA_LENS_APERTURE"; "CAMERA_LENS_FILTER_DENSITY"; "CAMERA_LENS_FOCAL_LENGTH";
  "CAMERA_LENS_FOCUS_DISTANCE"; "CAMERA_LENS_OPTICAL_STABILIZATION_MODE"; "CAMERA_LENS_FACING";
  "CAMERA_LENS_FOCUS_RANGE"; "CAMERA_LENS_STATE"].

Definition CAMERA_LENS_INFO_tags : list string := [
  "CAMERA_LENS_INFO_AVAILABLE_APERTURES"; "CAMERA_LENS_INFO_AVAILABLE_FILTER_DENSITIES";
  "CAMERA_LENS_INFO_AVAILABLE_FOCAL_LENGTHS"; "CAMERA_LENS_INFO_AVAILABLE_OPTICAL_STABILIZATION";
  "CAMERA_LENS_INFO_HYPERFOCAL_DISTANCE"; "CAMERA_LENS_INFO_MINIMUM_FOCUS_DISTANCE";
  "CAMERA_LENS_INFO_SHADING_MAP_SIZE"; "CAMERA_LENS_INFO_FOCUS_DISTANCE_CALIBRATION"].

Definition CAMERA_NOISE_REDUCTION_tags : list string := [
  "CAMERA_NOISE_REDUCTION_MODE"; "CAMERA_NOISE_REDUCTION_STRENGTH";
  "CAMERA_NOISE_REDUCTION_AVAILABLE_NOISE_REDUCTION_MODES"].

Definition CAMERA_REQUEST_tags : list string := [
  "CAMERA_REQUEST_ID"; "CAMERA_REQUEST_METADATA_MODE"; "CAMERA_REQUEST_MAX_NUM_OUTPUT_STREAMS";
  "CAMERA_REQUEST_MAX_NUM_INPUT_STREAMS"; "CAMERA_REQUEST_PIPELINE_DEPTH";
  "CAMERA_REQUEST_PIPELINE_MAX_DEPTH"; "CAMERA_REQUEST_PARTIAL_RESULT_COUNT";
  "CAMERA_REQUEST_AVAILABLE_CAPABILITIES"; "CAMERA_REQUEST_AVAILABLE_REQUEST_KEYS";
  "CAMERA_REQUEST_AVAILABLE_RESULT_KEYS"; "CAMERA_REQUEST_AVAILABLE_CHARACTERISTICS_KEYS"].

Definition CAMERA_SCALER_tags : list string := [
  "CAMERA_SCALER_CROP_REGION"; "CAMERA_SCALER_AVAILABLE_JPEG_SIZES";
  "CAMERA_SCALER_AVAILABLE_MAX_DIGITAL_ZOOM"; "CAMERA_SCALER_AVAILABLE_INPUT_OUTPUT_FORMATS_MAP";
  "CAMERA_SCALER_AVAILABLE_STREAM_CONFIGURATIONS"; "CAMERA_SCALER_AVAILABLE_MIN_FRAME_DURATIONS";
  "CAMERA_SCALER_AVAILABLE_STALL_DURATIONS"; "CAMERA_SCALER_CROPPING_TYPE"].

Definition CAMERA_SENSOR_tags : list string := [
  "CAMERA_SENSOR_EXPOSURE_TIME"; "CAMERA_SENSOR_FRAME_DURATION"; "CAMERA_SENSOR_SENSITIVITY";
  "CAMERA_SENSOR_REFERENCE_ILLUMINANT1"; "CAMERA_SENSOR_REFERENCE_ILLUMINANT2";
  "CAMERA_SENSOR_CALIBRATION_TRANSFORM1"; "CAMERA_SENSOR_CALIBRATION_TRANSFORM2";
  "CAMERA_SENSOR_COLOR_TRANSFORM1"; "CAMERA_SENSOR_COLOR_TRANSFORM2";
  "CAMERA_SENSOR_FORWARD_MATRIX1"; "CAMERA_SENSOR_FORWARD_MATRIX2";
  "CAMERA_SENSOR_BASE_GAIN_FACTOR"; "CAMERA_SENSOR_BLACK_LEVEL_PATTERN";
  "CAMERA_SENSOR_MAX_ANALOG_SENSITIVITY"; "CAMERA_SENSOR_ORIENTATION";
  "CAMERA_SENSOR_PROFILE_HUE_SAT_MAP_DIMENSIONS"; "CAMERA_SENSOR_TIMESTAMP";
  "CAMERA_SENSOR_TEMPERATURE"; "CAMERA_SENSOR_NEUTRAL_COLOR_POINT";
  "CAMERA_SENSOR_NOISE_PROFILE"; "CAMERA_SENSOR_PROFILE_HUE_SAT_MAP";
  "CAMERA_SENSOR_PROFILE_TONE_CURVE"; "CAMERA_SENSOR_GREEN_SPLIT";
  "CAMERA_SENSOR_TEST_PATTERN_DATA"; "CAMERA_SENSOR_TEST_PATTERN_MODE";
  "CAMERA_SENSOR_AVAILABLE_TEST_PATTERN_MODES"; "CAMERA_SENSOR_OPAQUE_RAW_SIZE";
  "CAMERA_SENSOR_ROLLING_SHUTTER_SKEW"].

Definition CAMERA_SENSOR_INFO_tags : list string := [
  "CAMERA_SENSOR_INFO_ACTIVE_ARRAY_SIZE"; "CAMERA_SENSOR_INFO_SENSITIVITY_RANGE";
  "CAMERA_SENSOR_INFO_COLOR_FILTER_ARRANGEMENT"; "CAMERA_SENSOR_INFO_EXPOSURE_TIME_RANGE";
  "CAMERA_SENSOR_INFO_MAX_FRAME_DURATION"; "CAMERA_SENSOR_INFO_PHYSICAL_SIZE";
  "CAMERA_SENSOR_INFO_PIXEL_ARRAY_SIZE"; "CAMERA_SENSOR_INFO_WHITE_LEVEL";
  "CAMERA_SENSOR_INFO_TIMESTAMP_SOURCE"].

Definition CAMERA_SHADING_tags : list string := [
  "CAMERA_SHADING_MODE"; "CAMERA_SHADING_STRENGTH"; "CAMERA_SHADING_AVAILABLE_MODES"].

Definition CAMERA_STATISTICS_tags : list string := [
  "CAMERA_STATISTICS_FACE_DETECT_MODE"; "CAMERA_STATISTICS_HISTOGRAM_MODE";
  "CAMERA_STATISTICS_SHARPNESS_MAP_MODE"; "CAMERA_STATISTICS_HOT_PIXEL_MAP_MODE";
  "CAMERA_STATISTICS_FACE_IDS"; "CAMERA_STATISTICS_FACE_LANDMARKS";
  "CAMERA_STATISTICS_FACE_RECTANGLES"; "CAMERA_STATISTICS_FACE_SCORES";
  "CAMERA_STATISTICS_HISTOGRAM"; "CAMERA_STATISTICS_SHARPNESS_MAP";
  "CAMERA_STATISTICS_LENS_SHADING_CORRECTION_MAP"; "CAMERA_STATISTICS_LENS_SHADING_MAP";
  "CAMERA_STATISTICS_PREDICTED_COLOR_GAINS"; "CAMERA_STATISTICS_PREDICTED_COLOR_TRANSFORM";
  "CAMERA_STATISTICS_SCENE_FLICKER"; "CAMERA_STATISTICS_HOT_PIXEL_MAP";
  "CAMERA_STATISTICS_LENS_SHADING_MAP_MODE"].

Definition CAMERA_STATISTICS_INFO_tags : list string := [
  "CAMERA_STATISTICS_INFO_AVAILABLE_FACE_DETECT_MODES";
  "CAMERA_STATISTICS_INFO_HISTOGRAM_BUCKET_COUNT"; "CAMERA_STATISTICS_INFO_MAX_FACE_COUNT";
  "CAMERA_STATISTICS_INFO_MAX_HISTOGRAM_COUNT"; "CAMERA_STATISTICS_INFO_MAX_SHARPNESS_MAP_VALUE";
  "CAMERA_STATISTICS_INFO_SHARPNESS_MAP_SIZE";
  "CAMERA_STATISTICS_INFO_AVAILABLE_HOT_PIXEL_MAP_MODES"].

Definition CAMERA_TONEMAP_tags : list string := [
  "CAMERA_TONEMAP_CURVE_BLUE"; "CAMERA_TONEMAP_CURVE_GREEN"; "CAMERA_TONEMAP_CURVE_RED";
  "CAMERA_TONEMAP_MODE"; "CAMERA_TONEMAP_MAX_CURVE_POINTS";
  "CAMERA_TONEMAP_AVAILABLE_TONE_MAP_MODES"; "CAMERA_TONEMAP_GAMMA";
  "CAMERA_TONEMAP_PRESET_CURVE"].

Definition CAMERA_LED_tags : list string := [
  "CAMERA_LED_TRANSMIT"; "CAMERA_LED_AVAILABLE_LEDS"].

Definition CAMERA_INFO_tags : list string := [
  "CAMERA_INFO_SUPPORTED_HARDWARE_LEVEL"].

Definition CAMERA_BLACK_LEVEL_tags : list string := [
  "CAMERA_BLACK_LEVEL_LOCK"].

Definition CAMERA_SYNC_tags : list string := [
  "CAMERA_SYNC_FRAME_NUMBER"; "CAMERA_SYNC_MAX_LATENCY"].

Definition CAMERA_REPROCESS_tags : list string := [
  "CAMERA_REPROCESS_MAX_CAPTURE_STALL"].

Definition INTEL_INFO_tags : list string := [
  "INTEL_INFO_AVAILABLE_CONFIGURATIONS"; "INTEL_INFO_AVAILABLE_FEATURES";
  "INTEL_INFO_AE_EXPOSURE_TIME_RANGE"; "INTEL_INFO_AE_GAIN_RANGE"; "INTEL_INFO_WFOV";
  "INTEL_INFO_SENSOR_MOUNT_TYPE"].

Definition INTEL_CONTROL_tags : list string := [
  "INTEL_CONTROL_IMAGE_ENHANCEMENT"; "INTEL_CONTROL_SENSITIVITY_GAIN";
  "INTEL_CONTROL_FRAME_RATE"; "INTEL_CONTROL_AE_CONVERGE_SPEED"; "INTEL_CONTROL_NR_MODE";
  "INTEL_CONTROL_NR_LEVEL"; "INTEL_CONTROL_IRIS_MODE"; "INTEL_CONTROL_AE_DISTRIBUTION_PRIORITY";
  "INTEL_CONTROL_IRIS_LEVEL"; "INTEL_CONTROL_WDR_MODE"; "INTEL_CONTROL_WDR_LEVEL";
  "INTEL_CONTROL_BLC_AREA_MODE"; "INTEL_CONTROL_SCENE_MODE"; "INTEL_CONTROL_WEIGHT_GRID_MODE";
  "INTEL_CONTROL_AE_CONVERGE_SPEED_MODE"; "INTEL_CONTROL_DEINTERLACE_MODE";
  "INTEL_CONTROL_MAKERNOTE_DATA"; "INTEL_CONTROL_CUSTOM_AIC_PARAM";
  "INTEL_CONTROL_MAKERNOTE_MODE"; "INTEL_CONTROL_YUV_COLOR_RANGE";
  "INTEL_CONTROL_SENSITIVITY_GAIN_RANGE"; "INTEL_CONTROL_EXPOSURE_TIME_RANGE";
  "INTEL_CONTROL_FISHEYE_DEWARPING_MODE"; "INTEL_CONTROL_LTM_TUNING_DATA";
  "INTEL_CONTROL_DIGITAL_ZOOM_RATIO"; "INTEL_CONTROL_LDC_MODE"; "INTEL_CONTROL_RSC_MODE";
  "INTEL_CONTROL_FLIP_MODE"; "INTEL_CONTROL_MONO_DOWNSCALE"; "INTEL_CONTROL_RUN3_A_CADENCE";
  "INTEL_CONTROL_VIEW_PROJECTION"; "INTEL_CONTROL_VIEW_ROTATION";
  "INTEL_CONTROL_VIEW_FINE_ADJUSTMENTS"; "INTEL_CONTROL_CAMERA_ROTATION";
  "INTEL_CONTROL_SCALER_CROP_REGION"].

Definition INTEL_CONTROL_ISP_tags : list string := [
  "INTEL_CONTROL_ISP_SUPPORTED_CTRL_IDS"; "INTEL_CONTROL_ISP_ENABLED_CTRL_IDS";
  "INTEL_CONTROL_ISP_WB_GAINS"; "INTEL_CONTROL_ISP_COLOR_CORRECTION_MATRIX";
  "INTEL_CONTROL_ISP_ADVANCED_COLOR_CORRECTION_MATRIX"; "INTEL_CONTROL_ISP_BXT_CSC";
  "INTEL_CONTROL_ISP_BXT_DEMOSAIC"; "INTEL_CONTROL_ISP_SC_IEFD"; "INTEL_CONTROL_ISP_SEE";
  "INTEL_CONTROL_ISP_BNLM"; "INTEL_CONTROL_ISP_TNR5_21"; "INTEL_CONTROL_ISP_XNR_DSS";
  "INTEL_CONTROL_ISP_GAMMA_TONE_MAP"; "INTEL_CONTROL_ISP_TNR5_22"; "INTEL_CONTROL_ISP_TNR5_25"].

Definition INTEL_VENDOR_CAMERA_tags : list string := [
  "INTEL_VENDOR_CAMERA_CALLBACK_RGBS"; "INTEL_VENDOR_CAMERA_RGBS_GRID_SIZE";
  "INTEL_VENDOR_CAMERA_SHADING_CORRECTION"; "INTEL_VENDOR_CAMERA_RGBS_STATS_BLOCKS";
  "INTEL_VENDOR_CAMERA_CALLBACK_TM_CURVE"; "INTEL_VENDOR_CAMERA_TONE_MAP_CURVE";
  "INTEL_VENDOR_CAMERA_POWER_MODE"; "INTEL_VENDOR_CAMERA_IC_CAPS";
  "INTEL_VENDOR_CAMERA_IC_PEACE_FEATURES"; "INTEL_VENDOR_CAMERA_IC_ECC_MODE";
  "INTEL_VENDOR_CAMERA_IC_BC_MODE"; "INTEL_VENDOR_CAMERA_IC_BR_PARAMETERS";
  "INTEL_VENDOR_CAMERA_IC_UF_MODE"; "INTEL_VENDOR_CAMERA_TOTAL_EXPOSURE_TARGET";
  "INTEL_VENDOR_CAMERA_TOTAL_EXPOSURE_TARGET_RANGE"; "INTEL_VENDOR_CAMERA_RAW_DATA_OUTPUT";
  "INTEL_VENDOR_CAMERA_HDR_RATIO"; "INTEL_VENDOR_CAMERA_MODULE_ID";
  "INTEL_VENDOR_CAMERA_SENSOR_ID"; "INTEL_VENDOR_CAMERA_SENSOR_MODE";
  "INTEL_VENDOR_CAMERA_ANALOG_GAIN_RANGE"; "INTEL_VENDOR_CAMERA_DIGITAL_GAIN_RANGE";
  "INTEL_VENDOR_CAMERA_ANALOG_GAIN"; "INTEL_VENDOR_CAMERA_DIGITAL_GAIN";
  "INTEL_VENDOR_CAMERA_SENSITIVITY_RANGE"].

(** ** The tables *)

Definition camera_ae : list tag_info_t := [
  Tag "mode" BYTE; Tag "lock" BYTE; Tag "regions" INT32; Tag "antibandingMode" BYTE;
  Tag "compensation" INT32; Tag "targetFpsRange" FLOAT; Tag "precaptureTrigger" BYTE;
  Tag "state" BYTE; Tag "availableModes" BYTE; Tag "availableAntibandingModes" BYTE;
  Tag "compensationStep" RATIONAL; Tag "compensationRange" INT32;
  Tag "availableTargetFpsRanges" FLOAT; Tag "lockAvailable" BYTE].

Definition camera_awb : list tag_info_t := [
  Tag "mode" BYTE; Tag "colorTransform" FLOAT; Tag "colorGains" FLOAT; Tag "lock" BYTE;
  Tag "regions" INT32; Tag "cctRange" INT32; Tag "gains" INT32; Tag "gainShift" INT32;
  Tag "whitePoint" INT32; Tag "convergeSpeed" BYTE; Tag "convergeSpeedMode" BYTE;
  Tag "state" BYTE; Tag "result" BYTE; Tag "availableModes" BYTE; Tag "lockAvailable" BYTE].

Definition camera_af : list tag_info_t := [
  Tag "mode" BYTE; Tag "regions" INT32; Tag "trigger" BYTE; Tag "availableModes" BYTE;
  Tag "state" BYTE].

Definition camera_control : list tag_info_t := [
  Tag "captureintent" BYTE; Tag "effectMode" BYTE; Tag "mode" BYTE; Tag "sceneMode" BYTE;
  Tag "videoStabilizationMode" BYTE; Tag "availableEffects" BYTE; Tag "availableModes" BYTE;
  Tag "availableSceneModes" BYTE; Tag "availableVideoStabilizationModes" BYTE;
  Tag "maxRegions" INT32; Tag "sceneModeOverrides" BYTE;
  Tag "availableHighSpeedVideoConfigurations" INT32].

Definition camera_demosaic : list tag_info_t := [
  Tag "mode" BYTE].

Definition camera_edge : list tag_info_t := [
  Tag "mode" BYTE; Tag "strength" BYTE; Tag "availableEdgeModes" BYTE].

Definition camera_flash : list tag_info_t := [
  Tag "firingPower" BYTE; Tag "firingTime" INT64; Tag "mode" BYTE; Tag "colorTemperature" BYTE;
  Tag "maxEnergy" BYTE; Tag "state" BYTE].

Definition camera_flash_info : list tag_info_t := [
  Tag "available" BYTE; Tag "chargeDuration" INT64].

Definition camera_hot_pixel : list tag_info_t := [
  Tag "mode" BYTE; Tag "availableHotPixelModes" BYTE].

Definition camera_jpeg : list tag_info_t := [
  Tag "gpsCoordinates" DOUBLE; Tag "gpsProcessingMethod" BYTE; Tag "gpsTimestamp" INT64;
  Tag "orientation" INT32; Tag "quality" BYTE; Tag "thumbnailQuality" BYTE;
  Tag "thumbnailSize" INT32; Tag "availableThumbnailSizes" INT32; Tag "maxSize" INT32;
  Tag "size" INT32].

Definition camera_lens : list tag_info_t := [
  Tag "aperture" FLOAT; Tag "filterDensity" FLOAT; Tag "focalLength" FLOAT;
  Tag "focusDistance" FLOAT; Tag "opticalStabilizationMode" BYTE; Tag "facing" BYTE;
  Tag "focusRange" FLOAT; Tag "state" BYTE].

Definition camera_lens_info : list tag_info_t := [
  Tag "availableApertures" FLOAT; Tag "availableFilterDensities" FLOAT;
  Tag "availableFocalLengths" FLOAT; Tag "availableOpticalStabilization" BYTE;
  Tag "hyperfocalDistance" FLOAT; Tag "minimumFocusDistance" FLOAT; Tag "shadingMapSize" INT32;
  Tag "focusDistanceCalibration" BYTE].

Definition camera_noise_reduction : list tag_info_t := [
  Tag "mode" BYTE; Tag "strength" BYTE; Tag "availableNoiseReductionModes" BYTE].

Definition camera_request : list tag_info_t := [
  Tag "id" INT32; Tag "metadataMode" BYTE; Tag "maxNumOutputStreams" INT32;
  Tag "maxNumInputStreams" INT32; Tag "pipelineDepth" BYTE; Tag "pipelineMaxDepth" BYTE;
  Tag "partialResultCount" INT32; Tag "availableCapabilities" BYTE;
  Tag "availableRequestKeys" INT32; Tag "availableResultKeys" INT32;
  Tag "availableCharacteristicsKeys" INT32].

Definition camera_scaler : list tag_info_t := [
  Tag "cropRegion" INT32; Tag "availableJpegSizes" INT32; Tag "availableMaxDigitalZoom" FLOAT;
  Tag "availableInputOutputFormatsMap" INT32; Tag "availableStreamConfigurations" INT32;
  Tag "availableMinFrameDurations" INT64; Tag "availableStallDurations" INT64;
  Tag "croppingType" BYTE].

Definition camera_sensor : list tag_info_t := [
  Tag "exposureTime" INT64; Tag "frameDuration" INT64; Tag "sensitivity" INT32;
  Tag "referenceIlluminant1" BYTE; Tag "referenceIlluminant2" BYTE;
  Tag "calibrationTransform1" RATIONAL; Tag "calibrationTransform2" RATIONAL;
  Tag "colorTransform1" RATIONAL; Tag "colorTransform2" RATIONAL; Tag "forwardMatrix1" RATIONAL;
  Tag "forwardMatrix2" RATIONAL; Tag "baseGainFactor" RATIONAL; Tag "blackLevelPattern" INT32;
  Tag "maxAnalogSensitivity" INT32; Tag "orientation" INT32;
  Tag "profileHueSatMapDimensions" INT32; Tag "timestamp" INT64; Tag "temperature" FLOAT;
  Tag "neutralColorPoint" RATIONAL; Tag "noiseProfile" DOUBLE; Tag "profileHueSatMap" FLOAT;
  Tag "profileToneCurve" FLOAT; Tag "greenSplit" FLOAT; Tag "testPatternData" INT32;
  Tag "testPatternMode" INT32; Tag "availableTestPatternModes" INT32; Tag "opaqueRawSize" INT32;
  Tag "rollingShutterSkew" INT64].

Definition camera_sensor_info : list tag_info_t := [
  Tag "activeArraySize" INT32; Tag "sensitivityRange" INT32; Tag "colorFilterArrangement" BYTE;
  Tag "exposureTimeRange" INT64; Tag "maxFrameDuration" INT64; Tag "physicalSize" FLOAT;
  Tag "pixelArraySize" INT32; Tag "whiteLevel" INT32; Tag "timestampSource" BYTE].

Definition camera_shading : list tag_info_t := [
  Tag "mode" BYTE; Tag "strength" BYTE; Tag "availableModes" BYTE].

Definition camera_statistics : list tag_info_t := [
  Tag "faceDetectMode" BYTE; Tag "histogramMode" BYTE; Tag "sharpnessMapMode" BYTE;
  Tag "hotPixelMapMode" BYTE; Tag "faceIds" INT32; Tag "faceLandmarks" INT32;
  Tag "faceRectangles" INT32; Tag "faceScores" BYTE; Tag "histogram" INT32;
  Tag "sharpnessMap" INT32; Tag "lensShadingCorrectionMap" BYTE; Tag "lensShadingMap" FLOAT;
  Tag "predictedColorGains" FLOAT; Tag "predictedColorTransform" RATIONAL;
  Tag "sceneFlicker" BYTE; Tag "hotPixelMap" INT32; Tag "lensShadingMapMode" BYTE].

Definition camera_statistics_info : list tag_info_t := [
  Tag "availableFaceDetectModes" BYTE; Tag "histogramBucketCount" INT32;
  Tag "maxFaceCount" INT32; Tag "maxHistogramCount" INT32; Tag "maxSharpnessMapValue" INT32;
  Tag "sharpnessMapSize" INT32; Tag "availableHotPixelMapModes" BYTE].

Definition camera_tonemap : list tag_info_t := [
  Tag "curveBlue" FLOAT; Tag "curveGreen" FLOAT; Tag "curveRed" FLOAT; Tag "mode" BYTE;
  Tag "maxCurvePoints" INT32; Tag "availableToneMapModes" BYTE; Tag "gamma" FLOAT;
  Tag "presetCurve" BYTE].

Definition camera_led : list tag_info_t := [
  Tag "transmit" BYTE; Tag "availableLeds" BYTE].

Definition camera_info : list tag_info_t := [
  Tag "supportedHardwareLevel" BYTE].

Definition camera_black_level : list tag_info_t := [
  Tag "lock" BYTE].

Definition camera_sync : list tag_info_t := [
  Tag "frameNumber" INT64; Tag "maxLatency" INT32].

Definition camera_reprocess : list tag_info_t := [
  Tag "maxCaptureStall" INT32].

Definition intel_info : list tag_info_t := [
  Tag "availableConfigurations" INT32; Tag "availableFeatures" BYTE;
  Tag "aeExposureTimeRange" INT32; Tag "aeGainRange" INT32; Tag "wfov" BYTE;
  Tag "sensorMountType" BYTE].

Definition intel_control : list tag_info_t := [
  Tag "imageEnhancement" INT32; Tag "sensitivityGain" FLOAT; Tag "frameRate" FLOAT;
  Tag "aeConvergeSpeed" BYTE; Tag "nrMode" BYTE; Tag "nrLevel" INT32; Tag "irisMode" BYTE;
  Tag "aeDistributionPriority" BYTE; Tag "irisLevel" INT32; Tag "wdrMode" BYTE;
  Tag "wdrLevel" BYTE; Tag "blcAreaMode" BYTE; Tag "sceneMode" BYTE; Tag "weightGridMode" BYTE;
  Tag "aeConvergeSpeedMode" BYTE; Tag "deinterlaceMode" BYTE; Tag "makernoteData" BYTE;
  Tag "customAicParam" BYTE; Tag "makernoteMode" BYTE; Tag "yuvColorRange" BYTE;
  Tag "sensitivityGainRange" FLOAT; Tag "exposureTimeRange" INT32;
  Tag "fisheyeDewarpingMode" BYTE; Tag "ltmTuningData" BYTE; Tag "digitalZoomRatio" FLOAT;
  Tag "ldcMode" BYTE; Tag "rscMode" BYTE; Tag "flipMode" BYTE; Tag "monoDownscale" BYTE;
  Tag "run3ACadence" INT32; Tag "viewProjection" BYTE; Tag "viewRotation" BYTE;
  Tag "viewFineAdjustments" BYTE; Tag "cameraRotation" BYTE; Tag "scalerCropRegion" INT32].

Definition intel_control_isp : list tag_info_t := [
  Tag "supportedCtrlIds" INT32; Tag "enabledCtrlIds" INT32; Tag "wb_gains" BYTE;
  Tag "color_correction_matrix" BYTE; Tag "advanced_color_correction_matrix" BYTE;
  Tag "bxt_csc" BYTE; Tag "bxt_demosaic" BYTE; Tag "sc_iefd" BYTE; Tag "see" BYTE;
  Tag "bnlm" BYTE; Tag "tnr5_21" BYTE; Tag "xnr_dss" BYTE; Tag "gamma_tone_map" BYTE;
  Tag "tnr5_22" BYTE; Tag "tnr5_25" BYTE].

Definition intel_vendor_camera : list tag_info_t := [
  Tag "callbackRgbs" BYTE; Tag "rgbsGridSize" INT32; Tag "shadingCorrection" BYTE;
  Tag "rgbsStatsBlocks" BYTE; Tag "callbackTmCurve" BYTE; Tag "toneMapCurve" FLOAT;
  Tag "powerMode" BYTE; Tag "icCaps" INT32; Tag "icPeaceFeatures" INT32; Tag "icEccMode" BYTE;
  Tag "icBcMode" BYTE; Tag "icBrParameters" INT32; Tag "icUfMode" BYTE;
  Tag "totalExposureTarget" INT64; Tag "totalExposureTargetRange" INT64;
  Tag "rawDataOutput" BYTE; Tag "hdrRatio" FLOAT; Tag "moduleId" BYTE; Tag "sensorId" BYTE;
  Tag "sensorMode" BYTE; Tag "analogGainRange" FLOAT; Tag "digitalGainRange" FLOAT;
  Tag "analogGain" FLOAT; Tag "digitalGain" FLOAT; Tag "sensitivityRange" INT32].

Definition icamera_metadata_section_names : list string := [
  "camera.ae"; "camera.awb"; "camera.af"; "camera.control"; "camera.demosaic"; "camera.edge";
  "camera.flash"; "camera.flash.info"; "camera.hotPixel"; "camera.jpeg"; "camera.lens";
  "camera.lens.info"; "camera.noiseReduction"; "camera.request"; "camera.scaler";
  "camera.sensor"; "camera.sensor.info"; "camera.shading"; "camera.statistics";
  "camera.statistics.info"; "camera.tonemap"; "camera.led"; "camera.info"; "camera.blackLevel";
  "camera.sync"; "camera.reprocess"; "intel.info"; "intel.control"; "intel.control_isp"].

(** [{ section_START, section_END }]. *)
Definition bounds (section : Z) (tags : list string) : Z * Z :=
  (section * 2 ^ 16, section * 2 ^ 16 + Z.of_nat (List.length tags)).

Definition icamera_metadata_section_bounds : list (Z * Z) := [
  bounds 0 CAMERA_AE_tags; bounds 1 CAMERA_AWB_tags; bounds 2 CAMERA_AF_tags;
  bounds 3 CAMERA_CONTROL_tags; bounds 4 CAMERA_DEMOSAIC_tags; bounds 5 CAMERA_EDGE_tags;
  bounds 6 CAMERA_FLASH_tags; bounds 7 CAMERA_FLASH_INFO_tags; bounds 8 CAMERA_HOT_PIXEL_tags;
  bounds 9 CAMERA_JPEG_tags; bounds 10 CAMERA_LENS_tags; bounds 11 CAMERA_LENS_INFO_tags;
  bounds 12 CAMERA_NOISE_REDUCTION_tags; bounds 13 CAMERA_REQUEST_tags;
  bounds 14 CAMERA_SCALER_tags; bounds 15 CAMERA_SENSOR_tags; bounds 16 CAMERA_SENSOR_INFO_tags;
  bounds 17 CAMERA_SHADING_tags; bounds 18 CAMERA_STATISTICS_tags;
  bounds 19 CAMERA_STATISTICS_INFO_tags; bounds 20 CAMERA_TONEMAP_tags;
  bounds 21 CAMERA_LED_tags; bounds 22 CAMERA_INFO_tags; bounds 23 CAMERA_BLACK_LEVEL_tags;
  bounds 24 CAMERA_SYNC_tags; bounds 25 CAMERA_REPROCESS_tags; bounds 26 INTEL_INFO_tags;
  bounds 27 INTEL_CONTROL_tags; bounds 28 INTEL_CONTROL_ISP_tags].

Definition icamera_tag_info : list (list tag_info_t) := [
  camera_ae; camera_awb; camera_af; camera_control; camera_demosaic; camera_edge; camera_flash;
  camera_flash_info; camera_hot_pixel; camera_jpeg; camera_lens; camera_lens_info;
  camera_noise_reduction; camera_request; camera_scaler; camera_sensor; camera_sensor_info;
  camera_shading; camera_statistics; camera_statistics_info; camera_tonemap; camera_led;
  camera_info; camera_black_level; camera_sync; camera_reprocess; intel_info; intel_control;
  intel_control_isp].

Definition CAMERA_SECTION_COUNT : Z := 29.
Definition INTEL_VENDOR_CAMERA_SECTION : Z := 32772. (* 0x8004 *)
Definition INTEL_VENDOR_CAMERA_SECTION_END : Z := INTEL_VENDOR_CAMERA_SECTION + 1.

Definition vendor_metadata_section_names : list string := [
  "intel.vendorCamera"].

Definition vendor_metadata_section_bounds : list (Z * Z) := [
  bounds INTEL_VENDOR_CAMERA_SECTION INTEL_VENDOR_CAMERA_tags].

Definition vendor_tag_info : list (list tag_info_t) := [
  intel_vendor_camera].
