(* ===== verification/MetadataTags.v ===== *)
(** * Looking up metadata tags

    [get_icamera_metadata_section_name], [get_icamera_metadata_tag_name] and
    [get_icamera_metadata_tag_type] of src/metadata/icamera_metadata_base.cpp:
    a tag is its section in the upper half and its index in the section in the
    lower; sections from 0x8004 on are the vendor's. *)

From Stdlib Require Import Ascii String.
From S2P Require Import Prelude MetadataTables.
From stdpp Require Import strings.
#[local] Open Scope string_scope.
#[local] Open Scope Z_scope.

(** ** Operations *)

(** A row of an array of sections, and of a table of tags. *)
Definition row {A} `{Inhabited A} (l : list A) (i : Z) : A := l !!! Z.to_nat i.

Definition in_bounds (b : Z * Z) (tag : Z) : bool := (fst b <=? tag) && (tag <? snd b).

(** The table entry of a tag, none where the functions answer [nullptr] or
    -1. *)
Definition tag_lookup (tag : Z) : option tag_info_t :=
  let tag_section := Z.shiftr tag 16 in
  let tag_index := Z.land tag 65535 in
  if (tag_section <? CAMERA_SECTION_COUNT)
     && in_bounds (row icamera_metadata_section_bounds tag_section) tag
  then Some (row (row icamera_tag_info tag_section) tag_index)
  else if (INTEL_VENDOR_CAMERA_SECTION <=? tag_section)
          && (tag_section <? INTEL_VENDOR_CAMERA_SECTION_END)
  then
    let tag_section := tag_section - INTEL_VENDOR_CAMERA_SECTION in
    if in_bounds (row vendor_metadata_section_bounds tag_section) tag
    then Some (row (row vendor_tag_info tag_section) tag_index)
    else None
  else None.

Definition get_icamera_metadata_section_name (tag : Z) : option string :=
  let tag_section := Z.shiftr tag 16 in
  if tag_section <? CAMERA_SECTION_COUNT
  then Some (row icamera_metadata_section_names tag_section)
  else if (INTEL_VENDOR_CAMERA_SECTION <=? tag_section)
          && (tag_section <? INTEL_VENDOR_CAMERA_SECTION_END)
  then Some (row vendor_metadata_section_names (tag_section - INTEL_VENDOR_CAMERA_SECTION))
  else None.

Definition get_icamera_metadata_tag_name (tag : Z) : option string :=
  tag_name <$> tag_lookup tag.

Definition get_icamera_metadata_tag_type (tag : Z) : Z :=
  match tag_lookup tag with Some info => tag_type info | None => -1 end.

(** ** The enumerators *)

Definition section_tags : list (list string) := [
  CAMERA_AE_tags; CAMERA_AWB_tags; CAMERA_AF_tags; CAMERA_CONTROL_tags; CAMERA_DEMOSAIC_tags;
  CAMERA_EDGE_tags; CAMERA_FLASH_tags; CAMERA_FLASH_INFO_tags; CAMERA_HOT_PIXEL_tags;
  CAMERA_JPEG_tags; CAMERA_LENS_tags; CAMERA_LENS_INFO_tags; CAMERA_NOISE_REDUCTION_tags;
  CAMERA_REQUEST_tags; CAMERA_SCALER_tags; CAMERA_SENSOR_tags; CAMERA_SENSOR_INFO_tags;
  CAMERA_SHADING_tags; CAMERA_STATISTICS_tags; CAMERA_STATISTICS_INFO_tags; CAMERA_TONEMAP_tags;
  CAMERA_LED_tags; CAMERA_INFO_tags; CAMERA_BLACK_LEVEL_tags; CAMERA_SYNC_tags;
  CAMERA_REPROCESS_tags; INTEL_INFO_tags; INTEL_CONTROL_tags; INTEL_CONTROL_ISP_tags].

(** Number, name and tags of each section. *)
Definition number (first : Z) (l : list (string * list string)) : list (Z * string * list string) :=
  imap (fun i s => (first + Z.of_nat i, fst s, snd s)) l.

Definition sections : list (Z * string * list string) :=
  number 0 (zip icamera_metadata_section section_tags)
  ++ number INTEL_VENDOR_CAMERA_SECTION (zip vendor_metadata_section [INTEL_VENDOR_CAMERA_tags]).

(** The values of the enumerators of a section. *)
Definition section_values (s : Z * string * list string) : list (Z * (string * string)) :=
  let '(n, name, tags) := s in
  imap (fun i e => (n * 2 ^ 16 + Z.of_nat i, (name, e))) tags.

(** Every tag: value, section, enumerator. *)
Definition enumerators : list (Z * (string * string)) := flat_map section_values sections.

(** A name of a table in the spelling of the enumerators: a new word starts at
    an upper-case letter after a lower-case one or a digit, and at one between
    an upper-case letter and a lower-case one. *)
Definition between (lo hi c : ascii) : bool :=
  (N_of_ascii lo <=? N_of_ascii c)%N && (N_of_ascii c <=? N_of_ascii hi)%N.
Definition upper_case (c : ascii) : bool := between "A" "Z" c.
Definition lower_case (c : ascii) : bool := between "a" "z" c.
Definition to_upper (c : ascii) : ascii :=
  if lower_case c then ascii_of_N (N_of_ascii c - 32) else c.

Fixpoint words (before : option ascii) (s : string) : string :=
  match s with
  | EmptyString => EmptyString
  | String c s' =>
      let starts_word :=
        upper_case c
        && match before with
           | None => false
           | Some b =>
               negb (upper_case b)
               || match s' with String d _ => lower_case d | EmptyString => false end
           end in
      (if starts_word then String "_" else id) (String (to_upper c) (words (Some c) s'))
  end.

(** The enumerator of a table entry in section [name]. *)
Definition spelled (name : string) (info : tag_info_t) : string :=
  (name ++ "_" ++ words None (tag_name info))%string.

Definition entry_matches (name e : string) (info : tag_info_t) : bool :=
  (0 <=? tag_type info) && (tag_type info <? ICAMERA_NUM_TYPES)
  && String.eqb (spelled name info) e.

(** ** Proofs *)

Lemma enumerators_match :
  forallb (fun '(tag, (name, e)) =>
             match tag_lookup tag with Some info => entry_matches name e info | None => false end)
    enumerators = true.
Proof. vm_compute. reflexivity. Qed.

Lemma enumerators_distinct : NoDup (map fst enumerators).
Proof. apply (bool_decide_unpack (NoDup (map fst enumerators))). vm_compute. exact I. Qed.

Lemma section_values_elem n name tags tag :
  n * 2 ^ 16 <= tag < n * 2 ^ 16 + Z.of_nat (List.length tags) ->
  exists e, In (tag, (name, e)) (section_values (n, name, tags)).
Proof.
  intros H. destruct (lookup_lt_is_Some_2 tags (Z.to_nat (tag - n * 2 ^ 16))) as [e He]; [lia |].
  exists e. apply list_elem_of_In, list_elem_of_lookup. exists (Z.to_nat (tag - n * 2 ^ 16)).
  unfold section_values. rewrite list_lookup_imap, He. cbn [fmap option_fmap option_map].
  do 2 f_equal. lia.
Qed.

(** The bounds of the two arrays are those of the sections. *)
Lemma bounds_of_sections :
  map (fun '(n, _, tags) => bounds n tags) sections
  = (icamera_metadata_section_bounds ++ vendor_metadata_section_bounds)%list.
Proof. reflexivity. Qed.

Lemma in_bounds_enumerated b tag :
  In b (icamera_metadata_section_bounds ++ vendor_metadata_section_bounds)%list ->
  in_bounds b tag = true -> exists name e, In (tag, (name, e)) enumerators.
Proof.
  rewrite <- bounds_of_sections, in_map_iff. intros ([[n name] tags] & <- & Hs) Hb.
  unfold in_bounds, bounds in Hb. cbn [fst snd] in Hb. bsimp.
  destruct (section_values_elem n name tags tag) as [e He]; [lia |].
  exists name, e. apply in_flat_map. exists (n, name, tags). auto.
Qed.

Lemma row_in {A} `{Inhabited A} (l : list A) i :
  0 <= i < Z.of_nat (List.length l) -> In (row l i) l.
Proof.
  intros Hi. apply list_elem_of_In. unfold row. apply list_elem_of_lookup_total.
  exists (Z.to_nat i). split; [lia | reflexivity].
Qed.

Lemma tag_lookup_enumerated tag :
  0 <= tag -> tag_lookup tag <> None -> exists name e, In (tag, (name, e)) enumerators.
Proof.
  intros H0. unfold tag_lookup. cbv zeta.
  assert (0 <= Z.shiftr tag 16) by (apply Z.shiftr_nonneg; exact H0).
  destruct (_ && _) eqn:E1.
  - intros _. bsimp. eapply in_bounds_enumerated; [| eassumption].
    apply in_or_app. left. apply row_in. change (Z.of_nat (List.length _)) with CAMERA_SECTION_COUNT. lia.
  - destruct ((INTEL_VENDOR_CAMERA_SECTION <=? Z.shiftr tag 16) && _) eqn:E2; [| congruence].
    destruct (in_bounds _ tag) eqn:E3 in |- *; [| congruence]. intros _. bsimp.
    eapply in_bounds_enumerated; [| eassumption].
    apply in_or_app. right. apply row_in.
    unfold INTEL_VENDOR_CAMERA_SECTION_END in *. cbn [List.length vendor_metadata_section_bounds]. lia.
Qed.

Lemma tag_type_enumerated tag name e :
  In (tag, (name, e)) enumerators ->
  exists info, tag_lookup tag = Some info /\ entry_matches name e info = true.
Proof.
  intros H. pose proof enumerators_match as M. rewrite forallb_forall in M. specialize (M _ H).
  cbn beta iota in M. destruct (tag_lookup tag) as [info |]; [| discriminate]. eauto.
Qed.

(** The type of a tag is -1 or the type of values of a known size. *)
Lemma tag_type_range tag :
  0 <= tag -> get_icamera_metadata_tag_type tag = -1
  \/ 0 <= get_icamera_metadata_tag_type tag < ICAMERA_NUM_TYPES.
Proof.
  intros H0. unfold get_icamera_metadata_tag_type. destruct (tag_lookup tag) as [info |] eqn:E; [| auto].
  destruct (tag_lookup_enumerated tag H0) as (name & e & He); [congruence |].
  destruct (tag_type_enumerated _ _ _ He) as (info' & E' & M). rewrite E in E'. injection E' as <-.
  unfold entry_matches in M. bsimp. right. lia.
Qed.

(** ** Theorems *)

(** C35: headers and tables agree.  The tags of all sections have distinct
    values; each has a table entry, with one of the six types and with the
    name its enumerator is spelled from; and no other value is given a type,
    so no lookup leaves the tables. *)
Theorem tags_in_sync :
  NoDup (map fst enumerators)
  /\ (forall tag name e, In (tag, (name, e)) enumerators ->
       exists s, get_icamera_metadata_tag_name tag = Some s /\ e = (name ++ "_" ++ words None s)%string
         /\ 0 <= get_icamera_metadata_tag_type tag < ICAMERA_NUM_TYPES)
  /\ forall tag, 0 <= tag -> (forall name e, ~ In (tag, (name, e)) enumerators) ->
       get_icamera_metadata_tag_name tag = None /\ get_icamera_metadata_tag_type tag = -1.
Proof.
  split; [exact enumerators_distinct |]. split.
  - intros tag name e H. destruct (tag_type_enumerated _ _ _ H) as (info & E & M).
    unfold get_icamera_metadata_tag_name, get_icamera_metadata_tag_type. rewrite E.
    unfold entry_matches in M. bsimp. exists (tag_name info). split; [reflexivity |].
    split; [symmetry; apply String.eqb_eq; assumption | lia].
  - intros tag H0 H. unfold get_icamera_metadata_tag_name, get_icamera_metadata_tag_type.
    destruct (tag_lookup tag) eqn:E; [| auto].
    destruct (tag_lookup_enumerated tag H0) as (name & e & He); [congruence |]. destruct (H _ _ He).
Qed.

Lemma tags_in_sync_witness :
  exists s, get_icamera_metadata_tag_name 10 = Some s
    /\ "CAMERA_AE_COMPENSATION_STEP"%string = ("CAMERA_AE" ++ "_" ++ words None s)%string
    /\ 0 <= get_icamera_metadata_tag_type 10 < ICAMERA_NUM_TYPES.
Proof.
  destruct tags_in_sync as (_ & H & _). apply H. vm_compute. do 10 right. left. reflexivity.
Defined.
