(* ===== verification/MetadataBuffer.v ===== *)
(** * Metadata packets: operations

    src/metadata/icamera_metadata_base.cpp: a packet of camera metadata is one
    buffer with a header, an array of 16-byte entries with free slots, and a
    data area with free bytes.  An entry has a tag, a type and a count of
    values; values of up to four bytes are in the entry, others in the data
    area, at a multiple of eight.  The dump functions are not modelled. *)

From Stdlib Require Import Sorted.
From S2P Require Import Prelude Memory Errors MetadataTables MetadataTags.
#[local] Open Scope css_scope.

(** ** Layout *)

(** [struct icamera_metadata]; the reserved bytes are a flexible array. *)
Module md.
Definition size := U32 0.
Definition version := U32 4.
Definition flags := U32 8.
Definition entry_count := U32 12.
Definition entry_capacity := U32 16.
Definition entries_start := U32 20.
Definition data_count := U32 24.
Definition data_capacity := U32 28.
Definition data_start := U32 32.
End md.

Definition sizeof_icamera_metadata_t : Z := 36.

(** [camera_metadata_buffer_entry_t]; [value] is the address of the union. *)
Module mbe.
Definition tag := U32 0.
Definition count := U32 4.
Definition offset := U32 8.
Definition type := U8 12.
Definition reserved := U8 13.
End mbe.

Definition offsetof_value : Z := 8.
Definition sizeof_buffer_entry : Z := 16.

Lemma metadata_tiles :
  tiles [(md.size, 1); (md.version, 1); (md.flags, 1); (md.entry_count, 1); (md.entry_capacity, 1);
         (md.entries_start, 1); (md.data_count, 1); (md.data_capacity, 1); (md.data_start, 1)]
    sizeof_icamera_metadata_t = true
  /\ tiles [(mbe.tag, 1); (mbe.count, 1); (mbe.offset, 1); (mbe.type, 1); (mbe.reserved, 3)]
       sizeof_buffer_entry = true.
Proof. split; reflexivity. Qed.

Definition METADATA_ALIGNMENT : Z := 4.
Definition ENTRY_ALIGNMENT : Z := 4.
Definition DATA_ALIGNMENT : Z := 8.
Definition CURRENT_METADATA_VERSION : Z := 1.
Definition FLAG_SORTED : Z := 1.

#[export] Hint Unfold md.size md.version md.flags md.entry_count md.entry_capacity md.entries_start
  md.data_count md.data_capacity md.data_start mbe.tag mbe.count mbe.offset mbe.type mbe.reserved
  sizeof_icamera_metadata_t sizeof_buffer_entry offsetof_value : layout.

(** In [uintptr_t]; [alignment] is a power of two. *)
Definition ALIGN_TO (val alignment : Z) : Z :=
  Z.land (u64 (val + (alignment - 1))) (Z.lnot (alignment - 1)).

(** ** Blocks of memory (the standard library) *)

(** [memcpy] and [memmove]: both read the source before they write. *)
Definition memmove (dst src n : Z) (m : mem) : mem :=
  fun a => if (dst <=? a) && (a <? dst + n) then m (src + (a - dst)) else m a.

(** src/iutils/Utils.h. *)
Definition MEMCPY_S (dest dmax src smax : Z) : mem -> mem := memmove dest src (Z.min dmax smax).

Definition memset_zero (p n : Z) (m : mem) : mem :=
  fun a => if (p <=? a) && (a <? p + n) then 0 else m a.

Definition bytes (m : mem) (a n : Z) : list Z := map (fun i => m (a + i)) (range 0 n).

(** The bytes [l] as a memory from address 0, and a write of [l] at [a]. *)
Definition image (l : list Z) : mem := fun a => l !!! Z.to_nat a.
Definition put (a : Z) (l : list Z) (m : mem) : mem :=
  fun x => if (a <=? x) && (x <? a + Z.of_nat (length l)) then image l (x - a) else m x.

(** [qsort] and [bsearch] of the C library, as the standard describes them:
    [qsort] reorders an array ascendingly, elements that compare equal in any
    order; [bsearch] answers any element that compares equal to the key, in
    an array whose smaller elements come before and whose larger ones behind. *)
Class CLibrary := {
  qsort : (list Z -> list Z -> Z) -> list (list Z) -> list (list Z);
  bsearch : (Z -> Z) -> Z -> option Z;
}.

Class CLibraryOk (L : CLibrary) : Prop := {
  qsort_permutation cmp l : Permutation l (qsort cmp l);
  qsort_sorted (key : list Z -> Z) cmp l :
    (forall x y, cmp x y <= 0 <-> key x <= key y) ->
    StronglySorted (fun x y => key x <= key y) (qsort cmp l);
  bsearch_spec cmp n :
    (forall i j, 0 <= i <= j -> j < n -> Z.sgn (cmp j) <= Z.sgn (cmp i)) ->
    match bsearch cmp n with
    | Some i => 0 <= i < n /\ cmp i = 0
    | None => forall i, 0 <= i < n -> cmp i <> 0
    end;
}.

(** ** Accessors *)

Definition get_entries (m : mem) (metadata : Z) : Z := metadata + rd m metadata md.entries_start.
Definition get_data (m : mem) (metadata : Z) : Z := metadata + rd m metadata md.data_start.

Definition entry_at (m : mem) (metadata i : Z) : Z :=
  get_entries m metadata + i * sizeof_buffer_entry.

Definition get_icamera_metadata_alignment : Z :=
  Z.max (Z.max DATA_ALIGNMENT METADATA_ALIGNMENT) ENTRY_ALIGNMENT.

Definition calculate_icamera_metadata_size (entry_count data_count : Z) : Z :=
  let memory_needed := sizeof_icamera_metadata_t in
  let memory_needed := ALIGN_TO memory_needed ENTRY_ALIGNMENT in
  let memory_needed := u64 (memory_needed + u64 (sizeof_buffer_entry * entry_count)) in
  let memory_needed := ALIGN_TO memory_needed DATA_ALIGNMENT in
  u64 (memory_needed + data_count).

(** The error code is returned as a [size_t]. *)
Definition get_icamera_metadata_size (m : mem) (metadata : Z) : Z :=
  if is_null metadata then u64 UNKNOWN_ERROR else rd m metadata md.size.

Definition get_icamera_metadata_compact_size (m : mem) (metadata : Z) : Z :=
  if is_null metadata then u64 UNKNOWN_ERROR
  else calculate_icamera_metadata_size (rd m metadata md.entry_count) (rd m metadata md.data_count).

Definition get_icamera_metadata_entry_count (m : mem) (metadata : Z) : Z := rd m metadata md.entry_count.
Definition get_icamera_metadata_entry_capacity (m : mem) (metadata : Z) : Z :=
  rd m metadata md.entry_capacity.
Definition get_icamera_metadata_data_count (m : mem) (metadata : Z) : Z := rd m metadata md.data_count.
Definition get_icamera_metadata_data_capacity (m : mem) (metadata : Z) : Z :=
  rd m metadata md.data_capacity.

Definition calculate_icamera_metadata_entry_data_size (type data_count : Z) : Z :=
  if ICAMERA_NUM_TYPES <=? type then 0
  else
    let data_bytes := u64 (data_count * type_size type) in
    if data_bytes <=? 4 then 0 else ALIGN_TO data_bytes DATA_ALIGNMENT.

(** ** Creation *)

Definition place_icamera_metadata (dst dst_size entry_capacity data_capacity : Z) (m : mem) : Z * mem :=
  if is_null dst then (NULL, m)
  else
    let memory_needed := calculate_icamera_metadata_size entry_capacity data_capacity in
    if dst_size <? memory_needed then (NULL, m)
    else
      let metadata := dst in
      let m := wr m metadata md.version CURRENT_METADATA_VERSION in
      let m := wr m metadata md.flags 0 in
      let m := wr m metadata md.entry_count 0 in
      let m := wr m metadata md.entry_capacity entry_capacity in
      let m := wr m metadata md.entries_start (ALIGN_TO sizeof_icamera_metadata_t ENTRY_ALIGNMENT) in
      let m := wr m metadata md.data_count 0 in
      let m := wr m metadata md.data_capacity data_capacity in
      let m := wr m metadata md.size memory_needed in
      let data_unaligned := entry_at m metadata (rd m metadata md.entry_capacity) - metadata in
      let m := wr m metadata md.data_start (ALIGN_TO data_unaligned DATA_ALIGNMENT) in
      (metadata, m).

(** [buffer] is what [malloc] answers for [memory_needed] bytes. *)
Definition allocate_icamera_metadata (buffer entry_capacity data_capacity : Z) (m : mem) : Z * mem :=
  let memory_needed := calculate_icamera_metadata_size entry_capacity data_capacity in
  place_icamera_metadata buffer memory_needed entry_capacity data_capacity m.

Definition copy_icamera_metadata (dst dst_size src : Z) (m : mem) : Z * mem :=
  let memory_needed := get_icamera_metadata_compact_size m src in
  if is_null dst then (NULL, m)
  else if dst_size <? memory_needed then (NULL, m)
  else
    let '(metadata, m) :=
      place_icamera_metadata dst dst_size (rd m src md.entry_count) (rd m src md.data_count) m in
    if is_null metadata then (NULL, m)
    else
      let m := wr m metadata md.flags (rd m src md.flags) in
      let m := wr m metadata md.entry_count (rd m src md.entry_count) in
      let m := wr m metadata md.data_count (rd m src md.data_count) in
      let n := sizeof_buffer_entry * rd m metadata md.entry_count in
      let m := MEMCPY_S (get_entries m metadata) n (get_entries m src) n m in
      let n := rd m metadata md.data_count in
      (metadata, MEMCPY_S (get_data m metadata) n (get_data m src) n m).

(** ** Validation *)

(** [debug] is whether the log level of metadata is on
    ([Log::isDebugLevelEnable(CAMERA_DEBUG_LOG_METADATA)]). *)
Section Validation.
Context (debug : bool) (m : mem).

Definition valid_entry (metadata i : Z) : option unit :=
  let entry := entry_at m metadata i in
  verif entry =? ALIGN_TO entry ENTRY_ALIGNMENT ;;
  verif rd m entry mbe.type <? ICAMERA_NUM_TYPES ;;
  verif get_icamera_metadata_tag_type (rd m entry mbe.tag) =? rd m entry mbe.type ;;
  let data_size :=
    calculate_icamera_metadata_entry_data_size (rd m entry mbe.type) (rd m entry mbe.count) in
  if negb (data_size =? 0) then
    let data := get_data m metadata + rd m entry mbe.offset in
    verif data =? ALIGN_TO data DATA_ALIGNMENT ;;
    let data_entry_end := u64 (rd m entry mbe.offset + data_size) in
    verif negb ((data_entry_end <? rd m entry mbe.offset)
                || (rd m metadata md.data_capacity <? data_entry_end)) ;;
    Some tt
  else if rd m entry mbe.count =? 0 then
    verif rd m entry mbe.offset =? 0 ;;
    Some tt
  else Some tt.

(** [entries_start + entry_capacity] is compared as it is, without the size of
    an entry. *)
Definition valid_structure (metadata : Z) (expected_size : option Z) : option unit :=
  verif negb (is_null metadata) ;;
  for_opt [METADATA_ALIGNMENT; ENTRY_ALIGNMENT; DATA_ALIGNMENT] tt
    (fun alignment _ => verif metadata =? ALIGN_TO metadata alignment ;; Some tt) ;;
  verif match expected_size with
        | Some size => negb (size <? rd m metadata md.size) | None => true end ;;
  verif rd m metadata md.entry_count <=? rd m metadata md.entry_capacity ;;
  let entries_end := u32 (rd m metadata md.entries_start + rd m metadata md.entry_capacity) in
  verif negb ((entries_end <? rd m metadata md.entries_start)
              || (rd m metadata md.data_start <? entries_end)) ;;
  let data_end := u32 (rd m metadata md.data_start + rd m metadata md.data_capacity) in
  verif negb ((data_end <? rd m metadata md.data_start) || (rd m metadata md.size <? data_end)) ;;
  for_opt (range 0 (rd m metadata md.entry_count)) tt (fun i _ => valid_entry metadata i).

Definition validate_icamera_metadata_structure (metadata : Z) (expected_size : option Z) : Z :=
  if negb debug then OK
  else match valid_structure metadata expected_size with Some _ => OK | None => UNKNOWN_ERROR end.
End Validation.

Definition allocate_copy_icamera_metadata_checked
    (debug : bool) (buffer src src_size : Z) (m : mem) : Z * mem :=
  if is_null src then (NULL, m)
  else
    let m := MEMCPY_S buffer src_size src src_size m in
    let metadata := buffer in
    if negb (validate_icamera_metadata_structure debug m metadata (Some src_size) =? OK)
    then (NULL, m) else (metadata, m).

(** ** Adding entries *)

(** [for (i = 0; i < n; i++, entry++) if (...) entry->data.offset = f(...)]. *)
Definition relocate (first n : Z) (guard : mem -> Z -> bool) (f : mem -> Z -> Z) (m : mem) : mem :=
  foldl (fun m i =>
           let entry := first + i * sizeof_buffer_entry in
           if (0 <? calculate_icamera_metadata_entry_data_size (rd m entry mbe.type) (rd m entry mbe.count))
              && guard m entry
           then wr m entry mbe.offset (f m entry) else m) m (range 0 n).

Definition append_icamera_metadata (dst src : Z) (m : mem) : Z * mem :=
  if is_null dst || is_null src then (UNKNOWN_ERROR, m)
  else if rd m dst md.entry_capacity <? u32 (rd m src md.entry_count + rd m dst md.entry_count)
  then (UNKNOWN_ERROR, m)
  else if rd m dst md.data_capacity <? u32 (rd m src md.data_count + rd m dst md.data_count)
  then (UNKNOWN_ERROR, m)
  else
    let m := MEMCPY_S (entry_at m dst (rd m dst md.entry_count))
               (sizeof_buffer_entry * u32 (rd m dst md.entry_capacity - rd m dst md.entry_count))
               (get_entries m src) (sizeof_buffer_entry * rd m src md.entry_count) m in
    let m := MEMCPY_S (get_data m dst + rd m dst md.data_count)
               (u32 (rd m dst md.data_capacity - rd m dst md.data_count))
               (get_data m src) (rd m src md.data_count) m in
    let m :=
      if negb (rd m dst md.data_count =? 0)
      then relocate (entry_at m dst (rd m dst md.entry_count)) (rd m src md.entry_count)
             (fun _ _ => true)
             (fun m entry => rd m entry mbe.offset + rd m dst md.data_count) m
      else m in
    let m :=
      if rd m dst md.entry_count =? 0
      then wr m dst md.flags (Z.lor (rd m dst md.flags) (Z.land (rd m src md.flags) FLAG_SORTED))
      else if negb (rd m src md.entry_count =? 0)
      then wr m dst md.flags (Z.land (rd m dst md.flags) (Z.lnot FLAG_SORTED))
      else m in
    let m := wr m dst md.entry_count (rd m dst md.entry_count + rd m src md.entry_count) in
    (OK, wr m dst md.data_count (rd m dst md.data_count + rd m src md.data_count)).

(** [buffer] is what [malloc] answers. *)
Definition clone_icamera_metadata (buffer src : Z) (m : mem) : Z * mem :=
  if is_null src then (NULL, m)
  else
    let '(clone, m) :=
      allocate_icamera_metadata buffer (get_icamera_metadata_entry_count m src)
        (get_icamera_metadata_data_count m src) m in
    if negb (is_null clone) then
      let '(res, m) := append_icamera_metadata clone src m in
      if negb (res =? OK) then (NULL, m) else (clone, m)
    else (clone, m).

Definition add_camera_metadata_entry_raw (dst tag type data data_count : Z) (m : mem) : Z * mem :=
  if is_null dst then (UNKNOWN_ERROR, m)
  else if rd m dst md.entry_count =? rd m dst md.entry_capacity then (UNKNOWN_ERROR, m)
  else if is_null data then (UNKNOWN_ERROR, m)
  else
    let data_bytes := calculate_icamera_metadata_entry_data_size type data_count in
    if rd m dst md.data_capacity <? u64 (data_bytes + rd m dst md.data_count) then (UNKNOWN_ERROR, m)
    else if ICAMERA_NUM_TYPES <=? type then (UNKNOWN_ERROR, m)
    else
      let data_payload_bytes := u64 (data_count * type_size type) in
      let entry := entry_at m dst (rd m dst md.entry_count) in
      let m := memset_zero entry sizeof_buffer_entry m in
      let m := wr m entry mbe.tag tag in
      let m := wr m entry mbe.type type in
      let m := wr m entry mbe.count data_count in
      let m :=
        if data_bytes =? 0
        then MEMCPY_S (entry + offsetof_value) data_payload_bytes data data_payload_bytes m
        else
          let m := wr m entry mbe.offset (rd m dst md.data_count) in
          let m := MEMCPY_S (get_data m dst + rd m entry mbe.offset) data_payload_bytes data
                     data_payload_bytes m in
          wr m dst md.data_count (rd m dst md.data_count + data_bytes) in
      let m := wr m dst md.entry_count (rd m dst md.entry_count + 1) in
      (OK, wr m dst md.flags (Z.land (rd m dst md.flags) (Z.lnot FLAG_SORTED))).

Definition add_icamera_metadata_entry (dst tag data data_count : Z) (m : mem) : Z * mem :=
  let type := get_icamera_metadata_tag_type tag in
  if type =? -1 then (UNKNOWN_ERROR, m)
  else add_camera_metadata_entry_raw dst tag (u8 type) data data_count m.

(** ** Looking entries up *)

(** [icamera_metadata_entry_t]; [data] points to the values. *)
Record icamera_metadata_entry_t := Entry { index : Z; tag : Z; type : Z; count : Z; data : Z }.

(** [entry] is the object of the caller, none when its pointer is null. *)
Definition get_icamera_metadata_entry
    (m : mem) (src index : Z) (entry : option icamera_metadata_entry_t)
    : Z * option icamera_metadata_entry_t :=
  match entry with
  | None => (UNKNOWN_ERROR, entry)
  | Some _ =>
      if is_null src then (UNKNOWN_ERROR, entry)
      else if rd m src md.entry_count <=? index then (UNKNOWN_ERROR, entry)
      else
        let buffer_entry := entry_at m src index in
        (OK, Some (Entry index (rd m buffer_entry mbe.tag) (rd m buffer_entry mbe.type)
                     (rd m buffer_entry mbe.count)
                     (if 4 <? u64 (rd m buffer_entry mbe.count * type_size (rd m buffer_entry mbe.type))
                      then get_data m src + rd m buffer_entry mbe.offset
                      else buffer_entry + offsetof_value)))
  end.

Definition compare_entry_tags (p1 p2 : list Z) : Z :=
  let tag1 := rd (image p1) 0 mbe.tag in
  let tag2 := rd (image p2) 0 mbe.tag in
  if tag1 <? tag2 then -1 else if tag1 =? tag2 then 0 else 1.

Section Library.
Context {L : CLibrary}.

Definition find_icamera_metadata_entry
    (m : mem) (src tag : Z) (entry : option icamera_metadata_entry_t)
    : Z * option icamera_metadata_entry_t :=
  if is_null src then (UNKNOWN_ERROR, entry)
  else if negb (Z.land (rd m src md.flags) FLAG_SORTED =? 0) then
    let key := wr (fun _ => 0) 0 mbe.tag tag in
    match bsearch (fun i => compare_entry_tags (bytes key 0 sizeof_buffer_entry)
                              (bytes m (entry_at m src i) sizeof_buffer_entry))
            (rd m src md.entry_count) with
    | None => (NAME_NOT_FOUND, entry)
    | Some index => get_icamera_metadata_entry m src index entry
    end
  else
    match List.find (fun index => rd m (entry_at m src index) mbe.tag =? tag)
            (range 0 (rd m src md.entry_count)) with
    | None => (NAME_NOT_FOUND, entry)
    | Some index => get_icamera_metadata_entry m src index entry
    end.

Definition sort_icamera_metadata (dst : Z) (m : mem) : Z * mem :=
  if is_null dst then (UNKNOWN_ERROR, m)
  else if negb (Z.land (rd m dst md.flags) FLAG_SORTED =? 0) then (OK, m)
  else
    let array :=
      map (fun i => bytes m (entry_at m dst i) sizeof_buffer_entry)
        (range 0 (rd m dst md.entry_count)) in
    let m := put (get_entries m dst) (concat (qsort compare_entry_tags array)) m in
    (OK, wr m dst md.flags (Z.lor (rd m dst md.flags) FLAG_SORTED)).
End Library.

(** ** Deleting and updating *)

(** Moves the values behind [size] bytes of values of [entry] down over them,
    and the offsets of their entries with them. *)
Definition remove_data (dst entry size : Z) (m : mem) : mem :=
  let start := get_data m dst + rd m entry mbe.offset in
  let length := u64 (u32 (rd m dst md.data_count - rd m entry mbe.offset) - size) in
  memmove start (start + size) length m.

Definition close_gap (dst entry size : Z) (m : mem) : mem :=
  relocate (get_entries m dst) (rd m dst md.entry_count)
    (fun m e => rd m entry mbe.offset <? rd m e mbe.offset)
    (fun m e => rd m e mbe.offset - size) m.

Definition delete_icamera_metadata_entry (dst index : Z) (m : mem) : Z * mem :=
  if is_null dst then (UNKNOWN_ERROR, m)
  else if rd m dst md.entry_count <=? index then (UNKNOWN_ERROR, m)
  else
    let entry := entry_at m dst index in
    let data_bytes :=
      calculate_icamera_metadata_entry_data_size (rd m entry mbe.type) (rd m entry mbe.count) in
    let m :=
      if 0 <? data_bytes then
        let m := remove_data dst entry data_bytes m in
        let m := close_gap dst entry data_bytes m in
        wr m dst md.data_count (rd m dst md.data_count - data_bytes)
      else m in
    let m := memmove entry (entry + sizeof_buffer_entry)
               (sizeof_buffer_entry * (rd m dst md.entry_count - index - 1)) m in
    (OK, wr m dst md.entry_count (rd m dst md.entry_count - 1)).

(** The body of [update_icamera_metadata_entry] behind its checks: the new
    values in the place of the old ones where they take the same room, behind
    all others where they do not, or in the entry. *)
Definition write_values
    (dst entry data data_bytes data_payload_bytes entry_bytes : Z) (m : mem) : mem :=
  let m :=
    if negb (data_bytes =? entry_bytes) then
      let m :=
        if negb (entry_bytes =? 0) then
          let m := remove_data dst entry entry_bytes m in
          let m := wr m dst md.data_count (rd m dst md.data_count - entry_bytes) in
          close_gap dst entry entry_bytes m
        else m in
      if negb (data_bytes =? 0) then
        let m := wr m entry mbe.offset (rd m dst md.data_count) in
        let m := MEMCPY_S (get_data m dst + rd m entry mbe.offset) data_payload_bytes data
                   data_payload_bytes m in
        wr m dst md.data_count (rd m dst md.data_count + data_bytes)
      else m
    else if negb (data_bytes =? 0)
    then MEMCPY_S (get_data m dst + rd m entry mbe.offset) data_payload_bytes data
           data_payload_bytes m
    else m in
  if data_bytes =? 0
  then MEMCPY_S (entry + offsetof_value) data_payload_bytes data data_payload_bytes m
  else m.

(** [updated_entry] is filled in by [get_icamera_metadata_entry] where it is
    given. *)
Definition update_icamera_metadata_entry
    (dst index data data_count : Z) (updated_entry : option icamera_metadata_entry_t) (m : mem)
    : (Z * option icamera_metadata_entry_t) * mem :=
  if is_null dst then ((UNKNOWN_ERROR, updated_entry), m)
  else if rd m dst md.entry_count <=? index then ((UNKNOWN_ERROR, updated_entry), m)
  else
    let entry := entry_at m dst index in
    let type := rd m entry mbe.type in
    if ICAMERA_NUM_TYPES <=? type then ((UNKNOWN_ERROR, updated_entry), m)
    else
      let data_bytes := calculate_icamera_metadata_entry_data_size type data_count in
      let data_payload_bytes := u64 (data_count * type_size type) in
      let entry_bytes := calculate_icamera_metadata_entry_data_size type (rd m entry mbe.count) in
      if negb (data_bytes =? entry_bytes)
         && (rd m dst md.data_capacity <? u64 (rd m dst md.data_count + data_bytes - entry_bytes))
      then ((UNKNOWN_ERROR, updated_entry), m)
      else
        let m := write_values dst entry data data_bytes data_payload_bytes entry_bytes m in
        let m := wr m entry mbe.count data_count in
        ((OK, match updated_entry with
              | Some _ => snd (get_icamera_metadata_entry m dst index updated_entry)
              | None => None
              end), m).
