(* ===== verification/MetadataPacket.v ===== *)
(** * Metadata packets: the abstract packet

    A packet seen as a list of entry slots (16 bytes each) and a data area, and
    what it stands for: a list of data, each a tag with typed values.  The
    invariant is that the values of the entries tile the used part of the data
    area, in some order; here it is shown to be kept when an entry is added,
    when the values of one are taken out and the gap is closed, and when two
    packets are joined. *)

From S2P Require Import Prelude Memory Errors MetadataTables MetadataBuffer.
From stdpp Require Import list.
#[local] Open Scope Z_scope.
#[local] Open Scope css_scope.

(** ** Alignment and sizes *)

Lemma land_lnot_7 x : Z.land x (Z.lnot 7) = x / 8 * 8.
Proof.
  change (Z.land x (Z.lnot (Z.ones 3)) = x / 8 * 8).
  rewrite <- Z.ldiff_land, Z.ldiff_ones_r, Z.shiftr_div_pow2, Z.shiftl_mul_pow2 by lia. reflexivity.
Qed.

Lemma land_lnot_3 x : Z.land x (Z.lnot 3) = x / 4 * 4.
Proof.
  change (Z.land x (Z.lnot (Z.ones 2)) = x / 4 * 4).
  rewrite <- Z.ldiff_land, Z.ldiff_ones_r, Z.shiftr_div_pow2, Z.shiftl_mul_pow2 by lia. reflexivity.
Qed.

Lemma ALIGN_TO_8 x : 0 <= x < 2 ^ 63 -> ALIGN_TO x 8 = (x + 7) / 8 * 8.
Proof. intros H. unfold ALIGN_TO. rewrite land_lnot_7. unfold u64. rewrite Z.mod_small by lia. reflexivity. Qed.

Lemma ALIGN_TO_8_id x : 0 <= x < 2 ^ 63 -> x mod 8 = 0 -> ALIGN_TO x 8 = x.
Proof. intros H E. rewrite ALIGN_TO_8 by exact H. divlia. Qed.

Lemma ALIGN_TO_4_id x : 0 <= x < 2 ^ 63 -> x mod 4 = 0 -> ALIGN_TO x 4 = x.
Proof.
  intros H E. unfold ALIGN_TO. rewrite land_lnot_3. unfold u64. rewrite Z.mod_small by lia. divlia.
Qed.

Definition is_type (type : Z) : Prop := 0 <= type < ICAMERA_NUM_TYPES.

Lemma type_size_range type : is_type type -> 1 <= type_size type <= 8.
Proof.
  unfold is_type, ICAMERA_NUM_TYPES. intros H.
  assert (type = 0 \/ type = 1 \/ type = 2 \/ type = 3 \/ type = 4 \/ type = 5)
    as [-> | [-> | [-> | [-> | [-> | ->]]]]] by lia; vm_compute; split; discriminate.
Qed.

(** The bytes of the data area that [n] bytes of values take. *)
Definition room_for (n : Z) : Z := if n <=? 4 then 0 else (n + 7) / 8 * 8.

Lemma room_for_spec n :
  0 <= n -> room_for n mod 8 = 0 /\ (n <= 4 -> room_for n = 0) /\ (4 < n -> n <= room_for n < n + 8).
Proof.
  intros H. unfold room_for. destruct (Z.leb_spec n 4); [repeat split; lia || reflexivity |].
  repeat split; divlia.
Qed.

Lemma data_size_room type count :
  is_type type -> 0 <= count -> count * type_size type < 2 ^ 62 ->
  calculate_icamera_metadata_entry_data_size type count = room_for (count * type_size type).
Proof.
  intros Ht Hc Hn. pose proof (type_size_range type Ht) as S.
  unfold calculate_icamera_metadata_entry_data_size, room_for, is_type in *.
  destruct (Z.leb_spec ICAMERA_NUM_TYPES type); [lia |]. cbv zeta.
  unfold u64. rewrite (Z.mod_small (count * _)) by nia. destruct (_ <=? 4) eqn:E; [reflexivity |]. bsimp.
  apply ALIGN_TO_8. lia.
Qed.

(** ** Slots *)

Definition chunk : Type := list Z.

Definition c_tag (c : chunk) : Z := rd (image c) 0 mbe.tag.
Definition c_count (c : chunk) : Z := rd (image c) 0 mbe.count.
Definition c_offset (c : chunk) : Z := rd (image c) 0 mbe.offset.
Definition c_type (c : chunk) : Z := rd (image c) 0 mbe.type.

(** Bytes of values of a slot, and of the data area they take. *)
Definition c_bytes (c : chunk) : Z := c_count c * type_size (c_type c).
Definition c_room (c : chunk) : Z := room_for (c_bytes c).

Definition slot_ok (c : chunk) : Prop := length c = 16%nat /\ is_type (c_type c).

Lemma c_count_range c : 0 <= c_count c < 2 ^ 32.
Proof. apply rd_U32_range. Qed.

Lemma c_offset_range c : 0 <= c_offset c < 2 ^ 32.
Proof. apply rd_U32_range. Qed.

Lemma c_bytes_range c : slot_ok c -> 0 <= c_bytes c < 2 ^ 35.
Proof.
  intros [_ Ht]. pose proof (c_count_range c). pose proof (type_size_range _ Ht). unfold c_bytes. nia.
Qed.

Lemma c_room_size c :
  slot_ok c -> calculate_icamera_metadata_entry_data_size (c_type c) (c_count c) = c_room c.
Proof.
  intros H. pose proof (c_bytes_range c H) as B. unfold c_bytes in B. apply data_size_room; [apply H | apply c_count_range | lia].
Qed.

Lemma c_room_spec c :
  slot_ok c -> c_room c mod 8 = 0 /\ (c_bytes c <= 4 -> c_room c = 0)
               /\ (4 < c_bytes c -> c_bytes c <= c_room c < c_bytes c + 8).
Proof. intros H. apply room_for_spec, c_bytes_range, H. Qed.

Lemma c_room_nonneg c : slot_ok c -> 0 <= c_room c.
Proof. intros H. pose proof (c_room_spec c H). pose proof (c_bytes_range c H). lia. Qed.

(** A slot with another offset. *)
Definition set_offset (c : chunk) (v : Z) : chunk := bytes (wr (image c) 0 mbe.offset v) 0 16.

(** ** What a packet stands for *)

Record datum := Datum { d_tag : Z; d_type : Z; d_count : Z; d_values : list Z }.

(** [area] maps offsets to the bytes of the data area. *)
Definition datum_of (area : Z -> Z) (c : chunk) : datum :=
  Datum (c_tag c) (c_type c) (c_count c)
    (if 4 <? c_bytes c then bytes area (c_offset c) (c_bytes c) else bytes (image c) 8 (c_bytes c)).

(** ** The data area is tiled *)

Definition in_area (c : chunk) : Prop := 0 < c_room c.

#[export] Instance in_area_dec c : Decision (in_area c) := decide (0 < c_room c).

(** The values of [l] follow each other from [o] to [used]. *)
Fixpoint consecutive (o : Z) (l : list chunk) (used : Z) : Prop :=
  match l with
  | [] => o = used
  | c :: l => c_offset c = o /\ consecutive (o + c_room c) l used
  end.

Definition tiled (cs : list chunk) (used : Z) : Prop :=
  exists l, Permutation l (filter in_area cs) /\ consecutive 0 l used.

(** The slots as they are when [size] bytes of values behind [limit] are gone,
    and behind [size] more bytes of values. *)
Definition shift_down (limit size : Z) (c : chunk) : chunk :=
  if decide (in_area c /\ limit < c_offset c) then set_offset c (c_offset c - size) else c.

Definition shift_up (size : Z) (c : chunk) : chunk :=
  if decide (in_area c) then set_offset c (c_offset c + size) else c.

(** ** Bytes *)

Lemma bytes_length m a n : 0 <= n -> length (bytes m a n) = Z.to_nat n.
Proof. intros H. unfold bytes, range. rewrite length_map, length_seqZ. f_equal. lia. Qed.

Lemma bytes_lookup m a n k : 0 <= k < n -> bytes m a n !!! Z.to_nat k = m (a + k).
Proof.
  intros H. unfold bytes. apply list_lookup_total_correct.
  change (map ?f ?l) with (f <$> l). rewrite list_lookup_fmap. unfold range.
  rewrite lookup_seqZ_lt by lia. cbn. do 2 f_equal. lia.
Qed.

Lemma bytes_ext m m' a b n :
  (forall k, 0 <= k < n -> m (a + k) = m' (b + k)) -> bytes m a n = bytes m' b n.
Proof.
  intros H. unfold bytes. apply map_ext_in. intros k Hk.
  apply list_elem_of_In, elem_of_range in Hk. apply H, Hk.
Qed.

Lemma bytes_nil m a n : n <= 0 -> bytes m a n = [].
Proof. intros H. unfold bytes. rewrite range_nil by exact H. reflexivity. Qed.

(** Reads in a copied block of bytes are reads in the memory it came from. *)
Lemma ld_image m a n k o :
  0 <= o -> o + Z.of_nat k <= n -> ld k (image (bytes m a n)) o = ld k m (a + o).
Proof.
  revert o. induction k as [| k IH]; intros o H0 Hn; [reflexivity |].
  cbn [ld]. rewrite IH by lia. unfold byte_at, image at 1. rewrite bytes_lookup by lia.
  replace (a + o + 1) with (a + (o + 1)) by lia. reflexivity.
Qed.

Lemma rd_image m a n f :
  0 <= f_off f -> f_off f + Z.of_nat (f_len f) <= n -> rd (image (bytes m a n)) 0 f = rd m a f.
Proof. intros H0 Hn. unfold rd. rewrite ld_image by lia. reflexivity. Qed.

Lemma image_bytes m a n k : 0 <= k < n -> image (bytes m a n) k = m (a + k).
Proof. intros H. unfold image. apply bytes_lookup, H. Qed.

(** ** Slots with another offset *)

Ltac slot_read := unfold set_offset, c_tag, c_count, c_offset, c_type; rewrite rd_image by (cbn; lia); mem_read.

Lemma set_offset_tag c v : c_tag (set_offset c v) = c_tag c.
Proof. slot_read. reflexivity. Qed.
Lemma set_offset_count c v : c_count (set_offset c v) = c_count c.
Proof. slot_read. reflexivity. Qed.
Lemma set_offset_type c v : c_type (set_offset c v) = c_type c.
Proof. slot_read. reflexivity. Qed.
Lemma set_offset_offset c v : c_offset (set_offset c v) = u32 v.
Proof. slot_read. reflexivity. Qed.
Lemma set_offset_bytes c v : c_bytes (set_offset c v) = c_bytes c.
Proof. unfold c_bytes. rewrite set_offset_count, set_offset_type. reflexivity. Qed.
Lemma set_offset_room c v : c_room (set_offset c v) = c_room c.
Proof. unfold c_room. rewrite set_offset_bytes. reflexivity. Qed.
Lemma set_offset_ok c v : slot_ok c -> slot_ok (set_offset c v).
Proof.
  intros [_ Ht]. split; [apply bytes_length; lia | rewrite set_offset_type; exact Ht].
Qed.

#[export] Hint Rewrite set_offset_tag set_offset_count set_offset_type set_offset_bytes set_offset_room
  set_offset_offset : mem.

(** Inline values do not depend on the data area; others are found at the new
    offset when they have been moved there. *)
Lemma datum_inline area area' c :
  slot_ok c -> ~ in_area c -> datum_of area' c = datum_of area c.
Proof.
  intros Hc Hn. unfold datum_of. destruct (4 <? c_bytes c) eqn:E; [| reflexivity]. bsimp.
  destruct Hn. unfold in_area. pose proof (c_room_spec c Hc). lia.
Qed.

Lemma datum_same area area' c :
  slot_ok c -> (in_area c -> forall k, 0 <= k < c_bytes c -> area' (c_offset c + k) = area (c_offset c + k)) ->
  datum_of area' c = datum_of area c.
Proof.
  intros Hc H. unfold datum_of. destruct (4 <? c_bytes c) eqn:E; [| reflexivity]. bsimp.
  f_equal. apply bytes_ext. apply H. unfold in_area. pose proof (c_room_spec c Hc). lia.
Qed.

Lemma datum_moved area area' c v :
  slot_ok c -> in_area c -> 0 <= v < 2 ^ 32 ->
  (forall k, 0 <= k < c_bytes c -> area' (v + k) = area (c_offset c + k)) ->
  datum_of area' (set_offset c v) = datum_of area c.
Proof.
  intros Hc Ha Hv H. unfold datum_of. mem_simp. destruct (4 <? c_bytes c) eqn:E.
  - rewrite u32_small by exact Hv. f_equal. apply bytes_ext. exact H.
  - bsimp. unfold in_area in Ha. pose proof (c_room_spec c Hc). lia.
Qed.

(** ** Lists of consecutive values *)

Lemma consecutive_app l1 l2 o used :
  consecutive o (l1 ++ l2) used <-> exists mid, consecutive o l1 mid /\ consecutive mid l2 used.
Proof.
  revert o. induction l1 as [| c l1 IH]; intros o; cbn [app consecutive].
  - split; [eauto | intros (mid & -> & H); exact H].
  - rewrite IH. split.
    + intros [E (mid & H1 & H2)]. exists mid. auto.
    + intros (mid & [E H1] & H2). split; [exact E | exists mid; auto].
Qed.

Lemma consecutive_range l o used :
  Forall slot_ok l -> consecutive o l used ->
  o <= used /\ Forall (fun c => o <= c_offset c /\ c_offset c + c_room c <= used) l.
Proof.
  revert o. induction l as [| c l IH]; intros o Hl; cbn [consecutive].
  - intros ->. split; [lia | constructor].
  - intros [E H]. inversion Hl as [| ? ? Hc Hl']; subst. destruct (IH _ Hl' H) as [B F].
    pose proof (c_room_nonneg c Hc). split; [lia |]. constructor; [lia |].
    eapply Forall_impl; [exact F |]. cbn beta. lia.
Qed.

Lemma consecutive_used_mod l o used :
  Forall slot_ok l -> consecutive o l used -> o mod 8 = 0 ->
  used mod 8 = 0 /\ Forall (fun c => c_offset c mod 8 = 0) l.
Proof.
  revert o. induction l as [| c l IH]; intros o Hl; cbn [consecutive].
  - intros -> H. auto.
  - intros [E H] Ho. inversion Hl as [| ? ? Hc Hl']; subst. destruct (c_room_spec c Hc) as (M & _).
    destruct (IH _ Hl' H) as [B F]; [divlia |]. auto.
Qed.

(** Moving a stretch of values as a whole. *)
Lemma consecutive_moved (adj : chunk -> chunk) d l o used :
  (forall c, c ∈ l -> c_offset (adj c) = c_offset c + d /\ c_room (adj c) = c_room c) ->
  consecutive o l used -> consecutive (o + d) (map adj l) (used + d).
Proof.
  revert o. induction l as [| c l IH]; intros o Hl; cbn [consecutive map]; [lia |].
  intros [E H]. destruct (Hl c) as [O R]; [left |]. split; [lia |].
  rewrite R. replace (o + d + c_room c) with (o + c_room c + d) by lia.
  apply IH; [| exact H]. intros c' Hc'. apply Hl. right. exact Hc'.
Qed.

(** ** The operations on tiled areas *)

Lemma filter_map_room (adj : chunk -> chunk) l :
  (forall c, c_room (adj c) = c_room c) -> filter in_area (map adj l) = map adj (filter in_area l).
Proof.
  intros H. induction l as [| c l IH]; [reflexivity |]. cbn [map].
  destruct (decide (in_area c)) as [A | A].
  - rewrite !filter_cons_True; [cbn [map]; rewrite IH; reflexivity | exact A |].
    unfold in_area. rewrite H. exact A.
  - rewrite !filter_cons_False; [exact IH | exact A |]. unfold in_area. rewrite H. exact A.
Qed.

Lemma tiled_permutation cs cs' used : Permutation cs cs' -> tiled cs used -> tiled cs' used.
Proof. intros E (l & P & C). exists l. split; [| exact C]. rewrite P, E. reflexivity. Qed.

Lemma tiled_nil : tiled [] 0.
Proof. exists []. split; constructor. Qed.

Lemma tiled_ok cs l : Forall slot_ok cs -> Permutation l (filter in_area cs) -> Forall slot_ok l.
Proof.
  intros H P. rewrite P. apply Forall_forall. intros c Hc.
  apply list_elem_of_filter in Hc. rewrite Forall_forall in H. apply H, Hc.
Qed.

Lemma tiled_range cs used c :
  Forall slot_ok cs -> tiled cs used -> c ∈ cs -> in_area c ->
  0 <= c_offset c /\ c_offset c + c_room c <= used /\ c_offset c mod 8 = 0.
Proof.
  intros H (l & P & C) Hc A. pose proof (tiled_ok cs l H P) as Hl.
  destruct (consecutive_range l 0 used Hl C) as [_ F].
  destruct (consecutive_used_mod l 0 used Hl C eq_refl) as [_ G].
  assert (c ∈ l) as Hin by (rewrite P; apply list_elem_of_filter; auto).
  rewrite Forall_forall in F, G. specialize (F c Hin). specialize (G c Hin). cbn beta in F. lia.
Qed.

Lemma tiled_used cs used :
  Forall slot_ok cs -> tiled cs used -> 0 <= used /\ used mod 8 = 0.
Proof.
  intros H (l & P & C). pose proof (tiled_ok cs l H P) as Hl.
  destruct (consecutive_range l 0 used Hl C) as [B _].
  destruct (consecutive_used_mod l 0 used Hl C eq_refl) as [M _]. auto.
Qed.

Lemma tiled_add cs used c :
  slot_ok c -> tiled cs used -> (in_area c -> c_offset c = used) -> tiled (cs ++ [c]) (used + c_room c).
Proof.
  intros Hc (l & P & C) E. pose proof (c_room_nonneg c Hc). destruct (decide (in_area c)) as [A | A].
  - exists (l ++ [c]). split.
    + rewrite filter_app, filter_cons_True by exact A. rewrite P. reflexivity.
    + apply consecutive_app. exists used. cbn [consecutive]. auto.
  - exists l. rewrite filter_app, filter_cons_False, filter_nil, app_nil_r by exact A.
    replace (used + c_room c) with used by (unfold in_area in A; lia). auto.
Qed.

(** A slot without values in the area can be anywhere. *)
Lemma tiled_inline cs used c :
  ~ in_area c -> tiled (c :: cs) used <-> tiled cs used.
Proof. intros A. unfold tiled. rewrite filter_cons_False by exact A. reflexivity. Qed.

Lemma tiled_cons cs used c :
  slot_ok c -> tiled cs used -> (in_area c -> c_offset c = used) -> tiled (c :: cs) (used + c_room c).
Proof.
  intros Hc T E. eapply tiled_permutation; [| apply (tiled_add cs used c); assumption].
  rewrite Permutation_app_comm. reflexivity.
Qed.

Lemma shift_down_room limit size c : c_room (shift_down limit size c) = c_room c.
Proof. unfold shift_down. destruct (decide _); [apply set_offset_room | reflexivity]. Qed.

Lemma shift_up_room size c : c_room (shift_up size c) = c_room c.
Proof. unfold shift_up. destruct (decide _); [apply set_offset_room | reflexivity]. Qed.

Lemma shift_down_ok limit size c : slot_ok c -> slot_ok (shift_down limit size c).
Proof. intros H. unfold shift_down. destruct (decide _); [apply set_offset_ok, H | exact H]. Qed.

Lemma shift_up_ok size c : slot_ok c -> slot_ok (shift_up size c).
Proof. intros H. unfold shift_up. destruct (decide _); [apply set_offset_ok, H | exact H]. Qed.

Lemma shift_down_tag limit size c : c_tag (shift_down limit size c) = c_tag c.
Proof. unfold shift_down. destruct (decide _); [apply set_offset_tag | reflexivity]. Qed.

Lemma shift_up_tag size c : c_tag (shift_up size c) = c_tag c.
Proof. unfold shift_up. destruct (decide _); [apply set_offset_tag | reflexivity]. Qed.

(** The area with [size] bytes taken out at [limit]. *)
Definition closed_area (area : Z -> Z) (limit size : Z) : Z -> Z :=
  fun x => area (if x <? limit then x else x + size).

(** Taking the values of [c] out and closing the gap leaves the others tiled,
    with the values they had. *)
Lemma tiled_remove rest used c :
  Forall slot_ok (c :: rest) -> tiled (c :: rest) used -> used < 2 ^ 32 -> in_area c ->
  let adj := shift_down (c_offset c) (c_room c) in
  tiled (map adj rest) (used - c_room c)
  /\ forall d, d ∈ rest -> in_area d ->
       (c_offset d + c_room d <= c_offset c /\ adj d = d)
       \/ (c_offset c + c_room c <= c_offset d /\ adj d = set_offset d (c_offset d - c_room c)
           /\ c_offset d + c_room d <= used).
Proof.
  intros H (l & P & C) Hu A adj. pose proof (tiled_ok _ l H P) as Hl.
  rewrite filter_cons_True in P by exact A.
  assert (Hc : c ∈ l) by (rewrite P; left).
  apply list_elem_of_split in Hc as (l1 & l2 & ->).
  assert (P' : Permutation (l1 ++ l2) (filter in_area rest)).
  { symmetry. eapply Permutation_cons_app_inv. symmetry. exact P. }
  apply consecutive_app in C as (mid & C1 & [Eo C2]).
  apply Forall_app in Hl as [Hl1 Hl2]. inversion Hl2 as [| ? ? Hc Hl2']; subst.
  destruct (consecutive_range l1 _ _ Hl1 C1) as [_ F1]. destruct (consecutive_range l2 _ _ Hl2' C2) as [_ F2].
  rewrite Forall_forall in F1, F2. cbn beta in F1, F2.
  assert (S : forall d, d ∈ rest -> in_area d -> d ∈ l1 \/ d ∈ l2).
  { intros d Hd Ad. apply elem_of_app. rewrite P'. apply list_elem_of_filter. auto. }
  assert (A1 : forall d, d ∈ l1 -> in_area d -> adj d = d).
  { intros d Hd Ad. unfold adj, shift_down. destruct (decide _) as [[_ B] |]; [| reflexivity].
    specialize (F1 d Hd). unfold in_area in Ad. lia. }
  assert (A2 : forall d, d ∈ l2 -> in_area d -> adj d = set_offset d (c_offset d - c_room c)).
  { intros d Hd Ad. unfold adj, shift_down. destruct (decide _) as [|B]; [reflexivity |].
    destruct B. split; [exact Ad |]. specialize (F2 d Hd). unfold in_area in A. lia. }
  assert (I : forall d, d ∈ l1 ++ l2 -> in_area d).
  { intros d Hd. rewrite P' in Hd. apply list_elem_of_filter in Hd. apply Hd. }
  split.
  - exists (map adj (l1 ++ l2)). split.
    + rewrite filter_map_room by apply shift_down_room. apply Permutation_map, P'.
    + rewrite map_app. apply consecutive_app. exists (c_offset c). split.
      * assert (map adj l1 = l1) as ->; [| exact C1].
        rewrite <- (map_id l1) at 2. apply map_ext_in. intros d Hd. apply list_elem_of_In in Hd.
        apply A1; [exact Hd |]. apply I, elem_of_app. auto.
      * replace (consecutive (c_offset c)) with (consecutive (c_offset c + c_room c + - c_room c)) by (f_equal; lia).
        replace (used - c_room c) with (used + - c_room c) by lia.
        apply consecutive_moved; [| exact C2]. intros d Hd.
        rewrite A2 by (try apply I, elem_of_app; auto). mem_simp. split; [| reflexivity].
        specialize (F2 d Hd). pose proof (c_offset_range c). pose proof (c_offset_range d).
        unfold in_area in A. rewrite u32_small; lia.
  - intros d Hd Ad. destruct (S d Hd Ad) as [D | D].
    + left. split; [apply F1, D | apply A1; assumption].
    + right. split; [apply F2, D | split; [apply A2; assumption | apply F2, D]].
Qed.

Lemma datum_closed area area' rest used c d :
  Forall slot_ok (c :: rest) -> tiled (c :: rest) used -> used < 2 ^ 32 -> in_area c ->
  (forall x, 0 <= x < used - c_room c -> area' x = closed_area area (c_offset c) (c_room c) x) ->
  d ∈ rest -> datum_of area' (shift_down (c_offset c) (c_room c) d) = datum_of area d.
Proof.
  intros H T Hu A E Hd. pose proof H as Hok. inversion Hok as [| ? ? Hc Hrest]; subst.
  assert (slot_ok d) as Dok by (rewrite Forall_forall in Hrest; apply Hrest, Hd).
  pose proof (c_room_nonneg c Hc). pose proof (c_room_spec d Dok) as RS. pose proof (c_offset_range c).
  pose proof (c_bytes_range d Dok).
  destruct (decide (in_area d)) as [Ad | Ad].
  - assert (c_bytes d <= c_room d) by (unfold in_area in Ad; lia).
    destruct (tiled_range _ _ d H T) as (D0 & D1 & _); [right; exact Hd | exact Ad |].
    destruct (tiled_range _ _ c H T) as (C0 & C1 & _); [left | exact A |].
    destruct (proj2 (tiled_remove rest used c H T Hu A) d Hd Ad) as [[B ->] | (B & -> & B')].
    + apply datum_same; [exact Dok |]. intros _ k Hk.
      rewrite E by (unfold in_area in Ad, A; lia). unfold closed_area.
      destruct (Z.ltb_spec (c_offset d + k) (c_offset c)); [reflexivity | lia].
    + apply datum_moved; [exact Dok | exact Ad | unfold in_area in A, Ad; lia |]. intros k Hk.
      rewrite E by (unfold in_area in A; lia). unfold closed_area.
      destruct (Z.ltb_spec (c_offset d - c_room c + k) (c_offset c)); [lia |]. f_equal. lia.
  - unfold shift_down. destruct (decide _) as [[B _] | _]; [contradiction | apply datum_inline; assumption].
Qed.

(** The values of one packet behind those of another. *)
Lemma tiled_append a b u v :
  Forall slot_ok a -> Forall slot_ok b -> tiled a u -> tiled b v -> u + v < 2 ^ 32 ->
  tiled (a ++ map (shift_up u) b) (u + v).
Proof.
  intros Ha Hb Ta (l & P & C) Huv. destruct (tiled_used a u Ha Ta) as [U0 _].
  destruct Ta as (l' & P' & C'). pose proof (tiled_ok b l Hb P) as Hl.
  exists (l' ++ map (shift_up u) l). split.
  - rewrite filter_app, P'. apply Permutation_app_head.
    rewrite filter_map_room by apply shift_up_room. apply Permutation_map, P.
  - apply consecutive_app. exists u. split; [exact C' |].
    replace (consecutive u) with (consecutive (0 + u)) by (f_equal; lia).
    replace (u + v) with (v + u) by lia. apply consecutive_moved; [| exact C].
    intros d Hd. split; [| apply shift_up_room]. assert (Hd' := Hd). rewrite P in Hd'.
    apply list_elem_of_filter in Hd' as [A _]. unfold shift_up. destruct (decide _); [| contradiction].
    mem_simp. destruct (consecutive_range l 0 v Hl C) as [_ F]. rewrite Forall_forall in F.
    specialize (F d Hd). cbn beta in F. unfold in_area in A. apply u32_small. lia.
Qed.

Lemma datum_appended area area' b v u d :
  Forall slot_ok b -> tiled b v -> 0 <= u -> u + v < 2 ^ 32 ->
  (forall x, 0 <= x < v -> area' (u + x) = area x) ->
  d ∈ b -> datum_of area' (shift_up u d) = datum_of area d.
Proof.
  intros Hb T Hu Huv E Hd. assert (slot_ok d) as Dok by (rewrite Forall_forall in Hb; apply Hb, Hd).
  unfold shift_up. destruct (decide (in_area d)) as [A | A]; [| apply datum_inline; assumption].
  destruct (tiled_range b v d Hb T Hd A) as (D0 & D1 & _). pose proof (c_room_spec d Dok).
  pose proof (c_bytes_range d Dok). unfold in_area in A.
  apply datum_moved; [exact Dok | exact A | lia |]. intros k Hk. rewrite <- E by lia. f_equal. lia.
Qed.

(** Slots whose values are not touched. *)
Lemma datum_kept area area' cs used d :
  Forall slot_ok cs -> tiled cs used -> (forall x, 0 <= x < used -> area' x = area x) ->
  d ∈ cs -> datum_of area' d = datum_of area d.
Proof.
  intros H T E Hd. assert (slot_ok d) as Dok by (rewrite Forall_forall in H; apply H, Hd).
  apply datum_same; [exact Dok |]. intros A k Hk. destruct (tiled_range cs used d H T Hd A) as (D0 & D1 & _).
  pose proof (c_room_spec d Dok). unfold in_area in A. apply E. lia.
Qed.

Lemma shift_up_0_inline size c : ~ in_area c -> shift_up size c = c.
Proof. intros H. unfold shift_up. destruct (decide _); [contradiction | reflexivity]. Qed.

Lemma tiled_append_0 a b v : tiled a 0 -> tiled b v -> tiled (a ++ b) v.
Proof.
  intros (l' & P' & C') (l & P & C). exists (l' ++ l). split.
  - rewrite filter_app, P, P'. reflexivity.
  - apply consecutive_app. exists 0. auto.
Qed.

(** Other values in the same place. *)
Lemma tiled_replace rest used c c' :
  tiled (c :: rest) used -> c_room c' = c_room c -> (in_area c -> c_offset c' = c_offset c) ->
  tiled (c' :: rest) used.
Proof.
  intros (l & P & C) R O. destruct (decide (in_area c)) as [A | A].
  - rewrite filter_cons_True in P by exact A.
    assert (c ∈ l) as Hc by (rewrite P; left). apply list_elem_of_split in Hc as (l1 & l2 & ->).
    exists (l1 ++ c' :: l2). split.
    + rewrite filter_cons_True by (unfold in_area in *; lia).
      assert (Permutation (l1 ++ l2) (filter in_area rest)) as <-; [| symmetry; apply Permutation_middle].
      symmetry. eapply Permutation_cons_app_inv. symmetry. exact P.
    + apply consecutive_app in C as (mid & C1 & C2). apply consecutive_app. exists mid.
      cbn [consecutive] in *. rewrite R, O by exact A. auto.
  - apply tiled_inline; [unfold in_area in *; lia |].
    apply (tiled_inline rest used c A). exists l. auto.
Qed.

(** The values of the other slots are apart from those of [c]. *)
Lemma datum_apart area area' rest used c d :
  Forall slot_ok (c :: rest) -> tiled (c :: rest) used -> used < 2 ^ 32 -> in_area c ->
  (forall x, 0 <= x -> x < c_offset c \/ c_offset c + c_room c <= x < used -> area' x = area x) ->
  d ∈ rest -> datum_of area' d = datum_of area d.
Proof.
  intros H T Hu A E Hd. inversion H as [| ? ? Hc Hrest]; subst.
  assert (slot_ok d) as Dok by (rewrite Forall_forall in Hrest; apply Hrest, Hd).
  apply datum_same; [exact Dok |]. intros Ad k Hk. pose proof (c_room_spec d Dok). unfold in_area in Ad.
  pose proof (c_offset_range d). pose proof (c_offset_range c).
  destruct (tiled_range _ _ d H T) as (D0 & D1 & _); [right; exact Hd | exact Ad |].
  apply E; [lia |]. destruct (proj2 (tiled_remove rest used c H T Hu A) d Hd Ad) as [[B _] | (B & _ & _)]; lia.
Qed.

(** The other slots, and the area, when the values of [c] are gone. *)
Definition gone (c d : chunk) : chunk :=
  if decide (in_area c) then shift_down (c_offset c) (c_room c) d else d.

Definition gone_area (c : chunk) (area : Z -> Z) : Z -> Z :=
  if decide (in_area c) then closed_area area (c_offset c) (c_room c) else area.

Lemma gone_self c : gone c c = c.
Proof.
  unfold gone, shift_down. destruct (decide (in_area c)); [| reflexivity].
  destruct (decide _) as [[_ L] | _]; [lia | reflexivity].
Qed.

Lemma gone_tag c d : c_tag (gone c d) = c_tag d.
Proof. unfold gone. destruct (decide _); [apply shift_down_tag | reflexivity]. Qed.

Lemma gone_ok rest used c :
  Forall slot_ok (c :: rest) -> tiled (c :: rest) used -> used < 2 ^ 32 ->
  Forall slot_ok (map (gone c) rest) /\ tiled (map (gone c) rest) (used - c_room c)
  /\ forall area area', (forall x, 0 <= x < used - c_room c -> area' x = gone_area c area x) ->
       map (datum_of area') (map (gone c) rest) = map (datum_of area) rest.
Proof.
  intros H T Hu. inversion H as [| ? ? Hc Hrest]; subst. unfold gone, gone_area.
  destruct (decide (in_area c)) as [A | A].
  - split; [| split].
    + apply Forall_forall. intros d Hd. apply list_elem_of_In, in_map_iff in Hd. destruct Hd as (d' & <- & Hd').
      apply shift_down_ok. rewrite Forall_forall in Hrest. apply Hrest, list_elem_of_In, Hd'.
    + apply tiled_remove; assumption.
    + intros area area' E. rewrite map_map. apply map_ext_in. intros d Hd. apply list_elem_of_In in Hd.
      eapply datum_closed; eassumption.
  - rewrite map_id. pose proof (c_room_nonneg c Hc). replace (used - c_room c) with used by (unfold in_area in A; lia).
    apply tiled_inline in T; [| exact A]. split; [exact Hrest |]. split; [exact T |].
    intros area area' E. apply map_ext_in. intros d Hd. apply list_elem_of_In in Hd.
    eapply datum_kept; eassumption.
Qed.
