(* ===== verification/MetadataMemory.v ===== *)
(** * Metadata packets in memory

    The invariant of a packet in memory and the data it holds, and the lemmas
    that read them back after the stores, copies and loops of
    MetadataBuffer. *)

From Stdlib Require Import Sorted.
From S2P Require Import Prelude Memory Errors MetadataTables MetadataBuffer MetadataPacket.
From stdpp Require Import list.
#[local] Open Scope Z_scope.
#[local] Open Scope css_scope.

(** ** The packet at an address *)

Definition slot (m : mem) (p i : Z) : chunk := bytes m (entry_at m p i) 16.
Definition slots (m : mem) (p : Z) : list chunk := map (slot m p) (range 0 (rd m p md.entry_count)).
Definition area (m : mem) (p x : Z) : Z := m (get_data m p + x).

(** The data of the packet, in the order of its entries. *)
Definition contents (m : mem) (p : Z) : list datum := map (datum_of (area m p)) (slots m p).

Definition is_sorted (m : mem) (p : Z) : bool := negb (Z.land (rd m p md.flags) FLAG_SORTED =? 0).

(** A packet: entries behind the header, the data area behind the entries, the
    counts below the capacities, entries of known types whose values tile the
    used part of the data area, and the flag only on sorted entries. *)
Record wf (m : mem) (p : Z) : Prop := {
  wf_pos : 0 < p;
  wf_entries : 36 <= rd m p md.entries_start /\ rd m p md.entries_start mod 4 = 0;
  wf_data : rd m p md.entries_start + 16 * rd m p md.entry_capacity <= rd m p md.data_start
            /\ rd m p md.data_start mod 8 = 0;
  wf_end : rd m p md.data_start + rd m p md.data_capacity <= rd m p md.size;
  wf_entry_count : rd m p md.entry_count <= rd m p md.entry_capacity;
  wf_data_count : rd m p md.data_count <= rd m p md.data_capacity;
  wf_slots : Forall slot_ok (slots m p);
  wf_tiled : tiled (slots m p) (rd m p md.data_count);
  wf_sorted : is_sorted m p = true -> StronglySorted (fun c d => c_tag c <= c_tag d) (slots m p);
}.

(** The header fields that say where things are. *)
Definition same_layout (m m' : mem) (p : Z) : Prop :=
  rd m' p md.size = rd m p md.size /\ rd m' p md.entry_capacity = rd m p md.entry_capacity
  /\ rd m' p md.entries_start = rd m p md.entries_start
  /\ rd m' p md.data_capacity = rd m p md.data_capacity
  /\ rd m' p md.data_start = rd m p md.data_start.

Lemma is_sorted_bit m p : is_sorted m p = Z.testbit (rd m p md.flags) 0.
Proof.
  unfold is_sorted, FLAG_SORTED. rewrite land_1_b2z. destruct (Z.testbit _ 0); reflexivity.
Qed.

Lemma u32_bit x i : 0 <= i < 32 -> Z.testbit (u32 x) i = Z.testbit x i.
Proof. intros H. unfold u32. apply Z.mod_pow2_bits_low. lia. Qed.

(** ** Stores and copies *)

Lemma wr_out m p f v a :
  a < p + f_off f \/ p + f_off f + Z.of_nat (f_len f) <= a -> wr m p f v a = m a.
Proof. apply st_out. Qed.

Lemma memmove_in dst src n m a : dst <= a < dst + n -> memmove dst src n m a = m (src + (a - dst)).
Proof.
  intros H. unfold memmove. destruct (Z.leb_spec dst a); [| lia].
  destruct (Z.ltb_spec a (dst + n)); [reflexivity | lia].
Qed.

Lemma memmove_out dst src n m a : a < dst \/ dst + n <= a -> memmove dst src n m a = m a.
Proof.
  intros H. unfold memmove. destruct (Z.leb_spec dst a); [| reflexivity].
  destruct (Z.ltb_spec a (dst + n)); [lia | reflexivity].
Qed.

Lemma memmove_same_outside dst src n lo hi m :
  lo <= dst -> dst + n <= hi -> same_outside lo hi m (memmove dst src n m).
Proof. intros H1 H2 a Ha. apply memmove_out. lia. Qed.

Lemma memset_same_outside p n lo hi m : lo <= p -> p + n <= hi -> same_outside lo hi m (memset_zero p n m).
Proof.
  intros H1 H2 a Ha. unfold memset_zero. destruct (Z.leb_spec p a); [| reflexivity].
  destruct (Z.ltb_spec a (p + n)); [lia | reflexivity].
Qed.

Lemma put_same_outside a l lo hi m :
  lo <= a -> a + Z.of_nat (length l) <= hi -> same_outside lo hi m (put a l m).
Proof.
  intros H1 H2 x Hx. unfold put. destruct (Z.leb_spec a x); [| reflexivity].
  destruct (Z.ltb_spec x (a + Z.of_nat (length l))); [lia | reflexivity].
Qed.

Lemma bytes_same_outside lo hi m m' a n :
  same_outside lo hi m m' -> a + n <= lo \/ hi <= a -> bytes m' a n = bytes m a n.
Proof. intros S H. apply bytes_ext. intros k Hk. apply S. lia. Qed.

(** A field that was copied. *)
Lemma rd_moved m m' a b f :
  (forall k, f_off f <= k < f_off f + Z.of_nat (f_len f) -> m' (a + k) = m (b + k)) ->
  rd m' a f = rd m b f.
Proof.
  intros H. unfold rd. assert (ld (f_len f) m' (a + f_off f) = ld (f_len f) m (b + f_off f)) as ->.
  { destruct f as [o l s]. cbn [f_off f_len] in *.
    assert (forall k j, o <= j -> j + Z.of_nat k <= o + Z.of_nat l ->
              ld k m' (a + j) = ld k m (b + j)) as G.
    { induction k as [| k IH]; intros j H0 Hj; [reflexivity |]. cbn [ld].
      replace (a + j + 1) with (a + (j + 1)) by lia. replace (b + j + 1) with (b + (j + 1)) by lia.
      rewrite IH by lia. unfold byte_at. rewrite H by lia. reflexivity. }
    apply G; lia. }
  reflexivity.
Qed.

(** ** Reading slots *)

Lemma c_tag_slot m a : c_tag (bytes m a 16) = rd m a mbe.tag.
Proof. apply rd_image; cbn; lia. Qed.
Lemma c_count_slot m a : c_count (bytes m a 16) = rd m a mbe.count.
Proof. apply rd_image; cbn; lia. Qed.
Lemma c_offset_slot m a : c_offset (bytes m a 16) = rd m a mbe.offset.
Proof. apply rd_image; cbn; lia. Qed.
Lemma c_type_slot m a : c_type (bytes m a 16) = rd m a mbe.type.
Proof. apply rd_image; cbn; lia. Qed.

Lemma slots_length m p : length (slots m p) = Z.to_nat (rd m p md.entry_count).
Proof.
  unfold slots, range. rewrite length_map, length_seqZ. f_equal. lia.
Qed.

Lemma contents_length m p : length (contents m p) = Z.to_nat (rd m p md.entry_count).
Proof. unfold contents. rewrite length_map. apply slots_length. Qed.

Lemma slots_lookup m p i :
  0 <= i < rd m p md.entry_count -> slots m p !! Z.to_nat i = Some (slot m p i).
Proof.
  intros H. unfold slots, range. change (map ?f ?l) with (f <$> l). rewrite list_lookup_fmap.
  rewrite lookup_seqZ_lt by lia. cbn. do 2 f_equal. lia.
Qed.

Lemma slot_of m p i : wf m p -> 0 <= i < rd m p md.entry_count -> slot m p i ∈ slots m p /\ slot_ok (slot m p i).
Proof.
  intros W H. assert (slot m p i ∈ slots m p).
  { eapply list_elem_of_lookup_2. apply slots_lookup, H. }
  split; [assumption |]. pose proof (wf_slots m p W) as F. rewrite Forall_forall in F. apply F. assumption.
Qed.

(** The slots before, at and behind an index. *)
Lemma slots_split m p i :
  0 <= i < rd m p md.entry_count ->
  slots m p = map (slot m p) (range 0 i) ++ slot m p i :: map (slot m p) (range (i + 1) (rd m p md.entry_count)).
Proof.
  intros H. unfold slots, range.
  replace (rd m p md.entry_count - 0) with (i + (rd m p md.entry_count - i)) by lia.
  rewrite seqZ_app by lia. rewrite map_app. replace (i - 0) with i by lia. f_equal.
  rewrite Z.add_0_l. rewrite (seqZ_cons i) by lia. cbn [map]. do 2 f_equal. f_equal; lia.
Qed.

Lemma map_slot_shift (f : Z -> chunk) (g : Z -> chunk) d k :
  (forall i, 0 <= i < k -> f (i + d) = g i) -> map f (range (0 + d) (k + d)) = map g (range 0 k).
Proof.
  intros H. unfold range. replace (k + d - (0 + d)) with (k - 0) by lia. replace (0 + d) with (d + 0) by lia.
  rewrite <- (fmap_add_seqZ d 0). change (map ?f ?l) with (f <$> l). rewrite <- list_fmap_compose.
  apply list_fmap_ext. intros j i Hi. apply lookup_seqZ in Hi as [-> Hk]. cbn. rewrite <- H by lia.
  f_equal. lia.
Qed.

(** Whether slots are in order depends on their tags only. *)
Lemma StronglySorted_tags l l' :
  map c_tag l = map c_tag l' ->
  StronglySorted (fun c d => c_tag c <= c_tag d) l' -> StronglySorted (fun c d => c_tag c <= c_tag d) l.
Proof.
  revert l'. induction l as [| c l IH]; intros [| c' l'] E; cbn [map] in E; try discriminate; [constructor |].
  injection E as E1 E2. intros S. inversion S as [| ? ? S' F]; subst. constructor; [apply (IH l' E2 S') |].
  assert (forall d, d ∈ map c_tag l' -> c_tag c <= d) as G.
  { intros d Hd. apply list_elem_of_In, in_map_iff in Hd. destruct Hd as (x & <- & Hx).
    rewrite Forall_forall in F. rewrite E1. apply F, list_elem_of_In, Hx. }
  apply Forall_forall. intros d Hd. apply G. rewrite <- E2. apply list_elem_of_In, in_map, list_elem_of_In, Hd.
Qed.

(** ** Putting the invariant together *)

Lemma wf_make m m' p cs used :
  wf m p -> same_layout m m' p ->
  slots m' p = cs -> rd m' p md.entry_count <= rd m p md.entry_capacity ->
  rd m' p md.data_count = used -> used <= rd m p md.data_capacity ->
  Forall slot_ok cs -> tiled cs used ->
  (is_sorted m' p = true -> StronglySorted (fun c d => c_tag c <= c_tag d) cs) -> wf m' p.
Proof.
  intros W (E1 & E2 & E3 & E4 & E5) Hs Hn Hu Hc F T S. destruct W.
  split; rewrite ?E1, ?E2, ?E3, ?E4, ?E5, ?Hs, ?Hu; assumption.
Qed.

(** ** Bounds of a packet *)

Record bounds_of (m : mem) (p : Z) : Prop := {
  b_entries : 36 <= rd m p md.entries_start;
  b_slots : forall i, 0 <= i < rd m p md.entry_capacity ->
    p + 36 <= entry_at m p i /\ entry_at m p i + 16 <= get_data m p;
  b_data : p + 36 <= get_data m p;
  b_end : get_data m p + rd m p md.data_capacity <= p + rd m p md.size;
  b_count : 0 <= rd m p md.entry_count < 2 ^ 32;
  b_capacity : 0 <= rd m p md.entry_capacity < 2 ^ 32;
  b_used : 0 <= rd m p md.data_count < 2 ^ 32;
  b_room : 0 <= rd m p md.data_capacity < 2 ^ 32;
  b_size : 0 <= rd m p md.size < 2 ^ 32;
}.

Lemma wf_bounds m p : wf m p -> bounds_of m p.
Proof.
  intros [P [E1 _] [D1 _] D2 _ _ _ _ _].
  pose proof (rd_U32_range m p 16 : 0 <= rd m p md.entry_capacity < _) as C.
  split; try exact (rd_U32_range m p _); unfold entry_at, get_entries, get_data, sizeof_buffer_entry in *;
    try lia.
Qed.

Lemma get_data_same m m' p : rd m' p md.data_start = rd m p md.data_start -> get_data m' p = get_data m p.
Proof. intros E. unfold get_data. rewrite E. reflexivity. Qed.

Lemma entry_at_same m m' p i :
  rd m' p md.entries_start = rd m p md.entries_start -> entry_at m' p i = entry_at m p i.
Proof. intros E. unfold entry_at, get_entries. rewrite E. reflexivity. Qed.

(** The entries end before the data area. *)
Lemma entries_end m p i :
  wf m p -> i <= rd m p md.entry_capacity -> entry_at m p i <= get_data m p.
Proof.
  intros [_ _ [D1 _] _ _ _ _ _ _] Hi. unfold entry_at, get_entries, get_data, sizeof_buffer_entry. lia.
Qed.

(** A memory that differs from another only behind the header. *)
Lemma header_same lo hi m m' p o :
  same_outside lo hi m m' -> p + 36 <= lo -> 0 <= o <= 32 -> rd m' p (U32 o) = rd m p (U32 o).
Proof. intros S H Ho. apply (rd_same_outside lo hi m m' p (U32 o) S). cbn. lia. Qed.

Lemma layout_same lo hi m m' p : same_outside lo hi m m' -> p + 36 <= lo -> same_layout m m' p.
Proof.
  intros S H. unfold same_layout. repeat split; apply (header_same lo hi m m' p); auto; lia.
Qed.

(** ** Relocating entries *)

(** A store behaves the same on a copy of the memory. *)
Lemma st_moved n m m' a v d x : m (x + d) = m' x -> st n m (a + d) v (x + d) = st n m' a v x.
Proof.
  revert m m' a v. induction n as [| n IH]; intros m m' a v H; [exact H |]. cbn [st].
  replace (a + d + 1) with (a + 1 + d) by lia. apply IH. unfold upd.
  destruct (Z.eqb_spec (x + d) (a + d)), (Z.eqb_spec x a); lia || congruence.
Qed.

Lemma bytes_set_offset m e v : bytes (wr m e mbe.offset v) e 16 = set_offset (bytes m e 16) v.
Proof.
  unfold set_offset. apply bytes_ext. intros k Hk. unfold wr. cbn [f_len f_off mbe.offset U32].
  replace (e + k) with (k + e) by lia. replace (e + 8) with (8 + e) by lia.
  replace (0 + k) with k by lia. replace (0 + 8) with 8 by lia.
  apply st_moved. rewrite image_bytes by exact Hk. f_equal. lia.
Qed.

(** The memory after the first [k] of [n] iterations: chosen entries with
    values in the data area have new offsets. *)
Definition relocated (first n : Z) (m : mem) (G : Z -> bool) (F : Z -> Z) (k : Z) (s : mem) : Prop :=
  same_outside first (first + n * 16) m s
  /\ forall i, 0 <= i < n ->
       bytes s (first + i * 16) 16
       = let c := bytes m (first + i * 16) 16 in
         if (i <? k) && bool_decide (in_area c) && G i then set_offset c (F i) else c.

Lemma relocate_ok first n guard f m G F :
  0 <= n -> (forall i, 0 <= i < n -> slot_ok (bytes m (first + i * 16) 16)) ->
  (forall i s, 0 <= i < n -> relocated first n m G F i s ->
     guard s (first + i * 16) = G i /\ f s (first + i * 16) = F i) ->
  relocated first n m G F n (relocate first n guard f m).
Proof.
  intros Hn Hok Hgf. unfold relocate. change sizeof_buffer_entry with 16.
  set (step := fun (m : mem) (i : Z) => _).
  assert (H : forall k, 0 <= k -> k <= n -> relocated first n m G F k (foldl step m (range 0 k))).
  { apply (natlike_ind (fun k => k <= n -> relocated first n m G F k (foldl step m (range 0 k)))).
    - intros _. split; [apply same_outside_refl |]. intros i Hi. cbn [foldl].
      destruct (Z.ltb_spec i 0); [lia | reflexivity].
    - intros k Hk IH Hkn. specialize (IH ltac:(lia)). rewrite range_snoc, foldl_app by lia.
      cbn [foldl]. set (s := foldl step m (range 0 k)) in *. set (e := first + k * 16).
      destruct IH as [S B]. pose proof (B k ltac:(lia)) as Bk. cbv zeta in Bk. rewrite Z.ltb_irrefl in Bk. cbn in Bk.
      fold e in Bk. destruct (Hgf k s ltac:(lia)) as [Eg Ef]; [split; assumption |]. fold e in Eg, Ef.
      assert (Ek : step s k = if bool_decide (in_area (bytes m e 16)) && G k then wr s e mbe.offset (F k) else s).
      { unfold step. fold e. cbv zeta. rewrite <- c_type_slot, <- c_count_slot, Bk, c_room_size, Eg, Ef by (apply Hok; lia).
        destruct (Z.ltb_spec 0 (c_room (bytes m e 16)));
          [rewrite bool_decide_true by assumption | rewrite bool_decide_false by (unfold in_area; lia)]; reflexivity. }
      rewrite Ek. split.
      + destruct (_ && _); [| exact S]. eapply same_outside_trans; [exact S |].
        apply wr_same_outside; unfold e; cbn; lia.
      + intros i Hi. cbv zeta. destruct (Z.lt_trichotomy i k) as [L | [-> | L]].
        * specialize (B i Hi). cbv zeta in B.
          destruct (Z.ltb_spec i k); [| lia]. destruct (Z.ltb_spec i (Z.succ k)); [| lia].
          rewrite <- B. destruct (_ && G k); [| reflexivity].
          apply bytes_ext. intros j Hj. apply wr_out. unfold e. cbn. lia.
        * destruct (Z.ltb_spec k (Z.succ k)); [| lia]. fold e. cbn [andb].
          destruct (_ && G k); [| exact Bk]. rewrite bytes_set_offset, Bk. reflexivity.
        * specialize (B i Hi). cbv zeta in B.
          destruct (Z.ltb_spec i k); [lia |]. destruct (Z.ltb_spec i (Z.succ k)); [lia |].
          cbn [andb] in *. rewrite <- B. destruct (_ && G k); [| reflexivity].
          apply bytes_ext. intros j Hj. apply wr_out. unfold e. cbn. lia. }
  apply H; lia.
Qed.
