(* ===== verification/MetadataAdd.v ===== *)
(** * Metadata packets: creating and adding

    [place_icamera_metadata], [add_icamera_metadata_entry],
    [append_icamera_metadata], [clone_icamera_metadata] and
    [copy_icamera_metadata] keep the invariant and do to the list of data what
    they say. *)

From Stdlib Require Import Sorted.
From S2P Require Import Prelude Memory Errors MetadataTables MetadataTags MetadataBuffer MetadataPacket MetadataMemory.
From stdpp Require Import list.
#[local] Open Scope Z_scope.
#[local] Open Scope css_scope.

(** ** More entries *)

Lemma extended_ok m m' p new used' :
  let n := rd m p md.entry_count in
  let n' := n + Z.of_nat (length new) in
  wf m p -> same_layout m m' p ->
  rd m' p md.entry_count = n' -> n' <= rd m p md.entry_capacity ->
  rd m' p md.data_count = used' -> used' <= rd m p md.data_capacity ->
  map (slot m' p) (range n n') = new -> Forall slot_ok new -> tiled (slots m p ++ new) used' ->
  (is_sorted m' p = true -> StronglySorted (fun c d => c_tag c <= c_tag d) (slots m p ++ new)) ->
  (forall a, get_entries m p <= a < entry_at m p n -> m' a = m a) ->
  (forall x, 0 <= x < rd m p md.data_count -> area m' p x = area m p x) ->
  wf m' p /\ contents m' p = contents m p ++ map (datum_of (area m' p)) new.
Proof.
  intros n n' W L En Hn Eu Hu Hnew Fnew T S Hold Harea.
  pose proof (rd_U32_range m p 12 : 0 <= n < 2 ^ 32) as N0.
  assert (Hs : slots m' p = slots m p ++ new).
  { unfold slots at 1. rewrite En. unfold range.
    replace (n' - 0) with (n + Z.of_nat (length new)) by lia.
    rewrite seqZ_app by lia. rewrite map_app. f_equal.
    - unfold slots. fold n. unfold range. replace (n - 0) with n by lia.
      apply map_ext_in. intros i Hi. apply list_elem_of_In, elem_of_seqZ in Hi.
      destruct L as (_ & _ & E & _). unfold slot. apply bytes_ext. intros k Hk.
      unfold entry_at, get_entries, sizeof_buffer_entry in *. rewrite E. apply Hold. lia.
    - rewrite <- Hnew at 2. unfold range. replace (n' - n) with (Z.of_nat (length new)) by lia.
      rewrite Z.add_0_l. reflexivity. }
  assert (wf m' p).
  { eapply (wf_make m m' p (slots m p ++ new) used'); eauto.
    - rewrite En. exact Hn.
    - apply Forall_app. split; [apply wf_slots, W | exact Fnew]. }
  split; [assumption |]. unfold contents at 1. rewrite Hs, map_app. f_equal.
  unfold contents. apply map_ext_in. intros d Hd. apply list_elem_of_In in Hd.
  apply (datum_kept _ _ (slots m p) (rd m p md.data_count)); [apply wf_slots, W | apply wf_tiled, W | exact Harea | exact Hd].
Qed.

(** ** Adding an entry *)

(** The values [data] of the caller: [count] values of type [t]. *)
Section Add.
Context (m : mem) (p tag t data count : Z).

#[local] Abbreviation n := (rd m p md.entry_count).
#[local] Abbreviation used := (rd m p md.data_count).
#[local] Abbreviation size := (count * type_size t).

Definition entry_fits : bool :=
  (n <? rd m p md.entry_capacity) && (used + room_for size <=? rd m p md.data_capacity).

Hypothesis (W : wf m p) (Ht : is_type t) (Hc : 0 <= count) (Hsize : size < 2 ^ 62) (Htag : 0 <= tag < 2 ^ 32)
  (Hdata : 0 < data) (Hapart : data + size <= p \/ p + rd m p md.size <= data).

(** The stores into the new entry at [e], before its values. *)
Definition new_entry (e : Z) : mem :=
  wr (wr (wr (memset_zero e 16 m) e mbe.tag tag) e mbe.type t) e mbe.count count.

Lemma new_entry_outside e : same_outside e (e + 16) m (new_entry e).
Proof.
  unfold new_entry. eapply same_outside_trans; [apply (memset_same_outside e 16 e (e + 16)); lia |].
  frame_chain.
Qed.

Lemma new_entry_fields e m1 :
  count < 2 ^ 32 -> same_outside (e + 8) (e + 12) (new_entry e) m1 ->
  let c := bytes m1 e 16 in c_tag c = tag /\ c_type c = t /\ c_count c = count.
Proof.
  intros Hn S c. unfold c. rewrite c_tag_slot, c_type_slot, c_count_slot.
  unfold is_type, ICAMERA_NUM_TYPES in Ht.
  rewrite !(rd_same_outside _ _ _ _ e _ S) by mem_out. unfold new_entry.
  mem_read. rewrite !f_conv_U32, f_conv_U8 by lia. auto.
Qed.

Lemma add_finish e m1 c :
  let m2 := wr m1 p md.entry_count (rd m1 p md.entry_count + 1) in
  let m' := wr m2 p md.flags (Z.land (rd m2 p md.flags) (Z.lnot FLAG_SORTED)) in
  e = entry_at m p n -> n < rd m p md.entry_capacity ->
  c = bytes m1 e 16 -> slot_ok c -> (in_area c -> c_offset c = used) ->
  same_layout m m1 p -> rd m1 p md.entry_count = n -> 
  rd m1 p md.data_count = used + c_room c -> used + c_room c <= rd m p md.data_capacity ->
  (forall a, get_entries m p <= a < e -> m1 a = m a) ->
  (forall x, 0 <= x < used -> m1 (get_data m p + x) = m (get_data m p + x)) ->
  wf m' p /\ contents m' p = contents m p ++ [datum_of (area m1 p) c]
  /\ (is_sorted m' p = false /\ same_layout m m' p) /\ same_outside p (p + 36) m1 m'.
Proof.
  intros m2 m' He Hn Hcc Hok Hoff L En Eu Hu Hold Harea. destruct (wf_bounds m p W) as [B1 B2 B3 B4 B5 B6 B7 B8 B9].
  destruct (B2 n ltac:(lia)) as [B10 B11]. rewrite <- He in B10, B11.
  assert (S : same_outside p (p + 36) m1 m') by (unfold m', m2; frame_chain).
  assert (L' : same_layout m m' p).
  { destruct L as (L1 & L2 & L3 & L4 & L5). unfold same_layout, m', m2. mem_read. auto. }
  assert (Fl : is_sorted m' p = false).
  { rewrite is_sorted_bit. unfold m' at 1. mem_read. rewrite f_conv_u32, u32_bit by lia.
    autorewrite with bits. apply andb_false_r. }
  assert (Hslot : slot m' p n = c).
  { unfold slot. rewrite (entry_at_same m m' p) by apply L'. rewrite <- He, Hcc.
    apply (bytes_same_outside _ _ _ _ _ _ S). lia. }
  assert (Hdc : forall x, 0 <= x -> area m' p x = area m1 p x).
  { intros x Hx. unfold area. rewrite (get_data_same m m' p), (get_data_same m m1 p) by (apply L || apply L'). apply S. lia. }
  destruct (extended_ok m m' p [c] (used + c_room c)) as [W' C']; auto.
  - unfold m', m2. mem_read. autounfold with layout in *. rewrite En, f_conv_U32 by lia. cbn [length]. lia.
  - cbn [length]. lia.
  - unfold m', m2. mem_read. exact Eu.
  - cbn [length]. change (Z.of_nat 1) with 1. rewrite range_cons, range_nil by lia. cbn [map]. rewrite Hslot. reflexivity.
  - apply tiled_add; [exact Hok | apply wf_tiled, W | exact Hoff].
  - rewrite Fl. discriminate.
  - intros a Ha. rewrite <- He in Ha. rewrite (S a) by (unfold get_entries in Ha; lia). apply Hold, Ha.
  - intros x Hx. rewrite Hdc by lia. unfold area. rewrite (get_data_same m m1 p) by apply L. apply Harea, Hx.
  - split; [exact W' |]. split; [| auto]. rewrite C'. cbn [map]. do 2 f_equal.
    apply datum_same; [exact Hok |]. intros Ia k Hk. apply Hdc. rewrite Hoff by exact Ia. lia.
Qed.

Lemma add_guards :
  add_camera_metadata_entry_raw p tag t data count m
  = if entry_fits then add_camera_metadata_entry_raw p tag t data count m else (UNKNOWN_ERROR, m).
Proof.
  unfold entry_fits. destruct (wf_bounds m p W) as [B1 B2 B3 B4 B5 B6 B7 B8 B9].
  pose proof (type_size_range t Ht). destruct (room_for_spec size) as (_ & R1 & R2); [nia |].
  destruct (Z.ltb_spec n (rd m p md.entry_capacity)) as [Hn | Hn]; cbn [andb].
  - destruct (Z.leb_spec (used + room_for size) (rd m p md.data_capacity)) as [Hr | Hr]; [reflexivity |].
    unfold add_camera_metadata_entry_raw. rewrite (not_null p), (not_null data) by (apply W || assumption).
    destruct (Z.eqb_spec n (rd m p md.entry_capacity)); [lia |].
    rewrite data_size_room by assumption. cbv zeta.
    unfold u64 at 1. rewrite Z.mod_small by lia.
    destruct (Z.ltb_spec (rd m p md.data_capacity) (room_for size + used)); [reflexivity | lia].
  - unfold add_camera_metadata_entry_raw. rewrite (not_null p) by apply W.
    pose proof (wf_entry_count m p W).
    destruct (Z.eqb_spec n (rd m p md.entry_capacity)); [reflexivity | lia].
Qed.

(** Up to four bytes of values go into the entry. *)
Lemma add_inline :
  entry_fits = true -> size <= 4 ->
  let e := entry_at m p n in
  let m1 := MEMCPY_S (e + offsetof_value) size data size (new_entry e) in
  let c := bytes m1 e 16 in
  datum_of (area m1 p) c = Datum tag t count (bytes m data size) /\ slot_ok c /\ c_room c = 0
  /\ same_outside e (e + 16) m m1.
Proof.
  intros Hf Hs e m1 c. unfold entry_fits in Hf. bsimp. destruct (wf_bounds m p W) as [B1 B2 B3 B4 B5 B6 B7 B8 B9].
  destruct (B2 n ltac:(lia)) as [B10 B11]. fold e in B10, B11.
  pose proof (type_size_range t Ht) as TS. assert (0 <= size) by nia.
  assert (S1 : same_outside (e + 8) (e + 12) (new_entry e) m1).
  { unfold m1, MEMCPY_S. rewrite Z.min_id. apply memmove_same_outside; unfold offsetof_value; lia. }
  assert (S : same_outside e (e + 16) m m1).
  { eapply same_outside_trans; [apply (new_entry_outside e) |].
    apply (same_outside_weaken (e + 8) (e + 12)); [lia | lia | exact S1]. }
  destruct (new_entry_fields e m1) as (F1 & F2 & F3); [nia | exact S1 |]. fold c in F1, F2, F3.
  assert (Hb : c_bytes c = size) by (unfold c_bytes; rewrite F2, F3; reflexivity).
  split; [| split; [split; [apply bytes_length; lia | rewrite F2; exact Ht] | split; [| exact S]]].
  - unfold datum_of. rewrite Hb, F1, F2, F3. destruct (Z.ltb_spec 4 size); [lia |]. f_equal.
    unfold c. apply bytes_ext. intros k Hk. rewrite image_bytes by lia. unfold m1, MEMCPY_S, offsetof_value.
    rewrite Z.min_id, memmove_in by lia. rewrite (new_entry_outside e) by lia. f_equal. lia.
  - unfold c_room. rewrite Hb. apply room_for_spec; lia.
Qed.

(** More bytes go behind the values in the data area. *)
Lemma add_in_area :
  entry_fits = true -> 4 < size ->
  let e := entry_at m p n in
  let mk := wr (new_entry e) e mbe.offset (rd (new_entry e) p md.data_count) in
  let m1 := MEMCPY_S (get_data mk p + rd mk e mbe.offset) size data size mk in
  let c := bytes m1 e 16 in
  datum_of (area m1 p) c = Datum tag t count (bytes m data size) /\ slot_ok c /\ c_room c = room_for size
  /\ c_offset c = used
  /\ (forall a, a < e \/ e + 16 <= a < get_data m p + used -> m1 a = m a)
  /\ same_outside p (p + rd m p md.size) m m1.
Proof.
  intros Hf Hs e mk m1 c. unfold entry_fits in Hf. bsimp. destruct (wf_bounds m p W) as [B1 B2 B3 B4 B5 B6 B7 B8 B9].
  destruct (B2 n ltac:(lia)) as [B10 B11]. fold e in B10, B11.
  pose proof (type_size_range t Ht) as TS. destruct (room_for_spec size) as (_ & _ & R); [nia |]. specialize (R Hs).
  assert (S0 : same_outside (e + 8) (e + 12) (new_entry e) mk) by (unfold mk; frame_chain).
  assert (Sk : same_outside e (e + 16) m mk).
  { eapply same_outside_trans; [apply (new_entry_outside e) |].
    apply (same_outside_weaken (e + 8) (e + 12)); [lia | lia | exact S0]. }
  assert (Eo : rd mk e mbe.offset = used).
  { unfold mk. mem_read. rewrite (header_same e (e + 16) m (new_entry e) p 24) by (auto using new_entry_outside; lia).
    apply f_conv_U32. exact B7. }
  assert (Ed : get_data mk p = get_data m p) by (apply get_data_same, (layout_same _ _ _ _ _ Sk); lia).
  assert (S1 : same_outside (get_data m p + used) (get_data m p + used + size) mk m1).
  { unfold m1, MEMCPY_S. rewrite Z.min_id, Ed, Eo. apply memmove_same_outside; lia. }
  assert (Hc16 : c = bytes mk e 16) by (apply (bytes_same_outside _ _ _ _ _ _ S1); lia).
  destruct (new_entry_fields e mk) as (F1 & F2 & F3); [nia | exact S0 |]. rewrite <- Hc16 in F1, F2, F3.
  assert (Hb : c_bytes c = size) by (unfold c_bytes; rewrite F2, F3; reflexivity).
  assert (Ho : c_offset c = used) by (rewrite Hc16, c_offset_slot; exact Eo).
  split; [| split; [split; [apply bytes_length; lia | rewrite F2; exact Ht] | split; [| split; [exact Ho | split]]]].
  - unfold datum_of. rewrite Hb, F1, F2, F3. destruct (Z.ltb_spec 4 size); [| lia]. f_equal.
    apply bytes_ext. intros k Hk. rewrite Ho. unfold area.
    rewrite (get_data_same mk m1), Ed by (apply (header_same _ _ _ _ _ 32 S1); lia).
    unfold m1, MEMCPY_S. rewrite Z.min_id, Ed, Eo, memmove_in by lia. rewrite Sk by lia. f_equal. lia.
  - unfold c_room. rewrite Hb. reflexivity.
  - intros a Ha. rewrite (S1 a), (Sk a) by lia. reflexivity.
  - intros a Ha. rewrite (S1 a), (Sk a) by lia. reflexivity.
Qed.

Lemma add_ok :
  entry_fits = true ->
  exists m', add_camera_metadata_entry_raw p tag t data count m = (OK, m') /\ wf m' p
    /\ contents m' p = contents m p ++ [Datum tag t count (bytes m data size)]
    /\ same_outside p (p + rd m p md.size) m m' /\ is_sorted m' p = false /\ same_layout m m' p.
Proof.
  intros Hf. pose proof Hf as Hf'. unfold entry_fits in Hf'. bsimp.
  destruct (wf_bounds m p W) as [B1 B2 B3 B4 B5 B6 B7 B8 B9].
  pose proof (type_size_range t Ht) as TS. destruct (room_for_spec size) as (_ & R1 & R2); [nia |].
  destruct (B2 n ltac:(lia)) as [B10 B11].
  unfold add_camera_metadata_entry_raw. rewrite (not_null p), (not_null data) by (apply W || assumption).
  destruct (Z.eqb_spec n (rd m p md.entry_capacity)) as [Ne | Ne]; [lia |].
  rewrite data_size_room by assumption. cbv zeta.
  rewrite (u64_small (room_for size + used)) by lia.
  destruct (Z.ltb_spec (rd m p md.data_capacity) (room_for size + used)); [lia |].
  assert ((ICAMERA_NUM_TYPES <=? t) = false) as -> by (apply Z.leb_gt; apply Ht).
  rewrite (u64_small size) by nia.
  fold (new_entry (entry_at m p n)). destruct (Z.le_gt_cases size 4) as [Hs | Hs].
  - rewrite R1 by exact Hs. rewrite Z.eqb_refl.
    destruct (add_inline Hf Hs) as (D & Hok & Hr & S).
    set (m1 := MEMCPY_S _ _ _ _ _) in *. set (e := entry_at m p n) in *. set (c := bytes m1 e 16) in *.
    destruct (add_finish e m1 c) as (W' & C' & F' & S'); auto.
    + intros A. unfold in_area in A. lia.
    + apply (layout_same _ _ _ _ _ S). lia.
    + apply (header_same _ _ _ _ _ 12 S); lia.
    + rewrite Hr, Z.add_0_r. apply (header_same _ _ _ _ _ 24 S); lia.
    + lia.
    + intros a Ha. apply S. lia.
    + intros x Hx. apply S. lia.
    + eexists. split; [reflexivity |]. rewrite <- D. split; [exact W' |]. split; [exact C' |]. split; [| exact F'].
      intros a Ha. rewrite (S' a), (S a) by lia. reflexivity.
  - destruct (Z.eqb_spec (room_for size) 0) as [R0 | R0]; [lia |].
    destruct (add_in_area Hf Hs) as (D & Hok & Hr & Ho & Hold & S).
    set (mk := wr (new_entry _) _ _ _) in *. set (m1 := MEMCPY_S _ _ _ _ _) in *.
    set (e := entry_at m p n) in *. set (c := bytes m1 e 16) in *.
    assert (H12 : forall o, 0 <= o <= 32 -> rd m1 p (U32 o) = rd m p (U32 o)).
    { intros o Ho'. apply rd_moved. intros k Hk. cbn in Hk. apply Hold. lia. }
    set (m2 := wr m1 p md.data_count _).
    assert (S2 : same_outside (p + 24) (p + 28) m1 m2) by (unfold m2; frame_chain).
    destruct (add_finish e m2 c) as (W' & C' & F' & S'); auto.
    + symmetry. apply (bytes_same_outside _ _ _ _ _ _ S2). lia.
    + unfold m2, same_layout. mem_read. repeat split; apply H12; lia.
    + unfold m2. mem_read. apply H12; lia.
    + unfold m2. mem_read. rewrite Hr, (H12 24), f_conv_U32 by (autounfold with layout in *; lia). reflexivity.
    + rewrite Hr. lia.
    + intros a Ha. unfold get_entries in Ha. rewrite (S2 a) by lia. apply Hold. lia.
    + intros x Hx. rewrite (S2 _) by lia. apply Hold. lia.
    + eexists. split; [reflexivity |]. rewrite <- D. split; [exact W' |]. split; [| split; [| exact F']].
      * rewrite C'. do 2 f_equal. apply datum_same; [exact Hok |]. intros _ k Hk. rewrite Ho.
        unfold area. rewrite (get_data_same m1 m2) by (unfold m2; mem_read; reflexivity). apply S2.
        assert (get_data m1 p = get_data m p) as -> by (apply get_data_same, (H12 32); lia). lia.
      * intros a Ha. rewrite (S' a), (S2 a), (S a) by lia. reflexivity.
Qed.
End Add.

(** ** Appending a packet *)

Section Append.
Context (m : mem) (p q : Z).

#[local] Abbreviation n := (rd m p md.entry_count).
#[local] Abbreviation n' := (rd m q md.entry_count).
#[local] Abbreviation used := (rd m p md.data_count).
#[local] Abbreviation used' := (rd m q md.data_count).

Hypothesis (W : wf m p) (W' : wf m q)
  (Hapart : p + rd m p md.size <= q \/ q + rd m q md.size <= p)
  (Hn : n + n' <= rd m p md.entry_capacity) (Hu : used + used' <= rd m p md.data_capacity).

(** The slots of [q] as they will be in [p]. *)
Definition appended_slots : list chunk :=
  if used =? 0 then slots m q else map (shift_up used) (slots m q).

(** The entries copied behind those of [p], the values behind its values, the
    offsets of the copies moved. *)
Definition copied : mem :=
  MEMCPY_S (get_data m p + used) (u32 (rd m p md.data_capacity - used)) (get_data m q) used'
    (MEMCPY_S (entry_at m p n) (16 * u32 (rd m p md.entry_capacity - n)) (get_entries m q) (16 * n') m).

Lemma copied_ok :
  (forall i, 0 <= i < n' -> bytes copied (entry_at m p n + i * 16) 16 = slot m q i)
  /\ (forall x, 0 <= x < used' -> copied (get_data m p + used + x) = area m q x)
  /\ (forall a, get_entries m p <= a < entry_at m p n -> copied a = m a)
  /\ (forall x, 0 <= x < used -> copied (get_data m p + x) = m (get_data m p + x))
  /\ same_outside (p + 36) (p + rd m p md.size) m copied.
Proof.
  destruct (wf_bounds m p W) as [B1 B2 B3 B4 B5 B6 B7 B8 B9].
  destruct (wf_bounds m q W') as [C1 C2 C3 C4 C5 C6 C7 C8 C9].
  pose proof (wf_data m p W) as [D1 _]. pose proof (wf_data m q W') as [D2 _].
  pose proof (wf_entry_count m q W'). pose proof (wf_data_count m q W').
  unfold copied, MEMCPY_S, slot, entry_at, get_entries, area, get_data, sizeof_buffer_entry in *.
  rewrite !u32_small by lia. rewrite !Z.min_r by lia.
  set (es := rd m p md.entries_start) in *. set (es' := rd m q md.entries_start) in *.
  set (ds := rd m p md.data_start) in *. set (ds' := rd m q md.data_start) in *.
  repeat split.
  - intros i Hi. apply bytes_ext. intros k Hk. rewrite memmove_out, memmove_in by lia. f_equal. lia.
  - intros x Hx. rewrite memmove_in by lia. rewrite memmove_out by lia. f_equal. lia.
  - intros a Ha. rewrite !memmove_out by lia. reflexivity.
  - intros x Hx. rewrite !memmove_out by lia. reflexivity.
  - intros a Ha. rewrite !memmove_out by lia. reflexivity.
Qed.

(** The third step of [append_icamera_metadata]. *)
Definition moved : mem :=
  if negb (rd copied p md.data_count =? 0)
  then relocate (entry_at copied p (rd copied p md.entry_count)) (rd copied q md.entry_count)
         (fun _ _ => true)
         (fun s entry => rd s entry mbe.offset + rd s p md.data_count) copied
  else copied.

Lemma moved_ok :
  map (fun i => bytes moved (entry_at m p n + i * 16) 16) (range 0 n') = appended_slots
  /\ same_outside (entry_at m p n) (entry_at m p n + n' * 16) copied moved.
Proof.
  destruct copied_ok as (K1 & K2 & K3 & K4 & K5).
  destruct (wf_bounds m p W) as [B1 B2 B3 B4 B5 B6 B7 B8 B9].
  destruct (wf_bounds m q W') as [C1 C2 C3 C4 C5 C6 C7 C8 C9].
  assert (Q : forall o, 0 <= o <= 32 -> rd copied q (U32 o) = rd m q (U32 o)).
  { intros o Ho. apply (rd_same_outside _ _ m copied q _ K5). cbn [f_off f_len U32]. lia. }
  assert (Hh : forall o, 0 <= o <= 32 -> rd copied p (U32 o) = rd m p (U32 o)).
  { intros o Ho. apply (header_same _ _ _ _ _ _ K5); lia. }
  unfold moved, appended_slots. rewrite (Hh 24 ltac:(lia) : rd copied p md.data_count = used).
  destruct (Z.eqb_spec used 0) as [U | U]; cbn [negb].
  - split; [| apply same_outside_refl]. unfold slots. apply map_ext_in. intros i Hi.
    apply list_elem_of_In, elem_of_range in Hi. apply K1, Hi.
  - rewrite (entry_at_same m copied p) by exact (Hh 20 ltac:(lia)).
    rewrite (Hh 12 ltac:(lia) : rd copied p md.entry_count = n), (Q 12 ltac:(lia) : rd copied q md.entry_count = n').
    set (e := entry_at m p n) in *.
    destruct (relocate_ok e n' (fun _ _ => true)
                (fun s entry => rd s entry mbe.offset + rd s p md.data_count) copied
                (fun _ => true) (fun i => c_offset (slot m q i) + used)) as [S R].
    + lia.
    + intros i Hi. rewrite K1 by exact Hi. apply slot_of; assumption.
    + intros i s Hi [S R]. split; [reflexivity |]. f_equal.
      * rewrite <- c_offset_slot, R by exact Hi. cbv zeta. rewrite Z.ltb_irrefl, K1 by exact Hi. reflexivity.
      * destruct (B2 n ltac:(lia)) as [Be _]. fold e in Be.
        rewrite (header_same _ _ _ _ _ 24 S), (Hh 24) by lia. reflexivity.
    + split; [| exact S]. unfold slots. rewrite map_map. apply map_ext_in. intros i Hi.
      apply list_elem_of_In, elem_of_range in Hi. rewrite R by exact Hi. cbv zeta.
      rewrite K1 by exact Hi. destruct (Z.ltb_spec i n'); [| lia]. cbn [andb]. rewrite andb_true_r.
      unfold shift_up. destruct (decide (in_area (slot m q i))); [rewrite bool_decide_true by assumption | rewrite bool_decide_false by assumption]; reflexivity.
Qed.

(** What the flags become. *)
Definition joined_flags : Z :=
  if n =? 0 then Z.lor (rd m p md.flags) (Z.land (rd m q md.flags) FLAG_SORTED)
  else if negb (n' =? 0) then Z.land (rd m p md.flags) (Z.lnot FLAG_SORTED) else rd m p md.flags.

Lemma joined_flag :
  Z.testbit joined_flags 0
  = (if n =? 0 then is_sorted m p || is_sorted m q else (n' =? 0) && is_sorted m p).
Proof.
  unfold joined_flags. rewrite !is_sorted_bit. destruct (n =? 0).
  - autorewrite with bits. change (Z.testbit FLAG_SORTED 0) with true. rewrite andb_true_r. reflexivity.
  - destruct (n' =? 0); cbn [negb andb]; [reflexivity |]. autorewrite with bits. apply andb_false_r.
Qed.

Lemma moved_outside : same_outside (p + 36) (p + rd m p md.size) m moved.
Proof.
  destruct copied_ok as (_ & _ & _ & _ & K5). destruct moved_ok as [_ S].
  destruct (wf_bounds m p W) as [B1 B2 B3 B4 B5 B6 B7 B8 B9]. pose proof (wf_data m p W) as [D1 _].
  destruct (wf_bounds m q W') as [C1 C2 C3 C4 C5 C6 C7 C8 C9].
  eapply same_outside_trans; [exact K5 |]. eapply same_outside_weaken; [| | exact S];
    unfold entry_at, get_entries, get_data, sizeof_buffer_entry in *; lia.
Qed.

Lemma append_run :
  exists m4, append_icamera_metadata p q m
    = (OK, wr (wr m4 p md.entry_count (n + n')) p md.data_count (used + used'))
    /\ rd m4 p md.flags = u32 joined_flags /\ same_outside (p + 8) (p + 12) moved m4.
Proof.
  destruct (wf_bounds m p W) as [B1 B2 B3 B4 B5 B6 B7 B8 B9].
  destruct (wf_bounds m q W') as [C1 C2 C3 C4 C5 C6 C7 C8 C9].
  pose proof (wf_data m p W) as [D1 _].
  unfold append_icamera_metadata. rewrite (not_null p), (not_null q) by (apply W || apply W'). cbn [orb].
  rewrite !u32_small by lia.
  destruct (Z.ltb_spec (rd m p md.entry_capacity) (n' + n)); [lia |].
  destruct (Z.ltb_spec (rd m p md.data_capacity) (used' + used)); [lia |].
  cbv zeta. set (m1 := MEMCPY_S (entry_at m p n) _ _ _ m).
  assert (S1 : same_outside (p + 36) (get_data m p) m m1).
  { unfold m1, MEMCPY_S. apply memmove_same_outside;
      unfold entry_at, get_entries, get_data, sizeof_buffer_entry in *; lia. }
  assert (H1 : forall o, 0 <= o <= 32 -> rd m1 p (U32 o) = rd m p (U32 o)).
  { intros o Ho. apply (header_same _ _ _ _ _ _ S1); lia. }
  assert (Q1 : forall o, 0 <= o <= 32 -> rd m1 q (U32 o) = rd m q (U32 o)).
  { intros o Ho. apply (rd_same_outside _ _ m m1 q _ S1). cbn [f_off f_len U32]. lia. }
  rewrite !(H1 24 ltac:(lia) : rd m1 p md.data_count = used).
  rewrite (H1 28 ltac:(lia) : rd m1 p md.data_capacity = rd m p md.data_capacity).
  rewrite (Q1 24 ltac:(lia) : rd m1 q md.data_count = used').
  rewrite (get_data_same m m1 p) by exact (H1 32 ltac:(lia)).
  rewrite (get_data_same m m1 q) by exact (Q1 32 ltac:(lia)).
  set (m2 := MEMCPY_S (get_data m p + used) _ _ _ m1).
  assert (E2 : m2 = copied) by (unfold m2, m1, copied; rewrite !u32_small by lia; reflexivity).
  rewrite E2. fold moved. set (m3 := moved).
  pose proof moved_outside as S3. fold m3 in S3.
  assert (H3 : forall o, 0 <= o <= 32 -> rd m3 p (U32 o) = rd m p (U32 o)).
  { intros o Ho. apply (header_same _ _ _ _ _ _ S3); lia. }
  assert (Q3 : forall o, 0 <= o <= 32 -> rd m3 q (U32 o) = rd m q (U32 o)).
  { intros o Ho. apply (rd_same_outside _ _ m m3 q _ S3). cbn [f_off f_len U32]. lia. }
  set (m4 := if rd m3 p md.entry_count =? 0 then _ else _).
  assert (E4 : m4 = if (n =? 0) || negb (n' =? 0) then wr m3 p md.flags joined_flags else m3).
  { unfold m4, joined_flags. rewrite (H3 12 ltac:(lia) : rd m3 p md.entry_count = n).
    rewrite (Q3 12 ltac:(lia) : rd m3 q md.entry_count = n').
    rewrite (H3 8 ltac:(lia) : rd m3 p md.flags = rd m p md.flags), (Q3 8 ltac:(lia) : rd m3 q md.flags = rd m q md.flags).
    destruct (n =? 0); [reflexivity |]. destruct (n' =? 0); reflexivity. }
  assert (S4 : same_outside (p + 8) (p + 12) m3 m4).
  { rewrite E4. destruct (_ || _); [frame_chain | apply same_outside_refl]. }
  assert (F4 : rd m4 p md.flags = u32 joined_flags).
  { rewrite E4. unfold joined_flags. destruct (n =? 0); cbn [orb]; [mem_read; apply f_conv_u32 |].
    destruct (n' =? 0); cbn [negb]; [| mem_read; apply f_conv_u32].
    rewrite (H3 8 ltac:(lia) : rd m3 p md.flags = rd m p md.flags). symmetry. apply u32_small, rd_U32_range. }
  clearbody m4. exists m4. split; [| split; [exact F4 | exact S4]].
  assert (S34 : forall o, 12 <= o <= 32 -> rd m4 p (U32 o) = rd m3 p (U32 o)).
  { intros o Ho. apply (rd_same_outside _ _ _ _ p (U32 o) S4). cbn [f_off f_len U32]. lia. }
  assert (Q4 : forall o, 0 <= o <= 32 -> rd m4 q (U32 o) = rd m q (U32 o)).
  { intros o Ho. rewrite <- Q3 by lia. apply (rd_same_outside _ _ _ _ q (U32 o) S4). cbn [f_off f_len U32]. lia. }
  rewrite (S34 12 ltac:(lia) : rd m4 p md.entry_count = rd m3 p md.entry_count), (H3 12 ltac:(lia) : rd m3 p md.entry_count = n).
  rewrite (Q4 12 ltac:(lia) : rd m4 q md.entry_count = n').
  set (m5 := wr m4 p md.entry_count _).
  assert (rd m5 p md.data_count = used) as ->.
  { unfold m5. mem_read. rewrite (S34 24) by lia. apply (H3 24). lia. }
  assert (rd m5 q md.data_count = used') as ->.
  { unfold m5. autounfold with layout in *. rewrite rd_wr_base by (cbn [f_off f_len U32]; lia). apply (Q4 24). lia. }
  reflexivity.
Qed.

Lemma appended_slots_ok :
  used + used' < 2 ^ 32 ->
  Forall slot_ok appended_slots /\ tiled (slots m p ++ appended_slots) (used + used')
  /\ length appended_slots = Z.to_nat n'
  /\ (forall area', (forall x, 0 <= x < used' -> area' (used + x) = area m q x) ->
       map (datum_of area') appended_slots = contents m q)
  /\ map c_tag appended_slots = map c_tag (slots m q).
Proof.
  intros Hlt. destruct (wf_bounds m p W) as [_ _ _ _ _ _ B7 _ _]. destruct (wf_bounds m q W') as [_ _ _ _ _ _ C7 _ _].
  pose proof (wf_slots m q W') as Fq. pose proof (wf_tiled m q W') as Tq. pose proof (wf_tiled m p W) as Tp.
  unfold appended_slots. destruct (Z.eqb_spec used 0) as [U | U].
  - rewrite U in *. repeat split.
    + exact Fq.
    + rewrite Z.add_0_l. apply tiled_append_0; assumption.
    + apply slots_length.
    + intros area' Ha. unfold contents. apply map_ext_in. intros d Hd. apply list_elem_of_In in Hd.
      apply (datum_kept _ _ (slots m q) used'); auto.
  - repeat split.
    + apply Forall_forall. intros c Hc. apply list_elem_of_In, in_map_iff in Hc. destruct Hc as (d & <- & Hd).
      apply shift_up_ok. rewrite Forall_forall in Fq. apply Fq, list_elem_of_In, Hd.
    + apply tiled_append; [apply wf_slots, W | assumption ..].
    + rewrite length_map. apply slots_length.
    + intros area' Ha. unfold contents. rewrite map_map. apply map_ext_in. intros d Hd. apply list_elem_of_In in Hd.
      apply (datum_appended _ _ (slots m q) used'); auto; lia.
    + rewrite map_map. apply map_ext. intros d. apply shift_up_tag.
Qed.

Lemma append_ok :
  (n = 0 -> is_sorted m p = true -> is_sorted m q = true) ->
  exists m', append_icamera_metadata p q m = (OK, m') /\ wf m' p
    /\ contents m' p = contents m p ++ contents m q
    /\ same_outside p (p + rd m p md.size) m m'
    /\ is_sorted m' p = (if n =? 0 then is_sorted m p || is_sorted m q else (n' =? 0) && is_sorted m p)
    /\ same_layout m m' p /\ rd m' p md.data_count = used + used'.
Proof.
  intros Hflag. destruct append_run as (m4 & E & F4 & S4). rewrite E.
  destruct copied_ok as (K1 & K2 & K3 & K4 & K5). destruct moved_ok as [M1 M2].
  pose proof moved_outside as S3.
  destruct (wf_bounds m p W) as [B1 B2 B3 B4 B5 B6 B7 B8 B9].
  destruct (wf_bounds m q W') as [C1 C2 C3 C4 C5 C6 C7 C8 C9]. pose proof (wf_data m p W) as [D1 _].
  destruct appended_slots_ok as (A1 & A2 & A3 & A4 & A5); [lia |].
  set (m' := wr (wr m4 p md.entry_count (n + n')) p md.data_count (used + used')).
  assert (S : same_outside p (p + 36) moved m').
  { eapply same_outside_trans; [eapply same_outside_weaken; [| | exact S4]; lia |]. unfold m'. frame_chain. }
  assert (L : same_layout m m' p).
  { destruct (layout_same _ _ _ _ p S3 ltac:(lia)) as (L1 & L2 & L3 & L4 & L5).
    unfold same_layout, m'. mem_read. autounfold with layout in *.
    repeat split; (rewrite (rd_same_outside _ _ _ _ p _ S4) by (cbn [f_off f_len U32]; lia)); assumption. }
  assert (Ed : get_data m' p = get_data m p) by apply get_data_same, L.
  assert (Fl : is_sorted m' p = (if n =? 0 then is_sorted m p || is_sorted m q else (n' =? 0) && is_sorted m p)).
  { rewrite is_sorted_bit. assert (rd m' p md.flags = rd m4 p md.flags) as -> by (unfold m'; mem_read; reflexivity).
    rewrite F4, u32_bit by lia. apply joined_flag. }
  assert (Hs : forall i, 0 <= i < n' -> slot m' p (i + n) = bytes moved (entry_at m p n + i * 16) 16).
  { intros i Hi. unfold slot. rewrite (entry_at_same m m' p) by apply L. destruct (B2 n ltac:(lia)) as [Be _].
    replace (entry_at m p (i + n)) with (entry_at m p n + i * 16) by (unfold entry_at, sizeof_buffer_entry; lia).
    apply (bytes_same_outside _ _ _ _ _ _ S). lia. }
  assert (Ho : forall a, p + 36 <= a -> (a < entry_at m p n \/ entry_at m p n + n' * 16 <= a) -> m' a = copied a).
  { intros a Ha Hb. rewrite (S a), (M2 a) by lia. reflexivity. }
  destruct (extended_ok m m' p appended_slots (used + used')) as [Wm Cm]; auto; try lia.
  - unfold m'. rewrite rd_wr_field, rd_wr_same by reflexivity. rewrite A3, Z2Nat.id by lia. apply f_conv_U32. lia.
  - unfold m'. rewrite rd_wr_same. apply f_conv_U32. lia.
  - rewrite A3, Z2Nat.id by lia. rewrite <- M1. replace (range n (n + n')) with (range (0 + n) (n' + n)) by (f_equal; lia).
    apply map_slot_shift. exact Hs.
  - rewrite Fl. destruct (Z.eqb_spec n 0) as [N0 | N0].
    + assert (slots m p = []) as -> by (unfold slots; rewrite N0; reflexivity). cbn [app]. intros Hor.
      apply (StronglySorted_tags _ (slots m q)); [exact A5 |]. apply wf_sorted; [exact W' |].
      destruct (is_sorted m p); [apply Hflag; auto | exact Hor].
    + intros Hor. bsimp. assert (appended_slots = []) as ->.
      { apply length_zero_iff_nil. rewrite A3. lia. }
      rewrite app_nil_r. apply wf_sorted; assumption.
  - intros a Ha. unfold get_entries in *. rewrite Ho by lia. apply K3. exact Ha.
  - intros x Hx. unfold area. rewrite Ed, Ho; [apply K4, Hx | lia |]. right. pose proof (entries_end m p (n + n') W Hn) as En. unfold entry_at, sizeof_buffer_entry in *. lia.
  - eexists. split; [reflexivity |]. split; [exact Wm |]. split; [| split; [| split; [exact Fl | split; [exact L |]]]].
    + rewrite Cm. f_equal. apply A4. intros x Hx. unfold area at 1. rewrite Ed, Z.add_assoc, Ho; [apply K2, Hx | lia |]. right. pose proof (entries_end m p (n + n') W Hn) as En. unfold entry_at, sizeof_buffer_entry in *. lia.
    + intros a Ha. rewrite (S a), (S3 a) by lia. reflexivity.
    + unfold m'. rewrite rd_wr_same. apply f_conv_U32. lia.
Qed.
End Append.

(** ** Creation *)

(** Where the data area of [entries] entries starts. *)
Definition data_start_for (entries : Z) : Z := (43 + 16 * entries) / 8 * 8.

Lemma calculate_size_eq entries data :
  0 <= entries < 2 ^ 58 -> 0 <= data < 2 ^ 62 ->
  calculate_icamera_metadata_size entries data = data_start_for entries + data.
Proof.
  intros He Hd. unfold calculate_icamera_metadata_size, data_start_for, sizeof_icamera_metadata_t, sizeof_buffer_entry.
  rewrite ALIGN_TO_4_id by (lia || reflexivity). rewrite (u64_small (16 * entries)), (u64_small (36 + _)) by lia.
  unfold DATA_ALIGNMENT. rewrite ALIGN_TO_8 by lia.
  replace (36 + 16 * entries + 7) with (43 + 16 * entries) by lia. apply u64_small. divlia.
Qed.

Lemma place_ok dst dst_size entries data m :
  0 < dst -> 0 <= entries < 2 ^ 58 -> 0 <= data < 2 ^ 62 ->
  data_start_for entries + data <= dst_size -> data_start_for entries + data < 2 ^ 32 ->
  exists m', place_icamera_metadata dst dst_size entries data m = (dst, m')
    /\ wf m' dst /\ contents m' dst = [] /\ is_sorted m' dst = false
    /\ rd m' dst md.entry_count = 0 /\ rd m' dst md.data_count = 0
    /\ rd m' dst md.entry_capacity = entries /\ rd m' dst md.data_capacity = data
    /\ rd m' dst md.entries_start = 36 /\ rd m' dst md.data_start = data_start_for entries
    /\ rd m' dst md.size = data_start_for entries + data /\ same_outside dst (dst + 36) m m'.
Proof.
  intros Hdst He Hd Hfit H32. assert (43 + 16 * entries - 7 <= data_start_for entries) by (unfold data_start_for; divlia).
  unfold place_icamera_metadata. rewrite not_null by exact Hdst. rewrite calculate_size_eq by assumption.
  destruct (Z.ltb_spec dst_size (data_start_for entries + data)); [lia |]. cbv zeta.
  rewrite ALIGN_TO_4_id by (unfold sizeof_icamera_metadata_t; lia || reflexivity).
  unfold entry_at, get_entries, sizeof_buffer_entry, sizeof_icamera_metadata_t, DATA_ALIGNMENT.
  mem_read. rewrite !(f_conv_U32 _ entries) by lia.
  change (f_conv (U32 20) 36) with 36.
  replace (dst + 36 + entries * 16 - dst) with (36 + 16 * entries) by lia. rewrite ALIGN_TO_8 by lia.
  replace (36 + 16 * entries + 7) with (43 + 16 * entries) by lia. fold (data_start_for entries).
  set (m' := wr _ dst (U32 32) _).
  assert (R : rd m' dst md.entry_count = 0 /\ rd m' dst md.data_count = 0
    /\ rd m' dst md.entry_capacity = entries /\ rd m' dst md.data_capacity = data
    /\ rd m' dst md.entries_start = 36 /\ rd m' dst md.data_start = data_start_for entries
    /\ rd m' dst md.size = data_start_for entries + data /\ rd m' dst md.flags = 0).
  { unfold m'. mem_read. rewrite !f_conv_U32 by lia. repeat split. }
  assert (S : same_outside dst (dst + 36) m m') by (unfold m'; frame_chain). clearbody m'.
  destruct R as (R1 & R2 & R3 & R4 & R5 & R6 & R7 & R8).
  assert (Hs : slots m' dst = []) by (unfold slots; rewrite R1; reflexivity).
  assert (Hf : is_sorted m' dst = false) by (unfold is_sorted; rewrite R8; reflexivity).
  exists m'. split; [reflexivity |]. split; [| repeat split; try assumption; unfold contents; rewrite Hs; reflexivity].
  split; rewrite ?R1, ?R2, ?R3, ?R4, ?R5, ?R6, ?R7, ?Hs, ?Hf; try lia.
  - split; [lia | reflexivity].
  - split; [lia |]. unfold data_start_for. rewrite Z.mod_mul by lia. reflexivity.
  - constructor.
  - apply tiled_nil.
Qed.

(** The bytes a packet needs without its free space. *)
Definition compact_size (m : mem) (p : Z) : Z :=
  data_start_for (rd m p md.entry_count) + rd m p md.data_count.

Lemma compact_size_eq m p : get_icamera_metadata_compact_size m p = if is_null p then u64 UNKNOWN_ERROR else compact_size m p.
Proof.
  unfold get_icamera_metadata_compact_size. destruct (is_null p); [reflexivity |].
  pose proof (rd_U32_range m p 12 : 0 <= rd m p md.entry_count < _).
  pose proof (rd_U32_range m p 24 : 0 <= rd m p md.data_count < _).
  apply calculate_size_eq; lia.
Qed.

Lemma compact_size_bound m p : wf m p -> 36 <= compact_size m p < 2 ^ 32.
Proof.
  intros W. destruct (wf_bounds m p W) as [B1 B2 B3 B4 B5 B6 B7 B8 B9]. pose proof (wf_data m p W) as [D1 D2].
  pose proof (wf_end m p W). pose proof (wf_entry_count m p W). pose proof (wf_data_count m p W).
  unfold compact_size, data_start_for. divlia.
Qed.

(** A packet does not depend on memory outside it. *)
Lemma slots_moved m m' p :
  wf m p -> (forall a, p <= a < p + rd m p md.size -> m' a = m a) ->
  slots m' p = slots m p /\ (forall x, 0 <= x < rd m p md.data_capacity -> area m' p x = area m p x)
  /\ (forall o, 0 <= o <= 32 -> rd m' p (U32 o) = rd m p (U32 o)).
Proof.
  intros W H. destruct (wf_bounds m p W) as [B1 B2 B3 B4 B5 B6 B7 B8 B9].
  assert (R : forall o, 0 <= o <= 32 -> rd m' p (U32 o) = rd m p (U32 o)).
  { intros o Ho. apply rd_moved. cbn [f_off f_len U32]. intros k Hk. apply H. lia. }
  pose proof (R 12 ltac:(lia) : rd m' p md.entry_count = rd m p md.entry_count) as R12.
  pose proof (R 32 ltac:(lia) : rd m' p md.data_start = rd m p md.data_start) as R32.
  pose proof (R 20 ltac:(lia) : rd m' p md.entries_start = rd m p md.entries_start) as R20.
  split; [| split; [| exact R]].
  - unfold slots. rewrite R12. apply map_ext_in. intros i Hi. apply list_elem_of_In, elem_of_range in Hi.
    pose proof (wf_entry_count m p W). destruct (B2 i ltac:(lia)).
    unfold slot. rewrite (entry_at_same m m' p) by exact R20. apply bytes_ext. intros k Hk. apply H. lia.
  - intros x Hx. unfold area. rewrite (get_data_same m m' p) by exact R32. apply H. lia.
Qed.

Lemma wf_moved m m' p :
  wf m p -> (forall a, p <= a < p + rd m p md.size -> m' a = m a) ->
  wf m' p /\ contents m' p = contents m p /\ is_sorted m' p = is_sorted m p.
Proof.
  intros W H. destruct (slots_moved m m' p W H) as (Es & Ea & R).
  assert (Ef : is_sorted m' p = is_sorted m p) by (unfold is_sorted; rewrite (R 8 ltac:(lia) : rd m' p md.flags = _); reflexivity).
  split; [| split; [| exact Ef]].
  - apply (wf_make m m' p (slots m p) (rd m p md.data_count)); auto.
    + unfold same_layout. repeat split; apply R; lia.
    + rewrite (R 12 ltac:(lia) : rd m' p md.entry_count = _). apply wf_entry_count, W.
    + apply R. lia.
    + apply wf_data_count, W.
    + apply wf_slots, W.
    + apply wf_tiled, W.
    + rewrite Ef. apply wf_sorted, W.
  - unfold contents. rewrite Es. apply map_ext_in. intros d Hd. apply list_elem_of_In in Hd.
    apply (datum_kept _ _ (slots m p) (rd m p md.data_count)); [apply wf_slots, W | apply wf_tiled, W | | exact Hd].
    intros x Hx. apply Ea. pose proof (wf_data_count m p W). lia.
Qed.

Lemma clone_ok buffer src m :
  wf m src -> 0 < buffer -> buffer + compact_size m src <= src \/ src + rd m src md.size <= buffer ->
  exists m', clone_icamera_metadata buffer src m = (buffer, m') /\ wf m' buffer
    /\ contents m' buffer = contents m src /\ is_sorted m' buffer = is_sorted m src
    /\ same_outside buffer (buffer + compact_size m src) m m'
    /\ rd m' buffer md.size = compact_size m src.
Proof.
  intros W Hb Hapart. pose proof (compact_size_bound m src W) as CS.
  pose proof (rd_U32_range m src 12 : 0 <= rd m src md.entry_count < _).
  pose proof (rd_U32_range m src 24 : 0 <= rd m src md.data_count < _).
  unfold clone_icamera_metadata. rewrite not_null by apply W.
  unfold allocate_icamera_metadata, get_icamera_metadata_entry_count, get_icamera_metadata_data_count.
  rewrite calculate_size_eq by lia. fold (compact_size m src).
  destruct (place_ok buffer (compact_size m src) (rd m src md.entry_count) (rd m src md.data_count) m)
    as (m1 & E1 & W1 & C1 & F1 & N1 & U1 & Ec & Dc & _ & _ & Sz & S1); try (fold (compact_size m src); lia).
  rewrite E1, not_null by exact Hb. cbn [negb]. fold (compact_size m src) in Sz.
  assert (Hkeep : forall a, src <= a < src + rd m src md.size -> m1 a = m a).
  { intros a Ha. apply S1. pose proof (b_data _ _ (wf_bounds m src W)). pose proof (b_end _ _ (wf_bounds m src W)).
    pose proof (b_room _ _ (wf_bounds m src W)). lia. }
  destruct (wf_moved m m1 src W Hkeep) as (Ws & Cs & Fs).
  destruct (slots_moved m m1 src W Hkeep) as (_ & _ & Rs).
  destruct (append_ok m1 buffer src W1 Ws) as (m2 & E2 & W2 & C2 & S2 & F2 & L2 & _).
  - rewrite Sz, (Rs 0 ltac:(lia) : rd m1 src md.size = rd m src md.size). lia.
  - rewrite N1, Ec, (Rs 12 ltac:(lia) : rd m1 src md.entry_count = rd m src md.entry_count). lia.
  - rewrite U1, Dc, (Rs 24 ltac:(lia) : rd m1 src md.data_count = rd m src md.data_count). lia.
  - rewrite F1. discriminate.
  - rewrite E2. cbn [negb Z.eqb]. exists m2. split; [reflexivity |]. split; [exact W2 |].
    rewrite C2, C1, Cs, F2, N1, F1, Fs, Z.eqb_refl. rewrite Sz in S2.
    split; [reflexivity |]. split; [reflexivity |]. split.
    + intros a Ha. rewrite (S2 a), (S1 a) by lia. reflexivity.
    + rewrite <- Sz. apply L2.
Qed.

(** A packet made from the entries and values of another. *)
Lemma wf_copied m m' src dst :
  wf m src -> 0 < dst ->
  rd m' dst md.entry_count = rd m src md.entry_count ->
  rd m' dst md.data_count = rd m src md.data_count ->
  rd m' dst md.entry_capacity = rd m src md.entry_count ->
  rd m' dst md.data_capacity = rd m src md.data_count ->
  rd m' dst md.entries_start = 36 -> rd m' dst md.data_start = data_start_for (rd m src md.entry_count) ->
  rd m' dst md.size = compact_size m src -> is_sorted m' dst = is_sorted m src ->
  slots m' dst = slots m src ->
  (forall x, 0 <= x < rd m src md.data_count -> area m' dst x = area m src x) ->
  wf m' dst /\ contents m' dst = contents m src.
Proof.
  intros W Hd E1 E2 E3 E4 E5 E6 E7 E8 Es Ea.
  pose proof (rd_U32_range m src 12 : 0 <= rd m src md.entry_count < _) as N.
  split.
  - split; rewrite ?E1, ?E2, ?E3, ?E4, ?E5, ?E6, ?E7, ?E8, ?Es; unfold compact_size; try lia.
    + split; [lia | reflexivity].
    + unfold data_start_for. split; divlia.
    + apply wf_slots, W.
    + apply wf_tiled, W.
    + apply wf_sorted, W.
  - unfold contents. rewrite Es. apply map_ext_in. intros d Hin. apply list_elem_of_In in Hin.
    apply (datum_kept _ _ (slots m src) (rd m src md.data_count)); [apply wf_slots, W | apply wf_tiled, W | exact Ea | exact Hin].
Qed.

Lemma copy_ok dst dst_size src m :
  wf m src -> 0 < dst -> dst + compact_size m src <= src \/ src + rd m src md.size <= dst ->
  compact_size m src <= dst_size ->
  exists m', copy_icamera_metadata dst dst_size src m = (dst, m') /\ wf m' dst
    /\ contents m' dst = contents m src /\ is_sorted m' dst = is_sorted m src
    /\ same_outside dst (dst + compact_size m src) m m' /\ rd m' dst md.size = compact_size m src.
Proof.
  intros W Hd Hapart Hfit. pose proof (compact_size_bound m src W) as CS.
  destruct (wf_bounds m src W) as [B1 B2 B3 B4 B5 B6 B7 B8 B9].
  pose proof (wf_entry_count m src W). pose proof (wf_data_count m src W). pose proof (wf_data m src W) as [D1 _].
  unfold copy_icamera_metadata. rewrite compact_size_eq, (not_null src), (not_null dst) by (apply W || assumption).
  destruct (Z.ltb_spec dst_size (compact_size m src)); [lia |].
  destruct (place_ok dst dst_size (rd m src md.entry_count) (rd m src md.data_count) m)
    as (m1 & E1 & W1 & _ & _ & N1 & U1 & Ec & Dc & Es & Ds & Sz & S1); try (fold (compact_size m src); lia).
  rewrite E1, not_null by exact Hd. cbv zeta. fold (compact_size m src) in Sz.
  assert (Hin : forall k, 0 <= k < 36 -> src + k < src + rd m src md.size) by lia.
  assert (Q : forall m2 o, same_outside dst (dst + compact_size m src) m m2 -> 0 <= o <= 32 ->
             rd m2 src (U32 o) = rd m src (U32 o)).
  { intros m2 o S Ho. apply (rd_same_outside _ _ _ _ src (U32 o) S). cbn [f_off f_len U32]. lia. }
  assert (S1' : same_outside dst (dst + compact_size m src) m m1) by (eapply same_outside_weaken; [| | exact S1]; lia).
  set (m2 := wr m1 dst md.flags _). assert (S2 : same_outside dst (dst + compact_size m src) m m2).
  { unfold m2. eapply same_outside_trans; [exact S1' |]. apply wr_same_outside; mem_out. }
  rewrite (Q m2 12 S2 ltac:(lia) : rd m2 src md.entry_count = rd m src md.entry_count).
  set (m3 := wr m2 dst md.entry_count _). assert (S3 : same_outside dst (dst + compact_size m src) m m3).
  { unfold m3. eapply same_outside_trans; [exact S2 |]. apply wr_same_outside; mem_out. }
  rewrite (Q m3 24 S3 ltac:(lia) : rd m3 src md.data_count = rd m src md.data_count).
  set (m4 := wr m3 dst md.data_count _). assert (S4 : same_outside dst (dst + compact_size m src) m m4).
  { unfold m4. eapply same_outside_trans; [exact S3 |]. apply wr_same_outside; mem_out. }
  assert (R4 : rd m4 dst md.entry_count = rd m src md.entry_count /\ rd m4 dst md.data_count = rd m src md.data_count
    /\ rd m4 dst md.flags = rd m src md.flags).
  { unfold m4, m3, m2. rewrite (Q m1 8 S1' ltac:(lia) : rd m1 src md.flags = rd m src md.flags).
    mem_read. rewrite !f_conv_U32 by apply rd_U32_range. auto. }
  destruct R4 as (N4 & U4 & F4).
  assert (R5 : rd m4 dst md.entry_capacity = rd m src md.entry_count
    /\ rd m4 dst md.data_capacity = rd m src md.data_count /\ rd m4 dst md.entries_start = 36
    /\ rd m4 dst md.data_start = data_start_for (rd m src md.entry_count)
    /\ rd m4 dst md.size = compact_size m src).
  { unfold m4, m3, m2. rewrite !rd_wr_field by reflexivity. auto. }
  destruct R5 as (Ec4 & Dc4 & Es4 & Ds4 & Sz4). clearbody m4. unfold MEMCPY_S. rewrite N4, !Z.min_id.
  assert (get_entries m4 dst = dst + 36) as -> by (unfold get_entries; rewrite Es4; reflexivity).
  assert (get_entries m4 src = get_entries m src) as ->
    by (unfold get_entries; rewrite (Q m4 20 S4 ltac:(lia) : rd m4 src md.entries_start = rd m src md.entries_start); reflexivity).
  set (n := rd m src md.entry_count) in *. set (m5 := memmove (dst + 36) _ _ m4).
  assert (Hds : 36 + 16 * n <= data_start_for n) by (unfold data_start_for; divlia).
  assert (Hcs : compact_size m src = data_start_for n + rd m src md.data_count) by reflexivity.
  assert (S5 : same_outside (dst + 36) (dst + data_start_for n) m4 m5)
    by (apply memmove_same_outside; unfold sizeof_buffer_entry; lia).
  assert (H5 : forall o, 0 <= o <= 32 -> rd m5 dst (U32 o) = rd m4 dst (U32 o))
    by (intros o Ho; apply (header_same _ _ _ _ _ _ S5); lia).
  rewrite (H5 24 ltac:(lia) : rd m5 dst md.data_count = rd m4 dst md.data_count), U4.
  assert (get_data m5 dst = dst + data_start_for n) as ->
    by (unfold get_data; rewrite (H5 32 ltac:(lia) : rd m5 dst md.data_start = rd m4 dst md.data_start), Ds4; reflexivity).
  assert (S5' : same_outside dst (dst + compact_size m src) m m5).
  { eapply same_outside_trans; [exact S4 |]. eapply same_outside_weaken; [| | exact S5]; lia. }
  assert (get_data m5 src = get_data m src) as ->
    by (apply get_data_same, (Q m5 32 S5'); lia).
  set (m6 := memmove (dst + data_start_for n) _ _ m5).
  assert (S6 : same_outside (dst + data_start_for n) (dst + compact_size m src) m5 m6)
    by (apply memmove_same_outside; lia).
  assert (H6 : forall o, 0 <= o <= 32 -> rd m6 dst (U32 o) = rd m4 dst (U32 o))
    by (intros o Ho; rewrite <- H5 by exact Ho; apply (header_same _ _ _ _ _ _ S6); lia).
  destruct (wf_copied m m6 src dst) as [W6 C6]; try assumption.
  - exact (eq_trans (H6 12 ltac:(lia)) N4).
  - exact (eq_trans (H6 24 ltac:(lia)) U4).
  - exact (eq_trans (H6 16 ltac:(lia)) Ec4).
  - exact (eq_trans (H6 28 ltac:(lia)) Dc4).
  - exact (eq_trans (H6 20 ltac:(lia)) Es4).
  - exact (eq_trans (H6 32 ltac:(lia)) Ds4).
  - exact (eq_trans (H6 0 ltac:(lia)) Sz4).
  - unfold is_sorted. rewrite (H6 8 ltac:(lia) : rd m6 dst md.flags = rd m4 dst md.flags), F4. reflexivity.
  - unfold slots. rewrite (H6 12 ltac:(lia) : rd m6 dst md.entry_count = rd m4 dst md.entry_count), N4.
    apply map_ext_in. intros i Hi. apply list_elem_of_In, elem_of_range in Hi. fold n in Hi.
    unfold slot, entry_at, get_entries, sizeof_buffer_entry.
    rewrite (H6 20 ltac:(lia) : rd m6 dst md.entries_start = rd m4 dst md.entries_start), Es4.
    apply bytes_ext. intros k Hk. rewrite (S6 _) by lia. unfold m5. rewrite memmove_in by (unfold sizeof_buffer_entry; lia).
    unfold get_entries, get_data in *. rewrite S4 by lia. f_equal. lia.
  - intros x Hx. unfold area.
    assert (get_data m6 dst = dst + data_start_for n) as ->
      by (unfold get_data; rewrite (H6 32 ltac:(lia) : rd m6 dst md.data_start = rd m4 dst md.data_start), Ds4; reflexivity).
    unfold m6. rewrite memmove_in by lia. rewrite S5' by lia. f_equal. lia.
  - exists m6. split; [reflexivity |]. split; [exact W6 |]. split; [exact C6 |]. split; [| split].
    + unfold is_sorted. rewrite (H6 8 ltac:(lia) : rd m6 dst md.flags = rd m4 dst md.flags), F4. reflexivity.
    + eapply same_outside_trans; [exact S5' |]. eapply same_outside_weaken; [| | exact S6]; lia.
    + exact (eq_trans (H6 0 ltac:(lia)) Sz4).
Qed.
