(* ===== verification/MetadataEdit.v ===== *)
(** * Metadata packets: deleting and updating

    [delete_icamera_metadata_entry] and [update_icamera_metadata_entry] close
    the gap that the old values leave and keep every other datum. *)

From Stdlib Require Import Sorted.
From S2P Require Import Prelude Memory Errors MetadataTables MetadataTags MetadataBuffer MetadataPacket MetadataMemory.
From stdpp Require Import list.
#[local] Open Scope Z_scope.
#[local] Open Scope css_scope.

Section Edit.
Context (m : mem) (p i : Z).

#[local] Abbreviation n := (rd m p md.entry_count).
#[local] Abbreviation used := (rd m p md.data_count).
#[local] Abbreviation e := (entry_at m p i).
#[local] Abbreviation c := (slot m p i).
#[local] Abbreviation before := (map (slot m p) (range 0 i)).
#[local] Abbreviation after := (map (slot m p) (range (i + 1) n)).

Hypothesis (W : wf m p) (Hi : 0 <= i < n).

Lemma split_ok :
  slots m p = before ++ c :: after /\ slot_ok c /\ Forall slot_ok (c :: before ++ after)
  /\ tiled (c :: before ++ after) used /\ used < 2 ^ 32.
Proof.
  pose proof (slots_split m p i Hi) as E. pose proof (wf_slots m p W) as F. pose proof (wf_tiled m p W) as T.
  rewrite E in F, T. assert (P : Permutation (before ++ c :: after) (c :: before ++ after))
    by (symmetry; apply Permutation_middle).
  split; [exact E |]. split; [apply slot_of; assumption |]. split; [| split].
  - rewrite <- P. exact F.
  - eapply tiled_permutation; [exact P | exact T].
  - apply (rd_U32_range m p 24).
Qed.

Lemma edit_bounds :
  p + 36 <= get_entries m p /\ get_entries m p <= e /\ e + 16 <= get_entries m p + n * 16
  /\ get_entries m p + n * 16 <= get_data m p
  /\ 0 <= used <= rd m p md.data_capacity
  /\ get_data m p + rd m p md.data_capacity <= p + rd m p md.size
  /\ (in_area c -> 0 <= c_offset c /\ c_offset c + c_room c <= used) /\ 0 <= c_room c.
Proof.
  destruct split_ok as (_ & Hc & F & T & _). pose proof (wf_bounds m p W) as [B1 B2 B3 B4 B5 B6 B7 B8 B9].
  pose proof (wf_entry_count m p W). pose proof (wf_data_count m p W). pose proof (wf_data m p W) as [D1 _].
  pose proof (c_room_nonneg c Hc).
  assert (R : in_area c -> 0 <= c_offset c /\ c_offset c + c_room c <= used).
  { intros A. destruct (tiled_range _ _ c F T) as (R1 & R2 & _); [left | exact A | auto]. }
  unfold entry_at, get_entries, get_data, sizeof_buffer_entry in *. repeat split; try lia; apply R; assumption.
Qed.

Lemma room_used : c_room c <= used.
Proof.
  destruct edit_bounds as (_ & _ & _ & _ & B5 & _ & B7 & _).
  destruct (decide (in_area c)) as [A | A]; [specialize (B7 A) | unfold in_area in A]; lia.
Qed.

Lemma entry_room :
  calculate_icamera_metadata_entry_data_size (rd m e mbe.type) (rd m e mbe.count) = c_room c.
Proof.
  destruct split_ok as (_ & Hc & _). unfold slot at 1. rewrite <- c_type_slot, <- c_count_slot.
  apply c_room_size, Hc.
Qed.

(** ** Taking values out *)

Lemma remove_data_ok :
  in_area c ->
  let m1 := remove_data p e (c_room c) m in
  same_outside (get_data m p) (get_data m p + (used - c_room c)) m m1
  /\ forall x, 0 <= x < used - c_room c ->
       m1 (get_data m p + x) = closed_area (area m p) (c_offset c) (c_room c) x.
Proof.
  intros A m1. destruct edit_bounds as (B1 & B2 & B3 & B4 & B5 & B6 & B7 & B8). specialize (B7 A).
  destruct split_ok as (_ & _ & _ & _ & Hu). unfold m1, remove_data. rewrite <- c_offset_slot. fold c.
  rewrite u32_small, u64_small by lia. split.
  - apply memmove_same_outside; lia.
  - intros x Hx. unfold closed_area, area. destruct (Z.ltb_spec x (c_offset c)).
    + rewrite memmove_out by lia. reflexivity.
    + rewrite memmove_in by lia. f_equal. lia.
Qed.

(** The offsets, over any memory with the same entries. *)
Lemma close_gap_ok s :
  in_area c ->
  rd s p md.entry_count = n -> rd s p md.entries_start = rd m p md.entries_start ->
  (forall a, get_entries m p <= a < get_entries m p + n * 16 -> s a = m a) ->
  let s' := close_gap p e (c_room c) s in
  same_outside (get_entries m p) (get_entries m p + n * 16) s s'
  /\ forall j, 0 <= j < n -> bytes s' (entry_at m p j) 16 = shift_down (c_offset c) (c_room c) (slot m p j).
Proof.
  intros A En Es Hs s'. unfold s', close_gap. rewrite En.
  assert (get_entries s p = get_entries m p) as -> by (unfold get_entries; rewrite Es; reflexivity).
  assert (Hb : forall j, 0 <= j < n -> bytes s (get_entries m p + j * 16) 16 = slot m p j).
  { intros j Hj. apply bytes_ext. intros k Hk. unfold entry_at, sizeof_buffer_entry. apply Hs. lia. }
  destruct (relocate_ok (get_entries m p) n
              (fun t x => rd t e mbe.offset <? rd t x mbe.offset)
              (fun t x => rd t x mbe.offset - c_room c) s
              (fun j => c_offset c <? c_offset (slot m p j)) (fun j => c_offset (slot m p j) - c_room c)) as [S R].
  - lia.
  - intros j Hj. rewrite Hb by exact Hj. apply slot_of; assumption.
  - intros j t Hj [S R]. assert (Ho : forall k, 0 <= k < n -> k = i \/ k = j ->
      rd t (get_entries m p + k * 16) mbe.offset = c_offset (slot m p k)).
    { intros k Hk Hkk. rewrite <- c_offset_slot, R by exact Hk. cbv zeta. rewrite Hb by exact Hk.
      destruct Hkk as [-> | ->]; [| rewrite Z.ltb_irrefl; reflexivity].
      fold c. rewrite (Z.ltb_irrefl (c_offset c)), andb_false_r. reflexivity. }
    change e with (get_entries m p + i * 16). rewrite !Ho by auto. auto.
  - split; [exact S |]. intros j Hj. change (entry_at m p j) with (get_entries m p + j * 16).
    rewrite R by exact Hj. cbv zeta. rewrite Hb by exact Hj.
    destruct (Z.ltb_spec j n); [| lia]. cbn [andb]. unfold shift_down.
    destruct (decide _) as [[Aj L] | Nd].
    + rewrite bool_decide_true by exact Aj. destruct (Z.ltb_spec (c_offset c) (c_offset (slot m p j))); [reflexivity | lia].
    + destruct (bool_decide _) eqn:Eb; [| reflexivity]. apply bool_decide_eq_true in Eb.
      destruct (Z.ltb_spec (c_offset c) (c_offset (slot m p j))); [destruct Nd; auto | reflexivity].
Qed.

(** What is left of the packet when the values are out. *)
Record values_gone (s : mem) : Prop := {
  vg_layout : same_layout m s p;
  vg_count : rd s p md.entry_count = n;
  vg_flags : rd s p md.flags = rd m p md.flags;
  vg_used : rd s p md.data_count = used - c_room c;
  vg_slots : forall j, 0 <= j < n -> bytes s (entry_at m p j) 16 = gone c (slot m p j);
  vg_area : forall x, 0 <= x < used - c_room c -> area s p x = gone_area c (area m p) x;
  vg_outside : same_outside p (p + rd m p md.size) m s;
}.

Lemma values_gone_refl : c_room c = 0 -> values_gone m.
Proof.
  intros R. assert (A : ~ in_area c) by (unfold in_area; lia).
  split; try reflexivity; unfold gone, gone_area.
  - unfold same_layout. auto.
  - lia.
  - intros j Hj. destruct (decide _); [contradiction | reflexivity].
  - intros x Hx. destruct (decide _); [contradiction | reflexivity].
  - apply same_outside_refl.
Qed.

(** The count may be stored before or behind the offsets. *)
Lemma values_gone_make t f :
  in_area c ->
  same_outside (p + 24) (p + 28) (remove_data p e (c_room c) m) t ->
  same_outside (p + 24) (p + 28) (close_gap p e (c_room c) t) f ->
  rd f p md.data_count = used - c_room c -> values_gone f.
Proof.
  intros A St Sf Hu. destruct edit_bounds as (B1 & B2 & B3 & B4 & B5 & B6 & B7 & B8). specialize (B7 A).
  destruct (remove_data_ok A) as [S1 A1]. set (m1 := remove_data p e (c_room c) m) in *.
  assert (Ht : forall o, 0 <= o <= 32 -> o <= 20 \/ 28 <= o -> rd t p (U32 o) = rd m p (U32 o)).
  { intros o Ho Hd. rewrite (rd_same_outside _ _ m1 t p _ St) by (cbn [f_off f_len U32]; lia).
    apply (header_same _ _ _ _ _ _ S1); lia. }
  destruct (close_gap_ok t A) as [S2 R2].
  - apply (Ht 12); lia.
  - apply (Ht 20); lia.
  - intros a Ha. rewrite (St a) by lia. apply S1. lia.
  - set (s := close_gap p e (c_room c) t) in *.
    assert (Hf : forall o, 0 <= o <= 32 -> o <= 20 \/ 28 <= o -> rd f p (U32 o) = rd m p (U32 o)).
    { intros o Ho Hd. rewrite (rd_same_outside _ _ s f p _ Sf) by (cbn [f_off f_len U32]; lia).
      rewrite (rd_same_outside _ _ t s p _ S2) by (cbn [f_off f_len U32]; lia). apply Ht; assumption. }
    split.
    + unfold same_layout. repeat split; apply Hf; lia.
    + apply (Hf 12); lia.
    + apply (Hf 8); lia.
    + exact Hu.
    + intros j Hj. rewrite (bytes_same_outside _ _ _ _ _ _ Sf) by (unfold entry_at, sizeof_buffer_entry; lia).
      rewrite R2 by exact Hj. unfold gone. destruct (decide _); [reflexivity | contradiction].
    + intros x Hx. unfold area at 1. rewrite (get_data_same m f) by (apply (Hf 32); lia).
      unfold gone_area. destruct (decide _); [| contradiction]. rewrite <- A1 by exact Hx.
      rewrite (Sf _), (S2 _), (St _) by lia. reflexivity.
    + intros a Ha. rewrite (Sf a), (S2 a), (St a), (S1 a) by lia. reflexivity.
Qed.

(** ** Deleting *)

Lemma delete_run :
  exists m2, values_gone m2
    /\ delete_icamera_metadata_entry p i m
       = (OK, wr (memmove e (e + 16) (16 * (n - i - 1)) m2) p md.entry_count (n - 1)).
Proof.
  destruct edit_bounds as (B1 & B2 & B3 & B4 & B5 & B6 & B7 & B8).
  unfold delete_icamera_metadata_entry. rewrite not_null by apply W.
  destruct (Z.leb_spec n i); [lia |]. rewrite entry_room. cbv zeta.
  set (m2 := if 0 <? c_room c then _ else m).
  assert (V : values_gone m2).
  { unfold m2. destruct (Z.ltb_spec 0 (c_room c)) as [A | A]; [| apply values_gone_refl; lia].
    specialize (B7 A). destruct (remove_data_ok A) as [S1 _].
    apply (values_gone_make (remove_data p e (c_room c) m)); [exact A | apply same_outside_refl | frame_chain |].
    mem_read. destruct (close_gap_ok (remove_data p e (c_room c) m) A) as [S2 _].
    - apply (header_same _ _ _ _ _ 12 S1); lia.
    - apply (header_same _ _ _ _ _ 20 S1); lia.
    - intros a Ha. apply S1. lia.
    - rewrite (header_same _ _ _ _ _ 24 S2), (header_same _ _ _ _ _ 24 S1) by lia.
      apply f_conv_U32. destruct split_ok as (_ & _ & _ & _ & Hu). autounfold with layout in *. lia. }
  clearbody m2. exists m2. split; [exact V |]. rewrite (vg_count m2 V).
  change sizeof_buffer_entry with 16.
  assert (S3 : same_outside (p + 36) (get_entries m p + n * 16) m2 (memmove e (e + 16) (16 * (n - i - 1)) m2)).
  { clear V. apply memmove_same_outside; unfold entry_at, sizeof_buffer_entry in *; lia. }
  set (m3 := memmove e (e + 16) _ m2) in *.
  assert (rd m3 p md.entry_count = rd m2 p md.entry_count) as -> by (apply (header_same _ _ _ _ _ 12 S3); lia).
  rewrite (vg_count m2 V). reflexivity.
Qed.

Lemma StronglySorted_remove {A} (R : A -> A -> Prop) (l1 l2 : list A) x :
  StronglySorted R (l1 ++ x :: l2) -> StronglySorted R (l1 ++ l2).
Proof.
  induction l1 as [| y l1 IH]; cbn [app]; intros S; inversion S as [| ? ? S' F]; subst; [exact S' |].
  constructor; [apply IH, S' |]. rewrite Forall_app, Forall_cons in F. rewrite Forall_app. tauto.
Qed.

Lemma delete_ok :
  exists m', delete_icamera_metadata_entry p i m = (OK, m') /\ wf m' p
    /\ contents m' p = delete (Z.to_nat i) (contents m p)
    /\ same_outside p (p + rd m p md.size) m m' /\ is_sorted m' p = is_sorted m p
    /\ same_layout m m' p /\ rd m' p md.data_count = used - c_room c.
Proof.
  destruct delete_run as (m2 & V & E). rewrite E. set (m' := wr _ p md.entry_count _).
  destruct edit_bounds as (B1 & B2 & B3 & B4 & B5 & B6 & B7 & B8).
  destruct split_ok as (Es & Hc & F & T & Hu). destruct V as [L2 N2 F2 U2 R2 A2 S2].
  set (m3 := memmove e (e + 16) _ m2) in *.
  assert (S3 : same_outside e (get_entries m p + n * 16) m2 m3).
  { apply memmove_same_outside; unfold entry_at, sizeof_buffer_entry in *; lia. }
  assert (S' : same_outside (p + 12) (p + 16) m3 m') by (unfold m'; frame_chain).
  assert (H' : forall o, 0 <= o <= 32 -> o <= 8 \/ 16 <= o -> rd m' p (U32 o) = rd m2 p (U32 o)).
  { intros o Ho Hd. rewrite (rd_same_outside _ _ m3 m' p _ S') by (cbn [f_off f_len U32]; lia).
    apply (rd_same_outside _ _ m2 m3 p _ S3). cbn [f_off f_len U32]. lia. }
  assert (N' : rd m' p md.entry_count = n - 1).
  { unfold m'. rewrite rd_wr_same. apply f_conv_U32. pose proof (rd_U32_range m p 12 : 0 <= n < _). lia. }
  assert (L' : same_layout m m' p).
  { destruct L2 as (L1 & L2 & L3 & L4 & L5). unfold same_layout.
    repeat split; (etransitivity; [apply H'; lia | assumption]). }
  assert (Hs : forall j, 0 <= j < n - 1 -> slot m' p j = gone c (slot m p (if j <? i then j else j + 1))).
  { intros j Hj. unfold slot at 1. rewrite (entry_at_same m m' p) by apply L'.
    rewrite (bytes_same_outside _ _ _ _ _ _ S') by (unfold entry_at, sizeof_buffer_entry in *; lia).
    destruct (Z.ltb_spec j i).
    - rewrite <- R2 by lia. apply bytes_ext. intros k Hk. unfold m3. apply memmove_out.
      unfold entry_at, sizeof_buffer_entry in *. lia.
    - rewrite <- R2 by lia. apply bytes_ext. intros k Hk. unfold m3.
      rewrite memmove_in by (unfold entry_at, sizeof_buffer_entry in *; lia).
      f_equal. unfold entry_at, sizeof_buffer_entry. lia. }
  assert (Es' : slots m' p = map (gone c) (before ++ after)).
  { unfold slots. rewrite N'. rewrite map_app, !map_map. unfold range at 1.
    replace (n - 1 - 0) with (i + (n - 1 - i)) by lia. rewrite seqZ_app by lia. rewrite map_app. f_equal.
    - unfold range. replace (i - 0) with i by lia. apply map_ext_in. intros j Hj.
      apply list_elem_of_In, elem_of_seqZ in Hj. rewrite Hs by lia. destruct (Z.ltb_spec j i); [reflexivity | lia].
    - unfold range. replace (n - (i + 1)) with (n - 1 - i) by lia. rewrite Z.add_0_l.
      replace (i + 1) with (1 + i) by lia. rewrite <- (fmap_add_seqZ 1 i). change (map ?f ?l) with (f <$> l).
      rewrite <- list_fmap_compose. apply list_fmap_ext. intros k j Hj. apply lookup_seqZ in Hj as [-> Hk].
      cbn. rewrite Hs by lia. destruct (Z.ltb_spec (i + Z.of_nat k) i); [lia |]. do 2 f_equal. lia. }
  assert (Ea : forall x, 0 <= x < used - c_room c -> area m' p x = gone_area c (area m p) x).
  { intros x Hx. rewrite <- A2 by exact Hx. unfold area. rewrite (get_data_same m m' p), (get_data_same m m2 p) by (apply L' || apply L2).
    rewrite (S' _), (S3 _) by lia. reflexivity. }
  assert (Fl : is_sorted m' p = is_sorted m p).
  { unfold is_sorted. rewrite (H' 8 ltac:(lia) ltac:(lia) : rd m' p md.flags = rd m2 p md.flags), F2. reflexivity. }
  assert (U' : rd m' p md.data_count = used - c_room c) by (rewrite <- U2; apply (H' 24); lia).
  destruct (gone_ok _ _ _ F T Hu) as (G1 & G2 & G3).
  exists m'. split; [reflexivity |]. split; [| split; [| split; [| auto]]].
  - apply (wf_make m m' p (map (gone c) (before ++ after)) (used - c_room c)); auto.
    + rewrite N'. pose proof (wf_entry_count m p W). lia.
    + lia.
    + rewrite Fl. intros Sd. apply (StronglySorted_tags _ (before ++ after)).
      * rewrite map_map. apply map_ext. apply gone_tag.
      * apply (StronglySorted_remove _ _ _ c). rewrite <- Es. apply wf_sorted; assumption.
  - unfold contents at 1. rewrite Es', (G3 _ _ Ea). unfold contents. rewrite Es, !map_app. cbn [map].
    replace (Z.to_nat i) with (length (map (datum_of (area m p)) before))
      by (rewrite !length_map; unfold range; rewrite length_seqZ; lia).
    rewrite delete_middle. reflexivity.
  - intros a Ha. rewrite (S' a), (S3 a), (S2 a) by lia. reflexivity.
Qed.

(** ** Updating *)

Lemma insert_middle {A} (l1 l2 : list A) x y : <[length l1 := x]> (l1 ++ y :: l2) = l1 ++ x :: l2.
Proof. rewrite insert_app_r_alt by lia. rewrite Nat.sub_diag. reflexivity. Qed.

Lemma before_length : length (range 0 i) = Z.to_nat i.
Proof. unfold range. rewrite length_seqZ. f_equal. lia. Qed.

(** A packet with the slot [c'] in the place of [c], and the other slots as
    [g] makes them. *)
Lemma edited_ok (g : chunk -> chunk) f c' u' :
  (forall d, c_tag (g d) = c_tag d) ->
  same_layout m f p -> rd f p md.entry_count = n -> is_sorted f p = is_sorted m p ->
  rd f p md.data_count = u' -> u' <= rd m p md.data_capacity ->
  (forall j, 0 <= j < n -> j <> i -> slot f p j = g (slot m p j)) ->
  slot f p i = c' -> slot_ok c' -> c_tag c' = c_tag c ->
  Forall slot_ok (map g (before ++ after)) -> tiled (c' :: map g (before ++ after)) u' ->
  map (datum_of (area f p)) (map g (before ++ after)) = map (datum_of (area m p)) (before ++ after) ->
  wf f p /\ contents f p = <[Z.to_nat i := datum_of (area f p) c']> (contents m p).
Proof.
  intros Gt L N Fl U Hu Hj Hc' Hok Ht Frest T D. destruct split_ok as (Es & Hc & _ & _ & _).
  assert (Es' : slots f p = map g before ++ c' :: map g after).
  { rewrite (slots_split f p i) by (rewrite N; exact Hi). rewrite N, Hc', !map_map. f_equal; [| f_equal];
      apply map_ext_in; intros j Hj'; apply list_elem_of_In, elem_of_range in Hj'; apply Hj; lia. }
  assert (P : Permutation (c' :: map g (before ++ after)) (map g before ++ c' :: map g after)).
  { rewrite map_app. apply Permutation_middle. }
  split.
  - apply (wf_make m f p (map g before ++ c' :: map g after) u'); auto.
    + rewrite N. apply wf_entry_count, W.
    + rewrite <- P. constructor; assumption.
    + eapply tiled_permutation; [exact P | exact T].
    + rewrite Fl. intros Sd. apply (StronglySorted_tags _ (slots m p)); [| apply wf_sorted; assumption].
      rewrite Es, !map_app. cbn [map]. rewrite !map_map, Ht. setoid_rewrite Gt. reflexivity.
  - unfold contents. rewrite Es', Es, !map_app. cbn [map].
    rewrite !map_app in D. apply app_inj_1 in D as [D1 D2]; [| rewrite !length_map; reflexivity].
    rewrite D1, D2. replace (Z.to_nat i) with (length (map (datum_of (area m p)) before)) by (rewrite !length_map; apply before_length).
    rewrite insert_middle. reflexivity.
Qed.

Context (data count : Z) (ue : option icamera_metadata_entry_t).

#[local] Abbreviation size := (count * type_size (c_type c)).

Hypothesis (Hcount : 0 <= count) (Hsize : size < 2 ^ 62)
  (Hapart : data + size <= p \/ p + rd m p md.size <= data).

Definition update_fits : bool :=
  (room_for size =? c_room c) || (used + room_for size - c_room c <=? rd m p md.data_capacity).

Lemma update_room :
  calculate_icamera_metadata_entry_data_size (rd m e mbe.type) count = room_for size
  /\ u64 size = size /\ 0 <= size /\ room_for size mod 8 = 0 /\ (size <= 4 -> room_for size = 0)
  /\ (4 < size -> size <= room_for size < size + 8) /\ is_type (c_type c).
Proof.
  destruct split_ok as (_ & [_ Ht] & _). pose proof (type_size_range _ Ht).
  assert (0 <= size) by nia. destruct (room_for_spec size) as (R1 & R2 & R3); [assumption |].
  assert (Et : rd m e mbe.type = c_type c) by (symmetry; apply c_type_slot).
  rewrite Et, data_size_room by assumption. rewrite u64_small by lia. repeat split; auto; apply R3 || apply Ht; assumption.
Qed.

(** The checks. *)
Lemma update_run :
  update_icamera_metadata_entry p i data count ue m
  = if update_fits then
      let f := wr (write_values p e data (room_for size) size (c_room c) m) e mbe.count count in
      ((OK, match ue with
            | Some _ => snd (get_icamera_metadata_entry f p i ue)
            | None => None
            end), f)
    else ((UNKNOWN_ERROR, ue), m).
Proof.
  destruct update_room as (Er & Es & S0 & _ & R1 & R2 & Ht).
  destruct edit_bounds as (B1 & B2 & B3 & B4 & B5 & B6 & B7 & B8).
  destruct split_ok as (_ & _ & _ & _ & Hu). unfold is_type in Ht.
  assert (Et : rd m e mbe.type = c_type c) by (symmetry; apply c_type_slot).
  unfold update_icamera_metadata_entry, update_fits. rewrite not_null by apply W.
  destruct (Z.leb_spec n i); [lia |]. cbv zeta. rewrite Er, entry_room, Et, Es.
  destruct (Z.leb_spec ICAMERA_NUM_TYPES (c_type c)); [lia |].
  destruct (Z.eqb_spec (room_for size) (c_room c)) as [Eq | Ne]; cbn [negb andb orb]; [reflexivity |].
  rewrite u64_small by (unfold in_area in B7; lia).
  destruct (Z.ltb_spec (rd m p md.data_capacity) (used + room_for size - c_room c)),
           (Z.leb_spec (used + room_for size - c_room c) (rd m p md.data_capacity)); try lia; reflexivity.
Qed.

(** The old values are taken out unless the new ones take the same room. *)
Definition without_values : mem :=
  if negb (c_room c =? 0)
  then close_gap p e (c_room c)
         (wr (remove_data p e (c_room c) m) p md.data_count
            (rd (remove_data p e (c_room c) m) p md.data_count - c_room c))
  else m.

Lemma without_values_gone : values_gone without_values.
Proof.
  destruct edit_bounds as (B1 & B2 & B3 & B4 & B5 & B6 & B7 & B8). destruct split_ok as (_ & _ & _ & _ & Hu).
  unfold without_values. destruct (Z.eqb_spec (c_room c) 0) as [R | R]; cbn [negb]; [apply values_gone_refl, R |].
  assert (A : in_area c) by (unfold in_area; lia). specialize (B7 A).
  destruct (remove_data_ok A) as [S1 _]. set (m1 := remove_data p e (c_room c) m) in *.
  assert (U1 : rd m1 p md.data_count = used) by (apply (header_same _ _ _ _ _ 24 S1); lia).
  set (t := wr m1 p md.data_count _). assert (St : same_outside (p + 24) (p + 28) m1 t) by (unfold t; frame_chain).
  apply (values_gone_make t); [exact A | exact St | apply same_outside_refl |].
  destruct (close_gap_ok t A) as [S2 _].
  - unfold t. rewrite rd_wr_field by reflexivity. apply (header_same _ _ _ _ _ 12 S1); lia.
  - unfold t. rewrite rd_wr_field by reflexivity. apply (header_same _ _ _ _ _ 20 S1); lia.
  - intros a Ha. rewrite (St a) by lia. apply S1. lia.
  - transitivity (rd t p md.data_count); [apply (header_same _ _ _ _ _ 24 S2); lia |].
    unfold t. rewrite rd_wr_same, U1. apply f_conv_U32. lia.
Qed.

(** The entry behind the last store, of the new count. *)
Lemma new_slot f :
  (forall k, 0 <= k < 8 \/ 12 <= k < 16 -> f (e + k) = image c k) -> count < 2 ^ 32 ->
  let c' := bytes (wr f e mbe.count count) e 16 in
  c_tag c' = c_tag c /\ c_type c' = c_type c /\ c_count c' = count /\ slot_ok c'
  /\ c_offset c' = rd f e mbe.offset.
Proof.
  intros K Hn c'.
  assert (E1 : c_tag c' = c_tag c).
  { unfold c'. rewrite c_tag_slot, rd_wr_field by reflexivity. apply rd_moved. cbn. intros k Hk. apply K. lia. }
  assert (E2 : c_type c' = c_type c).
  { unfold c'. rewrite c_type_slot, rd_wr_field by reflexivity. apply rd_moved. cbn. intros k Hk. apply K. lia. }
  split; [exact E1 |]. split; [exact E2 |]. split; [| split].
  - unfold c'. rewrite c_count_slot, rd_wr_same. apply f_conv_U32. lia.
  - split; [apply bytes_length; lia |]. rewrite E2. apply split_ok.
  - unfold c'. rewrite c_offset_slot, rd_wr_field by reflexivity. reflexivity.
Qed.

(** What a way to write the values must do: [g] is what happened to the other
    slots. *)
Record written (g : chunk -> chunk) (u' : Z) (f : mem) : Prop := {
  w_tag : forall d, c_tag (g d) = c_tag d;
  w_entry : forall k, 0 <= k < 8 \/ 12 <= k < 16 -> f (e + k) = image c k;
  w_layout : same_layout m f p;
  w_entries : rd f p md.entry_count = n;
  w_flags : rd f p md.flags = rd m p md.flags;
  w_used : rd f p md.data_count = u';
  w_capacity : u' <= rd m p md.data_capacity;
  w_slots : forall j, 0 <= j < n -> j <> i -> bytes f (entry_at m p j) 16 = g (slot m p j);
  w_ok : Forall slot_ok (map g (before ++ after));
  w_tiled : forall c', slot_ok c' -> c_room c' = room_for size -> c_offset c' = rd f e mbe.offset ->
    tiled (c' :: map g (before ++ after)) u';
  w_data : forall area', (forall x, 0 <= x < u' -> area' x = area f p x) ->
    map (datum_of area') (map g (before ++ after)) = map (datum_of (area m p)) (before ++ after);
  w_values : (if 4 <? size then bytes (area f p) (rd f e mbe.offset) size else bytes f (e + 8) size)
             = bytes m data size;
  w_outside : same_outside p (p + rd m p md.size) m f;
  w_count : count < 2 ^ 32;
}.

Definition updated (f : mem) : Prop :=
  wf f p
  /\ contents f p = <[Z.to_nat i := Datum (c_tag c) (c_type c) count (bytes m data size)]> (contents m p)
  /\ same_outside p (p + rd m p md.size) m f /\ is_sorted f p = is_sorted m p /\ same_layout m f p.

Lemma written_updated g u' f : written g u' f -> updated (wr f e mbe.count count).
Proof.
  intros [Gt K L0 N0 F0 U Hu Sl Ok T D V S Hn]. set (f' := wr f e mbe.count count).
  destruct edit_bounds as (B1 & B2 & B3 & B4 & B5 & B6 & B7 & B8).
  destruct (new_slot f K Hn) as (E1 & E2 & E3 & E4 & E5). fold f' in E1, E2, E3, E4, E5.
  set (c' := bytes f' e 16) in *.
  assert (S' : same_outside (e + 4) (e + 8) f f') by (unfold f'; frame_chain).
  assert (H' : forall o, 0 <= o <= 32 -> rd f' p (U32 o) = rd f p (U32 o))
    by (intros o Ho; apply (header_same _ _ _ _ _ _ S'); lia).
  assert (L : same_layout m f' p).
  { unfold same_layout. repeat split; (etransitivity; [apply H'; lia | apply L0]). }
  assert (Ea : forall x, 0 <= x -> area f' p x = area f p x).
  { intros x Hx. unfold area. rewrite (get_data_same f f' p) by (apply (H' 32); lia).
    apply S'. rewrite (get_data_same m f p) by apply L0. lia. }
  assert (Eb : c_bytes c' = size) by (unfold c_bytes; rewrite E2, E3; reflexivity).
  assert (Fl : is_sorted f' p = is_sorted m p)
    by (unfold is_sorted; rewrite (H' 8 ltac:(lia) : rd f' p md.flags = rd f p md.flags), F0; reflexivity).
  assert (Ev : datum_of (area f' p) c' = Datum (c_tag c) (c_type c) count (bytes m data size)).
  { unfold datum_of. rewrite E1, E2, E3, E5, Eb, <- V. f_equal. destruct (Z.ltb_spec 4 size).
    - apply bytes_ext. intros k Hk. apply Ea. pose proof (rd_U32_range f e 8 : 0 <= rd f e mbe.offset < _). lia.
    - apply bytes_ext. intros k Hk. unfold c'. rewrite image_bytes by lia. rewrite (S' _) by lia. f_equal. lia. }
  destruct (edited_ok g f' c' u') as [Wf C]; auto.
  - etransitivity; [apply (H' 12); lia | exact N0].
  - etransitivity; [apply (H' 24); lia | exact U].
  - intros j Hj Hji. unfold slot at 1. rewrite (entry_at_same m f' p) by apply L.
    rewrite (bytes_same_outside _ _ _ _ _ _ S') by (unfold entry_at, sizeof_buffer_entry; nia). apply Sl; assumption.
  - unfold slot, c'. rewrite (entry_at_same m f' p) by apply L. reflexivity.
  - apply T; auto. unfold c_room. rewrite Eb. reflexivity.
  - apply D. intros x Hx. apply Ea. lia.
  - split; [exact Wf |]. split; [rewrite C, Ev; reflexivity |]. split; [| auto].
    intros a Ha. rewrite (S' a), (S a) by lia. reflexivity.
Qed.
Lemma fits_bounds :
  update_fits = true -> count < 2 ^ 32 /\ 0 <= room_for size /\ used - c_room c + room_for size <= rd m p md.data_capacity.
Proof.
  intros Hf. destruct edit_bounds as (B1 & B2 & B3 & B4 & B5 & B6 & B7 & B8).
  destruct update_room as (_ & _ & S0 & _ & R1 & R2 & Ht). pose proof (type_size_range _ Ht).
  pose proof (rd_U32_range m p 28 : 0 <= rd m p md.data_capacity < _).
  pose proof room_used as Hru.
  assert (count <= size) by nia. unfold update_fits in Hf. bsimp. destruct (Z.le_gt_cases size 4); lia.
Qed.

(** The values of [data] are not in the packet. *)
Lemma data_kept s : same_outside p (p + rd m p md.size) m s -> bytes s data size = bytes m data size.
Proof. intros S. apply (bytes_same_outside _ _ _ _ _ _ S). exact Hapart. Qed.

Lemma gone_rest :
  Forall slot_ok (map (gone c) (before ++ after)) /\ tiled (map (gone c) (before ++ after)) (used - c_room c)
  /\ forall s area', values_gone s ->
       (forall x, 0 <= x < used - c_room c -> area' x = area s p x) ->
       map (datum_of area') (map (gone c) (before ++ after)) = map (datum_of (area m p)) (before ++ after).
Proof.
  destruct split_ok as (_ & _ & F & T & Hu). destruct (gone_ok _ _ _ F T Hu) as (G1 & G2 & G3).
  split; [exact G1 |]. split; [exact G2 |]. intros s area' V E. apply G3. intros x Hx.
  rewrite E by exact Hx. apply (vg_area s V x Hx).
Qed.

Lemma gone_entry s k : values_gone s -> 0 <= k < 16 -> s (e + k) = image c k.
Proof.
  intros V Hk. rewrite <- (gone_self c), <- (vg_slots s V i Hi). symmetry. apply image_bytes, Hk.
Qed.

(** ** In the entry *)

Lemma write_inline s :
  update_fits = true -> room_for size = 0 -> values_gone s ->
  written (gone c) (used - c_room c) (memmove (e + 8) data size s).
Proof.
  intros Hf R V. destruct edit_bounds as (B1 & B2 & B3 & B4 & B5 & B6 & B7 & B8).
  destruct update_room as (_ & _ & S0 & _ & _ & R2 & _). destruct (fits_bounds Hf) as (Hn & _ & Hcap).
  destruct gone_rest as (G1 & G2 & G3). set (f := memmove (e + 8) data size s).
  assert (size <= 4) as S4 by lia.
  assert (S : same_outside (e + 8) (e + 12) s f) by (apply memmove_same_outside; lia).
  assert (H : forall o, 0 <= o <= 32 -> rd f p (U32 o) = rd s p (U32 o))
    by (intros o Ho; apply (header_same _ _ _ _ _ _ S); lia).
  assert (L : same_layout m f p).
  { unfold same_layout. repeat split; (etransitivity; [apply H; lia | apply (vg_layout s V)]). }
  assert (Ea : forall x, 0 <= x -> area f p x = area s p x).
  { intros x Hx. unfold area. rewrite (get_data_same m f p), (get_data_same m s p) by (apply L || apply (vg_layout s V)).
    apply S. lia. }
  split; auto.
  - apply gone_tag.
  - intros k Hk. rewrite (S _) by lia. apply gone_entry; [exact V | lia].
  - etransitivity; [apply (H 12); lia | apply (vg_count s V)].
  - etransitivity; [apply (H 8); lia | apply (vg_flags s V)].
  - etransitivity; [apply (H 24); lia | apply (vg_used s V)].
  - lia.
  - intros j Hj Hji. rewrite (bytes_same_outside _ _ _ _ _ _ S) by (unfold entry_at, sizeof_buffer_entry; nia).
    apply (vg_slots s V j Hj).
  - intros c' _ Rc' _. apply tiled_inline; [unfold in_area; lia | exact G2].
  - intros area' E. apply (G3 s); [exact V |]. intros x Hx. rewrite E by exact Hx. apply Ea. lia.
  - destruct (Z.ltb_spec 4 size); [lia |]. rewrite <- (data_kept s) by apply (vg_outside s V).
    apply bytes_ext. intros k Hk. unfold f. rewrite memmove_in by lia. f_equal. lia.
  - eapply same_outside_trans; [apply (vg_outside s V) |]. eapply same_outside_weaken; [| | exact S]; lia.
Qed.

(** ** Behind all other values *)

Definition behind (s : mem) : mem :=
  let s1 := wr s e mbe.offset (rd s p md.data_count) in
  let s2 := MEMCPY_S (get_data s1 p + rd s1 e mbe.offset) size data size s1 in
  wr s2 p md.data_count (rd s2 p md.data_count + room_for size).

Lemma behind_memory s :
  update_fits = true -> values_gone s -> 4 < size ->
  let u := used - c_room c in
  let f := behind s in
  rd f e mbe.offset = u /\ rd f p md.data_count = u + room_for size
  /\ bytes (area f p) u size = bytes m data size
  /\ (forall a, a < p + 24 \/ p + 28 <= a < e + 8 \/ e + 12 <= a < get_data m p + u -> f a = s a)
  /\ same_outside p (p + rd m p md.size) m f.
Proof.
  intros Hf V S4 u f. destruct edit_bounds as (B1 & B2 & B3 & B4 & B5 & B6 & B7 & B8).
  destruct update_room as (_ & _ & S0 & _ & _ & R2 & _). specialize (R2 S4). destruct (fits_bounds Hf) as (Hn & R0 & Hcap).
  pose proof room_used as Hru.
  pose proof (rd_U32_range m p 28 : 0 <= rd m p md.data_capacity < _) as Cap.
  unfold f, behind. rewrite (vg_used s V). fold u. set (s1 := wr s e mbe.offset u).
  assert (S1 : same_outside (e + 8) (e + 12) s s1) by (unfold s1; frame_chain).
  assert (D1 : get_data s1 p = get_data m p).
  { apply get_data_same. etransitivity; [apply (header_same _ _ _ _ _ 32 S1); lia | apply (vg_layout s V)]. }
  assert (O1 : rd s1 e mbe.offset = u) by (unfold s1; rewrite rd_wr_same; apply f_conv_U32; lia).
  cbv zeta. rewrite O1, D1. unfold MEMCPY_S. rewrite Z.min_id. set (s2 := memmove _ data size s1).
  assert (S2 : same_outside (get_data m p + u) (get_data m p + u + size) s1 s2)
    by (apply memmove_same_outside; lia).
  assert (U2 : rd s2 p md.data_count = u).
  { rewrite (header_same _ _ _ _ _ 24 S2 : _ -> _ -> rd s2 p md.data_count = rd s1 p md.data_count) by lia.
    rewrite (header_same _ _ _ _ _ 24 S1 : _ -> _ -> rd s1 p md.data_count = rd s p md.data_count) by lia.
    apply (vg_used s V). }
  rewrite U2. set (s3 := wr s2 p md.data_count _).
  assert (S3 : same_outside (p + 24) (p + 28) s2 s3) by (unfold s3; frame_chain).
  assert (Hd : get_data s3 p = get_data m p).
  { rewrite <- D1. apply get_data_same. unfold s3. rewrite rd_wr_field by reflexivity.
    apply (header_same _ _ _ _ _ 32 S2); lia. }
  split; [| split; [| split; [| split]]].
  - rewrite <- O1. rewrite (rd_same_outside _ _ s2 s3 e _ S3), (rd_same_outside _ _ s1 s2 e _ S2) by (cbn; lia). reflexivity.
  - unfold s3. rewrite rd_wr_same. apply f_conv_U32. lia.
  - rewrite <- (data_kept s) by apply (vg_outside s V). apply bytes_ext. intros k Hk. unfold area. rewrite Hd.
    rewrite (S3 _) by lia. unfold s2. rewrite memmove_in by lia. rewrite (S1 _) by lia. f_equal. lia.
  - intros a Ha. rewrite (S3 a), (S2 a), (S1 a) by lia. reflexivity.
  - intros a Ha. rewrite (S3 a), (S2 a), (S1 a) by lia. apply (vg_outside s V). exact Ha.
Qed.

Lemma write_behind s :
  update_fits = true -> 4 < size -> values_gone s ->
  written (gone c) (used - c_room c + room_for size) (behind s).
Proof.
  intros Hf S4 V. destruct edit_bounds as (B1 & B2 & B3 & B4 & B5 & B6 & B7 & B8).
  destruct (behind_memory s Hf V S4) as (O & U & Va & K & S). destruct (fits_bounds Hf) as (Hn & R0 & Hcap).
  destruct gone_rest as (G1 & G2 & G3). pose proof room_used as Hru. set (f := behind s) in *.
  assert (H : forall o, 0 <= o <= 32 -> o <= 20 \/ 28 <= o -> rd f p (U32 o) = rd s p (U32 o)).
  { intros o Ho Hd. apply rd_moved. cbn [f_off f_len U32]. intros k Hk. apply K. lia. }
  assert (L : same_layout m f p).
  { unfold same_layout. repeat split; (etransitivity; [apply H; lia | apply (vg_layout s V)]). }
  split; auto.
  - apply gone_tag.
  - intros k Hk. rewrite K by lia. apply gone_entry; [exact V | lia].
  - etransitivity; [apply (H 12); lia | apply (vg_count s V)].
  - etransitivity; [apply (H 8); lia | apply (vg_flags s V)].
  - intros j Hj Hji. rewrite <- (vg_slots s V j Hj). apply bytes_ext. intros k Hk. apply K.
    unfold entry_at, sizeof_buffer_entry in *.
    assert (j + 1 <= i \/ i + 1 <= j) as [J | J] by lia; nia.
  - intros c' Ok Rc' Oc'. rewrite <- Rc'. apply tiled_cons; [exact Ok | exact G2 |]. intros _. rewrite Oc', O. reflexivity.
  - intros area' E. apply (G3 s); [exact V |]. intros x Hx. rewrite E by lia. unfold area.
    rewrite (get_data_same m f p), (get_data_same m s p) by (apply L || apply (vg_layout s V)). apply K. lia.
  - destruct (Z.ltb_spec 4 size); [| lia]. rewrite O. exact Va.
Qed.

(** ** In place *)

Lemma write_in_place :
  update_fits = true -> 4 < size -> room_for size = c_room c ->
  written (fun d => d) used (memmove (get_data m p + c_offset c) data size m).
Proof.
  intros Hf S4 R. destruct edit_bounds as (B1 & B2 & B3 & B4 & B5 & B6 & B7 & B8).
  destruct update_room as (_ & _ & S0 & _ & _ & R2 & _). specialize (R2 S4). destruct (fits_bounds Hf) as (Hn & R0 & Hcap).
  destruct split_ok as (_ & _ & F & T & Hu). inversion F as [| ? ? _ Frest]; subst.
  assert (A : in_area c) by (unfold in_area; lia). specialize (B7 A).
  set (f := memmove _ data size m).
  assert (S : same_outside (get_data m p + c_offset c) (get_data m p + c_offset c + size) m f)
    by (apply memmove_same_outside; lia).
  assert (H : forall o, 0 <= o <= 32 -> rd f p (U32 o) = rd m p (U32 o))
    by (intros o Ho; apply (header_same _ _ _ _ _ _ S); lia).
  assert (Of : rd f e mbe.offset = c_offset c).
  { unfold slot. rewrite c_offset_slot. apply (rd_same_outside _ _ _ _ e _ S). cbn [f_off f_len mbe.offset U32]. lia. }
  assert (D : get_data f p = get_data m p) by (apply get_data_same, (H 32); lia).
  split; rewrite ?map_id; auto.
  - intros k Hk. rewrite (S _) by lia. symmetry. apply image_bytes. lia.
  - unfold same_layout. repeat split; apply H; lia.
  - apply (H 12); lia.
  - apply (H 8); lia.
  - apply (H 24); lia.
  - lia.
  - intros j Hj Hji. apply (bytes_same_outside _ _ _ _ _ _ S).
    left. unfold entry_at, get_entries, sizeof_buffer_entry in *. nia.
  - intros c' _ Rc' Oc'. apply (tiled_replace _ _ c); [exact T | lia |]. intros _. rewrite Oc', Of. reflexivity.
  - intros area' E. apply map_ext_in. intros d Hd. apply list_elem_of_In in Hd.
    apply (datum_apart _ _ (before ++ after) used c); auto.
    intros x Hx Hout. rewrite E by lia. unfold area. rewrite D. apply S. lia.
  - destruct (Z.ltb_spec 4 size); [| lia]. rewrite Of. apply bytes_ext. intros k Hk. unfold area. rewrite D.
    unfold f. rewrite memmove_in by lia. f_equal. lia.
  - eapply same_outside_weaken; [| | exact S]; lia.
Qed.

(** ** All cases *)

Lemma write_values_ok :
  update_fits = true -> exists g u', written g u' (write_values p e data (room_for size) size (c_room c) m).
Proof.
  intros Hf. destruct update_room as (_ & _ & S0 & _ & R1 & R2 & _). destruct (fits_bounds Hf) as (Hn & R0 & Hcap).
  unfold write_values. fold without_values.
  assert (Mv : forall d s, MEMCPY_S d size data size s = memmove d data size s)
    by (intros d s; unfold MEMCPY_S; rewrite Z.min_id; reflexivity).
  destruct (Z.eqb_spec (room_for size) 0) as [Z0 | Z0]; cbn [negb].
  - exists (gone c), (used - c_room c). destruct (Z.eqb_spec (room_for size) (c_room c)) as [Eq | Ne]; cbn [negb].
    + rewrite Mv. apply write_inline; auto. apply values_gone_refl. lia.
    + rewrite Mv. apply write_inline; auto. apply without_values_gone.
  - assert (4 < size) by lia. destruct (Z.eqb_spec (room_for size) (c_room c)) as [Eq | Ne]; cbn [negb].
    + exists (fun d => d), used. rewrite Mv, <- c_offset_slot. apply write_in_place; auto.
    + exists (gone c), (used - c_room c + room_for size). apply (write_behind without_values); auto. apply without_values_gone.
Qed.

Lemma update_ok :
  update_fits = true ->
  exists f, update_icamera_metadata_entry p i data count ue m
    = ((OK, match ue with
            | Some _ => snd (get_icamera_metadata_entry f p i ue)
            | None => None
            end), f) /\ updated f.
Proof.
  intros Hf. rewrite update_run, Hf. eexists. split; [reflexivity |].
  destruct (write_values_ok Hf) as (g & u' & Hw). eapply written_updated, Hw.
Qed.

Lemma update_full :
  update_fits = false -> update_icamera_metadata_entry p i data count ue m = ((UNKNOWN_ERROR, ue), m).
Proof. intros Hf. rewrite update_run, Hf. reflexivity. Qed.
End Edit.
