(* ===== verification/MetadataFind.v ===== *)
(** * Metadata packets: looking up, sorting and validating

    [get_icamera_metadata_entry], [find_icamera_metadata_entry],
    [sort_icamera_metadata] and [validate_icamera_metadata_structure] over
    packets that keep the invariant, for any [qsort] and [bsearch] that do what
    the C standard says. *)

From Stdlib Require Import Sorted.
From S2P Require Import Prelude Memory Errors MetadataTables MetadataTags MetadataBuffer MetadataPacket MetadataMemory MetadataAdd.
From stdpp Require Import list.
#[local] Open Scope Z_scope.
#[local] Open Scope css_scope.

(** ** Entries *)

(** What the caller reads through an entry it got. *)
Definition describes (m : mem) (entry : icamera_metadata_entry_t) (d : datum) : Prop :=
  tag entry = d_tag d /\ type entry = d_type d /\ count entry = d_count d
  /\ bytes m (data entry) (count entry * type_size (type entry)) = d_values d.

Lemma contents_lookup m p i :
  0 <= i < rd m p md.entry_count -> contents m p !! Z.to_nat i = Some (datum_of (area m p) (slot m p i)).
Proof.
  intros H. unfold contents. change (map ?f ?l) with (f <$> l). rewrite list_lookup_fmap, slots_lookup by exact H.
  reflexivity.
Qed.

Lemma datum_describes m p i :
  wf m p -> 0 <= i < rd m p md.entry_count ->
  exists entry, (forall e0, get_icamera_metadata_entry m p i (Some e0) = (OK, Some entry))
    /\ index entry = i /\ describes m entry (datum_of (area m p) (slot m p i)).
Proof.
  intros W Hi. destruct (slot_of m p i W Hi) as [_ Hc]. pose proof (c_bytes_range _ Hc) as B. set (e := entry_at m p i) in *.
  assert (Et : c_tag (slot m p i) = rd m e mbe.tag) by apply c_tag_slot.
  assert (En : c_count (slot m p i) = rd m e mbe.count) by apply c_count_slot.
  assert (Eo : c_offset (slot m p i) = rd m e mbe.offset) by apply c_offset_slot.
  assert (Ey : c_type (slot m p i) = rd m e mbe.type) by apply c_type_slot.
  unfold c_bytes in B. rewrite En, Ey in B.
  eexists. split.
  - intros e0. unfold get_icamera_metadata_entry. rewrite not_null by apply W.
    destruct (Z.leb_spec (rd m p md.entry_count) i); [lia |]. fold e. rewrite u64_small by lia. reflexivity.
  - split; [reflexivity |]. unfold describes, datum_of, c_bytes. cbn [tag type count data d_tag d_type d_count d_values].
    rewrite Et, En, Eo, Ey. repeat split; auto. destruct (Z.ltb_spec 4 (rd m e mbe.count * type_size (rd m e mbe.type))).
    + apply bytes_ext. intros k Hk. unfold area. f_equal. lia.
    + apply bytes_ext. intros k Hk. unfold slot. fold e. rewrite image_bytes by lia. f_equal. unfold offsetof_value. lia.
Qed.

(** ** Comparing *)

Lemma compare_tags c d :
  compare_entry_tags c d = if c_tag c <? c_tag d then -1 else if c_tag c =? c_tag d then 0 else 1.
Proof. reflexivity. Qed.

Lemma key_tag tag : 0 <= tag < 2 ^ 32 -> c_tag (bytes (wr (fun _ => 0) 0 mbe.tag tag) 0 sizeof_buffer_entry) = tag.
Proof.
  intros H. unfold sizeof_buffer_entry. rewrite c_tag_slot. unfold mbe.tag. rewrite rd_wr_same. apply f_conv_U32, H.
Qed.

Lemma StronglySorted_lookup {A} (R : A -> A -> Prop) l i j x y :
  StronglySorted R l -> (i < j)%nat -> l !! i = Some x -> l !! j = Some y -> R x y.
Proof.
  intros S. revert i j. induction S as [| a l S IH F]; intros i j Hij Hi Hj; [discriminate |].
  destruct j as [| j]; [lia |]. cbn in Hj. destruct i as [| i]; cbn in Hi.
  - injection Hi as <-. rewrite Forall_forall in F. apply F. eapply list_elem_of_lookup_2, Hj.
  - apply (IH i j); auto. lia.
Qed.

Lemma find_first {A} (f : A -> bool) l :
  match List.find f l with
  | Some x => x ∈ l /\ f x = true
  | None => forall x, x ∈ l -> f x = false
  end.
Proof.
  destruct (List.find f l) eqn:E.
  - apply find_some in E as [H1 H2]. split; [apply list_elem_of_In, H1 | exact H2].
  - intros x Hx. apply (find_none f l E x), list_elem_of_In, Hx.
Qed.

Section Library.
Context {L : CLibrary} {LOk : CLibraryOk L}.

(** ** Finding *)

(** The index that the search, binary or linear, ends at. *)
Definition search (m : mem) (p tag : Z) : option Z :=
  if is_sorted m p then
    bsearch (fun i => compare_entry_tags (bytes (wr (fun _ => 0) 0 mbe.tag tag) 0 sizeof_buffer_entry)
                        (bytes m (entry_at m p i) sizeof_buffer_entry)) (rd m p md.entry_count)
  else List.find (fun i => rd m (entry_at m p i) mbe.tag =? tag) (range 0 (rd m p md.entry_count)).

Lemma search_ok m p tag :
  wf m p -> 0 <= tag < 2 ^ 32 ->
  match search m p tag with
  | Some i => 0 <= i < rd m p md.entry_count /\ c_tag (slot m p i) = tag
  | None => forall i, 0 <= i < rd m p md.entry_count -> c_tag (slot m p i) <> tag
  end.
Proof.
  intros W Ht. unfold search. destruct (is_sorted m p) eqn:Es.
  - set (cmp := fun i => _).
    assert (E : forall i, Z.sgn (cmp i) = Z.sgn (tag - c_tag (slot m p i))).
    { intros i. unfold cmp. rewrite compare_tags, key_tag by exact Ht. change (bytes m (entry_at m p i) sizeof_buffer_entry) with (slot m p i).
      destruct (Z.ltb_spec tag (c_tag (slot m p i))); [| destruct (Z.eqb_spec tag (c_tag (slot m p i)))]; lia. }
    assert (Z0 : forall i, cmp i = 0 <-> c_tag (slot m p i) = tag).
    { intros i. rewrite <- Z.sgn_null_iff, E, Z.sgn_null_iff. lia. }
    clearbody cmp. pose proof (bsearch_spec cmp (rd m p md.entry_count)) as B.
    assert (Mono : forall i j, 0 <= i <= j -> j < rd m p md.entry_count -> Z.sgn (cmp j) <= Z.sgn (cmp i)).
    { intros i j Hij Hj. assert (i = j \/ i < j) as [-> | Hlt] by lia; [lia |].
      pose proof (StronglySorted_lookup _ _ (Z.to_nat i) (Z.to_nat j) _ _ (wf_sorted m p W Es) ltac:(lia)
                    (slots_lookup m p i ltac:(lia)) (slots_lookup m p j ltac:(lia))) as Hle. cbn beta in Hle.
      rewrite !E. lia. }
    specialize (B Mono). destruct (bsearch cmp _) as [i |].
    + rewrite Z0 in B. exact B.
    + intros i Hi. rewrite <- Z0. apply B, Hi.
  - pose proof (find_first (fun i => rd m (entry_at m p i) mbe.tag =? tag) (range 0 (rd m p md.entry_count))) as F.
    destruct (List.find _ _) as [i |].
    + destruct F as [F1 F2]. apply elem_of_range in F1. unfold slot. rewrite c_tag_slot. bsimp. auto.
    + intros i Hi Hti. specialize (F i ltac:(apply elem_of_range, Hi)). unfold slot in Hti. rewrite c_tag_slot in Hti. bsimp. lia.
Qed.

Lemma find_run m p tag e0 :
  0 < p ->
  find_icamera_metadata_entry m p tag (Some e0)
  = match search m p tag with
    | Some i => get_icamera_metadata_entry m p i (Some e0)
    | None => (NAME_NOT_FOUND, Some e0)
    end.
Proof.
  intros Hp. unfold find_icamera_metadata_entry, search, is_sorted. rewrite not_null by exact Hp.
  destruct (negb _); reflexivity.
Qed.

Lemma find_ok m p tag e0 :
  wf m p -> 0 <= tag < 2 ^ 32 ->
  (exists i entry d, find_icamera_metadata_entry m p tag (Some e0) = (OK, Some entry)
     /\ index entry = i /\ 0 <= i < rd m p md.entry_count
     /\ contents m p !! Z.to_nat i = Some d /\ d_tag d = tag /\ describes m entry d)
  \/ (find_icamera_metadata_entry m p tag (Some e0) = (NAME_NOT_FOUND, Some e0)
      /\ forall d, d ∈ contents m p -> d_tag d <> tag).
Proof.
  intros W Ht. pose proof (search_ok m p tag W Ht) as S. rewrite find_run by apply W.
  destruct (search m p tag) as [i |].
  - left. destruct S as [Hi Hti]. destruct (datum_describes m p i W Hi) as (entry & E & Ei & D).
    exists i, entry, (datum_of (area m p) (slot m p i)). rewrite E, contents_lookup by exact Hi. auto 10.
  - right. split; [reflexivity |]. intros d Hd. unfold contents in Hd.
    apply list_elem_of_In, in_map_iff in Hd. destruct Hd as (c & <- & Hc). cbn [datum_of d_tag].
    unfold slots in Hc. apply in_map_iff in Hc. destruct Hc as (i & <- & Hi).
    apply S, elem_of_range, list_elem_of_In, Hi.
Qed.

(** ** Sorting *)

Lemma concat_lookup (l : list (list Z)) i k :
  Forall (fun c => length c = 16%nat) l -> (i < length l)%nat -> (k < 16)%nat ->
  concat l !!! (16 * i + k)%nat = (l !!! i) !!! k.
Proof.
  intros F. revert i. induction F as [| c l Hc F IH]; intros i Hi Hk; cbn [length] in Hi; [lia |].
  cbn [concat]. destruct i as [| i].
  - replace (16 * 0 + k)%nat with k by lia. rewrite lookup_total_app_l by lia. reflexivity.
  - rewrite lookup_total_app_r by lia. cbn. rewrite <- IH by lia. f_equal. lia.
Qed.

Lemma concat_length (l : list (list Z)) :
  Forall (fun c => length c = 16%nat) l -> length (concat l) = (16 * length l)%nat.
Proof. induction 1 as [| c l Hc F IH]; cbn [concat length]; [reflexivity |]. rewrite length_app, IH. lia. Qed.

Lemma put_lookup a (l : list (list Z)) m i :
  Forall (fun c => length c = 16%nat) l -> 0 <= i < Z.of_nat (length l) ->
  bytes (put a (concat l) m) (a + i * 16) 16 = l !!! Z.to_nat i.
Proof.
  intros F Hi. assert (Hi' : (Z.to_nat i < length l)%nat) by lia.
  assert (Hc : length (l !!! Z.to_nat i) = 16%nat).
  { rewrite Forall_forall in F. apply F, (list_elem_of_lookup_total_2 l _ Hi'). }
  apply list_eq_same_length with 16%nat; [exact Hc | apply bytes_length; lia |].
  intros k x y Hk Hx Hy. apply list_lookup_total_correct in Hx, Hy. subst.
  replace k with (Z.to_nat (Z.of_nat k)) at 1 by lia. rewrite bytes_lookup by lia.
  unfold put, image. rewrite concat_length by exact F.
  destruct (Z.leb_spec a (a + i * 16 + Z.of_nat k)); [| lia].
  destruct (Z.ltb_spec (a + i * 16 + Z.of_nat k) (a + Z.of_nat (16 * length l))); [| lia].
  cbn [andb]. rewrite <- concat_lookup by (auto; lia). f_equal. lia.
Qed.

(** The entries in the order that [qsort] puts them in. *)
Lemma sorted_slots m p :
  let l := qsort compare_entry_tags (slots m p) in
  Permutation (slots m p) l /\ StronglySorted (fun c d => c_tag c <= c_tag d) l.
Proof.
  split; [apply qsort_permutation |]. apply (qsort_sorted c_tag). intros c d. rewrite compare_tags.
  destruct (Z.ltb_spec (c_tag c) (c_tag d)), (Z.eqb_spec (c_tag c) (c_tag d)); lia.
Qed.

Lemma sort_run m p :
  wf m p -> is_sorted m p = false ->
  let l := qsort compare_entry_tags (slots m p) in
  exists m', sort_icamera_metadata p m = (OK, m') /\ slots m' p = l
    /\ is_sorted m' p = true /\ same_outside (p + 8) (get_data m p) m m' /\ same_layout m m' p
    /\ rd m' p md.entry_count = rd m p md.entry_count /\ rd m' p md.data_count = rd m p md.data_count.
Proof.
  intros W Es l. destruct (sorted_slots m p) as [P _]. fold l in P.
  destruct (wf_bounds m p W) as [B1 B2 B3 B4 B5 B6 B7 B8 B9].
  pose proof (wf_entry_count m p W). pose proof (wf_data m p W) as [D1 _].
  assert (F : Forall (fun c => length c = 16%nat) l).
  { rewrite <- P. eapply Forall_impl; [apply wf_slots, W |]. intros c Hc. apply Hc. }
  assert (Ln : length l = Z.to_nat (rd m p md.entry_count)) by (rewrite <- P; apply slots_length).
  unfold sort_icamera_metadata. rewrite not_null by apply W. fold (is_sorted m p). rewrite Es.
  change (map (fun i => bytes m (entry_at m p i) sizeof_buffer_entry) (range 0 (rd m p md.entry_count))) with (slots m p).
  fold l. cbv zeta. set (m1 := put (get_entries m p) (concat l) m).
  assert (S1 : same_outside (get_entries m p) (get_data m p) m m1).
  { apply put_same_outside; [lia |]. rewrite concat_length by exact F.
    unfold get_entries, get_data. lia. }
  assert (Ge : p + 36 <= get_entries m p) by (unfold get_entries; lia).
  assert (H1 : forall o, 0 <= o <= 32 -> rd m1 p (U32 o) = rd m p (U32 o))
    by (intros o Ho; apply (header_same _ _ _ _ _ _ S1); lia).
  set (m' := wr m1 p md.flags _). assert (S' : same_outside (p + 8) (p + 12) m1 m') by (unfold m'; frame_chain).
  assert (H' : forall o, 0 <= o <= 32 -> o <= 4 \/ 12 <= o -> rd m' p (U32 o) = rd m p (U32 o)).
  { intros o Ho Hd. rewrite <- H1 by exact Ho. apply (rd_same_outside _ _ _ _ _ _ S'). cbn [f_off f_len U32]. lia. }
  exists m'. split; [reflexivity |]. split; [| split; [| split; [| split; [| split; apply H'; lia]]]].
  - unfold slots. rewrite (H' 12 ltac:(lia) ltac:(lia) : rd m' p md.entry_count = rd m p md.entry_count).
    apply list_eq_same_length with (Z.to_nat (rd m p md.entry_count)).
    + exact Ln.
    + unfold range. rewrite length_map, length_seqZ. lia.
    + intros k x y Hk Hx Hy. change (map ?f ?l) with (f <$> l) in Hx. rewrite list_lookup_fmap in Hx.
      unfold range in Hx. rewrite lookup_seqZ_lt in Hx by lia. cbn in Hx. injection Hx as <-.
      apply list_lookup_total_correct in Hy. subst y. unfold slot.
      rewrite (entry_at_same m m' p) by (apply H'; lia). unfold entry_at. change sizeof_buffer_entry with 16.
      rewrite (bytes_same_outside _ _ _ _ _ _ S') by lia. unfold m1. rewrite put_lookup by (auto; lia).
      f_equal. lia.
  - rewrite is_sorted_bit. unfold m'. unfold md.flags at 1. rewrite rd_wr_same. unfold FLAG_SORTED. cbn [f_conv U32].
    change (f_conv (U32 8)) with u32. rewrite u32_bit by lia. rewrite Z.lor_spec. apply orb_true_r.
  - intros a Ha. rewrite (S' a), (S1 a) by lia. reflexivity.
  - unfold same_layout. repeat split; apply H'; lia.
Qed.

Lemma sort_ok m p :
  wf m p ->
  exists m', sort_icamera_metadata p m = (OK, m') /\ wf m' p
    /\ Permutation (contents m p) (contents m' p)
    /\ is_sorted m' p = true /\ same_outside p (p + rd m p md.size) m m' /\ same_layout m m' p.
Proof.
  intros W. destruct (is_sorted m p) eqn:Es.
  - exists m. unfold sort_icamera_metadata. rewrite not_null by apply W. fold (is_sorted m p). rewrite Es.
    repeat split; auto; try apply W.
  - destruct (sort_run m p W Es) as (m' & E & Sl & Fl & S & L0 & N & U). destruct (sorted_slots m p) as [P So].
    set (l := qsort _ _) in *. destruct (wf_bounds m p W) as [B1 B2 B3 B4 B5 B6 B7 B8 B9].
    exists m'. split; [exact E |]. split; [| split; [| split; [exact Fl | split; [| exact L0]]]].
    + apply (wf_make m m' p l (rd m p md.data_count)); auto.
      * rewrite N. apply wf_entry_count, W.
      * apply wf_data_count, W.
      * rewrite <- P. apply wf_slots, W.
      * eapply tiled_permutation; [exact P | apply wf_tiled, W].
    + unfold contents. rewrite Sl. rewrite P. apply eq_subrelation; [typeclasses eauto |]. apply map_ext_in. intros d Hd.
      apply list_elem_of_In in Hd. rewrite <- P in Hd. symmetry.
      apply (datum_kept _ _ (slots m p) (rd m p md.data_count)); [apply wf_slots, W | apply wf_tiled, W | | exact Hd].
      intros x Hx. unfold area. rewrite (get_data_same m m' p) by apply L0. apply S. lia.
    + eapply same_outside_weaken; [| | exact S]; lia.
Qed.

(** Sorted entries are in the order of their tags. *)
Lemma contents_sorted m p :
  wf m p -> is_sorted m p = true -> StronglySorted (fun c d => d_tag c <= d_tag d) (contents m p).
Proof.
  intros W Es. pose proof (wf_sorted m p W Es) as S. unfold contents. induction S as [| c l S IH F]; [constructor |].
  cbn [map]. constructor; [exact IH |]. apply Forall_forall. intros d Hd.
  apply list_elem_of_In, in_map_iff in Hd. destruct Hd as (c' & <- & Hc'). rewrite Forall_forall in F.
  apply F, list_elem_of_In, Hc'.
Qed.
End Library.

(** ** Validating *)

(** What the check of an entry asks beyond the invariant. *)
Definition consistent (m : mem) (p i : Z) : Prop :=
  get_icamera_metadata_tag_type (c_tag (slot m p i)) = c_type (slot m p i)
  /\ (c_count (slot m p i) = 0 -> c_offset (slot m p i) = 0).

Section Validate.
Context (m : mem) (p : Z).
Hypothesis (W : wf m p) (Halign : p mod 8 = 0) (Hend : p + rd m p md.size < 2 ^ 63).

Lemma valid_entry_ok i :
  0 <= i < rd m p md.entry_count -> valid_entry m p i = Some tt <-> consistent m p i.
Proof.
  intros Hi. destruct (slot_of m p i W Hi) as [Hin Hc]. pose proof (c_room_spec _ Hc) as (Rm & R0 & R1).
  destruct (wf_bounds m p W) as [B1 B2 B3 B4 B5 B6 B7 B8 B9]. pose proof (wf_entry_count m p W).
  destruct (B2 i ltac:(lia)) as [B10 B11]. pose proof (wf_entries m p W) as [_ Em]. pose proof (wf_data m p W) as [_ Dm].
  pose proof (wf_data_count m p W) as Hu. pose proof (wf_pos m p W) as Hp.
  assert (T : in_area (slot m p i) -> 0 <= c_offset (slot m p i)
                /\ c_offset (slot m p i) + c_room (slot m p i) <= rd m p md.data_count
                /\ c_offset (slot m p i) mod 8 = 0)
    by (intros A; apply (tiled_range (slots m p)); [apply wf_slots, W | apply wf_tiled, W | exact Hin | exact A]).
  unfold consistent, valid_entry. set (e := entry_at m p i) in *. change (slot m p i) with (bytes m e 16) in *.
  unfold ENTRY_ALIGNMENT, DATA_ALIGNMENT. rewrite ALIGN_TO_4_id, Z.eqb_refl.
  2: { unfold get_data in *. lia. }
  2: { unfold e, entry_at, get_entries, sizeof_buffer_entry. divlia. }
  rewrite <- c_type_slot, <- c_tag_slot, <- c_count_slot, <- c_offset_slot, c_room_size by exact Hc.
  destruct Hc as [_ [Ht0 Ht]]. destruct (Z.ltb_spec (c_type (bytes m e 16)) ICAMERA_NUM_TYPES); [| lia].
  set (c := bytes m e 16) in *. destruct (Z.eqb_spec (get_icamera_metadata_tag_type (c_tag c)) (c_type c)) as [Et | Et];
    [| split; [discriminate | intros [E _]; contradiction]].
  destruct (Z.eqb_spec (c_room c) 0) as [Rz | Rz]; cbn [negb].
  - destruct (Z.eqb_spec (c_count c) 0) as [Nz | Nz]; [| split; [intros _; split; [exact Et | lia] | reflexivity]].
    destruct (Z.eqb_spec (c_offset c) 0) as [Oz | Oz]; [split; auto |]. split; [discriminate |]. intros [_ E]. specialize (E Nz). contradiction.
  - assert (A : in_area c) by (unfold in_area; pose proof (c_bytes_range c ltac:(split; [apply bytes_length; lia | split; assumption])); lia).
    destruct (T A) as (T1 & T2 & T3). rewrite ALIGN_TO_8_id, Z.eqb_refl.
    2: { unfold in_area in A. lia. }
    2: { unfold get_data. divlia. }
    rewrite u64_small by (unfold in_area in A; lia).
    destruct (Z.ltb_spec (c_offset c + c_room c) (c_offset c)); [unfold in_area in A; lia |].
    destruct (Z.ltb_spec (rd m p md.data_capacity) (c_offset c + c_room c)); [lia |]. cbn [orb negb].
    split; [intros _; split; [exact Et |] | reflexivity]. intros Nz. unfold in_area, c_room, c_bytes in A. rewrite Nz, Z.mul_0_l in A.
    exfalso. exact (Z.lt_irrefl _ A).
Qed.

Lemma valid_structure_ok expected :
  valid_structure m p expected = Some tt
  <-> (forall s, expected = Some s -> rd m p md.size <= s)
      /\ forall i, 0 <= i < rd m p md.entry_count -> consistent m p i.
Proof.
  destruct (wf_bounds m p W) as [B1 B2 B3 B4 B5 B6 B7 B8 B9]. pose proof (wf_entry_count m p W) as Hn.
  pose proof (wf_pos m p W) as Hp. pose proof (wf_data m p W) as [D1 D2]. pose proof (wf_end m p W) as D3.
  unfold valid_structure. rewrite not_null by exact Hp. cbn [negb for_opt]. unfold METADATA_ALIGNMENT, ENTRY_ALIGNMENT, DATA_ALIGNMENT.
  rewrite !ALIGN_TO_4_id, ALIGN_TO_8_id by (lia || divlia). rewrite !Z.eqb_refl. cbn [mbind option_bind].
  destruct (Z.leb_spec (rd m p md.entry_count) (rd m p md.entry_capacity)); [| lia].
  rewrite !u32_small by lia.
  destruct (Z.ltb_spec (rd m p md.entries_start + rd m p md.entry_capacity) (rd m p md.entries_start)); [lia |].
  destruct (Z.ltb_spec (rd m p md.data_start) (rd m p md.entries_start + rd m p md.entry_capacity)); [lia |].
  destruct (Z.ltb_spec (rd m p md.data_start + rd m p md.data_capacity) (rd m p md.data_start)); [lia |].
  destruct (Z.ltb_spec (rd m p md.size) (rd m p md.data_start + rd m p md.data_capacity)); [lia |]. cbn [orb negb].
  assert (G : for_opt (range 0 (rd m p md.entry_count)) tt (fun i _ => valid_entry m p i) = Some tt
              <-> forall i, 0 <= i < rd m p md.entry_count -> consistent m p i).
  { split.
    - intros E i Hi. destruct (for_opt_all _ _ _ _ _ E i Hi) as (a & [] & V). apply valid_entry_ok; assumption.
    - intros H'. apply (for_opt_run (fun _ => tt)); [lia |]. intros i Hi. apply valid_entry_ok; auto. }
  destruct expected as [s |].
  - destruct (Z.ltb_spec s (rd m p md.size)); cbn [negb].
    + split; [discriminate |]. intros [E _]. specialize (E s eq_refl). lia.
    + rewrite G. split; [intros E; split; [intros s' [= <-]; lia | exact E] | intros [_ E]; exact E].
  - rewrite G. split; [intros E; split; [discriminate | exact E] | intros [_ E]; exact E].
Qed.
End Validate.
