(* ===== verification/MetadataSteps.v ===== *)
(** * Metadata packets: sequences of operations

    A C library that satisfies what the packets rely on, and the operations of
    a packet as a step relation: whatever sequence of them runs, the packet
    keeps its invariant and every datum has the type of its tag. *)

From Stdlib Require Import Sorted.
From S2P Require Import Prelude Memory Errors MetadataTables MetadataTags MetadataBuffer MetadataPacket MetadataMemory MetadataAdd MetadataEdit MetadataFind.
From stdpp Require Import list relations.
#[local] Open Scope Z_scope.
#[local] Open Scope css_scope.

(** ** A C library *)

Fixpoint insert_by (cmp : list Z -> list Z -> Z) (x : list Z) (l : list (list Z)) : list (list Z) :=
  match l with
  | [] => [x]
  | y :: l' => if cmp x y <=? 0 then x :: l else y :: insert_by cmp x l'
  end.

Definition insertion_sort (cmp : list Z -> list Z -> Z) (l : list (list Z)) : list (list Z) :=
  foldr (insert_by cmp) [] l.

(** The range that is left halves; [fuel] bounds its length. *)
Fixpoint bisect (fuel : nat) (cmp : Z -> Z) (lo hi : Z) : option Z :=
  match fuel with
  | O => None
  | S fuel =>
      if lo <? hi then
        let idx := (lo + hi) / 2 in
        if cmp idx <? 0 then bisect fuel cmp lo idx
        else if 0 <? cmp idx then bisect fuel cmp (idx + 1) hi
        else Some idx
      else None
  end.

#[local] Instance libc : CLibrary :=
  {| qsort := insertion_sort; bsearch := fun cmp n => bisect (S (Z.to_nat n)) cmp 0 n |}.

Lemma insert_by_permutation cmp x l : Permutation (x :: l) (insert_by cmp x l).
Proof.
  induction l as [| y l IH]; cbn [insert_by]; [reflexivity |]. destruct (_ <=? 0); [reflexivity |].
  rewrite <- IH. apply perm_swap.
Qed.

Lemma insertion_sort_permutation cmp l : Permutation l (insertion_sort cmp l).
Proof.
  induction l as [| x l IH]; [reflexivity |]. cbn. rewrite <- insert_by_permutation, <- IH. reflexivity.
Qed.

Lemma insert_by_sorted (key : list Z -> Z) cmp x l :
  (forall x y, cmp x y <= 0 <-> key x <= key y) ->
  StronglySorted (fun x y => key x <= key y) l ->
  StronglySorted (fun x y => key x <= key y) (insert_by cmp x l).
Proof.
  intros Hc S. induction S as [| y l S IH F]; cbn [insert_by]; [repeat constructor |].
  destruct (Z.leb_spec (cmp x y) 0) as [Hle | Hgt].
  - apply Hc in Hle. constructor; [constructor; assumption |]. constructor; [exact Hle |].
    eapply Forall_impl; [exact F |]. cbn beta. lia.
  - assert (key y <= key x) by (specialize (Hc x y); lia). constructor; [exact IH |].
    rewrite <- insert_by_permutation. constructor; assumption.
Qed.

Lemma bisect_spec cmp n fuel lo hi :
  (forall i j, 0 <= i <= j -> j < n -> Z.sgn (cmp j) <= Z.sgn (cmp i)) ->
  0 <= lo -> hi <= n -> hi - lo < Z.of_nat fuel ->
  match bisect fuel cmp lo hi with
  | Some i => lo <= i < hi /\ cmp i = 0
  | None => forall i, lo <= i < hi -> cmp i <> 0
  end.
Proof.
  intros Mono. revert lo hi. induction fuel as [| fuel IH]; intros lo hi Hlo Hhi Hf.
  - cbn [bisect]. intros i Hi. lia.
  - cbn [bisect]. destruct (Z.ltb_spec lo hi); [| intros i Hi; lia]. cbv zeta. set (idx := (lo + hi) / 2).
    assert (lo <= idx < hi) by (unfold idx; divlia).
    destruct (Z.ltb_spec (cmp idx) 0).
    + specialize (IH lo idx Hlo ltac:(lia) ltac:(lia)). destruct (bisect fuel cmp lo idx) as [i |].
      * split; [lia | apply IH].
      * intros i Hi. destruct (Z.lt_ge_cases i idx); [apply IH; lia |]. specialize (Mono idx i ltac:(lia) ltac:(lia)). lia.
    + destruct (Z.ltb_spec 0 (cmp idx)).
      * specialize (IH (idx + 1) hi ltac:(lia) Hhi ltac:(lia)). destruct (bisect fuel cmp (idx + 1) hi) as [i |].
        -- split; [lia | apply IH].
        -- intros i Hi. destruct (Z.le_gt_cases i idx); [| apply IH; lia]. specialize (Mono i idx ltac:(lia) ltac:(lia)). lia.
      * split; lia.
Qed.

#[local] Instance libc_ok : CLibraryOk libc.
Proof.
  split.
  - apply insertion_sort_permutation.
  - intros key cmp l Hc. cbn [qsort libc]. induction l as [| x l IH]; cbn; [constructor |].
    apply insert_by_sorted; assumption.
  - intros cmp n Mono. cbn [bsearch libc]. apply (bisect_spec cmp n); [exact Mono | lia | lia | lia].
Qed.

(** ** The steps of a packet *)

(** Every datum has the type that the tables give its tag. *)
Definition well_typed (m : mem) (p : Z) : Prop :=
  Forall (fun d => get_icamera_metadata_tag_type (d_tag d) = d_type d) (contents m p).

(** Values of the caller are not in the packet. *)
Definition values_at (m : mem) (p type data count : Z) : Prop :=
  0 < data /\ 0 <= count /\ count * type_size type < 2 ^ 62
  /\ (data + count * type_size type <= p \/ p + rd m p md.size <= data).

Section Steps.
Context {L : CLibrary} {LOk : CLibraryOk L} (p : Z).

(** Left out: an append of unsorted entries to an empty packet whose flag is
    set, after which the flag is wrong (MetadataTheorems, [append_keeps_stale_flag]). *)
Inductive step (m : mem) : mem -> Prop :=
| step_add tag data count :
    0 <= tag < 2 ^ 32 -> values_at m p (get_icamera_metadata_tag_type tag) data count ->
    step m (snd (add_icamera_metadata_entry p tag data count m))
| step_append src :
    wf m src -> well_typed m src -> p + rd m p md.size <= src \/ src + rd m src md.size <= p ->
    rd m p md.data_count + rd m src md.data_count < 2 ^ 32 ->
    (rd m p md.entry_count = 0 -> is_sorted m p = true -> is_sorted m src = true) ->
    step m (snd (append_icamera_metadata p src m))
| step_delete i : 0 <= i -> step m (snd (delete_icamera_metadata_entry p i m))
| step_update i data count ue :
    0 <= i -> (i < rd m p md.entry_count -> values_at m p (c_type (slot m p i)) data count) ->
    step m (snd (update_icamera_metadata_entry p i data count ue m))
| step_sort : step m (snd (sort_icamera_metadata p m)).

(** What an operation promises to whoever holds the packet. *)
Definition kept (m m' : mem) : Prop :=
  wf m' p /\ well_typed m' p /\ same_outside p (p + rd m p md.size) m m' /\ same_layout m m' p.

Lemma kept_refl m : wf m p -> well_typed m p -> kept m m.
Proof. intros W T. split; [exact W |]. split; [exact T |]. split; [apply same_outside_refl |]. unfold same_layout. auto. Qed.

Lemma kept_trans m1 m2 m3 : kept m1 m2 -> kept m2 m3 -> kept m1 m3.
Proof.
  intros (_ & _ & S1 & L1) (W & T & S2 & L2). split; [exact W |]. split; [exact T |].
  unfold same_layout in *. destruct L1 as (E & L1). rewrite E in S2. split.
  - eapply same_outside_trans; eassumption.
  - destruct L1 as (<- & <- & <- & <-). rewrite <- E. exact L2.
Qed.

Lemma append_refused m src :
  wf m p -> wf m src -> rd m p md.data_count + rd m src md.data_count < 2 ^ 32 ->
  rd m p md.entry_capacity < rd m p md.entry_count + rd m src md.entry_count
  \/ rd m p md.data_capacity < rd m p md.data_count + rd m src md.data_count ->
  append_icamera_metadata p src m = (UNKNOWN_ERROR, m).
Proof.
  intros W W' Hd Hno. unfold append_icamera_metadata. rewrite (not_null p), (not_null src) by (apply W || apply W').
  destruct (wf_bounds m p W) as [B1 _ _ _ B5 B6 B7 B8 B9]. destruct (wf_bounds m src W') as [C1 _ _ _ C5 C6 C7 C8 C9].
  pose proof (wf_data m p W). pose proof (wf_data m src W'). pose proof (wf_end m p W). pose proof (wf_end m src W').
  pose proof (wf_entry_count m p W). pose proof (wf_entry_count m src W').
  cbn [orb]. rewrite !u32_small by lia.
  destruct (Z.ltb_spec (rd m p md.entry_capacity) (rd m src md.entry_count + rd m p md.entry_count)); [reflexivity |].
  destruct (Z.ltb_spec (rd m p md.data_capacity) (rd m src md.data_count + rd m p md.data_count)); [reflexivity | lia].
Qed.

Lemma well_typed_entry m i :
  well_typed m p -> 0 <= i < rd m p md.entry_count ->
  get_icamera_metadata_tag_type (c_tag (slot m p i)) = c_type (slot m p i).
Proof.
  intros T Hi. unfold well_typed in T. rewrite Forall_forall in T. apply (T (datum_of (area m p) (slot m p i))).
  eapply list_elem_of_lookup_2, contents_lookup, Hi.
Qed.

Lemma add_step m tag data count :
  wf m p -> 0 <= tag < 2 ^ 32 ->
  let t := get_icamera_metadata_tag_type tag in
  values_at m p t data count ->
  (add_icamera_metadata_entry p tag data count m = (UNKNOWN_ERROR, m)
   /\ (t = -1 \/ entry_fits m p t count = false))
  \/ exists m', add_icamera_metadata_entry p tag data count m = (OK, m') /\ wf m' p
       /\ t <> -1 /\ entry_fits m p t count = true
       /\ contents m' p = contents m p ++ [Datum tag t count (bytes m data (count * type_size t))]
       /\ same_outside p (p + rd m p md.size) m m' /\ is_sorted m' p = false /\ same_layout m m' p.
Proof.
  intros W Ht t (Hd & Hc & Hs & Hap). unfold add_icamera_metadata_entry. fold t.
  destruct (Z.eqb_spec t (-1)) as [E | E]; [left; split; [reflexivity | left; exact E] |].
  assert (is_type t) as Hty by (destruct (tag_type_range tag (proj1 Ht)); [contradiction | assumption]).
  assert (u8 t = t) as -> by (unfold u8, is_type, ICAMERA_NUM_TYPES in *; apply Z.mod_small; lia).
  destruct (entry_fits m p t count) eqn:F.
  - right. destruct (add_ok m p tag t data count W Hty Hc Hs Ht Hd Hap F) as (m' & E1 & E2 & E3 & E4 & E5 & E6).
    exists m'. auto 10.
  - left. split; [| right; reflexivity]. rewrite add_guards, F by assumption. reflexivity.
Qed.

Lemma step_kept m m' : step m m' -> wf m p -> well_typed m p -> kept m m'.
Proof.
  intros St W T. destruct St as [tag data count Ht V | src W' T' Ha Hd Hf | i Hi | i data count ue Hi V |].
  - destruct (add_step m tag data count W Ht V) as [[-> _] | (m' & -> & E2 & Hne & _ & E3 & E4 & _ & E6)];
      [apply kept_refl; assumption |]. split; [exact E2 |]. split; [| auto]. unfold well_typed. cbn [snd]. rewrite E3.
    apply Forall_app_2; [exact T |]. repeat constructor.
  - destruct (decide (rd m p md.entry_count + rd m src md.entry_count <= rd m p md.entry_capacity
                      /\ rd m p md.data_count + rd m src md.data_count <= rd m p md.data_capacity)) as [[F1 F2] | F].
    + destruct (append_ok m p src W W' Ha F1 F2 Hf) as (m' & -> & E2 & E3 & E4 & _ & E6 & _).
      split; [exact E2 |]. split; [| auto]. unfold well_typed. cbn [snd]. rewrite E3. apply Forall_app_2; assumption.
    + rewrite append_refused by (auto; lia). apply kept_refl; assumption.
  - destruct (Z.lt_ge_cases i (rd m p md.entry_count)) as [Hl | Hg].
    + destruct (delete_ok m p i W ltac:(lia)) as (m' & -> & E2 & E3 & E4 & _ & E6 & _).
      split; [exact E2 |]. split; [| auto]. unfold well_typed. cbn [snd]. rewrite E3.
      apply Forall_delete, T.
    + unfold delete_icamera_metadata_entry. rewrite not_null by apply W.
      destruct (Z.leb_spec (rd m p md.entry_count) i); [apply kept_refl; assumption | lia].
  - destruct (Z.lt_ge_cases i (rd m p md.entry_count)) as [Hl | Hg].
    + destruct (V Hl) as (Hd & Hc & Hs & Ha). destruct (update_fits m p i count) eqn:F.
      * destruct (update_ok m p i W ltac:(lia) data count ue Hc Hs Ha F) as (m' & -> & E2 & E3 & E4 & _ & E6).
        split; [exact E2 |]. split; [| auto]. unfold well_typed. cbn [snd]. rewrite E3.
        apply Forall_insert; [exact T |]. apply (well_typed_entry m i T). lia.
      * rewrite update_full by (auto; lia). apply kept_refl; assumption.
    + unfold update_icamera_metadata_entry. rewrite not_null by apply W.
      destruct (Z.leb_spec (rd m p md.entry_count) i); [apply kept_refl; assumption | lia].
  - destruct (sort_ok m p W) as (m' & -> & E2 & E3 & _ & E5 & E6). split; [exact E2 |]. split; [| auto].
    unfold well_typed. cbn [snd]. rewrite <- E3. exact T.
Qed.
End Steps.
