(* ===== verification/CameraMetadata.v ===== *)
(** * The metadata container: operations

    src/metadata/CameraMetadata.cpp: an object that owns a metadata packet,
    grows it as needed and can be locked.  The model has the heap, so that
    freeing and the ownership of packets can be stated, and the objects in a
    store, so that two arguments may be the same object.  Dumping and the
    validations that only log are left out. *)

From S2P Require Import Prelude Memory Errors MetadataTables MetadataTags MetadataBuffer.
From stdpp Require Import gmap.
#[local] Open Scope Z_scope.
#[local] Open Scope css_scope.

(** The members of the class. *)
Record CameraMetadata := CM { mBuffer : Z; mLocked : bool }.

(** Memory, the live regions of it (heap blocks and the storage of callers)
    with their sizes, and the objects. *)
Record world := World { memory : mem; blocks : gmap Z Z; objects : Z -> CameraMetadata }.

(** [malloc]: NULL, or a region apart from the live ones. *)
Class Allocator := malloc : gmap Z Z -> Z -> Z.

Class AllocatorOk (A : Allocator) : Prop :=
  malloc_apart regions n a : 0 < n -> malloc regions n = a -> a <> NULL ->
    0 < a /\ a + n <= 2 ^ 63 /\ regions !! a = None
    /\ forall b size, regions !! b = Some size -> a + n <= b \/ b + size <= a.

(** ** The heap *)

Definition set_memory (m : mem) (w : world) : world := World m (blocks w) (objects w).
Definition set_object (this : Z) (o : CameraMetadata) (w : world) : world :=
  World (memory w) (blocks w) (fun id => if id =? this then o else objects w id).
Definition set_mBuffer (this buffer : Z) (w : world) : world :=
  set_object this (CM buffer (mLocked (objects w this))) w.
Definition set_mLocked (this : Z) (b : bool) (w : world) : world :=
  set_object this (CM (mBuffer (objects w this)) b) w.

(** A function of memory, in the world. *)
Definition in_memory {T} (f : mem -> T * mem) (w : world) : T * world :=
  let '(r, m) := f (memory w) in (r, set_memory m w).

Definition free_icamera_metadata (metadata : Z) (w : world) : world :=
  World (memory w) (delete metadata (blocks w)) (objects w).

Section Allocating.
Context {A : Allocator}.

Definition new_block (n : Z) (w : world) : Z * world :=
  let a := malloc (blocks w) n in
  if is_null a then (NULL, w) else (a, World (memory w) (<[a := n]> (blocks w)) (objects w)).

Definition allocate_metadata (entry_capacity data_capacity : Z) (w : world) : Z * world :=
  let '(buffer, w) := new_block (calculate_icamera_metadata_size entry_capacity data_capacity) w in
  in_memory (allocate_icamera_metadata buffer entry_capacity data_capacity) w.

(** [clone_icamera_metadata] with its [malloc] and [free]. *)
Definition clone_metadata (src : Z) (w : world) : Z * world :=
  if is_null src then (NULL, w)
  else
    let '(buffer, w) :=
      new_block (calculate_icamera_metadata_size (get_icamera_metadata_entry_count (memory w) src)
                   (get_icamera_metadata_data_count (memory w) src)) w in
    let '(clone, w) := in_memory (clone_icamera_metadata buffer src) w in
    if is_null clone && negb (is_null buffer) then (clone, free_icamera_metadata buffer w)
    else (clone, w).
End Allocating.

(** ** Ownership *)

Definition getAndLock (this : Z) (w : world) : Z * world :=
  (mBuffer (objects w this), set_mLocked this true w).

Definition unlock (this buffer : Z) (w : world) : Z * world :=
  if negb (mLocked (objects w this)) then (INVALID_OPERATION, w)
  else if negb (buffer =? mBuffer (objects w this)) then (BAD_VALUE, w)
  else (OK, set_mLocked this false w).

Definition release (this : Z) (w : world) : Z * world :=
  if mLocked (objects w this) then (NULL, w)
  else (mBuffer (objects w this), set_mBuffer this NULL w).

Definition clear (this : Z) (w : world) : world :=
  if mLocked (objects w this) then w
  else if negb (is_null (mBuffer (objects w this)))
  then set_mBuffer this NULL (free_icamera_metadata (mBuffer (objects w this)) w)
  else w.

(** A buffer of the caller; what is logged when it is not valid is left out. *)
Definition acquire (this buffer : Z) (w : world) : world :=
  if mLocked (objects w this) then w
  else set_mBuffer this buffer (clear this w).

Definition acquire_from (this other : Z) (w : world) : world :=
  if mLocked (objects w this) then w
  else let '(buffer, w) := release other w in acquire this buffer w.

Definition swap (this other : Z) (w : world) : world :=
  if mLocked (objects w this) then w
  else if mLocked (objects w other) then w
  else
    let thisBuf := mBuffer (objects w this) in
    let otherBuf := mBuffer (objects w other) in
    set_mBuffer this otherBuf (set_mBuffer other thisBuf w).

(** The constructors; [this] is the storage of the new object. *)
Definition construct (this : Z) (w : world) : world := set_object this (CM NULL false) w.

Definition construct_from_buffer (this buffer : Z) (w : world) : world :=
  acquire this buffer (set_object this (CM NULL false) w).

Definition destruct (this : Z) (w : world) : world := clear this (set_mLocked this false w).

Section Methods.
Context {A : Allocator} {L : CLibrary}.

Definition construct_sized (this entryCapacity dataCapacity : Z) (w : world) : world :=
  let '(buffer, w) := allocate_metadata entryCapacity dataCapacity w in
  set_object this (CM buffer false) w.

Definition construct_copy (this other : Z) (w : world) : world :=
  let '(buffer, w) := clone_metadata (mBuffer (objects w other)) w in
  set_object this (CM buffer false) w.

(** [operator=]. *)
Definition assign (this buffer : Z) (w : world) : world :=
  if mLocked (objects w this) then w
  else if negb (buffer =? mBuffer (objects w this)) then
    let '(newBuffer, w) := clone_metadata buffer w in
    let w := clear this w in
    set_mBuffer this newBuffer w
  else w.

Definition assign_from (this other : Z) (w : world) : world :=
  assign this (mBuffer (objects w other)) w.

(** ** Contents *)

Definition entryCount (this : Z) (w : world) : Z :=
  let buffer := mBuffer (objects w this) in
  if is_null buffer then 0 else get_icamera_metadata_entry_count (memory w) buffer.

Definition isEmpty (this : Z) (w : world) : bool := entryCount this w =? 0.

(** In [size_t].  Where [malloc] fails, the old buffer is not freed. *)
Definition resizeIfNeeded (this extraEntries extraData : Z) (w : world) : Z * world :=
  let buffer := mBuffer (objects w this) in
  if is_null buffer then
    let '(buffer, w) := allocate_metadata (u64 (extraEntries * 2)) (u64 (extraData * 2)) w in
    let w := set_mBuffer this buffer w in
    if is_null buffer then (NO_MEMORY, w) else (OK, w)
  else
    let currentEntryCount := get_icamera_metadata_entry_count (memory w) buffer in
    let currentEntryCap := get_icamera_metadata_entry_capacity (memory w) buffer in
    let newEntryCount := u64 (currentEntryCount + extraEntries) in
    let newEntryCount :=
      if currentEntryCap <? newEntryCount then u64 (newEntryCount * 2) else currentEntryCap in
    let currentDataCount := get_icamera_metadata_data_count (memory w) buffer in
    let currentDataCap := get_icamera_metadata_data_capacity (memory w) buffer in
    let newDataCount := u64 (currentDataCount + extraData) in
    let newDataCount :=
      if currentDataCap <? newDataCount then u64 (newDataCount * 2) else currentDataCap in
    if (currentEntryCap <? newEntryCount) || (currentDataCap <? newDataCount) then
      let oldBuffer := buffer in
      let '(buffer, w) := allocate_metadata newEntryCount newDataCount w in
      let w := set_mBuffer this buffer w in
      if is_null buffer then (NO_MEMORY, w)
      else
        let '(_, w) := in_memory (append_icamera_metadata buffer oldBuffer) w in
        (OK, free_icamera_metadata oldBuffer w)
    else (OK, w).

(** [other] is dereferenced before it is compared with NULL. *)
Definition append (this other : Z) (w : world) : Z * world :=
  if mLocked (objects w this) then (INVALID_OPERATION, w)
  else
    let extraEntries := get_icamera_metadata_entry_count (memory w) other in
    let extraData := get_icamera_metadata_data_count (memory w) other in
    let '(_, w) := resizeIfNeeded this extraEntries extraData w in
    in_memory (append_icamera_metadata (mBuffer (objects w this)) other) w.

Definition append_from (this other : Z) (w : world) : Z * world :=
  append this (mBuffer (objects w other)) w.

Definition sort (this : Z) (w : world) : Z * world :=
  if mLocked (objects w this) then (INVALID_OPERATION, w)
  else in_memory (sort_icamera_metadata (mBuffer (objects w this))) w.

Definition checkType (tag expectedType : Z) : Z :=
  let tagType := get_icamera_metadata_tag_type tag in
  if (tagType =? -1) || (ICAMERA_NUM_TYPES <=? tagType) then INVALID_OPERATION
  else if negb (tagType =? expectedType) then INVALID_OPERATION
  else OK.

(** The content of a local variable before it is written. *)
Definition uninitialised : icamera_metadata_entry_t := Entry 0 0 0 0 0.

Definition updateImpl (this tag data data_count : Z) (w : world) : Z * world :=
  if mLocked (objects w this) then (INVALID_OPERATION, w)
  else
    let type := get_icamera_metadata_tag_type tag in
    if type =? -1 then (BAD_VALUE, w)
    else
      let data_size := calculate_icamera_metadata_entry_data_size (u8 type) data_count in
      let '(res, w) := resizeIfNeeded this 1 data_size w in
      if res =? OK then
        let buffer := mBuffer (objects w this) in
        let '(res, entry) := find_icamera_metadata_entry (memory w) buffer tag (Some uninitialised) in
        if res =? NAME_NOT_FOUND then in_memory (add_icamera_metadata_entry buffer tag data data_count) w
        else if res =? OK then
          let i := match entry with Some entry => index entry | None => 0 end in
          let '((res, _), w) :=
            in_memory (update_icamera_metadata_entry buffer i data data_count None) w in
          (res, w)
        else (res, w)
      else (res, w).

(** One for each type of values. *)
Definition update (expectedType this tag data data_count : Z) (w : world) : Z * world :=
  if mLocked (objects w this) then (INVALID_OPERATION, w)
  else
    let res := checkType tag expectedType in
    if negb (res =? OK) then (res, w) else updateImpl this tag data data_count w.

(** Of a [std::string] of [size] bytes at [c_str]. *)
Definition update_string (this tag c_str size : Z) (w : world) : Z * world :=
  if mLocked (objects w this) then (INVALID_OPERATION, w)
  else
    let res := checkType tag ICAMERA_TYPE_BYTE in
    if negb (res =? OK) then (res, w) else updateImpl this tag c_str (size + 1) w.

Definition exists_entry (this tag : Z) (w : world) : bool :=
  fst (find_icamera_metadata_entry (memory w) (mBuffer (objects w this)) tag (Some uninitialised)) =? 0.

(** The entry that is returned when a lookup fails. *)
Definition no_entry (entry : icamera_metadata_entry_t) : icamera_metadata_entry_t :=
  Entry (index entry) (tag entry) (type entry) 0 NULL.

(** The overload for constant objects; [entry] is what the local variable
    happens to hold. *)
Definition find_const (this tag : Z) (entry : icamera_metadata_entry_t) (w : world)
    : icamera_metadata_entry_t :=
  match find_icamera_metadata_entry (memory w) (mBuffer (objects w this)) tag (Some entry) with
  | (res, Some entry) => if negb (res =? OK) then no_entry entry else entry
  | (_, None) => entry
  end.

Definition find (this tag : Z) (w : world) : icamera_metadata_entry_t :=
  if mLocked (objects w this) then Entry 0 0 0 0 NULL
  else
    match find_icamera_metadata_entry (memory w) (mBuffer (objects w this)) tag (Some (Entry 0 0 0 0 0)) with
    | (res, Some entry) => if negb (res =? OK) then no_entry entry else entry
    | (_, None) => Entry 0 0 0 0 0
    end.

Definition erase (this tag : Z) (w : world) : Z * world :=
  if mLocked (objects w this) then (INVALID_OPERATION, w)
  else
    let buffer := mBuffer (objects w this) in
    let '(res, entry) := find_icamera_metadata_entry (memory w) buffer tag (Some uninitialised) in
    if res =? NAME_NOT_FOUND then (OK, w)
    else if negb (res =? OK) then (res, w)
    else
      let i := match entry with Some entry => index entry | None => 0 end in
      in_memory (delete_icamera_metadata_entry buffer i) w.
End Methods.
