(* ===== verification/CameraMetadataHeap.v ===== *)
(** * The metadata container: ownership

    Every object owns a live packet of its own, or none.  Allocating, cloning
    and growing a packet keep that and touch nothing of the other regions. *)

From S2P Require Import Prelude Memory Errors MetadataTables MetadataTags MetadataBuffer MetadataPacket MetadataMemory MetadataAdd MetadataEdit MetadataFind MetadataSteps CameraMetadata.
From stdpp Require Import list gmap.
#[local] Open Scope Z_scope.
#[local] Open Scope css_scope.

Abbreviation buf w this := (mBuffer (objects w this)).

(** A packet in a live region. *)
Definition packet (w : world) (p : Z) : Prop :=
  exists size, blocks w !! p = Some size /\ rd (memory w) p md.size <= size
    /\ wf (memory w) p /\ well_typed (memory w) p.

Record regions_ok (w : world) : Prop := {
  region_range b size : blocks w !! b = Some size -> 0 < b /\ 0 <= size /\ b + size <= 2 ^ 63;
  region_apart b size b' size' :
    blocks w !! b = Some size -> blocks w !! b' = Some size' -> b <> b' ->
    b + size <= b' \/ b' + size' <= b;
}.

Record owned (w : world) : Prop := {
  owned_regions : regions_ok w;
  owned_packet this : buf w this <> NULL -> packet w (buf w this);
  owned_once this that : buf w this <> NULL -> buf w this = buf w that -> this = that;
}.

(** Regions other than [p] are as they were, and still live. *)
Definition elsewhere (p : Z) (w w' : world) : Prop :=
  forall q size, blocks w !! q = Some size -> q <> p ->
    blocks w' !! q = Some size /\ forall a, q <= a < q + size -> memory w' a = memory w a.

(** Regions that no object owns. *)
Definition foreign (w : world) (b : Z) : Prop :=
  is_Some (blocks w !! b) /\ forall this, buf w this <> b.

(** What an object holds. *)
Definition datums (w : world) (this : Z) : list datum :=
  if is_null (buf w this) then [] else contents (memory w) (buf w this).

Lemma regions_same w w' : regions_ok w -> blocks w' = blocks w -> regions_ok w'.
Proof. intros [R D] B. split; rewrite B; assumption. Qed.

Lemma elsewhere_refl p w : elsewhere p w w.
Proof. intros q size Hq _. auto. Qed.

Lemma elsewhere_trans p w1 w2 w3 : elsewhere p w1 w2 -> elsewhere p w2 w3 -> elsewhere p w1 w3.
Proof.
  intros E1 E2 q size Hq Hne. destruct (E1 q size Hq Hne) as [B1 M1]. destruct (E2 q size B1 Hne) as [B2 M2].
  split; [exact B2 |]. intros a Ha. rewrite M2, M1 by exact Ha. reflexivity.
Qed.

Lemma elsewhere_packet p q w w' :
  elsewhere p w w' -> q <> p -> packet w q ->
  packet w' q /\ contents (memory w') q = contents (memory w) q
  /\ is_sorted (memory w') q = is_sorted (memory w) q.
Proof.
  intros E Hne (size & B & S & W & T). destruct (E q size B Hne) as [B' M'].
  destruct (wf_moved (memory w) (memory w') q W) as (W' & C & F); [intros a Ha; apply M'; lia |].
  destruct (slots_moved (memory w) (memory w') q W) as (_ & _ & R); [intros a Ha; apply M'; lia |].
  split; [| auto]. exists size. unfold well_typed. rewrite C. rewrite (R 0 ltac:(lia) : rd (memory w') q md.size = rd (memory w) q md.size). auto.
Qed.

(** ** Operations on one packet *)

Lemma kept_elsewhere p w m' :
  regions_ok w -> packet w p -> kept p (memory w) m' ->
  elsewhere p w (set_memory m' w) /\ packet (set_memory m' w) p.
Proof.
  intros R (size & B & S & W & T) (W' & T' & O & L). split.
  - intros q s Hq Hne. split; [exact Hq |]. intros a Ha. apply O.
    destruct (region_apart w R q s p size Hq B Hne); lia.
  - exists size. destruct L as (L & _). cbn [memory blocks set_memory]. rewrite L. auto.
Qed.

Lemma owned_elsewhere p w w' :
  owned w -> regions_ok w' -> elsewhere p w w' ->
  (forall this, buf w' this <> NULL -> packet w' (buf w' this) \/ (buf w' this = buf w this /\ buf w this <> p)) ->
  (forall this that, buf w' this <> NULL -> buf w' this = buf w' that -> this = that) -> owned w'.
Proof.
  intros O R E P U. split; [exact R | | exact U]. intros this Hn. destruct (P this Hn) as [H | [H1 H2]]; [exact H |].
  rewrite H1 in *. apply (elsewhere_packet p _ w); [exact E | exact H2 |]. apply owned_packet; assumption.
Qed.

(** What the caller of a method on [this] relies on. *)
Record preserved (this : Z) (w w' : world) : Prop := {
  pr_owned : owned w';
  pr_objects that : that <> this -> objects w' that = objects w that;
  pr_locked : mLocked (objects w' this) = mLocked (objects w this);
  pr_buffer : buf w' this = buf w this \/ blocks w !! buf w' this = None;
  pr_elsewhere : elsewhere (buf w this) w w';
  pr_foreign b : foreign w' b <-> foreign w b;
}.

Lemma preserved_refl this w : owned w -> preserved this w w.
Proof. intros O. split; auto using elsewhere_refl. Qed.

Lemma preserved_datums this that w w' :
  owned w -> preserved this w w' -> that <> this -> datums w' that = datums w that.
Proof.
  intros O [_ Ob _ _ E _] Hne. unfold datums. rewrite Ob by exact Hne.
  unfold is_null. destruct (Z.eqb_spec (buf w that) NULL) as [N | N]; [reflexivity |].
  apply (elsewhere_packet (buf w this) _ w); [exact E | | apply owned_packet; assumption].
  intros Eq. apply Hne. apply (owned_once w O that this); assumption.
Qed.

Lemma in_memory_preserved this w m' :
  owned w -> buf w this <> NULL -> kept (buf w this) (memory w) m' ->
  preserved this w (set_memory m' w) /\ packet (set_memory m' w) (buf w this).
Proof.
  intros O N K. pose proof (owned_packet w O this N) as P.
  destruct (kept_elsewhere _ w m' (owned_regions w O) P K) as [E P']. split; [| exact P'].
  split; auto.
  apply (owned_elsewhere (buf w this) w); [exact O | | exact E | | apply O].
  - apply (regions_same w); [apply O | reflexivity].
  - intros that Hn. cbn [objects set_memory]. destruct (Z.eq_dec (buf w that) (buf w this)) as [-> | Hne]; [left; exact P' | auto].
Qed.

(** ** New regions *)

Definition fresh (a n : Z) (w : world) : Prop :=
  0 < a /\ a + n <= 2 ^ 63 /\ blocks w !! a = None
  /\ forall b size, blocks w !! b = Some size -> a + n <= b \/ b + size <= a.

(** [w'] is [w] with a new region at [a]. *)
Record added (a n : Z) (w w' : world) : Prop := {
  added_fresh : fresh a n w;
  added_size : 0 < n;
  added_blocks : blocks w' = <[a := n]> (blocks w);
  added_objects : objects w' = objects w;
  added_memory : same_outside a (a + n) (memory w) (memory w');
}.

Lemma added_regions a n w w' : regions_ok w -> added a n w w' -> regions_ok w'.
Proof.
  intros [R D] [(F1 & F2 & F3 & F4) F5 B _ _]. split; rewrite B.
  - intros b size. rewrite lookup_insert_Some. intros [[<- <-] | [_ H]]; [lia | apply R, H].
  - intros b size b' size'. rewrite !lookup_insert_Some. intros [[<- <-] | [_ H]] [[<- <-] | [_ H']] Hne.
    + contradiction.
    + apply (F4 b' size'), H'.
    + destruct (F4 b size H); auto.
    + apply (D b size b' size'); assumption.
Qed.

Lemma added_elsewhere p a n w w' : added a n w w' -> elsewhere p w w'.
Proof.
  intros [(F1 & F2 & F3 & F4) F5 B _ M] q size Hq _. split.
  - rewrite B, lookup_insert_ne; [exact Hq |]. congruence.
  - intros x Hx. apply M. destruct (F4 q size Hq); lia.
Qed.

Lemma set_memory_id w : set_memory (memory w) w = w.
Proof. destruct w. reflexivity. Qed.

Section Allocating.
Context {A : Allocator} {AOk : AllocatorOk A}.

Lemma new_block_ok n w :
  0 < n ->
  (malloc (blocks w) n = NULL /\ new_block n w = (NULL, w))
  \/ exists a, new_block n w = (a, World (memory w) (<[a := n]> (blocks w)) (objects w)) /\ fresh a n w.
Proof.
  intros Hn. unfold new_block. destruct (Z.eqb_spec (malloc (blocks w) n) NULL) as [E | E].
  - left. split; [exact E |]. rewrite E. reflexivity.
  - right. exists (malloc (blocks w) n). unfold is_null. rewrite (proj2 (Z.eqb_neq _ _) E).
    split; [reflexivity |]. apply (malloc_apart (blocks w) n _ Hn eq_refl E).
Qed.

Lemma allocate_metadata_ok entries data w :
  0 <= entries -> 0 <= data -> data_start_for entries + data < 2 ^ 32 ->
  let n := data_start_for entries + data in
  (malloc (blocks w) n = NULL /\ allocate_metadata entries data w = (NULL, w))
  \/ exists a w', allocate_metadata entries data w = (a, w') /\ added a n w w'
       /\ wf (memory w') a /\ contents (memory w') a = [] /\ is_sorted (memory w') a = false
       /\ rd (memory w') a md.entry_count = 0 /\ rd (memory w') a md.data_count = 0
       /\ rd (memory w') a md.entry_capacity = entries /\ rd (memory w') a md.data_capacity = data
       /\ rd (memory w') a md.size = n.
Proof.
  intros He Hd Hn n. assert (entries < 2 ^ 58) by (unfold data_start_for in Hn; divlia).
  assert (36 <= n) by (unfold n, data_start_for; divlia). unfold data_start_for in Hn at 1.
  unfold allocate_metadata. rewrite calculate_size_eq by (unfold data_start_for in *; divlia). fold n.
  destruct (new_block_ok n w) as [[E ->] | (a & -> & F)]; [lia | left | right].
  - split; [exact E |]. unfold in_memory, allocate_icamera_metadata, place_icamera_metadata.
    change (is_null NULL) with true. cbv iota beta. rewrite set_memory_id. reflexivity.
  - unfold in_memory, allocate_icamera_metadata. cbn [memory]. rewrite calculate_size_eq by (unfold data_start_for in *; divlia). fold n.
    destruct (place_ok a n entries data (memory w)) as (m' & -> & E1 & E2 & E3 & E4 & E5 & E6 & E7 & _ & _ & E8 & S);
      try (fold n; unfold n, fresh in *; unfold data_start_for in *; divlia).
    exists a, (World m' (<[a := n]> (blocks w)) (objects w)). split; [reflexivity |]. split; [| auto 10].
    split; auto; [lia |]. cbn [memory]. eapply same_outside_weaken; [| | exact S]; lia.
Qed.

Lemma clone_metadata_ok src w :
  regions_ok w -> packet w src ->
  let n := compact_size (memory w) src in
  (malloc (blocks w) n = NULL /\ clone_metadata src w = (NULL, w))
  \/ exists a w', clone_metadata src w = (a, w') /\ added a n w w' /\ packet w' a
       /\ contents (memory w') a = contents (memory w) src.
Proof.
  intros R (size & B & S & W & T) n. pose proof (compact_size_bound _ _ W) as CS. fold n in CS.
  pose proof (rd_U32_range (memory w) src 12 : 0 <= rd (memory w) src md.entry_count < _).
  pose proof (rd_U32_range (memory w) src 24 : 0 <= rd (memory w) src md.data_count < _).
  unfold clone_metadata. rewrite not_null by apply W.
  unfold get_icamera_metadata_entry_count, get_icamera_metadata_data_count.
  rewrite calculate_size_eq by lia. fold (compact_size (memory w) src). fold n.
  destruct (new_block_ok n w) as [[E ->] | (a & -> & F)]; [lia | left | right].
  - split; [exact E |]. unfold in_memory, clone_icamera_metadata, allocate_icamera_metadata, place_icamera_metadata.
    rewrite not_null by apply W. change (is_null NULL) with true. cbn [negb andb]. repeat (change (is_null NULL) with true; cbv iota beta zeta delta [negb andb]). rewrite set_memory_id. reflexivity.
  - unfold in_memory. cbn [memory]. destruct F as (F1 & F2 & F3 & F4).
    destruct (clone_ok a src (memory w) W F1) as (m' & -> & W' & C & _ & Sm & Sz).
    { fold n. destruct (F4 src size B); lia. }
    rewrite not_null by exact F1. cbn [andb].
    exists a, (World m' (<[a := n]> (blocks w)) (objects w)). split; [reflexivity |]. split.
    + split; auto; [repeat split; auto | lia].
    + split; [| exact C]. exists n. cbn [blocks memory]. rewrite lookup_insert_eq. unfold well_typed. rewrite C.
      fold n in Sz. rewrite Sz. repeat split; auto; [lia | apply W' ..].
Qed.

(** ** A new packet in the place of the old one *)

Lemma regions_free p w w' : regions_ok w -> blocks w' = delete p (blocks w) -> regions_ok w'.
Proof.
  intros [R D] B. split; rewrite B.
  - intros b size H. apply R. eapply lookup_delete_Some in H. apply H.
  - intros b size b' size' H H'. apply lookup_delete_Some in H, H'. apply D; tauto.
Qed.

Lemma set_object_other this that o w : that <> this -> objects (set_object this o w) that = objects w that.
Proof. intros H. cbn [objects set_object]. rewrite (proj2 (Z.eqb_neq _ _) H). reflexivity. Qed.

Lemma set_object_same this o w : objects (set_object this o w) this = o.
Proof. cbn [objects set_object]. rewrite Z.eqb_refl. reflexivity. Qed.

Definition replaced (this a : Z) (w w1 : world) : world :=
  free_icamera_metadata (buf w this) (set_mBuffer this a w1).

Lemma replaced_ok this a n w w1 :
  owned w -> added a n w w1 -> packet w1 a ->
  preserved this w (replaced this a w w1) /\ packet (replaced this a w w1) a
  /\ buf (replaced this a w w1) this = a.
Proof.
  intros O Ad P. set (w2 := replaced this a w w1). pose proof (owned_regions w O) as R.
  pose proof (added_elsewhere (buf w this) a n w w1 Ad) as E1. pose proof (added_regions a n w w1 R Ad) as R1.
  destruct Ad as [(F1 & F2 & F3 & F4) F5 B Ob M].
  assert (Hn : forall that, buf w that <> a).
  { intros that Eq. assert (N : buf w that <> NULL) by (rewrite Eq; unfold NULL; lia).
    destruct (owned_packet w O that N) as (s & Bs & _). congruence. }
  assert (Ob2 : forall that, that <> this -> objects w2 that = objects w that).
  { intros that H. change (objects w2 that) with (objects (set_mBuffer this a w1) that).
    unfold set_mBuffer. rewrite set_object_other, Ob by exact H. reflexivity. }
  assert (Ot : objects w2 this = CM a (mLocked (objects w this))).
  { change (objects w2 this) with (objects (set_mBuffer this a w1) this). unfold set_mBuffer.
    rewrite set_object_same, Ob. reflexivity. }
  assert (B2 : blocks w2 = delete (buf w this) (<[a := n]> (blocks w))) by (rewrite <- B; reflexivity).
  assert (M2 : memory w2 = memory w1) by reflexivity.
  assert (E : elsewhere (buf w this) w w2).
  { intros q s Hq Hne. destruct (E1 q s Hq Hne) as [H1 H2]. rewrite M2, B2, lookup_delete_ne, <- B by congruence. auto. }
  assert (P2 : packet w2 a).
  { destruct P as (s & H1 & H2). exists s. rewrite M2, B2, lookup_delete_ne, <- B by apply Hn. auto. }
  split; [| split; [exact P2 | rewrite Ot; reflexivity]].
  split; [| exact Ob2 | rewrite Ot; reflexivity | right; rewrite Ot; exact F3 | exact E |].
  - apply (owned_elsewhere (buf w this) w); [exact O | apply (regions_free (buf w this) w1); [exact R1 | rewrite B2, B; reflexivity] | exact E | |].
    + intros that N. destruct (Z.eq_dec that this) as [-> | Hne]; [left; rewrite Ot; exact P2 |].
      rewrite Ob2 in * by exact Hne. right. split; [reflexivity |]. intros Eq.
      apply Hne, (owned_once w O that this); assumption.
    + intros x y N Eq. destruct (Z.eq_dec x this) as [-> | Hx], (Z.eq_dec y this) as [-> | Hy]; auto.
      * rewrite Ot, Ob2 in Eq by exact Hy. cbn in Eq. destruct (Hn y). congruence.
      * rewrite Ot, Ob2 in Eq by exact Hx. cbn in Eq. destruct (Hn x). congruence.
      * rewrite !Ob2 in * by assumption. apply (owned_once w O); assumption.
  - intros b. unfold foreign. rewrite B2. split.
    + intros [[s Hs] Hb]. apply lookup_delete_Some in Hs as [Hbo Hs].
      apply lookup_insert_Some in Hs as [[-> _] | [_ Hs]]; [destruct (Hb this); rewrite Ot; reflexivity |].
      split; [eauto |]. intros that. destruct (Z.eq_dec that this) as [-> | Hne]; [congruence |]. rewrite <- Ob2 by exact Hne. apply Hb.
    + intros [[s Hs] Hb]. split.
      * rewrite lookup_delete_ne by apply Hb. rewrite lookup_insert_ne by congruence. eauto.
      * intros that. destruct (Z.eq_dec that this) as [-> | Hne]; [rewrite Ot; cbn; congruence |].
        rewrite Ob2 by exact Hne. apply Hb.
Qed.

(** Without an old packet nothing is freed. *)
Lemma replaced_null this a n w w1 :
  regions_ok w -> added a n w w1 -> buf w this = NULL -> replaced this a w w1 = set_mBuffer this a w1.
Proof.
  intros R Ad N. unfold replaced, free_icamera_metadata, set_mBuffer, set_object. rewrite N.
  cbn [blocks memory objects]. f_equal. apply delete_id.
  destruct (blocks w1 !! NULL) as [s |] eqn:Hs; [| reflexivity].
  apply (region_range _ (added_regions a n w w1 R Ad)) in Hs. unfold NULL in Hs. lia.
Qed.

(** ** Growing *)

(** An upper bound of what the grown packet needs. *)
Definition grown (w : world) (this extraEntries extraData : Z) : Z :=
  let p := buf w this in
  if is_null p then data_start_for (2 * extraEntries) + 2 * extraData
  else data_start_for (2 * (rd (memory w) p md.entry_count + extraEntries) + rd (memory w) p md.entry_capacity)
       + 2 * (rd (memory w) p md.data_count + extraData) + rd (memory w) p md.data_capacity.

(** The packet of an object has room for so much more. *)
Definition has_room (w : world) (this extraEntries extraData : Z) : Prop :=
  let p := buf w this in
  rd (memory w) p md.entry_count + extraEntries <= rd (memory w) p md.entry_capacity
  /\ rd (memory w) p md.data_count + extraData <= rd (memory w) p md.data_capacity.

Definition sorted (w : world) (this : Z) : bool :=
  negb (is_null (buf w this)) && is_sorted (memory w) (buf w this).

(** [malloc] cannot serve a packet of 4 GB. *)
Definition out_of_memory (w : world) : Prop := exists n, 0 < n < 2 ^ 32 /\ malloc (blocks w) n = NULL.

Definition resized (this xe xd : Z) (w w' : world) : Prop :=
  preserved this w w' /\ buf w' this <> NULL /\ datums w' this = datums w this
  /\ sorted w' this = sorted w this /\ has_room w' this xe xd.

Lemma resize_first this xe xd w :
  owned w -> buf w this = NULL -> 0 <= xe -> 0 <= xd -> grown w this xe xd < 2 ^ 32 ->
  (exists w', resizeIfNeeded this xe xd w = (NO_MEMORY, w') /\ out_of_memory w)
  \/ exists w', resizeIfNeeded this xe xd w = (OK, w') /\ resized this xe xd w w'.
Proof.
  intros O N He Hd G. unfold grown in G. rewrite N in G. change (is_null NULL) with true in G. cbv iota zeta in G.
  assert (Hb : 0 <= xe < 2 ^ 31 /\ 0 <= xd < 2 ^ 31) by (unfold data_start_for in G; divlia).
  unfold resizeIfNeeded. rewrite N. change (is_null NULL) with true. cbv iota zeta.
  rewrite !u64_small by lia.
  destruct (allocate_metadata_ok (xe * 2) (xd * 2) w) as [[E ->] | (a & w1 & -> & Ad & W & C & F & En & Dn & Ec & Dc & Sz)];
    try (replace (xe * 2) with (2 * xe) by lia; lia).
  - left. eexists. split; [reflexivity |]. exists (data_start_for (xe * 2) + xd * 2). split; [| exact E].
    replace (xe * 2) with (2 * xe) by lia. unfold data_start_for in *. split; [divlia | lia].
  - right. pose proof (added_fresh _ _ _ _ Ad) as (F1 & _). rewrite not_null by exact F1.
    assert (P : packet w1 a).
    { eexists. split; [rewrite (added_blocks _ _ _ _ Ad); apply lookup_insert_eq |]. rewrite Sz. split; [lia |].
      split; [exact W |]. unfold well_typed. rewrite C. constructor. }
    destruct (replaced_ok this a _ w w1 O Ad P) as (Pr & P' & B').
    rewrite (replaced_null this a _ w w1 (owned_regions w O) Ad N) in *.
    exists (set_mBuffer this a w1). split; [reflexivity |].
    assert (M : memory (set_mBuffer this a w1) = memory w1) by reflexivity.
    split; [exact Pr |]. unfold datums, sorted, has_room. rewrite B', N, M, C, F, En, Dn, Ec, Dc.
    rewrite (not_null a F1). change (is_null NULL) with true. repeat split; [unfold NULL; lia | lia | lia].
Qed.

Lemma resize_next this xe xd w :
  owned w -> buf w this <> NULL -> 0 <= xe -> 0 <= xd -> grown w this xe xd < 2 ^ 32 ->
  (exists w', resizeIfNeeded this xe xd w = (NO_MEMORY, w') /\ out_of_memory w)
  \/ exists w', resizeIfNeeded this xe xd w = (OK, w') /\ resized this xe xd w w'.
Proof.
  intros O N He Hd G. destruct (owned_packet w O this N) as (size & Bo & So & W & T).
  unfold grown in G. set (p := buf w this) in *. pose proof (wf_pos _ _ W) as Hp. rewrite (not_null p Hp) in G. cbv zeta in G.
  destruct (wf_bounds _ _ W) as [B1 B2 B3 B4 B5 B6 B7 B8 B9].
  pose proof (wf_entry_count _ _ W). pose proof (wf_data_count _ _ W).
  set (m := memory w) in *. set (n := rd m p md.entry_count) in *. set (u := rd m p md.data_count) in *.
  set (ce := rd m p md.entry_capacity) in *. set (cd := rd m p md.data_capacity) in *.
  assert (Hsm : 2 * (n + xe) + ce < 2 ^ 32) by (unfold data_start_for in G; divlia).
  assert (Hsd : 2 * (u + xd) + cd < 2 ^ 32) by (unfold data_start_for in G; divlia).
  unfold resizeIfNeeded. fold p. rewrite (not_null p Hp). cbv zeta.
  unfold get_icamera_metadata_entry_count, get_icamera_metadata_entry_capacity,
    get_icamera_metadata_data_count, get_icamera_metadata_data_capacity. fold m n u ce cd.
  rewrite !(u64_small (n + xe)), !(u64_small (u + xd)), !u64_small by lia.
  set (ne := if ce <? n + xe then (n + xe) * 2 else ce). set (nd := if cd <? u + xd then (u + xd) * 2 else cd).
  assert (Hne : ce <= ne /\ n + xe <= ne /\ ne <= 2 * (n + xe) + ce) by (unfold ne; destruct (Z.ltb_spec ce (n + xe)); lia).
  assert (Hnd : cd <= nd /\ u + xd <= nd /\ nd <= 2 * (u + xd) + cd) by (unfold nd; destruct (Z.ltb_spec cd (u + xd)); lia).
  clearbody ne nd. destruct ((ce <? ne) || (cd <? nd)) eqn:Egrow.
  2: { right. exists w. split; [reflexivity |]. split; [apply preserved_refl, O |]. unfold has_room. fold p m n u ce cd.
       bsimp. repeat split; auto; lia. }
  assert (Hsz : data_start_for ne + nd < 2 ^ 32) by (unfold data_start_for in *; divlia).
  destruct (allocate_metadata_ok ne nd w) as [[E ->] | (a & w1 & -> & Ad & Wa & C & F & En & Dn & Ec & Dc & Sz)]; try lia.
  - left. eexists. split; [reflexivity |]. exists (data_start_for ne + nd). split; [| exact E].
    unfold data_start_for in *. split; [divlia | lia].
  - right. pose proof (added_fresh _ _ _ _ Ad) as (F1 & F2 & F3 & F4). rewrite not_null by exact F1. unfold in_memory.
    destruct (elsewhere_packet NULL p w w1 (added_elsewhere _ _ _ _ _ Ad) ltac:(unfold NULL; lia)) as (Pp & Cp & Fp);
      [apply owned_packet; assumption |].
    destruct Pp as (size1 & Bo1 & So1 & W1 & T1).
    assert (Rp : forall o, 0 <= o <= 32 -> rd (memory w1) p (U32 o) = rd m p (U32 o)).
    { intros o Ho. apply (slots_moved m (memory w1) p W); [| exact Ho]. intros x Hx.
      destruct (added_elsewhere NULL _ _ _ _ Ad p size Bo ltac:(unfold NULL; lia)) as [_ Hm]. apply Hm. lia. }
    destruct (append_ok (memory w1) a p Wa W1) as (m2 & E2 & W2 & C2 & S2 & Fl2 & L2 & U2).
    + rewrite Sz, (Rp 0 ltac:(lia) : rd (memory w1) p md.size = rd m p md.size). destruct (F4 p size Bo); lia.
    + rewrite En, Ec, (Rp 12 ltac:(lia) : rd (memory w1) p md.entry_count = n). lia.
    + rewrite Dn, Dc, (Rp 24 ltac:(lia) : rd (memory w1) p md.data_count = u). lia.
    + rewrite F. discriminate.
    + change (memory (set_mBuffer this a w1)) with (memory w1). rewrite E2. rewrite C, Cp in C2. cbn [app] in C2.
      rewrite En, F, Fp in Fl2. cbn [Z.eqb orb] in Fl2. rewrite Dn, (Rp 24 ltac:(lia) : rd (memory w1) p md.data_count = u) in U2.
      set (w1' := set_memory m2 w1).
      assert (Ad' : added a (data_start_for ne + nd) w w1').
      { destruct Ad as [A1 A2 A3 A4 A5]. split; auto. eapply same_outside_trans; [exact A5 |]. rewrite Sz in S2. exact S2. }
      assert (P' : packet w1' a).
      { eexists. split; [cbn [blocks w1' set_memory]; rewrite (added_blocks _ _ _ _ Ad); apply lookup_insert_eq |].
        cbn [memory w1' set_memory]. destruct L2 as (-> & _). rewrite Sz. split; [lia |]. split; [exact W2 |].
        unfold well_typed. rewrite C2. exact T. }
      destruct (replaced_ok this a _ w w1' O Ad' P') as (Pr & P2 & B').
      exists (replaced this a w w1'). split; [reflexivity |].
      assert (M : memory (replaced this a w w1') = m2) by reflexivity.
      assert (N2 : rd m2 a md.entry_count = n).
      { pose proof (f_equal length C2) as Hl. rewrite !contents_length in Hl. fold m n in Hl.
        pose proof (rd_U32_range m2 a 12 : 0 <= rd m2 a md.entry_count < _). lia. }
      split; [exact Pr |]. unfold datums, sorted, has_room. rewrite B', M. fold p. rewrite (not_null a F1), (not_null p Hp).
      fold m. destruct L2 as (_ & Lec & _ & Ldc & _). rewrite C2, Fl2, N2, U2, Lec, Ldc, Ec, Dc.
      repeat split; [unfold NULL; lia | lia | lia].
Qed.

Lemma resize_ok this xe xd w :
  owned w -> 0 <= xe -> 0 <= xd -> grown w this xe xd < 2 ^ 32 ->
  (exists w', resizeIfNeeded this xe xd w = (NO_MEMORY, w') /\ out_of_memory w)
  \/ exists w', resizeIfNeeded this xe xd w = (OK, w') /\ resized this xe xd w w'.
Proof.
  intros O. destruct (Z.eq_dec (buf w this) NULL) as [N | N]; [apply resize_first | apply resize_next]; assumption.
Qed.
End Allocating.
