(* ===== verification/CameraMetadataMap.v ===== *)
(** * The metadata container: a map

    What a client sees of a [CameraMetadata]: a map from tags to typed values.
    Every method does to the packets of the objects what its specification
    does to the maps. *)

From Stdlib Require Import FunctionalExtensionality.
From S2P Require Import Prelude Memory Errors MetadataTables MetadataTags MetadataBuffer MetadataPacket MetadataMemory MetadataAdd MetadataEdit MetadataFind MetadataSteps CameraMetadata CameraMetadataHeap.
From stdpp Require Import list gmap.
#[local] Open Scope Z_scope.
#[local] Open Scope css_scope.

(** ** Lists of data as maps *)

Definition to_map (l : list datum) : gmap Z datum := list_to_map (map (fun d => (d_tag d, d)) l).

Definition tags_of (l : list datum) : list Z := map d_tag l.

Lemma to_map_spec l t d : NoDup (tags_of l) -> to_map l !! t = Some d <-> d ∈ l /\ d_tag d = t.
Proof.
  intros N. unfold to_map. rewrite <- elem_of_list_to_map.
  - rewrite list_elem_of_In, in_map_iff. split.
    + intros (d' & [= E <-] & H). split; [apply list_elem_of_In, H | exact E].
    + intros [H E]. exists d. split; [congruence | apply list_elem_of_In, H].
  - change (NoDup (map fst (map (fun d => (d_tag d, d)) l))). rewrite map_map. exact N.
Qed.

Lemma to_map_eq l m :
  NoDup (tags_of l) -> (forall t d, (d ∈ l /\ d_tag d = t) <-> m !! t = Some d) -> to_map l = m.
Proof. intros N H. apply map_eq. intros t. apply option_eq. intros d. rewrite to_map_spec by exact N. apply H. Qed.

Lemma tags_unique l i j d d' :
  NoDup (tags_of l) -> l !! i = Some d -> l !! j = Some d' -> d_tag d = d_tag d' -> i = j.
Proof.
  intros N Hi Hj E. apply (NoDup_lookup (tags_of l) i j (d_tag d)); [exact N | |];
    unfold tags_of; change (map ?f ?l) with (f <$> l); rewrite list_lookup_fmap, ?Hi, ?Hj; cbn; congruence.
Qed.

Lemma tags_insert l i d d' :
  l !! i = Some d -> d_tag d' = d_tag d -> tags_of (<[i := d']> l) = tags_of l.
Proof.
  intros Hi E. unfold tags_of. change (map ?f ?l) with (f <$> l). rewrite list_fmap_insert, E.
  apply list_insert_id. rewrite list_lookup_fmap, Hi. reflexivity.
Qed.

Lemma to_map_insert l i d d' :
  NoDup (tags_of l) -> l !! i = Some d -> d_tag d' = d_tag d ->
  to_map (<[i := d']> l) = <[d_tag d' := d']> (to_map l).
Proof.
  intros N Hi E. assert (Hl := lookup_lt_Some _ _ _ Hi).
  apply to_map_eq; [rewrite (tags_insert l i d d' Hi E); exact N |]. intros t x.
  rewrite lookup_insert_Some, to_map_spec by exact N. split.
  - intros [H <-]. apply list_elem_of_lookup in H as [j Hj].
    destruct (decide (i = j)) as [<- | Hne].
    + rewrite list_lookup_insert_eq in Hj by exact Hl. injection Hj as ->. auto.
    + rewrite list_lookup_insert_ne in Hj by exact Hne. right. split; [| eauto using list_elem_of_lookup_2].
      intros Eq. apply Hne. apply (tags_unique l i j d x); congruence.
  - intros [[<- <-] | (Hne & H & <-)].
    + split; [| reflexivity]. apply list_elem_of_lookup. exists i. apply list_lookup_insert_eq, Hl.
    + split; [| reflexivity]. apply list_elem_of_lookup in H as [j Hj]. apply list_elem_of_lookup. exists j.
      rewrite list_lookup_insert_ne; [exact Hj |]. intros ->. rewrite Hi in Hj. injection Hj as ->. congruence.
Qed.

Lemma to_map_snoc l d :
  (forall x, x ∈ l -> d_tag x <> d_tag d) -> NoDup (tags_of l) ->
  NoDup (tags_of (l ++ [d])) /\ to_map (l ++ [d]) = <[d_tag d := d]> (to_map l).
Proof.
  intros H N. assert (N' : NoDup (tags_of (l ++ [d]))).
  { unfold tags_of. rewrite map_app. apply NoDup_app. split; [exact N |]. split; [| apply NoDup_singleton].
    intros t Ht Ht'. apply list_elem_of_singleton in Ht' as ->.
    apply list_elem_of_In, in_map_iff in Ht as (x & E & Hx). apply (H x); [apply list_elem_of_In, Hx | exact E]. }
  split; [exact N' |]. apply to_map_eq; [exact N' |]. intros t x.
  rewrite lookup_insert_Some, elem_of_app, list_elem_of_singleton, to_map_spec by exact N. split.
  - intros [[Hx | ->] <-]; [right; split; [intros E; apply (H x Hx); auto | auto] | auto].
  - intros [[<- <-] | (Hne & Hx & <-)]; auto.
Qed.

Lemma to_map_delete l i d :
  NoDup (tags_of l) -> l !! i = Some d ->
  NoDup (tags_of (delete i l)) /\ to_map (delete i l) = delete (d_tag d) (to_map l).
Proof.
  intros N Hi. apply list_elem_of_split_length in Hi as (l1 & l2 & -> & ->). rewrite delete_middle.
  unfold tags_of in *. rewrite map_app in N |- *. cbn [map] in N.
  apply NoDup_app in N as (N1 & Nx & N2). apply NoDup_cons in N2 as [N3 N4].
  assert (N' : NoDup (map d_tag l1 ++ map d_tag l2)).
  { apply NoDup_app. split; [exact N1 |]. split; [| exact N4]. intros t H1 H2. apply (Nx t H1). right. exact H2. }
  split; [exact N' |]. apply to_map_eq; [unfold tags_of; rewrite map_app; exact N' |]. intros t x.
  rewrite lookup_delete_Some, to_map_spec.
  2: { unfold tags_of. rewrite map_app. cbn [map]. apply NoDup_app. split; [exact N1 |]. split; [exact Nx |]. constructor; assumption. }
  rewrite !elem_of_app, elem_of_cons. split.
  - intros [H <-]. split; [| tauto]. intros E. destruct H as [H | H].
    + apply (Nx (d_tag x)); [apply list_elem_of_In, in_map, list_elem_of_In, H | rewrite E; left].
    + apply N3. rewrite E. apply list_elem_of_In, in_map, list_elem_of_In, H.
  - intros (Hne & [H | [-> | H]] & <-); auto. contradiction.
Qed.

Lemma to_map_perm l l' :
  Permutation l l' -> NoDup (tags_of l) -> NoDup (tags_of l') /\ to_map l' = to_map l.
Proof.
  intros P N. assert (N' : NoDup (tags_of l')) by (unfold tags_of in *; rewrite <- P; exact N).
  split; [exact N' |]. apply to_map_eq; [exact N' |]. intros t x. rewrite <- P, to_map_spec by exact N. reflexivity.
Qed.

Lemma to_map_union l l' :
  NoDup (tags_of l) -> NoDup (tags_of l') -> (forall d d', d ∈ l -> d' ∈ l' -> d_tag d <> d_tag d') ->
  NoDup (tags_of (l ++ l')) /\ to_map (l ++ l') = to_map l ∪ to_map l'.
Proof.
  intros N N' H. assert (N2 : NoDup (tags_of (l ++ l'))).
  { unfold tags_of. rewrite map_app. apply NoDup_app. split; [exact N |]. split; [| exact N'].
    intros t H1 H2. apply list_elem_of_In, in_map_iff in H1 as (d & <- & H1), H2 as (d' & E & H2).
    apply (H d d'); [apply list_elem_of_In, H1 | apply list_elem_of_In, H2 | congruence]. }
  split; [exact N2 |]. apply to_map_eq; [exact N2 |]. intros t x. rewrite elem_of_app, lookup_union_Some.
  - rewrite !to_map_spec by assumption. tauto.
  - apply map_disjoint_spec. intros t' d d'. rewrite !to_map_spec by assumption. intros [H1 <-] [H2 E].
    apply (H d d' H1 H2). congruence.
Qed.

(** ** What a client sees *)

(** The map of an object, none without a packet, and whether it is locked. *)
Definition value : Type := option (gmap Z datum) * bool.

Definition abs (w : world) (this : Z) : value :=
  (if is_null (buf w this) then None else Some (to_map (contents (memory w) (buf w this))),
   mLocked (objects w this)).

(** No packet has a tag twice. *)
Definition unique (w : world) : Prop := forall this, NoDup (tags_of (datums w this)).

(** What every method leaves: nothing is leaked or freed that is not its own,
    and the regions of others are as they were. *)
Record sound (w w' : world) : Prop := {
  sound_owned : owned w';
  sound_foreign b : foreign w' b <-> foreign w b;
  sound_kept b size : foreign w b -> blocks w !! b = Some size ->
    blocks w' !! b = Some size /\ forall a, b <= a < b + size -> memory w' a = memory w a;
}.

Lemma preserved_sound this w w' : preserved this w w' -> sound w w'.
Proof.
  intros [O _ _ _ E F]. split; [exact O | exact F |]. intros b size [_ Hb] B. apply E; [exact B |].
  intros ->. apply (Hb this). reflexivity.
Qed.

Lemma abs_datums w this : buf w this <> NULL -> abs w this = (Some (to_map (datums w this)), mLocked (objects w this)).
Proof. intros N. unfold abs, datums, is_null. rewrite (proj2 (Z.eqb_neq _ _) N). reflexivity. Qed.

Lemma abs_null w this : buf w this = NULL -> abs w this = (None, mLocked (objects w this)).
Proof. intros N. unfold abs. rewrite N. reflexivity. Qed.

(** The map, empty when there is none. *)
Lemma abs_default w this : default ∅ (fst (abs w this)) = to_map (datums w this).
Proof. unfold abs, datums. destruct (is_null _); reflexivity. Qed.

Definition upd_value (s : Z -> value) (this : Z) (v : value) (id : Z) : value := if id =? this then v else s id.

Lemma preserved_abs this w w' v :
  owned w -> preserved this w w' -> abs w' this = v -> forall id, abs w' id = upd_value (abs w) this v id.
Proof.
  intros O P E id. unfold upd_value. destruct (Z.eqb_spec id this) as [-> | Hne]; [exact E |].
  pose proof (preserved_datums this id w w' O P Hne) as D. destruct P as [_ Ob _ _ _ _].
  destruct (Z.eq_dec (buf w id) NULL) as [N | N].
  - rewrite !abs_null; rewrite ?Ob by exact Hne; auto.
  - rewrite !abs_datums; rewrite ?Ob, ?D by exact Hne; auto.
Qed.

Lemma upd_value_id w this id : upd_value (abs w) this (abs w this) id = abs w id.
Proof. unfold upd_value. destruct (Z.eqb_spec id this) as [-> |]; reflexivity. Qed.

Lemma preserved_unique this w w' :
  owned w -> unique w -> preserved this w w' -> NoDup (tags_of (datums w' this)) -> unique w'.
Proof.
  intros O U P N id. destruct (Z.eq_dec id this) as [-> | Hne]; [exact N |].
  rewrite (preserved_datums this id w w' O P Hne). apply U.
Qed.

(** ** Moving packets between objects *)

Lemma handed_over p w w' :
  owned w -> memory w' = memory w -> blocks w' = delete p (blocks w) ->
  (p <> NULL -> exists y, buf w y = p) ->
  (forall x, buf w' x <> NULL -> buf w' x <> p /\ exists y, buf w y = buf w' x) ->
  (forall y, buf w y <> NULL -> buf w y <> p -> exists x, buf w' x = buf w y) ->
  (forall x x', buf w' x <> NULL -> buf w' x = buf w' x' -> x = x') ->
  sound w w'.
Proof.
  intros O M B Hp H1 H2 H3. pose proof (owned_regions w O) as R.
  assert (Hn : blocks w !! NULL = None).
  { destruct (blocks w !! NULL) as [s |] eqn:E; [| reflexivity]. apply (region_range w R) in E. unfold NULL in E. lia. }
  assert (Hf : forall b, foreign w b -> b <> p).
  { intros b [[s Hs] Hb] ->. destruct (Z.eq_dec p NULL) as [-> | N]; [congruence |]. destruct (Hp N) as [y Hy]. apply (Hb y Hy). }
  split.
  - split; [apply (regions_free p w); assumption | | exact H3].
    intros x N. destruct (H1 x N) as (Hx & y & Hy). destruct (owned_packet w O y) as (s & Bs & Hs); [congruence |].
    exists s. rewrite M, B, lookup_delete_ne, <- Hy by congruence. auto.
  - intros b. split.
    + intros [[s Hs] Hb]. rewrite B in Hs. apply lookup_delete_Some in Hs as [Hbp Hs]. split; [eauto |].
      intros y Hy. destruct (H2 y) as [x Hx]; [| congruence |].
      * intros N. rewrite <- Hy, N in Hs. congruence.
      * apply (Hb x). congruence.
    + intros F. pose proof (Hf b F) as Hbp. destruct F as [[s Hs] Hb]. split.
      * rewrite B, lookup_delete_ne by congruence. eauto.
      * intros x Hx. destruct (H1 x) as (_ & y & Hy); [intros N; rewrite <- Hx, N in Hs; congruence |].
        apply (Hb y). congruence.
  - intros b s F Hs. rewrite B, M, lookup_delete_ne by (apply not_eq_sym, Hf, F). auto.
Qed.

Section Methods.
Context {A : Allocator} {AOk : AllocatorOk A} {L : CLibrary} {LOk : CLibraryOk L}.

Lemma preserved_trans this w1 w2 w3 :
  preserved this w1 w2 -> preserved this w2 w3 -> owned w1 -> preserved this w1 w3.
Proof.
  intros [O1 Ob1 L1 U1 E1 F1] [O2 Ob2 L2 U2 E2 F2]. split; auto.
  - intros that Hne. rewrite Ob2, Ob1 by exact Hne. reflexivity.
  - congruence.
  - destruct U2 as [U2 | U2]; [rewrite U2; exact U1 |].
    destruct (Z.eq_dec (buf w3 this) (buf w1 this)) as [Eq | Ne]; [left; exact Eq | right].
    destruct (blocks w1 !! buf w3 this) as [size |] eqn:B; [| reflexivity].
    destruct (E1 _ size B Ne) as [B' _]. congruence.
  - intros q size Hq Hne. destruct (E1 q size Hq Hne) as [B M].
    assert (Hd : q <> buf w2 this) by (destruct U1 as [U1 | U1]; congruence).
    destruct (E2 q size B Hd) as [B' M']. split; [exact B' |]. intros a Ha. rewrite M', M by exact Ha. reflexivity.
  - intros b. rewrite F2, F1. reflexivity.
Qed.

(** An operation on the packet of [this]. *)
Lemma in_memory_ok this w m' :
  owned w -> buf w this <> NULL -> kept (buf w this) (memory w) m' ->
  preserved this w (set_memory m' w) /\ datums (set_memory m' w) this = contents m' (buf w this).
Proof.
  intros O N K. destruct (in_memory_preserved this w m' O N K) as [P _]. split; [exact P |].
  unfold datums, is_null. cbn [objects set_memory memory]. rewrite (proj2 (Z.eqb_neq _ _) N). reflexivity.
Qed.

(** Values of the caller: in a live region that is not the packet itself. *)
Definition source (w : world) (this type data count : Z) : Prop :=
  exists b size, blocks w !! b = Some size /\ b <> buf w this /\ b <= data
    /\ data + count * type_size type <= b + size /\ 0 <= count /\ count * type_size type < 2 ^ 62.

Lemma source_values w w' this type data count :
  owned w -> source w this type data count -> preserved this w w' -> buf w' this <> NULL ->
  values_at (memory w') (buf w' this) type data count
  /\ bytes (memory w') data (count * type_size type) = bytes (memory w) data (count * type_size type).
Proof.
  intros O (b & size & B & Hb & Hd & Hs & Hc & Hz) P N. pose proof (owned_regions w O) as R.
  destruct (region_range w R b size B) as (R1 & R2 & R3).
  destruct (pr_elsewhere _ _ _ P b size B Hb) as [B' M'].
  destruct (owned_packet w' (pr_owned _ _ _ P) this N) as (s & Bs & Hsz & _).
  assert (b <> buf w' this) as Hb' by (destruct (pr_buffer _ _ _ P); congruence).
  split.
  - unfold values_at. destruct (region_apart w' (owned_regions _ (pr_owned _ _ _ P)) b size _ s B' Bs Hb'); lia.
  - apply bytes_ext. intros k Hk. apply M'. lia.
Qed.

Definition updated_datums (l l' : list datum) (d : datum) : Prop :=
  (exists i d0, l !! i = Some d0 /\ d_tag d0 = d_tag d /\ l' = <[i := d]> l)
  \/ ((forall x, x ∈ l -> d_tag x <> d_tag d) /\ l' = l ++ [d]).

Lemma updated_map l l' d :
  NoDup (tags_of l) -> updated_datums l l' d ->
  NoDup (tags_of l') /\ to_map l' = <[d_tag d := d]> (to_map l).
Proof.
  intros N [(i & d0 & Hi & E & ->) | [H ->]].
  - split; [rewrite (tags_insert l i d0 d Hi) by congruence; exact N | apply (to_map_insert l i d0 d); congruence].
  - apply to_map_snoc; assumption.
Qed.

Lemma updateImpl_ok this tag data count w :
  let t := get_icamera_metadata_tag_type tag in
  owned w -> 0 <= tag < 2 ^ 32 -> t <> -1 -> mLocked (objects w this) = false ->
  source w this t data count -> grown w this 1 (room_for (count * type_size t)) < 2 ^ 32 ->
  (out_of_memory w /\ fst (updateImpl this tag data count w) = NO_MEMORY)
  \/ exists w', updateImpl this tag data count w = (OK, w') /\ preserved this w w' /\ buf w' this <> NULL
       /\ updated_datums (datums w this) (datums w' this)
            (Datum tag t count (bytes (memory w) data (count * type_size t))).
Proof.
  intros t O Ht Hne Hl Src G. assert (is_type t) as Hty by (destruct (tag_type_range tag (proj1 Ht)); [contradiction | assumption]).
  pose proof Src as (_ & _ & _ & _ & _ & _ & Hc & Hz). destruct (room_for_spec (count * type_size t)) as (_ & R0 & R1);
    [pose proof (type_size_range t Hty); nia |].
  unfold updateImpl. rewrite Hl. fold t. rewrite (proj2 (Z.eqb_neq _ _) Hne). cbv zeta.
  assert (u8 t = t) as -> by (unfold u8, is_type, ICAMERA_NUM_TYPES in *; apply Z.mod_small; lia).
  rewrite data_size_room by assumption.
  destruct (resize_ok this 1 (room_for (count * type_size t)) w O) as [(w1 & -> & Hoom) | (w1 & -> & P1 & N1 & D1 & _ & Hr1 & Hr2)];
    [lia | lia | exact G | left; auto | right].
  change (OK =? OK) with true. cbv iota. pose proof (pr_owned _ _ _ P1) as O1.
  destruct (owned_packet w1 O1 this N1) as (s1 & B1 & S1 & W1 & T1).
  destruct (source_values w w1 this t data count O Src P1 N1) as [V Eb].
  assert (Ed : datums w1 this = contents (memory w1) (buf w1 this))
    by (unfold datums; rewrite not_null by apply W1; reflexivity).
  destruct (find_ok (memory w1) (buf w1 this) tag uninitialised W1 Ht)
    as [(i & entry & d & -> & Ei & Hi & Hd & Etag & _) | [-> Habs]].
  - change (OK =? NAME_NOT_FOUND) with false. change (OK =? OK) with true. cbv iota. unfold in_memory. rewrite Ei.
    assert (Est : get_icamera_metadata_tag_type tag = c_type (slot (memory w1) (buf w1 this) i)).
    { rewrite <- (well_typed_entry _ _ _ T1 Hi). f_equal. rewrite contents_lookup in Hd by exact Hi. injection Hd as <-. exact (eq_sym Etag). }
    fold t in Est. destruct V as (V1 & V2 & V3 & V4). rewrite Est in V3, V4.
    destruct (update_ok (memory w1) (buf w1 this) i W1 Hi data count None V2 V3 V4) as (m' & -> & W' & C & S & _ & L').
    { unfold update_fits. rewrite <- Est. pose proof (c_room_nonneg _ (proj2 (slot_of _ _ i W1 Hi))).
      apply orb_true_iff. right. apply Z.leb_le. lia. }
    assert (Etag' : c_tag (slot (memory w1) (buf w1 this) i) = tag)
      by (rewrite contents_lookup in Hd by exact Hi; injection Hd as <-; exact Etag).
    rewrite <- Est, Etag', Eb in C.
    destruct (in_memory_ok this w1 m' O1 N1) as [P2 D2].
    { split; [exact W' |]. split; [| auto]. unfold well_typed. rewrite C. apply Forall_insert; [exact T1 | reflexivity]. }
    exists (set_memory m' w1). split; [reflexivity |]. split; [eapply preserved_trans; eassumption |]. split; [exact N1 |].
    left. exists (Z.to_nat i), d. rewrite D2, C, <- D1, Ed. auto.
  - change (NAME_NOT_FOUND =? NAME_NOT_FOUND) with true. cbv iota.
    destruct (add_step (buf w1 this) (memory w1) tag data count W1 Ht V) as [[_ [E | E]] | (m' & E1 & W' & _ & _ & C & S & _ & L')].
    + contradiction.
    + unfold entry_fits in E. fold t in E. exfalso. apply andb_false_iff in E as [E | E]; bsimp; lia.
    + unfold in_memory. rewrite E1. fold t in C. rewrite Eb in C.
      destruct (in_memory_ok this w1 m' O1 N1) as [P2 D2].
      { split; [exact W' |]. split; [| auto]. unfold well_typed. rewrite C. apply Forall_app_2; [exact T1 | repeat constructor]. }
      exists (set_memory m' w1). split; [reflexivity |]. split; [eapply preserved_trans; eassumption |]. split; [exact N1 |].
      right. rewrite D2, C, <- D1, Ed. split; [exact Habs | reflexivity].
Qed.

Lemma datums_contents w this : buf w this <> NULL -> datums w this = contents (memory w) (buf w this).
Proof. intros N. unfold datums, is_null. rewrite (proj2 (Z.eqb_neq _ _) N). reflexivity. Qed.

Lemma erase_ok this tag w :
  owned w -> 0 <= tag < 2 ^ 32 -> mLocked (objects w this) = false -> buf w this <> NULL ->
  exists w', erase this tag w = (OK, w') /\ preserved this w w' /\ buf w' this <> NULL
    /\ ((exists i d, datums w this !! i = Some d /\ d_tag d = tag /\ datums w' this = delete i (datums w this))
        \/ ((forall d, d ∈ datums w this -> d_tag d <> tag) /\ datums w' this = datums w this)).
Proof.
  intros O Ht Hl N. destruct (owned_packet w O this N) as (s & B & S & W & T).
  unfold erase. rewrite Hl. cbv zeta. rewrite (datums_contents w this N).
  destruct (find_ok (memory w) (buf w this) tag uninitialised W Ht)
    as [(i & entry & d & -> & Ei & Hi & Hd & Etag & _) | [-> Habs]].
  - change (OK =? NAME_NOT_FOUND) with false. change (OK =? OK) with true. cbn [negb]. rewrite Ei. unfold in_memory.
    destruct (delete_ok (memory w) (buf w this) i W Hi) as (m' & -> & W' & C & So & _ & L' & _).
    destruct (in_memory_ok this w m' O N) as [P2 D2].
    { split; [exact W' |]. split; [| auto]. unfold well_typed. rewrite C. apply Forall_delete, T. }
    exists (set_memory m' w). split; [reflexivity |]. split; [exact P2 |]. split; [exact N |].
    left. exists (Z.to_nat i), d. rewrite D2, C. auto.
  - change (NAME_NOT_FOUND =? NAME_NOT_FOUND) with true. cbv iota.
    exists w. split; [reflexivity |]. split; [apply preserved_refl, O |]. split; [exact N |]. right.
    split; [exact Habs | apply datums_contents, N].
Qed.

Lemma erase_null this tag w :
  mLocked (objects w this) = false -> buf w this = NULL -> erase this tag w = (UNKNOWN_ERROR, w).
Proof. intros Hl N. unfold erase. rewrite Hl, N. reflexivity. Qed.

Lemma sort_container_ok this w :
  owned w -> mLocked (objects w this) = false -> buf w this <> NULL ->
  exists w', sort this w = (OK, w') /\ preserved this w w' /\ buf w' this <> NULL
    /\ Permutation (datums w this) (datums w' this) /\ sorted w' this = true.
Proof.
  intros O Hl N. destruct (owned_packet w O this N) as (s & B & S & W & T).
  unfold sort. rewrite Hl, (datums_contents w this N). unfold in_memory.
  destruct (sort_ok (memory w) (buf w this) W) as (m' & -> & W' & Pm & F & So & L').
  destruct (in_memory_ok this w m' O N) as [P2 D2].
  { split; [exact W' |]. split; [| auto]. unfold well_typed. rewrite <- Pm. exact T. }
  exists (set_memory m' w). split; [reflexivity |]. split; [exact P2 |]. split; [exact N |].
  rewrite D2. split; [exact Pm |]. unfold sorted. cbn [objects set_memory memory].
  unfold is_null. rewrite (proj2 (Z.eqb_neq _ _) N), F. reflexivity.
Qed.

Lemma append_container_ok this q w :
  owned w -> mLocked (objects w this) = false -> packet w q -> q <> buf w this ->
  grown w this (rd (memory w) q md.entry_count) (rd (memory w) q md.data_count) < 2 ^ 32 ->
  (datums w this = [] -> sorted w this = true -> is_sorted (memory w) q = true) ->
  out_of_memory w
  \/ exists w', append this q w = (OK, w') /\ preserved this w w' /\ buf w' this <> NULL
       /\ datums w' this = datums w this ++ contents (memory w) q.
Proof.
  intros O Hl Pq Hne G Hsort. pose proof Pq as (sq & Bq & Sq & Wq & Tq).
  unfold append. rewrite Hl. unfold get_icamera_metadata_entry_count, get_icamera_metadata_data_count.
  destruct (resize_ok this (rd (memory w) q md.entry_count) (rd (memory w) q md.data_count) w O)
    as [(w1 & -> & Hoom) | (w1 & -> & P1 & N1 & D1 & So1 & Hr1 & Hr2)];
    [apply rd_U32_range | apply rd_U32_range | exact G | left; exact Hoom | right].
  pose proof (pr_owned _ _ _ P1) as O1. destruct (owned_packet w1 O1 this N1) as (s1 & B1 & S1 & W1 & T1).
  destruct (elsewhere_packet _ q w w1 (pr_elsewhere _ _ _ P1) Hne Pq) as ((sq1 & Bq1 & Sq1 & Wq1 & Tq1) & Cq & Fq).
  assert (Hne1 : buf w1 this <> q) by (destruct (pr_buffer _ _ _ P1); congruence).
  assert (Rq : forall o, 0 <= o <= 32 -> rd (memory w1) q (U32 o) = rd (memory w) q (U32 o)).
  { intros o Ho. apply (slots_moved (memory w) (memory w1) q Wq); [| exact Ho]. intros x Hx.
    destruct (pr_elsewhere _ _ _ P1 q sq Bq Hne) as [_ Hm]. apply Hm. lia. }
  unfold in_memory.
  destruct (append_ok (memory w1) (buf w1 this) q W1 Wq1) as (m2 & -> & W2 & C2 & S2 & _ & L2 & _).
  - destruct (region_apart w1 (owned_regions w1 O1) _ s1 q sq1 B1 Bq1 Hne1); lia.
  - rewrite (Rq 12 ltac:(lia) : rd (memory w1) q md.entry_count = rd (memory w) q md.entry_count). exact Hr1.
  - rewrite (Rq 24 ltac:(lia) : rd (memory w1) q md.data_count = rd (memory w) q md.data_count). exact Hr2.
  - intros Hn Hs. rewrite Fq. apply Hsort.
    + rewrite <- D1, (datums_contents w1 this N1). apply length_zero_iff_nil. rewrite contents_length, Hn. reflexivity.
    + rewrite <- So1. unfold sorted, is_null. rewrite (proj2 (Z.eqb_neq _ _) N1). exact Hs.
  - destruct (in_memory_ok this w1 m2 O1 N1) as [P2 D2].
    { split; [exact W2 |]. split; [| auto]. unfold well_typed. rewrite C2. apply Forall_app_2; assumption. }
    exists (set_memory m2 w1). split; [reflexivity |]. split; [eapply preserved_trans; eassumption |]. split; [exact N1 |].
    rewrite D2, C2, Cq, <- (datums_contents w1 this N1), D1. reflexivity.
Qed.

(** ** The calls of a client *)

Inductive call :=
| Update (expectedType this tag data count : Z)
| UpdateString (this tag c_str size : Z)
| Erase (this tag : Z)
| Append (this other : Z)
| Sort (this : Z)
| Clear (this : Z)
| Assign (this other : Z)
| Acquire (this other : Z)
| Swap (this other : Z)
| Lock (this : Z)
| Unlock (this other : Z).

(** [Unlock] is given the buffer of [other]. *)
Definition run (c : call) (w : world) : Z * world :=
  match c with
  | Update ty this tag data count => update ty this tag data count w
  | UpdateString this tag c_str size => update_string this tag c_str size w
  | Erase this tag => erase this tag w
  | Append this other => append_from this other w
  | Sort this => sort this w
  | Clear this => (OK, clear this w)
  | Assign this other => (OK, assign_from this other w)
  | Acquire this other => (OK, acquire_from this other w)
  | Swap this other => (OK, swap this other w)
  | Lock this => (OK, snd (getAndLock this w))
  | Unlock this other => unlock this (buf w other) w
  end.

(** The bytes that a call reads from the caller. *)
Definition input (c : call) (m : mem) : list Z :=
  match c with
  | Update ty _ _ data count => bytes m data (count * type_size ty)
  | UpdateString _ _ c_str size => bytes m c_str (size + 1)
  | _ => []
  end.

Definition spec_update (ty this tag count : Z) (values : list Z) (s : Z -> value) : Z * (Z -> value) :=
  if snd (s this) then (INVALID_OPERATION, s)
  else if negb (get_icamera_metadata_tag_type tag =? ty) then (INVALID_OPERATION, s)
  else (OK, upd_value s this (Some (<[tag := Datum tag ty count values]> (default ∅ (fst (s this)))), false)).

(** What each call does to the maps. *)
Definition spec (c : call) (values : list Z) (s : Z -> value) : Z * (Z -> value) :=
  match c with
  | Update ty this tag _ count => spec_update ty this tag count values s
  | UpdateString this tag _ size => spec_update ICAMERA_TYPE_BYTE this tag (size + 1) values s
  | Erase this tag =>
      if snd (s this) then (INVALID_OPERATION, s)
      else match fst (s this) with
           | None => (UNKNOWN_ERROR, s)
           | Some m => (OK, upd_value s this (Some (delete tag m), false))
           end
  | Append this other =>
      if snd (s this) then (INVALID_OPERATION, s)
      else (OK, upd_value s this (Some (default ∅ (fst (s this)) ∪ default ∅ (fst (s other))), false))
  | Sort this =>
      if snd (s this) then (INVALID_OPERATION, s)
      else match fst (s this) with None => (UNKNOWN_ERROR, s) | Some _ => (OK, s) end
  | Clear this => (OK, if snd (s this) then s else upd_value s this (None, false))
  | Assign this other => (OK, if snd (s this) then s else upd_value s this (fst (s other), false))
  | Acquire this other =>
      (OK, if snd (s this) then s
           else if snd (s other) then upd_value s this (None, false)
           else if this =? other then s
           else upd_value (upd_value s other (None, false)) this (fst (s other), false))
  | Swap this other =>
      (OK, if snd (s this) || snd (s other) then s
           else upd_value (upd_value s other (s this)) this (s other))
  | Lock this => (OK, upd_value s this (fst (s this), true))
  | Unlock this other =>
      if negb (snd (s this)) then (INVALID_OPERATION, s)
      else if negb ((this =? other) || match fst (s this), fst (s other) with None, None => true | _, _ => false end)
      then (BAD_VALUE, s)
      else (OK, upd_value s this (fst (s this), false))
  end.

Definition updatable (w : world) (ty this tag data count : Z) : Prop :=
  is_type ty /\ 0 <= tag < 2 ^ 32 /\ source w this ty data count
  /\ grown w this 1 (room_for (count * type_size ty)) < 2 ^ 32.

(** What the caller has to see to: packets stay below 4 GB, values and packets
    are not passed back into the object they come from, [Append] is given a
    packet with other tags, and one with sorted entries where [this] is empty
    and was sorted. *)
Definition pre (c : call) (w : world) : Prop :=
  match c with
  | Update ty this tag data count => updatable w ty this tag data count
  | UpdateString this tag c_str size => updatable w ICAMERA_TYPE_BYTE this tag c_str (size + 1)
  | Erase _ tag => 0 <= tag < 2 ^ 32
  | Append this other =>
      buf w other <> NULL /\ this <> other
      /\ grown w this (rd (memory w) (buf w other) md.entry_count) (rd (memory w) (buf w other) md.data_count) < 2 ^ 32
      /\ (forall d d', d ∈ datums w this -> d' ∈ datums w other -> d_tag d <> d_tag d')
      /\ (datums w this = [] -> sorted w this = true -> sorted w other = true)
  | _ => True
  end.

(** [run] has done what the specification says. *)
Definition refines (c : call) (w : world) : Prop :=
  let '(r, w') := run c w in
  let '(r', s) := spec c (input c (memory w)) (abs w) in
  r = r' /\ (forall id, abs w' id = s id) /\ sound w w' /\ unique w'.

Definition arrived (w w' : world) (s : Z -> value) : Prop :=
  (forall id, abs w' id = s id) /\ sound w w' /\ unique w'.

Lemma arrived_same w : owned w -> unique w -> arrived w w (abs w).
Proof. intros O U. split; [reflexivity |]. split; [| exact U]. apply (preserved_sound 0), preserved_refl, O. Qed.

Lemma arrived_one this w w' m :
  owned w -> unique w -> preserved this w w' -> buf w' this <> NULL -> mLocked (objects w this) = false ->
  NoDup (tags_of (datums w' this)) -> to_map (datums w' this) = m ->
  arrived w w' (upd_value (abs w) this (Some m, false)).
Proof.
  intros O U P N Hl Nd E. split; [| split].
  - apply preserved_abs; [exact O | exact P |]. rewrite abs_datums, E by exact N.
    rewrite (pr_locked _ _ _ P), Hl. reflexivity.
  - apply (preserved_sound this), P.
  - apply (preserved_unique this w); assumption.
Qed.

Lemma arrived_ext w w' s s' : (forall id, s id = s' id) -> arrived w w' s -> arrived w w' s'.
Proof. intros E (H1 & H2 & H3). split; [| auto]. intros id. rewrite H1. apply E. Qed.

(** Packets that changed hands. *)
Lemma arrived_moved p w w' s :
  owned w -> unique w -> memory w' = memory w -> blocks w' = delete p (blocks w) ->
  (p <> NULL -> exists y, buf w y = p) ->
  (forall x, buf w' x <> NULL -> buf w' x <> p /\ exists y, buf w y = buf w' x) ->
  (forall y, buf w y <> NULL -> buf w y <> p -> exists x, buf w' x = buf w y) ->
  (forall x x', buf w' x <> NULL -> buf w' x = buf w' x' -> x = x') ->
  (forall id, abs w' id = s id) -> arrived w w' s.
Proof.
  intros O U M B H1 H2 H3 H4 Hs. split; [exact Hs |]. split; [apply (handed_over p); assumption |].
  intros x. destruct (Z.eq_dec (buf w' x) NULL) as [N | N].
  - unfold datums. rewrite N. constructor.
  - destruct (H2 x N) as (_ & y & Hy). rewrite datums_contents, M, <- Hy, <- (datums_contents w) by congruence. apply U.
Qed.

Lemma no_region_NULL w : owned w -> blocks w = delete NULL (blocks w).
Proof.
  intros O. symmetry. apply delete_id. destruct (blocks w !! NULL) as [s |] eqn:E; [| reflexivity].
  apply (region_range w (owned_regions w O)) in E. unfold NULL in E. lia.
Qed.

(** Two objects that agree on their buffers and locks see the same. *)
Lemma abs_objects w w' x y b :
  memory w' = memory w -> buf w' x = buf w y -> mLocked (objects w' x) = b -> abs w' x = (fst (abs w y), b).
Proof. intros M B <-. unfold abs. rewrite M, B. reflexivity. Qed.

Lemma clear_arrived this w :
  owned w -> unique w -> mLocked (objects w this) = false ->
  arrived w (clear this w) (upd_value (abs w) this (None, false)) /\ buf (clear this w) this = NULL
  /\ preserved this w (clear this w).
Proof.
  intros O U Hl. unfold clear. rewrite Hl. unfold is_null. destruct (Z.eqb_spec (buf w this) NULL) as [N | N]; cbn [negb].
  - split; [| split; [exact N | apply preserved_refl, O]]. eapply arrived_ext; [| apply arrived_same; assumption].
    intros id. unfold upd_value. destruct (Z.eqb_spec id this) as [-> | _]; [| reflexivity].
    rewrite abs_null, Hl by exact N. reflexivity.
  - set (w' := set_mBuffer _ _ _).
    assert (Ot : objects w' this = CM NULL false) by (unfold w', set_mBuffer; rewrite set_object_same; cbn; rewrite Hl; reflexivity).
    assert (Oo : forall x, x <> this -> objects w' x = objects w x)
      by (intros x Hx; unfold w', set_mBuffer; rewrite set_object_other by exact Hx; reflexivity).
    assert (Hd : forall x, x <> this -> buf w x = buf w this -> False)
      by (intros x Hx Eq; apply Hx; symmetry; apply (owned_once w O); auto).
    assert (Har : arrived w w' (upd_value (abs w) this (None, false))).
    { apply (arrived_moved (buf w this)); auto.
      - intros _. eauto.
      - intros x Nx. destruct (Z.eq_dec x this) as [-> | Hx]; [rewrite Ot in Nx; contradiction |]. rewrite Oo in * by exact Hx. eauto.
      - intros y Ny Hy. exists y. rewrite Oo; [reflexivity |]. intros ->. contradiction.
      - intros x y Nx Eq. destruct (Z.eq_dec x this) as [-> | Hx]; [rewrite Ot in Nx; contradiction |].
        destruct (Z.eq_dec y this) as [-> | Hy]; [rewrite Ot in Eq; contradiction |].
        rewrite !Oo in * by assumption. apply (owned_once w O); assumption.
      - intros id. unfold upd_value. destruct (Z.eqb_spec id this) as [-> | Hx]; [unfold abs; rewrite Ot; reflexivity |].
        unfold abs. rewrite Oo by exact Hx. reflexivity. }
    split; [exact Har |]. split; [rewrite Ot; reflexivity |].
    destruct Har as (_ & [S1 S2 S3] & _). split; auto.
    + rewrite Ot, Hl. reflexivity.
    + right. rewrite Ot. cbn [mBuffer]. rewrite (no_region_NULL w O). apply lookup_delete_eq.
    + intros q size Hq Hne. split; [| reflexivity]. change (blocks w') with (delete (buf w this) (blocks w)).
      rewrite lookup_delete_ne by congruence. exact Hq.
Qed.

(** The packets exchanged among the objects. *)
Lemma arrived_exchanged (f : Z -> Z) w w' s :
  owned w -> unique w -> memory w' = memory w -> blocks w' = blocks w ->
  (forall x, f (f x) = x) -> (forall x, buf w' x = buf w (f x)) ->
  (forall id, (fst (abs w (f id)), mLocked (objects w' id)) = s id) -> arrived w w' s.
Proof.
  intros O U M B Hf Hb Hs. assert (inj : forall x y, f x = f y -> x = y) by (intros x y E; rewrite <- (Hf x), E; apply Hf).
  apply (arrived_moved NULL); auto.
  - rewrite B. apply no_region_NULL, O.
  - intros N. destruct N. reflexivity.
  - intros x N. split; [exact N |]. exists (f x). symmetry. apply Hb.
  - intros y N _. exists (f y). rewrite Hb, Hf. reflexivity.
  - intros x x' N Eq. rewrite !Hb in *. apply inj, (owned_once w O); assumption.
  - intros id. rewrite <- Hs. apply abs_objects; auto.
Qed.

Lemma swap_arrived this other w :
  owned w -> unique w -> mLocked (objects w this) = false -> mLocked (objects w other) = false ->
  arrived w (swap this other w) (upd_value (upd_value (abs w) other (abs w this)) this (abs w other)).
Proof.
  intros O U L1 L2. unfold swap. rewrite L1, L2.
  set (f := fun x => if x =? this then other else if x =? other then this else x).
  assert (Ho : forall x, objects (set_mBuffer this (buf w other) (set_mBuffer other (buf w this) w)) x
                         = CM (buf w (f x)) (mLocked (objects w x))).
  { intros x. unfold set_mBuffer, f. destruct (Z.eqb_spec x this) as [-> | H1].
    - rewrite set_object_same. destruct (Z.eq_dec this other) as [-> | H2];
        [rewrite set_object_same | rewrite set_object_other by exact H2]; reflexivity.
    - rewrite set_object_other by exact H1. destruct (Z.eqb_spec x other) as [-> | H2];
        [rewrite set_object_same | rewrite set_object_other by exact H2; destruct (objects w x)]; reflexivity. }
  apply (arrived_exchanged f); auto.
  - intros x. unfold f. destruct (Z.eqb_spec x this) as [-> | H1].
    + destruct (Z.eqb_spec other this) as [E |]; [exact E |]. rewrite Z.eqb_refl. reflexivity.
    + destruct (Z.eqb_spec x other) as [-> | H2]; [rewrite Z.eqb_refl; reflexivity |].
      rewrite (proj2 (Z.eqb_neq _ _) H1), (proj2 (Z.eqb_neq _ _) H2). reflexivity.
  - intros x. rewrite Ho. reflexivity.
  - intros id. rewrite Ho. unfold f, upd_value. cbn [mLocked].
    destruct (Z.eqb_spec id this) as [-> | H1]; [unfold abs; cbn [fst]; congruence |].
    destruct (Z.eqb_spec id other) as [-> | H2]; unfold abs; cbn [fst]; congruence.
Qed.

Lemma set_mLocked_arrived this b w :
  owned w -> unique w -> arrived w (set_mLocked this b w) (upd_value (abs w) this (fst (abs w this), b)).
Proof.
  intros O U. apply (arrived_exchanged (fun x => x)); auto.
  - intros x. unfold set_mLocked. destruct (Z.eq_dec x this) as [-> | H];
      [rewrite set_object_same | rewrite set_object_other by exact H]; reflexivity.
  - intros id. unfold set_mLocked, upd_value. destruct (Z.eqb_spec id this) as [-> | H].
    + rewrite set_object_same. reflexivity.
    + rewrite set_object_other by exact H. reflexivity.
Qed.

Lemma acquire_from_arrived this other w :
  owned w -> unique w -> mLocked (objects w this) = false -> mLocked (objects w other) = false -> this <> other ->
  arrived w (acquire_from this other w) (upd_value (upd_value (abs w) other (None, false)) this (fst (abs w other), false)).
Proof.
  intros O U L1 L2 Hne. set (w' := acquire_from this other w).
  assert (Ho : (forall x, objects w' x = if x =? this then CM (buf w other) false
                           else if x =? other then CM NULL false else objects w x)
               /\ memory w' = memory w /\ blocks w' = delete (buf w this) (blocks w)).
  { unfold w', acquire_from, release. rewrite L1, L2. unfold acquire.
    set (w1 := set_mBuffer other NULL w).
    assert (E1 : objects w1 this = objects w this) by (unfold w1, set_mBuffer; apply set_object_other, Hne).
    rewrite E1, L1. unfold clear. rewrite E1, L1. unfold is_null.
    assert (Eo : objects w1 other = CM NULL false) by (unfold w1, set_mBuffer; rewrite set_object_same, L2; reflexivity).
    assert (Ex : forall x, x <> other -> objects w1 x = objects w x)
      by (intros x Hx; unfold w1, set_mBuffer; apply set_object_other, Hx).
    assert (Bm : blocks w1 = blocks w /\ memory w1 = memory w) by (split; reflexivity). destruct Bm as [Bw Mw].
    clearbody w1. destruct (Z.eqb_spec (buf w this) NULL) as [N | N]; cbn [negb]; unfold set_mBuffer.
    - split; [| split; [exact Mw |]].
      + intros x. destruct (Z.eqb_spec x this) as [-> | H1]; [rewrite set_object_same, E1, L1; reflexivity |].
        rewrite set_object_other by exact H1.
        destruct (Z.eqb_spec x other) as [-> | H2]; [exact Eo | apply Ex, H2].
      + cbn [blocks set_object]. rewrite Bw, N. apply no_region_NULL, O.
    - split; [| split; [exact Mw | cbn [blocks set_object free_icamera_metadata]; rewrite Bw; reflexivity]].
      intros x. destruct (Z.eqb_spec x this) as [-> | H1].
      + rewrite !set_object_same. cbn [objects free_icamera_metadata mLocked]. rewrite E1, L1. reflexivity.
      + rewrite !set_object_other by exact H1. cbn [objects free_icamera_metadata].
        destruct (Z.eqb_spec x other) as [-> | H2]; [exact Eo | apply Ex, H2]. }
  destruct Ho as (Ho & M & B).
  assert (Hb : forall x, buf w' x = if x =? this then buf w other else if x =? other then NULL else buf w x).
  { intros x. rewrite Ho. destruct (x =? this); [reflexivity |]. destruct (x =? other); reflexivity. }
  assert (Hd : forall x y, buf w x <> NULL -> buf w x = buf w y -> x = y) by (apply (owned_once w O)).
  apply (arrived_moved (buf w this)); auto.
  - intros _. eauto.
  - intros x. rewrite Hb. destruct (Z.eqb_spec x this) as [-> | H1]; [intros N; split; [intros E; apply Hne, eq_sym, Hd; auto | eauto] |].
    destruct (Z.eqb_spec x other) as [-> | H2]; [contradiction |]. intros N. split; [intros E; apply H1, Hd; auto | eauto].
  - intros y N Hy. destruct (Z.eq_dec y other) as [-> | H2].
    + exists this. rewrite Hb, Z.eqb_refl. reflexivity.
    + exists y. rewrite Hb. destruct (Z.eqb_spec y this) as [-> | H1]; [contradiction |].
      rewrite (proj2 (Z.eqb_neq _ _) H2). reflexivity.
  - intros x y. rewrite !Hb. destruct (Z.eqb_spec x this) as [-> | H1], (Z.eqb_spec y this) as [-> | H2]; auto;
      intros N E; repeat match goal with H : context [?z =? other] |- _ => destruct (Z.eqb_spec z other) end;
      subst; try contradiction; try congruence; apply Hd in E; congruence.
  - intros id. unfold abs. rewrite M, Hb, Ho. unfold upd_value. destruct (Z.eqb_spec id this) as [-> | H1]; [reflexivity |].
    destruct (Z.eqb_spec id other) as [-> | H2]; reflexivity.
Qed.

Lemma world_ext w w' :
  memory w = memory w' -> blocks w = blocks w' -> (forall x, objects w x = objects w' x) -> w = w'.
Proof.
  destruct w as [m b o], w' as [m' b' o']. cbn. intros -> -> E. f_equal. apply functional_extensionality, E.
Qed.

Lemma set_object_twice this o o' w : set_object this o (set_object this o' w) = set_object this o w.
Proof.
  apply world_ext; try reflexivity. intros x. destruct (Z.eq_dec x this) as [-> | H];
    [rewrite !set_object_same | rewrite !set_object_other by exact H]; reflexivity.
Qed.

Lemma set_object_id this w : set_object this (objects w this) w = w.
Proof.
  apply world_ext; try reflexivity. intros x. destruct (Z.eq_dec x this) as [-> | H];
    [apply set_object_same | apply set_object_other, H].
Qed.

Lemma assign_from_arrived this other w :
  owned w -> unique w -> mLocked (objects w this) = false -> ~ out_of_memory w ->
  arrived w (assign_from this other w) (upd_value (abs w) this (fst (abs w other), false)).
Proof.
  intros O U Hl Hoom. unfold assign_from, assign. rewrite Hl.
  destruct (Z.eqb_spec (buf w other) (buf w this)) as [Eq | Ne]; cbn [negb].
  - eapply arrived_ext; [| apply arrived_same; assumption]. intros id. rewrite <- (upd_value_id w this).
    unfold upd_value. destruct (id =? this); [| reflexivity]. unfold abs. rewrite Eq, Hl. reflexivity.
  - destruct (Z.eq_dec (buf w other) NULL) as [N | N].
    + rewrite N. unfold clone_metadata. change (is_null NULL) with true. cbv iota.
      destruct (clear_arrived this w O U Hl) as (Har & Hb & P). rewrite (abs_null w other N). cbn [fst].
      replace (set_mBuffer this NULL (clear this w)) with (clear this w); [exact Har |].
      unfold set_mBuffer. replace (CM NULL (mLocked (objects (clear this w) this))) with (objects (clear this w) this);
        [symmetry; apply set_object_id |]. destruct (objects (clear this w) this) eqn:E. cbn in *. congruence.
    + destruct (owned_packet w O other N) as (s & B & S & W & T).
      destruct (clone_metadata_ok (buf w other) w (owned_regions w O)) as [[E _] | (a & w1 & -> & Ad & P1 & C1)];
        [apply owned_packet; assumption | | ].
      { destruct Hoom. eexists. split; [| exact E]. pose proof (compact_size_bound _ _ W). lia. }
      destruct (replaced_ok this a _ w w1 O Ad P1) as (Pr & P2 & B2).
      pose proof (added_objects _ _ _ _ Ad) as Ob. pose proof (added_fresh _ _ _ _ Ad) as (F1 & _).
      replace (set_mBuffer this a (clear this w1)) with (replaced this a w w1).
      * assert (Dt : datums (replaced this a w w1) this = datums w other).
        { unfold datums at 1. rewrite B2, not_null by exact F1. change (memory (replaced this a w w1)) with (memory w1).
          rewrite C1. symmetry. apply datums_contents, N. }
        rewrite (abs_datums w other N). cbn [fst]. apply arrived_one; auto.
        -- rewrite B2. unfold NULL. lia.
        -- rewrite Dt. apply U.
        -- rewrite Dt. reflexivity.
      * unfold clear. rewrite Ob, Hl. unfold is_null. destruct (Z.eqb_spec (buf w this) NULL) as [Nt | Nt]; cbn [negb].
        -- apply (replaced_null this a _ w w1 (owned_regions w O) Ad Nt).
        -- unfold set_mBuffer at 2. unfold set_mBuffer at 1. rewrite set_object_same, set_object_twice. cbn [mLocked].
           unfold replaced, set_mBuffer. cbn [objects free_icamera_metadata]. reflexivity.
Qed.

Lemma update_refines ty this tag data count w :
  owned w -> unique w -> ~ out_of_memory w -> updatable w ty this tag data count ->
  let '(r, w') := update ty this tag data count w in
  let '(r', s) := spec_update ty this tag count (bytes (memory w) data (count * type_size ty)) (abs w) in
  r = r' /\ arrived w w' s.
Proof.
  intros O U Hoom (Hty & Ht & Src & G). unfold update, spec_update. cbn [abs snd].
  destruct (mLocked (objects w this)) eqn:Hl; [split; [reflexivity | apply arrived_same; assumption] |].
  unfold checkType. set (t := get_icamera_metadata_tag_type tag).
  destruct (Z.eqb_spec t ty) as [Et | Et]; cbn [negb].
  - destruct (Z.eqb_spec t (-1)); [unfold is_type in Hty; lia |].
    destruct (Z.leb_spec ICAMERA_NUM_TYPES t); [unfold is_type in Hty; lia |]. change (OK =? OK) with true. cbn [orb negb].
    rewrite <- Et in Src, G. destruct (updateImpl_ok this tag data count w O Ht) as [[Hm _] | (w' & -> & P & N & Ud)]; auto;
      [contradiction |].
    split; [reflexivity |]. fold t in Ud. rewrite Et in Ud.
    destruct (updated_map _ _ _ (U this) Ud) as [Nd E]. apply arrived_one; auto.
    rewrite E. unfold abs. cbn [fst]. f_equal. symmetry. apply abs_default.
  - assert (Hs : (if (t =? -1) || (ICAMERA_NUM_TYPES <=? t) then INVALID_OPERATION else INVALID_OPERATION) = INVALID_OPERATION)
      by (destruct (_ || _); reflexivity).
    cbv zeta. rewrite Hs. change (INVALID_OPERATION =? OK) with false. cbn [negb].
    split; [reflexivity | apply arrived_same; assumption].
Qed.

Lemma erase_refines this tag w : owned w -> unique w -> 0 <= tag < 2 ^ 32 -> refines (Erase this tag) w.
Proof.
  intros O U Ht. unfold refines, run, spec. cbn [abs fst snd].
  destruct (mLocked (objects w this)) eqn:Hl.
  - unfold erase. rewrite Hl. split; [reflexivity | apply arrived_same; assumption].
  - unfold is_null. destruct (Z.eqb_spec (buf w this) NULL) as [N | N].
    + rewrite erase_null by assumption. split; [reflexivity | apply arrived_same; assumption].
    + destruct (erase_ok this tag w O Ht Hl N) as (w' & -> & P & N' & [(i & d & Hi & Et & D) | [Ha D]]);
        (split; [reflexivity | apply arrived_one; auto]); rewrite D; try rewrite <- (datums_contents w) by exact N.
      * apply (to_map_delete _ i d); [apply U | exact Hi].
      * rewrite <- Et. apply (to_map_delete _ i d); [apply U | exact Hi].
      * apply U.
      * symmetry. apply delete_id. destruct (to_map (datums w this) !! tag) as [d |] eqn:E; [| reflexivity].
        apply to_map_spec in E as [E1 E2]; [| apply U]. destruct (Ha d E1 E2).
Qed.

Lemma append_refines this other w :
  owned w -> unique w -> ~ out_of_memory w -> pre (Append this other) w -> refines (Append this other) w.
Proof.
  intros O U Hoom (No & Hne & G & Hd & Hs). unfold refines, run, spec, append_from. cbn [abs fst snd].
  destruct (mLocked (objects w this)) eqn:Hl.
  - unfold append. rewrite Hl. split; [reflexivity | apply arrived_same; assumption].
  - destruct (append_container_ok this (buf w other) w O Hl (owned_packet w O other No)) as [Hm | (w' & -> & P & N & D)]; auto.
    + intros Eq. apply Hne. symmetry. apply (owned_once w O); assumption.
    + intros Hn Hst. specialize (Hs Hn Hst). unfold sorted in Hs. apply andb_true_iff in Hs. apply Hs.
    + contradiction.
    + split; [reflexivity |]. rewrite <- (datums_contents w other No) in D.
      destruct (to_map_union (datums w this) (datums w other) (U this) (U other) Hd) as [Nd E].
      apply arrived_one; auto; rewrite D; [exact Nd |]. rewrite E.
      rewrite <- (abs_default w this), <- (abs_default w other). reflexivity.
Qed.

Lemma sort_refines this w : owned w -> unique w -> refines (Sort this) w.
Proof.
  intros O U. unfold refines, run, spec. cbn [abs fst snd].
  destruct (mLocked (objects w this)) eqn:Hl.
  - unfold sort. rewrite Hl. split; [reflexivity | apply arrived_same; assumption].
  - unfold is_null. destruct (Z.eqb_spec (buf w this) NULL) as [N | N].
    + unfold sort. rewrite Hl, N. unfold in_memory. cbn. rewrite set_memory_id.
      split; [reflexivity | apply arrived_same; assumption].
    + destruct (sort_container_ok this w O Hl N) as (w' & -> & P & N' & Pm & _). split; [reflexivity |].
      destruct (to_map_perm _ _ Pm (U this)) as [Nd E].
      eapply arrived_ext; [| apply (arrived_one this w w' _ O U P N' Hl Nd E)].
      intros id. rewrite <- (upd_value_id w this id). unfold upd_value. destruct (id =? this); [| reflexivity].
      rewrite abs_datums, Hl by exact N. reflexivity.
Qed.

Lemma unlock_refines this other w : owned w -> unique w -> refines (Unlock this other) w.
Proof.
  intros O U. unfold refines, run, spec, unlock. cbn [abs fst snd].
  destruct (mLocked (objects w this)) eqn:Hl; cbn [negb]; [| split; [reflexivity | apply arrived_same; assumption]].
  set (same := (this =? other) || _). assert (E : (buf w other =? buf w this) = same).
  { unfold same, is_null. destruct (Z.eqb_spec this other) as [-> | Hne]; [apply Z.eqb_refl |]. cbn [orb].
    destruct (Z.eqb_spec (buf w this) NULL) as [N | N], (Z.eqb_spec (buf w other) NULL) as [N' | N'];
      apply Z.eqb_eq || apply Z.eqb_neq; try congruence.
    intros Eq. apply Hne, (owned_once w O); congruence. }
  rewrite E. destruct same; cbn [negb].
  - split; [reflexivity | apply set_mLocked_arrived; assumption].
  - split; [reflexivity | apply arrived_same; assumption].
Qed.

Lemma call_refines_ok c w :
  owned w -> unique w -> ~ out_of_memory w -> pre c w -> refines c w.
Proof.
  intros O U Hoom Hp. destruct c as [ty this tag data count | this tag c_str size | this tag | this other | this | this
                                    | this other | this other | this other | this | this other].
  - unfold refines. cbn [run spec input]. apply update_refines; assumption.
  - unfold refines. cbn [run spec input]. pose proof (update_refines ICAMERA_TYPE_BYTE this tag c_str (size + 1) w O U Hoom Hp) as H'.
    change (type_size ICAMERA_TYPE_BYTE) with 1 in H'. rewrite Z.mul_1_r in H'. exact H'.
  - apply erase_refines; assumption.
  - apply append_refines; assumption.
  - apply sort_refines; assumption.
  - unfold refines. cbn [run spec abs snd]. split; [reflexivity |]. destruct (mLocked (objects w this)) eqn:Hl.
    + unfold clear. rewrite Hl. apply arrived_same; assumption.
    + apply clear_arrived; assumption.
  - unfold refines. cbn [run spec]. split; [reflexivity |]. change (snd (abs w this)) with (mLocked (objects w this)).
    destruct (mLocked (objects w this)) eqn:Hl.
    + unfold assign_from, assign. rewrite Hl. apply arrived_same; assumption.
    + apply assign_from_arrived; assumption.
  - unfold refines. cbn [run spec]. split; [reflexivity |].
    change (snd (abs w this)) with (mLocked (objects w this)). change (snd (abs w other)) with (mLocked (objects w other)).
    destruct (mLocked (objects w this)) eqn:Hl.
    + unfold acquire_from. rewrite Hl. apply arrived_same; assumption.
    + destruct (mLocked (objects w other)) eqn:Ho.
      * unfold acquire_from, release, acquire. rewrite Hl, Ho, Hl.
        destruct (clear_arrived this w O U Hl) as (Har & Hb & P).
        replace (set_mBuffer this NULL (clear this w)) with (clear this w); [exact Har |].
        unfold set_mBuffer. rewrite <- Hb at 1. symmetry.
        replace (CM (buf (clear this w) this) (mLocked (objects (clear this w) this))) with (objects (clear this w) this)
          by (destruct (objects (clear this w) this); reflexivity). apply set_object_id.
      * destruct (Z.eqb_spec this other) as [-> | Hne]; [| apply acquire_from_arrived; assumption].
        assert (acquire_from other other w = w) as ->; [| apply arrived_same; assumption].
        unfold acquire_from, release, acquire, clear. rewrite Hl. unfold set_mBuffer. rewrite set_object_same. cbn [mLocked mBuffer].
        rewrite Hl. change (is_null NULL) with true. cbn [negb]. rewrite set_object_same. cbn [mLocked]. rewrite set_object_twice.
        rewrite <- Hl. replace (CM (buf w other) (mLocked (objects w other))) with (objects w other)
          by (destruct (objects w other); reflexivity). apply set_object_id.
  - unfold refines. cbn [run spec]. split; [reflexivity |].
    change (snd (abs w this)) with (mLocked (objects w this)). change (snd (abs w other)) with (mLocked (objects w other)).
    destruct (mLocked (objects w this)) eqn:Hl.
    + unfold swap. rewrite Hl. apply arrived_same; assumption.
    + destruct (mLocked (objects w other)) eqn:Ho; cbn [orb].
      * unfold swap. rewrite Hl, Ho. apply arrived_same; assumption.
      * apply swap_arrived; assumption.
  - unfold refines. cbn [run spec]. split; [reflexivity |]. apply set_mLocked_arrived; assumption.
  - apply unlock_refines; assumption.
Qed.

(** ** Looking up *)

(** An entry for what a map has under a tag. *)
Definition answers (w : world) (entry : icamera_metadata_entry_t) (d : option datum) : Prop :=
  match d with
  | Some d => describes (memory w) entry d
  | None => count entry = 0 /\ data entry = NULL
  end.

Definition value_of (w : world) (this tag : Z) : option datum :=
  match fst (abs w this) with Some m => m !! tag | None => None end.

Lemma find_container_ok this tag e0 w :
  owned w -> unique w -> 0 <= tag < 2 ^ 32 ->
  answers w (find_const this tag e0 w) (value_of w this tag)
  /\ (mLocked (objects w this) = false -> answers w (CameraMetadata.find this tag w) (value_of w this tag))
  /\ exists_entry this tag w = bool_decide (is_Some (value_of w this tag)).
Proof.
  intros O U Ht. unfold value_of, find_const, CameraMetadata.find, exists_entry. cbn [abs fst].
  unfold is_null. destruct (Z.eqb_spec (buf w this) NULL) as [N | N].
  - rewrite N. change (find_icamera_metadata_entry (memory w) NULL tag) with
      (fun entry : option icamera_metadata_entry_t => (UNKNOWN_ERROR, entry)). cbn. split; [auto |]. split; [| reflexivity].
    intros ->. cbn. auto.
  - destruct (owned_packet w O this N) as (s & B & S & W & T). rewrite <- (datums_contents w this N).
    assert (F : forall e1, (exists entry d, find_icamera_metadata_entry (memory w) (buf w this) tag (Some e1) = (OK, Some entry)
                    /\ to_map (datums w this) !! tag = Some d /\ describes (memory w) entry d)
                 \/ (find_icamera_metadata_entry (memory w) (buf w this) tag (Some e1) = (NAME_NOT_FOUND, Some e1)
                     /\ to_map (datums w this) !! tag = None)).
    { intros e1. destruct (find_ok (memory w) (buf w this) tag e1 W Ht)
        as [(i & entry & d & E & _ & _ & Hd & Et & D) | [E Ha]]; rewrite <- (datums_contents w this N) in *.
      - left. exists entry, d. split; [exact E |]. split; [| exact D].
        apply to_map_spec; [apply U |]. split; [eapply list_elem_of_lookup_2, Hd | exact Et].
      - right. split; [exact E |]. destruct (to_map (datums w this) !! tag) as [d |] eqn:Em; [| reflexivity].
        apply to_map_spec in Em as [E1 E2]; [| apply U]. destruct (Ha d E1 E2). }
    split; [| split].
    + destruct (F e0) as [(entry & d & -> & -> & D) | [-> ->]]; [exact D | cbn; auto].
    + intros ->. destruct (F (Entry 0 0 0 0 0)) as [(entry & d & -> & -> & D) | [-> ->]]; [exact D | cbn; auto].
    + destruct (F uninitialised) as [(entry & d & -> & -> & D) | [-> ->]]; reflexivity.
Qed.

Lemma entryCount_ok this w :
  owned w -> unique w -> entryCount this w = Z.of_nat (size (default ∅ (fst (abs w this)))).
Proof.
  intros O U. rewrite abs_default. unfold entryCount, is_null. destruct (Z.eqb_spec (buf w this) NULL) as [N | N].
  - unfold datums. rewrite N. reflexivity.
  - unfold get_icamera_metadata_entry_count. pose proof (rd_U32_range (memory w) (buf w this) 12 : 0 <= rd (memory w) (buf w this) md.entry_count < _).
    assert (El : length (datums w this) = Z.to_nat (rd (memory w) (buf w this) md.entry_count))
      by (rewrite datums_contents by exact N; apply contents_length).
    assert (Es : size (to_map (datums w this)) = length (datums w this)).
    { assert (Nd : NoDup ((map (fun d => (d_tag d, d)) (datums w this)).*1))
        by (change (NoDup (map fst (map (fun d => (d_tag d, d)) (datums w this)))); rewrite map_map; apply U).
      unfold to_map. rewrite <- length_map_to_list, (Permutation_length (map_to_list_to_map _ Nd)). apply length_map. }
    rewrite Es, El. lia.
Qed.

(** ** Sequences of calls *)

Fixpoint run_all (cs : list call) (w : world) : list Z * world :=
  match cs with
  | [] => ([], w)
  | c :: cs => let '(r, w) := run c w in let '(rs, w) := run_all cs w in (r :: rs, w)
  end.

(** With the bytes each call reads. *)
Fixpoint inputs (cs : list call) (w : world) : list (call * list Z) :=
  match cs with
  | [] => []
  | c :: cs => (c, input c (memory w)) :: inputs cs (snd (run c w))
  end.

Fixpoint spec_all (cs : list (call * list Z)) (s : Z -> value) : list Z * (Z -> value) :=
  match cs with
  | [] => ([], s)
  | (c, values) :: cs =>
      let '(r, s) := spec c values s in let '(rs, s) := spec_all cs s in (r :: rs, s)
  end.

(** Each call is used as it must be when its turn comes, and memory suffices. *)
Fixpoint ready (cs : list call) (w : world) : Prop :=
  match cs with
  | [] => True
  | c :: cs => pre c w /\ ~ out_of_memory w /\ ready cs (snd (run c w))
  end.

(** The specification does not look at how a state is represented. *)
#[export] Instance upd_value_proper :
  Proper (pointwise_relation Z eq ==> eq ==> eq ==> pointwise_relation Z eq) upd_value.
Proof. intros s s' E x ? <- v ? <- id. unfold upd_value. rewrite E. reflexivity. Qed.

#[export] Instance spec_proper c values :
  Proper (pointwise_relation Z eq ==> prod_relation eq (pointwise_relation Z eq)) (spec c values).
Proof.
  intros s s' E. destruct c; cbn [spec]; unfold spec_update; rewrite !(E _);
    repeat match goal with
    | |- context [if ?b then _ else _] => destruct b
    | |- context [match ?o with Some _ => _ | None => _ end] => destruct o
    end; split; cbn [fst snd]; try reflexivity; try exact E; rewrite E; reflexivity.
Qed.

Lemma sound_refl w : owned w -> sound w w.
Proof. intros O. apply (preserved_sound 0), preserved_refl, O. Qed.

Lemma sound_trans w1 w2 w3 : sound w1 w2 -> sound w2 w3 -> sound w1 w3.
Proof.
  intros [O1 F1 K1] [O2 F2 K2]. split; [exact O2 | intros b; rewrite F2; apply F1 |].
  intros b size Hf Hb. destruct (K1 b size Hf Hb) as [Hb2 M2]. destruct (K2 b size) as [Hb3 M3]; [apply F1, Hf | exact Hb2 |].
  split; [exact Hb3 |]. intros a Ha. rewrite M3, M2 by exact Ha. reflexivity.
Qed.

Lemma run_all_refines cs w s :
  owned w -> unique w -> ready cs w -> pointwise_relation Z eq (abs w) s ->
  let '(rs, w') := run_all cs w in
  let '(rs', s') := spec_all (inputs cs w) s in
  rs = rs' /\ pointwise_relation Z eq (abs w') s' /\ sound w w' /\ unique w'.
Proof.
  revert w s. induction cs as [| c cs IH]; intros w s O U Rd E; cbn [run_all spec_all inputs].
  - split; [reflexivity |]. split; [exact E |]. split; [apply sound_refl, O | exact U].
  - cbn [ready] in Rd. destruct Rd as (Hp & Hm & Rd).
    pose proof (call_refines_ok c w O U Hm Hp) as R. unfold refines in R.
    pose proof (spec_proper c (input c (memory w)) _ _ E) as [E1 E2].
    destruct (run c w) as [r w1] eqn:Er. cbn [snd] in *.
    destruct (spec c (input c (memory w)) (abs w)) as [r0 s0]. destruct (spec c (input c (memory w)) s) as [r1 s1].
    cbn [fst snd] in E1, E2. destruct R as (-> & Ea & S1 & U1).
    assert (E' : pointwise_relation Z eq (abs w1) s1) by (intros id; rewrite Ea; apply E2).
    specialize (IH w1 s1 (sound_owned _ _ S1) U1 Rd E').
    destruct (run_all cs w1) as [rs w']. destruct (spec_all (inputs cs w1) s1) as [rs' s'].
    destruct IH as (-> & Ef & S2 & U2). split; [congruence |]. split; [exact Ef |]. split; [| exact U2].
    eapply sound_trans; eassumption.
Qed.
End Methods.
