(* ===== verification/MetadataTheorems.v ===== *)
(** * The metadata of a camera: theorems

    What the packets and the container promise, with an example packet and an
    example heap at which each promise is put to use. *)

From Stdlib Require Import Sorted.
From S2P Require Import Prelude Memory Errors MetadataTables MetadataTags MetadataBuffer MetadataPacket MetadataMemory MetadataAdd MetadataEdit MetadataFind MetadataSteps CameraMetadata CameraMetadataHeap CameraMetadataMap.
From stdpp Require Import list relations gmap.
#[local] Open Scope Z_scope.
#[local] Open Scope css_scope.

#[local] Existing Instance libc.
#[local] Existing Instance libc_ok.

(** ** An example packet *)

Definition demo_memory : mem := fun a => (7 * a) mod 256.
Definition demo0 : mem := snd (place_icamera_metadata 4096 4096 4 64 demo_memory).
Definition demo1 : mem := snd (add_icamera_metadata_entry 4096 10 1000 2 demo0).
Definition demo2 : mem := snd (add_icamera_metadata_entry 4096 0 1000 3 demo1).
Definition demo3 : mem := snd (add_icamera_metadata_entry 4096 5 1000 3 demo2).

Lemma demo0_ok : wf demo0 4096 /\ well_typed demo0 4096.
Proof.
  destruct (place_ok 4096 4096 4 64 demo_memory) as (m' & E & W & C & _);
    [lia | lia | lia | vm_compute; discriminate | vm_compute; reflexivity |].
  unfold demo0. rewrite E. split; [exact W |]. unfold well_typed. cbn [snd]. rewrite C. constructor.
Qed.

Lemma demo_values m tag count :
  0 <= count < 100 -> is_type (get_icamera_metadata_tag_type tag) ->
  values_at m 4096 (get_icamera_metadata_tag_type tag) 1000 count.
Proof.
  intros Hc Ht. pose proof (type_size_range _ Ht). assert (0 <= count * type_size (get_icamera_metadata_tag_type tag) <= 800) by nia.
  unfold values_at. lia.
Qed.

Lemma demo_add m tag count :
  0 <= tag < 2 ^ 32 -> 0 <= count < 100 -> is_type (get_icamera_metadata_tag_type tag) ->
  step 4096 m (snd (add_icamera_metadata_entry 4096 tag 1000 count m)).
Proof. intros Ht Hc Hy. apply step_add; [exact Ht | apply demo_values; assumption]. Qed.

Lemma demo_steps : rtc (step 4096) demo0 demo3.
Proof.
  apply (rtc_l _ _ demo1); [apply (demo_add demo0 10 2); [lia | lia | vm_compute; split; congruence] |].
  apply (rtc_l _ _ demo2); [apply (demo_add demo1 0 3); [lia | lia | vm_compute; split; congruence] |].
  apply (rtc_l _ _ demo3); [apply (demo_add demo2 5 3); [lia | lia | vm_compute; split; congruence] |]. apply rtc_refl.
Qed.

Lemma steps_kept {L : CLibrary} {LOk : CLibraryOk L} p m m' :
  rtc (step p) m m' -> wf m p -> well_typed m p -> kept p m m'.
Proof.
  intros R. induction R as [m | m1 m2 m3 S R IH]; intros W T; [apply kept_refl; assumption |].
  pose proof (step_kept p m1 m2 S W T) as K. destruct K as (W2 & T2 & K').
  eapply kept_trans; [split; [exact W2 | split; [exact T2 | exact K']] | apply IH; assumption].
Qed.

Lemma demo3_ok : wf demo3 4096 /\ well_typed demo3 4096.
Proof.
  destruct demo0_ok as [W T]. destruct (steps_kept 4096 _ _ demo_steps W T) as (W' & T' & _). auto.
Qed.

(** ** Packets *)

Section Packets.
Context {L : CLibrary} {LOk : CLibraryOk L}.

(** C30: a packet stays a packet.  Whatever entries are added, appended,
    updated and deleted and however often it is sorted, in any order and
    whether the calls succeed or not, its entries stay behind its header and
    its data area behind them, the values tile the used part of the area, the
    flag is on sorted entries only, every datum has the type the tables give
    its tag, and no byte outside the packet is written.  This is for values
    and packets that lie outside the packet, for packets with less than 4 GB
    of data together, and for appends to an empty packet only when its flag is
    not set or the other packet is sorted: an unsorted one leaves a flag that
    is wrong, see [append_keeps_stale_flag]. *)
Theorem packet_operations_keep_invariant p m m' :
  rtc (step p) m m' -> wf m p -> well_typed m p ->
  wf m' p /\ well_typed m' p /\ same_outside p (p + rd m p md.size) m m' /\ same_layout m m' p.
Proof. apply steps_kept. Qed.

(** An entry is added behind the others, with its tag's type and the
    caller's values, exactly when the tag is known, an entry is free and the
    values fit; otherwise nothing changes. *)
Theorem add_entry_appends p tag data count m :
  let t := get_icamera_metadata_tag_type tag in
  wf m p -> 0 <= tag < 2 ^ 32 -> values_at m p t data count ->
  if negb (t =? -1) && entry_fits m p t count
  then exists m', add_icamera_metadata_entry p tag data count m = (OK, m') /\ wf m' p
         /\ contents m' p = contents m p ++ [Datum tag t count (bytes m data (count * type_size t))]
         /\ same_outside p (p + rd m p md.size) m m'
  else add_icamera_metadata_entry p tag data count m = (UNKNOWN_ERROR, m).
Proof.
  intros t W Ht V. destruct (add_step p m tag data count W Ht V) as [[E [Ec | Ec]] | (m' & E & W' & Hne & Hf & C & S & _)].
  - fold t in Ec. rewrite Ec. exact E.
  - fold t in Ec. rewrite Ec, andb_false_r. exact E.
  - fold t in Hf, Hne. rewrite Hf, (proj2 (Z.eqb_neq _ _) Hne). exists m'. auto.
Qed.

(** Appending a packet adds its data behind those of the other exactly
    when both its entries and its values fit, and refuses otherwise; the
    result counts as sorted only when one of the two was empty. *)
Theorem append_joins_packets dst src m :
  wf m dst -> wf m src -> dst + rd m dst md.size <= src \/ src + rd m src md.size <= dst ->
  rd m dst md.data_count + rd m src md.data_count < 2 ^ 32 ->
  (rd m dst md.entry_count = 0 -> is_sorted m dst = true -> is_sorted m src = true) ->
  if (rd m dst md.entry_count + rd m src md.entry_count <=? rd m dst md.entry_capacity)
     && (rd m dst md.data_count + rd m src md.data_count <=? rd m dst md.data_capacity)
  then exists m', append_icamera_metadata dst src m = (OK, m') /\ wf m' dst
         /\ contents m' dst = contents m dst ++ contents m src
         /\ same_outside dst (dst + rd m dst md.size) m m'
         /\ (is_sorted m' dst = true -> rd m dst md.entry_count = 0 \/ rd m src md.entry_count = 0)
  else append_icamera_metadata dst src m = (UNKNOWN_ERROR, m).
Proof.
  intros W W' Ha Hd Hf. destruct (_ && _) eqn:E; bsimp.
  - destruct (append_ok m dst src W W' Ha ltac:(lia) ltac:(lia) Hf) as (m' & E1 & E2 & E3 & E4 & E5 & _).
    exists m'. split; [exact E1 |]. split; [exact E2 |]. split; [exact E3 |]. split; [exact E4 |]. rewrite E5.
    destruct (Z.eqb_spec (rd m dst md.entry_count) 0); [auto |].
    destruct (Z.eqb_spec (rd m src md.entry_count) 0); [auto | discriminate].
  - apply append_refused; auto. apply andb_false_iff in E as [E | E]; bsimp; lia.
Qed.

(** Deleting removes exactly the chosen datum: the others keep their order
    and values, the room of the deleted values is free again, and an index
    that is too large is refused. *)
Theorem delete_removes_one p i m :
  wf m p -> 0 <= i ->
  if i <? rd m p md.entry_count
  then exists m', delete_icamera_metadata_entry p i m = (OK, m') /\ wf m' p
         /\ contents m' p = delete (Z.to_nat i) (contents m p)
         /\ rd m' p md.data_count = rd m p md.data_count - c_room (slot m p i)
         /\ same_outside p (p + rd m p md.size) m m' /\ is_sorted m' p = is_sorted m p
  else delete_icamera_metadata_entry p i m = (UNKNOWN_ERROR, m).
Proof.
  intros W Hi. destruct (Z.ltb_spec i (rd m p md.entry_count)) as [Hl | Hl].
  - destruct (delete_ok m p i W ltac:(lia)) as (m' & E1 & E2 & E3 & E4 & E5 & _ & E7). exists m'. auto 10.
  - unfold delete_icamera_metadata_entry. rewrite not_null by apply W.
    destruct (Z.leb_spec (rd m p md.entry_count) i); [reflexivity | lia].
Qed.

(** Updating replaces the values of exactly the chosen datum, wherever the
    new values go (into the entry, in the place of the old ones or behind all
    others), and is refused exactly when they need more room than is free
    together with the room of the old ones. *)
Theorem update_replaces_values p i data count ue m :
  wf m p -> 0 <= i < rd m p md.entry_count -> values_at m p (c_type (slot m p i)) data count ->
  let size := count * type_size (c_type (slot m p i)) in
  if (room_for size =? c_room (slot m p i))
     || (rd m p md.data_count + room_for size - c_room (slot m p i) <=? rd m p md.data_capacity)
  then exists e m', update_icamera_metadata_entry p i data count ue m = ((OK, e), m') /\ wf m' p
         /\ contents m' p
            = <[Z.to_nat i := Datum (c_tag (slot m p i)) (c_type (slot m p i)) count (bytes m data size)]> (contents m p)
         /\ same_outside p (p + rd m p md.size) m m' /\ is_sorted m' p = is_sorted m p
         /\ (ue <> None -> exists entry, e = Some entry /\ index entry = i
               /\ bytes m' (MetadataBuffer.data entry) size = bytes m data size)
  else update_icamera_metadata_entry p i data count ue m = ((UNKNOWN_ERROR, ue), m).
Proof.
  intros W Hi (Hd & Hc & Hs & Ha) size. change (if update_fits m p i count
    then exists e m', update_icamera_metadata_entry p i data count ue m = ((OK, e), m') /\ wf m' p
         /\ contents m' p
            = <[Z.to_nat i := Datum (c_tag (slot m p i)) (c_type (slot m p i)) count (bytes m data size)]> (contents m p)
         /\ same_outside p (p + rd m p md.size) m m' /\ is_sorted m' p = is_sorted m p
         /\ (ue <> None -> exists entry, e = Some entry /\ index entry = i
               /\ bytes m' (MetadataBuffer.data entry) size = bytes m data size)
    else update_icamera_metadata_entry p i data count ue m = ((UNKNOWN_ERROR, ue), m)).
  destruct (update_fits m p i count) eqn:F; [| apply update_full; assumption].
  destruct (update_ok m p i W Hi data count ue Hc Hs Ha F) as (m' & E1 & E2 & E3 & E4 & E5 & E6).
  eexists _, m'. split; [exact E1 |]. split; [exact E2 |]. split; [exact E3 |]. split; [exact E4 |]. split; [exact E5 |].
  intros Hue. destruct ue as [e0 |]; [| contradiction].
  assert (Hi' : 0 <= i < rd m' p md.entry_count).
  { pose proof (f_equal length E3) as Hl. rewrite length_insert, !contents_length in Hl.
    pose proof (rd_U32_range m' p 12 : 0 <= rd m' p md.entry_count < _).
    pose proof (rd_U32_range m p 12 : 0 <= rd m p md.entry_count < _). lia. }
  destruct (datum_describes m' p i E2 Hi') as (entry & Eg & Ei & D). exists entry. rewrite Eg. cbn [snd].
  split; [reflexivity |]. split; [exact Ei |]. pose proof (contents_lookup m' p i Hi') as Hl. rewrite E3 in Hl.
  rewrite list_lookup_insert_eq in Hl by (rewrite contents_length; lia). 
  apply Some_inj in Hl. rewrite <- Hl in D.
  destruct D as (_ & D2 & D3 & D4). cbn [d_type d_count d_values] in D2, D3, D4. rewrite D2, D3 in D4. exact D4.
Qed.

(** A lookup finds a datum under the tag whenever there is one, by the
    binary search as well as by the linear one, and hands out an entry through
    which exactly its values are read; otherwise it says that there is none
    and leaves the caller's entry alone. *)
Theorem find_entry_complete p tag entry0 m :
  wf m p -> 0 <= tag < 2 ^ 32 ->
  let r := find_icamera_metadata_entry m p tag (Some entry0) in
  (fst r = OK /\ exists e i d, snd r = Some e /\ index e = i /\ contents m p !! Z.to_nat i = Some d
     /\ d_tag d = tag /\ describes m e d)
  \/ (fst r = NAME_NOT_FOUND /\ snd r = Some entry0 /\ forall d, d ∈ contents m p -> d_tag d <> tag).
Proof.
  intros W Ht. destruct (find_ok m p tag entry0 W Ht) as [(i & entry & d & -> & Ei & _ & D1 & D2 & D3) | [-> Ha]].
  - left. split; [reflexivity |]. exists entry, i, d. auto 10.
  - right. auto.
Qed.

(** Sorting reorders the data by tag and loses none of them. *)
Theorem sort_orders_by_tag p m :
  wf m p ->
  exists m', sort_icamera_metadata p m = (OK, m') /\ wf m' p
    /\ Permutation (contents m p) (contents m' p)
    /\ StronglySorted (fun c d => d_tag c <= d_tag d) (contents m' p)
    /\ same_outside p (p + rd m p md.size) m m'.
Proof.
  intros W. destruct (sort_ok m p W) as (m' & E1 & E2 & E3 & E4 & E5 & _). exists m'.
  split; [exact E1 |]. split; [exact E2 |]. split; [exact E3 |]. split; [apply contents_sorted; assumption | exact E5].
Qed.

(** The two ways of copying agree: a clone, built by appending to an
    empty packet, and a copy, made of two block copies, hold the same data in
    the same order and are sorted alike, in a packet without free space. *)
Theorem clone_and_copy_agree buffer dst_size src m :
  wf m src -> 0 < buffer -> compact_size m src <= dst_size ->
  buffer + compact_size m src <= src \/ src + rd m src md.size <= buffer ->
  exists m1 m2, clone_icamera_metadata buffer src m = (buffer, m1)
    /\ copy_icamera_metadata buffer dst_size src m = (buffer, m2)
    /\ wf m1 buffer /\ wf m2 buffer
    /\ contents m1 buffer = contents m src /\ contents m2 buffer = contents m src
    /\ is_sorted m1 buffer = is_sorted m src /\ is_sorted m2 buffer = is_sorted m src
    /\ rd m1 buffer md.size = rd m2 buffer md.size /\ rd m1 buffer md.size <= rd m src md.size + 7.
Proof.
  intros W Hb Hs Ha. destruct (clone_ok buffer src m W Hb Ha) as (m1 & E1 & W1 & C1 & F1 & _ & S1).
  destruct (copy_ok buffer dst_size src m W Hb Ha Hs) as (m2 & E2 & W2 & C2 & F2 & _ & S2).
  exists m1, m2. repeat (split; [assumption || congruence |]). rewrite S1.
  pose proof (wf_data m src W) as [D1 D2]. pose proof (wf_entries m src W) as [D3 _]. pose proof (wf_end m src W).
  pose proof (wf_entry_count m src W). pose proof (wf_data_count m src W). unfold compact_size, data_start_for. divlia.
Qed.

(** C38: with the debug log on, a packet that keeps the invariant is accepted
    exactly when it is within the expected size, every entry has the type of
    its tag and entries without values have no offset; with the log off,
    everything is accepted, a null pointer too. *)
Theorem validate_accepts p expected m :
  wf m p -> p mod 8 = 0 -> p + rd m p md.size < 2 ^ 63 ->
  (validate_icamera_metadata_structure true m p expected = OK
   <-> (forall size, expected = Some size -> rd m p md.size <= size)
       /\ forall i, 0 <= i < rd m p md.entry_count ->
            get_icamera_metadata_tag_type (c_tag (slot m p i)) = c_type (slot m p i)
            /\ (c_count (slot m p i) = 0 -> c_offset (slot m p i) = 0))
  /\ forall m' q, validate_icamera_metadata_structure false m' q expected = OK.
Proof.
  intros W Ha He. split; [| reflexivity]. rewrite <- (valid_structure_ok m p W Ha He expected).
  unfold validate_icamera_metadata_structure. cbn [negb]. destruct (valid_structure m p expected) as [[] |]; split; auto; discriminate.
Qed.
End Packets.

(** Witnesses at the example packet. *)

Lemma packet_operations_keep_invariant_witness :
  wf demo3 4096 /\ well_typed demo3 4096 /\ same_outside 4096 (4096 + rd demo0 4096 md.size) demo0 demo3
  /\ same_layout demo0 demo3 4096.
Proof.
  apply (packet_operations_keep_invariant 4096 demo0 demo3 demo_steps); apply demo0_ok.
Defined.

Lemma add_entry_appends_witness :
  (exists m', add_icamera_metadata_entry 4096 2 1000 1 demo3 = (OK, m') /\ wf m' 4096
     /\ contents m' 4096 = contents demo3 4096 ++ [Datum 2 1 1 [88; 95; 102; 109]]
     /\ same_outside 4096 (4096 + rd demo3 4096 md.size) demo3 m')
  /\ add_icamera_metadata_entry 4096 131077 1000 1 demo3 = (UNKNOWN_ERROR, demo3).
Proof.
  split.
  - apply (add_entry_appends 4096 2 1000 1 demo3); [apply demo3_ok | lia | apply demo_values; [lia | vm_compute; split; congruence]].
  - apply (add_entry_appends 4096 131077 1000 1 demo3); [apply demo3_ok | lia |].
    vm_compute. repeat split; try congruence. left. congruence.
Defined.

(** A second, empty packet behind the first. *)
Definition demo4 : mem := snd (place_icamera_metadata 8192 4096 4 64 demo3).

Lemma demo4_ok : wf demo4 8192 /\ wf demo4 4096.
Proof.
  destruct (place_ok 8192 4096 4 64 demo3) as (m' & E & W & _ & _ & _ & _ & _ & _ & _ & _ & _ & S);
    [lia | lia | lia | vm_compute; discriminate | vm_compute; reflexivity |].
  unfold demo4. rewrite E. split; [exact W |]. apply (wf_moved demo3); [apply demo3_ok |].
  change (rd demo3 4096 md.size) with (rd demo0 4096 md.size). intros a Ha. apply S. vm_compute (rd demo0 4096 md.size) in Ha. lia.
Qed.

Lemma append_joins_packets_witness :
  exists m', append_icamera_metadata 8192 4096 demo4 = (OK, m') /\ wf m' 8192
    /\ contents m' 8192 = contents demo4 8192 ++ contents demo4 4096
    /\ same_outside 8192 (8192 + rd demo4 8192 md.size) demo4 m'
    /\ (is_sorted m' 8192 = true -> rd demo4 8192 md.entry_count = 0 \/ rd demo4 4096 md.entry_count = 0).
Proof.
  apply (append_joins_packets 8192 4096 demo4); [apply demo4_ok | apply demo4_ok | | | ].
  - right. vm_compute. discriminate.
  - vm_compute. reflexivity.
  - intros _ Hs. exfalso. vm_compute in Hs. discriminate Hs.
Defined.

Lemma delete_removes_one_witness :
  exists m', delete_icamera_metadata_entry 4096 0 demo3 = (OK, m') /\ wf m' 4096
    /\ contents m' 4096 = delete 0%nat (contents demo3 4096)
    /\ rd m' 4096 md.data_count = 32 - 16
    /\ same_outside 4096 (4096 + rd demo3 4096 md.size) demo3 m' /\ is_sorted m' 4096 = is_sorted demo3 4096.
Proof. apply (delete_removes_one 4096 0 demo3); [apply demo3_ok | lia]. Defined.

Lemma update_replaces_values_witness :
  exists e m', update_icamera_metadata_entry 4096 0 1000 1 None demo3 = ((OK, e), m') /\ wf m' 4096
    /\ contents m' 4096 = <[0%nat := Datum 10 5 1 [88; 95; 102; 109; 116; 123; 130; 137]]> (contents demo3 4096)
    /\ same_outside 4096 (4096 + rd demo3 4096 md.size) demo3 m' /\ is_sorted m' 4096 = is_sorted demo3 4096
    /\ (None (A := icamera_metadata_entry_t) <> None -> exists entry, e = Some entry /\ index entry = 0
          /\ bytes m' (MetadataBuffer.data entry) 8 = bytes demo3 1000 8).
Proof.
  apply (update_replaces_values 4096 0 1000 1 None demo3); [apply demo3_ok | vm_compute; split; congruence |].
  vm_compute. repeat split; try congruence. left. congruence.
Defined.

Lemma find_entry_complete_witness :
  exists e i d, snd (find_icamera_metadata_entry demo3 4096 5 (Some uninitialised)) = Some e
    /\ index e = i /\ contents demo3 4096 !! Z.to_nat i = Some d /\ d_tag d = 5 /\ describes demo3 e d.
Proof.
  destruct (find_entry_complete 4096 5 uninitialised demo3 (proj1 demo3_ok) ltac:(lia)) as [[_ H] | [E _]]; [exact H |].
  exfalso. vm_compute in E. discriminate E.
Defined.

Lemma sort_orders_by_tag_witness :
  exists m', sort_icamera_metadata 4096 demo3 = (OK, m') /\ wf m' 4096
    /\ Permutation (contents demo3 4096) (contents m' 4096)
    /\ StronglySorted (fun c d => d_tag c <= d_tag d) (contents m' 4096)
    /\ same_outside 4096 (4096 + rd demo3 4096 md.size) demo3 m'.
Proof. apply (sort_orders_by_tag 4096 demo3). apply demo3_ok. Defined.

Lemma clone_and_copy_agree_witness :
  exists m1 m2, clone_icamera_metadata 8192 4096 demo3 = (8192, m1)
    /\ copy_icamera_metadata 8192 200 4096 demo3 = (8192, m2)
    /\ wf m1 8192 /\ wf m2 8192
    /\ contents m1 8192 = contents demo3 4096 /\ contents m2 8192 = contents demo3 4096
    /\ is_sorted m1 8192 = is_sorted demo3 4096 /\ is_sorted m2 8192 = is_sorted demo3 4096
    /\ rd m1 8192 md.size = rd m2 8192 md.size /\ rd m1 8192 md.size <= rd demo3 4096 md.size + 7.
Proof.
  apply (clone_and_copy_agree 8192 200 4096 demo3); [apply demo3_ok | lia | vm_compute; discriminate | right; vm_compute; discriminate].
Defined.

Lemma validate_accepts_witness :
  (validate_icamera_metadata_structure true demo3 4096 None = OK
   <-> (forall size, None = Some size -> rd demo3 4096 md.size <= size)
       /\ forall i, 0 <= i < rd demo3 4096 md.entry_count ->
            get_icamera_metadata_tag_type (c_tag (slot demo3 4096 i)) = c_type (slot demo3 4096 i)
            /\ (c_count (slot demo3 4096 i) = 0 -> c_offset (slot demo3 4096 i) = 0))
  /\ forall m' q, validate_icamera_metadata_structure false m' q None = OK.
Proof. apply (validate_accepts 4096 None demo3); [apply demo3_ok | reflexivity | vm_compute; reflexivity]. Defined.

(** ** A stale flag *)

(** Three entries, not in order, and an empty packet that was sorted. *)
Definition stale : mem :=
  snd (append_icamera_metadata 8192 4096 (snd (sort_icamera_metadata 8192 demo4))).

(** An empty packet that was sorted keeps its flag when unsorted entries
    are appended to it, and the binary search then misses entries that are
    there. *)
Theorem append_keeps_stale_flag :
  is_sorted stale 8192 = true /\ contents stale 8192 = contents demo3 4096
  /\ Exists (fun d => d_tag d = 10) (contents stale 8192)
  /\ find_icamera_metadata_entry stale 8192 10 (Some uninitialised) = (NAME_NOT_FOUND, Some uninitialised).
Proof.
  split; [vm_compute; reflexivity |]. split; [vm_compute; reflexivity |]. split; [| vm_compute; reflexivity].
  vm_compute. constructor. reflexivity.
Qed.

(** ** The container *)

(** An allocator that never gives a region back: the next one is behind all. *)
Definition region_ends (regions : gmap Z Z) : Z :=
  foldr (fun r e => Z.max e (Z.max (fst r) (fst r + snd r))) 4096 (map_to_list regions).

#[local] Instance bump : Allocator :=
  fun regions n => let a := region_ends regions + 8 in if a + n <=? 2 ^ 63 then a else NULL.

Lemma region_ends_spec regions :
  4096 <= region_ends regions
  /\ forall b size, regions !! b = Some size -> Z.max b (b + size) <= region_ends regions.
Proof.
  unfold region_ends. assert (H : forall l : list (Z * Z), 4096 <= foldr (fun r e => Z.max e (Z.max (fst r) (fst r + snd r))) 4096 l
    /\ forall b size, (b, size) ∈ l -> Z.max b (b + size) <= foldr (fun r e => Z.max e (Z.max (fst r) (fst r + snd r))) 4096 l).
  { induction l as [| [b size] l [IH1 IH2]]; cbn [foldr fst snd].
    - split; [lia |]. intros b size Hb. apply not_elem_of_nil in Hb. contradiction.
    - split; [lia |]. intros b' size' Hb. apply elem_of_cons in Hb as [[= -> ->] | Hb]; [lia |]. specialize (IH2 _ _ Hb). lia. }
  destruct (H (map_to_list regions)) as [H1 H2]. split; [exact H1 |].
  intros b size Hb. apply H2, elem_of_map_to_list, Hb.
Qed.

#[local] Instance bump_ok : AllocatorOk bump.
Proof.
  intros regions n a Hn E N. unfold malloc, bump in E. destruct (region_ends_spec regions) as [H1 H2].
  destruct (Z.leb_spec (region_ends regions + 8 + n) (2 ^ 63)); [| congruence]. subst a.
  split; [lia |]. split; [assumption |]. split.
  - destruct (regions !! _) as [s |] eqn:Es; [| reflexivity]. specialize (H2 _ _ Es). lia.
  - intros b size Hb. specialize (H2 b size Hb). lia.
Qed.

Lemma bump_suffices w : region_ends (blocks w) < 2 ^ 62 -> ~ out_of_memory w.
Proof.
  intros H (n & Hn & E). unfold malloc, bump in E. destruct (region_ends_spec (blocks w)) as [H1 _].
  destruct (Z.leb_spec (region_ends (blocks w) + 8 + n) (2 ^ 63)); unfold NULL in *; lia.
Qed.

(** Values of a caller at 1000, and no object with a packet yet. *)
Definition world0 : world := World demo_memory {[1000 := 2000]} (fun _ => CM NULL false).

Lemma world0_ok : owned world0 /\ unique world0.
Proof.
  split.
  - split; [split | |].
    + intros b size. cbn. rewrite lookup_singleton_Some. lia.
    + intros b size b' size'. cbn. rewrite !lookup_singleton_Some. lia.
    + intros this N. destruct N. reflexivity.
    + intros this that N. destruct N. reflexivity.
  - intros this. constructor.
Qed.

(** Two objects; the second is assigned the first and locked for a while. *)
Definition session : list call :=
  [Update ICAMERA_TYPE_BYTE 1 0 1000 3; Update ICAMERA_TYPE_RATIONAL 1 10 1000 2; Sort 1;
   Assign 2 1; Erase 1 0; Lock 2; Erase 2 10; Unlock 2 2; UpdateString 2 0 1100 9; Swap 1 2].

Ltac ready_step :=
  match goal with
  | |- _ /\ ~ out_of_memory _ /\ _ =>
      split; [| split; [apply bump_suffices; vm_compute; reflexivity |]]
  end.

Lemma demo_updatable w ty this tag data count :
  is_type ty -> 0 <= tag < 2 ^ 32 -> blocks w !! 1000 = Some 2000 -> buf w this <> 1000 ->
  1000 <= data -> 0 <= count -> data + count * type_size ty <= 3000 ->
  grown w this 1 (room_for (count * type_size ty)) < 2 ^ 32 -> updatable w ty this tag data count.
Proof.
  intros Hy Ht B Hb Hd Hc Hs G. pose proof (type_size_range _ Hy). split; [exact Hy |]. split; [exact Ht |].
  split; [| exact G]. exists 1000, 2000. repeat split; auto; nia.
Qed.

Lemma session_ready : ready session world0.
Proof.
  unfold session. cbn [ready].
  repeat ready_step; try exact I; cbn [pre];
    try (apply demo_updatable; vm_compute; repeat split; congruence); try (split; [lia | reflexivity]).
Qed.

Section Container.
Context {A : Allocator} {AOk : AllocatorOk A} {L : CLibrary} {LOk : CLibraryOk L}.

(** C28: containers are maps from tags to typed values.  As long as memory
    does not run out and the calls are used as [pre] says, whatever sequence of
    updates, erasures, appends, sorts, clears, assignments, acquisitions,
    swaps, locks and unlocks runs on any number of objects, each call returns
    the status its specification gives and does to the maps what the
    specification does; growing, moving values and sharing of the heap do not
    show.  [pre] asks that packets stay below 4 GB, that the values of an
    update do not lie in the packet of the object itself, and that an append is
    given another object with a packet, whose tags the object does not have,
    and sorted entries if the object is empty with its flag set.  The findings
    on CameraMetadata.cpp and [failed_growth_leaks] are on what lies outside. *)
Theorem container_refines_map cs w :
  owned w -> unique w -> ready cs w ->
  let '(rs, w') := run_all cs w in
  let '(rs', s) := spec_all (inputs cs w) (abs w) in
  rs = rs' /\ forall this, abs w' this = s this.
Proof.
  intros O U R. pose proof (run_all_refines cs w (abs w) O U R (reflexivity _)) as H.
  destruct (run_all cs w) as [rs w']. destruct (spec_all (inputs cs w) (abs w)) as [rs' s].
  destruct H as (E & Ea & _). split; [exact E | exact Ea].
Qed.

(** C34: memory is managed well as long as there is some.  Through any sequence
    of calls that are used as in [container_refines_map], with no [malloc] that
    fails, every object owns a live, well-formed packet of its own or none, no
    object has a tag twice, no packet is leaked and no region of anyone else is
    freed or written.  When [malloc] fails while a packet grows, the packet is
    leaked: [failed_growth_leaks]. *)
Theorem container_keeps_ownership cs w :
  owned w -> unique w -> ready cs w ->
  let w' := snd (run_all cs w) in
  owned w' /\ unique w'
  /\ (forall b, is_Some (blocks w' !! b) -> (forall this, buf w' this <> b) ->
       is_Some (blocks w !! b) /\ forall this, buf w this <> b)
  /\ forall b size, blocks w !! b = Some size -> (forall this, buf w this <> b) ->
       blocks w' !! b = Some size /\ forall a, b <= a < b + size -> memory w' a = memory w a.
Proof.
  intros O U R. pose proof (run_all_refines cs w (abs w) O U R (reflexivity _)) as H. cbv zeta.
  destruct (run_all cs w) as [rs w']. destruct (spec_all (inputs cs w) (abs w)) as [rs' s]. cbn [snd].
  destruct H as (_ & _ & [O' F K] & U'). split; [exact O' |]. split; [exact U' |]. split.
  - intros b Hb Hn. apply F. split; assumption.
  - intros b size Hb Hn. apply K; [split; [eauto | exact Hn] | exact Hb].
Qed.

(** A lookup in a container reads what the map has under the tag, in the
    constant and in the other overload, and an entry without values when it
    has none; the number of entries is the size of the map. *)
Theorem container_lookups_read_map this tag entry w :
  owned w -> unique w -> 0 <= tag < 2 ^ 32 ->
  answers w (find_const this tag entry w) (value_of w this tag)
  /\ (mLocked (objects w this) = false -> answers w (CameraMetadata.find this tag w) (value_of w this tag))
  /\ exists_entry this tag w = bool_decide (is_Some (value_of w this tag))
  /\ entryCount this w = Z.of_nat (size (default ∅ (fst (abs w this)))).
Proof.
  intros O U Ht. destruct (find_container_ok this tag entry w O U Ht) as (H1 & H2 & H3).
  split; [exact H1 |]. split; [exact H2 |]. split; [exact H3 | apply entryCount_ok; assumption].
Qed.

(** What was stored under a tag is read back byte by byte, with its type
    and count, and every other tag reads as before. *)
Theorem update_then_find ty this tag data count w :
  owned w -> unique w -> ~ out_of_memory w -> mLocked (objects w this) = false ->
  updatable w ty this tag data count -> get_icamera_metadata_tag_type tag = ty ->
  let '(r, w') := update ty this tag data count w in
  r = OK
  /\ (let e := CameraMetadata.find this tag w' in
      MetadataBuffer.tag e = tag /\ type e = ty /\ MetadataBuffer.count e = count
      /\ bytes (memory w') (MetadataBuffer.data e) (count * type_size ty) = bytes (memory w) data (count * type_size ty))
  /\ forall other, other <> tag -> value_of w' this other = value_of w this other.
Proof.
  intros O U Hm Hl Hu Et. pose proof (update_refines ty this tag data count w O U Hm Hu) as R.
  unfold spec_update in R. cbn [abs snd] in R. rewrite Hl, Et, Z.eqb_refl in R. cbn [negb] in R.
  destruct (update ty this tag data count w) as [r w']. destruct R as (-> & Ha & [O' _ _] & U').
  assert (Ev : forall x, value_of w' this x
     = (<[tag := Datum tag ty count (bytes (memory w) data (count * type_size ty))]> (default ∅ (fst (abs w this)))) !! x).
  { intros x. unfold value_of. rewrite Ha. unfold upd_value. rewrite Z.eqb_refl. reflexivity. }
  assert (Hl' : mLocked (objects w' this) = false).
  { pose proof (f_equal snd (Ha this)) as E. unfold upd_value in E. rewrite Z.eqb_refl in E. exact E. }
  split; [reflexivity |]. split.
  - destruct Hu as (_ & Ht & _). destruct (find_container_ok this tag uninitialised w' O' U' Ht) as (_ & F & _).
    specialize (F Hl'). rewrite Ev, lookup_insert_eq in F. destruct F as (F1 & F2 & F3 & F4).
    cbn [d_tag d_type d_count d_values] in F1, F2, F3, F4. rewrite F2, F3 in F4. auto.
  - intros other Hne. rewrite Ev, lookup_insert_ne by congruence. unfold value_of.
    destruct (fst (abs w this)); reflexivity.
Qed.

Lemma allocate_metadata_keeps ec dc w :
  let w1 := snd (allocate_metadata ec dc w) in
  objects w1 = objects w /\ forall b, is_Some (blocks w !! b) -> is_Some (blocks w1 !! b).
Proof.
  unfold allocate_metadata, new_block, in_memory. set (a := malloc _ _). destruct (is_null a); cbn [memory];
    destruct (allocate_icamera_metadata _ _ _ _) as [b m']; cbn [snd set_memory objects blocks]; (split; [reflexivity |]);
    intros x Hx; [exact Hx |]. apply lookup_insert_is_Some'. right. exact Hx.
Qed.

(** When the packet of an object cannot grow because memory runs out, the
    object loses it: it is still allocated, and no object has it any more. *)
Theorem failed_growth_leaks this xe xd w :
  owned w -> buf w this <> NULL -> fst (resizeIfNeeded this xe xd w) = NO_MEMORY ->
  let w' := snd (resizeIfNeeded this xe xd w) in
  buf w' this = NULL /\ is_Some (blocks w' !! buf w this) /\ forall that, buf w' that <> buf w this.
Proof.
  intros O N. destruct (owned_packet w O this N) as (size & Bo & _ & W & _). pose proof (wf_pos _ _ W) as Hp.
  unfold resizeIfNeeded. rewrite (not_null _ Hp : is_null (mBuffer (objects w this)) = false). cbv zeta.
  destruct (_ || _); [| discriminate].
  match goal with |- context [allocate_metadata ?e ?d w] => pose proof (allocate_metadata_keeps e d w) as [Eo Hb];
    destruct (allocate_metadata e d w) as [b w1] end. cbn [snd] in Eo, Hb.
  destruct (is_null b) eqn:Eb; [| destruct (in_memory _ _); discriminate]. apply Z.eqb_eq in Eb. subst b.
  intros _. cbn [snd]. split; [unfold set_mBuffer; rewrite set_object_same; reflexivity |].
  split; [apply Hb; eexists; exact Bo |]. intros that. destruct (Z.eq_dec that this) as [-> | Hne].
  - unfold set_mBuffer. rewrite set_object_same. cbn [mBuffer]. congruence.
  - unfold set_mBuffer. rewrite set_object_other, Eo by exact Hne. intros E.
    apply Hne. symmetry. apply (owned_once w O); [exact N | symmetry; exact E].
Qed.

(** C39: a locked container refuses every change.  No method that could
    invalidate the packet pointer that was handed out does anything, until the
    lock is given back with that very pointer. *)
Theorem locked_container_unchanged this w :
  mLocked (objects w this) = true ->
  (forall ty tag data count, update ty this tag data count w = (INVALID_OPERATION, w))
  /\ (forall tag c_str size, update_string this tag c_str size w = (INVALID_OPERATION, w))
  /\ (forall tag data count, updateImpl this tag data count w = (INVALID_OPERATION, w))
  /\ (forall tag, erase this tag w = (INVALID_OPERATION, w))
  /\ (forall other, append this other w = (INVALID_OPERATION, w))
  /\ CameraMetadata.sort this w = (INVALID_OPERATION, w)
  /\ clear this w = w /\ release this w = (NULL, w)
  /\ (forall buffer, assign this buffer w = w /\ acquire this buffer w = w)
  /\ (forall other, acquire_from this other w = w /\ swap this other w = w /\ swap other this w = w)
  /\ (forall buffer, buffer <> buf w this -> unlock this buffer w = (BAD_VALUE, w))
  /\ mLocked (objects (snd (unlock this (buf w this) w)) this) = false.
Proof.
  intros Hl.
  unfold update, update_string, updateImpl, erase, append, CameraMetadata.sort, clear, release, assign, acquire, acquire_from, swap, unlock.
  rewrite Hl. cbn [negb]. rewrite Z.eqb_refl. repeat split; auto.
  - destruct (mLocked (objects w other)); reflexivity.
  - intros b Hb. rewrite (proj2 (Z.eqb_neq _ _) Hb). reflexivity.
  - cbn [snd negb]. unfold set_mLocked. rewrite set_object_same. reflexivity.
Qed.
End Container.

Lemma container_refines_map_witness :
  (let '(rs, w') := run_all session world0 in
   let '(rs', s) := spec_all (inputs session world0) (abs world0) in
   rs = rs' /\ forall this, abs w' this = s this)
  /\ fst (run_all session world0) = [OK; OK; OK; OK; OK; OK; INVALID_OPERATION; OK; OK; OK]
  /\ fst (abs (snd (run_all session world0)) 2) = Some (to_map [Datum 10 5 2 (bytes demo_memory 1000 16)]).
Proof.
  split; [apply (container_refines_map session world0); [apply world0_ok | apply world0_ok | exact session_ready] |].
  split; vm_compute; reflexivity.
Defined.

Lemma container_keeps_ownership_witness :
  owned (snd (run_all session world0)) /\ unique (snd (run_all session world0)).
Proof.
  destruct (container_keeps_ownership session world0 (proj1 world0_ok) (proj2 world0_ok) session_ready) as (H1 & H2 & _).
  split; [exact H1 | exact H2].
Defined.

Lemma container_lookups_read_map_witness :
  answers world0 (CameraMetadata.find 1 0 world0) None /\ entryCount 1 world0 = 0.
Proof.
  destruct (container_lookups_read_map 1 0 uninitialised world0 (proj1 world0_ok) (proj2 world0_ok) ltac:(lia)) as (_ & H & _ & H').
  split; [exact (H eq_refl) | exact H'].
Defined.

Lemma update_then_find_witness :
  fst (update ICAMERA_TYPE_RATIONAL 1 10 1000 2 world0) = OK
  /\ MetadataBuffer.count (CameraMetadata.find 1 10 (snd (update ICAMERA_TYPE_RATIONAL 1 10 1000 2 world0))) = 2.
Proof.
  assert (Hu : updatable world0 ICAMERA_TYPE_RATIONAL 1 10 1000 2)
    by (apply demo_updatable; vm_compute; repeat split; congruence).
  pose proof (update_then_find ICAMERA_TYPE_RATIONAL 1 10 1000 2 world0 (proj1 world0_ok) (proj2 world0_ok)
    (bump_suffices world0 ltac:(vm_compute; reflexivity)) eq_refl Hu eq_refl) as H.
  destruct (update ICAMERA_TYPE_RATIONAL 1 10 1000 2 world0) as [r w']. destruct H as (H1 & (_ & _ & H2 & _) & _).
  split; [exact H1 | exact H2].
Defined.

Lemma locked_container_unchanged_witness :
  let w := snd (getAndLock 1 world0) in
  CameraMetadata.sort 1 w = (INVALID_OPERATION, w) /\ clear 1 w = w.
Proof.
  destruct (locked_container_unchanged 1 (snd (getAndLock 1 world0)) eq_refl) as (_ & _ & _ & _ & _ & H1 & H2 & _).
  split; [exact H1 | exact H2].
Defined.
