(* ===== verification/AiqResultStorage.v ===== *)
(** * Storage of 3A results and statistics

    src/3a/AiqResultStorage.cpp and .h: per camera a ring of 3A results, from
    which the pipeline takes the result for a frame, a ring of three 3A
    statistics between the decoder that writes them and the 3A thread that
    reads them under a lock, and the set of frames for which the stabilizer
    ran.  Pointers into the rings are indices; what the records hold beside
    their sequence and flag is a parameter. *)

From Stdlib Require Import Sorted.
From S2P Require Import Prelude OrderedMap.
From stdpp Require Import list gmap relations.
#[local] Open Scope Z_scope.

(** ** State *)

Definition kStorageSize : Z := 40.
Definition kAiqStatsStorageSize : Z := 3.
Definition kDvsRunMapSize : Z := 15.

Record AiqResult (R : Type) := Result { mSequence : Z; result : R }.
Record AiqStatistics (D : Type) := Statistics { stats_sequence : Z; mInUse : bool; stats : D }.

Arguments Result {R}. Arguments mSequence {R}. Arguments result {R}.
Arguments Statistics {D}. Arguments stats_sequence {D}. Arguments mInUse {D}. Arguments stats {D}.

Record AiqResultStorage (R D : Type) := Storage {
  mCurrentIndex : Z;
  mAiqResults : list (AiqResult R);
  mCurrentAiqStatsIndex : Z;
  mAiqStatistics : list (AiqStatistics D);
  mDvsRunMap : gmap Z bool;
}.

Arguments Storage {R D}. Arguments mCurrentIndex {R D}. Arguments mAiqResults {R D}.
Arguments mCurrentAiqStatsIndex {R D}. Arguments mAiqStatistics {R D}. Arguments mDvsRunMap {R D}.

Section Storage.
Context {R D : Type} {inhabited_R : Inhabited R} {inhabited_D : Inhabited D}.
Abbreviation storage := (AiqResultStorage R D).

#[export] Instance AiqResult_inhabited : Inhabited (AiqResult R) := populate (Result (-1) inhabitant).
#[export] Instance AiqStatistics_inhabited : Inhabited (AiqStatistics D) :=
  populate (Statistics (-1) false inhabitant).

(** Storing through an index. *)
Definition set {A} (l : list A) (i : Z) (x : A) : list A := <[Z.to_nat i := x]> l.
Definition get {A} `{Inhabited A} (l : list A) (i : Z) : A := l !!! Z.to_nat i.

Definition with_results (st : storage) c l : storage :=
  Storage c l (mCurrentAiqStatsIndex st) (mAiqStatistics st) (mDvsRunMap st).
Definition with_statistics (st : storage) c l : storage :=
  Storage (mCurrentIndex st) (mAiqResults st) c l (mDvsRunMap st).
Definition with_dvs (st : storage) m : storage :=
  Storage (mCurrentIndex st) (mAiqResults st) (mCurrentAiqStatsIndex st) (mAiqStatistics st) m.

(** The constructor. *)
Definition new_storage : storage :=
  Storage (-1) (replicate (Z.to_nat kStorageSize) (Result (-1) inhabitant))
    (-1) (replicate (Z.to_nat kAiqStatsStorageSize) (Statistics (-1) false inhabitant)) ∅.

(** ** Statistics *)

Definition acquireAiqStatistics (st : storage) : Z * storage :=
  let current := mCurrentAiqStatsIndex st in
  let index := Z.rem (current + 1) kAiqStatsStorageSize in
  let '(current, index) :=
    if mInUse (get (mAiqStatistics st) index)
    then (index, Z.rem (index + 1) kAiqStatsStorageSize) else (current, index) in
  let s := get (mAiqStatistics st) index in
  (index, with_statistics st current
            (set (mAiqStatistics st) index (Statistics (-1) (mInUse s) (stats s)))).

Definition updateAiqStatistics (sequence : Z) (st : storage) : storage :=
  let current := Z.rem (mCurrentAiqStatsIndex st + 1) kAiqStatsStorageSize in
  let s := get (mAiqStatistics st) current in
  with_statistics st current
    (set (mAiqStatistics st) current (Statistics sequence (mInUse s) (stats s))).

Definition resetAiqStatistics (st : storage) : storage := with_statistics st (-1) (mAiqStatistics st).

(** [None] is [nullptr]. *)
Definition getAndLockAiqStatistics (st : storage) : option Z * storage :=
  let current := mCurrentAiqStatsIndex st in
  if current =? -1 then (None, st)
  else
    let s := get (mAiqStatistics st) current in
    if stats_sequence s =? -1 then (None, st)
    else (Some current,
          with_statistics st current
            (set (mAiqStatistics st) current (Statistics (stats_sequence s) true (stats s)))).

Definition unLockAiqStatistics (st : storage) : storage :=
  with_statistics st (mCurrentAiqStatsIndex st)
    (map (fun s => Statistics (stats_sequence s) false (stats s)) (mAiqStatistics st)).

(** What the decoder stores through the pointer it acquired. *)
Definition fill_statistics (i : Z) (sequence : Z) (d : D) (st : storage) : storage :=
  with_statistics st (mCurrentAiqStatsIndex st)
    (set (mAiqStatistics st) i (Statistics sequence (mInUse (get (mAiqStatistics st) i)) d)).

(** ** Results *)

Definition acquireAiqResult (st : storage) : Z * storage :=
  let index := Z.rem (mCurrentIndex st + 1) kStorageSize in
  (index, with_results st (mCurrentIndex st)
            (set (mAiqResults st) index (Result (-1) (result (get (mAiqResults st) index))))).

Definition updateAiqResult (sequence : Z) (st : storage) : storage :=
  let current := Z.rem (mCurrentIndex st + 1) kStorageSize in
  with_results st current
    (set (mAiqResults st) current (Result sequence (result (get (mAiqResults st) current)))).

Definition getAiqResult (sequence : Z) (st : storage) : option Z :=
  if sequence =? -1
  then Some (if mCurrentIndex st =? -1 then 0 else mCurrentIndex st)
  else
    List.find (fun tmpIdx => let s := mSequence (get (mAiqResults st) tmpIdx) in
                             (0 <=? s) && (s <=? sequence))
      (map (fun i => Z.rem (mCurrentIndex st + kStorageSize - i) kStorageSize) (range 0 kStorageSize)).

(** What the 3A engine stores through the pointer it acquired: the results, and
    the sequence that [setSensorExposure] is answered, which is written before
    the result is published. *)
Definition fill_result (i sequence : Z) (r : R) (st : storage) : storage :=
  with_results st (mCurrentIndex st) (set (mAiqResults st) i (Result sequence r)).

(** ** Frames with stabilization *)

Definition updateDvsRunMap (sequence : Z) (st : storage) : storage :=
  let m := <[sequence := true]> (mDvsRunMap st) in
  with_dvs st
    (if kDvsRunMapSize <? Z.of_nat (size m)
     then match begin m with Some k => delete k m | None => m end else m).

Definition clearDvsRunMap (st : storage) : storage := with_dvs st ∅.

Definition isDvsRun (sequence : Z) (st : storage) : bool :=
  match mDvsRunMap st !! sequence with Some _ => true | None => false end.

(** ** One storage per camera *)

Definition getInstance (cameraId : Z) (sInstances : gmap Z storage) : storage * gmap Z storage :=
  match sInstances !! cameraId with
  | Some st => (st, sInstances)
  | None => (new_storage, <[cameraId := new_storage]> sInstances)
  end.

Definition releaseAiqResultStorage (cameraId : Z) (sInstances : gmap Z storage) : gmap Z storage :=
  delete cameraId (snd (getInstance cameraId sInstances)).
End Storage.

(** ** Rings, newest first *)

Section Ring.
Context {A : Type} `{Inhabited A}.

(** The slots of a ring of [n] in the order in which [getAiqResult] visits
    them, [c] being the newest. *)
Definition newest_first (l : list A) (c n : Z) : list A :=
  map (fun i => get l (Z.rem (c + n - i) n)) (range 0 n).

Lemma get_set_eq (l : list A) i x : 0 <= i < Z.of_nat (length l) -> get (set l i x) i = x.
Proof. intros Hi. unfold get, set. apply list_lookup_total_insert_eq. lia. Qed.

Lemma get_set_ne (l : list A) i j x : 0 <= i -> 0 <= j -> i <> j -> get (set l i x) j = get l j.
Proof. intros Hi Hj Hne. unfold get, set. apply list_lookup_total_insert_ne. lia. Qed.

Lemma newest_first_split l c n :
  0 < n -> -1 <= c < n ->
  newest_first l c n
  = map (fun i => get l (Z.rem (c + n - i) n)) (range 0 (n - 1)) ++ [get l (Z.rem (c + 1) n)].
Proof.
  intros Hn Hc. unfold newest_first. replace (range 0 n) with (range 0 (Z.succ (n - 1))) by (f_equal; lia).
  rewrite range_snoc, map_app by lia. cbn [map]. do 3 f_equal. f_equal. lia.
Qed.

Lemma newest_first_set l c n x :
  Z.of_nat (length l) = n -> 0 < n -> -1 <= c < n ->
  newest_first (set l (Z.rem (c + 1) n) x) c n
  = map (fun i => get l (Z.rem (c + n - i) n)) (range 0 (n - 1)) ++ [x].
Proof.
  intros Hl Hn Hc. rewrite newest_first_split by assumption. f_equal.
  - apply map_ext_in. intros i Hi. apply list_elem_of_In, elem_of_range in Hi.
    assert (Z.rem (c + 1) n <> Z.rem (c + n - i) n) as Hne.
    { rewrite !Z.rem_mod_nonneg by lia. intros E.
      assert ((n - 1 - i) mod n = 0) as E0.
      { replace (n - 1 - i) with ((c + n - i) - (c + 1)) by lia.
        rewrite Zminus_mod, E, Z.sub_diag. reflexivity. }
      rewrite Z.mod_small in E0 by lia. lia. }
    apply get_set_ne; [apply Z.rem_nonneg; lia | apply Z.rem_nonneg; lia | exact Hne].
  - f_equal. apply get_set_eq. pose proof (Z.rem_bound_pos (c + 1) n). lia.
Qed.

Lemma newest_first_next l c n v x :
  0 < n -> -1 <= c < n -> newest_first l c n = v ++ [x] ->
  newest_first l (Z.rem (c + 1) n) n = x :: v.
Proof.
  intros Hn Hc E. rewrite newest_first_split in E by assumption. apply app_inj_tail in E as [<- <-].
  pose proof (Z.rem_bound_pos (c + 1) n ltac:(lia) Hn) as Hb.
  unfold newest_first. rewrite range_cons by lia. cbn [map]. f_equal.
  - f_equal. rewrite (Z.rem_mod_nonneg (_ + n - 0)) by lia.
    replace (Z.rem (c + 1) n + n - 0) with (Z.rem (c + 1) n + 1 * n) by lia.
    rewrite Z.mod_add by lia. apply Z.mod_small, Hb.
  - unfold range. replace (n - 1 - 0) with (n - (0 + 1)) by lia.
    replace (0 + 1) with (1 + 0) by lia. rewrite <- (fmap_add_seqZ 1 0).
    change (Z.add 1 <$> ?l) with (map (Z.add 1) l). rewrite map_map.
    apply map_ext_in. intros i Hi. apply list_elem_of_In, elem_of_seqZ in Hi. f_equal.
    rewrite !Z.rem_mod_nonneg by lia.
    replace ((c + 1) mod n + n - (1 + i)) with ((c + 1) mod n + (n - (1 + i))) by lia.
    rewrite Z.add_mod_idemp_l by lia. f_equal. lia.
Qed.
End Ring.

(** ** The ring of results *)

Lemma find_map {A B} (f : A -> B) p l :
  f <$> List.find (fun x => p (f x)) l = List.find p (map f l).
Proof. induction l as [| x l IH]; cbn; [reflexivity |]. destruct (p (f x)); [reflexivity | exact IH]. Qed.

Lemma find_ext_in {A} (p q : A -> bool) l : (forall x, In x l -> p x = q x) -> List.find p l = List.find q l.
Proof.
  induction l as [| x l IH]; intros H; cbn; [reflexivity |].
  rewrite H by (left; reflexivity). rewrite IH by (intros y Hy; apply H; right; exact Hy). reflexivity.
Qed.

Lemma find_app_first {A} (p : A -> bool) l l' :
  List.find p (l ++ l') = match List.find p l with Some x => Some x | None => List.find p l' end.
Proof. induction l as [| x l IH]; cbn; [reflexivity |]. destruct (p x); [reflexivity | exact IH]. Qed.

Lemma find_none_in {A} (p : A -> bool) l : (forall x, x ∈ l -> p x = false) -> List.find p l = None.
Proof.
  intros Hp. destruct (List.find p l) as [x |] eqn:E; [| reflexivity].
  apply find_some in E as [E1 E2]. apply list_elem_of_In, Hp in E1. congruence.
Qed.

Section Results.
Context {R D : Type} {inhabited_R : Inhabited R} {inhabited_D : Inhabited D}.
Implicit Types (st : AiqResultStorage R D) (h v : list (AiqResult R)).

(** The 3A engine acquires a result, fills it or not, and publishes it or not:
    where 3A fails after the sensor was set, it is left with its sequence. *)
Inductive result_call := Acquire (filled : option (Z * R)) | Publish (sequence : Z) (r : R).

Definition attempt (sequence : Z) (r : R) st : AiqResultStorage R D :=
  let '(i, st) := acquireAiqResult st in fill_result i sequence r st.

(** [updateAiqResult(tmp->mSequence)]. *)
Definition publish (sequence : Z) (r : R) st : AiqResultStorage R D :=
  let '(i, st) := acquireAiqResult st in
  let st := fill_result i sequence r st in
  updateAiqResult (mSequence (get (mAiqResults st) i)) st.

Definition run_result_call st (c : result_call) : AiqResultStorage R D :=
  match c with
  | Acquire None => snd (acquireAiqResult st)
  | Acquire (Some (s, r)) => attempt s r st
  | Publish s r => publish s r st
  end.

(** What was published, newest first, and how much of it is still there. *)
Definition published (cs : list result_call) : list (AiqResult R) :=
  foldl (fun h c => match c with Acquire _ => h | Publish s r => Result s r :: h end) [] cs.
Definition remembered (cs : list result_call) : Z :=
  match last cs with Some (Acquire _) => kStorageSize - 1 | _ => kStorageSize end.

(** What was filled but not published, as long as nothing else is acquired. *)
Definition unfinished (cs : list result_call) : list (AiqResult R) :=
  match last cs with Some (Acquire (Some (s, r))) => [Result s r] | _ => [] end.

Definition recent st : list (AiqResult R) := newest_first (mAiqResults st) (mCurrentIndex st) kStorageSize.

Record tracks st h (k : Z) (u : list (AiqResult R)) : Prop := {
  tracks_length : length (mAiqResults st) = Z.to_nat kStorageSize;
  tracks_index : -1 <= mCurrentIndex st < kStorageSize;
  tracks_recent : exists rest, recent st = take (Z.to_nat k) h ++ rest ++ u /\ forall x, x ∈ rest -> mSequence x = -1;
  tracks_size : k = 39 /\ (length u <= 1)%nat \/ k = 40 /\ u = [];
  tracks_some : h <> [] -> mCurrentIndex st <> -1;
}.

Lemma length_newest_first {A} `{Inhabited A} (l : list A) c n : length (newest_first l c n) = Z.to_nat n.
Proof. unfold newest_first, range. rewrite length_map, length_seqZ. f_equal. lia. Qed.

(** The slot that is acquired is the oldest. *)
Lemma recent_oldest st :
  -1 <= mCurrentIndex st < kStorageSize ->
  exists v, recent st = v ++ [get (mAiqResults st) (Z.rem (mCurrentIndex st + 1) kStorageSize)].
Proof. intros Hc. eexists. apply newest_first_split; [reflexivity | exact Hc]. Qed.

Lemma recent_set st x v y :
  length (mAiqResults st) = Z.to_nat kStorageSize -> -1 <= mCurrentIndex st < kStorageSize ->
  recent st = v ++ [y] ->
  let i := Z.rem (mCurrentIndex st + 1) kStorageSize in
  newest_first (set (mAiqResults st) i x) (mCurrentIndex st) kStorageSize = v ++ [x]
  /\ newest_first (set (mAiqResults st) i x) i kStorageSize = x :: v.
Proof.
  intros Hl Hc E i. unfold recent in E. rewrite newest_first_split in E by (reflexivity || exact Hc).
  apply app_inj_tail in E as [<- <-].
  assert (newest_first (set (mAiqResults st) i x) (mCurrentIndex st) kStorageSize
          = map (fun i => get (mAiqResults st) (Z.rem (mCurrentIndex st + kStorageSize - i) kStorageSize))
              (range 0 (kStorageSize - 1)) ++ [x]) as E
    by (apply newest_first_set; [rewrite Hl; reflexivity | reflexivity | exact Hc]).
  split; [exact E |]. apply newest_first_next; [reflexivity | exact Hc | exact E].
Qed.

Lemma next_in_ring c n : 0 < n -> -1 <= c < n -> 0 <= Z.rem (c + 1) n < n.
Proof. intros Hn Hc. apply Z.rem_bound_pos; lia. Qed.

(** Of at most [n] things, all but one are left when the oldest goes. *)
Lemma shrink {A} (l u rest : list A) y n :
  length (u ++ [y]) = n -> u ++ [y] = take n l ++ rest ->
  exists rest', u = take (n - 1) l ++ rest' /\ (forall x, x ∈ rest' -> x ∈ rest).
Proof.
  rewrite length_app. cbn [length]. intros Hl E. destruct rest as [| z rest _] using rev_ind.
  - rewrite app_nil_r in E. exists []. split; [| auto].
    rewrite app_nil_r. replace (n - 1)%nat with (length u) by lia.
    assert (take (length u) (u ++ [y]) = take (length u) (take n l)) as E' by (f_equal; exact E).
    rewrite take_app_length, take_take in E'. rewrite E'. f_equal. rewrite length_take.
    apply (f_equal length) in E. rewrite length_app, length_take in E. cbn [length] in E. lia.
  - rewrite app_assoc in E. apply app_inj_tail in E as [-> <-]. rewrite length_app in Hl.
    exists rest. split; [| set_solver]. f_equal. rewrite length_take in Hl.
    rewrite !take_ge by lia. reflexivity.
Qed.

Lemma set_set {A} (l : list A) i x y : set (set l i x) i y = set l i y.
Proof. unfold set. apply list_insert_insert_eq. Qed.

Lemma length_set {A} (l : list A) i x : length (set l i x) = length l.
Proof. apply length_insert. Qed.

Lemma tracks_next st h k u :
  tracks st h k u ->
  exists v y rest, recent st = v ++ [y] /\ v = take 39 h ++ rest /\ forall x, x ∈ rest -> mSequence x = -1.
Proof.
  intros [Tl Ti (rest & Tr & Tm) Tk _]. destruct (recent_oldest st Ti) as [v E].
  assert (length (recent st) = 40%nat) as Hlen by apply length_newest_first.
  destruct u as [| x [| ? ?]]; [| | cbn [length] in Tk; destruct Tk as [[_ Tk] | [_ Tk]]; [lia | discriminate]].
  - eexists v, _. rewrite app_nil_r in Tr. rewrite E in Tr, Hlen.
    replace (take (Z.to_nat k) h) with (take 40 (take (Z.to_nat k) h)) in Tr
      by (rewrite take_take; f_equal; lia).
    destruct (shrink _ _ _ _ 40 Hlen Tr) as (rest' & -> & Hr).
    exists rest'. split; [exact E |]. split; [rewrite take_take; do 2 f_equal; lia |]. intros z Hz. apply Tm, Hr, Hz.
  - destruct Tk as [[-> _] | [_ Tk]]; [| discriminate]. exists (take 39 h ++ rest), x, rest.
    rewrite Tr, <- app_assoc. auto.
Qed.

(** The slot that is acquired holds [x], which is unfinished or of no frame. *)
Lemma tracks_set st h k u x w :
  tracks st h k u -> (w = [x] \/ w = [] /\ mSequence x = -1) ->
  tracks (with_results st (mCurrentIndex st)
            (set (mAiqResults st) (Z.rem (mCurrentIndex st + 1) kStorageSize) x)) h 39 w.
Proof.
  intros T Hx. destruct (tracks_next st h k u T) as (v & y & rest & E & -> & Hr). destruct T as [Tl Ti _ _ Tn].
  destruct (recent_set st x _ _ Tl Ti E) as [E' _].
  split; [cbn; rewrite length_set; exact Tl | exact Ti | | left; destruct Hx as [-> | [-> _]]; cbn; lia | exact Tn].
  unfold recent. cbn [with_results mAiqResults mCurrentIndex]. rewrite E', <- app_assoc.
  destruct Hx as [-> | [-> Hx]]; [exists rest; auto |]. exists (rest ++ [x]). rewrite app_nil_r.
  split; [reflexivity |]. intros z [Hz | ->%list_elem_of_singleton]%elem_of_app; auto.
Qed.

Lemma attempt_results s r st :
  attempt s r st = with_results st (mCurrentIndex st)
    (set (mAiqResults st) (Z.rem (mCurrentIndex st + 1) kStorageSize) (Result s r)).
Proof.
  unfold attempt, acquireAiqResult, fill_result, with_results. cbn [mAiqResults mCurrentIndex]. rewrite set_set. reflexivity.
Qed.

Lemma publish_results s r st :
  length (mAiqResults st) = Z.to_nat kStorageSize -> -1 <= mCurrentIndex st < kStorageSize ->
  let i := Z.rem (mCurrentIndex st + 1) kStorageSize in
  mAiqResults (publish s r st) = set (mAiqResults st) i (Result s r) /\ mCurrentIndex (publish s r st) = i.
Proof.
  intros Hl Hc i. pose proof (next_in_ring _ kStorageSize eq_refl Hc) as Hi. fold i in Hi.
  assert (forall x, get (set (mAiqResults st) i x) i = x) as G by (intros x; apply get_set_eq; rewrite Hl; exact Hi).
  unfold publish, acquireAiqResult, updateAiqResult, fill_result, with_results.
  cbn [mAiqResults mCurrentIndex mSequence result]. fold i.
  repeat (rewrite G || rewrite set_set). cbn [mSequence result]. repeat (rewrite G || rewrite set_set). split; reflexivity.
Qed.

Lemma tracks_publish st h k u s r : tracks st h k u -> tracks (publish s r st) (Result s r :: h) 40 [].
Proof.
  intros T. destruct (tracks_next st h k u T) as (v & y & rest & E & -> & Hr). destruct T as [Tl Ti _ _ Tn].
  destruct (publish_results s r st Tl Ti) as [P1 P2].
  pose proof (next_in_ring _ kStorageSize eq_refl Ti) as Hi.
  split; [rewrite P1, length_set; exact Tl | rewrite P2; lia | | right; auto | intros _; rewrite P2; lia].
  destruct (recent_set st (Result s r) _ _ Tl Ti E) as [_ E']. exists rest. unfold recent. rewrite P1, P2, E', app_nil_r.
  split; [reflexivity | exact Hr].
Qed.

Lemma tracks_new : tracks new_storage [] kStorageSize [].
Proof.
  split; [reflexivity | vm_compute; split; [discriminate | reflexivity] | | right; auto | intros []; reflexivity].
  exists (recent new_storage). split; [rewrite app_nil_r; reflexivity |]. intros x Hx. unfold recent, newest_first in Hx.
  apply list_elem_of_In, in_map_iff in Hx as (i & <- & Hi). apply list_elem_of_In, elem_of_range in Hi.
  unfold get. cbn [new_storage mAiqResults mCurrentIndex]. rewrite lookup_total_replicate_2; [reflexivity |].
  pose proof (Z.rem_bound_pos (-1 + kStorageSize - i) kStorageSize). unfold kStorageSize in *. lia.
Qed.

Lemma tracks_run cs :
  tracks (foldl run_result_call new_storage cs) (published cs) (remembered cs) (unfinished cs).
Proof.
  induction cs as [| c cs IH] using rev_ind; [apply tracks_new |].
  unfold published, remembered, unfinished. rewrite !foldl_app, last_snoc. cbn [foldl].
  destruct c as [[[s r] |] | s r]; cbn [run_result_call].
  - rewrite attempt_results. apply (tracks_set _ _ _ _ _ _ IH). auto.
  - apply (tracks_set _ _ _ _ _ _ IH). auto.
  - exact (tracks_publish _ _ _ _ s r IH).
Qed.

(** Reading what [getAiqResult] points to. *)
Definition found_result (sequence : Z) st : option (AiqResult R) :=
  get (mAiqResults st) <$> getAiqResult sequence st.

(** A result that is of some frame not after the one. *)
Definition up_to (sequence : Z) (x : AiqResult R) : bool := (0 <=? mSequence x) && (mSequence x <=? sequence).

Lemma found_recent st sequence :
  sequence <> -1 -> found_result sequence st = List.find (up_to sequence) (recent st).
Proof.
  intros Hs. unfold found_result, getAiqResult. rewrite (proj2 (Z.eqb_neq _ _) Hs).
  unfold recent, newest_first.
  rewrite <- (map_map (fun i => Z.rem (mCurrentIndex st + kStorageSize - i) kStorageSize) (get (mAiqResults st))).
  rewrite <- (find_map (get (mAiqResults st)) (up_to sequence)). reflexivity.
Qed.

(** The newest result. *)
Lemma found_newest st h k u :
  tracks st h k u -> found_result (-1) st = match h with [] => found_result (-1) st | x :: _ => Some x end.
Proof.
  intros [Tl Ti (rest & Tr & _) Tk Tn]. assert (0 < k) as Hk by lia. destruct h as [| x h]; [reflexivity |].
  specialize (Tn ltac:(discriminate)). unfold found_result, getAiqResult. cbn [Z.eqb Pos.eqb].
  rewrite (proj2 (Z.eqb_neq _ _) Tn). cbn [fmap option_fmap option_map]. f_equal.
  replace (Z.to_nat k) with (S (Z.to_nat (k - 1))) in Tr by lia. cbn [take app] in Tr.
  unfold recent, newest_first in Tr. rewrite range_cons in Tr by reflexivity. cbn [map] in Tr.
  injection Tr as Tr _. rewrite <- Tr. f_equal.
  replace (mCurrentIndex st + kStorageSize - 0) with (mCurrentIndex st + 1 * kStorageSize) by lia.
  rewrite Z.rem_mod_nonneg by (unfold kStorageSize in *; lia). rewrite Z.mod_add by (unfold kStorageSize; lia).
  rewrite Z.mod_small by lia. reflexivity.
Qed.

(** C18: the 3A result for a frame.  Whatever results were published, with or
    without others acquired in between, [getAiqResult] answers the latest of
    the last forty (thirty-nine while one is being computed) whose sequence is
    not after the frame; when there is none, it answers the one that is being
    computed or was given up, if that was given a sequence not after the frame,
    and otherwise none; without a frame, it answers the latest that was
    published.  When sequences increase this is the result in effect at the
    frame, and it has the very sequence asked for if that was published. *)
Theorem results_in_effect cs sequence :
  (forall s r, Publish s r ∈ cs -> 0 <= s) -> 0 <= sequence ->
  let st := foldl run_result_call new_storage cs in
  let h := take (Z.to_nat (remembered cs)) (published cs) in
  found_result sequence st
    = match List.find (fun x => mSequence x <=? sequence) h with
      | Some x => Some x
      | None => List.find (up_to sequence) (unfinished cs)
      end
  /\ (forall x h', published cs = x :: h' -> found_result (-1) st = Some x)
  /\ (StronglySorted (fun x y => mSequence y < mSequence x) h ->
      forall x, x ∈ h -> mSequence x <= sequence ->
        exists y, y ∈ h /\ found_result sequence st = Some y /\ mSequence x <= mSequence y <= sequence).
Proof.
  intros Hs Hq. cbv zeta. pose proof (tracks_run cs) as T. set (st := foldl _ _ cs) in *.
  assert (forall x, x ∈ published cs -> 0 <= mSequence x) as Hpos.
  { clear -Hs. induction cs as [| c cs IH] using rev_ind; [intros x Hx; apply not_elem_of_nil in Hx as [] |].
    unfold published. rewrite foldl_app. cbn [foldl]. fold (published cs). destruct c as [f | s r].
    - intros x Hx. apply IH; [| exact Hx]. intros s r H. apply (Hs s r). set_solver.
    - intros x [-> | Hx]%elem_of_cons; [apply (Hs s r); set_solver |].
      apply IH; [| exact Hx]. intros s' r' H. apply (Hs s' r'). set_solver. }
  set (h := take (Z.to_nat (remembered cs)) (published cs)).
  assert (found_result sequence st
          = match List.find (fun x => mSequence x <=? sequence) h with
            | Some x => Some x | None => List.find (up_to sequence) (unfinished cs) end) as E.
  { rewrite found_recent by lia. destruct T as [_ _ (rest & -> & Hr) _ _]. fold h. rewrite !find_app_first.
    rewrite (find_ext_in (up_to sequence) (fun x => mSequence x <=? sequence) h).
    - destruct (List.find _ h); [reflexivity |]. rewrite find_none_in; [reflexivity |].
      intros x Hx. unfold up_to. rewrite (Hr x Hx). reflexivity.
    - intros x Hx. apply list_elem_of_In, elem_of_take in Hx as (i & Hx & _). unfold up_to.
      apply list_elem_of_lookup_2, Hpos in Hx. destruct (Z.leb_spec 0 (mSequence x)); [reflexivity | lia]. }
  split; [exact E |]. split; [intros x h' Eh; rewrite (found_newest _ _ _ _ T), Eh; reflexivity |].
  intros S x Hx Hl.
  assert (exists y, y ∈ h /\ List.find (fun x => mSequence x <=? sequence) h = Some y /\ mSequence x <= mSequence y <= sequence)
    as (y & Hy1 & Hy2 & Hy3); [| exists y; rewrite E, Hy2; auto].
  clear -S Hx Hl. induction S as [| z h _ IH F]; [apply not_elem_of_nil in Hx as [] |].
  cbn [List.find]. destruct (Z.leb_spec (mSequence z) sequence) as [Hz | Hz].
  - exists z. split; [left |]. split; [reflexivity |]. apply elem_of_cons in Hx as [-> | Hx]; [lia |].
    rewrite Forall_forall in F. specialize (F x Hx). lia.
  - apply elem_of_cons in Hx as [-> | Hx]; [lia |]. destruct (IH Hx) as (y & Hy & Hy'). exists y. split; [right; exact Hy | exact Hy'].
Qed.
End Results.

(** ** The statistics between decoder and 3A thread *)

Section Statistics.
Context {R D : Type} {inhabited_R : Inhabited R} {inhabited_D : Inhabited D}.

(** The storage, the slot the decoder is writing and the one the 3A thread is
    reading.  Every member function holds the lock of the storage, so each is
    one step; the steps of the two threads interleave freely.  The index is
    reset when the 3A engine starts, before frames are decoded. *)
Record sharing := Sharing { shared : AiqResultStorage R D; writing : option Z; reading : option Z }.

Inductive stats_step : sharing -> sharing -> Prop :=
| step_acquire st r :
    stats_step (Sharing st None r)
      (Sharing (snd (acquireAiqStatistics st)) (Some (fst (acquireAiqStatistics st))) r)
| step_fill st w r sequence d :
    stats_step (Sharing st (Some w) r) (Sharing (fill_statistics w sequence d st) (Some w) r)
| step_update st w r sequence :
    stats_step (Sharing st (Some w) r) (Sharing (updateAiqStatistics sequence st) None r)
| step_lock st w :
    stats_step (Sharing st w None)
      (Sharing (snd (getAndLockAiqStatistics st)) w (fst (getAndLockAiqStatistics st)))
| step_unlock st w r : stats_step (Sharing st w r) (Sharing (unLockAiqStatistics st) w None)
| step_reset st r : stats_step (Sharing st None r) (Sharing (resetAiqStatistics st) None r).

Definition in_use (st : AiqResultStorage R D) (i : Z) : bool := mInUse (get (mAiqStatistics st) i).
Definition next_slot (st : AiqResultStorage R D) : Z := Z.rem (mCurrentAiqStatsIndex st + 1) kAiqStatsStorageSize.

(** The slot behind the current one is the one that is written, and only the
    one that is read is in use. *)
Record sharing_ok (c : sharing) : Prop := {
  sharing_length : length (mAiqStatistics (shared c)) = 3%nat;
  sharing_index : -1 <= mCurrentAiqStatsIndex (shared c) < 3;
  sharing_writing w : writing c = Some w -> w = next_slot (shared c) /\ in_use (shared c) w = false;
  sharing_in_use i : 0 <= i < 3 -> (in_use (shared c) i = true <-> reading c = Some i);
  sharing_reading r : reading c = Some r -> 0 <= r < 3;
}.

Lemma next_slot_range st : -1 <= mCurrentAiqStatsIndex st < 3 -> 0 <= next_slot st < 3.
Proof. intros H. apply next_in_ring; [reflexivity | exact H]. Qed.

Lemma next_slot_ne st : -1 <= mCurrentAiqStatsIndex st < 3 -> next_slot st <> mCurrentAiqStatsIndex st.
Proof. unfold next_slot, kAiqStatsStorageSize. intros H. divlia. Qed.

(** Storing into a slot changes its flag as said, and no other slot. *)
Lemma in_use_set st c i s j :
  length (mAiqStatistics st) = 3%nat -> 0 <= i < 3 -> 0 <= j < 3 ->
  in_use (with_statistics st c (set (mAiqStatistics st) i s)) j = if j =? i then mInUse s else in_use st j.
Proof.
  intros Hl Hi Hj. unfold in_use. cbn [with_statistics mAiqStatistics]. destruct (Z.eqb_spec j i) as [-> | Hne].
  - rewrite get_set_eq by (rewrite Hl; exact Hi). reflexivity.
  - rewrite get_set_ne by lia. reflexivity.
Qed.

Lemma in_use_kept st c i sequence d j :
  length (mAiqStatistics st) = 3%nat -> 0 <= i < 3 -> 0 <= j < 3 ->
  in_use (with_statistics st c (set (mAiqStatistics st) i (Statistics sequence (in_use st i) d))) j = in_use st j.
Proof.
  intros Hl Hi Hj. rewrite in_use_set by assumption. cbn [mInUse].
  destruct (Z.eqb_spec j i) as [-> |]; reflexivity.
Qed.

(** The slot that is acquired is free and follows the current one. *)
Lemma acquire_free st r :
  sharing_ok (Sharing st None r) ->
  exists c sequence d,
    let i := fst (acquireAiqStatistics st) in
    snd (acquireAiqStatistics st)
    = with_statistics st c (set (mAiqStatistics st) i (Statistics sequence (in_use st i) d))
    /\ -1 <= c < 3 /\ i = Z.rem (c + 1) 3 /\ 0 <= i < 3 /\ in_use st i = false.
Proof.
  intros [Sl Si _ Su Sr]. cbn [shared reading] in *. pose proof (next_slot_range st Si) as Hn.
  unfold acquireAiqStatistics. fold (next_slot st). fold (in_use st (next_slot st)).
  destruct (in_use st (next_slot st)) eqn:E; cbn [fst snd]; eexists _, _, _; split; try reflexivity.
  - unfold kAiqStatsStorageSize. split; [lia |]. split; [reflexivity |].
    pose proof (next_in_ring (next_slot st) 3 eq_refl ltac:(lia)) as Hm. split; [exact Hm |].
    apply Su in E; [| exact Hn]. destruct (in_use st (Z.rem (next_slot st + 1) 3)) eqn:E2; [| reflexivity].
    apply Su in E2; [| exact Hm]. rewrite E in E2. injection E2 as E2.
    exfalso. clear -E2 Hn. divlia.
  - split; [exact Si |]. split; [reflexivity |]. split; [exact Hn | exact E].
Qed.

Lemma sharing_step c c' : stats_step c c' -> sharing_ok c -> sharing_ok c'.
Proof.
  intros S O. destruct S as [st r | st w r sequence d | st w r sequence | st w | st w r | st r].
  - destruct (acquire_free st r O) as (c & s & d & -> & Hc & Ei & Hi & Hf). destruct O as [Sl Si Sw Su Sr].
    cbn [shared writing reading] in *. set (i := fst (acquireAiqStatistics st)) in *.
    split; cbn [shared writing reading]; [cbn; rewrite length_set; exact Sl | exact Hc | | | exact Sr].
    + intros w [= <-]. split; [exact Ei |]. rewrite in_use_kept by assumption. exact Hf.
    + intros j Hj. rewrite in_use_kept by assumption. apply Su, Hj.
  - destruct O as [Sl Si Sw Su Sr]. cbn [shared writing reading] in *. destruct (Sw w eq_refl) as [Ew Hf].
    pose proof (next_slot_range st Si) as Hw. rewrite <- Ew in Hw.
    split; cbn [shared writing reading]; [cbn; rewrite length_set; exact Sl | exact Si | | | exact Sr].
    + intros w' [= <-]. split; [exact Ew |]. unfold fill_statistics. fold (in_use st w).
      rewrite in_use_kept by assumption. exact Hf.
    + intros j Hj. unfold fill_statistics. fold (in_use st w). rewrite in_use_kept by assumption. apply Su, Hj.
  - destruct O as [Sl Si Sw Su Sr]. cbn [shared writing reading] in *. pose proof (next_slot_range st Si) as Hn.
    unfold updateAiqStatistics. fold (next_slot st). fold (in_use st (next_slot st)).
    split; cbn [shared writing reading]; [cbn; rewrite length_set; exact Sl | cbn; lia | discriminate | | exact Sr].
    intros j Hj. rewrite in_use_kept by assumption. apply Su, Hj.
  - destruct O as [Sl Si Sw Su Sr]. cbn [shared writing reading] in *. unfold getAndLockAiqStatistics.
    destruct (Z.eqb_spec (mCurrentAiqStatsIndex st) (-1)) as [E | E]; [split; assumption |].
    destruct (stats_sequence _ =? -1); [split; assumption |].
    assert (0 <= mCurrentAiqStatsIndex st < 3) as Hc by lia.
    split; cbn [fst snd shared writing reading]; [cbn; rewrite length_set; exact Sl | exact Si | | |].
    + intros w' Ew. destruct (Sw w' Ew) as [-> Hf]. split; [reflexivity |].
      rewrite in_use_set by (apply next_slot_range, Si || assumption).
      rewrite (proj2 (Z.eqb_neq _ _) (next_slot_ne st Si)). exact Hf.
    + intros j Hj. rewrite in_use_set by assumption. cbn [mInUse]. destruct (Z.eqb_spec j (mCurrentAiqStatsIndex st)) as [-> | Hne].
      * split; reflexivity.
      * rewrite Su by exact Hj. split; [discriminate | intros [= <-]; congruence].
    + intros r [= <-]. exact Hc.
  - destruct O as [Sl Si Sw Su Sr]. cbn [shared writing reading] in *.
    assert (forall j, 0 <= j < 3 -> in_use (unLockAiqStatistics st) j = false) as Hf.
    { intros j Hj. unfold in_use, get, unLockAiqStatistics. cbn [with_statistics mAiqStatistics].
      change (map ?f ?l) with (f <$> l). rewrite (@list_lookup_total_fmap _ _ _ AiqStatistics_inhabited) by lia. reflexivity. }
    split; cbn [shared writing reading]; [cbn; rewrite length_map; exact Sl | exact Si | | | discriminate].
    + intros w' Ew. destruct (Sw w' Ew) as [-> _]. split; [reflexivity | apply Hf, next_slot_range, Si].
    + intros j Hj. rewrite Hf by exact Hj. split; discriminate.
  - destruct O as [Sl Si Sw Su Sr]. cbn [shared writing reading] in *.
    split; cbn [shared writing reading]; [exact Sl | cbn; lia | discriminate | exact Su | exact Sr].
Qed.

Lemma sharing_new : sharing_ok (Sharing new_storage None None).
Proof.
  split; cbn [shared writing reading]; [reflexivity | cbn; lia | discriminate | | discriminate].
  intros i Hi. unfold in_use, get. cbn [new_storage mAiqStatistics].
  rewrite lookup_total_replicate_2 by (unfold kAiqStatsStorageSize; lia). split; discriminate.
Qed.

Lemma sharing_reachable c : rtc stats_step (Sharing new_storage None None) c -> sharing_ok c.
Proof.
  intros H. apply (rtc_ind_r (R := stats_step) sharing_ok (Sharing new_storage None None)); [apply sharing_new | | exact H].
  intros y z _ S O. exact (sharing_step _ _ S O).
Qed.

Lemma get_set_free (l : list (AiqStatistics D)) i r s :
  0 <= i -> 0 <= r -> mInUse (get l i) = false -> mInUse (get l r) = true -> get (set l i s) r = get l r.
Proof. intros Hi Hr Ei Er. apply get_set_ne; [exact Hi | exact Hr |]. intros ->. congruence. Qed.

(** C20: the 3A thread reads complete statistics that nobody changes.  Over all
    interleavings of the decoder and the 3A thread the slot that is written is
    not the slot that is read; while a slot is locked no step of either thread
    changes it; and what the decoder has just published is what the next lock
    hands out. *)
Theorem statistics_not_overwritten c :
  rtc stats_step (Sharing new_storage None None) c ->
  (forall w r, writing c = Some w -> reading c = Some r -> w <> r)
  /\ (forall c' r, stats_step c c' -> reading c = Some r -> reading c' = Some r ->
        get (mAiqStatistics (shared c')) r = get (mAiqStatistics (shared c)) r)
  /\ (forall w sequence d, writing c = Some w -> reading c = None -> sequence <> -1 ->
        let st := updateAiqStatistics sequence (fill_statistics w sequence d (shared c)) in
        fst (getAndLockAiqStatistics st) = Some w
        /\ get (mAiqStatistics (snd (getAndLockAiqStatistics st))) w = Statistics sequence true d).
Proof.
  intros H. apply sharing_reachable in H as O. clear H. split; [| split].
  - intros w r Hw Hr ->. destruct (sharing_writing c O r Hw) as [_ Hf].
    apply (sharing_in_use c O) in Hr; [congruence | apply (sharing_reading c O), Hr].
  - intros c' r S Hr Hr'. pose proof (sharing_reading c O r Hr) as Rr.
    pose proof (proj2 (sharing_in_use c O r Rr) Hr) as Ru. unfold in_use in Ru.
    destruct S as [st r0 | st w r0 sequence d | st w r0 sequence | st w | st w r0 | st r0];
      cbn [shared writing reading] in *; try discriminate; try reflexivity.
    + destruct (acquire_free st r0 O) as (c & s & d & -> & _ & _ & Hi & Hf). apply get_set_free; [lia | lia | exact Hf | exact Ru].
    + destruct (sharing_writing _ O w eq_refl) as [E Hf]. apply get_set_free; [| lia | exact Hf | exact Ru].
      rewrite E. apply next_slot_range, (sharing_index _ O).
    + destruct (sharing_writing _ O w eq_refl) as [E Hf]. cbn [shared] in E, Hf. subst w.
      apply get_set_free; [apply next_slot_range, (sharing_index _ O) | lia | exact Hf | exact Ru].
  - intros w sequence d Hw Hr Hs. destruct (sharing_writing c O w Hw) as [E Hf]. cbv zeta.
    pose proof (next_slot_range _ (sharing_index c O)) as Hn. rewrite <- E in Hn.
    unfold updateAiqStatistics, fill_statistics, with_statistics. cbn [mCurrentAiqStatsIndex mAiqStatistics].
    fold (next_slot (shared c)). rewrite <- E.
    assert (forall s, get (set (mAiqStatistics (shared c)) w s) w = s) as G
      by (intros s; apply get_set_eq; rewrite (sharing_length c O); exact Hn).
    rewrite G, set_set. cbn [mInUse stats]. unfold getAndLockAiqStatistics, with_statistics.
    cbn [mCurrentAiqStatsIndex mAiqStatistics]. rewrite (proj2 (Z.eqb_neq w (-1))) by lia.
    rewrite G. cbn [stats_sequence]. rewrite (proj2 (Z.eqb_neq sequence (-1)) Hs).
    cbn [fst snd mAiqStatistics stats]. rewrite set_set, G. split; reflexivity.
Qed.
End Statistics.

(** ** Frames with stabilization *)

(** The recorded sequences beyond [s], and being one of the fifteen last. *)
Definition beyond (I : gset Z) (s : Z) : gset Z := filter (fun t => s < t) I.
Definition among_last (I : gset Z) (s : Z) : Prop := s ∈ I /\ (size (beyond I s) < 15)%nat.

Record keeps_last (E I : gset Z) : Prop := {
  keeps_iff s : s ∈ E <-> among_last I s;
  keeps_size : size E = Nat.min 15 (size I);
}.

Lemma beyond_mono I J s : I ⊆ J -> (size (beyond I s) <= size (beyond J s))%nat.
Proof. intros H. apply subseteq_size. unfold beyond. set_solver. Qed.

Lemma keeps_subset E I : keeps_last E I -> E ⊆ I.
Proof. intros [K _] s Hs. apply K in Hs as [H _]. exact H. Qed.

Lemma keeps_upward E I s t : keeps_last E I -> s ∈ E -> t ∈ I -> s < t -> t ∈ E.
Proof.
  intros [K _] Hs Ht Hl. apply K. split; [exact Ht |]. apply K in Hs as [_ Hs].
  eapply Nat.le_lt_trans; [| exact Hs]. apply subseteq_size. intros u. unfold beyond. rewrite !elem_of_filter.
  intros [H1 H2]. split; [lia | exact H2].
Qed.

Lemma keeps_all E I : keeps_last E I -> (size E < 15)%nat -> E = I.
Proof.
  intros K Hs. pose proof (keeps_subset E I K). pose proof (keeps_size E I K).
  apply set_eq. intros s. split; [set_solver |]. intros Hi. destruct (decide (s ∈ E)) as [| Hn]; [assumption |].
  assert ({[s]} ∪ E ⊆ I) as Hsub by set_solver. apply subseteq_size in Hsub.
  rewrite size_union, size_singleton in Hsub by set_solver. lia.
Qed.

(** Recording one more, first without dropping any. *)
Lemma among_insert E I x s : keeps_last E I -> among_last ({[x]} ∪ I) s -> s ∈ {[x]} ∪ E.
Proof.
  intros K [Hs Hb]. apply elem_of_union in Hs as [Hs | Hs]; [set_solver |].
  apply elem_of_union_r, (keeps_iff E I K). split; [exact Hs |].
  eapply Nat.le_lt_trans; [apply (beyond_mono I ({[x]} ∪ I)); set_solver | exact Hb].
Qed.

Lemma beyond_insert E I x s :
  keeps_last E I -> s ∈ {[x]} ∪ E -> (s = x -> exists k, k ∈ E /\ k < x) -> beyond ({[x]} ∪ I) s ⊆ {[x]} ∪ E.
Proof.
  intros K Hs Hx t. unfold beyond. rewrite elem_of_filter, !elem_of_union, !elem_of_singleton.
  intros [Hl [-> | Ht]]; [auto |]. right. apply elem_of_union in Hs as [Hs | Hs].
  - apply elem_of_singleton in Hs. destruct (Hx Hs) as (k & Hk & Hkx). apply (keeps_upward E I k t K Hk Ht). lia.
  - exact (keeps_upward E I s t K Hs Ht Hl).
Qed.

Lemma size_beyond_lt (E F : gset Z) : F ⊂ E -> (size F < size E)%nat.
Proof. apply subset_size. Qed.

Lemma keeps_insert_all E I x :
  keeps_last E I -> (size ({[x]} ∪ E) <= 15)%nat -> keeps_last ({[x]} ∪ E) ({[x]} ∪ I).
Proof.
  intros K Hs. pose proof (keeps_subset E I K) as Hsub. pose proof (keeps_size E I K) as Hsz.
  assert (E = I \/ {[x]} ∪ E = E /\ {[x]} ∪ I = I) as [-> | [-> ->]].
  { destruct (decide (size E < 15)%nat) as [Hl | Hl]; [left; apply (keeps_all E I K Hl) |].
    destruct (decide (x ∈ E)) as [Hx | Hx]; [right; set_solver |].
    rewrite size_union, size_singleton in Hs by set_solver. lia. }
  - split; [| lia]. intros s. split; [| intros [H _]; exact H]. intros Hx. split; [exact Hx |].
    eapply Nat.lt_le_trans; [| exact Hs]. apply size_beyond_lt. split; [unfold beyond; set_solver |].
    intros Hc. apply Hc in Hx. unfold beyond in Hx. apply elem_of_filter in Hx as [Hx _]. lia.
  - exact K.
Qed.

Lemma keeps_insert_drop E I x k :
  keeps_last E I -> (15 < size ({[x]} ∪ E))%nat -> k ∈ {[x]} ∪ E -> (forall t, t ∈ {[x]} ∪ E -> k <= t) ->
  keeps_last (({[x]} ∪ E) ∖ {[k]}) ({[x]} ∪ I).
Proof.
  intros K Hs Hk Hmin. pose proof (keeps_size E I K) as Hsz.
  assert (x ∉ E) as Hx by (intros Hx; replace ({[x]} ∪ E) with E in Hs by set_solver; lia).
  assert (size ({[x]} ∪ E) = S (size E)) as H16 by (rewrite size_union, size_singleton by set_solver; reflexivity).
  assert (size (({[x]} ∪ E) ∖ {[k]}) = 15%nat) as H15
    by (rewrite size_difference, size_singleton by set_solver; lia).
  split.
  - intros s. split.
    + intros [H1 H2]%elem_of_difference. split; [pose proof (keeps_subset E I K); set_solver |].
      assert (beyond ({[x]} ∪ I) s ⊆ {[x]} ∪ E) as Hb.
      { apply beyond_insert; [exact K | exact H1 |]. intros ->. exists k. pose proof (Hmin x ltac:(set_solver)).
        assert (k <> x) by set_solver. split; [set_solver | lia]. }
      rewrite <- H15. apply size_beyond_lt. split.
      * intros t Ht. pose proof (Hb t Ht). unfold beyond in Ht. apply elem_of_filter in Ht as [Ht _].
        pose proof (Hmin s H1). assert (t <> k) by lia. set_solver.
      * intros Hc. assert (s ∈ ({[x]} ∪ E) ∖ {[k]}) as Hin by set_solver. apply Hc in Hin.
        unfold beyond in Hin. apply elem_of_filter in Hin as [Hin _]. lia.
    + intros Ha. apply elem_of_difference. split; [exact (among_insert E I x s K Ha) |].
      intros ->%elem_of_singleton. destruct Ha as [_ Ha]. apply (Nat.lt_irrefl 15).
      eapply Nat.le_lt_trans; [| exact Ha]. rewrite <- H15. apply subseteq_size.
      intros t [H1 H2]%elem_of_difference. unfold beyond. apply elem_of_filter.
      split; [pose proof (Hmin t H1); assert (t <> k) by set_solver; lia |].
      pose proof (keeps_subset E I K). set_solver.
  - rewrite H15. symmetry. apply Nat.min_l. etrans; [| apply subseteq_size with (X := I); set_solver]. lia.
Qed.

Section Dvs.
Context {R D : Type} {inhabited_R : Inhabited R} {inhabited_D : Inhabited D}.

Inductive dvs_call := Run (sequence : Z) | ClearRuns.

Definition run_dvs_call (st : AiqResultStorage R D) (c : dvs_call) : AiqResultStorage R D :=
  match c with Run s => updateDvsRunMap s st | ClearRuns => clearDvsRunMap st end.

(** What was recorded since the last [clearDvsRunMap]. *)
Definition recorded (cs : list dvs_call) : gset Z :=
  foldl (fun I c => match c with Run s => {[s]} ∪ I | ClearRuns => ∅ end) ∅ cs.

Lemma dvs_run_keeps cs : keeps_last (dom (mDvsRunMap (foldl run_dvs_call new_storage cs))) (recorded cs).
Proof.
  induction cs as [| c cs IH] using rev_ind.
  - cbn. rewrite dom_empty_L. split; [| reflexivity]. unfold among_last. set_solver.
  - unfold recorded. rewrite !foldl_app. cbn [foldl]. fold (recorded cs).
    set (st := foldl run_dvs_call new_storage cs) in *. destruct c as [s |]; cbn [run_dvs_call].
    + unfold updateDvsRunMap, kDvsRunMapSize. cbn [with_dvs mDvsRunMap].
      set (m := <[s := true]> (mDvsRunMap st)). assert (dom m = {[s]} ∪ dom (mDvsRunMap st)) as Ed by apply dom_insert_L.
      rewrite <- size_dom. destruct (Z.ltb_spec 15 (Z.of_nat (size (dom m)))) as [Hl | Hl].
      * destruct (begin m) as [k |] eqn:Ek.
        -- apply begin_spec in Ek as [E1 E2]. rewrite dom_delete_L, Ed.
           apply keeps_insert_drop; [exact IH | rewrite <- Ed; lia | rewrite <- Ed; apply elem_of_dom, E1 |].
           intros t Ht. apply E2, elem_of_dom. rewrite Ed. exact Ht.
        -- apply begin_none in Ek. rewrite Ek, dom_empty_L, size_empty in Hl. lia.
      * rewrite Ed. apply keeps_insert_all; [exact IH | rewrite <- Ed; lia].
    + cbn. rewrite dom_empty_L. split; [| reflexivity]. unfold among_last. set_solver.
Qed.

(** After any sequence of calls, a frame counts as stabilized exactly when
    it was recorded since the last clear and is among the fifteen last of the
    recorded frames, in whatever order they were recorded. *)
Theorem dvs_runs_remembered cs sequence :
  isDvsRun sequence (foldl run_dvs_call new_storage cs) = true <-> among_last (recorded cs) sequence.
Proof.
  rewrite <- (keeps_iff _ _ (dvs_run_keeps cs)), elem_of_dom. unfold isDvsRun.
  destruct (_ !! sequence); [split; eauto | split; [discriminate | intros [x [=]]]].
Qed.
End Dvs.

(** ** Witnesses *)

Definition demo_calls : list (result_call (R := Z)) :=
  map (fun s => Publish s (100 * s)) (range 0 45) ++ [Acquire (Some (46, 0))].

Lemma results_in_effect_witness :
  found_result 4 (foldl (run_result_call (D := unit)) new_storage demo_calls) = None
  /\ found_result 20 (foldl (run_result_call (D := unit)) new_storage demo_calls) = Some (Result 20 2000).
Proof.
  assert (forall s r, Publish s r ∈ demo_calls -> 0 <= s) as H.
  { intros s r [H | H]%elem_of_app; [| set_solver].
    apply list_elem_of_In, in_map_iff in H as (t & [= <- _] & Ht). apply list_elem_of_In, elem_of_range in Ht. lia. }
  pose proof (results_in_effect (D := unit) demo_calls 4 H ltac:(lia)) as [E4 _].
  pose proof (results_in_effect (D := unit) demo_calls 20 H ltac:(lia)) as [E20 _].
  rewrite E4, E20. vm_compute. split; reflexivity.
Defined.

(** A result of which 3A failed after the sensor was set is answered where no
    other was published, although it is not finished. *)
Lemma unfinished_result_answered :
  found_result 5 (run_result_call (D := unit) new_storage (Acquire (Some (5, 500)))) = Some (Result 5 500).
Proof. vm_compute. reflexivity. Qed.

Definition demo_sharing : sharing (R := unit) (D := Z) :=
  Sharing (fill_statistics 0 7 100 (snd (acquireAiqStatistics new_storage))) (Some 0) None.

Lemma statistics_not_overwritten_witness :
  fst (getAndLockAiqStatistics (updateAiqStatistics 7 (fill_statistics 0 7 100 (shared demo_sharing)))) = Some 0.
Proof.
  assert (rtc stats_step (Sharing new_storage None None) demo_sharing) as H.
  { eapply rtc_l; [apply step_acquire |]. eapply rtc_l; [apply step_fill with (sequence := 7) (d := 100) |].
    apply rtc_refl. }
  exact (proj1 (proj2 (proj2 (statistics_not_overwritten demo_sharing H)) 0 7 100 eq_refl eq_refl ltac:(lia))).
Defined.

(** When the slot behind the current one is locked, acquiring makes that old
    slot the current one, and until the next update a lock hands out the old
    statistics although newer ones were published. *)
Definition skipping : AiqResultStorage unit Z :=
  let put i sequence st := updateAiqStatistics sequence (fill_statistics i sequence 0 (snd (acquireAiqStatistics st))) in
  let st := snd (getAndLockAiqStatistics (put 0 1 new_storage)) in
  snd (acquireAiqStatistics (put 2 3 (put 1 2 st))).

Lemma skip_hides_latest :
  fst (getAndLockAiqStatistics (unLockAiqStatistics skipping)) = Some 0
  /\ map stats_sequence (mAiqStatistics skipping) = [1; -1; 3].
Proof. vm_compute. split; reflexivity. Qed.
