(* ===== verification/Parameters.v ===== *)
(** * Camera parameters

    src/metadata/Parameters.cpp with src/metadata/ParameterHelper.cpp and .h:
    the settings and results of a frame as typed members of a metadata
    container.  A [Parameters] holds one [CameraMetadata], which it never
    leaves locked; here it is the map of CameraMetadataMap that the container
    refines, none when there is no packet.  [set...] stores values under a tag
    with the type of the C++ argument, [get...] reads them back and answers a
    status with the values, none when the caller's variable is left alone.
    [entry.count] is a [size_t], of which the source's [<= 0] is [= 0].
    Memory is taken to be enough for the packets.
    Floating-point values are their bits; the getters and setters that
    convert between integers and floating point are left out. *)

From Stdlib Require Import Ascii String.
From S2P Require Import Prelude Memory Errors MetadataTables MetadataTags MetadataBuffer MetadataPacket MetadataMemory MetadataAdd MetadataEdit MetadataFind MetadataSteps CameraMetadata CameraMetadataHeap CameraMetadataMap.
From stdpp Require Import list gmap.
#[local] Open Scope Z_scope.

(** ** Values in memory *)

Fixpoint le_bytes (n : nat) (v : Z) : list Z :=
  match n with O => [] | S n' => v mod 256 :: le_bytes n' (v / 256) end.

Fixpoint of_bytes (l : list Z) : Z := match l with [] => 0 | b :: l' => b mod 256 + 256 * of_bytes l' end.

(** Integer types are signed, [uint8_t] and the bits of floats are not. *)
Definition conv (type v : Z) : Z :=
  let w := 8 * type_size type in
  if (type =? ICAMERA_TYPE_INT32) || (type =? ICAMERA_TYPE_INT64) then signed w v else v mod 2 ^ w.

(** The array of values that a setter passes to the container. *)
Definition stored (type : Z) (values : list Z) : list Z :=
  flat_map (le_bytes (Z.to_nat (type_size type))) values.

(** [entry.data.u8[i]], [entry.data.i32[i]] and so on. *)
Definition element (type : Z) (entry : datum) (i : Z) : Z :=
  let n := Z.to_nat (type_size type) in
  conv type (of_bytes (take n (drop (n * Z.to_nat i) (d_values entry)))).

Abbreviation BYTE := ICAMERA_TYPE_BYTE.
Abbreviation INT32 := ICAMERA_TYPE_INT32.
Abbreviation FLOAT := ICAMERA_TYPE_FLOAT.
Abbreviation INT64 := ICAMERA_TYPE_INT64.
Abbreviation DOUBLE := ICAMERA_TYPE_DOUBLE.
Abbreviation RATIONAL := ICAMERA_TYPE_RATIONAL.

(** ** The container of a [Parameters] *)

Definition Parameters : Type := option (gmap Z datum).

(** [getMetadata(mData).update(tag, values, count)], by what the container is
    shown to do while there is memory for its packet to grow
    (MetadataTheorems.container_refines_map); the path of [updateImpl] that
    answers NO_MEMORY is modelled there, on the heap, and not here. *)
Definition update_bytes (type tag count : Z) (values : list Z) (p : Parameters) : Z * Parameters :=
  let '(r, s) := spec_update type 0 tag count values (fun _ => (p, false)) in (r, fst (s 0)).

Definition update (type tag : Z) (values : list Z) (p : Parameters) : Z * Parameters :=
  update_bytes type tag (Z.of_nat (List.length values)) (stored type values) p.

Definition erase (tag : Z) (p : Parameters) : Z * Parameters :=
  match p with None => (UNKNOWN_ERROR, None) | Some m => (OK, Some (delete tag m)) end.

(** An entry without values when there is none under the tag. *)
Definition getMetadataEntry (p : Parameters) (tag : Z) : datum :=
  default (Datum tag 0 0 []) (default ∅ p !! tag).

(** ** Whole objects *)

Definition new_Parameters : Parameters := None.

(** [ParameterHelper::mergeTag]; entries of other types are ignored. *)
Definition mergeTag (entry : datum) (dst : Parameters) : Parameters :=
  if d_type entry <? ICAMERA_NUM_TYPES
  then snd (update_bytes (d_type entry) (d_tag entry) (d_count entry) (d_values entry) dst)
  else dst.

(** The entries of a packet in any order. *)
Definition merge (src dst : Parameters) : Parameters :=
  foldl (fun dst entry => mergeTag entry dst) dst (map snd (map_to_list (default ∅ src))).

(** [operator=] and [ParameterHelper::copyMetadata]. *)
Definition assign (other this : Parameters) : Parameters := other.

(** ** Common shapes of getters *)

(** A fixed number of values. *)
Definition several {A} (tag count : Z) (make : datum -> A) (p : Parameters) : Z * option A :=
  let entry := getMetadataEntry p tag in
  if negb (d_count entry =? count) then (NAME_NOT_FOUND, None) else (OK, Some (make entry)).

Definition one (type tag : Z) : Parameters -> Z * option Z :=
  several tag 1 (fun entry => element type entry 0).

Definition flag_of (v : Z) : bool := negb (v =? 0).
Definition of_flag (b : bool) : Z := if b then 1 else 0.

(** As many values as there are, in groups of [size]. *)
Definition groups {A} (size : Z) (make : Z -> A) (entry : datum) : list A :=
  map (fun k => make (k * size)) (range 0 (d_count entry / size)).

Definition list_of {A} (tag : Z) (make : Z -> A) (p : Parameters) : Z * list A :=
  let entry := getMetadataEntry p tag in (OK, groups 1 (fun i => make (element BYTE entry i)) entry).

(** ** Structs of the interface (include/api/Parameters.h) *)

Record camera_window_t := Window { w_left : Z; w_top : Z; w_right : Z; w_bottom : Z; weight : Z }.
Record camera_awb_gains_t := AwbGains { r_gain : Z; g_gain : Z; b_gain : Z }.
Record camera_coordinate_t := Coordinate { coord_x : Z; coord_y : Z }.
Record camera_coordinate_system_t := System { s_left : Z; s_top : Z; s_right : Z; s_bottom : Z }.
Record camera_range_t := Range { range_min : Z; range_max : Z }.
Record camera_resolution_t := Resolution { width : Z; height : Z }.
Record camera_crop_region_t := CropRegion { flag : Z; crop_x : Z; crop_y : Z }.
Record camera_nr_level_t := NrLevel { overall : Z; spatial : Z; temporal : Z }.
Record camera_image_enhancement_t :=
  Enhancement { sharpness : Z; brightness : Z; contrast : Z; hue : Z; saturation : Z }.
Record camera_rational_t := Rational { numerator : Z; denominator : Z }.
Record camera_zoom_region_t := ZoomRegion { z_left : Z; z_top : Z; z_right : Z; z_bottom : Z }.
Record camera_tonemap_curves_t := Curves { rCurve : list Z; bCurve : list Z; gCurve : list Z }.

(** Matrices and arrays of floats in the order of memory. *)
Definition camera_color_transform_t : Type := list Z.
Definition camera_color_gains_t : Type := list Z.

(** ** Tags *)

(** The enumerator of that name. *)
Definition tag_named (e : string) : Z :=
  match List.find (fun x => String.eqb (snd (snd x)) e) enumerators with
  | Some (tag, _) => tag
  | None => -1
  end.

Definition CAMERA_AE_MODE : Z := Eval vm_compute in tag_named "CAMERA_AE_MODE".
Definition CAMERA_AE_STATE : Z := Eval vm_compute in tag_named "CAMERA_AE_STATE".
Definition CAMERA_AE_REGIONS : Z := Eval vm_compute in tag_named "CAMERA_AE_REGIONS".
Definition CAMERA_AE_LOCK : Z := Eval vm_compute in tag_named "CAMERA_AE_LOCK".
Definition CAMERA_SENSOR_EXPOSURE_TIME : Z := Eval vm_compute in tag_named "CAMERA_SENSOR_EXPOSURE_TIME".
Definition INTEL_CONTROL_SENSITIVITY_GAIN : Z :=
  Eval vm_compute in tag_named "INTEL_CONTROL_SENSITIVITY_GAIN".
Definition CAMERA_SENSOR_SENSITIVITY : Z := Eval vm_compute in tag_named "CAMERA_SENSOR_SENSITIVITY".
Definition CAMERA_AE_COMPENSATION : Z := Eval vm_compute in tag_named "CAMERA_AE_COMPENSATION".
Definition INTEL_CONTROL_FRAME_RATE : Z := Eval vm_compute in tag_named "INTEL_CONTROL_FRAME_RATE".
Definition CAMERA_AE_ANTIBANDING_MODE : Z := Eval vm_compute in tag_named "CAMERA_AE_ANTIBANDING_MODE".
Definition CAMERA_AWB_MODE : Z := Eval vm_compute in tag_named "CAMERA_AWB_MODE".
Definition CAMERA_AWB_STATE : Z := Eval vm_compute in tag_named "CAMERA_AWB_STATE".
Definition CAMERA_AWB_LOCK : Z := Eval vm_compute in tag_named "CAMERA_AWB_LOCK".
Definition CAMERA_AWB_GAINS : Z := Eval vm_compute in tag_named "CAMERA_AWB_GAINS".
Definition CAMERA_AWB_RESULT : Z := Eval vm_compute in tag_named "CAMERA_AWB_RESULT".
Definition CAMERA_AWB_GAIN_SHIFT : Z := Eval vm_compute in tag_named "CAMERA_AWB_GAIN_SHIFT".
Definition CAMERA_AWB_WHITE_POINT : Z := Eval vm_compute in tag_named "CAMERA_AWB_WHITE_POINT".
Definition CAMERA_AWB_COLOR_TRANSFORM : Z := Eval vm_compute in tag_named "CAMERA_AWB_COLOR_TRANSFORM".
Definition CAMERA_AWB_COLOR_GAINS : Z := Eval vm_compute in tag_named "CAMERA_AWB_COLOR_GAINS".
Definition CAMERA_AWB_REGIONS : Z := Eval vm_compute in tag_named "CAMERA_AWB_REGIONS".
Definition CAMERA_EDGE_MODE : Z := Eval vm_compute in tag_named "CAMERA_EDGE_MODE".
Definition INTEL_CONTROL_NR_MODE : Z := Eval vm_compute in tag_named "INTEL_CONTROL_NR_MODE".
Definition INTEL_CONTROL_NR_LEVEL : Z := Eval vm_compute in tag_named "INTEL_CONTROL_NR_LEVEL".
Definition INTEL_CONTROL_IRIS_MODE : Z := Eval vm_compute in tag_named "INTEL_CONTROL_IRIS_MODE".
Definition INTEL_CONTROL_IRIS_LEVEL : Z := Eval vm_compute in tag_named "INTEL_CONTROL_IRIS_LEVEL".
Definition INTEL_CONTROL_WDR_MODE : Z := Eval vm_compute in tag_named "INTEL_CONTROL_WDR_MODE".
Definition INTEL_CONTROL_WDR_LEVEL : Z := Eval vm_compute in tag_named "INTEL_CONTROL_WDR_LEVEL".
Definition INTEL_CONTROL_SCENE_MODE : Z := Eval vm_compute in tag_named "INTEL_CONTROL_SCENE_MODE".
Definition INTEL_CONTROL_WEIGHT_GRID_MODE : Z :=
  Eval vm_compute in tag_named "INTEL_CONTROL_WEIGHT_GRID_MODE".
Definition INTEL_CONTROL_BLC_AREA_MODE : Z := Eval vm_compute in tag_named "INTEL_CONTROL_BLC_AREA_MODE".
Definition CAMERA_AE_TARGET_FPS_RANGE : Z := Eval vm_compute in tag_named "CAMERA_AE_TARGET_FPS_RANGE".
Definition INTEL_CONTROL_IMAGE_ENHANCEMENT : Z :=
  Eval vm_compute in tag_named "INTEL_CONTROL_IMAGE_ENHANCEMENT".
Definition INTEL_CONTROL_DEINTERLACE_MODE : Z :=
  Eval vm_compute in tag_named "INTEL_CONTROL_DEINTERLACE_MODE".
Definition CAMERA_CONTROL_AVAILABLE_VIDEO_STABILIZATION_MODES : Z :=
  Eval vm_compute in tag_named "CAMERA_CONTROL_AVAILABLE_VIDEO_STABILIZATION_MODES".
Definition CAMERA_AE_AVAILABLE_MODES : Z := Eval vm_compute in tag_named "CAMERA_AE_AVAILABLE_MODES".
Definition CAMERA_AWB_AVAILABLE_MODES : Z := Eval vm_compute in tag_named "CAMERA_AWB_AVAILABLE_MODES".
Definition CAMERA_AF_AVAILABLE_MODES : Z := Eval vm_compute in tag_named "CAMERA_AF_AVAILABLE_MODES".
Definition CAMERA_CONTROL_AVAILABLE_SCENE_MODES : Z :=
  Eval vm_compute in tag_named "CAMERA_CONTROL_AVAILABLE_SCENE_MODES".
Definition CAMERA_AE_AVAILABLE_ANTIBANDING_MODES : Z :=
  Eval vm_compute in tag_named "CAMERA_AE_AVAILABLE_ANTIBANDING_MODES".
Definition CAMERA_AE_AVAILABLE_TARGET_FPS_RANGES : Z :=
  Eval vm_compute in tag_named "CAMERA_AE_AVAILABLE_TARGET_FPS_RANGES".
Definition INTEL_INFO_AVAILABLE_FEATURES : Z := Eval vm_compute in tag_named "INTEL_INFO_AVAILABLE_FEATURES".
Definition CAMERA_AE_COMPENSATION_STEP : Z := Eval vm_compute in tag_named "CAMERA_AE_COMPENSATION_STEP".
Definition CAMERA_AE_LOCK_AVAILABLE : Z := Eval vm_compute in tag_named "CAMERA_AE_LOCK_AVAILABLE".
Definition CAMERA_AWB_LOCK_AVAILABLE : Z := Eval vm_compute in tag_named "CAMERA_AWB_LOCK_AVAILABLE".
Definition INTEL_CONTROL_SENSITIVITY_GAIN_RANGE : Z :=
  Eval vm_compute in tag_named "INTEL_CONTROL_SENSITIVITY_GAIN_RANGE".
Definition INTEL_CONTROL_AE_CONVERGE_SPEED : Z :=
  Eval vm_compute in tag_named "INTEL_CONTROL_AE_CONVERGE_SPEED".
Definition CAMERA_AWB_CONVERGE_SPEED : Z := Eval vm_compute in tag_named "CAMERA_AWB_CONVERGE_SPEED".
Definition INTEL_CONTROL_AE_CONVERGE_SPEED_MODE : Z :=
  Eval vm_compute in tag_named "INTEL_CONTROL_AE_CONVERGE_SPEED_MODE".
Definition CAMERA_AWB_CONVERGE_SPEED_MODE : Z :=
  Eval vm_compute in tag_named "CAMERA_AWB_CONVERGE_SPEED_MODE".
Definition INTEL_CONTROL_MAKERNOTE_DATA : Z := Eval vm_compute in tag_named "INTEL_CONTROL_MAKERNOTE_DATA".
Definition INTEL_CONTROL_CUSTOM_AIC_PARAM : Z :=
  Eval vm_compute in tag_named "INTEL_CONTROL_CUSTOM_AIC_PARAM".
Definition INTEL_CONTROL_MAKERNOTE_MODE : Z := Eval vm_compute in tag_named "INTEL_CONTROL_MAKERNOTE_MODE".
Definition INTEL_CONTROL_DIGITAL_ZOOM_RATIO : Z :=
  Eval vm_compute in tag_named "INTEL_CONTROL_DIGITAL_ZOOM_RATIO".
Definition INTEL_CONTROL_LDC_MODE : Z := Eval vm_compute in tag_named "INTEL_CONTROL_LDC_MODE".
Definition INTEL_CONTROL_RSC_MODE : Z := Eval vm_compute in tag_named "INTEL_CONTROL_RSC_MODE".
Definition INTEL_CONTROL_FLIP_MODE : Z := Eval vm_compute in tag_named "INTEL_CONTROL_FLIP_MODE".
Definition INTEL_CONTROL_MONO_DOWNSCALE : Z := Eval vm_compute in tag_named "INTEL_CONTROL_MONO_DOWNSCALE".
Definition INTEL_CONTROL_RUN3_A_CADENCE : Z := Eval vm_compute in tag_named "INTEL_CONTROL_RUN3_A_CADENCE".
Definition INTEL_CONTROL_FISHEYE_DEWARPING_MODE : Z :=
  Eval vm_compute in tag_named "INTEL_CONTROL_FISHEYE_DEWARPING_MODE".
Definition INTEL_CONTROL_AE_DISTRIBUTION_PRIORITY : Z :=
  Eval vm_compute in tag_named "INTEL_CONTROL_AE_DISTRIBUTION_PRIORITY".
Definition INTEL_CONTROL_YUV_COLOR_RANGE : Z := Eval vm_compute in tag_named "INTEL_CONTROL_YUV_COLOR_RANGE".
Definition CAMERA_JPEG_QUALITY : Z := Eval vm_compute in tag_named "CAMERA_JPEG_QUALITY".
Definition CAMERA_JPEG_THUMBNAIL_QUALITY : Z := Eval vm_compute in tag_named "CAMERA_JPEG_THUMBNAIL_QUALITY".
Definition CAMERA_JPEG_THUMBNAIL_SIZE : Z := Eval vm_compute in tag_named "CAMERA_JPEG_THUMBNAIL_SIZE".
Definition CAMERA_JPEG_ORIENTATION : Z := Eval vm_compute in tag_named "CAMERA_JPEG_ORIENTATION".
Definition CAMERA_JPEG_GPS_COORDINATES : Z := Eval vm_compute in tag_named "CAMERA_JPEG_GPS_COORDINATES".
Definition CAMERA_JPEG_GPS_TIMESTAMP : Z := Eval vm_compute in tag_named "CAMERA_JPEG_GPS_TIMESTAMP".
Definition CAMERA_JPEG_GPS_PROCESSING_METHOD : Z :=
  Eval vm_compute in tag_named "CAMERA_JPEG_GPS_PROCESSING_METHOD".
Definition CAMERA_CONTROL_EFFECT_MODE : Z := Eval vm_compute in tag_named "CAMERA_CONTROL_EFFECT_MODE".
Definition CAMERA_CONTROL_VIDEO_STABILIZATION_MODE : Z :=
  Eval vm_compute in tag_named "CAMERA_CONTROL_VIDEO_STABILIZATION_MODE".
Definition CAMERA_LENS_FOCAL_LENGTH : Z := Eval vm_compute in tag_named "CAMERA_LENS_FOCAL_LENGTH".
Definition CAMERA_LENS_APERTURE : Z := Eval vm_compute in tag_named "CAMERA_LENS_APERTURE".
Definition CAMERA_LENS_FOCUS_DISTANCE : Z := Eval vm_compute in tag_named "CAMERA_LENS_FOCUS_DISTANCE".
Definition CAMERA_LENS_FOCUS_RANGE : Z := Eval vm_compute in tag_named "CAMERA_LENS_FOCUS_RANGE".
Definition CAMERA_AF_MODE : Z := Eval vm_compute in tag_named "CAMERA_AF_MODE".
Definition CAMERA_AF_TRIGGER : Z := Eval vm_compute in tag_named "CAMERA_AF_TRIGGER".
Definition CAMERA_AF_REGIONS : Z := Eval vm_compute in tag_named "CAMERA_AF_REGIONS".
Definition CAMERA_AF_STATE : Z := Eval vm_compute in tag_named "CAMERA_AF_STATE".
Definition CAMERA_LENS_STATE : Z := Eval vm_compute in tag_named "CAMERA_LENS_STATE".
Definition CAMERA_LENS_INFO_AVAILABLE_APERTURES : Z :=
  Eval vm_compute in tag_named "CAMERA_LENS_INFO_AVAILABLE_APERTURES".
Definition CAMERA_LENS_INFO_AVAILABLE_FILTER_DENSITIES : Z :=
  Eval vm_compute in tag_named "CAMERA_LENS_INFO_AVAILABLE_FILTER_DENSITIES".
Definition CAMERA_LENS_INFO_MINIMUM_FOCUS_DISTANCE : Z :=
  Eval vm_compute in tag_named "CAMERA_LENS_INFO_MINIMUM_FOCUS_DISTANCE".
Definition CAMERA_LENS_INFO_HYPERFOCAL_DISTANCE : Z :=
  Eval vm_compute in tag_named "CAMERA_LENS_INFO_HYPERFOCAL_DISTANCE".
Definition INTEL_INFO_SENSOR_MOUNT_TYPE : Z := Eval vm_compute in tag_named "INTEL_INFO_SENSOR_MOUNT_TYPE".
Definition CAMERA_SENSOR_TEST_PATTERN_MODE : Z :=
  Eval vm_compute in tag_named "CAMERA_SENSOR_TEST_PATTERN_MODE".
Definition CAMERA_SCALER_CROP_REGION : Z := Eval vm_compute in tag_named "CAMERA_SCALER_CROP_REGION".
Definition CAMERA_CONTROL_SCENE_MODE : Z := Eval vm_compute in tag_named "CAMERA_CONTROL_SCENE_MODE".
Definition CAMERA_STATISTICS_FACE_DETECT_MODE : Z :=
  Eval vm_compute in tag_named "CAMERA_STATISTICS_FACE_DETECT_MODE".
Definition CAMERA_STATISTICS_FACE_IDS : Z := Eval vm_compute in tag_named "CAMERA_STATISTICS_FACE_IDS".
Definition CAMERA_SENSOR_INFO_ACTIVE_ARRAY_SIZE : Z :=
  Eval vm_compute in tag_named "CAMERA_SENSOR_INFO_ACTIVE_ARRAY_SIZE".
Definition CAMERA_SHADING_MODE : Z := Eval vm_compute in tag_named "CAMERA_SHADING_MODE".
Definition CAMERA_STATISTICS_LENS_SHADING_MAP_MODE : Z :=
  Eval vm_compute in tag_named "CAMERA_STATISTICS_LENS_SHADING_MAP_MODE".
Definition CAMERA_STATISTICS_LENS_SHADING_MAP : Z :=
  Eval vm_compute in tag_named "CAMERA_STATISTICS_LENS_SHADING_MAP".
Definition CAMERA_LENS_INFO_SHADING_MAP_SIZE : Z :=
  Eval vm_compute in tag_named "CAMERA_LENS_INFO_SHADING_MAP_SIZE".
Definition CAMERA_TONEMAP_MODE : Z := Eval vm_compute in tag_named "CAMERA_TONEMAP_MODE".
Definition CAMERA_TONEMAP_AVAILABLE_TONE_MAP_MODES : Z :=
  Eval vm_compute in tag_named "CAMERA_TONEMAP_AVAILABLE_TONE_MAP_MODES".
Definition CAMERA_TONEMAP_PRESET_CURVE : Z := Eval vm_compute in tag_named "CAMERA_TONEMAP_PRESET_CURVE".
Definition CAMERA_TONEMAP_GAMMA : Z := Eval vm_compute in tag_named "CAMERA_TONEMAP_GAMMA".
Definition CAMERA_TONEMAP_MAX_CURVE_POINTS : Z :=
  Eval vm_compute in tag_named "CAMERA_TONEMAP_MAX_CURVE_POINTS".
Definition CAMERA_TONEMAP_CURVE_RED : Z := Eval vm_compute in tag_named "CAMERA_TONEMAP_CURVE_RED".
Definition CAMERA_TONEMAP_CURVE_BLUE : Z := Eval vm_compute in tag_named "CAMERA_TONEMAP_CURVE_BLUE".
Definition CAMERA_TONEMAP_CURVE_GREEN : Z := Eval vm_compute in tag_named "CAMERA_TONEMAP_CURVE_GREEN".
Definition INTEL_VENDOR_CAMERA_RAW_DATA_OUTPUT : Z :=
  Eval vm_compute in tag_named "INTEL_VENDOR_CAMERA_RAW_DATA_OUTPUT".
Definition INTEL_VENDOR_CAMERA_POWER_MODE : Z :=
  Eval vm_compute in tag_named "INTEL_VENDOR_CAMERA_POWER_MODE".
Definition INTEL_VENDOR_CAMERA_HDR_RATIO : Z := Eval vm_compute in tag_named "INTEL_VENDOR_CAMERA_HDR_RATIO".
Definition INTEL_VENDOR_CAMERA_TOTAL_EXPOSURE_TARGET : Z :=
  Eval vm_compute in tag_named "INTEL_VENDOR_CAMERA_TOTAL_EXPOSURE_TARGET".
Definition CAMERA_REQUEST_ID : Z := Eval vm_compute in tag_named "CAMERA_REQUEST_ID".
Definition CAMERA_CONTROL_CAPTUREINTENT : Z := Eval vm_compute in tag_named "CAMERA_CONTROL_CAPTUREINTENT".
Definition INTEL_VENDOR_CAMERA_CALLBACK_RGBS : Z :=
  Eval vm_compute in tag_named "INTEL_VENDOR_CAMERA_CALLBACK_RGBS".
Definition INTEL_VENDOR_CAMERA_CALLBACK_TM_CURVE : Z :=
  Eval vm_compute in tag_named "INTEL_VENDOR_CAMERA_CALLBACK_TM_CURVE".
Definition INTEL_CONTROL_SCALER_CROP_REGION : Z :=
  Eval vm_compute in tag_named "INTEL_CONTROL_SCALER_CROP_REGION".
Definition INTEL_VENDOR_CAMERA_IC_UF_MODE : Z :=
  Eval vm_compute in tag_named "INTEL_VENDOR_CAMERA_IC_UF_MODE".
Definition INTEL_VENDOR_CAMERA_IC_BC_MODE : Z :=
  Eval vm_compute in tag_named "INTEL_VENDOR_CAMERA_IC_BC_MODE".

(** ** Getters and setters, in the order of the source *)

Definition setAeMode (aeMode : Z) : Parameters -> Z * Parameters :=
  update BYTE CAMERA_AE_MODE [u8 aeMode].
Definition getAeMode : Parameters -> Z * option Z :=
  one BYTE CAMERA_AE_MODE.
Definition setAeState (aeState : Z) : Parameters -> Z * Parameters :=
  update BYTE CAMERA_AE_STATE [u8 aeState].
Definition getAeState : Parameters -> Z * option Z :=
  one BYTE CAMERA_AE_STATE.
Definition setRegions (metadata : Parameters) (regions : list camera_window_t) (tag : Z) : Z * Parameters :=
  match regions with
  | [] => (INVALID_OPERATION, metadata)
  | _ => update INT32 tag
           (flat_map (fun w => [w_left w; w_top w; w_right w; w_bottom w; weight w]) regions) metadata
  end.
(** The caller's list is cleared in any case. *)
Definition getRegions (entry : datum) : Z * list camera_window_t :=
  if (d_count entry =? 0) || negb (d_count entry mod 5 =? 0) then (NAME_NOT_FOUND, [])
  else (OK, groups 5 (fun i => Window (element INT32 entry i) (element INT32 entry (i + 1))
                                 (element INT32 entry (i + 2)) (element INT32 entry (i + 3))
                                 (element INT32 entry (i + 4))) entry).
Definition setAeRegions (aeRegions : list camera_window_t) (p : Parameters) : Z * Parameters :=
  setRegions p aeRegions CAMERA_AE_REGIONS.
Definition getAeRegions (p : Parameters) : Z * list camera_window_t :=
  getRegions (getMetadataEntry p CAMERA_AE_REGIONS).
Definition setAeLock (lock : bool) : Parameters -> Z * Parameters :=
  update BYTE CAMERA_AE_LOCK [of_flag lock].
Definition getAeLock : Parameters -> Z * option bool :=
  several CAMERA_AE_LOCK 1 (fun e => flag_of (element BYTE e 0)).
Definition setExposureTime (exposureTime : Z) : Parameters -> Z * Parameters :=
  update INT64 CAMERA_SENSOR_EXPOSURE_TIME [exposureTime].
Definition getExposureTime : Parameters -> Z * option Z :=
  one INT64 CAMERA_SENSOR_EXPOSURE_TIME.
Definition setSensitivityGain (gain : Z) : Parameters -> Z * Parameters :=
  update FLOAT INTEL_CONTROL_SENSITIVITY_GAIN [gain].
Definition getSensitivityGain : Parameters -> Z * option Z :=
  one FLOAT INTEL_CONTROL_SENSITIVITY_GAIN.
Definition setSensitivityIso (iso : Z) : Parameters -> Z * Parameters :=
  update INT32 CAMERA_SENSOR_SENSITIVITY [iso].
Definition getSensitivityIso : Parameters -> Z * option Z :=
  one INT32 CAMERA_SENSOR_SENSITIVITY.
Definition setAeCompensation (ev : Z) : Parameters -> Z * Parameters :=
  update INT32 CAMERA_AE_COMPENSATION [ev].
Definition getAeCompensation : Parameters -> Z * option Z :=
  one INT32 CAMERA_AE_COMPENSATION.
Definition setFrameRate (fps : Z) : Parameters -> Z * Parameters :=
  update FLOAT INTEL_CONTROL_FRAME_RATE [fps].
Definition getFrameRate : Parameters -> Z * option Z :=
  one FLOAT INTEL_CONTROL_FRAME_RATE.
Definition setAntiBandingMode (bandingMode : Z) : Parameters -> Z * Parameters :=
  update BYTE CAMERA_AE_ANTIBANDING_MODE [u8 bandingMode].
Definition getAntiBandingMode : Parameters -> Z * option Z :=
  one BYTE CAMERA_AE_ANTIBANDING_MODE.
Definition setAwbMode (awbMode : Z) : Parameters -> Z * Parameters :=
  update BYTE CAMERA_AWB_MODE [u8 awbMode].
Definition getAwbMode : Parameters -> Z * option Z :=
  one BYTE CAMERA_AWB_MODE.
Definition setAwbState (awbState : Z) : Parameters -> Z * Parameters :=
  update BYTE CAMERA_AWB_STATE [u8 awbState].
Definition getAwbState : Parameters -> Z * option Z :=
  one BYTE CAMERA_AWB_STATE.
Definition setAwbLock (lock : bool) : Parameters -> Z * Parameters :=
  update BYTE CAMERA_AWB_LOCK [of_flag lock].
Definition getAwbLock : Parameters -> Z * option bool :=
  several CAMERA_AWB_LOCK 1 (fun e => flag_of (element BYTE e 0)).
Definition setAwbGains (awbGains : camera_awb_gains_t) : Parameters -> Z * Parameters :=
  update INT32 CAMERA_AWB_GAINS [r_gain awbGains; g_gain awbGains; b_gain awbGains].
Definition getAwbGains : Parameters -> Z * option camera_awb_gains_t :=
  several CAMERA_AWB_GAINS 3 (fun e => AwbGains (element INT32 e 0) (element INT32 e 1) (element INT32 e 2)).
(** The bytes of a [camera_awb_result_t], none for a null pointer. *)
Definition setAwbResult (data : option (list Z)) (p : Parameters) : Z * Parameters :=
  match data with
  | None => erase CAMERA_AWB_RESULT p
  | Some data => update BYTE CAMERA_AWB_RESULT data p
  end.
Definition getAwbResult : Parameters -> Z * option (list Z) :=
  several CAMERA_AWB_RESULT 8 (fun e => map (element BYTE e) (range 0 8)).
Definition setAwbGainShift (awbGainShift : camera_awb_gains_t) : Parameters -> Z * Parameters :=
  update INT32 CAMERA_AWB_GAIN_SHIFT [r_gain awbGainShift; g_gain awbGainShift; b_gain awbGainShift].
Definition getAwbGainShift : Parameters -> Z * option camera_awb_gains_t :=
  several CAMERA_AWB_GAIN_SHIFT 3 (fun e => AwbGains (element INT32 e 0) (element INT32 e 1) (element INT32 e 2)).
Definition setAwbWhitePoint (whitePoint : camera_coordinate_t) : Parameters -> Z * Parameters :=
  update INT32 CAMERA_AWB_WHITE_POINT [coord_x whitePoint; coord_y whitePoint].
Definition getAwbWhitePoint : Parameters -> Z * option camera_coordinate_t :=
  several CAMERA_AWB_WHITE_POINT 2 (fun e => Coordinate (element INT32 e 0) (element INT32 e 1)).
Definition setColorTransform (colorTransform : camera_color_transform_t) : Parameters -> Z * Parameters :=
  update FLOAT CAMERA_AWB_COLOR_TRANSFORM colorTransform.
Definition getColorTransform : Parameters -> Z * option camera_color_transform_t :=
  several CAMERA_AWB_COLOR_TRANSFORM 9 (fun e => map (element FLOAT e) (range 0 9)).
Definition setColorGains (colorGains : camera_color_gains_t) : Parameters -> Z * Parameters :=
  update FLOAT CAMERA_AWB_COLOR_GAINS colorGains.
Definition getColorGains : Parameters -> Z * option camera_color_gains_t :=
  several CAMERA_AWB_COLOR_GAINS 4 (fun e => map (element FLOAT e) (range 0 4)).
Definition setAwbRegions (awbRegions : list camera_window_t) (p : Parameters) : Z * Parameters :=
  setRegions p awbRegions CAMERA_AWB_REGIONS.
Definition getAwbRegions (p : Parameters) : Z * list camera_window_t :=
  getRegions (getMetadataEntry p CAMERA_AWB_REGIONS).
Definition setEdgeMode (edgeMode : Z) : Parameters -> Z * Parameters :=
  update BYTE CAMERA_EDGE_MODE [u8 edgeMode].
Definition getEdgeMode : Parameters -> Z * option Z :=
  one BYTE CAMERA_EDGE_MODE.
Definition setNrMode (nrMode : Z) : Parameters -> Z * Parameters :=
  update BYTE INTEL_CONTROL_NR_MODE [u8 nrMode].
Definition getNrMode : Parameters -> Z * option Z :=
  one BYTE INTEL_CONTROL_NR_MODE.
Definition setNrLevel (level : camera_nr_level_t) : Parameters -> Z * Parameters :=
  update INT32 INTEL_CONTROL_NR_LEVEL [overall level; spatial level; temporal level].
Definition getNrLevel : Parameters -> Z * option camera_nr_level_t :=
  several INTEL_CONTROL_NR_LEVEL 3 (fun e => NrLevel (element INT32 e 0) (element INT32 e 1) (element INT32 e 2)).
Definition setIrisMode (irisMode : Z) : Parameters -> Z * Parameters :=
  update BYTE INTEL_CONTROL_IRIS_MODE [u8 irisMode].
Definition getIrisMode : Parameters -> Z * option Z :=
  one BYTE INTEL_CONTROL_IRIS_MODE.
Definition setIrisLevel (level : Z) : Parameters -> Z * Parameters :=
  update INT32 INTEL_CONTROL_IRIS_LEVEL [level].
Definition getIrisLevel : Parameters -> Z * option Z :=
  one INT32 INTEL_CONTROL_IRIS_LEVEL.
Definition setWdrMode (wdrMode : Z) : Parameters -> Z * Parameters :=
  update BYTE INTEL_CONTROL_WDR_MODE [u8 wdrMode].
Definition getWdrMode : Parameters -> Z * option Z :=
  one BYTE INTEL_CONTROL_WDR_MODE.
Definition setWdrLevel (level : Z) : Parameters -> Z * Parameters :=
  update BYTE INTEL_CONTROL_WDR_LEVEL [level].
Definition getWdrLevel : Parameters -> Z * option Z :=
  one BYTE INTEL_CONTROL_WDR_LEVEL.
Definition setEffectSceneMode (sceneMode : Z) : Parameters -> Z * Parameters :=
  update BYTE INTEL_CONTROL_SCENE_MODE [u8 sceneMode].
Definition getEffectSceneMode : Parameters -> Z * option Z :=
  one BYTE INTEL_CONTROL_SCENE_MODE.
Definition setSceneMode (sceneMode : Z) : Parameters -> Z * Parameters :=
  update BYTE INTEL_CONTROL_SCENE_MODE [u8 sceneMode].
Definition getSceneMode : Parameters -> Z * option Z :=
  one BYTE INTEL_CONTROL_SCENE_MODE.
Definition setWeightGridMode (weightGridMode : Z) : Parameters -> Z * Parameters :=
  update BYTE INTEL_CONTROL_WEIGHT_GRID_MODE [u8 weightGridMode].
Definition getWeightGridMode : Parameters -> Z * option Z :=
  one BYTE INTEL_CONTROL_WEIGHT_GRID_MODE.
Definition setBlcAreaMode (blcAreaMode : Z) : Parameters -> Z * Parameters :=
  update BYTE INTEL_CONTROL_BLC_AREA_MODE [u8 blcAreaMode].
Definition getBlcAreaMode : Parameters -> Z * option Z :=
  one BYTE INTEL_CONTROL_BLC_AREA_MODE.
Definition setFpsRange (fpsRange : camera_range_t) : Parameters -> Z * Parameters :=
  update FLOAT CAMERA_AE_TARGET_FPS_RANGE [range_min fpsRange; range_max fpsRange].
Definition getFpsRange : Parameters -> Z * option camera_range_t :=
  several CAMERA_AE_TARGET_FPS_RANGE 2 (fun e => Range (element FLOAT e 0) (element FLOAT e 1)).
Definition setImageEnhancement (effects : camera_image_enhancement_t) : Parameters -> Z * Parameters :=
  update INT32 INTEL_CONTROL_IMAGE_ENHANCEMENT [sharpness effects; brightness effects; contrast effects; hue effects; saturation effects].
Definition getImageEnhancement : Parameters -> Z * option camera_image_enhancement_t :=
  several INTEL_CONTROL_IMAGE_ENHANCEMENT 5 (fun e => Enhancement (element INT32 e 0) (element INT32 e 1) (element INT32 e 2) (element INT32 e 3) (element INT32 e 4)).
Definition setDeinterlaceMode (deinterlaceMode : Z) : Parameters -> Z * Parameters :=
  update BYTE INTEL_CONTROL_DEINTERLACE_MODE [u8 deinterlaceMode].
Definition getDeinterlaceMode : Parameters -> Z * option Z :=
  one BYTE INTEL_CONTROL_DEINTERLACE_MODE.
Definition getSupportedVideoStabilizationMode : Parameters -> Z * list Z :=
  list_of CAMERA_CONTROL_AVAILABLE_VIDEO_STABILIZATION_MODES id.
Definition getSupportedAeMode : Parameters -> Z * list Z :=
  list_of CAMERA_AE_AVAILABLE_MODES id.
Definition getSupportedAwbMode : Parameters -> Z * list Z :=
  list_of CAMERA_AWB_AVAILABLE_MODES id.
Definition getSupportedAfMode : Parameters -> Z * list Z :=
  list_of CAMERA_AF_AVAILABLE_MODES id.
Definition getSupportedSceneMode : Parameters -> Z * list Z :=
  list_of CAMERA_CONTROL_AVAILABLE_SCENE_MODES id.
Definition getSupportedAntibandingMode : Parameters -> Z * list Z :=
  list_of CAMERA_AE_AVAILABLE_ANTIBANDING_MODES id.
Definition getSupportedFpsRange (p : Parameters) : Z * list camera_range_t :=
  let entry := getMetadataEntry p CAMERA_AE_AVAILABLE_TARGET_FPS_RANGES in
  if (d_count entry =? 0) || negb (d_count entry mod 2 =? 0) then (NAME_NOT_FOUND, [])
  else (OK, groups 2 (fun i => Range (element FLOAT entry i) (element FLOAT entry (i + 1))) entry).
Definition getSupportedFeatures : Parameters -> Z * list Z :=
  list_of INTEL_INFO_AVAILABLE_FEATURES id.
(** The two halves of the first rational. *)
Definition getAeCompensationStep : Parameters -> Z * option camera_rational_t :=
  several CAMERA_AE_COMPENSATION_STEP 1 (fun e => Rational (element INT32 e 0) (element INT32 e 1)).
Definition getAeLockAvailable (p : Parameters) : bool :=
  let entry := getMetadataEntry p CAMERA_AE_LOCK_AVAILABLE in
  if negb (d_count entry =? 1) then false else element BYTE entry 0 =? 1.
Definition getAwbLockAvailable (p : Parameters) : bool :=
  let entry := getMetadataEntry p CAMERA_AWB_LOCK_AVAILABLE in
  if negb (d_count entry =? 1) then false else element BYTE entry 0 =? 1.
Definition setSensitivityGainRange (sensitivityGainRange : camera_range_t) : Parameters -> Z * Parameters :=
  update FLOAT INTEL_CONTROL_SENSITIVITY_GAIN_RANGE [range_min sensitivityGainRange; range_max sensitivityGainRange].
Definition getSensitivityGainRange : Parameters -> Z * option camera_range_t :=
  several INTEL_CONTROL_SENSITIVITY_GAIN_RANGE 2 (fun e => Range (element FLOAT e 0) (element FLOAT e 1)).
Definition setAeConvergeSpeed (speed : Z) : Parameters -> Z * Parameters :=
  update BYTE INTEL_CONTROL_AE_CONVERGE_SPEED [u8 speed].
Definition getAeConvergeSpeed : Parameters -> Z * option Z :=
  one BYTE INTEL_CONTROL_AE_CONVERGE_SPEED.
Definition setAwbConvergeSpeed (speed : Z) : Parameters -> Z * Parameters :=
  update BYTE CAMERA_AWB_CONVERGE_SPEED [u8 speed].
Definition getAwbConvergeSpeed : Parameters -> Z * option Z :=
  one BYTE CAMERA_AWB_CONVERGE_SPEED.
Definition setAeConvergeSpeedMode (mode : Z) : Parameters -> Z * Parameters :=
  update BYTE INTEL_CONTROL_AE_CONVERGE_SPEED_MODE [u8 mode].
Definition getAeConvergeSpeedMode : Parameters -> Z * option Z :=
  one BYTE INTEL_CONTROL_AE_CONVERGE_SPEED_MODE.
Definition setAwbConvergeSpeedMode (mode : Z) : Parameters -> Z * Parameters :=
  update BYTE CAMERA_AWB_CONVERGE_SPEED_MODE [u8 mode].
Definition getAwbConvergeSpeedMode : Parameters -> Z * option Z :=
  one BYTE CAMERA_AWB_CONVERGE_SPEED_MODE.
(** [size] bytes at [data], none for a null pointer. *)
Definition setMakernoteData (data : option (list Z)) (p : Parameters) : Z * Parameters :=
  match data with
  | None => (BAD_VALUE, p)
  | Some data =>
      if Z.of_nat (List.length data) =? 0 then (BAD_VALUE, p) else update BYTE INTEL_CONTROL_MAKERNOTE_DATA data p
  end.
(** What is copied to a buffer of [size] bytes, and what [*size] becomes. *)
Definition getMakernoteData (size : Z) (p : Parameters) : Z * option (list Z * Z) :=
  let entry := getMetadataEntry p INTEL_CONTROL_MAKERNOTE_DATA in
  if 0 <? d_count entry
  then (OK, Some (map (element BYTE entry) (range 0 (Z.min size (d_count entry))), d_count entry))
  else (NAME_NOT_FOUND, None).
(** [size] bytes at [data], none for a null pointer. *)
Definition setCustomAicParam (data : option (list Z)) (p : Parameters) : Z * Parameters :=
  match data with
  | None => (BAD_VALUE, p)
  | Some data =>
      update BYTE INTEL_CONTROL_CUSTOM_AIC_PARAM data p
  end.
(** What is copied to a buffer of [length] bytes, and what [*length] becomes. *)
Definition getCustomAicParam (length : Z) (p : Parameters) : Z * option (list Z * Z) :=
  let entry := getMetadataEntry p INTEL_CONTROL_CUSTOM_AIC_PARAM in
  if 0 <? d_count entry
  then (OK, Some (map (element BYTE entry) (range 0 (Z.min length (d_count entry))), d_count entry))
  else (NAME_NOT_FOUND, None).
Definition setMakernoteMode (mode : Z) : Parameters -> Z * Parameters :=
  update BYTE INTEL_CONTROL_MAKERNOTE_MODE [u8 mode].
Definition getMakernoteMode : Parameters -> Z * option Z :=
  one BYTE INTEL_CONTROL_MAKERNOTE_MODE.
Definition setDigitalZoomRatio (ratio : Z) : Parameters -> Z * Parameters :=
  update FLOAT INTEL_CONTROL_DIGITAL_ZOOM_RATIO [ratio].
Definition getDigitalZoomRatio : Parameters -> Z * option Z :=
  one FLOAT INTEL_CONTROL_DIGITAL_ZOOM_RATIO.
Definition setLdcMode (mode : Z) : Parameters -> Z * Parameters :=
  update BYTE INTEL_CONTROL_LDC_MODE [u8 mode].
Definition getLdcMode : Parameters -> Z * option Z :=
  one BYTE INTEL_CONTROL_LDC_MODE.
Definition setRscMode (mode : Z) : Parameters -> Z * Parameters :=
  update BYTE INTEL_CONTROL_RSC_MODE [u8 mode].
Definition getRscMode : Parameters -> Z * option Z :=
  one BYTE INTEL_CONTROL_RSC_MODE.
Definition setFlipMode (mode : Z) : Parameters -> Z * Parameters :=
  update BYTE INTEL_CONTROL_FLIP_MODE [u8 mode].
Definition getFlipMode : Parameters -> Z * option Z :=
  one BYTE INTEL_CONTROL_FLIP_MODE.
Definition setMonoDsMode (mode : Z) : Parameters -> Z * Parameters :=
  update BYTE INTEL_CONTROL_MONO_DOWNSCALE [u8 mode].
Definition getMonoDsMode : Parameters -> Z * option Z :=
  one BYTE INTEL_CONTROL_MONO_DOWNSCALE.
Definition setRun3ACadence (cadence : Z) : Parameters -> Z * Parameters :=
  update INT32 INTEL_CONTROL_RUN3_A_CADENCE [cadence].
Definition getRun3ACadence : Parameters -> Z * option Z :=
  one INT32 INTEL_CONTROL_RUN3_A_CADENCE.
Definition setFisheyeDewarpingMode (mode : Z) : Parameters -> Z * Parameters :=
  update BYTE INTEL_CONTROL_FISHEYE_DEWARPING_MODE [u8 mode].
Definition getFisheyeDewarpingMode : Parameters -> Z * option Z :=
  one BYTE INTEL_CONTROL_FISHEYE_DEWARPING_MODE.
Definition setAeDistributionPriority (priority : Z) : Parameters -> Z * Parameters :=
  update BYTE INTEL_CONTROL_AE_DISTRIBUTION_PRIORITY [u8 priority].
Definition getAeDistributionPriority : Parameters -> Z * option Z :=
  one BYTE INTEL_CONTROL_AE_DISTRIBUTION_PRIORITY.
Definition setYuvColorRangeMode (colorRange : Z) : Parameters -> Z * Parameters :=
  update BYTE INTEL_CONTROL_YUV_COLOR_RANGE [u8 colorRange].
Definition getYuvColorRangeMode : Parameters -> Z * option Z :=
  one BYTE INTEL_CONTROL_YUV_COLOR_RANGE.
Definition setJpegQuality (quality : Z) : Parameters -> Z * Parameters :=
  update BYTE CAMERA_JPEG_QUALITY [quality].
Definition getJpegQuality : Parameters -> Z * option Z :=
  one BYTE CAMERA_JPEG_QUALITY.
Definition setJpegThumbnailQuality (quality : Z) : Parameters -> Z * Parameters :=
  update BYTE CAMERA_JPEG_THUMBNAIL_QUALITY [quality].
Definition getJpegThumbnailQuality : Parameters -> Z * option Z :=
  one BYTE CAMERA_JPEG_THUMBNAIL_QUALITY.
Definition setJpegThumbnailSize (res : camera_resolution_t) : Parameters -> Z * Parameters :=
  update INT32 CAMERA_JPEG_THUMBNAIL_SIZE [width res; height res].
Definition getJpegThumbnailSize : Parameters -> Z * option camera_resolution_t :=
  several CAMERA_JPEG_THUMBNAIL_SIZE 2 (fun e => Resolution (element INT32 e 0) (element INT32 e 1)).
Definition setJpegRotation (rotation : Z) : Parameters -> Z * Parameters :=
  update INT32 CAMERA_JPEG_ORIENTATION [rotation].
Definition getJpegRotation : Parameters -> Z * option Z :=
  one INT32 CAMERA_JPEG_ORIENTATION.
(** Latitude, longitude and altitude. *)
Definition setJpegGpsCoordinates (coordinates : list Z) : Parameters -> Z * Parameters :=
  update DOUBLE CAMERA_JPEG_GPS_COORDINATES [coordinates !!! 0%nat; coordinates !!! 1%nat; coordinates !!! 2%nat].
Definition getJpegGpsLatitude : Parameters -> Z * option Z :=
  several CAMERA_JPEG_GPS_COORDINATES 3 (fun e => element DOUBLE e 0).
Definition getJpegGpsLongitude : Parameters -> Z * option Z :=
  several CAMERA_JPEG_GPS_COORDINATES 3 (fun e => element DOUBLE e 1).
Definition getJpegGpsAltitude : Parameters -> Z * option Z :=
  several CAMERA_JPEG_GPS_COORDINATES 3 (fun e => element DOUBLE e 2).
Definition setJpegGpsTimeStamp (timestamp : Z) : Parameters -> Z * Parameters :=
  update INT64 CAMERA_JPEG_GPS_TIMESTAMP [timestamp].
Definition getJpegGpsTimeStamp : Parameters -> Z * option Z :=
  one INT32 CAMERA_JPEG_GPS_TIMESTAMP.
Definition setJpegGpsProcessingMethod (processMethod : Z) : Parameters -> Z * Parameters :=
  update INT32 CAMERA_JPEG_GPS_PROCESSING_METHOD [processMethod].
Definition getJpegGpsProcessingMethod : Parameters -> Z * option Z :=
  one BYTE CAMERA_JPEG_GPS_PROCESSING_METHOD.
(** The overload for strings; [processMethod] has its final zero. *)
Definition setJpegGpsProcessingMethod_string (processMethod : list Z) : Parameters -> Z * Parameters :=
  update BYTE CAMERA_JPEG_GPS_PROCESSING_METHOD processMethod.
Definition getJpegGpsProcessingMethod_string (size : Z) (p : Parameters) : Z * option (list Z) :=
  let entry := getMetadataEntry p CAMERA_JPEG_GPS_PROCESSING_METHOD in
  if d_count entry =? 0 then (NAME_NOT_FOUND, None)
  else (OK, Some (map (element BYTE entry) (range 0 (Z.min size (d_count entry))))).
Definition setImageEffect (effect : Z) : Parameters -> Z * Parameters :=
  update BYTE CAMERA_CONTROL_EFFECT_MODE [u8 effect].
Definition getImageEffect : Parameters -> Z * option Z :=
  one BYTE CAMERA_CONTROL_EFFECT_MODE.
Definition setVideoStabilizationMode (mode : Z) : Parameters -> Z * Parameters :=
  update BYTE CAMERA_CONTROL_VIDEO_STABILIZATION_MODE [u8 mode].
Definition getVideoStabilizationMode : Parameters -> Z * option Z :=
  one BYTE CAMERA_CONTROL_VIDEO_STABILIZATION_MODE.
Definition getFocalLength : Parameters -> Z * option Z :=
  one FLOAT CAMERA_LENS_FOCAL_LENGTH.
Definition setFocalLength (focal : Z) : Parameters -> Z * Parameters :=
  update FLOAT CAMERA_LENS_FOCAL_LENGTH [focal].
Definition getAperture : Parameters -> Z * option Z :=
  one FLOAT CAMERA_LENS_APERTURE.
Definition setAperture (aperture : Z) : Parameters -> Z * Parameters :=
  update FLOAT CAMERA_LENS_APERTURE [aperture].
Definition getFocusDistance : Parameters -> Z * option Z :=
  one FLOAT CAMERA_LENS_FOCUS_DISTANCE.
Definition setFocusDistance (distance : Z) : Parameters -> Z * Parameters :=
  update FLOAT CAMERA_LENS_FOCUS_DISTANCE [distance].
Definition setFocusRange (focusRange : camera_range_t) : Parameters -> Z * Parameters :=
  update FLOAT CAMERA_LENS_FOCUS_RANGE [range_min focusRange; range_max focusRange].
Definition getFocusRange : Parameters -> Z * option camera_range_t :=
  several CAMERA_LENS_FOCUS_RANGE 2 (fun e => Range (element FLOAT e 0) (element FLOAT e 1)).
Definition setAfMode (afMode : Z) : Parameters -> Z * Parameters :=
  update BYTE CAMERA_AF_MODE [u8 afMode].
Definition getAfMode : Parameters -> Z * option Z :=
  one BYTE CAMERA_AF_MODE.
Definition setAfTrigger (afTrigger : Z) : Parameters -> Z * Parameters :=
  update BYTE CAMERA_AF_TRIGGER [u8 afTrigger].
Definition getAfTrigger : Parameters -> Z * option Z :=
  one BYTE CAMERA_AF_TRIGGER.
Definition setAfRegions (afRegions : list camera_window_t) (p : Parameters) : Z * Parameters :=
  setRegions p afRegions CAMERA_AF_REGIONS.
Definition getAfRegions (p : Parameters) : Z * list camera_window_t :=
  getRegions (getMetadataEntry p CAMERA_AF_REGIONS).
Definition setAfState (afState : Z) : Parameters -> Z * Parameters :=
  update BYTE CAMERA_AF_STATE [u8 afState].
Definition getAfState : Parameters -> Z * option Z :=
  one BYTE CAMERA_AF_STATE.
Definition setLensState (lensMoving : bool) : Parameters -> Z * Parameters :=
  update BYTE CAMERA_LENS_STATE [of_flag lensMoving].
Definition getLensState : Parameters -> Z * option bool :=
  several CAMERA_LENS_STATE 1 (fun e => 0 <? element BYTE e 0).
Definition getLensAperture : Parameters -> Z * option Z :=
  one FLOAT CAMERA_LENS_INFO_AVAILABLE_APERTURES.
Definition getLensFilterDensity : Parameters -> Z * option Z :=
  one FLOAT CAMERA_LENS_INFO_AVAILABLE_FILTER_DENSITIES.
Definition getLensMinFocusDistance : Parameters -> Z * option Z :=
  one FLOAT CAMERA_LENS_INFO_MINIMUM_FOCUS_DISTANCE.
Definition getLensHyperfocalDistance : Parameters -> Z * option Z :=
  one FLOAT CAMERA_LENS_INFO_HYPERFOCAL_DISTANCE.
Definition getSensorMountType : Parameters -> Z * option Z :=
  one BYTE INTEL_INFO_SENSOR_MOUNT_TYPE.
Definition setTestPatternMode (mode : Z) : Parameters -> Z * Parameters :=
  update INT32 CAMERA_SENSOR_TEST_PATTERN_MODE [mode].
Definition getTestPatternMode : Parameters -> Z * option Z :=
  one INT32 CAMERA_SENSOR_TEST_PATTERN_MODE.
Definition setCropRegion (cropRegion : camera_crop_region_t) : Parameters -> Z * Parameters :=
  update INT32 CAMERA_SCALER_CROP_REGION [flag cropRegion; crop_x cropRegion; crop_y cropRegion].
(** Any number of values will do. *)
Definition getCropRegion (p : Parameters) : Z * option camera_crop_region_t :=
  let entry := getMetadataEntry p CAMERA_SCALER_CROP_REGION in
  if d_count entry =? 0 then (NAME_NOT_FOUND, None)
  else (OK, Some (CropRegion (element INT32 entry 0) (element INT32 entry 1) (element INT32 entry 2))).
Definition setControlSceneMode (sceneModeValue : Z) : Parameters -> Z * Parameters :=
  update BYTE CAMERA_CONTROL_SCENE_MODE [sceneModeValue].
Definition setFaceDetectMode (faceDetectMode : Z) : Parameters -> Z * Parameters :=
  update BYTE CAMERA_STATISTICS_FACE_DETECT_MODE [faceDetectMode].
Definition getFaceDetectMode : Parameters -> Z * option Z :=
  one BYTE CAMERA_STATISTICS_FACE_DETECT_MODE.
Definition setFaceIds (faceIds : list Z) : Parameters -> Z * Parameters :=
  update INT32 CAMERA_STATISTICS_FACE_IDS faceIds.
(** Left and top, then width and height. *)
Definition getSensorActiveArraySize (p : Parameters) : Z * option camera_coordinate_system_t :=
  let entry := getMetadataEntry p CAMERA_SENSOR_INFO_ACTIVE_ARRAY_SIZE in
  if d_count entry =? 0 then (NAME_NOT_FOUND, None)
  else
    let left := element INT32 entry 0 in
    let top := element INT32 entry 1 in
    (OK, Some (System left top (left + element INT32 entry 2) (top + element INT32 entry 3))).
Definition setShadingMode (shadingMode : Z) : Parameters -> Z * Parameters :=
  update BYTE CAMERA_SHADING_MODE [u8 shadingMode].
Definition getShadingMode : Parameters -> Z * option Z :=
  one BYTE CAMERA_SHADING_MODE.
Definition setLensShadingMapMode (lensShadingMapMode : Z) : Parameters -> Z * Parameters :=
  update BYTE CAMERA_STATISTICS_LENS_SHADING_MAP_MODE [u8 lensShadingMapMode].
Definition getLensShadingMapMode : Parameters -> Z * option Z :=
  one BYTE CAMERA_STATISTICS_LENS_SHADING_MAP_MODE.
Definition setLensShadingMap (lensShadingMap : list Z) : Parameters -> Z * Parameters :=
  update FLOAT CAMERA_STATISTICS_LENS_SHADING_MAP lensShadingMap.
(** The values behind the pointer that is handed out. *)
Definition getLensShadingMap (p : Parameters) : Z * option (list Z) :=
  let entry := getMetadataEntry p CAMERA_STATISTICS_LENS_SHADING_MAP in
  if d_count entry =? 0 then (NAME_NOT_FOUND, None)
  else (OK, Some (map (element FLOAT entry) (range 0 (d_count entry)))).
Definition getLensInfoShadingMapSize (p : Parameters) : Z * option camera_coordinate_t :=
  let entry := getMetadataEntry p CAMERA_LENS_INFO_SHADING_MAP_SIZE in
  if d_count entry =? 0 then (NAME_NOT_FOUND, None)
  else (OK, Some (Coordinate (element INT32 entry 0) (element INT32 entry 1))).
Definition setTonemapMode (mode : Z) : Parameters -> Z * Parameters :=
  update BYTE CAMERA_TONEMAP_MODE [u8 mode].
Definition getTonemapMode : Parameters -> Z * option Z :=
  one BYTE CAMERA_TONEMAP_MODE.
(** Appends to the caller's list. *)
Definition getSupportedTonemapMode (tonemapModes : list Z) (p : Parameters) : Z * list Z :=
  (OK, tonemapModes ++ snd (list_of CAMERA_TONEMAP_AVAILABLE_TONE_MAP_MODES id p)).
Definition setTonemapPresetCurve (type : Z) : Parameters -> Z * Parameters :=
  update BYTE CAMERA_TONEMAP_PRESET_CURVE [u8 type].
Definition getTonemapPresetCurve : Parameters -> Z * option Z :=
  one BYTE CAMERA_TONEMAP_PRESET_CURVE.
Definition setTonemapGamma (gamma : Z) : Parameters -> Z * Parameters :=
  update FLOAT CAMERA_TONEMAP_GAMMA [gamma].
Definition getTonemapGamma : Parameters -> Z * option Z :=
  one FLOAT CAMERA_TONEMAP_GAMMA.
Definition getTonemapMaxCurvePoints : Parameters -> Z * option Z :=
  one INT32 CAMERA_TONEMAP_MAX_CURVE_POINTS.
(** The statuses are joined bit by bit. *)
Definition setTonemapCurves (curves : camera_tonemap_curves_t) (p : Parameters) : Z * Parameters :=
  let '(ret, p) := update FLOAT CAMERA_TONEMAP_CURVE_RED (rCurve curves) p in
  let '(ret_b, p) := update FLOAT CAMERA_TONEMAP_CURVE_BLUE (bCurve curves) p in
  let '(ret_g, p) := update FLOAT CAMERA_TONEMAP_CURVE_GREEN (gCurve curves) p in
  (Z.lor (Z.lor ret ret_b) ret_g, p).
Definition getTonemapCurves (p : Parameters) : Z * camera_tonemap_curves_t :=
  let curve tag :=
    let entry := getMetadataEntry p tag in
    if 0 <? d_count entry then map (element FLOAT entry) (range 0 (d_count entry)) else [] in
  let curves :=
    Curves (curve CAMERA_TONEMAP_CURVE_RED) (curve CAMERA_TONEMAP_CURVE_BLUE) (curve CAMERA_TONEMAP_CURVE_GREEN) in
  (match rCurve curves, bCurve curves, gCurve curves with
   | _ :: _, _ :: _, _ :: _ => OK
   | _, _, _ => NAME_NOT_FOUND
   end, curves).
Definition setRawDataOutput (mode : Z) : Parameters -> Z * Parameters :=
  update BYTE INTEL_VENDOR_CAMERA_RAW_DATA_OUTPUT [u8 mode].
Definition getRawDataOutput : Parameters -> Z * option Z :=
  one BYTE INTEL_VENDOR_CAMERA_RAW_DATA_OUTPUT.
Definition setPowerMode (mode : Z) : Parameters -> Z * Parameters :=
  update BYTE INTEL_VENDOR_CAMERA_POWER_MODE [u8 mode].
Definition getPowerMode : Parameters -> Z * option Z :=
  one BYTE INTEL_VENDOR_CAMERA_POWER_MODE.
Definition setHdrRatio (hdrRatio : Z) : Parameters -> Z * Parameters :=
  update FLOAT INTEL_VENDOR_CAMERA_HDR_RATIO [hdrRatio].
Definition getHdrRatio : Parameters -> Z * option Z :=
  one FLOAT INTEL_VENDOR_CAMERA_HDR_RATIO.
Definition setTotalExposureTarget (totalExposureTarget : Z) : Parameters -> Z * Parameters :=
  update INT64 INTEL_VENDOR_CAMERA_TOTAL_EXPOSURE_TARGET [totalExposureTarget].
Definition getTotalExposureTarget : Parameters -> Z * option Z :=
  one INT64 INTEL_VENDOR_CAMERA_TOTAL_EXPOSURE_TARGET.
Definition setUserRequestId (userRequestId : Z) : Parameters -> Z * Parameters :=
  update INT32 CAMERA_REQUEST_ID [userRequestId].
Definition getUserRequestId : Parameters -> Z * option Z :=
  one INT32 CAMERA_REQUEST_ID.
Definition setCaptureIntent (captureIntent : Z) : Parameters -> Z * Parameters :=
  update BYTE CAMERA_CONTROL_CAPTUREINTENT [captureIntent].
Definition getCaptureIntent : Parameters -> Z * option Z :=
  one BYTE CAMERA_CONTROL_CAPTUREINTENT.
Definition setCallbackRgbs (enabled : bool) : Parameters -> Z * Parameters :=
  update BYTE INTEL_VENDOR_CAMERA_CALLBACK_RGBS [of_flag enabled].
Definition getCallbackRgbs : Parameters -> Z * option bool :=
  several INTEL_VENDOR_CAMERA_CALLBACK_RGBS 1 (fun e => flag_of (element BYTE e 0)).
Definition setCallbackTmCurve (enabled : bool) : Parameters -> Z * Parameters :=
  update BYTE INTEL_VENDOR_CAMERA_CALLBACK_TM_CURVE [of_flag enabled].
Definition getCallbackTmCurve : Parameters -> Z * option bool :=
  several INTEL_VENDOR_CAMERA_CALLBACK_TM_CURVE 1 (fun e => flag_of (element BYTE e 0)).
Definition setZoomRegion (region : camera_zoom_region_t) : Parameters -> Z * Parameters :=
  update INT32 INTEL_CONTROL_SCALER_CROP_REGION [z_left region; z_top region; z_right region; z_bottom region].
Definition getZoomRegion : Parameters -> Z * option camera_zoom_region_t :=
  several INTEL_CONTROL_SCALER_CROP_REGION 4 (fun e => ZoomRegion (element INT32 e 0) (element INT32 e 1) (element INT32 e 2) (element INT32 e 3)).
Definition setICBMUFMode (mode : Z) : Parameters -> Z * Parameters :=
  update BYTE INTEL_VENDOR_CAMERA_IC_UF_MODE [mode].
Definition getICBMUFMode : Parameters -> Z * option Z :=
  one BYTE INTEL_VENDOR_CAMERA_IC_UF_MODE.
Definition setICBMBBMode (mode : Z) : Parameters -> Z * Parameters :=
  update BYTE INTEL_VENDOR_CAMERA_IC_BC_MODE [mode].
Definition getICBMBBMode : Parameters -> Z * option Z :=
  one BYTE INTEL_VENDOR_CAMERA_IC_BC_MODE.
