(* ===== verification/ParameterLaws.v ===== *)
(** * Camera parameters: laws

    What holds of every pair of a setter and a getter: the type of the C++
    argument is the type the tables give the tag, so that storing succeeds;
    what was stored is read back; and pairs with different tags do not
    interfere. *)

From Stdlib Require Import Ascii String.
From S2P Require Import Prelude Memory Errors MetadataTables MetadataTags MetadataBuffer MetadataPacket MetadataMemory MetadataAdd MetadataEdit MetadataFind MetadataSteps CameraMetadata CameraMetadataHeap CameraMetadataMap Parameters.
From stdpp Require Import list gmap.
#[local] Open Scope Z_scope.

(** ** Values in memory *)

Lemma of_bytes_le n v : of_bytes (le_bytes n v) = v mod 256 ^ Z.of_nat n.
Proof.
  revert v. induction n as [| n IH]; intros v; cbn [le_bytes of_bytes]; [symmetry; apply Z.mod_1_r |].
  rewrite IH, Z.mod_mod by lia. rewrite Nat2Z.inj_succ, Z.pow_succ_r by lia.
  rewrite Z.rem_mul_r by lia. reflexivity.
Qed.

Lemma length_le n v : length (le_bytes n v) = n.
Proof. revert v. induction n as [| n IH]; intros v; cbn; [reflexivity | rewrite IH; reflexivity]. Qed.

Lemma flat_map_le_nth n vs i v :
  vs !! i = Some v -> take n (drop (n * i) (flat_map (le_bytes n) vs)) = le_bytes n v.
Proof.
  revert i. induction vs as [| w vs IH]; intros [| i] H; [discriminate | discriminate | |].
  - injection H as ->. cbn [flat_map]. rewrite Nat.mul_0_r, drop_0.
    rewrite take_app_le by (rewrite length_le; reflexivity). apply take_ge. rewrite length_le. reflexivity.
  - cbn [flat_map]. replace (n * S i)%nat with (length (le_bytes n w) + n * i)%nat by (rewrite length_le; lia).
    rewrite <- drop_drop, drop_app_length. apply IH, H.
Qed.

(** Values that the type of a tag can hold. *)
Definition in_range (type v : Z) : Prop :=
  let w := 8 * type_size type in
  if (type =? INT32) || (type =? INT64) then - 2 ^ (w - 1) <= v < 2 ^ (w - 1) else 0 <= v < 2 ^ w.

Lemma type_cases type :
  is_type type -> type = 0 \/ type = 1 \/ type = 2 \/ type = 3 \/ type = 4 \/ type = 5.
Proof. unfold is_type, ICAMERA_NUM_TYPES. lia. Qed.

Lemma conv_in_range type v : is_type type -> in_range type v -> conv type v = v.
Proof.
  intros T. unfold in_range, conv. destruct ((type =? _) || (type =? _)) eqn:E; cbn [orb].
  - intros H. apply signed_small; [pose proof (type_size_range type T); lia | exact H].
  - intros H. apply Z.mod_small, H.
Qed.

Lemma conv_mod type v : is_type type -> conv type (v mod 2 ^ (8 * type_size type)) = conv type v.
Proof.
  intros T. unfold conv. destruct (_ || _); [apply signed_mod |]. apply Z.mod_mod.
  pose proof (type_size_range type T). lia.
Qed.

Lemma element_stored type tag count values i v :
  is_type type -> 0 <= i -> values !! Z.to_nat i = Some v ->
  element type (Datum tag type count (stored type values)) i = conv type v.
Proof.
  intros T Hi H. unfold element, stored. cbn [d_values]. rewrite (flat_map_le_nth _ _ _ v H), of_bytes_le.
  pose proof (type_size_range type T). rewrite Z2Nat.id by lia.
  change 256 with (2 ^ 8). rewrite <- Z.pow_mul_r by lia. apply conv_mod, T.
Qed.

(** ** Storing *)

Lemma update_bytes_ok type tag count values p :
  get_icamera_metadata_tag_type tag = type ->
  update_bytes type tag count values p
  = (OK, Some (<[tag := Datum tag type count values]> (default ∅ p))).
Proof.
  intros E. unfold update_bytes, spec_update. cbn [snd]. rewrite E, Z.eqb_refl. cbn [negb]. reflexivity.
Qed.

Lemma typed_update_ok type tag values p :
  get_icamera_metadata_tag_type tag = type ->
  update type tag values p
  = (OK, Some (<[tag := Datum tag type (Z.of_nat (List.length values)) (stored type values)]> (default ∅ p))).
Proof. apply update_bytes_ok. Qed.

Lemma update_refused type tag values p :
  get_icamera_metadata_tag_type tag <> type -> update type tag values p = (INVALID_OPERATION, p).
Proof.
  intros E. unfold update, update_bytes, spec_update. cbn [snd].
  rewrite (proj2 (Z.eqb_neq _ _) E). reflexivity.
Qed.

Lemma getMetadataEntry_insert tag t d p :
  getMetadataEntry (Some (<[tag := d]> (default ∅ p))) t = if t =? tag then d else getMetadataEntry p t.
Proof.
  unfold getMetadataEntry. change (default ∅ (Some ?m)) with m. destruct (Z.eqb_spec t tag) as [-> | Hne].
  - rewrite lookup_insert_eq. reflexivity.
  - rewrite lookup_insert_ne by congruence. reflexivity.
Qed.

(** ** Pairs of a setter and a getter *)

Record accessor := Accessor {
  carrier : Type;
  fits : carrier -> Prop;
  tag_of : Z;
  setter : carrier -> Parameters -> Z * Parameters;
  getter : Parameters -> Z * option carrier;
}.

Record lawful (a : accessor) : Prop := {
  law_set v p : fits a v -> fst (setter a v p) = OK;
  law_get v p : fits a v -> getter a (snd (setter a v p)) = (OK, Some v);
  law_frame v p t : fits a v -> t <> tag_of a ->
    getMetadataEntry (snd (setter a v p)) t = getMetadataEntry p t;
  law_local p q : getMetadataEntry p (tag_of a) = getMetadataEntry q (tag_of a) -> getter a p = getter a q;
  law_absent p : default ∅ p !! tag_of a = None -> getter a p = (NAME_NOT_FOUND, None);
}.

(** A fixed number of values of one type. *)
Lemma lawful_several {A} type tag n (enc : A -> list Z) (make : datum -> A) (ok : A -> Prop) :
  get_icamera_metadata_tag_type tag = type -> is_type type -> 0 < n ->
  (forall v, ok v -> Z.of_nat (List.length (enc v)) = n) ->
  (forall v e, ok v -> (forall i w, 0 <= i -> enc v !! Z.to_nat i = Some w -> element type e i = conv type w) -> make e = v) ->
  lawful (Accessor A ok tag (fun v => update type tag (enc v)) (several tag n make)).
Proof.
  intros E T Hn Hl Hm. split; cbn [setter getter fits tag_of].
  - intros v p _. rewrite typed_update_ok by exact E. reflexivity.
  - intros v p Hv. rewrite typed_update_ok by exact E. unfold several. cbn [snd].
    rewrite getMetadataEntry_insert, Z.eqb_refl. cbn [d_count]. rewrite (Hl v Hv), Z.eqb_refl. cbn [negb].
    do 2 f_equal. apply Hm; [exact Hv |]. intros i w Hi Hw. apply element_stored; assumption.
  - intros v p t _ Hne. rewrite typed_update_ok by exact E. cbn [snd].
    rewrite getMetadataEntry_insert. rewrite (proj2 (Z.eqb_neq _ _) Hne). reflexivity.
  - intros p q H. unfold several. rewrite H. reflexivity.
  - intros p H. unfold several, getMetadataEntry. rewrite H. cbn [from_option d_count].
    rewrite (proj2 (Z.eqb_neq 0 n)) by lia. reflexivity.
Qed.

(** One value. *)
Lemma lawful_one type tag :
  get_icamera_metadata_tag_type tag = type -> is_type type ->
  lawful (Accessor Z (in_range type) tag (fun v => update type tag [v]) (one type tag)).
Proof.
  intros E T. apply (lawful_several type tag 1 (fun v => [v])); [exact E | exact T | lia | reflexivity |].
  intros v e Hv H. rewrite (H 0 v) by (lia || reflexivity). apply conv_in_range; assumption.
Qed.

(** An enumeration, stored as [uint8_t]. *)
Lemma lawful_enum tag :
  get_icamera_metadata_tag_type tag = BYTE ->
  lawful (Accessor Z (in_range BYTE) tag (fun v => update BYTE tag [u8 v]) (one BYTE tag)).
Proof.
  intros E. apply (lawful_several BYTE tag 1 (fun v => [u8 v])); [exact E | vm_compute; split; [discriminate | reflexivity] | lia | reflexivity |].
  intros v e Hv H. rewrite (H 0 (u8 v)) by (lia || reflexivity).
  unfold u8. change 8 with (8 * type_size BYTE). rewrite conv_mod by (vm_compute; split; [discriminate | reflexivity]).
  apply conv_in_range; [vm_compute; split; [discriminate | reflexivity] | exact Hv].
Qed.

(** A flag. *)
Lemma lawful_flag tag (make : Z -> bool) :
  get_icamera_metadata_tag_type tag = BYTE -> make 0 = false -> make 1 = true ->
  lawful (Accessor bool (fun _ => True) tag (fun v => update BYTE tag [of_flag v])
            (several tag 1 (fun e => make (element BYTE e 0)))).
Proof.
  intros E H0 H1. apply (lawful_several BYTE tag 1 (fun v => [of_flag v])); [exact E | vm_compute; split; [discriminate | reflexivity] | lia | reflexivity |].
  intros v e _ H. rewrite (H 0 (of_flag v)) by (lia || reflexivity). destruct v; assumption.
Qed.

(** An array that is passed and read as a whole. *)
Lemma lawful_array type tag n :
  get_icamera_metadata_tag_type tag = type -> is_type type -> 0 < n ->
  lawful (Accessor (list Z) (fun l => Z.of_nat (List.length l) = n /\ Forall (in_range type) l) tag
            (update type tag) (several tag n (fun e => map (element type e) (range 0 n)))).
Proof.
  intros E T Hn. apply (lawful_several type tag n id); [exact E | exact T | exact Hn | intros v [H _]; exact H |].
  intros v e [Hl Hr] H. apply list_eq. intros i. change (map ?f ?l) with (f <$> l). rewrite list_lookup_fmap.
  destruct (v !! i) as [w |] eqn:Ew.
  - pose proof (lookup_lt_Some _ _ _ Ew) as Hi. unfold range. rewrite lookup_seqZ_lt by lia. cbn [fmap option_fmap option_map].
    f_equal. rewrite (H (0 + Z.of_nat i) w); [| lia | unfold id; rewrite Z.add_0_l, Nat2Z.id; exact Ew].
    apply conv_in_range; [exact T |]. rewrite Forall_forall in Hr. apply Hr, list_elem_of_lookup_2 with i, Ew.
  - apply lookup_ge_None in Ew. unfold range. rewrite lookup_seqZ_ge by lia. reflexivity.
Qed.
(** ** All pairs *)

Abbreviation Value type := (Accessor Z (in_range type)).
Abbreviation Flag := (Accessor bool (fun _ => True)).

Definition array_of (type n : Z) (l : list Z) : Prop :=
  Z.of_nat (List.length l) = n /\ Forall (in_range type) l.

(** A getter that fills a list of the caller. *)
Definition answered {A} (r : Z * list A) : Z * option (list A) :=
  (fst r, if fst r =? OK then Some (snd r) else None).

Definition window_in_range (w : camera_window_t) : Prop :=
  Forall (in_range INT32) [w_left w; w_top w; w_right w; w_bottom w; weight w].

Definition some_regions (l : list camera_window_t) : Prop := l <> [] /\ Forall window_in_range l.

Definition some_values (type : Z) (l : list Z) : Prop := l <> [] /\ Forall (in_range type) l.

(** Single values. *)
Definition value_accessors : list accessor := [
  Value BYTE CAMERA_AE_MODE setAeMode getAeMode;
  Value BYTE CAMERA_AE_STATE setAeState getAeState;
  Flag CAMERA_AE_LOCK setAeLock getAeLock;
  Value INT64 CAMERA_SENSOR_EXPOSURE_TIME setExposureTime getExposureTime;
  Value FLOAT INTEL_CONTROL_SENSITIVITY_GAIN setSensitivityGain getSensitivityGain;
  Value INT32 CAMERA_SENSOR_SENSITIVITY setSensitivityIso getSensitivityIso;
  Value INT32 CAMERA_AE_COMPENSATION setAeCompensation getAeCompensation;
  Value FLOAT INTEL_CONTROL_FRAME_RATE setFrameRate getFrameRate;
  Value BYTE CAMERA_AE_ANTIBANDING_MODE setAntiBandingMode getAntiBandingMode;
  Value BYTE CAMERA_AWB_MODE setAwbMode getAwbMode;
  Value BYTE CAMERA_AWB_STATE setAwbState getAwbState;
  Flag CAMERA_AWB_LOCK setAwbLock getAwbLock;
  Value BYTE CAMERA_EDGE_MODE setEdgeMode getEdgeMode;
  Value BYTE INTEL_CONTROL_NR_MODE setNrMode getNrMode;
  Value BYTE INTEL_CONTROL_IRIS_MODE setIrisMode getIrisMode;
  Value INT32 INTEL_CONTROL_IRIS_LEVEL setIrisLevel getIrisLevel;
  Value BYTE INTEL_CONTROL_WDR_MODE setWdrMode getWdrMode;
  Value BYTE INTEL_CONTROL_WDR_LEVEL setWdrLevel getWdrLevel;
  Value BYTE INTEL_CONTROL_SCENE_MODE setEffectSceneMode getEffectSceneMode;
  Value BYTE INTEL_CONTROL_SCENE_MODE setSceneMode getSceneMode;
  Value BYTE INTEL_CONTROL_WEIGHT_GRID_MODE setWeightGridMode getWeightGridMode;
  Value BYTE INTEL_CONTROL_BLC_AREA_MODE setBlcAreaMode getBlcAreaMode;
  Value BYTE INTEL_CONTROL_DEINTERLACE_MODE setDeinterlaceMode getDeinterlaceMode;
  Value BYTE INTEL_CONTROL_AE_CONVERGE_SPEED setAeConvergeSpeed getAeConvergeSpeed;
  Value BYTE CAMERA_AWB_CONVERGE_SPEED setAwbConvergeSpeed getAwbConvergeSpeed;
  Value BYTE INTEL_CONTROL_AE_CONVERGE_SPEED_MODE setAeConvergeSpeedMode getAeConvergeSpeedMode;
  Value BYTE CAMERA_AWB_CONVERGE_SPEED_MODE setAwbConvergeSpeedMode getAwbConvergeSpeedMode;
  Value BYTE INTEL_CONTROL_MAKERNOTE_MODE setMakernoteMode getMakernoteMode;
  Value FLOAT INTEL_CONTROL_DIGITAL_ZOOM_RATIO setDigitalZoomRatio getDigitalZoomRatio;
  Value BYTE INTEL_CONTROL_LDC_MODE setLdcMode getLdcMode;
  Value BYTE INTEL_CONTROL_RSC_MODE setRscMode getRscMode;
  Value BYTE INTEL_CONTROL_FLIP_MODE setFlipMode getFlipMode;
  Value BYTE INTEL_CONTROL_MONO_DOWNSCALE setMonoDsMode getMonoDsMode;
  Value INT32 INTEL_CONTROL_RUN3_A_CADENCE setRun3ACadence getRun3ACadence;
  Value BYTE INTEL_CONTROL_FISHEYE_DEWARPING_MODE setFisheyeDewarpingMode getFisheyeDewarpingMode;
  Value BYTE INTEL_CONTROL_AE_DISTRIBUTION_PRIORITY setAeDistributionPriority getAeDistributionPriority;
  Value BYTE INTEL_CONTROL_YUV_COLOR_RANGE setYuvColorRangeMode getYuvColorRangeMode;
  Value BYTE CAMERA_JPEG_QUALITY setJpegQuality getJpegQuality;
  Value BYTE CAMERA_JPEG_THUMBNAIL_QUALITY setJpegThumbnailQuality getJpegThumbnailQuality;
  Value INT32 CAMERA_JPEG_ORIENTATION setJpegRotation getJpegRotation;
  Value BYTE CAMERA_CONTROL_EFFECT_MODE setImageEffect getImageEffect;
  Value BYTE CAMERA_CONTROL_VIDEO_STABILIZATION_MODE setVideoStabilizationMode getVideoStabilizationMode;
  Value FLOAT CAMERA_LENS_FOCAL_LENGTH setFocalLength getFocalLength;
  Value FLOAT CAMERA_LENS_APERTURE setAperture getAperture;
  Value FLOAT CAMERA_LENS_FOCUS_DISTANCE setFocusDistance getFocusDistance;
  Value BYTE CAMERA_AF_MODE setAfMode getAfMode;
  Value BYTE CAMERA_AF_TRIGGER setAfTrigger getAfTrigger;
  Value BYTE CAMERA_AF_STATE setAfState getAfState;
  Value BYTE CAMERA_STATISTICS_FACE_DETECT_MODE setFaceDetectMode getFaceDetectMode;
  Value BYTE CAMERA_SHADING_MODE setShadingMode getShadingMode;
  Value BYTE CAMERA_STATISTICS_LENS_SHADING_MAP_MODE setLensShadingMapMode getLensShadingMapMode;
  Value BYTE CAMERA_TONEMAP_MODE setTonemapMode getTonemapMode;
  Value BYTE CAMERA_TONEMAP_PRESET_CURVE setTonemapPresetCurve getTonemapPresetCurve;
  Value FLOAT CAMERA_TONEMAP_GAMMA setTonemapGamma getTonemapGamma;
  Value BYTE INTEL_VENDOR_CAMERA_RAW_DATA_OUTPUT setRawDataOutput getRawDataOutput;
  Value BYTE INTEL_VENDOR_CAMERA_POWER_MODE setPowerMode getPowerMode;
  Value FLOAT INTEL_VENDOR_CAMERA_HDR_RATIO setHdrRatio getHdrRatio;
  Value INT64 INTEL_VENDOR_CAMERA_TOTAL_EXPOSURE_TARGET setTotalExposureTarget getTotalExposureTarget;
  Value INT32 CAMERA_REQUEST_ID setUserRequestId getUserRequestId;
  Value BYTE CAMERA_CONTROL_CAPTUREINTENT setCaptureIntent getCaptureIntent;
  Flag INTEL_VENDOR_CAMERA_CALLBACK_RGBS setCallbackRgbs getCallbackRgbs;
  Flag INTEL_VENDOR_CAMERA_CALLBACK_TM_CURVE setCallbackTmCurve getCallbackTmCurve;
  Value BYTE INTEL_VENDOR_CAMERA_IC_UF_MODE setICBMUFMode getICBMUFMode;
  Value BYTE INTEL_VENDOR_CAMERA_IC_BC_MODE setICBMBBMode getICBMBBMode;
  Flag CAMERA_LENS_STATE setLensState getLensState;
  Value INT32 CAMERA_SENSOR_TEST_PATTERN_MODE setTestPatternMode getTestPatternMode].

(** Structs. *)
Definition struct_accessors : list accessor := [
  Accessor camera_awb_gains_t (fun v => Forall (in_range INT32) [r_gain v; g_gain v; b_gain v])
    CAMERA_AWB_GAINS setAwbGains getAwbGains;
  Accessor camera_awb_gains_t (fun v => Forall (in_range INT32) [r_gain v; g_gain v; b_gain v])
    CAMERA_AWB_GAIN_SHIFT setAwbGainShift getAwbGainShift;
  Accessor camera_coordinate_t (fun v => Forall (in_range INT32) [coord_x v; coord_y v])
    CAMERA_AWB_WHITE_POINT setAwbWhitePoint getAwbWhitePoint;
  Accessor camera_nr_level_t (fun v => Forall (in_range INT32) [overall v; spatial v; temporal v])
    INTEL_CONTROL_NR_LEVEL setNrLevel getNrLevel;
  Accessor camera_range_t (fun v => Forall (in_range FLOAT) [range_min v; range_max v])
    CAMERA_AE_TARGET_FPS_RANGE setFpsRange getFpsRange;
  Accessor camera_range_t (fun v => Forall (in_range FLOAT) [range_min v; range_max v])
    INTEL_CONTROL_SENSITIVITY_GAIN_RANGE setSensitivityGainRange getSensitivityGainRange;
  Accessor camera_range_t (fun v => Forall (in_range FLOAT) [range_min v; range_max v])
    CAMERA_LENS_FOCUS_RANGE setFocusRange getFocusRange;
  Accessor camera_image_enhancement_t (fun v => Forall (in_range INT32) [sharpness v; brightness v; contrast v; hue v; saturation v])
    INTEL_CONTROL_IMAGE_ENHANCEMENT setImageEnhancement getImageEnhancement;
  Accessor camera_resolution_t (fun v => Forall (in_range INT32) [width v; height v])
    CAMERA_JPEG_THUMBNAIL_SIZE setJpegThumbnailSize getJpegThumbnailSize;
  Accessor camera_zoom_region_t (fun v => Forall (in_range INT32) [z_left v; z_top v; z_right v; z_bottom v])
    INTEL_CONTROL_SCALER_CROP_REGION setZoomRegion getZoomRegion].

(** Arrays. *)
Definition array_accessors : list accessor := [
  Accessor (list Z) (array_of FLOAT 9) CAMERA_AWB_COLOR_TRANSFORM setColorTransform getColorTransform;
  Accessor (list Z) (array_of FLOAT 4) CAMERA_AWB_COLOR_GAINS setColorGains getColorGains;
  Accessor (list Z) (array_of BYTE 8) CAMERA_AWB_RESULT (fun v => setAwbResult (Some v)) getAwbResult].

(** Lists of any length but zero. *)
Definition list_accessors : list accessor := [
  Accessor (list camera_window_t) some_regions CAMERA_AE_REGIONS
    setAeRegions (fun p => answered (getAeRegions p));
  Accessor (list camera_window_t) some_regions CAMERA_AWB_REGIONS
    setAwbRegions (fun p => answered (getAwbRegions p));
  Accessor (list camera_window_t) some_regions CAMERA_AF_REGIONS
    setAfRegions (fun p => answered (getAfRegions p));
  Accessor (list Z) (some_values FLOAT) CAMERA_STATISTICS_LENS_SHADING_MAP
    setLensShadingMap getLensShadingMap].

(** ** Their laws *)

Lemma is_type_BYTE : is_type BYTE. Proof. vm_compute. split; [discriminate | reflexivity]. Qed.
Lemma is_type_INT32 : is_type INT32. Proof. vm_compute. split; [discriminate | reflexivity]. Qed.
Lemma is_type_FLOAT : is_type FLOAT. Proof. vm_compute. split; [discriminate | reflexivity]. Qed.
Lemma is_type_INT64 : is_type INT64. Proof. vm_compute. split; [discriminate | reflexivity]. Qed.

Create HintDb tags.
#[export] Hint Resolve is_type_BYTE is_type_INT32 is_type_FLOAT is_type_INT64 : tags.

(** [t] for each element of a list. *)
Tactic Notation "each" tactic(t) := repeat (apply Forall_cons_2; [t |]); apply Forall_nil_2.

Lemma value_accessors_lawful : Forall lawful value_accessors.
Proof.
  each (first [ apply lawful_enum; reflexivity
              | apply lawful_one; [reflexivity | auto with tags]
              | apply (lawful_flag _ flag_of); reflexivity
              | apply (lawful_flag _ (fun v => 0 <? v)); reflexivity ]).
Qed.

(** Reading a struct member by member. *)
Ltac read_members H :=
  repeat match goal with
         | |- context [element _ _ ?i] => erewrite (H i) by (lia || reflexivity)
         end.

Lemma struct_accessors_lawful : Forall lawful struct_accessors.
Proof.
  each ((eapply lawful_several; [reflexivity | auto with tags | reflexivity | reflexivity |]);
    intros v e F H; read_members H; repeat (apply Forall_cons_1 in F as [? F]);
    rewrite !conv_in_range by (assumption || auto with tags); destruct v; reflexivity).
Qed.

Lemma array_accessors_lawful : Forall lawful array_accessors.
Proof.
  each (apply lawful_array; [reflexivity | auto with tags | reflexivity]).
Qed.

Lemma flat_map_lookup {A B} (f : A -> list B) n l i j a :
  (forall a, List.length (f a) = n) -> l !! i = Some a -> (j < n)%nat -> flat_map f l !! (i * n + j)%nat = f a !! j.
Proof.
  intros Hf. revert i. induction l as [| b l IH]; intros [| i] H Hj; [discriminate | discriminate | |]; cbn [flat_map].
  - injection H as ->. apply lookup_app_l. rewrite Hf. exact Hj.
  - rewrite lookup_app_r by (rewrite Hf; lia). rewrite Hf. replace (S i * n + j - n)%nat with (i * n + j)%nat by lia.
    apply IH; assumption.
Qed.

Lemma length_flat_map_const {A B} (f : A -> list B) n l :
  (forall a, List.length (f a) = n) -> List.length (flat_map f l) = (List.length l * n)%nat.
Proof. intros Hf. induction l as [| a l IH]; cbn; [reflexivity |]. rewrite length_app, Hf, IH. reflexivity. Qed.

Lemma lawful_list {A} type tag n (enc : A -> list Z) (make : datum -> Z -> A) (ok : list A -> Prop)
    (set : list A -> Parameters -> Z * Parameters) (get : Parameters -> Z * option (list A)) :
  get_icamera_metadata_tag_type tag = type -> is_type type -> (0 < n)%nat ->
  (forall a, List.length (enc a) = n) -> (forall l, ok l -> l <> []) ->
  (forall l p, ok l -> set l p = update type tag (flat_map enc l) p) ->
  (forall l e a i, ok l -> l !! i = Some a ->
    (forall j w, (j < n)%nat -> enc a !! j = Some w -> element type e (Z.of_nat (i * n + j)) = conv type w) ->
    make e (Z.of_nat (i * n)) = a) ->
  (forall p, get p = if (d_count (getMetadataEntry p tag) =? 0) || negb (d_count (getMetadataEntry p tag) mod Z.of_nat n =? 0)
                     then (NAME_NOT_FOUND, None)
                     else (OK, Some (groups (Z.of_nat n) (make (getMetadataEntry p tag)) (getMetadataEntry p tag)))) ->
  lawful (Accessor (list A) ok tag set get).
Proof.
  intros E T Hn Hl Hne Hs Hm Hg. split; cbn [setter getter fits tag_of].
  - intros l p Hv. rewrite Hs, typed_update_ok by assumption. reflexivity.
  - intros l p Hv. rewrite Hs, typed_update_ok, Hg by assumption. cbn [snd].
    rewrite getMetadataEntry_insert, Z.eqb_refl. cbn [d_count]. rewrite (length_flat_map_const enc n) by exact Hl.
    rewrite Nat2Z.inj_mul, Z.mod_mul by lia. destruct (Z.eqb_spec (Z.of_nat (List.length l) * Z.of_nat n) 0) as [E0 | E0].
    { destruct l; [destruct (Hne [] Hv); reflexivity | cbn [List.length] in E0; nia]. }
    cbn [Z.eqb negb orb]. do 2 f_equal. unfold groups. cbn [d_count]. rewrite Z.div_mul by lia.
    apply list_eq. intros i. change (map ?f ?l) with (f <$> l). rewrite list_lookup_fmap. unfold range.
    destruct (l !! i) as [a |] eqn:Ei.
    + pose proof (lookup_lt_Some _ _ _ Ei) as Hi. rewrite lookup_seqZ_lt by lia. cbn [fmap option_fmap option_map].
      etrans; [| symmetry; exact Ei]. f_equal. rewrite Z.add_0_l, <- (Nat2Z.inj_mul i n). eapply Hm; [exact Hv | exact Ei |].
      intros j w Hj Hw. apply element_stored; [exact T | lia |]. rewrite Nat2Z.id.
      rewrite (flat_map_lookup enc n l i j a) by assumption. exact Hw.
    + etrans; [| symmetry; exact Ei]. apply lookup_ge_None in Ei. rewrite lookup_seqZ_ge by lia. reflexivity.
  - intros l p t Hv Ht. rewrite Hs, typed_update_ok by assumption. cbn [snd].
    rewrite getMetadataEntry_insert. rewrite (proj2 (Z.eqb_neq _ _) Ht). reflexivity.
  - intros p q H. rewrite !Hg, H. reflexivity.
  - intros p H. rewrite Hg. unfold getMetadataEntry. rewrite H. reflexivity.
Qed.

Lemma regions_lawful tag r (set : list camera_window_t -> Parameters -> Z * Parameters) :
  get_icamera_metadata_tag_type tag = INT32 -> (forall l p, set l p = setRegions p l tag) ->
  (forall p, r p = getRegions (getMetadataEntry p tag)) ->
  lawful (Accessor (list camera_window_t) some_regions tag set (fun p => answered (r p))).
Proof.
  intros E Hs Hr.
  apply (lawful_list INT32 tag 5 (fun w => [w_left w; w_top w; w_right w; w_bottom w; weight w])
           (fun e i => Window (element INT32 e i) (element INT32 e (i + 1)) (element INT32 e (i + 2))
                         (element INT32 e (i + 3)) (element INT32 e (i + 4))));
    [exact E | auto with tags | lia | reflexivity | intros l [H _]; exact H | | |].
  - intros [| w l] p [H _]; [destruct H; reflexivity |]. rewrite Hs. reflexivity.
  - intros l e w i [_ F] Hw H. rewrite Forall_forall in F. specialize (F w (list_elem_of_lookup_2 _ _ _ Hw)).
    assert (forall j v, (j < 5)%nat -> [w_left w; w_top w; w_right w; w_bottom w; weight w] !! j = Some v ->
                        element INT32 e (Z.of_nat (i * 5) + Z.of_nat j) = v) as R.
    { intros j v Hj Hv. rewrite <- Nat2Z.inj_add, (H j v Hj Hv). apply conv_in_range; [auto with tags |].
      unfold window_in_range in F. rewrite Forall_forall in F. apply F, (list_elem_of_lookup_2 _ _ _ Hv). }
    pose proof (R 0%nat _ ltac:(lia) eq_refl) as R0. rewrite Z.add_0_r in R0.
    pose proof (R 1%nat _ ltac:(lia) eq_refl) as R1. pose proof (R 2%nat _ ltac:(lia) eq_refl) as R2.
    pose proof (R 3%nat _ ltac:(lia) eq_refl) as R3. pose proof (R 4%nat _ ltac:(lia) eq_refl) as R4.
    change (Z.of_nat 1) with 1 in R1. change (Z.of_nat 2) with 2 in R2.
    change (Z.of_nat 3) with 3 in R3. change (Z.of_nat 4) with 4 in R4. rewrite R0, R1, R2, R3, R4. destruct w; reflexivity.
  - intros p. rewrite Hr. unfold getRegions, answered. change (Z.of_nat 5) with 5.
    destruct (_ || _); reflexivity.
Qed.

Lemma list_accessors_lawful : Forall lawful list_accessors.
Proof.
  repeat (apply Forall_cons_2; [apply regions_lawful; reflexivity |]). apply Forall_cons_2; [| apply Forall_nil_2].
  apply (lawful_list FLOAT CAMERA_STATISTICS_LENS_SHADING_MAP 1 (fun v => [v]) (element FLOAT));
    [reflexivity | auto with tags | lia | reflexivity | intros l [H _]; exact H | | |].
  - intros l p _. unfold setLensShadingMap. f_equal. induction l as [| v l IH]; cbn; congruence.
  - intros l e v i [_ F] Hv H. rewrite Nat.mul_1_r. specialize (H 0%nat v ltac:(lia) eq_refl).
    rewrite Nat.mul_1_r, Nat.add_0_r in H. rewrite H. apply conv_in_range; [auto with tags |].
    rewrite Forall_forall in F. apply F, (list_elem_of_lookup_2 _ _ _ Hv).
  - intros p. unfold getLensShadingMap. set (e := getMetadataEntry p _). change (Z.of_nat 1) with 1.
    rewrite Z.mod_1_r. cbn [Z.eqb negb]. rewrite orb_false_r. unfold groups. rewrite Z.div_1_r.
    destruct (d_count e =? 0); [reflexivity |].
    do 2 f_equal. apply map_ext. intros i. rewrite Z.mul_1_r. reflexivity.
Qed.

Definition accessors : list accessor :=
  value_accessors ++ struct_accessors ++ array_accessors ++ list_accessors.

Lemma accessors_lawful a : In a accessors -> lawful a.
Proof.
  intros H. apply list_elem_of_In in H. revert a H. apply Forall_forall. unfold accessors.
  rewrite !Forall_app. split; [apply value_accessors_lawful |]. split; [apply struct_accessors_lawful |].
  split; [apply array_accessors_lawful | apply list_accessors_lawful].
Qed.

(** ** Several tags, and merging *)

Lemma update_entry type tag values p t :
  get_icamera_metadata_tag_type tag = type ->
  getMetadataEntry (snd (update type tag values p)) t
  = if t =? tag then Datum tag type (Z.of_nat (List.length values)) (stored type values)
    else getMetadataEntry p t.
Proof. intros E. rewrite typed_update_ok by exact E. apply getMetadataEntry_insert. Qed.

Lemma read_back type tag (l : list Z) :
  is_type type -> Forall (in_range type) l ->
  map (element type (Datum tag type (Z.of_nat (List.length l)) (stored type l)))
    (range 0 (Z.of_nat (List.length l))) = l.
Proof.
  intros T F. apply list_eq. intros i. change (map ?f ?l) with (f <$> l). rewrite list_lookup_fmap. unfold range.
  destruct (l !! i) as [v |] eqn:Ev.
  - pose proof (lookup_lt_Some _ _ _ Ev). rewrite lookup_seqZ_lt by lia. cbn [fmap option_fmap option_map].
    f_equal. rewrite (element_stored type tag _ l _ v); [| exact T | lia | rewrite Z.add_0_l, Nat2Z.id; exact Ev].
    apply conv_in_range; [exact T |]. rewrite Forall_forall in F. apply F, (list_elem_of_lookup_2 _ _ _ Ev).
  - apply lookup_ge_None in Ev. rewrite lookup_seqZ_ge by lia. reflexivity.
Qed.

(** The three curves are stored and read as one setting. *)
Lemma tonemap_curves_round_trip curves p :
  some_values FLOAT (rCurve curves) -> some_values FLOAT (bCurve curves) -> some_values FLOAT (gCurve curves) ->
  let '(r, p') := setTonemapCurves curves p in r = OK /\ getTonemapCurves p' = (OK, curves).
Proof.
  intros [R0 R] [B0 B] [G0 G]. unfold setTonemapCurves.
  rewrite (typed_update_ok FLOAT CAMERA_TONEMAP_CURVE_RED) by reflexivity.
  rewrite (typed_update_ok FLOAT CAMERA_TONEMAP_CURVE_BLUE) by reflexivity.
  rewrite (typed_update_ok FLOAT CAMERA_TONEMAP_CURVE_GREEN) by reflexivity. split; [reflexivity |].
  unfold getTonemapCurves. rewrite !getMetadataEntry_insert.
  change (CAMERA_TONEMAP_CURVE_RED =? CAMERA_TONEMAP_CURVE_GREEN) with false.
  change (CAMERA_TONEMAP_CURVE_RED =? CAMERA_TONEMAP_CURVE_BLUE) with false.
  change (CAMERA_TONEMAP_CURVE_BLUE =? CAMERA_TONEMAP_CURVE_GREEN) with false. rewrite !Z.eqb_refl.
  cbn [d_count]. rewrite !read_back by (assumption || auto with tags).
  destruct curves as [[| r rs] [| b bs] [| g gs]]; cbn [rCurve bCurve gCurve] in *; try congruence. reflexivity.
Qed.

(** Every datum is under its tag, with the type of the tag. *)
Definition typed (p : Parameters) : Prop :=
  forall t d, default ∅ p !! t = Some d ->
    d_tag d = t /\ d_type d = get_icamera_metadata_tag_type t /\ d_type d < ICAMERA_NUM_TYPES.

Lemma mergeTag_ok t d p :
  d_tag d = t -> d_type d = get_icamera_metadata_tag_type t -> d_type d < ICAMERA_NUM_TYPES ->
  default ∅ (mergeTag d p) = <[t := d]> (default ∅ p).
Proof.
  intros <- E H. unfold mergeTag. rewrite (proj2 (Z.ltb_lt _ _) H), update_bytes_ok by congruence.
  destruct d. reflexivity.
Qed.

Lemma merge_entries l (p : Parameters) :
  (forall t d, (t, d) ∈ l -> d_tag d = t /\ d_type d = get_icamera_metadata_tag_type t /\ d_type d < ICAMERA_NUM_TYPES) ->
  NoDup (map fst l) ->
  default ∅ (foldl (fun dst entry => mergeTag entry dst) p (map snd l)) = list_to_map l ∪ default ∅ p.
Proof.
  revert p. induction l as [| [t d] l IH]; intros p H N; cbn [map foldl fst snd list_to_map foldr].
  - rewrite map_empty_union. reflexivity.
  - cbn [map fst] in N. apply NoDup_cons in N as [Hn N]. destruct (H t d ltac:(set_solver)) as (H1 & H2 & H3).
    rewrite IH; [| intros t' d' Hin; apply H; set_solver | exact N]. rewrite (mergeTag_ok t d p H1 H2 H3).
    rewrite <- insert_union_r, insert_union_l; [reflexivity |].
    apply not_elem_of_list_to_map_1. exact Hn.
Qed.

Lemma merge_ok src dst :
  typed src -> default ∅ (Parameters.merge src dst) = default ∅ src ∪ default ∅ dst.
Proof.
  intros T. unfold Parameters.merge. rewrite merge_entries.
  - rewrite list_to_map_to_list. reflexivity.
  - intros t d H. apply elem_of_map_to_list in H. apply T, H.
  - apply NoDup_fst_map_to_list.
Qed.

Lemma merge_entry src dst t :
  typed src ->
  getMetadataEntry (Parameters.merge src dst) t
  = match default ∅ src !! t with Some d => d | None => getMetadataEntry dst t end.
Proof.
  intros T. unfold getMetadataEntry. rewrite (merge_ok src dst T), lookup_union.
  destruct (default ∅ src !! t), (default ∅ dst !! t); reflexivity.
Qed.

Lemma update_typed type tag values p : is_type type -> typed p -> typed (snd (update type tag values p)).
Proof.
  intros Hty T t d. destruct (decide (get_icamera_metadata_tag_type tag = type)) as [E | E].
  2: { rewrite update_refused by exact E. apply T. }
  rewrite typed_update_ok by exact E. cbn [snd from_option]. change (id ?m) with m. rewrite lookup_insert_Some.
  intros [[<- <-] | [_ H]]; [| apply T, H]. cbn [d_tag d_type]. split; [reflexivity |]. split; [congruence | apply Hty].
Qed.

(** ** Theorems *)

(** C22: settings are kept, as long as there is memory for them.  Each of the setters below stores every value of
    its type, the getter of the same name reads exactly it back, no getter of
    another tag sees a difference, and a getter says so when its value was
    never set; and merging overlays the settings of one object on those of
    another. *)
Theorem settings_round_trip a v p :
  In a accessors -> fits a v ->
  let '(r, p') := setter a v p in
  r = OK /\ getter a p' = (OK, Some v)
  /\ (forall b, In b accessors -> tag_of b <> tag_of a -> getter b p' = getter b p)
  /\ (forall b, In b accessors -> default ∅ p !! tag_of b = None -> getter b p = (NAME_NOT_FOUND, None))
  /\ (forall b src, In b accessors -> typed src ->
       getter b (Parameters.merge src p)
       = match default ∅ src !! tag_of b with Some _ => getter b src | None => getter b p end).
Proof.
  intros Ha Hv. pose proof (accessors_lawful a Ha) as L.
  destruct (setter a v p) as [r p'] eqn:E.
  pose proof (law_set a L v p Hv) as H1. pose proof (law_get a L v p Hv) as H2.
  pose proof (fun t => law_frame a L v p t Hv) as H3. rewrite E in H1, H2, H3. cbn [fst snd] in *.
  split; [exact H1 |]. split; [exact H2 |]. split; [| split].
  - intros b Hb Hne. apply (law_local b (accessors_lawful b Hb)), H3, Hne.
  - intros b Hb. apply (law_absent b (accessors_lawful b Hb)).
  - intros b src Hb T. pose proof (merge_entry src p (tag_of b) T) as M.
    destruct (default ∅ src !! tag_of b) as [d |] eqn:Ed;
      apply (law_local b (accessors_lawful b Hb)); rewrite M; [| reflexivity].
    unfold getMetadataEntry. rewrite Ed. reflexivity.
Qed.

Lemma settings_round_trip_witness :
  getAwbGains (snd (setAwbGains (AwbGains 10 (-20) 30) None)) = (OK, Some (AwbGains 10 (-20) 30))
  /\ getAeMode (snd (setAwbGains (AwbGains 10 (-20) 30) None)) = (NAME_NOT_FOUND, None).
Proof.
  set (a := Accessor camera_awb_gains_t (fun v => Forall (in_range INT32) [r_gain v; g_gain v; b_gain v])
              CAMERA_AWB_GAINS setAwbGains getAwbGains).
  assert (In a accessors) as Ha by (do 66 right; left; reflexivity).
  assert (fits a (AwbGains 10 (-20) 30)) as Hf
    by (repeat constructor; vm_compute; first [discriminate | reflexivity]).
  assert (In (Value BYTE CAMERA_AE_MODE setAeMode getAeMode) accessors) as Hb by (left; reflexivity).
  pose proof (settings_round_trip a (AwbGains 10 (-20) 30) None Ha Hf) as (_ & H & F & N & _).
  split; [exact H |]. etrans; [exact (F _ Hb ltac:(vm_compute; discriminate)) | exact (N _ Hb eq_refl)].
Defined.

(** The one setter that never stores anything: it passes an [int] under a tag
    of bytes. *)
Lemma gps_processing_method_refused v p : setJpegGpsProcessingMethod v p = (INVALID_OPERATION, p).
Proof. apply update_refused. vm_compute. discriminate. Qed.

(** The timestamp is stored with 64 bits and read with 32. *)
Lemma gps_timestamp_truncated v p :
  getJpegGpsTimeStamp (snd (setJpegGpsTimeStamp v p)) = (OK, Some (signed 32 v)).
Proof.
  unfold getJpegGpsTimeStamp, one, several, setJpegGpsTimeStamp. rewrite update_entry by reflexivity.
  rewrite Z.eqb_refl. change (negb _) with false. cbn match. do 2 f_equal.
  change (signed 32 (of_bytes (le_bytes 4 v)) = signed 32 v). rewrite of_bytes_le. apply signed_mod.
Qed.
