(* ===== verification/ParameterGenerator.v ===== *)
(** * Settings of requests

    src/metadata/ParameterGenerator.cpp and .h: the settings that are in
    effect from a frame on.  The request thread takes a [RequestParam] from
    here for each request, fills it, and gives it back with the sequence of
    the frame where it takes effect; everything that works on a frame looks
    its settings up by sequence.  The objects are shared pointers: here
    references into a heap, so that two users of one object can be seen.  The
    part that adds 3A results to the settings is not modelled. *)

From S2P Require Import Prelude Errors OrderedMap MetadataTables MetadataPacket Parameters.
From stdpp Require Import list gmap relations.
#[local] Open Scope Z_scope.

(** ** State *)

Definition kStorageSize : Z := 40.

Record RequestParam := Request { requestId : Z; param : Parameters }.

(** [heap] holds what the shared pointers point to. *)
Record ParameterGenerator := Generator { mRequestParamMap : gmap Z Z; heap : gmap Z RequestParam }.

Implicit Types (g : ParameterGenerator) (r sequence : Z).

Definition set_map (m : gmap Z Z) g : ParameterGenerator := Generator m (heap g).
Definition store r (x : RequestParam) g : ParameterGenerator :=
  Generator (mRequestParamMap g) (<[r := x]> (heap g)).
Definition load r g : RequestParam := default (Request (-1) None) (heap g !! r).

(** [std::make_shared<RequestParam>()]. *)
Definition make_shared g : Z * ParameterGenerator :=
  let r := match rbegin (heap g) with Some k => k + 1 | None => 1 end in
  (r, store r (Request (-1) None) g).

(** ** Operations *)

Definition new_generator : ParameterGenerator := Generator ∅ ∅.

Definition reset g : Z * ParameterGenerator := (OK, set_map ∅ g).

Definition getRequestParamBuf g : Z * ParameterGenerator :=
  if Z.of_nat (size (mRequestParamMap g)) <? kStorageSize then make_shared g
  else
    match begin (mRequestParamMap g) with
    | Some it =>
        (default 0 (mRequestParamMap g !! it), set_map (delete it (mRequestParamMap g)) g)
    | None => make_shared g
    end.

Definition saveParameters sequence (id : Z) (requestParam : option Z) g : Z * ParameterGenerator :=
  if id <? 0 then (UNKNOWN_ERROR, g)
  else if sequence <? 0 then (UNKNOWN_ERROR, g)
  else
    match requestParam, rbegin (mRequestParamMap g) with
    | None, None => (BAD_VALUE, g)
    | None, Some last =>
        let p := param (load (default 0 (mRequestParamMap g !! last)) g) in
        let '(r, g) := make_shared g in
        let g := store r (Request id p) g in
        (OK, set_map (<[sequence := r]> (mRequestParamMap g)) g)
    | Some r, _ =>
        let g := store r (Request id (param (load r g))) g in
        (OK, set_map (<[sequence := r]> (mRequestParamMap g)) g)
    end.

(** [ret = param->get...(v); if (ret == OK) requestParam->param.set...(v);] *)
Definition copy_setting {A} (get : Parameters -> Z * option A) (set : A -> Parameters -> Z * Parameters)
    (src dst : Parameters) : Parameters :=
  match get src with
  | (ret, Some v) => if ret =? OK then snd (set v dst) else dst
  | (_, None) => dst
  end.

(** The three getters have one answer each. *)
Definition gps_coordinates (src : Parameters) : Z * option (list Z) :=
  match getJpegGpsLatitude src, getJpegGpsLongitude src, getJpegGpsAltitude src with
  | (0, Some latitude), (0, Some longitude), (0, Some altitude) => (OK, Some [latitude; longitude; altitude])
  | _, _, _ => (NAME_NOT_FOUND, None)
  end.

Definition reprocess (src dst : Parameters) : Parameters :=
  let dst := copy_setting getUserRequestId setUserRequestId src dst in
  let dst := copy_setting getJpegRotation setJpegRotation src dst in
  let dst := copy_setting getJpegQuality setJpegQuality src dst in
  let dst := copy_setting getJpegGpsTimeStamp setJpegGpsTimeStamp src dst in
  let dst := copy_setting gps_coordinates setJpegGpsCoordinates src dst in
  let dst := copy_setting getJpegThumbnailSize setJpegThumbnailSize src dst in
  let dst := copy_setting getJpegThumbnailQuality setJpegThumbnailQuality src dst in
  let dst := copy_setting getEdgeMode setEdgeMode src dst in
  let dst := copy_setting getNrMode setNrMode src dst in
  snd (setCallbackRgbs false dst).

(** None when the code dereferences [end()]. *)
Definition updateParameters sequence (src : option Parameters) g : option ParameterGenerator :=
  match src with
  | None => Some g
  | Some src =>
      let '(found, m) :=
        match mRequestParamMap g !! sequence with
        | Some r => (Some r, mRequestParamMap g)
        | None =>
            match begin (mRequestParamMap g) with
            | Some it => (mRequestParamMap g !! it, delete it (mRequestParamMap g))
            | None => (None, mRequestParamMap g)
            end
        end in
      match found with
      | None => None
      | Some r =>
          let x := load r g in
          Some (set_map (<[sequence := r]> m) (store r (Request (requestId x) (reprocess src (param x))) g))
      end
  end.

(** The [setting] part; none when the caller's object is left alone. *)
Definition getParameters sequence g : option Parameters :=
  let m := mRequestParamMap g in
  let value it := param (load (default 0 (m !! it)) g) in
  match rbegin m with
  | None => None
  | Some last =>
      if sequence <? 0 then Some (value last)
      else
        let it := upper_bound m sequence in
        if decide (it = begin m) then None
        else value <$> prev m it
  end.

(** [find(sequence)->second], with the check of the sequence. *)
Definition at_sequence {A} sequence (f : RequestParam -> Z * option A) g : Z * option A :=
  if sequence <? 0 then (UNKNOWN_ERROR, None)
  else
    match mRequestParamMap g !! sequence with
    | Some r => f (load r g)
    | None => (UNKNOWN_ERROR, None)
    end.

(** The caller's object after the call. *)
Definition getIspParameters sequence (dst : Parameters) g : Z * Parameters :=
  match at_sequence sequence (fun x => (OK, Some (param x))) g with
  | (ret, Some src) =>
      let dst := copy_setting getImageEnhancement setImageEnhancement src dst in
      let dst := copy_setting getEdgeMode setEdgeMode src dst in
      let dst := copy_setting getNrMode setNrMode src dst in
      let dst := copy_setting getNrLevel setNrLevel src dst in
      let dst := copy_setting getVideoStabilizationMode setVideoStabilizationMode src dst in
      (ret, copy_setting getHdrRatio setHdrRatio src dst)
  | (ret, None) => (ret, dst)
  end.

Definition gen_getZoomRegion sequence := at_sequence sequence (fun x => getZoomRegion (param x)).
Definition gen_getRawOutputMode sequence := at_sequence sequence (fun x => getRawDataOutput (param x)).
Definition gen_getUserRequestId sequence := at_sequence sequence (fun x => getUserRequestId (param x)).

(** The ID is the status; the caller's variable is left alone. *)
Definition gen_getRequestId sequence : ParameterGenerator -> Z * option Z :=
  at_sequence sequence (fun x => (requestId x, None)).

(** [RequestThread::copyRequestParams]. *)
Definition copyRequestParams (srcParams : option Parameters) g : option Z * ParameterGenerator :=
  match srcParams with
  | None => (None, g)
  | Some p =>
      let '(r, g) := getRequestParamBuf g in
      (Some r, store r (Request (requestId (load r g)) p) g)
  end.

(** ** Specification: settings as values

    What a client knows: the settings saved for each frame, and the settings
    in the objects it has taken and not yet given back, by handle. *)

Record settings := Settings { saved : gmap Z RequestParam; pending : gmap Z Parameters }.

(** Taken for a request; given back; a request without settings; dropped; a
    frame processed again; all forgotten. *)
Inductive event :=
| Taken r (p : Parameters)
| Saved sequence (id : Z) r
| Repeated sequence (id : Z)
| Dropped r
| Reprocessed sequence (p : Parameters)
| WasReset.

(** The oldest are reused. *)
Definition trim (m : gmap Z RequestParam) : gmap Z RequestParam :=
  if Z.of_nat (size m) <? kStorageSize then m
  else match begin m with Some k => delete k m | None => m end.

Definition valid_ids sequence (id : Z) : bool := (0 <=? id) && (0 <=? sequence).

Definition reprocess_entry sequence (p : Parameters) (m : gmap Z RequestParam)
    : option (gmap Z RequestParam) :=
  let again x := Request (requestId x) (reprocess p (param x)) in
  match m !! sequence with
  | Some x => Some (<[sequence := again x]> m)
  | None =>
      match begin m with
      | Some k => (fun x => <[sequence := again x]> (delete k m)) <$> m !! k
      | None => None
      end
  end.

(** None where a client must not go. *)
Definition effect (e : event) (s : settings) : option settings :=
  match e with
  | Taken r p =>
      if decide (is_Some (pending s !! r)) then None
      else Some (Settings (trim (saved s)) (<[r := p]> (pending s)))
  | Saved sequence id r =>
      (fun p => Settings (if valid_ids sequence id then <[sequence := Request id p]> (saved s) else saved s)
                  (delete r (pending s))) <$> pending s !! r
  | Repeated sequence id =>
      Some (Settings
        (match rbegin (saved s) with
         | Some last =>
             if valid_ids sequence id
             then <[sequence := Request id (param (default (Request (-1) None) (saved s !! last)))]> (saved s)
             else saved s
         | None => saved s
         end) (pending s))
  | Dropped r => Some (Settings (saved s) (delete r (pending s)))
  | Reprocessed sequence p => (fun m => Settings m (pending s)) <$> reprocess_entry sequence p (saved s)
  | WasReset => Some (Settings ∅ (pending s))
  end.

(** ** The implementation *)

(** The generator and the handles that are out. *)
Record client := Client { gen : ParameterGenerator; handles : gmap Z unit }.

Inductive step : client -> event -> client -> Prop :=
| step_taken g h r g' p :
    copyRequestParams (Some p) g = (Some r, g') -> step (Client g h) (Taken r p) (Client g' (<[r := tt]> h))
| step_saved g h sequence id r :
    is_Some (h !! r) ->
    step (Client g h) (Saved sequence id r) (Client (snd (saveParameters sequence id (Some r) g)) (delete r h))
| step_repeated g h sequence id :
    step (Client g h) (Repeated sequence id) (Client (snd (saveParameters sequence id None g)) h)
| step_dropped g h r : step (Client g h) (Dropped r) (Client g (delete r h))
| step_reprocessed g h sequence p g' :
    updateParameters sequence (Some p) g = Some g' ->
    step (Client g h) (Reprocessed sequence p) (Client g' h)
| step_reset g h : step (Client g h) WasReset (Client (snd (reset g)) h).

(** No object has two users. *)
Record unshared (c : client) : Prop := {
  one_frame s s' r :
    mRequestParamMap (gen c) !! s = Some r -> mRequestParamMap (gen c) !! s' = Some r -> s = s';
  not_out s r : mRequestParamMap (gen c) !! s = Some r -> handles c !! r = None;
  frame_live s r : mRequestParamMap (gen c) !! s = Some r -> is_Some (heap (gen c) !! r);
  handle_live r : is_Some (handles c !! r) -> is_Some (heap (gen c) !! r);
}.

Definition view g : gmap Z RequestParam := (fun r => load r g) <$> mRequestParamMap g.
Definition view_handles (h : gmap Z unit) g : gmap Z Parameters := map_imap (fun r _ => Some (param (load r g))) h.
Definition abstract (c : client) : settings := Settings (view (gen c)) (view_handles (handles c) (gen c)).

(** ** Loads, stores and views *)

Lemma load_store r r' x g : load r (store r' x g) = if r =? r' then x else load r g.
Proof.
  unfold load, store. cbn [heap]. destruct (Z.eqb_spec r r') as [-> | Hne].
  - rewrite lookup_insert_eq. reflexivity.
  - rewrite lookup_insert_ne by congruence. reflexivity.
Qed.

Lemma view_lookup s g : view g !! s = (fun r => load r g) <$> mRequestParamMap g !! s.
Proof. apply lookup_fmap. Qed.

Lemma view_handles_lookup r h g : view_handles h g !! r = (fun _ => param (load r g)) <$> h !! r.
Proof. unfold view_handles. rewrite map_lookup_imap. destruct (h !! r); reflexivity. Qed.

(** A store to an object that no frame has. *)
Lemma view_store_out r x g :
  (forall s, mRequestParamMap g !! s <> Some r) -> view (store r x g) = view g.
Proof.
  intros H. apply map_eq. intros s. rewrite !view_lookup. cbn [store mRequestParamMap].
  destruct (mRequestParamMap g !! s) as [r' |] eqn:E; [| reflexivity]. cbn [fmap option_fmap option_map].
  rewrite load_store. destruct (Z.eqb_spec r' r) as [-> |]; [destruct (H s E) | reflexivity].
Qed.

Lemma view_handles_store_out r x h g : h !! r = None -> view_handles h (store r x g) = view_handles h g.
Proof.
  intros H. apply map_eq. intros r'. rewrite !view_handles_lookup, load_store.
  destruct (Z.eqb_spec r' r) as [-> |]; [rewrite H |]; reflexivity.
Qed.

Lemma view_insert s r g m :
  view (set_map (<[s := r]> m) g) = <[s := load r g]> (view (set_map m g)).
Proof. unfold view. cbn [set_map mRequestParamMap]. rewrite fmap_insert. reflexivity. Qed.

Lemma view_delete s g : view (set_map (delete s (mRequestParamMap g)) g) = delete s (view g).
Proof. unfold view. cbn [set_map mRequestParamMap]. rewrite fmap_delete. reflexivity. Qed.

Lemma view_handles_insert r x h g :
  h !! r = None -> view_handles (<[r := tt]> h) (store r x g) = <[r := param x]> (view_handles h g).
Proof.
  intros H. apply map_eq. intros r'. rewrite view_handles_lookup, load_store, lookup_insert, lookup_insert.
  destruct (decide (r = r')) as [<- | Hne].
  - rewrite Z.eqb_refl. reflexivity.
  - rewrite (proj2 (Z.eqb_neq r' r)) by congruence. rewrite view_handles_lookup. reflexivity.
Qed.

Lemma view_handles_delete r h g : view_handles (delete r h) g = delete r (view_handles h g).
Proof.
  apply map_eq. intros r'. rewrite view_handles_lookup, !lookup_delete.
  destruct (decide (r = r')); [reflexivity | rewrite view_handles_lookup; reflexivity].
Qed.

(** Keys, first and last of a view are those of the map. *)
Lemma keys_view g k : is_Some (view g !! k) <-> is_Some (mRequestParamMap g !! k).
Proof. rewrite view_lookup, fmap_is_Some. reflexivity. Qed.

Lemma begin_view g : begin (view g) = begin (mRequestParamMap g).
Proof.
  destruct (begin (mRequestParamMap g)) as [k |] eqn:E.
  - apply begin_spec in E as [E1 E2]. apply begin_spec. setoid_rewrite keys_view. auto.
  - apply begin_none in E. apply begin_none. unfold view. rewrite E. apply fmap_empty.
Qed.

Lemma rbegin_view g : rbegin (view g) = rbegin (mRequestParamMap g).
Proof.
  destruct (rbegin (mRequestParamMap g)) as [k |] eqn:E.
  - apply rbegin_spec in E as [E1 E2]. apply rbegin_spec. setoid_rewrite keys_view. auto.
  - apply rbegin_none in E. apply rbegin_none. unfold view. rewrite E. apply fmap_empty.
Qed.

Lemma size_view g : size (view g) = size (mRequestParamMap g).
Proof. apply map_size_fmap. Qed.

(** A new object is nobody's. *)
Lemma make_shared_fresh g : heap g !! fst (make_shared g) = None.
Proof.
  unfold make_shared. destruct (rbegin (heap g)) as [k |] eqn:E; cbn [fst].
  - apply rbegin_spec in E as [_ E]. destruct (heap g !! (k + 1)) eqn:E1; [| reflexivity].
    specialize (E (k + 1) ltac:(eauto)). lia.
  - apply rbegin_none in E. rewrite E. apply lookup_empty.
Qed.

Lemma fresh_unused c :
  unshared c -> let r := fst (make_shared (gen c)) in
  (forall s, mRequestParamMap (gen c) !! s <> Some r) /\ handles c !! r = None.
Proof.
  intros U r. pose proof (make_shared_fresh (gen c)) as F. fold r in F. split.
  - intros s E. apply (frame_live c U) in E. rewrite F in E. destruct E as [x [=]].
  - destruct (handles c !! r) eqn:E; [| reflexivity].
    destruct (handle_live c U r ltac:(eauto)) as [x Hx]. congruence.
Qed.

(** ** The implementation keeps objects apart and does what is specified *)

(** Writing to an object that no frame has, and then giving it to at most one
    frame. *)
Lemma unshared_store c m h r x :
  unshared c ->
  (forall s r', m !! s = Some r' -> r' = r \/ mRequestParamMap (gen c) !! s = Some r') ->
  (forall s s', m !! s = Some r -> m !! s' = Some r -> s = s') ->
  (forall r', is_Some (h !! r') -> r' = r \/ is_Some (handles c !! r')) ->
  (forall s, m !! s = Some r -> h !! r = None) ->
  (forall s r', m !! s = Some r' -> r' <> r -> h !! r' = None) ->
  unshared (Client (Generator m (<[r := x]> (heap (gen c)))) h).
Proof.
  intros U Hm H1 Hh H2 H3. split; cbn [gen handles mRequestParamMap heap].
  - intros s s' r' E E'. destruct (Z.eq_dec r' r) as [-> | Hne]; [apply H1; assumption |].
    destruct (Hm _ _ E) as [-> | Hs]; [congruence |]. destruct (Hm _ _ E') as [-> | Hs']; [congruence |].
    exact (one_frame c U s s' r' Hs Hs').
  - intros s r' E. destruct (Z.eq_dec r' r) as [-> | Hne]; [exact (H2 s E) | exact (H3 s r' E Hne)].
  - intros s r' E. destruct (decide (r = r')) as [<- | Hne]; [rewrite lookup_insert_eq; eauto |].
    rewrite lookup_insert_ne by exact Hne. destruct (Hm _ _ E) as [-> | Hs]; [congruence | exact (frame_live c U s r' Hs)].
  - intros r' E. destruct (decide (r = r')) as [<- | Hne]; [rewrite lookup_insert_eq; eauto |].
    rewrite lookup_insert_ne by exact Hne. destruct (Hh _ E) as [-> | Hs]; [congruence | exact (handle_live c U r' Hs)].
Qed.

Definition simulated (c c' : client) (e : event) : Prop :=
  unshared c' /\ effect e (abstract c) = Some (abstract c').

(** Handing out an object that no frame has any more. *)
Lemma taken_simulated g h m r i p :
  unshared (Client g h) -> (forall s r', m !! s = Some r' -> mRequestParamMap g !! s = Some r' /\ r' <> r) ->
  h !! r = None -> view (set_map m g) = trim (view g) ->
  simulated (Client g h) (Client (Generator m (<[r := Request i p]> (heap g))) (<[r := tt]> h)) (Taken r p).
Proof.
  intros U Hm Hr Hv. split.
  - apply (unshared_store (Client g h)); cbn [gen handles]; [exact U | | | | |].
    + intros s r' E. right. apply (Hm s r' E).
    + intros s s' E. destruct (Hm s r E) as [_ []]. reflexivity.
    + intros r' E. destruct (decide (r = r')) as [<- | Hne]; [auto |]. rewrite lookup_insert_ne in E by exact Hne. auto.
    + intros s E. destruct (Hm s r E) as [_ []]. reflexivity.
    + intros s r' E Hne. rewrite lookup_insert_ne by congruence. destruct (Hm s r' E) as [E' _].
      exact (not_out _ U s r' E').
  - change (Generator m (<[r := Request i p]> (heap g))) with (store r (Request i p) (set_map m g)).
    unfold effect, abstract. cbn [gen handles saved pending].
    rewrite decide_False by (rewrite view_handles_lookup, Hr; intros [? [=]]). do 2 f_equal.
    + rewrite view_store_out; [symmetry; exact Hv |]. intros s E. destruct (Hm s r E) as [_ []]. reflexivity.
    + rewrite view_handles_insert by exact Hr. reflexivity.
Qed.

Lemma step_taken_ok g h r g' p :
  unshared (Client g h) -> copyRequestParams (Some p) g = (Some r, g') ->
  simulated (Client g h) (Client g' (<[r := tt]> h)) (Taken r p).
Proof.
  intros U. unfold copyRequestParams, getRequestParamBuf. pose proof (size_view g) as Hs.
  destruct (Z.ltb_spec (Z.of_nat (size (mRequestParamMap g))) kStorageSize) as [Hl | Hl].
  - destruct (fresh_unused _ U) as [F1 F2]. cbn [gen handles] in F1, F2.
    destruct (make_shared g) as [r0 g0] eqn:E0. cbn [fst] in F1, F2. intros [= <- <-].
    assert (g0 = store r0 (Request (-1) None) g) as -> by (unfold make_shared in E0; congruence).
    unfold store. cbn [mRequestParamMap heap]. rewrite insert_insert_eq.
    apply taken_simulated; [exact U | intros s r' E; split; [exact E | intros ->; exact (F1 s E)] | exact F2 |].
    unfold trim. rewrite Hs, (proj2 (Z.ltb_lt _ _) Hl). reflexivity.
  - destruct (begin (mRequestParamMap g)) as [k |] eqn:Ek.
    + pose proof Ek as [[r0 Er] _]%begin_spec. rewrite Er. cbn [default from_option]. intros [= <- <-].
      change (id r0) with r0. unfold store. cbn [set_map mRequestParamMap heap].
      apply taken_simulated; [exact U | | exact (not_out _ U k r0 Er) |].
      * intros s r' E. apply lookup_delete_Some in E as [Hne E]. split; [exact E |]. intros ->.
        apply Hne. exact (one_frame _ U k s r0 Er E).
      * rewrite view_delete. unfold trim. rewrite Hs, (proj2 (Z.ltb_ge _ _) Hl), begin_view, Ek. reflexivity.
    + apply begin_none in Ek. rewrite Ek, map_size_empty in Hl. unfold kStorageSize in Hl. lia.
Qed.

(** Giving an object that no frame has to a frame. *)
Lemma given_unshared g h r s x h' :
  unshared (Client g h) -> (forall s', mRequestParamMap g !! s' <> Some r) -> h' !! r = None ->
  (forall r', is_Some (h' !! r') -> is_Some (h !! r')) ->
  unshared (Client (set_map (<[s := r]> (mRequestParamMap g)) (store r x g)) h').
Proof.
  intros U Hr Hh' Hsub. apply (unshared_store (Client g h)); cbn [gen handles]; [exact U | | | | |].
  - intros s' r' [[_ <-] | [_ E]]%lookup_insert_Some; auto.
  - intros s1 s2 [[<- _] | [_ E]]%lookup_insert_Some [[<- _] | [_ E']]%lookup_insert_Some;
      [reflexivity | destruct (Hr _ E') | destruct (Hr _ E) | destruct (Hr _ E)].
  - intros r' E. right. apply Hsub, E.
  - intros _ _. exact Hh'.
  - intros s' r' [[_ <-] | [_ E]]%lookup_insert_Some Hne; [congruence |].
    pose proof (not_out _ U s' r' E) as Ho. cbn [handles] in Ho. destruct (h' !! r') eqn:E'; [| reflexivity].
    destruct (Hsub r' ltac:(eauto)) as [? Hx]. congruence.
Qed.

Lemma given_view g r s x :
  (forall s', mRequestParamMap g !! s' <> Some r) ->
  view (set_map (<[s := r]> (mRequestParamMap g)) (store r x g)) = <[s := x]> (view g).
Proof.
  intros Hr. rewrite view_insert, load_store, Z.eqb_refl.
  change (set_map (mRequestParamMap g) (store r x g)) with (store r x g). rewrite view_store_out by exact Hr. reflexivity.
Qed.

Lemma handles_dropped c r : unshared c -> unshared (Client (gen c) (delete r (handles c))).
Proof.
  intros U. split; cbn [gen handles].
  - apply (one_frame c U).
  - intros s r' E. rewrite lookup_delete. destruct (decide (r = r')); [reflexivity | exact (not_out c U s r' E)].
  - apply (frame_live c U).
  - intros r' E. rewrite lookup_delete in E. destruct (decide (r = r')); [destruct E as [? [=]] | exact (handle_live c U r' E)].
Qed.

Lemma step_saved_ok g h sequence id r :
  unshared (Client g h) -> is_Some (h !! r) ->
  simulated (Client g h) (Client (snd (saveParameters sequence id (Some r) g)) (delete r h)) (Saved sequence id r).
Proof.
  intros U Hr. assert (forall s, mRequestParamMap g !! s <> Some r) as Hm.
  { intros s E. pose proof (not_out _ U s r E) as Ho. cbn [handles] in Ho. rewrite Ho in Hr. destruct Hr as [? [=]]. }
  unfold simulated, effect, abstract, saveParameters. cbn [gen handles saved pending].
  rewrite view_handles_lookup. destruct Hr as [[] Hr]. rewrite Hr. cbn [fmap option_fmap option_map].
  unfold valid_ids. rewrite !Z.leb_antisym.
  destruct (id <? 0); [| destruct (sequence <? 0)]; cbn [snd negb andb];
    [split; [apply (handles_dropped _ _ U) | rewrite view_handles_delete; reflexivity] .. |].
  change (mRequestParamMap (store r ?x g)) with (mRequestParamMap g). split.
  - apply (given_unshared _ h); [exact U | exact Hm | apply lookup_delete_eq |].
    intros r' E. rewrite lookup_delete in E. destruct (decide (r = r')); [destruct E as [? [=]] | exact E].
  - rewrite given_view by exact Hm. do 2 f_equal.
    change (view_handles (delete r h) (set_map ?m ?g')) with (view_handles (delete r h) g').
    rewrite view_handles_store_out by apply lookup_delete_eq. rewrite view_handles_delete. reflexivity.
Qed.

Lemma step_repeated_ok g h sequence id :
  unshared (Client g h) ->
  simulated (Client g h) (Client (snd (saveParameters sequence id None g)) h) (Repeated sequence id).
Proof.
  intros U. unfold simulated, effect, abstract, saveParameters. cbn [gen handles saved pending].
  rewrite rbegin_view. unfold valid_ids. rewrite !Z.leb_antisym.
  destruct (id <? 0); [| destruct (sequence <? 0)]; cbn [snd negb andb];
    [split; [exact U | destruct (rbegin _); reflexivity] .. |].
  destruct (rbegin (mRequestParamMap g)) as [last |] eqn:El; [| split; [exact U | reflexivity]].
  destruct (fresh_unused _ U) as [F1 F2]. cbn [gen handles] in F1, F2.
  destruct (make_shared g) as [r g0] eqn:E0. cbn [fst] in F1, F2.
  assert (g0 = store r (Request (-1) None) g) as -> by (unfold make_shared in E0; congruence).
  set (x := Request id _).
  assert (store r x (store r (Request (-1) None) g) = store r x g) as ->
    by (unfold store; cbn [mRequestParamMap heap]; rewrite insert_insert_eq; reflexivity).
  cbn [snd]. change (mRequestParamMap (store r x g)) with (mRequestParamMap g). split.
  - apply (given_unshared _ h); auto.
  - rewrite given_view by exact F1.
    change (view_handles h (set_map ?m ?g')) with (view_handles h g'). rewrite view_handles_store_out by exact F2.
    subst x. rewrite view_lookup. apply rbegin_spec in El as [[rl Erl] _]. rewrite Erl. reflexivity.
Qed.

(** Changing the settings of one frame. *)
Lemma view_store_in c s r x :
  unshared c -> mRequestParamMap (gen c) !! s = Some r -> view (store r x (gen c)) = <[s := x]> (view (gen c)).
Proof.
  intros U E. apply map_eq. intros s'. rewrite view_lookup, lookup_insert, view_lookup. cbn [store mRequestParamMap].
  destruct (decide (s = s')) as [<- | Hne].
  - rewrite E. cbn [fmap option_fmap option_map]. rewrite load_store, Z.eqb_refl. reflexivity.
  - destruct (mRequestParamMap (gen c) !! s') as [r' |] eqn:E'; [| reflexivity]. cbn [fmap option_fmap option_map].
    rewrite load_store. destruct (Z.eqb_spec r' r) as [-> |]; [| reflexivity].
    destruct Hne. exact (one_frame c U s s' r E E').
Qed.

Lemma step_reprocessed_ok g h sequence p g' :
  unshared (Client g h) -> updateParameters sequence (Some p) g = Some g' ->
  simulated (Client g h) (Client g' h) (Reprocessed sequence p).
Proof.
  intros U. unfold simulated, updateParameters, effect, reprocess_entry, abstract. cbn [gen handles saved pending].
  rewrite view_lookup, begin_view. destruct (mRequestParamMap g !! sequence) as [r |] eqn:Es.
  - intros [= <-]. cbn [fmap option_fmap option_map]. set (x := Request _ _).
    rewrite insert_id by exact Es. change (set_map (mRequestParamMap g) (store r x g)) with (store r x g). split.
    + apply (unshared_store (Client g h)); cbn [gen handles]; [exact U | auto | | auto | |].
      * apply (fun s s' => one_frame _ U s s' r).
      * intros s E. exact (not_out _ U s r E).
      * intros s r' E _. exact (not_out _ U s r' E).
    + pose proof (view_store_in (Client g h) sequence r x U Es) as Hv. cbn [gen] in Hv. rewrite Hv.
      rewrite view_handles_store_out by exact (not_out _ U sequence r Es). reflexivity.
  - destruct (begin (mRequestParamMap g)) as [k |] eqn:Ek; [| discriminate].
    apply begin_spec in Ek as [[r Er] _]. rewrite Er. intros [= <-]. cbn [fmap option_fmap option_map].
    rewrite view_lookup, Er. cbn [fmap option_fmap option_map]. set (x := Request _ _).
    assert (forall s, delete k (mRequestParamMap g) !! s <> Some r) as Hd.
    { intros s E. apply lookup_delete_Some in E as [Hne E]. apply Hne. exact (one_frame _ U k s r Er E). }
    split.
    + apply (unshared_store (Client g h)); cbn [gen handles]; [exact U | | | auto | |].
      * intros s r' [[_ <-] | [_ [_ E]%lookup_delete_Some]]%lookup_insert_Some; auto.
      * intros s1 s2 [[<- _] | [_ E]]%lookup_insert_Some [[<- _] | [_ E']]%lookup_insert_Some;
          [reflexivity | destruct (Hd _ E') | destruct (Hd _ E) | destruct (Hd _ E)].
      * intros _ _. exact (not_out _ U k r Er).
      * intros s r' [[_ <-] | [_ [_ E]%lookup_delete_Some]]%lookup_insert_Some Hne; [congruence |].
        exact (not_out _ U s r' E).
    + pose proof (given_view (set_map (delete k (mRequestParamMap g)) g) r sequence x Hd) as Hv.
      assert (view (set_map (<[sequence := r]> (delete k (mRequestParamMap g))) (store r x g))
              = <[sequence := x]> (delete k (view g))) as -> by (rewrite <- view_delete; exact Hv).
      change (view_handles h (set_map ?m ?g')) with (view_handles h g').
      rewrite view_handles_store_out by exact (not_out _ U k r Er). reflexivity.
Qed.

Lemma step_ok c e c' : step c e c' -> unshared c -> simulated c c' e.
Proof.
  intros S U. destruct S.
  - apply step_taken_ok; assumption.
  - apply step_saved_ok; assumption.
  - apply step_repeated_ok; assumption.
  - split; [apply (handles_dropped _ _ U) |]. unfold effect, abstract. cbn. rewrite view_handles_delete. reflexivity.
  - apply step_reprocessed_ok; assumption.
  - split; [| unfold abstract; cbn; unfold view; cbn; rewrite fmap_empty; reflexivity].
    cbn [reset snd]. split; cbn [gen handles set_map mRequestParamMap].
    + intros s s' r E. rewrite lookup_empty in E. discriminate E.
    + intros s r E. rewrite lookup_empty in E. discriminate E.
    + intros s r E. rewrite lookup_empty in E. discriminate E.
    + apply (handle_live _ U).
Qed.

(** ** Runs *)

Inductive run : client -> list event -> client -> Prop :=
| run_nil c : run c [] c
| run_step c l c1 e c2 : run c l c1 -> step c1 e c2 -> run c (l ++ [e]) c2.

(** What the events do to the settings as values, in order. *)
Definition effects (l : list event) (s : settings) : option settings :=
  foldl (fun o e => o ≫= effect e) (Some s) l.

Definition new_client : client := Client new_generator ∅.
Definition no_settings : settings := Settings ∅ ∅.

Lemma abstract_new : abstract new_client = no_settings.
Proof.
  unfold abstract, new_client, new_generator, no_settings, view, view_handles. cbn [gen handles mRequestParamMap].
  rewrite fmap_empty, map_imap_empty. reflexivity.
Qed.

Lemma new_unshared : unshared new_client.
Proof.
  split; cbn; intros *; rewrite ?lookup_empty; try discriminate. intros [? [=]].
Qed.

Lemma run_simulated l c :
  run new_client l c -> unshared c /\ effects l no_settings = Some (abstract c).
Proof.
  intros H. remember new_client as c0. induction H as [c | c l c1 e c2 _ IH S]; subst.
  - rewrite abstract_new. split; [apply new_unshared | reflexivity].
  - destruct (IH eq_refl) as [U E]. destruct (step_ok _ _ _ S U) as [U' E'].
    split; [exact U' |]. unfold effects in *. rewrite foldl_app, E. exact E'.
Qed.

(** ** The settings in effect *)

(** The frame whose settings a frame has: the last one up to it; without a
    frame, the last one of all. *)
Definition settled_by (m : gmap Z RequestParam) sequence (o : option Z) : Prop :=
  if sequence <? 0 then rbegin m = o else nearest m sequence o.

Lemma getParameters_settled g sequence :
  exists o, settled_by (view g) sequence o /\ getParameters sequence g = param <$> (o ≫= fun k => view g !! k).
Proof.
  unfold getParameters, settled_by. rewrite rbegin_view.
  assert (forall k r, mRequestParamMap g !! k = Some r ->
            Some (param (load (default 0 (mRequestParamMap g !! k)) g)) = param <$> (view g !! k)) as V.
  { intros k r E. rewrite view_lookup, E. reflexivity. }
  assert (forall o, nearest (mRequestParamMap g) sequence o -> nearest (view g) sequence o) as N.
  { intros [k |]; cbn [nearest]; setoid_rewrite keys_view; auto. }
  destruct (rbegin (mRequestParamMap g)) as [last |] eqn:El.
  - assert (mRequestParamMap g <> ∅) as Hne by (intros E; apply rbegin_none in E; congruence).
    destruct (sequence <? 0).
    + exists (Some last). split; [reflexivity |]. apply rbegin_spec in El as [[r Er] _]. exact (V last r Er).
    + destruct (decide _) as [E | E].
      * exists None. split; [apply N, upper_bound_begin; assumption | reflexivity].
      * destruct (prev_upper_bound _ sequence Hne E) as (k & -> & Hk). exists (Some k).
        split; [exact (N _ Hk) |]. destruct Hk as [[r Er] _]. exact (V k r Er).
  - exists None. split; [| reflexivity]. destruct (sequence <? 0); [reflexivity |]. apply N.
    apply rbegin_none in El. rewrite El. intros k [x Hx]. rewrite lookup_empty in Hx. discriminate Hx.
Qed.

(** A frame with settings of its own has these. *)
Lemma getParameters_own g sequence r :
  0 <= sequence -> mRequestParamMap g !! sequence = Some r ->
  getParameters sequence g = Some (param (load r g)).
Proof.
  intros Hs E. destruct (getParameters_settled g sequence) as (o & Ho & ->).
  assert (view g !! sequence = Some (load r g)) as V by (rewrite view_lookup, E; reflexivity).
  unfold settled_by in Ho. rewrite (proj2 (Z.ltb_ge sequence 0) Hs) in Ho. destruct o as [k |]; cbn [nearest] in Ho.
  - destruct Ho as (_ & H1 & H2). specialize (H2 sequence ltac:(eauto) ltac:(lia)).
    assert (k = sequence) as -> by lia. cbn [mbind option_bind]. rewrite V. reflexivity.
  - specialize (Ho sequence ltac:(eauto)). lia.
Qed.

(** C3: whatever a client does with the generator, in any order and with any
    number of objects taken at a time, no two frames and no frame and request
    share an object: the generator behaves as the map of values [effects]
    says, and [getParameters] hands out the settings saved for the last frame
    up to the one that is asked for (the last of all when none is asked for),
    and leaves the caller's object alone when there is none. *)
Theorem settings_in_effect l c sequence :
  run new_client l c ->
  unshared c /\
  exists s, effects l no_settings = Some s /\
    exists o, settled_by (saved s) sequence o /\
      getParameters sequence (gen c) = param <$> (o ≫= fun k => saved s !! k).
Proof.
  intros R. destruct (run_simulated l c R) as [U E]. split; [exact U |].
  exists (abstract c). split; [exact E |]. apply getParameters_settled.
Qed.

(** ** How many frames are kept *)

Definition frames_kept (s : settings) : Z := Z.of_nat (size (saved s)).
Definition taken (s : settings) : Z := Z.of_nat (size (pending s)).

Definition with_settings (e : event) : bool := match e with Repeated _ _ => false | _ => true end.

Lemma size_delete_some {A} (k : Z) (m : gmap Z A) :
  is_Some (m !! k) -> S (size (delete k m)) = size m.
Proof.
  intros [x E]. rewrite <- (map_size_insert_None k x) by apply lookup_delete_eq.
  rewrite insert_delete_id by exact E. reflexivity.
Qed.

Lemma size_trim m : Z.of_nat (size (trim m)) = Z.of_nat (size m) - (if Z.of_nat (size m) <? kStorageSize then 0 else 1).
Proof.
  unfold trim. destruct (Z.ltb_spec (Z.of_nat (size m)) kStorageSize) as [H | H]; [lia |].
  destruct (begin m) as [k |] eqn:E.
  - apply begin_spec in E as [E _]. apply size_delete_some in E. lia.
  - apply begin_none in E. rewrite E, map_size_empty in H. unfold kStorageSize in H. lia.
Qed.

Lemma size_reprocess_entry sequence p m m' :
  reprocess_entry sequence p m = Some m' -> (size m' <= size m)%nat.
Proof.
  unfold reprocess_entry. destruct (m !! sequence) as [x |] eqn:E.
  - intros [= <-]. rewrite map_size_insert, E. reflexivity.
  - destruct (begin m) as [k |] eqn:Ek; [| discriminate]. apply begin_spec in Ek as [Ek _].
    apply size_delete_some in Ek. destruct (m !! k) as [x |]; [| discriminate]. intros [= <-].
    pose proof (size_insert_le sequence (Request (requestId x) (reprocess p (param x))) (delete k m)). lia.
Qed.

Lemma effect_kept N e s s' :
  effect e s = Some s' -> with_settings e = true -> taken s' <= N ->
  frames_kept s + taken s <= kStorageSize - 1 + N -> frames_kept s' + taken s' <= kStorageSize - 1 + N.
Proof.
  unfold frames_kept, taken, kStorageSize. destruct s as [m h]. cbn [saved pending].
  destruct e as [r p | sequence id r | sequence id | r | sequence p |]; cbn [effect with_settings saved pending].
  - destruct (decide _) as [| Hn]; [discriminate |]. intros [= <-] _. cbn [saved pending]. rewrite size_trim.
    rewrite map_size_insert_None by (apply eq_None_not_Some; exact Hn).
    unfold kStorageSize. destruct (Z.ltb_spec (Z.of_nat (size m)) 40); lia.
  - destruct (h !! r) as [p |] eqn:E; [| discriminate]. intros [= <-] _ _. cbn [saved pending].
    pose proof (size_delete_some r h ltac:(eauto)). destruct (valid_ids _ _); [| lia].
    pose proof (size_insert_le sequence (Request id p) m). lia.
  - discriminate.
  - intros [= <-] _ _. cbn [saved pending]. pose proof (map_size_delete r h) as H.
    destruct (h !! r); rewrite H; cbn [id]; try change (id ?n) with n; lia.
  - destruct (reprocess_entry _ _ _) as [m' |] eqn:E; [| discriminate]. intros [= <-] _ _. cbn [saved pending].
    apply size_reprocess_entry in E. lia.
  - intros [= <-] _ _. cbn [saved pending]. rewrite map_size_empty. lia.
Qed.

(** The events before [l2] leave at most [N] objects out. *)
Definition at_most_out (N : Z) (l : list event) : Prop :=
  forall l1 l2 s, l = l1 ++ l2 -> effects l1 no_settings = Some s -> taken s <= N.

Lemma effects_kept N l s :
  effects l no_settings = Some s -> Forall (fun e => with_settings e = true) l -> at_most_out N l ->
  frames_kept s + taken s <= kStorageSize - 1 + N.
Proof.
  revert s. induction l as [| e l IH] using rev_ind; intros s E F H.
  - injection E as <-. specialize (H [] [] no_settings eq_refl eq_refl). unfold frames_kept, taken, kStorageSize in *.
    cbn [no_settings saved pending] in *. rewrite map_size_empty in *. lia.
  - apply Forall_app in F as [F1 [F2 _]%Forall_cons].
    pose proof E as E'. unfold effects in E'. rewrite foldl_app in E'. cbn [foldl] in E'.
    change (foldl _ _ l) with (effects l no_settings) in E'.
    destruct (effects l no_settings) as [s1 |] eqn:E1; [| discriminate E']. cbn [mbind option_bind] in E'.
    apply (effect_kept N e s1); [exact E' | exact F2 | |].
    + exact (H (l ++ [e]) [] s ltac:(rewrite app_nil_r; reflexivity) E).
    + apply IH; [reflexivity | exact F1 |]. intros l1 l2 s2 -> Hs.
      apply (H l1 (l2 ++ [e])); [symmetry; apply app_assoc | exact Hs].
Qed.

(** While every request brings settings and at most [N] objects are out
    at a time, at most [kStorageSize - 1 + N] frames have settings: the map
    does not grow with the number of requests. *)
Theorem frames_bounded N l c :
  run new_client l c -> Forall (fun e => with_settings e = true) l -> at_most_out N l ->
  Z.of_nat (size (mRequestParamMap (gen c))) <= kStorageSize - 1 + N.
Proof.
  intros R F H. destruct (run_simulated l c R) as [_ E].
  pose proof (effects_kept N l _ E F H) as B. unfold frames_kept, taken in B.
  cbn [abstract saved] in B. rewrite size_view in B. lia.
Qed.

(** Requests without settings never take an object, so nothing makes room. *)
Definition idle_requests (n : nat) : list event := map (fun i => Repeated (Z.of_nat i) 0) (seq 1 n).

(** Requests without settings are not bounded: after one request with
    settings, [n] more without any leave [n + 1] frames, whatever
    [kStorageSize] is. *)
Theorem idle_requests_grow n :
  exists c, run new_client ([Taken 1 None; Saved 0 0 1] ++ idle_requests n) c /\
    Z.of_nat (size (mRequestParamMap (gen c))) = Z.of_nat n + 1.
Proof.
  enough (exists c, run new_client ([Taken 1 None; Saved 0 0 1] ++ idle_requests n) c /\
            size (mRequestParamMap (gen c)) = S n /\
            forall k, is_Some (mRequestParamMap (gen c) !! k) <-> 0 <= k <= Z.of_nat n) as (c & R & E & _)
    by (exists c; split; [exact R | lia]).
  unfold idle_requests. induction n as [| n IH].
  - eexists. split; [| split].
    + change ([Taken 1 None; Saved 0 0 1] ++ map _ (seq 1 0)) with (([] ++ [Taken 1 None]) ++ [Saved 0 0 1]).
      eapply run_step; [eapply run_step; [apply run_nil | apply step_taken; reflexivity] |].
      apply step_saved. rewrite lookup_insert_eq. eauto.
    + reflexivity.
    + intros k. cbn. rewrite lookup_insert. destruct (decide (0 = k)) as [<- |].
      * split; [lia | eauto].
      * rewrite lookup_empty. split; [intros [? [=]] | lia].
  - destruct IH as (c & R & E & K). rewrite seq_S, map_app, app_assoc. cbn [map Nat.add].
    destruct c as [g h]. cbn [gen] in E, K.
    exists (Client (snd (saveParameters (Z.of_nat (S n)) 0 None g)) h). split; [| split].
    + eapply run_step; [exact R | apply step_repeated].
    + cbn [gen]. unfold saveParameters. rewrite (proj2 (Z.ltb_ge (Z.of_nat (S n)) 0)) by lia. cbn [Z.ltb Z.compare].
      destruct (rbegin (mRequestParamMap g)) eqn:El; [| apply rbegin_none in El; rewrite El, map_size_empty in E; discriminate E].
      cbn [snd make_shared store set_map mRequestParamMap]. rewrite map_size_insert_None; [congruence |].
      apply eq_None_not_Some. rewrite K. lia.
    + intros k. cbn [gen]. unfold saveParameters. rewrite (proj2 (Z.ltb_ge (Z.of_nat (S n)) 0)) by lia. cbn [Z.ltb Z.compare].
      destruct (rbegin (mRequestParamMap g)) eqn:El; [| apply rbegin_none in El; rewrite El, map_size_empty in E; discriminate E].
      cbn [snd make_shared store set_map mRequestParamMap]. rewrite lookup_insert_is_Some, K. lia.
Qed.

(** ** A run *)

(** Settings with an edge mode, for frame 5, then a request without any. *)
Definition example_events : list event := [Taken 1 None; Saved 5 0 1; Taken 2 None].

Definition example_client : client :=
  Client (snd (copyRequestParams (Some None) (snd (saveParameters 5 0 (Some 1)
            (snd (copyRequestParams (Some None) new_generator))))))
    (<[2 := tt]> (delete 1 (<[1 := tt]> ∅))).

Lemma example_run : run new_client example_events example_client.
Proof.
  unfold example_events. change [Taken 1 None; Saved 5 0 1; Taken 2 None] with ((([] ++ [Taken 1 None]) ++ [Saved 5 0 1]) ++ [Taken 2 None]).
  eapply run_step; [eapply run_step; [eapply run_step; [apply run_nil | apply step_taken; reflexivity] |] |].
  - apply step_saved. rewrite lookup_insert_eq. eauto.
  - apply step_taken. vm_compute. reflexivity.
Defined.

(** Frame 7 has the settings of frame 5; frame 4 has none. *)
Lemma settings_in_effect_witness :
  run new_client example_events example_client /\
  getParameters 7 (gen example_client) = Some None /\ getParameters 4 (gen example_client) = None /\
  unshared example_client /\
  exists s, effects example_events no_settings = Some s /\
    exists o, settled_by (saved s) 7 o /\
      getParameters 7 (gen example_client) = param <$> (o ≫= fun k => saved s !! k).
Proof.
  split; [exact example_run |]. split; [vm_compute; reflexivity |]. split; [vm_compute; reflexivity |].
  exact (settings_in_effect example_events example_client 7 example_run).
Defined.

Lemma frames_bounded_witness :
  at_most_out 1 example_events /\
  Z.of_nat (size (mRequestParamMap (gen example_client))) = 1 /\
  Z.of_nat (size (mRequestParamMap (gen example_client))) <= kStorageSize - 1 + 1.
Proof.
  assert (at_most_out 1 example_events) as H.
  { intros [| e1 [| e2 [| e3 [| e4 l1]]]] l2 s; unfold example_events; cbn [app]; intros E;
      try discriminate E; simplify_eq; vm_compute; intros [= <-]; intros [=]. }
  split; [exact H |]. split; [vm_compute; reflexivity |].
  refine (frames_bounded 1 example_events example_client example_run _ H).
  repeat constructor.
Defined.
