(* ===== verification/RequestThread.v ===== *)
(** * The request thread

    src/core/RequestThread.cpp and .h: requests from the application wait in
    a queue until the frames in flight, the sensor and the statistics allow
    the next one, which then gets its number, its 3A run and the sequence of
    the frame where its settings take effect, and goes to the listeners;
    finished frames wait in a queue per stream until the application takes
    them.

    Every section of code under a lock, and every other access to shared
    state, is one function here.  [pc] says where the thread is between them,
    [agent] where event handlers and [clearRequests] of other threads are, and
    [perform] lets any of them do its next section.  A condition variable may
    wake at any time; the value that 3A predicts, and whether a wait timed
    out, come with the step.  The answer is none where the C++ leaves the
    bounds of an array or follows a null pointer.  [long] has 64 bits, and
    neither request numbers nor sequences wrap. *)

From S2P Require Import Prelude Errors OrderedMap MetadataTables MetadataPacket Parameters ParameterGenerator.
From stdpp Require Import list gmap.
#[local] Open Scope Z_scope.

(** ** Configuration of the camera

    The part of [PlatformData::StaticCfg::CameraInfo] that the thread reads,
    from the camera's configuration file. *)

Definition MAX_BUFFER_COUNT : Z := 10.
Definition MAX_STREAM_NUMBER : Z := 5.

Inductive camera_features :=
| MANUAL_EXPOSURE | MANUAL_WHITE_BALANCE | IMAGE_ENHANCEMENT | NOISE_REDUCTION | SCENE_MODE
| WEIGHT_GRID_MODE | PER_FRAME_CONTROL | ISP_CONTROL | INVALID_FEATURE.

#[export] Instance camera_features_eq_dec : EqDecision camera_features.
Proof. solve_decision. Defined.

(** [mMediaCtlConfs] and [mInjectedFile] by whether there are any. *)
Class CameraInfo := {
  mEnableAIQ : bool;
  mInitialPendingFrame : Z;
  mPsysContinueStats : bool;
  mMaxRequestsInflight : Z;
  mExposureLag : Z;
  mWaitFirstStats : bool;
  mReqWaitTimeout : Z;
  supportedFeatures : list camera_features;
  hasMediaCtlConfs : bool;
  hasInjectedFile : bool;
}.

Section RequestThread.
Context {info : CameraInfo}.

Definition isEnableAIQ : bool := mEnableAIQ.
Definition getInitialPendingFrame : Z := mInitialPendingFrame.
Definition isPsysContinueStats : bool := mPsysContinueStats.
Definition getExposureLag : Z := mExposureLag.
Definition isWaitFirstStats : bool := mWaitFirstStats.
Definition getReqWaitTimeout : Z := mReqWaitTimeout.
Definition isFileSourceEnabled : bool := hasInjectedFile.
Definition isIsysEnabled : bool := hasMediaCtlConfs.

Definition isFeatureSupported (feature : camera_features) : bool :=
  existsb (fun item => bool_decide (item = feature)) supportedFeatures.

Definition getMaxRequestsInflight : Z :=
  let inflight := mMaxRequestsInflight in
  if inflight <=? 0 then if isEnableAIQ then 4 else MAX_BUFFER_COUNT else inflight.

(** ** State *)

Inductive camera_stream_usage_t :=
| CAMERA_STREAM_PREVIEW | CAMERA_STREAM_VIDEO_CAPTURE | CAMERA_STREAM_STILL_CAPTURE
| CAMERA_STREAM_APP | CAMERA_STREAM_OPAQUE_RAW | CAMERA_STREAM_MAX.

#[export] Instance camera_stream_usage_t_eq_dec : EqDecision camera_stream_usage_t.
Proof. solve_decision. Defined.

(** The members of [camera_buffer_t] that the thread reads. *)
Record camera_buffer_t := Buffer { usage : camera_stream_usage_t; sequence : Z; timestamp : Z }.

(** A finished frame: [getUserBuffer] and [getSequence]. *)
Record CameraBuffer := Frame { userBuffer : Z; frameSequence : Z }.

(** The address of the thread's own buffer. *)
Definition fakeReqBuf : Z := 1.

(** [mBuffer] has [mBufferNum] pointers; [mRequestParam] is a reference into
    the parameter generator's heap. *)
Record CameraRequest := mkRequest {
  mIsFirstRequest : bool;
  mBuffer : list Z;
  mRequestParam : option Z;
}.

Definition mBufferNum (r : CameraRequest) : Z := Z.of_nat (length (mBuffer r)).

(** [buffers] is the memory that [mBuffer] points into. *)
Record RequestThread := Thread {
  mPerframeControlSupport : bool;
  mGet3AStatWithFakeRequest : bool;
  mPendingRequests : list CameraRequest;
  mRequestsInProcessing : Z;
  mFirstRequest : bool;
  mOutputFrames : list (list CameraBuffer);
  mActive : bool;
  mRequestTriggerEvent : Z;
  mLastRequestId : Z;
  mLastEffectSeq : Z;
  mLastAppliedSeq : Z;
  mLastSofSeq : Z;
  mBlockRequest : bool;
  mSofEnabled : bool;
  mWaitFrameDurationOverride : Z;
  mParamGenerator : ParameterGenerator;
  buffers : gmap Z camera_buffer_t
}.

Implicit Types t : RequestThread.

Definition set_mGet3AStatWithFakeRequest (x : bool) t : RequestThread :=
  Thread (mPerframeControlSupport t) x (mPendingRequests t) (mRequestsInProcessing t) (mFirstRequest t)
    (mOutputFrames t) (mActive t) (mRequestTriggerEvent t) (mLastRequestId t) (mLastEffectSeq t)
    (mLastAppliedSeq t) (mLastSofSeq t) (mBlockRequest t) (mSofEnabled t)
    (mWaitFrameDurationOverride t) (mParamGenerator t) (buffers t).
Definition set_mPendingRequests (x : list CameraRequest) t : RequestThread :=
  Thread (mPerframeControlSupport t) (mGet3AStatWithFakeRequest t) x (mRequestsInProcessing t) (mFirstRequest
    t) (mOutputFrames t) (mActive t) (mRequestTriggerEvent t) (mLastRequestId t) (mLastEffectSeq t)
    (mLastAppliedSeq t) (mLastSofSeq t) (mBlockRequest t) (mSofEnabled t)
    (mWaitFrameDurationOverride t) (mParamGenerator t) (buffers t).
Definition set_mRequestsInProcessing (x : Z) t : RequestThread :=
  Thread (mPerframeControlSupport t) (mGet3AStatWithFakeRequest t) (mPendingRequests t) x (mFirstRequest t)
    (mOutputFrames t) (mActive t) (mRequestTriggerEvent t) (mLastRequestId t) (mLastEffectSeq t)
    (mLastAppliedSeq t) (mLastSofSeq t) (mBlockRequest t) (mSofEnabled t)
    (mWaitFrameDurationOverride t) (mParamGenerator t) (buffers t).
Definition set_mFirstRequest (x : bool) t : RequestThread :=
  Thread (mPerframeControlSupport t) (mGet3AStatWithFakeRequest t) (mPendingRequests t)
    (mRequestsInProcessing t) x (mOutputFrames t) (mActive t) (mRequestTriggerEvent t)
    (mLastRequestId t) (mLastEffectSeq t) (mLastAppliedSeq t) (mLastSofSeq t) (mBlockRequest t)
    (mSofEnabled t) (mWaitFrameDurationOverride t) (mParamGenerator t) (buffers t).
Definition set_mOutputFrames (x : list (list CameraBuffer)) t : RequestThread :=
  Thread (mPerframeControlSupport t) (mGet3AStatWithFakeRequest t) (mPendingRequests t)
    (mRequestsInProcessing t) (mFirstRequest t) x (mActive t) (mRequestTriggerEvent t)
    (mLastRequestId t) (mLastEffectSeq t) (mLastAppliedSeq t) (mLastSofSeq t) (mBlockRequest t)
    (mSofEnabled t) (mWaitFrameDurationOverride t) (mParamGenerator t) (buffers t).
Definition set_mActive (x : bool) t : RequestThread :=
  Thread (mPerframeControlSupport t) (mGet3AStatWithFakeRequest t) (mPendingRequests t)
    (mRequestsInProcessing t) (mFirstRequest t) (mOutputFrames t) x (mRequestTriggerEvent t)
    (mLastRequestId t) (mLastEffectSeq t) (mLastAppliedSeq t) (mLastSofSeq t) (mBlockRequest t)
    (mSofEnabled t) (mWaitFrameDurationOverride t) (mParamGenerator t) (buffers t).
Definition set_mRequestTriggerEvent (x : Z) t : RequestThread :=
  Thread (mPerframeControlSupport t) (mGet3AStatWithFakeRequest t) (mPendingRequests t)
    (mRequestsInProcessing t) (mFirstRequest t) (mOutputFrames t) (mActive t) x (mLastRequestId t)
    (mLastEffectSeq t) (mLastAppliedSeq t) (mLastSofSeq t) (mBlockRequest t) (mSofEnabled t)
    (mWaitFrameDurationOverride t) (mParamGenerator t) (buffers t).
Definition set_mLastRequestId (x : Z) t : RequestThread :=
  Thread (mPerframeControlSupport t) (mGet3AStatWithFakeRequest t) (mPendingRequests t)
    (mRequestsInProcessing t) (mFirstRequest t) (mOutputFrames t) (mActive t) (mRequestTriggerEvent
    t) x (mLastEffectSeq t) (mLastAppliedSeq t) (mLastSofSeq t) (mBlockRequest t) (mSofEnabled t)
    (mWaitFrameDurationOverride t) (mParamGenerator t) (buffers t).
Definition set_mLastEffectSeq (x : Z) t : RequestThread :=
  Thread (mPerframeControlSupport t) (mGet3AStatWithFakeRequest t) (mPendingRequests t)
    (mRequestsInProcessing t) (mFirstRequest t) (mOutputFrames t) (mActive t) (mRequestTriggerEvent
    t) (mLastRequestId t) x (mLastAppliedSeq t) (mLastSofSeq t) (mBlockRequest t) (mSofEnabled t)
    (mWaitFrameDurationOverride t) (mParamGenerator t) (buffers t).
Definition set_mLastAppliedSeq (x : Z) t : RequestThread :=
  Thread (mPerframeControlSupport t) (mGet3AStatWithFakeRequest t) (mPendingRequests t)
    (mRequestsInProcessing t) (mFirstRequest t) (mOutputFrames t) (mActive t) (mRequestTriggerEvent
    t) (mLastRequestId t) (mLastEffectSeq t) x (mLastSofSeq t) (mBlockRequest t) (mSofEnabled t)
    (mWaitFrameDurationOverride t) (mParamGenerator t) (buffers t).
Definition set_mLastSofSeq (x : Z) t : RequestThread :=
  Thread (mPerframeControlSupport t) (mGet3AStatWithFakeRequest t) (mPendingRequests t)
    (mRequestsInProcessing t) (mFirstRequest t) (mOutputFrames t) (mActive t) (mRequestTriggerEvent
    t) (mLastRequestId t) (mLastEffectSeq t) (mLastAppliedSeq t) x (mBlockRequest t) (mSofEnabled t)
    (mWaitFrameDurationOverride t) (mParamGenerator t) (buffers t).
Definition set_mBlockRequest (x : bool) t : RequestThread :=
  Thread (mPerframeControlSupport t) (mGet3AStatWithFakeRequest t) (mPendingRequests t)
    (mRequestsInProcessing t) (mFirstRequest t) (mOutputFrames t) (mActive t) (mRequestTriggerEvent
    t) (mLastRequestId t) (mLastEffectSeq t) (mLastAppliedSeq t) (mLastSofSeq t) x (mSofEnabled t)
    (mWaitFrameDurationOverride t) (mParamGenerator t) (buffers t).
Definition set_mParamGenerator (x : ParameterGenerator) t : RequestThread :=
  Thread (mPerframeControlSupport t) (mGet3AStatWithFakeRequest t) (mPendingRequests t)
    (mRequestsInProcessing t) (mFirstRequest t) (mOutputFrames t) (mActive t) (mRequestTriggerEvent
    t) (mLastRequestId t) (mLastEffectSeq t) (mLastAppliedSeq t) (mLastSofSeq t) (mBlockRequest t)
    (mSofEnabled t) (mWaitFrameDurationOverride t) x (buffers t).
Definition set_buffers (x : gmap Z camera_buffer_t) t : RequestThread :=
  Thread (mPerframeControlSupport t) (mGet3AStatWithFakeRequest t) (mPendingRequests t)
    (mRequestsInProcessing t) (mFirstRequest t) (mOutputFrames t) (mActive t) (mRequestTriggerEvent
    t) (mLastRequestId t) (mLastEffectSeq t) (mLastAppliedSeq t) (mLastSofSeq t) (mBlockRequest t)
    (mSofEnabled t) (mWaitFrameDurationOverride t) (mParamGenerator t) x.

Definition NONE_EVENT : Z := 0.
Definition NEW_REQUEST : Z := 1.
Definition NEW_FRAME : Z := Z.shiftl 1 1.
Definition NEW_STATS : Z := Z.shiftl 1 2.
Definition NEW_SOF : Z := Z.shiftl 1 3.

(** [mRequestTriggerEvent |= e; mRequestSignal.signal()]. *)
Definition trigger (e : Z) t := set_mRequestTriggerEvent (Z.lor (mRequestTriggerEvent t) e) t.

Definition new_thread : RequestThread :=
  Thread (isFeatureSupported PER_FRAME_CONTROL) false [] 0 true
    (replicate (Z.to_nat MAX_STREAM_NUMBER) []) false NONE_EVENT (-1) (-1) (-1) (-1)
    isWaitFirstStats (isIsysEnabled || isFileSourceEnabled) getReqWaitTimeout new_generator
    {[ fakeReqBuf := Buffer CAMERA_STREAM_PREVIEW 0 0 ]}.

(** What can be seen of a step. *)
Inductive action :=
| Submitted (r : CameraRequest)
| Fetched (r : CameraRequest)
| Forgotten
| SetParameters (p : Parameters)
| Numbered (requestId : Z)
| Run3A (requestId applyingSeq : Z)
| Effective (seq requestId : Z)
| ProcessRequest (r : CameraRequest) (settingSeq testPatternMode : Z)
| FirstDone
| FrameQueued (streamId : Z) (b : CameraBuffer)
| FrameTaken (streamId : Z) (b : CameraBuffer)
| FramesDropped (streamId : Z).

(** ** Operations of other threads *)

(** The part of [clearRequests] under [mPendingReqLock]. *)
Definition clear_pending t : RequestThread :=
  let t := set_mRequestsInProcessing 0 t in
  let t := set_mPendingRequests [] t in
  let t := set_mLastRequestId (-1) t in
  let t := set_mLastEffectSeq (-1) t in
  let t := set_mLastAppliedSeq (-1) t in
  let t := set_mLastSofSeq (-1) t in
  let t := set_mFirstRequest true t in
  set_mBlockRequest isWaitFirstStats t.

(** The last stream with a usage, as [configure] finds it. *)
Fixpoint last_index (u : camera_stream_usage_t) (i : Z) (streams : list camera_stream_usage_t) : Z :=
  match streams with
  | [] => -1
  | s :: streams' =>
      let j := last_index u (i + 1) streams' in
      if 0 <=? j then j else if decide (s = u) then i else -1
  end.

(** [CLEAR(mFakeReqBuf)] and the members of the stream. *)
Definition configure (streams : list camera_stream_usage_t) t : Z * RequestThread :=
  let previewIndex := last_index CAMERA_STREAM_PREVIEW 0 streams in
  let videoIndex := last_index CAMERA_STREAM_VIDEO_CAPTURE 0 streams in
  let stillIndex := last_index CAMERA_STREAM_STILL_CAPTURE 0 streams in
  let t := set_mBlockRequest (isEnableAIQ && ((0 <=? previewIndex) || (0 <=? videoIndex))) t in
  let t := if negb isWaitFirstStats then set_mBlockRequest false t else t in
  let t := set_mGet3AStatWithFakeRequest (if mPerframeControlSupport t then isPsysContinueStats else false) t in
  if mGet3AStatWithFakeRequest t then
    let fakeStreamIndex :=
      if 0 <=? previewIndex then previewIndex else if 0 <=? videoIndex then videoIndex else stillIndex in
    if fakeStreamIndex <? 0 then (OK, set_mGet3AStatWithFakeRequest false t)
    else
      let u := default CAMERA_STREAM_PREVIEW (streams !! Z.to_nat fakeStreamIndex) in
      (OK, set_buffers (<[fakeReqBuf := Buffer u 0 0]> (buffers t)) t)
  else (OK, t).

Definition blockRequest t : bool :=
  match mPendingRequests t with
  | [] => true
  | _ =>
      (mBlockRequest t && (getInitialPendingFrame <=? mLastRequestId t))
      || (getMaxRequestsInflight <=? mRequestsInProcessing t)
      || (mPerframeControlSupport t && (mRequestTriggerEvent t =? NONE_EVENT))
  end.

Definition is_video (b : camera_buffer_t) : bool :=
  bool_decide (usage b = CAMERA_STREAM_PREVIEW) || bool_decide (usage b = CAMERA_STREAM_VIDEO_CAPTURE).

Definition processRequest (ubuffer : list Z) (params : option Parameters) t
    : option (Z * RequestThread * list action) :=
  if MAX_STREAM_NUMBER <? Z.of_nat (length ubuffer) then None
  else
    match mapM (fun p => buffers t !! p) ubuffer with
    | None => None
    | Some bs =>
        let hasVideoBuffer := existsb is_video bs in
        let first := negb (mActive t) in
        let t := if first then set_mActive true t else t in
        let t := if first && negb hasVideoBuffer then set_mBlockRequest false t else t in
        let '(param, g) := copyRequestParams params (mParamGenerator t) in
        let request := mkRequest first ubuffer param in
        let t := set_mParamGenerator g t in
        let t := set_mPendingRequests (mPendingRequests t ++ [request]) t in
        let t :=
          if (mRequestsInProcessing t =? 0) || negb (mPerframeControlSupport t)
          then trigger NEW_REQUEST t else t in
        Some (OK, t, [Submitted request])
    end.

(** One pass of [waitFrame] under [mFrameMutex]; [woken] is none on entry, and
    after [waitRelative] whether it timed out.  None inside: it waits. *)
Definition waitFrame (streamId : Z) (woken : option bool) t
    : option (option (Z * option Z) * RequestThread * list action) :=
  if streamId <? 0 then None
  else
    match mOutputFrames t !! Z.to_nat streamId with
    | None => None
    | Some q =>
        if negb (mActive t) then Some (Some (NO_INIT, None), t, [])
        else if default false woken then Some (Some (TIMED_OUT, None), t, [])
        else
          match q with
          | [] => Some (None, t, [])
          | b :: q' =>
              Some (Some (OK, Some (userBuffer b)), set_mOutputFrames (<[Z.to_nat streamId := q']> (mOutputFrames t)) t,
                    [FrameTaken streamId b])
          end
    end.

Definition wait1stRequestDone (timed_out : bool) t : Z :=
  if mFirstRequest t then if timed_out then TIMED_OUT else OK else OK.

Inductive EventData :=
| EVENT_ISYS_FRAME
| EVENT_PSYS_FRAME
| EVENT_PSYS_STATS_BUF_READY
| EVENT_ISYS_SOF (seq : Z)
| EVENT_FRAME_AVAILABLE (streamId : Z) (buffer : CameraBuffer)
| OTHER_EVENT.

Definition frame_done t : RequestThread :=
  let t := if 0 <? mRequestsInProcessing t then set_mRequestsInProcessing (mRequestsInProcessing t - 1) t else t in
  match mPendingRequests t with
  | [] => t
  | _ => if mRequestsInProcessing t =? 0 then trigger NEW_FRAME t else t
  end.

Definition stats_ready t : RequestThread :=
  trigger NEW_STATS (if mBlockRequest t then set_mBlockRequest false t else t).

Definition start_of_frame seq t : RequestThread :=
  let t := set_mLastSofSeq seq t in
  if mLastAppliedSeq t <? mLastSofSeq t then trigger NEW_SOF t else t.

(** The first part of [EVENT_FRAME_AVAILABLE], under [mFrameMutex]. *)
Definition queue_frame streamId (b : CameraBuffer) t : option (RequestThread * list action) :=
  if userBuffer b =? fakeReqBuf then Some (t, [])
  else if streamId <? 0 then None
  else
    match mOutputFrames t !! Z.to_nat streamId with
    | None => None
    | Some q =>
        Some (set_mOutputFrames (<[Z.to_nat streamId := q ++ [b]]> (mOutputFrames t)) t, [FrameQueued streamId b])
    end.

(** The second, under [mPendingReqLock]. *)
Definition insert_fake_request (b : CameraBuffer) t : RequestThread * list action :=
  match mPendingRequests t with
  | [] =>
      if mGet3AStatWithFakeRequest t && (mLastEffectSeq t <=? frameSequence b) && (mRequestsInProcessing t =? 0) then
        let fakeRequest := mkRequest false [fakeReqBuf] None in
        let fake := default (Buffer CAMERA_STREAM_PREVIEW 0 0) (buffers t !! fakeReqBuf) in
        let t := set_buffers (<[fakeReqBuf := Buffer (usage fake) (-1) (timestamp fake)]> (buffers t)) t in
        let t := set_mPendingRequests [fakeRequest] t in
        (trigger NEW_REQUEST t, [Submitted fakeRequest])
      else (t, [])
  | _ => (t, [])
  end.

(** Where another thread is: in [handleEvent] after the check of [mActive], in
    [EVENT_FRAME_AVAILABLE] between its two parts, and in [clearRequests]
    before it clears the queue of a stream. *)
Inductive agent :=
| Handling (e : EventData)
| Queued (b : CameraBuffer)
| Clearing (streamId : nat).

Definition agent_step (a : agent) t : option (option agent * RequestThread * list action) :=
  match a with
  | Handling EVENT_ISYS_FRAME | Handling EVENT_PSYS_FRAME => Some (None, frame_done t, [])
  | Handling EVENT_PSYS_STATS_BUF_READY => Some (None, stats_ready t, [])
  | Handling (EVENT_ISYS_SOF seq) => Some (None, start_of_frame seq t, [])
  | Handling (EVENT_FRAME_AVAILABLE streamId b) =>
      match queue_frame streamId b t with Some (t, l) => Some (Some (Queued b), t, l) | None => None end
  | Handling OTHER_EVENT => Some (None, t, [])
  | Queued b => let '(t, l) := insert_fake_request b t in Some (None, t, l)
  | Clearing streamId =>
      if Z.of_nat streamId <? MAX_STREAM_NUMBER then
        Some (Some (Clearing (S streamId)), set_mOutputFrames (<[streamId := []]> (mOutputFrames t)) t,
              [FramesDropped (Z.of_nat streamId)])
      else Some (None, clear_pending t, [Forgotten])
  end.

(** ** The thread *)

(** Where the thread is, with the local variables that are still needed. *)
Inductive pc :=
| AtTop
| Waiting
| Decided (applyingSeq : Z)
| Fetching (applyingSeq : Z)
| Taking (request : CameraRequest) (applyingSeq : Z)
| Looking (request : CameraRequest) (applyingSeq effectSeq : Z)
| Numbering (request : CameraRequest) (applyingSeq effectSeq : Z)
| Computing (request : CameraRequest) (applyingSeq effectSeq requestId : Z)
| Saving (request : CameraRequest) (effectSeq : Z)
| Notifying (request : CameraRequest) (effectSeq : Z)
| Finishing (request : CameraRequest)
| Resetting.

Definition TEST_PATTERN_OFF : Z := 0.

(** Whether a wait timed out, and what 3A predicts. *)
Record chance := Chance { timed_out : bool; predicted : Z }.

(** The rest of the first locked section of [threadLoop]. *)
Definition choose_sequence t : pc * RequestThread :=
  let e := mRequestTriggerEvent t in
  let has b := negb (Z.land e b =? 0) in
  if mPerframeControlSupport t && negb (e =? NONE_EVENT) then
    let applying :=
      if has NEW_SOF && (mLastAppliedSeq t <? mLastSofSeq t) then Some (mLastSofSeq t)
      else if has NEW_STATS && (mLastAppliedSeq t <=? mLastSofSeq t) then Some (mLastSofSeq t + 1)
      else if has (Z.lor NEW_REQUEST NEW_FRAME) && (mRequestsInProcessing t =? 0) then Some (mLastSofSeq t + 1)
      else None in
    match applying with
    | None => (AtTop, set_mRequestTriggerEvent NONE_EVENT t)
    | Some applyingSeq =>
        let t := set_mLastAppliedSeq applyingSeq t in
        if mLastAppliedSeq t + getExposureLag <=? mLastEffectSeq t
        then (AtTop, set_mRequestTriggerEvent NONE_EVENT t)
        else (Decided applyingSeq, t)
    end
  else (Decided (-1), t).

Definition woken (c : chance) t : pc * RequestThread :=
  if timed_out c then (AtTop, t)
  else if blockRequest t then (AtTop, set_mRequestTriggerEvent NONE_EVENT t)
  else choose_sequence t.

Definition fetchNextRequest t : option CameraRequest * RequestThread :=
  match mPendingRequests t with
  | [] => (None, t)
  | request :: rest =>
      (Some request, set_mPendingRequests rest (set_mRequestsInProcessing (mRequestsInProcessing t + 1) t))
  end.

Definition request_param (r : CameraRequest) t : option Parameters :=
  (fun p => param (load p (mParamGenerator t))) <$> mRequestParam r.

(** The sections of [threadLoop] and [handleRequest], in their order. *)
Definition thread_step (c : chance) (p : pc) t : option (pc * RequestThread * list action) :=
  match p with
  | AtTop => if blockRequest t then Some (Waiting, t, []) else let '(p, t) := choose_sequence t in Some (p, t, [])
  | Waiting => let '(p, t) := woken c t in Some (p, t, [])
  | Decided a => Some (if mActive t then Fetching a else AtTop, t, [])
  | Fetching a =>
      match fetchNextRequest t with
      | (Some r, t) => Some (Taking r a, t, [Fetched r])
      | (None, t) => Some (AtTop, t, [])
      end
  | Taking r a => Some (Looking r a (mLastEffectSeq t + 1), t, [])
  | Looking r a e =>
      match mBuffer r with
      | [] => None
      | p :: _ =>
          match buffers t !! p with
          | None => None
          | Some b =>
              if (0 <=? sequence b) && (0 <? timestamp b) then
                let e := sequence b in
                match request_param r t with
                | None => Some (Notifying r e, t, [])
                | Some q =>
                    match updateParameters e (Some q) (mParamGenerator t) with
                    | None => None
                    | Some g => Some (Notifying r e, set_mParamGenerator g t, [])
                    end
                end
              else Some (Numbering r a e, t, [])
          end
      end
  | Numbering r a e =>
      if mActive t then
        let requestId := mLastRequestId t + 1 in
        let t := set_mLastRequestId requestId t in
        Some (Computing r a e requestId, t,
              Numbered requestId :: match request_param r t with Some q => [SetParameters q] | None => [] end)
      else Some (Computing r a e (-1), t, [])
  | Computing r a e requestId =>
      if 0 <=? requestId
      then Some (Saving r (if mSofEnabled t then predicted c else e), t, [Run3A requestId a])
      else Some (Saving r e, t, [])
  | Saving r e =>
      if mActive t then
        let g := snd (saveParameters e (mLastRequestId t) (mRequestParam r) (mParamGenerator t)) in
        Some (Notifying r e, set_mLastEffectSeq e (set_mParamGenerator g t), [Effective e (mLastRequestId t)])
      else Some (Resetting, t, [])
  | Notifying r e =>
      let testPatternMode :=
        match request_param r t with Some q => default TEST_PATTERN_OFF (snd (getTestPatternMode q)) | None => TEST_PATTERN_OFF end in
      Some (Finishing r, t, [ProcessRequest r e testPatternMode])
  | Finishing r =>
      if mIsFirstRequest r then Some (Resetting, set_mFirstRequest false t, [FirstDone])
      else Some (Resetting, t, [])
  | Resetting => Some (AtTop, set_mRequestTriggerEvent NONE_EVENT t, [])
  end.

(** ** The whole *)

Record system := System { thread : RequestThread; at_pc : pc; agents : list agent }.

(** Who does the next section: the application, a source of events, another
    thread where it is, and the thread itself; the memory of the buffers is
    the application's and the pipeline's, and the settings are dropped when
    the camera stops. *)
Inductive label :=
| LRequest (ubuffer : list Z) (params : option Parameters)
| LWaitFrame (streamId : Z) (woken : option bool)
| LEvent (e : EventData)
| LClear
| LConfigure (streams : list camera_stream_usage_t)
| LAgent (i : nat)
| LThread (c : chance)
| LMemory (m : gmap Z camera_buffer_t)
| LStopped.

Definition perform (l : label) (s : system) : option (system * list action) :=
  let t := thread s in
  match l with
  | LRequest ubuffer params =>
      match processRequest ubuffer params t with
      | Some (_, t, log) => Some (System t (at_pc s) (agents s), log)
      | None => None
      end
  | LWaitFrame streamId woken =>
      match waitFrame streamId woken t with
      | Some (_, t, log) => Some (System t (at_pc s) (agents s), log)
      | None => None
      end
  | LEvent e => Some (System t (at_pc s) (if mActive t then agents s ++ [Handling e] else agents s), [])
  | LClear => Some (System (set_mActive false t) (at_pc s) (agents s ++ [Clearing 0]), [])
  | LConfigure streams => Some (System (snd (configure streams t)) (at_pc s) (agents s), [])
  | LAgent i =>
      match agents s !! i with
      | None => None
      | Some a =>
          match agent_step a t with
          | Some (Some a, t, log) => Some (System t (at_pc s) (<[i := a]> (agents s)), log)
          | Some (None, t, log) => Some (System t (at_pc s) (delete i (agents s)), log)
          | None => None
          end
      end
  | LThread c =>
      match thread_step c (at_pc s) t with
      | Some (p, t, log) => Some (System t p (agents s), log)
      | None => None
      end
  | LMemory m => Some (System (set_buffers m t) (at_pc s) (agents s), [])
  | LStopped => Some (System (set_mParamGenerator (snd (reset (mParamGenerator t))) t) (at_pc s) (agents s), [])
  end.

Fixpoint perform_all (ls : list label) (s : system) : option (system * list action) :=
  match ls with
  | [] => Some (s, [])
  | l :: ls =>
      match perform l s with
      | None => None
      | Some (s, log) =>
          match perform_all ls s with
          | None => None
          | Some (s, log') => Some (s, log ++ log')
          end
      end
  end.

Definition new_system : system := System new_thread AtTop [].
End RequestThread.
