(* ===== verification/RequestRuns.v ===== *)
(** * Runs of the request thread

    What holds of the request thread however its sections, the application's
    calls, the events and [clearRequests] interleave: its queues are first in
    first out, request numbers are consecutive, the number of requests in
    flight is bounded; what one pass of the loop does; and two interleavings
    that lose a wake-up and let a request outlive a restart. *)

From S2P Require Import Prelude Errors OrderedMap MetadataTables MetadataPacket Parameters ParameterGenerator RequestThread.
From stdpp Require Import list gmap.
#[local] Open Scope Z_scope.

#[export] Instance CameraRequest_eq_dec : EqDecision CameraRequest.
Proof. solve_decision. Defined.
#[export] Instance CameraBuffer_eq_dec : EqDecision CameraBuffer.
Proof. solve_decision. Defined.

(** ** Specification

    A queue of requests, a queue of frames for each stream, and the last
    number that was given to a request. *)

Record queues := Queues {
  waiting : list CameraRequest;
  finished : list (list CameraBuffer);
  lastNumber : Z;
}.

Definition take_request (r : CameraRequest) (q : queues) : option queues :=
  match waiting q with
  | r' :: rest => if decide (r = r') then Some (Queues rest (finished q) (lastNumber q)) else None
  | [] => None
  end.

Definition take_frame (streamId : Z) (b : CameraBuffer) (q : queues) : option queues :=
  match finished q !! Z.to_nat streamId with
  | Some (b' :: rest) =>
      if decide (b = b') then Some (Queues (waiting q) (<[Z.to_nat streamId := rest]> (finished q)) (lastNumber q))
      else None
  | _ => None
  end.

Definition put_frame (streamId : Z) (b : CameraBuffer) (q : queues) : option queues :=
  l ← finished q !! Z.to_nat streamId;
  Some (Queues (waiting q) (<[Z.to_nat streamId := l ++ [b]]> (finished q)) (lastNumber q)).

(** None for an action that is out of order. *)
Definition follow (a : action) (q : queues) : option queues :=
  match a with
  | Submitted r => Some (Queues (waiting q ++ [r]) (finished q) (lastNumber q))
  | Fetched r => take_request r q
  | Forgotten => Some (Queues [] (finished q) (-1))
  | Numbered requestId =>
      if decide (requestId = lastNumber q + 1) then Some (Queues (waiting q) (finished q) requestId) else None
  | Effective _ requestId => if decide (requestId = lastNumber q) then Some q else None
  | FrameQueued streamId b => put_frame streamId b q
  | FrameTaken streamId b => take_frame streamId b q
  | FramesDropped streamId =>
      Some (Queues (waiting q) (<[Z.to_nat streamId := []]> (finished q)) (lastNumber q))
  | _ => Some q
  end.

Definition follow_all (log : list action) (q : queues) : option queues :=
  foldl (fun o a => o ≫= follow a) (Some q) log.

Definition empty_queues : queues := Queues [] (replicate (Z.to_nat MAX_STREAM_NUMBER) []) (-1).

Lemma follow_all_app l1 l2 q : follow_all (l1 ++ l2) q = follow_all l1 q ≫= follow_all l2.
Proof.
  unfold follow_all. rewrite foldl_app. destruct (foldl _ (Some q) l1) as [q' |]; [reflexivity |].
  cbn [mbind option_bind]. induction l2 as [| a l2 IH]; [reflexivity | exact IH].
Qed.

Section Runs.
Context {info : CameraInfo}.

Definition queues_of (t : RequestThread) : queues :=
  Queues (mPendingRequests t) (mOutputFrames t) (mLastRequestId t).

Ltac cases :=
  repeat match goal with
    | H : Some _ = Some _ |- _ => injection H as H
    | H : (_, _) = (_, _) |- _ => injection H as H
    | H : None = Some _ |- _ => discriminate H
    | H : Some _ = None |- _ => discriminate H
    | H : context [match ?x with _ => _ end] |- _ => destruct x eqn:?
    end; subst.

Ltac known := repeat match goal with H : ?x = _ |- context [?x] => rewrite H end.

(** ** The thread against the queues *)

Lemma processRequest_follows ubuffer params t r t' log :
  processRequest ubuffer params t = Some (r, t', log) -> follow_all log (queues_of t) = Some (queues_of t').
Proof. unfold processRequest. intros H. cases; reflexivity. Qed.

Lemma waitFrame_follows streamId w t r t' log :
  waitFrame streamId w t = Some (r, t', log) -> follow_all log (queues_of t) = Some (queues_of t').
Proof.
  unfold waitFrame. intros H. cases; try reflexivity. unfold follow_all. cbn [foldl mbind option_bind follow].
  unfold take_frame. cbn [queues_of finished]. known. rewrite decide_True by reflexivity. reflexivity.
Qed.

Lemma agent_step_follows a t r t' log :
  agent_step a t = Some (r, t', log) -> follow_all log (queues_of t) = Some (queues_of t').
Proof.
  destruct a as [e | b | streamId]; cbn [agent_step].
  - destruct e; unfold queue_frame, frame_done, stats_ready, start_of_frame, trigger; intros H; cases; try reflexivity.
    unfold follow_all. cbn [foldl mbind option_bind follow]. unfold put_frame. cbn [queues_of finished]. known. reflexivity.
  - unfold insert_fake_request. intros H. cases; try reflexivity.
    unfold follow_all. cbn. unfold queues_of. cbn. known. reflexivity.
  - intros H. cases; unfold follow_all; cbn; [rewrite Nat2Z.id |]; reflexivity.
Qed.

Lemma choose_queues t : queues_of (snd (choose_sequence t)) = queues_of t.
Proof. unfold choose_sequence. repeat case_match; reflexivity. Qed.

Lemma thread_step_follows c p t p' t' log :
  thread_step c p t = Some (p', t', log) -> follow_all log (queues_of t) = Some (queues_of t').
Proof.
  assert (forall t p' t', choose_sequence t = (p', t') -> queues_of t' = queues_of t) as Hc
    by (intros t0 p0 t0' E; pose proof (choose_queues t0) as H; rewrite E in H; exact H).
  destruct p; cbn [thread_step]; unfold woken, fetchNextRequest; intros H; cases; try reflexivity;
    unfold follow_all; cbn [foldl mbind option_bind follow]; try solve [f_equal; symmetry; eauto];
    unfold take_request; cbn [queues_of waiting lastNumber]; known; rewrite decide_True by reflexivity; reflexivity.
Qed.

Lemma perform_follows l s s' log :
  perform l s = Some (s', log) ->
  follow_all log (queues_of (thread s)) = Some (queues_of (thread s')).
Proof.
  destruct l; cbn [perform]; intros H; cases; cbn [thread]; try reflexivity;
    eauto using processRequest_follows, waitFrame_follows, agent_step_follows, thread_step_follows.
  unfold configure. repeat case_match; reflexivity.
Qed.

Lemma perform_all_follows ls s s' log :
  perform_all ls s = Some (s', log) ->
  follow_all log (queues_of (thread s)) = Some (queues_of (thread s')).
Proof.
  revert s log. induction ls as [| l ls IH]; intros s log; cbn [perform_all].
  - intros [= -> <-]. reflexivity.
  - destruct (perform l s) as [[s1 log1] |] eqn:E; [| discriminate].
    destruct (perform_all ls s1) as [[s2 log2] |] eqn:E'; [| discriminate]. intros [= <- <-].
    rewrite follow_all_app, (perform_follows l s s1 log1 E). exact (IH s1 log2 E').
Qed.

(** C1: in every interleaving, the thread takes the requests of a session in
    the order in which they were accepted, numbers them 0, 1, 2, ... and saves
    settings under the last number it gave; the application takes the frames
    of each stream in the order in which they were finished; and the queues
    hold what was put in and neither taken nor cleared. *)
Theorem requests_in_order ls s log :
  perform_all ls new_system = Some (s, log) ->
  follow_all log empty_queues = Some (queues_of (thread s)).
Proof. intros H. exact (perform_all_follows ls new_system s log H). Qed.

(** ** Bounds *)

Definition before_fetch (p : pc) : bool :=
  match p with Decided _ | Fetching _ => true | _ => false end.

Definition real_frame (b : CameraBuffer) : Prop := userBuffer b <> fakeReqBuf.

Record bounded (s : system) : Prop := {
  flight_nonneg : 0 <= mRequestsInProcessing (thread s);
  flight_most : mRequestsInProcessing (thread s) <= getMaxRequestsInflight;
  flight_room : before_fetch (at_pc s) = true -> mRequestsInProcessing (thread s) < getMaxRequestsInflight;
  five_streams : length (mOutputFrames (thread s)) = Z.to_nat MAX_STREAM_NUMBER;
  real_frames : Forall (Forall real_frame) (mOutputFrames (thread s));
}.

Lemma getMaxRequestsInflight_pos : 0 < getMaxRequestsInflight.
Proof.
  unfold getMaxRequestsInflight, MAX_BUFFER_COUNT. cbv zeta.
  destruct (Z.leb_spec mMaxRequestsInflight 0); [destruct isEnableAIQ |]; lia.
Qed.

Lemma new_bounded : bounded new_system.
Proof.
  pose proof getMaxRequestsInflight_pos. split; cbn; try lia; try discriminate; try reflexivity.
  repeat constructor.
Qed.

(** No more requests in flight, and only finished frames of the application's
    queued. *)
Record calm (t t' : RequestThread) : Prop := {
  calm_flight : 0 <= mRequestsInProcessing t -> 0 <= mRequestsInProcessing t' <= mRequestsInProcessing t;
  calm_streams : length (mOutputFrames t') = length (mOutputFrames t);
  calm_frames : Forall (Forall real_frame) (mOutputFrames t) -> Forall (Forall real_frame) (mOutputFrames t');
}.

Lemma same_calm t t' :
  mRequestsInProcessing t' = mRequestsInProcessing t -> mOutputFrames t' = mOutputFrames t -> calm t t'.
Proof. intros E1 E2. split; rewrite ?E1, ?E2; auto; lia. Qed.

Lemma frames_calm t streamId q :
  (Forall (Forall real_frame) (mOutputFrames t) -> Forall real_frame q) ->
  calm t (set_mOutputFrames (<[streamId := q]> (mOutputFrames t)) t).
Proof.
  intros Hq. split; cbn; [lia | apply length_insert |]. intros H. apply Forall_insert; auto.
Qed.

Lemma calm_bounded s t' l :
  calm (thread s) t' -> bounded s -> bounded (System t' (at_pc s) l).
Proof.
  intros C B. pose proof (calm_flight _ _ C (flight_nonneg s B)) as [H1 H2].
  pose proof (flight_most s B) as H3. pose proof (flight_room s B) as H4. pose proof (five_streams s B) as H5.
  split; cbn [thread at_pc]; [lia | lia | | |].
  - intros E. specialize (H4 E). lia.
  - rewrite (calm_streams _ _ C). exact H5.
  - exact (calm_frames _ _ C (real_frames s B)).
Qed.

Ltac calm := first [apply same_calm; reflexivity | apply frames_calm].

Lemma processRequest_calm ubuffer params t r t' log :
  processRequest ubuffer params t = Some (r, t', log) -> calm t t'.
Proof. unfold processRequest. intros H. cases; calm. Qed.

Lemma waitFrame_calm streamId w t r t' log :
  waitFrame streamId w t = Some (r, t', log) -> calm t t'.
Proof.
  unfold waitFrame. intros H. cases; calm. intros F.
  eapply Forall_lookup_1 in F; [| eassumption]. inversion F. assumption.
Qed.

Lemma configure_calm streams t : calm t (snd (configure streams t)).
Proof. apply same_calm; unfold configure; repeat case_match; reflexivity. Qed.

Lemma frame_done_calm t : calm t (frame_done t).
Proof.
  unfold frame_done. destruct (Z.ltb_spec 0 (mRequestsInProcessing t)) as [Hp | Hp];
    repeat case_match; split; cbn; auto; lia.
Qed.

Lemma agent_step_calm a t r t' log : agent_step a t = Some (r, t', log) -> calm t t'.
Proof.
  destruct a as [e | b | streamId]; cbn [agent_step].
  - destruct e; unfold queue_frame, stats_ready, start_of_frame, trigger; intros H; cases;
      try apply frame_done_calm; calm.
    intros F. eapply Forall_lookup_1 in F; [| eassumption]. apply Forall_app. split; [exact F |].
    constructor; [| constructor]. unfold real_frame. apply Z.eqb_neq. assumption.
  - unfold insert_fake_request. intros H. cases; calm.
  - intros H. cases.
    + apply frames_calm. constructor.
    + split; cbn; auto; lia.
Qed.

Lemma choose_sequence_calm t : calm t (snd (choose_sequence t)).
Proof. apply same_calm; unfold choose_sequence; repeat case_match; reflexivity. Qed.

Lemma choose_sequence_pc t p t' :
  choose_sequence t = (p, t') -> p = AtTop \/ exists a, p = Decided a.
Proof. unfold choose_sequence. intros H. cases; eauto. Qed.

Lemma blockRequest_room t : blockRequest t = false -> mRequestsInProcessing t < getMaxRequestsInflight.
Proof.
  unfold blockRequest. destruct (mPendingRequests t); [discriminate |].
  intros [[_ H]%orb_false_iff _]%orb_false_iff. apply Z.leb_gt, H.
Qed.

(** From a decision on, there is room for one more. *)
Lemma decided_bounded s t p t' l :
  bounded s -> thread s = t -> blockRequest t = false -> choose_sequence t = (p, t') -> bounded (System t' p l).
Proof.
  intros B <- Hb Hc. pose proof (choose_sequence_calm (thread s)) as C. rewrite Hc in C. cbn [snd] in C.
  apply blockRequest_room in Hb. pose proof (calm_bounded s t' l C B) as B'.
  pose proof (calm_flight _ _ C (flight_nonneg s B)) as [H1 H2].
  split; try apply B'. cbn [thread]. lia.
Qed.

Lemma thread_step_bounded c s p t' log :
  bounded s -> thread_step c (at_pc s) (thread s) = Some (p, t', log) -> bounded (System t' p (agents s)).
Proof.
  intros B. pose proof (flight_room s B) as Hr.
  assert (forall t p, calm (thread s) t -> before_fetch p = false -> bounded (System t p (agents s))) as Hcalm.
  { intros t0 p0 C E. pose proof (calm_bounded s t0 (agents s) C B) as B'.
    split; try apply B'. cbn [at_pc]. rewrite E. discriminate. }
  destruct (at_pc s) eqn:Epc; cbn [thread_step]; unfold woken, fetchNextRequest; intros H; cases;
    try (apply Hcalm; [apply same_calm; reflexivity | reflexivity]); try (eapply decided_bounded; eauto; fail).
  - split; try apply B. cbn [at_pc thread]. intros _. apply Hr. reflexivity.
  - specialize (Hr eq_refl). destruct B. split; cbn in *; auto; try lia; discriminate.
Qed.

Lemma perform_bounded l s s' log : perform l s = Some (s', log) -> bounded s -> bounded s'.
Proof.
  destruct l; cbn [perform]; intros H B; cases;
    try (apply calm_bounded; [apply same_calm; reflexivity | exact B]);
    try (apply calm_bounded; [eauto using processRequest_calm, waitFrame_calm, agent_step_calm, configure_calm | exact B]).
  eapply thread_step_bounded; eassumption.
Qed.

Lemma perform_all_bounded ls s s' log : perform_all ls s = Some (s', log) -> bounded s -> bounded s'.
Proof.
  revert s log. induction ls as [| l ls IH]; intros s log; cbn [perform_all].
  - intros [= -> <-]. auto.
  - intros H B. cases. eapply IH; [eassumption |]. eapply perform_bounded; eassumption.
Qed.

(** C9: in every interleaving, at most [getMaxRequestsInflight] requests are
    in flight, although the thread gives up the lock between its decision and
    the fetch; there is a queue for every stream; and the application is never
    given the buffer of a request that the HAL made up. *)
Theorem flight_bounded ls s log :
  perform_all ls new_system = Some (s, log) ->
  0 <= mRequestsInProcessing (thread s) <= getMaxRequestsInflight /\
  length (mOutputFrames (thread s)) = Z.to_nat MAX_STREAM_NUMBER /\
  Forall (Forall (fun b => userBuffer b <> fakeReqBuf)) (mOutputFrames (thread s)).
Proof.
  intros H. pose proof (perform_all_bounded ls _ s log H new_bounded) as [B1 B2 _ B4 B5]. auto.
Qed.

(** ** One pass of the loop *)

(** With per-frame control, the frame that a request is applied to is the
    current one or the next, later than the last one a request was applied to
    unless nothing is in flight, and late enough that its settings come after
    those of the last request; otherwise the pass ends and the trigger is
    spent. *)
Theorem applied_sequence t p t' :
  choose_sequence t = (p, t') -> mPerframeControlSupport t = true -> mRequestTriggerEvent t <> NONE_EVENT ->
  (exists a, p = Decided a /\ mLastAppliedSeq t' = a /\ (a = mLastSofSeq t \/ a = mLastSofSeq t + 1) /\
     (mLastAppliedSeq t < a \/ mRequestsInProcessing t = 0) /\ mLastEffectSeq t < a + getExposureLag)
  \/ (p = AtTop /\ mRequestTriggerEvent t' = NONE_EVENT).
Proof.
  unfold choose_sequence. intros H Hp He. rewrite Hp, (proj2 (Z.eqb_neq _ _) He) in H. cbn [andb negb] in H.
  cases; auto; left; eexists; (split; [reflexivity |]); cbn in *;
    repeat match goal with
      | H : _ && _ = true |- _ => apply andb_prop in H as [? ?]
      | H : (_ <? _) = true |- _ => apply Z.ltb_lt in H
      | H : (_ <=? _) = true |- _ => apply Z.leb_le in H
      | H : (_ <=? _) = false |- _ => apply Z.leb_gt in H
      | H : (_ =? _) = true |- _ => apply Z.eqb_eq in H
      end; lia.
Qed.

Lemma saved_found g e requestId r :
  0 <= e -> 0 <= requestId ->
  getParameters e (snd (saveParameters e requestId (Some r) g)) = Some (param (load r g)).
Proof.
  intros He Hr. unfold saveParameters. rewrite (proj2 (Z.ltb_ge requestId 0) Hr), (proj2 (Z.ltb_ge e 0) He). cbn [snd].
  erewrite getParameters_own; [| exact He | exact (lookup_insert_eq _ _ _)]. f_equal.
  change (load r (ParameterGenerator.set_map ?m ?g')) with (load r g'). rewrite load_store, Z.eqb_refl. reflexivity.
Qed.

Lemma saved_load g e requestId r h :
  param (load h (snd (saveParameters e requestId (Some r) g))) = param (load h g).
Proof.
  unfold saveParameters. repeat case_match; try reflexivity; cbn [snd];
    change (load h (ParameterGenerator.set_map ?m ?g')) with (load h g'); rewrite load_store;
    destruct (Z.eqb_spec h r) as [-> |]; reflexivity.
Qed.

(** What the listeners are told, and that the first request is done. *)
Definition told (r : CameraRequest) (e : Z) (q : Parameters) : list action :=
  ProcessRequest r e (default TEST_PATTERN_OFF (snd (getTestPatternMode q)))
  :: (if mIsFirstRequest r then [FirstDone] else []).

(** The decision changes nothing but the trigger and the last sequence. *)
Lemma choose_sequence_same t p t1 :
  choose_sequence t = (p, t1) ->
  t1 = set_mRequestTriggerEvent (mRequestTriggerEvent t1) (set_mLastAppliedSeq (mLastAppliedSeq t1) t).
Proof. unfold choose_sequence. destruct t. intros H. cases; reflexivity. Qed.

Lemma perform_thread c n t p ags p' t' l s l' log :
  thread_step c p t = Some (p', t', l) ->
  perform_all (replicate n (LThread c)) (System t' p' ags) = Some (s, l') ->
  log = l ++ l' ->
  perform_all (replicate (S n) (LThread c)) (System t p ags) = Some (s, log).
Proof.
  intros H1 H2 ->. change (replicate (S n) ?x) with (x :: replicate n x).
  cbn [perform_all perform at_pc thread agents]. rewrite H1, H2. reflexivity.
Qed.

(** C4: when the thread is not blocked and has decided on a frame, and nobody
    interferes, its pass takes the first waiting request, gives it the next
    number, sets its settings, runs 3A for the frame, saves the settings under
    the predicted frame, where [getParameters] finds them, and hands the
    request to the listeners, all in eleven sections; the other requests
    still wait. *)
Theorem request_handled c t t1 a ags r rest p bs b h :
  blockRequest t = false -> choose_sequence t = (Decided a, t1) -> mActive t = true ->
  mPendingRequests t = r :: rest -> mBuffer r = p :: bs -> buffers t !! p = Some b ->
  sequence b < 0 \/ timestamp b <= 0 -> mRequestParam r = Some h -> -1 <= mLastRequestId t ->
  let q := param (load h (mParamGenerator t)) in
  let e := if mSofEnabled t then predicted c else mLastEffectSeq t + 1 in
  let requestId := mLastRequestId t + 1 in
  0 <= e ->
  exists t',
    perform_all (replicate 11 (LThread c)) (System t AtTop ags) =
      Some (System t' AtTop ags,
        [Fetched r; Numbered requestId; SetParameters q; Run3A requestId a; Effective e requestId] ++ told r e q) /\
    mPendingRequests t' = rest /\ mRequestsInProcessing t' = mRequestsInProcessing t + 1 /\
    mLastRequestId t' = requestId /\ mLastEffectSeq t' = e /\
    getParameters e (mParamGenerator t') = Some q.
Proof.
  intros Hb Hc Ha Hp Hbuf Hm Hn Hr Hid q e requestId He.
  pose proof (choose_sequence_same _ _ _ Hc) as S.
  set (t3 := set_mPendingRequests rest (set_mRequestsInProcessing (mRequestsInProcessing t1 + 1) t1)).
  set (t4 := set_mLastRequestId requestId t3).
  set (t5 := set_mLastEffectSeq e (set_mParamGenerator
               (snd (saveParameters e requestId (Some h) (mParamGenerator t4))) t4)).
  assert (mActive t1 = true /\ mLastRequestId t1 = mLastRequestId t /\ mLastEffectSeq t1 = mLastEffectSeq t /\
    mPendingRequests t1 = r :: rest /\ mRequestsInProcessing t1 = mRequestsInProcessing t /\
    mSofEnabled t1 = mSofEnabled t /\ buffers t1 = buffers t /\ mParamGenerator t1 = mParamGenerator t)
    as (E1 & E2 & E3 & E4 & E5 & E6 & E7 & E8) by (rewrite S, <- Ha, <- Hp; repeat split).
  assert (request_param r t4 = Some q /\ request_param r t5 = Some q) as [Q1 Q2].
  { unfold request_param. rewrite Hr. cbn [fmap option_fmap option_map]. subst t5 t4 t3. cbn [mParamGenerator].
    cbn. rewrite saved_load, E8. split; reflexivity. }
  exists (set_mRequestTriggerEvent NONE_EVENT (if mIsFirstRequest r then set_mFirstRequest false t5 else t5)).
  split; [| split; [| split; [| split; [| split]]]]; try (destruct (mIsFirstRequest r); cbn; congruence).
  - eapply perform_thread; [cbn [thread_step]; rewrite Hb, Hc; reflexivity | | reflexivity].
    eapply perform_thread; [cbn [thread_step]; rewrite E1; reflexivity | | reflexivity].
    eapply perform_thread; [cbn [thread_step]; unfold fetchNextRequest; rewrite E4; reflexivity | | reflexivity].
    fold t3. eapply perform_thread; [reflexivity | | reflexivity].
    eapply perform_thread; [cbn [thread_step]; rewrite Hbuf; change (buffers t3) with (buffers t1); rewrite E7, Hm;
      replace ((0 <=? sequence b) && (0 <? timestamp b)) with false by lia; reflexivity | | reflexivity].
    eapply perform_thread; [cbn [thread_step]; change (mActive t3) with (mActive t1); rewrite E1;
      change (mLastRequestId t3) with (mLastRequestId t1); rewrite E2; fold requestId t4; rewrite Q1; reflexivity | | reflexivity].
    eapply perform_thread; [cbn [thread_step]; rewrite (proj2 (Z.leb_le 0 requestId)) by lia;
      change (mSofEnabled t4) with (mSofEnabled t1); change (mLastEffectSeq t3) with (mLastEffectSeq t1);
      rewrite E3, E6; fold e; reflexivity | | reflexivity].
    eapply perform_thread; [cbn [thread_step]; change (mActive t4) with (mActive t1); rewrite E1, Hr;
      change (mLastRequestId t4) with requestId; fold t5; reflexivity | | reflexivity].
    eapply perform_thread; [cbn [thread_step]; rewrite Q2; reflexivity | | reflexivity].
    eapply perform_thread with (l := if mIsFirstRequest r then [FirstDone] else [])
      (t' := if mIsFirstRequest r then set_mFirstRequest false t5 else t5) (p' := Resetting);
      [cbn [thread_step]; destruct (mIsFirstRequest r); reflexivity | | symmetry; apply app_nil_r].
    eapply perform_thread; [reflexivity | reflexivity | reflexivity].
  - destruct (mIsFirstRequest r); cbn; rewrite E8; apply saved_found; unfold requestId; lia.
Qed.

(** ** A thread that nothing wakes *)

Lemma blocked_stays t p ags cs :
  blockRequest t = true -> mRequestTriggerEvent t = NONE_EVENT -> p = AtTop \/ p = Waiting ->
  exists p', perform_all (map LThread cs) (System t p ags) = Some (System t p' ags, []).
Proof.
  intros Hb He. assert (set_mRequestTriggerEvent NONE_EVENT t = t) as Ht by (rewrite <- He; destruct t; reflexivity).
  revert p. induction cs as [| c cs IH]; intros p Hp; [exists p; reflexivity |].
  assert (exists p1, thread_step c p t = Some (p1, t, []) /\ (p1 = AtTop \/ p1 = Waiting)) as (p1 & E & Hp1).
  { destruct Hp as [-> | ->]; cbn [thread_step]; unfold woken; rewrite Hb, ?Ht; [eauto |].
    destruct (timed_out c); eauto. }
  destruct (IH p1 Hp1) as (p' & E'). exists p'. cbn [map perform_all perform at_pc thread agents].
  rewrite E. cbn [perform_all]. rewrite E'. reflexivity.
Qed.

(** With per-frame control, whatever was triggered while a request was being
    handled - a frame that is finished, statistics, a start of frame - is spent
    with the request's own trigger: the thread then does nothing, however often
    its wait times out, until something else happens. *)
Theorem triggers_spent s c cs :
  at_pc s = Resetting -> mPerframeControlSupport (thread s) = true ->
  exists p, perform_all (map LThread (c :: cs)) s
    = Some (System (set_mRequestTriggerEvent NONE_EVENT (thread s)) p (agents s), []).
Proof.
  intros Hp Hc. destruct (blocked_stays (set_mRequestTriggerEvent NONE_EVENT (thread s)) AtTop (agents s) cs) as [p E].
  - unfold blockRequest. cbn [mPendingRequests mPerframeControlSupport mRequestTriggerEvent set_mRequestTriggerEvent].
    rewrite Hc, Z.eqb_refl, orb_true_r. by destruct (mPendingRequests (thread s)).
  - done.
  - by left.
  - exists p. cbn [map perform_all perform]. rewrite Hp. cbn [thread_step]. rewrite E. done.
Qed.
End Runs.

(** ** Interleavings *)

(** A camera with per-frame control that does not wait for statistics. *)
Definition perframe_info : CameraInfo := {|
  mEnableAIQ := true; mInitialPendingFrame := 0; mPsysContinueStats := false; mMaxRequestsInflight := 0;
  mExposureLag := 1; mWaitFirstStats := false; mReqWaitTimeout := 0;
  supportedFeatures := [PER_FRAME_CONTROL]; hasMediaCtlConfs := true; hasInjectedFile := false;
|}.

#[local] Existing Instance perframe_info.

(** Two buffers of a preview stream. *)
Definition two_buffers : gmap Z camera_buffer_t :=
  {[ 2 := Buffer CAMERA_STREAM_PREVIEW (-1) 0; 3 := Buffer CAMERA_STREAM_PREVIEW (-1) 0 ]}.

Definition go (n : nat) (e : Z) : list label := replicate n (LThread (Chance false e)).

(** The first request is fetched, a second one comes, and the frame of the
    first is finished before the thread has spent its trigger. *)
Definition early_frame : list label :=
  [LMemory two_buffers; LRequest [2] (Some None)] ++ go 3 0 ++ [LRequest [3] (Some None)] ++ go 6 0
  ++ [LEvent EVENT_PSYS_FRAME; LAgent 0] ++ go 2 0.

Definition early_run : system * list action := default (new_system, []) (perform_all early_frame new_system).
Definition early_state : system := fst early_run.

(** So a request waits although nothing is in flight and nothing blocks it: a
    frame was finished while its request was still being handled. *)
Theorem wake_up_lost :
  exists s log,
    perform_all early_frame new_system = Some (s, log) /\
    (exists r, mPendingRequests (thread s) = [r]) /\ mActive (thread s) = true /\
    mRequestsInProcessing (thread s) = 0 /\ mBlockRequest (thread s) = false /\ agents s = [] /\
    forall cs, exists p, perform_all (map LThread cs) s = Some (System (thread s) p [], []).
Proof.
  exists early_state, (snd early_run). split; [vm_compute; reflexivity |].
  split; [eexists; vm_compute; reflexivity |]. split; [vm_compute; reflexivity |].
  split; [vm_compute; reflexivity |]. split; [vm_compute; reflexivity |]. split; [vm_compute; reflexivity |].
  intros cs. assert (early_state = System (thread early_state) (at_pc early_state) []) as E by (vm_compute; reflexivity).
  destruct (blocked_stays (thread early_state) (at_pc early_state) [] cs) as [p H]; [vm_compute; auto .. |].
  exists p. rewrite <- E in H. exact H.
Qed.

(** The camera is stopped and started again while 3A runs for a request. *)
Definition quick_restart : list label :=
  [LMemory two_buffers; LRequest [2] (Some None)] ++ go 6 0 ++ [LClear] ++ replicate 6 (LAgent 0)
  ++ [LRequest [3] None] ++ go 3 0.

Definition restart_run : system * list action := default (new_system, []) (perform_all quick_restart new_system).

(** A request that is being handled when the camera stops and starts again
    is still handed to the listeners of the new session, with settings that
    are saved nowhere, and before any request of that session. *)
Theorem request_outlives_restart :
  exists s l1 l2 r,
    perform_all quick_restart new_system
      = Some (s, l1 ++ [Forgotten] ++ l2 ++ [Effective 0 (-1); ProcessRequest r 0 TEST_PATTERN_OFF]) /\
    Submitted r ∈ l1 /\ l2 = [Submitted (mkRequest true [3] None); Run3A 0 0] /\
    getParameters 0 (mParamGenerator (thread s)) = None.
Proof.
  exists (fst restart_run), (take 9 (snd restart_run)),
    [Submitted (mkRequest true [3] None); Run3A 0 0], (mkRequest true [2] (Some 1)).
  split; [vm_compute; reflexivity |]. split; [vm_compute; left |].
  split; [reflexivity | vm_compute; reflexivity].
Qed.

(** ** Instances *)

Lemma requests_in_order_witness :
  length (mPendingRequests (thread early_state)) = 1%nat /\
  follow_all (snd early_run) empty_queues = Some (queues_of (thread early_state)).
Proof.
  split; [vm_compute; reflexivity |]. apply (requests_in_order early_frame). vm_compute. reflexivity.
Defined.

Lemma flight_bounded_witness :
  getMaxRequestsInflight = 4 /\
  0 <= mRequestsInProcessing (thread early_state) <= getMaxRequestsInflight /\
  length (mOutputFrames (thread early_state)) = Z.to_nat MAX_STREAM_NUMBER /\
  Forall (Forall (fun b => userBuffer b <> fakeReqBuf)) (mOutputFrames (thread early_state)).
Proof.
  split; [reflexivity |]. apply (flight_bounded early_frame early_state (snd early_run)). vm_compute. reflexivity.
Defined.

(** The first request of a session has been accepted. *)
Definition first_thread : RequestThread :=
  match perform_all [LMemory two_buffers; LRequest [2] (Some None)] new_system with
  | Some (s, _) => thread s
  | None => new_thread
  end.

Lemma applied_sequence_witness :
  let t' := snd (choose_sequence first_thread) in
  (exists a, Decided 0 = Decided a /\ mLastAppliedSeq t' = a /\
     (a = mLastSofSeq first_thread \/ a = mLastSofSeq first_thread + 1) /\
     (mLastAppliedSeq first_thread < a \/ mRequestsInProcessing first_thread = 0) /\
     mLastEffectSeq first_thread < a + getExposureLag)
  \/ (Decided 0 = AtTop /\ mRequestTriggerEvent t' = NONE_EVENT).
Proof.
  apply (applied_sequence first_thread (Decided 0)); [vm_compute; reflexivity | reflexivity |].
  vm_compute. discriminate.
Defined.

Lemma request_handled_witness :
  exists t', let r := mkRequest true [2] (Some 1) in
    perform_all (replicate 11 (LThread (Chance false 2))) (System first_thread AtTop []) =
      Some (System t' AtTop [],
        [Fetched r; Numbered 0; SetParameters None; Run3A 0 0; Effective 2 0] ++ told r 2 None) /\
    mPendingRequests t' = [] /\ mRequestsInProcessing t' = 1 /\
    mLastRequestId t' = 0 /\ mLastEffectSeq t' = 2 /\ getParameters 2 (mParamGenerator t') = Some None.
Proof.
  apply (request_handled (Chance false 2) first_thread (snd (choose_sequence first_thread)) 0 []
           (mkRequest true [2] (Some 1)) [] 2 [] (Buffer CAMERA_STREAM_PREVIEW (-1) 0) 1);
    try (vm_compute; reflexivity); [left; reflexivity | discriminate | vm_compute; discriminate].
Defined.
