(* ===== verification/ParserBase.v ===== *)
(** * Configuration files

    src/platformdata/ParserBase.cpp and .h, and what the parsers built on it
    share: C strings and the library functions the parsers call on them,
    lists of names in one attribute, and the loop over the attributes of an
    element.  Reading the file and the XML itself are left to expat: here a
    file is the sequence of its start and end tags.  The names of a tag and of
    its attributes are C strings, so they hold no zero. *)

From Stdlib Require Import Ascii String.
From S2P Require Import Prelude.
From stdpp Require Import list.
#[local] Open Scope Z_scope.

(** ** Characters *)

Definition code (c : ascii) : Z := Z.of_N (N_of_ascii c).
Definition is_char (d c : ascii) : bool := Ascii.eqb c d.

(** [isspace] in the C locale, and the characters [skipWhiteSpace] names. *)
Definition isspace (c : ascii) : bool := (code c =? 32) || ((9 <=? code c) && (code c <=? 13)).
Definition isdigit (c : ascii) : bool := (48 <=? code c) && (code c <=? 57).

(** ** Library functions *)

(** [s + strspn(s, ...)]. *)
Fixpoint skip_while (p : ascii -> bool) (s : string) : string :=
  match s with
  | EmptyString => s
  | String c s' => if p c then skip_while p s' else s
  end.

(** Up to the first such character, and from there on. *)
Fixpoint split_at (p : ascii -> bool) (s : string) : string * string :=
  match s with
  | EmptyString => (EmptyString, EmptyString)
  | String c s' =>
      if p c then (EmptyString, s)
      else let '(a, b) := split_at p s' in (String c a, b)
  end.

Definition tail (s : string) : string := match s with EmptyString => EmptyString | String _ s' => s' end.

(** [strtok_r(nullptr, d, &savePtr)]: the token and the new [savePtr]. *)
Definition strtok_r (d : ascii) (save : string) : option (string * string) :=
  match skip_while (is_char d) save with
  | EmptyString => None
  | s => let '(token, rest) := split_at (is_char d) s in Some (token, tail rest)
  end.

(** [strchr]: what comes before and after the character. *)
Definition strchr (d : ascii) (s : string) : option (string * string) :=
  match split_at (is_char d) s with
  | (_, EmptyString) => None
  | (a, b) => Some (a, tail b)
  end.

Fixpoint read_digits (s : string) (v : Z) : Z :=
  match s with
  | String c s' => if isdigit c then read_digits s' (10 * v + (code c - 48)) else v
  | EmptyString => v
  end.

(** A number out of the range of [int] is not defined behaviour. *)
Definition atoi (s : string) : Z :=
  match skip_while isspace s with
  | String "-" s' => - read_digits s' 0
  | String "+" s' => read_digits s' 0
  | s' => read_digits s' 0
  end.

(** [std::stoi]: none when it throws. *)
Definition stoi (s : string) : option Z :=
  let number s' :=
    match s' with
    | String c _ => if isdigit c then Some (read_digits s' 0) else None
    | EmptyString => None
    end in
  let v :=
    match skip_while isspace s with
    | String "-" s' => Z.opp <$> number s'
    | String "+" s' => number s'
    | s' => number s'
    end in
  match v with
  | Some v => if (- 2 ^ 31 <=? v) && (v <? 2 ^ 31) then Some v else None
  | None => None
  end.

(** ** Lists of names *)

Definition skipWhiteSpace : string -> string := skip_while isspace.

(** The [while] of [parseXmlConvertStrings]; none when the fuel is used up. *)
Fixpoint tokens (fuel : nat) (d : ascii) (save : string) : option (list string) :=
  match fuel with
  | O => None
  | S fuel =>
      match strtok_r d save with
      | None => Some []
      | Some (token, save) => cons token <$> tokens fuel d (skipWhiteSpace save)
      end
  end.

Definition parseXmlConvertStrings {T} (str : string) (vector : list T) (parseXmlString : string -> T) : list T :=
  vector ++ map parseXmlString (default [] (tokens (S (String.length str)) "," str)).

Definition convertCharToString (str : string) : string := str.

(** [table] as far as it is written. *)
Definition parseXmlParameterToChar (str : string) : list Z :=
  map (fun t => atoi t mod 256) (default [] (tokens (S (String.length str)) "," str)).

(** The calls of [std::getline] in [CameraUtils::splitString], with what has
    been read of the current item. *)
Fixpoint get_lines (d : ascii) (s item : string) : list string :=
  match s with
  | EmptyString => match item with EmptyString => [] | _ => [item] end
  | String c s' =>
      if is_char d c then item :: get_lines d s' EmptyString
      else get_lines d s' (item ++ String c EmptyString)
  end.

Definition splitString (s : string) (d : ascii) : list string := get_lines d s EmptyString.

(** ** Elements *)

Inductive xml_event :=
| StartElement (name : string) (atts : list string)
| EndElement (name : string).

(** [while (atts[idx]) { key = atts[idx]; val = atts[idx + 1]; ...; idx += 2; }]
    over the strings before the null pointer.  None when the loop leaves the
    array, uses the null pointer as a value, or when the body fails. *)
Fixpoint each_attribute {T} (fuel : nat) (body : string -> string -> T -> option T) (atts : list string)
    (idx : nat) (s : T) : option T :=
  match fuel with
  | O => None
  | S fuel =>
      if (length atts <? idx)%nat then None
      else
        match atts !! idx with
        | None => Some s
        | Some key =>
            match atts !! (idx + 1)%nat with
            | None => None
            | Some val =>
                match body key val s with
                | None => None
                | Some s => each_attribute fuel body atts (idx + 2) s
                end
            end
        end
  end.

Definition attributes {T} (body : string -> string -> T -> option T) (atts : list string) (s : T) : option T :=
  each_attribute (S (length atts)) body atts 0 s.

(** ** Loops end *)

Lemma skip_while_length p s : (String.length (skip_while p s) <= String.length s)%nat.
Proof. induction s as [| c s IH]; cbn; [lia |]. destruct (p c); cbn; lia. Qed.

Lemma split_at_length p s a b :
  split_at p s = (a, b) -> (String.length a + String.length b = String.length s)%nat.
Proof.
  revert a b. induction s as [| c s IH]; intros a b; cbn; [intros [= <- <-]; reflexivity |].
  destruct (p c); [intros [= <- <-]; reflexivity |].
  destruct (split_at p s) as [a' b'] eqn:E. intros [= <- <-]. cbn. rewrite (IH a' b' eq_refl). reflexivity.
Qed.

Lemma strtok_r_shorter d save token save' :
  strtok_r d save = Some (token, save') -> (String.length save' < String.length save)%nat.
Proof.
  unfold strtok_r. pose proof (skip_while_length (is_char d) save) as Hl.
  destruct (skip_while (is_char d) save) as [| c s] eqn:E; [discriminate |].
  destruct (split_at (is_char d) (String c s)) as [a b] eqn:E'. intros [= <- <-].
  apply split_at_length in E'. destruct b; cbn in *; lia.
Qed.

(** The loop over the names of an attribute ends: each pass leaves less of
    the string, and one pass more than it has characters is enough, whatever
    the string. *)
Theorem tokens_end d s fuel :
  (String.length s < fuel)%nat -> exists l, tokens fuel d s = Some l /\ (length l <= String.length s)%nat.
Proof.
  revert s. induction fuel as [| fuel IH]; intros s Hf; [lia |]. cbn [tokens].
  destruct (strtok_r d s) as [[token save] |] eqn:E; [| exists []; split; [reflexivity | cbn; lia]].
  apply strtok_r_shorter in E. pose proof (skip_while_length isspace save).
  destruct (IH (skipWhiteSpace save)) as (l & -> & Hl); [unfold skipWhiteSpace; lia |].
  exists (token :: l). split; [reflexivity |]. unfold skipWhiteSpace in Hl. cbn. lia.
Qed.

(** The pairs of an attribute array. *)
Fixpoint pairs (l : list string) : list (string * string) :=
  match l with
  | key :: val :: l' => (key, val) :: pairs l'
  | _ => []
  end.

Definition each_pair {T} (body : string -> string -> T -> option T) (l : list (string * string)) (s : T) : option T :=
  foldl (fun o kv => o ≫= body (fst kv) (snd kv)) (Some s) l.

Lemma each_pair_fail {T} (body : string -> string -> T -> option T) l :
  foldl (fun o kv => o ≫= body (fst kv) (snd kv)) None l = None.
Proof. induction l as [| kv l IH]; [reflexivity | exact IH]. Qed.

Lemma each_attribute_pairs {T} (body : string -> string -> T -> option T) atts kvs idx fuel s :
  drop idx atts = flat_map (fun kv => [fst kv; snd kv]) kvs -> (idx <= length atts)%nat ->
  (length kvs < fuel)%nat ->
  each_attribute fuel body atts idx s = each_pair body kvs s.
Proof.
  revert idx fuel s. induction kvs as [| [key val] kvs IH]; intros idx fuel s Hd Hi Hf;
    (destruct fuel as [| fuel]; [cbn in Hf; lia |]); cbn [each_attribute];
    rewrite (proj2 (Nat.ltb_ge _ _) Hi).
  - cbn in Hd. assert (length atts <= idx)%nat as Hl.
    { assert (length (drop idx atts) = 0%nat) as E by (rewrite Hd; reflexivity). rewrite length_drop in E. lia. }
    rewrite (lookup_ge_None_2 _ _ Hl). reflexivity.
  - cbn [flat_map fst snd app] in Hd.
    assert (atts !! idx = Some key) as E1 by (rewrite <- (Nat.add_0_r idx), <- lookup_drop, Hd; reflexivity).
    assert (atts !! (idx + 1)%nat = Some val) as E2 by (rewrite <- lookup_drop, Hd; reflexivity).
    rewrite E1, E2. unfold each_pair. cbn [foldl fst snd mbind option_bind].
    destruct (body key val s) as [s' |]; [| rewrite each_pair_fail; reflexivity].
    apply IH.
    + rewrite <- drop_drop, Hd. reflexivity.
    + apply lookup_lt_Some in E2. lia.
    + cbn in Hf. lia.
Qed.

(** The loop over attributes is a loop over pairs, for what expat promises:
    an even number of strings. *)
Lemma attributes_pairs {T} (body : string -> string -> T -> option T) kvs s :
  attributes body (flat_map (fun kv => [fst kv; snd kv]) kvs) s = each_pair body kvs s.
Proof.
  unfold attributes. apply each_attribute_pairs; [reflexivity | lia |].
  induction kvs as [| kv kvs IH]; cbn in *; lia.
Qed.

(** ** Printing

    What the parsers read back: numbers in decimal, and lists of names with a
    character between them. *)

Definition digit (n : Z) : ascii := ascii_of_N (Z.to_N (48 + n mod 10)).

Fixpoint decimal_from (fuel : nat) (n : Z) (acc : string) : string :=
  match fuel with
  | O => acc
  | S fuel => if n <? 10 then String (digit n) acc else decimal_from fuel (n / 10) (String (digit n) acc)
  end.

(** A non-negative number below [2 ^ 64]. *)
Definition decimal (n : Z) : string := decimal_from 20 n EmptyString.

Fixpoint all_chars (p : ascii -> bool) (s : string) : bool :=
  match s with EmptyString => true | String c s' => p c && all_chars p s' end.

(** A name that survives in a list with [d] between the names. *)
Definition plain (d : ascii) (name : string) : bool :=
  match name with
  | EmptyString => false
  | String c _ => negb (isspace c) && all_chars (fun c => negb (is_char d c)) name
  end.

Definition join_names (d : ascii) (names : list string) : string := String.concat (String d EmptyString) names.

Lemma code_digit n : code (digit n) = 48 + n mod 10.
Proof.
  unfold code, digit. rewrite N_ascii_embedding; [rewrite Z2N.id; [reflexivity |] |];
    pose proof (Z.mod_pos_bound n 10 ltac:(lia)); lia.
Qed.

Lemma isdigit_digit n : isdigit (digit n) = true.
Proof. unfold isdigit. rewrite code_digit. pose proof (Z.mod_pos_bound n 10 ltac:(lia)). lia. Qed.

Lemma read_decimal fuel n acc :
  0 <= n < 10 ^ Z.of_nat fuel -> read_digits (decimal_from fuel n acc) 0 = read_digits acc n.
Proof.
  revert n acc. induction fuel as [| fuel IH]; intros n acc Hn.
  - change (10 ^ Z.of_nat 0) with 1 in Hn. assert (n = 0) as -> by lia. reflexivity.
  - cbn [decimal_from]. destruct (Z.ltb_spec n 10) as [H | H].
    + cbn [read_digits]. rewrite isdigit_digit, code_digit, Z.mod_small by lia. f_equal. lia.
    + rewrite IH.
      * cbn [read_digits]. rewrite isdigit_digit, code_digit. f_equal.
        pose proof (Z.div_mod n 10 ltac:(lia)). lia.
      * rewrite Nat2Z.inj_succ, Z.pow_succ_r in Hn by lia. split; [apply Z.div_pos; lia |].
        apply Z.div_lt_upper_bound; lia.
Qed.

Lemma decimal_from_S fuel n acc :
  decimal_from (S fuel) n acc
  = if n <? 10 then String (digit n) acc else decimal_from fuel (n / 10) (String (digit n) acc).
Proof. reflexivity. Qed.

Lemma decimal_from_digit fuel n acc :
  (exists m s, acc = String (digit m) s) -> exists m s, decimal_from fuel n acc = String (digit m) s.
Proof.
  revert n acc. induction fuel as [| fuel IH]; intros n acc H; cbn [decimal_from]; [exact H |].
  destruct (n <? 10); eauto.
Qed.

(** A digit is neither a space nor a sign. *)
Lemma atoi_digit m s : atoi (String (digit m) s) = read_digits (String (digit m) s) 0.
Proof.
  unfold atoi. pose proof (isdigit_digit m) as Hd. cbn [skip_while].
  destruct (digit m) as [[] [] [] [] [] [] [] []]; try discriminate Hd; reflexivity.
Qed.

Lemma atoi_decimal n : 0 <= n < 2 ^ 31 -> atoi (decimal n) = n.
Proof.
  intros Hn. unfold decimal.
  assert (exists m s, decimal_from 20 n EmptyString = String (digit m) s) as (m & s & E).
  { rewrite decimal_from_S. destruct (n <? 10); [eauto |]. apply decimal_from_digit. eauto. }
  rewrite E, atoi_digit, <- E. apply read_decimal. lia.
Qed.

Lemma split_at_plain d s rest :
  all_chars (fun c => negb (is_char d c)) s = true ->
  split_at (is_char d) (s ++ String d rest)%string = (s, String d rest) /\ split_at (is_char d) s = (s, EmptyString).
Proof.
  induction s as [| c s IH]; cbn; intros H.
  - unfold is_char. rewrite Ascii.eqb_refl. auto.
  - apply andb_prop in H as [H1 H2]. apply negb_true_iff in H1. rewrite H1.
    destruct (IH H2) as [-> ->]. auto.
Qed.

Lemma strtok_plain d s rest :
  plain d s = true ->
  strtok_r d (s ++ String d rest)%string = Some (s, rest) /\ strtok_r d s = Some (s, EmptyString).
Proof.
  destruct s as [| c s]; [discriminate |]. cbn [plain]. intros [_ H]%andb_prop.
  destruct (split_at_plain d (String c s) rest H) as [E1 E2].
  cbn [all_chars] in H. apply andb_prop in H as [H _]. apply negb_true_iff in H.
  unfold strtok_r. cbn [skip_while String.append]. rewrite H. cbn [String.append] in E1. rewrite E1, E2. auto.
Qed.

Lemma skip_join d names : forallb (plain d) names = true -> skipWhiteSpace (join_names d names) = join_names d names.
Proof.
  destruct names as [| n names]; [reflexivity |]. cbn [forallb]. intros [H _]%andb_prop.
  destruct n as [| c n]; [discriminate |]. cbn [plain] in H. apply andb_prop in H as [H _].
  apply negb_true_iff in H. unfold join_names. destruct names; cbn; rewrite H; reflexivity.
Qed.

Lemma tokens_join d names fuel :
  forallb (plain d) names = true -> (length names < fuel)%nat -> tokens fuel d (join_names d names) = Some names.
Proof.
  revert fuel. induction names as [| n names IH]; intros fuel Hp Hf; (destruct fuel as [| fuel]; [cbn in Hf; lia |]).
  - reflexivity.
  - cbn [forallb] in Hp. apply andb_prop in Hp as [Hn Hp].
    assert (tokens fuel d (join_names d names) = Some names) as E by (apply IH; [exact Hp | cbn in Hf; lia]).
    pose proof (skip_join d names Hp) as Es. cbn [tokens].
    destruct names as [| n' names].
    + change (join_names d [n]) with n. destruct (strtok_plain d n EmptyString Hn) as [_ ->].
      unfold skipWhiteSpace. cbn [skip_while]. change (join_names d []) with EmptyString in E. rewrite E. reflexivity.
    + change (join_names d (n :: n' :: names)) with (n ++ String d (join_names d (n' :: names)))%string.
      destruct (strtok_plain d n (join_names d (n' :: names)) Hn) as [-> _]. rewrite Es, E. reflexivity.
Qed.

Lemma join_length d names :
  forallb (plain d) names = true -> (length names <= String.length (join_names d names))%nat.
Proof.
  induction names as [| n names IH]; [cbn; lia |]. cbn [forallb]. intros [Hn Hp]%andb_prop. specialize (IH Hp).
  assert (1 <= String.length n)%nat by (destruct n; [discriminate | cbn; lia]).
  destruct names as [| n' names]; [cbn; lia |].
  change (join_names d (n :: n' :: names)) with (n ++ String d (join_names d (n' :: names)))%string.
  assert (forall a b, String.length (a ++ b) = (String.length a + String.length b)%nat) as L
    by (intros a b; induction a; cbn; [reflexivity | congruence]).
  rewrite L. cbn [String.length]. cbn [length] in *. lia.
Qed.

Lemma parse_join names (v : list string) :
  forallb (plain ",") names = true -> parseXmlConvertStrings (join_names "," names) v convertCharToString = v ++ names.
Proof.
  intros H. unfold parseXmlConvertStrings. pose proof (join_length "," names H).
  rewrite (tokens_join "," names) by (exact H || lia). cbn [default from_option]. f_equal. apply map_id.
Qed.

(** ** Instances *)

Lemma tokens_end_witness :
  (String.length "lb, bb,,tnr" < 12)%nat /\
  tokens 12 "," "lb, bb,,tnr" = Some ["lb"%string; "bb"%string; "tnr"%string] /\
  exists l, tokens 12 "," "lb, bb,,tnr" = Some l /\ (length l <= String.length "lb, bb,,tnr")%nat.
Proof.
  assert (String.length "lb, bb,,tnr" < 12)%nat as H by (cbn; lia).
  split; [exact H |]. split; [reflexivity |]. exact (tokens_end "," "lb, bb,,tnr" 12 H).
Defined.
