(* ===== verification/CameraSchedulerPolicy.v ===== *)
(** * The policy of the scheduler

    src/scheduler/CameraSchedulerPolicy.cpp and .h: the executors of each set
    of graphs, from the tags of pipe_scheduler_profiles.xml, and the choice of
    the active configuration.  A file is the sequence of tags that expat
    reports; none is an access outside an array. *)

From Stdlib Require Import Ascii String.
From S2P Require Import Prelude Errors ParserBase.
From stdpp Require Import list gmap.
#[local] Open Scope Z_scope.

(** ** State *)

Record ExecutorDesc := Executor_desc { exeName : string; triggerName : string; nodeList : list string }.

Record PolicyConfigDesc := Policy_desc { configId : Z; graphIds : gset Z; exeList : list ExecutorDesc }.

Inductive DataField := FIELD_INVALID | FIELD_SCHED.

(** [mCurrentConfig] counts schedulers; [mActiveConfig] is an index. *)
Record CameraSchedulerPolicy := Policy {
  mCurrentDataField : DataField;
  mCurrentConfig : nat;
  mPolicyConfigs : list PolicyConfigDesc;
  mActiveConfig : option nat;
}.

Implicit Types p : CameraSchedulerPolicy.

(** ** The parser *)

Definition set_field f p : CameraSchedulerPolicy := Policy f (mCurrentConfig p) (mPolicyConfigs p) (mActiveConfig p).
Definition set_configs l p : CameraSchedulerPolicy := Policy (mCurrentDataField p) (mCurrentConfig p) l (mActiveConfig p).
Definition set_active a p : CameraSchedulerPolicy := Policy (mCurrentDataField p) (mCurrentConfig p) (mPolicyConfigs p) a.

Definition scheduler_attribute (key val : string) (c : PolicyConfigDesc) : option PolicyConfigDesc :=
  if String.eqb key "id" then Some (Policy_desc (atoi val mod 2 ^ 32) (graphIds c) (exeList c))
  else if String.eqb key "graphId" || String.eqb key "video" || String.eqb key "still"
  then Some (Policy_desc (configId c) ({[ atoi val ]} ∪ graphIds c) (exeList c))
  else Some c.

Definition checkField (name : string) (atts : list string) p : option CameraSchedulerPolicy :=
  if String.eqb name "PipeSchedulerPolicy" then Some (set_field FIELD_INVALID p)
  else if String.eqb name "scheduler" && (mCurrentConfig p =? length (mPolicyConfigs p))%nat then
    let configs := mPolicyConfigs p ++ [Policy_desc 0 ∅ []] in
    match configs !! mCurrentConfig p with
    | None => None
    | Some desc =>
        match attributes scheduler_attribute atts desc with
        | None => None
        | Some desc => Some (set_field FIELD_SCHED (set_configs (<[mCurrentConfig p := desc]> configs) p))
        end
    end
  else Some p.

Definition executor_attribute (key val : string) (e : ExecutorDesc) : option ExecutorDesc :=
  if String.eqb key "name" then Some (Executor_desc val (triggerName e) (nodeList e))
  else if String.eqb key "nodes"
  then Some (Executor_desc (exeName e) (triggerName e) (parseXmlConvertStrings val (nodeList e) convertCharToString))
  else if String.eqb key "trigger" then Some (Executor_desc (exeName e) val (nodeList e))
  else Some e.

Definition handleExecutor (atts : list string) p : option CameraSchedulerPolicy :=
  match attributes executor_attribute atts (Executor_desc EmptyString EmptyString []) with
  | None => None
  | Some desc =>
      match mPolicyConfigs p !! mCurrentConfig p with
      | None => None
      | Some c =>
          let c := Policy_desc (configId c) (graphIds c) (exeList c ++ [desc]) in
          Some (set_configs (<[mCurrentConfig p := c]> (mPolicyConfigs p)) p)
      end
  end.

Definition handlePolicyConfig (name : string) (atts : list string) p : option CameraSchedulerPolicy :=
  if String.eqb name "pipe_executor" then handleExecutor atts p else Some p.

Definition startParseElement (name : string) (atts : list string) p : option CameraSchedulerPolicy :=
  match mCurrentDataField p with
  | FIELD_INVALID => checkField name atts p
  | FIELD_SCHED => handlePolicyConfig name atts p
  end.

Definition endParseElement (name : string) p : CameraSchedulerPolicy :=
  if String.eqb name "scheduler"
  then Policy FIELD_INVALID (S (mCurrentConfig p)) (mPolicyConfigs p) (mActiveConfig p)
  else p.

Definition parse_event (e : xml_event) p : option CameraSchedulerPolicy :=
  match e with
  | StartElement name atts => startParseElement name atts p
  | EndElement name => Some (endParseElement name p)
  end.

Definition parse (events : list xml_event) p : option CameraSchedulerPolicy :=
  foldl (fun o e => o ≫= parse_event e) (Some p) events.

Definition empty_policy : CameraSchedulerPolicy := Policy FIELD_INVALID 0 [] None.

(** The constructor, on the tags of the file. *)
Definition new_policy (events : list xml_event) : option CameraSchedulerPolicy :=
  match parse events empty_policy with
  | None => None
  | Some p => Some (match mPolicyConfigs p with [] => p | _ => set_active (Some 0%nat) p end)
  end.

(** ** Choosing and reading a configuration *)

Fixpoint matching (ids : gset Z) (configs : list PolicyConfigDesc) (i : nat) : option nat :=
  match configs with
  | [] => None
  | item :: configs =>
      if negb (size ids =? size (graphIds item))%nat then matching ids configs (S i)
      else if forallb (fun id => bool_decide (id ∈ graphIds item)) (elements ids) then Some i
      else matching ids configs (S i)
  end.

Definition setConfig (ids : gset Z) p : Z * CameraSchedulerPolicy :=
  match matching ids (mPolicyConfigs p) 0 with
  | Some i => (OK, set_active (Some i) p)
  | None => (BAD_VALUE, p)
  end.

Definition active p : option PolicyConfigDesc := mActiveConfig p ≫= fun i => mPolicyConfigs p !! i.

(** The map from names to triggers is ordered by the addresses of the names:
    [address i] is that of the name of executor [i]. *)
Definition getExecutors (address : nat -> Z) (executors : gmap Z (string * string)) p
    : Z * gmap Z (string * string) :=
  match active p with
  | None => (0, executors)
  | Some c =>
      (Z.of_nat (length (exeList c)),
       foldl (fun m ie => <[address (fst ie) := (exeName (snd ie), triggerName (snd ie))]> m) executors
         (imap pair (exeList c)))
  end.

Definition getNodeList (name : string) p : Z * option (list string) :=
  match active p with
  | None => (BAD_VALUE, None)
  | Some c =>
      match List.find (fun e => String.eqb (exeName e) name) (exeList c) with
      | Some e => (OK, Some (nodeList e))
      | None => (BAD_VALUE, None)
      end
  end.

(** ** Parsing is safe *)

(** Inside a scheduler its description is the last one. *)
Definition in_step p : Prop :=
  match mCurrentDataField p with
  | FIELD_SCHED => S (mCurrentConfig p) = length (mPolicyConfigs p)
  | FIELD_INVALID => (length (mPolicyConfigs p) <= mCurrentConfig p)%nat
  end.

Definition well_formed_tag (e : xml_event) : Prop :=
  match e with
  | StartElement _ atts => exists kvs : list (string * string), atts = flat_map (fun kv => [fst kv; snd kv]) kvs
  | EndElement _ => True
  end.

Lemma each_pair_total {T} (body : string -> string -> T -> option T) kvs s :
  (forall k v s, is_Some (body k v s)) -> is_Some (each_pair body kvs s).
Proof.
  intros H. unfold each_pair. revert s. induction kvs as [| [k v] kvs IH]; intros s; cbn; [eauto |].
  destruct (H k v s) as [s' ->]. apply IH.
Qed.

Lemma scheduler_attribute_total k v c : is_Some (scheduler_attribute k v c).
Proof. unfold scheduler_attribute. repeat case_match; eauto. Qed.
Lemma executor_attribute_total k v e : is_Some (executor_attribute k v e).
Proof. unfold executor_attribute. repeat case_match; eauto. Qed.

Lemma parse_event_safe e p :
  well_formed_tag e -> in_step p -> exists p', parse_event e p = Some p' /\ in_step p'.
Proof.
  intros Hw Hp. destruct e as [name atts | name]; cbn [parse_event].
  - destruct Hw as [kvs ->]. unfold startParseElement, in_step in *.
    destruct (mCurrentDataField p) eqn:Ef.
    + unfold checkField. destruct (String.eqb name _); [eexists; split; [reflexivity | exact Hp] |].
      destruct (String.eqb name _ && _) eqn:E; [| eexists; rewrite Ef; split; [reflexivity | exact Hp]].
      apply andb_prop in E as [_ E]. apply Nat.eqb_eq in E.
      rewrite lookup_app_r, E, Nat.sub_diag by lia. cbn [lookup list_lookup].
      rewrite attributes_pairs. destruct (each_pair_total scheduler_attribute kvs (Policy_desc 0 ∅ []) scheduler_attribute_total) as [d ->].
      eexists. split; [reflexivity |]. cbn. rewrite length_insert, length_app. cbn. lia.
    + unfold handlePolicyConfig. destruct (String.eqb name _); [| eexists; rewrite Ef; split; [reflexivity | exact Hp]].
      unfold handleExecutor. rewrite attributes_pairs.
      destruct (each_pair_total executor_attribute kvs (Executor_desc EmptyString EmptyString []) executor_attribute_total) as [d ->].
      destruct (lookup_lt_is_Some_2 (mPolicyConfigs p) (mCurrentConfig p)) as [c ->]; [lia |].
      eexists. split; [reflexivity |]. cbn. rewrite Ef, length_insert. exact Hp.
  - eexists. split; [reflexivity |]. unfold endParseElement, in_step in *.
    destruct (String.eqb name _); [| exact Hp]. cbn. destruct (mCurrentDataField p); lia.
Qed.

(** Whatever tags the file has, nested or repeated as they may be, the
    parser stays inside its arrays: attributes come in pairs from expat, and
    an executor is only ever added to the scheduler that is open. *)
Theorem parse_safe events :
  Forall well_formed_tag events -> exists p, new_policy events = Some p /\ in_step p.
Proof.
  intros H. unfold new_policy. enough (exists p, parse events empty_policy = Some p /\ in_step p) as (p & -> & Hp).
  { eexists. split; [reflexivity |]. destruct (mPolicyConfigs p) eqn:E; [exact Hp |].
    unfold in_step in *. cbn. exact Hp. }
  assert (in_step empty_policy) as Hs by (cbn; lia). revert Hs. generalize empty_policy. unfold parse.
  induction H as [| e events He H IH]; intros p Hp; cbn [foldl]; [eauto |].
  destruct (parse_event_safe e p He Hp) as (p' & E & Hp'). cbn [mbind option_bind]. rewrite E. apply IH, Hp'.
Qed.

(** ** Reading back *)

(** What a [scheduler] tag of a file says: its number and the graphs it is
    for, each under its own attribute; and its executors. *)
Record scheduler_entry := Scheduler_entry {
  s_id : Z; s_graphId : option Z; s_video : option Z; s_still : option Z; s_executors : list ExecutorDesc
}.

Definition number_attribute (key : string) (v : option Z) : list (string * string) :=
  match v with Some g => [(key, decimal g)] | None => [] end.

Definition scheduler_attributes (s : scheduler_entry) : list (string * string) :=
  number_attribute "id" (Some (s_id s)) ++ number_attribute "graphId" (s_graphId s)
  ++ number_attribute "video" (s_video s) ++ number_attribute "still" (s_still s).

Definition executor_attributes (e : ExecutorDesc) : list (string * string) :=
  [("name"%string, exeName e); ("nodes"%string, join_names "," (nodeList e))]
  ++ match triggerName e with EmptyString => [] | t => [("trigger"%string, t)] end.

Definition pair_list (kvs : list (string * string)) : list string := flat_map (fun kv => [fst kv; snd kv]) kvs.

(** The tags of a file, with the attributes of a tag in any order. *)
Inductive executors_text : list ExecutorDesc -> list xml_event -> Prop :=
| no_executors : executors_text [] []
| executor_text e atts l evs :
    atts ≡ₚ executor_attributes e -> executors_text l evs ->
    executors_text (e :: l) (StartElement "pipe_executor" (pair_list atts) :: EndElement "pipe_executor" :: evs).

Inductive schedulers_text : list scheduler_entry -> list xml_event -> Prop :=
| no_schedulers : schedulers_text [] []
| scheduler_text s atts body l evs :
    atts ≡ₚ scheduler_attributes s -> executors_text (s_executors s) body -> schedulers_text l evs ->
    schedulers_text (s :: l) (StartElement "scheduler" (pair_list atts) :: body ++ EndElement "scheduler" :: evs).

Definition policy_text (l : list scheduler_entry) (evs : list xml_event) : Prop :=
  exists body, schedulers_text l body
    /\ evs = StartElement "PipeSchedulerPolicy" [] :: body ++ [EndElement "PipeSchedulerPolicy"].

(** The graphs of an entry, and its configuration. *)
Definition graphs_of (s : scheduler_entry) : gset Z :=
  list_to_set (option_list (s_graphId s) ++ option_list (s_video s) ++ option_list (s_still s)).
Definition config_of (s : scheduler_entry) : PolicyConfigDesc := Policy_desc (s_id s) (graphs_of s) (s_executors s).

(** Numbers that [atoi] reads, and names without commas. *)
Definition printable (s : scheduler_entry) : Prop :=
  0 <= s_id s < 2 ^ 31 /\ (forall g, g ∈ graphs_of s -> 0 <= g < 2 ^ 31) /\
  Forall (fun e => forallb (plain ",") (nodeList e) = true) (s_executors s).

Lemma parse_app l1 l2 p : parse (l1 ++ l2) p = parse l1 p ≫= parse l2.
Proof.
  unfold parse. rewrite foldl_app. destruct (foldl _ (Some p) l1) as [p' |]; [reflexivity |].
  cbn [mbind option_bind]. induction l2 as [| e l2 IH]; [reflexivity | exact IH].
Qed.

Lemma parse_cons e l p : parse (e :: l) p = parse_event e p ≫= parse l.
Proof. exact (parse_app [e] l p). Qed.

Lemma each_pair_cons {T} (body : string -> string -> T -> option T) k v l s :
  each_pair body ((k, v) :: l) s = body k v s ≫= each_pair body l.
Proof.
  unfold each_pair. cbn [foldl fst snd mbind option_bind]. destruct (body k v s); [reflexivity | apply each_pair_fail].
Qed.

(** Attributes with different keys can be read in any order. *)
Lemma each_pair_perm {T} (body : string -> string -> T -> option T) l l' s :
  (forall k v k' v' s, k <> k' -> body k v s ≫= body k' v' = body k' v' s ≫= body k v) ->
  NoDup l.*1 -> l ≡ₚ l' -> each_pair body l s = each_pair body l' s.
Proof.
  intros Hc Hn P. revert s. induction P as [| x l l' P IH | x y l | l1 l2 l3 P1 IH1 P2 IH2]; intros s.
  - reflexivity.
  - destruct x as [k v]. rewrite !each_pair_cons. destruct (body k v s); [| reflexivity]. apply IH. by inversion Hn.
  - destruct x as [k v], y as [k' v']. rewrite !each_pair_cons. csimpl in Hn. apply NoDup_cons in Hn as [Hk _]. apply not_elem_of_cons in Hk as [Hk _].
    specialize (Hc k' v' k v s Hk).
    destruct (body k v s) as [s1 |], (body k' v' s) as [s2 |]; cbn [mbind option_bind] in *;
      rewrite ?each_pair_cons; [rewrite Hc | rewrite <- Hc | rewrite Hc |]; reflexivity.
  - rewrite IH1 by exact Hn. apply IH2. by rewrite <- P1.
Qed.

Lemma scheduler_attribute_swap k v k' v' c :
  k <> k' -> scheduler_attribute k v c ≫= scheduler_attribute k' v' = scheduler_attribute k' v' c ≫= scheduler_attribute k v.
Proof.
  intros Hne. unfold scheduler_attribute.
  destruct (String.eqb_spec k "id") as [-> | Hk]; destruct (String.eqb_spec k' "id") as [-> | Hk']; try congruence;
    repeat (match goal with |- context [if ?b then _ else _] => destruct b end; cbn [mbind option_bind configId graphIds exeList]);
    try reflexivity.
  do 2 f_equal. rewrite !(assoc_L (∪)). f_equal. apply (comm_L (∪)).
Qed.

Lemma executor_attribute_swap k v k' v' e :
  k <> k' -> executor_attribute k v e ≫= executor_attribute k' v' = executor_attribute k' v' e ≫= executor_attribute k v.
Proof.
  intros Hne. unfold executor_attribute.
  destruct (String.eqb k "name") eqn:K1, (String.eqb k' "name") eqn:K1';
    [apply String.eqb_eq in K1, K1'; congruence | ..];
    destruct (String.eqb k "nodes") eqn:K2, (String.eqb k' "nodes") eqn:K2';
    try (apply String.eqb_eq in K2, K2'; congruence);
    destruct (String.eqb k "trigger") eqn:K3, (String.eqb k' "trigger") eqn:K3';
    try (apply String.eqb_eq in K3, K3'; congruence); reflexivity.
Qed.

Lemma read_executor e atts :
  forallb (plain ",") (nodeList e) = true -> atts ≡ₚ executor_attributes e ->
  attributes executor_attribute (pair_list atts) (Executor_desc EmptyString EmptyString []) = Some e.
Proof.
  intros H P. unfold pair_list. rewrite attributes_pairs.
  rewrite (each_pair_perm _ atts (executor_attributes e) _ executor_attribute_swap).
  3: exact P. 2: { rewrite P. unfold executor_attributes. destruct (triggerName e); apply (bool_decide_unpack _); reflexivity. }
  destruct e as [name trigger nodes]. unfold executor_attributes, each_pair. cbn [exeName triggerName nodeList] in *.
  destruct trigger; cbn [app foldl fst snd mbind option_bind]; unfold executor_attribute;
    cbn [String.eqb Ascii.eqb Bool.eqb exeName triggerName nodeList mbind option_bind];
    rewrite (parse_join nodes []) by exact H; reflexivity.
Qed.

(** The executors of the open scheduler. *)
Lemma read_executors l evs c configs a :
  executors_text l evs -> Forall (fun e => forallb (plain ",") (nodeList e) = true) l ->
  parse evs (Policy FIELD_SCHED (length configs) (configs ++ [c]) a)
  = Some (Policy FIELD_SCHED (length configs)
            (configs ++ [Policy_desc (configId c) (graphIds c) (exeList c ++ l)]) a).
Proof.
  intros X. revert c. induction X as [| e atts l evs P X IH]; intros c H.
  - cbn. rewrite app_nil_r. destruct c; reflexivity.
  - apply Forall_cons in H as [He H]. rewrite parse_cons.
    cbn [parse_event startParseElement mCurrentDataField]. unfold handlePolicyConfig. cbn [String.eqb Ascii.eqb Bool.eqb].
    unfold handleExecutor. rewrite (read_executor e atts He P). cbn [mPolicyConfigs mCurrentConfig].
    rewrite lookup_app_r, Nat.sub_diag by lia. cbn [lookup list_lookup].
    rewrite insert_app_r_alt, Nat.sub_diag by lia. unfold set_configs. cbn [mbind option_bind]. rewrite parse_cons. cbn.
    specialize (IH (Policy_desc (configId c) (graphIds c) (exeList c ++ [e])) H). cbn in IH.
    rewrite <- app_assoc in IH. exact IH.
Qed.

Lemma read_number key v c :
  (key = "graphId" \/ key = "video" \/ key = "still")%string -> (forall g, v = Some g -> 0 <= g < 2 ^ 31) ->
  each_pair scheduler_attribute (number_attribute key v) c
  = Some (Policy_desc (configId c) (list_to_set (option_list v) ∪ graphIds c) (exeList c)).
Proof.
  intros Hk Hv. destruct v as [g |]; cbn [number_attribute option_list option_map list_to_set].
  - rewrite each_pair_cons. assert (E : scheduler_attribute key (decimal g) c
      = Some (Policy_desc (configId c) ({[ atoi (decimal g) ]} ∪ graphIds c) (exeList c)))
      by (destruct Hk as [-> | [-> | ->]]; reflexivity).
    rewrite E, atoi_decimal by (apply Hv; reflexivity). cbn. rewrite union_empty_r_L. reflexivity.
  - cbn. rewrite union_empty_l_L. destruct c; reflexivity.
Qed.

Lemma each_pair_app {T} (body : string -> string -> T -> option T) l l' s :
  each_pair body (l ++ l') s = each_pair body l s ≫= each_pair body l'.
Proof.
  revert s. induction l as [| [k v] l IH]; intros s; [reflexivity |]. cbn [app]. rewrite !each_pair_cons.
  destruct (body k v s); [apply IH | reflexivity].
Qed.

Lemma read_scheduler_attributes s atts :
  printable s -> atts ≡ₚ scheduler_attributes s ->
  attributes scheduler_attribute (pair_list atts) (Policy_desc 0 ∅ []) = Some (Policy_desc (s_id s) (graphs_of s) []).
Proof.
  intros (Hid & Hg & _) P. unfold pair_list. rewrite attributes_pairs.
  rewrite (each_pair_perm _ atts (scheduler_attributes s) _ scheduler_attribute_swap).
  3: exact P. 2: { rewrite P. unfold scheduler_attributes. destruct (s_graphId s), (s_video s), (s_still s);
                     apply (bool_decide_unpack _); reflexivity. }
  unfold scheduler_attributes. rewrite each_pair_app. cbn [number_attribute]. rewrite each_pair_cons.
  change (scheduler_attribute "id" (decimal (s_id s)) (Policy_desc 0 ∅ []))
    with (Some (Policy_desc (atoi (decimal (s_id s)) mod 2 ^ 32) ∅ [])).
  rewrite atoi_decimal, Z.mod_small by lia. cbn [mbind option_bind]. change (each_pair scheduler_attribute [] ?c) with (Some c).
  cbn [mbind option_bind]. unfold graphs_of in *.
  rewrite each_pair_app, read_number; [| auto |]; cbn [mbind option_bind].
  rewrite each_pair_app, read_number; [| auto |]; cbn [mbind option_bind].
  rewrite read_number; [| auto |]; cbn [configId graphIds exeList].
  1: { do 2 f_equal. set_solver. }
  all: intros g E; apply Hg; rewrite !list_to_set_app_L, E; set_solver.
Qed.

Lemma read_scheduler s atts body evs configs a :
  printable s -> atts ≡ₚ scheduler_attributes s -> executors_text (s_executors s) body ->
  parse (StartElement "scheduler" (pair_list atts) :: body ++ EndElement "scheduler" :: evs)
    (Policy FIELD_INVALID (length configs) configs a)
  = parse evs (Policy FIELD_INVALID (length (configs ++ [config_of s])) (configs ++ [config_of s]) a).
Proof.
  intros Hp P X. rewrite parse_cons.
  cbn [parse_event startParseElement mCurrentDataField]. unfold checkField. cbn [String.eqb Ascii.eqb Bool.eqb andb].
  cbn [mCurrentConfig mPolicyConfigs]. rewrite Nat.eqb_refl, lookup_app_r, Nat.sub_diag by lia. cbn [lookup list_lookup].
  rewrite (read_scheduler_attributes s atts Hp P). cbn [mbind option_bind].
  rewrite insert_app_r_alt, Nat.sub_diag by lia. cbn [insert list_insert].
  rewrite parse_app. unfold set_field, set_configs. cbn [mCurrentConfig mPolicyConfigs mActiveConfig].
  rewrite (read_executors _ _ _ _ _ X) by apply Hp. cbn [configId graphIds exeList app mbind option_bind].
  rewrite parse_cons. cbn [parse_event mbind option_bind]. unfold endParseElement.
  cbn [String.eqb Ascii.eqb Bool.eqb mCurrentConfig mPolicyConfigs mActiveConfig].
  rewrite length_app. cbn [length]. rewrite Nat.add_1_r. reflexivity.
Qed.

Lemma read_schedulers l evs configs a :
  schedulers_text l evs -> Forall printable l ->
  parse evs (Policy FIELD_INVALID (length configs) configs a)
  = Some (Policy FIELD_INVALID (length (configs ++ (config_of <$> l))) (configs ++ (config_of <$> l)) a).
Proof.
  intros X. revert configs. induction X as [| s atts body l evs P Xe X IH]; intros configs H.
  - rewrite app_nil_r. reflexivity.
  - apply Forall_cons in H as [Hc H]. rewrite (read_scheduler s atts body evs configs a Hc P Xe), IH by exact H.
    rewrite <- app_assoc. reflexivity.
Qed.

(** C29: the parser reads back the schedulers that a file describes, with the
    attributes of its tags in any order and each at most once in a tag: all
    of them in their order, with their number, the graphs named by graphId,
    video and still, and their executors, nodes and triggers; and the first
    one is active.  Numbers are those below 2^31 and names of nodes have no
    commas. *)
Theorem policy_round_trip l events :
  Forall printable l -> policy_text l events ->
  new_policy events
  = Some (Policy FIELD_INVALID (length l) (config_of <$> l) (match l with [] => None | _ => Some 0%nat end)).
Proof.
  intros H (body & X & ->). unfold new_policy, empty_policy. rewrite parse_cons.
  cbn [parse_event startParseElement mCurrentDataField empty_policy]. unfold checkField. cbn [String.eqb Ascii.eqb Bool.eqb].
  cbn [mbind option_bind]. rewrite parse_app. unfold set_field. cbn [mCurrentConfig mPolicyConfigs mActiveConfig].
  pose proof (read_schedulers l body [] None X H) as E. cbn [length app] in E. rewrite E.
  unfold parse. cbn [foldl mbind option_bind parse_event]. unfold endParseElement. cbn [String.eqb Ascii.eqb Bool.eqb mPolicyConfigs].
  rewrite length_fmap. destruct l; reflexivity.
Qed.

(** ** Choosing *)

Lemma same_set (a b : gset Z) :
  (size a =? size b)%nat && forallb (fun id => bool_decide (id ∈ b)) (elements a) = bool_decide (a = b).
Proof.
  destruct (bool_decide_reflect (a = b)) as [-> | Hne].
  - rewrite Nat.eqb_refl. apply forallb_forall. intros id Hi. apply bool_decide_eq_true.
    apply elem_of_elements, list_elem_of_In, Hi.
  - apply not_true_iff_false. intros [H1 H2]%andb_prop. apply Nat.eqb_eq in H1. apply Hne.
    apply set_subseteq_size_eq; [| lia]. intros id Hi. rewrite forallb_forall in H2.
    specialize (H2 id). rewrite bool_decide_eq_true in H2. apply H2, list_elem_of_In, elem_of_elements, Hi.
Qed.

Lemma matching_spec ids configs i :
  match matching ids configs i with
  | Some k => exists c, (i <= k)%nat /\ configs !! (k - i)%nat = Some c /\ graphIds c = ids /\
                forall j c', (j < k - i)%nat -> configs !! j = Some c' -> graphIds c' <> ids
  | None => forall c, c ∈ configs -> graphIds c <> ids
  end.
Proof.
  revert i. induction configs as [| item configs IH]; intros i; cbn [matching].
  - intros c Hc. apply not_elem_of_nil in Hc as [].
  - pose proof (same_set ids (graphIds item)) as E.
    assert (forall k, matching ids configs (S i) = k -> graphIds item <> ids ->
      match k with
      | Some k => exists c, (i <= k)%nat /\ (item :: configs) !! (k - i)%nat = Some c /\ graphIds c = ids /\
                    forall j c', (j < k - i)%nat -> (item :: configs) !! j = Some c' -> graphIds c' <> ids
      | None => forall c, c ∈ item :: configs -> graphIds c <> ids
      end) as Hskip.
    { intros k Hk Hne. specialize (IH (S i)). rewrite Hk in IH. destruct k as [k |].
      - destruct IH as (c & Hi & Hl & Hc & Hf). exists c. split; [lia |].
        replace (k - i)%nat with (S (k - S i)) by lia. split; [exact Hl |]. split; [exact Hc |].
        intros [| j] c' Hj Hc'; cbn in Hc'; [congruence |]. apply (Hf j); [lia | exact Hc'].
      - intros c [-> | Hc]%elem_of_cons; [exact Hne | apply IH, Hc]. }
    destruct (size ids =? size (graphIds item))%nat; cbn [negb andb] in E |- *.
    + destruct (forallb _ _).
      * symmetry in E. apply bool_decide_eq_true in E. exists item. rewrite Nat.sub_diag. split; [lia |].
        split; [reflexivity |]. split; [symmetry; exact E |]. intros j c' Hj. lia.
      * symmetry in E. apply bool_decide_eq_false in E. apply Hskip; [reflexivity | congruence].
    + symmetry in E. apply bool_decide_eq_false in E. apply Hskip; [reflexivity | congruence].
Qed.

(** [setConfig] makes the first configuration for exactly the given graphs
    active, answers [BAD_VALUE] when there is none, and then keeps the active
    one. *)
Theorem setConfig_spec ids p :
  match setConfig ids p with
  | (ret, p') =>
      mPolicyConfigs p' = mPolicyConfigs p /\
      ((ret = OK /\ exists i c, mActiveConfig p' = Some i /\ mPolicyConfigs p !! i = Some c /\ graphIds c = ids /\
          forall j c', (j < i)%nat -> mPolicyConfigs p !! j = Some c' -> graphIds c' <> ids)
       \/ (ret = BAD_VALUE /\ p' = p /\ forall c, c ∈ mPolicyConfigs p -> graphIds c <> ids))
  end.
Proof.
  unfold setConfig. pose proof (matching_spec ids (mPolicyConfigs p) 0) as M.
  destruct (matching ids (mPolicyConfigs p) 0) as [i |].
  - destruct M as (c & _ & Hl & Hc & Hf). rewrite Nat.sub_0_r in *. split; [reflexivity |]. left.
    split; [reflexivity |]. exists i, c. auto.
  - split; [reflexivity |]. right. auto.
Qed.

(** ** Instances *)

(** A file for a video and a still graph; the executor of the second stage
    runs on the first. *)
Definition example_entry : scheduler_entry :=
  Scheduler_entry 1 None (Some 100000) (Some 100002)
    [Executor_desc "lb" EmptyString ["lb_video"%string; "lb_still"%string]; Executor_desc "bb" "lb" ["bb_video"%string]].

Definition example_tags : list xml_event :=
  [StartElement "PipeSchedulerPolicy" [];
   StartElement "scheduler" ["video"%string; "100000"%string; "still"%string; "100002"%string; "id"%string; "1"%string];
   StartElement "pipe_executor" ["name"%string; "lb"%string; "nodes"%string; "lb_video,lb_still"%string];
   EndElement "pipe_executor";
   StartElement "pipe_executor" ["name"%string; "bb"%string; "trigger"%string; "lb"%string; "nodes"%string; "bb_video"%string];
   EndElement "pipe_executor"; EndElement "scheduler"; EndElement "PipeSchedulerPolicy"].

Lemma example_printable : Forall printable [example_entry].
Proof.
  constructor; [| constructor]. split; [cbn; lia |]. split; [| repeat constructor].
  unfold graphs_of. cbn. intros g Hg. assert (g = 100000 \/ g = 100002) by set_solver. lia.
Defined.

Lemma example_text : policy_text [example_entry] example_tags.
Proof.
  eexists. split.
  - eapply (scheduler_text example_entry [("video", "100000"); ("still", "100002"); ("id", "1")]%string);
      [| | apply no_schedulers].
    + change (scheduler_attributes example_entry) with [("id", "1"); ("video", "100000"); ("still", "100002")]%string.
      apply (Permutation_app_comm [("video", "100000"); ("still", "100002")]%string [("id", "1")]%string).
    + eapply (executor_text _ [("name", "lb"); ("nodes", "lb_video,lb_still")]%string); [reflexivity |].
      eapply (executor_text _ [("name", "bb"); ("trigger", "lb"); ("nodes", "bb_video")]%string); [| apply no_executors].
      change (executor_attributes _) with [("name", "bb"); ("nodes", "bb_video"); ("trigger", "lb")]%string.
      apply perm_skip, perm_swap.
  - reflexivity.
Defined.

Lemma policy_round_trip_witness :
  Forall printable [example_entry] /\
  new_policy example_tags = Some (Policy FIELD_INVALID 1 [config_of example_entry] (Some 0%nat)).
Proof. split; [exact example_printable | exact (policy_round_trip [example_entry] example_tags example_printable example_text)]. Defined.

(** A scheduler inside a scheduler. *)
Definition nested_tags : list xml_event :=
  [StartElement "scheduler" ["id"%string; "1"%string]; StartElement "scheduler" ["id"%string; "2"%string];
   EndElement "scheduler"; StartElement "pipe_executor" []; EndElement "scheduler";
   StartElement "scheduler" ["id"%string; "3"%string]; EndElement "scheduler"].

Lemma parse_safe_witness :
  Forall well_formed_tag nested_tags /\ exists p, new_policy nested_tags = Some p /\ in_step p.
Proof.
  assert (Forall well_formed_tag nested_tags) as H.
  { unfold nested_tags. repeat constructor; cbn [well_formed_tag];
      [exists [("id"%string, "1"%string)] | exists [("id"%string, "2"%string)] | exists [] | exists [("id"%string, "3"%string)]];
      reflexivity. }
  split; [exact H | exact (parse_safe nested_tags H)].
Defined.
