(* ===== verification/CameraScheduler.v ===== *)
(** * The scheduler

    src/scheduler/CameraScheduler.cpp and .h: an executor for each entry of
    the active policy, with the nodes that registered for it, which runs when
    its trigger source does or when [executeNode] names that source.  An
    executor is a thread: here the state of its wait on [mTriggerSignal] is a
    member, and each passage between waiting and processing is a step.  Groups
    are shared by index; the executors of a group and of a listener are the
    same object.  The order of [std::map<const char*, ...>] is that of the
    addresses of the names, which are up to the allocator. *)

From Stdlib Require Import String.
From S2P Require Import Prelude Errors OrderedMap ParserBase CameraSchedulerPolicy.
From stdpp Require Import list gmap sorting relations.
#[local] Open Scope Z_scope.

(** ** State *)

(** A thread that waits, one that was signalled, one that processes a frame, one
    that is on its way to the wait, where no signal reaches it, and one that has
    left its loop. *)
Inductive activity := Asleep | Woken | Busy (tick : Z) | Away | Exited.

Record Executor := mkExecutor {
  mName : string;
  mNodes : list Z;
  mListeners : list nat;
  mActive : bool;
  mTriggerTick : Z;
  mThread : activity;
}.

Record ExecutorGroup := Group { executor : Executor; triggerSource : string; groupNodes : list string }.

Record CameraScheduler := Scheduler {
  mPolicy : CameraSchedulerPolicy;
  mExeGroups : list ExecutorGroup;
  mRegisteredNodes : gmap Z nat;
  mTriggerCount : Z;
}.

Implicit Types s : CameraScheduler.

Definition set_groups l s : CameraScheduler := Scheduler (mPolicy s) l (mRegisteredNodes s) (mTriggerCount s).
Definition set_nodes m s : CameraScheduler := Scheduler (mPolicy s) (mExeGroups s) m (mTriggerCount s).

Definition on_executor (f : Executor -> Executor) (g : ExecutorGroup) : ExecutorGroup :=
  Group (f (executor g)) (triggerSource g) (groupNodes g).

Definition new_executor (name : string) : Executor := mkExecutor name [] [] false 0 Away.

Definition set_thread a (e : Executor) : Executor :=
  mkExecutor (mName e) (mNodes e) (mListeners e) (mActive e) (mTriggerTick e) a.
Definition set_executor_nodes l (e : Executor) : Executor :=
  mkExecutor (mName e) l (mListeners e) (mActive e) (mTriggerTick e) (mThread e).

Definition addListener (i : nat) (e : Executor) : Executor :=
  mkExecutor (mName e) (mNodes e) (mListeners e ++ [i]) (mActive e) (mTriggerTick e) (mThread e).

Definition addNode (node : Z) (e : Executor) : Executor := set_executor_nodes (mNodes e ++ [node]) e.

(** The first occurrence. *)
Fixpoint remove_first (node : Z) (l : list Z) : list Z :=
  match l with [] => [] | n :: l' => if n =? node then l' else n :: remove_first node l' end.

Definition removeNode (node : Z) (e : Executor) : Executor := set_executor_nodes (remove_first node (mNodes e)) e.

(** A signal wakes a thread that waits and is forgotten otherwise. *)
Definition trigger (tick : Z) (e : Executor) : Executor :=
  mkExecutor (mName e) (mNodes e) (mListeners e) true tick
    (match mThread e with Asleep => Woken | a => a end).

Section Scheduler.
(** The name of a node, and where the names of the executors of a
    configuration lie. *)
Context (getName : Z -> string) (address : nat -> nat -> Z).

(** ** Configuration *)

Definition key_le (a b : Z * (string * string)) : Prop := fst a <= fst b.

#[local] Instance key_le_dec a b : Decision (key_le a b) := decide (fst a <= fst b).

(** The order in which the map is walked. *)
Definition by_address (m : gmap Z (string * string)) : list (string * string) :=
  map snd (merge_sort key_le (map_to_list m)).

Fixpoint findExecutor (exeName : string) (groups : list ExecutorGroup) : option nat :=
  match groups with
  | [] => None
  | g :: groups =>
      if String.eqb (mName (executor g)) exeName then Some 0%nat else S <$> findExecutor exeName groups
  end.

Definition create_group (policy : CameraSchedulerPolicy) (groups : list ExecutorGroup)
    (exe : string * string) : list ExecutorGroup :=
  let '(name, source) := exe in
  let groups' :=
    if String.eqb source EmptyString then groups
    else
      match findExecutor source groups with
      | Some i => alter (on_executor (addListener (length groups))) i groups
      | None => groups
      end in
  groups' ++ [Group (new_executor name) source (default [] (snd (getNodeList name policy)))].

Definition createExecutors s : Z * CameraScheduler :=
  let '(exeNumber, executors) := getExecutors (address (default 0%nat (mActiveConfig (mPolicy s)))) ∅ (mPolicy s) in
  if exeNumber <=? 0 then (UNKNOWN_ERROR, s)
  else (OK, set_groups (foldl (create_group (mPolicy s)) (mExeGroups s) (by_address executors)) s).

Definition destoryExecutors s : CameraScheduler := set_groups [] (set_nodes ∅ s).

Definition configurate (graphIds : gset Z) s : Z * CameraScheduler :=
  let '(ret, policy) := setConfig graphIds (mPolicy s) in
  if negb (ret =? OK) then (ret, s)
  else createExecutors (destoryExecutors (Scheduler policy (mExeGroups s) (mRegisteredNodes s) 0)).

(** ** Nodes *)

(** The last group that lists the name: the loop over groups goes on. *)
Fixpoint group_of (name : string) (groups : list ExecutorGroup) (i : nat) (group : option nat) : option nat :=
  match groups with
  | [] => group
  | g :: groups => group_of name groups (S i) (if existsb (String.eqb name) (groupNodes g) then Some i else group)
  end.

Definition registerNode (node : Z) s : Z * CameraScheduler :=
  match group_of (getName node) (mExeGroups s) 0 None with
  | None => (BAD_VALUE, s)
  | Some i =>
      let s := set_groups (alter (on_executor (addNode node)) i (mExeGroups s)) s in
      (OK, set_nodes (<[node := i]> (mRegisteredNodes s)) s)
  end.

Definition unregisterNode (node : Z) s : CameraScheduler :=
  match mRegisteredNodes s !! node with
  | None => s
  | Some i =>
      let s := set_groups (alter (on_executor (removeNode node)) i (mExeGroups s)) s in
      set_nodes (delete node (mRegisteredNodes s)) s
  end.

(** ** Running *)

Definition executeNode (source : string) (triggerId : Z) s : Z * CameraScheduler :=
  let count := mTriggerCount s + 1 in
  let tick := if triggerId <? 0 then count else triggerId in
  (OK, Scheduler (mPolicy s)
         (map (fun g => if String.eqb (triggerSource g) source then on_executor (trigger tick) g else g) (mExeGroups s))
         (mRegisteredNodes s) count).

(** [threadLoop] from the end of the wait to the nodes. *)
Definition wake (timed_out : bool) (e : Executor) : Executor :=
  if timed_out && negb (match mNodes e with [] => true | _ => false end) then set_thread Away e
  else if mActive e then set_thread (Busy (mTriggerTick e)) e
  else set_thread Exited e.

(** The nodes up to the first that fails: whether all succeed. *)
Definition process_all (process : Z -> Z -> bool) (tick : Z) (e : Executor) : bool :=
  forallb (fun node => process node tick) (mNodes e).

(** [for (auto& listener : mListeners) listener->trigger(tick)]. *)
Definition trigger_listeners (tick : Z) (listeners : list nat) (groups : list ExecutorGroup) : list ExecutorGroup :=
  foldl (fun groups i => alter (on_executor (trigger tick)) i groups) groups listeners.

(** The rest of [threadLoop]; the thread goes back to the wait. *)
Definition finish (process : Z -> Z -> bool) (i : nat) (tick : Z) (e : Executor) (groups : list ExecutorGroup)
    : list ExecutorGroup :=
  let groups := if process_all process tick e then trigger_listeners tick (mListeners e) groups else groups in
  alter (on_executor (set_thread Away)) i groups.

(** A thread that was signalled starts, one that is busy finishes, one comes to
    its wait, or the wait of one that sleeps runs out of time or ends for no
    reason, as waits for condition variables may.  When it runs out of time an
    executor with nodes waits again, and one without goes on, like one whose wait
    ended for no reason, as if it had been signalled, or leaves its loop if it
    never was. *)
Inductive passage := Starts (i : nat) (tick : Z) | Finishes (i : nat) | Waits (i : nat) | TimesOut (i : nat) | Wakes (i : nat).

Inductive work (process : Z -> Z -> bool) : list ExecutorGroup -> passage -> list ExecutorGroup -> Prop :=
| work_start groups i g :
    groups !! i = Some g -> mThread (executor g) = Woken -> mActive (executor g) = true ->
    work process groups (Starts i (mTriggerTick (executor g))) (alter (on_executor (wake false)) i groups)
| work_exit groups i g :
    groups !! i = Some g -> mThread (executor g) = Woken -> mActive (executor g) = false ->
    work process groups (Finishes i) (alter (on_executor (wake false)) i groups)
| work_finish groups i g tick :
    groups !! i = Some g -> mThread (executor g) = Busy tick ->
    work process groups (Finishes i) (finish process i tick (executor g) groups)
| work_wait groups i g :
    groups !! i = Some g -> mThread (executor g) = Away ->
    work process groups (Waits i) (alter (on_executor (set_thread Asleep)) i groups)
| work_time_out groups i g :
    groups !! i = Some g -> mThread (executor g) = Asleep ->
    work process groups (TimesOut i) (alter (on_executor (wake true)) i groups)
| work_wake groups i g :
    groups !! i = Some g -> mThread (executor g) = Asleep ->
    work process groups (Wakes i) (alter (on_executor (wake false)) i groups).

Definition started (p : passage) : list (nat * Z) := match p with Starts i tick => [(i, tick)] | _ => [] end.

(** Passages to and from the wait without a frame are not counted. *)
Definition steps (p : passage) : nat := match p with Starts _ _ | Finishes _ => 1 | _ => 0 end.

Definition unasked (p : passage) : nat := match p with Wakes _ => 1 | _ => 0 end.

(** Runs in which every passage is [ok] where it happens: the executors that are
    signalled and start, in order, with their ticks; how many passages there are
    with a frame, and how many waits that end for no reason. *)
Inductive works (process : Z -> Z -> bool) (ok : list ExecutorGroup -> passage -> Prop)
    : list ExecutorGroup -> list (nat * Z) -> list ExecutorGroup -> nat -> nat -> Prop :=
| works_nil groups : works process ok groups [] groups 0 0
| works_step groups log groups1 p groups2 n w :
    works process ok groups log groups1 n w -> work process groups1 p groups2 -> ok groups1 p ->
    works process ok groups (log ++ started p) groups2 (n + steps p) (w + unasked p).

Definition whatever (groups : list ExecutorGroup) (p : passage) : Prop := True.

(** No wait ends for no reason, and no executor is triggered while it is on its
    way to the wait. *)
Definition heard (groups : list ExecutorGroup) (p : passage) : Prop :=
  match p with
  | Wakes _ => False
  | Finishes i => forall j g g', groups !! i = Some g -> j ∈ mListeners (executor g) -> groups !! j = Some g' ->
                    mThread (executor g') <> Away
  | _ => True
  end.

Definition new_scheduler (policy : CameraSchedulerPolicy) : CameraScheduler := Scheduler policy [] ∅ 0.
End Scheduler.

(** ** Links *)

Definition names (groups : list ExecutorGroup) : list string := map (fun g => mName (executor g)) groups.

(** [i] is the first place of that name. *)
Definition first_named (l : list string) (name : string) (i : nat) : Prop :=
  l !! i = Some name /\ forall k, (k < i)%nat -> l !! k <> Some name.

(** A group listens to the first group that has the name of its source, if
    that one was created before it, and to no other. *)
Record linked (groups : list ExecutorGroup) : Prop := {
  link_bound i g j : groups !! i = Some g -> j ∈ mListeners (executor g) -> (j < length groups)%nat;
  link_once i g : groups !! i = Some g -> NoDup (mListeners (executor g));
  link_iff i j g g' :
    groups !! i = Some g -> groups !! j = Some g' ->
    j ∈ mListeners (executor g) <->
    (i < j)%nat /\ triggerSource g' <> EmptyString /\ first_named (names groups) (triggerSource g') i;
}.

(** What links depend on. *)
Definition shape (g : ExecutorGroup) : string * string * list nat :=
  (mName (executor g), triggerSource g, mListeners (executor g)).

Lemma shape_lookup groups groups' i g :
  map shape groups' = map shape groups -> groups' !! i = Some g -> exists g', groups !! i = Some g' /\ shape g' = shape g.
Proof.
  intros E H. assert ((shape <$> groups') !! i = (shape <$> groups) !! i) as E' by (unfold fmap, list_fmap; exact (f_equal (fun l => l !! i) E)).
  rewrite !list_lookup_fmap, H in E'. destruct (groups !! i) as [g' |]; [| discriminate E'].
  injection E' as E1 E2 E3. exists g'. split; [reflexivity |]. unfold shape. congruence.
Qed.

Lemma shape_length groups groups' : map shape groups' = map shape groups -> length groups' = length groups.
Proof. intros E. rewrite <- (length_map shape groups'), E. apply length_map. Qed.

Lemma names_shape groups groups' : map shape groups' = map shape groups -> names groups' = names groups.
Proof.
  intros E. apply (f_equal (map (fun x => fst (fst x)))) in E. rewrite !map_map in E. exact E.
Qed.

Lemma linked_shape groups groups' : map shape groups' = map shape groups -> linked groups -> linked groups'.
Proof.
  intros E L. split.
  - intros i g j Hg Hj. destruct (shape_lookup _ _ _ _ E Hg) as (g1 & Hg1 & [= _ _ E3]).
    rewrite (shape_length _ _ E). apply (link_bound _ L i g1 j Hg1). congruence.
  - intros i g Hg. destruct (shape_lookup _ _ _ _ E Hg) as (g1 & Hg1 & [= _ _ E3]). rewrite <- E3. exact (link_once _ L i g1 Hg1).
  - intros i j g g' Hg Hg'. destruct (shape_lookup _ _ _ _ E Hg) as (g1 & Hg1 & [= _ _ E3]).
    destruct (shape_lookup _ _ _ _ E Hg') as (g2 & Hg2 & [= _ E2 _]).
    rewrite <- E3, <- E2, (link_iff _ L i j g1 g2 Hg1 Hg2), (names_shape _ _ E). reflexivity.
Qed.

Lemma shape_alter f i groups :
  (forall e, mName (f e) = mName e /\ mListeners (f e) = mListeners e) ->
  map shape (alter (on_executor f) i groups) = map shape groups.
Proof.
  intros H. revert i. induction groups as [| g groups IH]; intros [| i]; [reflexivity | reflexivity | |].
  - cbn. f_equal. unfold shape, on_executor. cbn. destruct (H (executor g)) as [-> ->]. reflexivity.
  - cbn. f_equal. apply IH.
Qed.

Lemma findExecutor_spec name groups i : findExecutor name groups = Some i <-> first_named (names groups) name i.
Proof.
  unfold first_named. revert i. induction groups as [| g groups IH]; intros i; cbn [findExecutor names map].
  - rewrite lookup_nil. split; [discriminate | intros [[=] _]].
  - destruct (String.eqb_spec (mName (executor g)) name) as [E | E].
    + split.
      * intros [= <-]. split; [cbn; congruence | lia].
      * intros [_ H]. destruct i as [| i]; [reflexivity |]. destruct (H 0%nat ltac:(lia)). cbn. congruence.
    + rewrite fmap_Some. split.
      * intros (k & Hk & ->). apply IH in Hk as [H1 H2]. split; [exact H1 |].
        intros [| k'] Hk'; cbn; [congruence | apply H2; lia].
      * intros [H1 H2]. destruct i as [| i]; [cbn in H1; congruence |]. exists i. split; [| reflexivity].
        apply IH. split; [exact H1 |]. intros k Hk. exact (H2 (S k) ltac:(lia)).
Qed.

Lemma first_named_app l l' name i :
  (i < length l)%nat -> first_named (l ++ l') name i <-> first_named l name i.
Proof.
  intros Hi. unfold first_named. rewrite lookup_app_l by exact Hi.
  split; intros [H1 H2]; (split; [exact H1 |]); intros k Hk; specialize (H2 k Hk);
    rewrite lookup_app_l in * by lia; exact H2.
Qed.

(** Where a new group with that source is linked. *)
Definition source_of (groups : list ExecutorGroup) (source : string) : option nat :=
  if String.eqb source EmptyString then None else findExecutor source groups.

Lemma source_of_spec groups source i :
  source_of groups source = Some i <-> source <> EmptyString /\ first_named (names groups) source i.
Proof.
  unfold source_of. destruct (String.eqb_spec source EmptyString) as [E | E]; [split; [discriminate | tauto] |].
  rewrite findExecutor_spec. tauto.
Qed.

Lemma create_group_source policy groups name source :
  create_group policy groups (name, source)
  = match source_of groups source with
    | Some i => alter (on_executor (addListener (length groups))) i groups
    | None => groups
    end ++ [Group (new_executor name) source (default [] (snd (getNodeList name policy)))].
Proof. unfold create_group, source_of. destruct (String.eqb source EmptyString); reflexivity. Qed.

Lemma names_alter f i groups :
  (forall e, mName (f e) = mName e) -> names (alter (on_executor f) i groups) = names groups.
Proof.
  intros H. unfold names. revert i. induction groups as [| g groups IH]; intros [| i]; cbn; rewrite ?H; try reflexivity.
  f_equal. apply IH.
Qed.

Lemma create_group_names policy groups name source :
  names (create_group policy groups (name, source)) = names groups ++ [name].
Proof.
  rewrite create_group_source. unfold names. rewrite map_app. f_equal.
  destruct (source_of groups source); [| reflexivity]. apply names_alter. reflexivity.
Qed.

Lemma create_group_length policy groups exe : length (create_group policy groups exe) = S (length groups).
Proof.
  destruct exe as [name source]. rewrite create_group_source, length_app. cbn [length].
  destruct (source_of groups source); rewrite ?length_alter; lia.
Qed.

Lemma create_group_lookup policy groups name source i g :
  create_group policy groups (name, source) !! i = Some g ->
  (i = length groups /\ mListeners (executor g) = [] /\ triggerSource g = source) \/
  exists g0, groups !! i = Some g0 /\ triggerSource g = triggerSource g0 /\
    mListeners (executor g)
    = mListeners (executor g0) ++ (if decide (source_of groups source = Some i) then [length groups] else []).
Proof.
  rewrite create_group_source. intros H. apply lookup_app_Some in H as [H | [Hi H]].
  - right. destruct (source_of groups source) as [k |].
    + destruct (decide (Some k = Some i)) as [[= ->] | Hne].
      * rewrite list_lookup_alter_eq in H. apply fmap_Some in H as (g0 & Hg0 & ->). exists g0. auto.
      * rewrite list_lookup_alter_ne in H by congruence. exists g. rewrite app_nil_r. auto.
    + exists g. rewrite app_nil_r. auto.
  - left. apply list_lookup_singleton_Some in H as [H <-]. split; [| auto].
    destruct (source_of groups source); rewrite ?length_alter in *; lia.
Qed.

Lemma create_group_linked policy groups exe : linked groups -> linked (create_group policy groups exe).
Proof.
  intros L. destruct exe as [name source]. split.
  - intros i g j Hg Hj. rewrite create_group_length.
    apply create_group_lookup in Hg as [(_ & E & _) | (g0 & Hg0 & _ & E)]; rewrite E in Hj; [apply not_elem_of_nil in Hj as [] |].
    apply elem_of_app in Hj as [Hj | Hj]; [pose proof (link_bound _ L i g0 j Hg0 Hj); lia |].
    destruct (decide _); [apply list_elem_of_singleton in Hj; lia | apply not_elem_of_nil in Hj as []].
  - intros i g Hg. apply create_group_lookup in Hg as [(_ & -> & _) | (g0 & Hg0 & _ & ->)]; [constructor |].
    apply NoDup_app. split; [exact (link_once _ L i g0 Hg0) |]. split; [| destruct (decide _); [apply NoDup_singleton | constructor]].
    intros j Hj. pose proof (link_bound _ L i g0 j Hg0 Hj). destruct (decide _); [intros Hj'%list_elem_of_singleton; lia | apply not_elem_of_nil].
  - intros i j g g' Hg Hg'. rewrite create_group_names.
    assert (Hl : length (names groups) = length groups) by apply length_map.
    apply create_group_lookup in Hg as [(-> & E & _) | (g0 & Hg0 & _ & E)]; rewrite E.
    + apply lookup_lt_Some in Hg'. rewrite create_group_length in Hg'.
      split; [intros Hj; apply not_elem_of_nil in Hj as [] | intros [H _]; lia].
    + pose proof (lookup_lt_Some _ _ _ Hg0) as Hi. rewrite first_named_app by lia.
      apply create_group_lookup in Hg' as [(-> & _ & ->) | (g1 & Hg1 & -> & _)].
      * rewrite <- source_of_spec. rewrite elem_of_app. split.
        -- intros [Hj | Hj]; [pose proof (link_bound _ L i g0 _ Hg0 Hj); lia |].
           destruct (decide _); [auto | apply not_elem_of_nil in Hj as []].
        -- intros [_ Hs]. right. rewrite decide_True by exact Hs. left.
      * rewrite <- (link_iff _ L i j g0 g1 Hg0 Hg1), elem_of_app. apply lookup_lt_Some in Hg1.
        split; [intros [Hj | Hj]; [exact Hj |] | auto].
        destruct (decide _); [apply list_elem_of_singleton in Hj; lia | apply not_elem_of_nil in Hj as []].
Qed.

Lemma no_groups_linked : linked [].
Proof. split; intros *; rewrite ?lookup_nil; discriminate. Qed.

(** ** Configuring *)

Definition exe_of (e : ExecutorDesc) : string * string := (exeName e, triggerName e).
Definition entry (g : ExecutorGroup) : string * string := (mName (executor g), triggerSource g).

Definition idle (g : ExecutorGroup) : Prop :=
  mThread (executor g) = Away /\ mActive (executor g) = false /\ mNodes (executor g) = [].

Lemma insert_all_perm {A} (a : nat -> Z) (h : A -> string * string) (l : list (nat * A)) :
  NoDup (map (fun ie => a (fst ie)) l) ->
  map_to_list (foldl (fun m ie => <[a (fst ie) := h (snd ie)]> m) (∅ : gmap Z (string * string)) l)
  ≡ₚ map (fun ie => (a (fst ie), h (snd ie))) l.
Proof.
  induction l as [| [i x] l IH] using rev_ind; intros H.
  - cbn. rewrite map_to_list_empty. reflexivity.
  - rewrite map_app in H. apply NoDup_app in H as (H1 & H2 & _). rewrite foldl_app. cbn [foldl fst snd].
    rewrite map_to_list_insert, (IH H1), map_app; [cbn [map fst snd]; apply Permutation_cons_append |].
    apply eq_None_not_Some. intros [y Hy]. apply elem_of_map_to_list in Hy. rewrite (IH H1) in Hy.
    apply list_elem_of_In, in_map_iff in Hy as ([i' x'] & [= E _] & Hi). apply (H2 (a i')).
    + apply list_elem_of_In, in_map_iff. exists (i', x'). auto.
    + cbn. rewrite E. left.
Qed.

(** The executors in the order of the addresses of their names. *)
Definition in_address_order (a : nat -> Z) (l : list ExecutorDesc) (order : list nat) : Prop :=
  order ≡ₚ seq 0 (length l) /\ StronglySorted (fun i j => a i < a j) order.

Lemma StronglySorted_map {A B} (R : B -> B -> Prop) (f : A -> B) l :
  StronglySorted R (map f l) -> StronglySorted (fun x y => R (f x) (f y)) l.
Proof.
  induction l as [| x l IH]; cbn; intros H; [constructor |]. apply StronglySorted_cons in H as [H1 H2].
  apply StronglySorted_cons. split; [apply Forall_map, H1 | apply IH, H2].
Qed.

Lemma strictly_ascending (a : nat -> Z) l :
  Inj (=) (=) a -> NoDup l -> StronglySorted (fun i j => a i <= a j) l -> StronglySorted (fun i j => a i < a j) l.
Proof.
  intros Ha. induction l as [| i l IH]; intros Hn H; [constructor |]. apply NoDup_cons in Hn as [Hi Hn].
  apply StronglySorted_cons in H as [H1 H2]. apply StronglySorted_cons. split; [| apply IH; assumption].
  rewrite Forall_forall in H1 |- *. intros j Hj. pose proof (H1 j Hj). assert (a i <> a j) by (intros E%Ha; congruence). lia.
Qed.

#[local] Existing Instance key_le_dec.

#[local] Instance key_le_trans : Transitive key_le.
Proof. unfold key_le. intros x y z. lia. Qed.

#[local] Instance key_le_total : Total key_le.
Proof. unfold key_le. intros x y. lia. Qed.

Lemma getExecutors_order (a : nat -> Z) p c :
  Inj (=) (=) a -> active p = Some c ->
  exists order, in_address_order a (exeList c) order /\
    Forall2 (fun e i => exists d, exeList c !! i = Some d /\ e = exe_of d) (by_address (snd (getExecutors a ∅ p))) order.
Proof.
  intros Ha Hc. unfold by_address, getExecutors. rewrite Hc. cbn [snd].
  set (L := imap pair (exeList c)). set (f := fun ie : nat * ExecutorDesc => (a (fst ie), exe_of (snd ie))).
  assert (Hfst : map fst L = seq 0 (length (exeList c))).
  { change (fst <$> L = seq 0 (length (exeList c))). unfold L. rewrite fmap_imap.
    rewrite (imap_ext _ (fun j _ => id j)) by reflexivity. rewrite imap_seq_0. apply list_fmap_id. }
  assert (Hnd : NoDup (map (fun ie => a (fst ie)) L)).
  { rewrite <- (map_map fst a), Hfst. apply NoDup_fmap; [exact Ha | apply NoDup_seq]. }
  set (m := foldl _ _ _).
  assert (Hp : merge_sort key_le (map_to_list m) ≡ₚ map f L) by (rewrite merge_sort_Permutation; apply (insert_all_perm a exe_of), Hnd).
  destruct (Permutation_map_inv f L Hp) as (L' & E & HL).
  assert (Hperm : map fst L' ≡ₚ seq 0 (length (exeList c))) by (rewrite <- Hfst; by apply Permutation_map, Permutation_sym).
  exists (map fst L'). split; [split; [exact Hperm |] |].
  - apply strictly_ascending; [exact Ha | rewrite Hperm; apply NoDup_seq |].
    pose proof (StronglySorted_merge_sort key_le (map_to_list m)) as Hs. rewrite E in Hs. apply StronglySorted_map in Hs.
    clear -Hs. induction Hs as [| x l Hs IH Hx]; cbn; [constructor |]. constructor; [exact IH | apply Forall_map, Hx].
  - rewrite E, map_map. apply Forall2_fmap, Forall_Forall2_diag, Forall_forall. intros [i d] Hi. exists d. split; [| reflexivity].
    rewrite <- HL in Hi. unfold L in Hi. apply elem_of_lookup_imap in Hi as (k & d' & [= -> ->] & Hk). exact Hk.
Qed.

Lemma create_group_entries policy groups exe :
  map entry (create_group policy groups exe) = map entry groups ++ [exe].
Proof.
  destruct exe as [name source]. rewrite create_group_source, map_app. f_equal.
  destruct (source_of groups source) as [i |]; [| reflexivity]. revert i.
  generalize (length groups). induction groups as [| g groups IH]; intros n [| i]; cbn; try reflexivity.
  f_equal. apply IH.
Qed.

Lemma create_group_idle policy groups exe : Forall idle groups -> Forall idle (create_group policy groups exe).
Proof.
  intros H. destruct exe as [name source]. rewrite create_group_source. apply Forall_app. split; [| repeat constructor].
  destruct (source_of groups source); [| exact H]. apply Forall_alter; [exact H |]. intros g _ Hg. exact Hg.
Qed.

Lemma create_groups policy l groups :
  linked groups -> Forall idle groups ->
  let groups' := foldl (create_group policy) groups l in
  linked groups' /\ Forall idle groups' /\ map entry groups' = map entry groups ++ l.
Proof.
  revert groups. induction l as [| exe l IH]; intros groups L I; cbn [foldl]; [rewrite app_nil_r; auto |].
  destruct (IH (create_group policy groups exe)) as (H1 & H2 & H3);
    [apply create_group_linked, L | apply create_group_idle, I |].
  cbv zeta. rewrite H3, create_group_entries, <- app_assoc. auto.
Qed.

(** C32: [configurate] either refuses and leaves the executors alone, or, when
    the configuration of these graphs has no executors, leaves none, or
    replaces them by one idle executor for each entry of the configuration,
    without any node of before, in the order of the addresses at which the
    allocator has put their names, each linked to the first in that order that
    has the name of its trigger source if it comes before, and to no other. *)
Theorem configurate_spec (address : nat -> nat -> Z) ids s ret s' :
  (forall k, Inj (=) (=) (address k)) -> configurate address ids s = (ret, s') ->
  (ret = BAD_VALUE /\ s' = s) \/
  (mRegisteredNodes s' = ∅ /\ mTriggerCount s' = 0 /\ linked (mExeGroups s') /\ Forall idle (mExeGroups s') /\
   exists k c order, mActiveConfig (mPolicy s') = Some k /\ active (mPolicy s') = Some c /\ graphIds c = ids /\
     in_address_order (address k) (exeList c) order /\
     Forall2 (fun g i => exists d, exeList c !! i = Some d /\ entry g = exe_of d) (mExeGroups s') order /\
     ret = (if (0 <? length (exeList c))%nat then OK else UNKNOWN_ERROR)).
Proof.
  intros Ha. unfold configurate. pose proof (setConfig_spec ids (mPolicy s)) as P.
  destruct (setConfig ids (mPolicy s)) as [ret0 p]. destruct P as [Ep [(-> & i & c & Hi & Hc & Hids & _) | (-> & -> & _)]].
  2: { intros [= <- <-]. left. auto. }
  cbn [Z.eqb negb OK]. unfold createExecutors, destoryExecutors, set_groups, set_nodes.
  cbn [mPolicy mExeGroups mRegisteredNodes mTriggerCount]. rewrite Hi. cbn [default].
  assert (active p = Some c) as Hact by (unfold active; rewrite Hi, Ep; exact Hc).
  destruct (getExecutors_order (address i) p c (Ha _) Hact) as (order & Ho & Hp).
  change (id i) with i. destruct (getExecutors (address i) ∅ p) as [n m] eqn:Eg. cbn [snd] in Hp.
  assert (n = Z.of_nat (length (exeList c))) as -> by (unfold getExecutors in Eg; rewrite Hact in Eg; congruence).
  intros H. right. destruct (Z.leb_spec (Z.of_nat (length (exeList c))) 0) as [Hn | Hn]; injection H as <- <-;
    cbn [mPolicy mExeGroups mRegisteredNodes mTriggerCount].
  - split; [reflexivity |]. split; [reflexivity |]. split; [apply no_groups_linked |]. split; [constructor |].
    exists i, c, order. split; [exact Hi |]. split; [exact Hact |]. split; [exact Hids |]. split; [exact Ho |].
    destruct (exeList c) as [| e l] eqn:El; [| cbn in Hn; lia]. split; [| reflexivity].
    destruct Ho as [Ho _]. cbn in Ho. apply Permutation_nil_r in Ho as ->. constructor.
  - destruct (create_groups p (by_address m) [] no_groups_linked ltac:(constructor)) as (H1 & H2 & H3).
    split; [reflexivity |]. split; [reflexivity |]. split; [exact H1 |]. split; [exact H2 |].
    exists i, c, order. split; [exact Hi |]. split; [exact Hact |]. split; [exact Hids |]. split; [exact Ho |]. cbn [app map] in H3.
    split; [| destruct (Nat.ltb_spec 0 (length (exeList c))); [reflexivity | lia]].
    rewrite <- H3 in Hp. by apply Forall2_fmap_l in Hp.
Qed.

(** ** Cascades end *)

Definition weight (a : activity) : nat :=
  match a with Woken => 2 | Busy _ => 1 | Asleep | Away | Exited => 0 end.

(** The threads as the digits of a number, the first group's the highest. *)
Fixpoint rank (groups : list ExecutorGroup) : nat :=
  match groups with
  | [] => 0
  | g :: groups => weight (mThread (executor g)) * 3 ^ length groups + rank groups
  end.

Lemma rank_bound groups : (rank groups < 3 ^ length groups)%nat.
Proof.
  induction groups as [| g groups IH]; cbn [rank length]; [cbn; lia |].
  rewrite Nat.pow_succ_r'. assert (weight (mThread (executor g)) <= 2)%nat by (destruct (mThread (executor g)); cbn; lia).
  nia.
Qed.

Lemma rank_less i groups groups' g g' :
  length groups' = length groups -> take i groups' = take i groups -> groups !! i = Some g -> groups' !! i = Some g' ->
  (weight (mThread (executor g')) < weight (mThread (executor g)))%nat -> (rank groups' < rank groups)%nat.
Proof.
  revert groups groups'. induction i as [| i IH]; intros [| h groups] [| h' groups'] El Et Hg Hg' Hw; try discriminate.
  - cbn in Hg, Hg'. injection Hg as ->. injection Hg' as ->. cbn [rank]. injection El as El. rewrite El.
    pose proof (rank_bound groups') as B. rewrite El in B. nia.
  - cbn in El, Et. injection El as El. injection Et as -> Et. cbn [rank]. rewrite El.
    specialize (IH groups groups' El Et Hg Hg' Hw). lia.
Qed.

Lemma trigger_trigger tick e : trigger tick (trigger tick e) = trigger tick e.
Proof. unfold trigger. cbn. destruct (mThread e); reflexivity. Qed.

Lemma trigger_listeners_lookup tick ls groups k :
  trigger_listeners tick ls groups !! k
  = (fun g => if decide (k ∈ ls) then on_executor (trigger tick) g else g) <$> groups !! k.
Proof.
  unfold trigger_listeners. revert groups. induction ls as [| i ls IH]; intros groups; cbn [foldl].
  - destruct (groups !! k); reflexivity.
  - rewrite IH. destruct (decide (i = k)) as [-> | Hne].
    + rewrite list_lookup_alter_eq. destruct (groups !! k) as [g |]; [| reflexivity]. cbn [fmap option_fmap option_map].
      f_equal. rewrite (decide_True (P := k ∈ k :: ls)) by left. destruct (decide (k ∈ ls)); [| reflexivity].
      unfold on_executor. cbn. rewrite trigger_trigger. reflexivity.
    + rewrite list_lookup_alter_ne by exact Hne. destruct (groups !! k) as [g |]; [| reflexivity].
      cbn [fmap option_fmap option_map]. f_equal.
      destruct (decide (k ∈ ls)) as [H | H], (decide (k ∈ i :: ls)) as [H' | H']; try reflexivity.
      * destruct H'. right. exact H.
      * apply elem_of_cons in H' as [-> | H']; [congruence | tauto].
Qed.

Lemma trigger_listeners_shape tick ls groups : map shape (trigger_listeners tick ls groups) = map shape groups.
Proof.
  unfold trigger_listeners. revert groups. induction ls as [| i ls IH]; intros groups; cbn [foldl]; [reflexivity |].
  rewrite IH. apply shape_alter. auto.
Qed.

Lemma work_shape process groups o groups' : work process groups o groups' -> map shape groups' = map shape groups.
Proof.
  assert (Hw : forall b e, mName (wake b e) = mName e /\ mListeners (wake b e) = mListeners e).
  { intros b e. unfold wake. destruct (b && _); [auto |]. destruct (mActive e); auto. }
  intros W. destruct W; [apply shape_alter, Hw | apply shape_alter, Hw | | apply shape_alter; auto | apply shape_alter, Hw | apply shape_alter, Hw].
  unfold finish. rewrite shape_alter by auto. destruct (process_all _ _ _); [apply trigger_listeners_shape | reflexivity].
Qed.

(** Every executor has a node. *)
Definition staffed (groups : list ExecutorGroup) : Prop := Forall (fun g => mNodes (executor g) <> []) groups.

Definition node_lists (groups : list ExecutorGroup) : list (list Z) := map (fun g => mNodes (executor g)) groups.

Lemma alter_nodes f i groups : (forall e, mNodes (f e) = mNodes e) ->
  node_lists (alter (on_executor f) i groups) = node_lists groups.
Proof.
  intros H. unfold node_lists. revert i. induction groups as [| g groups IH]; intros [| i]; cbn; rewrite ?H; try reflexivity. f_equal. apply IH.
Qed.

Lemma work_nodes process groups p groups' : work process groups p groups' ->
  node_lists groups' = node_lists groups.
Proof.
  assert (Hw : forall b e, mNodes (wake b e) = mNodes e).
  { intros b e. unfold wake. destruct (b && _); [auto |]. destruct (mActive e); auto. }
  intros W. destruct W; [apply alter_nodes, Hw | apply alter_nodes, Hw | | by apply alter_nodes | apply alter_nodes, Hw | apply alter_nodes, Hw].
  unfold finish. rewrite alter_nodes by auto. destruct (process_all _ _ _); [| reflexivity].
  unfold trigger_listeners. generalize (mListeners (executor g)) as l. intros l. clear. revert groups.
  induction l as [| k l IH]; intros groups; cbn [foldl]; [reflexivity |]. rewrite IH. by apply alter_nodes.
Qed.

Lemma staffed_nodes groups groups' :
  node_lists groups' = node_lists groups -> staffed groups -> staffed groups'.
Proof.
  unfold staffed, node_lists. intros E H. apply (proj1 (Forall_map (fun g => mNodes (executor g)) (fun l => l <> []) groups')).
  rewrite E. apply Forall_map, H.
Qed.

(** The time-out of an executor with nodes only makes it come back. *)
Lemma time_out_staffed groups i g :
  staffed groups -> groups !! i = Some g ->
  alter (on_executor (wake true)) i groups = alter (on_executor (set_thread Away)) i groups.
Proof.
  intros S Hg. apply list_eq. intros k. destruct (decide (i = k)) as [<- | Hne]; [| by rewrite !list_lookup_alter_ne].
  rewrite !list_lookup_alter_eq, Hg. cbn. f_equal. pose proof (Forall_lookup_1 _ _ _ _ S Hg) as Hn. cbn in Hn.
  unfold on_executor, wake. destruct (mNodes (executor g)); [congruence | reflexivity].
Qed.

Lemma rank_alter groups i g a :
  groups !! i = Some g -> weight a = weight (mThread (executor g)) ->
  rank (alter (on_executor (set_thread a)) i groups) = rank groups.
Proof.
  revert i. induction groups as [| h groups IH]; intros [| i] Hg Hw; try discriminate.
  - injection Hg as ->. cbn. rewrite Hw. reflexivity.
  - cbn [alter list_alter rank length]. rewrite (IH i Hg Hw), length_alter. reflexivity.
Qed.

Lemma take_same (i : nat) (l l' : list ExecutorGroup) : (forall k, (k < i)%nat -> l' !! k = l !! k) -> take i l' = take i l.
Proof.
  intros H. apply list_eq. intros k. destruct (decide (k < i)%nat) as [Hk | Hk].
  - rewrite !lookup_take_lt by exact Hk. apply H, Hk.
  - rewrite !lookup_take_ge by lia. reflexivity.
Qed.

Lemma woken_rank groups i g :
  groups !! i = Some g -> mThread (executor g) = Woken -> (rank (alter (on_executor (wake false)) i groups) < rank groups)%nat.
Proof.
  intros Hg Ht. apply (rank_less i _ _ g (on_executor (wake false) g)); [by rewrite length_alter | | exact Hg | | ].
  - apply take_same. intros k Hk. apply list_lookup_alter_ne. lia.
  - rewrite list_lookup_alter_eq, Hg. reflexivity.
  - cbn. unfold wake. cbn [andb]. rewrite Ht. destruct (mActive (executor g)); cbn; lia.
Qed.

Lemma work_rank process groups p groups' :
  linked groups -> staffed groups -> work process groups p groups' ->
  (steps p + rank groups' <= rank groups + unasked p * 3 ^ length groups)%nat.
Proof.
  intros L S W. pose proof (shape_length _ _ (work_shape _ _ _ _ W)) as El.
  destruct W as [groups i g Hg Ht Ha | groups i g Hg Ht Ha | groups i g tick Hg Ht | groups i g Hg Ht | groups i g Hg Ht | groups i g Hg Ht];
    cbn [steps unasked]; rewrite ?Nat.mul_0_l, ?Nat.add_0_r.
  - apply (woken_rank _ _ _ Hg Ht).
  - apply (woken_rank _ _ _ Hg Ht).
  - assert (forall k, (k <= i)%nat -> (if process_all process tick (executor g)
               then trigger_listeners tick (mListeners (executor g)) groups else groups) !! k = groups !! k) as Hk.
    { intros k Hk. destruct (process_all _ _ _); [| reflexivity]. rewrite trigger_listeners_lookup.
      destruct (groups !! k) as [g' |] eqn:Ek; [| reflexivity]. cbn [fmap option_fmap option_map].
      rewrite decide_False; [reflexivity |]. intros Hi. apply (link_iff _ L i k g g' Hg Ek) in Hi as [Hi _]. lia. }
    unfold finish in *. apply (rank_less i _ _ g (on_executor (set_thread Away) g)); [exact El | | exact Hg | |].
    + apply take_same. intros k Hk'. rewrite list_lookup_alter_ne by lia. apply Hk. lia.
    + rewrite list_lookup_alter_eq, Hk, Hg by lia. reflexivity.
    + cbn. rewrite Ht. cbn. lia.
  - rewrite (rank_alter _ _ g) by (exact Hg || rewrite Ht; reflexivity). lia.
  - rewrite (time_out_staffed _ _ _ S Hg), (rank_alter _ _ g) by (exact Hg || rewrite Ht; reflexivity). lia.
  - pose proof (rank_bound (alter (on_executor (wake false)) i groups)) as B. rewrite El in B. lia.
Qed.

Lemma works_nodes process ok groups log groups' n w :
  works process ok groups log groups' n w -> node_lists groups' = node_lists groups.
Proof. intros W. induction W as [| groups log g1 o g2 n w W IH S _]; [reflexivity |]. rewrite (work_nodes _ _ _ _ S). exact IH. Qed.

Lemma works_shape process ok groups log groups' n w :
  works process ok groups log groups' n w -> map shape groups' = map shape groups.
Proof. intros W. induction W as [| groups log g1 o g2 n w W IH S _]; [reflexivity |]. rewrite (work_shape _ _ _ _ S). exact IH. Qed.

Definition quiet (groups : list ExecutorGroup) : Prop := Forall (fun g => weight (mThread (executor g)) = 0%nat) groups.

Lemma works_rank process ok groups log groups' n w :
  linked groups -> staffed groups -> works process ok groups log groups' n w ->
  (n + rank groups' <= rank groups + w * 3 ^ length groups)%nat.
Proof.
  intros L St W. induction W as [| groups log g1 o g2 n w W IH S _]; [lia |].
  specialize (IH L St). pose proof (linked_shape _ _ (works_shape _ _ _ _ _ _ _ W) L) as L1.
  pose proof (work_rank _ _ _ _ L1 (staffed_nodes _ _ (works_nodes _ _ _ _ _ _ _ W) St) S) as R.
  rewrite (shape_length _ _ (works_shape _ _ _ _ _ _ _ W)) in R. lia.
Qed.

(** C27: where every executor has a node, whichever executors are triggered and
    in whatever order their threads run, whatever waits run out of time, they
    trigger each other only finitely often, since links go from earlier to later
    groups: for [n] groups there are less than [3 ^ n] starts and ends of the
    processing of a frame, and as many more for each wait that ends for no
    reason; and as long as a thread is signalled or busy, one of them can go on. *)
Theorem cascade_ends process groups log groups' n w :
  linked groups -> staffed groups -> works process whatever groups log groups' n w ->
  (n < (1 + w) * 3 ^ length groups)%nat /\
  (quiet groups' \/ exists p groups'', work process groups' p groups'' /\ steps p = 1%nat).
Proof.
  intros L St W. pose proof (works_rank _ _ _ _ _ _ _ L St W). pose proof (rank_bound groups). split; [lia |].
  unfold quiet. destruct (decide (Forall (fun g => weight (mThread (executor g)) = 0%nat) groups')) as [Q | Q]; [auto |].
  right. apply not_Forall_Exists in Q; [| apply _]. apply Exists_exists in Q as (g & Hg & Hw).
  apply list_elem_of_lookup in Hg as [i Hi]. cbn in Hw.
  destruct (mThread (executor g)) eqn:Et; cbn in Hw; try lia.
  - destruct (mActive (executor g)) eqn:Ea; eexists _, _; (split; [first [eapply work_start; eassumption | eapply work_exit; eassumption] | reflexivity]).
  - eexists _, _. split; [eapply work_finish; [exact Hi | exact Et] | reflexivity].
Qed.

(** ** Who runs *)

(** The executors of that source, and those that listen to one of them. *)
Inductive downstream (groups : list ExecutorGroup) (source : string) : nat -> Prop :=
| downstream_source i g : groups !! i = Some g -> triggerSource g = source -> downstream groups source i
| downstream_listener i g j :
    downstream groups source i -> groups !! i = Some g -> j ∈ mListeners (executor g) -> downstream groups source j.

Section Cascade.
Context (process : Z -> Z -> bool) (start : list ExecutorGroup) (source : string) (tick : Z).
Hypothesis start_linked : linked start.
Hypothesis start_staffed : staffed start.
Hypothesis all_succeed : forall node, process node tick = true.

Definition runs (log : list (nat * Z)) (i : nat) : Prop := (i, tick) ∈ log.

(** An executor that has been signalled, runs, or has run. *)
Definition reached (log : list (nat * Z)) (i : nat) (g : ExecutorGroup) : Prop :=
  mThread (executor g) = Woken \/ runs log i.

Record cascade (log : list (nat * Z)) (groups : list ExecutorGroup) : Prop := {
  c_shape : map shape groups = map shape start;
  c_state i g : groups !! i = Some g ->
    match mThread (executor g) with
    | Asleep | Away => True
    | Woken => downstream start source i /\ mActive (executor g) = true /\ mTriggerTick (executor g) = tick
    | Busy t => t = tick /\ runs log i
    | Exited => False
    end;
  c_log i t : (i, t) ∈ log -> t = tick /\ downstream start source i;
  c_source i g : groups !! i = Some g -> triggerSource g = source -> reached log i g;
  c_listener i j g g' : groups !! i = Some g -> runs log i -> groups !! j = Some g' ->
    j ∈ mListeners (executor g) -> mThread (executor g) = Busy tick \/ reached log j g';
}.

Lemma runs_app log log' i : runs log i -> runs (log ++ log') i.
Proof. unfold runs. intros H. apply elem_of_app. auto. Qed.

Lemma all_process e : process_all process tick e = true.
Proof. apply forallb_forall. intros node _. apply all_succeed. Qed.

(** A group after a thread has started. *)
Lemma started_lookup (groups : list ExecutorGroup) i g k g' :
  groups !! i = Some g -> mActive (executor g) = true ->
  alter (on_executor (wake false)) i groups !! k = Some g' ->
  (k = i /\ g' = on_executor (set_thread (Busy (mTriggerTick (executor g)))) g) \/ (k <> i /\ groups !! k = Some g').
Proof.
  intros Hg Ha Hk. destruct (decide (k = i)) as [-> | Hne].
  - left. rewrite list_lookup_alter_eq, Hg in Hk. injection Hk as <-. split; [reflexivity |].
    unfold on_executor, wake. cbn [andb]. rewrite Ha. reflexivity.
  - right. rewrite list_lookup_alter_ne in Hk by congruence. auto.
Qed.

Lemma cascade_start log groups i g :
  cascade log groups -> groups !! i = Some g -> mThread (executor g) = Woken -> mActive (executor g) = true ->
  cascade (log ++ [(i, mTriggerTick (executor g))]) (alter (on_executor (wake false)) i groups).
Proof.
  intros C Hg Ht Ha. pose proof (c_state _ _ C i g Hg) as Hs. rewrite Ht in Hs. destruct Hs as (Hd & _ & Hk). rewrite Hk.
  assert (runs (log ++ [(i, tick)]) i) as Hi by (unfold runs; apply elem_of_app; right; left).
  assert (forall j h, reached log j h -> j <> i -> reached (log ++ [(i, tick)]) j h) as Hr
    by (intros j h [H | H] _; [left; exact H | right; apply runs_app, H]).
  split.
  - rewrite <- (c_shape _ _ C). apply shape_alter. intros e. unfold wake. cbn [andb]. destruct (mActive e); auto.
  - intros k g' E. apply (started_lookup _ _ _ _ _ Hg Ha) in E as [[-> ->] | [Hne E]]; [cbn; auto |].
    pose proof (c_state _ _ C k g' E) as S. destruct (mThread (executor g')); auto. split; [apply S | apply runs_app, S].
  - intros k t [H | H%list_elem_of_singleton]%elem_of_app; [exact (c_log _ _ C k t H) | injection H as -> ->; auto].
  - intros k g' E Es. apply (started_lookup _ _ _ _ _ Hg Ha) in E as [[-> ->] | [Hne E]]; [right; exact Hi |].
    apply Hr; [exact (c_source _ _ C k g' E Es) | exact Hne].
  - intros k j g1 g2 E1 Hrun E2 Hl. apply (started_lookup _ _ _ _ _ Hg Ha) in E1 as [[-> ->] | [Hne1 E1]];
      [left; cbn; congruence |].
    assert (runs log k) as Hrun' by (apply elem_of_app in Hrun as [H | H%list_elem_of_singleton]; [exact H | congruence]).
    apply (started_lookup _ _ _ _ _ Hg Ha) in E2 as [[-> ->] | [Hne2 E2]]; [right; right; exact Hi |].
    destruct (c_listener _ _ C k j g1 g2 E1 Hrun' E2 Hl) as [H | H]; [auto | right; apply Hr; assumption].
Qed.

(** A group after a thread has finished: the thread itself, a listener, or
    another one. *)
Lemma finished_lookup groups i g k g' :
  linked groups -> groups !! i = Some g -> finish process i tick (executor g) groups !! k = Some g' ->
  (k = i /\ g' = on_executor (set_thread Away) g) \/
  (k <> i /\ exists h, groups !! k = Some h /\
     g' = if decide (k ∈ mListeners (executor g)) then on_executor (trigger tick) h else h).
Proof.
  intros L Hg. unfold finish. rewrite all_process. destruct (decide (k = i)) as [-> | Hne].
  - rewrite list_lookup_alter_eq, trigger_listeners_lookup, Hg. cbn [fmap option_fmap option_map].
    rewrite decide_False by (intros Hi; apply (link_iff _ L i i g g Hg Hg) in Hi as [Hi _]; lia).
    intros [= <-]. auto.
  - rewrite list_lookup_alter_ne by congruence. rewrite trigger_listeners_lookup. intros (h & Hh & ->)%fmap_Some. right. eauto.
Qed.

Lemma cascade_finish log groups i g t :
  cascade log groups -> groups !! i = Some g -> mThread (executor g) = Busy t -> heard groups (Finishes i) ->
  cascade (log ++ []) (finish process i t (executor g) groups).
Proof.
  intros C Hg Ht Hh. pose proof (c_state _ _ C i g Hg) as Hs. rewrite Ht in Hs. destruct Hs as [-> Hrun].
  rewrite app_nil_r. pose proof (linked_shape _ _ (c_shape _ _ C) start_linked) as L.
  destruct (c_log _ _ C i tick Hrun) as [_ Hd].
  assert (forall k g', k <> i -> groups !! k = Some g' -> k ∈ mListeners (executor g) ->
            reached log k (on_executor (trigger tick) g')) as Hlist.
  { intros k g' Hne E Hk. pose proof (c_state _ _ C k g' E) as S. unfold reached. cbn.
    pose proof (Hh k g g' Hg Hk E) as Ha. destruct (mThread (executor g')); auto; [right; apply S | congruence | destruct S]. }
  assert (forall k g', k <> i -> groups !! k = Some g' -> reached log k g' ->
            reached log k (if decide (k ∈ mListeners (executor g)) then on_executor (trigger tick) g' else g')) as Hkeep.
  { intros k g' Hne E H. destruct (decide _) as [Hk | Hk]; [apply Hlist |]; assumption. }
  split.
  - rewrite <- (c_shape _ _ C). apply (work_shape process _ (Finishes i)). apply work_finish; assumption.
  - intros k g' E. apply (finished_lookup _ _ _ _ _ L Hg) in E as [[-> ->] | (Hne & h & E & ->)]; [exact I |].
    pose proof (c_state _ _ C k h E) as S. destruct (decide _) as [Hk | Hk]; [| exact S]. cbn.
    destruct (mThread (executor h)); auto; (split; [| auto]).
    + destruct (shape_lookup _ _ _ _ (c_shape _ _ C) Hg) as (g0 & Hg0 & [= _ _ E3]).
      apply (downstream_listener _ _ i g0 k Hd Hg0). congruence.
    + apply S.
  - exact (c_log _ _ C).
  - intros k g' E Es. apply (finished_lookup _ _ _ _ _ L Hg) in E as [[-> ->] | (Hne & h & E & ->)]; [right; exact Hrun |].
    apply Hkeep; [exact Hne | exact E |]. apply (c_source _ _ C k h E). destruct (decide _); exact Es.
  - intros k j g1 g2 E1 Hk E2 Hl.
    apply (finished_lookup _ _ _ _ _ L Hg) in E2 as [[-> ->] | (Hne2 & h2 & E2 & ->)]; [right; right; exact Hrun |].
    apply (finished_lookup _ _ _ _ _ L Hg) in E1 as [[-> ->] | (Hne1 & h1 & E1 & ->)].
    + right. cbn in Hl. rewrite decide_True by exact Hl. apply Hlist; assumption.
    + assert (j ∈ mListeners (executor h1)) as Hl' by (destruct (decide _); exact Hl).
      destruct (c_listener _ _ C k j h1 h2 E1 Hk E2 Hl') as [H | H]; [| right; apply Hkeep; assumption].
      left. destruct (decide _); cbn; [rewrite H; reflexivity | exact H].
Qed.

(** To the wait or away from it. *)
Lemma cascade_idle log groups i g a :
  cascade log groups -> groups !! i = Some g -> mThread (executor g) = Asleep \/ mThread (executor g) = Away ->
  a = Asleep \/ a = Away -> cascade log (alter (on_executor (set_thread a)) i groups).
Proof.
  intros C Hg Ht Ha.
  assert (E : forall k g', alter (on_executor (set_thread a)) i groups !! k = Some g' ->
            exists h, groups !! k = Some h /\ triggerSource g' = triggerSource h /\ mListeners (executor g') = mListeners (executor h)
              /\ (g' = h \/ (mThread (executor h) = Asleep \/ mThread (executor h) = Away) /\ mThread (executor g') = a)).
  { intros k g'. destruct (decide (i = k)) as [<- | Hne].
    - rewrite list_lookup_alter_eq, Hg. intros [= <-]. exists g. split; [reflexivity |]. split; [reflexivity |]. split; [reflexivity |]. right. auto.
    - rewrite list_lookup_alter_ne by exact Hne. intros H. exists g'. auto. }
  assert (R : forall k g' h, g' = h \/ (mThread (executor h) = Asleep \/ mThread (executor h) = Away) /\ mThread (executor g') = a ->
            reached log k h -> reached log k g').
  { intros k g' h [-> | [Hh _]] [H | H]; [left; exact H | right; exact H | | right; exact H].
    destruct Hh as [Hh | Hh]; rewrite Hh in H; discriminate. }
  split.
  - rewrite <- (c_shape _ _ C). apply shape_alter. auto.
  - intros k g' (h & Hh & _ & _ & Hc)%E. pose proof (c_state _ _ C k h Hh) as S. destruct Hc as [-> | [_ Hc]]; [exact S |].
    rewrite Hc. destruct Ha as [-> | ->]; exact I.
  - exact (c_log _ _ C).
  - intros k g' (h & Hh & E1 & _ & Hc)%E Es. apply (R k g' h Hc), (c_source _ _ C k h Hh). congruence.
  - intros k j g1 g2 (h1 & H1 & _ & El & Hc1)%E Hr (h2 & H2 & _ & _ & Hc2)%E Hl. rewrite El in Hl.
    destruct (c_listener _ _ C k j h1 h2 H1 Hr H2 Hl) as [H | H]; [| right; exact (R j g2 h2 Hc2 H)].
    destruct Hc1 as [-> | [[Hc1 | Hc1] _]]; [left; exact H | rewrite Hc1 in H; discriminate ..].
Qed.

Lemma cascade_works log0 groups0 log groups n w :
  works process heard groups0 log groups n w -> staffed groups0 -> cascade log0 groups0 -> cascade (log0 ++ log) groups.
Proof.
  intros W St C. induction W as [| groups0 log g1 o g2 n w W IH S Hh]; [rewrite app_nil_r; exact C |].
  specialize (IH St C). pose proof (staffed_nodes _ _ (works_nodes _ _ _ _ _ _ _ W) St) as St1. rewrite app_assoc.
  destruct S as [groups i g Hg Ht Ha | groups i g Hg Ht Ha | groups i g t Hg Ht | groups i g Hg Ht | groups i g Hg Ht | groups i g Hg Ht]; cbn [started].
  - apply cascade_start; assumption.
  - pose proof (c_state _ _ IH i g Hg) as Hs. rewrite Ht in Hs. destruct Hs as (_ & Ha' & _). congruence.
  - apply cascade_finish; assumption.
  - rewrite app_nil_r. apply (cascade_idle _ _ i g); auto.
  - rewrite (time_out_staffed _ _ _ St1 Hg), app_nil_r. apply (cascade_idle _ _ i g); auto.
  - destruct Hh.
Qed.

(** When all threads wait again, exactly the executors downstream have run. *)
Lemma cascade_done log groups i :
  cascade log groups -> quiet groups -> runs log i <-> downstream start source i.
Proof.
  intros C Q. assert (forall j g, groups !! j = Some g -> reached log j g -> runs log j) as Hr.
  { intros j g Hg [H | H]; [| exact H]. pose proof (Forall_lookup_1 _ _ _ _ Q Hg) as E. cbn in E. rewrite H in E. discriminate E. }
  assert (map shape start = map shape groups) as Es by (symmetry; apply (c_shape _ _ C)).
  split; [intros H; apply (c_log _ _ C i tick H) |]. intros D. induction D as [i g Hg Hs | i g j D IH Hg Hl].
  - destruct (shape_lookup _ _ _ _ Es Hg) as (g' & Hg' & [= _ E2 _]).
    apply (Hr i g' Hg'), (c_source _ _ C i g' Hg'). congruence.
  - destruct (shape_lookup _ _ _ _ Es Hg) as (g' & Hg' & [= _ _ E3]).
    pose proof (link_bound _ start_linked i g j Hg Hl) as Hj. rewrite <- (shape_length _ _ (c_shape _ _ C)) in Hj.
    destruct (lookup_lt_is_Some_2 _ _ Hj) as [gj Hgj].
    destruct (c_listener _ _ C i j g' gj Hg' IH Hgj) as [H | H]; [congruence | | exact (Hr j gj Hgj H)].
    pose proof (Forall_lookup_1 _ _ _ _ Q Hg') as E. cbn in E. rewrite H in E. discriminate E.
Qed.
End Cascade.

Lemma downstream_shape groups groups' source i :
  map shape groups' = map shape groups -> downstream groups source i -> downstream groups' source i.
Proof.
  intros E D. symmetry in E. induction D as [i g Hg Hs | i g j D IH Hg Hl];
    destruct (shape_lookup _ _ _ _ E Hg) as (g' & Hg' & [= _ E2 E3]).
  - apply (downstream_source _ _ i g' Hg'). congruence.
  - apply (downstream_listener _ _ i g' j IH Hg'). congruence.
Qed.

Lemma executeNode_lookup source id s i g :
  mExeGroups (snd (executeNode source id s)) !! i = Some g ->
  exists g0, mExeGroups s !! i = Some g0 /\
    g = if String.eqb (triggerSource g0) source
        then on_executor (trigger (if id <? 0 then mTriggerCount s + 1 else id)) g0 else g0.
Proof.
  cbn [snd executeNode mExeGroups]. change (map ?f ?l) with (f <$> l). rewrite list_lookup_fmap.
  intros (g0 & Hg & ->)%fmap_Some. eauto.
Qed.

Lemma executeNode_shape source id s :
  map shape (mExeGroups (snd (executeNode source id s))) = map shape (mExeGroups s).
Proof.
  cbn [snd executeNode mExeGroups]. rewrite map_map. apply map_ext. intros g. destruct (String.eqb _ _); reflexivity.
Qed.

Lemma executeNode_nodes source id s :
  node_lists (mExeGroups (snd (executeNode source id s)))
  = node_lists (mExeGroups s).
Proof.
  unfold node_lists. cbn [snd executeNode mExeGroups]. rewrite map_map. apply map_ext. intros g. destruct (String.eqb _ _); reflexivity.
Qed.

(** C17: when every executor has a node, all wait and all nodes succeed,
    [executeNode] makes exactly the executors of the source run, and those that
    listen to one that runs, all of them for the frame that was named (or the
    trigger count), in whatever order the threads go on and whatever waits run
    out of time until no thread is signalled or busy any more.  This is so when
    no wait ends for no reason and no executor is triggered while it is between
    two waits, where the signal is lost ([trigger_between_waits_lost]). *)
Theorem executeNode_runs process source id s log groups n w :
  linked (mExeGroups s) -> staffed (mExeGroups s) -> Forall (fun g => mThread (executor g) = Asleep) (mExeGroups s) ->
  let tick := if id <? 0 then mTriggerCount s + 1 else id in
  (forall node, process node tick = true) ->
  works process heard (mExeGroups (snd (executeNode source id s))) log groups n w -> quiet groups ->
  forall i t, (i, t) ∈ log <-> t = tick /\ downstream (mExeGroups s) source i.
Proof.
  intros L St A tick Hp W Q. set (start := mExeGroups s) in *.
  assert (cascade start source tick [] (mExeGroups (snd (executeNode source id s)))) as C.
  { split.
    - apply executeNode_shape.
    - intros i g (g0 & Hg0 & ->)%executeNode_lookup. pose proof (Forall_lookup_1 _ _ _ _ A Hg0) as E. cbn in E.
      destruct (String.eqb_spec (triggerSource g0) source) as [Es | Es]; [| rewrite E; exact I].
      cbn. rewrite E. split; [exact (downstream_source _ _ i g0 Hg0 Es) | auto].
    - intros i t H. apply not_elem_of_nil in H as [].
    - intros i g (g0 & Hg0 & ->)%executeNode_lookup Es. pose proof (Forall_lookup_1 _ _ _ _ A Hg0) as E. cbn in E.
      destruct (String.eqb_spec (triggerSource g0) source) as [Es' | Es']; [| congruence]. left. cbn. rewrite E. reflexivity.
    - intros i j g g' _ H. apply not_elem_of_nil in H as []. }
  pose proof (cascade_works process start source tick L Hp [] _ log groups n w W (staffed_nodes _ _ (executeNode_nodes source id s) St) C) as C'. cbn [app] in C'.
  intros i t. split.
  - intros H. exact (c_log _ _ _ _ _ C' i t H).
  - intros [-> D]. exact (proj2 (cascade_done start source tick L log groups i C' Q) D).
Qed.

(** ** Nodes *)

Lemma remove_first_end node l : node ∉ l -> remove_first node (l ++ [node]) = l.
Proof.
  induction l as [| n l IH]; intros H; cbn.
  - rewrite Z.eqb_refl. reflexivity.
  - destruct (Z.eqb_spec n node) as [-> | _]; [destruct H; left |]. rewrite IH; [reflexivity |]. intros Hn. apply H. right. exact Hn.
Qed.

(** Unregistering a node takes back its registration, if it was not
    registered before. *)
Theorem register_round_trip (getName : Z -> string) node s s' :
  registerNode getName node s = (OK, s') -> mRegisteredNodes s !! node = None ->
  Forall (fun g => node ∉ mNodes (executor g)) (mExeGroups s) ->
  unregisterNode node s' = s.
Proof.
  unfold registerNode. destruct (group_of _ _ _ _) as [i |]; [| discriminate]. intros [= <-] Hr Hn.
  unfold unregisterNode, set_nodes, set_groups. cbn [mRegisteredNodes mExeGroups mPolicy mTriggerCount].
  rewrite lookup_insert_eq. cbn [mRegisteredNodes mExeGroups mPolicy mTriggerCount].
  rewrite delete_insert_id by exact Hr. destruct s as [p groups m c]. cbn [mRegisteredNodes mExeGroups mPolicy mTriggerCount] in *.
  f_equal. apply list_eq. intros k. destruct (decide (i = k)) as [<- | Hne].
  - rewrite !list_lookup_alter_eq. destruct (groups !! i) as [g |] eqn:E; [| reflexivity].
    cbn [fmap option_fmap option_map]. f_equal. pose proof (Forall_lookup_1 _ _ _ _ Hn E) as Hg. cbn in Hg.
    destruct g as [[a l b c' d e] src gn]. unfold on_executor, removeNode, addNode, set_executor_nodes. cbn in *.
    rewrite remove_first_end by exact Hg. reflexivity.
  - rewrite !list_lookup_alter_ne by exact Hne. reflexivity.
Qed.

(** ** Instances and limits *)

(** Executor bb runs when lb has run. *)
Definition chain_policy : CameraSchedulerPolicy :=
  Policy FIELD_INVALID 1
    [Policy_desc 1 {[ 7 ]} [Executor_desc "lb" EmptyString ["lb_video"%string]; Executor_desc "bb" "lb" ["bb_video"%string]]]
    (Some 0%nat).

Definition ascending (_ i : nat) : Z := Z.of_nat i.
Definition descending (_ i : nat) : Z := - Z.of_nat i.

Definition configured (address : nat -> nat -> Z) : CameraScheduler :=
  snd (configurate address {[ 7 ]} (new_scheduler chain_policy)).

Definition position (name : string) s : nat := default 99%nat (findExecutor name (mExeGroups s)).

(** Whether an executor that is triggered by another ever runs depends on
    the addresses of their names in memory: for one and the same policy it
    listens to its source, or to nothing. *)
Theorem link_depends_on_addresses :
  downstream (mExeGroups (configured ascending)) EmptyString (position "bb" (configured ascending)) /\
  ~ downstream (mExeGroups (configured descending)) EmptyString (position "bb" (configured descending)).
Proof.
  split.
  - apply (downstream_listener _ _ 0 (Group (mkExecutor "lb" [] [1%nat] false 0 Away) EmptyString ["lb_video"%string]));
      [| vm_compute; reflexivity | left].
    eapply downstream_source; [vm_compute; reflexivity | reflexivity].
  - intros D. assert (forall i, downstream (mExeGroups (configured descending)) EmptyString i -> i = 1%nat) as H.
    { intros i D'. induction D' as [i g Hg Hs | i g j _ _ Hg Hl]; vm_compute in Hg.
      - destruct i as [| [| i]]; [injection Hg as <-; discriminate Hs | reflexivity | discriminate Hg].
      - destruct i as [| [| i]]; [injection Hg as <- | injection Hg as <- | discriminate Hg];
          apply not_elem_of_nil in Hl as []. }
    apply H in D. vm_compute in D. discriminate D.
Qed.

(** The threads have come to their waits. *)
Definition waiting s : CameraScheduler := set_groups (map (on_executor (set_thread Asleep)) (mExeGroups s)) s.

(** A frame that is triggered while the executor still processes the one
    before is forgotten: the signal finds nobody waiting, and all threads wait
    without the frame ever having run. *)
Theorem trigger_lost process :
  exists groups1 groups2,
    let s := waiting (snd (registerNode (fun _ => "lb_video"%string) 5 (configured descending))) in
    work process (mExeGroups (snd (executeNode EmptyString 1 s))) (Starts 1 1) groups1 /\
    work process (mExeGroups (snd (executeNode EmptyString 2 (set_groups groups1 s)))) (Finishes 1) groups2 /\
    quiet groups2.
Proof.
  eexists _, _. cbv zeta. split; [| split].
  - eapply (work_start process _ 1 (Group (mkExecutor "lb" [5] [] true 1 Woken) EmptyString ["lb_video"%string])); vm_compute; reflexivity.
  - eapply (work_finish process _ 1 (Group (mkExecutor "lb" [5] [] true 2 (Busy 1)) EmptyString ["lb_video"%string]) 1); vm_compute; reflexivity.
  - unfold finish. destruct (process_all _ _ _); repeat constructor.
Qed.

(** So is one that is triggered between two waits, as when a wait has just run
    out of time, or before the first. *)
Theorem trigger_between_waits_lost source id s :
  Forall (fun g => mThread (executor g) = Away) (mExeGroups s) -> quiet (mExeGroups (snd (executeNode source id s))).
Proof.
  intros A. cbn [snd executeNode mExeGroups]. apply Forall_map. eapply Forall_impl; [exact A |]. intros g E. cbn in *.
  destruct (String.eqb _ _); cbn; rewrite E; reflexivity.
Qed.

(** A wait that ends for no reason has an executor process the frame of before
    again, and trigger its listeners. *)
Theorem spurious_wake_runs_again process groups i g :
  groups !! i = Some g -> mThread (executor g) = Asleep -> mActive (executor g) = true ->
  exists groups1, work process groups (Wakes i) groups1
    /\ groups1 !! i = Some (on_executor (set_thread (Busy (mTriggerTick (executor g)))) g).
Proof.
  intros Hg Ht Ha. eexists. split; [eapply work_wake; eassumption |].
  rewrite list_lookup_alter_eq, Hg. cbn. unfold on_executor, wake. cbn [andb]. rewrite Ha. reflexivity.
Qed.

(** An executor without nodes does not wait on when its wait runs out of time: if
    it was ever triggered it triggers its listeners again, for the frame of
    before; if it was not it leaves its loop, and a node that registers later is
    never processed. *)
Theorem time_out_without_nodes process :
  (exists groups, work process (mExeGroups (waiting (configured ascending))) (TimesOut 0) groups
    /\ exists g, groups !! 0%nat = Some g /\ mThread (executor g) = Exited)
  /\ (forall groups i g, groups !! i = Some g -> mThread (executor g) = Asleep -> mNodes (executor g) = [] ->
       mActive (executor g) = true ->
       exists groups1, work process groups (TimesOut i) groups1
         /\ work process groups1 (Finishes i)
              (alter (on_executor (set_thread Away)) i
                 (trigger_listeners (mTriggerTick (executor g)) (mListeners (executor g)) groups1))).
Proof.
  split.
  - eexists. split; [eapply work_time_out; vm_compute; reflexivity |]. eexists. split; vm_compute; reflexivity.
  - intros groups i g Hg Ht Hn Ha. eexists. split; [eapply work_time_out; eassumption |].
    assert (Hw : wake true (executor g) = set_thread (Busy (mTriggerTick (executor g))) (executor g)).
    { unfold wake. rewrite Hn, Ha. reflexivity. }
    pose proof (work_finish process (alter (on_executor (wake true)) i groups) i (on_executor (wake true) g) (mTriggerTick (executor g))) as W.
    unfold finish, process_all in W. cbn [executor on_executor] in W. rewrite Hw in W. cbn [mNodes mListeners mThread set_thread] in W.
    rewrite Hn in W. cbn [forallb] in W. apply W; [rewrite list_lookup_alter_eq, Hg; cbn; unfold on_executor; rewrite Hw; reflexivity | reflexivity].
Qed.

Lemma configured_linked address : (forall k, Inj (=) (=) (address k)) ->
  linked (mExeGroups (configured address)) /\ Forall (fun g => mThread (executor g) = Away) (mExeGroups (configured address)).
Proof.
  intros Ha. unfold configured, configurate. cbn [new_scheduler mPolicy].
  destruct (setConfig {[7]} chain_policy) as [ret p] eqn:E. destruct (negb (ret =? OK)); [split; [apply no_groups_linked | constructor] |].
  unfold createExecutors. destruct (getExecutors _ _ _) as [n m]. destruct (n <=? 0); [split; [apply no_groups_linked | constructor] |].
  cbn [snd set_groups mExeGroups destoryExecutors set_nodes].
  destruct (create_groups (mPolicy (destoryExecutors (Scheduler p [] ∅ 0))) (by_address m) [] no_groups_linked ltac:(constructor)) as (H1 & H2 & _).
  split; [exact H1 |]. eapply Forall_impl; [exact H2 |]. intros g [H _]. exact H.
Qed.

Lemma ascending_inj k : Inj (=) (=) (ascending k).
Proof. intros i j E. unfold ascending in E. lia. Defined.

Lemma configurate_spec_witness :
  (forall k, Inj (=) (=) (ascending k)) /\
  let s' := configured ascending in
  (OK = BAD_VALUE /\ s' = new_scheduler chain_policy) \/
  (mRegisteredNodes s' = ∅ /\ mTriggerCount s' = 0 /\ linked (mExeGroups s') /\ Forall idle (mExeGroups s') /\
   exists k c order, mActiveConfig (mPolicy s') = Some k /\ active (mPolicy s') = Some c /\ graphIds c = {[ 7 ]} /\
     in_address_order (ascending k) (exeList c) order /\
     Forall2 (fun g i => exists d, exeList c !! i = Some d /\ entry g = exe_of d) (mExeGroups s') order /\
     OK = (if (0 <? length (exeList c))%nat then OK else UNKNOWN_ERROR)).
Proof.
  split; [exact ascending_inj |].
  apply (configurate_spec ascending {[ 7 ]} (new_scheduler chain_policy) OK (configured ascending) ascending_inj).
  vm_compute. reflexivity.
Defined.

(** The two executors of the chain, each with a node, one after the other; the
    wait of the second runs out of time meanwhile. *)
Definition yes (_ _ : Z) : bool := true.

Definition node_name (node : Z) : string := if node =? 5 then "lb_video"%string else "bb_video"%string.

Definition staffed_chain : CameraScheduler :=
  waiting (snd (registerNode node_name 6 (snd (registerNode node_name 5 (configured ascending))))).

Definition chain_state (l : list (activity * Z * bool)) : list ExecutorGroup :=
  match l with
  | [(a, t, v); (a', t', v')] =>
      [Group (mkExecutor "lb" [5] [1%nat] v t a) EmptyString ["lb_video"%string];
       Group (mkExecutor "bb" [6] [] v' t' a') "lb" ["bb_video"%string]]
  | _ => []
  end.

Lemma chain_works ok :
  ok = whatever \/ ok = heard ->
  works yes ok (mExeGroups (snd (executeNode EmptyString 3 staffed_chain))) [(0%nat, 3); (1%nat, 3)]
    (chain_state [(Away, 3, true); (Away, 3, true)]) 4 0.
Proof.
  intros Hok.
  change (works yes ok (mExeGroups (snd (executeNode EmptyString 3 staffed_chain)))
    (((((([] ++ started (Starts 0 3)) ++ started (TimesOut 1)) ++ started (Waits 1)) ++ started (Finishes 0)) ++ started (Starts 1 3)) ++ started (Finishes 1))
    (chain_state [(Away, 3, true); (Away, 3, true)])
    ((((((0 + steps (Starts 0 3)) + steps (TimesOut 1)) + steps (Waits 1)) + steps (Finishes 0)) + steps (Starts 1 3)) + steps (Finishes 1))
    ((((((0 + unasked (Starts 0 3)) + unasked (TimesOut 1)) + unasked (Waits 1)) + unasked (Finishes 0)) + unasked (Starts 1 3)) + unasked (Finishes 1))).
  eapply works_step; [eapply works_step; [eapply works_step; [eapply works_step; [eapply works_step; [eapply works_step; [apply works_nil | |] | |] | |] | |] | |] | |].
  - eapply (work_start yes _ 0 (Group (mkExecutor "lb" [5] [1%nat] true 3 Woken) EmptyString ["lb_video"%string])); vm_compute; reflexivity.
  - destruct Hok as [-> | ->]; exact I.
  - eapply (work_time_out yes _ 1 (Group (mkExecutor "bb" [6] [] false 0 Asleep) "lb" ["bb_video"%string])); vm_compute; reflexivity.
  - destruct Hok as [-> | ->]; exact I.
  - eapply (work_wait yes _ 1 (Group (mkExecutor "bb" [6] [] false 0 Away) "lb" ["bb_video"%string])); vm_compute; reflexivity.
  - destruct Hok as [-> | ->]; exact I.
  - eapply (work_finish yes _ 0 (Group (mkExecutor "lb" [5] [1%nat] true 3 (Busy 3)) EmptyString ["lb_video"%string]) 3); vm_compute; reflexivity.
  - destruct Hok as [-> | ->]; [exact I |]. intros j g g' Hg Hj Hg'. vm_compute in Hg. injection Hg as <-.
    apply list_elem_of_singleton in Hj as ->. vm_compute in Hg'. injection Hg' as <-. discriminate.
  - eapply (work_start yes _ 1 (Group (mkExecutor "bb" [6] [] true 3 Woken) "lb" ["bb_video"%string])); vm_compute; reflexivity.
  - destruct Hok as [-> | ->]; exact I.
  - change (chain_state [(Away, 3, true); (Away, 3, true)])
      with (finish yes 1 3 (mkExecutor "bb" [6] [] true 3 (Busy 3)) (chain_state [(Away, 3, true); (Busy 3, 3, true)])).
    apply (work_finish yes _ 1 (Group (mkExecutor "bb" [6] [] true 3 (Busy 3)) "lb" ["bb_video"%string])); vm_compute; reflexivity.
  - destruct Hok as [-> | ->]; [exact I |]. intros j g g' Hg Hj Hg'. vm_compute in Hg. injection Hg as <-.
    apply not_elem_of_nil in Hj as [].
Qed.

Lemma staffed_chain_ok :
  linked (mExeGroups staffed_chain) /\ staffed (mExeGroups staffed_chain)
  /\ Forall (fun g => mThread (executor g) = Asleep) (mExeGroups staffed_chain).
Proof.
  change (mExeGroups staffed_chain) with (chain_state [(Asleep, 0, false); (Asleep, 0, false)]).
  split; [| split; repeat constructor; discriminate].
  apply (linked_shape (mExeGroups (configured ascending))); [vm_compute; reflexivity | apply configured_linked, ascending_inj].
Qed.

Lemma executeNode_runs_witness :
  works yes heard (mExeGroups (snd (executeNode EmptyString 3 staffed_chain))) [(0%nat, 3); (1%nat, 3)]
    (chain_state [(Away, 3, true); (Away, 3, true)]) 4 0 /\
  forall i t, (i, t) ∈ [(0%nat, 3); (1%nat, 3)] <-> t = 3 /\ downstream (mExeGroups staffed_chain) EmptyString i.
Proof.
  pose proof (chain_works heard (or_intror eq_refl)) as W. split; [exact W |]. destruct staffed_chain_ok as (L & St & A).
  apply (executeNode_runs yes EmptyString 3 staffed_chain _ _ 4 0 L St A (fun _ => eq_refl) W).
  repeat constructor.
Defined.

Lemma cascade_ends_witness :
  let start := mExeGroups (snd (executeNode EmptyString 3 staffed_chain)) in
  let groups := chain_state [(Away, 3, true); (Away, 3, true)] in
  linked start /\ (4 < (1 + 0) * 3 ^ length start)%nat /\
  (quiet groups \/ exists p groups', work yes groups p groups' /\ steps p = 1%nat).
Proof.
  destruct staffed_chain_ok as (L0 & St0 & _).
  pose proof (linked_shape _ _ (executeNode_shape EmptyString 3 staffed_chain) L0) as L.
  split; [exact L |].
  exact (cascade_ends yes _ _ _ 4 0 L (staffed_nodes _ _ (executeNode_nodes EmptyString 3 staffed_chain) St0)
           (chain_works whatever (or_introl eq_refl))).
Defined.

Lemma register_round_trip_witness :
  let s := configured ascending in
  let s' := snd (registerNode (fun _ => "bb_video"%string) 5 s) in
  mRegisteredNodes s' !! 5 = Some 1%nat /\ unregisterNode 5 s' = s.
Proof.
  split; [vm_compute; reflexivity |].
  apply (register_round_trip (fun _ => "bb_video"%string) 5 (configured ascending)).
  - vm_compute. reflexivity.
  - vm_compute. reflexivity.
  - assert (map (fun g => mNodes (executor g)) (mExeGroups (configured ascending)) = [[]; []]) as E by (vm_compute; reflexivity).
    apply (proj1 (Forall_map (fun g => mNodes (executor g)) (fun l => 5 ∉ l) _)). rewrite E. repeat constructor; apply not_elem_of_nil.
Defined.
