(* ===== verification/SyncManager.v ===== *)
(** * Frame synchronisation of several cameras

    src/core/SyncManager.cpp and .h: the frames each camera last received, from
    which [isSynced] tells whether a frame has one of the same moment in every
    other camera, and the counter of processed frames of each virtual channel,
    which keeps the executors of the channels in step
    (src/core/psysprocessor/PipeLiteExecutor.cpp).  Each operation is a critical
    section; the executors' threads interleave between them. *)

From S2P Require Import Prelude Errors.
From stdpp Require Import list.
#[local] Open Scope Z_scope.

(** ** State *)

Definition MAX_BUFFER_COUNT : Z := 10.
Definition max_vc_sync_count : Z := 128.
Definition TIME_DIFF_MS : Z := 2.

(** [struct timeval] as its seconds and microseconds. *)
Record camera_buf_info := BufInfo { sequence : Z; sof_ts : Z * Z }.

Record SyncManager := Manager {
  mCameraBufInfo : list (list camera_buf_info);
  mVcSyncCount : list Z;
  mTotalSyncCamNum : Z;
}.

Section SyncManager.
(** 100 on Linux and 2 on the other systems. *)
Context (MAX_CAMERA_NUMBER : Z).

Definition new_SyncManager : SyncManager :=
  Manager (replicate (Z.to_nat MAX_CAMERA_NUMBER) (replicate (Z.to_nat MAX_BUFFER_COUNT) (BufInfo (-1) (0, 0))))
    (replicate (Z.to_nat MAX_CAMERA_NUMBER) 0) 0.

(** An array access: [None] is an index outside the array. *)
Definition at_index {A} (l : list A) (i : Z) : option A := if i <? 0 then None else l !! Z.to_nat i.

Definition at_index_set {A} (i : Z) (x : A) (l : list A) : option (list A) :=
  _ ← at_index l i; Some (<[Z.to_nat i := x]> l).

(** ** Frames of the same moment *)

Definition frame_ms (info : camera_buf_info) : Z := Z.quot (snd (sof_ts info)) 1000 + fst (sof_ts info) * 1000.

Definition same_moment (a b : Z) : bool := Z.abs (a - b) <=? TIME_DIFF_MS.

(** The first frame of a camera taken at the moment [cur]. *)
Fixpoint frame_at (cur : Z) (frames : list camera_buf_info) : option Z :=
  match frames with
  | [] => None
  | f :: rest => if (0 <=? sequence f) && same_moment (frame_ms f) cur then Some (frame_ms f) else frame_at cur rest
  end.

(** A camera is looked at once its first buffer was filled. *)
Definition camera_frame (cur : Z) (frames : list camera_buf_info) : option Z :=
  match frames with
  | f :: _ => if sequence f =? -1 then None else frame_at cur frames
  | [] => None
  end.

(** [frameSyncedMs], as far as [syncNum]. *)
Definition frameSynced (cameraId : Z) (cur : Z) s : list Z :=
  omap id (imap (fun i frames => if Z.of_nat i =? cameraId then None else camera_frame cur frames) (mCameraBufInfo s)).

(** The frames found are compared in a circle. *)
Definition agrees (frames : list Z) (others : Z) (i : Z) : bool :=
  let f := frames !!! Z.to_nat i in
  ((i + 1 <? others) && same_moment f (frames !!! Z.to_nat (i + 1)))
  || ((i + 1 =? others) && same_moment f (frames !!! O)).

Definition isSynced (cameraId seq : Z) s : option bool :=
  own ← at_index (mCameraBufInfo s) cameraId;
  info ← at_index own (Z.rem seq MAX_BUFFER_COUNT);
  let found := frameSynced cameraId (frame_ms info) s in
  let others := mTotalSyncCamNum s - 1 in
  Some (if others <=? Z.of_nat (length found) then forallb (agrees found others) (range 0 others) else false).

Definition updateCameraBufInfo (cameraId : Z) (info : camera_buf_info) s : option SyncManager :=
  own ← at_index (mCameraBufInfo s) cameraId;
  own' ← at_index_set (Z.rem (sequence info) MAX_BUFFER_COUNT) info own;
  all ← at_index_set cameraId own' (mCameraBufInfo s);
  Some (Manager all (mVcSyncCount s) (mTotalSyncCamNum s)).

Definition updateSyncCamNum s : SyncManager :=
  if MAX_CAMERA_NUMBER <=? mTotalSyncCamNum s then s
  else Manager (mCameraBufInfo s) (mVcSyncCount s) (mTotalSyncCamNum s + 1).

(** ** The counters of the virtual channels *)

Definition INT_MAX : Z := 2147483647.

(** The counters of the cameras that take part. *)
Definition counts s : list Z := take (Z.to_nat (mTotalSyncCamNum s)) (mVcSyncCount s).

Definition minimum (a : Z) (l : list Z) : Z := foldl Z.min a l.
Definition maximum (a : Z) (l : list Z) : Z := foldl Z.max a l.

(** The counter as it is compared while some of them have gone back to 0. *)
Definition circled (c : Z) : Z := (c + max_vc_sync_count) mod (max_vc_sync_count + max_vc_sync_count / 4).

Definition vcSynced (vc : Z) s : option bool :=
  if MAX_CAMERA_NUMBER <=? vc then Some false else
  count ← at_index (mVcSyncCount s) vc;
  let minCount := minimum INT_MAX (counts s) in
  let maxCount := maximum 0 (counts s) in
  Some (if max_vc_sync_count / 2 <? maxCount - minCount
        then circled count <=? minimum max_vc_sync_count (circled <$> counts s)
        else count <=? minCount).

Definition updateVcSyncCount (vc : Z) s : option SyncManager :=
  if MAX_CAMERA_NUMBER <=? vc then Some s else
  count ← at_index (mVcSyncCount s) vc;
  Some (Manager (mCameraBufInfo s) (<[Z.to_nat vc := (count + 1) mod (max_vc_sync_count + 1)]> (mVcSyncCount s))
    (mTotalSyncCamNum s)).

(** ** The executors of the channels

    The thread of an executor fetches its buffers, waits until [vcSynced] holds
    or the executor is stopped, counts its frame and runs its pipe.  [running]
    is [mThreadRunning], which is set and reset from outside; [threaded] says
    that there is a policy manager: without one there is no thread, the
    scheduler runs the executor and [mThreadRunning] is never set.  [ran] is the
    number of frames of each channel. *)
Inductive phase := Fetching | Waiting | Passed.

Record FrameSync := System { manager : SyncManager; threaded : bool; mThreadRunning : list bool; phases : list phase; ran : list Z }.

Inductive executor_event := Turn (vc : nat) | ExecutorStart (vc : nat) | ExecutorStop (vc : nat).

(** The thread's next section; between two looks it sleeps. *)
Definition turn (sys : FrameSync) (vc : nat) : option FrameSync :=
  at_phase ← phases sys !! vc;
  run ← mThreadRunning sys !! vc;
  frames ← ran sys !! vc;
  match at_phase with
  | Fetching =>
      Some (if threaded sys && negb run then sys
            else System (manager sys) (threaded sys) (mThreadRunning sys) (<[vc := Waiting]> (phases sys)) (ran sys))
  | Waiting =>
      ok ← vcSynced (Z.of_nat vc) (manager sys);
      Some (if negb ok && run then sys
            else System (manager sys) (threaded sys) (mThreadRunning sys) (<[vc := Passed]> (phases sys)) (ran sys))
  | Passed =>
      m ← updateVcSyncCount (Z.of_nat vc) (manager sys);
      Some (System m (threaded sys) (mThreadRunning sys) (<[vc := Fetching]> (phases sys)) (<[vc := frames + 1]> (ran sys)))
  end.

Definition set_running (vc : nat) (run : bool) (sys : FrameSync) : FrameSync :=
  System (manager sys) (threaded sys) (<[vc := run]> (mThreadRunning sys)) (phases sys) (ran sys).

Definition happen (e : executor_event) (sys : FrameSync) : option FrameSync :=
  match e with
  | Turn vc => turn sys vc
  | ExecutorStart vc => Some (if threaded sys then set_running vc true sys else sys)
  | ExecutorStop vc => Some (if threaded sys then set_running vc false sys else sys)
  end.

Fixpoint happens (l : list executor_event) (sys : FrameSync) : option FrameSync :=
  match l with [] => Some sys | e :: rest => sys' ← happen e sys; happens rest sys' end.

(** The cameras are opened before any of them streams. *)
Definition opened (threads : bool) (total : nat) : FrameSync :=
  System (Nat.iter total updateSyncCamNum new_SyncManager) threads (replicate total false) (replicate total Fetching) (replicate total 0).

Definition channel (e : executor_event) : nat := match e with Turn vc | ExecutorStart vc | ExecutorStop vc => vc end.

Definition stops (l : list executor_event) : Z := Z.of_nat (length (List.filter (fun e => match e with ExecutorStop _ => true | _ => false end) l)).

(** ** The least and the greatest counter *)

Lemma le_minimum x a l : x <= minimum a l <-> x <= a /\ Forall (fun y => x <= y) l.
Proof.
  unfold minimum. revert a. induction l as [|y l IH]; intros a; simpl; [rewrite Forall_nil; intuition|].
  rewrite IH, Forall_cons, Z.min_glb_iff. tauto.
Qed.

Lemma maximum_le x a l : maximum a l <= x <-> a <= x /\ Forall (fun y => y <= x) l.
Proof.
  unfold maximum. revert a. induction l as [|y l IH]; intros a; simpl; [rewrite Forall_nil; intuition|].
  rewrite IH, Forall_cons, Z.max_lub_iff. tauto.
Qed.

Lemma minimum_in a l : minimum a l = a \/ minimum a l ∈ l.
Proof.
  unfold minimum. revert a. induction l as [|y l IH]; intros a; simpl; [auto|].
  rewrite elem_of_cons. destruct (IH (a `min` y)) as [->|]; [|auto]. destruct (Z.min_spec a y) as [[? ->]|[? ->]]; auto.
Qed.

Lemma maximum_in a l : maximum a l = a \/ maximum a l ∈ l.
Proof.
  unfold maximum. revert a. induction l as [|y l IH]; intros a; simpl; [auto|].
  rewrite elem_of_cons. destruct (IH (a `max` y)) as [->|]; [|auto]. destruct (Z.max_spec a y) as [[? ->]|[? ->]]; auto.
Qed.

(** ** Counters that go round *)

(** The counter after [n] frames. *)
Definition count_of (n : Z) : Z := n mod (max_vc_sync_count + 1).

Lemma count_of_range n : 0 <= count_of n <= 128.
Proof. pose proof (Z.mod_pos_bound n 129) as H. change (count_of n) with (n mod 129). lia. Qed.

Lemma count_split n : exists q, n = 129 * q + count_of n.
Proof. exists (n / 129). apply Z.div_mod. discriminate. Qed.

(** Counters close to each other that have not separated compare like the
    numbers they count. *)
Lemma count_le n m :
  Z.abs (n - m) <= 32 -> Z.abs (count_of n - count_of m) <= 64 -> (count_of n <= count_of m <-> n <= m).
Proof.
  destruct (count_split n) as [q Hn], (count_split m) as [q' Hm]. intros.
  assert (q = q') by (pose proof (count_of_range n); pose proof (count_of_range m); lia). lia.
Qed.

Lemma circled_eq c : 0 <= c <= 128 -> circled c = if c <? 32 then c + 128 else c - 32.
Proof.
  change (circled c) with ((c + 128) mod 160). intros. destruct (Z.ltb_spec c 32).
  - apply Z.mod_small. lia.
  - symmetry. apply (Z.mod_unique _ _ 1); lia.
Qed.

(** Once two of them have separated, the circled counters do. *)
Lemma circled_le lo a b n m :
  lo <= a <= lo + 32 -> lo <= b <= lo + 32 -> lo <= n <= lo + 32 -> lo <= m <= lo + 32 ->
  64 < count_of a - count_of b -> (circled (count_of n) <= circled (count_of m) <-> n <= m).
Proof.
  intros. rewrite !circled_eq by apply count_of_range.
  pose proof (count_of_range a). pose proof (count_of_range b). pose proof (count_of_range n). pose proof (count_of_range m).
  destruct (count_split a) as [p Ha], (count_split b) as [p' Hb], (count_split n) as [q Hn], (count_split m) as [q' Hm].
  assert (p' = p + 1) by lia.
  assert (q = p \/ q = p + 1) by lia. assert (q' = p \/ q' = p + 1) by lia.
  destruct (Z.ltb_spec (count_of n) 32), (Z.ltb_spec (count_of m) 32); lia.
Qed.

Lemma circled_separated lo a b :
  lo <= a <= lo + 32 -> lo <= b <= lo + 32 -> 64 < count_of a - count_of b -> circled (count_of a) <= 128.
Proof.
  intros. rewrite !circled_eq by apply count_of_range. pose proof (count_of_range a). pose proof (count_of_range b).
  destruct (Z.ltb_spec (count_of a) 32); lia.
Qed.

(** The counters hold the numbers of frames [n], which are not far apart. *)
Definition tracks (n : list Z) s : Prop :=
  mTotalSyncCamNum s = Z.of_nat (length n) /\ Z.of_nat (length n) <= MAX_CAMERA_NUMBER
  /\ counts s = count_of <$> n.

Definition within (d : Z) (n : list Z) : Prop := forall a b, a ∈ n -> b ∈ n -> a <= b + d.

Lemma within_lo d n : n <> [] -> within d n -> exists lo, forall a, a ∈ n -> lo <= a <= lo + d.
Proof.
  intros Hn Hw. destruct n as [|x n]; [done|]. exists (minimum x n). intros a Ha.
  pose proof (proj1 (le_minimum (minimum x n) x n) (Z.le_refl _)) as [Hx Hl]. rewrite Forall_forall in Hl.
  split; [apply elem_of_cons in Ha as [->|Ha]; auto|].
  apply Hw; [done|]. apply elem_of_cons. apply minimum_in.
Qed.

Lemma counts_lookup n s vc m : tracks n s -> n !! vc = Some m ->
  at_index (mVcSyncCount s) (Z.of_nat vc) = Some (count_of m).
Proof.
  intros (Ht & Hm & Hc) Hv. pose proof (lookup_lt_Some _ _ _ Hv). unfold at_index.
  destruct (Z.ltb_spec (Z.of_nat vc) 0); [lia|]. rewrite Nat2Z.id.
  rewrite <- (lookup_take_lt _ (Z.to_nat (mTotalSyncCamNum s))) by lia.
  change (counts s !! vc = Some (count_of m)). rewrite Hc, list_lookup_fmap, Hv. done.
Qed.

Lemma separated_counts n s :
  tracks n s -> 64 < maximum 0 (counts s) - minimum INT_MAX (counts s) ->
  exists a b, a ∈ n /\ b ∈ n /\ 64 < count_of a - count_of b.
Proof.
  intros (_ & _ & Hc) H. rewrite Hc in H.
  assert (Hr : maximum 0 (count_of <$> n) <= 128).
  { apply maximum_le. split; [lia|]. apply Forall_fmap, Forall_forall. intros x _. apply count_of_range. }
  assert (Hr' : 0 <= minimum INT_MAX (count_of <$> n)).
  { apply le_minimum. split; [done|]. apply Forall_fmap, Forall_forall. intros x _. apply count_of_range. }
  destruct (maximum_in 0 (count_of <$> n)) as [Ha|Ha]; [lia|].
  destruct (minimum_in INT_MAX (count_of <$> n)) as [Hb|Hb]; [assert (INT_MAX = 2147483647) by done; lia|].
  apply list_elem_of_fmap in Ha as (a & Ha & Hai). apply list_elem_of_fmap in Hb as (b & Hb & Hbi).
  exists a, b. rewrite <- Ha, <- Hb. auto.
Qed.

Lemma joined_counts n s a b :
  tracks n s -> maximum 0 (counts s) - minimum INT_MAX (counts s) <= 64 -> a ∈ n -> b ∈ n ->
  Z.abs (count_of a - count_of b) <= 64.
Proof.
  intros (_ & _ & Hc) H Ha Hb. rewrite Hc in H.
  pose proof (proj1 (maximum_le _ _ _) (Z.le_refl (maximum 0 (count_of <$> n)))) as [_ Hmax].
  pose proof (proj1 (le_minimum _ _ _) (Z.le_refl (minimum INT_MAX (count_of <$> n)))) as [_ Hmin].
  rewrite Forall_fmap, Forall_forall in Hmax, Hmin. unfold compose in *.
  pose proof (Hmax _ Ha). pose proof (Hmax _ Hb). pose proof (Hmin _ Ha). pose proof (Hmin _ Hb). simpl in *. lia.
Qed.

(** [vcSynced] holds for the channels that have processed the fewest frames. *)
Lemma vcSynced_least n s vc m :
  tracks n s -> within 32 n -> n !! vc = Some m ->
  vcSynced (Z.of_nat vc) s = Some (bool_decide (Forall (fun k => m <= k) n)).
Proof.
  intros Ht Hw Hv. pose proof (lookup_lt_Some _ _ _ Hv) as Hl. pose proof Ht as (Htot & Hmax & Hc).
  assert (Hm : m ∈ n) by (apply list_elem_of_lookup; eauto).
  destruct (within_lo 32 n) as [lo Hlo]; [by intros ->|done|].
  unfold vcSynced. destruct (Z.leb_spec MAX_CAMERA_NUMBER (Z.of_nat vc)); [lia|].
  rewrite (counts_lookup n s vc m Ht Hv). cbn [mbind option_bind]. f_equal. change (max_vc_sync_count / 2) with 64.
  apply eq_true_iff_eq. rewrite bool_decide_eq_true. destruct (Z.ltb_spec 64 (maximum 0 (counts s) - minimum INT_MAX (counts s))) as [H64|H64].
  - destruct (separated_counts n s Ht H64) as (a & b & Ha & Hb & Hab).
    rewrite Z.leb_le, Hc, le_minimum, !Forall_fmap, !Forall_forall. unfold compose.
    pose proof (fun k Hk => circled_le lo a b m k (Hlo a Ha) (Hlo b Hb) (Hlo m Hm) (Hlo k Hk) Hab) as Hle.
    split; [intros [_ Hk] k Hin; apply (Hle k Hin), (Hk k Hin)|]. intros Hk.
    split; [|intros k Hin; apply (Hle k Hin), Hk, Hin].
    etransitivity; [apply (Hle a Ha), Hk, Ha|]. by apply (circled_separated lo a b); auto.
  - rewrite Z.leb_le, le_minimum, Hc, Forall_fmap, !Forall_forall. unfold compose.
    assert (Hle : forall k, k ∈ n -> (count_of m <= count_of k <-> m <= k)).
    { intros k Hk. apply count_le; [|by eapply joined_counts].
      pose proof (Hw m k Hm Hk). pose proof (Hw k m Hk Hm). lia. }
    split; [intros [_ Hk] k Hin; apply (Hle k Hin), (Hk k Hin)|]. intros Hk.
    split; [pose proof (count_of_range m); unfold INT_MAX; lia|]. intros k Hin. apply (Hle k Hin), Hk, Hin.
Qed.

(** ** Executors in step

    A stop lets a channel through at most once without looking at the others:
    [free] holds for those that have passed so. [unsynced] is their number so
    far, with the waiting ones that will pass so. *)

Definition loose (p : phase) (run : bool) : bool := match p with Waiting => negb run | _ => false end.

Fixpoint count_true (l : list bool) : Z := match l with [] => 0 | b :: l => Z.b2z b + count_true l end.

Definition stopped_waiting (sys : FrameSync) : Z := count_true (zip_with loose (phases sys) (mThreadRunning sys)).

Record in_step (total : nat) (free : list bool) (unsynced : Z) (sys : FrameSync) : Prop := {
  step_ran : length (ran sys) = total;
  step_phases : length (phases sys) = total;
  step_running : length (mThreadRunning sys) = total;
  step_free : length free = total;
  step_threaded : threaded sys = true;
  step_counts : Z.of_nat (length (mVcSyncCount (manager sys))) = MAX_CAMERA_NUMBER;
  step_tracks : tracks (ran sys) (manager sys);
  step_unsynced : 0 <= unsynced;
  step_within : forall i j a b x, ran sys !! i = Some a -> ran sys !! j = Some b -> free !! i = Some x ->
    a + Z.b2z x <= b + 1 + unsynced;
  step_ready : forall vc a, phases sys !! vc = Some Passed -> free !! vc = Some false -> ran sys !! vc = Some a ->
    Forall (fun k => a <= k) (ran sys);
  step_passed : forall vc, free !! vc = Some true -> phases sys !! vc = Some Passed;
}.

Lemma elem_of_insert (l : list Z) i x a : a ∈ <[i := x]> l -> a = x \/ a ∈ l.
Proof.
  rewrite list_elem_of_lookup. intros [j Hj]. apply list_lookup_insert_Some in Hj as [(_ & -> & _)|[_ Hj]]; [auto|].
  right. apply list_elem_of_lookup. eauto.
Qed.

Lemma count_of_succ m : (count_of m + 1) mod (max_vc_sync_count + 1) = count_of (m + 1).
Proof. apply Z.add_mod_idemp_l. discriminate. Qed.

Lemma at_index_nat {A} (l : list A) (i : nat) : at_index l (Z.of_nat i) = l !! i.
Proof. unfold at_index. destruct (Z.ltb_spec (Z.of_nat i) 0); [lia|]. by rewrite Nat2Z.id. Qed.

Lemma update_tracks vc m n s :
  Z.of_nat (length (mVcSyncCount s)) = MAX_CAMERA_NUMBER -> tracks n s -> n !! vc = Some m ->
  exists s', updateVcSyncCount (Z.of_nat vc) s = Some s' /\ tracks (<[vc := m + 1]> n) s'
    /\ length (mVcSyncCount s') = length (mVcSyncCount s).
Proof.
  intros Hl Ht Hv. pose proof (lookup_lt_Some _ _ _ Hv) as Hlt. pose proof (counts_lookup n s vc m Ht Hv) as Hc.
  destruct Ht as (Htot & Hmax & Hcs). unfold updateVcSyncCount.
  destruct (Z.leb_spec MAX_CAMERA_NUMBER (Z.of_nat vc)); [lia|]. rewrite Hc. eexists. split; [reflexivity|].
  rewrite count_of_succ, Nat2Z.id. split; [|apply length_insert]. unfold tracks, counts in *. simpl.
  rewrite length_insert. split_and!; [done..|].
  rewrite take_insert_lt by lia. rewrite Hcs, list_fmap_insert. done.
Qed.

Lemma count_true_insert l i b b' : l !! i = Some b -> count_true (<[i := b']> l) = count_true l - Z.b2z b + Z.b2z b'.
Proof.
  revert i. induction l as [|c l IH]; intros [|i]; simpl; [done..| |].
  - intros [= ->]. lia.
  - intros Hi. rewrite (IH i Hi). lia.
Qed.

Lemma count_true_nonneg l : 0 <= count_true l.
Proof. induction l as [|[] l IH]; simpl; lia. Qed.

Lemma within_step total free u sys : in_step total free u sys -> within (1 + u) (ran sys).
Proof.
  intros H a b [i Ha]%list_elem_of_lookup [j Hb]%list_elem_of_lookup.
  destruct (lookup_lt_is_Some_2 free i) as [x Hx].
  { rewrite (step_free _ _ _ _ H), <- (step_ran _ _ _ _ H). apply lookup_lt_is_Some. eauto. }
  pose proof (step_within _ _ _ _ H i j a b x Ha Hb Hx). destruct x; simpl in *; lia.
Qed.

(** A channel of the system, with all that is kept of it. *)
Lemma channel_some total free u sys vc : in_step total free u sys -> (vc < total)%nat ->
  exists p r a x, phases sys !! vc = Some p /\ mThreadRunning sys !! vc = Some r /\ ran sys !! vc = Some a /\ free !! vc = Some x.
Proof.
  intros H Hv. destruct (lookup_lt_is_Some_2 (phases sys) vc) as [p Hp]; [by rewrite (step_phases _ _ _ _ H)|].
  destruct (lookup_lt_is_Some_2 (mThreadRunning sys) vc) as [r Hr]; [by rewrite (step_running _ _ _ _ H)|].
  destruct (lookup_lt_is_Some_2 (ran sys) vc) as [a Ha]; [by rewrite (step_ran _ _ _ _ H)|].
  destruct (lookup_lt_is_Some_2 free vc) as [x Hx]; [by rewrite (step_free _ _ _ _ H)|]. eauto 8.
Qed.

Lemma stopped_waiting_insert sys vc p r p' r' :
  phases sys !! vc = Some p -> mThreadRunning sys !! vc = Some r ->
  count_true (zip_with loose (<[vc := p']> (phases sys)) (<[vc := r']> (mThreadRunning sys)))
  = stopped_waiting sys - Z.b2z (loose p r) + Z.b2z (loose p' r').
Proof.
  intros Hp Hr. rewrite <- insert_zip_with. apply count_true_insert. by rewrite lookup_zip_with, Hp, Hr.
Qed.

Lemma passed_synced total free u sys vc a :
  in_step total free u sys -> phases sys !! vc = Some Waiting -> ran sys !! vc = Some a -> Forall (fun k => a <= k) (ran sys) ->
  in_step total free u (System (manager sys) (threaded sys) (mThreadRunning sys) (<[vc := Passed]> (phases sys)) (ran sys)).
Proof.
  intros [H1 H2 H3 H4 H5 H6 H7 H8 H9 H10 H11] Hp Ha Hle. split; simpl; [by rewrite ?length_insert..| |].
  - intros v b Hv Hf Hb. destruct (decide (v = vc)) as [->|Hne]; [by simplify_eq|]. rewrite list_lookup_insert_ne in Hv by done. eauto.
  - intros v Hv. pose proof (H11 v Hv). rewrite list_lookup_insert_ne; [done|]. intros <-. congruence.
Qed.

Lemma passed_stopped total free u sys vc :
  in_step total free u sys -> (vc < total)%nat -> phases sys !! vc = Some Waiting ->
  in_step total (<[vc := true]> free) (u + 1) (System (manager sys) (threaded sys) (mThreadRunning sys) (<[vc := Passed]> (phases sys)) (ran sys)).
Proof.
  intros [H1 H2 H3 H4 H5 H6 H7 H8 H9 H10 H11] Hvc Hp. split; simpl; [by rewrite ?length_insert..|lia| | |].
  - intros i j a b x Ha Hb Hx. destruct (lookup_lt_is_Some_2 free i) as [y Hy].
    { rewrite H4, <- H1. apply lookup_lt_is_Some. eauto. }
    pose proof (H9 i j a b y Ha Hb Hy). apply list_lookup_insert_Some in Hx as [(-> & <- & _)|[_ Hx]].
    + assert (y = false) as ->; [|simpl in *; lia]. destruct y; [|done]. pose proof (H11 _ Hy). congruence.
    + simplify_eq. lia.
  - intros v a Hv Hf Ha. apply list_lookup_insert_Some in Hf as [(_ & ? & _)|[Hne Hf]]; [done|].
    rewrite list_lookup_insert_ne in Hv by done. eauto.
  - intros v Hv. apply list_lookup_insert_Some in Hv as [(<- & _ & _)|[Hne Hv]]; [apply list_lookup_insert_eq; lia|].
    rewrite list_lookup_insert_ne by done. auto.
Qed.

Lemma passed_runs total free u sys vc a s' :
  in_step total free u sys -> (vc < total)%nat -> phases sys !! vc = Some Passed -> ran sys !! vc = Some a ->
  tracks (<[vc := a + 1]> (ran sys)) s' -> length (mVcSyncCount s') = length (mVcSyncCount (manager sys)) ->
  in_step total (<[vc := false]> free) u (System s' (threaded sys) (mThreadRunning sys) (<[vc := Fetching]> (phases sys)) (<[vc := a + 1]> (ran sys))).
Proof.
  intros Hs Hvc Hp Ha Ht' Hl'. pose proof Hs as [H1 H2 H3 H4 H5 H6 H7 H8 H9 H10 H11].
  destruct (channel_some _ _ _ _ _ Hs Hvc) as (_ & _ & _ & x & _ & _ & _ & Hx).
  assert (Hmine : forall b, b ∈ ran sys -> a + 1 <= b + 1 + u).
  { intros b [j Hb]%list_elem_of_lookup. destruct x; [pose proof (H9 vc j a b true Ha Hb Hx); simpl in *; lia|].
    pose proof (H10 vc a Hp Hx Ha) as Hle. rewrite Forall_lookup in Hle. pose proof (Hle j b Hb). simpl in *. lia. }
  split; simpl; [by rewrite ?length_insert..|done|congruence|done|lia| | |].
  - intros i j c b y Hc Hb Hy.
    assert (Hb' : exists b', ran sys !! j = Some b' /\ b' <= b).
    { apply list_lookup_insert_Some in Hb as [(<- & <- & _)|[_ Hb]]; [exists a|exists b]; split; (done || lia). }
    destruct Hb' as (b' & Hb' & Hle). assert (b' ∈ ran sys) by (apply list_elem_of_lookup; eauto).
    apply list_lookup_insert_Some in Hc as [(<- & <- & _)|[Hne Hc]].
    + apply list_lookup_insert_Some in Hy as [(_ & <- & _)|[? _]]; [|done]. simpl.
      apply list_lookup_insert_Some in Hb as [(<- & <- & _)|[_ Hb]]; [lia|]. simplify_eq. pose proof (Hmine b H). lia.
    + rewrite list_lookup_insert_ne in Hy by done. pose proof (H9 i j c b' y Hc Hb' Hy). lia.
  - intros v c Hv Hf Hc. apply list_lookup_insert_Some in Hv as [(_ & ? & _)|[Hne Hv]]; [done|].
    rewrite list_lookup_insert_ne in Hf by done. rewrite list_lookup_insert_ne in Hc by done. pose proof (H10 v c Hv Hf Hc) as Hle.
    rewrite Forall_forall in Hle |- *. intros k [->|Hk]%elem_of_insert; [|auto].
    assert (a ∈ ran sys) by (apply list_elem_of_lookup; eauto). pose proof (Hle a H). lia.
  - intros v Hv. apply list_lookup_insert_Some in Hv as [(_ & ? & _)|[Hne Hv]]; [done|]. rewrite list_lookup_insert_ne by done. auto.
Qed.

Lemma turn_in_step total free u sys vc :
  in_step total free u sys -> u <= 31 -> (vc < total)%nat ->
  exists sys' free' u', turn sys vc = Some sys' /\ in_step total free' u' sys'
    /\ u' + stopped_waiting sys' <= u + stopped_waiting sys.
Proof.
  intros Hs Hu Hlt. destruct (channel_some _ _ _ _ _ Hs Hlt) as (p & r & a & x & Hp & Hr & Ha & Hx).
  pose proof (stopped_waiting_insert sys vc p r) as Hw. specialize (fun p' => Hw p' r Hp Hr).
  rewrite (list_insert_id (mThreadRunning sys) vc r Hr) in Hw.
  unfold turn. rewrite Hp, Hr, Ha. cbn [mbind option_bind]. destruct p.
  - rewrite (step_threaded _ _ _ _ Hs). destruct r; simpl; [|by exists sys, free, u].
    eexists _, free, u. split; [done|]. split; [|unfold stopped_waiting in *; simpl in *; rewrite Hw; simpl; lia].
    destruct Hs as [H1 H2 H3 H4 H5 H6 H7 H8 H9 H10 H11]. split; simpl; [by rewrite ?length_insert..| |].
    + intros v c Hv. apply list_lookup_insert_Some in Hv as [(_ & ? & _)|[_ Hv]]; [done|eauto].
    + intros v Hv. pose proof (H11 v Hv). rewrite list_lookup_insert_ne; [done|]. intros <-. congruence.
  - rewrite (vcSynced_least (ran sys) (manager sys) vc a (step_tracks _ _ _ _ Hs)); [|
      intros b c Hb Hc; pose proof (within_step _ _ _ _ Hs b c Hb Hc); lia|done].
    cbn [mbind option_bind]. case_bool_decide as Hle; simpl.
    + eexists _, free, u. split; [done|]. split; [by eapply passed_synced|].
      unfold stopped_waiting in *; simpl in *; rewrite Hw; simpl; destruct r; simpl; lia.
    + destruct r; simpl; [by exists sys, free, u|]. eexists _, (<[vc := true]> free), (u + 1). split; [done|].
      split; [by apply passed_stopped|]. unfold stopped_waiting in *; simpl in *; rewrite Hw; simpl; lia.
  - destruct (update_tracks vc a (ran sys) (manager sys) (step_counts _ _ _ _ Hs) (step_tracks _ _ _ _ Hs) Ha) as (s' & -> & Ht' & Hl').
    cbn [mbind option_bind]. eexists _, (<[vc := false]> free), u. split; [done|]. split; [by eapply passed_runs|].
    unfold stopped_waiting in *; simpl in *; rewrite Hw; simpl; lia.
Qed.

Lemma set_running_in_step total free u sys vc run :
  in_step total free u sys -> in_step total free u (set_running vc run sys).
Proof. intros []. split; simpl; by rewrite ?length_insert. Qed.

Lemma set_running_waiting total free u sys vc run :
  in_step total free u sys -> (vc < total)%nat ->
  stopped_waiting (set_running vc run sys) <= stopped_waiting sys + Z.b2z (negb run).
Proof.
  intros Hs Hlt. destruct (channel_some _ _ _ _ _ Hs Hlt) as (p & r & _ & _ & Hp & Hr & _ & _).
  pose proof (stopped_waiting_insert sys vc p r p run Hp Hr) as Hw. rewrite (list_insert_id (phases sys) vc p Hp) in Hw.
  unfold stopped_waiting, set_running in *. simpl in *. rewrite Hw. destruct p, r, run; simpl; lia.
Qed.

Lemma happen_in_step total free u sys e :
  in_step total free u sys -> u <= 31 -> (channel e < total)%nat ->
  exists sys' free' u', happen e sys = Some sys' /\ in_step total free' u' sys'
    /\ u' + stopped_waiting sys' <= u + stopped_waiting sys + stops [e].
Proof.
  intros Hs Hu Hv. destruct e as [vc|vc|vc]; simpl in Hv; cbn [happen].
  - destruct (turn_in_step _ _ _ _ _ Hs Hu Hv) as (sys' & free' & u' & E & Hs' & Hle). exists sys', free', u'.
    split; [done|]. split; [done|]. change (stops [Turn vc]) with 0. lia.
  - rewrite (step_threaded _ _ _ _ Hs). eexists _, free, u. split; [done|]. split; [by apply set_running_in_step|].
    pose proof (set_running_waiting _ _ _ _ _ true Hs Hv). simpl in *. change (stops [ExecutorStart vc]) with 0. lia.
  - rewrite (step_threaded _ _ _ _ Hs). eexists _, free, u. split; [done|]. split; [by apply set_running_in_step|].
    pose proof (set_running_waiting _ _ _ _ _ false Hs Hv). simpl in *. change (stops [ExecutorStop vc]) with 1. lia.
Qed.

Lemma stops_cons e l : stops (e :: l) = stops [e] + stops l.
Proof. unfold stops. destruct e; cbn [List.filter length]; lia. Qed.

Lemma stops_nonneg l : 0 <= stops l.
Proof. unfold stops. lia. Qed.

Lemma happens_in_step total free u l sys :
  in_step total free u sys -> u + stopped_waiting sys + stops l <= 31 -> Forall (fun e => channel e < total)%nat l ->
  exists sys' free' u', happens l sys = Some sys' /\ in_step total free' u' sys'
    /\ u' + stopped_waiting sys' <= u + stopped_waiting sys + stops l.
Proof.
  intros Hs Hu Hl. revert free u sys Hs Hu. induction Hl as [|e l Hv _ IH]; intros free u sys Hs Hu.
  - exists sys, free, u. split; [done|]. split; [done|]. change (stops []) with 0. lia.
  - rewrite stops_cons in Hu |- *. pose proof (stops_nonneg l). pose proof (stops_nonneg [e]).
    pose proof (count_true_nonneg (zip_with loose (phases sys) (mThreadRunning sys)) : 0 <= stopped_waiting sys).
    destruct (happen_in_step total free u sys e Hs) as (sys1 & free1 & u1 & E & Hs1 & Hle); [lia|done|].
    destruct (IH free1 u1 sys1 Hs1) as (sys' & free' & u' & E' & Hs' & Hle'); [lia|].
    exists sys', free', u'. cbn [happens]. rewrite E. split; [done|]. split; [done|]. lia.
Qed.

Lemma opened_total threads total : Z.of_nat total <= MAX_CAMERA_NUMBER ->
  mTotalSyncCamNum (manager (opened threads total)) = Z.of_nat total
  /\ mVcSyncCount (manager (opened threads total)) = replicate (Z.to_nat MAX_CAMERA_NUMBER) 0.
Proof.
  unfold opened. cbn [manager]. induction total as [|t IH]; intros H; [done|].
  change (Nat.iter (S t) updateSyncCamNum new_SyncManager) with (updateSyncCamNum (Nat.iter t updateSyncCamNum new_SyncManager)).
  destruct IH as [Ht Hc]; [lia|]. revert Ht Hc. generalize (Nat.iter t updateSyncCamNum new_SyncManager). intros s Ht Hc.
  unfold updateSyncCamNum. rewrite Ht. destruct (Z.leb_spec MAX_CAMERA_NUMBER (Z.of_nat t)); [lia|]. split; [simpl; lia|done].
Qed.

Lemma opened_in_step total : Z.of_nat total <= MAX_CAMERA_NUMBER -> in_step total (replicate total false) 0 (opened true total).
Proof.
  intros H. destruct (opened_total true total H) as [Ht Hc]. split; try (simpl; apply length_replicate); [done| |  |done|  |  |].
  - rewrite Hc, length_replicate. lia.
  - unfold tracks, counts. rewrite Ht, Hc. simpl. rewrite length_replicate. split_and!; [done..|].
    rewrite Nat2Z.id, take_replicate, fmap_replicate. f_equal. lia.
  - simpl. intros i j a b x [-> _]%lookup_replicate_1 [-> _]%lookup_replicate_1 [-> _]%lookup_replicate_1. simpl. lia.
  - simpl. intros vc a [? _]%lookup_replicate_1. done.
  - simpl. intros vc [? _]%lookup_replicate_1. done.
Qed.

Lemma opened_waiting threads total : stopped_waiting (opened threads total) = 0.
Proof.
  unfold stopped_waiting, opened. simpl. clear. induction total as [|t IH]; [done|]. cbn [replicate zip_with count_true loose Z.b2z].
  rewrite IH. done.
Qed.

(** The state after any events from the opening on. *)
Lemma reached_in_step total l sys :
  Z.of_nat total <= MAX_CAMERA_NUMBER -> Forall (fun e => channel e < total)%nat l -> stops l <= 31 ->
  happens l (opened true total) = Some sys ->
  exists free u, in_step total free u sys /\ u + stopped_waiting sys <= stops l.
Proof.
  intros H Hl Hst Hrun. pose proof (opened_waiting true total) as H0.
  destruct (happens_in_step total _ 0 l _ (opened_in_step total H)) as (sys' & free & u & E & Hs & Hle); [lia|done|].
  simplify_eq. exists free, u. split; [done|]. lia.
Qed.

(** ** Progress *)

(** The turns a channel needs to get past [m] frames, when it is one of the
    slowest. *)
Definition turns_left (m : Z) (sys : FrameSync) (vc : nat) : nat :=
  match ran sys !! vc, phases sys !! vc with
  | Some n, Some p => if m <? n then 0%nat else match p with Fetching => 3%nat | Waiting => 2%nat | Passed => 1%nat end
  | _, _ => 0%nat
  end.

Lemma turn_left total free u m sys sys' vc vc' :
  in_step total free u sys -> u <= 31 -> (vc < total)%nat -> Forall (fun k => m <= k) (ran sys) -> Forall (eq true) (mThreadRunning sys) ->
  turn sys vc = Some sys' ->
  Forall (fun k => m <= k) (ran sys') /\ mThreadRunning sys' = mThreadRunning sys
  /\ (turns_left m sys' vc' <= turns_left m sys vc' - (if decide (vc' = vc) then 1 else 0))%nat.
Proof.
  intros Hs Hu Hlt Hm Hrun Hturn. destruct (channel_some _ _ _ _ _ Hs Hlt) as (p & r & n & x & Hp & Hr & Hn & Hx).
  unfold turn in Hturn. rewrite Hp, Hr, Hn in Hturn. cbn [mbind option_bind] in Hturn.
  assert (r = true) as -> by (rewrite Forall_lookup in Hrun; symmetry; eauto).
  assert (Hlp : (vc < length (phases sys))%nat) by (apply lookup_lt_is_Some; eauto).
  assert (Hlr : (vc < length (ran sys))%nat) by (apply lookup_lt_is_Some; eauto).
  assert (Hmn : m <= n) by (rewrite Forall_lookup in Hm; eauto). destruct p.
  - rewrite andb_false_r in Hturn. injection Hturn as <-. split; [done|]. split; [done|]. unfold turns_left. simpl. case_decide; subst.
    + rewrite list_lookup_insert_eq, Hp, Hn by done. destruct (Z.ltb_spec m n); lia.
    + rewrite list_lookup_insert_ne by done. lia.
  - rewrite (vcSynced_least (ran sys) (manager sys) vc n (step_tracks _ _ _ _ Hs)) in Hturn; [|
      intros b c Hb Hc; pose proof (within_step _ _ _ _ Hs b c Hb Hc); lia|done].
    cbn [mbind option_bind] in Hturn. rewrite andb_true_r in Hturn.
    case_bool_decide as Hle; cbn [negb] in Hturn; injection Hturn as <-; (split; [done|]); (split; [done|]).
    + unfold turns_left. simpl. case_decide; subst.
      * rewrite list_lookup_insert_eq, Hp, Hn by done. destruct (Z.ltb_spec m n); lia.
      * rewrite list_lookup_insert_ne by done. lia.
    + case_decide; subst; [|lia]. unfold turns_left. rewrite Hp, Hn. destruct (Z.ltb_spec m n); [lia|].
      destruct Hle. by replace n with m by lia.
  - destruct (update_tracks vc n (ran sys) (manager sys) (step_counts _ _ _ _ Hs) (step_tracks _ _ _ _ Hs) Hn) as (s' & Hs' & _).
    rewrite Hs' in Hturn. cbn [mbind option_bind] in Hturn. injection Hturn as <-. simpl.
    split; [apply Forall_insert; [done|lia]|]. split; [done|]. unfold turns_left. simpl. case_decide; subst.
    + rewrite !list_lookup_insert_eq by done. destruct (Z.ltb_spec m (n + 1)); lia.
    + rewrite !list_lookup_insert_ne by done. lia.
Qed.

Lemma turns_left_after total free u m l sys sys' vc :
  in_step total free u sys -> u + stopped_waiting sys <= 31 -> Forall (fun k => m <= k) (ran sys) -> Forall (eq true) (mThreadRunning sys) ->
  Forall (fun vc => vc < total)%nat l -> happens (Turn <$> l) sys = Some sys' ->
  (turns_left m sys' vc <= turns_left m sys vc - count_occ Nat.eq_dec l vc)%nat.
Proof.
  intros Hs Hu Hm Hrun Hl. revert free u sys Hs Hu Hm Hrun.
  induction Hl as [|v l Hv _ IH]; intros free u sys Hs Hu Hm Hrun E; simpl in *; [simplify_eq; lia|].
  pose proof (count_true_nonneg (zip_with loose (phases sys) (mThreadRunning sys)) : 0 <= stopped_waiting sys).
  destruct (turn_in_step total free u sys v Hs) as (sys1 & free1 & u1 & Ht & Hs1 & Hle); [lia|done|]. rewrite Ht in E. simpl in E.
  destruct (turn_left total free u m sys sys1 v vc Hs) as (Hm1 & Hr1 & Hleft); [lia|done..|].
  pose proof (IH free1 u1 sys1 Hs1 ltac:(lia) Hm1 ltac:(by rewrite Hr1) E).
  destruct (Nat.eq_dec v vc); case_decide; subst; try done; lia.
Qed.

Lemma none_left total free u m sys vc :
  in_step total free u sys -> (vc < total)%nat -> turns_left m sys vc = 0%nat -> exists n, ran sys !! vc = Some n /\ m < n.
Proof.
  intros Hs Hv H. destruct (channel_some _ _ _ _ _ Hs Hv) as (p & r & n & x & Hp & Hr & Hn & Hx). exists n. split; [done|].
  unfold turns_left in H. rewrite Hp, Hn in H. destruct (Z.ltb_spec m n); [done|]. by destruct p.
Qed.

(** ** Frames found in other cameras *)

Lemma omap_imap_indices {A B} (g : nat -> A -> option B) l :
  exists ids, NoDup ids /\ length ids = length (omap id (imap g l))
    /\ (forall i, i ∈ ids -> (i < length l)%nat /\ exists x, l !! i = Some x /\ is_Some (g i x)).
Proof.
  induction l as [|x l IH] using rev_ind; [exists []; split_and!; [constructor|done|by intros i ?%elem_of_nil]|].
  destruct IH as (ids & Hnd & Hlen & Hin). rewrite imap_app, omap_app, length_app. simpl. rewrite Nat.add_0_r.
  assert (Hin' : forall i, i ∈ ids -> (i < length (l ++ [x]))%nat /\ exists y, (l ++ [x]) !! i = Some y /\ is_Some (g i y)).
  { intros i Hi. destruct (Hin i Hi) as (? & y & Hy & ?). rewrite length_app. split; [simpl; lia|].
    exists y. split; [by apply lookup_app_l_Some|done]. }
  destruct (g (length l) x) as [t|] eqn:Hg; simpl.
  - exists (ids ++ [length l]). split_and!; [|rewrite length_app; simpl; lia|].
    + apply NoDup_app. split_and!; [done| |apply NoDup_singleton]. intros i Hi ->%list_elem_of_singleton.
      destruct (Hin _ Hi). lia.
    + intros i [Hi| ->%list_elem_of_singleton]%elem_of_app; [by apply Hin'|]. rewrite length_app. split; [simpl; lia|].
      exists x. rewrite lookup_app_r, Nat.sub_diag by lia. rewrite Hg. eauto.
  - exists ids. split_and!; [done|lia|done].
Qed.

Lemma frame_at_spec cur frames t : frame_at cur frames = Some t ->
  exists f, f ∈ frames /\ 0 <= sequence f /\ Z.abs (frame_ms f - cur) <= TIME_DIFF_MS.
Proof.
  induction frames as [|f frames IH]; [done|]. simpl. case_match eqn:Hf.
  - intros _. apply andb_true_iff in Hf as [Hq Hm]. exists f. unfold same_moment in Hm. split; [left|lia].
  - intros H. destruct (IH H) as (f' & ? & ?). exists f'. split; [by right|done].
Qed.

Lemma frame_at_found cur frames f : f ∈ frames -> 0 <= sequence f -> Z.abs (frame_ms f - cur) <= TIME_DIFF_MS ->
  is_Some (frame_at cur frames).
Proof.
  intros Hf Hq Hm. induction frames as [|f' frames IH]; [by apply elem_of_nil in Hf|].
  apply elem_of_cons in Hf as [<-|Hf]; simpl.
  - assert (((0 <=? sequence f) && same_moment (frame_ms f) cur) = true) as ->; [|eauto].
    unfold same_moment. apply andb_true_iff. lia.
  - case_match; [eauto|by apply IH].
Qed.

Lemma camera_frame_spec cur frames t : camera_frame cur frames = Some t ->
  exists f, f ∈ frames /\ 0 <= sequence f /\ Z.abs (frame_ms f - cur) <= TIME_DIFF_MS.
Proof. unfold camera_frame. destruct frames as [|f frames]; [done|]. case_match; [done|]. apply frame_at_spec. Qed.

(** ** Properties *)

(** C7: the cameras stay in step.  However the executors' threads interleave and
    are started and stopped, up to 31 stops, the counters are the numbers of
    frames modulo 129, and a channel is never further ahead of another than one
    frame and one for each stop so far; with no stop, a channel that passed the
    check has processed no more frames than any other until it runs.  The
    counters' return to 0 is no exception. *)
Theorem cameras_in_step total l :
  Z.of_nat total <= MAX_CAMERA_NUMBER -> Forall (fun e => channel e < total)%nat l -> stops l <= 31 ->
  exists sys, happens l (opened true total) = Some sys
    /\ counts (manager sys) = count_of <$> ran sys
    /\ (forall i j a b, ran sys !! i = Some a -> ran sys !! j = Some b ->
         a <= b + 1 + stops l /\ (stops l = 0 -> phases sys !! i = Some Passed -> a <= b)).
Proof.
  intros H Hl Hst. pose proof (opened_waiting true total) as H0.
  destruct (happens_in_step total _ 0 l _ (opened_in_step total H)) as (sys & free & u & E & Hs & Hle); [lia|done|].
  pose proof (count_true_nonneg (zip_with loose (phases sys) (mThreadRunning sys)) : 0 <= stopped_waiting sys).
  exists sys. split; [done|]. split; [apply (step_tracks _ _ _ _ Hs)|]. intros i j a b Ha Hb.
  destruct (lookup_lt_is_Some_2 free i) as [x Hx]; [rewrite (step_free _ _ _ _ Hs), <- (step_ran _ _ _ _ Hs); apply lookup_lt_is_Some; eauto|].
  pose proof (step_within _ _ _ _ Hs i j a b x Ha Hb Hx) as Hw. split; [destruct x; simpl in *; lia|].
  intros Hz Hi. destruct x; [simpl in *; lia|].
  pose proof (step_ready _ _ _ _ Hs i a Hi Hx Ha) as Hle'. rewrite Forall_lookup in Hle'. eauto.
Qed.

(** C19: no camera waits for ever.  From any state that is reached with at most
    31 stops and in which all executors' threads run, once every channel has had
    three more turns, in whatever order, each has processed more frames than the
    slowest had. *)
Theorem every_camera_advances total l more sys sys' m :
  Z.of_nat total <= MAX_CAMERA_NUMBER -> Forall (fun e => channel e < total)%nat l -> stops l <= 31 ->
  Forall (fun vc => vc < total)%nat more -> (forall vc, (vc < total)%nat -> 3 <= count_occ Nat.eq_dec more vc)%nat ->
  happens l (opened true total) = Some sys -> Forall (eq true) (mThreadRunning sys) -> happens (Turn <$> more) sys = Some sys' ->
  Forall (fun k => m <= k) (ran sys) -> Forall (fun k => m < k) (ran sys').
Proof.
  intros H Hl Hst Hmore Hocc Hrun Hall Hrun' Hm. destruct (reached_in_step total l sys H Hl Hst Hrun) as (free & u & Hs & Hu).
  assert (Hst0 : stops (Turn <$> more) = 0).
  { clear. induction more as [|v more IH]; [done|]. change (Turn <$> v :: more) with (Turn v :: (Turn <$> more)).
    rewrite stops_cons, IH. done. }
  destruct (happens_in_step total free u (Turn <$> more) sys Hs) as (? & free' & u' & ? & Hs' & _);
    [lia|by apply Forall_fmap|]. simplify_eq.
  apply Forall_lookup. intros vc n Hn.
  assert (Hv : (vc < total)%nat) by (rewrite <- (step_ran _ _ _ _ Hs'); apply lookup_lt_is_Some; eauto).
  pose proof (turns_left_after total free u m more sys sys' vc Hs ltac:(lia) Hm Hall Hmore Hrun') as Hleft. pose proof (Hocc vc Hv).
  assert (turns_left m sys vc <= 3)%nat by (unfold turns_left; repeat case_match; lia).
  destruct (none_left total free' u' m sys' vc Hs' Hv) as (n' & Hn' & Hlt); [lia|]. congruence.
Qed.

(** A camera that is counted but does not stream stops the others after
    one frame, and one for each stop: as closing a camera does not take it off
    the count, this is what opening one again leads to. *)
Theorem silent_camera_stops_all total l silent sys :
  Z.of_nat total <= MAX_CAMERA_NUMBER -> (silent < total)%nat -> Forall (fun e => channel e < total)%nat l -> stops l <= 31 ->
  Turn silent ∉ l -> happens l (opened true total) = Some sys -> Forall (fun k => k <= 1 + stops l) (ran sys).
Proof.
  intros H Hsil Hl Hst Hno Hrun. destruct (reached_in_step total l sys H Hl Hst Hrun) as (free & u & Hs & Hu).
  pose proof (count_true_nonneg (zip_with loose (phases sys) (mThreadRunning sys)) : 0 <= stopped_waiting sys).
  assert (Hkeep : forall l sys0, Turn silent ∉ l -> happens l sys0 = Some sys -> ran sys0 !! silent = ran sys !! silent).
  { clear. induction l as [|e l IH]; intros sys0 Hno Hrun; simpl in *; [by simplify_eq|].
    apply not_elem_of_cons in Hno as [Hv Hno]. destruct (happen e sys0) as [sys1|] eqn:Ht; [|done]. simpl in Hrun.
    rewrite <- (IH sys1 Hno Hrun). destruct e as [vc|vc|vc]; cbn [happen] in Ht; [|by destruct (threaded sys0); simplify_eq..].
    assert (vc <> silent) by congruence.
    unfold turn in Ht. repeat (case_match || simplify_option_eq); try done. simpl. by rewrite list_lookup_insert_ne. }
  specialize (Hkeep l (opened true total) Hno Hrun). simpl in Hkeep.
  rewrite lookup_replicate_2 in Hkeep by done. apply Forall_forall. intros k Hk.
  assert (0 ∈ ran sys) as Hz by (apply list_elem_of_lookup; eauto).
  pose proof (within_step _ _ _ _ Hs k 0 Hk Hz). lia.
Qed.

Definition round (vc : nat) : list executor_event := [Turn vc; Turn vc; Turn vc].

Lemma happens_app l l' sys sys1 : happens l sys = Some sys1 -> happens (l ++ l') sys = happens l' sys1.
Proof.
  revert sys. induction l as [|e l IH]; intros sys; simpl; [by intros [= ->]|].
  destruct (happen e sys) as [sys2|]; [|done]. simpl. apply IH.
Qed.

(** Without a policy manager [mThreadRunning] is never set, and the wait of an
    executor ends at once: one channel runs as often as it likes while the other
    has not run at all. *)
Theorem scheduled_never_wait n :
  2 <= MAX_CAMERA_NUMBER ->
  exists sys, happens (concat (replicate n (round 0))) (opened false 2) = Some sys /\ ran sys = [Z.of_nat n; 0].
Proof.
  intros Hmax. destruct (opened_total false 2 Hmax) as [_ Hlen]. apply (f_equal length) in Hlen. rewrite length_replicate in Hlen.
  enough (exists m, (0 < length (mVcSyncCount m))%nat /\ happens (concat (replicate n (round 0))) (opened false 2)
                    = Some (System m false [false; false] [Fetching; Fetching] [Z.of_nat n; 0])) as (m & _ & ->) by (eexists; done).
  induction n as [|n (m & Hm & E)].
  - exists (manager (opened false 2)). split; [lia|done].
  - rewrite replicate_S_end, concat_app. rewrite (happens_app _ _ _ _ E).
    destruct m as [bufs [|c cs] tot]; [simpl in Hm; lia|].
    set (m := Manager bufs (c :: cs) tot).
    assert (exists ok, vcSynced (Z.of_nat 0) m = Some ok) as [ok Hok].
    { unfold vcSynced. destruct (Z.leb_spec MAX_CAMERA_NUMBER (Z.of_nat 0)); [lia|]. by eexists. }
    assert (exists m', updateVcSyncCount (Z.of_nat 0) m = Some m' /\ (0 < length (mVcSyncCount m'))%nat) as (m' & Hm' & Hl').
    { unfold updateVcSyncCount. destruct (Z.leb_spec MAX_CAMERA_NUMBER (Z.of_nat 0)); [lia|]. eexists. split; [reflexivity|simpl; lia]. }
    exists m'. split; [done|]. replace (Z.of_nat (S n)) with (Z.of_nat n + 1) by lia.
    cbn [concat app round replicate happens happen turn phases mThreadRunning ran threaded manager lookup list_lookup mbind option_bind andb negb insert list_insert].
    rewrite Hok. cbn [mbind option_bind]. rewrite andb_false_r.
    cbn [turn phases mThreadRunning ran threaded manager lookup list_lookup mbind option_bind insert list_insert]. rewrite Hm'. done.
Qed.

(** A frame is only taken for synchronised when there is, in as many other
    cameras as take part, a frame within two milliseconds of it. *)
Theorem synced_frame_has_partners cameraId seq s own info :
  at_index (mCameraBufInfo s) cameraId = Some own -> at_index own (Z.rem seq MAX_BUFFER_COUNT) = Some info ->
  isSynced cameraId seq s = Some true ->
  exists ids, NoDup ids /\ mTotalSyncCamNum s - 1 <= Z.of_nat (length ids)
    /\ forall i, i ∈ ids -> Z.of_nat i <> cameraId /\ exists frames f, mCameraBufInfo s !! i = Some frames
         /\ f ∈ frames /\ 0 <= sequence f /\ Z.abs (frame_ms f - frame_ms info) <= TIME_DIFF_MS.
Proof.
  intros Ho Hi. unfold isSynced. rewrite Ho. cbn [mbind option_bind]. rewrite Hi. cbn [mbind option_bind].
  destruct (omap_imap_indices (fun i frames => if Z.of_nat i =? cameraId then None else camera_frame (frame_ms info) frames)
    (mCameraBufInfo s)) as (ids & Hnd & Hlen & Hin). fold (frameSynced cameraId (frame_ms info) s) in Hlen.
  destruct (Z.leb_spec (mTotalSyncCamNum s - 1) (Z.of_nat (length (frameSynced cameraId (frame_ms info) s)))); [|done].
  intros _. exists ids. split_and!; [done|lia|]. intros i Hiin. destruct (Hin i Hiin) as (_ & frames & Hf & [t Ht]).
  destruct (Z.eqb_spec (Z.of_nat i) cameraId); [done|]. split; [done|].
  destruct (camera_frame_spec _ _ _ Ht) as (f & ? & ? & ?). exists frames, f. auto.
Qed.

(** With two cameras, the check succeeds as soon as the other one has such
    a frame. *)
Theorem two_cameras_synced cameraId seq s own info i frames f :
  mTotalSyncCamNum s = 2 ->
  at_index (mCameraBufInfo s) cameraId = Some own -> at_index own (Z.rem seq MAX_BUFFER_COUNT) = Some info ->
  mCameraBufInfo s !! i = Some frames -> Z.of_nat i <> cameraId -> (sequence <$> head frames) <> Some (-1) ->
  f ∈ frames -> 0 <= sequence f -> Z.abs (frame_ms f - frame_ms info) <= TIME_DIFF_MS ->
  isSynced cameraId seq s = Some true.
Proof.
  intros Ht Ho Hi Hf Hne Hfirst Hin Hq Hm. unfold isSynced. rewrite Ho. cbn [mbind option_bind]. rewrite Hi. cbn [mbind option_bind].
  rewrite Ht. assert (Hl : frameSynced cameraId (frame_ms info) s <> []).
  { destruct (frame_at_found _ _ _ Hin Hq Hm) as [t Hft].
    assert (t ∈ frameSynced cameraId (frame_ms info) s) as H; [|by intros Hnil; rewrite Hnil in H; apply elem_of_nil in H].
    unfold frameSynced. apply list_elem_of_omap. exists (Some t). split; [|done]. apply list_elem_of_lookup. exists i.
    rewrite list_lookup_imap, Hf. simpl. destruct (Z.eqb_spec (Z.of_nat i) cameraId); [done|]. f_equal.
    unfold camera_frame. destruct frames as [|f0 frames]; [by apply elem_of_nil in Hin|].
    destruct (Z.eqb_spec (sequence f0) (-1)) as [He|]; [|done]. simpl in Hfirst. congruence. }
  destruct (frameSynced cameraId (frame_ms info) s) as [|t l]; [done|].
  destruct (Z.leb_spec (2 - 1) (Z.of_nat (length (t :: l)))); [|simpl in *; lia].
  cbn. unfold agrees, same_moment. simpl. by rewrite Z.sub_diag.
Qed.
End SyncManager.

(** ** Witnesses *)

(** Two channels, the first of which has a turn more: after 129 frames each the
    counters have gone round.  The first is stopped and started again on the
    way. *)
Definition example_events : list executor_event :=
  [ExecutorStart 0; ExecutorStart 1] ++ Nat.iter 387 (fun l => Turn 0 :: Turn 1 :: l) [ExecutorStop 0; Turn 0; ExecutorStart 0; Turn 0].

Lemma cameras_in_step_witness :
  exists sys, happens 100 example_events (opened 100 true 2) = Some sys
    /\ counts (manager sys) = count_of <$> ran sys
    /\ (forall i j a b, ran sys !! i = Some a -> ran sys !! j = Some b ->
         a <= b + 1 + stops example_events /\ (stops example_events = 0 -> phases sys !! i = Some Passed -> a <= b)).
Proof.
  apply (cameras_in_step 100 2 example_events); [done| |by vm_compute]. apply Forall_forall. intros e.
  assert (forallb (fun e => (channel e <? 2)%nat) example_events = true) as H by (vm_compute; reflexivity).
  rewrite forallb_forall in H. intros Hv%list_elem_of_In. apply Nat.ltb_lt, H, Hv.
Defined.

Lemma every_camera_advances_witness :
  exists sys sys', happens 100 [ExecutorStart 0; Turn 0; ExecutorStart 1; Turn 0; Turn 0] (opened 100 true 2) = Some sys
    /\ happens 100 (Turn <$> [1; 0; 1; 0; 0; 1]%nat) sys = Some sys' /\ Forall (fun k => 0 < k) (ran sys').
Proof.
  eexists _, _. split; [vm_compute; reflexivity|]. split; [vm_compute; reflexivity|].
  eapply (every_camera_advances 100 2 [ExecutorStart 0; Turn 0; ExecutorStart 1; Turn 0; Turn 0] [1; 0; 1; 0; 0; 1]%nat);
    [done|repeat constructor; simpl; lia|by vm_compute|repeat constructor; lia| |vm_compute; reflexivity| |vm_compute; reflexivity|].
  - intros [|[|vc]]; simpl; lia.
  - repeat constructor.
  - repeat constructor; lia.
Defined.

Lemma silent_camera_stops_all_witness :
  exists sys, happens 100 [ExecutorStart 0; ExecutorStart 1; Turn 0; Turn 0; Turn 1; Turn 0; Turn 1; Turn 1; Turn 0; Turn 0] (opened 100 true 4) = Some sys
    /\ Forall (fun k => k <= 1) (ran sys).
Proof.
  eexists. split; [vm_compute; reflexivity|].
  eapply (silent_camera_stops_all 100 4 [ExecutorStart 0; ExecutorStart 1; Turn 0; Turn 0; Turn 1; Turn 0; Turn 1; Turn 1; Turn 0; Turn 0] 2);
    [done|lia|repeat constructor; simpl; lia|by vm_compute| |vm_compute; reflexivity].
  rewrite !not_elem_of_cons. split_and!; try discriminate. apply not_elem_of_nil.
Defined.

(** Two open cameras with a frame each, one millisecond apart. *)
Definition example_synced : SyncManager :=
  Manager [[BufInfo 0 (5, 2000)]; [BufInfo 0 (5, 3000)]] [0; 0] 2.

Lemma synced_frame_has_partners_witness :
  exists ids, NoDup ids /\ mTotalSyncCamNum example_synced - 1 <= Z.of_nat (length ids)
    /\ forall i, i ∈ ids -> Z.of_nat i <> 0 /\ exists frames f, mCameraBufInfo example_synced !! i = Some frames
         /\ f ∈ frames /\ 0 <= sequence f /\ Z.abs (frame_ms f - frame_ms (BufInfo 0 (5, 2000))) <= TIME_DIFF_MS.
Proof. eapply (synced_frame_has_partners 0 0 example_synced); reflexivity. Defined.

Lemma two_cameras_synced_witness : isSynced 1 0 example_synced = Some true.
Proof.
  eapply (two_cameras_synced 1 0 example_synced _ _ 0%nat _ (BufInfo 0 (5, 2000))); try reflexivity; try discriminate.
  left.
Defined.
