(* ===== verification/V4l2Device.v ===== *)
(** * V4L2 devices

    modules/v4l2/v4l2_device.cc, v4l2_subdevice.cc and v4l2_device.h: opening and
    closing of a device node, its controls and events, polling of several
    devices, and the sub-devices with their formats and routes.  The kernel is a
    parameter: its state and what each system call returns and does to it.  The
    value of [errno] after a failing [open] is a second result. *)

From Stdlib Require Import String.
From S2P Require Import Prelude Errors.
From stdpp Require Import list.
#[local] Open Scope Z_scope.

Definition EINVAL : Z := 22.
Definition ENODEV : Z := 19.

(** ** System calls *)

(** The union of a control's value is its 64 bits. *)
Record v4l2_ext_control := ExtControl { id : Z; value64 : Z }.
Record v4l2_control := Control { ctrl_id : Z; ctrl_value : Z }.
Record v4l2_event_subscription := Subscription { sub_type : Z; sub_id : Z }.
Record v4l2_event := Event { ev_type : Z; ev_frame_sequence : Z; ev_timestamp : Z * Z }.
Record v4l2_queryctrl := QueryCtrl {
  q_id : Z; q_minimum : Z; q_maximum : Z; q_step : Z; q_default_value : Z;
}.
Record v4l2_querymenu := Menu { menu_id : Z; menu_index : Z; menu_name : string }.

Record v4l2_mbus_framefmt := FrameFormat { f_width : Z; f_height : Z; f_code : Z }.
Record v4l2_subdev_format := SubdevFormat { which : Z; pad : Z; stream : Z; frame_format : v4l2_mbus_framefmt }.
Record v4l2_subdev_selection := SubdevSelection { s_pad : Z; s_target : Z; s_rect : Z * Z * Z * Z }.
Record v4l2_subdev_route := Route { sink_pad : Z; sink_stream : Z; source_pad : Z; source_stream : Z; r_flags : Z }.
Record v4l2_subdev_routing := Routing { r_which : Z; len_routes : Z; num_routes : Z; r_routes : list v4l2_subdev_route }.

Record v4l2_requestbuffers := RequestBuf { count : Z; req_type : Z; req_memory : Z }.
Record v4l2_exportbuffer := ExportBuf { exp_type : Z; exp_index : Z; exp_plane : Z; exp_flags : Z; exp_fd : Z }.
Record v4l2_capability := Capability { capabilities : Z }.

(** A memory plane of a buffer and a buffer, with the unions as 64 bits.  The
    planes are those the buffer's pointer leads to. *)
Record v4l2_plane := Plane { p_bytesused : Z; p_length : Z; p_m : Z }.
Record v4l2_buffer := Buffer {
  buf_index : Z; buf_type : Z; buf_flags : Z; buf_field : Z; buf_timestamp : Z * Z; buf_sequence : Z; buf_memory : Z;
  buf_bytesused : Z; buf_length : Z; buf_request_fd : Z; buf_m : Z; buf_planes : list v4l2_plane;
}.

Record v4l2_pix_format := Pix {
  pix_width : Z; pix_height : Z; pixelformat : Z; pix_field : Z; colorspace : Z; quantization : Z;
  bytesperline : list Z; sizeimage : list Z;
}.

(** The members of [struct v4l2_format] that are used: the single-planar
    formats hold one line and image size, the multi-planar ones as many as
    [num_planes]. *)
Inductive v4l2_format :=
| FormatMeta (type dataformat buffersize : Z)
| FormatMplane (type : Z) (num_planes : Z) (pix : v4l2_pix_format)
| FormatPix (type : Z) (pix : v4l2_pix_format).

Record v4l2_selection := Selection { sel_type : Z; sel_target : Z; sel_rect : Z * Z * Z * Z }.

(** The requests of [ioctl], each with the structure it reads and updates. *)
Inductive request : Type -> Type :=
| VIDIOC_SUBSCRIBE_EVENT : request v4l2_event_subscription
| VIDIOC_UNSUBSCRIBE_EVENT : request v4l2_event_subscription
| VIDIOC_DQEVENT : request v4l2_event
| VIDIOC_S_CTRL : request v4l2_control
| VIDIOC_S_EXT_CTRLS : request v4l2_ext_control
| VIDIOC_G_EXT_CTRLS : request v4l2_ext_control
| VIDIOC_QUERYMENU : request v4l2_querymenu
| VIDIOC_QUERYCTRL : request v4l2_queryctrl
| VIDIOC_SUBDEV_S_CLIENT_CAP : request Z
| VIDIOC_SUBDEV_S_FMT : request v4l2_subdev_format
| VIDIOC_SUBDEV_G_FMT : request v4l2_subdev_format
| VIDIOC_SUBDEV_S_SELECTION : request v4l2_subdev_selection
| VIDIOC_SUBDEV_S_ROUTING : request v4l2_subdev_routing
| VIDIOC_SUBDEV_G_ROUTING : request v4l2_subdev_routing
| VIDIOC_QUERYCAP : request v4l2_capability
| VIDIOC_S_FMT : request v4l2_format
| VIDIOC_G_FMT : request v4l2_format
| VIDIOC_S_SELECTION : request v4l2_selection
| VIDIOC_REQBUFS : request v4l2_requestbuffers
| VIDIOC_QUERYBUF : request v4l2_buffer
| VIDIOC_QBUF : request v4l2_buffer
| VIDIOC_DQBUF : request v4l2_buffer
| VIDIOC_EXPBUF : request v4l2_exportbuffer
| VIDIOC_STREAMON : request Z
| VIDIOC_STREAMOFF : request Z.

Record pollfd := PollFd { fd : Z; events : Z; revents : Z }.

(** The kernel.  [stat_chardev] is whether a path exists and then whether it is
    a character device. *)
Class Kernel (K : Type) := {
  stat_chardev : string -> K -> option bool;
  sys_open : string -> Z -> K -> Z * Z * K;
  sys_close : Z -> K -> Z * K;
  ioctl : forall {A}, Z -> request A -> A -> K -> Z * A * K;
  sys_poll : list pollfd -> Z -> K -> Z * list pollfd * K;
  sys_mmap : Z -> Z -> Z -> Z -> Z -> K -> option Z * K;
}.

(** ** Devices *)

Record V4L2Device := Device { name_ : string; fd_ : Z }.

Definition new_V4L2Device (name : string) : V4L2Device := Device name (-1).
Definition set_fd (x : Z) (d : V4L2Device) : V4L2Device := Device (name_ d) x.
Definition IsOpened (d : V4L2Device) : bool := negb (fd_ d =? -1).

Section Device.
Context {K : Type} `{Kernel K}.
Implicit Types (d : V4L2Device) (k : K).

Definition Open (oflags : Z) d k : Z * V4L2Device * K :=
  if IsOpened d then (0, d, k) else
  match stat_chardev (name_ d) k with
  | None => (- ENODEV, d, k)
  | Some false => (- ENODEV, d, k)
  | Some true =>
      let '(fd, errno, k) := sys_open (name_ d) oflags k in
      let d := set_fd fd d in
      if fd <? 0 then (- errno, d, k) else (0, d, k)
  end.

Definition Close d k : Z * V4L2Device * K :=
  if negb (IsOpened d) then (- EINVAL, d, k) else
  let '(ret, k) := sys_close (fd_ d) k in
  if ret <? 0 then (ret, d, k) else (0, set_fd (-1) d, k).

(** A request on an open device, or [err]. *)
Definition on_fd {A} (err : Z) (r : request A) (arg : A) d k : Z * A * K :=
  if negb (IsOpened d) then (err, arg, k) else ioctl (fd_ d) r arg k.

Definition SubscribeEvent (event eid : Z) d k : Z * K :=
  let '(ret, _, k) := on_fd (-1) VIDIOC_SUBSCRIBE_EVENT (Subscription event eid) d k in (ret, k).
Definition UnsubscribeEvent (event eid : Z) d k : Z * K :=
  let '(ret, _, k) := on_fd (-1) VIDIOC_UNSUBSCRIBE_EVENT (Subscription event eid) d k in (ret, k).

(** [DequeueEvent] and [QueryControl] with [None] for a null pointer; the
    structure is updated in place. *)
Definition DequeueEvent (event : option v4l2_event) d k : Z * option v4l2_event * K :=
  match event with
  | None => (- EINVAL, None, k)
  | Some e => let '(ret, e, k) := on_fd (-1) VIDIOC_DQEVENT e d k in (ret, Some e, k)
  end.

Definition SetControl_v4l2 (control : option v4l2_control) d k : Z * option v4l2_control * K :=
  if negb (IsOpened d) then (- EINVAL, control, k) else
  match control with
  | None => (- EINVAL, None, k)
  | Some c => let '(ret, c, k) := ioctl (fd_ d) VIDIOC_S_CTRL c k in (ret, Some c, k)
  end.

Definition SetControl_ext (c : v4l2_ext_control) d k : Z * v4l2_ext_control * K :=
  on_fd (- EINVAL) VIDIOC_S_EXT_CTRLS c d k.
Definition GetControl_ext (c : v4l2_ext_control) d k : Z * v4l2_ext_control * K :=
  on_fd (- EINVAL) VIDIOC_G_EXT_CTRLS c d k.

(** A 32-bit value is stored in the low half of the zeroed union. *)
Definition SetControl (cid value : Z) d k : Z * K :=
  let '(ret, _, k) := SetControl_ext (ExtControl cid (u32 value)) d k in (ret, k).
Definition SetControl64 (cid value : Z) d k : Z * K :=
  let '(ret, _, k) := SetControl_ext (ExtControl cid (u64 value)) d k in (ret, k).

(** The second result is what [*value] is set to, if it is. *)
Definition GetControl (cid : Z) d k : Z * option Z * K :=
  let '(ret, c, k) := GetControl_ext (ExtControl cid 0) d k in
  (ret, if ret =? 0 then Some (signed 32 (u32 (value64 c))) else None, k).
Definition GetControl64 (cid : Z) d k : Z * option Z * K :=
  let '(ret, c, k) := GetControl_ext (ExtControl cid 0) d k in
  (ret, if ret =? 0 then Some (signed 64 (value64 c)) else None, k).

Definition QueryMenu (menu : option v4l2_querymenu) d k : Z * option v4l2_querymenu * K :=
  match menu with
  | None => (- EINVAL, None, k)
  | Some q => let '(ret, q, k) := on_fd (- EINVAL) VIDIOC_QUERYMENU q d k in (ret, Some q, k)
  end.

Definition QueryControl (control : option v4l2_queryctrl) d k : Z * option v4l2_queryctrl * K :=
  match control with
  | None => (- EINVAL, None, k)
  | Some q => let '(ret, q, k) := on_fd (- EINVAL) VIDIOC_QUERYCTRL q d k in (ret, Some q, k)
  end.

(** ** Polling *)

Definition POLLIN : Z := 1.
Definition POLLPRI : Z := 2.
Definition POLLERR : Z := 8.

Definition has_event (p : pollfd) (e : Z) : bool := negb (Z.land (revents p) e =? 0).

Definition Poll (timeout : Z) d k : Z * K :=
  if fd_ d =? -1 then (-1, k) else
  let '(ret, pfds, k) := sys_poll [PollFd (fd_ d) (Z.lor (Z.lor POLLPRI POLLIN) POLLERR) 0] timeout k in
  if ret <? 0 then (ret, k) else
  if existsb (fun p => has_event p POLLERR) pfds then (-1, k) else (ret, k).

(** Devices by index; [None] is a null pointer.  The entry of the flush
    descriptor, when there is one, is the last. *)
Record V4L2DevicePoller := Poller { devices_ : list (option V4L2Device); flush_fd_ : Z; poll_fds_ : list pollfd }.

(** The entries of the devices up to the first null pointer, or all of them. *)
Definition device_fds (devices : list (option V4L2Device)) : option (list pollfd) :=
  mapM (fun o => match o with Some dev => Some (PollFd (fd_ dev) 0 0) | None => None end) devices.

Definition new_V4L2DevicePoller (devices : list (option V4L2Device)) (flush_fd : Z) : V4L2DevicePoller :=
  match device_fds devices with
  | None => Poller devices flush_fd []
  | Some fds => Poller devices flush_fd
      (fds ++ if flush_fd =? -1 then [] else [PollFd flush_fd (Z.lor POLLIN POLLPRI) 0])
  end.

Definition set_events (e : Z) (p : pollfd) : pollfd := PollFd (fd p) e (revents p).

(** The result, the devices that are ready, and the poller. *)
Definition Poll_devices (timeout e : Z) (p : V4L2DevicePoller) k : Z * list V4L2Device * V4L2DevicePoller * K :=
  match poll_fds_ p with
  | [] => (- EINVAL, [], p, k)
  | _ =>
      let n := List.length (devices_ p) in
      let asked := (set_events e <$> take n (poll_fds_ p)) ++ drop n (poll_fds_ p) in
      let '(ret, fds, k) := sys_poll asked timeout k in
      let p := Poller (devices_ p) (flush_fd_ p) fds in
      if ret <=? 0 then (ret, [], p, k) else
      if negb (flush_fd_ p =? -1) && (match list.last fds with Some l => has_event l (Z.lor POLLIN POLLPRI) | None => false end)
      then (ret, [], p, k) else
      if existsb (fun q => has_event q POLLERR) (take n fds) then (-1, [], p, k) else
      (ret, omap (fun '(dev, q) => if has_event q e then dev else None) (zip (devices_ p) fds), p, k)
  end.
End Device.

(** ** Sub-devices *)

Module Subdevice.
Inductive SubdevState := CLOSED | OPEN | CONFIGURED | STARTED | ERROR.

#[global] Instance SubdevState_eq_dec : EqDecision SubdevState.
Proof. solve_decision. Defined.

Record V4L2Subdevice := Subdev { dev : V4L2Device; state_ : SubdevState }.

Definition V4L2_SUBDEV_CLIENT_CAP_STREAMS : Z := 1.
Definition V4L2_SUBDEV_FORMAT_ACTIVE : Z := 1.

Section Subdevice.
Context {K : Type} `{Kernel K}.
Implicit Types (s : V4L2Subdevice) (k : K).

Definition new_V4L2Subdevice (name : string) : V4L2Subdevice := Subdev (new_V4L2Device name) CLOSED.

Definition Open (oflags : Z) s k : Z * V4L2Subdevice * K :=
  let '(status, d, k) := V4l2Device.Open oflags (dev s) k in
  let s := Subdev d (if status =? 0 then OPEN else state_ s) in
  let '(_, _, k) := ioctl (fd_ d) VIDIOC_SUBDEV_S_CLIENT_CAP V4L2_SUBDEV_CLIENT_CAP_STREAMS k in
  (0, s, k).

Definition Close s k : Z * V4L2Subdevice * K :=
  let '(status, d, k) := V4l2Device.Close (dev s) k in
  (status, Subdev d (if status =? 0 then CLOSED else ERROR), k).

Definition usable s : bool := bool_decide (state_ s = OPEN) || bool_decide (state_ s = CONFIGURED).

Definition SetFormat (format : v4l2_subdev_format) s k : Z * V4L2Subdevice * K :=
  if negb (usable s) then (- EINVAL, s, k) else
  let '(ret, _, k) := ioctl (fd_ (dev s)) VIDIOC_SUBDEV_S_FMT format k in
  if ret <? 0 then (- EINVAL, s, k) else (0, Subdev (dev s) CONFIGURED, k).

Definition GetFormat (format : v4l2_subdev_format) s k : Z * v4l2_subdev_format * K :=
  if negb (usable s) then (- EINVAL, format, k) else
  let '(ret, format, k) := ioctl (fd_ (dev s)) VIDIOC_SUBDEV_G_FMT format k in
  if ret <? 0 then (- EINVAL, format, k) else (0, format, k).

(** The pointers are those of local variables; the second result is what they
    are set to, if they are. *)
Definition GetPadFormat (pad_index : Z) s k : Z * option (Z * Z * Z) * K :=
  let '(ret, format, k) := GetFormat (SubdevFormat V4L2_SUBDEV_FORMAT_ACTIVE pad_index 0 (FrameFormat 0 0 0)) s k in
  let f := frame_format format in
  (ret, if ret =? 0 then Some (f_width f, f_height f, f_code f) else None, k).

Definition SetSelection (selection : v4l2_subdev_selection) s k : Z * K :=
  if negb (usable s) then (- EINVAL, k) else
  let '(ret, _, k) := ioctl (fd_ (dev s)) VIDIOC_SUBDEV_S_SELECTION selection k in (ret, k).

Definition SetRouting (routes : option (list v4l2_subdev_route)) (numRoutes : Z) s k : Z * option (list v4l2_subdev_route) * K :=
  match routes with
  | None => (- EINVAL, None, k)
  | Some l =>
      let '(ret, r, k) := ioctl (fd_ (dev s)) VIDIOC_SUBDEV_S_ROUTING (Routing V4L2_SUBDEV_FORMAT_ACTIVE numRoutes numRoutes l) k in
      (ret, Some (r_routes r), k)
  end.

(** The routes, and their number when it is reported. *)
Definition GetRouting (routes : option (list v4l2_subdev_route)) (numRoutes : option Z) s k
    : Z * option (list v4l2_subdev_route) * option Z * K :=
  match routes, numRoutes with
  | Some l, Some n =>
      let '(ret, r, k) := ioctl (fd_ (dev s)) VIDIOC_SUBDEV_G_ROUTING (Routing V4L2_SUBDEV_FORMAT_ACTIVE n n l) k in
      (ret, Some (r_routes r), Some (if ret <? 0 then n else num_routes r), k)
  | _, _ => (- EINVAL, routes, numRoutes, k)
  end.
End Subdevice.
End Subdevice.

(** ** Properties *)

(** Opening a sub-device reports success even when it failed; the sub-device
    is then left closed and refuses formats. *)
Theorem subdevice_open_hides_failure {K : Type} `{Kernel K} oflags (s : Subdevice.V4L2Subdevice) k ret d k1 format :
  Subdevice.state_ s = Subdevice.CLOSED -> Open oflags (Subdevice.dev s) k = (ret, d, k1) -> ret <> 0 ->
  exists k2, Subdevice.Open oflags s k = (0, Subdevice.Subdev d Subdevice.CLOSED, k2)
    /\ Subdevice.SetFormat format (Subdevice.Subdev d Subdevice.CLOSED) k2 = (- EINVAL, Subdevice.Subdev d Subdevice.CLOSED, k2).
Proof.
  intros Hc Ho Hr. unfold Subdevice.Open. rewrite Ho. destruct (Z.eqb_spec ret 0); [done|]. rewrite Hc.
  destruct (ioctl (fd_ d) VIDIOC_SUBDEV_S_CLIENT_CAP _ k1) as [[r x] k2]. exists k2. split; reflexivity.
Qed.

(** A poller reports exactly the devices whose entry has one of the events
    asked for, in their order; it reports none on time-out, on an error of a
    device and when the flush descriptor is ready. *)
Theorem poller_reports_ready {K : Type} `{Kernel K} timeout e p (k : K) ret ready p' k' dev :
  Poll_devices timeout e p k = (ret, ready, p', k') -> dev ∈ ready ->
  0 < ret /\ exists i q, devices_ p !! i = Some (Some dev) /\ poll_fds_ p' !! i = Some q /\ has_event q e = true
    /\ has_event q POLLERR = false.
Proof.
  unfold Poll_devices. destruct (poll_fds_ p) as [|q0 fds0]; [intros; simplify_eq; by rewrite elem_of_nil in *|].
  destruct (sys_poll _ timeout k) as [[r fds] k1]. cbv zeta. cbn [poll_fds_ flush_fd_ devices_].
  destruct (Z.leb_spec r 0); [intros; simplify_eq; by rewrite elem_of_nil in *|].
  destruct (_ && _); [intros; simplify_eq; by rewrite elem_of_nil in *|].
  destruct (existsb _ _) eqn:Herr; [intros; simplify_eq; by rewrite elem_of_nil in *|].
  intros Heq Hin. simplify_eq. split; [done|]. apply list_elem_of_omap in Hin as ([o q] & Hz & Hq).
  destruct (has_event q e) eqn:He; simplify_eq. apply list_elem_of_lookup in Hz as [i Hi].
  apply lookup_zip_with_Some in Hi as (o2 & q2 & Hpair & Hd & Hf). injection Hpair as <- <-. exists i, q. cbn [poll_fds_]. split_and!; [done..|].
  rewrite <- not_true_iff_false in Herr |- *. intros Hp. apply Herr, existsb_exists. exists q. split; [|done].
  apply list_elem_of_In, list_elem_of_lookup. exists i. rewrite lookup_take_lt; [done|]. by eapply lookup_lt_Some.
Qed.

(** ** Witnesses *)

(** A kernel without devices, whose polls find all they ask for. *)
#[local] Instance no_devices : Kernel unit := {
  stat_chardev := fun _ _ => None;
  sys_open := fun _ _ k => (-1, ENODEV, k);
  sys_close := fun _ k => (-1, k);
  ioctl := fun _ _ _ a k => (-1, a, k);
  sys_poll := fun l _ k => (Z.of_nat (List.length l), (fun p => PollFd (fd p) (events p) (events p)) <$> l, k);
  sys_mmap := fun _ _ _ _ _ k => (None, k);
}.

Lemma subdevice_open_hides_failure_witness :
  exists k2, Subdevice.Open 2 (Subdevice.new_V4L2Subdevice "/dev/v4l-subdev0") tt
    = (0, Subdevice.Subdev (new_V4L2Device "/dev/v4l-subdev0") Subdevice.CLOSED, k2).
Proof.
  destruct (subdevice_open_hides_failure 2 (Subdevice.new_V4L2Subdevice "/dev/v4l-subdev0") tt (- ENODEV) (new_V4L2Device "/dev/v4l-subdev0") tt
    (SubdevFormat 1 0 0 (FrameFormat 640 480 0))) as (k2 & Ho & _); [reflexivity..|discriminate|]. exists k2. exact Ho.
Defined.

Lemma poller_reports_ready_witness :
  exists ret p' k', Poll_devices 1000 POLLIN (new_V4L2DevicePoller [Some (Device "/dev/video0" 3)] (-1)) tt
    = (ret, [Device "/dev/video0" 3], p', k') /\ 0 < ret.
Proof.
  eexists _, _, _. split; [reflexivity|].
  eapply (poller_reports_ready 1000 POLLIN (new_V4L2DevicePoller [Some (Device "/dev/video0" 3)] (-1)) tt); [reflexivity|left].
Defined.
