(* ===== verification/V4l2Video.v ===== *)
(** * V4L2 video nodes

    modules/v4l2/v4l2_video_node.cc: buffers with one or several memory planes,
    formats, and the video node, whose state follows that of the kernel's
    queue: opened, format set, buffers requested, streaming.  A stored 64-bit
    union is read and written through the width of the member used. *)

From Stdlib Require Import String.
From S2P Require Import Prelude Errors V4l2Device.
From stdpp Require Import list.
#[local] Open Scope Z_scope.

Definition V4L2_BUF_TYPE_VIDEO_CAPTURE : Z := 1.
Definition V4L2_BUF_TYPE_VIDEO_OUTPUT : Z := 2.
Definition V4L2_BUF_TYPE_VIDEO_CAPTURE_MPLANE : Z := 9.
Definition V4L2_BUF_TYPE_VIDEO_OUTPUT_MPLANE : Z := 10.
Definition V4L2_BUF_TYPE_META_CAPTURE : Z := 13.
Definition V4L2_BUF_TYPE_META_OUTPUT : Z := 14.
Definition V4L2_MEMORY_MMAP : Z := 1.
Definition V4L2_MEMORY_USERPTR : Z := 2.
Definition V4L2_MEMORY_DMABUF : Z := 4.
Definition V4L2_CAP_VIDEO_CAPTURE : Z := 1.
Definition V4L2_CAP_VIDEO_OUTPUT : Z := 2.
Definition V4L2_CAP_VIDEO_CAPTURE_MPLANE : Z := 4096.
Definition V4L2_CAP_VIDEO_OUTPUT_MPLANE : Z := 8192.
Definition V4L2_CAP_META_CAPTURE : Z := 8388608.
Definition V4L2_CAP_META_OUTPUT : Z := 134217728.
Definition V4L2_FIELD_NONE : Z := 1.
Definition V4L2_BUF_FLAG_REQUEST_FD : Z := 8388608.
Definition VIDEO_MAX_PLANES : Z := 8.

Definition V4L2_TYPE_IS_META (t : Z) : bool := (t =? V4L2_BUF_TYPE_META_OUTPUT) || (t =? V4L2_BUF_TYPE_META_CAPTURE).
Definition V4L2_TYPE_IS_MULTIPLANAR (t : Z) : bool :=
  (t =? V4L2_BUF_TYPE_VIDEO_CAPTURE_MPLANE) || (t =? V4L2_BUF_TYPE_VIDEO_OUTPUT_MPLANE).

(** ** Buffers

    A buffer's planes are its own [planes_] from the constructor on.  For a
    single-planar buffer the union [m] holds an offset, an address or a
    descriptor; before any of these is stored it still is the pointer to the
    planes, [None]. *)
Module Buffers.
Record V4L2Buffer := VBuffer {
  v_index : Z; v_type : Z; v_flags : Z; v_field : Z; v_timestamp : Z * Z; v_sequence : Z; v_memory : Z;
  v_bytesused : Z; v_length : Z; v_request_fd : Z; v_m : option Z; planes_ : list v4l2_plane;
}.
Implicit Types b : V4L2Buffer.

Definition new_V4L2Buffer : V4L2Buffer :=
  VBuffer 0 V4L2_BUF_TYPE_VIDEO_CAPTURE_MPLANE 0 0 (0, 0) 0 0 0 VIDEO_MAX_PLANES 0 None
    (replicate (Z.to_nat VIDEO_MAX_PLANES) (Plane 0 0 0)).

Definition mp b : bool := V4L2_TYPE_IS_MULTIPLANAR (v_type b).

(** The copy of a single-planar buffer has no planes of its own, and keeps the
    pointer if that is what the union holds. *)
Definition copy_buffer b : V4L2Buffer :=
  VBuffer (v_index b) (v_type b) (v_flags b) (v_field b) (v_timestamp b) (v_sequence b) (v_memory b)
    (v_bytesused b) (v_length b) (v_request_fd b) (if mp b then None else v_m b) (if mp b then planes_ b else []).

(** Assignment keeps the planes the target has when the source is
    single-planar. *)
Definition assign_buffer (to from : V4L2Buffer) : V4L2Buffer :=
  VBuffer (v_index from) (v_type from) (v_flags from) (v_field from) (v_timestamp from) (v_sequence from) (v_memory from)
    (v_bytesused from) (v_length from) (v_request_fd from) (if mp from then None else v_m from)
    (if mp from then planes_ from else planes_ to).

Definition SetIndex (x : Z) b : V4L2Buffer :=
  VBuffer x (v_type b) (v_flags b) (v_field b) (v_timestamp b) (v_sequence b) (v_memory b)
    (v_bytesused b) (v_length b) (v_request_fd b) (v_m b) (planes_ b).
Definition SetType (x : Z) b : V4L2Buffer :=
  VBuffer (v_index b) x (v_flags b) (v_field b) (v_timestamp b) (v_sequence b) (v_memory b)
    (v_bytesused b) (v_length b) (v_request_fd b) (v_m b) (planes_ b).
Definition SetFlags (x : Z) b : V4L2Buffer :=
  VBuffer (v_index b) (v_type b) x (v_field b) (v_timestamp b) (v_sequence b) (v_memory b)
    (v_bytesused b) (v_length b) (v_request_fd b) (v_m b) (planes_ b).
Definition SetMemory (x : Z) b : V4L2Buffer :=
  VBuffer (v_index b) (v_type b) (v_flags b) (v_field b) (v_timestamp b) (v_sequence b) x
    (v_bytesused b) (v_length b) (v_request_fd b) (v_m b) (planes_ b).
Definition set_m (x : Z) b : V4L2Buffer :=
  VBuffer (v_index b) (v_type b) (v_flags b) (v_field b) (v_timestamp b) (v_sequence b) (v_memory b)
    (v_bytesused b) (v_length b) (v_request_fd b) (Some x) (planes_ b).
Definition set_bytesused (x : Z) b : V4L2Buffer :=
  VBuffer (v_index b) (v_type b) (v_flags b) (v_field b) (v_timestamp b) (v_sequence b) (v_memory b)
    x (v_length b) (v_request_fd b) (v_m b) (planes_ b).
Definition set_length (x : Z) b : V4L2Buffer :=
  VBuffer (v_index b) (v_type b) (v_flags b) (v_field b) (v_timestamp b) (v_sequence b) (v_memory b)
    (v_bytesused b) x (v_request_fd b) (v_m b) (planes_ b).
Definition set_planes (x : list v4l2_plane) b : V4L2Buffer :=
  VBuffer (v_index b) (v_type b) (v_flags b) (v_field b) (v_timestamp b) (v_sequence b) (v_memory b)
    (v_bytesused b) (v_length b) (v_request_fd b) (v_m b) x.
Definition set_request (flags rfd : Z) b : V4L2Buffer :=
  VBuffer (v_index b) (v_type b) flags (v_field b) (v_timestamp b) (v_sequence b) (v_memory b)
    (v_bytesused b) (v_length b) rfd (v_m b) (planes_ b).

(** The 64 bits in which an offset, an address or a descriptor lies: [None] is a
    plane the buffer does not have, or a union that holds the pointer. *)
Definition slot (plane : nat) b : option Z :=
  if mp b then p_m <$> planes_ b !! plane else v_m b.

(** Storing there.  A member narrower than the pointer leaves bits of it, so
    storing one over the pointer is not modelled. *)
Definition set_slot (f : Z -> Z) (plane : nat) b : option V4L2Buffer :=
  if mp b
  then p ← planes_ b !! plane; Some (set_planes (<[plane := Plane (p_bytesused p) (p_length p) (f (p_m p))]> (planes_ b)) b)
  else w ← v_m b; Some (set_m (f w) b).

Definition store_low (x w : Z) : Z := w - u32 w + u32 x.

Definition Offset (plane : nat) b : option Z := u32 <$> slot plane b.
Definition SetOffset (offset : Z) : nat -> V4L2Buffer -> option V4L2Buffer := set_slot (store_low offset).
Definition Fd (plane : nat) b : option Z := signed 32 <$> slot plane b.
Definition SetFd (x : Z) : nat -> V4L2Buffer -> option V4L2Buffer := set_slot (store_low x).
Definition Userptr (plane : nat) b : option Z := slot plane b.

(** An address fills the union. *)
Definition SetUserptr (userptr : Z) (plane : nat) b : option V4L2Buffer :=
  if mp b then set_slot (fun _ => u64 userptr) plane b else Some (set_m (u64 userptr) b).

Definition RequestFd b : Z :=
  if negb (Z.land (v_flags b) V4L2_BUF_FLAG_REQUEST_FD =? 0) then signed 32 (v_request_fd b) else -1.
Definition SetRequestFd (rfd : Z) b : Z * V4L2Buffer :=
  if rfd <=? 0 then (- EINVAL, b) else (0, set_request (Z.lor (v_flags b) V4L2_BUF_FLAG_REQUEST_FD) rfd b).
Definition ResetRequestFd b : Z * V4L2Buffer :=
  (0, set_request (Z.ldiff (v_flags b) V4L2_BUF_FLAG_REQUEST_FD) 0 b).

Definition BytesUsed (plane : nat) b : option Z :=
  if mp b then p_bytesused <$> planes_ b !! plane else Some (v_bytesused b).
Definition SetBytesUsed (x : Z) (plane : nat) b : option V4L2Buffer :=
  if mp b
  then p ← planes_ b !! plane; Some (set_planes (<[plane := Plane (u32 x) (p_length p) (p_m p)]> (planes_ b)) b)
  else Some (set_bytesused (u32 x) b).
Definition Length (plane : nat) b : option Z :=
  if mp b then p_length <$> planes_ b !! plane else Some (v_length b).
Definition SetLength (x : Z) (plane : nat) b : option V4L2Buffer :=
  if mp b
  then p ← planes_ b !! plane; Some (set_planes (<[plane := Plane (p_bytesused p) (u32 x) (p_m p)]> (planes_ b)) b)
  else Some (set_length (u32 x) b).

(** The structure handed to the kernel, and the buffer after the kernel updated
    it.  The kernel stores into the union of a single-planar buffer and into the
    planes of a multi-planar one. *)
Definition Get b : v4l2_buffer :=
  Buffer (v_index b) (v_type b) (v_flags b) (v_field b) (v_timestamp b) (v_sequence b) (v_memory b)
    (v_bytesused b) (v_length b) (v_request_fd b) (default 0 (v_m b)) (planes_ b).
Definition updated (r : v4l2_buffer) b : V4L2Buffer :=
  VBuffer (buf_index r) (buf_type r) (buf_flags r) (buf_field r) (buf_timestamp r) (buf_sequence r) (buf_memory r)
    (buf_bytesused r) (buf_length r) (buf_request_fd r)
    (if mp b then v_m b else Some (buf_m r)) (if mp b then buf_planes r else planes_ b).
End Buffers.

(** ** Formats *)
Module Formats.
Record V4L2Format := VFormat {
  type_ : Z; width_ : Z; height_ : Z; pixel_fmt_ : Z; field_ : Z; color_space_ : Z; quantization_ : Z;
  plane_bytes_per_line_ : list Z; plane_size_image_ : list Z;
}.
Implicit Types f : V4L2Format.

Definition new_V4L2Format : V4L2Format := VFormat 0 0 0 0 V4L2_FIELD_NONE 0 0 [] [].

(** From the kernel's structure: [unset] is what an uninitialised member holds. *)
Definition of_v4l2_format (unset : Z) (fmt : v4l2_format) : V4L2Format :=
  match fmt with
  | FormatMeta t dataformat buffersize => VFormat t unset unset dataformat unset unset unset [] [buffersize]
  | FormatMplane t n p =>
      VFormat t (pix_width p) (pix_height p) (pixelformat p) (pix_field p) (colorspace p) (quantization p)
        ((fun i => bytesperline p !!! i) <$> seq 0 (Z.to_nat n)) ((fun i => sizeimage p !!! i) <$> seq 0 (Z.to_nat n))
  | FormatPix t p =>
      VFormat t (pix_width p) (pix_height p) (pixelformat p) (pix_field p) (colorspace p) (quantization p)
        [bytesperline p !!! 0%nat] [sizeimage p !!! 0%nat]
  end.

Definition SetType (x : Z) f : V4L2Format :=
  VFormat x (width_ f) (height_ f) (pixel_fmt_ f) (field_ f) (color_space_ f) (quantization_ f) (plane_bytes_per_line_ f) (plane_size_image_ f).
Definition SetWidth (x : Z) f : V4L2Format :=
  VFormat (type_ f) x (height_ f) (pixel_fmt_ f) (field_ f) (color_space_ f) (quantization_ f) (plane_bytes_per_line_ f) (plane_size_image_ f).
Definition SetHeight (x : Z) f : V4L2Format :=
  VFormat (type_ f) (width_ f) x (pixel_fmt_ f) (field_ f) (color_space_ f) (quantization_ f) (plane_bytes_per_line_ f) (plane_size_image_ f).
Definition SetPixelFormat (x : Z) f : V4L2Format :=
  VFormat (type_ f) (width_ f) (height_ f) x (field_ f) (color_space_ f) (quantization_ f) (plane_bytes_per_line_ f) (plane_size_image_ f).
Definition SetField (x : Z) f : V4L2Format :=
  VFormat (type_ f) (width_ f) (height_ f) (pixel_fmt_ f) x (color_space_ f) (quantization_ f) (plane_bytes_per_line_ f) (plane_size_image_ f).
Definition SetColorSpace (x : Z) f : V4L2Format :=
  VFormat (type_ f) (width_ f) (height_ f) (pixel_fmt_ f) (field_ f) x (quantization_ f) (plane_bytes_per_line_ f) (plane_size_image_ f).
Definition SetQuantization (x : Z) f : V4L2Format :=
  VFormat (type_ f) (width_ f) (height_ f) (pixel_fmt_ f) (field_ f) (color_space_ f) x (plane_bytes_per_line_ f) (plane_size_image_ f).

(** [resize], then the store. *)
Definition set_plane (x plane : Z) (l : list Z) : list Z :=
  if VIDEO_MAX_PLANES <=? plane then l else
  <[Z.to_nat plane := x]> (resize (Nat.max (List.length l) (S (Z.to_nat plane))) 0 l).

Definition SetBytesPerLine (x plane : Z) f : V4L2Format :=
  VFormat (type_ f) (width_ f) (height_ f) (pixel_fmt_ f) (field_ f) (color_space_ f) (quantization_ f)
    (set_plane x plane (plane_bytes_per_line_ f)) (plane_size_image_ f).
Definition SetSizeImage (x plane : Z) f : V4L2Format :=
  VFormat (type_ f) (width_ f) (height_ f) (pixel_fmt_ f) (field_ f) (color_space_ f) (quantization_ f)
    (plane_bytes_per_line_ f) (set_plane x plane (plane_size_image_ f)).

(** [None] is an access past the end of the vector. *)
Definition BytesPerLine (plane : nat) f : option Z := plane_bytes_per_line_ f !! plane.
Definition SizeImage (plane : nat) f : option Z := plane_size_image_ f !! plane.

Definition pix_of (lines sizes : list Z) f : v4l2_pix_format :=
  Pix (width_ f) (height_ f) (pixel_fmt_ f) (field_ f) (color_space_ f) (quantization_ f) lines sizes.

(** The members stored into the structure for the kernel; [num_planes] has 8
    bits. *)
Definition Get f : option v4l2_format :=
  if V4L2_TYPE_IS_META (type_ f) then
    size ← SizeImage 0 f; Some (FormatMeta (type_ f) (pixel_fmt_ f) size)
  else if V4L2_TYPE_IS_MULTIPLANAR (type_ f) then
    Some (FormatMplane (type_ f) (u8 (Z.of_nat (List.length (plane_bytes_per_line_ f))))
      (pix_of (plane_bytes_per_line_ f) (plane_size_image_ f) f))
  else
    line ← BytesPerLine 0 f; size ← SizeImage 0 f; Some (FormatPix (type_ f) (pix_of [line] [size] f)).
End Formats.

(** ** Video nodes *)
Module VideoNode.
Import Buffers Formats.

Inductive VideoNodeState := CLOSED | OPEN | CONFIGURED | PREPARED | STARTED | ERROR.

#[global] Instance VideoNodeState_eq_dec : EqDecision VideoNodeState.
Proof. solve_decision. Defined.

Record V4L2VideoNode := Node {
  dev : V4L2Device;
  state_ : VideoNodeState;
  format_ : V4L2Format;
  is_buffer_cached_ : bool;
  device_caps : Z;
  buffer_type_ : Z;
  memory_type_ : Z;
}.

Section VideoNode.
Context {K : Type} `{Kernel K}.
Implicit Types (n : V4L2VideoNode) (k : K).

Definition set_dev d n := Node d (state_ n) (format_ n) (is_buffer_cached_ n) (device_caps n) (buffer_type_ n) (memory_type_ n).
Definition set_state st n := Node (dev n) st (format_ n) (is_buffer_cached_ n) (device_caps n) (buffer_type_ n) (memory_type_ n).
Definition set_format f n := Node (dev n) (state_ n) f (is_buffer_cached_ n) (device_caps n) (buffer_type_ n) (memory_type_ n).
Definition set_cached c n := Node (dev n) (state_ n) (format_ n) c (device_caps n) (buffer_type_ n) (memory_type_ n).
Definition set_caps c n := Node (dev n) (state_ n) (format_ n) (is_buffer_cached_ n) c (buffer_type_ n) (memory_type_ n).
Definition set_buffer_type t n := Node (dev n) (state_ n) (format_ n) (is_buffer_cached_ n) (device_caps n) t (memory_type_ n).
Definition set_memory_type t n := Node (dev n) (state_ n) (format_ n) (is_buffer_cached_ n) (device_caps n) (buffer_type_ n) t.

Definition new_V4L2VideoNode (name : string) : V4L2VideoNode :=
  Node (new_V4L2Device name) CLOSED new_V4L2Format false 0 V4L2_BUF_TYPE_VIDEO_CAPTURE V4L2_MEMORY_USERPTR.

Definition in_states (l : list VideoNodeState) n : bool := bool_decide (state_ n ∈ l).

Definition node_ioctl {A} (r : request A) (arg : A) n k : Z * A * K := ioctl (fd_ (dev n)) r arg k.

Definition QueryCap n k : Z * v4l2_capability * K :=
  let '(ret, cap, k) := node_ioctl VIDIOC_QUERYCAP (Capability 0) n k in
  (if ret <? 0 then ret else 0, cap, k).

Definition known_caps : list Z :=
  [V4L2_CAP_VIDEO_CAPTURE; V4L2_CAP_VIDEO_CAPTURE_MPLANE; V4L2_CAP_VIDEO_OUTPUT; V4L2_CAP_VIDEO_OUTPUT_MPLANE;
   V4L2_CAP_META_CAPTURE; V4L2_CAP_META_OUTPUT].

(** The known capabilities among [reported] are added to those the node has. *)
Definition with_caps (reported caps : Z) : Z :=
  foldl (fun caps c => if negb (Z.land reported c =? 0) then Z.lor caps c else caps) caps known_caps.

Definition Open (oflags : Z) n k : Z * V4L2VideoNode * K :=
  let '(ret, d, k) := V4l2Device.Open oflags (dev n) k in
  let n := set_dev d n in
  if negb (ret =? 0) then (ret, n, k) else
  let '(ret, cap, k) := QueryCap n k in
  if negb (ret =? 0) then let '(_, d, k) := V4l2Device.Close (dev n) k in (ret, set_dev d n, k) else
  let n := set_caps (with_caps (capabilities cap) (device_caps n)) n in
  if device_caps n =? 0 then let '(_, d, k) := V4l2Device.Close (dev n) k in (- EINVAL, set_dev d n, k) else
  (ret, set_state OPEN n, k).

Definition RequestBuffers (num_buffers mtype : Z) n k : Z * V4L2VideoNode * K :=
  if in_states [CLOSED] n then (0, n, k) else
  let '(ret, r, k) := node_ioctl VIDIOC_REQBUFS (RequestBuf (u32 num_buffers) (buffer_type_ n) mtype) n k in
  if ret <? 0 then (ret, n, k) else (signed 32 (count r), set_state PREPARED (set_memory_type mtype n), k).

Definition StopLocked (releaseBuffers : bool) n k : Z * V4L2VideoNode * K :=
  let '(ret, n, k) :=
    if in_states [STARTED] n
    then let '(ret, _, k) := node_ioctl VIDIOC_STREAMOFF (buffer_type_ n) n k in
         if ret <? 0 then (ret, n, k) else (0, set_state PREPARED n, k)
    else (0, n, k) in
  if ret <? 0 then (ret, n, k) else
  if negb releaseBuffers then (0, n, k) else
  if in_states [PREPARED] n
  then let '(_, n, k) := RequestBuffers 0 (memory_type_ n) n k in (0, set_state CONFIGURED n, k)
  else (0, n, k).

Definition Close n k : Z * V4L2VideoNode * K :=
  let '(n, k) := if in_states [STARTED; PREPARED] n
                 then let '(_, n, k) := StopLocked true n k in (n, k) else (n, k) in
  let '(ret, d, k) := V4l2Device.Close (dev n) k in
  (ret, set_state (if ret =? 0 then CLOSED else ERROR) (set_dev d n), k).

Definition Stop (releaseBuffers : bool) n k : Z * V4L2VideoNode * K :=
  if negb (in_states [STARTED; PREPARED] n) then (- EINVAL, n, k) else StopLocked releaseBuffers n k.

Definition Start n k : Z * V4L2VideoNode * K :=
  if negb (in_states [PREPARED] n) then (-1, n, k) else
  let '(ret, _, k) := node_ioctl VIDIOC_STREAMON (buffer_type_ n) n k in
  if ret <? 0 then (ret, n, k) else (0, set_state STARTED n, k).

(** [None] is a format without the planes its type needs.  The structure the
    kernel updated is not read back. *)
Definition SetFormat (format : V4L2Format) n k : option (Z * V4L2VideoNode * K) :=
  if negb (in_states [OPEN; CONFIGURED; PREPARED] n) then Some (- EINVAL, n, k) else
  let n := set_buffer_type (type_ format) n in
  let fmt := if V4L2_TYPE_IS_META (buffer_type_ n) then SetSizeImage 0 0 format else format in
  arg ← Formats.Get fmt;
  let '(ret, _, k) := node_ioctl VIDIOC_S_FMT arg n k in
  Some (if ret <? 0 then (ret, n, k) else (0, set_state CONFIGURED (set_format fmt n), k)).

(** The structure of an uninitialised local, its type set. *)
Definition GetFormat (unset : Z) (local : v4l2_format) n k : Z * option V4L2Format * K :=
  if negb (in_states [OPEN; CONFIGURED] n) then (- EINVAL, None, k) else
  let '(ret, fmt, k) := node_ioctl VIDIOC_G_FMT local n k in
  if ret <? 0 then (- EINVAL, None, k) else (0, Some (of_v4l2_format unset fmt), k).

Definition SetSelection (selection : v4l2_selection) n k : Z * v4l2_selection * K :=
  if negb (in_states [OPEN; CONFIGURED] n) then (- EINVAL, selection, k) else
  node_ioctl VIDIOC_S_SELECTION (Selection (buffer_type_ n) (sel_target selection) (sel_rect selection)) n k.

Definition QueryBuffer (i mtype : Z) (b : V4L2Buffer) n k : Z * V4L2Buffer * K :=
  let b := SetIndex i (Buffers.SetType (buffer_type_ n) (SetMemory mtype (SetFlags 0 b))) in
  let '(ret, r, k) := node_ioctl VIDIOC_QUERYBUF (Buffers.Get b) n k in
  (if ret <? 0 then ret else 0, updated r b, k).

Definition Qbuf (b : V4L2Buffer) n k : Z * V4L2Buffer * K :=
  let '(ret, r, k) := node_ioctl VIDIOC_QBUF (Buffers.Get b) n k in (ret, updated r b, k).

Definition Dqbuf (b : V4L2Buffer) n k : Z * V4L2Buffer * K :=
  let b := Buffers.SetType (buffer_type_ n) (SetMemory (memory_type_ n) b) in
  let '(ret, r, k) := node_ioctl VIDIOC_DQBUF (Buffers.Get b) n k in (ret, updated r b, k).

Definition GrabFrame (b : V4L2Buffer) n k : Z * V4L2Buffer * K :=
  if negb (in_states [STARTED] n) then (- EINVAL, b, k) else
  let '(ret, b, k) := Dqbuf b n k in
  if ret <? 0 then (ret, b, k) else (signed 32 (v_index b), b, k).

Definition PutFrame (b : V4L2Buffer) n k : Z * V4L2Buffer * K := Qbuf b n k.

Definition planes_of (b : V4L2Buffer) : Z :=
  if V4L2_TYPE_IS_MULTIPLANAR (v_type b) then v_length b else 1.

(** The mappings made, in order; [None] is a plane the buffer does not have. *)
Fixpoint map_planes (plane : list nat) (prot mflags : Z) (b : V4L2Buffer) (mapped : list Z) n k : option (Z * list Z * K) :=
  match plane with
  | [] => Some (0, mapped, k)
  | i :: rest =>
      len ← Length i b; off ← Offset i b;
      let '(res, k) := sys_mmap len prot mflags (fd_ (dev n)) off k in
      match res with
      | None => Some (- EINVAL, mapped, k)
      | Some addr => map_planes rest prot mflags b (mapped ++ [addr]) n k
      end
  end.

Definition MapMemory (i prot mflags : Z) n k : option (Z * list Z * V4L2VideoNode * K) :=
  if negb (in_states [OPEN; CONFIGURED; PREPARED] n) then Some (- EINVAL, [], n, k) else
  if negb (memory_type_ n =? V4L2_MEMORY_MMAP) then Some (- EINVAL, [], n, k) else
  let '(ret, b, k) := QueryBuffer i (memory_type_ n) new_V4L2Buffer n k in
  if ret <? 0 then Some (ret, [], set_state ERROR n, k) else
  '(ret, mapped, k) ← map_planes (seq 0 (Z.to_nat (planes_of b))) prot mflags b [] n k;
  Some (ret, mapped, n, k).

Fixpoint export_planes (plane : list nat) (i : Z) (fds : list Z) n k : Z * list Z * K :=
  match plane with
  | [] => (0, fds, k)
  | p :: rest =>
      let '(ret, e, k) := node_ioctl VIDIOC_EXPBUF (ExportBuf (buffer_type_ n) i (Z.of_nat p) 2 0) n k in
      if ret <? 0 then (ret, fds, k) else export_planes rest i (fds ++ [exp_fd e]) n k
  end.

Definition ExportFrame (i : Z) n k : Z * list Z * V4L2VideoNode * K :=
  if negb (memory_type_ n =? V4L2_MEMORY_MMAP) then (- EINVAL, [], n, k) else
  let '(ret, b, k) := QueryBuffer i (memory_type_ n) new_V4L2Buffer n k in
  if ret <? 0 then (ret, [], set_state ERROR n, k) else
  let '(ret, fds, k) := export_planes (seq 0 (Z.to_nat (planes_of b))) i [] n k in
  (ret, fds, n, k).

(** The buffers [i], [i + 1], ... of [todo]. *)
Fixpoint query_buffers (todo : nat) (i mtype : Z) (buffers : list V4L2Buffer) n k : Z * list V4L2Buffer * K :=
  match todo with
  | O => (0, buffers, k)
  | S todo =>
      let '(ret, b, k) := QueryBuffer i mtype new_V4L2Buffer n k in
      if ret <? 0 then (ret, buffers, k) else query_buffers todo (i + 1) mtype (buffers ++ [copy_buffer b]) n k
  end.

Definition SetupBuffers (num_buffers : Z) (is_cached : bool) (mtype : Z) (buffers : list V4L2Buffer) n k
    : Z * list V4L2Buffer * V4L2VideoNode * K :=
  if (num_buffers =? 0) || negb (bool_decide (buffers = [])) then (- EINVAL, buffers, n, k) else
  if negb (in_states [CONFIGURED] n) then (- EINVAL, buffers, n, k) else
  let '(ret, n, k) := RequestBuffers num_buffers mtype n k in
  if ret <=? 0 then (- EINVAL, buffers, n, k) else
  let '(ret, buffers, k) := query_buffers (Z.to_nat num_buffers) 0 mtype buffers n k in
  if ret <? 0 then (ret, buffers, set_state ERROR n, k)
  else (0, buffers, set_state PREPARED (set_memory_type mtype (set_cached is_cached n)), k).
End VideoNode.
End VideoNode.
