(* ===== verification/V4l2Protocol.v ===== *)
(** * The video node and the kernel's queue

    What the kernel documents of a streaming queue, and what follows for the
    video node: its state is that of the queue, whatever calls are made and
    however they fail; formats and planes are read back as they were stored. *)

From Stdlib Require Import String.
From S2P Require Import Prelude Errors V4l2Device V4l2Video.
From stdpp Require Import list.
#[local] Open Scope Z_scope.
Import Buffers Formats VideoNode.

(** ** What the kernel promises

    [streams] and [granted] are whether the queue of a descriptor streams and
    how many buffers it has.  Only the requests about them change them.
    VIDIOC_REQBUFS may grant any number of buffers, even none; VIDIOC_STREAMON
    fails with EINVAL on a queue without buffers. *)
Definition moves_queue {A} (r : request A) : bool :=
  match r with VIDIOC_REQBUFS | VIDIOC_STREAMON | VIDIOC_STREAMOFF => true | _ => false end.

Class KernelOk (K : Type) `{Kernel K} := {
  streams : Z -> K -> bool;
  granted : Z -> K -> Z;
  open_idle : forall name oflags k fd errno k', sys_open name oflags k = (fd, errno, k') -> 0 <= fd -> streams fd k' = false;
  open_errno : forall name oflags k fd errno k', sys_open name oflags k = (fd, errno, k') -> fd < 0 -> fd = -1 /\ 0 < errno;
  close_idle : forall fd k ret k', sys_close fd k = (ret, k') -> ret < 0 -> streams fd k' = streams fd k;
  ioctl_keeps : forall A (r : request A) fd arg k ret arg' k', ioctl fd r arg k = (ret, arg', k') -> moves_queue r = false ->
    streams fd k' = streams fd k /\ granted fd k' = granted fd k;
  mmap_keeps : forall len prot mflags fd off k res k', sys_mmap len prot mflags fd off k = (res, k') ->
    streams fd k' = streams fd k /\ granted fd k' = granted fd k;
  streamon_spec : forall fd t k ret t' k', ioctl fd VIDIOC_STREAMON t k = (ret, t', k') ->
    granted fd k' = granted fd k /\ (streams fd k' = if ret <? 0 then streams fd k else true)
    /\ (0 <= ret -> streams fd k = false -> 0 < granted fd k);
  streamoff_spec : forall fd t k ret t' k', ioctl fd VIDIOC_STREAMOFF t k = (ret, t', k') ->
    granted fd k' = granted fd k /\ streams fd k' = if ret <? 0 then streams fd k else false;
  reqbufs_spec : forall fd r k ret r' k', ioctl fd VIDIOC_REQBUFS r k = (ret, r', k') ->
    streams fd k' = streams fd k
    /\ granted fd k' = (if ret <? 0 then granted fd k else count r')
    /\ (0 <= ret -> 0 <= count r' < 2 ^ 31);
  querybuf_bound : forall fd b k ret b' k', ioctl fd VIDIOC_QUERYBUF b k = (ret, b', k') -> granted fd k <= buf_index b -> ret < 0;
}.

(** ** The node's state *)

Inductive node_op :=
| DoOpen (oflags : Z)
| DoClose
| DoSetFormat (f : V4L2Format)
| DoSetupBuffers (num : Z) (cached : bool) (mtype : Z)
| DoStart
| DoStop (release : bool)
| DoGrab (b : V4L2Buffer)
| DoPut (b : V4L2Buffer)
| DoExport (i : Z)
| DoMap (i prot mflags : Z).

Section Protocol.
Context {K : Type} `{KernelOk K}.
Implicit Types (n : V4L2VideoNode) (k : K).

(** One call: what it returns, and the states. *)
Definition perform (op : node_op) n k : option (Z * V4L2VideoNode * K) :=
  match op with
  | DoOpen oflags => Some (VideoNode.Open oflags n k)
  | DoClose => Some (VideoNode.Close n k)
  | DoSetFormat f => VideoNode.SetFormat f n k
  | DoSetupBuffers num cached mtype =>
      let '(ret, _, n, k) := VideoNode.SetupBuffers num cached mtype [] n k in Some (ret, n, k)
  | DoStart => Some (VideoNode.Start n k)
  | DoStop release => Some (VideoNode.Stop release n k)
  | DoGrab b => let '(ret, _, k) := GrabFrame b n k in Some (ret, n, k)
  | DoPut b => let '(ret, _, k) := PutFrame b n k in Some (ret, n, k)
  | DoExport i => let '(ret, _, n, k) := ExportFrame i n k in Some (ret, n, k)
  | DoMap i prot mflags => '(ret, _, n, k) ← MapMemory i prot mflags n k; Some (ret, n, k)
  end.

Definition streaming n k : bool := streams (fd_ (dev n)) k.
Definition buffers_of n k : Z := granted (fd_ (dev n)) k.

(** What the state of an open node says of its queue. *)
Definition state_says n k : Prop :=
  match state_ n with
  | CLOSED | OPEN | CONFIGURED | PREPARED => streaming n k = false
  | STARTED => streaming n k = true /\ 0 < buffers_of n k
  | ERROR => True
  end.

Definition agrees n k : Prop :=
  (IsOpened (dev n) = false -> state_ n = CLOSED \/ state_ n = ERROR) /\ (IsOpened (dev n) = true -> state_says n k).

(** Opening a node that is open is left out: see [open_again]. *)
Definition allowed (op : node_op) n : bool :=
  match op with
  | DoOpen _ => negb (IsOpened (dev n))
  | _ => true
  end.

Lemma agrees_keeps n k k' :
  streaming n k' = streaming n k -> buffers_of n k' = buffers_of n k -> agrees n k -> agrees n k'.
Proof. intros Hs Hb [Hc Ho]. split; [done|]. unfold state_says in *. by rewrite Hs, Hb. Qed.

Lemma agrees_error n k : agrees (set_state ERROR n) k.
Proof. split; [by right|done]. Qed.

Lemma node_ioctl_keeps {A} (r : request A) arg n k ret arg' k' :
  node_ioctl r arg n k = (ret, arg', k') -> moves_queue r = false ->
  streaming n k' = streaming n k /\ buffers_of n k' = buffers_of n k.
Proof. intros He Hm. exact (ioctl_keeps _ _ _ _ _ _ _ _ He Hm). Qed.

Lemma QueryBuffer_keeps i mtype b n k ret b' k' :
  QueryBuffer i mtype b n k = (ret, b', k') -> streaming n k' = streaming n k /\ buffers_of n k' = buffers_of n k.
Proof.
  unfold QueryBuffer. destruct (node_ioctl _ _ _ _) as [[r x] k1] eqn:He. intros. simplify_eq.
  by apply (node_ioctl_keeps _ _ _ _ _ _ _ He).
Qed.

Lemma query_buffers_keeps todo i mtype bs n k ret bs' k' :
  query_buffers todo i mtype bs n k = (ret, bs', k') -> streaming n k' = streaming n k /\ buffers_of n k' = buffers_of n k.
Proof.
  revert i bs k. induction todo as [|todo IH]; intros i bs k He; simpl in He; [by simplify_eq|].
  destruct (QueryBuffer _ _ _ _ _) as [[r b] k1] eqn:Hq. apply QueryBuffer_keeps in Hq as [Hs Hb].
  destruct (r <? 0); [by simplify_eq|]. destruct (IH _ _ _ He). split; congruence.
Qed.

Lemma export_keeps l i fds n k ret fds' k' :
  export_planes l i fds n k = (ret, fds', k') -> streaming n k' = streaming n k /\ buffers_of n k' = buffers_of n k.
Proof.
  revert fds k. induction l as [|p l IH]; intros fds k He; simpl in He; [by simplify_eq|].
  destruct (node_ioctl _ _ _ _) as [[r e] k1] eqn:Hq. apply node_ioctl_keeps in Hq as [Hs Hb]; [|done].
  destruct (r <? 0); [by simplify_eq|]. destruct (IH _ _ He). split; congruence.
Qed.

Lemma map_keeps l prot mflags b mapped n k ret mapped' k' :
  map_planes l prot mflags b mapped n k = Some (ret, mapped', k') ->
  streaming n k' = streaming n k /\ buffers_of n k' = buffers_of n k.
Proof.
  revert mapped k. induction l as [|p l IH]; intros mapped k He; simpl in He; [by simplify_eq|].
  destruct (Length p b); [|done]. destruct (Offset p b); [|done]. simpl in He.
  destruct (sys_mmap _ _ _ _ _ _) as [res k1] eqn:Hm. apply mmap_keeps in Hm as [Hs Hb].
  destruct res; [|by simplify_eq]. destruct (IH _ _ He). unfold streaming, buffers_of in *. split; congruence.
Qed.

Lemma RequestBuffers_spec num mtype n k ret n' k' :
  state_ n <> CLOSED -> RequestBuffers num mtype n k = (ret, n', k') ->
  dev n' = dev n /\ streaming n k' = streaming n k
  /\ (ret < 0 -> n' = n /\ buffers_of n k' = buffers_of n k)
  /\ (0 <= ret -> state_ n' = PREPARED /\ buffers_of n k' = ret).
Proof.
  intros Hc. unfold RequestBuffers, in_states. rewrite bool_decide_false by (by rewrite list_elem_of_singleton).
  destruct (node_ioctl _ _ _ _) as [[r x] k1] eqn:He. apply reqbufs_spec in He as (Hs & Hg & Hr).
  intros Heq. destruct (Z.ltb_spec r 0); simplify_eq; simpl.
  - split_and!; [done|done|done|lia].
  - specialize (Hr ltac:(lia)). rewrite signed_small by lia. split_and!; [done|done|lia|]. intros _. by split.
Qed.

(** ** Each call keeps the agreement *)

Lemma in_states_true l n : in_states l n = true -> state_ n ∈ l.
Proof. apply bool_decide_eq_true. Qed.

Lemma opened_says n k : agrees n k -> state_ n <> CLOSED -> state_ n <> ERROR -> IsOpened (dev n) = true /\ state_says n k.
Proof. intros [Hc Ho] H1 H2. destruct (IsOpened (dev n)); [auto|]. by destruct (Hc eq_refl). Qed.

Lemma opened_in l n k : agrees n k -> in_states l n = true ->
  bool_decide (CLOSED ∈ l) = false -> bool_decide (ERROR ∈ l) = false -> IsOpened (dev n) = true /\ state_says n k.
Proof.
  intros Ha Hin%in_states_true Hc%bool_decide_eq_false He%bool_decide_eq_false.
  by apply opened_says; [|intros Hs; rewrite Hs in Hin..].
Qed.

Lemma says_agrees n k : IsOpened (dev n) = true -> state_says n k -> agrees n k.
Proof. intros Ho Hs. split; [congruence|done]. Qed.

Lemma Open_agrees oflags n k ret n' k' :
  agrees n k -> IsOpened (dev n) = false -> VideoNode.Open oflags n k = (ret, n', k') -> agrees n' k'.
Proof.
  intros Ha Hno. unfold VideoNode.Open, V4l2Device.Open. rewrite Hno.
  assert (Hsame : forall k0, agrees (set_dev (dev n) n) k0) by (intros k0; split; [apply Ha|intros Ho; change (IsOpened (dev n) = true) in Ho; congruence]).
  destruct (stat_chardev _ _) as [[]|]; [|change (negb (- ENODEV =? 0)) with true; cbv iota; intros; simplify_eq; apply Hsame..].
  destruct (sys_open _ _ _) as [[fd errno] k1] eqn:Hopen. destruct (Z.ltb_spec fd 0).
  - destruct (open_errno _ _ _ _ _ _ Hopen) as [-> He]; [done|]. destruct (Z.eqb_spec (- errno) 0); [lia|]. simpl.
    intros. simplify_eq. split; [intros _; by apply Ha|done].
  - assert (Hidle : streams fd k1 = false) by (eapply open_idle; eauto). simpl.
    set (n1 := set_dev (set_fd fd (dev n)) n). unfold QueryCap.
    destruct (node_ioctl VIDIOC_QUERYCAP _ n1 k1) as [[r cap] k2] eqn:Hq. apply node_ioctl_keeps in Hq as [Hs _]; [|done].
    assert (Hidle2 : streams fd k2 = false) by (rewrite <- Hidle; exact Hs).
    assert (Hfail : forall m d k3 r3, state_ m = state_ n -> dev m = dev n1 ->
      V4l2Device.Close (dev m) k2 = (r3, d, k3) -> agrees (set_dev d m) k3).
    { intros m d k3 r3 Hst Hd. rewrite Hd. unfold V4l2Device.Close. unfold n1. simpl.
      assert (Hio : IsOpened (set_fd fd (dev n)) = true) by (unfold IsOpened; simpl; destruct (Z.eqb_spec fd (-1)); [lia|done]).
      rewrite Hio. simpl. destruct (sys_close fd k2) as [r4 k4] eqn:Hcl. destruct (Z.ltb_spec r4 0); intros; simplify_eq.
      - split; [simpl; congruence|]. intros _. unfold state_says, streaming. simpl.
        rewrite (close_idle _ _ _ _ Hcl) by done. rewrite Hst, Hidle2. destruct Ha as [Hc _]. by destruct (Hc Hno) as [-> | ->].
      - split; [simpl; intros _; rewrite Hst; by apply Ha|simpl; done]. }
    destruct (negb ((if r <? 0 then r else 0) =? 0)).
    { destruct (V4l2Device.Close _ k2) as [[? d] k3] eqn:Hcl. intros. simplify_eq. eapply Hfail; [| |exact Hcl]; done. }
    case_match; [|intros; simplify_eq].
    { destruct (V4l2Device.Close _ k2) as [[? d] k3] eqn:Hcl. intros. simplify_eq. eapply Hfail; [| |exact Hcl]; done. }
    apply says_agrees; [unfold IsOpened; simpl; destruct (Z.eqb_spec fd (-1)); [lia|done]|]. exact Hidle2.
Qed.

Lemma StopLocked_agrees release n k ret n' k' :
  agrees n k -> in_states [STARTED; PREPARED] n = true -> StopLocked release n k = (ret, n', k') ->
  dev n' = dev n /\ agrees n' k'.
Proof.
  intros Ha Hin. destruct (opened_in _ n k Ha Hin) as [Ho Hs]; [done..|]. apply in_states_true in Hin.
  assert (Hrel : forall n0 k0 r, dev n0 = dev n -> state_ n0 = PREPARED -> streaming n0 k0 = false ->
    (if negb release then (0, n0, k0) else
     if in_states [PREPARED] n0 then let '(_, n1, k1) := RequestBuffers 0 (memory_type_ n0) n0 k0 in (0, set_state CONFIGURED n1, k1)
     else (0, n0, k0)) = (r, n', k') -> dev n' = dev n /\ agrees n' k').
  { intros n0 k0 r Hd Hst Hstr. destruct release; simpl.
    - unfold in_states. rewrite Hst, bool_decide_true by by apply list_elem_of_singleton.
      destruct (RequestBuffers _ _ _ _) as [[? n1] k1] eqn:Hr.
      apply RequestBuffers_spec in Hr as (Hd1 & Hs1 & _); [|congruence]. intros. simplify_eq. simpl. split; [congruence|].
      apply says_agrees; simpl; [by rewrite Hd1, Hd|]. unfold state_says, streaming. simpl. rewrite Hd1. etransitivity; [exact Hs1|done].
    - intros. simplify_eq. split; [done|]. apply says_agrees; [by rewrite Hd|]. unfold state_says. by rewrite Hst. }
  unfold StopLocked. destruct (in_states [STARTED] n) eqn:Hst.
  - apply in_states_true, list_elem_of_singleton in Hst. unfold state_says in Hs. rewrite Hst in Hs. destruct Hs as [Hstr Hbuf].
    destruct (node_ioctl VIDIOC_STREAMOFF _ n k) as [[r x] k1] eqn:He. apply streamoff_spec in He as [Hg Hs1].
    destruct (Z.ltb_spec r 0) as [Hneg|Hpos].
    + destruct (Z.ltb_spec r 0); [|lia]. intros. simplify_eq. split; [done|]. by apply (agrees_keeps _ k).
    + by apply (Hrel (set_state PREPARED n) k1 ret).
  - assert (Hp : state_ n = PREPARED).
    { apply bool_decide_eq_false in Hst. rewrite elem_of_cons, !list_elem_of_singleton in Hin. rewrite list_elem_of_singleton in Hst. by destruct Hin. }
    unfold state_says in Hs. rewrite Hp in Hs. by apply (Hrel n k ret).
Qed.

Lemma Close_agrees n k ret n' k' : VideoNode.Close n k = (ret, n', k') -> agrees n' k'.
Proof.
  unfold VideoNode.Close. destruct (if in_states _ n then _ else _) as [n1 k1]. unfold V4l2Device.Close.
  destruct (negb (IsOpened (dev n1))) eqn:Ho; [intros; simplify_eq; apply agrees_error|].
  destruct (sys_close _ _) as [r k2]. destruct (Z.ltb_spec r 0); intros; simplify_eq.
  - destruct (Z.eqb_spec ret 0); [lia|]. apply agrees_error.
  - split; simpl; [by left|done].
Qed.

Lemma SetFormat_agrees f n k ret n' k' :
  agrees n k -> VideoNode.SetFormat f n k = Some (ret, n', k') -> agrees n' k'.
Proof.
  intros Ha. unfold VideoNode.SetFormat. destruct (in_states _ n) eqn:Hin; simpl; [|intros; by simplify_eq].
  destruct (opened_in _ n k Ha Hin) as [Ho Hs]; [done..|]. apply in_states_true in Hin.
  destruct (Formats.Get _) as [arg|]; [|done]. simpl.
  destruct (node_ioctl _ _ _ _) as [[r x] k1] eqn:He. apply node_ioctl_keeps in He as [Hs1 Hb1]; [|done].
  assert (Hstr : streaming n k = false).
  { unfold state_says in Hs. rewrite !elem_of_cons in Hin. destruct Hin as [Hin|[Hin|[Hin|[]%elem_of_nil]]]; rewrite Hin in Hs; done. }
  intros Heq. destruct (r <? 0); simplify_eq.
  - assert (Hk : agrees (set_buffer_type (type_ f) n) k) by exact Ha. by apply (agrees_keeps _ k).
  - apply says_agrees; [done|]. unfold state_says. simpl. etransitivity; [exact Hs1|exact Hstr].
Qed.

Lemma SetupBuffers_agrees num cached mtype n k ret bs n' k' :
  agrees n k -> VideoNode.SetupBuffers num cached mtype [] n k = (ret, bs, n', k') -> agrees n' k'.
Proof.
  intros Ha. unfold VideoNode.SetupBuffers. rewrite bool_decide_true by done. simpl. rewrite orb_false_r.
  destruct (Z.eqb_spec num 0); [intros; by simplify_eq|].
  destruct (in_states _ n) eqn:Hin; simpl; [|intros; by simplify_eq].
  apply in_states_true, list_elem_of_singleton in Hin. destruct (opened_says n k Ha) as [Ho Hs]; [congruence..|].
  unfold state_says in Hs. rewrite Hin in Hs.
  destruct (RequestBuffers _ _ _ _) as [[r n1] k1] eqn:Hr.
  apply RequestBuffers_spec in Hr as (Hd & Hs1 & Hneg & Hpos); [|congruence].
  destruct (Z.leb_spec r 0).
  - intros. simplify_eq. destruct (Z.ltb_spec r 0) as [Hr0|Hr0].
    + destruct (Hneg Hr0) as [-> Hb]. by apply (agrees_keeps _ k).
    + destruct (Hpos Hr0) as [Hp _]. apply says_agrees; [by rewrite Hd|]. unfold state_says, streaming in *.
      rewrite Hp, Hd. congruence.
  - destruct (Hpos ltac:(lia)) as (Hst & Hb).
    destruct (query_buffers _ _ _ _ _ _) as [[r2 bs2] k2] eqn:Hq. apply query_buffers_keeps in Hq as [Hs2 Hb2].
    destruct (r2 <? 0); intros; simplify_eq; [apply agrees_error|].
    apply says_agrees; simpl; [by rewrite Hd|]. unfold state_says. simpl.
    change (streaming n1 k' = false). rewrite Hs2. unfold streaming in *. rewrite Hd. congruence.
Qed.

Lemma Start_agrees n k ret n' k' : agrees n k -> VideoNode.Start n k = (ret, n', k') -> agrees n' k'.
Proof.
  intros Ha. unfold VideoNode.Start. destruct (in_states _ n) eqn:Hin; simpl; [|intros; by simplify_eq].
  apply in_states_true, list_elem_of_singleton in Hin. destruct (opened_says n k Ha) as [Ho Hs]; [congruence..|].
  destruct (node_ioctl _ _ _ _) as [[r x] k1] eqn:He. apply streamon_spec in He as (Hg & Hs1 & Hb).
  destruct (Z.ltb_spec r 0); intros; simplify_eq; [by apply (agrees_keeps _ k)|].
  apply says_agrees; [done|]. unfold state_says in *. rewrite Hin in Hs. simpl. split; [exact Hs1|].
  change (0 < granted (fd_ (dev n)) k'). rewrite Hg. apply Hb; [lia|exact Hs].
Qed.

Lemma perform_agrees op n k ret n' k' :
  agrees n k -> allowed op n = true -> perform op n k = Some (ret, n', k') -> agrees n' k'.
Proof.
  intros Ha Hok Hp. destruct op; simpl in Hok, Hp.
  - apply negb_true_iff in Hok. injection Hp. by apply Open_agrees.
  - injection Hp. apply Close_agrees.
  - by eapply SetFormat_agrees.
  - destruct (VideoNode.SetupBuffers _ _ _ _ _ _) as [[[r bs] n1] k1] eqn:He. simplify_eq.
    by eapply SetupBuffers_agrees.
  - injection Hp. by apply Start_agrees.
  - unfold VideoNode.Stop in Hp. destruct (in_states _ n) eqn:Hin; simpl in Hp; [|by simplify_eq].
    injection Hp as Hp. by apply (StopLocked_agrees _ _ _ _ _ _ Ha Hin Hp).
  - unfold GrabFrame, Dqbuf in Hp. destruct (negb _); [by simplify_eq|].
    destruct (node_ioctl _ _ _ _) as [[r x] k1] eqn:He. apply node_ioctl_keeps in He as [Hs Hb]; [|done].
    destruct (r <? 0); simplify_eq; by apply (agrees_keeps _ k).
  - unfold PutFrame, Qbuf in Hp. destruct (node_ioctl _ _ _ _) as [[r x] k1] eqn:He.
    apply node_ioctl_keeps in He as [Hs Hb]; [|done]. simplify_eq. by apply (agrees_keeps _ k).
  - unfold ExportFrame in Hp. destruct (negb _); [by simplify_eq|].
    destruct (QueryBuffer _ _ _ _ _) as [[r b] k1] eqn:He. apply QueryBuffer_keeps in He as [Hs Hb].
    destruct (r <? 0); [simplify_eq; apply agrees_error|].
    destruct (export_planes _ _ _ _ _) as [[r2 fds] k2] eqn:Hx. apply export_keeps in Hx as [Hs2 Hb2]. simplify_eq.
    apply (agrees_keeps _ k); [congruence..|done].
  - unfold MapMemory in Hp. destruct (negb _); [simpl in Hp; by simplify_eq|]. destruct (negb _); [simpl in Hp; by simplify_eq|].
    destruct (QueryBuffer _ _ _ _ _) as [[r b] k1] eqn:He. apply QueryBuffer_keeps in He as [Hs Hb].
    destruct (r <? 0); [simpl in Hp; simplify_eq; apply agrees_error|].
    destruct (map_planes _ _ _ _ _ _ _) as [[[r2 l] k2]|] eqn:Hx; [|done]. apply map_keeps in Hx as [Hs2 Hb2]. simpl in Hp. simplify_eq.
    apply (agrees_keeps _ k); [congruence..|done].
Qed.

(** ** Properties *)

(** A run of allowed calls. *)
Fixpoint performs (ops : list node_op) n k : option (V4L2VideoNode * K) :=
  match ops with
  | [] => Some (n, k)
  | op :: rest => if allowed op n then '(_, n, k) ← perform op n k; performs rest n k else None
  end.

(** C13: the state of a video node is that of its queue.  After any calls on
    the node other than opening it while it is open ([open_again] shows what
    that does), with whatever failures and however few buffers are granted, an
    open node is STARTED only while its queue streams and has buffers, so that a
    frame can come, and in the states before it the stream is off, so that no
    buffers are requested or released while the device writes.  ERROR says
    nothing. *)
Theorem node_follows_queue name ops n k k' :
  performs ops (new_V4L2VideoNode name) k = Some (n, k') -> IsOpened (dev n) = true -> state_says n k'.
Proof.
  assert (Hrun : forall n0 k0, agrees n0 k0 -> performs ops n0 k0 = Some (n, k') -> agrees n k').
  { induction ops as [|op ops IH]; intros n0 k0 Ha Hp; simpl in Hp; [by simplify_eq|].
    destruct (allowed op n0) eqn:Hok; [|done]. destruct (perform op n0 k0) as [[[r n1] k1]|] eqn:Hop; [|done].
    apply (IH n1 k1); [|done]. by eapply perform_agrees. }
  intros Hp. apply (Hrun (new_V4L2VideoNode name) k); [|done]. split; [by left|done].
Qed.

Lemma with_caps_some reported caps : caps <> 0 -> with_caps reported caps <> 0.
Proof.
  unfold with_caps. generalize known_caps. intros l. revert caps. induction l as [|c l IH]; intros caps Hc; simpl; [done|].
  apply IH. destruct (negb _); [rewrite Z.lor_eq_0_iff; tauto|done].
Qed.

(** Opening an open node once more forgets that it streams: the call
    succeeds, the queue still runs, and [Stop] refuses to stop it. *)
Theorem open_again oflags release n k :
  agrees n k -> state_ n = STARTED -> device_caps n <> 0 -> (QueryCap n k).1.1 = 0 ->
  exists n' k', VideoNode.Open oflags n k = (0, n', k') /\ state_ n' = OPEN /\ streaming n' k' = true
    /\ VideoNode.Stop release n' k' = (- EINVAL, n', k').
Proof.
  intros Ha Hst Hcaps Hq. destruct (opened_says n k Ha) as [Ho Hs]; [congruence..|].
  unfold VideoNode.Open, V4l2Device.Open. rewrite Ho. cbn [negb Z.eqb].
  assert (Hd : set_dev (dev n) n = n) by (clear; destruct n; reflexivity). rewrite Hd.
  unfold QueryCap in *. destruct (node_ioctl VIDIOC_QUERYCAP _ n k) as [[r cap] k1] eqn:He. simpl in Hq. rewrite Hq. cbn [negb Z.eqb].
  apply node_ioctl_keeps in He as [Hs1 _]; [|done].
  destruct (Z.eqb_spec (device_caps (set_caps (with_caps (capabilities cap) (device_caps n)) n)) 0) as [Hz|Hz].
  { by apply with_caps_some in Hz. }
  eexists _, _. split; [reflexivity|]. split; [done|]. split; [|done].
  unfold state_says in Hs. rewrite Hst in Hs. etransitivity; [exact Hs1|apply Hs].
Qed.

Lemma query_past_granted todo i mtype bs n k ret bs' k' :
  i <= buffers_of n k < i + Z.of_nat todo -> query_buffers todo i mtype bs n k = (ret, bs', k') ->
  ret < 0 /\ buffers_of n k' = buffers_of n k.
Proof.
  intros Hi Hq. split; [|by eapply query_buffers_keeps]. revert i bs k Hi Hq.
  induction todo as [|todo IH]; intros i bs k Hi Hq; simpl in Hq; [lia|].
  destruct (QueryBuffer i mtype new_V4L2Buffer n k) as [[r b] k1] eqn:He. destruct (Z.ltb_spec r 0); [by simplify_eq|].
  pose proof (QueryBuffer_keeps _ _ _ _ _ _ _ _ He) as [_ Hb]. refine (IH (i + 1) _ k1 _ Hq). rewrite Hb.
  destruct (decide (i = buffers_of n k)) as [Heq|]; [|lia]. exfalso. unfold QueryBuffer in He.
  destruct (node_ioctl _ _ _ _) as [[r1 x] k2] eqn:Hio.
  pose proof (querybuf_bound _ _ _ _ _ _ Hio) as Hbad. simpl in Hbad. unfold buffers_of in Heq.
  assert (r1 < 0) by (apply Hbad; lia). destruct (Z.ltb_spec r1 0); simplify_eq; lia.
Qed.

(** A driver may grant fewer buffers than asked for.  Setting up buffers
    then fails, the buffers stay with the device, and [Stop], which would
    release them, refuses to. *)
Theorem fewer_buffers_not_released num cached mtype release n k r r' k1 ret bs n' k' :
  agrees n k -> state_ n = CONFIGURED -> 0 < num < 2 ^ 32 ->
  node_ioctl VIDIOC_REQBUFS (RequestBuf (u32 num) (buffer_type_ n) mtype) n k = (r, r', k1) -> 0 <= r -> 0 < count r' < num ->
  VideoNode.SetupBuffers num cached mtype [] n k = (ret, bs, n', k') ->
  ret < 0 /\ buffers_of n' k' = count r' /\ VideoNode.Stop release n' k' = (- EINVAL, n', k').
Proof.
  intros Ha Hst Hn Hreq Hr Hc. unfold VideoNode.SetupBuffers. rewrite bool_decide_true by done. simpl. rewrite orb_false_r.
  destruct (Z.eqb_spec num 0); [lia|]. unfold in_states at 1. rewrite Hst, bool_decide_true by by apply list_elem_of_singleton. simpl.
  unfold RequestBuffers, in_states. rewrite Hst, bool_decide_false by by rewrite list_elem_of_singleton. rewrite Hreq.
  destruct (reqbufs_spec _ _ _ _ _ _ Hreq) as (_ & Hg & Hb). destruct (Z.ltb_spec r 0); [lia|]. specialize (Hb Hr).
  rewrite signed_small by lia. destruct (Z.leb_spec (count r') 0); [lia|].
  set (n1 := set_state PREPARED (set_memory_type mtype n)).
  destruct (query_buffers _ _ _ _ _ _) as [[ret2 bs2] k2] eqn:Hq.
  destruct (query_past_granted (Z.to_nat num) 0 mtype [] n1 k1 ret2 bs2 k2) as [Hneg Hkeep]; [|done|].
  { change (buffers_of n1 k1) with (granted (fd_ (dev n)) k1). rewrite Hg. destruct (Z.ltb_spec r 0); lia. }
  destruct (Z.ltb_spec ret2 0); [|lia]. intros. simplify_eq. split; [done|]. split; [|done].
  change (buffers_of n1 k' = count r'). rewrite Hkeep. change (granted (fd_ (dev n)) k1 = count r'). rewrite Hg.
  destruct (Z.ltb_spec r 0); [lia|done].
Qed.

(** A driver may grant none.  Setting up buffers then fails, but the node is
    PREPARED, and buffers cannot be set up again before it is stopped. *)
Theorem none_granted_is_prepared num cached mtype n k r r' k1 :
  agrees n k -> state_ n = CONFIGURED -> num <> 0 ->
  node_ioctl VIDIOC_REQBUFS (RequestBuf (u32 num) (buffer_type_ n) mtype) n k = (r, r', k1) -> 0 <= r -> count r' = 0 ->
  exists n', VideoNode.SetupBuffers num cached mtype [] n k = (- EINVAL, [], n', k1)
    /\ state_ n' = PREPARED /\ buffers_of n' k1 = 0
    /\ VideoNode.SetupBuffers num cached mtype [] n' k1 = (- EINVAL, [], n', k1).
Proof.
  intros Ha Hst Hn Hreq Hr Hc. exists (set_state PREPARED (set_memory_type mtype n)).
  unfold VideoNode.SetupBuffers. rewrite bool_decide_true by done. simpl. rewrite orb_false_r.
  destruct (Z.eqb_spec num 0); [lia|]. unfold in_states. rewrite Hst, bool_decide_true by by apply list_elem_of_singleton. simpl.
  unfold RequestBuffers, in_states. rewrite Hst, bool_decide_false by by rewrite list_elem_of_singleton. rewrite Hreq.
  destruct (reqbufs_spec _ _ _ _ _ _ Hreq) as (_ & Hg & _). destruct (Z.ltb_spec r 0); [lia|].
  rewrite Hc. split_and!; [done|done|by rewrite <- Hc, <- Hg|done].
Qed.
End Protocol.

(** ** Formats and planes *)

(** A format whose planes are those its type has. *)
Definition complete (f : V4L2Format) : bool :=
  if V4L2_TYPE_IS_META (type_ f) then bool_decide (plane_size_image_ f <> [])
  else if V4L2_TYPE_IS_MULTIPLANAR (type_ f)
  then bool_decide (List.length (plane_bytes_per_line_ f) = List.length (plane_size_image_ f))
       && (Z.of_nat (List.length (plane_size_image_ f)) <=? VIDEO_MAX_PLANES)
  else bool_decide (List.length (plane_bytes_per_line_ f) = 1%nat) && bool_decide (List.length (plane_size_image_ f) = 1%nat).

Lemma map_lookup_seq (l : list Z) : (fun i => l !!! i) <$> seq 0 (List.length l) = l.
Proof.
  apply list_eq. intros i. rewrite list_lookup_fmap. destruct (decide (i < List.length l)%nat).
  - rewrite lookup_seq_lt by done. simpl. by rewrite list_lookup_lookup_total_lt.
  - rewrite lookup_seq_ge by lia. simpl. rewrite lookup_ge_None_2 by lia. done.
Qed.

(** A format survives the kernel's structure: what [Get] stores is read
    back as the same format; of a metadata format, only the pixel format and
    the first image size are kept. *)
Theorem format_round_trip unset f :
  complete f = true ->
  exists fmt, Formats.Get f = Some fmt
    /\ if V4L2_TYPE_IS_META (type_ f)
       then type_ (of_v4l2_format unset fmt) = type_ f /\ pixel_fmt_ (of_v4l2_format unset fmt) = pixel_fmt_ f
            /\ SizeImage 0 (of_v4l2_format unset fmt) = SizeImage 0 f
       else of_v4l2_format unset fmt = f.
Proof.
  unfold complete, Formats.Get, SizeImage, BytesPerLine. destruct (V4L2_TYPE_IS_META (type_ f)).
  - intros Hs%bool_decide_eq_true. destruct (plane_size_image_ f) as [|x l] eqn:He; [done|]. simpl. eauto.
  - destruct (V4L2_TYPE_IS_MULTIPLANAR (type_ f)).
    + intros [Hl%bool_decide_eq_true Hm%Z.leb_le]%andb_true_iff. unfold VIDEO_MAX_PLANES in Hm. eexists. split; [done|].
      unfold of_v4l2_format, u8. simpl. rewrite Z.mod_small by lia. rewrite Nat2Z.id, map_lookup_seq, Hl, map_lookup_seq.
      by destruct f.
    + intros [Hb%bool_decide_eq_true Hs%bool_decide_eq_true]%andb_true_iff. destruct f as [t w h p fi c q lb ls]. simpl in *.
      destruct lb as [|b [|]]; try done. destruct ls as [|s [|]]; try done. simpl. eauto.
Qed.

Lemma low_store_low x w : u32 (store_low x w) = u32 x.
Proof.
  unfold store_low, u32. rewrite Z.add_mod_idemp_r by done.
  replace (w - w mod 2 ^ 32 + x) with (x + w / 2 ^ 32 * 2 ^ 32) by (rewrite (Z.div_mod w (2 ^ 32)) at 2; lia).
  apply Z.mod_add. done.
Qed.

Lemma signed_mod_32 x w : u32 w = u32 x -> signed 32 w = signed 32 x.
Proof. unfold u32, signed. by intros ->. Qed.

(** What is stored into a plane is read back from it, through the member
    it was stored as, and the other planes keep theirs. *)
Theorem plane_set_get x plane other (b : V4L2Buffer) :
  mp b = true -> (plane < List.length (planes_ b))%nat -> plane <> other ->
  (exists b', SetFd x plane b = Some b' /\ Fd plane b' = Some (signed 32 x) /\ Fd other b' = Fd other b
     /\ Length plane b' = Length plane b)
  /\ (exists b', SetOffset x plane b = Some b' /\ Offset plane b' = Some (u32 x) /\ Offset other b' = Offset other b)
  /\ (exists b', SetUserptr x plane b = Some b' /\ Userptr plane b' = Some (u64 x) /\ Userptr other b' = Userptr other b)
  /\ (exists b', SetBytesUsed x plane b = Some b' /\ BytesUsed plane b' = Some (u32 x) /\ BytesUsed other b' = BytesUsed other b)
  /\ (exists b', SetLength x plane b = Some b' /\ Length plane b' = Some (u32 x) /\ Length other b' = Length other b
     /\ Fd plane b' = Fd plane b).
Proof.
  intros Hm Hp Hne. destruct (lookup_lt_is_Some_2 _ _ Hp) as [p Hpl].
  assert (Hmp : forall l, mp (set_planes l b) = true) by (intros; exact Hm).
  unfold SetFd, SetOffset, SetUserptr, SetBytesUsed, SetLength, set_slot, Fd, Offset, Userptr, BytesUsed, Length, slot.
  rewrite Hm, Hpl. simpl. split_and!; eexists; (split; [reflexivity|]); rewrite !Hmp; simpl;
    rewrite list_lookup_insert_eq, list_lookup_insert_ne by done; simpl; rewrite ?low_store_low; split_and?; try done.
  by rewrite (signed_mod_32 x) by apply low_store_low.
Qed.

(** ** A kernel *)

(** A device with one descriptor and one queue, which grants at most 32
    buffers. *)
Record queue := Queue { q_opened : bool; q_streams : bool; q_granted : Z }.

Definition queue_ioctl {A} (fd : Z) (r : request A) : A -> queue -> Z * A * queue :=
  match r in request A return A -> queue -> Z * A * queue with
  | VIDIOC_QUERYCAP => fun _ k => (0, Capability V4L2_CAP_VIDEO_CAPTURE, k)
  | VIDIOC_REQBUFS => fun a k =>
      if q_streams k then (-1, a, k) else
      let c := Z.min (count a mod 2 ^ 32) 32 in (0, RequestBuf c (req_type a) (req_memory a), Queue (q_opened k) false c)
  | VIDIOC_STREAMON => fun a k => if 0 <? q_granted k then (0, a, Queue (q_opened k) true (q_granted k)) else (-1, a, k)
  | VIDIOC_STREAMOFF => fun a k => (0, a, Queue (q_opened k) false (q_granted k))
  | VIDIOC_QUERYBUF => fun a k => if buf_index a <? q_granted k then (0, a, k) else (-1, a, k)
  | VIDIOC_S_FMT => fun a k => if 0 <? q_granted k then (-1, a, k) else (0, a, k)
  | _ => fun a k => (0, a, k)
  end.

#[export] Instance queue_kernel : Kernel queue := {
  stat_chardev := fun _ _ => Some true;
  sys_open := fun _ _ k => if q_opened k then (-1, 16, k) else (3, 0, Queue true false 0);
  sys_close := fun _ _ => (0, Queue false false 0);
  ioctl := @queue_ioctl;
  sys_poll := fun l _ k => (1, l, k);
  sys_mmap := fun _ _ _ _ _ k => (Some 4096, k);
}.

#[export, refine] Instance queue_kernel_ok : KernelOk queue := {
  streams := fun _ k => q_streams k;
  granted := fun _ k => q_granted k;
}.
Proof.
  - intros name oflags k fd errno k'. simpl. destruct (q_opened k); intros; simplify_eq; [lia|done].
  - intros name oflags k fd errno k'. simpl. destruct (q_opened k); intros; simplify_eq; lia.
  - intros fd k ret k'. simpl. intros. simplify_eq. lia.
  - intros A r fd arg k ret arg' k'. destruct r; simpl; intros Heq Hm; try done; repeat case_match; by simplify_eq.
  - intros. simpl in *. by simplify_eq.
  - intros fd t k ret t' k'. simpl. destruct (Z.ltb_spec 0 (q_granted k)); intros; simplify_eq; split_and!; (done || lia).
  - intros fd t k ret t' k'. simpl. intros; by simplify_eq.
  - intros fd r k ret r' k'. simpl. destruct (q_streams k) eqn:Hs; intros; simplify_eq; simpl; [split_and!; [done|done|lia]|].
    split_and!; [done|done|]. pose proof (Z.mod_pos_bound (count r) (2 ^ 32) eq_refl). lia.
  - intros fd b k ret b' k'. simpl. destruct (Z.ltb_spec (buf_index b) (q_granted k)); intros; simplify_eq; lia.
Defined.

(** ** Witnesses *)

Definition example_format : V4L2Format :=
  Formats.SetType V4L2_BUF_TYPE_VIDEO_CAPTURE (SetWidth 1920 (SetHeight 1080 (SetBytesPerLine 3840 0 (SetSizeImage 4147200 0 new_V4L2Format)))).

Definition unopened : queue := Queue false false 0.

(** A stream that is started, stopped with its buffers kept, started again. *)
Definition example_calls : list node_op :=
  [DoOpen 2; DoSetFormat example_format; DoSetupBuffers 10 true V4L2_MEMORY_USERPTR; DoStart;
   DoGrab new_V4L2Buffer; DoStop false; DoStart].

Definition streaming_node : V4L2VideoNode :=
  Node (Device "/dev/video0" 3) STARTED example_format true V4L2_CAP_VIDEO_CAPTURE V4L2_BUF_TYPE_VIDEO_CAPTURE V4L2_MEMORY_USERPTR.

Lemma node_follows_queue_witness :
  performs example_calls (new_V4L2VideoNode "/dev/video0") unopened = Some (streaming_node, Queue true true 10)
  /\ state_says streaming_node (Queue true true 10).
Proof.
  assert (Hp : performs example_calls (new_V4L2VideoNode "/dev/video0") unopened = Some (streaming_node, Queue true true 10))
    by (vm_compute; reflexivity).
  split; [exact Hp|]. exact (node_follows_queue _ _ _ _ _ Hp eq_refl).
Defined.


Lemma open_again_witness :
  exists n' k', VideoNode.Open 2 streaming_node (Queue true true 10) = (0, n', k') /\ state_ n' = OPEN /\ streaming n' k' = true
    /\ VideoNode.Stop true n' k' = (- EINVAL, n', k').
Proof.
  apply (open_again 2 true streaming_node (Queue true true 10)); [|reflexivity|discriminate|reflexivity].
  split; [discriminate|]. intros _. split; reflexivity.
Defined.

Definition configured_node : V4L2VideoNode :=
  Node (Device "/dev/video0" 3) CONFIGURED example_format true V4L2_CAP_VIDEO_CAPTURE V4L2_BUF_TYPE_VIDEO_CAPTURE V4L2_MEMORY_USERPTR.

Lemma fewer_buffers_not_released_witness :
  exists ret bs n' k', VideoNode.SetupBuffers 40 true V4L2_MEMORY_MMAP [] configured_node (Queue true false 0) = (ret, bs, n', k')
    /\ ret < 0 /\ buffers_of n' k' = 32 /\ VideoNode.Stop true n' k' = (- EINVAL, n', k').
Proof.
  eexists _, _, _, _. split; [vm_compute; reflexivity|].
  eapply (fewer_buffers_not_released 40 true V4L2_MEMORY_MMAP true configured_node (Queue true false 0) 0
    (RequestBuf 32 V4L2_BUF_TYPE_VIDEO_CAPTURE V4L2_MEMORY_MMAP)); [|reflexivity|lia|vm_compute; reflexivity|lia|simpl; lia|vm_compute; reflexivity].
  split; [discriminate|]. intros _. reflexivity.
Defined.

Lemma format_round_trip_witness : exists fmt, Formats.Get example_format = Some fmt /\ of_v4l2_format 7 fmt = example_format.
Proof. exact (format_round_trip 7 example_format eq_refl). Defined.

Lemma plane_set_get_witness :
  exists b', SetFd 17 1 new_V4L2Buffer = Some b' /\ Fd 1 b' = Some 17 /\ Fd 0 b' = Some 0.
Proof.
  destruct (proj1 (plane_set_get 17 1 0 new_V4L2Buffer eq_refl ltac:(simpl; lia) ltac:(lia))) as (b' & Hs & Hf & Ho & _).
  exists b'. split; [exact Hs|]. split; [rewrite Hf; reflexivity|rewrite Ho; reflexivity].
Defined.
