(* ===== verification/SensorHwCtrl.v ===== *)
(** * Sensor controls

    src/core/SensorHwCtrl.cpp and .h: exposures, gains, frame duration and modes
    of an image sensor, set through the controls of its sub-devices.  C [int]s
    are [Z].  A step that fails ends the operation with its status. *)

From Stdlib Require Import String QArith.
From S2P Require Import Prelude Errors V4l2Device.
From stdpp Require Import list gmap.
#[local] Open Scope Z_scope.
Import Subdevice.

(** ** Controls and configuration *)

Definition V4L2_CID_USER_BASE : Z := 9963776.
Definition V4L2_CID_IMAGE_SOURCE_CLASS_BASE : Z := 10356992.
Definition V4L2_CID_IMAGE_PROC_CLASS_BASE : Z := 10422528.
Definition V4L2_CID_RED_BALANCE : Z := V4L2_CID_USER_BASE + 14.
Definition V4L2_CID_BLUE_BALANCE : Z := V4L2_CID_USER_BASE + 15.
Definition V4L2_CID_EXPOSURE : Z := V4L2_CID_USER_BASE + 17.
Definition V4L2_CID_GAIN : Z := V4L2_CID_USER_BASE + 19.
Definition V4L2_CID_VBLANK : Z := V4L2_CID_IMAGE_SOURCE_CLASS_BASE + 1.
Definition V4L2_CID_HBLANK : Z := V4L2_CID_IMAGE_SOURCE_CLASS_BASE + 2.
Definition V4L2_CID_ANALOGUE_GAIN : Z := V4L2_CID_IMAGE_SOURCE_CLASS_BASE + 3.
Definition V4L2_CID_WDR_MODE : Z := V4L2_CID_IMAGE_SOURCE_CLASS_BASE + 65.
Definition V4L2_CID_LINK_FREQ : Z := V4L2_CID_IMAGE_PROC_CLASS_BASE + 1.
Definition V4L2_CID_PIXEL_RATE : Z := V4L2_CID_IMAGE_PROC_CLASS_BASE + 2.
Definition V4L2_CID_TEST_PATTERN : Z := V4L2_CID_IMAGE_PROC_CLASS_BASE + 3.
Definition V4L2_CID_DIGITAL_GAIN : Z := V4L2_CID_IMAGE_PROC_CLASS_BASE + 5.
Definition V4L2_CID_CRLMODULE_BASE : Z := V4L2_CID_USER_BASE + 8272.
Definition V4L2_CID_FRAME_LENGTH_LINES : Z := V4L2_CID_CRLMODULE_BASE + 1.
Definition V4L2_CID_LINE_LENGTH_PIXELS : Z := V4L2_CID_CRLMODULE_BASE + 2.
Definition CRL_CID_EXPOSURE_SHS1 : Z := V4L2_CID_CRLMODULE_BASE + 8.
Definition CRL_CID_EXPOSURE_SHS2 : Z := V4L2_CID_CRLMODULE_BASE + 9.
Definition CRL_CID_EXPOSURE_SHS3 : Z := V4L2_CID_CRLMODULE_BASE + 10.
Definition CRL_CID_EXPOSURE_RHS1 : Z := V4L2_CID_CRLMODULE_BASE + 11.
Definition CRL_CID_EXPOSURE_RHS2 : Z := V4L2_CID_CRLMODULE_BASE + 12.
Definition CRL_CID_DIGITAL_GAIN_S : Z := V4L2_CID_CRLMODULE_BASE + 15.
Definition CRL_CID_DIGITAL_GAIN_VS : Z := V4L2_CID_CRLMODULE_BASE + 16.
Definition CRL_CID_ANALOG_GAIN_S : Z := V4L2_CID_CRLMODULE_BASE + 21.
Definition CRL_CID_ANALOG_GAIN_VS : Z := V4L2_CID_CRLMODULE_BASE + 22.

Inductive exposure_type :=
| SENSOR_EXPOSURE_SINGLE
| SENSOR_FIX_EXPOSURE_RATIO
| SENSOR_RELATIVE_MULTI_EXPOSURES
| SENSOR_MULTI_EXPOSURES
| SENSOR_DUAL_EXPOSURES_DCG_AND_VS.

Inductive gain_type :=
| SENSOR_GAIN_NONE
| SENSOR_MULTI_DG_AND_CONVERTION_AG
| ISP_DG_AND_SENSOR_DIRECT_AG
| SENSOR_MULTI_DG_AND_DIRECT_AG.

#[global] Instance exposure_type_eq_dec : EqDecision exposure_type.
Proof. solve_decision. Defined.
#[global] Instance gain_type_eq_dec : EqDecision gain_type.
Proof. solve_decision. Defined.

Record ExpRange := Range { min : Z; max : Z; step : Z; lowerBound : Z; upperBound : Z }.
Record MultiExpRange := MultiRange {
  Resolution : Z * Z; SHS1 : ExpRange; RHS1 : ExpRange; SHS2 : ExpRange; RHS2 : ExpRange; SHS3 : ExpRange;
}.

(** The members of the camera's static configuration that are used; the fixed
    blanking is that of its media controller configuration. *)
Class SensorConfig := {
  mSensorExposureType : exposure_type;
  mSensorGainType : gain_type;
  mUseSensorDigitalGain : bool;
  mMultiExpRanges : list MultiExpRange;
  fixedVbp : Z;
}.

Definition CLIP (x hi lo : Z) : Z := if hi <? x then hi else if x <? lo then lo else x.

(** ** State *)

Record SensorHwCtrl := SensorHw {
  mPixelArraySubdev : option V4L2Subdevice;
  mSensorOutputSubdev : option V4L2Subdevice;
  mHorzBlank : Z;
  mVertBlank : Z;
  mCropWidth : Z;
  mCropHeight : Z;
  mWdrMode : Z;
  mCurFll : Z;
  mCalculatingFrameDuration : bool;
}.

Definition SENSOR_OUTPUT_PAD : Z := 1.

Section SensorHwCtrl.
Context {K : Type} `{Kernel K} `{SensorConfig}.
Implicit Types (s : SensorHwCtrl) (k : K).

Definition set_horz x s := SensorHw (mPixelArraySubdev s) (mSensorOutputSubdev s) x (mVertBlank s) (mCropWidth s) (mCropHeight s) (mWdrMode s) (mCurFll s) (mCalculatingFrameDuration s).
Definition set_vert x s := SensorHw (mPixelArraySubdev s) (mSensorOutputSubdev s) (mHorzBlank s) x (mCropWidth s) (mCropHeight s) (mWdrMode s) (mCurFll s) (mCalculatingFrameDuration s).
Definition set_crop w h s := SensorHw (mPixelArraySubdev s) (mSensorOutputSubdev s) (mHorzBlank s) (mVertBlank s) w h (mWdrMode s) (mCurFll s) (mCalculatingFrameDuration s).
Definition set_wdr x s := SensorHw (mPixelArraySubdev s) (mSensorOutputSubdev s) (mHorzBlank s) (mVertBlank s) (mCropWidth s) (mCropHeight s) x (mCurFll s) (mCalculatingFrameDuration s).
Definition set_fll x s := SensorHw (mPixelArraySubdev s) (mSensorOutputSubdev s) (mHorzBlank s) (mVertBlank s) (mCropWidth s) (mCropHeight s) (mWdrMode s) x (mCalculatingFrameDuration s).

(** A control of a sub-device. *)
Definition set_control (sub : V4L2Subdevice) (cid value : Z) k : Z * K := SetControl cid value (dev sub) k.
Definition get_control (sub : V4L2Subdevice) (cid : Z) k : Z * option Z * K := GetControl cid (dev sub) k.

(** The next step, unless one failed. *)
Definition and_then (m : K -> Z * K) (next : K -> Z * K) k : Z * K :=
  let '(status, k) := m k in if status =? OK then next k else (status, k).

(** Whether the line length can be read decides how durations are handled. *)
Definition new_SensorHwCtrl (pixelArray output : option V4L2Subdevice) k : SensorHwCtrl * K :=
  let new := SensorHw pixelArray output 0 0 0 0 0 0 in
  match pixelArray with
  | None => (new true, k)
  | Some sub => let '(status, _, k) := get_control sub V4L2_CID_LINE_LENGTH_PIXELS k in (new (negb (status =? OK)), k)
  end.

Definition configure s k : option (Z * K) :=
  if 0 <=? fixedVbp
  then sub ← mPixelArraySubdev s; Some (let '(status, k) := set_control sub CRL_CID_EXPOSURE_RHS1 fixedVbp k in
                                        (if status =? OK then OK else status, k))
  else Some (OK, k).

(** ** Reading the sensor *)

(** The outputs keep the value the caller passes when they are not written. *)
Definition getActivePixelArraySize (width height code : Z) s k : Z * (Z * Z * Z) * SensorHwCtrl * K :=
  match mPixelArraySubdev s with
  | None => (NO_INIT, (width, height, code), s, k)
  | Some sub =>
      let '(status, out, k) := GetPadFormat 0 sub k in
      let '(w, h, c) := default (width, height, code) out in
      (status, (w, h, c), set_crop w h s, k)
  end.

Definition getPixelRate (pixelRate : Z) s k : Z * Z * K :=
  match mPixelArraySubdev s with
  | None => (NO_INIT, pixelRate, k)
  | Some sub => let '(ret, out, k) := get_control sub V4L2_CID_PIXEL_RATE k in (ret, default pixelRate out, k)
  end.

Definition setTestPatternMode (mode : Z) s k : Z * K :=
  match mPixelArraySubdev s with None => (NO_INIT, k) | Some sub => set_control sub V4L2_CID_TEST_PATTERN mode k end.

(** ** Exposures *)

Definition setMultiExposures (sub : V4L2Subdevice) (coarse : list Z) : K -> Z * K :=
  if (2 <? List.length coarse)%nat
  then and_then (set_control sub CRL_CID_EXPOSURE_SHS2 (coarse !!! 0%nat))
         (and_then (set_control sub CRL_CID_EXPOSURE_SHS1 (coarse !!! 1%nat)) (set_control sub V4L2_CID_EXPOSURE (coarse !!! 2%nat)))
  else and_then (set_control sub CRL_CID_EXPOSURE_SHS1 (coarse !!! 0%nat)) (set_control sub V4L2_CID_EXPOSURE (coarse !!! 1%nat)).

Definition setDualExposuresDCGAndVS (sub : V4L2Subdevice) (coarse : list Z) : K -> Z * K :=
  if (2 <? List.length coarse)%nat
  then and_then (set_control sub CRL_CID_EXPOSURE_SHS1 (coarse !!! 0%nat)) (set_control sub V4L2_CID_EXPOSURE (coarse !!! 2%nat))
  else set_control sub V4L2_CID_EXPOSURE (coarse !!! 1%nat).

Definition outside (r : ExpRange) (x : Z) : bool := (x <? min r) || (max r <? x).

(** The last part: the first shutter, from the readout [rhs1]. *)
Definition set_shs1 (sub : V4L2Subdevice) (r : MultiExpRange) (coarse : list Z) (rhs1 : Z) : K -> Z * K :=
  set_control sub CRL_CID_EXPOSURE_SHS1 (CLIP (rhs1 - coarse !!! 0%nat - 1) (max (SHS1 r)) (min (SHS1 r))).

(** From the second shutter on: it is clipped and set, then the first readout
    unless that is fixed, then the first shutter. *)
Definition set_from_shs2 (sub : V4L2Subdevice) (r : MultiExpRange) (coarse : list Z) (curFll shs2 : Z) : K -> Z * K :=
  let shs2 := CLIP shs2 (Z.max (max (SHS2 r)) curFll) (min (SHS2 r)) in
  let past := shs2 - upperBound (RHS1 r) in
  let rhs1 := past - Z.rem past (step (RHS1 r)) in
  and_then (set_control sub CRL_CID_EXPOSURE_SHS2 shs2)
    (if fixedVbp <? 0
     then let rhs1 := CLIP rhs1 (max (RHS1 r)) (min (RHS1 r)) in
          and_then (set_control sub CRL_CID_EXPOSURE_RHS1 rhs1) (set_shs1 sub r coarse rhs1)
     else if outside (RHS1 r) fixedVbp then (fun k => (NO_INIT, k))
     else if negb (Z.rem past (step (RHS1 r)) =? 0) then (fun k => (NO_INIT, k))
     else set_shs1 sub r coarse fixedVbp).

Definition set_in_range (sub : V4L2Subdevice) (r : MultiExpRange) (coarse : list Z) (curFll : Z) : K -> Z * K :=
  if (2 <? List.length coarse)%nat
  then
    let shs3 := max (SHS3 r) + upperBound (SHS3 r) - coarse !!! 2%nat - 1 in
    if outside (SHS3 r) shs3 then (fun k => (NO_INIT, k)) else
    and_then (set_control sub CRL_CID_EXPOSURE_SHS3 shs3)
      (let past := shs3 - upperBound (RHS2 r) in
       let rhs2 := past - Z.rem past (step (RHS2 r)) in
       if outside (RHS2 r) rhs2 then (fun k => (NO_INIT, k)) else
       and_then (set_control sub CRL_CID_EXPOSURE_RHS2 rhs2) (set_from_shs2 sub r coarse curFll (rhs2 - coarse !!! 1%nat - 1)))
  else set_from_shs2 sub r coarse curFll (curFll + upperBound (SHS2 r) - coarse !!! 1%nat - 1).

(** The ranges are those of the sensor's output resolution. *)
Definition setShutterAndReadoutTiming (sub : V4L2Subdevice) (coarse : list Z) s k : Z * K :=
  match mSensorOutputSubdev s with
  | None => (NO_INIT, k)
  | Some out =>
      let '(status, size, k) := GetPadFormat SENSOR_OUTPUT_PAD out k in
      if negb (status =? OK) then (status, k) else
      match List.find (fun r => bool_decide (Some (Resolution r) = fst <$> size)) mMultiExpRanges with
      | Some r => set_in_range sub r coarse (mCurFll s) k
      | None => (NO_INIT, k)
      end
  end.

Definition setExposure (coarse fine : list Z) s k : Z * K :=
  match mPixelArraySubdev s with
  | None => (NO_INIT, k)
  | Some sub =>
      if bool_decide (coarse = []) || bool_decide (fine = []) then (BAD_VALUE, k) else
      let several := (1 <? List.length coarse)%nat in
      match mSensorExposureType with
      | SENSOR_RELATIVE_MULTI_EXPOSURES =>
          if several then setShutterAndReadoutTiming sub coarse s k else set_control sub V4L2_CID_EXPOSURE (coarse !!! 0%nat) k
      | SENSOR_MULTI_EXPOSURES =>
          if several then setMultiExposures sub coarse k else set_control sub V4L2_CID_EXPOSURE (coarse !!! 0%nat) k
      | SENSOR_DUAL_EXPOSURES_DCG_AND_VS =>
          if several then setDualExposuresDCGAndVS sub coarse k else set_control sub V4L2_CID_EXPOSURE (coarse !!! 0%nat) k
      | _ => set_control sub V4L2_CID_EXPOSURE (coarse !!! 0%nat) k
      end
  end.

(** ** Gains *)

(** [None] reads past the end of the gains. *)
Definition setConversionGain (sub : V4L2Subdevice) (gains : list Z) k : option (Z * K) :=
  if (List.length gains <? 2)%nat then Some (BAD_VALUE, k) else
  a ← gains !! 0%nat; b ← gains !! 1%nat; c ← gains !! 2%nat;
  Some (and_then (set_control sub V4L2_CID_ANALOGUE_GAIN (Z.lor (Z.lor a b) c)) (fun k => (OK, k)) k).

(** Very short, short and long gains of three, short and long of two. *)
Definition set_multi_gain (vs short long : Z) (sub : V4L2Subdevice) (gains : list Z) : K -> Z * K :=
  if (2 <? List.length gains)%nat
  then and_then (set_control sub vs (gains !!! 0%nat))
         (and_then (set_control sub short (gains !!! 1%nat)) (set_control sub long (gains !!! 2%nat)))
  else and_then (set_control sub short (gains !!! 0%nat)) (set_control sub long (gains !!! 1%nat)).

Definition setMultiDigitalGain : V4L2Subdevice -> list Z -> K -> Z * K :=
  set_multi_gain CRL_CID_DIGITAL_GAIN_VS CRL_CID_DIGITAL_GAIN_S V4L2_CID_GAIN.
Definition setMultiAnalogGain : V4L2Subdevice -> list Z -> K -> Z * K :=
  set_multi_gain CRL_CID_ANALOG_GAIN_VS CRL_CID_ANALOG_GAIN_S V4L2_CID_ANALOGUE_GAIN.

Definition setAnalogGains (gains : list Z) s k : option (Z * K) :=
  match mPixelArraySubdev s with
  | None => Some (NO_INIT, k)
  | Some sub =>
      if bool_decide (gains = []) then Some (BAD_VALUE, k) else
      if (1 <? List.length gains)%nat && bool_decide (mSensorGainType = SENSOR_MULTI_DG_AND_CONVERTION_AG)
      then setConversionGain sub gains k
      else if (1 <? List.length gains)%nat && bool_decide (mSensorGainType = SENSOR_MULTI_DG_AND_DIRECT_AG)
      then Some (setMultiAnalogGain sub gains k)
      else Some (set_control sub V4L2_CID_ANALOGUE_GAIN (gains !!! 0%nat) k)
  end.

Definition setDigitalGains (gains : list Z) s k : Z * K :=
  match mPixelArraySubdev s with
  | None => (NO_INIT, k)
  | Some sub =>
      if bool_decide (gains = []) then (BAD_VALUE, k) else
      if (1 <? List.length gains)%nat
         && (bool_decide (mSensorGainType = SENSOR_MULTI_DG_AND_CONVERTION_AG) || bool_decide (mSensorGainType = SENSOR_MULTI_DG_AND_DIRECT_AG))
      then setMultiDigitalGain sub gains k
      else
        let '(_, k) :=
          if negb (mWdrMode s =? 0) && bool_decide (mSensorGainType = ISP_DG_AND_SENSOR_DIRECT_AG) then (OK, k)
          else if mUseSensorDigitalGain then set_control sub V4L2_CID_GAIN (gains !!! 0%nat) k else (OK, k) in
        set_control sub V4L2_CID_DIGITAL_GAIN (gains !!! 0%nat) k
  end.

(** ** Frame duration *)

Definition setLineLengthPixels (sub : V4L2Subdevice) (llp : Z) s k : Z * SensorHwCtrl * K :=
  let '(status, k) :=
    if mCalculatingFrameDuration s
    then let horzBlank := llp - mCropWidth s in
         if negb (mHorzBlank s =? horzBlank) then set_control sub V4L2_CID_HBLANK horzBlank k else (OK, k)
    else set_control sub V4L2_CID_LINE_LENGTH_PIXELS llp k in
  if negb (status =? OK) then (status, s, k) else (status, set_horz (llp - mCropWidth s) s, k).

Definition setFrameLengthLines (sub : V4L2Subdevice) (fll : Z) s k : Z * SensorHwCtrl * K :=
  let '(status, k) :=
    if mCalculatingFrameDuration s
    then let vertBlank := fll - mCropHeight s in
         if negb (mVertBlank s =? vertBlank) then set_control sub V4L2_CID_VBLANK vertBlank k else (OK, k)
    else set_control sub V4L2_CID_FRAME_LENGTH_LINES fll k in
  let s := set_fll fll s in
  if negb (status =? OK) then (status, s, k) else (status, set_vert (fll - mCropHeight s) s, k).

Definition setFrameDuration (llp fll : Z) s k : Z * SensorHwCtrl * K :=
  match mPixelArraySubdev s with
  | None => (NO_INIT, s, k)
  | Some sub =>
      let '(status, s, k) := if negb (llp =? 0) then setLineLengthPixels sub llp s k else (OK, s, k) in
      if negb (fll =? 0)
      then let '(status', s, k) := setFrameLengthLines sub fll s k in (Z.lor status status', s, k)
      else (status, s, k)
  end.

Definition getLineLengthPixels (sub : V4L2Subdevice) (llp : Z) s k : Z * Z * SensorHwCtrl * K :=
  let cid := if mCalculatingFrameDuration s then V4L2_CID_HBLANK else V4L2_CID_LINE_LENGTH_PIXELS in
  let '(status, out, k) := get_control sub cid k in
  match out with
  | Some v =>
      if status =? OK
      then if mCalculatingFrameDuration s then (status, v + mCropWidth s, set_horz v s, k)
           else (status, v, set_horz (v - mCropWidth s) s, k)
      else (status, llp, s, k)
  | None => (status, llp, s, k)
  end.

Definition getFrameLengthLines (sub : V4L2Subdevice) (fll : Z) s k : Z * Z * SensorHwCtrl * K :=
  let cid := if mCalculatingFrameDuration s then V4L2_CID_VBLANK else V4L2_CID_FRAME_LENGTH_LINES in
  let '(status, out, k) := get_control sub cid k in
  match out with
  | Some v =>
      if status =? OK
      then if mCalculatingFrameDuration s then (status, v + mCropHeight s, set_vert v s, k)
           else (status, v, set_vert (v - mCropHeight s) s, k)
      else (status, fll, s, k)
  | None => (status, fll, s, k)
  end.

Definition getFrameDuration (llp fll : Z) s k : Z * (Z * Z) * SensorHwCtrl * K :=
  match mPixelArraySubdev s with
  | None => (NO_INIT, (llp, fll), s, k)
  | Some sub =>
      let '(status, llp, s, k) := getLineLengthPixels sub llp s k in
      let '(status', fll, s, k) := getFrameLengthLines sub fll s k in
      (Z.lor status status', (llp, fll), s, k)
  end.

Definition getVBlank s : Z * Z := (OK, mVertBlank s).

(** Minimum, maximum and step. *)
Definition getExposureRange (outs : Z * Z * Z) s k : Z * (Z * Z * Z) * K :=
  match mPixelArraySubdev s with
  | None => (NO_INIT, outs, k)
  | Some sub =>
      let '(status, q, k) := QueryControl (Some (QueryCtrl V4L2_CID_EXPOSURE 0 0 0 0)) (dev sub) k in
      match q with
      | Some q => if status =? OK then (status, (q_minimum q, q_maximum q, q_step q), k) else (status, outs, k)
      | None => (status, outs, k)
      end
  end.

(** ** Modes *)

Definition setWdrMode (mode : Z) s k : Z * SensorHwCtrl * K :=
  match mSensorOutputSubdev s with
  | None => (NO_INIT, s, k)
  | Some out =>
      let s := set_wdr mode s in
      if bool_decide (mSensorExposureType <> SENSOR_RELATIVE_MULTI_EXPOSURES)
         && bool_decide (mSensorExposureType <> SENSOR_DUAL_EXPOSURES_DCG_AND_VS)
      then let '(ret, k) := set_control out V4L2_CID_WDR_MODE mode k in (ret, s, k)
      else (OK, s, k)
  end.

(** A [float] is the rational it stands for; the product by 256 is exact. *)
Definition times_256 (x : Q) : Z := Z.quot (Qnum x * 256) (Zpos (Qden x)).

Definition setAWB (r_per_g b_per_g : Q) s k : Z * K :=
  match mPixelArraySubdev s with
  | None => (NO_INIT, k)
  | Some sub =>
      let '(ret, k) := set_control sub V4L2_CID_RED_BALANCE (times_256 r_per_g) k in
      let '(ret', k) := set_control sub V4L2_CID_BLUE_BALANCE (times_256 b_per_g) k in
      (Z.lor ret ret', k)
  end.

Definition setFrameRate (fps : Q) s k : Z * K :=
  match mSensorOutputSubdev s with
  | None => (NO_INIT, k)
  | Some out =>
      let '(status, q, k) := QueryControl (Some (QueryCtrl V4L2_CID_LINK_FREQ 0 0 0 0)) (dev out) k in
      if negb (status =? OK) then (status, k) else
      let q := default (QueryCtrl V4L2_CID_LINK_FREQ 0 0 0 0) q in
      let mode := if q_maximum q =? q_minimum q then q_default_value q
                  else if 30 * Zpos (Qden fps) <? Qnum fps then q_maximum q else q_maximum q - 1 in
      set_control out V4L2_CID_LINK_FREQ mode k
  end.
End SensorHwCtrl.

(** ** Sensors

    What the manager of a sensor asks of it.  A sensor that cannot be controlled
    has no sub-devices and answers on its own, except for the white balance. *)

Inductive command :=
| SetFrameDuration (llp fll : Z)
| SetExposure (coarse fine : list Z)
| SetAnalogGains (gains : list Z)
| SetDigitalGains (gains : list Z)
| SetWdrMode (mode : Z)
| SetAWB (r_per_g b_per_g : Q)
| SetFrameRate (fps : Q).

(** The status, and the sensor after it; [None] is an access out of bounds. *)
Class SensorOps (H : Type) := send : command -> H -> option (Z * H).

Inductive SensorCtrl := RealSensor (s : SensorHwCtrl) | DummySensor.

Definition dummy : SensorHwCtrl := SensorHw None None 0 0 0 0 0 0 true.

#[export] Instance sensor_ops {K : Type} `{Kernel K} `{SensorConfig} : SensorOps (SensorCtrl * K) := fun c '(sensor, k) =>
  match sensor with
  | RealSensor s =>
      match c with
      | SetFrameDuration llp fll => let '(st, s, k) := setFrameDuration llp fll s k in Some (st, (RealSensor s, k))
      | SetExposure coarse fine => let '(st, k) := setExposure coarse fine s k in Some (st, (RealSensor s, k))
      | SetAnalogGains g => '(st, k) ← setAnalogGains g s k; Some (st, (RealSensor s, k))
      | SetDigitalGains g => let '(st, k) := setDigitalGains g s k in Some (st, (RealSensor s, k))
      | SetWdrMode m => let '(st, s, k) := setWdrMode m s k in Some (st, (RealSensor s, k))
      | SetAWB r b => let '(st, k) := setAWB r b s k in Some (st, (RealSensor s, k))
      | SetFrameRate f => let '(st, k) := setFrameRate f s k in Some (st, (RealSensor s, k))
      end
  | DummySensor =>
      match c with
      | SetAWB r b => let '(st, k) := setAWB r b dummy k in Some (st, (DummySensor, k))
      | _ => Some (OK, (DummySensor, k))
      end
  end.

(** [createSensorCtrl]: the device names the platform knows for the node types,
    and the sub-devices they lead to. *)
Definition createSensorCtrl {K : Type} `{Kernel K} (isIsysEnabled isUsingCrlModule : bool)
    (pixelArray scaler binner : option string) (getSubDev : string -> V4L2Subdevice) (k : K) : SensorCtrl * K :=
  if negb isIsysEnabled then (DummySensor, k) else
  match pixelArray with
  | Some name =>
      let output := if isUsingCrlModule
                    then match scaler with Some n => Some (getSubDev n) | None => getSubDev <$> binner end
                    else None in
      let '(s, k) := new_SensorHwCtrl (Some (getSubDev name)) output k in (RealSensor s, k)
  | None => (DummySensor, k)
  end.

(** ** What the kernel promises of controls

    [control] is the value of a control, [takes] whether the driver takes a
    value as it is. *)
Class Controls (K : Type) `{Kernel K} := {
  control : Z -> Z -> K -> Z;
  takes : Z -> Z -> Z -> Prop;
  set_ctrl_spec : forall fd c k ret c' k', ioctl fd VIDIOC_S_EXT_CTRLS c k = (ret, c', k') ->
    (forall i, i <> id c -> control fd i k' = control fd i k)
    /\ (ret = 0 -> takes fd (id c) (value64 c) -> control fd (id c) k' = value64 c);
  get_ctrl_spec : forall fd c k ret c' k', ioctl fd VIDIOC_G_EXT_CTRLS c k = (ret, c', k') ->
    (forall i, control fd i k' = control fd i k) /\ (ret = 0 -> value64 c' = control fd (id c) k);
  get_fmt_keeps : forall fd fd' a k ret a' k', ioctl fd' VIDIOC_SUBDEV_G_FMT a k = (ret, a', k') ->
    forall i, control fd i k' = control fd i k;
}.

Section Proofs.
Context {K : Type} `{Controls K} `{SensorConfig}.
Implicit Types (s : SensorHwCtrl) (k : K).

Definition reads (sub : V4L2Subdevice) (cid : Z) k : Z := control (fd_ (dev sub)) cid k.

(** The driver takes every value it is sent. *)
Definition takes_all (sub : V4L2Subdevice) : Prop := forall cid v, takes (fd_ (dev sub)) cid v.

Lemma and_then_ok m next k k' : and_then m next k = (OK, k') -> exists k1, m k = (OK, k1) /\ next k1 = (OK, k').
Proof. unfold and_then. destruct (m k) as [st k1]. destruct (Z.eqb_spec st OK) as [->|]; intros; simplify_eq; eauto. Qed.

Lemma set_control_ok sub cid v k k' : takes_all sub -> set_control sub cid v k = (OK, k') ->
  reads sub cid k' = u32 v /\ (forall i, i <> cid -> reads sub i k' = reads sub i k).
Proof.
  intros Ht. unfold set_control, SetControl, SetControl_ext, on_fd. destruct (negb _); [done|].
  destruct (ioctl _ _ _ _) as [[ret c] k1] eqn:He. intros. simplify_eq. apply set_ctrl_spec in He as [Hne Heq].
  split; [by apply Heq|done].
Qed.

Lemma get_control_ok sub cid k st out k' : get_control sub cid k = (st, out, k') ->
  (forall i, reads sub i k' = reads sub i k)
  /\ (st = OK -> out = Some (signed 32 (u32 (reads sub cid k)))) /\ (st <> OK -> out = None).
Proof.
  unfold get_control, GetControl, GetControl_ext, on_fd. destruct (negb _).
  { intros. simplify_eq. split_and!; [done|done|]. intros _. done. }
  destruct (ioctl _ _ _ _) as [[ret c] k1] eqn:He. intros. simplify_eq. apply get_ctrl_spec in He as [Hs Hv].
  split_and!; [exact Hs| |].
  - intros ->. simpl. rewrite Hv by done. done.
  - intros Hne. destruct (Z.eqb_spec st 0); done.
Qed.

Lemma GetPadFormat_keeps sub pad out k st size k' :
  GetPadFormat pad out k = (st, size, k') -> forall i, reads sub i k' = reads sub i k.
Proof.
  unfold GetPadFormat, GetFormat. destruct (negb _); [intros; by simplify_eq|].
  destruct (ioctl _ _ _ _) as [[ret f] k1] eqn:He. destruct (ret <? 0); intros; simplify_eq; by eapply get_fmt_keeps.
Qed.

Definition inside (r : ExpRange) (x : Z) : Prop := min r <= x <= max r.

Lemma CLIP_inside x hi lo : lo <= hi -> lo <= CLIP x hi lo <= hi.
Proof. unfold CLIP. destruct (Z.ltb_spec hi x), (Z.ltb_spec x lo); lia. Qed.

Lemma CLIP_id x hi lo : lo <= x <= hi -> CLIP x hi lo = x.
Proof. unfold CLIP. destruct (Z.ltb_spec hi x), (Z.ltb_spec x lo); lia. Qed.

Lemma outside_false r x : outside r x = false -> inside r x.
Proof. unfold outside, inside. rewrite orb_false_iff, !Z.ltb_ge. lia. Qed.

(** The last timings on the sensor, when the second shutter was asked for as
    [asked].  Its upper bound is the maximum of its range or, when that is
    longer, the frame. *)
Definition timed (sub : V4L2Subdevice) (r : MultiExpRange) (coarse : list Z) (curFll asked : Z) k : Prop :=
  let last := Z.max (max (SHS2 r)) curFll in
  exists shs1 rhs1 shs2,
    reads sub CRL_CID_EXPOSURE_SHS1 k = u32 shs1 /\ inside (SHS1 r) shs1
    /\ (inside (SHS1 r) (rhs1 - coarse !!! 0%nat - 1) -> rhs1 - shs1 - 1 = coarse !!! 0%nat)
    /\ inside (RHS1 r) rhs1 /\ (if fixedVbp <? 0 then reads sub CRL_CID_EXPOSURE_RHS1 k = u32 rhs1 else rhs1 = fixedVbp)
    /\ reads sub CRL_CID_EXPOSURE_SHS2 k = u32 shs2 /\ min (SHS2 r) <= shs2 <= last
    /\ (min (SHS2 r) <= asked <= last -> shs2 = asked).

(** What is on the sensor once all timings were set: of three exposures also
    the third shutter, for the long exposure asked for, and the second
    readout, in their ranges.  The second shutter is asked for from the second
    readout of three exposures, from the frame length of two. *)
Definition all_timed (sub : V4L2Subdevice) (r : MultiExpRange) (coarse : list Z) (curFll : Z) k : Prop :=
  if (2 <? List.length coarse)%nat
  then exists shs3 rhs2,
    reads sub CRL_CID_EXPOSURE_SHS3 k = u32 shs3 /\ inside (SHS3 r) shs3
    /\ max (SHS3 r) + upperBound (SHS3 r) - shs3 - 1 = coarse !!! 2%nat
    /\ reads sub CRL_CID_EXPOSURE_RHS2 k = u32 rhs2 /\ inside (RHS2 r) rhs2
    /\ timed sub r coarse curFll (rhs2 - coarse !!! 1%nat - 1) k
  else timed sub r coarse curFll (curFll + upperBound (SHS2 r) - coarse !!! 1%nat - 1) k.

(** The ranges of a resolution hold something. *)
Definition sound_ranges (curFll : Z) (r : MultiExpRange) : Prop :=
  min (SHS1 r) <= max (SHS1 r) /\ min (RHS1 r) <= max (RHS1 r) /\ min (SHS2 r) <= Z.max (max (SHS2 r)) curFll.

Lemma set_shs1_timed sub r coarse curFll asked rhs1 k k' :
  let shs2 := CLIP asked (Z.max (max (SHS2 r)) curFll) (min (SHS2 r)) in
  takes_all sub -> sound_ranges curFll r -> inside (RHS1 r) rhs1 ->
  (if fixedVbp <? 0 then reads sub CRL_CID_EXPOSURE_RHS1 k = u32 rhs1 else rhs1 = fixedVbp) ->
  reads sub CRL_CID_EXPOSURE_SHS2 k = u32 shs2 ->
  set_shs1 sub r coarse rhs1 k = (OK, k') ->
  timed sub r coarse curFll asked k' /\ forall i, i <> CRL_CID_EXPOSURE_SHS1 -> reads sub i k' = reads sub i k.
Proof.
  intros shs2 Ht (Hr1 & Hr2 & Hr3) Hin Hrhs Hs2 Hset. apply set_control_ok in Hset as [Hs1 Hne]; [|done].
  split; [|done]. exists (CLIP (rhs1 - coarse !!! 0%nat - 1) (max (SHS1 r)) (min (SHS1 r))), rhs1, shs2.
  split_and!; [done|by apply CLIP_inside| |done| |by rewrite Hne|..].
  - intros Hi. rewrite CLIP_id by done. lia.
  - destruct (fixedVbp <? 0); [by rewrite Hne|done].
  - by apply CLIP_inside.
  - by apply CLIP_inside.
  - intros Ha. by apply CLIP_id.
Qed.

Lemma set_from_shs2_timed sub r coarse curFll asked k k' :
  takes_all sub -> sound_ranges curFll r -> set_from_shs2 sub r coarse curFll asked k = (OK, k') ->
  timed sub r coarse curFll asked k'
  /\ forall i, i ∈ [CRL_CID_EXPOSURE_SHS3; CRL_CID_EXPOSURE_RHS2] -> reads sub i k' = reads sub i k.
Proof.
  intros Ht Hr. unfold set_from_shs2. intros (k1 & Hs2 & Hrest)%and_then_ok.
  apply set_control_ok in Hs2 as [Hs2 Hk1]; [|done].
  assert (Hother : forall i, i ∈ [CRL_CID_EXPOSURE_SHS3; CRL_CID_EXPOSURE_RHS2] ->
    i <> CRL_CID_EXPOSURE_SHS2 /\ i <> CRL_CID_EXPOSURE_RHS1 /\ i <> CRL_CID_EXPOSURE_SHS1).
  { intros i. rewrite !elem_of_cons. intros [->|[->|[]%elem_of_nil]]; done. }
  destruct (fixedVbp <? 0) eqn:Hf.
  - apply and_then_ok in Hrest as (k2 & Hr1' & Hrest). apply set_control_ok in Hr1' as [Hr1' Hne]; [|done].
    eapply set_shs1_timed in Hrest as [Htimed Hk]; [split; [exact Htimed|]|done..| | |].
    + intros i (Hi2 & Hir & Hi1)%Hother. by rewrite Hk, Hne, Hk1.
    + apply CLIP_inside. apply Hr.
    + by rewrite Hf.
    + by rewrite Hne.
  - destruct (outside (RHS1 r) fixedVbp) eqn:Ho; [done|]. destruct (negb _); [done|].
    eapply set_shs1_timed in Hrest as [Htimed Hk]; [split; [exact Htimed|]|done..| | |done].
    + intros i (Hi2 & Hir & Hi1)%Hother. by rewrite Hk, Hk1.
    + by apply outside_false.
    + by rewrite Hf.
Qed.

(** C21: when the shutter and readout timings of a sensor with overlapping
    exposures were set, they are those for its output resolution, which the
    sub-device was asked for: with the ranges of that resolution, the first
    shutter lies in its range and gives the first exposure the length asked for
    whenever that is possible; the first readout, set or fixed, lies in its
    range; the second shutter lies between the minimum of its range and the
    larger of its maximum and the frame length, and is the one asked for
    whenever that is; of three exposures, the third shutter and the second
    readout lie in their ranges and the long exposure has the length asked
    for.  The driver is one that takes the values it is sent. *)
Theorem shutter_timing_in_range sub coarse s k k' :
  takes_all sub -> Forall (sound_ranges (mCurFll s)) mMultiExpRanges ->
  setShutterAndReadoutTiming sub coarse s k = (OK, k') ->
  exists out w h code k1 r,
    mSensorOutputSubdev s = Some out /\ GetPadFormat SENSOR_OUTPUT_PAD out k = (OK, Some (w, h, code), k1)
    /\ r ∈ mMultiExpRanges /\ Resolution r = (w, h) /\ all_timed sub r coarse (mCurFll s) k'.
Proof.
  intros Ht Hr. unfold setShutterAndReadoutTiming. destruct (mSensorOutputSubdev s) as [out|]; [|done].
  destruct (GetPadFormat _ _ _) as [[st size] k1] eqn:Hg.
  destruct (Z.eqb_spec st OK) as [->|Hst]; cbn [negb]; [|intros; simplify_eq].
  destruct (List.find _ mMultiExpRanges) as [r|] eqn:Hf; [|done].
  apply List.find_some in Hf as [Hin Hres%bool_decide_eq_true].
  apply list_elem_of_In in Hin. rewrite Forall_forall in Hr. pose proof (Hr r Hin) as Hs. intros Hset.
  destruct size as [[[w h] code]|]; [|done]. injection Hres as Hres.
  exists out, w, h, code, k1, r. split_and!; [done..|].
  unfold set_in_range, all_timed in *. destruct (2 <? _)%nat; [|by apply set_from_shs2_timed in Hset as [? _]].
  destruct (outside (SHS3 r) _) eqn:Ho3; [done|]. apply and_then_ok in Hset as (k2 & H3 & Hset).
  destruct (outside (RHS2 r) _) eqn:Ho2; [done|]. apply and_then_ok in Hset as (k3 & H2 & Hset).
  apply set_control_ok in H3 as [H3 _]; [|done]. apply set_control_ok in H2 as [H2 Hne]; [|done].
  apply set_from_shs2_timed in Hset as [Htimed Hk]; [|done..]. eexists _, _.
  split_and!; [|by apply outside_false|lia| |by apply outside_false|exact Htimed].
  - rewrite Hk by (left; done). by rewrite Hne.
  - by rewrite Hk by (right; left).
Qed.

(** ** Frame duration *)

Definition int_range (x : Z) : Prop := - 2 ^ 31 <= x < 2 ^ 31.

Lemma stored_int x : int_range x -> signed 32 (u32 (u32 x)) = x.
Proof.
  intros Hx. unfold u32. rewrite Zmod_mod. rewrite <- (signed_small 32 x ltac:(lia) Hx) at 2. unfold signed. by rewrite Zmod_mod.
Qed.

(** The blanking last read or set is the sensor's. *)
Definition synced (sub : V4L2Subdevice) s k : Prop :=
  mCalculatingFrameDuration s = true ->
  reads sub V4L2_CID_HBLANK k = u32 (mHorzBlank s) /\ reads sub V4L2_CID_VBLANK k = u32 (mVertBlank s).

(** The lengths the controls stand for. *)
Definition has_line (sub : V4L2Subdevice) (llp : Z) s k : Prop :=
  if mCalculatingFrameDuration s
  then reads sub V4L2_CID_HBLANK k = u32 (llp - mCropWidth s) /\ int_range (llp - mCropWidth s)
  else reads sub V4L2_CID_LINE_LENGTH_PIXELS k = u32 llp /\ int_range llp.

Definition has_lines (sub : V4L2Subdevice) (fll : Z) s k : Prop :=
  if mCalculatingFrameDuration s
  then reads sub V4L2_CID_VBLANK k = u32 (fll - mCropHeight s) /\ int_range (fll - mCropHeight s)
  else reads sub V4L2_CID_FRAME_LENGTH_LINES k = u32 fll /\ int_range fll.

Lemma getLineLengthPixels_has sub llp a s k st v s' k' :
  has_line sub llp s k -> getLineLengthPixels sub a s k = (st, v, s', k') ->
  (forall i, reads sub i k' = reads sub i k)
  /\ (st = OK -> v = llp /\ s' = set_horz (llp - mCropWidth s) s).
Proof.
  unfold has_line, getLineLengthPixels. destruct (get_control _ _ k) as [[st1 o] k1] eqn:Hg.
  apply get_control_ok in Hg as (Hk & Ho & Hn). intros Hl.
  destruct (decide (st1 = OK)) as [->|Hne]; [|rewrite Hn by done; intros; simplify_eq; done]. rewrite Ho by done.
  destruct (mCalculatingFrameDuration s); destruct Hl as [Hl Hr]; rewrite Hl, stored_int by done; cbn; intros; simplify_eq; (split; [done|]);
    intros _; (split; [lia|done]).
Qed.

Lemma getFrameLengthLines_has sub fll a s k st v s' k' :
  has_lines sub fll s k -> getFrameLengthLines sub a s k = (st, v, s', k') ->
  (forall i, reads sub i k' = reads sub i k)
  /\ (st = OK -> v = fll /\ s' = set_vert (fll - mCropHeight s) s).
Proof.
  unfold has_lines, getFrameLengthLines. destruct (get_control _ _ k) as [[st1 o] k1] eqn:Hg.
  apply get_control_ok in Hg as (Hk & Ho & Hn). intros Hl.
  destruct (decide (st1 = OK)) as [->|Hne]; [|rewrite Hn by done; intros; simplify_eq; done]. rewrite Ho by done.
  destruct (mCalculatingFrameDuration s); destruct Hl as [Hl Hr]; rewrite Hl, stored_int by done; cbn; intros; simplify_eq; (split; [done|]);
    intros _; (split; [lia|done]).
Qed.

Lemma getFrameDuration_has sub llp fll a b s k out s' k' :
  mPixelArraySubdev s = Some sub -> has_line sub llp s k -> has_lines sub fll s k ->
  getFrameDuration a b s k = (OK, out, s', k') -> out = (llp, fll) /\ getVBlank s' = (OK, fll - mCropHeight s).
Proof.
  intros Hsub Hl Hf. unfold getFrameDuration. rewrite Hsub.
  destruct (getLineLengthPixels _ _ _ _) as [[[st v] s1] k1] eqn:Hg1.
  destruct (getLineLengthPixels_has _ _ _ _ _ _ _ _ _ Hl Hg1) as [Hk Hv].
  destruct (getFrameLengthLines _ _ _ _) as [[[st2 v2] s2] k2] eqn:Hg2. intros Heq.
  assert (Hst : Z.lor st st2 = OK) by congruence. apply Z.lor_eq_0_iff in Hst as [-> ->].
  destruct (Hv eq_refl) as [-> ->].
  assert (Hf' : has_lines sub fll (set_horz (llp - mCropWidth s) s) k1)
    by (unfold has_lines in *; simpl; destruct (mCalculatingFrameDuration s); rewrite Hk; exact Hf).
  destruct (getFrameLengthLines_has _ _ _ _ _ _ _ _ _ Hf' Hg2) as [_ Hv2].
  destruct (Hv2 eq_refl) as [-> ->]. simplify_eq. done.
Qed.

Lemma setLineLengthPixels_has sub llp s k s' k' :
  takes_all sub -> synced sub s k -> int_range (if mCalculatingFrameDuration s then llp - mCropWidth s else llp) ->
  setLineLengthPixels sub llp s k = (OK, s', k') ->
  s' = set_horz (llp - mCropWidth s) s /\ has_line sub llp s k'
  /\ reads sub V4L2_CID_VBLANK k' = reads sub V4L2_CID_VBLANK k.
Proof.
  intros Ht Hs Hr. unfold setLineLengthPixels, has_line.
  destruct (mCalculatingFrameDuration s) eqn:Hc.
  - destruct (Z.eqb_spec (mHorzBlank s) (llp - mCropWidth s)) as [He|]; simpl.
    + intros. simplify_eq. destruct (Hs Hc) as [Hh _]. rewrite <- He, Hh. split_and!; [done|done|by rewrite He|done].
    + destruct (set_control _ _ _ _) as [st k1] eqn:Hset. destruct (Z.eqb_spec st OK) as [->|]; simpl; intros; simplify_eq.
      apply set_control_ok in Hset as [Hv Hne]; [|done]. split_and!; [done|done|done|by apply Hne].
  - destruct (set_control _ _ _ _) as [st k1] eqn:Hset. destruct (Z.eqb_spec st OK) as [->|]; simpl; intros; simplify_eq.
    apply set_control_ok in Hset as [Hv Hne]; [|done]. split_and!; [done|done|done|by apply Hne].
Qed.

Lemma setFrameLengthLines_has sub fll s k s' k' :
  takes_all sub -> synced sub s k -> int_range (if mCalculatingFrameDuration s then fll - mCropHeight s else fll) ->
  setFrameLengthLines sub fll s k = (OK, s', k') ->
  s' = set_vert (fll - mCropHeight s) (set_fll fll s) /\ has_lines sub fll s k'
  /\ reads sub V4L2_CID_HBLANK k' = reads sub V4L2_CID_HBLANK k
  /\ reads sub V4L2_CID_LINE_LENGTH_PIXELS k' = reads sub V4L2_CID_LINE_LENGTH_PIXELS k.
Proof.
  intros Ht Hs Hr. unfold setFrameLengthLines, has_lines.
  destruct (mCalculatingFrameDuration s) eqn:Hc.
  - destruct (Z.eqb_spec (mVertBlank s) (fll - mCropHeight s)) as [He|]; simpl.
    + intros. simplify_eq. destruct (Hs Hc) as [_ Hh]. rewrite <- He, Hh. split_and!; [done|done|by rewrite He|done|done].
    + destruct (set_control _ _ _ _) as [st k1] eqn:Hset. destruct (Z.eqb_spec st OK) as [->|]; simpl; intros; simplify_eq.
      apply set_control_ok in Hset as [Hv Hne]; [|done]. split_and!; [done|done|done|by apply Hne|by apply Hne].
  - destruct (set_control _ _ _ _) as [st k1] eqn:Hset. destruct (Z.eqb_spec st OK) as [->|]; simpl; intros; simplify_eq.
    apply set_control_ok in Hset as [Hv Hne]; [|done]. split_and!; [done|done|done|by apply Hne|by apply Hne].
Qed.

(** The frame duration is read back as it was set, whether the sensor takes
    it as lengths or as blanking, and with the writes that are left out because
    the blanking has not changed; the vertical blanking reported is the one
    set. *)
Theorem frame_duration_round_trip sub llp fll a b s k s' k1 out s'' k2 :
  takes_all sub -> mPixelArraySubdev s = Some sub -> synced sub s k -> llp <> 0 -> fll <> 0 ->
  (if mCalculatingFrameDuration s then int_range (llp - mCropWidth s) /\ int_range (fll - mCropHeight s)
   else int_range llp /\ int_range fll) ->
  setFrameDuration llp fll s k = (OK, s', k1) -> getFrameDuration a b s' k1 = (OK, out, s'', k2) ->
  out = (llp, fll) /\ synced sub s' k1 /\ getVBlank s'' = (OK, fll - mCropHeight s).
Proof.
  intros Ht Hsub Hsy Hl Hf Hr. unfold setFrameDuration. rewrite Hsub.
  destruct (Z.eqb_spec llp 0); [done|]. destruct (Z.eqb_spec fll 0); [done|]. cbn [negb].
  destruct (setLineLengthPixels _ _ _ _) as [[st s1] k0] eqn:Hg1. destruct (setFrameLengthLines _ _ _ _) as [[st2 s2] k3] eqn:Hg2.
  intros Heq. assert (Hst : Z.lor st st2 = OK) by congruence. apply Z.lor_eq_0_iff in Hst as [-> ->].
  destruct (setLineLengthPixels_has sub llp s k s1 k0) as (-> & Hline & Hv); [done|done|by case_match; destruct Hr|done|].
  apply setFrameLengthLines_has in Hg2 as (-> & Hlines & Hh & Hllp); [|done| |simpl; by case_match; destruct Hr].
  - simplify_eq. intros Hget. unfold has_line, has_lines, synced in *. simpl in *.
    apply (getFrameDuration_has sub llp fll) in Hget as [-> Hb]; [|done|unfold has_line|unfold has_lines]; simpl in *.
    + split_and!; [done| |done]. intros Hc. rewrite Hc in *. rewrite Hh. split; [apply Hline|apply Hlines].
    + destruct (mCalculatingFrameDuration s); [rewrite Hh|rewrite Hllp]; exact Hline.
    + destruct (mCalculatingFrameDuration s); exact Hlines.
  - intros Hc. simpl in *. unfold has_line in Hline. rewrite Hc in Hline. rewrite Hv. split; [apply Hline|by apply Hsy].
Qed.

(** Two analogue gains on a sensor with conversion gains read past the end
    of the gains. *)
Theorem two_conversion_gains_overrun sub a b s k :
  mPixelArraySubdev s = Some sub -> mSensorGainType = SENSOR_MULTI_DG_AND_CONVERTION_AG -> setAnalogGains [a; b] s k = None.
Proof. intros Hs Hg. unfold setAnalogGains. rewrite Hs, Hg. reflexivity. Qed.
End Proofs.

(** ** Witnesses *)

(** A kernel with the controls of one sensor, whose output is 1920x1080. *)
Definition regs : Type := gmap Z Z.

Definition regs_ioctl {A} (fd : Z) (r : request A) : A -> regs -> Z * A * regs :=
  match r in request A return A -> regs -> Z * A * regs with
  | VIDIOC_S_EXT_CTRLS => fun c k => (0, c, <[id c := value64 c]> k)
  | VIDIOC_G_EXT_CTRLS => fun c k => (0, ExtControl (id c) (default 0 (k !! id c)), k)
  | VIDIOC_SUBDEV_G_FMT => fun f k => (0, SubdevFormat (which f) (pad f) (stream f) (FrameFormat 1920 1080 0), k)
  | _ => fun a k => (0, a, k)
  end.

#[local] Instance regs_kernel : Kernel regs := {
  stat_chardev := fun _ _ => Some true;
  sys_open := fun _ _ k => (3, 0, k);
  sys_close := fun _ k => (0, k);
  ioctl := @regs_ioctl;
  sys_poll := fun l _ k => (0, l, k);
  sys_mmap := fun _ _ _ _ _ k => (None, k);
}.

#[local, refine] Instance regs_controls : Controls regs := {
  control := fun _ cid k => default 0 (k !! cid);
  takes := fun _ _ _ => True;
}.
Proof.
  - intros fd c k ret c' k' He. injection He as <- <- <-. split; [intros i Hi; unfold regs; by rewrite lookup_insert_ne|].
    intros _ _. unfold regs. by rewrite lookup_insert_eq.
  - intros fd c k ret c' k' He. by injection He as <- <- <-.
  - intros fd fd' a k ret a' k' He. by injection He as <- <- <-.
Defined.

Definition example_ranges : MultiExpRange :=
  MultiRange (1920, 1080) (Range 4 60 1 0 0) (Range 8 64 4 0 2) (Range 70 2000 1 0 10) (Range 0 0 1 0 0) (Range 0 0 1 0 0).

#[local] Instance overlapping : SensorConfig := {|
  mSensorExposureType := SENSOR_RELATIVE_MULTI_EXPOSURES; mSensorGainType := SENSOR_MULTI_DG_AND_CONVERTION_AG;
  mUseSensorDigitalGain := false; mMultiExpRanges := [example_ranges]; fixedVbp := -1;
|}.

Definition example_subdev : V4L2Subdevice := Subdev (Device "/dev/v4l-subdev1" 3) OPEN.

Definition example_sensor : SensorHwCtrl := SensorHw (Some example_subdev) (Some example_subdev) 0 0 1920 1080 0 1125 true.

Lemma shutter_timing_in_range_witness :
  exists k', setShutterAndReadoutTiming example_subdev [20; 500] example_sensor (∅ : regs) = (OK, k')
    /\ all_timed example_subdev example_ranges [20; 500] 1125 k'.
Proof.
  eexists. eassert (Hs : _ = (OK, _)); [|destruct (shutter_timing_in_range example_subdev [20; 500] example_sensor (∅ : regs) _
    ltac:(intros ? ?; exact I) ltac:(repeat constructor; vm_compute; discriminate) Hs) as (out & w & h & code & k1 & r & _ & _ & Hr & _ & Ht);
    split; [exact Hs|apply list_elem_of_singleton in Hr as ->; exact Ht]].
  vm_compute. reflexivity.
Defined.

Lemma frame_duration_round_trip_witness :
  exists s' k1 out s'' k2, setFrameDuration 2200 1125 example_sensor (∅ : regs) = (OK, s', k1)
    /\ getFrameDuration 0 0 s' k1 = (OK, out, s'', k2) /\ out = (2200, 1125).
Proof.
  eexists _, _, _, _, _. split; [vm_compute; reflexivity|]. split; [vm_compute; reflexivity|].
  eapply (frame_duration_round_trip example_subdev 2200 1125 0 0 example_sensor (∅ : regs));
    [intros ? ?; exact I|reflexivity|intros _; split; reflexivity|discriminate|discriminate|vm_compute; intuition discriminate
    |vm_compute; reflexivity|vm_compute; reflexivity].
Defined.

Lemma two_conversion_gains_overrun_witness :
  setAnalogGains [1; 4] example_sensor (∅ : regs) = None.
Proof. exact (two_conversion_gains_overrun example_subdev 1 4 example_sensor ∅ eq_refl eq_refl). Defined.
