(* ===== verification/SensorManager.v ===== *)
(** * Exposure and gain synchronisation

    src/3a/SensorManager.cpp and .h: exposures and gains of coming frames are
    queued by frame and sent to the sensor at the start of theirs, the gains so
    much later or earlier that both take effect on the same frame; the frame
    predicted for the effect is returned.  The sensor is any implementation of
    [SensorOps].  C integers keep their width where they are converted. *)

From S2P Require Import Prelude Errors OrderedMap V4l2Device SensorHwCtrl.
From stdpp Require Import list gmap.
#[local] Open Scope Z_scope.

(** ** Data *)

Inductive TuningMode :=
| TUNING_MODE_VIDEO
| TUNING_MODE_VIDEO_ULL
| TUNING_MODE_VIDEO_HDR
| TUNING_MODE_VIDEO_HDR2
| TUNING_MODE_VIDEO_HLC
| TUNING_MODE_VIDEO_CUSTOM_AIC
| TUNING_MODE_VIDEO_LL
| TUNING_MODE_VIDEO_REAR_VIEW
| TUNING_MODE_VIDEO_HITCH_VIEW
| TUNING_MODE_STILL_CAPTURE
| TUNING_MODE_VIDEO_BINNING
| TUNING_MODE_MAX.

#[global] Instance TuningMode_eq_dec : EqDecision TuningMode.
Proof. solve_decision. Defined.

Inductive SensorDgType := SENSOR_DG_TYPE_NONE | SENSOR_DG_TYPE_X | SENSOR_DG_TYPE_2_X.

#[global] Instance SensorDgType_eq_dec : EqDecision SensorDgType.
Proof. solve_decision. Defined.

(** The members of the camera's static configuration that are used;
    [hasMediaCtlConfs] is whether [mMediaCtlConfs] has entries. *)
Class LagConfig := {
  mExposureLag : Z;
  mAnalogGainLag : Z;
  mDigitalGainLag : Z;
  mWaitFirstStats : bool;
  hasMediaCtlConfs : bool;
  mUseIspDigitalGain : bool;
  mSensorDgType : SensorDgType;
  mMaxSensorDigitalGain : Z;
  mInitialSkipFrame : Z;
  hdrSensor : exposure_type;
}.

Record SensorExposure := Exposure {
  realDigitalGain : Z;
  coarse_integration_time : Z;
  fine_integration_time : Z;
  analog_gain_code_global : Z;
  digital_gain_global : Z;
  line_length_pixels : Z;
  frame_length_lines : Z;
}.

Record ExposureData := ExposureOf {
  coarseExposures : list Z; fineExposures : list Z; lineLengthPixels : Z; frameLengthLines : Z;
}.

Record WdrModeSetting := WdrSetting { wdr_sequence : Z; tuningMode : TuningMode }.
Record SofEventInfo := SofInfo { sof_sequence : Z; sof_timestamp : Z }.

Record SensorManager := Manager {
  mModeSwitched : bool;
  mWdrModeSetting : WdrModeSetting;
  mLastSofSequence : Z;
  mAnalogGainDelay : Z;
  mDigitalGainDelay : Z;
  mAnalogGainMap : gmap Z (list Z);
  mDigitalGainMap : gmap Z (list Z);
  mExposureDataMap : gmap Z ExposureData;
  mSofEventInfo : list SofEventInfo;
}.

Definition kMaxSofEventInfo : nat := 10.

Section SensorManager.
Context `{LagConfig} {Hw : Type} `{SensorOps Hw}.
Implicit Types (s : SensorManager) (h : Hw).

Definition set_wdr b w s := Manager b w (mLastSofSequence s) (mAnalogGainDelay s) (mDigitalGainDelay s) (mAnalogGainMap s) (mDigitalGainMap s) (mExposureDataMap s) (mSofEventInfo s).
Definition set_last l s := Manager (mModeSwitched s) (mWdrModeSetting s) l (mAnalogGainDelay s) (mDigitalGainDelay s) (mAnalogGainMap s) (mDigitalGainMap s) (mExposureDataMap s) (mSofEventInfo s).
Definition set_analog m s := Manager (mModeSwitched s) (mWdrModeSetting s) (mLastSofSequence s) (mAnalogGainDelay s) (mDigitalGainDelay s) m (mDigitalGainMap s) (mExposureDataMap s) (mSofEventInfo s).
Definition set_digital m s := Manager (mModeSwitched s) (mWdrModeSetting s) (mLastSofSequence s) (mAnalogGainDelay s) (mDigitalGainDelay s) (mAnalogGainMap s) m (mExposureDataMap s) (mSofEventInfo s).
Definition set_exposures m s := Manager (mModeSwitched s) (mWdrModeSetting s) (mLastSofSequence s) (mAnalogGainDelay s) (mDigitalGainDelay s) (mAnalogGainMap s) (mDigitalGainMap s) m (mSofEventInfo s).
Definition set_sofs l s := Manager (mModeSwitched s) (mWdrModeSetting s) (mLastSofSequence s) (mAnalogGainDelay s) (mDigitalGainDelay s) (mAnalogGainMap s) (mDigitalGainMap s) (mExposureDataMap s) l.

(** ** Operations *)

Definition new_SensorManager : SensorManager :=
  let analog := if 0 <? mAnalogGainLag then mExposureLag - mAnalogGainLag else 0 in
  let digital := if 0 <=? mDigitalGainLag then mExposureLag - mDigitalGainLag else analog in
  Manager false (WdrSetting 0 TUNING_MODE_VIDEO) (-1) analog digital ∅ ∅ ∅ [].

Definition reset s : SensorManager :=
  Manager false (WdrSetting 0 TUNING_MODE_MAX) (-1) (mAnalogGainDelay s) (mDigitalGainDelay s) ∅ ∅ ∅ [].

(** Commands whose status is not looked at. *)
Fixpoint send_all (cs : list command) h : option Hw :=
  match cs with [] => Some h | c :: rest => '(_, h) ← send c h; send_all rest h end.

Definition exposure_commands (d : ExposureData) : list command :=
  [SetFrameDuration (lineLengthPixels d) (frameLengthLines d); SetExposure (coarseExposures d) (fineExposures d)].

Definition handleSensorExposure s h : option (SensorManager * Hw) :=
  let seq := mLastSofSequence s in
  '(s, h) ← match mExposureDataMap s !! seq with
            | Some d => h ← send_all (exposure_commands d) h; Some (set_exposures (delete seq (mExposureDataMap s)) s, h)
            | None => Some (s, h)
            end;
  '(s, h) ← match mAnalogGainMap s !! seq with
            | Some g => h ← send_all [SetAnalogGains g] h; Some (set_analog (delete seq (mAnalogGainMap s)) s, h)
            | None => Some (s, h)
            end;
  match mDigitalGainMap s !! seq with
  | Some g => h ← send_all [SetDigitalGains g] h; Some (set_digital (delete seq (mDigitalGainMap s)) s, h)
  | None => Some (s, h)
  end.

Definition isEnableHDR : bool := bool_decide (hdrSensor <> SENSOR_EXPOSURE_SINGLE).

Definition convertTuningModeToWdrMode (m : TuningMode) : Z :=
  if bool_decide (m = TUNING_MODE_VIDEO_HDR) || bool_decide (m = TUNING_MODE_VIDEO_HDR2) then 1 else 0.

Definition handleSensorModeSwitch (seq : Z) s h : option (SensorManager * Hw) :=
  if negb isEnableHDR || negb (mModeSwitched s) then Some (s, h) else
  if wdr_sequence (mWdrModeSetting s) <=? seq
  then '(st, h) ← send (SetWdrMode (convertTuningModeToWdrMode (tuningMode (mWdrModeSetting s)))) h;
       Some (if st =? OK then set_wdr false (mWdrModeSetting s) s else s, h)
  else Some (s, h).

Definition setWdrMode (m : TuningMode) (seq : Z) s h : option (Z * SensorManager * Hw) :=
  if negb isEnableHDR then Some (OK, s, h) else
  if bool_decide (tuningMode (mWdrModeSetting s) = TUNING_MODE_MAX)
  then '(ret, h) ← send (SetWdrMode (convertTuningModeToWdrMode m)) h;
       Some (ret, set_wdr (mModeSwitched s) (WdrSetting (wdr_sequence (mWdrModeSetting s)) m) s, h)
  else if bool_decide (tuningMode (mWdrModeSetting s) <> m)
  then Some (OK, set_wdr true (WdrSetting seq m) s, h)
  else Some (OK, s, h).

Definition add_sof (info : SofEventInfo) (l : list SofEventInfo) : list SofEventInfo :=
  (if (kMaxSofEventInfo <=? length l)%nat then tail l else l) ++ [info].

(** An event of another type is ignored.  The time is in microseconds. *)
Definition handleSofEvent (is_sof : bool) (seq : Z) (ts : Z * Z) s h : option (SensorManager * Hw) :=
  if negb is_sof then Some (s, h) else
  '(s, h) ← handleSensorExposure (set_last seq s) h;
  '(s, h) ← handleSensorModeSwitch seq s h;
  Some (set_sofs (add_sof (SofInfo seq (fst ts * 1000000 + snd ts)) (mSofEventInfo s)) s, h).

Definition getSofTimestamp (seq : Z) s : Z :=
  match List.find (fun i => sof_sequence i =? seq) (mSofEventInfo s) with Some i => u64 (sof_timestamp i) | None => 0 end.

Definition setAWB (r b : QArith_base.Q) h : option (Z * Hw) := send (SetAWB r b) h.
Definition setFrameRate (fps : QArith_base.Q) h : option (Z * Hw) := send (SetFrameRate fps) h.

Definition getCurrentExposureAppliedDelay s : Z := signed 32 (Z.of_nat (size (mExposureDataMap s)) + mExposureLag).

(** [PlatformData::getSensorDigitalGain]: the largest power of two that is not
    above the gain, which has 16 bits, so 17 rounds are enough. *)
Fixpoint dg_loop (fuel : nat) (idx sensorDg gain : Z) : Z :=
  match fuel with
  | O => sensorDg
  | S fuel => if 2 ^ idx <=? gain then dg_loop fuel (idx + 1) idx gain else sensorDg
  end.

Definition getSensorDigitalGain (gain : Z) : Z :=
  if bool_decide (mSensorDgType = SENSOR_DG_TYPE_2_X) then CLIP (dg_loop 17 0 0 gain) mMaxSensorDigitalGain 0 else 0.

Definition digital_gain (e : SensorExposure) : Z :=
  if mUseIspDigitalGain then getSensorDigitalGain (realDigitalGain e) else digital_gain_global e.

Definition exposure_data (exps : list SensorExposure) : ExposureData :=
  let '(ll, fl) := match exps with e :: _ => (line_length_pixels e, frame_length_lines e) | [] => (0, 0) end in
  ExposureOf (coarse_integration_time <$> exps) (fine_integration_time <$> exps) ll fl.

(** Sent at once when the frame is the current one, or queued. *)
Definition gains_at (key : Z) (cmd : list Z -> command) (gains : list Z) (queue : gmap Z (list Z)) (seq : Z) h
    : option (gmap Z (list Z) * Hw) :=
  if key =? seq then h ← send_all [cmd gains] h; Some (queue, h) else Some (<[key := gains]> queue, h).

(** The frame of the effect, of which 32 bits are returned. *)
Definition updateSensorExposure (exps : list SensorExposure) (applyingSeq : Z) s h : option (Z * SensorManager * Hw) :=
  let last := mLastSofSequence s in
  let effectSeq := if last <? 0 then (if mWaitFirstStats then 0 else mExposureLag) else last + mExposureLag in
  if bool_decide (exps = []) then Some (u32 effectSeq, s, h) else
  let d := exposure_data exps in
  let analogGains := analog_gain_code_global <$> exps in
  let digitalGains := digital_gain <$> exps in
  '(effectSeq, s, h) ←
    if 0 <? effectSeq then
      let now := (0 <? applyingSeq) && (applyingSeq =? last) in
      let sensorSeq := signed 32 (if now then applyingSeq else u64 (last + Z.of_nat (size (mExposureDataMap s)) + 1)) in
      '(s, h) ← if now then h ← send_all (exposure_commands d) h; Some (s, h)
                else Some (set_exposures (<[sensorSeq := d]> (mExposureDataMap s)) s, h);
      '(am, h) ← gains_at (sensorSeq + mAnalogGainDelay s) SetAnalogGains analogGains (mAnalogGainMap s) last h;
      '(dm, h) ← gains_at (sensorSeq + mDigitalGainDelay s) SetDigitalGains digitalGains (mDigitalGainMap s) last h;
      Some (effectSeq + Z.of_nat (size (mExposureDataMap s)), set_digital dm (set_analog am s), h)
    else if hasMediaCtlConfs then
      h ← send_all (exposure_commands d ++ [SetAnalogGains analogGains; SetDigitalGains digitalGains]) h;
      Some (effectSeq, s, h)
    else Some (effectSeq, s, h);
  Some (u32 (if effectSeq =? 0 then mInitialSkipFrame else effectSeq), s, h).
End SensorManager.

(** ** Digital gains *)

Lemma dg_loop_log2 fuel idx sensorDg gain :
  0 <= idx -> 2 ^ idx <= gain < 2 ^ (idx + Z.of_nat fuel) -> dg_loop fuel idx sensorDg gain = Z.log2 gain.
Proof.
  revert idx sensorDg. induction fuel as [|fuel IH]; intros idx sensorDg Hi Hg; [rewrite Z.add_0_r in Hg; lia|].
  cbn [dg_loop]. destruct (Z.leb_spec (2 ^ idx) gain); [|lia]. destruct (decide (2 ^ (idx + 1) <= gain)) as [Hn|Hn].
  - apply IH; [lia|]. split; [done|]. replace (idx + 1 + Z.of_nat fuel) with (idx + Z.of_nat (S fuel)) by lia. lia.
  - transitivity idx; [|symmetry; apply Z.log2_unique; lia]. destruct fuel as [|fuel]; [done|]. cbn [dg_loop].
    destruct (Z.leb_spec (2 ^ (idx + 1)) gain); [lia|done].
Qed.

(** ** What is sent, and when

    A sensor that notes each command with the frame during which it comes. *)
#[export] Instance recording : SensorOps (Z * list (Z * command)) := fun c '(frame, log) => Some (OK, (frame, log ++ [(frame, c)])).

(** Frames start one after the other; the other events come in between. *)
Inductive event :=
| Sof (ts : Z * Z)
| Update (exps : list SensorExposure) (applyingSeq : Z)
| Wdr (m : TuningMode) (seq : Z).

Section Prediction.
Context `{LagConfig}.
Implicit Types (s : SensorManager) (log : list (Z * command)).

(** Settings for the frame that is already running are left out. *)
Definition deferred (e : event) s : bool :=
  match e with Update _ a => negb ((0 <? a) && (a =? mLastSofSequence s)) | _ => true end.

Definition step_event (e : event) s (r : Z * list (Z * command)) : option (SensorManager * (Z * list (Z * command))) :=
  match e with
  | Sof ts => let seq := mLastSofSequence s + 1 in handleSofEvent true seq ts s (seq, r.2)
  | Update exps a => '(_, s, r) ← updateSensorExposure exps a s r; Some (s, r)
  | Wdr m seq => '(_, s, r) ← setWdrMode m seq s r; Some (s, r)
  end.

Fixpoint run_events (es : list event) s (r : Z * list (Z * command)) : option (SensorManager * (Z * list (Z * command))) :=
  match es with
  | [] => Some (s, r)
  | e :: es => if deferred e s then '(s, r) ← step_event e s r; run_events es s r else None
  end.

Lemma send_all_record cs frame log : send_all cs (frame, log) = Some (frame, log ++ ((frame,.) <$> cs)).
Proof.
  revert log. induction cs as [|c cs IH]; intros log; simpl; [by rewrite app_nil_r|]. rewrite IH, <- app_assoc. done.
Qed.

(** What is due at the start of a frame. *)
Definition due s : list command :=
  from_option exposure_commands [] (mExposureDataMap s !! mLastSofSequence s)
  ++ from_option (fun g => [SetAnalogGains g]) [] (mAnalogGainMap s !! mLastSofSequence s)
  ++ from_option (fun g => [SetDigitalGains g]) [] (mDigitalGainMap s !! mLastSofSequence s).

Definition retire s : SensorManager :=
  let seq := mLastSofSequence s in
  set_digital (delete seq (mDigitalGainMap s)) (set_analog (delete seq (mAnalogGainMap s)) (set_exposures (delete seq (mExposureDataMap s)) s)).

Lemma handleSensorExposure_record s frame log :
  handleSensorExposure s (frame, log) = Some (retire s, (frame, log ++ ((frame,.) <$> due s))).
Proof.
  destruct s as [b w l da dd am dm em sofs]. unfold handleSensorExposure, retire, due, set_digital, set_analog, set_exposures. simpl.
  rewrite !fmap_app, !app_assoc.
  destruct (em !! l) eqn:He; [|rewrite (delete_id em) by done]; simpl;
  (destruct (am !! l) eqn:Ha; [|rewrite (delete_id am) by done]; simpl;
  (destruct (dm !! l) eqn:Hd; [|rewrite (delete_id dm) by done]; simpl; rewrite ?app_nil_r, <- ?app_assoc; done)).
Qed.

(** ** The queues *)

Definition base_effect s : Z :=
  if mLastSofSequence s <? 0 then (if mWaitFirstStats then 0 else mExposureLag) else mLastSofSequence s + mExposureLag.

(** The frame the next settings are queued for. *)
Definition next_frame s : Z := mLastSofSequence s + Z.of_nat (size (mExposureDataMap s)) + 1.

Definition queued (exps : list SensorExposure) s : SensorManager :=
  let q := next_frame s in
  set_digital (<[q + mDigitalGainDelay s := digital_gain <$> exps]> (mDigitalGainMap s))
    (set_analog (<[q + mAnalogGainDelay s := analog_gain_code_global <$> exps]> (mAnalogGainMap s))
      (set_exposures (<[q := exposure_data exps]> (mExposureDataMap s)) s)).

(** Frame numbers fit an [int] up to [n]; the queued exposures are those of the
    coming frames, without gaps, and the gains are not further ahead. *)
Record in_frames (n : Z) s : Prop := {
  last_ge : -1 <= mLastSofSequence s;
  frames_fit : next_frame s <= n;
  exposures_at : forall q, is_Some (mExposureDataMap s !! q) <-> mLastSofSequence s < q < next_frame s;
  analog_at : forall q, is_Some (mAnalogGainMap s !! q) -> q < next_frame s + mAnalogGainDelay s;
  digital_at : forall q, is_Some (mDigitalGainMap s !! q) -> q < next_frame s + mDigitalGainDelay s;
  analog_late : 0 <= mAnalogGainDelay s;
  digital_late : 0 <= mDigitalGainDelay s;
}.

Lemma next_free n s : in_frames n s -> mExposureDataMap s !! next_frame s = None.
Proof. intros Hs. apply eq_None_not_Some. rewrite (exposures_at _ _ Hs). lia. Qed.

Lemma update_queues n exps a s frame log :
  in_frames n s -> n < 2 ^ 31 -> exps <> [] -> deferred (Update exps a) s = true -> 0 < base_effect s ->
  updateSensorExposure exps a s (frame, log)
  = Some (u32 (base_effect s + Z.of_nat (size (mExposureDataMap s)) + 1), queued exps s, (frame, log)).
Proof.
  intros Hs Hn Hne Hd Hb. pose proof (last_ge _ _ Hs) as Hl. pose proof (frames_fit _ _ Hs) as Hf. unfold next_frame in Hf.
  unfold updateSensorExposure. rewrite bool_decide_false by done. fold (base_effect s).
  destruct (Z.ltb_spec 0 (base_effect s)); [|lia]. simpl in Hd. apply negb_true_iff in Hd. rewrite Hd.
  assert (Hq : signed 32 (u64 (mLastSofSequence s + Z.of_nat (size (mExposureDataMap s)) + 1)) = next_frame s).
  { unfold u64. rewrite Z.mod_small by lia. rewrite signed_small by lia. done. }
  cbv zeta. rewrite Hq. cbn [mbind option_bind]. unfold gains_at.
  cbn [mAnalogGainDelay mDigitalGainDelay mAnalogGainMap mDigitalGainMap set_exposures].
  pose proof (analog_late _ _ Hs). pose proof (digital_late _ _ Hs).
  destruct (Z.eqb_spec (next_frame s + mAnalogGainDelay s) (mLastSofSequence s)); [unfold next_frame in *; lia|].
  cbn [mbind option_bind].
  destruct (Z.eqb_spec (next_frame s + mDigitalGainDelay s) (mLastSofSequence s)); [unfold next_frame in *; lia|].
  cbn [mbind option_bind mExposureDataMap set_digital set_analog set_exposures].
  rewrite (map_size_insert_None _ _ _ (next_free n s Hs)).
  destruct (Z.eqb_spec (base_effect s + Z.of_nat (S (size (mExposureDataMap s)))) 0); [lia|].
  unfold queued. do 4 f_equal. lia.
Qed.

Lemma update_idle exps a s frame log :
  exps = [] \/ base_effect s <= 0 -> exists eff cs, updateSensorExposure exps a s (frame, log) = Some (eff, s, (frame, log ++ cs)).
Proof.
  intros Hor. unfold updateSensorExposure. case_bool_decide as Hne; [eexists _, []; by rewrite app_nil_r|].
  destruct Hor as [|Hb]; [done|]. fold (base_effect s). destruct (Z.ltb_spec 0 (base_effect s)); [lia|].
  destruct hasMediaCtlConfs; [|eexists _, []; by rewrite app_nil_r].
  rewrite send_all_record. cbn [mbind option_bind]. eauto.
Qed.

Lemma next_queued n exps s : in_frames n s -> next_frame (queued exps s) = next_frame s + 1.
Proof. intros Hs. unfold next_frame at 1, queued. simpl. rewrite (map_size_insert_None _ _ _ (next_free n s Hs)). unfold next_frame. lia. Qed.

Lemma is_Some_insert {A} (m : gmap Z A) k x q : is_Some (<[k := x]> m !! q) <-> q = k \/ is_Some (m !! q).
Proof.
  rewrite lookup_insert_is_Some. split; [intros [->|[_ ?]]; auto|]. intros [->|?]; [by left|].
  destruct (decide (k = q)); [by left|by right].
Qed.

Lemma queued_in_frames n exps s : in_frames n s -> in_frames (n + 1) (queued exps s).
Proof.
  intros Hs. pose proof Hs as [Hl Hf He Ha Hd Hda Hdd]. pose proof (next_queued n exps s Hs) as Hn.
  split; rewrite ?Hn; simpl; try lia; intros q; rewrite is_Some_insert.
  - rewrite He. unfold next_frame. lia.
  - intros [->|Hq%Ha]; lia.
  - intros [->|Hq%Hd]; lia.
Qed.

(** *** A frame starts *)

Definition started s : SensorManager := retire (set_last (mLastSofSequence s + 1) s).

Lemma started_next n s : in_frames n s -> next_frame s <= next_frame (started s) <= next_frame s + 1.
Proof.
  intros [Hl Hf He _ _ _ _]. unfold next_frame in *. simpl.
  destruct (mExposureDataMap s !! (mLastSofSequence s + 1)) as [d|] eqn:Hd.
  - rewrite (map_size_delete_Some _ _ (mk_is_Some _ _ Hd)). assert (size (mExposureDataMap s) <> 0%nat); [|lia].
    intros Hz. apply map_size_empty_iff in Hz. rewrite Hz in Hd. by rewrite lookup_empty in Hd.
  - rewrite delete_id by done. lia.
Qed.

Lemma started_in_frames n s : in_frames n s -> in_frames (n + 1) (started s).
Proof.
  intros Hs. pose proof Hs as [Hl Hf He Ha Hd Hda Hdd]. pose proof (started_next n s Hs) as Hn.
  split; try (simpl; lia).
  - intros q. unfold next_frame in *. simpl in *. rewrite lookup_delete_is_Some, He.
    destruct (mExposureDataMap s !! (mLastSofSequence s + 1)) as [d|] eqn:Hd0.
    + rewrite (map_size_delete_Some _ _ (mk_is_Some _ _ Hd0)). assert (size (mExposureDataMap s) <> 0%nat); [|lia].
      intros Hz. apply map_size_empty_iff in Hz. rewrite Hz in Hd0. by rewrite lookup_empty in Hd0.
    + rewrite delete_id by done. assert (size (mExposureDataMap s) = 0%nat) as ->; [|lia].
      apply eq_None_not_Some in Hd0. rewrite He in Hd0. lia.
  - intros q. simpl. rewrite lookup_delete_is_Some. intros [_ Hq%Ha]. lia.
  - intros q. simpl. rewrite lookup_delete_is_Some. intros [_ Hq%Hd]. lia.
Qed.

(** The parts of the state that the queues are. *)
Definition same_queues s s' : Prop :=
  mLastSofSequence s' = mLastSofSequence s /\ mAnalogGainDelay s' = mAnalogGainDelay s /\ mDigitalGainDelay s' = mDigitalGainDelay s
  /\ mAnalogGainMap s' = mAnalogGainMap s /\ mDigitalGainMap s' = mDigitalGainMap s /\ mExposureDataMap s' = mExposureDataMap s.

Lemma same_in_frames n s s' : same_queues s s' -> in_frames n s -> in_frames n s'.
Proof.
  intros (Hl & Ha & Hd & Hma & Hmd & Hme) [? ? ? ? ? ? ?].
  split; unfold next_frame in *; rewrite ?Hl, ?Ha, ?Hd, ?Hma, ?Hmd, ?Hme; done.
Qed.

Lemma switch_record seq s frame log :
  exists s' cs, handleSensorModeSwitch seq s (frame, log) = Some (s', (frame, log ++ cs)) /\ same_queues s s'
    /\ mSofEventInfo s' = mSofEventInfo s.
Proof.
  unfold handleSensorModeSwitch. destruct (_ || _); [exists s, []; rewrite app_nil_r; split; [done|by repeat split]|].
  destruct (_ <=? seq); [|exists s, []; rewrite app_nil_r; split; [done|by repeat split]]. simpl. eexists _, _. split; [done|by repeat split].
Qed.

Lemma setWdr_record m seq s frame log :
  exists ret s' cs, setWdrMode m seq s (frame, log) = Some (ret, s', (frame, log ++ cs)) /\ same_queues s s'
    /\ mSofEventInfo s' = mSofEventInfo s.
Proof.
  unfold setWdrMode. repeat case_match; simpl in *; simplify_eq; try (eexists _, _, []; rewrite app_nil_r; split; [done|by repeat split]).
  eexists _, _, _. split; [done|by repeat split].
Qed.

Lemma sof_record ts s r :
  exists s' cs, step_event (Sof ts) s r = Some (s', (mLastSofSequence s + 1,
      r.2 ++ ((mLastSofSequence s + 1,.) <$> due (set_last (mLastSofSequence s + 1) s)) ++ cs))
    /\ same_queues (started s) s' /\ mSofEventInfo s' = add_sof (SofInfo (mLastSofSequence s + 1) (ts.1 * 1000000 + ts.2)) (mSofEventInfo s).
Proof.
  unfold step_event, handleSofEvent. simpl. rewrite handleSensorExposure_record. cbn [mbind option_bind].
  fold (started s). destruct (switch_record (mLastSofSequence s + 1) (started s) (mLastSofSequence s + 1)
    (r.2 ++ ((mLastSofSequence s + 1,.) <$> due (set_last (mLastSofSequence s + 1) s)))) as (s' & cs & -> & Hsame & Hinfo).
  cbn [mbind option_bind]. rewrite <- app_assoc. eexists _, cs. split; [reflexivity|]. split; [exact Hsame|]. simpl. by rewrite Hinfo.
Qed.

(** ** Following one update *)

(** Queued for frame [q], or sent during it. *)
Definition tracked {A} (m : gmap Z A) (cmds : A -> list command) (q : Z) (x : A) (last : Z) log : Prop :=
  (last < q /\ m !! q = Some x) \/ (q <= last /\ forall c, c ∈ cmds x -> (q, c) ∈ log).

Lemma tracked_log {A} (m : gmap Z A) cmds q x last log more : tracked m cmds q x last log -> tracked m cmds q x last (log ++ more).
Proof. intros [?|[? Hc]]; [by left|right]. split; [done|]. intros c Hin. apply elem_of_app. left. auto. Qed.

Lemma tracked_insert {A} (m : gmap Z A) cmds q x last log k y : q <> k \/ q <= last ->
  tracked m cmds q x last log -> tracked (<[k := y]> m) cmds q x last log.
Proof. intros Hk [[Hq Hm]|[Hq Hc]]; [left|by right]. split; [done|]. rewrite lookup_insert_ne; [done|]. destruct Hk; [done|lia]. Qed.

Lemma tracked_start {A} (m : gmap Z A) cmds q x last log new :
  (forall y c, m !! (last + 1) = Some y -> c ∈ cmds y -> (last + 1, c) ∈ new) ->
  tracked m cmds q x last log -> tracked (delete (last + 1) m) cmds q x (last + 1) (log ++ new).
Proof.
  intros Hnew [[Hq Hm]|[Hq Hc]].
  - destruct (decide (q = last + 1)) as [->|Hne].
    + right. split; [lia|]. intros c Hin. apply elem_of_app. right. eauto.
    + left. split; [lia|]. rewrite lookup_delete_ne; [done|congruence].
  - right. split; [lia|]. intros c Hin. apply elem_of_app. left. auto.
Qed.

Definition analog_cmd (g : list Z) : list command := [SetAnalogGains g].
Definition digital_cmd (g : list Z) : list command := [SetDigitalGains g].

(** The settings of one update, all three on their way. *)
Record follows (exps : list SensorExposure) (q : Z) s log : Prop := {
  follow_exposure : tracked (mExposureDataMap s) exposure_commands q (exposure_data exps) (mLastSofSequence s) log;
  follow_analog : tracked (mAnalogGainMap s) analog_cmd (q + mAnalogGainDelay s) (analog_gain_code_global <$> exps) (mLastSofSequence s) log;
  follow_digital : tracked (mDigitalGainMap s) digital_cmd (q + mDigitalGainDelay s) (digital_gain <$> exps) (mLastSofSequence s) log;
}.

Lemma same_follows exps q s s' log : same_queues s s' -> follows exps q s log -> follows exps q s' log.
Proof.
  intros (Hl & Ha & Hd & Hma & Hmd & Hme) [? ? ?]. split; rewrite ?Hl, ?Ha, ?Hd, ?Hma, ?Hmd, ?Hme; done.
Qed.

Lemma log_follows exps q s log more : follows exps q s log -> follows exps q s (log ++ more).
Proof. intros [? ? ?]. split; by apply tracked_log. Qed.

Lemma queued_follows n exps exps' q s log : in_frames n s -> follows exps q s log -> follows exps q (queued exps' s) log.
Proof.
  intros [Hl Hf He Ha Hd Hda Hdd] [Hx Hg Hg']. split; simpl; apply tracked_insert; try done.
  - destruct Hx as [[_ Hm]|[? _]]; [left|by right]. apply mk_is_Some in Hm. rewrite He in Hm. lia.
  - destruct Hg as [[_ Hm]|[? _]]; [left|by right]. apply mk_is_Some, Ha in Hm. lia.
  - destruct Hg' as [[_ Hm]|[? _]]; [left|by right]. apply mk_is_Some, Hd in Hm. lia.
Qed.

Lemma queued_followed n exps s log : in_frames n s -> follows exps (next_frame s) (queued exps s) log.
Proof.
  intros [Hl Hf He Ha Hd Hda Hdd]. split; simpl; left; (split; [unfold next_frame; lia|]); by rewrite lookup_insert_eq.
Qed.

Lemma in_tagged (frame : Z) (c : command) (cs : list command) : c ∈ cs -> (frame, c) ∈ (frame,.) <$> cs.
Proof. intros Hc. apply list_elem_of_fmap. eauto. Qed.

Lemma started_follows exps q s log :
  follows exps q s log -> follows exps q (started s) (log ++ ((mLastSofSequence s + 1,.) <$> due (set_last (mLastSofSequence s + 1) s))).
Proof.
  intros [Hx Hg Hg']. split; (apply tracked_start; [|done]); intros y c Hy Hc; apply in_tagged; unfold due;
    cbn [mExposureDataMap mAnalogGainMap mDigitalGainMap mLastSofSequence set_last] in *; rewrite Hy; cbn [from_option];
    rewrite !elem_of_app; tauto.
Qed.

Lemma step_in_frames n e s r s' r' :
  in_frames n s -> n < 2 ^ 31 -> deferred e s = true -> step_event e s r = Some (s', r') ->
  in_frames (n + 1) s' /\ mAnalogGainDelay s' = mAnalogGainDelay s /\ mDigitalGainDelay s' = mDigitalGainDelay s
  /\ mLastSofSequence s <= mLastSofSequence s'
  /\ (forall exps q, follows exps q s r.2 -> follows exps q s' r'.2).
Proof.
  intros Hs Hn Hd Hstep. assert (Hgrow : forall m, in_frames n m -> in_frames (n + 1) m) by (intros m []; split; try done; lia).
  destruct e as [ts|exps a|m seq].
  - destruct (sof_record ts s r) as (s1 & cs & Hrec & Hsame & _). rewrite Hrec in Hstep. simplify_eq.
    pose proof Hsame as (Hl & Ha & Hdd & _). split; [eapply same_in_frames, started_in_frames; done|].
    split_and!; [by rewrite Ha|by rewrite Hdd|rewrite Hl; simpl; lia|]. intros exps q Hf. eapply same_follows; [exact Hsame|].
    simpl. rewrite app_assoc. by apply log_follows, started_follows.
  - simpl in Hstep. destruct r as [frame log]. destruct (decide (exps = [] \/ base_effect s <= 0)) as [Hi|Hi].
    + destruct (update_idle exps a s frame log Hi) as (eff & cs & Hu). rewrite Hu in Hstep. simpl in Hstep. simplify_eq.
      split_and!; [by apply Hgrow|done..|]. intros. by apply log_follows.
    + assert (exps <> [] /\ 0 < base_effect s) as [Hne Hb] by (split; [tauto|lia]).
      rewrite (update_queues n exps a s frame log Hs Hn Hne Hd Hb) in Hstep. simpl in Hstep. simplify_eq.
      split_and!; [by apply queued_in_frames|done..|]. intros exps' q. by apply (queued_follows n).
  - simpl in Hstep. destruct r as [frame log]. destruct (setWdr_record m seq s frame log) as (ret & s1 & cs & Hw & Hsame & _).
    rewrite Hw in Hstep. simpl in Hstep. simplify_eq. pose proof Hsame as (Hl & Ha & Hdd & _).
    split_and!; [by apply Hgrow, (same_in_frames _ s)|done|done|by rewrite Hl|]. intros exps q Hf. by apply log_follows, (same_follows _ _ s).
Qed.

Lemma run_in_frames es n s r s' r' :
  in_frames n s -> n + Z.of_nat (length es) < 2 ^ 31 -> run_events es s r = Some (s', r') ->
  in_frames (n + Z.of_nat (length es)) s' /\ mAnalogGainDelay s' = mAnalogGainDelay s /\ mDigitalGainDelay s' = mDigitalGainDelay s
  /\ (forall exps q, follows exps q s r.2 -> follows exps q s' r'.2).
Proof.
  revert n s r. induction es as [|e es IH]; intros n s r Hs Hn Hr; cbn [run_events] in Hr.
  { simplify_eq. simpl. rewrite Z.add_0_r. auto. }
  simpl in Hn. destruct (deferred e s) eqn:Hd; [|done]. destruct (step_event e s r) as [[s1 r1]|] eqn:He; [|done]. simpl in Hr.
  destruct (step_in_frames n e s r s1 r1 Hs ltac:(lia) Hd He) as (Hs1 & Ha & Hdd & _ & Hf).
  destruct (IH (n + 1) s1 r1 Hs1 ltac:(lia) Hr) as (Hs' & Ha' & Hdd' & Hf'). simpl.
  split; [by replace (n + Z.of_nat (S (length es))) with (n + 1 + Z.of_nat (length es)) by lia|].
  split_and!; [congruence|congruence|auto].
Qed.

(** Delays that do not ask for gains before their exposure. *)
Definition late_gains : bool := (0 <=? mAnalogGainDelay new_SensorManager) && (0 <=? mDigitalGainDelay new_SensorManager).

Lemma reset_in_frames : late_gains = true -> in_frames 0 (reset new_SensorManager).
Proof.
  unfold late_gains. intros [Ha Hd]%andb_true_iff. split; unfold next_frame; cbn [reset mLastSofSequence mExposureDataMap mAnalogGainMap mDigitalGainMap mAnalogGainDelay mDigitalGainDelay];
    rewrite ?map_size_empty; try lia; intros q; rewrite lookup_empty; rewrite is_Some_alt; try done. lia.
Qed.

(** The lags of the gains. *)
Definition analog_lag : Z := if 0 <? mAnalogGainLag then mAnalogGainLag else mExposureLag.
Definition digital_lag : Z := if 0 <=? mDigitalGainLag then mDigitalGainLag else analog_lag.

Lemma delays_lags : mAnalogGainDelay new_SensorManager = mExposureLag - analog_lag /\ mDigitalGainDelay new_SensorManager = mExposureLag - digital_lag.
Proof. unfold new_SensorManager, digital_lag, analog_lag. simpl. destruct (0 <? mAnalogGainLag), (0 <=? mDigitalGainLag); lia. Qed.

(** ** Properties *)

(** C6: the settings of an update take effect together, on the frame that was
    predicted.  An exposure shows [mExposureLag] frames after the frame during
    which it is sent and a gain its own lag after; the exposure, the analogue
    and the digital gains of an update are each sent that long before the frame
    it returned.  This is so for gain lags not above the exposure lag, for an
    update that comes after the first frame start and is not for the frame that
    is running already, and whatever deferred updates, WDR modes and frame
    starts come before and after, however many wait, as long as no frame start
    is missed: [first_prediction_late] and [missed_frame_delays] show what
    happens before the first frame and after a missed one. *)
Theorem settings_meet_prediction before exps a after s r eff s1 r1 s2 r2 :
  late_gains = true -> 0 < mExposureLag < 2 ^ 31 -> Z.of_nat (length before + length after) + 1 < 2 ^ 31 ->
  run_events before (reset new_SensorManager) (-1, []) = Some (s, r) ->
  exps <> [] -> 0 <= mLastSofSequence s -> deferred (Update exps a) s = true ->
  updateSensorExposure exps a s r = Some (eff, s1, r1) ->
  run_events after s1 r1 = Some (s2, r2) ->
  eff - analog_lag <= mLastSofSequence s2 -> eff - digital_lag <= mLastSofSequence s2 -> eff - mExposureLag <= mLastSofSequence s2 ->
  (forall c, c ∈ exposure_commands (exposure_data exps) -> (eff - mExposureLag, c) ∈ r2.2)
  /\ (eff - analog_lag, SetAnalogGains (analog_gain_code_global <$> exps)) ∈ r2.2
  /\ (eff - digital_lag, SetDigitalGains (digital_gain <$> exps)) ∈ r2.2.
Proof.
  intros Hlate Hlag Hn Hbefore Hne Hl Hd Hu Hafter Ha Hdg Hx.
  destruct (run_in_frames before 0 _ _ _ _ (reset_in_frames Hlate) ltac:(lia) Hbefore) as (Hs & Hda & Hdd & _).
  destruct delays_lags as [Hla Hld].
  change (mAnalogGainDelay s = mAnalogGainDelay new_SensorManager) in Hda. change (mDigitalGainDelay s = mDigitalGainDelay new_SensorManager) in Hdd. rewrite Hla in Hda. rewrite Hld in Hdd.
  assert (Hb : base_effect s = mLastSofSequence s + mExposureLag) by (unfold base_effect; destruct (Z.ltb_spec (mLastSofSequence s) 0); lia).
  destruct r as [frame log]. rewrite (update_queues _ exps a s frame log Hs ltac:(lia) Hne Hd ltac:(lia)) in Hu. simplify_eq.
  pose proof (frames_fit _ _ Hs) as Hfit. unfold next_frame in Hfit.
  assert (Heff : u32 (base_effect s + Z.of_nat (size (mExposureDataMap s)) + 1) = next_frame s + mExposureLag)
    by (unfold u32; rewrite Z.mod_small by lia; unfold next_frame; lia).
  rewrite Heff in *.
  destruct (run_in_frames after _ _ _ _ _ (queued_in_frames _ exps s Hs) ltac:(lia) Hafter) as (Hs2 & Hda2 & Hdd2 & Hf).
  destruct (Hf exps (next_frame s) (queued_followed _ exps s log Hs)) as [Hfx Hfa Hfd]. simpl in Hda2, Hdd2.
  rewrite Hda2, Hda in Hfa. rewrite Hdd2, Hdd in Hfd.
  split_and!.
  - intros c Hc. replace (next_frame s + mExposureLag - mExposureLag) with (next_frame s) by lia.
    destruct Hfx as [[? _]|[_ Hfx]]; [lia|auto].
  - replace (next_frame s + mExposureLag - analog_lag) with (next_frame s + (mExposureLag - analog_lag)) by lia.
    destruct Hfa as [[? _]|[_ Hfa]]; [lia|]. apply Hfa. left.
  - replace (next_frame s + mExposureLag - digital_lag) with (next_frame s + (mExposureLag - digital_lag)) by lia.
    destruct Hfd as [[? _]|[_ Hfd]]; [lia|]. apply Hfd. left.
Qed.

(** Before the first frame the prediction is one frame late: the settings
    are queued for frame 0, so the exposure shows on frame [mExposureLag], and
    the frame after that is returned. *)
Theorem first_prediction_late exps a r eff s1 r1 :
  late_gains = true -> 0 < mExposureLag < 2 ^ 31 -> mWaitFirstStats = false -> exps <> [] ->
  updateSensorExposure exps a (reset new_SensorManager) r = Some (eff, s1, r1) ->
  eff = mExposureLag + 1 /\ mExposureDataMap s1 = {[0 := exposure_data exps]}.
Proof.
  intros Hlate Hlag Hw Hne Hu. pose proof (reset_in_frames Hlate) as Hs. destruct r as [frame log].
  assert (Hb : base_effect (reset new_SensorManager) = mExposureLag) by (unfold base_effect; simpl; by rewrite Hw).
  rewrite (update_queues 0 exps a _ frame log Hs ltac:(lia) Hne) in Hu; [|simpl; lia|lia]. simplify_eq. rewrite Hb. simpl.
  rewrite map_size_empty. unfold u32. rewrite Z.mod_small by lia. split; [lia|done].
Qed.

(** *** A frame whose start was missed *)

Lemma stale_stays q d s s' : same_queues s s' -> q < mLastSofSequence s -> mExposureDataMap s !! q = Some d ->
  q < mLastSofSequence s' /\ mExposureDataMap s' !! q = Some d.
Proof. intros (-> & _ & _ & _ & _ & ->). auto. Qed.

(** The frame numbers that the rest of a run needs. *)
Definition fits (rest : nat) s : Prop := -1 <= mLastSofSequence s /\ next_frame s + Z.of_nat rest < 2 ^ 31.

Lemma update_keeps_stale q d exps a s frame log eff s' r' :
  fits 1 s -> q < mLastSofSequence s -> mExposureDataMap s !! q = Some d -> deferred (Update exps a) s = true ->
  updateSensorExposure exps a s (frame, log) = Some (eff, s', r') ->
  mLastSofSequence s' = mLastSofSequence s /\ mExposureDataMap s' !! q = Some d /\ next_frame s' <= next_frame s + 1.
Proof.
  intros [Hl Hf] Hq Hd Hdef. destruct (decide (exps = [] \/ base_effect s <= 0)) as [Hi|Hi].
  { destruct (update_idle exps a s frame log Hi) as (e & cs & Hu). rewrite Hu. intros. simplify_eq. split_and!; [done|done|lia]. }
  unfold updateSensorExposure. rewrite bool_decide_false by tauto. fold (base_effect s).
  destruct (Z.ltb_spec 0 (base_effect s)); [|exfalso; tauto]. simpl in Hdef. apply negb_true_iff in Hdef. rewrite Hdef.
  unfold next_frame in *.
  assert (Hk : signed 32 (u64 (mLastSofSequence s + Z.of_nat (size (mExposureDataMap s)) + 1)) = mLastSofSequence s + Z.of_nat (size (mExposureDataMap s)) + 1).
  { unfold u64. rewrite Z.mod_small by lia. by rewrite signed_small by lia. }
  cbv zeta. rewrite Hk. cbn [mbind option_bind]. unfold gains_at.
  set (k := mLastSofSequence s + Z.of_nat (size (mExposureDataMap s)) + 1).
  assert (Hsz : (size (<[k := exposure_data exps]> (mExposureDataMap s)) <= S (size (mExposureDataMap s)))%nat)
    by apply size_insert_le.
  assert (Hne : q <> k) by lia.
  intros Hu. repeat (case_match; simpl in Hu; simplify_eq); simpl;
    (split_and!; [done|rewrite lookup_insert_ne by done; done|unfold k in *; lia]).
Qed.

Lemma step_keeps_stale q d rest e s r s' r' :
  fits (S rest) s -> q < mLastSofSequence s -> mExposureDataMap s !! q = Some d -> deferred e s = true ->
  step_event e s r = Some (s', r') -> fits rest s' /\ q < mLastSofSequence s' /\ mExposureDataMap s' !! q = Some d.
Proof.
  intros [Hl Hf] Hq Hd Hdef Hstep. destruct e as [ts|exps a|m seq].
  - destruct (sof_record ts s r) as (s1 & cs & Hrec & Hsame & _). rewrite Hrec in Hstep. simplify_eq.
    destruct (stale_stays q d _ _ Hsame) as [Hq' Hd']; [simpl; lia|simpl; rewrite lookup_delete_ne by lia; done|].
    split; [|done]. destruct Hsame as (Hl' & _ & _ & _ & _ & Hm). unfold fits, next_frame in *. rewrite Hl', Hm. simpl.
    pose proof (size_delete_le (mLastSofSequence s + 1) (mExposureDataMap s)). lia.
  - simpl in Hstep. destruct r as [frame log]. destruct (updateSensorExposure exps a s (frame, log)) as [[[eff s1] r1]|] eqn:Hu; [|done].
    simpl in Hstep. simplify_eq. destruct (update_keeps_stale q d exps a s frame log eff s' r') as (Hl' & Hd' & Hn); [split; [done|lia]|done..|].
    unfold fits. rewrite Hl'. split; [lia|]. auto.
  - simpl in Hstep. destruct r as [frame log]. destruct (setWdr_record m seq s frame log) as (ret & s1 & cs & Hw & Hsame & _).
    rewrite Hw in Hstep. simpl in Hstep. simplify_eq. destruct (stale_stays q d _ _ Hsame Hq Hd). split; [|done].
    destruct Hsame as (Hl' & _ & _ & _ & _ & Hm). unfold fits, next_frame in *. rewrite Hl', Hm. lia.
Qed.

(** Settings queued for a frame whose start was never seen stay queued
    until the next reset: from then on every update is delayed by that much
    more. *)
Theorem missed_frame_delays q d es s r s' r' :
  fits (length es) s -> q < mLastSofSequence s -> mExposureDataMap s !! q = Some d -> run_events es s r = Some (s', r') ->
  mExposureDataMap s' !! q = Some d /\ mLastSofSequence s' + 2 <= next_frame s'.
Proof.
  revert s r. induction es as [|e es IH]; intros s r Hf Hq Hd Hr; cbn [run_events] in Hr.
  - simplify_eq. split; [done|]. unfold next_frame. assert (size (mExposureDataMap s') <> 0%nat); [|lia].
    intros Hz. apply map_size_empty_iff in Hz. rewrite Hz in Hd. by rewrite lookup_empty in Hd.
  - destruct (deferred e s) eqn:Hdef; [|done]. destruct (step_event e s r) as [[s1 r1]|] eqn:He; [|done].
    destruct (step_keeps_stale q d (length es) e s r s1 r1 Hf Hq Hd Hdef He) as (Hf1 & Hq1 & Hd1). by apply (IH s1 r1).
Qed.

(** *** Times of frames *)

(** The frames that started in a run, the last before which was [last]. *)
Fixpoint frames_of (last : Z) (es : list event) : list SofEventInfo :=
  match es with
  | [] => []
  | Sof ts :: es => SofInfo (last + 1) (ts.1 * 1000000 + ts.2) :: frames_of (last + 1) es
  | _ :: es => frames_of last es
  end.

Definition last_ten (l : list SofEventInfo) : list SofEventInfo := drop (length l - kMaxSofEventInfo) l.

Lemma add_sof_last_ten l i : add_sof i (last_ten l) = last_ten (l ++ [i]).
Proof.
  unfold add_sof, last_ten. rewrite length_drop, length_app. unfold kMaxSofEventInfo.
  change (length [i]) with 1%nat. destruct (Nat.leb_spec 10 (length l - (length l - 10))).
  - replace (length l + 1 - 10)%nat with (S (length l - 10)) by lia. rewrite drop_app_le by lia. f_equal.
    assert (Ht : forall x : list SofEventInfo, tail x = drop 1 x) by (intros []; done). rewrite Ht, drop_drop. f_equal. lia.
  - replace (length l - 10)%nat with 0%nat by lia. replace (length l + 1 - 10)%nat with 0%nat by lia. done.
Qed.

Lemma update_same_sofs exps a s (r : Z * list (Z * command)) eff s' r' :
  updateSensorExposure exps a s r = Some (eff, s', r') ->
  mSofEventInfo s' = mSofEventInfo s /\ mLastSofSequence s' = mLastSofSequence s.
Proof.
  unfold updateSensorExposure, gains_at. destruct r as [frame log]. cbv zeta.
  case_bool_decide; [intros; by simplify_eq|]. fold (base_effect s).
  destruct (0 <? base_effect s).
  - destruct ((0 <? a) && (a =? mLastSofSequence s)); rewrite ?send_all_record; cbn [mbind option_bind];
      (destruct (_ =? mLastSofSequence s) at 1; rewrite ?send_all_record; cbn [mbind option_bind]);
      (destruct (_ =? mLastSofSequence s) at 1; rewrite ?send_all_record; cbn [mbind option_bind]); intros Hu; simpl in Hu; by simplify_eq.
  - destruct hasMediaCtlConfs; rewrite ?send_all_record; cbn [mbind option_bind]; intros; by simplify_eq.
Qed.

Lemma frames_kept es s r s' r' l :
  mSofEventInfo s = last_ten l -> run_events es s r = Some (s', r') ->
  mSofEventInfo s' = last_ten (l ++ frames_of (mLastSofSequence s) es).
Proof.
  revert s r l. induction es as [|e es IH]; intros s r l Hl Hr; cbn [run_events frames_of] in *.
  { simplify_eq. by rewrite app_nil_r. }
  destruct (deferred e s) eqn:Hdef; [|done]. destruct (step_event e s r) as [[s1 r1]|] eqn:He; [|done]. simpl in Hr.
  destruct e as [ts|exps a|m seq].
  - destruct (sof_record ts s r) as (s2 & cs & Hrec & Hsame & Hinfo). rewrite Hrec in He. simplify_eq.
    destruct Hsame as (Hlast & _). rewrite (IH _ _ (l ++ [SofInfo (mLastSofSequence s + 1) (ts.1 * 1000000 + ts.2)]) ltac:(by rewrite Hinfo, Hl, add_sof_last_ten) Hr).
    rewrite Hlast. simpl. by rewrite <- app_assoc.
  - simpl in He. destruct r as [frame log]. destruct (updateSensorExposure exps a s (frame, log)) as [[[eff s2] r2]|] eqn:Hu; [|done].
    simpl in He. simplify_eq. destruct (update_same_sofs exps a s (frame, log) eff s1 r1 Hu) as [Hi Hlast].
    rewrite <- Hlast. apply (IH s1 r1); [by rewrite Hi|done].
  - simpl in He. destruct r as [frame log]. destruct (setWdr_record m seq s frame log) as (ret & s2 & cs & Hw & Hsame & Hi).
    rewrite Hw in He. simpl in He. simplify_eq. destruct Hsame as (Hlast & _). rewrite <- Hlast. eapply IH; [by rewrite Hi|exact Hr].
Qed.

Lemma frames_consecutive last es j x : frames_of last es !! j = Some x -> sof_sequence x = last + 1 + Z.of_nat j.
Proof.
  revert last j. induction es as [|e es IH]; intros last j; [done|]. destruct e as [ts|exps a|m seq]; simpl; [|apply IH..].
  destruct j as [|j]; simpl; [intros; simplify_eq; simpl; lia|]. intros Hj%IH. lia.
Qed.

(** The times of the last ten frames can be asked for, and no older ones:
    each is the one its frame started at. *)
Theorem frame_times_kept es s r i info :
  run_events es (reset new_SensorManager) (-1, []) = Some (s, r) -> frames_of (-1) es !! i = Some info ->
  getSofTimestamp (sof_sequence info) s
  = if (length (frames_of (-1) es) - kMaxSofEventInfo <=? i)%nat then u64 (sof_timestamp info) else 0.
Proof.
  intros Hr Hi. pose proof (frames_kept es (reset new_SensorManager) (-1, []) s r [] eq_refl Hr) as Hk. simpl in Hk. unfold getSofTimestamp. rewrite Hk. unfold last_ten.
  set (n := (length (frames_of (-1) es) - kMaxSofEventInfo)%nat).
  assert (Hsame : forall x, x ∈ drop n (frames_of (-1) es) -> sof_sequence x = sof_sequence info ->
    (n <= i)%nat /\ x = info).
  { intros x [j Hj]%list_elem_of_lookup Hseq. rewrite lookup_drop in Hj.
    pose proof (frames_consecutive _ _ _ _ Hj). pose proof (frames_consecutive _ _ _ _ Hi).
    assert ((n + j)%nat = i) as <- by lia. split; [lia|congruence]. }
  destruct (List.find _ _) as [x|] eqn:Hf.
  - apply List.find_some in Hf as [Hin Hseq%Z.eqb_eq]. apply list_elem_of_In in Hin. destruct (Hsame x Hin Hseq) as [Hle ->].
    destruct (Nat.leb_spec n i); [done|lia].
  - destruct (Nat.leb_spec n i); [|done]. exfalso. apply (List.find_none _ _ ) with (x := info) in Hf; [by rewrite Z.eqb_refl in Hf|].
    apply list_elem_of_In, list_elem_of_lookup. exists (i - n)%nat. rewrite lookup_drop. by replace (n + (i - n))%nat with i by lia.
Qed.

(** The digital gain of the sensor is the largest power of two within the
    gain asked for, as far as the sensor goes. *)
Theorem sensor_digital_gain gain :
  mSensorDgType = SENSOR_DG_TYPE_2_X -> 1 <= gain < 2 ^ 16 -> 0 <= mMaxSensorDigitalGain ->
  getSensorDigitalGain gain = Z.min (Z.log2 gain) mMaxSensorDigitalGain.
Proof.
  intros Ht Hg Hm. unfold getSensorDigitalGain. rewrite bool_decide_true by done. rewrite dg_loop_log2 by (simpl; lia).
  pose proof (Z.log2_nonneg gain). unfold CLIP. destruct (Z.ltb_spec mMaxSensorDigitalGain (Z.log2 gain)), (Z.ltb_spec (Z.log2 gain) 0); lia.
Qed.
End Prediction.

(** ** Witnesses *)

#[local] Instance example_lags : LagConfig := {|
  mExposureLag := 2; mAnalogGainLag := 1; mDigitalGainLag := 1; mWaitFirstStats := false; hasMediaCtlConfs := true;
  mUseIspDigitalGain := false; mSensorDgType := SENSOR_DG_TYPE_2_X; mMaxSensorDigitalGain := 4; mInitialSkipFrame := 0;
  hdrSensor := SENSOR_EXPOSURE_SINGLE;
|}.

Definition example_exposure (x : Z) : SensorExposure := Exposure 256 (100 + x) 0 (16 + x) (256 + x) 4400 1125.

Definition example_before : list event := [Sof (1, 0); Update [example_exposure 0] (-1); Update [example_exposure 1] (-1); Sof (1, 33)].
Definition example_after : list event := [Update [example_exposure 3] 3; Sof (1, 66); Sof (1, 99); Sof (1, 132); Sof (1, 165)].

Lemma settings_meet_prediction_witness :
  exists s r eff s1 r1 s2 r2,
    run_events example_before (reset new_SensorManager) (-1, []) = Some (s, r)
    /\ updateSensorExposure [example_exposure 2] (-1) s r = Some (eff, s1, r1) /\ eff = 5
    /\ run_events example_after s1 r1 = Some (s2, r2)
    /\ (forall c, c ∈ exposure_commands (exposure_data [example_exposure 2]) -> (5 - mExposureLag, c) ∈ r2.2)
    /\ (5 - analog_lag, SetAnalogGains (analog_gain_code_global <$> [example_exposure 2])) ∈ r2.2
    /\ (5 - digital_lag, SetDigitalGains (digital_gain <$> [example_exposure 2])) ∈ r2.2.
Proof.
  eexists _, _, _, _, _, _, _. split; [vm_compute; reflexivity|]. split; [vm_compute; reflexivity|]. split; [reflexivity|].
  split; [vm_compute; reflexivity|].
  eapply (settings_meet_prediction example_before [example_exposure 2] (-1) example_after _ _ 5);
    [reflexivity|simpl; lia|simpl; lia|vm_compute; reflexivity|discriminate|simpl; lia|reflexivity|vm_compute; reflexivity
    |vm_compute; reflexivity|vm_compute; discriminate..].
Defined.

Lemma first_prediction_late_witness :
  exists s1 r1, updateSensorExposure [example_exposure 2] (-1) (reset new_SensorManager) (-1, []) = Some (3, s1, r1)
    /\ mExposureDataMap s1 = {[0 := exposure_data [example_exposure 2]]}.
Proof.
  eexists _, _. split; [vm_compute; reflexivity|].
  eapply (first_prediction_late [example_exposure 2] (-1) (-1, []) 3); [reflexivity|simpl; lia|reflexivity|discriminate|vm_compute; reflexivity].
Defined.

(** Settings wait for frame 1, but the next frame seen is frame 2. *)
Definition skipped : SensorManager := set_last 2 (queued [example_exposure 0] (set_last 0 (reset new_SensorManager))).

Lemma missed_frame_delays_witness :
  exists s' r', run_events [Sof (1, 99); Update [example_exposure 1] (-1); Sof (1, 132)] skipped (2, []) = Some (s', r')
    /\ mExposureDataMap s' !! 1 = Some (exposure_data [example_exposure 0]) /\ mLastSofSequence s' + 2 <= next_frame s'.
Proof.
  eexists _, _. split; [vm_compute; reflexivity|].
  eapply (missed_frame_delays 1 _ [Sof (1, 99); Update [example_exposure 1] (-1); Sof (1, 132)] skipped (2, []));
    [split; [simpl; lia|vm_compute; reflexivity]|simpl; lia|reflexivity|vm_compute; reflexivity].
Defined.

Definition twelve_frames : list event := (fun i => Sof (1, Z.of_nat i * 33)) <$> seq 0 12.

Lemma frame_times_kept_witness :
  exists s r, run_events twelve_frames (reset new_SensorManager) (-1, []) = Some (s, r)
    /\ getSofTimestamp 2 s = 1000066 /\ getSofTimestamp 1 s = 0.
Proof.
  eexists _, _. split; [vm_compute; reflexivity|]. split.
  - etransitivity; [eapply (frame_times_kept twelve_frames _ _ 2 (SofInfo 2 1000066)); [vm_compute; reflexivity|reflexivity]|reflexivity].
  - etransitivity; [eapply (frame_times_kept twelve_frames _ _ 1 (SofInfo 1 1000033)); [vm_compute; reflexivity|reflexivity]|reflexivity].
Defined.

Lemma sensor_digital_gain_witness : getSensorDigitalGain 9 = 3.
Proof. rewrite (sensor_digital_gain 9) by (reflexivity || (simpl; lia)). reflexivity. Defined.
