(* ===== verification/PixelFormats.v ===== *)
(** * Pixel formats

    src/iutils/Utils.cpp and Utils.h: the table of formats with their names and
    bits per pixel, the lookups in it, and the sizes of lines and frames.

    The sizes are computed in [int]: [None] stands for a signed overflow, which
    C++ leaves undefined.  Log output is not modelled.  In [getBpl] and
    [getPlanarByte] the C++ divides in [double] and rounds up; the operands are
    integers below 2^31, whose quotient by 84 or 8 rounds up to the same
    integer. *)

From Stdlib Require Import String Ascii.
From S2P Require Import Prelude V4l2Video.
From stdpp Require Import list.
#[local] Open Scope Z_scope.

(** ** Arithmetic *)

(** A value of type [int]. *)
Definition int (x : Z) : option Z := if (- 2 ^ 31 <=? x) && (x <? 2 ^ 31) then Some x else None.

(** [ALIGN], for a power of two. *)
Definition ALIGN (val alignment : Z) : Z := Z.land (val + alignment - 1) (Z.lnot (alignment - 1)).
Definition ALIGN_64 (val : Z) : Z := ALIGN val 64.
Definition CAMHAL_CEIL_DIV (a b : Z) : Z := Z.quot (a + b - 1) b.

Definition byte_of (c : ascii) : Z := Z.of_nat (nat_of_ascii c).

(** The first character is the lowest byte. *)
Definition v4l2_fourcc (a b c d : ascii) : Z :=
  Z.lor (byte_of a) (Z.lor (Z.shiftl (byte_of b) 8) (Z.lor (Z.shiftl (byte_of c) 16) (Z.shiftl (byte_of d) 24))).
Definition FOURCC_TO_UL : ascii -> ascii -> ascii -> ascii -> Z := v4l2_fourcc.
(** The first character is the highest byte. *)
Definition GET_FOURCC_FMT (a b c d : ascii) : Z := v4l2_fourcc d c b a.

(** ** The table *)

Inductive FormatType :=
| FORMAT_RAW | FORMAT_RAW_VEC | FORMAT_YUV | FORMAT_YUV_VEC | FORMAT_RGB | FORMAT_MBUS | FORMAT_JPEG | FORMAT_FOURCC.

#[global] Instance FormatType_eq_dec : EqDecision FormatType.
Proof. solve_decision. Defined.

Record FormatInfo := Format {
  v4l2Fmt : Z; iaFourcc : Z; fullName : string; shortName : string; bpp : Z; type : FormatType;
}.

Definition V4L2_PIX_FMT_GREY : Z := v4l2_fourcc "G" "R" "E" "Y".
Definition V4L2_PIX_FMT_SBGGR8 : Z := v4l2_fourcc "B" "A" "8" "1".
Definition V4L2_PIX_FMT_SGBRG8 : Z := v4l2_fourcc "G" "B" "R" "G".
Definition V4L2_PIX_FMT_SGRBG8 : Z := v4l2_fourcc "G" "R" "B" "G".
Definition V4L2_PIX_FMT_SRGGB8 : Z := v4l2_fourcc "R" "G" "G" "B".
Definition V4L2_PIX_FMT_SBGGR10 : Z := v4l2_fourcc "B" "G" "1" "0".
Definition V4L2_PIX_FMT_SGBRG10 : Z := v4l2_fourcc "G" "B" "1" "0".
Definition V4L2_PIX_FMT_SGRBG10 : Z := v4l2_fourcc "B" "A" "1" "0".
Definition V4L2_PIX_FMT_SRGGB10 : Z := v4l2_fourcc "R" "G" "1" "0".
Definition V4L2_PIX_FMT_SBGGR12 : Z := v4l2_fourcc "B" "G" "1" "2".
Definition V4L2_PIX_FMT_SGBRG12 : Z := v4l2_fourcc "G" "B" "1" "2".
Definition V4L2_PIX_FMT_SGRBG12 : Z := v4l2_fourcc "B" "A" "1" "2".
Definition V4L2_PIX_FMT_SRGGB12 : Z := v4l2_fourcc "R" "G" "1" "2".
Definition V4L2_PIX_FMT_SBGGR10P : Z := v4l2_fourcc "p" "B" "A" "A".
Definition V4L2_PIX_FMT_SGBRG10P : Z := v4l2_fourcc "p" "G" "A" "A".
Definition V4L2_PIX_FMT_SGRBG10P : Z := v4l2_fourcc "p" "g" "A" "A".
Definition V4L2_PIX_FMT_SRGGB10P : Z := v4l2_fourcc "p" "R" "A" "A".
Definition V4L2_PIX_FMT_NV12 : Z := v4l2_fourcc "N" "V" "1" "2".
Definition V4L2_PIX_FMT_NV21 : Z := v4l2_fourcc "N" "V" "2" "1".
Definition V4L2_PIX_FMT_NV16 : Z := v4l2_fourcc "N" "V" "1" "6".
Definition V4L2_PIX_FMT_YUYV : Z := v4l2_fourcc "Y" "U" "Y" "V".
Definition V4L2_PIX_FMT_UYVY : Z := v4l2_fourcc "U" "Y" "V" "Y".
Definition V4L2_PIX_FMT_P010 : Z := v4l2_fourcc "P" "0" "1" "0".
Definition V4L2_PIX_FMT_YUV420 : Z := v4l2_fourcc "Y" "U" "1" "2".
Definition V4L2_PIX_FMT_YVU420 : Z := v4l2_fourcc "Y" "V" "1" "2".
Definition V4L2_PIX_FMT_YUV422P : Z := v4l2_fourcc "4" "2" "2" "P".
Definition V4L2_PIX_FMT_BGR24 : Z := v4l2_fourcc "B" "G" "R" "3".
Definition V4L2_PIX_FMT_BGR32 : Z := v4l2_fourcc "B" "G" "R" "4".
Definition V4L2_PIX_FMT_RGB24 : Z := v4l2_fourcc "R" "G" "B" "3".
Definition V4L2_PIX_FMT_RGB32 : Z := v4l2_fourcc "R" "G" "B" "4".
Definition V4L2_PIX_FMT_XBGR32 : Z := v4l2_fourcc "X" "R" "2" "4".
Definition V4L2_PIX_FMT_XRGB32 : Z := v4l2_fourcc "B" "X" "2" "4".
Definition V4L2_PIX_FMT_RGB565 : Z := v4l2_fourcc "R" "G" "B" "P".
Definition V4L2_PIX_FMT_JPEG : Z := v4l2_fourcc "J" "P" "E" "G".
Definition V4L2_MBUS_FMT_SBGGR12_1X12 : Z := 12296.
Definition V4L2_MBUS_FMT_SGBRG12_1X12 : Z := 12304.
Definition V4L2_MBUS_FMT_SGRBG12_1X12 : Z := 12305.
Definition V4L2_MBUS_FMT_SRGGB12_1X12 : Z := 12306.
Definition V4L2_MBUS_FMT_SBGGR10_1X10 : Z := 12295.
Definition V4L2_MBUS_FMT_SGBRG10_1X10 : Z := 12302.
Definition V4L2_MBUS_FMT_SGRBG10_1X10 : Z := 12298.
Definition V4L2_MBUS_FMT_SRGGB10_1X10 : Z := 12303.
Definition V4L2_MBUS_FMT_SBGGR8_1X8 : Z := 12289.
Definition V4L2_MBUS_FMT_SGBRG8_1X8 : Z := 12307.
Definition V4L2_MBUS_FMT_SGRBG8_1X8 : Z := 12290.
Definition V4L2_MBUS_FMT_SRGGB8_1X8 : Z := 12308.
Definition V4L2_MBUS_FMT_UYVY8_1X16 : Z := 8207.
Definition V4L2_MBUS_FMT_YUYV8_1X16 : Z := 8209.
Definition V4L2_MBUS_FMT_UYVY8_2X8 : Z := 8198.
Definition MEDIA_BUS_FMT_RGB888_1X24 : Z := 4106.
Definition MEDIA_BUS_FMT_RGB565_1X16 : Z := 4119.
Definition MEDIA_BUS_FMT_YUYV12_1X24 : Z := 8226.
Definition MEDIA_BUS_FMT_SGRBG10_1X10 : Z := 12298.
Definition MEDIA_BUS_FMT_RGB888_1X32_PADHI : Z := 4111.
Definition V4L2_FMT_IPU_ISYS_META : Z := v4l2_fourcc "i" "p" "4" "m".
Definition V4L2_PIX_FMT_YUYV420_V32 : Z := v4l2_fourcc "y" "0" "3" "2".
Definition V4L2_PIX_FMT_SGRBG12V32 : Z := v4l2_fourcc "b" "V" "0" "K".
Definition V4L2_PIX_FMT_SGRBG10V32 : Z := v4l2_fourcc "b" "V" "0" "G".
Definition gFormatMapping : list FormatInfo := [
   Format V4L2_PIX_FMT_GREY 0 "V4L2_PIX_FMT_GREY" "GREY" 8 FORMAT_RAW;
   Format V4L2_PIX_FMT_SBGGR8 0 "V4L2_PIX_FMT_SBGGR8" "BGGR8" 8 FORMAT_RAW;
   Format V4L2_PIX_FMT_SGBRG8 0 "V4L2_PIX_FMT_SGBRG8" "GBRG8" 8 FORMAT_RAW;
   Format V4L2_PIX_FMT_SGRBG8 0 "V4L2_PIX_FMT_SGRBG8" "GRBG8" 8 FORMAT_RAW;
   Format V4L2_PIX_FMT_SRGGB8 0 "V4L2_PIX_FMT_SRGGB8" "RGGB8" 8 FORMAT_RAW;
   Format V4L2_PIX_FMT_SBGGR10 0 "V4L2_PIX_FMT_SBGGR10" "BGGR10" 16 FORMAT_RAW;
   Format V4L2_PIX_FMT_SGBRG10 0 "V4L2_PIX_FMT_SGBRG10" "GBRG10" 16 FORMAT_RAW;
   Format V4L2_PIX_FMT_SGRBG10 0 "V4L2_PIX_FMT_SGRBG10" "GRBG10" 16 FORMAT_RAW;
   Format V4L2_PIX_FMT_SRGGB10 0 "V4L2_PIX_FMT_SRGGB10" "RGGB10" 16 FORMAT_RAW;
   Format V4L2_PIX_FMT_SBGGR12 0 "V4L2_PIX_FMT_SBGGR12" "BGGR12" 16 FORMAT_RAW;
   Format V4L2_PIX_FMT_SGBRG12 0 "V4L2_PIX_FMT_SGBRG12" "GBRG12" 16 FORMAT_RAW;
   Format V4L2_PIX_FMT_SGRBG12 0 "V4L2_PIX_FMT_SGRBG12" "GRBG12" 16 FORMAT_RAW;
   Format V4L2_PIX_FMT_SRGGB12 0 "V4L2_PIX_FMT_SRGGB12" "RGGB12" 16 FORMAT_RAW;
   Format V4L2_PIX_FMT_SBGGR10P 0 "V4L2_PIX_FMT_SBGGR10P" "BGGR10P" 10 FORMAT_RAW;
   Format V4L2_PIX_FMT_SGBRG10P 0 "V4L2_PIX_FMT_SGBRG10P" "GBRG10P" 10 FORMAT_RAW;
   Format V4L2_PIX_FMT_SGRBG10P 0 "V4L2_PIX_FMT_SGRBG10P" "GRBG10P" 10 FORMAT_RAW;
   Format V4L2_PIX_FMT_SRGGB10P 0 "V4L2_PIX_FMT_SRGGB10P" "RGGB10P" 10 FORMAT_RAW;
   Format V4L2_PIX_FMT_NV12 0 "V4L2_PIX_FMT_NV12" "NV12" 12 FORMAT_YUV;
   Format V4L2_PIX_FMT_NV21 0 "V4L2_PIX_FMT_NV21" "NV21" 12 FORMAT_YUV;
   Format V4L2_PIX_FMT_NV16 0 "V4L2_PIX_FMT_NV16" "NV16" 16 FORMAT_YUV;
   Format V4L2_PIX_FMT_YUYV 0 "V4L2_PIX_FMT_YUYV" "YUYV" 16 FORMAT_YUV;
   Format V4L2_PIX_FMT_UYVY 0 "V4L2_PIX_FMT_UYVY" "UYVY" 16 FORMAT_YUV;
   Format V4L2_PIX_FMT_P010 0 "V4L2_PIX_FMT_P010" "P010" 24 FORMAT_YUV;
   Format V4L2_PIX_FMT_YUV420 0 "V4L2_PIX_FMT_YUV420" "YUV420" 12 FORMAT_YUV;
   Format V4L2_PIX_FMT_YVU420 0 "V4L2_PIX_FMT_YVU420" "YVU420" 12 FORMAT_YUV;
   Format V4L2_PIX_FMT_YUV422P 0 "V4L2_PIX_FMT_YUV422P" "YUV422P" 16 FORMAT_YUV;
   Format V4L2_PIX_FMT_BGR24 0 "V4L2_PIX_FMT_BGR24" "BGR24" 24 FORMAT_RGB;
   Format V4L2_PIX_FMT_BGR32 0 "V4L2_PIX_FMT_BGR32" "BGR32" 32 FORMAT_RGB;
   Format V4L2_PIX_FMT_RGB24 0 "V4L2_PIX_FMT_RGB24" "RGB24" 24 FORMAT_RGB;
   Format V4L2_PIX_FMT_RGB32 0 "V4L2_PIX_FMT_RGB32" "RGB32" 32 FORMAT_RGB;
   Format V4L2_PIX_FMT_XBGR32 0 "V4L2_PIX_FMT_XBGR32" "XBGR32" 32 FORMAT_RGB;
   Format V4L2_PIX_FMT_XRGB32 0 "V4L2_PIX_FMT_XRGB32" "XRGB32" 32 FORMAT_RGB;
   Format V4L2_PIX_FMT_RGB565 0 "V4L2_PIX_FMT_RGB565" "RGB565" 16 FORMAT_RGB;
   Format V4L2_PIX_FMT_JPEG 0 "V4L2_PIX_FMT_JPEG" "JPG" 0 FORMAT_JPEG;
   Format V4L2_MBUS_FMT_SBGGR12_1X12 0 "V4L2_MBUS_FMT_SBGGR12_1X12" "SBGGR12_1X12" 12 FORMAT_MBUS;
   Format V4L2_MBUS_FMT_SGBRG12_1X12 0 "V4L2_MBUS_FMT_SGBRG12_1X12" "SGBRG12_1X12" 12 FORMAT_MBUS;
   Format V4L2_MBUS_FMT_SGRBG12_1X12 0 "V4L2_MBUS_FMT_SGRBG12_1X12" "SGRBG12_1X12" 12 FORMAT_MBUS;
   Format V4L2_MBUS_FMT_SRGGB12_1X12 0 "V4L2_MBUS_FMT_SRGGB12_1X12" "SRGGB12_1X12" 12 FORMAT_MBUS;
   Format V4L2_MBUS_FMT_SBGGR10_1X10 0 "V4L2_MBUS_FMT_SBGGR10_1X10" "SBGGR10_1X10" 10 FORMAT_MBUS;
   Format V4L2_MBUS_FMT_SGBRG10_1X10 0 "V4L2_MBUS_FMT_SGBRG10_1X10" "SGBRG10_1X10" 10 FORMAT_MBUS;
   Format V4L2_MBUS_FMT_SGRBG10_1X10 0 "V4L2_MBUS_FMT_SGRBG10_1X10" "SGRBG10_1X10" 10 FORMAT_MBUS;
   Format V4L2_MBUS_FMT_SRGGB10_1X10 0 "V4L2_MBUS_FMT_SRGGB10_1X10" "SRGGB10_1X10" 10 FORMAT_MBUS;
   Format V4L2_MBUS_FMT_SBGGR8_1X8 0 "V4L2_MBUS_FMT_SBGGR8_1X8" "SBGGR8_1X8" 8 FORMAT_MBUS;
   Format V4L2_MBUS_FMT_SGBRG8_1X8 0 "V4L2_MBUS_FMT_SGBRG8_1X8" "SGBRG8_1X8" 8 FORMAT_MBUS;
   Format V4L2_MBUS_FMT_SGRBG8_1X8 0 "V4L2_MBUS_FMT_SGRBG8_1X8" "SGRBG8_1X8" 8 FORMAT_MBUS;
   Format V4L2_MBUS_FMT_SRGGB8_1X8 0 "V4L2_MBUS_FMT_SRGGB8_1X8" "SRGGB8_1X8" 8 FORMAT_MBUS;
   Format V4L2_MBUS_FMT_UYVY8_1X16 0 "V4L2_MBUS_FMT_UYVY8_1X16" "UYVY8_1X16" 16 FORMAT_MBUS;
   Format V4L2_MBUS_FMT_YUYV8_1X16 0 "V4L2_MBUS_FMT_YUYV8_1X16" "YUYV8_1X16" 16 FORMAT_MBUS;
   Format V4L2_MBUS_FMT_UYVY8_2X8 0 "V4L2_MBUS_FMT_UYVY8_2X8" "UYVY8_2X8" 8 FORMAT_MBUS;
   Format MEDIA_BUS_FMT_RGB888_1X24 0 "MEDIA_BUS_FMT_RGB888_1X24" "RGB888_1X24" 0 FORMAT_MBUS;
   Format MEDIA_BUS_FMT_RGB565_1X16 0 "MEDIA_BUS_FMT_RGB565_1X16" "RGB565_1X16" 0 FORMAT_MBUS;
   Format MEDIA_BUS_FMT_YUYV12_1X24 0 "MEDIA_BUS_FMT_YUYV12_1X24" "YUYV12_1X24" 0 FORMAT_MBUS;
   Format MEDIA_BUS_FMT_SGRBG10_1X10 0 "MEDIA_BUS_FMT_SGRBG10_1X10" "SGRBG10_1X10" 0 FORMAT_MBUS;
   Format MEDIA_BUS_FMT_RGB888_1X32_PADHI 0 "MEDIA_BUS_FMT_RGB888_1X32_PADHI" "RGB888_1X32_PADHI" 0 FORMAT_MBUS;
   Format V4L2_FMT_IPU_ISYS_META 0 "V4L2_FMT_IPU_ISYS_META" "META_DATA" 0 FORMAT_MBUS;
   Format V4L2_PIX_FMT_YUYV420_V32 (GET_FOURCC_FMT "y" "0" "3" "2") "y032" "y032" 24 FORMAT_FOURCC;
   Format V4L2_PIX_FMT_NV12 (GET_FOURCC_FMT "N" "V" "1" "2") "YUV420_8_SP" "NV12" 12 FORMAT_FOURCC;
   Format V4L2_PIX_FMT_NV12 (GET_FOURCC_FMT "N" "V" "2" "1") "YUV420_8_SP_REV" "NV21" 12 FORMAT_FOURCC;
   Format V4L2_PIX_FMT_UYVY (GET_FOURCC_FMT "U" "Y" "V" "Y") "UYVY" "UYVY" 16 FORMAT_FOURCC;
   Format V4L2_PIX_FMT_YUYV (GET_FOURCC_FMT "Y" "U" "Y" "2") "YUV422_8_P64" "YUYV" 16 FORMAT_FOURCC;
   Format V4L2_PIX_FMT_YUV420 (GET_FOURCC_FMT "I" "Y" "U" "V") "YUV420_8_PL" "IYUV" 12 FORMAT_FOURCC;
   Format V4L2_PIX_FMT_P010 (GET_FOURCC_FMT "P" "0" "1" "0") "YUV420_10_SP" "P010" 24 FORMAT_FOURCC;
   Format V4L2_PIX_FMT_SGRBG12V32 (GET_FOURCC_FMT "b" "V" "0" "K") "bV0K" "bV0K" 16 FORMAT_FOURCC;
   Format V4L2_PIX_FMT_SGRBG10V32 (GET_FOURCC_FMT "b" "V" "0" "G") "bV0G" "bV0G" 16 FORMAT_FOURCC;
   Format 0 (GET_FOURCC_FMT "V" "4" "2" "0") "YUV420_10_PL" "V420" 24 FORMAT_FOURCC;
   Format 0 (GET_FOURCC_FMT "C" "S" "L" "6") "GRBG_12_LI" "CSL6" 12 FORMAT_FOURCC;
   Format 0 (GET_FOURCC_FMT "C" "S" "4" "2") "YUV420_12_P64" "CS42" 18 FORMAT_FOURCC;
   Format 0 (GET_FOURCC_FMT "C" "S" "4" "0") "YUV420_10_P64" "CS40" 15 FORMAT_FOURCC;
   Format V4L2_PIX_FMT_SGRBG8 (GET_FOURCC_FMT "G" "R" "B" "G") "GRBG" "GRBG" 8 FORMAT_FOURCC;
   Format V4L2_PIX_FMT_SBGGR10 (GET_FOURCC_FMT "B" "G" "1" "0") "BGGR10" "BG10" 16 FORMAT_FOURCC;
   Format V4L2_PIX_FMT_SGBRG10 (GET_FOURCC_FMT "G" "B" "1" "0") "GBRG10" "GB10" 16 FORMAT_FOURCC;
   Format V4L2_PIX_FMT_SGRBG10 (GET_FOURCC_FMT "B" "A" "1" "0") "GRBG10" "BA10" 16 FORMAT_FOURCC;
   Format V4L2_PIX_FMT_SRGGB10 (GET_FOURCC_FMT "R" "G" "1" "0") "RGGB10" "RG10" 16 FORMAT_FOURCC;
   Format V4L2_PIX_FMT_SGRBG10 (GET_FOURCC_FMT "G" "R" "1" "0") "GRBG10" "GR10" 16 FORMAT_FOURCC;
   Format V4L2_PIX_FMT_SGRBG12 (GET_FOURCC_FMT "B" "A" "1" "2") "GRBG12" "BA12" 16 FORMAT_FOURCC
].

(** ** Lookups

    The first entry that satisfies a test. *)
Fixpoint first_entry (p : FormatInfo -> bool) (l : list FormatInfo) : option FormatInfo :=
  match l with [] => None | e :: rest => if p e then Some e else first_entry p rest end.

Definition has_code (code : Z) (e : FormatInfo) : bool := (v4l2Fmt e =? code) || (iaFourcc e =? code).
Definition has_name (code : string) (e : FormatInfo) : bool := (fullName e =? code)%string || (shortName e =? code)%string.
Definition is_fourcc (e : FormatInfo) : bool := bool_decide (type e = FORMAT_FOURCC).

Definition pixelCode2String (code : Z) : string :=
  match first_entry (has_code code) gFormatMapping with Some e => fullName e | None => "INVALID FORMAT" end.

(** [None] is a null pointer. *)
Definition string2PixelCode (code : option string) : Z :=
  match code with
  | None => -1
  | Some code =>
      match first_entry (fun e => negb (is_fourcc e) && has_name code e) gFormatMapping with Some e => v4l2Fmt e | None => -1 end
  end.

Definition string2IaFourccCode (code : option string) : Z :=
  match code with
  | None => -1
  | Some code =>
      match first_entry (fun e => is_fourcc e && has_name code e) gFormatMapping with Some e => iaFourcc e | None => -1 end
  end.

Definition char_at (format4cc shift : Z) : ascii := ascii_of_nat (Z.to_nat (Z.land (Z.shiftr format4cc shift) 255)).

(** The string up to the first character 0, from the highest byte. *)
Fixpoint to_nul (l : list ascii) : string :=
  match l with [] => "" | c :: rest => if (byte_of c =? 0) then "" else String c (to_nul rest) end.

Definition fourcc2String (format4cc : Z) : string :=
  to_nul [char_at format4cc 24; char_at format4cc 16; char_at format4cc 8; char_at format4cc 0].

Definition format2string (format : Z) : string :=
  match first_entry (has_code format) gFormatMapping with Some e => shortName e | None => fourcc2String format end.

Definition fourcc2UL (str4cc : option string) : Z :=
  match str4cc with
  | Some (String a (String b (String c (String d EmptyString)))) => FOURCC_TO_UL a b c d
  | _ => 0
  end.

Definition planar_formats : list Z :=
  [V4L2_PIX_FMT_NV12; V4L2_PIX_FMT_NV21; V4L2_PIX_FMT_YUV420; V4L2_PIX_FMT_YVU420; V4L2_PIX_FMT_YUV422P;
   V4L2_PIX_FMT_NV16; V4L2_PIX_FMT_P010].

Definition isPlanarFormat (format : Z) : bool := existsb (Z.eqb format) planar_formats.

Definition isRaw (format : Z) : bool :=
  match first_entry (fun e => v4l2Fmt e =? format) gFormatMapping with
  | Some e => bool_decide (type e = FORMAT_RAW_VEC) || bool_decide (type e = FORMAT_RAW)
  | None => false
  end.

Definition getBpp (format : Z) : Z :=
  match first_entry (has_code format) gFormatMapping with Some e => bpp e | None => -1 end.

Definition getPlanarByte (format : Z) : Z :=
  let planarBpp := if format =? V4L2_PIX_FMT_P010 then 10 else 8 in Z.quot (planarBpp + 7) 8.

Definition getV4L2Format (fourcc : Z) : Z :=
  match first_entry (fun e => iaFourcc e =? fourcc) gFormatMapping with Some e => v4l2Fmt e | None => -1 end.

(** ** Lines and frames *)

Definition getStride (format width : Z) : option Z :=
  bits ← int (width * getBpp format);
  bpl ← if isPlanarFormat format then int (width * getPlanarByte format) else Some (Z.quot bits 8);
  _ ← int (bpl + 63);
  Some (ALIGN_64 bpl).

Definition getBpl (format width : Z) : option Z :=
  if format =? GET_FOURCC_FMT "C" "S" "4" "2" then
    words ← int (- Z.div (- width) 84 * 128); Some words
  else if format =? GET_FOURCC_FMT "y" "0" "3" "2" then int (width * 6)
  else if format =? GET_FOURCC_FMT "C" "S" "L" "6" then int (width * 4)
  else if existsb (Z.eqb format)
    [GET_FOURCC_FMT "b" "V" "0" "G"; GET_FOURCC_FMT "V" "4" "2" "0"; GET_FOURCC_FMT "b" "V" "0" "K";
     GET_FOURCC_FMT "B" "A" "1" "0"; GET_FOURCC_FMT "G" "R" "1" "0"; GET_FOURCC_FMT "B" "A" "1" "2";
     GET_FOURCC_FMT "P" "0" "1" "0"; GET_FOURCC_FMT "P" "0" "1" "L"; GET_FOURCC_FMT "T" "0" "1" "0";
     GET_FOURCC_FMT "C" "0" "1" "0"; GET_FOURCC_FMT "Y" "U" "Y" "2"]
  then int (width * 2)
  else Some width.

(** The bytes for the status of the tiles of an image. *)
Definition tile_status (bytes tileSize tsBit : Z) : option Z :=
  bits ← int (Z.quot bytes tileSize * tsBit); _ ← int (bits + 7); Some (CAMHAL_CEIL_DIV bits 8).

Definition aligned (val alignment : Z) : option Z := _ ← int (val + alignment - 1); Some (ALIGN val alignment).

Definition raw_compression_formats : list Z :=
  [V4L2_PIX_FMT_SBGGR8; V4L2_PIX_FMT_SGBRG8; V4L2_PIX_FMT_SGRBG8; V4L2_PIX_FMT_SRGGB8;
   V4L2_PIX_FMT_SBGGR10; V4L2_PIX_FMT_SGBRG10; V4L2_PIX_FMT_SGRBG10; V4L2_PIX_FMT_SRGGB10].

(** Formats with three planes, the lines of the first having [bpl] bytes. *)
Definition psa_frame_size (bpl height : Z) : option Z :=
  alignedBpl ← aligned bpl 256;
  alignedHeight ← aligned height 2;
  let alignWidthUV := Z.quot alignedBpl 2 in
  let alignHeightUV := Z.quot alignedHeight 2 in
  y ← int (alignedBpl * alignedHeight);
  uv ← int (alignWidthUV * alignHeightUV);
  uv2 ← int (uv * 2);
  all ← int (y + uv2);
  imageBufferSize ← aligned all 4096;
  ys ← tile_status y 256 2;
  planarYTileStatus ← aligned ys 4096;
  uvs ← tile_status uv 128 1;
  planarUVTileStatus ← aligned uvs 4096;
  a ← int (imageBufferSize + planarYTileStatus);
  b ← int (planarUVTileStatus * 2);
  int (a + b).

(** Formats with two planes. *)
Definition tnr_frame_size (bpl height heightAlignment tsBit tileSize : Z) : option Z :=
  alignedBpl ← aligned bpl 128;
  alignedHeight ← aligned height heightAlignment;
  alignedHeightUV ← aligned (Z.quot height 2) heightAlignment;
  rows ← int (alignedHeight + alignedHeightUV);
  all ← int (alignedBpl * rows);
  imageBufferSize ← aligned all 4096;
  y ← int (alignedBpl * alignedHeight);
  ys ← tile_status y tileSize tsBit;
  planarYTileStatus ← aligned ys 4096;
  uv ← int (alignedBpl * alignedHeightUV);
  uvs ← tile_status uv tileSize tsBit;
  planarUVTileStatus ← aligned uvs 4096;
  a ← int (imageBufferSize + planarYTileStatus);
  int (a + planarUVTileStatus).

Definition getCompressedFrameSize (format width height : Z) : option Z :=
  if existsb (Z.eqb format) raw_compression_formats then
    stride ← getStride format width;
    alignedBpl ← aligned stride 512;
    alignedHeight ← aligned height 1;
    bytes ← int (alignedBpl * alignedHeight);
    imageBufferSize ← aligned bytes 4096;
    status ← tile_status bytes 512 4;
    singleTileStatusSize ← aligned status 4096;
    int (imageBufferSize + singleTileStatusSize)
  else if format =? GET_FOURCC_FMT "V" "4" "2" "0" then bpl ← int (width * 2); psa_frame_size bpl height
  else if format =? GET_FOURCC_FMT "I" "Y" "U" "V" then psa_frame_size width height
  else if format =? V4L2_PIX_FMT_NV12 then tnr_frame_size width height 4 4 512
  else if format =? V4L2_PIX_FMT_P010 then bpl ← int (width * 2); tnr_frame_size bpl height 32 8 256
  else Some 0.

Definition getFrameSize (format width height : Z) (needAlignedHeight needExtraSize needCompression : bool) : option Z :=
  alignedBpl ← getStride format width;
  height ← if needAlignedHeight then aligned height 64 else Some height;
  bufferHeight ← if isPlanarFormat format
                 then bits ← int (height * getBpp format); Some (Z.quot (Z.quot bits 8) (getPlanarByte format))
                 else Some height;
  if negb needExtraSize then int (alignedBpl * bufferHeight) else
  if needCompression then getCompressedFrameSize format width height else
  extraSize ← if isPlanarFormat format
              then bits ← int (alignedBpl * getBpp format); Some (Z.quot (Z.quot bits 8) (getPlanarByte format))
              else Some alignedBpl;
  all ← int (alignedBpl * bufferHeight);
  int (all + Z.max extraSize 1024).

Definition getNumOfPlanes (format : Z) : Z := 1.

Definition V4L2_FIELD_TOP : Z := 2.
Definition V4L2_FIELD_BOTTOM : Z := 3.
Definition V4L2_FIELD_ALTERNATE : Z := 7.

Definition SINGLE_FIELD (field : Z) : bool :=
  (field =? V4L2_FIELD_TOP) || (field =? V4L2_FIELD_BOTTOM) || (field =? V4L2_FIELD_ALTERNATE).

Definition getInterlaceHeight (field height : Z) : Z := if SINGLE_FIELD field then Z.quot height 2 else height.

Definition getMBusFormat (isysFmt : Z) : Z :=
  if existsb (Z.eqb isysFmt) [V4L2_PIX_FMT_UYVY; V4L2_PIX_FMT_NV16] then V4L2_MBUS_FMT_UYVY8_1X16
  else if isysFmt =? V4L2_PIX_FMT_YUYV then V4L2_MBUS_FMT_YUYV8_1X16
  else if existsb (Z.eqb isysFmt) [V4L2_PIX_FMT_BGR24; V4L2_PIX_FMT_XBGR32] then MEDIA_BUS_FMT_RGB888_1X24
  else if existsb (Z.eqb isysFmt) [V4L2_PIX_FMT_RGB565; V4L2_PIX_FMT_XRGB32] then MEDIA_BUS_FMT_RGB565_1X16
  else if isysFmt =? V4L2_PIX_FMT_SGRBG8 then V4L2_MBUS_FMT_SGRBG8_1X8
  else 0.

(** ** Aligning and the table *)

Lemma ALIGN_spec x k : 0 <= k -> ALIGN x (2 ^ k) = 2 ^ k * ((x + 2 ^ k - 1) / 2 ^ k).
Proof.
  intros Hk. unfold ALIGN. replace (2 ^ k - 1) with (Z.ones k) by (rewrite Z.ones_equiv; lia).
  change (Z.land ?a (Z.lnot ?b)) with (Z.land a (Z.lnot b)). rewrite <- Z.ldiff_land, Z.ldiff_ones_r by done.
  rewrite Z.shiftl_mul_pow2, Z.shiftr_div_pow2 by done. lia.
Qed.

Lemma ALIGN_range x k a : 0 <= k -> a = 2 ^ k -> x <= ALIGN x a < x + a /\ ALIGN x a mod a = 0.
Proof.
  intros Hk ->. rewrite ALIGN_spec by done. pose proof (Z.pow_pos_nonneg 2 k ltac:(lia) Hk). split.
  - pose proof (Z.div_mod (x + 2 ^ k - 1) (2 ^ k) ltac:(lia)). pose proof (Z.mod_pos_bound (x + 2 ^ k - 1) (2 ^ k) ltac:(lia)). lia.
  - rewrite Z.mul_comm. apply Z.mod_mul. lia.
Qed.

Lemma int_in x : - 2 ^ 31 <= x < 2 ^ 31 -> int x = Some x.
Proof. intros. unfold int. destruct (Z.leb_spec (- 2 ^ 31) x); [|lia]. destruct (Z.ltb_spec x (2 ^ 31)); [done|lia]. Qed.

Lemma aligned_in x k a : 0 <= k -> a = 2 ^ k -> 0 <= x -> x + a < 2 ^ 31 -> exists y, aligned x a = Some y /\ x <= y < x + a /\ y mod a = 0.
Proof.
  intros Hk Ha Hx Hb. pose proof (Z.pow_pos_nonneg 2 k ltac:(lia) Hk). unfold aligned. rewrite int_in by lia.
  eexists. split; [reflexivity|]. by apply (ALIGN_range x k a).
Qed.

Lemma first_entry_in p l e : first_entry p l = Some e -> e ∈ l /\ p e = true.
Proof.
  induction l as [|x l IH]; simpl; [done|]. destruct (p x) eqn:Hp; [intros [= <-]; split; [left|done]|].
  intros He. destruct (IH He). split; [by right|done].
Qed.

Lemma bpp_bounds : Forall (fun e => 0 <= bpp e <= 32) gFormatMapping.
Proof. unfold gFormatMapping. repeat constructor; simpl; lia. Qed.

Lemma getBpp_max f : getBpp f <= 32.
Proof.
  unfold getBpp. destruct (first_entry _ _) as [e|] eqn:He; [|lia]. apply first_entry_in in He as [He _].
  pose proof (proj1 (Forall_forall _ _) bpp_bounds _ He) as Hb. simpl in Hb. lia.
Qed.

Lemma planar_cases f : isPlanarFormat f = true ->
  (getBpp f = 12 /\ getPlanarByte f = 1) \/ (getBpp f = 16 /\ getPlanarByte f = 1) \/ (getBpp f = 24 /\ getPlanarByte f = 2).
Proof.
  unfold isPlanarFormat. intros Hp. apply existsb_exists in Hp as (x & Hin & Heq). apply Z.eqb_eq in Heq. subst x.
  repeat (destruct Hin as [<-|Hin]; [first [left; split; reflexivity|right; left; split; reflexivity|right; right; split; reflexivity]|]). destruct Hin.
Qed.

(** ** Sizes *)

(** The bytes of a line that belong to the first plane. *)
Definition line_bits (f w : Z) : Z := if isPlanarFormat f then 8 * w * getPlanarByte f else w * getBpp f.

Lemma stride_covers f w : 0 < getBpp f -> 0 < w <= 8192 ->
  exists s, getStride f w = Some s /\ s mod 64 = 0 /\ line_bits f w - 7 <= 8 * s /\ 0 <= s <= 32831
    /\ ((w * getBpp f) mod 8 = 0 -> line_bits f w <= 8 * s) /\ (isPlanarFormat f = true -> s <= 16447).
Proof.
  intros Hb Hw. pose proof (getBpp_max f) as Hmax. unfold getStride, line_bits.
  assert (Hbits : 0 <= w * getBpp f <= 262144) by (split; [nia|]; transitivity (8192 * getBpp f); [apply Z.mul_le_mono_nonneg_r; lia|lia]).
  rewrite (int_in (w * getBpp f)) by lia. cbn [mbind option_bind]. unfold ALIGN_64.
  destruct (isPlanarFormat f) eqn:Hp.
  - assert (1 <= getPlanarByte f <= 2) by (destruct (planar_cases f Hp) as [[_ ->]|[[_ ->]|[_ ->]]]; lia).
    assert (0 <= w * getPlanarByte f <= 16384) by (split; [nia|]; transitivity (8192 * getPlanarByte f); [apply Z.mul_le_mono_nonneg_r; lia|lia]).
    rewrite int_in by lia. cbn [mbind option_bind]. rewrite int_in by lia. cbn [mbind option_bind].
    destruct (ALIGN_range (w * getPlanarByte f) 6 64 ltac:(lia) eq_refl) as [[? ?] ?].
    eexists. split; [reflexivity|]. split; [done|]. split_and!; try lia; intros; lia.
  - cbn [mbind option_bind]. rewrite Z.quot_div_nonneg in * by lia. pose proof (Z.div_mod (w * getBpp f) 8 ltac:(lia)).
    pose proof (Z.mod_pos_bound (w * getBpp f) 8 ltac:(lia)). rewrite int_in by lia. cbn [mbind option_bind].
    destruct (ALIGN_range (w * getBpp f / 8) 6 64 ltac:(lia) eq_refl) as [[? ?] ?].
    eexists. split; [reflexivity|]. split; [done|]. split_and!; try lia; intros; lia || done.
Qed.

(** The rows a frame is given, in lines of the first plane. *)
Definition rows (f h : Z) : Z := if isPlanarFormat f then h * getBpp f / 8 / getPlanarByte f else h.

Lemma rows_cover f h : 0 < getBpp f -> 0 < h <= 8192 ->
  h <= rows f h <= 16384 /\ (isPlanarFormat f = true -> h * getBpp f - 8 * getPlanarByte f < 8 * getPlanarByte f * rows f h)
  /\ (Z.even h = true -> isPlanarFormat f = true -> h * getBpp f <= 8 * getPlanarByte f * rows f h).
Proof.
  intros Hb Hh. unfold rows. destruct (isPlanarFormat f) eqn:Hp; [|split_and!; try done; lia].
  assert (Hev : Z.even h = true -> h = 2 * (h / 2)).
  { intros He. apply Z.even_spec in He as [m ->]. rewrite Z.mul_comm, Z.div_mul; lia. }
  destruct (planar_cases f Hp) as [[-> ->]|[[-> ->]|[-> ->]]]; rewrite ?Z.div_1_r;
    (split_and!; [Z.div_mod_to_equations; lia..| |]); intros; try specialize (Hev ltac:(done)); Z.div_mod_to_equations; lia.
Qed.

Lemma used_height (al : bool) h : 0 < h <= 8192 ->
  exists h', (if al then aligned h 64 else Some h) = Some h' /\ h <= h' <= 8192 /\ (al = true \/ Z.even h = true -> Z.even h' = true).
Proof.
  intros Hh. destruct al.
  - destruct (aligned_in h 6 64 ltac:(lia) eq_refl ltac:(lia) ltac:(lia)) as (h' & -> & ? & Hm). exists h'. split; [done|].
    pose proof (Z.div_mod h' 64 ltac:(lia)). split; [lia|]. intros _. apply Z.even_spec. exists (32 * (h' / 64)). lia.
  - exists h. split; [done|]. split; [lia|]. intros [|]; done.
Qed.

Lemma quot_twice a b : 0 <= a -> 0 < b -> Z.quot (Z.quot a 8) b = a / 8 / b.
Proof. intros. rewrite Z.quot_div_nonneg by (try apply Z.quot_pos; lia). by rewrite Z.quot_div_nonneg by lia. Qed.

Lemma plain_size f w h h' (al ex : bool) s : 0 < getBpp f -> 0 < h' <= 8192 -> getStride f w = Some s -> 0 <= s <= 32831 ->
  (isPlanarFormat f = true -> s <= 16447) -> (if al then aligned h 64 else Some h) = Some h' ->
  exists n, getFrameSize f w h al ex false = Some n /\ s * rows f h' <= n /\ (ex = true -> s * rows f h' + s <= n).
Proof.
  intros Hb Hh Hs Hsr Hsp Hal. destruct (rows_cover f h' Hb Hh) as [Hr _]. pose proof (getBpp_max f) as Hmax.
  assert (Hsize : 0 <= s * rows f h' <= 537903104).
  { split; [nia|]. unfold rows in *. destruct (isPlanarFormat f).
    - specialize (Hsp eq_refl). transitivity (16447 * 16384); [apply Z.mul_le_mono_nonneg; lia|lia].
    - transitivity (32831 * 8192); [apply Z.mul_le_mono_nonneg; lia|lia]. }
  unfold getFrameSize. rewrite Hs. cbn [mbind option_bind]. rewrite Hal. cbn [mbind option_bind]. unfold rows in *.
  destruct (isPlanarFormat f) eqn:Hp.
  - specialize (Hsp eq_refl). assert (Hpb : 1 <= getPlanarByte f <= 2 /\ 8 * getPlanarByte f <= getBpp f <= 24)
      by (destruct (planar_cases f Hp) as [[-> ->]|[[-> ->]|[-> ->]]]; lia).
    assert (Hhb : 0 <= h' * getBpp f <= 262144) by (split; [nia|]; transitivity (8192 * 32); [apply Z.mul_le_mono_nonneg; lia|lia]).
    rewrite (int_in (h' * getBpp f)) by lia. cbn [mbind option_bind]. rewrite (quot_twice (h' * getBpp f)) by lia.
    set (r := h' * getBpp f / 8 / getPlanarByte f) in *. destruct ex; cbn [negb].
    + assert (Hsb : 0 <= s * getBpp f <= 526304) by (split; [nia|]; transitivity (16447 * 32); [apply Z.mul_le_mono_nonneg; lia|lia]).
      rewrite (int_in (s * getBpp f)) by lia. cbn [mbind option_bind].
      rewrite (quot_twice (s * getBpp f)) by lia.
      assert (He : s <= s * getBpp f / 8 / getPlanarByte f <= 526304).
      { rewrite Z.div_div by lia. split; [apply Z.div_le_lower_bound; nia|]. apply Z.div_le_upper_bound; nia. }
      rewrite (int_in (s * r)) by lia. cbn [mbind option_bind]. rewrite int_in by lia. eexists. split; [reflexivity|]. lia.
    + rewrite int_in by lia. eexists. split; [reflexivity|]. split; [lia|done].
  - cbn [mbind option_bind]. destruct ex; cbn [negb mbind option_bind].
    + rewrite (int_in (s * h')) by lia. cbn [mbind option_bind]. rewrite int_in by lia. eexists. split; [reflexivity|]. lia.
    + rewrite int_in by lia. eexists. split; [reflexivity|]. split; [lia|done].
Qed.

(** C23: the size of a frame, for the formats with a known number of bits and
    for sides up to 8192: nothing overflows, a line is a multiple of 64 bytes,
    and the frame has room for all lines and all its bits.  The bits of a line
    have to fill its last byte, and an odd number of lines needs the extra
    size. *)
Theorem frame_size_covers f w h (al ex : bool) :
  0 < getBpp f -> 0 < w <= 8192 -> 0 < h <= 8192 -> (w * getBpp f) mod 8 = 0 -> ex = true \/ al = true \/ Z.even h = true ->
  exists s n, getStride f w = Some s /\ getFrameSize f w h al ex false = Some n
    /\ s mod 64 = 0 /\ h * s <= n /\ w * h * getBpp f <= 8 * n.
Proof.
  intros Hb Hw Hh Hwb Hcase. destruct (stride_covers f w Hb Hw) as (s & Hs & Hm & _ & Hsr & Hline & Hsp). specialize (Hline Hwb).
  destruct (used_height al h Hh) as (h' & Hal & Hh' & Hev).
  destruct (plain_size f w h h' al ex s Hb ltac:(lia) Hs Hsr Hsp Hal) as (n & Hn & Hn1 & Hn2).
  exists s, n. split_and!; [done..| |].
  - destruct (rows_cover f h' Hb ltac:(lia)) as [Hr _]. nia.
  - destruct (rows_cover f h' Hb ltac:(lia)) as [Hr [Hodd Heven]]. unfold line_bits in Hline.
    assert (Hm' : w * h * getBpp f <= w * (h' * getBpp f)) by nia.
    destruct (isPlanarFormat f) eqn:Hp.
    + assert (w * getPlanarByte f <= s) by lia.
      assert (0 < getPlanarByte f) by (destruct (planar_cases f Hp) as [[_ ->]|[[_ ->]|[_ ->]]]; lia).
      destruct (Z.even h') eqn:He.
      * specialize (Heven eq_refl eq_refl). transitivity (w * (8 * getPlanarByte f * rows f h')); [nia|]. nia.
      * assert (ex = true) as Hex by (destruct Hcase as [?|?]; [done|]; discriminate Hev; done).
        specialize (Hodd eq_refl). specialize (Hn2 Hex).
        transitivity (w * (8 * getPlanarByte f * (rows f h' + 1))); [nia|]. nia.
    + unfold rows in *. rewrite Hp in *. nia.
Qed.

Lemma tile_status_in bytes tileSize tsBit : 0 <= bytes <= 2 ^ 30 -> 128 <= tileSize -> 0 <= tsBit <= 8 ->
  exists st, tile_status bytes tileSize tsBit = Some st /\ 0 <= st <= 2 ^ 24.
Proof.
  intros Hb Ht Hs. unfold tile_status, CAMHAL_CEIL_DIV. rewrite (Z.quot_div_nonneg bytes) by lia.
  assert (0 <= bytes / tileSize <= 2 ^ 23) by (split; [apply Z.div_pos; lia|apply Z.div_le_upper_bound; lia]).
  assert (0 <= bytes / tileSize * tsBit <= 2 ^ 26) by nia.
  rewrite int_in by lia. cbn [mbind option_bind]. rewrite int_in by lia. eexists. split; [reflexivity|].
  rewrite Z.quot_div_nonneg by lia. split; [apply Z.div_pos; lia|apply Z.div_le_upper_bound; lia].
Qed.

(** The pages of the image and of the status of its tiles. *)
Lemma status_pages bytes tileSize tsBit : 0 <= bytes <= 2 ^ 30 -> 128 <= tileSize -> 0 <= tsBit <= 8 ->
  exists st n, tile_status bytes tileSize tsBit = Some st /\ aligned st 4096 = Some n /\ 0 <= n <= 2 ^ 25 /\ n mod 4096 = 0.
Proof.
  intros Hb Ht Hs. destruct (tile_status_in bytes tileSize tsBit Hb Ht Hs) as (st & ? & ?).
  destruct (aligned_in st 12 4096 ltac:(lia) eq_refl ltac:(lia) ltac:(lia)) as (n & ? & ? & ?). exists st, n. split_and!; try done; lia.
Qed.

Lemma image_pages bytes : 0 <= bytes <= 2 ^ 30 -> exists n, aligned bytes 4096 = Some n /\ bytes <= n <= 2 ^ 30 + 4096 /\ n mod 4096 = 0.
Proof.
  intros Hb. destruct (aligned_in bytes 12 4096 ltac:(lia) eq_refl ltac:(lia) ltac:(lia)) as (n & ? & ? & ?).
  exists n. split_and!; try done; lia.
Qed.

Lemma pages_add a b : a mod 4096 = 0 -> b mod 4096 = 0 -> (a + b) mod 4096 = 0.
Proof. intros. Z.div_mod_to_equations. lia. Qed.

Definition yuv_compression_formats : list Z :=
  [GET_FOURCC_FMT "V" "4" "2" "0"; GET_FOURCC_FMT "I" "Y" "U" "V"; V4L2_PIX_FMT_NV12; V4L2_PIX_FMT_P010].

Lemma raw_compressed f w h : existsb (Z.eqb f) raw_compression_formats = true -> 0 < w <= 8192 -> 0 < h <= 8192 ->
  exists n, getCompressedFrameSize f w h = Some n /\ n mod 4096 = 0 /\ w * h * getBpp f <= 8 * n.
Proof.
  intros Hraw Hw Hh. unfold getCompressedFrameSize. rewrite Hraw.
  assert (Hf : isPlanarFormat f = false /\ (getBpp f = 8 \/ getBpp f = 16)).
  { apply existsb_exists in Hraw as (x & Hin & Heq). apply Z.eqb_eq in Heq. subst x.
    repeat (destruct Hin as [<-|Hin]; [split; [reflexivity|first [left; reflexivity|right; reflexivity]]|]). destruct Hin. }
  destruct Hf as [Hp Hb]. destruct (stride_covers f w ltac:(lia) Hw) as (s & -> & _ & _ & Hs & Hline & _).
  unfold line_bits in Hline. rewrite Hp in Hline.
  specialize (Hline ltac:(destruct Hb as [->| ->]; [apply Z.mod_mul; lia|]; replace (w * 16) with (w * 2 * 8) by lia; apply Z.mod_mul; lia)).
  cbn [mbind option_bind].
  destruct (aligned_in s 9 512 ltac:(lia) eq_refl ltac:(lia) ltac:(lia)) as (b & -> & Hb' & _). cbn [mbind option_bind].
  destruct (aligned_in h 0 1 ltac:(lia) eq_refl ltac:(lia) ltac:(lia)) as (h' & -> & Hh' & _). cbn [mbind option_bind].
  assert (h' = h) by lia. subst h'. assert (0 <= b * h <= 2 ^ 30) by (split; [nia|]; transitivity (33343 * 8192); [apply Z.mul_le_mono_nonneg; lia|lia]).
  rewrite (int_in (b * h)) by lia. cbn [mbind option_bind].
  destruct (image_pages (b * h) ltac:(lia)) as (im & -> & ? & ?). cbn [mbind option_bind].
  destruct (status_pages (b * h) 512 4 ltac:(lia) ltac:(lia) ltac:(lia)) as (st & n & -> & Hn & ? & ?). cbn [mbind option_bind].
  rewrite Hn. cbn [mbind option_bind]. rewrite int_in by lia. eexists. split; [reflexivity|]. split; [by apply pages_add|]. nia.
Qed.

Lemma psa_size bpl h : 0 < bpl <= 16384 -> 0 < h <= 8192 ->
  exists n, psa_frame_size bpl h = Some n /\ n mod 4096 = 0 /\ 3 * bpl * h <= 2 * n.
Proof.
  intros Hb Hh. unfold psa_frame_size.
  destruct (aligned_in bpl 8 256 ltac:(lia) eq_refl ltac:(lia) ltac:(lia)) as (b & -> & Hb' & Hbm). cbn [mbind option_bind].
  destruct (aligned_in h 1 2 ltac:(lia) eq_refl ltac:(lia) ltac:(lia)) as (h' & -> & Hh' & Hhm). cbn [mbind option_bind].
  assert (Hb2 : b = 2 * (b / 2)) by (Z.div_mod_to_equations; lia). assert (Hh2 : h' = 2 * (h' / 2)) by (Z.div_mod_to_equations; lia).
  rewrite !Z.quot_div_nonneg by lia. set (u := b / 2) in *. set (v := h' / 2) in *.
  assert (Huv : 0 <= u * v <= 34095360) by (split; [nia|]; transitivity (8320 * 4098); [apply Z.mul_le_mono_nonneg; lia|lia]).
  assert (Hy : b * h' = 4 * (u * v)) by nia. rewrite Hy.
  rewrite (int_in (4 * (u * v))) by lia. cbn [mbind option_bind].
  rewrite (int_in (u * v)) by lia. cbn [mbind option_bind]. rewrite (int_in (u * v * 2)) by lia. cbn [mbind option_bind].
  rewrite int_in by lia. cbn [mbind option_bind].
  destruct (image_pages (4 * (u * v) + u * v * 2) ltac:(lia)) as (im & -> & ? & ?). cbn [mbind option_bind].
  destruct (status_pages (4 * (u * v)) 256 2 ltac:(lia) ltac:(lia) ltac:(lia)) as (? & n1 & -> & Hn1 & ? & ?).
  destruct (status_pages (u * v) 128 1 ltac:(lia) ltac:(lia) ltac:(lia)) as (? & n2 & -> & Hn2 & ? & ?).
  cbn [mbind option_bind]. rewrite Hn1. cbn [mbind option_bind]. rewrite Hn2. cbn [mbind option_bind].
  rewrite (int_in (im + n1)) by lia. cbn [mbind option_bind]. rewrite (int_in (n2 * 2)) by lia. cbn [mbind option_bind].
  rewrite int_in by lia. eexists. split; [reflexivity|]. split.
  - repeat apply pages_add; try done. replace (n2 * 2) with (n2 + n2) by lia. by apply pages_add.
  - assert (bpl * h <= b * h') by (apply Z.mul_le_mono_nonneg; lia). lia.
Qed.

Lemma tnr_size bpl h k a tsBit tileSize : 0 < bpl <= 16384 -> 0 < h <= 8192 -> 1 <= k <= 5 -> a = 2 ^ k ->
  128 <= tileSize -> 0 <= tsBit <= 8 ->
  exists n, tnr_frame_size bpl h a tsBit tileSize = Some n /\ n mod 4096 = 0 /\ 3 * bpl * h <= 2 * n.
Proof.
  intros Hb Hh Hk Ha Ht Hs. unfold tnr_frame_size.
  assert (Ha' : 2 <= a <= 32) by (subst a; split; [apply (Z.pow_le_mono_r 2 1); lia|apply (Z.pow_le_mono_r 2 k 5); lia]).
  assert (Heven : a mod 2 = 0) by (subst a; replace k with (1 + (k - 1)) by lia; rewrite Z.pow_add_r by lia; rewrite Z.mul_comm; apply Z.mod_mul; lia).
  destruct (aligned_in bpl 7 128 ltac:(lia) eq_refl ltac:(lia) ltac:(lia)) as (b & -> & Hb' & _). cbn [mbind option_bind].
  destruct (aligned_in h k a ltac:(lia) Ha ltac:(lia) ltac:(lia)) as (y & -> & Hy & Hym). cbn [mbind option_bind].
  rewrite Z.quot_div_nonneg by lia. assert (0 <= h / 2 <= 4096 /\ h <= 2 * (h / 2) + 1) by (Z.div_mod_to_equations; lia).
  destruct (aligned_in (h / 2) k a ltac:(lia) Ha ltac:(lia) ltac:(lia)) as (u & -> & Hu & _). cbn [mbind option_bind].
  assert (Hyeven : y mod 2 = 0).
  { apply Z.mod_divide in Hym; [|lia]. apply Z.mod_divide in Heven; [|lia]. apply Z.mod_divide; [lia|]. by transitivity a. }
  assert (Hrows : 3 * h <= 2 * (y + u)) by (Z.div_mod_to_equations; lia).
  rewrite (int_in (y + u)) by lia. cbn [mbind option_bind].
  assert (0 <= b * (y + u) <= 206036736) by (split; [nia|]; transitivity (16512 * 12478); [apply Z.mul_le_mono_nonneg; lia|lia]).
  assert (0 <= b * y <= b * (y + u) /\ 0 <= b * u <= b * (y + u)) by nia.
  rewrite (int_in (b * (y + u))) by lia. cbn [mbind option_bind].
  destruct (image_pages (b * (y + u)) ltac:(lia)) as (im & -> & ? & ?). cbn [mbind option_bind].
  rewrite (int_in (b * y)) by lia. cbn [mbind option_bind].
  destruct (status_pages (b * y) tileSize tsBit ltac:(lia) ltac:(lia) ltac:(lia)) as (? & n1 & -> & Hn1 & ? & ?).
  destruct (status_pages (b * u) tileSize tsBit ltac:(lia) ltac:(lia) ltac:(lia)) as (? & n2 & Hn2' & Hn2 & ? & ?).
  cbn [mbind option_bind]. rewrite Hn1. cbn [mbind option_bind]. rewrite (int_in (b * u)) by lia. cbn [mbind option_bind].
  rewrite Hn2'. cbn [mbind option_bind]. rewrite Hn2. cbn [mbind option_bind].
  rewrite (int_in (im + n1)) by lia. cbn [mbind option_bind]. rewrite int_in by lia.
  eexists. split; [reflexivity|]. split; [by repeat apply pages_add|].
  assert (bpl * (3 * h) <= b * (2 * (y + u))) by (apply Z.mul_le_mono_nonneg; lia). lia.
Qed.

Lemma yuv_compressed f w h : existsb (Z.eqb f) yuv_compression_formats = true -> 0 < w <= 8192 -> 0 < h <= 8192 ->
  exists n, getCompressedFrameSize f w h = Some n /\ n mod 4096 = 0 /\ w * h * getBpp f <= 8 * n.
Proof.
  intros Hf Hw Hh. apply existsb_exists in Hf as (x & Hin & Heq). apply Z.eqb_eq in Heq. subst x.
  unfold getCompressedFrameSize. destruct Hin as [<-|[<-|[<-|[<-|[]]]]]; cbn -[Z.mul psa_frame_size tnr_frame_size int getBpp].
  - rewrite int_in by lia. cbn [mbind option_bind]. destruct (psa_size (w * 2) h ltac:(lia) Hh) as (n & -> & ? & ?).
    exists n. split_and!; [done..|]. change (getBpp _) with 24. lia.
  - destruct (psa_size w h ltac:(lia) Hh) as (n & -> & ? & ?). exists n. split_and!; [done..|]. change (getBpp _) with 12. lia.
  - destruct (tnr_size w h 2 4 4 512 ltac:(lia) Hh ltac:(lia) eq_refl ltac:(lia) ltac:(lia)) as (n & -> & ? & ?).
    exists n. split_and!; [done..|]. change (getBpp _) with 12. lia.
  - rewrite int_in by lia. cbn [mbind option_bind].
    destruct (tnr_size (w * 2) h 5 32 8 256 ltac:(lia) Hh ltac:(lia) eq_refl ltac:(lia) ltac:(lia)) as (n & -> & ? & ?).
    exists n. split_and!; [done..|]. change (getBpp _) with 24. lia.
Qed.

Lemma compressed_call f w h : 0 < getBpp f -> 0 < w <= 8192 -> 0 < h <= 8192 ->
  getFrameSize f w h false true true = getCompressedFrameSize f w h.
Proof.
  intros Hb Hw Hh. destruct (stride_covers f w Hb Hw) as (s & Hs & _). pose proof (getBpp_max f).
  unfold getFrameSize. rewrite Hs. cbn [mbind option_bind negb].
  assert (0 <= h * getBpp f <= 262144) by (split; [nia|]; transitivity (8192 * 32); [apply Z.mul_le_mono_nonneg; lia|lia]).
  destruct (isPlanarFormat f); [rewrite (int_in (h * getBpp f)) by lia|]; reflexivity.
Qed.

(** The size of a compressed frame is a number of whole pages, and has room
    for the frame even if nothing could be compressed. *)
Theorem compressed_size_covers f w h :
  existsb (Z.eqb f) (raw_compression_formats ++ yuv_compression_formats) = true -> 0 < w <= 8192 -> 0 < h <= 8192 ->
  exists n, getFrameSize f w h false true true = Some n /\ n mod 4096 = 0 /\ w * h * getBpp f <= 8 * n.
Proof.
  intros Hf Hw Hh. rewrite compressed_call by (try done; clear Hw Hh; apply existsb_exists in Hf as (x & Hin & Heq);
    apply Z.eqb_eq in Heq; subst x; repeat (destruct Hin as [<-|Hin]; [reflexivity|]); destruct Hin).
  rewrite existsb_app in Hf. apply orb_true_iff in Hf as [Hf|Hf]; [by apply raw_compressed|by apply yuv_compressed].
Qed.

(** When the bits of a line do not fill its last byte, that byte may be
    missing: a line of 205 pixels of 10 bits has 2050 bits, its stride is 256
    bytes. *)
Theorem stride_cuts_bits : getStride V4L2_PIX_FMT_SBGGR10P 205 = Some 256 /\ 205 * getBpp V4L2_PIX_FMT_SBGGR10P > 8 * 256.
Proof. vm_compute. auto. Qed.

(** Without the extra size a frame of two planes with an odd number of
    lines has no room for the last half line of its second plane. *)
Theorem odd_height_short w h n : 0 < w <= 8192 -> w mod 64 = 0 -> 0 < h <= 8192 -> Z.odd h = true ->
  getFrameSize V4L2_PIX_FMT_NV12 w h false false false = Some n -> 8 * n < w * h * getBpp V4L2_PIX_FMT_NV12.
Proof.
  intros Hw Hm Hh Hodd Hn. assert (Hs : getStride V4L2_PIX_FMT_NV12 w = Some w).
  { unfold getStride. change (getBpp _) with 12. change (isPlanarFormat _) with true. change (getPlanarByte _) with 1. cbv iota.
    rewrite (int_in (w * 12)) by lia. cbn [mbind option_bind]. rewrite (int_in (w * 1)) by lia. cbn [mbind option_bind].
    rewrite (int_in (w * 1 + 63)) by lia. cbn [mbind option_bind]. f_equal. destruct (ALIGN_range (w * 1) 6 64 ltac:(lia) eq_refl) as [Hr Ha].
    unfold ALIGN_64. Z.div_mod_to_equations. lia. }
  unfold getFrameSize in Hn. rewrite Hs in Hn. cbn [mbind option_bind negb] in Hn. change (getBpp _) with 12 in *.
  change (isPlanarFormat _) with true in Hn. change (getPlanarByte _) with 1 in Hn. cbv iota in Hn.
  rewrite (int_in (h * 12)) in Hn by lia. cbn [mbind option_bind] in Hn. rewrite quot_twice, Z.div_1_r in Hn by lia.
  assert (Hh2 : 2 * (h * 12 / 8) + 1 = 3 * h).
  { apply Z.odd_spec in Hodd as [m ->]. Z.div_mod_to_equations. lia. }
  unfold int in Hn. destruct ((_ <=? _) && _); simplify_eq. nia.
Qed.

(** ** Names *)

(** Names of formats are read back: a V4L2 format of the table is found
    again by the name that is printed for it, in full or short, and by the names
    of its entry. *)
Theorem pixel_code_round_trip e : e ∈ gFormatMapping -> type e <> FORMAT_FOURCC ->
  string2PixelCode (Some (pixelCode2String (v4l2Fmt e))) = v4l2Fmt e
  /\ string2PixelCode (Some (format2string (v4l2Fmt e))) = v4l2Fmt e
  /\ string2PixelCode (Some (fullName e)) = v4l2Fmt e /\ string2PixelCode (Some (shortName e)) = v4l2Fmt e.
Proof.
  set (ok e := is_fourcc e || ((string2PixelCode (Some (pixelCode2String (v4l2Fmt e))) =? v4l2Fmt e)
    && (string2PixelCode (Some (format2string (v4l2Fmt e))) =? v4l2Fmt e)
    && (string2PixelCode (Some (fullName e)) =? v4l2Fmt e) && (string2PixelCode (Some (shortName e)) =? v4l2Fmt e))).
  assert (Hall : forallb ok gFormatMapping = true) by (vm_compute; reflexivity).
  intros He Ht. apply list_elem_of_In in He. pose proof (proj1 (forallb_forall _ _) Hall e He) as Hok. unfold ok in Hok.
  unfold is_fourcc in Hok. rewrite bool_decide_false in Hok by done. cbn [orb] in Hok.
  rewrite !andb_true_iff, !Z.eqb_eq in Hok. tauto.
Qed.

Lemma byte_of_bits c n : 8 <= n -> Z.testbit (byte_of c) n = false.
Proof.
  intros Hn. assert (0 <= byte_of c < 2 ^ 8) by (unfold byte_of; pose proof (nat_ascii_bounded c); lia).
  destruct (decide (byte_of c = 0)) as [->|]; [apply Z.testbit_0_l|].
  apply Z.bits_above_log2; [lia|]. apply Z.log2_lt_pow2; [lia|]. assert (2 ^ 8 <= 2 ^ n) by (apply Z.pow_le_mono_r; lia). lia.
Qed.

Lemma fourcc_byte a b c d i x : [a; b; c; d] !! i = Some x -> char_at (v4l2_fourcc a b c d) (8 * Z.of_nat i) = x.
Proof.
  intros Hi. assert (Hb : Z.land (Z.shiftr (v4l2_fourcc a b c d) (8 * Z.of_nat i)) 255 = byte_of x).
  { apply Z.bits_inj'. intros n Hn. rewrite Z.land_spec, Z.shiftr_spec by lia. change 255 with (Z.ones 8).
    destruct (decide (n < 8)) as [Hlt|Hge].
    - rewrite Z.ones_spec_low, andb_true_r by lia. unfold v4l2_fourcc. rewrite !Z.lor_spec, !Z.shiftl_spec by lia.
      destruct i as [|[|[|[|i]]]]; simpl in Hi; simplify_eq; try done;
        repeat match goal with
        | |- context [Z.testbit (byte_of ?y) ?m] => rewrite (byte_of_bits y m) by lia
        | |- context [Z.testbit (byte_of ?y) ?m] => rewrite (Z.testbit_neg_r (byte_of y) m) by lia
        end;
        rewrite ?orb_false_r, ?orb_false_l; f_equal; lia.
    - rewrite Z.ones_spec_high, andb_false_r by lia. symmetry. apply byte_of_bits. lia. }
  unfold char_at. rewrite Hb. unfold byte_of. rewrite Nat2Z.id. apply ascii_nat_embedding.
Qed.

(** A code of four characters is printed from its highest byte on, but read
    from the lowest: what is read back has its bytes in reverse. *)
Theorem fourcc_read_back_reversed a b c d : Forall (fun x => byte_of x <> 0) [a; b; c; d] ->
  fourcc2String (v4l2_fourcc a b c d) = String d (String c (String b (String a EmptyString)))
  /\ fourcc2UL (Some (fourcc2String (v4l2_fourcc a b c d))) = v4l2_fourcc d c b a.
Proof.
  intros H. assert (Hs : fourcc2String (v4l2_fourcc a b c d) = String d (String c (String b (String a EmptyString)))).
  { unfold fourcc2String. pose proof (fourcc_byte a b c d) as Hf.
    pose proof (Hf 3%nat d eq_refl : char_at _ 24 = d) as ->. pose proof (Hf 2%nat c eq_refl : char_at _ 16 = c) as ->.
    pose proof (Hf 1%nat b eq_refl : char_at _ 8 = b) as ->. pose proof (Hf 0%nat a eq_refl : char_at _ 0 = a) as ->.
    rewrite !Forall_cons in H. destruct H as (? & ? & ? & ? & _). simpl.
    repeat match goal with |- context [byte_of ?y =? 0] => destruct (Z.eqb_spec (byte_of y) 0); [done|] end. done. }
  split; [done|]. by rewrite Hs.
Qed.

(** The entries of V4L2 formats have 0 for the other code, so 0, which is no
    format, is taken for the first of them. *)
Theorem zero_is_a_format : pixelCode2String 0 = "V4L2_PIX_FMT_GREY"%string /\ getBpp 0 = 8 /\ getV4L2Format 0 = V4L2_PIX_FMT_GREY.
Proof. vm_compute. auto. Qed.

Lemma frame_size_covers_witness :
  exists s n, getStride V4L2_PIX_FMT_NV12 1920 = Some s /\ getFrameSize V4L2_PIX_FMT_NV12 1920 1080 false true false = Some n
    /\ s mod 64 = 0 /\ 1080 * s <= n /\ 1920 * 1080 * getBpp V4L2_PIX_FMT_NV12 <= 8 * n.
Proof. apply (frame_size_covers V4L2_PIX_FMT_NV12 1920 1080 false true); [reflexivity|lia|lia|reflexivity|left; reflexivity]. Defined.

Lemma compressed_size_covers_witness :
  exists n, getFrameSize V4L2_PIX_FMT_NV12 1920 1080 false true true = Some n /\ n mod 4096 = 0
    /\ 1920 * 1080 * getBpp V4L2_PIX_FMT_NV12 <= 8 * n.
Proof. apply (compressed_size_covers V4L2_PIX_FMT_NV12 1920 1080); [reflexivity|lia|lia]. Defined.

Lemma odd_height_short_witness :
  getFrameSize V4L2_PIX_FMT_NV12 64 3 false false false = Some 256 /\ 8 * 256 < 64 * 3 * getBpp V4L2_PIX_FMT_NV12.
Proof.
  split; [reflexivity|]. apply (odd_height_short 64 3 256); [lia|reflexivity|lia|reflexivity|reflexivity].
Defined.

Definition example_entry : FormatInfo := Format V4L2_PIX_FMT_NV12 0 "V4L2_PIX_FMT_NV12" "NV12" 12 FORMAT_YUV.

Lemma pixel_code_round_trip_witness :
  string2PixelCode (Some (pixelCode2String V4L2_PIX_FMT_NV12)) = V4L2_PIX_FMT_NV12
  /\ string2PixelCode (Some (format2string V4L2_PIX_FMT_NV12)) = V4L2_PIX_FMT_NV12
  /\ string2PixelCode (Some "V4L2_PIX_FMT_NV12"%string) = V4L2_PIX_FMT_NV12 /\ string2PixelCode (Some "NV12"%string) = V4L2_PIX_FMT_NV12.
Proof.
  apply (pixel_code_round_trip example_entry); [|discriminate].
  apply list_elem_of_In. do 17 right. left. reflexivity.
Defined.

Lemma fourcc_read_back_reversed_witness :
  fourcc2String (v4l2_fourcc "N" "V" "1" "2") = "21VN"%string
  /\ fourcc2UL (Some (fourcc2String (v4l2_fourcc "N" "V" "1" "2"))) = v4l2_fourcc "2" "1" "V" "N".
Proof. apply (fourcc_read_back_reversed "N" "V" "1" "2"). repeat constructor; discriminate. Defined.
