(* ===== verification/ModeNames.v ===== *)
(** * Names of modes

    src/iutils/Utils.cpp: the names of tuning, configuration, scene and white
    balance modes in configuration files.  An absent string is a null
    pointer. *)

From Stdlib Require Import String Ascii.
From S2P Require Import Prelude SensorManager.
From stdpp Require Import list.

(** ** Tuning modes *)

Definition TuningModeStringInfoTable : list (TuningMode * string) :=
  [(TUNING_MODE_VIDEO, "VIDEO"); (TUNING_MODE_VIDEO_ULL, "VIDEO-ULL"); (TUNING_MODE_VIDEO_HDR, "VIDEO-HDR");
   (TUNING_MODE_VIDEO_HDR2, "VIDEO-HDR2"); (TUNING_MODE_VIDEO_HLC, "VIDEO-HLC");
   (TUNING_MODE_VIDEO_CUSTOM_AIC, "VIDEO-CUSTOM_AIC"); (TUNING_MODE_VIDEO_LL, "VIDEO-LL");
   (TUNING_MODE_VIDEO_REAR_VIEW, "VIDEO-REAR-VIEW"); (TUNING_MODE_VIDEO_HITCH_VIEW, "VIDEO-HITCH-VIEW");
   (TUNING_MODE_STILL_CAPTURE, "STILL_CAPTURE"); (TUNING_MODE_VIDEO_BINNING, "VIDEO-BINNING")]%string.

Fixpoint string_of_mode (mode : TuningMode) (table : list (TuningMode * string)) : string :=
  match table with
  | [] => "VIDEO"
  | (m, str) :: rest => if bool_decide (m = mode) then str else string_of_mode mode rest
  end.

Fixpoint mode_of_string (str : string) (table : list (TuningMode * string)) : TuningMode :=
  match table with
  | [] => TUNING_MODE_VIDEO
  | (m, name) :: rest => if (name =? str)%string then m else mode_of_string str rest
  end.

Definition tuningMode2String (mode : TuningMode) : string := string_of_mode mode TuningModeStringInfoTable.
Definition string2TuningMode (str : string) : TuningMode := mode_of_string str TuningModeStringInfoTable.

Definition isUllPsysPipe (tuningMode : TuningMode) : bool :=
  bool_decide (tuningMode = TUNING_MODE_VIDEO_ULL) || bool_decide (tuningMode = TUNING_MODE_VIDEO_CUSTOM_AIC).

(** ** Configuration and scene modes *)

Inductive ConfigMode :=
| CAMERA_STREAM_CONFIGURATION_MODE_NORMAL
| CAMERA_STREAM_CONFIGURATION_MODE_CONSTRAINED_HIGH_SPEED
| CAMERA_STREAM_CONFIGURATION_MODE_AUTO
| CAMERA_STREAM_CONFIGURATION_MODE_HDR
| CAMERA_STREAM_CONFIGURATION_MODE_ULL
| CAMERA_STREAM_CONFIGURATION_MODE_HLC
| CAMERA_STREAM_CONFIGURATION_MODE_CUSTOM_AIC
| CAMERA_STREAM_CONFIGURATION_MODE_VIDEO_LL
| CAMERA_STREAM_CONFIGURATION_MODE_STILL_CAPTURE
| CAMERA_STREAM_CONFIGURATION_MODE_HDR2
| CAMERA_STREAM_CONFIGURATION_MODE_END.

#[global] Instance ConfigMode_eq_dec : EqDecision ConfigMode.
Proof. solve_decision. Defined.

Inductive camera_scene_mode_t :=
| SCENE_MODE_AUTO | SCENE_MODE_HDR | SCENE_MODE_ULL | SCENE_MODE_HLC | SCENE_MODE_NORMAL | SCENE_MODE_CUSTOM_AIC
| SCENE_MODE_VIDEO_LL | SCENE_MODE_STILL_CAPTURE | SCENE_MODE_HDR2 | SCENE_MODE_MAX.

#[global] Instance camera_scene_mode_t_eq_dec : EqDecision camera_scene_mode_t.
Proof. solve_decision. Defined.

Inductive camera_awb_mode_t :=
| AWB_MODE_AUTO | AWB_MODE_INCANDESCENT | AWB_MODE_FLUORESCENT | AWB_MODE_DAYLIGHT | AWB_MODE_FULL_OVERCAST
| AWB_MODE_PARTLY_OVERCAST | AWB_MODE_SUNSET | AWB_MODE_VIDEO_CONFERENCE | AWB_MODE_MANUAL_CCT_RANGE
| AWB_MODE_MANUAL_WHITE_POINT | AWB_MODE_MANUAL_GAIN | AWB_MODE_MANUAL_COLOR_TRANSFORM | AWB_MODE_MAX.

(** A chain of [strcmp]: the value of the first name that is equal. *)
Fixpoint by_name {A} (str : string) (names : list (string * A)) (otherwise : A) : A :=
  match names with
  | [] => otherwise
  | (name, x) :: rest => if (str =? name)%string then x else by_name str rest otherwise
  end.

Definition config_names : list (string * ConfigMode) :=
  [("AUTO", CAMERA_STREAM_CONFIGURATION_MODE_AUTO); ("HDR", CAMERA_STREAM_CONFIGURATION_MODE_HDR);
   ("HDR2", CAMERA_STREAM_CONFIGURATION_MODE_HDR2); ("HLC", CAMERA_STREAM_CONFIGURATION_MODE_HLC);
   ("ULL", CAMERA_STREAM_CONFIGURATION_MODE_ULL); ("NORMAL", CAMERA_STREAM_CONFIGURATION_MODE_NORMAL);
   ("HIGH_SPEED", CAMERA_STREAM_CONFIGURATION_MODE_CONSTRAINED_HIGH_SPEED);
   ("CUSTOM_AIC", CAMERA_STREAM_CONFIGURATION_MODE_CUSTOM_AIC); ("VIDEO_LL", CAMERA_STREAM_CONFIGURATION_MODE_VIDEO_LL);
   ("STILL_CAPTURE", CAMERA_STREAM_CONFIGURATION_MODE_STILL_CAPTURE); ("NONE", CAMERA_STREAM_CONFIGURATION_MODE_END)]%string.

Definition getConfigModeByName (ConfigName : option string) : ConfigMode :=
  match ConfigName with
  | None => CAMERA_STREAM_CONFIGURATION_MODE_END
  | Some name => by_name name config_names CAMERA_STREAM_CONFIGURATION_MODE_NORMAL
  end.

(** What is before the first comma, and what is after it. *)
Fixpoint cut_comma (s : string) : string * option string :=
  match s with
  | EmptyString => (EmptyString, None)
  | String c s => if Ascii.eqb c "," then (EmptyString, Some s)
                  else let '(before, after) := cut_comma s in (String c before, after)
  end.

(** One pass per comma and one for the rest, so the length is fuel enough. *)
Fixpoint config_modes (fuel : nat) (modeStr : string) : option (list ConfigMode) :=
  match fuel with
  | O => None
  | S fuel =>
      match cut_comma modeStr with
      | (name, None) => Some [getConfigModeByName (Some name)]
      | (name, Some rest) => l ← config_modes fuel rest; Some (getConfigModeByName (Some name) :: l)
      end
  end.

(** The modes are added to those that [cfgModes] holds. *)
Definition getConfigModeFromString (str : string) (cfgModes : list ConfigMode) : option (list ConfigMode) :=
  l ← config_modes (S (String.length str)) str; Some (cfgModes ++ l).

Definition getConfigModeBySceneMode (sceneMode : camera_scene_mode_t) : ConfigMode :=
  match sceneMode with
  | SCENE_MODE_NORMAL => CAMERA_STREAM_CONFIGURATION_MODE_NORMAL
  | SCENE_MODE_ULL => CAMERA_STREAM_CONFIGURATION_MODE_ULL
  | SCENE_MODE_HDR => CAMERA_STREAM_CONFIGURATION_MODE_HDR
  | SCENE_MODE_HDR2 => CAMERA_STREAM_CONFIGURATION_MODE_HDR2
  | SCENE_MODE_HLC => CAMERA_STREAM_CONFIGURATION_MODE_HLC
  | SCENE_MODE_CUSTOM_AIC => CAMERA_STREAM_CONFIGURATION_MODE_CUSTOM_AIC
  | SCENE_MODE_VIDEO_LL => CAMERA_STREAM_CONFIGURATION_MODE_VIDEO_LL
  | _ => CAMERA_STREAM_CONFIGURATION_MODE_END
  end.

Definition scene_names : list (string * camera_scene_mode_t) :=
  [("AUTO", SCENE_MODE_AUTO); ("HDR", SCENE_MODE_HDR); ("HDR2", SCENE_MODE_HDR2); ("HLC", SCENE_MODE_HLC); ("ULL", SCENE_MODE_ULL);
   ("VIDEO_LL", SCENE_MODE_VIDEO_LL); ("NORMAL", SCENE_MODE_NORMAL); ("CUSTOM_AIC", SCENE_MODE_CUSTOM_AIC)]%string.

Definition getSceneModeByName (sceneName : option string) : camera_scene_mode_t :=
  match sceneName with None => SCENE_MODE_MAX | Some name => by_name name scene_names SCENE_MODE_MAX end.

Definition awb_names : list (string * camera_awb_mode_t) :=
  [("AUTO", AWB_MODE_AUTO); ("INCANDESCENT", AWB_MODE_INCANDESCENT); ("FLUORESCENT", AWB_MODE_FLUORESCENT);
   ("DAYLIGHT", AWB_MODE_DAYLIGHT); ("FULL_OVERCAST", AWB_MODE_FULL_OVERCAST); ("PARTLY_OVERCAST", AWB_MODE_PARTLY_OVERCAST);
   ("SUNSET", AWB_MODE_SUNSET); ("VIDEO_CONFERENCE", AWB_MODE_VIDEO_CONFERENCE);
   ("MANUAL_CCT_RANGE", AWB_MODE_MANUAL_CCT_RANGE); ("MANUAL_WHITE_POINT", AWB_MODE_MANUAL_WHITE_POINT);
   ("MANUAL_GAIN", AWB_MODE_MANUAL_GAIN); ("MANUAL_COLOR_TRANSFORM", AWB_MODE_MANUAL_COLOR_TRANSFORM)]%string.

Definition getAwbModeByName (awbName : option string) : camera_awb_mode_t :=
  match awbName with None => AWB_MODE_MAX | Some name => by_name name awb_names AWB_MODE_MAX end.

(** ** What they do *)

Fixpoint no_comma (s : string) : bool :=
  match s with EmptyString => true | String c s => negb (Ascii.eqb c ",") && no_comma s end.

Lemma cut_comma_none s : no_comma s = true -> cut_comma s = (s, None).
Proof.
  induction s as [|c s IH]; [done|]. simpl. destruct (Ascii.eqb c ","); [done|]. simpl. intros Hs. by rewrite (IH Hs).
Qed.

Lemma cut_comma_some s rest : no_comma s = true -> cut_comma (s ++ String "," rest) = (s, Some rest).
Proof.
  induction s as [|c s IH]; [done|]. simpl. destruct (Ascii.eqb c ","); [done|]. simpl. intros Hs. by rewrite (IH Hs).
Qed.

Lemma length_append s t : String.length (s ++ t) = (String.length s + String.length t)%nat.
Proof. induction s as [|c s IH]; [done|]. simpl. by rewrite IH. Qed.

(** The loop over a list of configuration modes ends, and finds the mode of
    every name, whatever their number. *)
Theorem config_list_read name names cfgModes : Forall (fun s => no_comma s = true) (name :: names) ->
  getConfigModeFromString (String.concat "," (name :: names)) cfgModes
  = Some (cfgModes ++ ((fun s => getConfigModeByName (Some s)) <$> (name :: names))).
Proof.
  intros H. unfold getConfigModeFromString.
  assert (Hl : forall fuel, (String.length (String.concat "," (name :: names)) < fuel)%nat ->
    config_modes fuel (String.concat "," (name :: names)) = Some ((fun s => getConfigModeByName (Some s)) <$> (name :: names))).
  { revert name H. induction names as [|n2 names IH]; intros name H fuel Hf; apply Forall_cons in H as [Hn H].
    - destruct fuel as [|fuel]; [lia|]. cbn [config_modes String.concat]. by rewrite cut_comma_none.
    - destruct fuel as [|fuel]; [lia|]. change (String.concat "," (name :: n2 :: names)) with
        (name ++ String "," (String.concat "," (n2 :: names)))%string in *.
      rewrite length_append in Hf. cbn [String.length] in Hf. cbn [config_modes]. rewrite cut_comma_some by done.
      rewrite (IH n2 H) by lia. done. }
  rewrite Hl by lia. done.
Qed.

(** The names of tuning modes are read back. *)
Theorem tuning_mode_round_trip m : m <> TUNING_MODE_MAX -> string2TuningMode (tuningMode2String m) = m.
Proof. destruct m; done. Qed.

Lemma by_name_in {A} str (names : list (string * A)) d :
  by_name str names d = d \/ In (str, by_name str names d) names.
Proof.
  induction names as [|[n x] names IH]; [by left|]. simpl. destruct (String.eqb_spec str n) as [->|]; [by right; left|].
  destruct IH as [IH|IH]; [by left|by right; right].
Qed.

Lemma scene_config_names :
  forallb (fun '(name, scene) => (name =? "AUTO")%string
    || bool_decide (getConfigModeBySceneMode scene = getConfigModeByName (Some name))) scene_names = true.
Proof. reflexivity. Qed.

(** A scene mode with a name has the configuration mode of that name, but
    for the automatic one, which has none. *)
Theorem scene_config_agree name : getSceneModeByName (Some name) <> SCENE_MODE_MAX -> name <> "AUTO"%string ->
  getConfigModeBySceneMode (getSceneModeByName (Some name)) = getConfigModeByName (Some name).
Proof.
  intros Hm Ha. destruct (by_name_in name scene_names SCENE_MODE_MAX) as [?|Hin]; [done|]. cbn [getSceneModeByName] in *.
  pose proof (proj1 (forallb_forall _ _) scene_config_names _ Hin) as Hok. cbv beta iota in Hok.
  destruct (String.eqb_spec name "AUTO"); [done|]. cbn [orb] in Hok. by apply bool_decide_eq_true in Hok.
Qed.

Lemma config_list_read_witness :
  getConfigModeFromString "AUTO,HDR,NONE" []
  = Some [CAMERA_STREAM_CONFIGURATION_MODE_AUTO; CAMERA_STREAM_CONFIGURATION_MODE_HDR; CAMERA_STREAM_CONFIGURATION_MODE_END].
Proof. apply (config_list_read "AUTO" ["HDR"; "NONE"]%string []). repeat constructor. Defined.

Lemma tuning_mode_round_trip_witness : string2TuningMode (tuningMode2String TUNING_MODE_VIDEO_LL) = TUNING_MODE_VIDEO_LL.
Proof. apply tuning_mode_round_trip. discriminate. Defined.

Lemma scene_config_agree_witness :
  getConfigModeBySceneMode (getSceneModeByName (Some "ULL"%string)) = getConfigModeByName (Some "ULL"%string).
Proof. apply scene_config_agree; discriminate. Defined.
