(* ===== verification/CaptureDevice.v ===== *)
(** * Capture devices

    src/core/DeviceBase.cpp and .h: the buffers of a capture device wait in one
    list until they are given to the driver, and in a second one until the
    driver has filled them; then they go to the consumers, or back to the first
    list when the frame is to be skipped.

    The lists are guarded by a mutex, which is not held while the driver is
    called.  Every section under the mutex, and every call of the driver, is a
    function of its own here; [section] and [act] let the threads of clients and
    the polling thread do them in any order.  The answer [None] is an access
    outside an array or a signed overflow.  Buffers are addresses; the structure
    that each of them shares with the kernel is in [buffers]. *)

From Stdlib Require Import String.
From S2P Require Import Prelude Errors V4l2Device V4l2Video SyncManager SensorHwCtrl SensorManager PixelFormats.
From stdpp Require Import list gmap sorting.
#[local] Open Scope Z_scope.
Import Buffers Formats VideoNode.

(** ** Data *)

Definition INVALID_PORT : Z := 4.
Definition V4L2_BUF_FLAG_ERROR : Z := 64.
Definition V4L2_CID_IPU_ISYS_COMPRESSION : Z := V4L2_CID_USER_BASE + 4224 + 3.

Record stream_t := Stream { s_format : Z; s_width : Z; s_height : Z; s_field : Z; s_memType : Z }.

(** What the platform data say of the camera; the back end is the sub-device it
    is found as. *)
Class CaptureConfig := {
  MAX_CAMERA_NUMBER : Z;
  isEnableFrameSyncCheck : bool;
  isSkipFrameOnSTR2MMIOErr : bool;
  getISYSCompression : bool;
  isCSIBackEndCapture : bool;
  csiBackEnd : option Subdevice.V4L2Subdevice;
  isDolShortEnabled : bool;
  isDolMediumEnabled : bool;
  getMaxRawDataNum : Z;
}.

(** The classes derived from [DeviceBase]. *)
Inductive device_class := MainDevice | DolCaptureDevice.

#[global] Instance device_class_eq_dec : EqDecision device_class.
Proof. solve_decision. Defined.

Record DeviceBase := DeviceOf {
  kind : device_class;
  mPort : Z;
  mDevice : V4L2VideoNode;
  mLatestSequence : Z;
  mNeedSkipFrame : bool;
  mFrameSkipNum : Z;
  mConsumers : list Z;
  mPendingBuffers : list Z;
  mBuffersInDevice : list Z;
  mMaxBufferNumber : Z;
  mBufferQueuing : bool;
  mBufType : Z;
}.

(** What a device tells others when it has a frame. *)
Inductive action :=
| DequeueCallback
| FrameAvailable (consumer port buffer : Z)
| FrameEvent (sequence : Z) (timestamp : Z * Z).

Section Device.
Context {K : Type} `{Kernel K} `{LagConfig} `{CaptureConfig}.

Record World := WorldOf {
  kernel : K;
  buffers : Z -> V4L2Buffer;
  frame_sync : SyncManager;
  v4l2BufType : Z;
}.
Implicit Types (d : DeviceBase) (w : World).

Definition set_kernel k w := WorldOf k (buffers w) (frame_sync w) (v4l2BufType w).
Definition set_buffer a b w := WorldOf (kernel w) (fun x => if x =? a then b else buffers w x) (frame_sync w) (v4l2BufType w).
Definition set_sync s w := WorldOf (kernel w) (buffers w) s (v4l2BufType w).
Definition set_v4l2BufType t w := WorldOf (kernel w) (buffers w) (frame_sync w) t.

Definition set_mPort p d := DeviceOf (kind d) p (mDevice d) (mLatestSequence d) (mNeedSkipFrame d) (mFrameSkipNum d) (mConsumers d) (mPendingBuffers d) (mBuffersInDevice d) (mMaxBufferNumber d) (mBufferQueuing d) (mBufType d).
Definition set_mDevice n d := DeviceOf (kind d) (mPort d) n (mLatestSequence d) (mNeedSkipFrame d) (mFrameSkipNum d) (mConsumers d) (mPendingBuffers d) (mBuffersInDevice d) (mMaxBufferNumber d) (mBufferQueuing d) (mBufType d).
Definition set_latest s d := DeviceOf (kind d) (mPort d) (mDevice d) s (mNeedSkipFrame d) (mFrameSkipNum d) (mConsumers d) (mPendingBuffers d) (mBuffersInDevice d) (mMaxBufferNumber d) (mBufferQueuing d) (mBufType d).
Definition set_skip b d := DeviceOf (kind d) (mPort d) (mDevice d) (mLatestSequence d) b (mFrameSkipNum d) (mConsumers d) (mPendingBuffers d) (mBuffersInDevice d) (mMaxBufferNumber d) (mBufferQueuing d) (mBufType d).
Definition set_skip_num n d := DeviceOf (kind d) (mPort d) (mDevice d) (mLatestSequence d) (mNeedSkipFrame d) n (mConsumers d) (mPendingBuffers d) (mBuffersInDevice d) (mMaxBufferNumber d) (mBufferQueuing d) (mBufType d).
Definition set_consumers l d := DeviceOf (kind d) (mPort d) (mDevice d) (mLatestSequence d) (mNeedSkipFrame d) (mFrameSkipNum d) l (mPendingBuffers d) (mBuffersInDevice d) (mMaxBufferNumber d) (mBufferQueuing d) (mBufType d).
Definition set_lists p i d := DeviceOf (kind d) (mPort d) (mDevice d) (mLatestSequence d) (mNeedSkipFrame d) (mFrameSkipNum d) (mConsumers d) p i (mMaxBufferNumber d) (mBufferQueuing d) (mBufType d).
Definition set_max n d := DeviceOf (kind d) (mPort d) (mDevice d) (mLatestSequence d) (mNeedSkipFrame d) (mFrameSkipNum d) (mConsumers d) (mPendingBuffers d) (mBuffersInDevice d) n (mBufferQueuing d) (mBufType d).
Definition set_queuing b d := DeviceOf (kind d) (mPort d) (mDevice d) (mLatestSequence d) (mNeedSkipFrame d) (mFrameSkipNum d) (mConsumers d) (mPendingBuffers d) (mBuffersInDevice d) (mMaxBufferNumber d) b (mBufType d).
Definition set_bufType t d := DeviceOf (kind d) (mPort d) (mDevice d) (mLatestSequence d) (mNeedSkipFrame d) (mFrameSkipNum d) (mConsumers d) (mPendingBuffers d) (mBuffersInDevice d) (mMaxBufferNumber d) (mBufferQueuing d) t.

(** A call of the node that does not touch buffers. *)
Definition on_node (f : V4L2VideoNode -> K -> Z * V4L2VideoNode * K) d w : Z * DeviceBase * World :=
  let '(ret, n, k) := f (mDevice d) (kernel w) in (ret, set_mDevice n d, set_kernel k w).

(** ** The life of a device *)

Definition new_DeviceBase (c : device_class) (devName : string) : DeviceBase :=
  DeviceOf c INVALID_PORT (new_V4L2VideoNode devName) (-1) false mInitialSkipFrame [] [] [] MAX_BUFFER_COUNT false
    V4L2_BUF_TYPE_VIDEO_CAPTURE_MPLANE.

Definition O_RDWR : Z := 2.

(** The buffer type of a build for Linux. *)
Definition openDevice d w : Z * DeviceBase * World :=
  let w := if isEnableFrameSyncCheck then set_sync (updateSyncCamNum MAX_CAMERA_NUMBER (frame_sync w)) w else w in
  let '(ret, d, w) := on_node (VideoNode.Open O_RDWR) d w in
  if negb (ret =? 0) then (ret, d, w) else
  let t := if negb (Z.land (device_caps (mDevice d)) V4L2_CAP_VIDEO_CAPTURE =? 0)
           then V4L2_BUF_TYPE_VIDEO_CAPTURE else V4L2_BUF_TYPE_VIDEO_CAPTURE_MPLANE in
  (OK, set_bufType t d, set_v4l2BufType t w).

Definition closeDevice d w : DeviceBase * World :=
  let '(_, d, w) := on_node (VideoNode.Stop true) d w in
  let '(_, d, w) := on_node VideoNode.Close (set_lists [] [] d) w in (d, w).

Definition resetBuffers d : DeviceBase := set_lists [] [] d.

Definition streamOn d w : Z * DeviceBase * World := on_node VideoNode.Start (set_skip_num mInitialSkipFrame d) w.

Definition streamOff d w : Z * DeviceBase * World :=
  let '(_, d, w) := on_node (VideoNode.Stop false) d w in (OK, d, w).

(** [SetFormat], and what [tmpbuf] holds after it: the format that was asked
    for, as the call does not write into it. *)
Definition set_device_format (fmt : v4l2_format) d w : option (Z * V4L2Format * DeviceBase * World) :=
  let tmpbuf := of_v4l2_format 0 fmt in
  '(ret, n, k) ← VideoNode.SetFormat tmpbuf (mDevice d) (kernel w);
  Some (ret, tmpbuf, set_mDevice n d, set_kernel k w).

(** [sizeimage] of a format for several planes is that of the first one, which
    has the same place in the union. *)
Definition realBufferSize (f : V4L2Format) : Z := default 0 (SizeImage 0 f).

Definition setup_buffers (cached : bool) (memType : Z) d w : Z * DeviceBase * World :=
  let '(ret, _, n, k) := VideoNode.SetupBuffers (mMaxBufferNumber d) cached memType [] (mDevice d) (kernel w) in
  (ret, set_mDevice n d, set_kernel k w).

Definition main_format (config : stream_t) (bufType : Z) : v4l2_format :=
  if V4L2_TYPE_IS_MULTIPLANAR bufType
  then FormatMplane bufType (getNumOfPlanes (s_format config))
         (Pix (s_width config) (s_height config) (s_format config) (s_field config) 0 0
            (replicate (Z.to_nat (getNumOfPlanes (s_format config))) (s_width config))
            (replicate (Z.to_nat (getNumOfPlanes (s_format config))) 0))
  else FormatPix bufType (Pix (s_width config) (s_height config) (s_format config) (s_field config) 0 0 [s_width config] [0]).

Definition main_createBufferPool (config : stream_t) d w : option (Z * DeviceBase * World) :=
  match (if isCSIBackEndCapture then csiBackEnd else Some (Subdevice.new_V4L2Subdevice "")) with
  | None => Some (NAME_NOT_FOUND, d, w)
  | Some sub =>
      let w := if isCSIBackEndCapture
               then let '(_, k) := SetControl V4L2_CID_IPU_ISYS_COMPRESSION (Z.b2z getISYSCompression) (Subdevice.dev sub) (kernel w) in
                    set_kernel k w
               else w in
      '(ret, tmpbuf, d, w) ← set_device_format (main_format config (mBufType d)) d w;
      if negb (ret =? OK) then Some (ret, d, w) else
      calcBufferSize ← if getISYSCompression
                       then getFrameSize (s_format config) (s_width config) (s_height config) false true true
                       else getFrameSize (s_format config) (s_width config) (s_height config) false true false;
      if calcBufferSize <? realBufferSize tmpbuf then Some (BAD_VALUE, d, w) else
      let '(bufNum, d, w) := setup_buffers true (s_memType config) d w in
      Some (if bufNum <? 0 then BAD_VALUE else OK, d, w)
  end.

(** The structure is a local that is not initialised: [color], [quant] and
    [planes] stand for what it holds. *)
Definition dol_format (config : stream_t) (bufType color quant planes : Z) (lines sizes : list Z) : v4l2_format :=
  if V4L2_TYPE_IS_MULTIPLANAR bufType
  then FormatMplane bufType planes (Pix (s_width config) (s_height config) (s_format config) 0 (s_width config) quant lines sizes)
  else FormatPix bufType (Pix (s_width config) (s_height config) (s_format config) 0 color quant [s_width config] [0]).

Definition dol_createBufferPool (config : stream_t) (color quant planes : Z) (lines sizes : list Z) d w
    : option (Z * DeviceBase * World) :=
  if mPort d =? INVALID_PORT then Some (NO_MEMORY, d, w) else
  '(ret, _, d, w) ← set_device_format (dol_format config (mBufType d) color quant planes lines sizes) d w;
  if negb (ret =? OK) then Some (ret, d, w) else
  let '(bufNum, d, w) := setup_buffers false (s_memType config) d w in
  Some (if bufNum <? 0 then bufNum else OK, d, w).

(** The local of a [DolCaptureDevice] is taken to be zero. *)
Definition configure (port : Z) (config : stream_t) (bufferNum : Z) d w : option (Z * DeviceBase * World) :=
  let d := set_max bufferNum (set_mPort port d) in
  '(ret, d, w) ← match kind d with
                 | MainDevice => main_createBufferPool config d w
                 | DolCaptureDevice => dol_createBufferPool config 0 0 0 [] [] d w
                 end;
  if negb (ret =? OK) then Some (NO_MEMORY, d, w) else Some (OK, resetBuffers d, w).

Definition addFrameListener (listener : Z) d : DeviceBase :=
  if bool_decide (listener ∈ mConsumers d) then d else set_consumers (merge_sort Z.le (listener :: mConsumers d)) d.
Definition removeFrameListener (listener : Z) d : DeviceBase := set_consumers (list_difference (mConsumers d) [listener]) d.
Definition removeAllFrameListeners d : DeviceBase := set_consumers [] d.

(** ** Sections *)

Definition hasPendingBuffer d : bool := bool_decide (mPendingBuffers d <> []).
Definition addPendingBuffer (buffer : Z) d : DeviceBase := set_lists (mPendingBuffers d ++ [buffer]) (mBuffersInDevice d) d.
Definition getBufferNumInDevice d : Z := Z.of_nat (length (mBuffersInDevice d)).
Definition getPredictSequence d : Z := mLatestSequence d + mFrameSkipNum d + getBufferNumInDevice d.
Definition getFirstDeviceBuffer d : option Z := head (mBuffersInDevice d).

(** [queueBuffer], first section: the buffer to queue, if there is one and
    nobody else is queuing. *)
Definition queue_begin d : option Z * DeviceBase :=
  if mBufferQueuing d then (None, d) else
  match mPendingBuffers d with
  | [] => (None, d)
  | buffer :: _ => (Some buffer, set_queuing true d)
  end.

(** The call of the driver; [onQueueBuffer] of both classes does nothing. *)
Definition queue_put (buffer : Z) d w : Z * World :=
  let '(ret, b, k) := VideoNode.PutFrame (Buffers.SetType (mBufType d) (buffers w buffer)) (mDevice d) (kernel w) in
  (ret, set_kernel k (set_buffer buffer b w)).

Definition queue_move (ret buffer : Z) d : DeviceBase :=
  if (0 <=? ret) && bool_decide (mPendingBuffers d <> [])
  then set_lists (tail (mPendingBuffers d)) (mBuffersInDevice d ++ [buffer]) d else d.

Definition queue_end d : DeviceBase := set_queuing false d.

(** [queueBuffer] when nobody comes in between. *)
Definition queueBuffer d w : Z * DeviceBase * World :=
  let '(picked, d) := queue_begin d in
  match picked with
  | None => (OK, d, w)
  | Some buffer => let '(ret, w) := queue_put buffer d w in (ret, queue_end (queue_move ret buffer d), w)
  end.

(** [dequeueBuffer], the call of the driver: the index it answers; it fills the
    buffer's structure. *)
Definition grab_frame (buffer : Z) d w : Z * World :=
  let '(actualIndex, b, k) := VideoNode.GrabFrame (buffers w buffer) (mDevice d) (kernel w) in
  (actualIndex, set_kernel k (set_buffer buffer b w)).

(** [skipFrameAfterSyncCheck]: the manager as it is at each of the checks; it
    gives up at the eleventh. *)
Fixpoint sync_checks (count : nat) (cameraId seq : Z) (looks : list SyncManager) : option bool :=
  match count, looks with
  | O, _ => Some true
  | S count, s :: looks => ok ← isSynced cameraId seq s; if ok : bool then Some false else sync_checks count cameraId seq looks
  | S _, [] => None
  end.

Definition skipFrameAfterSyncCheck (cameraId seq : Z) (looks : list SyncManager) : option bool := sync_checks 11 cameraId seq looks.

Definition has_error (b : V4L2Buffer) : bool := negb (Z.land (v_flags b) V4L2_BUF_FLAG_ERROR =? 0) && isSkipFrameOnSTR2MMIOErr.

(** [looks] begins with the state of the manager right after the update. *)
Definition main_needQueueBack (cameraId : Z) (later : list SyncManager) (buffer : Z) d w : option (bool * World) :=
  let b := buffers w buffer in
  let needSkipFrame := (0 <? mFrameSkipNum d) || has_error b in
  if isEnableFrameSyncCheck then
    s ← updateCameraBufInfo cameraId (BufInfo (v_sequence b) (v_timestamp b)) (frame_sync w);
    skip ← skipFrameAfterSyncCheck cameraId (v_sequence b) (s :: later);
    Some (needSkipFrame || skip, set_sync s w)
  else Some (needSkipFrame, w).

Definition dol_needQueueBack (buffer : Z) d w : bool :=
  let needNotifyBufferDone :=
    if has_error (buffers w buffer) then false else if 0 <? mFrameSkipNum d then false else negb (mPort d =? INVALID_PORT) in
  negb needNotifyBufferDone.

Definition needQueueBack (cameraId : Z) (later : list SyncManager) (buffer : Z) d w : option (bool * World) :=
  match kind d with
  | MainDevice => main_needQueueBack cameraId later buffer d w
  | DolCaptureDevice => Some (dol_needQueueBack buffer d w, w)
  end.

Definition popBufferFromDevice d w : DeviceBase :=
  match mBuffersInDevice d with
  | [] => d
  | camBuffer :: rest =>
      set_latest (v_sequence (buffers w camBuffer))
        (set_lists (if mNeedSkipFrame d then mPendingBuffers d ++ [camBuffer] else mPendingBuffers d) rest d)
  end.

Definition onDequeueBuffer (buffer : Z) d w : list action :=
  let b := buffers w buffer in
  let frames := map (fun c => FrameAvailable c (mPort d) buffer) (mConsumers d) in
  match kind d with
  | MainDevice => DequeueCallback :: if mNeedSkipFrame d then [] else frames ++ [FrameEvent (v_sequence b) (v_timestamp b)]
  | DolCaptureDevice => if mNeedSkipFrame d then [] else frames
  end.

(** The rest of [dequeueBuffer], up to the callbacks. *)
Definition dequeue_pop (cameraId : Z) (later : list SyncManager) (buffer : Z) d w : option (DeviceBase * World) :=
  '(skip, w) ← needQueueBack cameraId later buffer d w;
  Some (popBufferFromDevice (set_skip skip d) w, w).

Definition dequeue_end d : DeviceBase := if 0 <? mFrameSkipNum d then set_skip_num (mFrameSkipNum d - 1) d else d.

(** [dequeueBuffer] when nobody comes in between: the status, and the callbacks
    in their order. *)
Definition dequeueBuffer (cameraId : Z) (later : list SyncManager) d w : option (Z * list action * DeviceBase * World) :=
  match getFirstDeviceBuffer d with
  | None => Some (UNKNOWN_ERROR, [], d, w)
  | Some camBuffer =>
      let targetIndex := signed 32 (v_index (buffers w camBuffer)) in
      let '(actualIndex, w) := grab_frame camBuffer d w in
      if actualIndex <? 0 then Some (BAD_VALUE, [], d, w) else
      let ret := if actualIndex =? targetIndex then OK else BAD_VALUE in
      '(d, w) ← dequeue_pop cameraId later camBuffer d w;
      Some (ret, onDequeueBuffer camBuffer d w, dequeue_end d, w)
  end.

(** ** Threads

    Clients add buffers and queue them, and the polling thread dequeues.  Where
    the thread that is queuing and the one that is dequeuing have got to: *)
Inductive putting := NoPut | Picked (buffer : Z) | Put (buffer ret : Z) | Ended.
Inductive grabbing := NoGrab | Looked (buffer : Z) | Grabbed (buffer actualIndex : Z).

(** With the logs of the buffers added, given to the driver and taken from it
    since the lists were last cleared, handed to the consumers, and taken off the
    lists by clearing them; [matched] as long as every index that the driver
    answered was that of the buffer it was asked to fill, and [off] from when
    the stream is switched off or the lists are cleared. *)
Record Sys := SysOf {
  device : DeviceBase;
  world : World;
  queuing : putting;
  dequeuing : grabbing;
  added : list Z;
  puts : list Z;
  pops : list Z;
  delivered : list Z;
  cleared : list Z;
  matched : bool;
  off : bool;
}.

Inductive act :=
| AddPending (buffer : Z) | Begin | CallPut | Move | End | Look | CallGrab | Pop (later : list SyncManager)
| StreamOn | StreamOff | Reset | CloseDevice.

(** [None] is an act whose thread is not there, the addition of a buffer the
    device still has, or clearing the lists while a call of the driver is under
    way. *)
Definition act_step (cameraId : Z) (a : act) (s : Sys) : option Sys :=
  let '(SysOf d w q g add pu po de cl m o) := s in
  match a, q, g with
  | AddPending b, _, _ =>
      if bool_decide (b ∈ mPendingBuffers d ++ mBuffersInDevice d) then None
      else Some (SysOf (addPendingBuffer b d) w q g (add ++ [b]) pu po de cl m o)
  | Begin, NoPut, _ =>
      let '(picked, d) := queue_begin d in
      Some (SysOf d w (match picked with Some b => Picked b | None => NoPut end) g add pu po de cl m o)
  | CallPut, Picked b, _ => let '(ret, w) := queue_put b d w in Some (SysOf d w (Put b ret) g add pu po de cl m o)
  | Move, Put b ret, _ => Some (SysOf (queue_move ret b d) w Ended g add (if 0 <=? ret then pu ++ [b] else pu) po de cl m o)
  | End, Ended, _ => Some (SysOf (queue_end d) w NoPut g add pu po de cl m o)
  | Look, _, NoGrab =>
      Some (SysOf d w q (match getFirstDeviceBuffer d with Some b => Looked b | None => NoGrab end) add pu po de cl m o)
  | CallGrab, _, Looked b =>
      let '(actual, w') := grab_frame b d w in
      Some (SysOf d w' q (if actual <? 0 then NoGrab else Grabbed b actual) add pu po de cl
              (m && ((actual <? 0) || (actual =? v_index (buffers w b)))) o)
  | Pop later, _, Grabbed b _ =>
      '(d, w) ← dequeue_pop cameraId later b d w;
      Some (SysOf (dequeue_end d) w q NoGrab add pu (po ++ [b]) (if mNeedSkipFrame d then de else de ++ [b]) cl m o)
  | StreamOn, _, _ => let '(_, d, w) := streamOn d w in Some (SysOf d w q g add pu po de cl m o)
  | StreamOff, _, _ => let '(_, d, w) := streamOff d w in Some (SysOf d w q g add pu po de cl m true)
  | Reset, NoPut, NoGrab =>
      Some (SysOf (resetBuffers d) w q g add [] [] de (cl ++ mPendingBuffers d ++ mBuffersInDevice d) m true)
  | CloseDevice, NoPut, NoGrab =>
      let '(d', w) := closeDevice d w in
      Some (SysOf d' w q g add [] [] de (cl ++ mPendingBuffers d ++ mBuffersInDevice d) m true)
  | _, _, _ => None
  end.

Fixpoint act_run (cameraId : Z) (acts : list act) (s : Sys) : option Sys :=
  match acts with [] => Some s | a :: rest => s ← act_step cameraId a s; act_run cameraId rest s end.
End Device.

(** What the driver promises: which buffers it holds for a node, whatever the
    order in which it gives them back; a failing call changes nothing. *)
Class FrameQueue (K : Type) `{Kernel K} := {
  held : Z -> K -> list Z;
  qbuf_held : forall fd b k ret b' k', ioctl fd VIDIOC_QBUF b k = (ret, b', k') ->
    buf_index b' = buf_index b /\ held fd k' ≡ₚ held fd k ++ (if ret <? 0 then [] else [buf_index b]);
  dqbuf_held : forall fd b k ret b' k', ioctl fd VIDIOC_DQBUF b k = (ret, b', k') ->
    if ret <? 0 then b' = b /\ held fd k' = held fd k else held fd k ≡ₚ buf_index b' :: held fd k';
  streamon_held : forall fd t k ret t' k', ioctl fd VIDIOC_STREAMON t k = (ret, t', k') -> held fd k' = held fd k;
}.

(** ** Properties *)

Section Proofs.
Context {K : Type} `{FrameQueue K} `{LagConfig} `{CaptureConfig}.
Implicit Types (d : DeviceBase) (w : @World K) (s : @Sys K).

Definition node_fd d : Z := fd_ (dev (mDevice d)).

(** The buffers keep their numbers. *)
Definition same_indices w w' : Prop := forall b, v_index (buffers w' b) = v_index (buffers w b).

Lemma put_spec b d w ret w' :
  queue_put b d w = (ret, w') ->
  same_indices w w'
  /\ held (node_fd d) (kernel w') ≡ₚ held (node_fd d) (kernel w) ++ (if ret <? 0 then [] else [v_index (buffers w b)]).
Proof.
  unfold queue_put, VideoNode.PutFrame, Qbuf, node_ioctl.
  destruct (ioctl _ _ _ _) as [[r x] k'] eqn:E. intros [= <- <-].
  apply qbuf_held in E as [Hi Hh]. split; [|exact Hh].
  intro a. cbn. destruct (Z.eqb_spec a b) as [->|]; [exact Hi|done].
Qed.

(** The buffer gets the index that the driver answers; no other changes. *)
Lemma grab_spec b d w a w' :
  (forall i, i ∈ held (node_fd d) (kernel w) -> 0 <= i < 2 ^ 31) ->
  grab_frame b d w = (a, w') ->
  (forall x, x <> b -> v_index (buffers w' x) = v_index (buffers w x))
  /\ if a <? 0 then v_index (buffers w' b) = v_index (buffers w b) /\ held (node_fd d) (kernel w') = held (node_fd d) (kernel w)
     else v_index (buffers w' b) = a /\ held (node_fd d) (kernel w) ≡ₚ a :: held (node_fd d) (kernel w').
Proof.
  intros Hr. unfold grab_frame, VideoNode.GrabFrame, Dqbuf, node_ioctl.
  assert (Ho : forall w0 k0 y x, x <> b -> v_index (buffers (set_kernel k0 (set_buffer b y w0)) x) = v_index (buffers w0 x)).
  { intros w0 k0 y x Hx. cbn. by rewrite (proj2 (Z.eqb_neq x b) Hx). }
  destruct (negb _); [intros [= <- <-]; split; [intros x Hx; by apply Ho|cbn; by rewrite Z.eqb_refl]|].
  destruct (ioctl _ _ _ _) as [[r x] k'] eqn:E. apply dqbuf_held in E.
  destruct (Z.ltb_spec r 0) as [Hn|Hn]; intros [= <- <-]; (split; [intros y Hy; by apply Ho|]); cbn; rewrite Z.eqb_refl.
  - destruct E as [-> E]. rewrite (proj2 (Z.ltb_lt r 0) Hn). done.
  - assert (Hx : 0 <= buf_index x < 2 ^ 31) by (apply Hr; unfold node_fd; rewrite E; by left).
    cbn [v_index updated]. rewrite signed_small by lia. by rewrite (proj2 (Z.ltb_ge _ _)) by lia.
Qed.

(** The indices of a list of buffers. *)
Definition indices w (l : list Z) : list Z := (fun b => v_index (buffers w b)) <$> l.

(** What the driver has that the device's list does not show yet, and what the
    list shows that the driver has no more. *)
Definition in_flight s : list Z :=
  match queuing s with Put b ret => if ret <? 0 then [] else [b] | _ => [] end.
Definition still_listed s : list Z :=
  match dequeuing s with Grabbed _ _ => tail (mBuffersInDevice (device s)) | _ => mBuffersInDevice (device s) end.

Definition queuing_agrees s : Prop :=
  match queuing s with
  | NoPut => mBufferQueuing (device s) = false
  | Picked b | Put b _ => mBufferQueuing (device s) = true /\ head (mPendingBuffers (device s)) = Some b
  | Ended => mBufferQueuing (device s) = true
  end.

Definition dequeuing_agrees s : Prop :=
  match dequeuing s with
  | NoGrab => True
  | Looked b | Grabbed b _ => head (mBuffersInDevice (device s)) = Some b
  end.

(** The driver has as many buffers as are listed for it, with indices that can
    be; and those very ones, as long as its answers matched. *)
Record DriverAgrees s : Prop := {
  a_count : length (held (node_fd (device s)) (kernel (world s))) = length (still_listed s ++ in_flight s);
  a_range : forall i, i ∈ held (node_fd (device s)) (kernel (world s)) -> 0 <= i < 2 ^ 31;
  a_held : matched s = true ->
    held (node_fd (device s)) (kernel (world s)) ≡ₚ indices (world s) (still_listed s ++ in_flight s);
}.

Record Consistent s : Prop := {
  c_once : NoDup (mPendingBuffers (device s) ++ mBuffersInDevice (device s));
  c_all : added s ≡ₚ mPendingBuffers (device s) ++ mBuffersInDevice (device s) ++ delivered s ++ cleared s;
  c_fifo : puts s = pops s ++ mBuffersInDevice (device s);
  c_held : off s = false -> DriverAgrees s;
  c_queuing : queuing_agrees s;
  c_dequeuing : dequeuing_agrees s;
  c_range : off s = false -> forall b, 0 <= v_index (buffers (world s) b) < 2 ^ 31;
}.

#[local] Arguments indices : simpl never.

Lemma indices_same w w' l : same_indices w w' -> indices w' l = indices w l.
Proof. intro Hs. apply list_fmap_ext. intros i x _. apply Hs. Qed.


(** What a decision about skipping leaves alone. *)
Lemma needQueueBack_same cameraId later b d w skip w' :
  needQueueBack cameraId later b d w = Some (skip, w') -> kernel w' = kernel w /\ buffers w' = buffers w.
Proof.
  unfold needQueueBack, main_needQueueBack. destruct (kind d); [destruct isEnableFrameSyncCheck|]; [|naive_solver..].
  intros E. apply bind_Some in E as (s & _ & E). apply bind_Some in E as (x & _ & [= <- <-]). done.
Qed.

(** An act that leaves the driver, the structures of the buffers and what the
    device lists for the driver alone. *)
Lemma agrees_same s s' :
  kernel (world s') = kernel (world s) -> buffers (world s') = buffers (world s) -> node_fd (device s') = node_fd (device s) ->
  still_listed s' = still_listed s -> in_flight s' = in_flight s -> matched s' = matched s ->
  DriverAgrees s -> DriverAgrees s'.
Proof.
  intros E1 E2 E3 E4 E5 E6 [A1 A2 A3]. split; rewrite ?E1, ?E3, ?E4, ?E5; [exact A1|exact A2|].
  rewrite E6. intros Hm. rewrite (A3 Hm). unfold indices. by rewrite E2.
Qed.

Lemma add_consistent cameraId b s s' : act_step cameraId (AddPending b) s = Some s' -> Consistent s -> Consistent s'.
Proof.
  destruct s as [d w q g add pu po de cl m o]. cbn. case_bool_decide as Hb; [done|]. intros [= <-] [I1 I2 I3 I4 I5 I6 I7].
  cbn in *. split; cbn; try assumption.
  - rewrite <- app_assoc, (Permutation_app_comm [b]), app_assoc. apply NoDup_app. split; [exact I1|].
    split; [|apply NoDup_singleton]. intros x Hx Hxb. apply list_elem_of_singleton in Hxb as ->. auto.
  - rewrite I2, <- !app_assoc. apply Permutation_app_head. by rewrite (Permutation_app_comm [b]), <- !app_assoc.
  - intros Ho. by eapply agrees_same, I4.
  - unfold queuing_agrees in *. cbn in *. destruct q; try done; destruct I5 as [I5 I5']; (split; [done|]);
      destruct (mPendingBuffers d); done.
Qed.

Lemma begin_consistent cameraId s s' : act_step cameraId Begin s = Some s' -> Consistent s -> Consistent s'.
Proof.
  destruct s as [d w q g add pu po de cl m o]. destruct q; try done. cbn. unfold queue_begin.
  intros E [I1 I2 I3 I4 I5 I6 I7]. cbn in *. unfold queuing_agrees in I5. cbn in I5. rewrite I5 in E.
  destruct (mPendingBuffers d) as [|b l] eqn:El; injection E as <-; split; cbn; rewrite ?El; try assumption;
    try (intros Ho; by eapply agrees_same, I4). unfold queuing_agrees. done.
Qed.

Lemma put_consistent cameraId s s' : act_step cameraId CallPut s = Some s' -> Consistent s -> Consistent s'.
Proof.
  destruct s as [d w q g add pu po de cl m o]. destruct q as [|b| |]; try done. cbn.
  destruct (queue_put b d w) as [ret w'] eqn:E. intros [= <-] [I1 I2 I3 I4 I5 I6 I7].
  apply put_spec in E as [Hs Hh]. cbn in *. split; cbn; try assumption.
  - intros Ho. specialize (I4 Ho) as [A1 A2 A3]. unfold in_flight, still_listed in *. cbn in *. rewrite app_nil_r in A1, A3.
    split; unfold in_flight, still_listed; cbn.
    + rewrite (Permutation_length Hh), !length_app, A1. by destruct (ret <? 0).
    + intros i. rewrite Hh, elem_of_app. intros [Hi|Hi]; [by apply A2|].
      destruct (ret <? 0); [by apply elem_of_nil in Hi|]. apply list_elem_of_singleton in Hi as ->. by apply I7.
    + intros Hm. rewrite Hh, (A3 Hm), (indices_same _ _ _ Hs). unfold indices. rewrite fmap_app. f_equiv. by destruct (ret <? 0).
  - intros Ho x. rewrite Hs. by apply I7.
Qed.

Lemma move_consistent cameraId s s' : act_step cameraId Move s = Some s' -> Consistent s -> Consistent s'.
Proof.
  destruct s as [d w q g add pu po de cl m o]. destruct q as [| |b ret|]; try done. cbn. intros [= <-] [I1 I2 I3 I4 I5 I6 I7].
  unfold queuing_agrees in I5. cbn in *. destruct I5 as [Iq Ib]. unfold queue_move.
  destruct (mPendingBuffers d) as [|x l] eqn:El; [done|]. injection Ib as ->.
  destruct (Z.leb_spec 0 ret) as [Hr|Hr]; cbn.
  - split; cbn; try assumption.
    + rewrite app_assoc, Permutation_app_comm. exact I1.
    + rewrite I2. cbn. rewrite <- !app_assoc. cbn. rewrite app_assoc, Permutation_middle, <- app_assoc. done.
    + by rewrite I3, app_assoc.
    + intros Ho. specialize (I4 Ho).
      assert (E : forall g, dequeuing_agrees (SysOf d w (Put b ret) g add pu po de cl m o) ->
        still_listed (SysOf (set_lists l (mBuffersInDevice d ++ [b]) d) w Ended g add (pu ++ [b]) po de cl m o)
        = still_listed (SysOf d w (Put b ret) g add pu po de cl m o) ++ [b]).
      { intros g' Hg. unfold still_listed. cbn. destruct g' as [| |b' a']; try done. cbn in Hg. unfold dequeuing_agrees in Hg. cbn in Hg.
        by destruct (mBuffersInDevice d). }
      specialize (E g I6). destruct I4 as [A1 A2 A3]. unfold in_flight in *. cbn in A1, A3. rewrite (proj2 (Z.ltb_ge _ _)) in A1, A3 by lia.
      split; cbn; unfold in_flight; cbn; rewrite ?E, ?app_nil_r; assumption.
    + unfold dequeuing_agrees in *. cbn in *. by destruct g, (mBuffersInDevice d).
  - split; cbn; rewrite ?El; try assumption. intros Ho. eapply agrees_same, I4; try done.
    unfold in_flight. cbn. by rewrite (proj2 (Z.ltb_lt _ _)) by lia.
Qed.

Lemma end_consistent cameraId s s' : act_step cameraId End s = Some s' -> Consistent s -> Consistent s'.
Proof.
  destruct s as [d w q g add pu po de cl m o]. destruct q; try done. cbn. intros [= <-] [I1 I2 I3 I4 I5 I6 I7].
  split; try done. intros Ho. by eapply agrees_same, I4.
Qed.

Lemma look_consistent cameraId s s' : act_step cameraId Look s = Some s' -> Consistent s -> Consistent s'.
Proof.
  destruct s as [d w q g add pu po de cl m o]. destruct g; try done; try (by destruct q). intros E [I1 I2 I3 I4 I5 I6 I7].
  assert (s' = SysOf d w q (match getFirstDeviceBuffer d with Some b => Looked b | None => NoGrab end) add pu po de cl m o) as ->
    by (destruct q; by injection E).
  split; cbn in *; try assumption.
  - intros Ho. eapply agrees_same, I4; try done. unfold getFirstDeviceBuffer, still_listed. cbn. by destruct (head _).
  - unfold dequeuing_agrees, getFirstDeviceBuffer. cbn. destruct (head (mBuffersInDevice d)) eqn:Eh; cbn; auto.
Qed.

Lemma grab_consistent cameraId s s' : act_step cameraId CallGrab s = Some s' -> Consistent s -> Consistent s'.
Proof.
  destruct s as [d w q g add pu po de cl m o]. destruct g as [|b|]; try (by destruct q). intros E [I1 I2 I3 I4 I5 I6 I7].
  destruct (grab_frame b d w) as [a w'] eqn:Eg.
  assert (s' = SysOf d w' q (if a <? 0 then NoGrab else Grabbed b a) add pu po de cl
                 (m && ((a <? 0) || (a =? v_index (buffers w b)))) o) as ->
    by (cbn in E; rewrite Eg in E; destruct q; by injection E).
  unfold dequeuing_agrees in I6. cbn in *. destruct (mBuffersInDevice d) as [|x l] eqn:El; [done|]. injection I6 as ->.
  split; cbn; rewrite ?El; try assumption.
  - intros Ho. specialize (I4 Ho) as [A1 A2 A3]. cbn in *. pose proof (grab_spec _ _ _ _ _ A2 Eg) as [Hs Hg].
    rewrite El in A1, A3. destruct (a <? 0) eqn:Ea.
    + destruct Hg as [Hb Hg]. split; cbn; unfold still_listed; cbn; rewrite ?Hg, ?El; [exact A1|exact A2|].
      cbn [orb]. rewrite andb_true_r. intros Hm. rewrite (A3 Hm), (indices_same w w'); [done|].
      intro y. destruct (Z.eq_dec y b) as [->|Hy]; [by rewrite Hb|by rewrite Hs].
    + destruct Hg as [Hb Hg]. cbn in A1, A3. pose proof (Permutation_length Hg) as Hlen. cbn in Hlen.
      split; cbn; unfold still_listed; cbn; rewrite ?El; cbn [tail].
      * unfold in_flight in *. cbn in *. lia.
      * intros i Hi. apply A2. rewrite Hg. by right.
      * cbn [orb]. intros [Hm Ha%Z.eqb_eq]%andb_true_iff. apply (Permutation_cons_inv (a := a)). rewrite <- Hg, (A3 Hm).
        unfold indices. cbn. rewrite Ha. apply Permutation_skip. unfold in_flight. cbn.
        apply Permutation_refl', list_fmap_ext. intros j y _. destruct (Z.eq_dec y b) as [->|Hy]; [by rewrite Hb, Ha|by rewrite Hs].
  - unfold dequeuing_agrees. cbn. rewrite El. by destruct (a <? 0).
  - intros Ho y. specialize (I4 Ho) as [A1 A2 A3]. cbn in *. pose proof (grab_spec _ _ _ _ _ A2 Eg) as [Hs Hg].
    destruct (Z.eq_dec y b) as [->|Hy]; [|rewrite Hs by done; by apply I7]. destruct (a <? 0); destruct Hg as [-> Hg]; [by apply I7|].
    apply A2. rewrite Hg. by left.
Qed.

Lemma end_same d : exists n, dequeue_end d = set_skip_num n d.
Proof.
  unfold dequeue_end. destruct (_ <? _); [by eexists|]. exists (mFrameSkipNum d). by destruct d.
Qed.

Lemma pop_consistent cameraId later s s' : act_step cameraId (Pop later) s = Some s' -> Consistent s -> Consistent s'.
Proof.
  destruct s as [d w q g add pu po de cl m o]. destruct g as [| |b a]; try (by destruct q). intros E [I1 I2 I3 I4 I5 I6 I7].
  assert (E' : ('(d, w) ← dequeue_pop cameraId later b d w;
    Some (SysOf (dequeue_end d) w q NoGrab add pu (po ++ [b]) (if mNeedSkipFrame d then de else de ++ [b]) cl m o)) = Some s')
    by (by destruct q). clear E.
  apply bind_Some in E' as ([d' w'] & E & [= <-]). unfold dequeue_pop in E.
  apply bind_Some in E as ([skip w1] & E & [= <- <-]). apply needQueueBack_same in E as [Ek Eb].
  unfold dequeuing_agrees in I6. cbn in *. unfold popBufferFromDevice. cbn.
  destruct (mBuffersInDevice d) as [|x l] eqn:El; [done|]. injection I6 as ->. cbn.
  destruct (end_same (set_latest (v_sequence (buffers w1 b)) (set_lists (if skip then mPendingBuffers d ++ [b] else mPendingBuffers d) l (set_skip skip d)))) as [n ->].
  split; cbn; try done.
  - destruct skip; [by rewrite <- app_assoc|]. apply NoDup_app in I1 as (N1 & N2 & N3). apply NoDup_cons in N3 as [_ N3].
    apply NoDup_app. split; [done|]. split; [|done]. intros y Hy Hl. apply (N2 y Hy). by right.
  - rewrite I2. destruct skip; rewrite <- ?app_assoc; [done|]. apply Permutation_app_head. cbn.
    rewrite !(app_assoc l de). apply Permutation_middle.
  - by rewrite I3, <- app_assoc.
  - intros Ho. eapply agrees_same, I4; try done. unfold still_listed. cbn. by rewrite El.
  - unfold queuing_agrees in *. cbn in *. destruct q, skip; try exact I5; destruct I5 as [? I5]; (split; [done|]);
      by destruct (mPendingBuffers d).
  - intros Ho y. rewrite Eb. by apply I7.
Qed.

(** The stream goes on, or off, or the lists are cleared. *)
Lemma streamOn_node d w ret d' w' : streamOn d w = (ret, d', w') ->
  mPendingBuffers d' = mPendingBuffers d /\ mBuffersInDevice d' = mBuffersInDevice d /\ mBufferQueuing d' = mBufferQueuing d
  /\ node_fd d' = node_fd d /\ buffers w' = buffers w /\ held (node_fd d) (kernel w') = held (node_fd d) (kernel w).
Proof.
  unfold streamOn, on_node, VideoNode.Start, node_ioctl. destruct (negb _); [by intros [= <- <- <-]|].
  destruct (ioctl _ _ _ _) as [[r t] k] eqn:E. apply streamon_held in E. destruct (r <? 0); intros [= <- <- <-]; done.
Qed.

Lemma streamOff_node d w ret d' w' : streamOff d w = (ret, d', w') ->
  mPendingBuffers d' = mPendingBuffers d /\ mBuffersInDevice d' = mBuffersInDevice d /\ mBufferQueuing d' = mBufferQueuing d.
Proof. unfold streamOff, on_node. destruct (VideoNode.Stop _ _ _) as [[r n] k]. by intros [= <- <- <-]. Qed.

Lemma closeDevice_node d w d' w' : closeDevice d w = (d', w') ->
  mPendingBuffers d' = [] /\ mBuffersInDevice d' = [] /\ mBufferQueuing d' = mBufferQueuing d.
Proof.
  unfold closeDevice, on_node. destruct (VideoNode.Stop _ _ _) as [[r n] k]. destruct (VideoNode.Close _ _) as [[r' n'] k'].
  by intros [= <- <-].
Qed.

Lemma stream_on_consistent cameraId s s' : act_step cameraId StreamOn s = Some s' -> Consistent s -> Consistent s'.
Proof.
  destruct s as [d w q g add pu po de cl m o]. intros E [I1 I2 I3 I4 I5 I6 I7]. cbn in *.
  assert (E' : (let '(_, d, w) := streamOn d w in Some (SysOf d w q g add pu po de cl m o)) = Some s') by (by destruct q, g). clear E.
  destruct (streamOn d w) as [[r d'] w'] eqn:Es. injection E' as <-. apply streamOn_node in Es as (N1 & N2 & N3 & N4 & N5 & N6).
  split; cbn; rewrite ?N1, ?N2, ?N5; try assumption.
  - intros Ho. specialize (I4 Ho) as [A1 A2 A3]. cbn in *.
    assert (Nl : forall w0, still_listed (SysOf d' w0 q g add pu po de cl m o) = still_listed (SysOf d w q g add pu po de cl m o))
      by (intros w0; unfold still_listed; cbn; by rewrite N2).
    split; cbn; rewrite ?N4, ?N6, ?Nl; [exact A1|exact A2|]. intros Hm. rewrite (A3 Hm). unfold indices. by rewrite N5.
  - unfold queuing_agrees in *. cbn in *. by rewrite N1, N3.
  - unfold dequeuing_agrees in *. cbn in *. by rewrite N2.
Qed.

Lemma stream_off_consistent cameraId s s' : act_step cameraId StreamOff s = Some s' -> Consistent s -> Consistent s'.
Proof.
  destruct s as [d w q g add pu po de cl m o]. intros E [I1 I2 I3 I4 I5 I6 I7]. cbn in *.
  assert (E' : (let '(_, d, w) := streamOff d w in Some (SysOf d w q g add pu po de cl m true)) = Some s') by (by destruct q, g). clear E.
  destruct (streamOff d w) as [[r d'] w'] eqn:Es. injection E' as <-. apply streamOff_node in Es as (N1 & N2 & N3).
  split; cbn; rewrite ?N1, ?N2; try assumption; try done.
  - unfold queuing_agrees in *. cbn in *. by rewrite N1, N3.
  - unfold dequeuing_agrees in *. cbn in *. by rewrite N2.
Qed.

(** The lists are cleared while no call is under way. *)
Lemma cleared_consistent d w add pu po de cl m o d' w' :
  mPendingBuffers d' = [] -> mBuffersInDevice d' = [] -> mBufferQueuing d' = mBufferQueuing d ->
  Consistent (SysOf d w NoPut NoGrab add pu po de cl m o) ->
  Consistent (SysOf d' w' NoPut NoGrab add [] [] de (cl ++ mPendingBuffers d ++ mBuffersInDevice d) m true).
Proof.
  intros N1 N2 N3 [I1 I2 I3 I4 I5 I6 I7]. cbn in *. split; cbn; rewrite ?N1, ?N2; try done; [constructor| |].
  - rewrite I2. cbn. rewrite !(app_assoc de), (app_assoc (mPendingBuffers d)). apply Permutation_app_comm.
  - unfold queuing_agrees in *. cbn in *. by rewrite N3.
Qed.

Lemma reset_consistent cameraId s s' : act_step cameraId Reset s = Some s' -> Consistent s -> Consistent s'.
Proof.
  destruct s as [d w q g add pu po de cl m o]. destruct q, g; try done. cbn. intros [= <-]. by apply cleared_consistent.
Qed.

Lemma close_consistent cameraId s s' : act_step cameraId CloseDevice s = Some s' -> Consistent s -> Consistent s'.
Proof.
  destruct s as [d w q g add pu po de cl m o]. destruct q, g; try done. cbn.
  destruct (closeDevice d w) as [d' w'] eqn:E. intros [= <-]. apply closeDevice_node in E as (N1 & N2 & N3). by apply cleared_consistent.
Qed.

Lemma act_consistent cameraId a s s' : act_step cameraId a s = Some s' -> Consistent s -> Consistent s'.
Proof.
  destruct a; eauto using add_consistent, begin_consistent, put_consistent, move_consistent, end_consistent, look_consistent,
    grab_consistent, pop_consistent, stream_on_consistent, stream_off_consistent, reset_consistent, close_consistent.
Qed.

Lemma run_consistent cameraId acts s s' : act_run cameraId acts s = Some s' -> Consistent s -> Consistent s'.
Proof.
  revert s. induction acts as [|a acts IH]; intros s; cbn; [by intros [= ->]|].
  intros (s1 & E1 & E)%bind_Some. eauto using act_consistent.
Qed.

(** A device that has no buffers, and whose driver has none. *)
Record Empty d w : Prop := {
  e_pending : mPendingBuffers d = [];
  e_device : mBuffersInDevice d = [];
  e_queuing : mBufferQueuing d = false;
  e_held : held (node_fd d) (kernel w) = [];
  e_range : forall b, 0 <= v_index (buffers w b) < 2 ^ 31;
}.

Definition at_rest d w : @Sys K := SysOf d w NoPut NoGrab [] [] [] [] [] true false.

Lemma at_rest_consistent d w : Empty d w -> Consistent (at_rest d w).
Proof.
  intros [E1 E2 E3 E4 E5]. split; cbn; rewrite ?E1, ?E2; try done; [constructor|].
  intros _. split; cbn; unfold still_listed, in_flight; cbn; rewrite ?E4, ?E2; try done. intros i Hi. by apply elem_of_nil in Hi.
Qed.

(** C5: however the threads that add, queue and dequeue buffers, switch the
    stream and, between calls of the driver, clear the lists or close the device
    interleave, a buffer is in at most one place and each one added is waiting,
    listed as with the driver, handed to the consumers, or was on the lists when
    they were cleared; the list of those with the driver is in the order in
    which they were given to it and loses its first when the driver answers.
    Until the stream is switched off or the lists are cleared the driver has as
    many buffers as the device lists for it (but for the ones a call is under
    way for), whatever the order in which it gives them back, and those very
    buffers as long as it answered the indices of the buffers it was asked to
    fill. *)
Theorem capture_buffers_conserved cameraId acts d w s :
  Empty d w -> act_run cameraId acts (at_rest d w) = Some s ->
  NoDup (mPendingBuffers (device s) ++ mBuffersInDevice (device s))
  /\ added s ≡ₚ mPendingBuffers (device s) ++ mBuffersInDevice (device s) ++ delivered s ++ cleared s
  /\ puts s = pops s ++ mBuffersInDevice (device s)
  /\ (off s = false ->
        length (held (node_fd (device s)) (kernel (world s))) = length (still_listed s ++ in_flight s)
        /\ (matched s = true ->
             held (node_fd (device s)) (kernel (world s)) ≡ₚ indices (world s) (still_listed s ++ in_flight s))).
Proof.
  intros He Hr. apply run_consistent in Hr as [I1 I2 I3 I4 I5 I6 I7]; [|by apply at_rest_consistent].
  do 3 (split; [done|]). intros Ho. by destruct (I4 Ho).
Qed.

(** Whether a frame is to be skipped, when some are still to be skipped. *)
Lemma initial_skip cameraId later b d w skip w' :
  needQueueBack cameraId later b d w = Some (skip, w') -> 0 < mFrameSkipNum d -> skip = true.
Proof.
  intros E Hs. apply Z.ltb_lt in Hs. unfold needQueueBack, main_needQueueBack, dol_needQueueBack in E. rewrite Hs in E.
  destruct (kind d); [destruct isEnableFrameSyncCheck|].
  - apply bind_Some in E as (s & _ & E). by apply bind_Some in E as (x & _ & [= <- <-]).
  - by injection E.
  - destruct (has_error _); by injection E.
Qed.

(** Whom a frame is announced to. *)
Lemma announced b d w c p x :
  FrameAvailable c p x ∈ onDequeueBuffer b d w <-> mNeedSkipFrame d = false /\ c ∈ mConsumers d /\ p = mPort d /\ x = b.
Proof.
  unfold onDequeueBuffer.
  destruct (kind d), (mNeedSkipFrame d); rewrite ?elem_of_cons, ?elem_of_app, ?elem_of_cons, ?list_elem_of_fmap, ?elem_of_nil.
  all: split; [intros Hin; destruct_or? Hin; try done; destruct Hin as (y & [= -> -> ->] & Hy); done|].
  all: intros (Hs & Hc & -> & ->); try done; eauto 10.
Qed.

(** A frame that comes back in time is taken off the device's list and its
    buffer either waits for the driver again, with no consumer told, or goes to
    every consumer; the initial frames are all skipped. *)
Theorem dequeued_frame_goes_on cameraId later d w b rest ret actions d' w' :
  mBuffersInDevice d = b :: rest -> 0 <= v_index (buffers w b) < 2 ^ 31 ->
  (forall i, i ∈ held (node_fd d) (kernel w) -> 0 <= i < 2 ^ 31) ->
  dequeueBuffer cameraId later d w = Some (ret, actions, d', w') -> ret <> BAD_VALUE ->
  ret = OK /\ mBuffersInDevice d' = rest
  /\ held (node_fd d) (kernel w) ≡ₚ v_index (buffers w b) :: held (node_fd d') (kernel w')
  /\ (if mNeedSkipFrame d'
      then mPendingBuffers d' = mPendingBuffers d ++ [b] /\ forall c p x, FrameAvailable c p x ∉ actions
      else mPendingBuffers d' = mPendingBuffers d /\ forall c, c ∈ mConsumers d -> FrameAvailable c (mPort d) b ∈ actions)
  /\ (0 < mFrameSkipNum d -> mNeedSkipFrame d' = true /\ mFrameSkipNum d' = mFrameSkipNum d - 1).
Proof.
  intros Hd Hr Hh E Hret. unfold dequeueBuffer, getFirstDeviceBuffer in E. rewrite Hd in E. cbn in E.
  destruct (grab_frame b d w) as [a w1] eqn:Eg. apply (grab_spec _ _ _ _ _ Hh) in Eg as [_ Hg].
  destruct (a <? 0); [by injection E as <- _ _ _|]. destruct Hg as [_ Hg]. rewrite signed_small in E by lia.
  apply bind_Some in E as ([d1 w2] & E & [= <- <- <- <-]).
  destruct (Z.eqb_spec a (v_index (buffers w b))) as [->|]; [|done]. unfold dequeue_pop in E.
  apply bind_Some in E as ([skip w3] & E & [= <- <-]).
  pose proof (initial_skip _ _ _ _ _ _ _ E) as Hi. apply needQueueBack_same in E as [Ek _].
  unfold popBufferFromDevice. cbn. rewrite Hd.
  destruct (end_same (set_latest (v_sequence (buffers w3 b)) (set_lists (if skip then mPendingBuffers d ++ [b] else mPendingBuffers d) rest (set_skip skip d)))) as [n En].
  split; [done|]. rewrite En. cbn. split; [done|]. split; [by rewrite Ek|]. split.
  - destruct skip; (split; [done|]).
    + intros c p x. rewrite announced. by intros [? _].
    + intros c Hc. by rewrite announced.
  - intro Hs. split; [auto|]. apply (f_equal mFrameSkipNum) in En. revert En. unfold dequeue_end. cbn.
    by rewrite (proj2 (Z.ltb_lt _ _) Hs).
Qed.

(** A driver that answers another buffer than the first of the list: the status
    says so, but the first buffer is taken off the list and handed to the
    consumers as if it were the one that was filled. *)
Theorem other_buffer_delivered cameraId later d w b rest a w1 ret actions d' w' :
  mBuffersInDevice d = b :: rest -> grab_frame b d w = (a, w1) -> 0 <= a -> a <> signed 32 (v_index (buffers w b)) ->
  dequeueBuffer cameraId later d w = Some (ret, actions, d', w') ->
  ret = BAD_VALUE /\ mBuffersInDevice d' = rest
  /\ (mNeedSkipFrame d' = false -> forall c, c ∈ mConsumers d -> FrameAvailable c (mPort d) b ∈ actions).
Proof.
  intros Hd Eg Ha Hne E. unfold dequeueBuffer, getFirstDeviceBuffer in E. rewrite Hd in E. cbn in E. rewrite Eg in E.
  rewrite (proj2 (Z.ltb_ge a 0) Ha), (proj2 (Z.eqb_neq _ _) Hne) in E.
  apply bind_Some in E as ([d1 w2] & E & [= <- <- <- <-]). unfold dequeue_pop in E.
  apply bind_Some in E as ([skip w3] & E & [= <- <-]). unfold popBufferFromDevice. cbn. rewrite Hd.
  destruct (end_same (set_latest (v_sequence (buffers w3 b)) (set_lists (if skip then mPendingBuffers d ++ [b] else mPendingBuffers d) rest (set_skip skip d)))) as [n En].
  split; [done|]. rewrite En. cbn. split; [done|]. intros Hs c Hc. rewrite announced. done.
Qed.

(** Clearing the lists while a buffer is being given to the driver: a buffer
    added before the call returns is then in no list, neither waiting nor with
    the driver. *)
Theorem reset_while_queuing_loses b c rest d w ret w' :
  mPendingBuffers d = b :: rest -> mBufferQueuing d = false -> b <> c ->
  queue_begin d = (Some b, set_queuing true d) /\
  (queue_put b (set_queuing true d) w = (ret, w') -> 0 <= ret ->
   let d' := queue_end (queue_move ret b (addPendingBuffer c (resetBuffers (set_queuing true d)))) in
   mPendingBuffers d' = [] /\ mBuffersInDevice d' = [b]
   /\ held (node_fd d) (kernel w') ≡ₚ held (node_fd d) (kernel w) ++ [v_index (buffers w b)]).
Proof.
  intros Hp Hq Hb. split; [unfold queue_begin; by rewrite Hq, Hp|].
  intros E Hr. apply put_spec in E as [_ E]. cbn. unfold queue_move. cbn. rewrite (proj2 (Z.leb_le _ _) Hr).
  rewrite (proj2 (Z.ltb_ge _ _) Hr) in E.
  split; [done|]. split; [done|]. exact E.
Qed.

(** The size that the driver's answer is compared with is not the driver's:
    it is zero whatever the driver does, so a buffer that is too small for the
    format is not noticed. *)
Theorem size_check_is_void config d w ret tmpbuf d' w' :
  0 < getNumOfPlanes (s_format config) ->
  set_device_format (main_format config (mBufType d)) d w = Some (ret, tmpbuf, d', w') -> realBufferSize tmpbuf = 0.
Proof.
  intros Hn E. unfold set_device_format in E. apply bind_Some in E as ([[r n] k] & _ & [= <- <- <- <-]).
  unfold main_format, realBufferSize, SizeImage. destruct (V4L2_TYPE_IS_MULTIPLANAR _); [|done]. cbn.
  destruct (Z.to_nat (getNumOfPlanes (s_format config))) eqn:En; [lia|]. done.
Qed.
End Proofs.

(** ** Witnesses *)

(** A driver that has a queue of buffers and gives them back in that order; a
    device is ready when it has one. *)
Definition fifo_ioctl {A} (fd : Z) (r : request A) : A -> list Z -> Z * A * list Z :=
  match r with
  | VIDIOC_QBUF => fun b q => (0, b, q ++ [buf_index b])
  | VIDIOC_DQBUF => fun b q =>
      match q with
      | [] => (-1, b, q)
      | i :: q => (0, Buffer i (buf_type b) (buf_flags b) (buf_field b) (buf_timestamp b) i (buf_memory b)
                        (buf_bytesused b) (buf_length b) (buf_request_fd b) (buf_m b) (buf_planes b), q)
      end
  | VIDIOC_QUERYCAP => fun _ q => (0, Capability V4L2_CAP_VIDEO_CAPTURE, q)
  | _ => fun a q => (0, a, q)
  end.

#[export] Instance fifo_kernel : Kernel (list Z) := {
  stat_chardev := fun _ _ => Some true;
  sys_open := fun _ _ q => (3, 0, q);
  sys_close := fun _ q => (0, []);
  ioctl := @fifo_ioctl;
  sys_poll := fun l _ q =>
    (if bool_decide (q = []) then 0 else 1, (fun p => PollFd (fd p) (events p) (if bool_decide (q = []) then 0 else POLLIN)) <$> l, q);
  sys_mmap := fun _ _ _ _ _ q => (None, q);
}.

#[export, refine] Instance fifo_queue : FrameQueue (list Z) := { held := fun _ q => q }.
Proof.
  - intros fd b q ret b' q'. simpl. intros [= <- <- <-]. done.
  - intros fd b [|i q] ret b' q'; simpl; intros [= <- <- <-]; [done|exact (Permutation_refl (i :: q))].
  - intros fd t q ret t' q'. simpl. by intros [= <- <- <-].
Defined.

#[export] Instance example_config : CaptureConfig := {|
  MAX_CAMERA_NUMBER := 100; isEnableFrameSyncCheck := false; isSkipFrameOnSTR2MMIOErr := true; getISYSCompression := false;
  isCSIBackEndCapture := false; csiBackEnd := None; isDolShortEnabled := false; isDolMediumEnabled := false; getMaxRawDataNum := 32;
|}.

#[export] Instance example_lag : LagConfig := {|
  mExposureLag := 2; mAnalogGainLag := 1; mDigitalGainLag := 1; mWaitFirstStats := false; hasMediaCtlConfs := true;
  mUseIspDigitalGain := false; mSensorDgType := SENSOR_DG_TYPE_2_X; mMaxSensorDigitalGain := 4; mInitialSkipFrame := 1;
  hdrSensor := SENSOR_EXPOSURE_SINGLE;
|}.

(** A device whose node is streaming; the buffers at 100, 101, 102 have the
    indices 0, 1, 2. *)
Definition example_device : DeviceBase :=
  DeviceOf MainDevice 0 (set_state STARTED (set_dev (V4l2Device.Device "/dev/video0" 3) (new_V4L2VideoNode "/dev/video0")))
    (-1) false 1 [7] [] [] 10 false V4L2_BUF_TYPE_VIDEO_CAPTURE.

Definition example_world : @World (list Z) :=
  WorldOf [] (fun b => SetIndex (if (100 <=? b) && (b <? 110) then b - 100 else 0) new_V4L2Buffer) (new_SyncManager 100)
    V4L2_BUF_TYPE_VIDEO_CAPTURE.

Lemma example_empty : Empty example_device example_world.
Proof.
  split; try reflexivity. intro b. cbn. destruct (Z.leb_spec 100 b), (Z.ltb_spec b 110); cbn; lia.
Qed.

(** The polling thread takes the first buffer while a client is giving the
    second one to the driver; the first frame is skipped. *)
Definition example_acts : list act :=
  [AddPending 100; AddPending 101; Begin; CallPut; Move; End; Look; Begin; CallPut; CallGrab; Pop []; Move; End; Look; CallGrab;
   AddPending 102; Pop []; Begin; CallPut].

Lemma capture_buffers_conserved_witness :
  exists s, act_run 0 example_acts (at_rest example_device example_world) = Some s
    /\ queuing s = Put 100 0 /\ NoDup (mPendingBuffers (device s) ++ mBuffersInDevice (device s))
    /\ added s ≡ₚ mPendingBuffers (device s) ++ mBuffersInDevice (device s) ++ delivered s ++ cleared s /\ delivered s = [101].
Proof.
  eexists. split; [vm_compute; reflexivity|]. split; [reflexivity|].
  edestruct (capture_buffers_conserved 0 example_acts example_device example_world) as (H1 & H2 & _);
    [exact example_empty|vm_compute; reflexivity|].
  split; [exact H1|]. split; [exact H2|reflexivity].
Defined.

Definition example_queued : DeviceBase * World :=
  let '(_, d, w) := queueBuffer (addPendingBuffer 101 (set_skip_num 0 example_device)) example_world in (d, w).

Lemma dequeued_frame_goes_on_witness :
  exists actions d' w', dequeueBuffer 0 [] example_queued.1 example_queued.2 = Some (OK, actions, d', w')
    /\ mBuffersInDevice d' = [] /\ mNeedSkipFrame d' = false /\ FrameAvailable 7 0 101 ∈ actions.
Proof.
  eexists _, _, _. split; [vm_compute; reflexivity|].
  edestruct (dequeued_frame_goes_on 0 [] example_queued.1 example_queued.2 101 []) as (_ & H1 & _ & H2 & _);
    [reflexivity|vm_compute; split; congruence|
     intros i Hi; change (i ∈ [1]) in Hi; apply list_elem_of_singleton in Hi as ->; lia|vm_compute; reflexivity|discriminate|].
  split; [exact H1|]. split; [reflexivity|]. apply (proj2 H2). vm_compute. left.
Defined.

Lemma reset_while_queuing_loses_witness :
  let d := addPendingBuffer 101 example_device in
  let '(ret, w') := queue_put 101 (set_queuing true d) example_world in
  let d' := queue_end (queue_move ret 101 (addPendingBuffer 102 (resetBuffers (set_queuing true d)))) in
  mPendingBuffers d' = [] /\ mBuffersInDevice d' = [101].
Proof.
  pose proof (reset_while_queuing_loses 101 102 [] (addPendingBuffer 101 example_device) example_world 0
    (snd (queue_put 101 (set_queuing true (addPendingBuffer 101 example_device)) example_world)) eq_refl eq_refl ltac:(lia)) as [_ Hr].
  specialize (Hr eq_refl ltac:(lia)). destruct Hr as (H1 & H2 & _). split; [exact H1|exact H2].
Defined.

Definition example_stream : stream_t := Stream V4L2_PIX_FMT_NV12 1920 1080 0 V4L2_MEMORY_USERPTR.

Definition example_opened : DeviceBase :=
  DeviceOf MainDevice 0 (set_state OPEN (set_dev (V4l2Device.Device "/dev/video0" 3) (new_V4L2VideoNode "/dev/video0")))
    (-1) false 1 [7] [] [] 10 false V4L2_BUF_TYPE_VIDEO_CAPTURE.

Lemma size_check_is_void_witness :
  exists tmpbuf d' w',
    set_device_format (main_format example_stream V4L2_BUF_TYPE_VIDEO_CAPTURE) example_opened example_world = Some (0, tmpbuf, d', w')
    /\ realBufferSize tmpbuf = 0.
Proof.
  eexists _, _, _. split; [vm_compute; reflexivity|].
  eapply (size_check_is_void example_stream example_opened example_world); [reflexivity|vm_compute; reflexivity].
Defined.
