(* ===== verification/CaptureUnit.v ===== *)
(** * The capture unit

    src/core/CaptureUnit.cpp and .h: the unit owns the capture devices of a
    camera, configures and starts them, keeps a bounded number of buffers in
    each of them, and polls them.

    Its public functions other than [qbuf] hold a mutex, and each is one
    function here, done as if no other thread came in between; what another
    thread that is queuing does to [processPendingBuffers] is shown below with
    its flag set.  [mFlush] is whether the pipe was opened, and how many bytes
    wait in it.  [None] is an access outside a container, or the exception of
    one, or a signed overflow. *)

From Stdlib Require Import String.
From S2P Require Import Prelude Errors V4l2Device V4l2Video SyncManager SensorHwCtrl SensorManager PixelFormats CaptureDevice.
From stdpp Require Import list gmap.
#[local] Open Scope Z_scope.
Import VideoNode.

(** ** Data *)

Inductive capture_state := CAPTURE_UNINIT | CAPTURE_INIT | CAPTURE_CONFIGURE | CAPTURE_START | CAPTURE_STOP.

#[global] Instance capture_state_eq_dec : EqDecision capture_state.
Proof. solve_decision. Defined.

Inductive VideoNodeType := VIDEO_GENERIC | VIDEO_GENERIC_SHORT_EXPO | VIDEO_GENERIC_MEDIUM_EXPO.

Definition MAIN_PORT : Z := 0.
Definition SECOND_PORT : Z := 1.
Definition THIRD_PORT : Z := 2.
Definition FORTH_PORT : Z := 3.

(** The platform data, and the media controller: [mediaCtlSetup] answers
    [BAD_VALUE] or [UNKNOWN_ERROR] when there is no configuration or no controller. *)
Class UnitConfig (K : Type) := {
  getDevNameByType : VideoNodeType -> string;
  mediaCtlSetup : Z -> Z -> Z -> K -> Z * K;
  getMaxIsysTimeout : Z;
}.

Record CaptureUnit := UnitOf {
  mState : capture_state;
  mExitPending : bool;
  mDevices : list DeviceBase;
  mOutputFrameInfo : gmap Z stream_t;
  mMaxBuffersInDevice : Z;
  mMaxBufferNum : Z;
  mFlush : option (Z * nat);
  polling : bool;
}.

Section Unit.
Context {K : Type} `{Kernel K} `{LagConfig} `{CaptureConfig} `{UnitConfig K}.
#[local] Abbreviation World := (@World K).
Implicit Types (u : CaptureUnit) (w : World).

Definition set_unit_state st u := UnitOf st (mExitPending u) (mDevices u) (mOutputFrameInfo u) (mMaxBuffersInDevice u) (mMaxBufferNum u) (mFlush u) (polling u).
Definition set_exit b u := UnitOf (mState u) b (mDevices u) (mOutputFrameInfo u) (mMaxBuffersInDevice u) (mMaxBufferNum u) (mFlush u) (polling u).
Definition set_devices l u := UnitOf (mState u) (mExitPending u) l (mOutputFrameInfo u) (mMaxBuffersInDevice u) (mMaxBufferNum u) (mFlush u) (polling u).
Definition set_frames m u := UnitOf (mState u) (mExitPending u) (mDevices u) m (mMaxBuffersInDevice u) (mMaxBufferNum u) (mFlush u) (polling u).
Definition set_flush f u := UnitOf (mState u) (mExitPending u) (mDevices u) (mOutputFrameInfo u) (mMaxBuffersInDevice u) (mMaxBufferNum u) f (polling u).
Definition set_polling b u := UnitOf (mState u) (mExitPending u) (mDevices u) (mOutputFrameInfo u) (mMaxBuffersInDevice u) (mMaxBufferNum u) (mFlush u) b.

(** [pipe] is the read end, if the pipe could be made and set up. *)
Definition new_CaptureUnit (pipe : option Z) : CaptureUnit :=
  UnitOf CAPTURE_UNINIT false [] ∅ (Z.max 2 (mExposureLag + 1)) getMaxRawDataNum ((fun fd => (fd, O)) <$> pipe) false.

(** ** Devices *)

Fixpoint close_all (l : list DeviceBase) w : World :=
  match l with [] => w | d :: rest => close_all rest (snd (closeDevice d w)) end.

Definition destroyDevices u w : CaptureUnit * World := (set_devices [] u, close_all (mDevices u) w).

Definition findDefaultPort (frames : gmap Z stream_t) : Z :=
  match filter (fun p => is_Some (frames !! p)) [MAIN_PORT; SECOND_PORT; THIRD_PORT; FORTH_PORT] with
  | p :: _ => p
  | [] => INVALID_PORT
  end.

Definition findDeviceByPort (port : Z) u : option nat :=
  fst <$> list_find (fun d => mPort d = port) (mDevices u).

(** Each device with its port. *)
Definition planned (main : Z) : list (DeviceBase * Z) :=
  [(new_DeviceBase MainDevice (getDevNameByType VIDEO_GENERIC), main)]
  ++ (if isDolShortEnabled then [(new_DeviceBase DolCaptureDevice (getDevNameByType VIDEO_GENERIC_SHORT_EXPO), SECOND_PORT)] else [])
  ++ (if isDolMediumEnabled then [(new_DeviceBase DolCaptureDevice (getDevNameByType VIDEO_GENERIC_MEDIUM_EXPO), THIRD_PORT)] else []).

(** The devices from one on, up to the first that fails; the others stay as they
    are. *)
Fixpoint open_devices (frames : gmap Z stream_t) (kDefaultStream : stream_t) (num : Z) (l : list (DeviceBase * Z)) w
    : option (Z * list DeviceBase * World) :=
  match l with
  | [] => Some (OK, [], w)
  | (d, target) :: rest =>
      let '(ret, d, w) := openDevice d w in
      if negb (ret =? OK) then Some (ret, d :: (fst <$> rest), w) else
      let '(port, stream) := match frames !! target with Some s => (target, s) | None => (INVALID_PORT, kDefaultStream) end in
      '(ret, d, w) ← configure port stream num d w;
      if negb (ret =? OK) then Some (ret, d :: (fst <$> rest), w) else
      '(ret, l, w) ← open_devices frames kDefaultStream num rest w;
      Some (ret, d :: l, w)
  end.

Definition createDevices u w : option (Z * CaptureUnit * World) :=
  let '(u, w) := destroyDevices u w in
  let frames := mOutputFrameInfo u in
  let portOfMainDevice := findDefaultPort frames in
  kDefaultStream ← frames !! portOfMainDevice;
  '(ret, l, w) ← open_devices frames kDefaultStream (mMaxBufferNum u) (planned portOfMainDevice) w;
  Some (ret, set_devices l u, w).

(** ** States *)

Definition init u : Z * CaptureUnit := (OK, set_unit_state CAPTURE_INIT u).

(** [join] waits for the polling thread, which nothing here asks to end: [None]
    when it runs. *)
Definition deinit u w : option (CaptureUnit * World) :=
  if bool_decide (mState u = CAPTURE_UNINIT) then Some (u, w) else
  let '(u, w) := destroyDevices u w in
  if polling u then None else Some (set_unit_state CAPTURE_UNINIT u, w).

(** The devices are started up to the first that fails. *)
Fixpoint start_all (l : list DeviceBase) w : Z * list DeviceBase * World :=
  match l with
  | [] => (OK, [], w)
  | d :: rest =>
      let '(ret, d, w) := streamOn d w in
      if ret <? 0 then (INVALID_OPERATION, d :: rest, w) else
      let '(ret, rest, w) := start_all rest w in (ret, d :: rest, w)
  end.

Fixpoint stop_all (l : list DeviceBase) w : list DeviceBase * World :=
  match l with
  | [] => ([], w)
  | d :: rest =>
      let '(_, d, w) := streamOff d w in
      let '(rest, w) := stop_all rest w in (d :: rest, w)
  end.

(** [start], up to where the polling thread runs, and after; one byte is read
    from the pipe, which does not block. *)
Definition start_thread u w : Z * CaptureUnit * World :=
  let '(ret, l, w) := start_all (mDevices u) w in
  if negb (ret =? OK) then let '(l, w) := stop_all l w in (ret, set_devices l u, w) else
  let flush := (fun '(fd, n) => (fd, Nat.pred n)) <$> mFlush u in
  (OK, set_polling true (set_flush flush (set_devices l u)), w).

Definition start_done u : CaptureUnit := set_exit false (set_unit_state CAPTURE_START u).

Definition start u w : Z * CaptureUnit * World :=
  if bool_decide (mState u = CAPTURE_START) then (OK, u, w) else
  let '(ret, u, w) := start_thread u w in
  if negb (ret =? OK) then (ret, u, w) else (OK, start_done u, w).

(** The polling thread has ended when the lists are cleared. *)
Definition stop u w : Z * CaptureUnit * World :=
  if negb (bool_decide (mState u = CAPTURE_START)) then (OK, u, w) else
  let flush := (fun '(fd, n) => (fd, S n)) <$> mFlush u in
  let '(l, w) := stop_all (mDevices u) w in
  (OK, set_exit false (set_devices (resetBuffers <$> l) (set_unit_state CAPTURE_STOP (set_polling false (set_flush flush u)))), w).

Definition configure_unit (outputFrames : gmap Z stream_t) u w : option (Z * CaptureUnit * World) :=
  if bool_decide (outputFrames = ∅) then Some (BAD_VALUE, u, w) else
  if negb (bool_decide (mState u ∈ [CAPTURE_CONFIGURE; CAPTURE_INIT; CAPTURE_STOP])) then Some (INVALID_OPERATION, u, w) else
  mainStream ← outputFrames !! findDefaultPort outputFrames;
  let u := set_frames outputFrames u in
  let '(status, k) := mediaCtlSetup (s_width mainStream) (s_height mainStream) (s_field mainStream) (kernel w) in
  let w := set_kernel k w in
  if negb (status =? OK) then Some (status, u, w) else
  '(status, u, w) ← createDevices u w;
  if negb (status =? OK) then Some (status, u, w) else
  Some (OK, set_exit false (set_unit_state CAPTURE_CONFIGURE u), w).

(** ** Buffers *)

Fixpoint queue_all (l : list DeviceBase) w : Z * list DeviceBase * World :=
  match l with
  | [] => (OK, [], w)
  | d :: rest =>
      let '(ret, d, w) := queueBuffer d w in
      if negb (ret =? OK) then (ret, d :: rest, w) else
      let '(ret, rest, w) := queue_all rest w in (ret, d :: rest, w)
  end.

(** [onQueueBuffer] of the devices does not use the predicted sequence. *)
Definition queueAllBuffers u w : Z * CaptureUnit * World :=
  if mExitPending u then (OK, u, w) else
  let '(ret, l, w) := queue_all (mDevices u) w in (ret, set_devices l u, w).

(** The number of buffers in the first device; [None] without devices. *)
Definition front_count u : option Z := getBufferNumInDevice <$> head (mDevices u).

(** [inl] is the loop after [fuel] rounds, still to go on. *)
Fixpoint processPendingBuffers (fuel : nat) u w : option (CaptureUnit * World + Z * CaptureUnit * World) :=
  n ← front_count u;
  if mMaxBuffersInDevice u <=? n then Some (inr (OK, u, w)) else
  if negb (forallb hasPendingBuffer (mDevices u)) then Some (inr (OK, u, w)) else
  match fuel with
  | O => Some (inl (u, w))
  | S fuel =>
      let '(ret, u, w) := queueAllBuffers u w in
      if mExitPending u then Some (inr (OK, u, w)) else
      if negb (ret =? OK) then Some (inr (ret, u, w)) else processPendingBuffers fuel u w
  end.

(** As many rounds as there are places for buffers are enough. *)
Definition fill_devices u w : option (Z * CaptureUnit * World) :=
  r ← processPendingBuffers (Z.to_nat (mMaxBuffersInDevice u)) u w;
  match r with inl _ => None | inr x => Some x end.

(** [None] is a null buffer. *)
Definition qbuf (port : Z) (camBuffer : option Z) u w : option (Z * CaptureUnit * World) :=
  match camBuffer with
  | None => Some (BAD_VALUE, u, w)
  | Some b =>
      if bool_decide (mState u ∈ [CAPTURE_INIT; CAPTURE_UNINIT]) then Some (INVALID_OPERATION, u, w) else
      match findDeviceByPort port u with
      | None => Some (BAD_VALUE, u, w)
      | Some i => fill_devices (set_devices (alter (addPendingBuffer b) i (mDevices u)) u) w
      end
  end.

(** ** Polling *)

Definition POLLOUT : Z := 4.
Definition poll_events : Z := Z.lor (Z.lor (Z.lor POLLPRI POLLIN) POLLOUT) POLLERR.

Definition device_of d : option V4l2Device.V4L2Device := Some (dev (mDevice d)).

(** The rounds of the loop that waits: the last answer, and the devices ready. *)
Fixpoint wait (timeOutCount : nat) (poll_timeout : Z) u w : Z * list V4l2Device.V4L2Device * World :=
  match timeOutCount with
  | O => (0, [], w)
  | S n =>
      let poller := new_V4L2DevicePoller (device_of <$> mDevices u) (match mFlush u with Some (fd, _) => fd | None => -1 end) in
      let '(ret, ready, _, k) := Poll_devices poll_timeout poll_events poller (kernel w) in
      let w := set_kernel k w in
      if ret =? 0 then wait n poll_timeout u w else (ret, ready, w)
  end.

(** A ready device is dequeued, and the unit fills up its devices when a main
    device tells it so.  What the callbacks do does not depend on the number of
    frames to skip, which the code counts down after them. *)
Definition dequeue_ready (cameraId : Z) (later : list SyncManager) (ready : V4l2Device.V4L2Device) u w
    : option (list action * CaptureUnit * World) :=
  match list_find (fun d => name_ (dev (mDevice d)) = name_ ready) (mDevices u) with
  | None => Some ([], u, w)
  | Some (i, d) =>
      '(_, actions, d, w) ← dequeueBuffer cameraId later d w;
      let u := set_devices (<[i := d]> (mDevices u)) u in
      match actions with
      | DequeueCallback :: _ => '(_, u, w) ← fill_devices u w; Some (actions, u, w)
      | _ => Some (actions, u, w)
      end
  end.

Fixpoint dequeue_all (cameraId : Z) (later : list SyncManager) (ready : list V4l2Device.V4L2Device) u w
    : option (list action * CaptureUnit * World) :=
  match ready with
  | [] => Some ([], u, w)
  | r :: rest =>
      '(first, u, w) ← dequeue_ready cameraId later r u w;
      '(others, u, w) ← dequeue_all cameraId later rest u w;
      Some (first ++ others, u, w)
  end.

(** The status, whether listeners hear of an error, and the callbacks. *)
Definition poll (cameraId : Z) (later : list SyncManager) (poll_timeout : Z) u w : option (Z * bool * list action * CaptureUnit * World) :=
  if negb (bool_decide (mState u ∈ [CAPTURE_CONFIGURE; CAPTURE_START])) then Some (INVALID_OPERATION, false, [], u, w) else
  let timeOutCount := if 0 <? getMaxIsysTimeout then getMaxIsysTimeout else 10 in
  if mExitPending u then Some (-1, false, [], u, w) else
  let '(ret, ready, w) := wait (Z.to_nat timeOutCount) poll_timeout u w in
  if ret <? 0 then Some (UNKNOWN_ERROR, false, [], u, w) else
  if ret =? 0 then n ← front_count u; Some (OK, (0 <? getMaxIsysTimeout) && (0 <? n), [], u, w) else
  '(actions, u, w) ← dequeue_all cameraId later ready u w;
  Some (OK, false, actions, u, w).

(** [PollThread::threadLoop]: the thread ends with the first poll that does not
    answer [OK]. *)
Definition poll_loop (cameraId : Z) (later : list SyncManager) (poll_timeout : Z) u w : option (Z * CaptureUnit * World) :=
  if negb (polling u) then None else
  '(ret, _, _, u, w) ← poll cameraId later poll_timeout u w;
  Some (ret, set_polling (ret =? OK) u, w).

(** ** Listeners *)

Definition addFrameAvailableListener (l : Z) u : CaptureUnit := set_devices (addFrameListener l <$> mDevices u) u.
Definition removeFrameAvailableListener (l : Z) u : CaptureUnit := set_devices (removeFrameListener l <$> mDevices u) u.
Definition removeAllFrameAvailableListener u : CaptureUnit := set_devices (removeAllFrameListeners <$> mDevices u) u.
End Unit.

(** ** Calls

    The calls of the owner of the unit, of clients and of the polling thread;
    the owner initialises the unit only when it is not. *)
Inductive unit_op :=
| DoInit
| DoDeinit
| DoConfigure (frames : gmap Z stream_t)
| DoStart
| DoStop
| DoQbuf (port : Z) (camBuffer : option Z)
| DoPoll (cameraId : Z) (later : list SyncManager) (poll_timeout : Z)
| DoAddListener (l : Z)
| DoRemoveListener (l : Z)
| DoRemoveAllListeners.

Section Calls.
Context {K : Type} `{Kernel K} `{LagConfig} `{CaptureConfig} `{UnitConfig K}.
Implicit Types (u : CaptureUnit) (w : @World K).

Definition perform (op : unit_op) u w : option (Z * CaptureUnit * @World K) :=
  match op with
  | DoInit => if bool_decide (mState u = CAPTURE_UNINIT) then let '(ret, u) := init u in Some (ret, u, w) else None
  | DoDeinit => '(u, w) ← deinit u w; Some (OK, u, w)
  | DoConfigure frames => configure_unit frames u w
  | DoStart => Some (start u w)
  | DoStop => Some (stop u w)
  | DoQbuf port b => qbuf port b u w
  | DoPoll cameraId later timeout => poll_loop cameraId later timeout u w
  | DoAddListener l => Some (OK, addFrameAvailableListener l u, w)
  | DoRemoveListener l => Some (OK, removeFrameAvailableListener l u, w)
  | DoRemoveAllListeners => Some (OK, removeAllFrameAvailableListener u, w)
  end.

(** With whether a poll has failed since the unit was started. *)
Definition poll_failed (op : unit_op) (ret : Z) u (failed : bool) : bool :=
  match op with
  | DoStart => failed && bool_decide (mState u = CAPTURE_START)
  | DoPoll _ _ _ => failed || negb (ret =? OK)
  | _ => failed
  end.

Fixpoint performs (ops : list unit_op) (failed : bool) u w : option (bool * CaptureUnit * @World K) :=
  match ops with
  | [] => Some (failed, u, w)
  | op :: rest => '(ret, u', w) ← perform op u w; performs rest (poll_failed op ret u failed) u' w
  end.
End Calls.

(** ** Properties *)

Section Proofs.
Context {K : Type} `{Kernel K} `{LagConfig} `{CaptureConfig} `{UnitConfig K}.
Implicit Types (u : CaptureUnit) (w : @World K) (d : DeviceBase).

(** The first [n] waiting buffers went to the driver, in their order. *)
Record moved (n : nat) d d' : Prop := {
  m_pending : mPendingBuffers d' = drop n (mPendingBuffers d);
  m_device : mBuffersInDevice d' = mBuffersInDevice d ++ take n (mPendingBuffers d);
  m_enough : (n <= length (mPendingBuffers d))%nat;
  m_port : mPort d' = mPort d;
  m_idle : mBufferQueuing d' = false;
}.

Definition idle u : Prop := Forall (fun d => mBufferQueuing d = false) (mDevices u).



Lemma queueBuffer_moves d w ret d' w' b rest :
  mBufferQueuing d = false -> mPendingBuffers d = b :: rest -> queueBuffer d w = (ret, d', w') ->
  moved (if 0 <=? ret then 1 else 0) d d'.
Proof.
  intros Hq Hp. unfold queueBuffer, queue_begin. rewrite Hq, Hp. destruct (queue_put _ _ _) as [r w1]. intros [= <- <- <-].
  unfold queue_move. cbn. rewrite Hp. destruct (0 <=? r); cbn; split; cbn; rewrite ?Hp; try done; cbn; try lia.
  by rewrite app_nil_r.
Qed.

Lemma queue_all_moves l w l' w' :
  Forall (fun d => mBufferQueuing d = false) l -> forallb hasPendingBuffer l = true -> queue_all l w = (OK, l', w') ->
  Forall2 (moved 1) l l'.
Proof.
  revert w l'. induction l as [|d l IH]; intros w l' Hq Hp; cbn; [by intros [= <- <-]|].
  apply Forall_cons in Hq as [Hd Hq]. cbn in Hp. apply andb_true_iff in Hp as [Hpd Hp].
  unfold hasPendingBuffer in Hpd. apply bool_decide_eq_true in Hpd. destruct (mPendingBuffers d) as [|b r] eqn:Ed; [done|].
  destruct (queueBuffer d w) as [[ret d1] w1] eqn:E. pose proof (queueBuffer_moves _ _ _ _ _ _ _ Hd Ed E) as Hm.
  destruct (Z.eqb_spec ret OK) as [->|Hr]; cbn; [|by intros [= -> _ _]].
  destruct (queue_all l w1) as [[r2 l2] w2] eqn:E2. intros [= -> <- <-]. constructor; [exact Hm|]. eauto.
Qed.

Lemma moved_front n u l c :
  Forall2 (moved n) (mDevices u) l -> front_count u = Some c -> front_count (set_devices l u) = Some (c + Z.of_nat n).
Proof.
  unfold front_count. intros Hf. destruct Hf as [|d d' l1 l2 [_ Hd Hn _ _] _]; cbn; [done|]. intros [= <-]. f_equal.
  unfold getBufferNumInDevice. rewrite Hd, length_app, length_take. lia.
Qed.

Lemma moved_idle n l l' : Forall2 (moved n) l l' -> Forall (fun d => mBufferQueuing d = false) l'.
Proof. induction 1 as [|d d' l l' []]; constructor; auto. Qed.


(** A round of the loop. *)
Lemma round_moves u w ret u' w' :
  idle u -> forallb hasPendingBuffer (mDevices u) = true -> mExitPending u = false ->
  queueAllBuffers u w = (ret, u', w') ->
  exists l, u' = set_devices l u /\ (ret = OK -> Forall2 (moved 1) (mDevices u) l).
Proof.
  intros Hi Hp He E. unfold queueAllBuffers in E. rewrite He in E.
  destruct (queue_all (mDevices u) w) as [[r l] w1] eqn:Eq. injection E as <- <- <-.
  exists l. split; [done|]. intros ->. eauto using queue_all_moves.
Qed.

Lemma process_ends fuel u w c :
  idle u -> front_count u = Some c -> mMaxBuffersInDevice u - c <= Z.of_nat fuel ->
  exists r, processPendingBuffers fuel u w = Some (inr r).
Proof.
  revert u w c. induction fuel as [|fuel IH]; intros u w c Hi Hc Hf; cbn; rewrite Hc; cbn;
    destruct (Z.leb_spec (mMaxBuffersInDevice u) c); [by eexists|lia|by eexists|].
  destruct (forallb _ _) eqn:Hp; cbn; [|by eexists].
  destruct (queueAllBuffers u w) as [[ret u'] w'] eqn:E.
  destruct (mExitPending u') eqn:He'; [by eexists|]. destruct (Z.eqb_spec ret OK) as [->|]; cbn; [|by eexists].
  destruct (mExitPending u) eqn:He.
  { unfold queueAllBuffers in E. rewrite He in E. injection E as <- <-. congruence. }
  destruct (round_moves _ _ _ _ _ Hi Hp He E) as (l & -> & Hm). specialize (Hm eq_refl).
  eapply IH; [exact (moved_idle _ _ _ Hm)|exact (moved_front _ _ _ _ Hm Hc)|]. cbn. lia.
Qed.







(** While another thread is queuing for the only device, the loop turns
    without doing anything: it ends only when that thread does. *)
Theorem filling_spins fuel u w d :
  mDevices u = [d] -> mBufferQueuing d = true -> mPendingBuffers d <> [] -> mExitPending u = false ->
  getBufferNumInDevice d < mMaxBuffersInDevice u ->
  processPendingBuffers fuel u w = Some (inl (u, w)).
Proof.
  intros Hd Hq Hp He Hm. assert (Hu : set_devices [d] u = u) by (destruct u; cbn in *; by subst).
  induction fuel as [|fuel IH]; cbn; unfold front_count, queueAllBuffers; rewrite ?Hd, ?He; cbn;
    rewrite (proj2 (Z.leb_gt _ _) Hm); unfold hasPendingBuffer; rewrite (bool_decide_true _ Hp); cbn; [done|].
  unfold queueBuffer, queue_begin. rewrite Hq. cbn. rewrite Hu, He. exact IH.
Qed.

(** *** No device is left marked as queuing *)

Definition idle_device d : Prop := mBufferQueuing d = false.

Lemma on_node_queuing f d w ret d' w' : on_node f d w = (ret, d', w') -> mBufferQueuing d' = mBufferQueuing d.
Proof. unfold on_node. destruct (f _ _) as [[r n] k]. by intros [= <- <- <-]. Qed.

Lemma openDevice_queuing d w ret d' w' : openDevice d w = (ret, d', w') -> mBufferQueuing d' = mBufferQueuing d.
Proof.
  unfold openDevice. destruct (on_node _ _ _) as [[r d1] w1] eqn:E. apply on_node_queuing in E.
  destruct (negb _); intros [= <- <- <-]; done.
Qed.

Lemma set_format_queuing fmt d w ret f d' w' :
  set_device_format fmt d w = Some (ret, f, d', w') -> mBufferQueuing d' = mBufferQueuing d.
Proof. unfold set_device_format. by intros ([[r n] k] & _ & [= <- <- <- <-])%bind_Some. Qed.

Lemma setup_queuing cached memType d w ret d' w' : setup_buffers cached memType d w = (ret, d', w') -> mBufferQueuing d' = mBufferQueuing d.
Proof. unfold setup_buffers. destruct (SetupBuffers _ _ _ _ _ _) as [[[r l] n] k]. by intros [= <- <- <-]. Qed.

Lemma main_pool_queuing config d w ret d' w' :
  main_createBufferPool config d w = Some (ret, d', w') -> mBufferQueuing d' = mBufferQueuing d.
Proof.
  unfold main_createBufferPool. destruct (if isCSIBackEndCapture then _ else _) as [sub|]; [|by intros [= <- <- <-]].
  intros ([[[r f] d1] w1] & E1 & E)%bind_Some. apply set_format_queuing in E1. revert E.
  destruct (negb _); [by intros [= <- <- <-]|]. intros (size & _ & E)%bind_Some. revert E.
  destruct (_ <? _); [by intros [= <- <- <-]|]. destruct (setup_buffers _ _ _ _) as [[n d2] w2] eqn:E2.
  apply setup_queuing in E2. intros [= <- <- <-]. congruence.
Qed.

Lemma dol_pool_queuing config color quant planes lines sizes d w ret d' w' :
  dol_createBufferPool config color quant planes lines sizes d w = Some (ret, d', w') -> mBufferQueuing d' = mBufferQueuing d.
Proof.
  unfold dol_createBufferPool. destruct (_ =? _); [by intros [= <- <- <-]|].
  intros ([[[r f] d1] w1] & E1 & E)%bind_Some. apply set_format_queuing in E1. revert E.
  destruct (negb _); [by intros [= <- <- <-]|]. destruct (setup_buffers _ _ _ _) as [[n d2] w2] eqn:E2.
  apply setup_queuing in E2. intros [= <- <- <-]. congruence.
Qed.

Lemma configure_queuing port config num d w ret d' w' :
  configure port config num d w = Some (ret, d', w') -> mBufferQueuing d' = mBufferQueuing d.
Proof.
  unfold configure. intros ([[r d1] w1] & E1 & E)%bind_Some.
  assert (Hq : mBufferQueuing d1 = mBufferQueuing d).
  { cbn in E1. destruct (kind d); [by apply main_pool_queuing in E1|by apply dol_pool_queuing in E1]. }
  revert E. destruct (negb _); intros [= <- <- <-]; done.
Qed.

Lemma queueBuffer_idle d w ret d' w' : idle_device d -> queueBuffer d w = (ret, d', w') -> idle_device d'.
Proof.
  unfold queueBuffer, queue_begin, idle_device. intros Hq. rewrite Hq. destruct (mPendingBuffers d); [by intros [= <- <- <-]|].
  destruct (queue_put _ _ _). by intros [= <- <- <-].
Qed.

Lemma dequeueBuffer_queuing cameraId later d w ret l d' w' :
  dequeueBuffer cameraId later d w = Some (ret, l, d', w') -> mBufferQueuing d' = mBufferQueuing d.
Proof.
  unfold dequeueBuffer. destruct (getFirstDeviceBuffer d) as [b|]; [|by intros [= <- <- <- <-]].
  destruct (grab_frame _ _ _) as [a w1]. destruct (_ <? _); [by intros [= <- <- <- <-]|].
  intros ([d1 w2] & E & [= <- <- <- <-])%bind_Some. unfold dequeue_pop in E.
  apply bind_Some in E as ([skip w3] & _ & [= <- <-]). destruct (end_same (popBufferFromDevice (set_skip skip d) w3)) as [n ->].
  unfold popBufferFromDevice. by destruct (mBuffersInDevice _).
Qed.

Lemma open_devices_idle frames def num l w ret l' w' :
  Forall idle_device (fst <$> l) -> open_devices frames def num l w = Some (ret, l', w') -> Forall idle_device l'.
Proof.
  revert w l' ret. induction l as [|[d t] l IH]; intros w l' ret; cbn; [by intros _ [= <- <- <-]|].
  intros [Hd Hl]%Forall_cons. destruct (openDevice d w) as [[r d1] w1] eqn:E1. apply openDevice_queuing in E1.
  assert (Hd1 : idle_device d1) by (unfold idle_device; congruence).
  destruct (negb _); [intros [= <- <- <-]; by constructor|].
  destruct (match frames !! t with Some s => (t, s) | None => (INVALID_PORT, def) end) as [port stream].
  intros ([[r2 d2] w2] & E2 & E)%bind_Some. apply configure_queuing in E2.
  assert (Hd2 : idle_device d2) by (unfold idle_device; congruence). revert E.
  destruct (negb _); [intros [= <- <- <-]; by constructor|].
  intros ([[r3 l3] w3] & E3 & [= <- <- <-])%bind_Some. constructor; eauto.
Qed.

Lemma planned_idle main : Forall idle_device (fst <$> planned main).
Proof. unfold planned. by destruct isDolShortEnabled, isDolMediumEnabled; repeat constructor. Qed.

Lemma start_all_idle l w ret l' w' : Forall idle_device l -> start_all l w = (ret, l', w') -> Forall idle_device l'.
Proof.
  revert w l' ret. induction l as [|d l IH]; intros w l' ret; cbn; [by intros _ [= <- <- <-]|].
  intros [Hd Hl]%Forall_cons. destruct (streamOn d w) as [[r d1] w1] eqn:E1. apply on_node_queuing in E1.
  assert (Hd1 : idle_device d1) by (unfold idle_device; by rewrite E1).
  destruct (_ <? _); [intros [= <- <- <-]; by constructor|].
  destruct (start_all l w1) as [[r2 l2] w2] eqn:E2. intros [= <- <- <-]. constructor; eauto.
Qed.

Lemma stop_all_idle l w l' w' : Forall idle_device l -> stop_all l w = (l', w') -> Forall idle_device l'.
Proof.
  revert w l'. induction l as [|d l IH]; intros w l'; cbn; [by intros _ [= <- <-]|].
  intros [Hd Hl]%Forall_cons. unfold streamOff. destruct (on_node _ _ _) as [[r d1] w1] eqn:E1. apply on_node_queuing in E1.
  destruct (stop_all l w1) as [l2 w2] eqn:E2. intros [= <- <-]. constructor; [unfold idle_device; congruence|eauto].
Qed.

Lemma queue_all_idle l w ret l' w' : Forall idle_device l -> queue_all l w = (ret, l', w') -> Forall idle_device l'.
Proof.
  revert w l' ret. induction l as [|d l IH]; intros w l' ret; cbn; [by intros _ [= <- <- <-]|].
  intros [Hd Hl]%Forall_cons. destruct (queueBuffer d w) as [[r d1] w1] eqn:E1.
  apply queueBuffer_idle in E1; [|done]. destruct (negb _); [intros [= <- <- <-]; by constructor|].
  destruct (queue_all l w1) as [[r2 l2] w2] eqn:E2. intros [= <- <- <-]. constructor; eauto.
Qed.

(** Only the devices change, and none is left marked. *)
Definition same_but_devices u u' : Prop := exists l, u' = set_devices l u /\ Forall idle_device l.

Lemma same_here u : idle u -> same_but_devices u u.
Proof. exists (mDevices u). split; [by destruct u|done]. Qed.

Lemma same_idle u u' : same_but_devices u u' -> idle u'.
Proof. by intros (l & -> & Hl). Qed.

Lemma same_trans u u1 u2 : same_but_devices u u1 -> same_but_devices u1 u2 -> same_but_devices u u2.
Proof. intros (l1 & -> & _) (l2 & -> & Hl). by exists l2. Qed.

Lemma loop_same fuel u w x : idle u -> processPendingBuffers fuel u w = Some (inr x) -> same_but_devices u x.1.2.
Proof.
  revert u w. induction fuel as [|fuel IH]; intros u w Hi; cbn; destruct (front_count u) as [c|]; cbn; try done;
    destruct (_ <=? _); try (intros [= <-]; by apply same_here); destruct (forallb _ _); cbn; try done;
    try (intros [= <-]; by apply same_here).
  destruct (queueAllBuffers u w) as [[ret u1] w1] eqn:E.
  assert (Hs : same_but_devices u u1).
  { unfold queueAllBuffers in E. destruct (mExitPending u); [injection E as <- <- <-; by apply same_here|].
    destruct (queue_all _ _) as [[r l] w2] eqn:Eq. injection E as <- <- <-. exists l. eauto using queue_all_idle. }
  destruct (mExitPending u1); [by intros [= <-]|]. destruct (negb _); [by intros [= <-]|].
  intros Hp. eapply same_trans; [exact Hs|]. eauto using same_idle.
Qed.

Lemma process_same u w ret u' w' : idle u -> fill_devices u w = Some (ret, u', w') -> same_but_devices u u'.
Proof.
  intros Hi. unfold fill_devices. intros ([r|x] & E & Ex)%bind_Some; [done|]. injection Ex as ->. by apply loop_same in E.
Qed.

Lemma qbuf_same port b u w ret u' w' : idle u -> qbuf port b u w = Some (ret, u', w') -> same_but_devices u u'.
Proof.
  intros Hi. unfold qbuf. destruct b as [b|]; [|intros [= <- <- <-]; by apply same_here].
  case_bool_decide; [intros [= <- <- <-]; by apply same_here|].
  destruct (findDeviceByPort port u) as [i|]; [|intros [= <- <- <-]; by apply same_here].
  intros E. eapply same_trans; [|eapply process_same; [|exact E]].
  all: cbn; try eexists; unfold idle; cbn; try (split; [reflexivity|]); apply Forall_alter; [done|by intros].
Qed.

Lemma dequeue_ready_same cameraId later r u w l u' w' :
  idle u -> dequeue_ready cameraId later r u w = Some (l, u', w') -> same_but_devices u u'.
Proof.
  intros Hi. unfold dequeue_ready. destruct (list_find _ _) as [[i d]|] eqn:Ef; [|intros [= <- <- <-]; by apply same_here].
  apply list_find_Some in Ef as (Hd & _ & _). assert (Hq : idle_device d) by exact (Forall_lookup_1 _ _ _ _ Hi Hd).
  intros ([[[r1 acts] d1] w1] & E1 & E)%bind_Some. apply dequeueBuffer_queuing in E1.
  assert (Hs : same_but_devices u (set_devices (<[i := d1]> (mDevices u)) u)).
  { eexists. split; [reflexivity|]. apply Forall_insert; [exact Hi|]. unfold idle_device. by rewrite E1. }
  destruct acts as [|[]]; try (by injection E as <- <- <-).
  apply bind_Some in E as ([[r2 u2] w2] & E2 & [= <- <- <-]). eauto using same_trans, process_same, same_idle.
Qed.

Lemma dequeue_all_same cameraId later ready u w l u' w' :
  idle u -> dequeue_all cameraId later ready u w = Some (l, u', w') -> same_but_devices u u'.
Proof.
  revert u w l. induction ready as [|r ready IH]; intros u w l Hi; cbn; [intros [= <- <- <-]; by apply same_here|].
  intros ([[l1 u1] w1] & E1 & E)%bind_Some. apply bind_Some in E as ([[l2 u2] w2] & E2 & [= <- <- <-]).
  apply dequeue_ready_same in E1; [|done]. apply IH in E2; [|exact (same_idle _ _ E1)]. exact (same_trans _ _ _ E1 E2).
Qed.

Lemma poll_same cameraId later timeout u w ret e l u' w' :
  idle u -> poll cameraId later timeout u w = Some (ret, e, l, u', w') -> same_but_devices u u'.
Proof.
  intros Hi. unfold poll. destruct (negb _); [intros [= <- <- <- <- <-]; by apply same_here|].
  destruct (mExitPending u); [intros [= <- <- <- <- <-]; by apply same_here|].
  destruct (wait _ _ _ _) as [[r ready] w1]. destruct (r <? 0); [intros [= <- <- <- <- <-]; by apply same_here|].
  destruct (r =? 0).
  - intros (n & _ & [= <- <- <- <- <-])%bind_Some. by apply same_here.
  - intros ([[acts u1] w2] & E & [= <- <- <- <- <-])%bind_Some. eauto using dequeue_all_same.
Qed.

(** *** States *)

(** The polling thread runs while the unit is started and no poll has failed;
    nothing waits in the pipe then, and never more than a byte. *)
Record Protocol (failed : bool) u : Prop := {
  p_polling : polling u = bool_decide (mState u = CAPTURE_START) && negb failed;
  p_exit : mExitPending u = false;
  p_flush : forall fd n, mFlush u = Some (fd, n) -> (n <= 1)%nat /\ (mState u = CAPTURE_START -> n = O);
  p_idle : idle u;
}.

Lemma protocol_same failed u u' : same_but_devices u u' -> Protocol failed u -> Protocol failed u'.
Proof. intros (l & -> & Hl) [P1 P2 P3 P4]. by split. Qed.

Lemma protocol_destroyed u w u' w' : destroyDevices u w = (u', w') -> u' = set_devices [] u.
Proof. by intros [= <- _]. Qed.

#[local] Arguments createDevices : simpl never.

Lemma created u w ret u' w' :
  createDevices u w = Some (ret, u', w') -> exists l, u' = set_devices l u /\ Forall idle_device l.
Proof.
  unfold createDevices. cbn. intros (def & _ & E)%bind_Some. apply bind_Some in E as ([[r1 l] w2] & E & [= <- <- <-]).
  exists l. split; [done|]. eapply open_devices_idle; [apply planned_idle|exact E].
Qed.

Lemma protocol_configured failed frames u w ret u' w' :
  configure_unit frames u w = Some (ret, u', w') -> Protocol failed u -> Protocol failed u'.
Proof.
  intros E HP. unfold configure_unit in E. case_bool_decide; [by injection E as <- <- <-|].
  case_bool_decide as Hs; cbn in E; [|by injection E as <- <- <-].
  assert (Hn : mState u <> CAPTURE_START) by (intros Hst; rewrite Hst, !elem_of_cons, elem_of_nil in Hs; by destruct_or! Hs).
  apply bind_Some in E as (main & _ & E). destruct (mediaCtlSetup _ _ _ _) as [st k]. destruct HP as [P1 P2 P3 P4].
  rewrite bool_decide_false in P1 by done.
  destruct (negb _); [injection E as <- <- <-; split; cbn; [by rewrite bool_decide_false|done..]|].
  apply bind_Some in E as ([[r u1] w1] & E1 & E). apply created in E1 as (l & -> & E1).
  destruct (negb _); injection E as <- <- <-; split; cbn; try done; try (by rewrite bool_decide_false).
  intros fd n Hf. split; [by eapply P3|done].
Qed.

Lemma protocol_started failed u w ret u' w' :
  start u w = (ret, u', w') -> Protocol failed u -> Protocol (failed && bool_decide (mState u = CAPTURE_START)) u'.
Proof.
  intros E HP. unfold start in E. case_bool_decide as Hs; [rewrite andb_true_r; by injection E as <- <- <-|].
  destruct HP as [P1 P2 P3 P4]. rewrite bool_decide_false in P1 by done. rewrite andb_false_r. unfold start_thread in E.
  destruct (start_all _ _) as [[r l] w1] eqn:E1. apply start_all_idle in E1; [|exact P4].
  destruct (Z.eqb_spec r OK); cbn in E.
  - injection E as <- <- <-. split; cbn; try done. intros fd n Hf. destruct (mFlush u) as [[fd' m]|]; [|done].
    injection Hf as -> <-. destruct (P3 fd m eq_refl). lia.
  - destruct (stop_all l w1) as [l2 w2] eqn:E2. apply stop_all_idle in E2; [|exact E1].
    rewrite (proj2 (Z.eqb_neq r OK)) in E by done. injection E as <- <- <-. split; cbn; try done. by rewrite bool_decide_false.
Qed.

Lemma protocol_stopped failed u w ret u' w' : stop u w = (ret, u', w') -> Protocol failed u -> Protocol failed u'.
Proof.
  intros E HP. unfold stop in E. case_bool_decide as Hs; cbn in E; [|by injection E as <- <- <-]. destruct HP as [P1 P2 P3 P4].
  destruct (stop_all _ _) as [l w1] eqn:E1. apply stop_all_idle in E1; [|exact P4]. injection E as <- <- <-. split; cbn; try done.
  - intros fd n Hf. destruct (mFlush u) as [[fd' m]|]; [|done]. injection Hf as -> <-. destruct (P3 fd m eq_refl) as [_ Hm]. rewrite (Hm Hs). split; [lia|done].
  - unfold idle. cbn. apply Forall_fmap. exact (Forall_impl _ _ _ E1 (fun d Hd => Hd)).
Qed.

Lemma protocol_polled failed cameraId later timeout u w ret u' w' :
  poll_loop cameraId later timeout u w = Some (ret, u', w') -> Protocol failed u -> Protocol (failed || negb (ret =? OK)) u'.
Proof.
  intros E HP. unfold poll_loop in E. destruct (polling u) eqn:Hpol; [|done]. cbn in E.
  apply bind_Some in E as ([[[[r e] l] u1] w1] & E & [= <- <- <-]). apply poll_same in E; [|apply HP].
  pose proof (p_polling _ _ HP) as Hst. rewrite Hpol in Hst. symmetry in Hst. apply andb_true_iff in Hst as [Hst Hf].
  apply (protocol_same _ _ _ E) in HP as [P1 P2 P3 P4]. destruct E as (l' & -> & Hl). cbn in *.
  split; cbn; try done. rewrite Hst. apply negb_true_iff in Hf as ->. cbn. by rewrite negb_involutive.
Qed.

Lemma protocol_kept failed op u w ret u' w' :
  perform op u w = Some (ret, u', w') -> Protocol failed u -> Protocol (poll_failed op ret u failed) u'.
Proof.
  destruct op; cbn; intros E HP.
  - case_bool_decide as Hs; [|done]. injection E as <- <- <-. destruct HP as [P1 P2 P3 P4]. rewrite Hs in *. split; cbn; try done.
    intros fd n Hf. split; [by eapply P3|done].
  - apply bind_Some in E as ([u1 w1] & E & [= <- <- <-]). unfold deinit in E. case_bool_decide; [by injection E as <- <-|].
    destruct (destroyDevices u w) as [u2 w2] eqn:Ed. apply protocol_destroyed in Ed as ->. cbn in E.
    destruct (polling u) eqn:Hpol; [done|]. injection E as <- <-. destruct HP as [P1 P2 P3 P4].
    split; cbn; try done; [|by constructor]. intros fd n Hf. split; [by eapply P3|done].
  - eauto using protocol_configured.
  - injection E as E. eauto using protocol_started.
  - injection E as E. eauto using protocol_stopped.
  - apply qbuf_same in E; [|apply HP]. eauto using protocol_same.
  - eauto using protocol_polled.
  - injection E as <- <- <-. destruct HP as [P1 P2 P3 P4]. split; cbn; try done. apply Forall_fmap.
    apply (Forall_impl _ _ _ P4). intros d Hd. cbn. unfold addFrameListener. destruct (bool_decide (l ∈ mConsumers d)); exact Hd.
  - injection E as <- <- <-. destruct HP as [P1 P2 P3 P4]. split; cbn; try done. apply Forall_fmap. exact P4.
  - injection E as <- <- <-. destruct HP as [P1 P2 P3 P4]. split; cbn; try done. apply Forall_fmap. exact P4.
Qed.

Lemma protocol_performed ops failed u w failed' u' w' :
  performs ops failed u w = Some (failed', u', w') -> Protocol failed u -> Protocol failed' u'.
Proof.
  revert failed u w. induction ops as [|op ops IH]; intros failed u w; cbn; [by intros [= <- <- <-]|].
  intros ([[r u1] w1] & E1 & E)%bind_Some HP. eauto using protocol_kept.
Qed.

Lemma protocol_new pipe : Protocol false (new_CaptureUnit pipe).
Proof.
  split; try done; [|by constructor]. cbn. destruct pipe; cbn; [|done]. intros ? ? [= <- <-]. split; [lia|done].
Qed.

(** C12: after any calls, each of the owner's done as one, the polling thread
    runs exactly while the unit is started and no poll has failed since it was:
    the first that does ends the thread, and the unit stays started without it.
    Nothing waits in the flush pipe while it is started, so that the first poll
    does not take an old request to stop for a new one; the pipe never holds
    more than one byte. *)
Theorem polling_while_started ops pipe w failed u' w' :
  performs ops false (new_CaptureUnit pipe) w = Some (failed, u', w') ->
  (polling u' = true <-> mState u' = CAPTURE_START /\ failed = false) /\ mExitPending u' = false
  /\ forall fd n, mFlush u' = Some (fd, n) -> (n <= 1)%nat /\ (mState u' = CAPTURE_START -> n = O).
Proof.
  intros E. apply protocol_performed in E as [P1 P2 P3 _]; [|apply protocol_new]. split; [|done].
  rewrite P1, andb_true_iff, bool_decide_eq_true, negb_true_iff. done.
Qed.

(** After any calls, queuing a buffer returns. *)
Theorem qbuf_returns ops pipe w failed u' w' port b :
  performs ops false (new_CaptureUnit pipe) w = Some (failed, u', w') -> exists r, qbuf port b u' w' = Some r.
Proof.
  intros E. apply protocol_performed in E as [_ _ _ P4]; [|apply protocol_new]. unfold qbuf.
  destruct b as [b|]; [|by eexists]. case_bool_decide; [by eexists|].
  destruct (findDeviceByPort port u') as [i|] eqn:Ef; [|by eexists].
  set (u1 := set_devices _ u'). assert (Hi : idle u1) by (apply Forall_alter; [done|by intros]).
  destruct (mDevices u1) as [|d l] eqn:El.
  - unfold findDeviceByPort in Ef. destruct (list_find _ _) as [[j d]|] eqn:Ed; [|done]. apply list_find_Some in Ed as (Hd & _).
    assert (Hl : length (alter (addPendingBuffer b) i (mDevices u')) = O) by (change (length (mDevices u1) = O); by rewrite El).
    rewrite length_alter in Hl. by destruct (mDevices u').
  - assert (Hc : front_count u1 = Some (getBufferNumInDevice d)) by (unfold front_count; by rewrite El).
    assert (Hpos : 0 <= getBufferNumInDevice d) by (unfold getBufferNumInDevice; lia).
    destruct (process_ends (Z.to_nat (mMaxBuffersInDevice u1)) u1 w' _ Hi Hc ltac:(lia)) as [r E].
    exists r. unfold fill_devices. by rewrite E.
Qed.

(** A unit that is started again without being configured: the thread runs
    before the state is set, and a poll that comes in between ends it; the unit
    is then started without a polling thread, and starting it again answers [OK]
    and does nothing. *)
Theorem restart_race cameraId later timeout u w u1 w1 :
  mState u = CAPTURE_STOP -> start_thread u w = (OK, u1, w1) ->
  exists u2, poll_loop cameraId later timeout u1 w1 = Some (INVALID_OPERATION, u2, w1)
    /\ mState (start_done u2) = CAPTURE_START /\ polling (start_done u2) = false
    /\ forall w2, start (start_done u2) w2 = (OK, start_done u2, w2).
Proof.
  intros Hs E. unfold start_thread in E. destruct (start_all _ _) as [[r l] w0].
  destruct (Z.eqb_spec r OK) as [->|Hr]; cbn in E; [|destruct (stop_all l w0); by injection E as -> _ _].
  injection E as <- <-. eexists. unfold poll_loop, poll. cbn. rewrite Hs. cbn. split; [reflexivity|done].
Qed.

(** A configuration that fails leaves the state as it was although the old
    devices are closed and gone: a unit that was configured still says so. *)
Theorem failed_configure_keeps_state frames u w ret u' w' :
  configure_unit frames u w = Some (ret, u', w') -> ret <> OK -> mState u' = mState u /\ polling u' = polling u.
Proof.
  intros E Hr. unfold configure_unit in E. case_bool_decide; [by injection E as <- <- <-|].
  case_bool_decide; cbn in E; [|by injection E as <- <- <-].
  apply bind_Some in E as (main & _ & E). destruct (mediaCtlSetup _ _ _ _) as [st k].
  destruct (negb _); [by injection E as <- <- <-|].
  apply bind_Some in E as ([[r u1] w1] & E1 & E). apply created in E1 as (l & -> & _).
  destruct (Z.eqb_spec r OK); cbn in E; injection E as <- <- <-; done.
Qed.
End Proofs.

(** ** Witnesses *)

#[local] Instance example_unit_config : UnitConfig (list Z) := {|
  getDevNameByType := fun t => match t with VIDEO_GENERIC => "/dev/video0" | VIDEO_GENERIC_SHORT_EXPO => "/dev/video1" | _ => "/dev/video2" end%string;
  mediaCtlSetup := fun width height field k => (if width =? 0 then BAD_VALUE else OK, k);
  getMaxIsysTimeout := 0;
|}.

Definition example_frames : gmap Z stream_t := {[MAIN_PORT := example_stream]}.

(** A buffer before the start, one after it, and a poll: the frame that comes
    back is skipped, so its buffer goes to the driver again. *)
Definition example_ops : list unit_op :=
  [DoInit; DoConfigure example_frames; DoAddListener 7; DoQbuf MAIN_PORT (Some 100); DoStart; DoQbuf MAIN_PORT (Some 101);
   DoQbuf MAIN_PORT (Some 102); DoQbuf MAIN_PORT (Some 103); DoPoll 0 [] 1000].

Definition example_run : CaptureUnit * @World (list Z) :=
  default (new_CaptureUnit None, example_world)
    ((fun '(_, u, w) => (u, w)) <$> performs example_ops false (new_CaptureUnit None) example_world).

Lemma example_runs : performs example_ops false (new_CaptureUnit None) example_world = Some (false, example_run.1, example_run.2).
Proof. vm_compute. reflexivity. Qed.

Lemma polling_while_started_witness :
  (polling example_run.1 = true <-> mState example_run.1 = CAPTURE_START /\ false = false)
  /\ (mState example_run.1, kernel example_run.2) = (CAPTURE_START, [1; 2; 3]).
Proof. split; [exact (proj1 (polling_while_started _ _ _ _ _ _ example_runs))|vm_compute; reflexivity]. Defined.

Lemma qbuf_returns_witness : exists r, qbuf MAIN_PORT (Some 104) example_run.1 example_run.2 = Some r.
Proof. exact (qbuf_returns _ _ _ _ _ _ MAIN_PORT (Some 104) example_runs). Defined.



Lemma filling_spins_witness :
  let u := UnitOf CAPTURE_START false [set_queuing true (addPendingBuffer 101 example_device)] ∅ 2 32 None true in
  processPendingBuffers 1000 u example_world = Some (inl (u, example_world)).
Proof.
  intro u. apply (filling_spins 1000 u example_world (set_queuing true (addPendingBuffer 101 example_device)));
    [reflexivity|reflexivity|discriminate|reflexivity|vm_compute; reflexivity].
Defined.

Lemma failed_configure_keeps_state_witness :
  let u := (stop example_run.1 example_run.2).1.2 in
  exists u' w', configure_unit {[MAIN_PORT := Stream V4L2_PIX_FMT_NV12 0 0 0 V4L2_MEMORY_USERPTR]} u example_run.2 = Some (BAD_VALUE, u', w')
    /\ mState u' = CAPTURE_STOP.
Proof.
  intro u. eexists _, _. split; [vm_compute; reflexivity|].
  etransitivity; [eapply (failed_configure_keeps_state {[MAIN_PORT := Stream V4L2_PIX_FMT_NV12 0 0 0 V4L2_MEMORY_USERPTR]} u example_run.2 BAD_VALUE);
    [vm_compute; reflexivity|discriminate]|vm_compute; reflexivity].
Defined.
