(* ===== verification/ReferBufferPool.v ===== *)
(** * Reference buffers shared between program groups

    src/core/psysprocessor/ShareReferBufferPool.cpp and .h: a producer and a
    consumer each have a queue of reference buffers, ordered by the frame they
    belong to.  A frame takes the oldest buffer for its output and reads the
    newest; a consumer that does not have the frame before its own copies it
    from its producer.

    A buffer is a number, [size_of] and [contents] are its size and what is in
    its memory.  Every section under the pool's mutex is one function;
    [acquire_search] is what a consumer does without that mutex, with the
    producer's queue as it is at each of the looks.  [None] is the last element
    of an empty vector. *)

From Stdlib Require Import String.
From S2P Require Import Prelude Errors.
From stdpp Require Import list gmap sorting.
#[local] Open Scope Z_scope.

(** ** Data *)

Record ReferBuffer := Refer { sequence : Z; buffer : Z }.

Record UserPair := PairOf {
  producerPgName : string;
  consumerPgName : string;
  producerId : Z;
  consumerId : Z;
  active : bool;
  busy : bool;
  mProducerBuffers : list ReferBuffer;
  mConsumerBuffers : list ReferBuffer;
}.

Definition NOT_ENOUGH_DATA : Z := -61.
Definition CONSUMER_BUFFER_NUM : Z := 2.

(** The sum of 64-bit values; the numbers are at least zero. *)
Definition constructReferId (streamId pgId portId : Z) : Z := signed 64 (Z.shiftl streamId 32 + Z.shiftl pgId 16 + portId).

Section Pool.
Context (size_of : Z -> Z) (getMaxRawDataNum : Z).
Implicit Types (p : UserPair) (pool : list UserPair).

Definition set_active b p := PairOf (producerPgName p) (consumerPgName p) (producerId p) (consumerId p) b (busy p) (mProducerBuffers p) (mConsumerBuffers p).
Definition set_busy b p := PairOf (producerPgName p) (consumerPgName p) (producerId p) (consumerId p) (active p) b (mProducerBuffers p) (mConsumerBuffers p).

(** The queue that [id] uses in a pair. *)
Definition queue_of (id : Z) p : list ReferBuffer := if id =? producerId p then mProducerBuffers p else mConsumerBuffers p.
Definition set_queue (id : Z) (l : list ReferBuffer) p : UserPair :=
  if id =? producerId p
  then PairOf (producerPgName p) (consumerPgName p) (producerId p) (consumerId p) (active p) (busy p) l (mConsumerBuffers p)
  else PairOf (producerPgName p) (consumerPgName p) (producerId p) (consumerId p) (active p) (busy p) (mProducerBuffers p) l.

(** ** Pairs *)

Definition uses (id : Z) p : bool := (consumerId p =? id) || (producerId p =? id).

Definition findUserPair (id : Z) pool : option (nat * UserPair) := list_find (fun p => uses id p = true) pool.

Definition setReferPair (producerPgName : string) (producerId : Z) (consumerPgName : string) (consumerId : Z) pool
    : Z * list UserPair :=
  if producerId =? consumerId then (BAD_VALUE, pool)
  else (OK, pool ++ [PairOf producerPgName consumerPgName producerId consumerId true false [] []]).

Definition clearReferPair (id : Z) pool : Z * list UserPair :=
  match findUserPair id pool with
  | None => (BAD_VALUE, pool)
  | Some (i, p) => if busy p then (UNKNOWN_ERROR, pool) else (OK, delete i pool)
  end.

Fixpoint getMinBufferNum (id : Z) pool : Z :=
  match pool with
  | [] => 0
  | p :: rest =>
      if producerId p =? id then getMaxRawDataNum else if consumerId p =? id then CONSUMER_BUFFER_NUM else getMinBufferNum id rest
  end.

(** Sharing is given up when the two sides have different sizes. *)
Definition check_sizes p : UserPair :=
  match mProducerBuffers p, mConsumerBuffers p with
  | src :: _, dst :: _ =>
      if active p && negb (size_of (buffer src) =? size_of (buffer dst)) then set_active false p else p
  | _, _ => p
  end.

(** [None] for a null buffer. *)
Definition registerReferBuffers (id : Z) (b : option Z) pool : Z * list UserPair :=
  match b, findUserPair id pool with
  | None, _ => (BAD_VALUE, pool)
  | Some _, None => (UNKNOWN_ERROR, pool)
  | Some b, Some (i, p) => (OK, <[i := check_sizes (set_queue id (queue_of id p ++ [Refer (-1) b]) p)]> pool)
  end.

(** ** Acquiring *)

(** The end of the first section: an answer, with [*referOut] and [*referIn]
    where they are set, or the copy to look for. *)
Inductive outcome :=
| Answer (ret : Z) (out : option Z) (inp : option Z)
| Search (out inp : Z).

(** The buffers that a producer has of a frame, for running it again. *)
Definition with_sequence (s : Z) (l : list ReferBuffer) : option ReferBuffer :=
  snd <$> list_find (fun r => sequence r = s) l.

Definition acquire_begin (id outSequence : Z) pool : option (outcome * list UserPair) :=
  let inSequence := outSequence - 1 in
  match findUserPair id pool with
  | None => Some (Answer UNKNOWN_ERROR None None, pool)
  | Some (i, p) =>
      match queue_of id p with
      | [] => Some (Answer BAD_VALUE None None, pool)
      | oldest :: rest =>
          let out := buffer oldest in
          let p := set_queue id rest p in
          newest ← last rest;
          if (sequence newest =? inSequence) || (inSequence <? 0)
          then Some (Answer OK (Some out) (Some (buffer newest)), <[i := p]> pool)
          else if id =? producerId p then
            match with_sequence inSequence rest with
            | Some item => Some (Answer OK (Some out) (Some (buffer item)), <[i := p]> pool)
            | None => Some (Answer UNKNOWN_ERROR (Some out) (Some (buffer newest)), <[i := p]> pool)
            end
          else if negb (active p) then Some (Answer OK (Some out) (Some (buffer newest)), <[i := p]> pool)
          else Some (Search out (buffer newest), <[i := set_busy true p]> pool)
      end
  end.

(** The newest buffer that is not newer than the frame. *)
Definition findReferBuffer (bufV : list ReferBuffer) (s : Z) : Z * option Z :=
  match last bufV with
  | None => (NOT_ENOUGH_DATA, None)
  | Some newest =>
      if sequence newest <? s then (NOT_ENOUGH_DATA, None) else
      match list_find (fun r => sequence r <= s) (reverse bufV) with
      | Some (_, item) => (OK, Some (buffer item))
      | None => (UNKNOWN_ERROR, None)
      end
  end.

(** Up to [tries] looks; the answer is that of the last. *)
Fixpoint acquire_search (tries : nat) (s : Z) (looks : list (list ReferBuffer)) : Z * option Z :=
  match tries, looks with
  | S tries, look :: looks =>
      let '(ret, src) := findReferBuffer look s in
      if ret =? NOT_ENOUGH_DATA then acquire_search tries s looks else (ret, src)
  | _, _ => (NOT_ENOUGH_DATA, None)
  end.

Definition waitFrames : nat := 3.

(** [MEMCPY_S] of buffers with an address; it copies what fits. *)
Definition acquire_copy (inp : Z) (src : option Z) (contents : Z -> list Z) : Z -> list Z :=
  match src with
  | Some src =>
      fun b => if b =? inp then take (length (contents inp)) (contents src) ++ drop (length (contents src)) (contents inp) else contents b
  | None => contents
  end.

(** The pair may have moved, but it is not cleared while it is busy. *)
Definition acquire_end (id : Z) pool : list UserPair :=
  match findUserPair id pool with Some (i, p) => <[i := set_busy false p]> pool | None => pool end.

(** [acquireBuffer], with the producer's queue at each of the looks. *)
Definition acquireBuffer (id outSequence : Z) (looks : list (list ReferBuffer)) (contents : Z -> list Z) pool
    : option (Z * option Z * option Z * (Z -> list Z) * list UserPair) :=
  '(o, pool) ← acquire_begin id outSequence pool;
  match o with
  | Answer ret out inp => Some (ret, out, inp, contents, pool)
  | Search out inp =>
      let '(ret, src) := acquire_search waitFrames (outSequence - 1) looks in
      Some (ret, Some out, Some inp, acquire_copy inp src contents, acquire_end id pool)
  end.

(** ** Releasing *)

Definition releaseBuffer (id referOut outSequence : Z) pool : option (Z * list UserPair) :=
  match findUserPair id pool with
  | None => Some (UNKNOWN_ERROR, pool)
  | Some (i, p) =>
      let bufV := queue_of id p in
      newest ← last bufV;
      let bufV := if outSequence <? sequence newest then Refer (-1) referOut :: bufV else bufV ++ [Refer outSequence referOut] in
      Some (OK, <[i := set_queue id bufV p]> pool)
  end.
End Pool.

(** ** Clients

    Each identification has one client, which acquires and releases in turn.
    [held] is the output buffer and the frame of each client that has acquired;
    the copy of a consumer happens in between. *)
Inductive pool_op := Acquire (id outSequence : Z) | Copied (id : Z) | Release (id : Z).

Record Sys := SysOf { pool : list UserPair; held : gmap Z (Z * Z) }.

Definition held_after (o : outcome) : option Z := match o with Answer _ out _ => out | Search out _ => Some out end.

(** [None] is an act of a client that is not there, or a frame before the first,
    and [Some None] the last element of an empty vector. *)
Definition pool_step (op : pool_op) (s : Sys) : option (option Sys) :=
  match op with
  | Acquire id out =>
      match held s !! id with
      | Some _ => None
      | None =>
          if out <? 0 then None else
          Some ('(o, pool) ← acquire_begin id out (pool s);
                Some (SysOf pool (match held_after o with Some b => <[id := (b, out)]> (held s) | None => held s end)))
      end
  | Copied id => Some (Some (SysOf (acquire_end id (pool s)) (held s)))
  | Release id =>
      match held s !! id with
      | None => None
      | Some (b, out) => Some ('(_, pool) ← releaseBuffer id b out (pool s); Some (SysOf pool (delete id (held s))))
      end
  end.

Fixpoint pool_run (ops : list pool_op) (s : Sys) : option (option Sys) :=
  match ops with
  | [] => Some (Some s)
  | op :: rest => r ← pool_step op s; match r with Some s => pool_run rest s | None => Some None end
  end.

(** ** Properties *)

(** The frame numbers in order, the newest last. *)
Definition ascending (l : list ReferBuffer) : Prop := StronglySorted Z.le (sequence <$> l).

Lemma ascending_last l r x : ascending l -> last l = Some r -> x ∈ l -> sequence x <= sequence r.
Proof.
  intros Hs Hl Hx. destruct l as [|a l'] using rev_ind; [done|]. rewrite last_snoc in Hl. injection Hl as ->.
  unfold ascending in Hs. rewrite fmap_app in Hs. apply elem_of_app in Hx as [Hx|Hx%list_elem_of_singleton]; [|by subst].
  apply (StronglySorted_app_1_elem_of _ _ _ (sequence x) (sequence r)) in Hs; [done| |left].
  by apply list_elem_of_fmap_2.
Qed.

Lemma newest_found l s :
  ascending l ->
  match list_find (fun r => sequence r <= s) (reverse l) with
  | Some (_, r) => r ∈ l /\ sequence r <= s /\ forall x, x ∈ l -> sequence x <= s -> sequence x <= sequence r
  | None => forall x, x ∈ l -> s < sequence x
  end.
Proof.
  induction l as [|a l IH] using rev_ind; intros Hs; [cbn; intros x Hx; by apply elem_of_nil in Hx|].
  rewrite reverse_app. cbn. destruct (decide (sequence a <= s)) as [Ha|Ha].
  - split; [apply elem_of_app; right; left|]. split; [done|].
    intros x Hx _. eapply ascending_last; [exact Hs|apply last_snoc|exact Hx].
  - assert (Hl : ascending l) by (unfold ascending in *; rewrite fmap_app in Hs; by apply StronglySorted_app_1_l in Hs).
    specialize (IH Hl). destruct (list_find _ (reverse l)) as [[i r]|]; cbn.
    + destruct IH as (H1 & H2 & H3). split; [apply elem_of_app; by left|]. split; [done|].
      intros x [Hx|Hx]%elem_of_app Hle; [by apply H3|]. apply list_elem_of_singleton in Hx as ->. lia.
    + intros x [Hx|Hx]%elem_of_app; [by apply IH|]. apply list_elem_of_singleton in Hx as ->. lia.
Qed.

(** A consumer that looks for a frame in its producer's queue finds the
    newest of the frames that are not newer; it is told to wait exactly when the
    producer has not got that far. *)
Theorem finds_newest l s :
  ascending l ->
  match findReferBuffer l s with
  | (ret, Some b) => ret = OK /\ exists r, r ∈ l /\ buffer r = b /\ sequence r <= s
                     /\ forall x, x ∈ l -> sequence x <= s -> sequence x <= sequence r
  | (ret, None) => (ret = NOT_ENOUGH_DATA <-> forall x, x ∈ l -> sequence x < s)
                   /\ (ret = UNKNOWN_ERROR <-> l <> [] /\ forall x, x ∈ l -> s < sequence x)
  end.
Proof.
  intros Hs. unfold findReferBuffer. destruct (last l) as [newest|] eqn:El.
  - pose proof (last_Some_elem_of _ _ El) as Hin. destruct (Z.ltb_spec (sequence newest) s) as [Hn|Hn].
    + split; split; try done.
      * intros _ x Hx. pose proof (ascending_last _ _ _ Hs El Hx). lia.
      * intros [_ Hall]. specialize (Hall _ Hin). lia.
    + pose proof (newest_found l s Hs) as Hf. destruct (list_find _ _) as [[i r]|].
      * destruct Hf as (H1 & H2 & H3). split; [done|]. exists r. auto.
      * split; split; try done.
        -- intros Hall. specialize (Hall _ Hin). lia.
        -- intros _. split; [by intros ->|done].
  - apply last_None in El as ->. split; split; try done; [intros _ x Hx; by apply elem_of_nil in Hx|]. by intros [].
Qed.

(** *** The queues of the pool *)

(** The queue that [id] uses in the pool. *)
Definition queue_in (id : Z) (pool : list UserPair) : option (list ReferBuffer) :=
  (fun '(_, p) => queue_of id p) <$> findUserPair id pool.

#[local] Arguments queue_in : simpl never.

Lemma found_cons id p pool :
  findUserPair id (p :: pool) = if uses id p then Some (O, p) else prod_map S (fun q => q) <$> findUserPair id pool.
Proof. unfold findUserPair. cbn. destruct (decide (uses id p = true)) as [->|Hu]; [done|]. by apply not_true_is_false in Hu as ->. Qed.

Lemma found_insert id id' i p p' pool :
  findUserPair id pool = Some (i, p) -> producerId p' = producerId p -> consumerId p' = consumerId p ->
  findUserPair id' (<[i := p']> pool)
  = (fun '(j, q) => (j, if decide (j = i) then p' else q)) <$> findUserPair id' pool.
Proof.
  intros Hf Hp Hc. assert (Hu : forall x, uses x p' = uses x p) by (intro; unfold uses; congruence).
  apply list_find_Some in Hf as (Hi & _ & _). revert i Hi. induction pool as [|a pool IH]; intros i Hi; [done|].
  destruct i as [|i]; cbn in Hi.
  - injection Hi as ->. change (<[0%nat:=p']> (p :: pool)) with (p' :: pool). rewrite !found_cons, Hu. destruct (uses id' p); [done|].
    by destruct (findUserPair id' pool) as [[j q]|].
  - change (<[S i:=p']> (a :: pool)) with (a :: <[i:=p']> pool). rewrite !found_cons, (IH i Hi). destruct (uses id' a); [done|].
    destruct (findUserPair id' pool) as [[j q]|]; cbn; [|done]. repeat case_decide; congruence.
Qed.

Lemma queue_kept id i p p' pool :
  findUserPair id pool = Some (i, p) -> producerId p' = producerId p -> consumerId p' = consumerId p ->
  mProducerBuffers p' = mProducerBuffers p -> mConsumerBuffers p' = mConsumerBuffers p ->
  forall id', queue_in id' (<[i := p']> pool) = queue_in id' pool.
Proof.
  intros Hf Hp Hc H1 H2 id'. unfold queue_in. rewrite (found_insert _ _ _ _ _ _ Hf Hp Hc).
  destruct (findUserPair id' pool) as [[j q]|] eqn:Eq; [|done]. cbn. case_decide; [|done]. subst j.
  apply list_find_Some in Hf as (Hi & _), Eq as (Hj & _). rewrite Hi in Hj. injection Hj as ->.
  unfold queue_of. by rewrite Hp, H1, H2.
Qed.

Lemma uses_side id p : uses id p = true -> id = producerId p \/ (id <> producerId p /\ id = consumerId p).
Proof. unfold uses. intros [E|E]%orb_true_iff; apply Z.eqb_eq in E; destruct (Z.eq_dec id (producerId p)); auto. Qed.

Lemma set_queue_ids id l p : producerId (set_queue id l p) = producerId p /\ consumerId (set_queue id l p) = consumerId p.
Proof. unfold set_queue. by destruct (id =? producerId p). Qed.

(** Changing the queue of one client leaves those of the others. *)
Lemma queue_set id l i p pool :
  findUserPair id pool = Some (i, p) ->
  forall id', queue_in id' (<[i := set_queue id l p]> pool) = if id' =? id then Some l else queue_in id' pool.
Proof.
  intros Hf id'. destruct (set_queue_ids id l p) as [Hp Hc]. unfold queue_in. rewrite (found_insert _ _ _ _ _ _ Hf Hp Hc).
  destruct (Z.eqb_spec id' id) as [->|Hn].
  - rewrite Hf. cbn. rewrite decide_True by done. unfold queue_of. rewrite Hp. unfold set_queue. by destruct (id =? producerId p).
  - destruct (findUserPair id' pool) as [[j q]|] eqn:Eq; [|done]. cbn. case_decide; [|done]. subst j.
    apply list_find_Some in Hf as (Hi & Hu & _), Eq as (Hj & Hu' & _). rewrite Hi in Hj. injection Hj as ->.
    apply uses_side in Hu, Hu'. unfold queue_of. rewrite Hp. unfold set_queue.
    destruct (Z.eqb_spec id (producerId q)), (Z.eqb_spec id' (producerId q)); try done; cbn; intuition congruence.
Qed.

Lemma queue_in_found id pool q : queue_in id pool = Some q -> exists i p, findUserPair id pool = Some (i, p) /\ queue_of id p = q.
Proof. unfold queue_in. destruct (findUserPair id pool) as [[i p]|]; [|done]. cbn. intros [= <-]. by exists i, p. Qed.

(** The first section of [acquireBuffer] takes the oldest buffer. *)
Lemma begin_takes_oldest id out pool oldest rest :
  queue_in id pool = Some (oldest :: rest) -> rest <> [] ->
  exists o pool', acquire_begin id out pool = Some (o, pool') /\ held_after o = Some (buffer oldest)
    /\ forall id', queue_in id' pool' = if id' =? id then Some rest else queue_in id' pool.
Proof.
  intros Hq Hr. apply queue_in_found in Hq as (i & p & Hf & Hq). unfold acquire_begin. rewrite Hf, Hq.
  destruct (last rest) as [newest|] eqn:El; [|by apply last_None in El]. cbn [mbind option_bind].
  pose proof (queue_set id rest i p pool Hf) as Hs.
  assert (Hb : forall id', queue_in id' (<[i := set_busy true (set_queue id rest p)]> pool) = queue_in id' (<[i := set_queue id rest p]> pool)).
  { destruct (set_queue_ids id rest p) as [Hp Hc].
    assert (Hf' : findUserPair id (<[i := set_queue id rest p]> pool) = Some (i, set_queue id rest p)).
    { rewrite (found_insert _ _ _ _ _ _ Hf Hp Hc), Hf. cbn. by rewrite decide_True. }
    intro id'. rewrite <- (list_insert_insert_eq pool i (set_busy true (set_queue id rest p)) (set_queue id rest p)).
    by apply (queue_kept _ _ _ _ _ Hf'). }
  destruct (_ || _); [|destruct (id =? producerId (set_queue id rest p)); [destruct (with_sequence _ _)|destruct (negb _)]]; eexists _, _;
    (split; [reflexivity|]); (split; [done|]); [exact Hs..|]. intro id'. by rewrite Hb.
Qed.

(** The queue after a buffer came back. *)
Definition released (b out : Z) (q : list ReferBuffer) : list ReferBuffer :=
  match last q with
  | Some newest => if out <? sequence newest then Refer (-1) b :: q else q ++ [Refer out b]
  | None => q
  end.

Lemma release_puts_back id b out pool q :
  queue_in id pool = Some q -> q <> [] ->
  exists pool', releaseBuffer id b out pool = Some (OK, pool')
    /\ forall id', queue_in id' pool' = if id' =? id then Some (released b out q) else queue_in id' pool.
Proof.
  intros Hq Hn. apply queue_in_found in Hq as (i & p & Hf & Hq). unfold releaseBuffer, released. rewrite Hf, Hq.
  destruct (last q) as [newest|] eqn:El; [|by apply last_None in El]. eexists. split; [reflexivity|].
  by apply queue_set.
Qed.

Lemma end_keeps id pool id' : queue_in id' (acquire_end id pool) = queue_in id' pool.
Proof. unfold acquire_end. destruct (findUserPair id pool) as [[i p]|] eqn:Hf; [|done]. by apply (queue_kept _ _ _ _ _ Hf). Qed.

Lemma released_ascending b out q :
  ascending q -> Forall (fun r => -1 <= sequence r) q -> 0 <= out ->
  ascending (released b out q) /\ Forall (fun r => -1 <= sequence r) (released b out q).
Proof.
  intros Hs Hf Ho. unfold released. destruct (last q) as [newest|] eqn:El; [|done]. unfold ascending in *.
  destruct (Z.ltb_spec out (sequence newest)).
  - split; [|by constructor]. cbn. constructor; [exact Hs|]. by apply Forall_fmap.
  - split; [|apply Forall_app; split; [done|repeat constructor; cbn; lia]]. rewrite fmap_app. apply StronglySorted_app_2; [|exact Hs|repeat constructor].
    intros x y Hx Hy. cbn in Hy. apply list_elem_of_singleton in Hy as ->. apply list_elem_of_fmap in Hx as (r & -> & Hr).
    pose proof (ascending_last _ _ _ Hs El Hr). lia.
Qed.

Lemma released_buffers b out q : q <> [] -> buffer <$> released b out q ≡ₚ b :: (buffer <$> q).
Proof.
  intros Hn. unfold released. destruct (last q) as [newest|] eqn:El; [|by apply last_None in El].
  destruct (_ <? _); [done|]. rewrite fmap_app. cbn. by rewrite Permutation_app_comm.
Qed.

Definition held_by (id : Z) (s : Sys) : list Z := match held s !! id with Some (b, _) => [b] | None => [] end.

(** Each client has at least two buffers, in its queue but for the one it is
    using; the queue is in the order of the frames. *)
Definition In_order (registered : Z -> list Z) (s : Sys) : Prop :=
  (forall id q, queue_in id (pool s) = Some q ->
     ascending q /\ Forall (fun r => -1 <= sequence r) q /\ (buffer <$> q) ++ held_by id s ≡ₚ registered id
     /\ (2 <= length (registered id))%nat)
  /\ forall id b out, held s !! id = Some (b, out) -> 0 <= out /\ is_Some (queue_in id (pool s)).

Lemma queue_length registered s id q :
  In_order registered s -> queue_in id (pool s) = Some q -> held s !! id = None -> exists oldest rest, q = oldest :: rest /\ rest <> [].
Proof.
  intros [Ho _] Hq Hn. destruct (Ho _ _ Hq) as (_ & _ & Hp & Hl). unfold held_by in Hp. rewrite Hn, app_nil_r in Hp.
  apply Permutation_length in Hp. rewrite length_fmap in Hp. destruct q as [|a [|b q]]; cbn in Hp; [lia|lia|]. by exists a, (b :: q).
Qed.

Lemma acquire_in_order registered id out s :
  In_order registered s -> held s !! id = None -> 0 <= out ->
  exists o pool', acquire_begin id out (pool s) = Some (o, pool')
    /\ In_order registered (SysOf pool' (match held_after o with Some b => <[id := (b, out)]> (held s) | None => held s end)).
Proof.
  intros HI Hn Hout. destruct (queue_in id (pool s)) as [q|] eqn:Hq.
  - destruct (queue_length _ _ _ _ HI Hq Hn) as (oldest & rest & -> & Hr).
    destruct (begin_takes_oldest id out _ _ _ Hq Hr) as (o & pool' & E & Ho & Hs). exists o, pool'. split; [exact E|]. rewrite Ho.
    destruct HI as [HI Hh]. destruct (HI _ _ Hq) as (A1 & A2 & A3 & A4). split; cbn.
    + intros id' q' Hq'. rewrite Hs in Hq'. destruct (Z.eqb_spec id' id) as [->|Hne].
      * injection Hq' as <-. unfold ascending in A1. cbn in A1. apply StronglySorted_inv in A1 as [A1 _]. apply Forall_cons in A2 as [_ A2].
        split; [done|]. split; [done|]. split; [|done]. unfold held_by in *. cbn. rewrite lookup_insert_eq.
        rewrite Hn, app_nil_r in A3. by rewrite Permutation_app_comm, <- A3.
      * destruct (HI _ _ Hq') as (B1 & B2 & B3 & B4). do 2 (split; [done|]). split; [|done].
        unfold held_by in *. cbn. by rewrite lookup_insert_ne.
    + intros id' b' out'. rewrite lookup_insert_Some. intros [[<- [= <- <-]]|[Hne Hl]].
      * split; [done|]. rewrite Hs, Z.eqb_refl. done.
      * destruct (Hh _ _ _ Hl). split; [done|]. rewrite Hs. by destruct (id' =? id).
  - unfold queue_in in Hq. unfold acquire_begin. destruct (findUserPair id (pool s)) as [[i p]|]; [done|].
    eexists _, _. split; [reflexivity|]. by destruct s.
Qed.

Lemma release_in_order registered id b out s :
  In_order registered s -> held s !! id = Some (b, out) ->
  exists pool', releaseBuffer id b out (pool s) = Some (OK, pool') /\ In_order registered (SysOf pool' (delete id (held s))).
Proof.
  intros [HI Hh] Hl. destruct (Hh _ _ _ Hl) as [Ho [q Hq]]. destruct (HI _ _ Hq) as (A1 & A2 & A3 & A4).
  assert (Hn : q <> []). { intros ->. unfold held_by in A3. rewrite Hl in A3. apply Permutation_length in A3. cbn in A3. lia. }
  destruct (release_puts_back id b out _ _ Hq Hn) as (pool' & E & Hs). exists pool'. split; [exact E|]. split; cbn.
  - intros id' q' Hq'. rewrite Hs in Hq'. destruct (Z.eqb_spec id' id) as [->|Hne].
    + injection Hq' as <-. destruct (released_ascending b out q A1 A2 Ho) as [B1 B2]. do 2 (split; [done|]). split; [|done].
      unfold held_by in *. cbn. rewrite lookup_delete_eq, app_nil_r. rewrite Hl in A3.
      by rewrite released_buffers, <- A3, Permutation_app_comm.
    + destruct (HI _ _ Hq') as (B1 & B2 & B3 & B4). do 2 (split; [done|]). split; [|done].
      unfold held_by in *. cbn. by rewrite lookup_delete_ne.
  - intros id' b' out' Hl'. apply lookup_delete_Some in Hl' as [Hne Hl']. destruct (Hh _ _ _ Hl'). split; [done|].
    rewrite Hs. by destruct (id' =? id).
Qed.

(** C10: whatever the clients run, in whatever order, the queues stay in the
    order of the frames, no buffer of a client is lost or goes to another
    client, and no empty vector is asked for its last element. *)
Theorem queues_stay_in_order registered ops s r :
  In_order registered s -> pool_run ops s = Some r -> exists s', r = Some s' /\ In_order registered s'.
Proof.
  revert s. induction ops as [|op ops IH]; intros s HI; cbn; [intros [= <-]; eauto|].
  intros (r1 & E & Hr)%bind_Some. assert (Hs : exists s1, r1 = Some s1 /\ In_order registered s1).
  { destruct op as [id out|id|id]; cbn in E.
    - destruct (held s !! id) eqn:Hn; [done|]. destruct (Z.ltb_spec out 0); [done|].
      destruct (acquire_in_order registered id out s HI Hn ltac:(lia)) as (o & pool' & E' & HI').
      rewrite E' in E. injection E as <-. eauto.
    - injection E as <-. eexists. split; [reflexivity|]. destruct HI as [HI Hh]. split; cbn.
      + intros id' q. rewrite end_keeps. apply HI.
      + intros id' b' out' Hl. rewrite end_keeps. destruct (Hh _ _ _ Hl); done.
    - destruct (held s !! id) as [[b out]|] eqn:Hl; [|done].
      destruct (release_in_order registered id b out s HI Hl) as (pool' & E' & HI'). rewrite E' in E. injection E as <-. eauto. }
  destruct Hs as (s1 & -> & HI1). eauto.
Qed.

(** The reference that a frame reads is what the frame before it wrote. *)
Theorem reference_is_last_output id b out pool q pool' :
  queue_in id pool = Some q -> ascending q -> q <> [] -> 0 <= out ->
  (forall x, x ∈ q -> sequence x <= out) -> releaseBuffer id b out pool = Some (OK, pool') ->
  exists oldest pool'', acquire_begin id (out + 1) pool' = Some (Answer OK (Some oldest) (Some b), pool'')
    /\ hd_error (buffer <$> q) = Some oldest.
Proof.
  intros Hq Hs Hn Ho Hall E. destruct (release_puts_back id b out _ _ Hq Hn) as (pool1 & E1 & Hs1).
  rewrite E in E1. injection E1 as <-. specialize (Hs1 id). rewrite Z.eqb_refl in Hs1.
  unfold released in Hs1. destruct (last q) as [newest|] eqn:El; [|by apply last_None in El].
  rewrite (proj2 (Z.ltb_ge _ _)) in Hs1 by (apply Hall; by apply last_Some_elem_of).
  destruct q as [|oldest q]; [done|]. apply queue_in_found in Hs1 as (i & p & Hf & Hqp).
  unfold acquire_begin. rewrite Hf, Hqp. cbn [app]. rewrite last_snoc. cbn [mbind option_bind sequence].
  rewrite (proj2 (Z.eqb_eq _ _)) by lia. cbn. by eexists _, _.
Qed.

(** A client with a single buffer asks an empty vector for its last
    element. *)
Theorem single_buffer_undefined id out pool r : queue_in id pool = Some [r] -> acquire_begin id out pool = None.
Proof.
  intros Hq. apply queue_in_found in Hq as (i & p & Hf & Hq). unfold acquire_begin. by rewrite Hf, Hq.
Qed.

(** The buffer that a consumer is copying can be taken as the output of the
    producer's next frame before the copy is made, as nothing but [busy] is
    left when the mutexes are released. *)
Theorem copied_buffer_may_be_overwritten id pool i p s out r1 r2 rest :
  findUserPair id pool = Some (i, p) -> producerId p = id -> mProducerBuffers p = r1 :: r2 :: rest ->
  ascending (mProducerBuffers p) -> sequence r1 <= s < sequence r2 ->
  findReferBuffer (mProducerBuffers p) s = (OK, Some (buffer r1))
  /\ exists o pool', acquire_begin id out (<[i := set_busy true p]> pool) = Some (o, pool') /\ held_after o = Some (buffer r1).
Proof.
  intros Hf Hid Hp Ha Hs. split.
  - pose proof (newest_found _ s Ha) as Hn. unfold findReferBuffer. rewrite Hp in *.
    destruct (last (r1 :: r2 :: rest)) as [newest|] eqn:El; [|by apply last_None in El].
    assert (Hall : forall x, x ∈ r2 :: rest -> s < sequence x).
    { unfold ascending in Ha. cbn in Ha. apply StronglySorted_inv in Ha as [Ha _]. apply StronglySorted_inv in Ha as [_ Ha].
      intros x [->|Hx]%elem_of_cons; [lia|]. rewrite Forall_fmap, Forall_forall in Ha. specialize (Ha x Hx). cbn in Ha. lia. }
    assert (Hl : s < sequence newest) by (apply Hall; by apply last_Some_elem_of).
    rewrite (proj2 (Z.ltb_ge _ _)) by lia. destruct (list_find _ _) as [[j r]|].
    + destruct Hn as (Hr & Hle & _). apply elem_of_cons in Hr as [->|Hr]; [done|]. specialize (Hall _ Hr). lia.
    + specialize (Hn r1 ltac:(left)). lia.
  - assert (Hf' : findUserPair id (<[i := set_busy true p]> pool) = Some (i, set_busy true p)).
    { rewrite (found_insert id id i p (set_busy true p) pool Hf eq_refl eq_refl), Hf. cbn. by rewrite decide_True. }
    destruct (begin_takes_oldest id out (<[i := set_busy true p]> pool) r1 (r2 :: rest)) as (o & pool' & E & Ho & _); [|done|eauto].
    unfold queue_in. rewrite Hf'. cbn. unfold queue_of. cbn. by rewrite Hid, Z.eqb_refl, Hp.
Qed.

(** ** Witnesses *)

(** The producer 1 has run the frames up to 9, the consumer 2 none. *)
Definition example_pair : UserPair :=
  PairOf "video" "still" 1 2 true false [Refer 6 10; Refer 7 11; Refer 8 12; Refer 9 13] [Refer (-1) 20; Refer (-1) 21].

Definition example_pool : list UserPair := [example_pair].

Definition example_start : Sys := SysOf example_pool ∅.

Definition example_registered (id : Z) : list Z := if id =? 1 then [10; 11; 12; 13] else [20; 21].

Lemma example_in_order : In_order example_registered example_start.
Proof.
  split; [|intros id b out Hl; cbn in Hl; by apply lookup_empty_Some in Hl].
  intros id q Hq. unfold queue_in, findUserPair in Hq. cbn in Hq. destruct (decide (uses id _ = true)) as [Hu|]; [|done].
  apply uses_side in Hu as [->|[Hn ->]]; injection Hq as <-; cbn.
  all: split; [unfold ascending; cbn; repeat constructor; lia|]; split; [repeat constructor; cbn; lia|]; split; [done|cbn; lia].
Qed.

Lemma finds_newest_witness : exists r, r ∈ mProducerBuffers example_pair /\ buffer r = 11 /\ sequence r <= 7.
Proof.
  pose proof (finds_newest (mProducerBuffers example_pair) 7 (proj1 (proj1 example_in_order 1 _ eq_refl))) as H.
  cbn in H. destruct H as (_ & r & H1 & H2 & H3 & _). exists r. split; [exact H1|]. split; [exact H2|exact H3].
Defined.

(** Frame 10 of the producer while the consumer runs frame 8, and frame 3 of the
    producer again. *)
Definition example_frames : list pool_op := [Acquire 1 10; Acquire 2 8; Release 1; Copied 2; Acquire 1 3; Release 2; Release 1].

Lemma queues_stay_in_order_witness :
  exists s', pool_run example_frames example_start = Some (Some s') /\ In_order example_registered s'
    /\ queue_in 1 (pool s') = Some [Refer (-1) 11; Refer 8 12; Refer 9 13; Refer 10 10].
Proof.
  destruct (queues_stay_in_order example_registered example_frames example_start (Some (default example_start (default None (pool_run example_frames example_start))))
    example_in_order ltac:(vm_compute; reflexivity)) as (s' & E & HI).
  injection E as <-. eexists. split; [vm_compute; reflexivity|]. split; [exact HI|vm_compute; reflexivity].
Defined.

Lemma reference_is_last_output_witness :
  exists oldest pool'', acquire_begin 2 9 (snd (default (0, []) (releaseBuffer 2 30 8 example_pool))) = Some (Answer OK (Some oldest) (Some 30), pool'')
    /\ oldest = 20.
Proof.
  destruct (reference_is_last_output 2 30 8 example_pool [Refer (-1) 20; Refer (-1) 21] (snd (default (0, []) (releaseBuffer 2 30 8 example_pool))))
    as (oldest & pool'' & E & Hh); [reflexivity|unfold ascending; cbn; repeat constructor; lia|discriminate|lia| |reflexivity|].
  - intros x Hx. apply elem_of_cons in Hx as [->|Hx]; [cbn; lia|]. apply list_elem_of_singleton in Hx as ->. cbn. lia.
  - exists oldest, pool''. split; [exact E|]. injection Hh as <-. reflexivity.
Defined.

Lemma single_buffer_undefined_witness : acquire_begin 1 5 [PairOf "video" "still" 1 2 true false [Refer (-1) 10] []] = None.
Proof. apply (single_buffer_undefined 1 5 _ (Refer (-1) 10)). reflexivity. Defined.

Lemma copied_buffer_may_be_overwritten_witness :
  findReferBuffer (mProducerBuffers example_pair) 6 = (OK, Some 10).
Proof.
  apply (copied_buffer_may_be_overwritten 1 example_pool 0%nat example_pair 6 11 (Refer 6 10) (Refer 7 11) [Refer 8 12; Refer 9 13]);
    [reflexivity|reflexivity|reflexivity|unfold ascending; cbn; repeat constructor; lia|simpl; lia].
Defined.
