(* ===== verification/PolicyManager.v ===== *)
(** * Executors that run together

    src/core/psysprocessor/PolicyManager.cpp and .h: the executors of a bundle
    wait for each other before each run, but for the first runs of those that
    others depend on.

    [enter] is what [wait] does under the bundle's mutex up to the condition
    variable, and [sleeping] who is asleep on it; a broadcast empties that list,
    and [leave] is a time-out (or a spurious wake-up, which the code does not
    tell from a broadcast). *)

From Stdlib Require Import String.
From S2P Require Import Prelude Errors.
From stdpp Require Import list gmap strings.
#[local] Open Scope Z_scope.

(** ** Data *)

Record ExecutorData := Executor { mRunCount : Z; mDepth : Z }.

Record ExecutorBundle := Bundle {
  mExecutorData : gmap string ExecutorData;
  mMaxDepth : Z;
  mExecutorNum : Z;
  mWaitingCount : Z;
  active : bool;
  mStartSequence : Z;
  sleeping : list string;
}.

Record PolicyManager := Manager { mBundles : list ExecutorBundle; mIsActive : bool }.

Definition new_PolicyManager : PolicyManager := Manager [] false.

Implicit Types (b : ExecutorBundle) (m : PolicyManager).

Definition set_data d b := Bundle d (mMaxDepth b) (mExecutorNum b) (mWaitingCount b) (active b) (mStartSequence b) (sleeping b).
Definition set_waiting n l b := Bundle (mExecutorData b) (mMaxDepth b) (mExecutorNum b) n (active b) (mStartSequence b) l.

(** ** Operations *)

Definition reset_bundle (isActive : bool) b : ExecutorBundle :=
  Bundle ((fun d => Executor 0 (mDepth d)) <$> mExecutorData b) (mMaxDepth b) (mExecutorNum b) 0 isActive (mStartSequence b)
    (if isActive then sleeping b else []).

Definition setActive (isActive : bool) m : PolicyManager :=
  if Bool.eqb (mIsActive m) isActive then m else Manager (reset_bundle isActive <$> mBundles m) isActive.

Definition data_of (entries : list (string * Z)) : gmap string ExecutorData :=
  foldl (fun d '(e, depth) => <[e := Executor 0 depth]> d) ∅ entries.
Definition max_depth (entries : list (string * Z)) : Z :=
  foldl (fun mx '(_, depth) => if mx <? depth then depth else mx) 0 entries.

(** The number of executors has 8 bits; a name that comes twice has one entry. *)
Definition addExecutorBundle (executors : list string) (depths : list Z) (startSequence : Z) m : Z * PolicyManager :=
  let size := u8 (Z.of_nat (length executors)) in
  if negb (size =? Z.of_nat (length depths)) then (BAD_VALUE, m) else
  let entries := zip executors depths in
  (OK, Manager (mBundles m ++ [Bundle (data_of entries) (max_depth entries) size 0 true startSequence []]) (mIsActive m)).

Inductive outcome := Runs | Sleeps.

Definition enter (name : string) (sequence : Z) b : outcome * ExecutorBundle :=
  if negb (active b) then (Runs, b) else
  if sequence <=? mStartSequence b then (Runs, b) else
  let d := default (Executor 0 0) (mExecutorData b !! name) in
  let run := mRunCount d + 1 in
  let b := set_data (<[name := Executor run (mDepth d)]> (mExecutorData b)) b in
  if run + mDepth d <=? mMaxDepth b then (Runs, b) else
  let waiting := mWaitingCount b + 1 in
  if waiting <? mExecutorNum b then (Sleeps, set_waiting waiting (sleeping b ++ [name]) b)
  else (Runs, set_waiting 0 [] b).

(** The waiting count stays as it is. *)
Definition leave (name : string) b : ExecutorBundle :=
  set_waiting (mWaitingCount b) (filter (fun e => e <> name) (sleeping b)) b.

(** [wait]: the outcome, and the bundle the executor sleeps in. *)
Definition wait (name : string) (sequence : Z) m : outcome * PolicyManager :=
  if negb (mIsActive m) then (Runs, m) else
  match list_find (fun b => is_Some (mExecutorData b !! name)) (mBundles m) with
  | None => (Runs, m)
  | Some (i, b) => let '(o, b) := enter name sequence b in (o, Manager (<[i := b]> (mBundles m)) (mIsActive m))
  end.

(** Executors that come to a bundle one after the other, each awake. *)
Fixpoint enter_all (names : list (string * Z)) b : option ExecutorBundle :=
  match names with
  | [] => Some b
  | (name, sequence) :: rest =>
      if bool_decide (name ∈ sleeping b) then None else enter_all rest (snd (enter name sequence b))
  end.

(** ** Properties *)

(** How often an executor has got as far as waiting. *)
Definition aligned_runs b (d : ExecutorData) : Z := Z.max 0 (mRunCount d + mDepth d - mMaxDepth b).

(** All executors have run together [rounds] times, and those asleep have come
    for the next time. *)
Record Together (rounds : Z) b : Prop := {
  t_active : active b = true;
  t_num : mExecutorNum b = Z.of_nat (size (mExecutorData b));
  t_waiting : mWaitingCount b = Z.of_nat (length (sleeping b));
  t_some : mWaitingCount b < mExecutorNum b;
  t_once : NoDup (sleeping b);
  t_member : forall e, e ∈ sleeping b -> is_Some (mExecutorData b !! e);
  t_depth : forall e d, mExecutorData b !! e = Some d -> mDepth d <= mMaxDepth b;
  t_runs : forall e d, mExecutorData b !! e = Some d ->
    0 <= mRunCount d /\ aligned_runs b d = rounds + (if bool_decide (e ∈ sleeping b) then 1 else 0);
}.

(** As many different members as there are make them all. *)
Lemma all_members (l : list string) (d : gmap string ExecutorData) :
  NoDup l -> (forall e, e ∈ l -> is_Some (d !! e)) -> (size d <= length l)%nat -> forall e, is_Some (d !! e) -> e ∈ l.
Proof.
  intros Hn Hm Hs e He. assert (Hd : list_to_set l = dom d).
  { apply (set_subseteq_size_eq (C := gset string)).
    - intros x Hx. apply elem_of_list_to_set in Hx. by apply elem_of_dom, Hm.
    - rewrite size_list_to_set, size_dom by done. done. }
  apply (elem_of_list_to_set (C := gset string)). rewrite Hd. by apply elem_of_dom.
Qed.

(** An executor that comes: it is counted first. *)
Definition counted (name : string) (d : ExecutorData) b : ExecutorBundle :=
  set_data (<[name := Executor (mRunCount d + 1) (mDepth d)]> (mExecutorData b)) b.

Lemma enter_member rounds b name sequence d :
  Together rounds b -> mExecutorData b !! name = Some d -> mStartSequence b < sequence ->
  enter name sequence b =
    if mRunCount d + 1 + mDepth d <=? mMaxDepth b then (Runs, counted name d b)
    else if mWaitingCount b + 1 <? mExecutorNum b
         then (Sleeps, set_waiting (mWaitingCount b + 1) (sleeping b ++ [name]) (counted name d b))
         else (Runs, set_waiting 0 [] (counted name d b)).
Proof.
  intros HT Hd Hs. unfold enter. rewrite (t_active _ _ HT), Hd. cbn. by rewrite (proj2 (Z.leb_gt _ _) Hs).
Qed.

(** The counts after an executor was counted. *)
Lemma counted_size name d b : mExecutorData b !! name = Some d -> size (mExecutorData (counted name d b)) = size (mExecutorData b).
Proof. intros Hd. cbn. by rewrite map_size_insert_Some. Qed.

Lemma enter_together rounds b name sequence d :
  Together rounds b -> mExecutorData b !! name = Some d -> mStartSequence b < sequence -> name ∉ sleeping b ->
  exists rounds', Together rounds' (snd (enter name sequence b)).
Proof.
  intros HT Hd Hs Hn. rewrite (enter_member _ _ _ _ _ HT Hd Hs). pose proof (counted_size name d b Hd) as Hsz.
  destruct HT as [T1 T2 T3 T4 T5 T6 T7 T8]. pose proof (T7 _ _ Hd) as Hdep. destruct (T8 _ _ Hd) as [Hrun Hal].
  rewrite bool_decide_false in Hal by done. unfold aligned_runs in *.
  assert (Hmem : forall e, is_Some (mExecutorData b !! e) -> is_Some (mExecutorData (counted name d b) !! e)).
  { intros e He. cbn. destruct (decide (name = e)) as [->|]; [by rewrite lookup_insert_eq|by rewrite lookup_insert_ne]. }
  assert (Hdep' : forall e x, mExecutorData (counted name d b) !! e = Some x -> mDepth x <= mMaxDepth b).
  { intros e x. cbn. intros [[<- <-]|[_ He]]%lookup_insert_Some; [done|eauto]. }
  destruct (Z.leb_spec (mRunCount d + 1 + mDepth d) (mMaxDepth b)); [|destruct (Z.ltb_spec (mWaitingCount b + 1) (mExecutorNum b))]; cbn.
  - exists rounds. split; try done; cbn; [by rewrite T2, <- Hsz|by eauto|].
    intros e x [[<- <-]|[Hne He]]%lookup_insert_Some; [|by apply T8]. rewrite bool_decide_false by done. unfold aligned_runs. cbn. lia.
  - exists rounds. split; try done; cbn.
    + by rewrite T2, <- Hsz.
    + rewrite length_app. cbn. lia.
    + apply NoDup_app. split; [done|]. split; [|apply NoDup_singleton]. intros e He Hx. apply list_elem_of_singleton in Hx as ->. done.
    + intros e [He|He]%elem_of_app; [by apply Hmem, T6|]. apply list_elem_of_singleton in He as ->. by apply Hmem; exists d.
    + intros e x [[<- <-]|[Hne He]]%lookup_insert_Some.
      * rewrite bool_decide_true by (apply elem_of_app; right; left). unfold aligned_runs. cbn. lia.
      * destruct (T8 _ _ He). split; [done|]. replace (bool_decide (e ∈ sleeping b ++ [name])) with (bool_decide (e ∈ sleeping b)); [done|].
        apply bool_decide_ext. rewrite elem_of_app, list_elem_of_singleton. intuition congruence.
  - exists (rounds + 1). assert (Hall : forall e, is_Some (mExecutorData b !! e) -> e ∈ sleeping b ++ [name]).
    { apply all_members.
      - apply NoDup_app. split; [done|]. split; [|apply NoDup_singleton]. intros e He Hx. apply list_elem_of_singleton in Hx as ->. done.
      - intros e [He|He]%elem_of_app; [by apply T6|]. apply list_elem_of_singleton in He as ->. by exists d.
      - rewrite length_app. cbn. lia. }
    split; try done; cbn.
    + by rewrite T2, <- Hsz.
    + lia.
    + constructor.
    + intros e He. by apply elem_of_nil in He.
    + intros e x Hx. rewrite bool_decide_false by (intro He; by apply elem_of_nil in He).
      apply lookup_insert_Some in Hx as [[<- <-]|[Hne He]]; unfold aligned_runs; cbn; [lia|].
      destruct (T8 _ _ He) as [He1 He2]. split; [done|]. unfold aligned_runs in He2. cbn.
      specialize (Hall e ltac:(by exists x)). apply elem_of_app in Hall as [Hin|Hin]; [rewrite bool_decide_true in He2 by done; lia|].
      apply list_elem_of_singleton in Hin. congruence.
Qed.

(** What a new bundle has. *)
Lemma data_of_spec entries :
  NoDup entries.*1 ->
  size (data_of entries) = length entries
  /\ forall e d, data_of entries !! e = Some d <-> exists depth, (e, depth) ∈ entries /\ d = Executor 0 depth.
Proof.
  induction entries as [|[a n] l IH] using rev_ind; intros Hn.
  - split; [apply map_size_empty|]. intros e d. split; [intros Hl; unfold data_of in Hl; cbn in Hl; by apply lookup_empty_Some in Hl|]. by intros (? & ?%elem_of_nil & _).
  - rewrite fmap_app in Hn. apply NoDup_app in Hn as (Hn & Hd & _). destruct (IH Hn) as [Hs Hl].
    assert (Hf : data_of l !! a = None).
    { destruct (data_of l !! a) as [d|] eqn:E; [|done]. apply Hl in E as (k & Hin & _). destruct (Hd a); [by apply (list_elem_of_fmap_2 fst _ (a, k))|left]. }
    unfold data_of in *. rewrite foldl_app. cbn. split; [rewrite map_size_insert_None, Hs, length_app by done; cbn; lia|].
    intros e d. rewrite lookup_insert_Some, Hl. split.
    + intros [[<- <-]|[_ (k & Hin & ->)]]; eexists; (split; [apply elem_of_app|reflexivity]); [right; left|by left].
    + intros (k & [Hin|Hin]%elem_of_app & ->); [|apply list_elem_of_singleton in Hin; injection Hin as <- <-; by left].
      right. split; [|eauto]. intros <-. destruct (Hd a); [by apply (list_elem_of_fmap_2 fst _ (a, k))|left].
Qed.

Lemma max_depth_spec entries e n : (e, n) ∈ entries -> n <= max_depth entries.
Proof.
  induction entries as [|[a k] l IH] using rev_ind; intros Hin; [by apply elem_of_nil in Hin|].
  unfold max_depth in *. rewrite foldl_app. cbn. apply elem_of_app in Hin as [Hin|Hin].
  - specialize (IH Hin). destruct (Z.ltb_spec (foldl (fun mx '(_, depth) => if mx <? depth then depth else mx) 0 l) k); lia.
  - apply list_elem_of_singleton in Hin. injection Hin as -> ->.
    destruct (Z.ltb_spec (foldl (fun mx '(_, depth) => if mx <? depth then depth else mx) 0 l) k); lia.
Qed.

Lemma new_bundle_together executors depths startSequence m m' :
  NoDup executors -> (0 < length executors < 256)%nat -> addExecutorBundle executors depths startSequence m = (OK, m') ->
  exists b, mBundles m' = mBundles m ++ [b] /\ Together 0 b /\ mExecutorNum b = Z.of_nat (length executors)
    /\ forall e, e ∈ executors <-> is_Some (mExecutorData b !! e).
Proof.
  intros Hn Hl E. unfold addExecutorBundle in E. assert (Hu : u8 (Z.of_nat (length executors)) = Z.of_nat (length executors)) by (apply Z.mod_small; lia).
  rewrite Hu in E. destruct (Z.eqb_spec (Z.of_nat (length executors)) (Z.of_nat (length depths))) as [Hd|]; [|done]. injection E as <-.
  assert (Hf : (zip executors depths).*1 = executors) by (apply fst_zip; lia).
  destruct (data_of_spec (zip executors depths)) as [Hs Hdat]; [by rewrite Hf|].
  assert (Hz : length (zip executors depths) = length executors) by (rewrite <- (length_fmap fst), Hf; done).
  eexists. split; [reflexivity|]. split; [|split; [done|]].
  - split; try done; cbn.
    + by rewrite Hs, Hz.
    + lia.
    + constructor.
    + intros e He. by apply elem_of_nil in He.
    + intros e d (k & Hin & ->)%Hdat. cbn. by eapply max_depth_spec.
    + intros e d (k & Hin & ->)%Hdat. apply max_depth_spec in Hin. rewrite bool_decide_false by (intro He; by apply elem_of_nil in He).
      unfold aligned_runs. cbn. lia.
  - intro e. cbn. rewrite <- Hf at 1. split.
    + intros He. apply list_elem_of_fmap in He as ([a k] & -> & Hin). eexists. apply Hdat. by exists k.
    + intros [d (k & Hin & ->)%Hdat]. by apply (list_elem_of_fmap_2 fst _ (e, k)).
Qed.

Lemma enter_keeps_members name sequence b e :
  is_Some (mExecutorData b !! e) -> is_Some (mExecutorData (snd (enter name sequence b)) !! e).
Proof.
  intros He. unfold enter. destruct (negb _); [done|]. destruct (_ <=? _); [done|].
  assert (Hi : forall x, is_Some (<[name := x]> (mExecutorData b) !! e)).
  { intro x. destruct (decide (name = e)) as [->|]; [by rewrite lookup_insert_eq|by rewrite lookup_insert_ne]. }
  destruct (_ <=? _); [apply Hi|]. destruct (_ <? _); apply Hi.
Qed.

Lemma enter_keeps_num name sequence b : mExecutorNum (snd (enter name sequence b)) = mExecutorNum b.
Proof.
  unfold enter. destruct (negb _); [done|]. destruct (_ <=? _); [done|]. destruct (_ <=? _); [done|]. by destruct (_ <? _).
Qed.

Lemma members_fit (l : list string) (d : gmap string ExecutorData) :
  NoDup l -> (forall e, e ∈ l -> is_Some (d !! e)) -> (length l <= size d)%nat.
Proof.
  intros Hn Hm. rewrite <- (size_list_to_set (C := gset string) l), <- size_dom by done. apply subseteq_size.
  intros x Hx. apply elem_of_list_to_set in Hx. by apply elem_of_dom, Hm.
Qed.

Lemma enter_all_together names rounds b b' :
  Together rounds b -> Forall (fun n => is_Some (mExecutorData b !! n.1)) names -> enter_all names b = Some b' ->
  (exists rounds', Together rounds' b') /\ mExecutorNum b' = mExecutorNum b
  /\ forall e, is_Some (mExecutorData b !! e) -> is_Some (mExecutorData b' !! e).
Proof.
  revert rounds b. induction names as [|[name sequence] names IH]; intros rounds b HT Hm; cbn; [intros [= <-]; eauto|].
  case_bool_decide as Hn; [done|]. apply Forall_cons in Hm as [[d Hd] Hm]. cbn in Hd.
  assert (HT' : exists rounds', Together rounds' (snd (enter name sequence b))).
  { destruct (Z.le_gt_cases sequence (mStartSequence b)) as [Hs|Hs]; [|by eapply enter_together].
    exists rounds. unfold enter. rewrite (t_active _ _ HT). cbn. by rewrite (proj2 (Z.leb_le _ _) Hs). }
  destruct HT' as [r' HT']. intros E. destruct (IH r' _ HT') with (2 := E) as (Hr & Hnum & Hk).
  - apply (Forall_impl _ _ _ Hm). intros n. apply enter_keeps_members.
  - split; [exact Hr|]. split; [by rewrite Hnum, enter_keeps_num|]. intros e He. by apply Hk, enter_keeps_members.
Qed.

(** C8: as long as no wait times out or ends for no reason and the bundle stays
    active, the executors of a bundle run together, in whatever order they come: one that comes sleeps
    exactly when it is not one of its first runs and another executor is still
    to come; when it is the last it wakes all; and those awake have run together
    equally often.  [timeout_breaks_barrier] shows what a time-out does. *)
Theorem executors_run_together executors depths startSequence m names b b' name sequence d :
  NoDup executors -> (0 < length executors < 256)%nat ->
  addExecutorBundle executors depths startSequence m = (OK, Manager (mBundles m ++ [b]) (mIsActive m)) ->
  Forall (fun n => n.1 ∈ executors) names -> enter_all names b = Some b' ->
  name ∉ sleeping b' -> mExecutorData b' !! name = Some d -> mStartSequence b' < sequence ->
  (fst (enter name sequence b') = Sleeps <->
     mMaxDepth b' < mRunCount d + 1 + mDepth d /\ exists other, other ∈ executors /\ other <> name /\ other ∉ sleeping b')
  /\ (fst (enter name sequence b') = Runs -> mMaxDepth b' < mRunCount d + 1 + mDepth d -> sleeping (snd (enter name sequence b')) = [])
  /\ forall e x, mExecutorData b' !! e = Some x -> e ∉ sleeping b' -> aligned_runs b' x = aligned_runs b' d.
Proof.
  intros Hnd Hl Ha Hm E Hn Hd Hs. destruct (new_bundle_together _ _ _ _ _ Hnd Hl Ha) as (b0 & Hb & HT & Hnum & Hin).
  cbn in Hb. apply app_inj_tail in Hb as [_ <-].
  destruct (enter_all_together names 0 b b' HT) with (2 := E) as ([rounds HT'] & Hnum' & Hk).
  { apply (Forall_impl _ _ _ Hm). intros n. apply Hin. }
  rewrite (enter_member _ _ _ _ _ HT' Hd Hs). destruct HT' as [T1 T2 T3 T4 T5 T6 T7 T8].
  assert (Hlen : mExecutorNum b' = Z.of_nat (length executors)) by congruence.
  split; [|split].
  - split.
    + destruct (Z.leb_spec (mRunCount d + 1 + mDepth d) (mMaxDepth b')); [done|].
      destruct (Z.ltb_spec (mWaitingCount b' + 1) (mExecutorNum b')); [|done]. intros _. split; [done|].
      destruct (decide (Exists (fun e => e <> name /\ e ∉ sleeping b') executors)) as [He|He];
        [apply Exists_exists in He as (e & H1 & H2 & H3); eauto|].
      exfalso. assert (Hsub : executors ⊆+ sleeping b' ++ [name]).
      { apply NoDup_submseteq; [done|]. intros e Hin'. rewrite elem_of_app, list_elem_of_singleton.
        destruct (decide (e = name)); [by right|]. destruct (decide (e ∈ sleeping b')); [by left|].
        destruct He. apply Exists_exists. eauto. }
      apply submseteq_length in Hsub. rewrite length_app in Hsub. cbn in Hsub. lia.
    + intros (Hdeep & e & He & Hne & Hes). rewrite (proj2 (Z.leb_gt _ _)) by lia.
      assert (Hf : (length (e :: name :: sleeping b') <= size (mExecutorData b'))%nat).
      { apply members_fit.
        - constructor; [by rewrite elem_of_cons; intros [|]|]. by constructor.
        - intros x [->|[->|Hx]%elem_of_cons]%elem_of_cons; [by apply Hk, Hin|by exists d|by apply T6]. }
      cbn in Hf. by rewrite (proj2 (Z.ltb_lt _ _)) by lia.
  - intros Hr Hdeep. rewrite (proj2 (Z.leb_gt _ _)) in * by lia. by destruct (_ <? _).
  - intros e x Hx He. destruct (T8 _ _ Hx) as [_ H1]. destruct (T8 _ _ Hd) as [_ H2].
    rewrite bool_decide_false in H1, H2 by done. congruence.
Qed.

(** After a time-out the executors no longer run together: one that gave up
    waiting is still counted, and when it comes back it runs although the other
    one of the bundle has not come. *)
Theorem timeout_breaks_barrier rounds name other sequence d b :
  Together rounds b -> mExecutorNum b = 2 -> sleeping b = [] -> mExecutorData b !! name = Some d -> other <> name ->
  mStartSequence b < sequence -> mMaxDepth b < mRunCount d + 1 + mDepth d ->
  let '(o1, b1) := enter name sequence b in
  let '(o2, b2) := enter name (sequence + 1) (leave name b1) in
  o1 = Sleeps /\ o2 = Runs /\ mExecutorData b2 !! other = mExecutorData b !! other.
Proof.
  intros HT Hnum Hsl Hd Hne Hs Hdeep. rewrite (enter_member _ _ _ _ _ HT Hd Hs).
  pose proof (t_waiting _ _ HT) as Hw. rewrite Hsl in Hw. cbn in Hw. rewrite Hw, Hnum.
  rewrite (proj2 (Z.leb_gt _ _)) by lia. change (Z.of_nat 0 + 1 <? 2) with true. cbv iota beta.
  unfold enter, leave. cbn. rewrite (t_active _ _ HT). cbn. rewrite (proj2 (Z.leb_gt _ _)) by lia.
  rewrite ?lookup_insert_eq. cbn.
  rewrite (proj2 (Z.leb_gt _ _)) by lia. rewrite Hnum.
  change (Z.of_nat 0 + 1 + 1 <? 2) with false. cbv iota beta. do 2 (split; [done|]).
  cbn [mExecutorData set_waiting set_data]. by rewrite !lookup_insert_ne.
Qed.

(** ** Witnesses *)

Definition example_bundle : ExecutorBundle :=
  Bundle (data_of [("video", 0); ("still", 1); ("stats", 0)]%string) 1 3 0 true 0 [].

(** [still] depends on nothing that runs first, the others run once before it. *)
Definition example_names : list (string * Z) :=
  [("video", 1); ("stats", 1); ("still", 1); ("stats", 2); ("video", 2); ("still", 2); ("video", 3)]%string.

Lemma executors_run_together_witness :
  exists b', enter_all example_names example_bundle = Some b' /\ sleeping b' = ["still"; "video"]%string
    /\ exists d, mExecutorData b' !! "stats"%string = Some d
    /\ (fst (enter "stats" 3 b') = Sleeps <->
        mMaxDepth b' < mRunCount d + 1 + mDepth d
        /\ exists other, other ∈ ["video"; "still"; "stats"]%string /\ other <> "stats"%string /\ other ∉ sleeping b').
Proof.
  eexists. split; [vm_compute; reflexivity|]. split; [reflexivity|]. eexists. split; [vm_compute; reflexivity|].
  refine (proj1 (executors_run_together ["video"; "still"; "stats"]%string [0; 1; 0] 0 new_PolicyManager example_names example_bundle
    _ "stats" 3 _ _ _ _ _ _ _ _ _)).
  - refine (bool_decide_eq_true_1 _ _). vm_compute. reflexivity.
  - cbn. lia.
  - reflexivity.
  - refine (bool_decide_eq_true_1 _ _). vm_compute. reflexivity.
  - vm_compute. reflexivity.
  - refine (bool_decide_eq_true_1 _ _). vm_compute. reflexivity.
  - vm_compute. reflexivity.
  - vm_compute. reflexivity.
Defined.

Definition example_pair : ExecutorBundle := Bundle (data_of [("video", 0); ("still", 0)]%string) 0 2 0 true 0 [].

Lemma example_pair_together : Together 0 example_pair.
Proof.
  destruct (new_bundle_together ["video"; "still"]%string [0; 0] 0 new_PolicyManager (snd (addExecutorBundle ["video"; "still"]%string [0; 0] 0 new_PolicyManager)))
    as (b & Hb & HT & _); [refine (bool_decide_eq_true_1 _ _); vm_compute; reflexivity|cbn; lia|reflexivity|].
  cbn in Hb. injection Hb as <-. exact HT.
Qed.

Lemma timeout_breaks_barrier_witness :
  fst (enter "video" 2 (leave "video" (snd (enter "video" 1 example_pair)))) = Runs.
Proof.
  pose proof (timeout_breaks_barrier 0 "video" "still" 1 (Executor 0 0) example_pair example_pair_together
    eq_refl eq_refl eq_refl ltac:(discriminate) ltac:(reflexivity) ltac:(reflexivity)) as H.
  exact (proj1 (proj2 H)).
Defined.
