(* ===== verification/RoutingBitmap.v ===== *)
(** * Routing bitmaps

    src/ia_css_rbm.c and include/ia_css_rbm_impl.h: the 160-bit
    [ia_css_rbm_elems_t], an array of five [uint32_t], which says how the
    routing muxes of a program group are set.  The specification is the set of
    the positions whose bit is one, [kbit] of KernelBitmap.v; every operation
    is shown to compute the operation on sets it promises.  The reading of a
    range of bits, [ia_css_rbm_range_val], keeps its shifts by a wrapped
    amount as [None]. *)

From S2P Require Import Prelude Memory KernelBitmap.

Abbreviation ia_css_rbm_t := (list Z).

Definition IA_CSS_RBM_BITS : Z := 160.
Definition IA_CSS_RBM_ELEM_BITS : Z := 32.
Definition IA_CSS_RBM_NOF_ELEMS : nat := 5.

(** ** Operations *)

(** [data[i]], of an index below [IA_CSS_RBM_NOF_ELEMS]. *)
Definition rbm_elem (bitmap : ia_css_rbm_t) (i : nat) : Z := default 0 (bitmap !! i).

(** [for (i = 0; i < NOF_ELEMS; i++) bitmap.data[i] = f i]. *)
Definition rbm_loop (f : nat -> Z) (bitmap : ia_css_rbm_t) : ia_css_rbm_t :=
  foldl (fun b i => <[i := f i]> b) bitmap (seq 0 IA_CSS_RBM_NOF_ELEMS).

(** [ia_css_rbm_t bitmap = {{0} }]. *)
Definition rbm_zero : ia_css_rbm_t := replicate IA_CSS_RBM_NOF_ELEMS 0.

(** [for (i = 0; i < NOF_ELEMS; i++) result &= test i]. *)
Definition rbm_all (test : nat -> bool) : bool :=
  foldl (fun result i => result && test i) true (seq 0 IA_CSS_RBM_NOF_ELEMS).

Definition ia_css_is_rbm_empty (bitmap : ia_css_rbm_t) : bool :=
  rbm_all (fun i => rbm_elem bitmap i =? 0).

Definition ia_css_is_rbm_equal (bitmap0 bitmap1 : ia_css_rbm_t) : bool :=
  rbm_all (fun i => rbm_elem bitmap0 i =? rbm_elem bitmap1 i).

Definition ia_css_is_rbm_subset (bitmap0 bitmap1 : ia_css_rbm_t) : bool :=
  rbm_all (fun i => Z.land (rbm_elem bitmap0 i) (rbm_elem bitmap1 i) =? rbm_elem bitmap1 i).

Definition ia_css_rbm_clear : ia_css_rbm_t := rbm_loop (fun _ => 0) rbm_zero.

Definition ia_css_rbm_complement (bitmap : ia_css_rbm_t) : ia_css_rbm_t :=
  rbm_loop (fun i => u32 (Z.lnot (rbm_elem bitmap i))) rbm_zero.

Definition ia_css_rbm_union (bitmap0 bitmap1 : ia_css_rbm_t) : ia_css_rbm_t :=
  rbm_loop (fun i => Z.lor (rbm_elem bitmap0 i) (rbm_elem bitmap1 i)) rbm_zero.

Definition ia_css_rbm_intersection (bitmap0 bitmap1 : ia_css_rbm_t) : ia_css_rbm_t :=
  rbm_loop (fun i => Z.land (rbm_elem bitmap0 i) (rbm_elem bitmap1 i)) rbm_zero.

Definition ia_css_is_rbm_intersection_empty (bitmap0 bitmap1 : ia_css_rbm_t) : bool :=
  ia_css_is_rbm_empty (ia_css_rbm_intersection bitmap0 bitmap1).

(** The assertion on [index] is compiled out. *)
Definition ia_css_rbm_bit_mask (index : Z) : ia_css_rbm_t :=
  let bit_mask := ia_css_rbm_clear in
  if index <? IA_CSS_RBM_BITS then
    let elem_index := index / IA_CSS_RBM_ELEM_BITS in
    let elem_bit_index := index mod IA_CSS_RBM_ELEM_BITS in
    <[Z.to_nat elem_index := u32 (Z.shiftl 1 elem_bit_index)]> bit_mask
  else bit_mask.

Definition ia_css_rbm_set (bitmap : ia_css_rbm_t) (index : Z) : ia_css_rbm_t :=
  let bit_mask := ia_css_rbm_bit_mask index in
  ia_css_rbm_union bitmap bit_mask.

Definition ia_css_rbm_unset (bitmap : ia_css_rbm_t) (index : Z) : ia_css_rbm_t :=
  let result := ia_css_rbm_bit_mask index in
  let result := ia_css_rbm_complement result in
  ia_css_rbm_intersection bitmap result.

Definition ia_css_rbm_set_element_from_uint32
    (bitmap : ia_css_rbm_t) (elem_index elem_value : Z) : ia_css_rbm_t :=
  if elem_index <? Z.of_nat IA_CSS_RBM_NOF_ELEMS
  then <[Z.to_nat elem_index := elem_value]> bitmap else bitmap.

(** [MIN(nof_elems_bits64, NOF_ELEMS)] iterations. *)
Definition ia_css_rbm_create_from_uint64 (value : Z) : ia_css_rbm_t :=
  let nof_elems_bits64 := 64 / IA_CSS_RBM_ELEM_BITS in
  foldl (fun result i =>
           <[i := u32 (Z.shiftr value (Z.of_nat i * IA_CSS_RBM_ELEM_BITS))]> result)
        ia_css_rbm_clear
        (seq 0 (Nat.min (Z.to_nat nof_elems_bits64) IA_CSS_RBM_NOF_ELEMS)).

(** The second loop only asserts. *)
Definition ia_css_rbm_to_uint64 (value : ia_css_rbm_t) : Z :=
  let nof_elems_bits64 := 64 / IA_CSS_RBM_ELEM_BITS in
  foldl (fun res i =>
           Z.lor res (u64 (Z.shiftl (rbm_elem value i) (Z.of_nat i * IA_CSS_RBM_ELEM_BITS))))
        0 (seq 0 (Nat.min IA_CSS_RBM_NOF_ELEMS (Z.to_nat nof_elems_bits64))).

(** An [index] of 160 or more reads past the array: [None]. *)
Definition ia_css_is_rbm_set (bitmap : ia_css_rbm_t) (index : Z) : option Z :=
  let elem_index := index / IA_CSS_RBM_ELEM_BITS in
  let elem_bit_index := index mod IA_CSS_RBM_ELEM_BITS in
  match bitmap !! Z.to_nat elem_index with
  | Some e => Some (Z.b2z (Z.land (Z.shiftr e elem_bit_index) 1 =? 1))
  | None => None
  end.

(** [for (i = NOF_ELEMS - 1; i >= 0; i--)] with the bit carried down. *)
Definition ia_css_rbm_shift (bitmap : ia_css_rbm_t) : ia_css_rbm_t :=
  fst (foldl (fun '(loc_bitmap, lsb_previous_elem) i =>
         let lsb_current_elem := Z.land (rbm_elem bitmap i) 1 in
         (<[i := Z.lor (Z.shiftr (rbm_elem loc_bitmap i) 1)
                       (u32 (Z.shiftl lsb_previous_elem (IA_CSS_RBM_ELEM_BITS - 1)))]> loc_bitmap,
          lsb_current_elem))
       (bitmap, 0) (rev (seq 0 IA_CSS_RBM_NOF_ELEMS))).

(** [for (i = 0; (i < IA_CSS_RBM_BITS) && !empty(loc_bitmap); i++)]. *)
Fixpoint rbm_weight_loop (fuel : nat) (loc_bitmap : ia_css_rbm_t) (weight : Z) : Z :=
  match fuel with
  | O => weight
  | S n =>
      if ia_css_is_rbm_empty loc_bitmap then weight
      else match ia_css_is_rbm_set loc_bitmap 0 with
           | Some bit => rbm_weight_loop n (ia_css_rbm_shift loc_bitmap) (weight + bit)
           | None => weight
           end
  end.
Definition ia_css_rbm_compute_weight (bitmap : ia_css_rbm_t) : Z :=
  rbm_weight_loop (Z.to_nat IA_CSS_RBM_BITS) bitmap 0.

(** [x << n] of an [unsigned int]: shifting by the width or more has no
    defined result. *)
Definition shl32 (x n : Z) : option Z := if n <? 32 then Some (u32 (Z.shiftl x n)) else None.

(** [first_elem_size] counts from [index], not from [elem_bit_index]. *)
Definition ia_css_rbm_range_val (bitmap : ia_css_rbm_t) (index size : Z) : option Z :=
  let elem_index := index / IA_CSS_RBM_ELEM_BITS in
  let elem_index_end := u32 (index + size - 1) / IA_CSS_RBM_ELEM_BITS in
  let elem_bit_index := index mod IA_CSS_RBM_ELEM_BITS in
  one ← shl32 1 size;
  let mask := u32 (one - 1) in
  e ← bitmap !! Z.to_nat elem_index;
  let res := Z.land (Z.shiftr e elem_bit_index) mask in
  if elem_index =? elem_index_end then Some res
  else
    let first_elem_size := u32 (IA_CSS_RBM_ELEM_BITS - index) in
    let second_elem_size := u32 (size - first_elem_size) in
    one ← shl32 1 second_elem_size;
    let mask := u32 (one - 1) in
    e ← bitmap !! Z.to_nat elem_index_end;
    high ← shl32 (Z.land e mask) first_elem_size;
    Some (Z.lor res high).

(** A value of the C type: five 32-bit elements. *)
Definition rbm_wf (bitmap : ia_css_rbm_t) : Prop :=
  length bitmap = IA_CSS_RBM_NOF_ELEMS /\ Forall (fun x => 0 <= x < 2 ^ 32) bitmap.

(** ** Bits of elements *)

Lemma rbm_u32_bit x j : 0 <= j -> Z.testbit (u32 x) j = (j <? 32) && Z.testbit x j.
Proof.
  intros Hj. unfold u32. destruct (Z.ltb_spec j 32).
  - apply Z.mod_pow2_bits_low. lia.
  - apply Z.mod_pow2_bits_high. lia.
Qed.

(** The masks of the ranges: [size] ones. *)
Lemma range_mask size : 0 <= size < 32 -> u32 (u32 (Z.shiftl 1 size) - 1) = Z.ones size.
Proof.
  intros Hs. pose proof (Z.pow_lt_mono_r 2 size 32 ltac:(lia) ltac:(lia) ltac:(lia)).
  pose proof (Z.pow_pos_nonneg 2 size ltac:(lia) ltac:(lia)).
  rewrite Z.shiftl_1_l, Z.ones_equiv. unfold u32. rewrite (Z.mod_small (2 ^ size)) by lia.
  apply Z.mod_small. lia.
Qed.

Lemma range_mask_bit x size j :
  0 <= size -> 0 <= j ->
  Z.testbit (Z.land x (Z.ones size)) j = (j <? size) && Z.testbit x j.
Proof.
  intros Hs Hj. rewrite Z.land_spec, Z.testbit_ones_nonneg by assumption. apply andb_comm.
Qed.

Section Elems.
Context (b : list Z) (Hb : rbm_wf b).

Lemma rbm_elem_range n : 0 <= rbm_elem b n < 2 ^ 32.
Proof.
  unfold rbm_elem. destruct (b !! n) as [e |] eqn:E; cbn; [| lia].
  exact (proj1 (Forall_lookup _ b) (proj2 Hb) n e E).
Qed.

Lemma rbm_lookup n : (n < 5)%nat -> b !! n = Some (rbm_elem b n).
Proof.
  intros Hn. unfold rbm_elem. destruct (b !! n) as [e |] eqn:E; [reflexivity |].
  apply lookup_ge_None in E. rewrite (proj1 Hb) in E. unfold IA_CSS_RBM_NOF_ELEMS in E. lia.
Qed.

Lemma rbm_lookup_out n : (5 <= n)%nat -> b !! n = None.
Proof. intros Hn. apply lookup_ge_None. rewrite (proj1 Hb). exact Hn. Qed.

Lemma rbm_bit i :
  0 <= i < 160 -> kbit b i = Z.testbit (rbm_elem b (Z.to_nat (i / 32))) (i mod 32).
Proof.
  intros Hi. apply kbit_elem; [apply Hb | lia |]. apply rbm_lookup. divlia.
Qed.

Lemma rbm_bits_range : 0 <= kb_val b < 2 ^ 160.
Proof.
  destruct Hb as [Hl HF]. destruct b as [| x0 [| x1 [| x2 [| x3 [| x4 [|]]]]]]; try discriminate Hl.
  repeat match goal with H : Forall _ (_ :: _) |- _ => inversion_clear H end.
  cbn [kb_val]. lia.
Qed.

Lemma rbm_as_map : b = map (rbm_elem b) (seq 0 5).
Proof.
  destruct Hb as [Hl HF]. destruct b as [| x0 [| x1 [| x2 [| x3 [| x4 [|]]]]]]; try discriminate Hl.
  reflexivity.
Qed.

Lemma rbm_bit_out i : 160 <= i -> kbit b i = false.
Proof. intros Hi. apply (testbit_high 160); [apply rbm_bits_range | lia | lia]. Qed.
End Elems.

(** Two valid bitmaps with the same bits are the same. *)
Lemma rbm_ext a b :
  rbm_wf a -> rbm_wf b -> (forall i, 0 <= i < 160 -> kbit a i = kbit b i) -> a = b.
Proof.
  intros Ha Hb H. rewrite (rbm_as_map a Ha), (rbm_as_map b Hb). apply map_ext_in.
  intros n Hn. apply in_seq in Hn.
  apply (bits_eq_below 32); [lia | apply rbm_elem_range, Ha | apply rbm_elem_range, Hb |].
  intros j Hj. specialize (H (Z.of_nat n * 32 + j) ltac:(lia)).
  rewrite !rbm_bit in H by (assumption || lia).
  replace ((Z.of_nat n * 32 + j) / 32) with (Z.of_nat n) in H by divlia.
  replace ((Z.of_nat n * 32 + j) mod 32) with j in H by divlia.
  rewrite Nat2Z.id in H. exact H.
Qed.

Lemma rbm_loop_map f : rbm_loop f rbm_zero = map f (seq 0 5).
Proof. reflexivity. Qed.

Section Loop.
Context (f : nat -> Z) (Hf : forall n, 0 <= f n < 2 ^ 32).

Lemma rbm_loop_wf : rbm_wf (rbm_loop f rbm_zero).
Proof. split; [reflexivity |]. rewrite rbm_loop_map. repeat constructor; apply Hf. Qed.

Lemma rbm_loop_bit i :
  0 <= i < 160 ->
  kbit (rbm_loop f rbm_zero) i = Z.testbit (f (Z.to_nat (i / 32))) (i mod 32).
Proof.
  intros Hi. apply kbit_elem; [apply rbm_loop_wf | lia |].
  rewrite rbm_loop_map, list_lookup_fmap, lookup_seq_lt by divlia. reflexivity.
Qed.
End Loop.

Lemma rbm_all_spec test : rbm_all test = true <-> forall n, (n < 5)%nat -> test n = true.
Proof.
  unfold rbm_all. cbn [seq foldl IA_CSS_RBM_NOF_ELEMS]. rewrite !andb_true_iff. split.
  - intros H n Hn. destruct n as [| [| [| [| [|]]]]]; try lia; tauto.
  - intros H. repeat split; apply H; lia.
Qed.

Create HintDb rbm.
#[export] Hint Resolve rbm_elem_range u32_range rbm_loop_wf lor_below : rbm.
#[export] Hint Extern 2 (0 <= _ < 160) => lia : rbm.
#[export] Hint Extern 2 (0 <= _ < 2 ^ 32) => lia : rbm.
#[export] Hint Extern 1 (0 <= 32) => lia : rbm.

(** ** The operations on sets of positions *)

Lemma rbm_clear_wf : rbm_wf ia_css_rbm_clear.
Proof. apply rbm_loop_wf. lia. Qed.

Lemma rbm_clear_bit i : kbit ia_css_rbm_clear i = false.
Proof. apply Z.bits_0. Qed.

Lemma rbm_union_wf a b : rbm_wf a -> rbm_wf b -> rbm_wf (ia_css_rbm_union a b).
Proof. intros Ha Hb. apply rbm_loop_wf. auto with rbm. Qed.

Lemma rbm_land_range a b n :
  rbm_wf a -> rbm_wf b -> 0 <= Z.land (rbm_elem a n) (rbm_elem b n) < 2 ^ 32.
Proof.
  intros Ha Hb. apply land_below; [lia | auto with rbm |].
  apply (rbm_elem_range b Hb).
Qed.

Lemma rbm_intersection_wf a b : rbm_wf a -> rbm_wf b -> rbm_wf (ia_css_rbm_intersection a b).
Proof. intros Ha Hb. apply rbm_loop_wf. auto using rbm_land_range. Qed.

Lemma rbm_complement_wf a : rbm_wf (ia_css_rbm_complement a).
Proof. apply rbm_loop_wf. auto with rbm. Qed.

#[export] Hint Resolve rbm_clear_wf rbm_union_wf rbm_intersection_wf rbm_complement_wf : rbm.

Lemma rbm_union_bit a b i :
  rbm_wf a -> rbm_wf b -> 0 <= i < 160 -> kbit (ia_css_rbm_union a b) i = kbit a i || kbit b i.
Proof.
  intros Ha Hb Hi. unfold ia_css_rbm_union.
  rewrite rbm_loop_bit, Z.lor_spec, !rbm_bit by auto with rbm. reflexivity.
Qed.

Lemma rbm_intersection_bit a b i :
  rbm_wf a -> rbm_wf b -> 0 <= i < 160 ->
  kbit (ia_css_rbm_intersection a b) i = kbit a i && kbit b i.
Proof.
  intros Ha Hb Hi. unfold ia_css_rbm_intersection.
  rewrite rbm_loop_bit, Z.land_spec, !rbm_bit by auto using rbm_land_range. reflexivity.
Qed.

Lemma rbm_complement_bit a i :
  rbm_wf a -> 0 <= i < 160 -> kbit (ia_css_rbm_complement a) i = negb (kbit a i).
Proof.
  intros Ha Hi. unfold ia_css_rbm_complement.
  pose proof (Z.mod_pos_bound i 32 ltac:(lia)).
  rewrite rbm_loop_bit, rbm_u32_bit, Z.lnot_spec, rbm_bit by (auto with rbm || lia).
  destruct (Z.ltb_spec (i mod 32) 32); [reflexivity | lia].
Qed.

Lemma rbm_bit_mask_wf i : rbm_wf (ia_css_rbm_bit_mask i).
Proof.
  unfold ia_css_rbm_bit_mask. cbv zeta. destruct (i <? _); [| apply rbm_clear_wf].
  destruct rbm_clear_wf as [Hl HF]. split.
  - exact (eq_trans (length_insert _ _ _) Hl).
  - apply (Forall_insert (A := Z)); [exact HF | apply u32_range].
Qed.

#[export] Hint Resolve rbm_bit_mask_wf : rbm.

Lemma rbm_elem_insert b n m v :
  (n < length b)%nat -> rbm_elem (<[n := v]> b) m = if decide (n = m) then v else rbm_elem b m.
Proof.
  intros Hn. unfold rbm_elem. destruct (decide (n = m)) as [<- | Hne].
  - rewrite list_lookup_insert_eq by exact Hn. reflexivity.
  - rewrite list_lookup_insert_ne by exact Hne. reflexivity.
Qed.

(** The mask of a position in range is that position, otherwise empty. *)
Lemma rbm_bit_mask_bit i j :
  0 <= i -> 0 <= j < 160 -> kbit (ia_css_rbm_bit_mask i) j = (i =? j).
Proof.
  intros Hi Hj. pose proof (rbm_bit_mask_wf i) as Hw. unfold ia_css_rbm_bit_mask in *.
  cbv zeta in *. change IA_CSS_RBM_BITS with 160 in *. change IA_CSS_RBM_ELEM_BITS with 32 in *.
  destruct (Z.ltb_spec i 160) as [Hlt | Hge].
  - rewrite rbm_bit, rbm_elem_insert by (auto; change (length ia_css_rbm_clear) with 5%nat; divlia).
    pose proof (Z.mod_pos_bound i 32 ltac:(lia)). pose proof (Z.mod_pos_bound j 32 ltac:(lia)).
    destruct (decide (Z.to_nat (i / 32) = Z.to_nat (j / 32))) as [E | E].
    + rewrite rbm_u32_bit, Z.shiftl_1_l, pow2_bit by lia.
      replace (j mod 32 <? 32) with true by lia.
      destruct (Z.eqb_spec i j) as [-> | Hne]; [apply Z.eqb_refl |]. apply Z.eqb_neq. divlia.
    + destruct (Z.eqb_spec i j) as [-> | Hne]; [congruence |].
      change ia_css_rbm_clear with (map (fun _ : nat => 0) (seq 0 5)).
      unfold rbm_elem. rewrite list_lookup_fmap, lookup_seq_lt by divlia. apply Z.bits_0.
  - rewrite rbm_clear_bit. destruct (Z.eqb_spec i j); [lia | reflexivity].
Qed.

Lemma rbm_set_wf b i : rbm_wf b -> rbm_wf (ia_css_rbm_set b i).
Proof. intros Hb. apply rbm_union_wf; auto with rbm. Qed.

Lemma rbm_unset_wf b i : rbm_wf b -> rbm_wf (ia_css_rbm_unset b i).
Proof. intros Hb. apply rbm_intersection_wf; auto with rbm. Qed.

#[export] Hint Resolve rbm_set_wf rbm_unset_wf : rbm.

Lemma rbm_set_bit b i j :
  rbm_wf b -> 0 <= i -> 0 <= j < 160 -> kbit (ia_css_rbm_set b i) j = kbit b j || (i =? j).
Proof.
  intros Hb Hi Hj. unfold ia_css_rbm_set. cbv zeta.
  rewrite rbm_union_bit, rbm_bit_mask_bit by auto with rbm. reflexivity.
Qed.

Lemma rbm_unset_bit b i j :
  rbm_wf b -> 0 <= i -> 0 <= j < 160 ->
  kbit (ia_css_rbm_unset b i) j = kbit b j && negb (i =? j).
Proof.
  intros Hb Hi Hj. unfold ia_css_rbm_unset. cbv zeta.
  rewrite rbm_intersection_bit, rbm_complement_bit, rbm_bit_mask_bit by auto with rbm.
  reflexivity.
Qed.

Lemma rbm_is_set_bit b i :
  rbm_wf b -> 0 <= i < 160 -> ia_css_is_rbm_set b i = Some (Z.b2z (kbit b i)).
Proof.
  intros Hb Hi. unfold ia_css_is_rbm_set. cbv zeta. change IA_CSS_RBM_ELEM_BITS with 32.
  rewrite (rbm_lookup b Hb) by divlia. rewrite rbm_bit by assumption.
  rewrite land_1_b2z, Z.shiftr_spec, Z.add_0_l by lia.
  destruct (Z.testbit _ _); reflexivity.
Qed.

(** A position past the end reads past the array. *)
Lemma rbm_is_set_out b i : rbm_wf b -> 160 <= i -> ia_css_is_rbm_set b i = None.
Proof.
  intros Hb Hi. unfold ia_css_is_rbm_set. cbv zeta. change IA_CSS_RBM_ELEM_BITS with 32.
  rewrite (rbm_lookup_out b Hb) by divlia. reflexivity.
Qed.

Lemma rbm_equal_iff a b :
  rbm_wf a -> rbm_wf b -> ia_css_is_rbm_equal a b = true <-> a = b.
Proof.
  intros Ha Hb. unfold ia_css_is_rbm_equal. rewrite rbm_all_spec. split.
  - intros H. apply rbm_ext; auto. intros i Hi. rewrite !rbm_bit by assumption.
    f_equal. apply Z.eqb_eq, H. divlia.
  - intros -> n _. apply Z.eqb_refl.
Qed.

Lemma rbm_empty_iff a : rbm_wf a -> ia_css_is_rbm_empty a = true <-> a = ia_css_rbm_clear.
Proof.
  intros Ha. rewrite <- rbm_equal_iff by auto with rbm.
  unfold ia_css_is_rbm_equal, ia_css_is_rbm_empty. rewrite !rbm_all_spec.
  split; intros H n Hn; specialize (H n Hn);
    destruct n as [| [| [| [| [|]]]]]; try lia; exact H.
Qed.

Lemma rbm_empty_bits a :
  rbm_wf a -> ia_css_is_rbm_empty a = true <-> forall i, 0 <= i < 160 -> kbit a i = false.
Proof.
  intros Ha. rewrite rbm_empty_iff by exact Ha. split.
  - intros -> i _. apply rbm_clear_bit.
  - intros H. apply rbm_ext; auto with rbm. intros i Hi. rewrite H, rbm_clear_bit by exact Hi.
    reflexivity.
Qed.

(** The test of every element is the test of the intersection. *)
Lemma rbm_subset_equal a b :
  ia_css_is_rbm_subset a b = ia_css_is_rbm_equal (ia_css_rbm_intersection a b) b.
Proof. reflexivity. Qed.

Lemma rbm_subset_iff a b :
  rbm_wf a -> rbm_wf b ->
  ia_css_is_rbm_subset a b = true
  <-> forall i, 0 <= i < 160 -> kbit b i = true -> kbit a i = true.
Proof.
  intros Ha Hb. rewrite rbm_subset_equal, rbm_equal_iff by auto with rbm. split.
  - intros E i Hi Hbi. rewrite <- E, rbm_intersection_bit in Hbi by assumption.
    apply andb_true_iff in Hbi. apply Hbi.
  - intros H. apply rbm_ext; auto with rbm. intros i Hi.
    rewrite rbm_intersection_bit by assumption. specialize (H i Hi).
    destruct (kbit b i); [rewrite H by reflexivity; reflexivity | apply andb_false_r].
Qed.

Lemma rbm_disjoint_iff a b :
  rbm_wf a -> rbm_wf b ->
  ia_css_is_rbm_intersection_empty a b = true
  <-> forall i, 0 <= i < 160 -> kbit a i && kbit b i = false.
Proof.
  intros Ha Hb. unfold ia_css_is_rbm_intersection_empty.
  rewrite rbm_empty_bits by auto with rbm.
  split; intros H i Hi; specialize (H i Hi); rewrite rbm_intersection_bit in *; auto.
Qed.

(** ** Shift, weight and conversions *)

Lemma rbm_shift_map b :
  rbm_wf b ->
  ia_css_rbm_shift b =
  map (fun n => Z.lor (Z.shiftr (rbm_elem b n) 1)
                      (u32 (Z.shiftl (Z.land (rbm_elem b (S n)) 1) 31))) (seq 0 5).
Proof. intros Hb. rewrite (rbm_as_map b Hb). reflexivity. Qed.

Lemma rbm_shift_range b n :
  rbm_wf b ->
  0 <= Z.lor (Z.shiftr (rbm_elem b n) 1) (u32 (Z.shiftl (Z.land (rbm_elem b (S n)) 1) 31))
     < 2 ^ 32.
Proof.
  intros Hb. apply lor_below; [lia | | apply u32_range].
  pose proof (rbm_elem_range b Hb n). rewrite Z.shiftr_div_pow2 by lia.
  change (2 ^ 1) with 2. divlia.
Qed.

Lemma rbm_shift_wf b : rbm_wf b -> rbm_wf (ia_css_rbm_shift b).
Proof.
  intros Hb. rewrite rbm_shift_map by exact Hb. split; [reflexivity |].
  cbn [map seq]. repeat constructor; apply (rbm_shift_range b _ Hb).
Qed.

#[export] Hint Resolve rbm_shift_wf : rbm.

(** The shift moves position [i + 1] to [i]. *)
Lemma rbm_shift_bit b i :
  rbm_wf b -> 0 <= i < 160 -> kbit (ia_css_rbm_shift b) i = kbit b (i + 1).
Proof.
  intros Hb Hi. pose proof (Z.mod_pos_bound i 32 ltac:(lia)) as Hm.
  rewrite (kbit_elem _ i (Z.lor (Z.shiftr (rbm_elem b (Z.to_nat (i / 32))) 1)
      (u32 (Z.shiftl (Z.land (rbm_elem b (S (Z.to_nat (i / 32)))) 1) 31))));
    [| apply rbm_shift_wf, Hb | lia |].
  2: { rewrite rbm_shift_map, list_lookup_fmap, lookup_seq_lt by (auto || divlia). reflexivity. }
  rewrite Z.lor_spec, Z.shiftr_spec, rbm_u32_bit, Z.shiftl_spec, land_1_b2z by lia.
  replace (i mod 32 <? 32) with true by lia. rewrite andb_true_l.
  destruct (Z.eq_dec (i mod 32) 31) as [E | E].
  - rewrite E, (testbit_high 32) by (apply (rbm_elem_range b Hb) || lia).
    change (Z.testbit (Z.b2z ?x) (31 - 31)) with (Z.testbit (Z.b2z x) 0). rewrite Z.b2z_bit0, orb_false_l.
    destruct (Z.eq_dec i 159) as [-> | Hne].
    + rewrite rbm_bit_out by (auto || lia). unfold rbm_elem.
      rewrite (rbm_lookup_out b Hb) by (change (Z.to_nat (159 / 32)) with 4%nat; lia). reflexivity.
    + rewrite rbm_bit by (auto || lia).
      replace (Z.to_nat ((i + 1) / 32)) with (S (Z.to_nat (i / 32))) by divlia.
      replace ((i + 1) mod 32) with 0 by divlia. reflexivity.
  - rewrite (Z.testbit_neg_r _ (i mod 32 - 31)), orb_false_r by lia.
    rewrite rbm_bit by (auto || divlia).
    replace ((i + 1) / 32) with (i / 32) by divlia.
    replace ((i + 1) mod 32) with (i mod 32 + 1) by divlia. reflexivity.
Qed.

Lemma rbm_shift_val b : rbm_wf b -> kb_val (ia_css_rbm_shift b) = kb_val b / 2.
Proof.
  intros Hb. pose proof (rbm_bits_range b Hb).
  apply (bits_eq_below 160); [lia | apply rbm_bits_range; auto with rbm | divlia |].
  intros i Hi. replace (kb_val b / 2) with (kb_val b / 2 ^ 1) by reflexivity.
  rewrite Z.div_pow2_bits by lia.
  apply rbm_shift_bit; assumption.
Qed.

Lemma rbm_empty_val b : rbm_wf b -> ia_css_is_rbm_empty b = (kb_val b =? 0).
Proof.
  intros Hb. apply eq_bool_prop_intro. rewrite !Is_true_true, rbm_empty_bits, Z.eqb_eq by exact Hb.
  split.
  - intros H. apply (bits_eq_below 160); [lia | apply rbm_bits_range, Hb | lia |].
    intros i Hi. rewrite Z.bits_0. apply H, Hi.
  - intros E i _. unfold kbit. rewrite E. apply Z.bits_0.
Qed.

(** The counting loop, at any point: the bits still to come. *)
Lemma rbm_weight_loop_popcount n b w :
  rbm_wf b -> kb_val b < 2 ^ Z.of_nat n -> rbm_weight_loop n b w = w + popcount n (kb_val b).
Proof.
  revert b w. induction n as [| n IH]; intros b w Hb Hn; [cbn; lia |].
  cbn [rbm_weight_loop popcount]. rewrite rbm_empty_val by exact Hb.
  pose proof (rbm_bits_range b Hb).
  destruct (Z.eqb_spec (kb_val b) 0) as [E | E].
  - rewrite E. change (Z.shiftr 0 1) with 0. rewrite popcount_0. cbn. lia.
  - rewrite rbm_is_set_bit by (auto; lia). rewrite IH; [| auto with rbm |].
    + rewrite rbm_shift_val by exact Hb. rewrite Z.shiftr_div_pow2 by lia.
      unfold kbit. change (2 ^ 1) with 2. lia.
    + rewrite rbm_shift_val by exact Hb. rewrite Nat2Z.inj_succ, Z.pow_succ_r in Hn by lia.
      apply Z.div_lt_upper_bound; lia.
Qed.

Lemma rbm_weight_val b :
  rbm_wf b -> ia_css_rbm_compute_weight b = popcount 160 (kb_val b).
Proof.
  intros Hb. unfold ia_css_rbm_compute_weight.
  change (Z.to_nat IA_CSS_RBM_BITS) with 160%nat.
  rewrite rbm_weight_loop_popcount; [reflexivity | exact Hb |]. apply rbm_bits_range, Hb.
Qed.

Lemma rbm_from_uint64_wf v : rbm_wf (ia_css_rbm_create_from_uint64 v).
Proof. split; [reflexivity |]. repeat constructor; apply u32_range || lia. Qed.

Lemma rbm_from_uint64_val v :
  0 <= v < 2 ^ 64 -> kb_val (ia_css_rbm_create_from_uint64 v) = v.
Proof.
  intros Hv.
  change (ia_css_rbm_create_from_uint64 v) with [u32 (Z.shiftr v 0); u32 (Z.shiftr v 32); 0; 0; 0].
  rewrite Z.shiftr_0_r, Z.shiftr_div_pow2 by lia. unfold u32. cbn [kb_val]. divlia.
Qed.

Lemma rbm_to_uint64_bit b j :
  rbm_wf b -> 0 <= j -> Z.testbit (ia_css_rbm_to_uint64 b) j = (j <? 64) && kbit b j.
Proof.
  intros Hb Hj. unfold ia_css_rbm_to_uint64.
  change (Nat.min IA_CSS_RBM_NOF_ELEMS (Z.to_nat (64 / IA_CSS_RBM_ELEM_BITS))) with 2%nat.
  cbn [seq foldl]. rewrite Z.lor_0_l. change (Z.of_nat 0 * IA_CSS_RBM_ELEM_BITS) with 0.
  change (Z.of_nat 1 * IA_CSS_RBM_ELEM_BITS) with 32. unfold u64.
  rewrite Z.lor_spec. destruct (Z.ltb_spec j 64) as [Hlt | Hge].
  - rewrite !Z.mod_pow2_bits_low, !Z.shiftl_spec, Z.sub_0_r by lia.
    rewrite andb_true_l, rbm_bit by (auto || lia).
    destruct (Z.lt_ge_cases j 32) as [H32 | H32].
    + rewrite (Z.testbit_neg_r _ (j - 32)), orb_false_r by lia.
      rewrite Z.div_small, Z.mod_small by lia. reflexivity.
    + rewrite (testbit_high 32) by (apply (rbm_elem_range b Hb) || lia).
      replace (j / 32) with 1 by divlia. replace (j mod 32) with (j - 32) by divlia. reflexivity.
  - rewrite !Z.mod_pow2_bits_high by lia. reflexivity.
Qed.

Lemma rbm_to_uint64_val b : rbm_wf b -> ia_css_rbm_to_uint64 b = kb_val b mod 2 ^ 64.
Proof.
  intros Hb. apply Z.bits_inj'. intros j Hj. rewrite rbm_to_uint64_bit by assumption.
  destruct (Z.ltb_spec j 64).
  - rewrite Z.mod_pow2_bits_low by lia. reflexivity.
  - rewrite Z.mod_pow2_bits_high by lia. reflexivity.
Qed.

(** ** Ranges of bits *)

(** What a range is to be: bit [j] of the result is position [index + j]. *)
Definition range_bits (b : ia_css_rbm_t) (index size res : Z) : Prop :=
  forall j, 0 <= j -> Z.testbit res j = (j <? size) && kbit b (index + j).

Lemma shl32_small x n : 0 <= n < 32 -> shl32 x n = Some (u32 (Z.shiftl x n)).
Proof. intros Hn. unfold shl32. replace (n <? 32) with true by lia. reflexivity. Qed.

Lemma shl32_over x n : 32 <= n -> shl32 x n = None.
Proof. intros Hn. unfold shl32. replace (n <? 32) with false by lia. reflexivity. Qed.

(** A range inside of one element. *)
Lemma range_val_inside b index size :
  rbm_wf b -> 0 <= index -> 0 < size < 32 -> index + size <= 160 ->
  index mod 32 + size <= 32 ->
  exists res, ia_css_rbm_range_val b index size = Some res /\ range_bits b index size res.
Proof.
  intros Hb Hi Hs He Hin. exists (Z.land (Z.shiftr (rbm_elem b (Z.to_nat (index / 32))) (index mod 32))
                                      (Z.ones size)). split.
  - unfold ia_css_rbm_range_val. cbv zeta. change IA_CSS_RBM_ELEM_BITS with 32.
    rewrite (shl32_small 1 size) by lia. cbn [mbind option_bind]. rewrite range_mask by lia.
    rewrite (rbm_lookup b Hb (Z.to_nat (index / 32))) by divlia. cbn [mbind option_bind].
    replace (index / 32 =? u32 (index + size - 1) / 32) with true; [reflexivity |].
    symmetry. unfold u32. rewrite Z.mod_small by lia. divlia.
  - intros j Hj. rewrite range_mask_bit by lia. destruct (Z.ltb_spec j size); [| reflexivity].
    rewrite Z.shiftr_spec, rbm_bit by (auto || lia).
    replace ((index + j) / 32) with (index / 32) by divlia.
    replace ((index + j) mod 32) with (j + index mod 32) by divlia. reflexivity.
Qed.

(** A range that goes from the first element into the second. *)
Lemma range_val_first b index size :
  rbm_wf b -> 0 <= index < 32 -> 0 < size < 32 -> 32 < index + size ->
  exists res, ia_css_rbm_range_val b index size = Some res /\ range_bits b index size res.
Proof.
  intros Hb Hi Hs He.
  exists (Z.lor (Z.land (Z.shiftr (rbm_elem b 0) index) (Z.ones size))
     (u32 (Z.shiftl (Z.land (rbm_elem b 1) (Z.ones (size - (32 - index)))) (32 - index)))). split.
  - unfold ia_css_rbm_range_val. cbv zeta. change IA_CSS_RBM_ELEM_BITS with 32.
    assert (E1 : u32 (index + size - 1) / 32 = 1).
    { unfold u32. rewrite Z.mod_small by lia. divlia. }
    assert (E2 : u32 (32 - index) = 32 - index) by (apply Z.mod_small; lia).
    assert (E3 : u32 (size - (32 - index)) = size - (32 - index)) by (apply Z.mod_small; lia).
    rewrite E1, E2, E3, (Z.div_small index), (Z.mod_small index) by lia.
    rewrite !shl32_small by lia. cbn [mbind option_bind]. rewrite !range_mask by lia.
    rewrite !(rbm_lookup b Hb) by lia. cbn [mbind option_bind Z.eqb].
    rewrite shl32_small by lia. reflexivity.
  - intros j Hj. rewrite Z.lor_spec, range_mask_bit, Z.shiftr_spec, rbm_u32_bit, Z.shiftl_spec by lia.
    destruct (Z.lt_ge_cases (index + j) 32) as [Hlt | Hge].
    + rewrite (Z.testbit_neg_r _ (j - (32 - index))), andb_false_r, orb_false_r, rbm_bit by (auto || lia).
      rewrite Z.div_small, Z.mod_small, (Z.add_comm j) by lia. reflexivity.
    + rewrite (testbit_high 32 _ (j + index)) by (apply (rbm_elem_range b Hb) || lia).
      rewrite andb_false_r, orb_false_l, range_mask_bit by lia.
      destruct (Z.ltb_spec j size) as [Hjs | Hjs].
      * replace (j <? 32) with true by lia. replace (j - (32 - index) <? size - (32 - index)) with true by lia.
        rewrite rbm_bit by (auto || lia).
        replace ((index + j) / 32) with 1 by divlia.
        replace ((index + j) mod 32) with (j - (32 - index)) by divlia. reflexivity.
      * replace (j - (32 - index) <? size - (32 - index)) with false by lia. apply andb_false_r.
Qed.

(** A range that leaves an element but the first is shifted by a wrapped
    number. *)
Lemma range_val_later b index size :
  rbm_wf b -> 32 <= index -> 0 < size < 32 -> index + size <= 160 ->
  32 < index mod 32 + size -> ia_css_rbm_range_val b index size = None.
Proof.
  intros Hb Hi Hs He Hout. unfold ia_css_rbm_range_val. cbv zeta.
  change IA_CSS_RBM_ELEM_BITS with 32.
  rewrite (shl32_small 1 size) by lia. cbn [mbind option_bind].
  rewrite (rbm_lookup b Hb (Z.to_nat (index / 32))) by divlia. cbn [mbind option_bind].
  replace (index / 32 =? u32 (index + size - 1) / 32) with false.
  2: { symmetry. unfold u32. rewrite Z.mod_small by lia. divlia. }
  assert (E : u32 (32 - index) = 2 ^ 32 + 32 - index) by (unfold u32; divlia).
  rewrite E, (shl32_over 1); [reflexivity |].
  assert (E2 : u32 (size - (2 ^ 32 + 32 - index)) = size + index - 32) by (unfold u32; divlia).
  rewrite E2. divlia.
Qed.

(** ** Theorems *)

(** The operations are the set operations on the positions 0..159: every
    result is a valid bitmap, its members are those of the set operation, and
    the tests (empty, equal, subset, disjoint) decide the corresponding
    relation between the sets. *)
Theorem rbm_set_algebra a b :
  rbm_wf a -> rbm_wf b ->
  (rbm_wf (ia_css_rbm_union a b)
   /\ rbm_wf (ia_css_rbm_intersection a b)
   /\ rbm_wf (ia_css_rbm_complement a))
  /\ (forall i, 0 <= i < 160 ->
        kbit (ia_css_rbm_union a b) i = kbit a i || kbit b i
        /\ kbit (ia_css_rbm_intersection a b) i = kbit a i && kbit b i
        /\ kbit (ia_css_rbm_complement a) i = negb (kbit a i))
  /\ (ia_css_is_rbm_empty a = true <-> a = ia_css_rbm_clear)
  /\ (ia_css_is_rbm_equal a b = true <-> a = b)
  /\ (ia_css_is_rbm_subset a b = true
      <-> forall i, 0 <= i < 160 -> kbit b i = true -> kbit a i = true)
  /\ (ia_css_is_rbm_intersection_empty a b = true
      <-> forall i, 0 <= i < 160 -> kbit a i && kbit b i = false).
Proof.
  intros Ha Hb. split; [auto with rbm |]. split.
  { intros i Hi. rewrite rbm_union_bit, rbm_intersection_bit, rbm_complement_bit by assumption.
    auto. }
  auto using rbm_empty_iff, rbm_equal_iff, rbm_subset_iff, rbm_disjoint_iff.
Qed.

Lemma rbm_set_algebra_witness :
  ia_css_is_rbm_subset [7; 0; 0; 1; 2] [5; 0; 0; 1; 2] = true.
Proof.
  apply (rbm_set_algebra [7; 0; 0; 1; 2] [5; 0; 0; 1; 2]);
    [split; [reflexivity | repeat constructor; lia]
    | split; [reflexivity | repeat constructor; lia] |].
  intros i Hi. change [7; 0; 0; 1; 2] with (ia_css_rbm_set [5; 0; 0; 1; 2] 1).
  intros H. rewrite rbm_set_bit, H by ((split; [reflexivity | repeat constructor; lia]) || lia).
  reflexivity.
Defined.

(** Setting or clearing position [i] and then asking about position [j]
    answers the new state for [j = i] and the old one for every other [j];
    an index of 160 or more changes nothing, and asking about it reads past
    the array. *)
Theorem rbm_set_unset_lookup b i j :
  rbm_wf b -> 0 <= i -> 0 <= j < 160 ->
  ia_css_is_rbm_set (ia_css_rbm_set b i) j
  = (if i =? j then Some 1 else ia_css_is_rbm_set b j)
  /\ ia_css_is_rbm_set (ia_css_rbm_unset b i) j
     = (if i =? j then Some 0 else ia_css_is_rbm_set b j)
  /\ (160 <= i -> ia_css_rbm_set b i = b /\ ia_css_rbm_unset b i = b
                  /\ ia_css_is_rbm_set b i = None).
Proof.
  intros Hb Hi Hj. rewrite !rbm_is_set_bit, rbm_set_bit, rbm_unset_bit by auto with rbm.
  split; [destruct (i =? j); [rewrite orb_true_r | rewrite orb_false_r]; reflexivity |].
  split; [destruct (i =? j); [rewrite andb_false_r | rewrite andb_true_r]; reflexivity |].
  intros Hge. split; [| split; [| apply rbm_is_set_out; assumption]].
  - apply rbm_ext; auto with rbm. intros k Hk. rewrite rbm_set_bit by auto.
    replace (i =? k) with false by lia. apply orb_false_r.
  - apply rbm_ext; auto with rbm. intros k Hk. rewrite rbm_unset_bit by auto.
    replace (i =? k) with false by lia. apply andb_true_r.
Qed.

Lemma rbm_set_unset_lookup_witness :
  ia_css_is_rbm_set (ia_css_rbm_set [1; 0; 0; 0; 0] 130) 130 = Some 1.
Proof.
  apply (rbm_set_unset_lookup [1; 0; 0; 0; 0] 130 130);
    [split; [reflexivity | repeat constructor; lia] | lia | lia].
Defined.

(** The weight is the number of members whatever the bitmap, and the
    counting loop ends within its 160 turns. *)
Theorem rbm_weight_counts b :
  rbm_wf b ->
  ia_css_rbm_compute_weight b = popcount 160 (kb_val b)
  /\ (forall i, 0 <= i < 160 -> kbit (ia_css_rbm_shift b) i = kbit b (i + 1))
  /\ (ia_css_rbm_compute_weight b = 0 <-> ia_css_is_rbm_empty b = true).
Proof.
  intros Hb. split; [apply rbm_weight_val, Hb |].
  split; [intros i Hi; apply rbm_shift_bit; assumption |].
  rewrite rbm_weight_val, rbm_empty_val, Z.eqb_eq by exact Hb.
  apply popcount_0_iff, rbm_bits_range, Hb.
Qed.

Lemma rbm_weight_counts_witness :
  ia_css_rbm_compute_weight [3; 0; 2147483648; 1; 5] = popcount 160 (kb_val [3; 0; 2147483648; 1; 5]).
Proof.
  apply (rbm_weight_counts [3; 0; 2147483648; 1; 5]).
  split; [reflexivity | repeat constructor; lia].
Defined.

(** A 64-bit value survives the trip through a bitmap, and the trip
    back keeps exactly the positions 0..63. *)
Theorem rbm_uint64_roundtrip v b :
  0 <= v < 2 ^ 64 -> rbm_wf b ->
  ia_css_rbm_to_uint64 (ia_css_rbm_create_from_uint64 v) = v
  /\ (forall j, 0 <= j -> Z.testbit (ia_css_rbm_to_uint64 b) j = (j <? 64) && kbit b j).
Proof.
  intros Hv Hb. split; [| intros j Hj; apply rbm_to_uint64_bit; assumption].
  rewrite rbm_to_uint64_val, rbm_from_uint64_val by auto using rbm_from_uint64_wf.
  apply Z.mod_small, Hv.
Qed.

Lemma rbm_uint64_roundtrip_witness :
  ia_css_rbm_to_uint64 (ia_css_rbm_create_from_uint64 81985529216486895) = 81985529216486895.
Proof.
  apply (rbm_uint64_roundtrip 81985529216486895 [0; 0; 0; 0; 0]);
    [lia | split; [reflexivity | repeat constructor; lia]].
Defined.

(** Reading a range of up to 31 positions answers just these bits when the
    range lies within one element or starts in the first one.  A range that
    leaves a later element has no defined result: the size of its first part
    is counted from the start of the bitmap and wraps. *)
Theorem range_val_reads b index size :
  rbm_wf b -> 0 <= index -> 0 < size < 32 -> index + size <= 160 ->
  if decide (index < 32 \/ index mod 32 + size <= 32)
  then exists res, ia_css_rbm_range_val b index size = Some res /\ range_bits b index size res
  else ia_css_rbm_range_val b index size = None.
Proof.
  intros Hb Hi Hs He. destruct (decide _) as [H | H].
  - destruct (Z.le_gt_cases (index mod 32 + size) 32).
    + apply range_val_inside; assumption.
    + destruct H; [| lia]. rewrite Z.mod_small in * by lia. apply range_val_first; auto; lia.
  - apply range_val_later; auto; lia.
Qed.

Lemma range_val_reads_witness :
  ia_css_rbm_range_val [2147483648; 1; 2147483648; 1; 0] 31 2 = Some 3
  /\ ia_css_rbm_range_val [2147483648; 1; 2147483648; 1; 0] 95 2 = None.
Proof.
  split; [reflexivity |].
  apply (range_val_reads [2147483648; 1; 2147483648; 1; 0] 95 2);
    [split; [reflexivity | repeat constructor; lia] | lia | lia | lia].
Defined.
