(* ===== verification/LensControl.v ===== *)
(** * Lens control

    src/core/LensHw.cpp: the lens sub-device and its focus controls.
    src/3a/LensManager.cpp: focus positions, set at once for automatic focus
    and at the start of their frame for manual focus.  Dereferencing an
    iterator of an erased entry is [None]. *)

From Stdlib Require Import String QArith.
From S2P Require Import Prelude Errors OrderedMap V4l2Device.
From stdpp Require Import list gmap.
#[local] Open Scope Z_scope.
Import Subdevice.

(** ** The lens *)

Definition V4L2_CID_CAMERA_CLASS_BASE : Z := 10094848.
Definition V4L2_CID_FOCUS_ABSOLUTE : Z := V4L2_CID_CAMERA_CLASS_BASE + 10.
Definition V4L2_CID_FOCUS_RELATIVE : Z := V4L2_CID_CAMERA_CLASS_BASE + 11.
Definition V4L2_CID_AUTO_FOCUS_START : Z := V4L2_CID_CAMERA_CLASS_BASE + 28.
Definition V4L2_CID_AUTO_FOCUS_STOP : Z := V4L2_CID_CAMERA_CLASS_BASE + 29.
Definition V4L2_CID_AUTO_FOCUS_STATUS : Z := V4L2_CID_CAMERA_CLASS_BASE + 30.
Definition V4L2_CID_AUTO_FOCUS_RANGE : Z := V4L2_CID_CAMERA_CLASS_BASE + 31.

Definition LENS_VCM_HW : Z := 0.
Definition LENS_NONE_HW : Z := 1.

(** What is used of the platform's configuration, the factory of devices and
    the clock. *)
Class LensPlatform (K : Type) := {
  getLensName : string;
  getLensHwType : Z;
  getSubDeviceName : string -> K -> string;
  getSubDev : string -> K -> option V4L2Subdevice * K;
  releaseSubDev : string -> K -> K;
  clock_gettime : K -> (Z * Z) * K;
}.

Record LensHw := Lens {
  mLensSubdev : option V4L2Subdevice;
  mLensName : string;
  mLastLensPosition : Z;
  mLensMovementStartTime : Z;
}.

Definition new_LensHw : LensHw := Lens None EmptyString 0 0.

Definition isLensSubdevAvailable (h : LensHw) : bool := bool_decide (mLensSubdev h <> None).

Module Focus.
Section Focus.
Context {K : Type} `{Kernel K} `{LensPlatform K}.
Implicit Types (h : LensHw) (k : K).

Definition is_empty (s : string) : bool := bool_decide (s = EmptyString).

Definition start h k : Z * LensHw * K :=
  let lensName := getLensName in
  if is_empty lensName then (OK, h, k) else
  let subDevName := getSubDeviceName lensName k in
  if is_empty subDevName then (OK, h, k) else
  let '(sub, k) := getSubDev subDevName k in
  (OK, Lens sub lensName (mLastLensPosition h) (mLensMovementStartTime h), k).

Definition stop h k : LensHw * K :=
  match mLensSubdev h with
  | None => (h, k)
  | Some _ =>
      let subDevName := getSubDeviceName (mLensName h) k in
      if is_empty subDevName then (h, k)
      else (Lens None (mLensName h) (mLastLensPosition h) (mLensMovementStartTime h), releaseSubDev subDevName k)
  end.

(** Position and time are kept before the control is set. *)
Definition setFocusPosition (position : Z) h k : Z * LensHw * K :=
  match mLensSubdev h with
  | None => (NO_INIT, h, k)
  | Some sub =>
      let '((tv_sec, tv_nsec), k) := clock_gettime k in
      let h := Lens (mLensSubdev h) (mLensName h) position (u64 (tv_sec * 1000000 + Z.quot tv_nsec 1000)) in
      let '(ret, k) := SetControl V4L2_CID_FOCUS_ABSOLUTE position (dev sub) k in (ret, h, k)
  end.

Definition set_focus_control (cid value : Z) h k : Z * K :=
  match mLensSubdev h with None => (NO_INIT, k) | Some sub => SetControl cid value (dev sub) k end.

(** The second result is what the reference is set to, if it is. *)
Definition get_focus_control (cid : Z) h k : Z * option Z * K :=
  match mLensSubdev h with None => (NO_INIT, None, k) | Some sub => GetControl cid (dev sub) k end.

Definition setFocusStep (steps : Z) h k := set_focus_control V4L2_CID_FOCUS_RELATIVE steps h k.
Definition getFocusPosition h k := get_focus_control V4L2_CID_FOCUS_ABSOLUTE h k.
Definition startAutoFocus h k := set_focus_control V4L2_CID_AUTO_FOCUS_START 1 h k.
Definition stopAutoFocus h k := set_focus_control V4L2_CID_AUTO_FOCUS_STOP 0 h k.
Definition getAutoFocusStatus h k := get_focus_control V4L2_CID_AUTO_FOCUS_STATUS h k.
Definition setAutoFocusRange (value : Z) h k := set_focus_control V4L2_CID_AUTO_FOCUS_RANGE value h k.
Definition getAutoFocusRange h k := get_focus_control V4L2_CID_AUTO_FOCUS_RANGE h k.

Definition getLatestPosition h : Z * (Z * Z) := (OK, (mLastLensPosition h, mLensMovementStartTime h)).
End Focus.
End Focus.

(** ** The manager *)

(** [mDcIrisCommand] is only ever set to one value and not read. *)
Record LensManager := Manager {
  mFocusPosition : Z;
  mSeqToPositionMap : gmap Z Z;
  mLastSofSequence : Z;
}.

Definition AF_MODE_OFF : Z := 0.

(** The members of [aiq_parameter_t] that are read. *)
Record focus_settings := FocusSettings { afMode : Z; focusDistance : Q }.

Section LensManager.
Context {K : Type} `{Kernel K} `{LensPlatform K}.
Implicit Types (s : LensManager) (h : LensHw) (k : K) (m : gmap Z Z).

Definition set_positions m s := Manager (mFocusPosition s) m (mLastSofSequence s).

Definition new_LensManager : LensManager := Manager (-1) ∅ (-1).

(** The map is kept. *)
Definition start s : Z * LensManager := (OK, Manager (-1) (mSeqToPositionMap s) (-1)).

Definition stop s : Z * LensManager := (OK, s).

Definition setFocusPosition (focusPosition : Z) s h k : LensManager * LensHw * K :=
  if mFocusPosition s =? focusPosition then (s, h, k) else
  let '(ret, h, k) := Focus.setFocusPosition focusPosition h k in
  (if ret =? OK then Manager focusPosition (mSeqToPositionMap s) (mLastSofSequence s) else s, h, k).

(** The loop after a frame start.  What is compared and erased is the
    position of the entry, [it->second]; incrementing the iterator of an
    erased entry is [None], and so is running out of fuel. *)
Fixpoint remove_previous (fuel : nat) (it : option Z) (last : Z) m : option (gmap Z Z) :=
  match it, fuel with
  | None, _ => Some m
  | Some _, O => None
  | Some key, S fuel =>
      second ← m !! key;
      if second <=? last then
        let m := delete second m in
        _ ← m !! key;
        remove_previous fuel (upper_bound m key) last m
      else Some m
  end.

Definition handleSofEvent (is_sof : bool) (seq : Z) s h k : option (LensManager * LensHw * K) :=
  if negb is_sof then Some (s, h, k) else
  let s := Manager (mFocusPosition s) (mSeqToPositionMap s) seq in
  let '(s, h, k) := match mSeqToPositionMap s !! seq with
                    | Some position =>
                        let '(s, h, k) := setFocusPosition position s h k in
                        (set_positions (delete seq (mSeqToPositionMap s)) s, h, k)
                    | None => (s, h, k)
                    end in
  let m := mSeqToPositionMap s in
  m ← remove_previous (size m) (begin m) (mLastSofSequence s) m;
  Some (set_positions m s, h, k).

Definition is_manual (p : focus_settings) : bool := (afMode p =? AF_MODE_OFF) && negb (Qle_bool (focusDistance p) 0).

Definition setLensResult (next_lens_position sequence : Z) (aiqParam : focus_settings) s h k : Z * LensManager * LensHw * K :=
  if negb (isLensSubdevAvailable h) || (next_lens_position =? 0) then (OK, s, h, k) else
  if getLensHwType =? LENS_VCM_HW then
    if is_manual aiqParam
    then (OK, set_positions (<[sequence := next_lens_position]> (mSeqToPositionMap s)) s, h, k)
    else if bool_decide (mSeqToPositionMap s <> ∅) then (OK, s, h, k)
    else let '(s, h, k) := setFocusPosition next_lens_position s h k in (OK, s, h, k)
  else (OK, s, h, k).

(** The second result is what [lensPosition] and the start of its movement are
    set to, if they are. *)
Definition getLensInfo h : option (Z * Z) :=
  if getLensHwType =? LENS_VCM_HW then Some (snd (Focus.getLatestPosition h)) else None.

(** A run of frame starts. *)
Fixpoint run_sofs (seqs : list Z) s h k : option (LensManager * LensHw * K) :=
  match seqs with
  | [] => Some (s, h, k)
  | seq :: rest => '(s, h, k) ← handleSofEvent true seq s h k; run_sofs rest s h k
  end.
End LensManager.

(** ** The loop over earlier positions *)

(** The entries from [key] on. *)
Definition entries_from (m : gmap Z Z) (key : Z) : nat := size (filter (fun e => key <= e.1) m).

Lemma entries_next m key key' :
  is_Some (m !! key) -> key < key' -> (entries_from m key' < entries_from m key)%nat.
Proof.
  intros [x Hx] Hlt. unfold entries_from. apply map_subset_size. split.
  - apply map_filter_subseteq_ext. intros i y _ Hk. cbn in *. lia.
  - intros Hsub. assert (Hf : filter (fun e => key <= e.1) m !! key = Some x)
      by (apply map_lookup_filter_Some; split; [done|cbn; lia]).
    eapply lookup_weaken in Hf; [|exact Hsub]. apply map_lookup_filter_Some in Hf as [_ Hf]. cbn in Hf. lia.
Qed.

Lemma entries_subset m m' key : m' ⊆ m -> (entries_from m' key <= entries_from m key)%nat.
Proof. intros Hs. apply map_subseteq_size, map_filter_subseteq_mono, Hs. Qed.

Lemma entries_pos m key : is_Some (m !! key) -> (1 <= entries_from m key)%nat.
Proof. intros Hk. pose proof (entries_next m key (key + 1) Hk ltac:(lia)). lia. Qed.

(** With an entry for every turn, the loop ends with the entries of later
    frames untouched, unless an entry has its own frame as its position. *)
Lemma remove_previous_later fuel it last (m : gmap Z Z) :
  match it with Some key => is_Some (m !! key) /\ (entries_from m key <= fuel)%nat | None => True end ->
  (forall key, m !! key = Some key -> last < key) ->
  exists m', remove_previous fuel it last m = Some m' /\ m' ⊆ m /\ forall key, last < key -> m' !! key = m !! key.
Proof.
  revert it m. induction fuel as [|n IH]; intros [key|] m Hit Hown; try (exists m; done).
  { destruct Hit as [Hk Hf]. pose proof (entries_pos m key Hk). lia. }
  destruct Hit as [[p Hp] Hf]. cbn [remove_previous]. rewrite Hp. cbn [mbind option_bind].
  destruct (Z.leb_spec p last) as [Hle|Hgt]; [|exists m; done].
  assert (Hne : p <> key) by (intros ->; specialize (Hown key Hp); lia).
  rewrite lookup_delete_ne, Hp by done. cbn [mbind option_bind].
  destruct (IH (upper_bound (delete p m) key) (delete p m)) as (m' & E & Hs & Hl).
  - destruct (upper_bound _ key) as [k1|] eqn:Hu; [|done].
    apply upper_bound_spec in Hu as (H1 & H2 & _). split; [done|].
    pose proof (entries_subset m (delete p m) k1 (delete_subseteq m p)).
    pose proof (entries_next m key k1 (mk_is_Some _ _ Hp) H2). lia.
  - intros j Hj. apply Hown. by apply lookup_delete_Some in Hj as [_ ?].
  - exists m'. split; [done|]. split; [etrans; [done|apply delete_subseteq]|].
    intros j Hj. rewrite Hl by done. apply lookup_delete_ne. lia.
Qed.

Lemma remove_previous_runs last (m : gmap Z Z) :
  (forall key, m !! key = Some key -> last < key) ->
  exists m', remove_previous (size m) (begin m) last m = Some m' /\ m' ⊆ m
    /\ forall key, last < key -> m' !! key = m !! key.
Proof.
  apply remove_previous_later. destruct (begin m) as [key|] eqn:E; [|done].
  apply begin_spec in E as [Hk _]. split; [done|]. unfold entries_from.
  apply map_subseteq_size, map_filter_subseteq.
Qed.

Section Theorems.
Context {K : Type} `{Kernel K} `{LensPlatform K}.
Implicit Types (s : LensManager) (h : LensHw) (k : K).

Lemma setFocusPosition_map p s h k :
  mSeqToPositionMap (fst (fst (setFocusPosition p s h k))) = mSeqToPositionMap s.
Proof.
  unfold setFocusPosition. destruct (_ =? _); [done|].
  destruct (Focus.setFocusPosition p h k) as [[ret h'] k']. by destruct (ret =? OK).
Qed.

(** A position set for a frame is sent to the lens at the start of that frame,
    unless the lens is there already, and every position of a later frame is
    kept.  The frames of the entries that are still there must differ from
    their positions. *)
Theorem manual_focus_on_its_frame seq p s h k :
  mSeqToPositionMap s !! seq = Some p ->
  (forall key, key <> seq -> mSeqToPositionMap s !! key = Some key -> seq < key) ->
  exists s',
    handleSofEvent true seq s h k
    = Some (s', snd (fst (setFocusPosition p s h k)), snd (setFocusPosition p s h k))
    /\ mFocusPosition s' = mFocusPosition (fst (fst (setFocusPosition p s h k)))
    /\ mSeqToPositionMap s' !! seq = None
    /\ forall key, seq < key -> mSeqToPositionMap s' !! key = mSeqToPositionMap s !! key.
Proof.
  intros Hp Hown. unfold handleSofEvent. cbn [negb mSeqToPositionMap]. rewrite Hp.
  pose proof (setFocusPosition_map p (Manager (mFocusPosition s) (mSeqToPositionMap s) seq) h k) as Hm.
  assert (He : let r := setFocusPosition p (Manager (mFocusPosition s) (mSeqToPositionMap s) seq) h k in
               let q := setFocusPosition p s h k in
               snd (fst r) = snd (fst q) /\ snd r = snd q
               /\ mFocusPosition (fst (fst r)) = mFocusPosition (fst (fst q))
               /\ mLastSofSequence (fst (fst r)) = seq).
  { unfold setFocusPosition. cbn [mFocusPosition mSeqToPositionMap mLastSofSequence].
    destruct (_ =? _); [done|]. destruct (Focus.setFocusPosition p h k) as [[ret h'] k'].
    by destruct (ret =? OK). }
  destruct (setFocusPosition p (Manager _ _ seq) h k) as [[s1 h1] k1].
  destruct (setFocusPosition p s h k) as [[s2 h2] k2]. cbn in Hm, He.
  destruct He as (-> & -> & Hf & Hseq). cbn [set_positions mSeqToPositionMap mLastSofSequence fst snd].
  rewrite Hm, Hseq.
  destruct (remove_previous_runs seq (delete seq (mSeqToPositionMap s))) as (m' & -> & Hs & Hl).
  { intros key Hk. apply lookup_delete_Some in Hk as [Hne Hk]. apply Hown; [congruence|done]. }
  eexists. split; [reflexivity|]. cbn. split; [done|]. split.
  - destruct (m' !! seq) eqn:E; [|done]. eapply lookup_weaken in E; [|exact Hs].
    by rewrite lookup_delete_eq in E.
  - intros key Hk. rewrite Hl by done. apply lookup_delete_ne. lia.
Qed.

(** A position whose frame start was missed stays while its value is beyond
    the numbers of the frames: it is the position that is compared, not the
    frame. *)
Theorem missed_position_stays key p seqs s h k :
  mSeqToPositionMap s = {[key := p]} -> Forall (fun seq => seq <> key /\ seq < p) seqs ->
  exists s', run_sofs seqs s h k = Some (s', h, k) /\ mSeqToPositionMap s' = {[key := p]}.
Proof.
  intros Hm Hs. revert s Hm. induction Hs as [|seq rest [Hne Hlt] _ IH]; intros s Hm; [by exists s|].
  cbn [run_sofs]. unfold handleSofEvent. cbn [negb mSeqToPositionMap].
  rewrite Hm, lookup_singleton_ne by done. cbn [mSeqToPositionMap mLastSofSequence].
  rewrite map_size_singleton. assert (Hb : begin ({[key := p]} : gmap Z Z) = Some key).
  { apply begin_spec. split; [by rewrite lookup_singleton_eq|].
    intros k' [x Hx]. apply lookup_singleton_Some in Hx as [-> _]. lia. }
  rewrite Hb. cbn [remove_previous]. rewrite lookup_singleton_eq. cbn [mbind option_bind].
  replace (p <=? seq) with false by lia. cbn [mbind option_bind]. by apply IH.
Qed.

(** While such a position stays, no result of automatic focus reaches the
    lens. *)
Theorem missed_position_blocks_autofocus key p seqs next sequence param s h k :
  mSeqToPositionMap s = {[key := p]} -> Forall (fun seq => seq <> key /\ seq < p) seqs ->
  is_manual param = false ->
  exists s', run_sofs seqs s h k = Some (s', h, k)
    /\ setLensResult next sequence param s' h k = (OK, s', h, k).
Proof.
  intros Hm Hs Ha. destruct (missed_position_stays key p seqs s h k Hm Hs) as (s' & -> & Hm').
  exists s'. split; [done|]. unfold setLensResult. rewrite Ha.
  destruct (_ || _); [done|]. destruct (_ =? _); [|done].
  rewrite bool_decide_eq_true_2; [done|]. rewrite Hm'. apply map_non_empty_singleton.
Qed.

(** Once the frames reach the number that is its position, an entry whose
    frame was missed and equals its position is erased under the iterator. *)
Theorem own_position_undefined p seq s h k :
  mSeqToPositionMap s = {[p := p]} -> p < seq -> handleSofEvent true seq s h k = None.
Proof.
  intros Hm Hlt. unfold handleSofEvent. cbn [negb mSeqToPositionMap].
  rewrite Hm, lookup_singleton_ne by lia. cbn [mSeqToPositionMap mLastSofSequence].
  rewrite map_size_singleton. assert (Hb : begin ({[p := p]} : gmap Z Z) = Some p).
  { apply begin_spec. split; [by rewrite lookup_singleton_eq|].
    intros k' [x Hx]. apply lookup_singleton_Some in Hx as [-> _]. lia. }
  rewrite Hb. cbn [remove_previous]. rewrite lookup_singleton_eq. cbn [mbind option_bind].
  replace (p <=? seq) with true by lia. by rewrite lookup_delete_eq.
Qed.

(** Starting again keeps the positions of the run before, which are then set
    at the frames of the same numbers. *)
Theorem restart_keeps_positions seq p s h k :
  mSeqToPositionMap s = {[seq := p]} -> p <> -1 ->
  exists s', handleSofEvent true seq (snd (start s)) h k
    = Some (s', snd (fst (Focus.setFocusPosition p h k)), snd (Focus.setFocusPosition p h k)).
Proof.
  intros Hm Hp. unfold start, handleSofEvent, setFocusPosition. cbn [negb snd mSeqToPositionMap mFocusPosition].
  rewrite Hm, lookup_singleton_eq. replace (-1 =? p) with false by lia.
  destruct (Focus.setFocusPosition p h k) as [[ret h'] k']. cbn [set_positions mSeqToPositionMap fst snd].
  destruct (ret =? OK); cbn [mSeqToPositionMap mLastSofSequence]; rewrite delete_singleton_eq;
    (eexists; reflexivity).
Qed.

(** A position the lens took is not sent again, one it refused is: the kept
    position is that of the last control that succeeded. *)
Theorem position_sent_until_taken p s h k s' h' k' :
  setFocusPosition p s h k = (s', h', k') ->
  (mFocusPosition s' = p /\ setFocusPosition p s' h' k' = (s', h', k'))
  \/ (s' = s /\ mFocusPosition s <> p /\ fst (fst (Focus.setFocusPosition p h k)) <> OK).
Proof.
  unfold setFocusPosition. destruct (Z.eqb_spec (mFocusPosition s) p) as [E|E].
  - intros [= -> -> ->]. left. split; [done|]. by rewrite E, Z.eqb_refl.
  - destruct (Focus.setFocusPosition p h k) as [[ret h1] k1]. destruct (Z.eqb_spec ret OK) as [Eo|Eo].
    + intros [= <- <- <-]. left. split; [done|]. cbn. by rewrite Z.eqb_refl.
    + intros [= <- <- <-]. right. done.
Qed.

(** The position that is reported is the last one asked for, taken or not. *)
Theorem reported_position_is_asked p h k :
  mLensSubdev h <> None ->
  fst (snd (Focus.getLatestPosition (snd (fst (Focus.setFocusPosition p h k))))) = p.
Proof.
  intros Hs. unfold Focus.setFocusPosition. destruct (mLensSubdev h) as [sub|]; [|done].
  destruct (clock_gettime k) as [[sec nsec] k1]. by destruct (SetControl _ _ _ k1).
Qed.

(** Results are dropped without a lens and for position 0; without a lens the
    operations of the lens answer [NO_INIT] and leave everything as it is. *)
Theorem no_lens_no_effect next sequence param p s h k :
  mLensSubdev h = None \/ next = 0 ->
  setLensResult next sequence param s h k = (OK, s, h, k)
  /\ (mLensSubdev h = None ->
      Focus.setFocusPosition p h k = (NO_INIT, h, k) /\ Focus.setFocusStep p h k = (NO_INIT, k)
      /\ Focus.startAutoFocus h k = (NO_INIT, k) /\ Focus.stopAutoFocus h k = (NO_INIT, k)
      /\ Focus.getFocusPosition h k = (NO_INIT, None, k) /\ Focus.stop h k = (h, k)).
Proof.
  intros Hn. unfold setLensResult, isLensSubdevAvailable. split.
  - destruct Hn as [-> | ->]; [done|]. by rewrite Z.eqb_refl, orb_true_r.
  - intros E. unfold Focus.setFocusPosition, Focus.setFocusStep, Focus.startAutoFocus, Focus.stopAutoFocus,
      Focus.getFocusPosition, Focus.set_focus_control, Focus.get_focus_control, Focus.stop.
    by rewrite E.
Qed.
End Theorems.
