(* ===== verification/MakerNote.v ===== *)
(** * Maker notes

    src/3a/MakerNote.cpp and .h: the maker notes of the last frames, in a list
    of buffers that is used as a ring, and the error codes of
    src/3a/AiqUtils.cpp.  The 3A library, which allocates the buffers and fills
    them, is any implementation of [IntelCca]; a buffer is its address.  Taking
    the front of an empty list is [None]. *)

From S2P Require Import Prelude Errors.
From stdpp Require Import list.
#[local] Open Scope Z_scope.

(** ** Data *)

Inductive ia_err :=
| ia_err_none | ia_err_general | ia_err_nomemory | ia_err_data | ia_err_internal | ia_err_argument
| ia_err_other.

Definition convertError (iaErr : ia_err) : Z :=
  match iaErr with
  | ia_err_none => OK
  | ia_err_general => UNKNOWN_ERROR
  | ia_err_nomemory => NO_MEMORY
  | ia_err_data => BAD_VALUE
  | ia_err_internal => INVALID_OPERATION
  | ia_err_argument => BAD_VALUE
  | ia_err_other => UNKNOWN_ERROR
  end.

Inductive ia_mkn_trg := ia_mkn_trg_section_1 | ia_mkn_trg_section_2.

Inductive camera_makernote_mode_t := MAKERNOTE_MODE_OFF | MAKERNOTE_MODE_JPEG | MAKERNOTE_MODE_RAW.

#[global] Instance camera_makernote_mode_t_eq_dec : EqDecision camera_makernote_mode_t.
Proof. solve_decision. Defined.

Inductive MknState := UNINIT | INIT.

#[global] Instance MknState_eq_dec : EqDecision MknState.
Proof. solve_decision. Defined.

Record MakernoteData := Note { sequence : Z; timestamp : Z; mknData : Z }.

Record MakerNote := Maker { mMknState : MknState; mMakernoteDataList : list MakernoteData }.

Definition MAX_MAKER_NOTE_LIST_SIZE : nat := 48.

(** The 3A library: whether there is an instance, the allocation of a buffer,
    filling a buffer with the maker note of the last frame, and the bytes of a
    buffer. *)
Class IntelCca (W : Type) := {
  getInstance : W -> bool;
  allocMem : W -> option Z * W;
  freeMem : Z -> W -> W;
  getMKN : ia_mkn_trg -> Z -> W -> ia_err * W;
  mkn_bytes : Z -> W -> list Z;
}.

Section MakerNote.
Context {W : Type} `{IntelCca W}.
(** Whether [DUMP_MAKER_NOTE] is enabled. *)
Context (dump : bool).
Implicit Types (s : MakerNote) (w : W).

Definition is_off (mode : camera_makernote_mode_t) : bool := bool_decide (mode = MAKERNOTE_MODE_OFF).
Definition is_init s : bool := bool_decide (mMknState s = INIT).

(** ** Operations *)

Definition new_MakerNote : MakerNote := Maker UNINIT [].

(** The allocations, up to one that fails. *)
Fixpoint allocate (n : nat) (l : list MakernoteData) w : bool * list MakernoteData * W :=
  match n with
  | O => (true, l, w)
  | S n =>
      let '(p, w) := allocMem w in
      match p with
      | None => (false, l, w)
      | Some p => allocate n (l ++ [Note (-1) 0 p]) w
      end
  end.

Definition init s w : Z * MakerNote * W :=
  if is_init s then (INVALID_OPERATION, s, w) else
  if negb (getInstance w) then (BAD_VALUE, s, w) else
  match mMakernoteDataList s with
  | [] =>
      let '(ok, l, w) := allocate MAX_MAKER_NOTE_LIST_SIZE [] w in
      if ok then (OK, Maker INIT l, w) else (NO_MEMORY, Maker (mMknState s) l, w)
  | _ => (OK, s, w)
  end.

Definition free_all (l : list MakernoteData) w : W := foldl (fun w d => freeMem (mknData d) w) w l.

Definition deinit s w : Z * MakerNote * W :=
  if negb (is_init s) then (NO_INIT, s, w) else
  if negb (getInstance w) then (BAD_VALUE, s, w) else
  (OK, Maker UNINIT [], free_all (mMakernoteDataList s) w).

Definition target (mode : camera_makernote_mode_t) : ia_mkn_trg :=
  if bool_decide (mode = MAKERNOTE_MODE_JPEG) || dump then ia_mkn_trg_section_1 else ia_mkn_trg_section_2.

(** Without a mode the note is only dumped: it is written into the front
    buffer, which stays where it is. *)
Definition saveMakernoteData (mode : camera_makernote_mode_t) (seq : Z) s w : option (Z * MakerNote * W) :=
  if is_off mode && negb dump then Some (OK, s, w) else
  if negb (is_init s) then Some (NO_INIT, s, w) else
  data ← head (mMakernoteDataList s);
  if negb (getInstance w) then Some (BAD_VALUE, s, w) else
  let '(iaErr, w) := getMKN (target mode) (mknData data) w in
  let ret := convertError iaErr in
  if negb (ret =? OK) then Some (ret, s, w) else
  let saved := Maker (mMknState s) (tail (mMakernoteDataList s) ++ [Note seq 0 (mknData data)]) in
  Some (OK, (if is_off mode then s else saved), w).

(** The first result is the buffer, if it is not null. *)
Definition getMakernoteBuf (mode : camera_makernote_mode_t) s : option (option Z * bool) :=
  if is_off mode && negb dump then Some (None, dump) else
  if negb (is_init s) then Some (None, dump) else
  data ← head (mMakernoteDataList s); Some (Some (mknData data), dump).

(** The last entry that passes, changed. *)
Fixpoint update_last (p : MakernoteData -> bool) (f : MakernoteData -> MakernoteData) (rev_l : list MakernoteData)
    : list MakernoteData :=
  match rev_l with
  | [] => []
  | d :: l => if p d then f d :: l else d :: update_last p f l
  end.

Definition updateTimestamp (seq ts : Z) s : MakerNote :=
  if negb (is_init s) then s else
  Maker (mMknState s)
    (reverse (update_last (fun d => sequence d =? seq) (fun d => Note (sequence d) ts (mknData d))
                (reverse (mMakernoteDataList s)))).

(** The bytes that are handed to [setMakernoteData], if any. *)
Definition acquireMakernoteData (ts : Z) s w : option (list Z) :=
  if negb (is_init s) then None else
  d ← List.find (fun d => (0 <? timestamp d) && (timestamp d <=? ts)) (reverse (mMakernoteDataList s));
  Some (mkn_bytes (mknData d) w).
End MakerNote.

(** ** What a list of notes promises

    The notes of the last 48 frames that were saved, the oldest first. *)

Record note := { n_sequence : Z; n_timestamp : Z; n_bytes : list Z }.

Definition note_of {W} `{IntelCca W} (w : W) (d : MakernoteData) : note :=
  {| n_sequence := sequence d; n_timestamp := timestamp d; n_bytes := mkn_bytes (mknData d) w |}.

Definition notes {W} `{IntelCca W} (s : MakerNote) (w : W) : list note := note_of w <$> mMakernoteDataList s.

Module History.
(** Saving forgets the oldest. *)
Definition save (seq : Z) (bytes : list Z) (l : list note) : list note :=
  tail l ++ [{| n_sequence := seq; n_timestamp := 0; n_bytes := bytes |}].

(** The last note of the frame gets the time. *)
Fixpoint stamp_rev (seq ts : Z) (l : list note) : list note :=
  match l with
  | [] => []
  | n :: l => if n_sequence n =? seq then {| n_sequence := n_sequence n; n_timestamp := ts; n_bytes := n_bytes n |} :: l
              else n :: stamp_rev seq ts l
  end.
Definition stamp (seq ts : Z) (l : list note) : list note := reverse (stamp_rev seq ts (reverse l)).

(** The newest note with a time up to [ts]. *)
Definition acquire (ts : Z) (l : list note) : option (list Z) :=
  n_bytes <$> List.find (fun n => (0 <? n_timestamp n) && (n_timestamp n <=? ts)) (reverse l).
End History.

(** The state while notes can be saved: 48 buffers, all different. *)
Definition ready (s : MakerNote) : Prop :=
  mMknState s = INIT /\ length (mMakernoteDataList s) = MAX_MAKER_NOTE_LIST_SIZE
  /\ NoDup (mknData <$> mMakernoteDataList s).

(** What is relied on: filling changes the one buffer, and only when it
    succeeds, as MakerNote.cpp notes; a new buffer is none of those handed out
    before. *)
Class IntelCcaLaws (W : Type) `{IntelCca W} := {
  getMKN_other trg p q w : p <> q -> mkn_bytes q (snd (getMKN trg p w)) = mkn_bytes q w;
  getMKN_fails trg p q w : fst (getMKN trg p w) <> ia_err_none -> mkn_bytes q (snd (getMKN trg p w)) = mkn_bytes q w;
  live : list Z -> W -> Prop;
  allocMem_fresh l p w w' : live l w -> allocMem w = (Some p, w') -> (p ∉ l) /\ live (l ++ [p]) w';
  allocMem_fails l w w' : live l w -> allocMem w = (None, w') -> live l w';
}.

(** ** Lists of buffers *)

Lemma convertError_ok e : convertError e = OK <-> e = ia_err_none.
Proof. by destruct e. Qed.

Lemma allocate_ready {W} `{IntelCca W} `{!IntelCcaLaws W} n l w ok l' w' :
  allocate n l w = (ok, l', w') -> live (mknData <$> l) w -> NoDup (mknData <$> l) ->
  NoDup (mknData <$> l') /\ (ok = true -> length l' = (length l + n)%nat) /\ (length l <= length l')%nat.
Proof.
  revert l w. induction n as [|n IH]; intros l w; cbn [allocate]; [intros [= <- <- <-]; auto with lia|].
  destruct (allocMem w) as [[p|] w1] eqn:Ea; [|intros [= <- <- <-]; by auto].
  intros E Hl Hn. destruct (allocMem_fresh _ _ _ _ Hl Ea) as [Hp Hl'].
  destruct (IH _ _ E) as (H1 & H2 & H3).
  - rewrite fmap_app. exact Hl'.
  - rewrite fmap_app. apply NoDup_app. split; [done|]. split; [|apply NoDup_singleton].
    intros x Hx ->%list_elem_of_singleton. done.
  - rewrite length_app in *. cbn in *. split; [done|]. split; [intros ?; rewrite H2 by done|]; lia.
Qed.

Lemma update_last_data p f l :
  (forall d, mknData (f d) = mknData d) -> mknData <$> update_last p f l = mknData <$> l.
Proof.
  intros Hf. induction l as [|d l IH]; [done|]. cbn [update_last]. destruct (p d); csimpl; [by rewrite Hf|by rewrite IH].
Qed.

Section Notes.
Context {W : Type} `{IntelCca W} `{!IntelCcaLaws W} (dump : bool).
Implicit Types (s : MakerNote) (w : W) (l : list MakernoteData).

(** The notes of other buffers do not change with the one that is filled. *)
Lemma notes_filled l trg p w :
  p ∉ mknData <$> l -> note_of (snd (getMKN trg p w)) <$> l = note_of w <$> l.
Proof.
  intros Hp. apply list_fmap_ext. intros i d Hd. unfold note_of. f_equal. apply getMKN_other.
  intros ->. apply Hp, list_elem_of_fmap. exists d. split; [done|]. by eapply list_elem_of_lookup_2.
Qed.

Lemma notes_unfilled l trg p w :
  fst (getMKN trg p w) <> ia_err_none -> note_of (snd (getMKN trg p w)) <$> l = note_of w <$> l.
Proof. intros He. apply list_fmap_ext. intros i d Hd. unfold note_of. f_equal. by apply getMKN_fails. Qed.

Lemma ready_cons s : ready s -> exists d l, mMakernoteDataList s = d :: l.
Proof. intros (_ & Hl & _). destruct (mMakernoteDataList s) as [|d l]; [discriminate Hl|eauto]. Qed.

Lemma stamp_notes seq ts l w :
  note_of w <$> update_last (fun d => sequence d =? seq) (fun d => Note (sequence d) ts (mknData d)) l
  = History.stamp_rev seq ts (note_of w <$> l).
Proof.
  induction l as [|d l IH]; [done|]. cbn [update_last]. csimpl. cbn [History.stamp_rev].
  destruct (sequence d =? seq) eqn:E; csimpl; [done|by rewrite IH].
Qed.

Lemma find_notes ts l w :
  (d ← List.find (fun d => (0 <? timestamp d) && (timestamp d <=? ts)) l; Some (mkn_bytes (mknData d) w))
  = n_bytes <$> List.find (fun n => (0 <? n_timestamp n) && (n_timestamp n <=? ts)) (note_of w <$> l).
Proof. induction l as [|d l IH]; [done|]. csimpl. cbn [List.find]. cbn [n_timestamp note_of]. by destruct (_ && _). Qed.

(** ** Theorems *)

(** A first [init] hands out 48 buffers, all different, or fails and leaves
    the notes uninitialised. *)
Theorem init_gives_buffers w ret s' w' :
  live [] w -> init new_MakerNote w = (ret, s', w') ->
  (ret = OK /\ ready s') \/ (ret <> OK /\ mMknState s' = UNINIT).
Proof.
  intros Hl. unfold init. cbn [is_init new_MakerNote mMknState mMakernoteDataList].
  replace (is_init new_MakerNote) with false by done. destruct (negb (getInstance w)); [intros [= <- <- <-]; by right|].
  destruct (allocate _ [] w) as [[ok l] w1] eqn:E.
  destruct (allocate_ready _ _ _ _ _ _ E Hl (NoDup_nil_2)) as (H1 & H2 & _).
  destruct ok; intros [= <- <- <-]; [left|by right]. split; [done|]. split; [done|]. split; [by apply H2|done].
Qed.

Lemma fmap_reverse_notes w l : note_of w <$> reverse l = reverse (note_of w <$> l).
Proof. apply fmap_reverse. Qed.

Lemma ready_stamp seq ts s : ready s -> ready (updateTimestamp seq ts s).
Proof.
  intros (Hi & Hl & Hn). unfold updateTimestamp, is_init. rewrite Hi. cbn [negb bool_decide decide_rel].
  rewrite bool_decide_eq_true_2 by done. cbn [negb].
  assert (Hd : mknData <$> reverse (update_last (fun d => sequence d =? seq) (fun d => Note (sequence d) ts (mknData d))
                 (reverse (mMakernoteDataList s))) = mknData <$> mMakernoteDataList s).
  { by rewrite fmap_reverse, update_last_data, <- fmap_reverse, reverse_involutive by done. }
  split; [done|]. cbn [mMakernoteDataList]. rewrite Hd. split; [|done].
  by rewrite <- Hl, <- (length_fmap mknData), Hd, length_fmap.
Qed.

Lemma ready_save seq d l st :
  ready (Maker st (d :: l)) -> ready (Maker st (l ++ [Note seq 0 (mknData d)])).
Proof.
  intros (Hi & Hl & Hn). split; [done|]. cbn [mMakernoteDataList] in *. split.
  - rewrite length_app. cbn in *. lia.
  - rewrite fmap_app. csimpl. rewrite <- Permutation_cons_append. exact Hn.
Qed.

(** The list of buffers refines the history of notes: a successful save forgets
    the oldest note and adds the new one, a failed one changes nothing, a time
    goes to the last note of its frame, and what is acquired is the newest note
    with a time that is not later. *)
Theorem makernotes_refine_history mode seq ts s w :
  ready s ->
  (mode <> MAKERNOTE_MODE_OFF ->
   exists ret s' w', saveMakernoteData dump mode seq s w = Some (ret, s', w') /\ ready s'
     /\ ((ret = OK /\ exists p, head (mknData <$> mMakernoteDataList s) = Some p
                         /\ notes s' w' = History.save seq (mkn_bytes p w') (notes s w))
         \/ (ret <> OK /\ s' = s /\ notes s' w' = notes s w)))
  /\ (ready (updateTimestamp seq ts s) /\ notes (updateTimestamp seq ts s) w = History.stamp seq ts (notes s w))
  /\ acquireMakernoteData ts s w = History.acquire ts (notes s w).
Proof.
  intros Hr. assert (Hi : is_init s = true) by (apply bool_decide_eq_true_2, Hr). split; [|split; [split|]].
  - intros Hm. destruct (ready_cons s Hr) as (d & l & Es). unfold saveMakernoteData.
    assert (Ho : is_off mode = false) by (apply bool_decide_eq_false_2, Hm).
    rewrite Ho, Hi, Es. cbn [negb andb head mbind option_bind].
    destruct (getInstance w); cbn [negb]; [|exists BAD_VALUE, s, w; split; [done|]; split; [done|]; by right].
    destruct (getMKN (target dump mode) (mknData d) w) as [e w1] eqn:Eg.
    destruct (Z.eqb_spec (convertError e) OK) as [Ee|Ee]; cbn [negb].
    + eexists OK, _, w1. split; [done|]. destruct s as [st ls]. cbn [mMakernoteDataList] in Es. subst ls.
      split; [by apply ready_save|]. left. split; [done|]. exists (mknData d). split; [done|].
      unfold notes. cbn [mMakernoteDataList tail]. rewrite fmap_app. unfold History.save. csimpl.
      f_equal. replace w1 with (snd (getMKN (target dump mode) (mknData d) w)) by by rewrite Eg.
      apply notes_filled. destruct Hr as (_ & _ & Hn). by apply NoDup_cons in Hn as [Hn _].
    + exists (convertError e), s, w1. split; [done|]. split; [done|]. right. split; [done|]. split; [done|].
      unfold notes. replace w1 with (snd (getMKN (target dump mode) (mknData d) w)) by by rewrite Eg.
      apply notes_unfilled. rewrite Eg. cbn. by intros ->.
  - by apply ready_stamp.
  - unfold updateTimestamp, notes, History.stamp. rewrite Hi. cbn [negb mMakernoteDataList].
    by rewrite fmap_reverse_notes, stamp_notes, fmap_reverse_notes.
  - unfold acquireMakernoteData, History.acquire, notes. rewrite Hi. cbn [negb].
    by rewrite find_notes, fmap_reverse_notes.
Qed.

(** With dumping enabled and no mode, the note of the frame is written over the
    oldest one, which keeps the number and the time of its frame. *)
Theorem dump_overwrites_oldest seq s w s' w' :
  ready s -> getInstance w = true ->
  saveMakernoteData true MAKERNOTE_MODE_OFF seq s w = Some (OK, s', w') ->
  exists d l, mMakernoteDataList s = d :: l /\ s' = s
    /\ w' = snd (getMKN ia_mkn_trg_section_1 (mknData d) w)
    /\ notes s' w' = note_of w' d :: (note_of w <$> l).
Proof.
  intros Hr Hg. assert (Hi : is_init s = true) by (apply bool_decide_eq_true_2, Hr).
  destruct (ready_cons s Hr) as (d & l & Es). unfold saveMakernoteData. rewrite Hi, Es, Hg.
  cbn [is_off negb andb head mbind option_bind]. unfold target. rewrite orb_true_r.
  destruct (getMKN ia_mkn_trg_section_1 (mknData d) w) as [e w1] eqn:Eg. cbv zeta.
  destruct (Z.eqb_spec (convertError e) OK) as [Ee|Ee]; [intros [= <- <-]|by intros [= E1 _ _]].
  exists d, l. split; [done|]. split; [done|]. split; [by rewrite Eg|].
  unfold notes. rewrite Es. csimpl. f_equal.
  replace w1 with (snd (getMKN ia_mkn_trg_section_1 (mknData d) w)) by by rewrite Eg.
  apply notes_filled. destruct Hr as (_ & _ & Hn). rewrite Es in Hn. by apply NoDup_cons in Hn as [Hn _].
Qed.

(** An [init] that runs out of memory after its first buffer cannot be repeated:
    the next ones answer [OK] without buffers being complete, and the notes
    stay uninitialised. *)
Theorem failed_init_is_final s w mode seq ts :
  mMknState s = UNINIT -> mMakernoteDataList s <> [] -> getInstance w = true -> mode <> MAKERNOTE_MODE_OFF ->
  init s w = (OK, s, w) /\ deinit s w = (NO_INIT, s, w)
  /\ saveMakernoteData dump mode seq s w = Some (NO_INIT, s, w) /\ acquireMakernoteData ts s w = None.
Proof.
  intros Hs Hl Hg Hm. unfold init, deinit, saveMakernoteData, acquireMakernoteData, is_init. rewrite Hs, Hg.
  cbn [negb]. assert (Ho : is_off mode = false) by by apply bool_decide_eq_false_2.
  rewrite Ho. destruct (mMakernoteDataList s); done.
Qed.
End Notes.

(** ** The last notes *)

Lemma save_is_drop seq b l : l <> [] -> History.save seq b l = drop 1 (l ++ [{| n_sequence := seq; n_timestamp := 0; n_bytes := b |}]).
Proof. by destruct l. Qed.

(** After any saves the history holds the last notes of them, as many as
    before. *)
Theorem history_is_last_notes (saves : list (Z * list Z)) (l : list note) :
  l <> [] ->
  foldl (fun l e => History.save e.1 e.2 l) l saves
  = drop (length saves) (l ++ ((fun e => {| n_sequence := e.1; n_timestamp := 0; n_bytes := e.2 |}) <$> saves)).
Proof.
  revert l. induction saves as [|[seq b] saves IH]; intros l Hl; [csimpl; by rewrite app_nil_r|].
  cbn [foldl fst snd length]. rewrite IH by (destruct l; [done|]; unfold History.save; by destruct l).
  destruct l as [|n l]; [done|]. unfold History.save. csimpl. by rewrite <- app_assoc.
Qed.

(** A library that satisfies the laws: buffers are numbered, and the n-th note
    is the byte [n]. *)
Record toy_library := Toy { next_buffer : Z; next_note : Z; contents : Z -> list Z }.

#[global] Instance toy_cca : IntelCca toy_library := {
  getInstance w := true;
  allocMem w := (Some (next_buffer w), Toy (next_buffer w + 1) (next_note w) (contents w));
  freeMem p w := w;
  getMKN trg p w := (ia_err_none, Toy (next_buffer w) (next_note w + 1)
                                    (fun q => if q =? p then [next_note w] else contents w q));
  mkn_bytes p w := contents w p;
}.

#[global] Instance toy_laws : IntelCcaLaws toy_library.
Proof.
  refine {| live l w := Forall (fun p => p < next_buffer w) l |}.
  - intros trg p q w Hne. cbn. by replace (q =? p) with false by lia.
  - intros trg p q w He. by destruct He.
  - intros l p w w' Hl [= <- <-]. split.
    + intros Hp. rewrite Forall_forall in Hl. specialize (Hl _ Hp). lia.
    + apply Forall_app. split; [|repeat constructor; cbn; lia].
      eapply Forall_impl; [exact Hl|]. cbn. lia.
  - done.
Defined.

(** Fifty notes: the first two are forgotten, and the note of frame 30 is found
    by its time. *)
Example fifty_notes :
  let '(_, s, w) := init new_MakerNote (Toy 0 0 (fun _ => [])) in
  let save '(s, w) seq := match saveMakernoteData false MAKERNOTE_MODE_JPEG seq s w with
                          | Some (_, s, w) => (s, w) | None => (s, w) end in
  let '(s, w) := foldl save (s, w) (range 0 50) in
  let s := updateTimestamp 40 4000 (updateTimestamp 30 3000 s) in
  n_sequence <$> notes s w = range 2 50 /\ acquireMakernoteData 3500 s w = Some [30]
  /\ acquireMakernoteData 2000 s w = None.
Proof. vm_compute. auto. Qed.
