(* ===== verification/Thread.v ===== *)
(** * Threads

    src/iutils/Thread.cpp and .h, the class every thread of the HAL is derived
    from: its states, the loop that calls [threadLoop], and the functions that
    start it, ask it to exit and wait for it.

    Every section under the mutex is one step, and so is the part of a wait
    between two sleeps; a sleeping client may wake at any time.  Clients are
    numbers.  The thread's properties and its operating-system thread are not
    modelled. *)

From S2P Require Import Prelude Errors.
From stdpp Require Import list gmap.
#[local] Open Scope Z_scope.

Definition WOULD_BLOCK : Z := -11.

Inductive thread_state := NOT_STARTED | RUNNING | EXITING | EXITED.

#[global] Instance thread_state_eq_dec : EqDecision thread_state.
Proof. solve_decision. Defined.

(** Where [_threadLoop] is: not there, before its first section, inside of
    [threadLoop], or before the section that looks at what that returned. *)
Inductive body := NoBody | Starting | Looping | Returned (loopAgain : bool).

#[global] Instance body_eq_dec : EqDecision body.
Proof. solve_decision. Defined.

(** The two functions that wait for the exit. *)
Inductive waiter := RequestExitAndWait | Join.

#[global] Instance waiter_eq_dec : EqDecision waiter.
Proof. solve_decision. Defined.

(** Clients and threads are numbers; [mId] is the id of the thread, of which the
    default one, [None], is no thread's. *)
Record Thread := ThreadOf { mState : thread_state; loop : body; asleep : gmap nat waiter; mId : option nat }.

Definition new_Thread : Thread := ThreadOf NOT_STARTED NoBody ∅ None.

Implicit Types t : Thread.

(** ** The functions of clients *)

(** [std::thread::get_id] of a thread that was detached: the default id. *)
Definition get_id (detached : bool) (id : nat) : option nat := if detached then None else Some id.

(** The new thread's loop is at its beginning.  The id is taken after [detach],
    whatever number the system gave the thread. *)
Definition run t : Z * Thread :=
  if bool_decide (mState t <> NOT_STARTED) && bool_decide (mState t <> EXITED) then (INVALID_OPERATION, t)
  else (OK, ThreadOf RUNNING Starting (asleep t) (get_id true 0)).

Definition requestExit t : Thread :=
  if bool_decide (mState t = RUNNING) then ThreadOf EXITING (loop t) (asleep t) (mId t) else t.

(** A turn of the loop of a waiting function: [None] while the client sleeps. *)
Definition wait_turn (k : waiter) (c : nat) t : option Z * Thread :=
  if bool_decide (mState t = EXITED) then (Some OK, ThreadOf (mState t) (loop t) (delete c (asleep t)) (mId t))
  else
    let st := match k with RequestExitAndWait => EXITING | Join => mState t end in
    (None, ThreadOf st (loop t) (<[c := k]> (asleep t)) (mId t)).

(** Called by the thread itself it would never return: [c] is compared with the
    thread's id. *)
Definition wait_for_exit (k : waiter) (c : nat) t : option Z * Thread :=
  if bool_decide (mState t = NOT_STARTED) then (Some NO_INIT, t)
  else if bool_decide (mId t = Some c) then (Some WOULD_BLOCK, t)
  else wait_turn k c t.

Definition requestExitAndWait := wait_for_exit RequestExitAndWait.
Definition join := wait_for_exit Join.

Definition isRunning t : bool := bool_decide (mState t = RUNNING) || bool_decide (mState t = EXITING).
Definition isExiting t : bool := bool_decide (mState t = EXITING).
Definition isExited t : bool := bool_decide (mState t = EXITED).

(** ** The loop *)

Definition exit_loop t : Thread := ThreadOf EXITED NoBody (asleep t) (mId t).

(** The first section: without one of the two states the thread sleeps on. *)
Definition loop_start t : Thread :=
  match mState t with
  | EXITING => exit_loop t
  | RUNNING => ThreadOf RUNNING Looping (asleep t) (mId t)
  | _ => t
  end.

(** The section after [threadLoop]. *)
Definition loop_check (loopAgain : bool) t : Thread :=
  if negb loopAgain || bool_decide (mState t = EXITING) then exit_loop t
  else ThreadOf (mState t) Looping (asleep t) (mId t).

(** ** Steps *)

Inductive event :=
| Run
| RequestExit
| Wait (k : waiter) (c : nat)
| Wake (c : nat)
| LoopStart
| LoopReturns (loopAgain : bool)
| LoopCheck.

(** What a client gets: the status of a function that returned. *)
Definition reply := option Z.

Definition step (e : event) t : option (reply * Thread) :=
  match e with
  | Run => let '(st, t) := run t in Some (Some st, t)
  | RequestExit => Some (None, requestExit t)
  | Wait k c => if bool_decide (is_Some (asleep t !! c)) then None else Some (wait_for_exit k c t)
  | Wake c => match asleep t !! c with Some k => Some (wait_turn k c t) | None => None end
  | LoopStart => if bool_decide (loop t = Starting) then Some (None, loop_start t) else None
  | LoopReturns again =>
      if bool_decide (loop t = Looping) then Some (None, ThreadOf (mState t) (Returned again) (asleep t) (mId t)) else None
  | LoopCheck => match loop t with Returned again => Some (None, loop_check again t) | _ => None end
  end.

Fixpoint steps (es : list event) t : option Thread :=
  match es with [] => Some t | e :: es => '(_, t) ← step e t; steps es t end.

(** ** The invariant *)

(** There is a loop exactly while the thread runs or exits. *)
Definition wf t : Prop :=
  match mState t with NOT_STARTED => loop t = NoBody /\ asleep t = ∅ | EXITED => loop t = NoBody | RUNNING | EXITING => loop t <> NoBody end.

Lemma new_wf : wf new_Thread.
Proof. done. Qed.

Lemma wait_turn_wf k c t : mState t <> NOT_STARTED -> wf t -> wf (snd (wait_turn k c t)).
Proof.
  intros Hn Hw. unfold wait_turn. case_bool_decide as He; unfold wf in *; cbn.
  - by rewrite He in *.
  - destruct k, (mState t); done.
Qed.

Lemma step_wf e t r t' : wf t -> step e t = Some (r, t') -> wf t'.
Proof.
  intros Hw. destruct e as [| |k c|c| |again|]; cbn [step].
  - unfold run. destruct (_ && _); intros [= <- <-]; done.
  - intros [= <- <-]. unfold requestExit. case_bool_decide as Hs; [|done]. unfold wf in *. by rewrite Hs in Hw.
  - case_bool_decide; [done|]. intros [= E]. unfold wait_for_exit in E. case_bool_decide as Hs; [|case_bool_decide].
    + by injection E as <- <-.
    + by injection E as <- <-.
    + pose proof (wait_turn_wf k c t Hs Hw) as Hk. by rewrite E in Hk.
  - destruct (asleep t !! c) as [k|] eqn:Ea; [|done]. intros [= E].
    assert (mState t <> NOT_STARTED) as Hs.
    { intros Hs. unfold wf in Hw. rewrite Hs in Hw. destruct Hw as [_ Hw]. by rewrite Hw, lookup_empty in Ea. }
    pose proof (wait_turn_wf k c t Hs Hw) as Hk. by rewrite E in Hk.
  - case_bool_decide as Hl; [|done]. intros [= <- <-]. unfold loop_start. by destruct (mState t).
  - case_bool_decide as Hl; [|done]. intros [= <- <-]. unfold wf in *. rewrite Hl in Hw. cbn. destruct (mState t); try done; by destruct Hw.
  - destruct (loop t) as [| | |again] eqn:Hl; [done..|]. intros [= <- <-]. unfold loop_check.
    destruct (_ || _); [done|]. unfold wf in *. rewrite Hl in Hw. cbn. destruct (mState t); try done; by destruct Hw.
Qed.

Lemma steps_wf es t t' : wf t -> steps es t = Some t' -> wf t'.
Proof.
  revert t. induction es as [|e es IH]; intros t Hw; cbn [steps]; [by intros [= <-]|].
  destruct (step e t) as [[r t1]|] eqn:E; [|done]. cbn [mbind option_bind]. apply IH. by eapply step_wf.
Qed.

Lemma step_exited e t r t' :
  e <> Run -> mState t = EXITED -> loop t = NoBody -> step e t = Some (r, t') -> mState t' = EXITED /\ loop t' = NoBody.
Proof.
  intros Hne Hx Hl. destruct e as [| |k c|c| |again|]; cbn [step]; rewrite ?Hl; try done.
  - intros [= <- <-]. unfold requestExit. by rewrite bool_decide_eq_false_2 by congruence.
  - case_bool_decide; [done|]. intros [= E]. unfold wait_for_exit, wait_turn in E. rewrite Hx in E.
    repeat case_bool_decide; try done; injection E as <- <-; done.
  - destruct (asleep t !! c) as [k|]; [|done]. intros [= E]. unfold wait_turn in E. rewrite Hx in E.
    case_bool_decide; [|done]. by injection E as <- <-.
Qed.

Lemma steps_exited es t t' :
  Run ∉ es -> mState t = EXITED -> loop t = NoBody -> steps es t = Some t' -> mState t' = EXITED /\ loop t' = NoBody.
Proof.
  revert t. induction es as [|e es IH]; intros t Hn Hx Hl; cbn [steps]; [by intros [= <-]|].
  apply not_elem_of_cons in Hn as [Hne Hn]. destruct (step e t) as [[r t1]|] eqn:E; [|done]. cbn [mbind option_bind].
  apply step_exited in E as [Hx1 Hl1]; [|done..]. by apply IH.
Qed.

Lemma waited_exited e t t' :
  (exists k c, e = Wait k c) \/ (exists c, e = Wake c) -> step e t = Some (Some OK, t') -> mState t' = EXITED.
Proof.
  intros Hk He. destruct Hk as [(k & c & ->)|(c & ->)]; cbn [step] in He.
  - case_bool_decide; [done|]. injection He as He. unfold wait_for_exit, wait_turn in He.
    repeat case_bool_decide; try done. by injection He as <-.
  - destruct (asleep t !! c) as [k|]; [|done]. injection He as He. unfold wait_turn in He.
    case_bool_decide; [|done]. by injection He as <-.
Qed.

(** ** Theorems *)

(** C25: whatever was done before, the loop is over when a client gets [OK] from one
    of the waiting functions: [threadLoop] is not running, and is not called
    again before the thread is started again. *)
Theorem exited_when_wait_returns es e t t' es2 t2 :
  steps es new_Thread = Some t -> (exists k c, e = Wait k c) \/ (exists c, e = Wake c) ->
  step e t = Some (Some OK, t') -> Run ∉ es2 -> steps es2 t' = Some t2 -> loop t2 = NoBody /\ isExited t2 = true.
Proof.
  intros Hs Hk He Hn H2. pose proof (steps_wf _ _ _ new_wf Hs) as Hw.
  pose proof (waited_exited _ _ _ Hk He) as Hx. pose proof (step_wf _ _ _ _ Hw He) as Hw'.
  assert (Hl : loop t' = NoBody) by (unfold wf in Hw'; by rewrite Hx in Hw').
  destruct (steps_exited _ _ _ Hn Hx Hl H2) as [H3 H4]. split; [done|]. by apply bool_decide_eq_true_2.
Qed.

(** The thread has one loop at most: it is started only when there is none. *)
Theorem started_without_loop es t t' :
  steps es new_Thread = Some t -> run t = (OK, t') -> loop t = NoBody /\ loop t' = Starting /\ isRunning t' = true.
Proof.
  intros Hs. pose proof (steps_wf _ _ _ new_wf Hs) as Hw. unfold run.
  destruct (mState t) eqn:Hst; cbn; intros [= <-]; unfold wf in Hw; rewrite Hst in Hw; [by destruct Hw|done].
Qed.

(** Where an exit was asked for, [threadLoop] is not entered any more: the
    section before it, and the one after it, end the loop.  So the loop is over
    after the call of [threadLoop] that is going on, if any. *)
Theorem no_call_after_request e t r t' :
  mState t = EXITING -> e <> Run -> step e t = Some (r, t') ->
  (loop t' = Looping -> loop t = Looping)
  /\ (e = LoopStart \/ e = LoopCheck -> mState t' = EXITED /\ loop t' = NoBody).
Proof.
  intros Hx Hne. destruct e as [| |k c|c| |again|]; cbn [step].
  - done.
  - intros [= <- <-]. unfold requestExit. rewrite bool_decide_eq_false_2 by congruence. split; [done|by intros [|]].
  - case_bool_decide; [done|]. intros [= E]. unfold wait_for_exit, wait_turn in E. rewrite Hx in E.
    repeat case_bool_decide; try done; injection E as <- <-; (split; [done|by intros [|]]).
  - destruct (asleep t !! c) as [k|]; [|done]. intros [= E]. unfold wait_turn in E. rewrite Hx in E.
    case_bool_decide; [done|]. injection E as <- <-. split; [done|by intros [|]].
  - case_bool_decide; [|done]. intros [= <- <-]. unfold loop_start. by rewrite Hx.
  - case_bool_decide; [|done]. intros [= <- <-]. split; [done|by intros [|]].
  - destruct (loop t) as [| | |again]; [done..|]. intros [= <- <-]. unfold loop_check.
    rewrite (bool_decide_eq_true_2 _ Hx), orb_true_r. done.
Qed.

(** An exit that was asked for comes: three steps of the loop, the call of
    [threadLoop] that is going on being one, end it from wherever it is. *)
Theorem exit_is_reached t again :
  wf t -> mState t = EXITING ->
  exists es t', (length es <= 3)%nat /\ Forall (fun e => e = LoopStart \/ e = LoopReturns again \/ e = LoopCheck) es
    /\ steps es t = Some t'
    /\ mState t' = EXITED /\ forall c k, asleep t' !! c = Some k -> exists t2, step (Wake c) t' = Some (Some OK, t2).
Proof.
  intros Hw Hx. assert (Hwake : forall a i, let t' := ThreadOf EXITED NoBody a i in
    forall c k, asleep t' !! c = Some k -> exists t2, step (Wake c) t' = Some (Some OK, t2)).
  { intros a i t' c k Ha. cbn [step asleep] in *. rewrite Ha. eexists. unfold wait_turn.
    rewrite bool_decide_eq_true_2 by done. reflexivity. }
  unfold wf in Hw. rewrite Hx in Hw. destruct t as [st l a i]. cbn [mState loop asleep] in *. subst st.
  destruct l as [| | |b]; [done| | |].
  - exists [LoopStart], (ThreadOf EXITED NoBody a i). split_and!; [cbn; lia|by auto|done|done|apply Hwake].
  - exists [LoopReturns again; LoopCheck], (ThreadOf EXITED NoBody a i).
    split_and!; [cbn; lia|by auto|by destruct again|done|apply Hwake].
  - exists [LoopCheck], (ThreadOf EXITED NoBody a i).
    split_and!; [cbn; lia|by auto|by destruct b|done|apply Hwake].
Qed.

(** A client that sleeps in [requestExitAndWait] while the thread exits and is
    started again ends the new run: it asks again whenever it wakes. *)
Theorem sleeper_ends_next_run :
  exists t, steps [Run; LoopStart; Wait RequestExitAndWait 0; LoopReturns true; LoopCheck; Run; LoopStart; Wake 0] new_Thread
            = Some t
    /\ mState t = EXITING /\ loop t = Looping /\ asleep t !! 0%nat = Some RequestExitAndWait.
Proof. eexists. split; [vm_compute; reflexivity|]. by vm_compute. Qed.

Lemma steps_id es t t' : mId t = None -> steps es t = Some t' -> mId t' = None.
Proof.
  revert t. induction es as [|e es IH]; intros t Hi; cbn [steps]; [by intros [= <-]|].
  destruct (step e t) as [[r t1]|] eqn:E; [|done]. cbn [mbind option_bind]. apply IH.
  destruct e as [| |k c|c| |again|]; cbn [step] in E.
  - unfold run in E. destruct (_ && _); by injection E as <- <-.
  - injection E as <- <-. unfold requestExit. by case_bool_decide.
  - case_bool_decide; [done|]. injection E as E. unfold wait_for_exit, wait_turn in E.
    repeat case_bool_decide; by injection E as <- <-.
  - destruct (asleep t !! c) as [k|]; [|done]. injection E as E. unfold wait_turn in E.
    case_bool_decide; by injection E as <- <-.
  - case_bool_decide; [|done]. injection E as <- <-. unfold loop_start. by destruct (mState t).
  - case_bool_decide; [|done]. by injection E as <- <-.
  - destruct (loop t) as [| | |again]; [done..|]. injection E as <- <-. unfold loop_check. by destruct (_ || _).
Qed.

(** No client is taken for the thread itself, not even the thread itself: the
    id that is compared is the default one. *)
Theorem own_check_never_fires es t k c :
  steps es new_Thread = Some t -> fst (wait_for_exit k c t) <> Some WOULD_BLOCK.
Proof.
  intros Hs. assert (Hi : mId t = None) by exact (steps_id es new_Thread t eq_refl Hs). unfold wait_for_exit. rewrite Hi, (bool_decide_eq_false_2 (None = Some c)) by done.
  unfold wait_turn. repeat case_bool_decide; done.
Qed.

(** So where [threadLoop] waits for the exit of its own thread, which it does
    before it returns, that never comes. *)
Theorem own_wait_never_returns es t t2 :
  wf t -> loop t = Looping -> (forall again, LoopReturns again ∉ es) -> steps es t = Some t2 ->
  loop t2 = Looping /\ forall k c, fst (wait_turn k c t2) = None.
Proof.
  revert t. induction es as [|e es IH]; intros t Hw Hl Hn; cbn [steps].
  - intros [= <-]. split; [done|]. intros k c. unfold wait_turn. case_bool_decide as Hx; [|done].
    unfold wf in Hw. rewrite Hx, Hl in Hw. done.
  - destruct (step e t) as [[r t1]|] eqn:E; [|done]. cbn [mbind option_bind]. apply IH.
    + by eapply step_wf.
    + assert (He : forall again, e <> LoopReturns again) by (intros again ->; apply (Hn again); left).
      destruct e as [| |k c|c| |again|]; cbn [step] in E; rewrite ?Hl in E.
      * unfold run in E. unfold wf in Hw. destruct t as [st l a i]. cbn [mState loop] in *.
        destruct st; [destruct Hw; congruence|by injection E as <- <-..|congruence].
      * injection E as <- <-. unfold requestExit. by case_bool_decide.
      * case_bool_decide; [done|]. injection E as E. unfold wait_for_exit, wait_turn in E.
        repeat case_bool_decide; by injection E as <- <-.
      * destruct (asleep t !! c) as [k|]; [|done]. injection E as E. unfold wait_turn in E.
        case_bool_decide; by injection E as <- <-.
      * done.
      * by destruct (He again).
      * done.
    + intros again Ha. apply (Hn again). by right.
Qed.

Lemma exited_when_wait_returns_witness :
  exists t t' t2, steps [Run; LoopStart; Wait Join 0; RequestExit; LoopReturns true; LoopCheck] new_Thread = Some t
    /\ step (Wake 0) t = Some (Some OK, t') /\ steps [RequestExit; Wait Join 1] t' = Some t2
    /\ loop t2 = NoBody /\ isExited t2 = true.
Proof.
  eexists _, _, _. split; [reflexivity|]. split; [reflexivity|]. split; [reflexivity|].
  refine (exited_when_wait_returns [Run; LoopStart; Wait Join 0; RequestExit; LoopReturns true; LoopCheck] (Wake 0)
            _ _ [RequestExit; Wait Join 1] _ eq_refl (or_intror (ex_intro _ 0%nat eq_refl)) eq_refl _ eq_refl).
  intros [|[|[]%not_elem_of_nil]%elem_of_cons]%elem_of_cons; discriminate.
Defined.
