(* ===== verification/BufferQueue.v ===== *)
(** * Buffer queues

    src/core/BufferQueue.cpp and .h, the part that processors share: filled
    buffers come in from a producer, free ones from the client, in a queue for
    each port, and the processor's thread waits until there is one in every
    queue.

    Each function but the waits holds the mutex and is one step.  A wait
    releases it: the operations that others do until the thread runs again, and
    whether the time ran out, are an argument, [wakes].  The length of a wait is
    not modelled.  A buffer is its address, or [None] for a null pointer. *)

From S2P Require Import Prelude Errors OrderedMap V4l2Video PixelFormats CaptureDevice.
From stdpp Require Import list gmap sorting.
#[local] Open Scope Z_scope.

(** ** Data *)

Abbreviation CamBuffer := (option Z).
Abbreviation CameraBufQ := (list CamBuffer).

Record BufferQueue := QueueOf {
  mBufferProducer : option Z;
  mBufferConsumerList : list Z;
  mInputFrameInfo : gmap Z stream_t;
  mOutputFrameInfo : gmap Z stream_t;
  mInputQueue : gmap Z CameraBufQ;
  mOutputQueue : gmap Z CameraBufQ;
  mInternalBuffers : gmap Z CameraBufQ;
  mThreadRunning : bool;
}.

(** The conditions that are signalled. *)
Inductive signal := FrameAvailable | OutputAvailable.

#[global] Instance signal_eq_dec : EqDecision signal.
Proof. solve_decision. Defined.

(** What other threads do while this one sleeps; a processor's [stop] clears
    the flag and signals both conditions. *)
Inductive other := Frame (port : Z) (b : CamBuffer) | Qbuf (port : Z) (b : CamBuffer) | StopThread.

(** A sleep: what others do, and whether the time ran out. *)
Abbreviation wake := (list other * bool)%type.

Section BufferQueue.
(** Whether [getStreamType] of a buffer is [CAMERA_STREAM_INPUT]. *)
Context (is_input_stream : Z -> bool).
Implicit Types (s : BufferQueue) (b : CamBuffer).

Definition set_producer p s := QueueOf p (mBufferConsumerList s) (mInputFrameInfo s) (mOutputFrameInfo s) (mInputQueue s) (mOutputQueue s) (mInternalBuffers s) (mThreadRunning s).
Definition set_consumer_list l s := QueueOf (mBufferProducer s) l (mInputFrameInfo s) (mOutputFrameInfo s) (mInputQueue s) (mOutputQueue s) (mInternalBuffers s) (mThreadRunning s).
Definition set_frames i o s := QueueOf (mBufferProducer s) (mBufferConsumerList s) i o (mInputQueue s) (mOutputQueue s) (mInternalBuffers s) (mThreadRunning s).
Definition set_queues i o s := QueueOf (mBufferProducer s) (mBufferConsumerList s) (mInputFrameInfo s) (mOutputFrameInfo s) i o (mInternalBuffers s) (mThreadRunning s).
Definition set_internal m s := QueueOf (mBufferProducer s) (mBufferConsumerList s) (mInputFrameInfo s) (mOutputFrameInfo s) (mInputQueue s) (mOutputQueue s) m (mThreadRunning s).
Definition set_running r s := QueueOf (mBufferProducer s) (mBufferConsumerList s) (mInputFrameInfo s) (mOutputFrameInfo s) (mInputQueue s) (mOutputQueue s) (mInternalBuffers s) r.

Definition new_BufferQueue : BufferQueue := QueueOf None [] ∅ ∅ ∅ ∅ ∅ false.

(** ** Operations *)

Definition is_nil {A} (l : list A) : bool := match l with [] => true | _ => false end.

(** The last result is what is signalled. *)
Definition queueInputBuffer (port : Z) b s : Z * BufferQueue * list signal :=
  match mInputQueue s !! port with
  | None => (OK, s, [])
  | Some input =>
      let needSignal := is_nil input in
      (OK, set_queues (<[port := input ++ [b]]> (mInputQueue s)) (mOutputQueue s) s,
       if needSignal then [FrameAvailable] else [])
  end.

Definition onFrameAvailable (port : Z) b s : Z * BufferQueue * list signal := queueInputBuffer port b s.

(** The last result is the producer that this queue registers at. *)
Definition setBufferProducer (producer : option Z) s : BufferQueue * option Z := (set_producer producer s, producer).

Definition addFrameAvailableListener (listener : Z) s : BufferQueue :=
  if bool_decide (listener ∈ mBufferConsumerList s) then s
  else set_consumer_list (mBufferConsumerList s ++ [listener]) s.

Fixpoint erase_first (listener : Z) (l : list Z) : list Z :=
  match l with [] => [] | x :: l => if x =? listener then l else x :: erase_first listener l end.

Definition removeFrameAvailableListener (listener : Z) s : BufferQueue :=
  set_consumer_list (erase_first listener (mBufferConsumerList s)) s.

Definition is_input b : bool := match b with Some a => is_input_stream a | None => false end.

Definition qbuf (port : Z) b s : Z * BufferQueue * list signal :=
  if is_input b then queueInputBuffer port b s else
  match mOutputQueue s !! port with
  | None => (BAD_VALUE, s, [])
  | Some output =>
      let needSignal := is_nil output in
      (OK, set_queues (mInputQueue s) (<[port := output ++ [b]]> (mOutputQueue s)) s,
       if needSignal then [OutputAvailable] else [])
  end.

Definition clearBufferQueues s : BufferQueue :=
  set_queues ((fun _ => []) <$> mInputFrameInfo s) ((fun _ => []) <$> mOutputFrameInfo s) s.

Definition setFrameInfo (inputInfo outputInfo : gmap Z stream_t) s : BufferQueue :=
  clearBufferQueues (set_frames inputInfo outputInfo s).

Definition getFrameInfo s : gmap Z stream_t * gmap Z stream_t := (mInputFrameInfo s, mOutputFrameInfo s).

(** ** Waiting *)

Definition do_other (e : other) s : BufferQueue * list signal :=
  match e with
  | Frame port b => let '(_, s, g) := onFrameAvailable port b s in (s, g)
  | Qbuf port b => let '(_, s, g) := qbuf port b s in (s, g)
  | StopThread => (set_running false s, [FrameAvailable; OutputAvailable])
  end.

Fixpoint do_others (es : list other) s : BufferQueue * list signal :=
  match es with
  | [] => (s, [])
  | e :: es => let '(s, g) := do_other e s in let '(s, gs) := do_others es s in (s, g ++ gs)
  end.

(** The ports of the queues, in the order of the map. *)
Definition ports (queue : gmap Z CameraBufQ) : list Z := merge_sort Z.le (keys queue).

Definition front_of (queue : gmap Z CameraBufQ) (port : Z) : option CamBuffer := q ← queue !! port; head q.

(** [waitBufferQueue] over the ports of [mInputQueue] or [mOutputQueue]; every
    port waits at most once.  [None]: the thread still sleeps. *)
Fixpoint wait_each (queue : BufferQueue -> gmap Z CameraBufQ) (ps : list Z) (timeout : Z) (wakes : list wake) s
    : option (bool * BufferQueue * list wake) :=
  match ps with
  | [] => Some (true, s, wakes)
  | p :: ps =>
      match front_of (queue s) p with
      | Some _ => wait_each queue ps timeout wakes s
      | None =>
          if timeout <=? 0 then Some (false, s, wakes) else
          if negb (mThreadRunning s) then Some (false, s, wakes) else
          match wakes with
          | [] => None
          | (es, _) :: wakes =>
              let s := fst (do_others es s) in
              match front_of (queue s) p with
              | Some _ => wait_each queue ps timeout wakes s
              | None => Some (false, s, wakes)
              end
          end
      end
  end.

Definition waitBufferQueue (queue : BufferQueue -> gmap Z CameraBufQ) (timeout : Z) (wakes : list wake) s
    : option (bool * BufferQueue * list wake) :=
  wait_each queue (ports (queue s)) timeout wakes s.

(** One port of [waitFreeBuffersInQueue]: the front of its queue and the last
    [ret], or the status the function returns at once. *)
Inductive port_wait :=
| Got (b : CamBuffer) (ret : Z) (s : BufferQueue) (wakes : list wake)
| Returned (status : Z) (s : BufferQueue) (wakes : list wake).

Fixpoint wait_port (queue : BufferQueue -> gmap Z CameraBufQ) (port : Z) (ret : Z) s (wakes : list wake) : option port_wait :=
  match front_of (queue s) port with
  | Some b => Some (Got b ret s wakes)
  | None =>
      match wakes with
      | [] => None
      | (es, timed_out) :: wakes =>
          let s := fst (do_others es s) in
          let ret := if timed_out then TIMED_OUT else OK in
          if negb (mThreadRunning s) then Some (Returned OK s wakes) else
          if ret =? TIMED_OUT then Some (Returned TIMED_OUT s wakes) else
          wait_port queue port ret s wakes
      end
  end.

(** All ports; the third result is what the map of fetched buffers holds, and
    the first is [true] when the function goes on. *)
Fixpoint wait_ports (queue : BufferQueue -> gmap Z CameraBufQ) (ps : list Z) (ret : Z) (fetched : gmap Z CamBuffer) s
    (wakes : list wake) : option (bool * Z * gmap Z CamBuffer * BufferQueue * list wake) :=
  match ps with
  | [] => Some (true, ret, fetched, s, wakes)
  | p :: ps =>
      r ← wait_port queue p ret s wakes;
      match r with
      | Got b ret s wakes => wait_ports queue ps ret (<[p := b]> fetched) s wakes
      | Returned status s wakes => Some (false, status, fetched, s, wakes)
      end
  end.

Definition waitFreeBuffersInQueue (cInBuffer cOutBuffer : gmap Z CamBuffer) s (wakes : list wake)
    : option (Z * gmap Z CamBuffer * gmap Z CamBuffer * BufferQueue * list wake) :=
  if negb (mThreadRunning s) then Some (OK, cInBuffer, cOutBuffer, s, wakes) else
  '(goes_on, ret, cInBuffer, s, wakes) ← wait_ports mInputQueue (ports (mInputQueue s)) OK cInBuffer s wakes;
  if negb goes_on then Some (ret, cInBuffer, cOutBuffer, s, wakes) else
  '(_, ret, cOutBuffer, s, wakes) ← wait_ports mOutputQueue (ports (mOutputQueue s)) ret cOutBuffer s wakes;
  Some (ret, cInBuffer, cOutBuffer, s, wakes).
End BufferQueue.

(** ** The buffers of the producer *)

(** A producer's functions, and the making of buffers: [create] can answer a
    null pointer. *)
Class Producer (W : Type) := {
  getMemoryType : Z;
  allocateMemory : Z -> Z -> W -> Z * W;
  producer_qbuf : Z -> Z -> W -> Z * W;
  create : Z -> Z -> Z -> Z -> Z -> W -> option Z * W;
  make_mmap : Z -> Z -> Z -> Z -> Z -> W -> Z * W;
}.

Section Alloc.
Context {W : Type} `{Producer W} (isISYSCompression : bool).
Implicit Types (s : BufferQueue) (w : W).

(** A buffer of one port, or the status the function returns. *)
Definition make_buffer (port size i : Z) (info : stream_t) w : (Z + Z) * W :=
  let '(f, x, y) := (s_format info, s_width info, s_height info) in
  if getMemoryType =? V4L2_MEMORY_USERPTR then
    let '(b, w) := create size i f x y w in
    (match b with Some a => inl a | None => inr NO_MEMORY end, w)
  else if getMemoryType =? V4L2_MEMORY_MMAP then
    let '(a, w) := make_mmap size i f x y w in
    let '(_, w) := allocateMemory port a w in (inl a, w)
  else (inr BAD_VALUE, w).

Fixpoint alloc_port (port size : Z) (info : stream_t) (indices : list Z) (internal : gmap Z CameraBufQ) w
    : Z * gmap Z CameraBufQ * W :=
  match indices with
  | [] => (OK, internal, w)
  | i :: rest =>
      match make_buffer port size i info w with
      | (inr status, w) => (status, internal, w)
      | (inl a, w) =>
          let internal := <[port := default [] (internal !! port) ++ [Some a]]> internal in
          let '(_, w) := producer_qbuf port a w in
          alloc_port port size info rest internal w
      end
  end.

(** [None] is the overflow of a frame size. *)
Fixpoint alloc_ports (frames : gmap Z stream_t) (ps : list Z) (bufNum : Z) (internal : gmap Z CameraBufQ) w
    : option (Z * gmap Z CameraBufQ * W) :=
  match ps with
  | [] => Some (OK, internal, w)
  | port :: rest =>
      match frames !! port with
      | None => alloc_ports frames rest bufNum internal w
      | Some info =>
          size ← if isISYSCompression
                 then getFrameSize (s_format info) (s_width info) (s_height info) false true true
                 else getFrameSize (s_format info) (s_width info) (s_height info) false true false;
          let '(ret, internal, w) := alloc_port port size info (range 0 bufNum) internal w in
          if negb (ret =? OK) then Some (ret, internal, w)
          else alloc_ports frames rest bufNum internal w
      end
  end.

Definition allocProducerBuffers (bufNum : Z) s w : option (Z * BufferQueue * W) :=
  let s := set_internal ∅ s in
  match mBufferProducer s with
  | None => Some (BAD_VALUE, s, w)
  | Some _ =>
      '(ret, internal, w) ← alloc_ports (mInputFrameInfo s) (merge_sort Z.le (keys (mInputFrameInfo s))) bufNum ∅ w;
      Some (ret, set_internal internal s, w)
  end.
End Alloc.

(** ** Queues only grow while the thread sleeps *)

(** Every queue has the buffers it had, in front of new ones. *)
Definition grows (q q' : gmap Z CameraBufQ) : Prop :=
  (forall p l, q !! p = Some l -> exists more, q' !! p = Some (l ++ more))
  /\ (forall p, q !! p = None -> q' !! p = None).

#[global] Instance grows_preorder : PreOrder grows.
Proof.
  split.
  - intros q. split; [|done]. intros p l E. exists []. by rewrite app_nil_r.
  - intros q1 q2 q3 [A1 A2] [B1 B2]. split; [|auto]. intros p l E.
    destruct (A1 p l E) as [m1 E1]. destruct (B1 p _ E1) as [m2 E2]. exists (m1 ++ m2). by rewrite app_assoc.
Qed.

Lemma grows_insert (q : gmap Z CameraBufQ) p l b : q !! p = Some l -> grows q (<[p := l ++ [b]]> q).
Proof.
  intros E. split.
  - intros p' l' E'. destruct (decide (p = p')) as [<-|Hne].
    + rewrite lookup_insert_eq. rewrite E in E'. injection E' as <-. by exists [b].
    + exists []. rewrite lookup_insert_ne, app_nil_r by done. done.
  - intros p' E'. rewrite lookup_insert_ne; [done|congruence].
Qed.

Lemma grows_front q q' p b : grows q q' -> front_of q p = Some b -> front_of q' p = Some b.
Proof.
  intros [Hg _]. unfold front_of. destruct (q !! p) as [l|] eqn:E; [|done].
  destruct (Hg p l E) as [more ->]. by destruct l.
Qed.

Section Growth.
Context (is_input_stream : Z -> bool).
Implicit Types (s : BufferQueue) (b : CamBuffer).

Lemma queueInput_grows port b s :
  let s' := snd (fst (queueInputBuffer port b s)) in
  grows (mInputQueue s) (mInputQueue s') /\ mOutputQueue s' = mOutputQueue s /\ mThreadRunning s' = mThreadRunning s.
Proof.
  unfold queueInputBuffer. destruct (mInputQueue s !! port) as [l|] eqn:E; cbn; [|done].
  by split; [apply grows_insert|].
Qed.

Lemma do_other_grows e s :
  let s' := fst (do_other is_input_stream e s) in
  grows (mInputQueue s) (mInputQueue s') /\ grows (mOutputQueue s) (mOutputQueue s').
Proof.
  destruct e as [port b|port b|]; cbn [do_other]; [..|done].
  - unfold onFrameAvailable. pose proof (queueInput_grows port b s) as H.
    destruct (queueInputBuffer port b s) as [[r s'] g]. cbn in *. destruct H as (H & -> & _). done.
  - unfold qbuf. destruct (is_input is_input_stream b).
    + pose proof (queueInput_grows port b s) as H.
      destruct (queueInputBuffer port b s) as [[r s'] g]. cbn in *. destruct H as (H & -> & _). done.
    + destruct (mOutputQueue s !! port) as [l|] eqn:E; cbn; [|done]. by split; [|apply grows_insert].
Qed.

Lemma do_others_grows es s :
  let s' := fst (do_others is_input_stream es s) in
  grows (mInputQueue s) (mInputQueue s') /\ grows (mOutputQueue s) (mOutputQueue s').
Proof.
  revert s. induction es as [|e es IH]; intros s; [done|]. cbn [do_others].
  pose proof (do_other_grows e s) as [H1 H2]. destruct (do_other is_input_stream e s) as [s1 g]. cbn in H1, H2.
  specialize (IH s1). destruct (do_others is_input_stream es s1) as [s2 gs]. cbn in *. destruct IH as [I1 I2].
  by split; etrans.
Qed.
End Growth.

Lemma do_others_app is_input_stream es es' s :
  fst (do_others is_input_stream (es ++ es') s) = fst (do_others is_input_stream es' (fst (do_others is_input_stream es s))).
Proof.
  revert s. induction es as [|e es IH]; intros s; [done|]. cbn [app do_others].
  destruct (do_other is_input_stream e s) as [s1 g]. specialize (IH s1).
  destruct (do_others is_input_stream (es ++ es') s1), (do_others is_input_stream es s1). exact IH.
Qed.

(** ** What a wait leaves *)

(** The state after a sleep has all the buffers from before. *)
Definition later s s' : Prop := grows (mInputQueue s) (mInputQueue s') /\ grows (mOutputQueue s) (mOutputQueue s').

#[global] Instance later_preorder : PreOrder later.
Proof. split; [by split|]. intros s1 s2 s3 [A1 A2] [B1 B2]. by split; etrans. Qed.

Section Waits.
Context (is_input_stream : Z -> bool) (queue : BufferQueue -> gmap Z CameraBufQ).
Context (Hqueue : forall s s', later s s' -> grows (queue s) (queue s')).
Implicit Types (s : BufferQueue) (b : CamBuffer).

Lemma wait_port_spec port ret s wakes r :
  mThreadRunning s = true -> wait_port is_input_stream queue port ret s wakes = Some r ->
  match r with
  | Got b ret' s' _ => later s s' /\ mThreadRunning s' = true /\ front_of (queue s') port = Some b
                       /\ (ret' = ret \/ ret' = OK)
  | Returned status s' _ => later s s' /\ ((status = TIMED_OUT /\ mThreadRunning s' = true)
                                           \/ (status = OK /\ mThreadRunning s' = false))
  end.
Proof.
  revert ret s. induction wakes as [|[es timed_out] wakes IH]; intros ret s Hr; cbn [wait_port];
    destruct (front_of (queue s) port) as [b|] eqn:E; try done;
    [intros [= <-]; split_and!; [reflexivity|auto..]|intros [= <-]; split_and!; [reflexivity|auto..]|].
  pose proof (do_others_grows is_input_stream es s) as Hg.
  destruct (mThreadRunning (fst (do_others is_input_stream es s))) eqn:Hr'; cbn [negb].
  - destruct timed_out; cbn [Z.eqb].
    + intros [= <-]. split; [done|]. by left.
    + intros Hw. specialize (IH OK _ Hr' Hw). destruct r as [b ret' s' w'|st s' w'].
      * destruct IH as (I1 & I2 & I3 & I4). split; [by etrans|]. split_and!; try done. right. by destruct I4.
      * destruct IH as [I1 I2]. split; [by etrans|done].
  - intros [= <-]. split; [done|]. by right.
Qed.

Lemma wait_ports_spec ps ret fetched s wakes goes_on ret' fetched' s' wakes' :
  mThreadRunning s = true -> NoDup ps ->
  wait_ports is_input_stream queue ps ret fetched s wakes = Some (goes_on, ret', fetched', s', wakes') ->
  later s s'
  /\ if goes_on
     then mThreadRunning s' = true /\ (ret' = ret \/ ret' = OK)
          /\ (forall p, p ∈ ps -> exists b, front_of (queue s') p = Some b /\ fetched' !! p = Some b)
          /\ (forall p, p ∉ ps -> fetched' !! p = fetched !! p)
     else (ret' = TIMED_OUT /\ mThreadRunning s' = true) \/ (ret' = OK /\ mThreadRunning s' = false).
Proof.
  revert ret fetched s wakes. induction ps as [|p ps IH]; intros ret fetched s wakes Hr Hn; cbn [wait_ports].
  { intros [= <- <- <- <- <-]. split; [reflexivity|]. split_and!; auto. by intros p Hp%elem_of_nil. }
  destruct (wait_port _ _ p ret s wakes) as [r|] eqn:Ew; [|done]. cbn [mbind option_bind].
  pose proof (wait_port_spec p ret s wakes r Hr Ew) as Hspec. apply NoDup_cons in Hn as [Hp Hn].
  destruct r as [b ret1 s1 w1|st s1 w1].
  - destruct Hspec as (Hl & Hr1 & Hf & Hret). intros Hw. specialize (IH _ _ _ _ Hr1 Hn Hw).
    destruct IH as [I1 I2]. split; [by etrans|]. destruct goes_on; [|done].
    destruct I2 as (J1 & J2 & J3 & J4). split; [done|]. split; [by destruct J2 as [-> | ->]; auto|]. split.
    + intros q [-> | Hq]%elem_of_cons; [|by apply J3]. exists b.
      split; [by eapply grows_front; [apply Hqueue|]|]. rewrite J4, lookup_insert_eq by done. done.
    + intros q Hq. apply not_elem_of_cons in Hq as [Hq1 Hq2]. rewrite J4 by done.
      by apply lookup_insert_ne.
  - destruct Hspec as [Hl Hst]. intros [= <- <- <- <- <-]. by split.
Qed.

(** The state once the others have done all they do. *)
Definition final (wakes : list wake) s : BufferQueue := fst (do_others is_input_stream (concat (fst <$> wakes)) s).

Lemma final_cons es t wakes s : final ((es, t) :: wakes) s = final wakes (fst (do_others is_input_stream es s)).
Proof. unfold final. csimpl. apply do_others_app. Qed.

(** A port that is waited for in vain is empty at the end. *)
Lemma wait_port_final port ret s wakes :
  match wait_port is_input_stream queue port ret s wakes with
  | None => front_of (queue (final wakes s)) port = None
  | Some (Got _ _ s' wakes') => final wakes' s' = final wakes s
  | Some (Returned _ _ _) => True
  end.
Proof.
  revert ret s. induction wakes as [|[es timed_out] wakes IH]; intros ret s; cbn [wait_port];
    destruct (front_of (queue s) port) as [b|] eqn:E; try done.
  destruct (negb _); [done|]. destruct (_ =? TIMED_OUT); [done|].
  specialize (IH (if timed_out then TIMED_OUT else OK) (fst (do_others is_input_stream es s))).
  rewrite final_cons. exact IH.
Qed.

Lemma wait_ports_final ps ret fetched s wakes :
  match wait_ports is_input_stream queue ps ret fetched s wakes with
  | None => exists p, p ∈ ps /\ front_of (queue (final wakes s)) p = None
  | Some (true, _, _, s', wakes') => final wakes' s' = final wakes s
  | Some (false, _, _, _, _) => True
  end.
Proof.
  revert ret fetched s wakes. induction ps as [|p ps IH]; intros ret fetched s wakes; [done|]. cbn [wait_ports].
  pose proof (wait_port_final p ret s wakes) as Hw.
  destruct (wait_port _ _ p ret s wakes) as [[b ret1 s1 w1|st s1 w1]|]; cbn [mbind option_bind]; [|done|].
  - specialize (IH ret1 (<[p := b]> fetched) s1 w1). rewrite Hw in IH.
    destruct (wait_ports _ _ ps ret1 _ s1 w1) as [[[[[[] ?] ?] ?] ?]|]; [done..|].
    destruct IH as (q & Hq & IH). exists q. split; [by right|done].
  - exists p. split; [by left|done].
Qed.
End Waits.

Lemma in_ports (q : gmap Z CameraBufQ) p : p ∈ ports q <-> is_Some (q !! p).
Proof. unfold ports. by rewrite merge_sort_Permutation, keys_spec. Qed.

Lemma ports_nodup (q : gmap Z CameraBufQ) : NoDup (ports q).
Proof. unfold ports. rewrite merge_sort_Permutation. apply NoDup_fst_map_to_list. Qed.

Lemma front_cons (q : gmap Z CameraBufQ) p b l : front_of q p = Some b -> q !! p = Some l -> exists rest, l = b :: rest.
Proof. unfold front_of. intros E Hl. rewrite Hl in E. destruct l as [|x l]; [done|]. injection E as ->. by exists l. Qed.

Lemma later_in_ports s s' p : later s s' -> is_Some (mInputQueue s' !! p) -> is_Some (mInputQueue s !! p).
Proof. intros [[_ Hn] _] [l E]. destruct (mInputQueue s !! p) eqn:Ep; [done|]. by rewrite Hn in E. Qed.

Lemma later_out_ports s s' p : later s s' -> is_Some (mOutputQueue s' !! p) -> is_Some (mOutputQueue s !! p).
Proof. intros [_ [_ Hn]] [l E]. destruct (mOutputQueue s !! p) eqn:Ep; [done|]. by rewrite Hn in E. Qed.

(** ** Theorems *)

Section Theorems.
Context (is_input_stream : Z -> bool).
Implicit Types (s : BufferQueue) (b : CamBuffer).

(** When the wait goes through, the buffers it fetched are the oldest of every
    input and every output queue, and none of other ports; otherwise its status is [TIMED_OUT], or the
    thread was stopped. *)
Theorem fetched_are_oldest cIn cOut s wakes ret cIn' cOut' s' wakes' :
  waitFreeBuffersInQueue is_input_stream cIn cOut s wakes = Some (ret, cIn', cOut', s', wakes') ->
  (mThreadRunning s' = true ->
   ret = TIMED_OUT
   \/ ret = OK
      /\ (forall p l, mInputQueue s' !! p = Some l -> exists b rest, l = b :: rest /\ cIn' !! p = Some b)
      /\ (forall p l, mOutputQueue s' !! p = Some l -> exists b rest, l = b :: rest /\ cOut' !! p = Some b)
      /\ (forall p, mInputQueue s' !! p = None -> cIn' !! p = cIn !! p)
      /\ (forall p, mOutputQueue s' !! p = None -> cOut' !! p = cOut !! p))
  /\ (mThreadRunning s' = false -> ret = OK) /\ later s s'.
Proof.
  unfold waitFreeBuffersInQueue. destruct (mThreadRunning s) eqn:Hr; cbn [negb].
  2: { intros [= <- <- <- <- <-]. rewrite Hr. split; [done|]. split; [done|reflexivity]. }
  destruct (wait_ports _ mInputQueue _ OK cIn s wakes) as [[[[[go r1] f1] s1] w1]|] eqn:E1; [|done].
  cbn [mbind option_bind]. apply wait_ports_spec in E1 as [L1 E1]; [|by intros ? ? []|done|apply ports_nodup].
  destruct go; cbn [negb].
  2: { intros [= <- <- <- <- <-]. destruct E1 as [[-> ->]|[-> ->]]; split_and!; auto; done. }
  destruct E1 as (R1 & O1 & F1 & N1). assert (r1 = OK) as -> by (by destruct O1).
  destruct (wait_ports _ mOutputQueue _ OK cOut s1 w1) as [[[[[go2 r2] f2] s2] w2]|] eqn:E2; [|done].
  cbn [mbind option_bind]. apply wait_ports_spec in E2 as [L2 E2]; [|by intros ? ? []|done|apply ports_nodup].
  intros [= <- <- <- <- <-]. split; [|split; [|by etrans]].
  - intros R2. destruct go2; [|destruct E2 as [[-> _]|[_ E2]]; [by left|congruence]]. right.
    destruct E2 as (_ & O2 & F2 & N2). split; [by destruct O2|]. split_and!.
    + intros p l Hl. destruct (F1 p) as (b & Hb & Hf).
      { apply in_ports, (later_in_ports s s2); [by etrans|by eexists]. }
      destruct L2 as [L2 _]. pose proof (grows_front _ _ _ _ L2 Hb) as Hb2.
      destruct (front_cons _ _ _ _ Hb2 Hl) as [rest ->]. by exists b, rest.
    + intros p l Hl. destruct (F2 p) as (b & Hb & Hf).
      { apply in_ports, (later_out_ports s1 s2); [done|by eexists]. }
      destruct (front_cons _ _ _ _ Hb Hl) as [rest ->]. by exists b, rest.
    + intros p Hp. apply N1. rewrite in_ports. intros [l Hl].
      assert (later s s2) as [[Hg _] _] by (by etrans). destruct (Hg p l Hl) as [more E]. congruence.
    + intros p Hp. apply N2. rewrite in_ports. intros [l Hl].
      destruct L2 as [_ [Hg _]]. destruct (Hg p l Hl) as [more E]. congruence.
  - intros R2. destruct go2; [by destruct E2; congruence|]. destruct E2 as [[_ E2]|[-> _]]; [congruence|done].
Qed.

(** A wait ends when the others have put a buffer into every queue. *)
Theorem wait_ends_once_filled cIn cOut s wakes :
  (forall p l, mInputQueue (final is_input_stream wakes s) !! p = Some l -> l <> []) ->
  (forall p l, mOutputQueue (final is_input_stream wakes s) !! p = Some l -> l <> []) ->
  is_Some (waitFreeBuffersInQueue is_input_stream cIn cOut s wakes).
Proof.
  intros Hin Hout. unfold waitFreeBuffersInQueue. destruct (negb _); [done|].
  assert (Hl : later s (final is_input_stream wakes s)) by apply do_others_grows.
  pose proof (wait_ports_final is_input_stream mInputQueue (ports (mInputQueue s)) OK cIn s wakes) as W1.
  destruct (wait_ports _ mInputQueue _ OK cIn s wakes) as [[[[[go r1] f1] s1] w1]|]; cbn [mbind option_bind].
  2: { destruct W1 as (p & Hp & Hf). apply in_ports in Hp as [l Hp]. destruct Hl as [[Hg _] _].
       destruct (Hg p l Hp) as [more E]. specialize (Hin p _ E). unfold front_of in Hf. rewrite E in Hf.
       by destruct (l ++ more). }
  destruct go; cbn [negb]; [|done].
  pose proof (wait_ports_final is_input_stream mOutputQueue (ports (mOutputQueue s1)) r1 cOut s1 w1) as W2.
  destruct (wait_ports _ mOutputQueue _ r1 cOut s1 w1) as [[[[[go2 r2] f2] s2] w2]|]; cbn [mbind option_bind]; [done|].
  destruct W2 as (p & Hp & Hf). apply in_ports in Hp as [l Hp].
  assert (later s1 (final is_input_stream w1 s1)) as [_ [Hg _]] by apply do_others_grows.
  destruct (Hg p l Hp) as [more E]. unfold front_of in Hf. rewrite E in Hf. rewrite W1 in E.
  specialize (Hout p _ E). by destruct (l ++ more).
Qed.

(** What others bring for an input or an output port. *)
Definition input_arrival (p : Z) (e : other) : list CamBuffer :=
  match e with
  | Frame port b => if port =? p then [b] else []
  | Qbuf port b => if (port =? p) && is_input is_input_stream b then [b] else []
  | StopThread => []
  end.
Definition output_arrival (p : Z) (e : other) : list CamBuffer :=
  match e with
  | Qbuf port b => if (port =? p) && negb (is_input is_input_stream b) then [b] else []
  | _ => []
  end.

Lemma do_other_arrival e s p :
  let s' := fst (do_other is_input_stream e s) in
  mInputQueue s' !! p = (fun l => l ++ input_arrival p e) <$> mInputQueue s !! p
  /\ mOutputQueue s' !! p = (fun l => l ++ output_arrival p e) <$> mOutputQueue s !! p.
Proof.
  assert (Hnil : forall o : option CameraBufQ, o = (fun l => l ++ []) <$> o)
    by (intros [l|]; cbn; by rewrite ?app_nil_r).
  assert (Hins : forall (m : gmap Z CameraBufQ) port b l, m !! port = Some l ->
    <[port := l ++ [b]]> m !! p = (fun l => l ++ (if port =? p then [b] else [])) <$> m !! p).
  { intros m port b l E. destruct (Z.eqb_spec port p) as [<-|Hne].
    - by rewrite lookup_insert_eq, E.
    - rewrite lookup_insert_ne by done. apply Hnil. }
  assert (Hout : forall (m : gmap Z CameraBufQ) port b, m !! port = None ->
    m !! p = (fun l => l ++ (if port =? p then [b] else [])) <$> m !! p).
  { intros m port b E. destruct (Z.eqb_spec port p) as [<-|Hne]; [by rewrite E|apply Hnil]. }
  destruct e as [port b|port b|]; cbn [do_other input_arrival output_arrival].
  - unfold onFrameAvailable, queueInputBuffer. destruct (mInputQueue s !! port) as [l|] eqn:E; cbn; auto.
  - unfold qbuf, queueInputBuffer. destruct (is_input is_input_stream b); cbn [negb];
      rewrite ?andb_true_r, ?andb_false_r.
    + destruct (mInputQueue s !! port) as [l|] eqn:E; cbn; auto.
    + destruct (mOutputQueue s !! port) as [l|] eqn:E; cbn; auto.
  - auto.
Qed.

(** Every queue keeps the order of arrival: what it holds after any operations
    of others is what it held, followed by the buffers that came for its port.
    Buffers for a port without a queue are left out. *)
Theorem queues_keep_arrival_order es s p :
  let s' := fst (do_others is_input_stream es s) in
  mInputQueue s' !! p = (fun l => l ++ concat (input_arrival p <$> es)) <$> mInputQueue s !! p
  /\ mOutputQueue s' !! p = (fun l => l ++ concat (output_arrival p <$> es)) <$> mOutputQueue s !! p.
Proof.
  revert s. induction es as [|e es IH]; intros s.
  { cbn. split; [destruct (mInputQueue s !! p)|destruct (mOutputQueue s !! p)]; cbn; by rewrite ?app_nil_r. }
  cbn [do_others]. pose proof (do_other_arrival e s p) as [H1 H2].
  destruct (do_other is_input_stream e s) as [s1 g]. cbn in H1, H2. specialize (IH s1).
  destruct (do_others is_input_stream es s1) as [s2 gs]. cbn in *. destruct IH as [-> ->]. rewrite H1, H2.
  split; [destruct (mInputQueue s !! p)|destruct (mOutputQueue s !! p)]; csimpl; by rewrite ?app_assoc.
Qed.

Lemma do_other_signals e s p :
  let r := do_other is_input_stream e s in
  (mInputQueue s !! p = Some [] -> front_of (mInputQueue (fst r)) p <> None -> FrameAvailable ∈ snd r)
  /\ (mOutputQueue s !! p = Some [] -> front_of (mOutputQueue (fst r)) p <> None -> OutputAvailable ∈ snd r).
Proof.
  cbv zeta. destruct (do_other_arrival e s p) as [A1 A2]. unfold front_of. rewrite A1, A2.
  split; intros E; rewrite E; cbn [fmap option_fmap option_map mbind option_bind app].
  - destruct e as [port b|port b|]; cbn [input_arrival do_other]; [..|set_solver].
    + destruct (Z.eqb_spec port p) as [->|]; [|done]. unfold onFrameAvailable, queueInputBuffer. rewrite E. set_solver.
    + destruct (Z.eqb_spec port p) as [->|]; [|done]. cbn [andb]. unfold qbuf.
      destruct (is_input is_input_stream b); [|done]. unfold queueInputBuffer. rewrite E. set_solver.
  - destruct e as [port b|port b|]; cbn [output_arrival do_other]; [done| |set_solver].
    destruct (Z.eqb_spec port p) as [->|]; [|done]. cbn [andb]. unfold qbuf.
    destruct (is_input is_input_stream b); [done|]. rewrite E. set_solver.
Qed.

(** A thread that sleeps on an empty queue is signalled by the time the queue
    has a buffer: an operation that fills an empty queue signals its
    condition, so no wake-up is lost. *)
Theorem sleeper_is_signalled es s p :
  let r := do_others is_input_stream es s in
  (mInputQueue s !! p = Some [] -> front_of (mInputQueue (fst r)) p <> None -> FrameAvailable ∈ snd r)
  /\ (mOutputQueue s !! p = Some [] -> front_of (mOutputQueue (fst r)) p <> None -> OutputAvailable ∈ snd r).
Proof.
  cbv zeta. revert s. induction es as [|e es IH]; intros s.
  { unfold front_of. cbn. split; intros ->; done. }
  cbn [do_others]. pose proof (do_other_signals e s p) as H1. pose proof (do_other_arrival e s p) as [A1 A2].
  destruct (do_other is_input_stream e s) as [s1 g]. cbn in H1, A1, A2. specialize (IH s1).
  destruct (do_others is_input_stream es s1) as [s2 gs]. cbn in *. destruct H1 as [H1 H2], IH as [I1 I2].
  setoid_rewrite elem_of_app. split; intros E Hf; rewrite E in *; cbn in *.
  - destruct (input_arrival p e) as [|b l] eqn:Ea; [right; by apply I1|]. left. apply H1; [done|].
    unfold front_of. by rewrite A1.
  - destruct (output_arrival p e) as [|b l] eqn:Ea; [right; by apply I2|]. left. apply H2; [done|].
    unfold front_of. by rewrite A2.
Qed.

(** Frames for a port the processor does not have are dropped with [OK], free
    buffers for one are refused, and neither changes anything. *)
Theorem unknown_port_refused port b s :
  (mInputQueue s !! port = None -> onFrameAvailable port b s = (OK, s, []))
  /\ (mOutputQueue s !! port = None -> is_input is_input_stream b = false ->
      qbuf is_input_stream port b s = (BAD_VALUE, s, [])).
Proof.
  unfold onFrameAvailable, queueInputBuffer, qbuf. split; [by intros ->|]. by intros -> ->.
Qed.

Lemma filter_not_in (x : Z) (l : list Z) : x ∉ l -> filter (fun y => y <> x) l = l.
Proof.
  induction l as [|y l IH]; [done|]. intros [Hy Hl]%not_elem_of_cons.
  rewrite filter_cons, decide_True by congruence. by rewrite IH.
Qed.

(** A consumer is registered once, however often it is added, and is gone after
    one removal; the others keep their order. *)
Theorem listeners_once x s :
  NoDup (mBufferConsumerList s) ->
  NoDup (mBufferConsumerList (addFrameAvailableListener x s))
  /\ addFrameAvailableListener x (addFrameAvailableListener x s) = addFrameAvailableListener x s
  /\ mBufferConsumerList (removeFrameAvailableListener x s) = filter (fun y => y <> x) (mBufferConsumerList s).
Proof.
  intros Hn. unfold addFrameAvailableListener, removeFrameAvailableListener. split; [|split].
  - case_bool_decide; [done|]. cbn. apply NoDup_app. split; [done|]. split; [|apply NoDup_singleton].
    by intros y Hy ->%list_elem_of_singleton.
  - destruct (decide (x ∈ mBufferConsumerList s)) as [Hx|Hx]; [by rewrite !(bool_decide_eq_true_2 _ Hx)|].
    rewrite (bool_decide_eq_false_2 _ Hx). cbn. rewrite bool_decide_eq_true_2; [done|set_solver].
  - cbn. revert Hn. generalize (mBufferConsumerList s). intros l Hn. induction Hn as [|y l Hy Hn IH]; [done|]. cbn [erase_first]. rewrite filter_cons.
    destruct (Z.eqb_spec y x) as [->|Hne].
    + rewrite decide_False by auto. symmetry. by apply filter_not_in.
    + rewrite decide_True by done. by rewrite IH.
Qed.
End Theorems.

(** A wake-up before the time is up, here for another port, makes
    [waitBufferQueue] give up, with the port it waited for still empty. *)
Theorem wait_queue_gives_up :
  let s := set_running true (set_queues {[0 := []; 1 := []]} ∅ new_BufferQueue) in
  let wakes := [([Frame 1 (Some 7)], false); ([Frame 0 (Some 8)], false)] in
  exists s', waitBufferQueue (fun _ => false) mInputQueue 1000 wakes s = Some (false, s', [([Frame 0 (Some 8)], false)]).
Proof. eexists. vm_compute. reflexivity. Qed.

(** When it answers [true] there is a buffer for every port; without a timeout
    it does not sleep. *)
Theorem wait_queue_true is_input_stream queue timeout wakes s s' wakes' :
  (forall s s', later s s' -> grows (queue s) (queue s')) ->
  waitBufferQueue is_input_stream queue timeout wakes s = Some (true, s', wakes') ->
  (forall p, p ∈ ports (queue s) -> front_of (queue s') p <> None) /\ (timeout <= 0 -> s' = s /\ wakes' = wakes).
Proof.
  intros Hq. unfold waitBufferQueue. generalize (ports (queue s)). intros ps.
  enough (G : forall s wakes, wait_each is_input_stream queue ps timeout wakes s = Some (true, s', wakes') ->
    later s s' /\ (forall p, p ∈ ps -> front_of (queue s') p <> None) /\ (timeout <= 0 -> s' = s /\ wakes' = wakes))
    by (intros E; apply G in E; tauto).
  clear s wakes. induction ps as [|p ps IH]; intros s wakes; cbn [wait_each].
  { intros [= <- <-]. split; [reflexivity|]. split; [by intros p ?%elem_of_nil|done]. }
  assert (Hgo : forall s1 w1, front_of (queue s1) p <> None -> wait_each is_input_stream queue ps timeout w1 s1 = Some (true, s', wakes') ->
    later s1 s' /\ (forall q, q ∈ p :: ps -> front_of (queue s') q <> None) /\ (timeout <= 0 -> s' = s1 /\ wakes' = w1)).
  { intros s1 w1 Hf E. destruct (IH _ _ E) as (L & F & T). split; [done|]. split; [|done].
    intros q [-> | Hin]%elem_of_cons; [|by apply F].
    destruct (front_of (queue s1) p) as [b|] eqn:Eb; [|done]. by rewrite (grows_front _ _ _ _ (Hq _ _ L) Eb). }
  destruct (front_of (queue s) p) as [b|] eqn:Ef; [apply Hgo; by rewrite Ef|].
  destruct (Z.leb_spec timeout 0); [done|]. destruct (negb _); [done|]. destruct wakes as [|[es t] wakes]; [done|].
  destruct (front_of (queue (fst (do_others is_input_stream es s))) p) eqn:Ef2; [|done].
  intros E. apply Hgo in E as (L & F & _); [|by rewrite Ef2].
  split; [etrans; [apply do_others_grows|done]|]. split; [done|lia].
Qed.

(** ** The buffers of the producer *)

Section AllocTheorems.
Context {W : Type} `{Producer W} (isISYSCompression : bool).
Implicit Types (s : BufferQueue) (w : W) (m : gmap Z CameraBufQ).

Lemma alloc_port_complete port size info indices m w m' w' :
  alloc_port port size info indices m w = (OK, m', w') ->
  (exists l, default [] (m' !! port) = default [] (m !! port) ++ (Some <$> l) /\ length l = length indices)
  /\ forall p, p <> port -> m' !! p = m !! p.
Proof.
  revert m w. induction indices as [|i indices IH]; intros m w; cbn [alloc_port].
  { intros [= <- <-]. split; [|done]. exists []. split; [by rewrite app_nil_r|done]. }
  destruct (make_buffer port size i info w) as [[a|st] w1] eqn:Em.
  - destruct (producer_qbuf port a w1) as [r w2]. intros E. destruct (IH _ _ E) as ((l & El & Hl) & Ho). split.
    + exists (a :: l). rewrite lookup_insert_eq in El. cbn [default from_option id] in El.
      rewrite El. split; [by rewrite <- app_assoc|]. cbn. by rewrite Hl.
    + intros p Hp. rewrite Ho, lookup_insert_ne by done. done.
  - intros [= -> <- <-]. exfalso. revert Em. unfold make_buffer.
    destruct (getMemoryType =? _); [destruct (create _ _ _ _ _ w) as [[?|] ?]; by intros [=]|].
    destruct (getMemoryType =? _); [|by intros [=]].
    destruct (make_mmap _ _ _ _ _ w) as [? ?], (allocateMemory _ _ _). by intros [=].
Qed.

Lemma alloc_ports_complete frames ps bufNum m w m' w' :
  NoDup ps -> (forall p, p ∈ ps -> m !! p = None) ->
  alloc_ports isISYSCompression frames ps bufNum m w = Some (OK, m', w') ->
  (forall p, p ∈ ps -> is_Some (frames !! p) ->
     exists l, default [] (m' !! p) = Some <$> l /\ length l = Z.to_nat bufNum)
  /\ forall p, p ∉ ps -> m' !! p = m !! p.
Proof.
  revert m w. induction ps as [|p ps IH]; intros m w Hn Hm; cbn [alloc_ports].
  { intros [= <- <-]. split; [by intros p ?%elem_of_nil|done]. }
  apply NoDup_cons in Hn as [Hp Hn]. destruct (frames !! p) as [info|] eqn:Ef.
  - destruct (if isISYSCompression then _ else _) as [size|]; [|done]. cbn [mbind option_bind].
    destruct (alloc_port p size info (range 0 bufNum) m w) as [[r m1] w1] eqn:Ea.
    destruct (Z.eqb_spec r OK) as [->|]; cbn [negb]; [|by intros [= -> <- <-]].
    apply alloc_port_complete in Ea as ((l & El & Hl) & Ho). intros E. apply IH in E as [I1 I2]; [|done|].
    + split.
      * intros q [-> | Hq]%elem_of_cons Hs; [|by apply I1]. rewrite I2, El by done.
        rewrite (Hm p) by (left). exists l. split; [done|]. rewrite Hl. unfold range. rewrite length_seqZ. lia.
      * intros q [Hq1 Hq2]%not_elem_of_cons. rewrite I2, Ho by done. done.
    + intros q Hq. rewrite Ho by (intros ->; done). apply Hm. by right.
  - intros E. apply IH in E as [I1 I2]; [|done|intros q Hq; apply Hm; by right]. split.
    + intros q [-> | Hq]%elem_of_cons Hs; [|by apply I1]. rewrite Ef in Hs. by destruct Hs.
    + intros q [Hq1 Hq2]%not_elem_of_cons. by apply I2.
Qed.

(** A successful allocation leaves, for every input port, as many buffers as
    were asked for, none of them null. *)
Theorem producer_buffers_complete bufNum s w s' w' p info :
  allocProducerBuffers isISYSCompression bufNum s w = Some (OK, s', w') ->
  mInputFrameInfo s !! p = Some info ->
  mInputFrameInfo s' = mInputFrameInfo s
  /\ exists l, default [] (mInternalBuffers s' !! p) = Some <$> l /\ length l = Z.to_nat bufNum.
Proof.
  unfold allocProducerBuffers. cbn [mBufferProducer set_internal mInputFrameInfo].
  destruct (mBufferProducer s); [|by intros [=]].
  destruct (alloc_ports _ _ _ bufNum ∅ w) as [[[r m] w1]|] eqn:E; [|done]. cbn [mbind option_bind].
  intros [= -> <- <-] Hp. split; [done|]. apply alloc_ports_complete in E as [E _].
  - apply E; [|by eexists]. rewrite merge_sort_Permutation, keys_spec. by eexists.
  - rewrite merge_sort_Permutation. apply NoDup_fst_map_to_list.
  - intros q _. apply lookup_empty.
Qed.
End AllocTheorems.
