(* ===== verification/SwImageConverter.v ===== *)
(** * Software image conversion

    src/iutils/SwImageConverter.cpp: Bayer and YUV images are converted block
    by block, two pixels wide and two lines high.

    A buffer is the list of its bytes.  Offsets into a byte array are
    [unsigned int] expressions and wrap; the stores of a block are a list in the
    order of the code, and a load or store outside the buffer is [None], as is
    the overflow of a stride. *)

From S2P Require Import Prelude Errors PixelFormats.
From stdpp Require Import list.
#[local] Open Scope Z_scope.

(** ** Colours *)

Definition clip (o hi : Z) : Z := let o := if hi <? o then hi else o in if o <? 0 then 0 else o.

(** Colours of ten bits; the products fit an [int]. *)
Definition RGB2YUV (R G B : Z) : Z * Z * Z :=
  let oY := Z.quot (257 * R + 504 * G + 98 * B) 4000 + 16 in
  let oU := Z.quot (- 148 * R - 291 * G + 439 * B) 4000 + 128 in
  let oV := Z.quot (439 * R - 368 * G - 71 * B) 4000 + 128 in
  (clip oY 255, clip oU 255, clip oV 255).

Definition YUV2RGB (Y U V : Z) : Z * Z * Z :=
  let Yp := Y - 16 in
  let Up := U - 128 in
  let Vp := V - 128 in
  let Ypp := 9535 * Yp in
  let oB := Z.shiftr (Ypp + 16531 * Up) 11 in
  let oG := Z.shiftr (Ypp - 6660 * Vp - 3203 * Up) 11 in
  let oR := Z.shiftr (Ypp + 13074 * Vp) 11 in
  (clip oR 1023, clip oG 1023, clip oB 1023).

(** ** Buffers *)

Abbreviation bytes := (list Z).

(** An offset and the byte stored there. *)
Abbreviation store := (Z * Z)%type.

Definition load (buf : bytes) (off : Z) : option Z := if off <? 0 then None else buf !! Z.to_nat off.

Definition put (st : store) (buf : bytes) : option bytes :=
  _ ← load buf (fst st); Some (<[Z.to_nat (fst st) := snd st]> buf).

Fixpoint put_all (l : list store) (buf : bytes) : option bytes :=
  match l with [] => Some buf | st :: l => buf ← put st buf; put_all l buf end.

(** [buf[e]] for an [unsigned int] expression [e]. *)
Definition at8 (buf : bytes) (e : Z) : option Z := load buf (u32 e).
Definition set8 (e v : Z) : list store := [(u32 e, u8 v)].

(** [*((unsigned short* )buf + e + x)] for an [unsigned int] product [e]; the
    machine is little endian. *)
Definition at16 (buf : bytes) (e x : Z) : option Z :=
  lo ← load buf (2 * (u32 e + x)); hi ← load buf (2 * (u32 e + x) + 1); Some (lo + 256 * hi).
Definition set16 (e x v : Z) : list store :=
  [(2 * (u32 e + x), u8 v); (2 * (u32 e + x) + 1, Z.shiftr v 8)].

(** ** Blocks of a Bayer image *)

Abbreviation quad := (Z * Z * Z * Z)%type.

(** [R], [Gr], [Gb] and [B] of a block, with ten bits. *)
Definition bayer_channels (src_fmt : Z) (d : quad) : option quad :=
  let '(d0, d1, d2, d3) := d in
  let up v := u16 (Z.shiftl v 2) in
  let down v := Z.shiftr v 2 in
  if src_fmt =? V4L2_PIX_FMT_SRGGB8 then Some (up d0, up d1, up d2, up d3)
  else if src_fmt =? V4L2_PIX_FMT_SGRBG8 then Some (up d1, up d0, up d3, up d2)
  else if src_fmt =? V4L2_PIX_FMT_SGBRG8 then Some (up d2, up d3, up d0, up d1)
  else if src_fmt =? V4L2_PIX_FMT_SBGGR8 then Some (up d3, up d2, up d1, up d0)
  else if src_fmt =? V4L2_PIX_FMT_SRGGB10 then Some (d0, d1, d2, d3)
  else if src_fmt =? V4L2_PIX_FMT_SGRBG10 then Some (d1, d0, d3, d2)
  else if src_fmt =? V4L2_PIX_FMT_SGBRG10 then Some (d2, d3, d0, d1)
  else if src_fmt =? V4L2_PIX_FMT_SBGGR10 then Some (d3, d2, d1, d0)
  else if src_fmt =? V4L2_PIX_FMT_SRGGB12 then Some (down d0, down d1, down d2, down d3)
  else if src_fmt =? V4L2_PIX_FMT_SGRBG12 then Some (down d1, down d0, down d3, down d2)
  else if src_fmt =? V4L2_PIX_FMT_SGBRG12 then Some (down d2, down d3, down d0, down d1)
  else if src_fmt =? V4L2_PIX_FMT_SBGGR12 then Some (down d3, down d2, down d1, down d0)
  else None.

(** The four pixels of a block, with eight bits each, and with ten. *)
Definition quad8 (x y s a b c d : Z) : list store :=
  set8 (y * s + x) (Z.shiftr a 2) ++ set8 (y * s + x + 1) (Z.shiftr b 2)
  ++ set8 ((y + 1) * s + x) (Z.shiftr c 2) ++ set8 ((y + 1) * s + x + 1) (Z.shiftr d 2).
Definition quad16 (x y s a b c d : Z) : list store :=
  set16 (y * s) x a ++ set16 (y * s) (x + 1) b
  ++ set16 ((y + 1) * s) x c ++ set16 ((y + 1) * s) (x + 1) d.

Definition bayer_stores (x y height width s : Z) (channels : quad) (dst_fmt : Z) : list store :=
  let '(R, Gr, Gb, B) := channels in
  let '(Y, U, V) := RGB2YUV R ((Gr + Gb) / 2) B in
  if dst_fmt =? V4L2_PIX_FMT_SRGGB8 then quad8 x y s R Gr Gb B
  else if dst_fmt =? V4L2_PIX_FMT_SGRBG8 then quad8 x y s Gr R B Gb
  else if dst_fmt =? V4L2_PIX_FMT_SGBRG8 then quad8 x y s Gb B R Gr
  else if dst_fmt =? V4L2_PIX_FMT_SBGGR8 then quad8 x y s B Gb Gr R
  else if dst_fmt =? V4L2_PIX_FMT_SRGGB10 then quad16 x y s R Gr Gb B
  else if dst_fmt =? V4L2_PIX_FMT_SGRBG10 then quad16 x y s Gr R B Gb
  else if dst_fmt =? V4L2_PIX_FMT_SGBRG10 then quad16 x y s Gb B R Gr
  else if dst_fmt =? V4L2_PIX_FMT_SBGGR10 then quad16 x y s B Gb Gr R
  else if dst_fmt =? V4L2_PIX_FMT_NV12 then
    let UVbase := u32 (s * height) in
    set8 ((y + 1) * s + x + 1) Y ++ set8 ((y + 1) * s + x) Y ++ set8 (y * s + x + 1) Y ++ set8 (y * s + x) Y
    ++ [(UVbase + u32 (y / 2 * s + x / 2 * 2), u8 U); (UVbase + u32 (y / 2 * s + x / 2 * 2 + 1), u8 V)]
  else if dst_fmt =? V4L2_PIX_FMT_UYVY then
    set8 (y * s + x * 2) U ++ set8 (y * s + x * 2 + 1) Y ++ set8 (y * s + x * 2 + 2) V ++ set8 (y * s + x * 2 + 3) Y
    ++ set8 ((y + 1) * s + x * 2) U ++ set8 ((y + 1) * s + x * 2 + 1) Y
    ++ set8 ((y + 1) * s + x * 2 + 2) V ++ set8 ((y + 1) * s + x * 2 + 3) Y
  else if dst_fmt =? V4L2_PIX_FMT_YUYV then
    set8 (y * s + x * 2) Y ++ set8 (y * s + x * 2 + 1) U ++ set8 (y * s + x * 2 + 2) Y ++ set8 (y * s + x * 2 + 3) V
    ++ set8 ((y + 1) * s + x * 2) Y ++ set8 ((y + 1) * s + x * 2 + 1) U
    ++ set8 ((y + 1) * s + x * 2 + 2) Y ++ set8 ((y + 1) * s + x * 2 + 3) V
  else if dst_fmt =? V4L2_PIX_FMT_YUV420 then
    let UBase := u32 (s * height) in
    let VBase := u32 (s * u32 (height + height / 4)) in
    let off := if y mod 4 =? 0 then u32 (y / 4 * s + x / 2) else u32 (y / 4 * s + width / 2 + x / 2) in
    set8 (y * s + x) Y ++ set8 (y * s + x + 1) Y ++ set8 ((y + 1) * s + x) Y ++ set8 ((y + 1) * s + x + 1) Y
    ++ [(UBase + off, u8 U); (VBase + off, u8 V)]
  else [].

(** An unknown source format stores nothing, and needs no stride. *)
Definition convertBayerBlock (x y width height : Z) (bayer_data : quad) (src_fmt dst_fmt : Z) : option (list store) :=
  match bayer_channels src_fmt bayer_data with
  | None => Some []
  | Some channels => dstStride ← getStride dst_fmt width; Some (bayer_stores x y height width dstStride channels dst_fmt)
  end.

(** ** Blocks of a YUV image *)

(** [Y], [U] and [V] of the four pixels. *)
Definition yuv_samples (x y height s : Z) (in_buf : bytes) (src_fmt : Z) : option (option (quad * quad * quad)) :=
  if src_fmt =? V4L2_PIX_FMT_NV12 then
    let UVBase := u32 (s * height) in
    Y0 ← at8 in_buf (y * s + x);
    Y1 ← at8 in_buf (y * s + x + 1);
    Y2 ← at8 in_buf ((y + 1) * s + x);
    Y3 ← at8 in_buf ((y + 1) * s + x + 1);
    U ← load in_buf (UVBase + u32 (y / 2 * s + x / 2 * 2));
    V ← load in_buf (UVBase + u32 (y / 2 * s + x / 2 * 2 + 1));
    Some (Some ((Y0, Y1, Y2, Y3), (U, U, U, U), (V, V, V, V)))
  else if src_fmt =? V4L2_PIX_FMT_UYVY then
    Y0 ← at8 in_buf (y * s + x * 2 + 1);
    Y1 ← at8 in_buf (y * s + x * 2 + 3);
    Y2 ← at8 in_buf ((y + 1) * s + x * 2 + 1);
    Y3 ← at8 in_buf ((y + 1) * s + x * 2 + 3);
    U0 ← at8 in_buf (y * s + x * 2);
    U2 ← at8 in_buf ((y + 1) * s + x * 2);
    V0 ← at8 in_buf (y * s + x * 2 + 2);
    V2 ← at8 in_buf ((y + 1) * s + x * 2 + 2);
    Some (Some ((Y0, Y1, Y2, Y3), (U0, U0, U2, U2), (V0, V0, V2, V2)))
  else if src_fmt =? V4L2_PIX_FMT_YUYV then
    Y0 ← at8 in_buf (y * s + x * 2);
    Y1 ← at8 in_buf (y * s + x * 2 + 2);
    Y2 ← at8 in_buf ((y + 1) * s + x * 2);
    Y3 ← at8 in_buf ((y + 1) * s + x * 2 + 2);
    U0 ← at8 in_buf (y * s + x * 2 + 1);
    U2 ← at8 in_buf ((y + 1) * s + x * 2 + 1);
    V0 ← at8 in_buf (y * s + x * 2 + 3);
    V2 ← at8 in_buf ((y + 1) * s + x * 2 + 3);
    Some (Some ((Y0, Y1, Y2, Y3), (U0, U0, U2, U2), (V0, V0, V2, V2)))
  else Some None.

Definition yuv_stores (x y height width s : Z) (samples : quad * quad * quad) (dst_fmt : Z) : list store :=
  let '((Y0, Y1, Y2, Y3), (U0, U1, U2, U3), (V0, V1, V2, V3)) := samples in
  let '(R, G, B) := YUV2RGB Y0 U0 V0 in
  if dst_fmt =? V4L2_PIX_FMT_NV12 then
    let UVBase := u32 (s * height) in
    set8 (y * s + x) Y0 ++ set8 (y * s + x + 1) Y1 ++ set8 ((y + 1) * s + x) Y2 ++ set8 ((y + 1) * s + x + 1) Y3
    ++ [(UVBase + u32 (y / 2 * s + x / 2 * 2), u8 U0); (UVBase + u32 (y / 2 * s + x / 2 * 2 + 1), u8 V0)]
  else if dst_fmt =? V4L2_PIX_FMT_UYVY then
    set8 (y * s + x * 2 + 1) Y0 ++ set8 (y * s + x * 2 + 3) Y1
    ++ set8 ((y + 1) * s + x * 2 + 1) Y2 ++ set8 ((y + 1) * s + x * 2 + 3) Y3
    ++ set8 (y * s + x * 2) U0 ++ set8 ((y + 1) * s + x * 2) U2
    ++ set8 (y * s + x * 2 + 2) V0 ++ set8 ((y + 1) * s + x * 2 + 2) V2
  else if dst_fmt =? V4L2_PIX_FMT_YUYV then
    set8 (y * s + x * 2) Y0 ++ set8 (y * s + x * 2 + 2) Y1
    ++ set8 ((y + 1) * s + x * 2) Y2 ++ set8 ((y + 1) * s + x * 2 + 2) Y3
    ++ set8 (y * s + x * 2 + 1) U0 ++ set8 ((y + 1) * s + x * 2 + 1) U2
    ++ set8 (y * s + x * 2 + 3) V0 ++ set8 ((y + 1) * s + x * 2 + 3) V2
  else if dst_fmt =? V4L2_PIX_FMT_YUV420 then
    let UBase := u32 (s * height) in
    let VBase := u32 (s * u32 (height + height / 4)) in
    let off := if y mod 4 =? 0 then u32 (y / 4 * s + x / 2) else u32 (y / 4 * s + width / 2 + x / 2) in
    set8 (y * s + x) Y0 ++ set8 (y * s + x + 1) Y1 ++ set8 ((y + 1) * s + x) Y2 ++ set8 ((y + 1) * s + x + 1) Y3
    ++ [(UBase + off, u8 ((U0 + U2) / 2)); (VBase + off, u8 ((V0 + V2) / 2))]
  else if dst_fmt =? V4L2_PIX_FMT_SRGGB8 then quad8 x y s R G G B
  else if dst_fmt =? V4L2_PIX_FMT_SGRBG8 then quad8 x y s G R B G
  else if dst_fmt =? V4L2_PIX_FMT_SGBRG8 then quad8 x y s G B R G
  else if dst_fmt =? V4L2_PIX_FMT_SBGGR8 then quad8 x y s B G G R
  else if dst_fmt =? V4L2_PIX_FMT_SRGGB10 then quad16 x y s R G G B
  else if dst_fmt =? V4L2_PIX_FMT_SGRBG10 then quad16 x y s G R B G
  else if dst_fmt =? V4L2_PIX_FMT_SGBRG10 then quad16 x y s G B R G
  else if dst_fmt =? V4L2_PIX_FMT_SBGGR10 then quad16 x y s B G G R
  else [].

Definition convertYuvBlock (x y width height : Z) (in_buf : bytes) (src_fmt dst_fmt : Z) : option (list store) :=
  srcStride ← getStride src_fmt width;
  samples ← yuv_samples x y height srcStride in_buf src_fmt;
  match samples with
  | None => Some []
  | Some samples => dstStride ← getStride dst_fmt width; Some (yuv_stores x y height width dstStride samples dst_fmt)
  end.

(** ** Images *)

(** The coordinates of a loop [for (y = 0; y < height; y += 2)]. *)
Definition even_upto (n : Z) : list Z := (fun i => 2 * i) <$> range 0 ((n + 1) / 2).

Definition blocks (width height : Z) : list (Z * Z) := y ← even_upto height; (., y) <$> even_upto width.

Definition block_stores (width height : Z) (inBuf : bytes) (srcFmt dstFmt srcStride : Z) (xy : Z * Z)
    : option (list store) :=
  let '(x, y) := xy in
  if isRaw srcFmt then
    bayer_data ←
      if getBpp srcFmt =? 8 then
        d0 ← at8 inBuf (y * srcStride + x);
        d1 ← at8 inBuf (y * srcStride + x + 1);
        d2 ← at8 inBuf ((y + 1) * srcStride + x);
        d3 ← at8 inBuf ((y + 1) * srcStride + x + 1);
        Some (d0, d1, d2, d3)
      else
        let offset := Z.quot srcStride (Z.quot (getBpp srcFmt) 8) in
        d0 ← at16 inBuf (y * offset) x;
        d1 ← at16 inBuf (y * offset) (x + 1);
        d2 ← at16 inBuf ((y + 1) * offset) x;
        d3 ← at16 inBuf ((y + 1) * offset) (x + 1);
        Some (d0, d1, d2, d3);
    convertBayerBlock x y width height bayer_data srcFmt dstFmt
  else convertYuvBlock x y width height inBuf srcFmt dstFmt.

Fixpoint convert_blocks (f : Z * Z -> option (list store)) (l : list (Z * Z)) (out : bytes) : option bytes :=
  match l with
  | [] => Some out
  | xy :: l => sts ← f xy; out ← put_all sts out; convert_blocks f l out
  end.

(** [memcpy] of the shorter of the two lengths. *)
Definition MEMCPY_S (dest src : bytes) (dmax smax : nat) : option bytes :=
  let n := Nat.min dmax smax in
  if (n <=? length dest)%nat && (n <=? length src)%nat then Some (take n src ++ drop n dest) else None.

(** Buffers are [None] for a null pointer; the input is not written to. *)
Definition convertFormat (width height : Z) (inBuf : option bytes) (inLength : nat) (srcFmt : Z)
    (outBuf : option bytes) (outLength : nat) (dstFmt : Z) : option (Z * option bytes) :=
  match inBuf, outBuf with
  | Some inp, Some out =>
      if dstFmt =? srcFmt then out ← MEMCPY_S out inp outLength inLength; Some (0, Some out)
      else
        srcStride ← getStride srcFmt width;
        out ← convert_blocks (block_stores width height inp srcFmt dstFmt srcStride) (blocks width height) out;
        Some (0, Some out)
  | _, _ => Some (BAD_VALUE, outBuf)
  end.

(** ** Loads and stores *)

Lemma load_in (buf : bytes) o : 0 <= o < Z.of_nat (length buf) -> is_Some (load buf o).
Proof. intros Ho. unfold load. destruct (Z.ltb_spec o 0); [lia|]. apply lookup_lt_is_Some_2. lia. Qed.

Lemma load_out (buf : bytes) o : Z.of_nat (length buf) <= o -> load buf o = None.
Proof. intros Ho. unfold load. destruct (Z.ltb_spec o 0); [done|]. apply lookup_ge_None_2. lia. Qed.

Lemma load_byte (buf : bytes) o v : Forall (fun b => 0 <= b < 256) buf -> load buf o = Some v -> 0 <= v < 256.
Proof.
  intros Hb. unfold load. destruct (o <? 0); [done|]. intros Hl.
  exact (proj1 (Forall_lookup _ _) Hb _ _ Hl).
Qed.

Lemma sample_put_spec st (buf : bytes) :
  0 <= fst st < Z.of_nat (length buf) ->
  exists buf', put st buf = Some buf' /\ length buf' = length buf
    /\ forall o, load buf' o = if o =? fst st then Some (snd st) else load buf o.
Proof.
  intros Ho. unfold put. destruct (load_in buf (fst st) Ho) as [v ->]. cbn [mbind option_bind].
  eexists. split; [reflexivity|]. split; [apply length_insert|]. intros o. unfold load.
  destruct (Z.ltb_spec o 0) as [Hlt|Hge]; [destruct (Z.eqb_spec o (fst st)); [lia|done]|].
  destruct (Z.eqb_spec o (fst st)) as [->|Hne].
  - apply list_lookup_insert_eq. lia.
  - apply list_lookup_insert_ne. lia.
Qed.

(** The offsets that are stored to. *)
Abbreviation offsets l := (fst <$> (l : list store)).

Lemma put_all_spec (P : Z -> Z -> Prop) (l : list store) (buf : bytes) :
  Forall (fun st => 0 <= fst st < Z.of_nat (length buf) /\ P (fst st) (snd st)) l ->
  exists buf', put_all l buf = Some buf' /\ length buf' = length buf
    /\ forall o, (o ∈ offsets l -> exists v, load buf' o = Some v /\ P o v)
             /\ (o ∉ offsets l -> load buf' o = load buf o).
Proof.
  intros Hl. revert buf Hl. induction l as [|st l IH]; intros buf Hl.
  { exists buf. split_and!; try done. intros o. split; [by intros ?%elem_of_nil|done]. }
  apply Forall_cons in Hl as [[Hs HP] Hl]. cbn [put_all].
  destruct (sample_put_spec st buf Hs) as (buf1 & -> & Hlen & Hload). cbn [mbind option_bind].
  destruct (IH buf1) as (buf' & -> & Hlen' & Hload'); [by rewrite Hlen|].
  exists buf'. split; [done|]. split; [congruence|]. intros o. destruct (Hload' o) as [H1 H2]. csimpl. split.
  - intros Ho. destruct (decide (o ∈ offsets l)) as [Hin|Hin]; [by apply H1|].
    apply elem_of_cons in Ho as [-> | Ho]; [|done]. exists (snd st).
    by rewrite H2, Hload, Z.eqb_refl by done.
  - intros [Hne Hin]%not_elem_of_cons. rewrite H2, Hload by done. destruct (Z.eqb_spec o (fst st)); [done|done].
Qed.

(** Blocks whose stores all lie in the buffer and agree with [P]. *)
Lemma convert_blocks_spec (P : Z -> Z -> Prop) f (l : list (Z * Z)) (buf : bytes) :
  (forall xy, xy ∈ l -> exists sts, f xy = Some sts
     /\ Forall (fun st => 0 <= fst st < Z.of_nat (length buf) /\ P (fst st) (snd st)) sts) ->
  exists buf', convert_blocks f l buf = Some buf' /\ length buf' = length buf
    /\ forall o, (forall xy sts, xy ∈ l -> f xy = Some sts -> o ∈ offsets sts -> exists v, load buf' o = Some v /\ P o v)
             /\ ((forall xy sts, xy ∈ l -> f xy = Some sts -> o ∉ offsets sts) -> load buf' o = load buf o)
             /\ (forall v, load buf' o = Some v -> load buf o = Some v \/ P o v).
Proof.
  revert buf. induction l as [|xy l IH]; intros buf Hf.
  { exists buf. split_and!; try done. intros o. split; [by intros xy sts ?%elem_of_nil|].
    split; [done|]. intros v Hv. by left. }
  cbn [convert_blocks]. destruct (Hf xy ltac:(by left)) as (sts & Hxy & Hs). rewrite Hxy. cbn [mbind option_bind].
  destruct (put_all_spec P sts buf Hs) as (buf1 & -> & Hlen & Hload). cbn [mbind option_bind].
  destruct (IH buf1) as (buf' & -> & Hlen' & Hload').
  { intros xy' Hin. rewrite Hlen. apply Hf. by right. }
  exists buf'. split; [done|]. split; [congruence|]. intros o. destruct (Hload o) as [H1 H2].
  destruct (Hload' o) as (H3 & H4 & H5). split; [|split].
  - intros xy' sts' Hin Hxy' Ho.
    destruct (decide (Exists (fun xy => o ∈ offsets (default [] (f xy))) l)) as [Hex|Hno].
    + apply Exists_exists in Hex as (xy2 & Hin2 & Ho2).
      destruct (f xy2) as [sts2|] eqn:E2; [by eapply H3|by apply elem_of_nil in Ho2].
    + assert (Hno' : forall xy sts, xy ∈ l -> f xy = Some sts -> o ∉ offsets sts).
      { intros xy2 sts2 Hin2 E2 Ho2. apply Hno, Exists_exists. exists xy2. split; [done|]. by rewrite E2. }
      rewrite H4 by done. apply H1. apply elem_of_cons in Hin as [-> | Hin]; [|by destruct (Hno' _ _ Hin Hxy')].
      by rewrite Hxy in Hxy'; injection Hxy' as <-.
  - intros Hno. rewrite H4, H2; [done| |].
    + by apply (Hno xy); [left|].
    + intros xy' sts' Hin. apply Hno. by right.
  - intros v Hv. destruct (H5 v Hv) as [Hv1|]; [|by right].
    destruct (decide (o ∈ offsets sts)) as [Hin|Hin]; [|left; by rewrite <- H2].
    destruct (H1 Hin) as (v' & Hv' & HP). right. by replace v with v' by congruence.
Qed.

Lemma even_upto_spec n x : x ∈ even_upto n <-> Z.even x = true /\ 0 <= x < n.
Proof.
  unfold even_upto. rewrite list_elem_of_fmap. split.
  - intros (i & -> & Hi). apply elem_of_seqZ in Hi. rewrite Z.even_mul. split; [done|].
    Z.div_mod_to_equations. lia.
  - intros [He Hx]. apply Z.even_spec in He as [i ->]. exists i. split; [done|].
    apply elem_of_seqZ. Z.div_mod_to_equations. lia.
Qed.

Lemma blocks_spec w h x y :
  (x, y) ∈ blocks w h <-> (Z.even x = true /\ 0 <= x < w) /\ (Z.even y = true /\ 0 <= y < h).
Proof.
  unfold blocks. rewrite list_elem_of_bind. split.
  - intros (y' & (x' & [= -> ->] & Hx)%list_elem_of_fmap & Hy). apply even_upto_spec in Hx, Hy. done.
  - intros [Hx Hy]. exists y. rewrite even_upto_spec. split; [|done]. apply list_elem_of_fmap. exists x.
    by rewrite even_upto_spec.
Qed.

(** ** Samples of YUV images *)

Inductive sample := Luma | Cb | Cr.

#[global] Instance sample_eq_dec : EqDecision sample.
Proof. solve_decision. Defined.

Inductive yuv_format := NV12 | UYVY | YUYV.

#[global] Instance yuv_format_eq_dec : EqDecision yuv_format.
Proof. solve_decision. Defined.

Definition code (f : yuv_format) : Z :=
  match f with NV12 => V4L2_PIX_FMT_NV12 | UYVY => V4L2_PIX_FMT_UYVY | YUYV => V4L2_PIX_FMT_YUYV end.

(** Where a sample of the pixel at column [x] of line [y] is stored. *)
Definition sample_pos (f : yuv_format) (s h : Z) (k : sample) (x y : Z) : Z :=
  match f, k with
  | NV12, Luma => y * s + x
  | NV12, Cb => s * h + (y / 2 * s + x / 2 * 2)
  | NV12, Cr => s * h + (y / 2 * s + x / 2 * 2 + 1)
  | UYVY, Luma => y * s + (2 * x + 1)
  | UYVY, Cb => y * s + x / 2 * 4
  | UYVY, Cr => y * s + (x / 2 * 4 + 2)
  | YUYV, Luma => y * s + 2 * x
  | YUYV, Cb => y * s + (x / 2 * 4 + 1)
  | YUYV, Cr => y * s + (x / 2 * 4 + 3)
  end.

(** The bytes of an image, and of the used part of a line. *)
Definition image_size (f : yuv_format) (s h : Z) : Z := match f with NV12 => s * h + s * (h / 2) | _ => s * h end.
Definition line_size (f : yuv_format) (w : Z) : Z := match f with NV12 => w | _ => 2 * w end.

(** NV12 keeps the colours of even lines. *)
Definition source_line (dst : yuv_format) (k : sample) (y : Z) : Z :=
  match dst, k with NV12, Cb | NV12, Cr => y / 2 * 2 | _, _ => y end.

Lemma yuv_stride f w : 0 < w <= 8192 -> Z.even w = true ->
  exists s, getStride (code f) w = Some s /\ line_size f w <= s /\ 0 <= s <= 32831.
Proof.
  intros Hw He. apply Z.even_spec in He as [m ->].
  destruct (stride_covers (code f) (2 * m)) as (s & Hs & _ & _ & Hr & Hl & _); [by destruct f|done|].
  exists s. split; [done|]. split; [|done]. unfold line_bits in Hl. destruct f; cbn [code line_size] in *.
  - change (getBpp V4L2_PIX_FMT_NV12) with 12 in Hl. change (isPlanarFormat V4L2_PIX_FMT_NV12) with true in Hl.
    change (getPlanarByte V4L2_PIX_FMT_NV12) with 1 in Hl. cbn iota in Hl. divlia.
  - change (getBpp V4L2_PIX_FMT_UYVY) with 16 in Hl. change (isPlanarFormat V4L2_PIX_FMT_UYVY) with false in Hl.
    cbn iota in Hl. divlia.
  - change (getBpp V4L2_PIX_FMT_YUYV) with 16 in Hl. change (isPlanarFormat V4L2_PIX_FMT_YUYV) with false in Hl.
    cbn iota in Hl. divlia.
Qed.

(** ** Offsets *)

(** An offset of a line and a place in it determines both. *)
Lemma line_unique s y y' j j' : 0 <= j < s -> 0 <= j' < s -> y * s + j = y' * s + j' -> y = y' /\ j = j'.
Proof.
  intros Hj Hj' E. apply (Z.div_mod_unique s); [by left|by left|]. rewrite !(Z.mul_comm s). exact E.
Qed.

Lemma line_in s h y j : 0 <= y < h -> 0 <= j < s -> 0 <= y * s + j < s * h.
Proof. intros Hy Hj. nia. Qed.

Section Positions.
Context (s w h : Z).
Context (Hwe : Z.even w = true) (Hhe : Z.even h = true).
Implicit Types (f : yuv_format) (k : sample).

(** The place in its line of a sample, and its line; the second plane of NV12
    follows the first. *)
Definition place f k x : Z :=
  match f, k with
  | NV12, Luma => x | NV12, Cb => x / 2 * 2 | NV12, Cr => x / 2 * 2 + 1
  | UYVY, Luma => 2 * x + 1 | UYVY, Cb => x / 2 * 4 | UYVY, Cr => x / 2 * 4 + 2
  | YUYV, Luma => 2 * x | YUYV, Cb => x / 2 * 4 + 1 | YUYV, Cr => x / 2 * 4 + 3
  end.
Definition line_of f k y : Z := match f, k with NV12, Cb | NV12, Cr => h + y / 2 | _, _ => y end.

Lemma sample_pos_place f k x y : sample_pos f s h k x y = line_of f k y * s + place f k x.
Proof. destruct f, k; cbn [sample_pos line_of place]; lia. Qed.

Lemma place_in f k x : 0 <= x < w -> 0 <= place f k x < line_size f w.
Proof.
  intros Hx. apply Z.even_spec in Hwe as [m Hm].
  destruct f, k; cbn [place line_size]; Z.div_mod_to_equations; lia.
Qed.

Lemma line_of_in f k y : 0 <= y < h -> 0 <= line_of f k y < match f with NV12 => h + h / 2 | _ => h end.
Proof.
  intros Hy. apply Z.even_spec in Hhe as [m Hm]. destruct f, k; cbn [line_of]; Z.div_mod_to_equations; lia.
Qed.

Lemma sample_pos_in f k x y :
  line_size f w <= s -> 0 <= x < w -> 0 <= y < h -> 0 <= sample_pos f s h k x y < image_size f s h.
Proof.
  intros Hs Hx Hy. rewrite sample_pos_place. pose proof (place_in f k x Hx) as Hp.
  pose proof (line_of_in f k y Hy) as Hl.
  assert (image_size f s h = s * match f with NV12 => h + h / 2 | _ => h end) as ->
    by (destruct f; cbn [image_size]; lia).
  apply line_in; lia.
Qed.

(** Samples at the same place are the same sample of the source. *)
Lemma sample_pos_unique f k k' x x' y y' :
  line_size f w <= s -> 0 <= x < w -> 0 <= x' < w -> 0 <= y < h -> 0 <= y' < h ->
  sample_pos f s h k x y = sample_pos f s h k' x' y' ->
  k = k' /\ (k = Luma -> x = x') /\ x / 2 = x' / 2 /\ source_line f k y = source_line f k' y'.
Proof.
  intros Hs Hx Hx' Hy Hy'. rewrite !sample_pos_place. intros E.
  pose proof (place_in f k x Hx). pose proof (place_in f k' x' Hx').
  apply line_unique in E as [El Ep]; [|lia..]. apply Z.even_spec in Hhe as [m Hm].
  destruct f, k, k'; cbn [place line_of source_line] in *; (split; [first [done|exfalso; Z.div_mod_to_equations; lia]|]);
    (split; [intros; first [done|Z.div_mod_to_equations; lia]|]); split; Z.div_mod_to_equations; lia.
Qed.
End Positions.

(** ** Blocks *)

(** Decide the comparisons of formats. *)
Ltac fmt_cases :=
  repeat match goal with
  | |- context [?a =? ?b] =>
      let v := eval vm_compute in (a =? b) in
      lazymatch v with true => change (a =? b) with true | false => change (a =? b) with false end; cbn iota
  end.

Lemma colour_u32_small e : 0 <= e < 2 ^ 32 -> u32 e = e.
Proof. apply Z.mod_small. Qed.

Lemma at8_pos (buf : bytes) e p : e = p -> 0 <= p < 2 ^ 32 -> at8 buf e = load buf p.
Proof. intros -> Hp. unfold at8. by rewrite colour_u32_small. Qed.

Lemma read_bind {B} (buf : bytes) e p v (f : Z -> option B) :
  load buf p = Some v -> e = p -> 0 <= p < 2 ^ 32 -> (at8 buf e ≫= f) = f v.
Proof. intros Hl -> Hp. unfold at8. by rewrite colour_u32_small, Hl. Qed.

Lemma read_plane {B} (buf : bytes) a e p v (f : Z -> option B) :
  load buf p = Some v -> a + e = p -> 0 <= a -> 0 <= e -> p < 2 ^ 32 -> (load buf (u32 a + u32 e) ≫= f) = f v.
Proof. intros Hl <- Ha He Hp. by rewrite !colour_u32_small, Hl by lia. Qed.

(** Membership in an explicit list. *)
Ltac in_list := rewrite !elem_of_cons; auto 10.

(** The next byte that is read, with what it is and that its offset is small. *)
Ltac read_byte Hp E := erewrite read_bind; [|exact E|cbn [sample_pos]; lia|apply Hp; lia].

Section Block.
Context (w h : Z) (inp : bytes) (src dst : yuv_format) (ss ds : Z).
Context (Hw : 0 < w <= 8192) (Hh : 0 < h <= 8192) (Hwe : Z.even w = true) (Hhe : Z.even h = true).
Context (Hss : line_size src w <= ss <= 32831) (Hds : line_size dst w <= ds <= 32831).
Context (Hin : image_size src ss h <= Z.of_nat (length inp)).
Context (Hbytes : Forall (fun b => 0 <= b < 256) inp).

Definition source (k : sample) (x y : Z) : option Z := load inp (sample_pos src ss h k x y).

Lemma image_size_max f s : 0 <= s <= 32831 -> image_size f s h < 2 ^ 32.
Proof.
  intros Hs. assert (h / 2 <= 4096) by divlia. assert (0 <= h / 2) by divlia.
  assert (s * h <= 32831 * 8192) by (apply Z.mul_le_mono_nonneg; lia).
  assert (s * (h / 2) <= 32831 * 4096) by (apply Z.mul_le_mono_nonneg; lia).
  destruct f; cbn [image_size]; lia.
Qed.

Lemma pos_max f s k x y : line_size f w <= s <= 32831 -> 0 <= x < w -> 0 <= y < h -> 0 <= sample_pos f s h k x y < 2 ^ 32.
Proof.
  intros Hs Hx Hy. assert (0 <= s) by (destruct f; cbn [line_size] in Hs; lia).
  pose proof (image_size_max f s ltac:(lia)). pose proof (sample_pos_in s w h Hwe Hhe f k x y ltac:(lia) Hx Hy). lia.
Qed.

Lemma source_some k x y : 0 <= x < w -> 0 <= y < h -> exists v, source k x y = Some v /\ u8 v = v.
Proof.
  intros Hx Hy. pose proof (sample_pos_in ss w h Hwe Hhe src k x y ltac:(lia) Hx Hy).
  destruct (load_in inp (sample_pos src ss h k x y) ltac:(lia)) as [v Hv]. exists v. split; [done|].
  apply Z.mod_small. eapply load_byte; [exact Hbytes|exact Hv].
Qed.

(** A block starts at an even column and line, and lies in the image. *)
Context (x y : Z) (Hx : Z.even x = true /\ 0 <= x < w) (Hy : Z.even y = true /\ 0 <= y < h).

Lemma block_in : x + 1 < w /\ y + 1 < h /\ x = 2 * (x / 2) /\ y = 2 * (y / 2).
Proof.
  destruct Hx as [Ex _], Hy as [Ey _]. apply Z.even_spec in Ex as [a ->], Ey as [b ->].
  apply Z.even_spec in Hwe as [c ->], Hhe as [d ->]. Z.div_mod_to_equations. lia.
Qed.

(** The samples of a block are those of its pixels. *)
Lemma yuv_samples_ok :
  exists Y0 Y1 Y2 Y3 U0 U2 V0 V2,
    yuv_samples x y h ss inp (code src) = Some (Some ((Y0, Y1, Y2, Y3), (U0, U0, U2, U2), (V0, V0, V2, V2)))
    /\ (source Luma x y = Some Y0 /\ source Luma (x + 1) y = Some Y1
        /\ source Luma x (y + 1) = Some Y2 /\ source Luma (x + 1) (y + 1) = Some Y3)
    /\ (source Cb x y = Some U0 /\ source Cb x (y + 1) = Some U2)
    /\ (source Cr x y = Some V0 /\ source Cr x (y + 1) = Some V2).
Proof.
  destruct block_in as (H1 & H2 & H3 & H4). destruct Hx as [_ Hx0], Hy as [_ Hy0].
  destruct (source_some Luma x y) as (Y0 & E0 & _); [lia..|].
  destruct (source_some Luma (x + 1) y) as (Y1 & E1 & _); [lia..|].
  destruct (source_some Luma x (y + 1)) as (Y2 & E2 & _); [lia..|].
  destruct (source_some Luma (x + 1) (y + 1)) as (Y3 & E3 & _); [lia..|].
  destruct (source_some Cb x y) as (U0 & E4 & _); [lia..|].
  destruct (source_some Cb x (y + 1)) as (U2 & E5 & _); [lia..|].
  destruct (source_some Cr x y) as (V0 & E6 & _); [lia..|].
  destruct (source_some Cr x (y + 1)) as (V2 & E7 & _); [lia..|].
  exists Y0, Y1, Y2, Y3, U0, U2, V0, V2. split; [|by split_and!].
  assert (Hp : forall k x' y', 0 <= x' < w -> 0 <= y' < h -> 0 <= sample_pos src ss h k x' y' < 2 ^ 32)
    by (intros; apply pos_max; [lia|done..]).
  assert (Hpos : 0 <= ss * h) by (destruct src; cbn [line_size] in Hss; nia).
  assert (Hpos2 : 0 <= y / 2 * ss) by (destruct src; cbn [line_size] in Hss; nia).
  unfold source in *. unfold yuv_samples. destruct src; cbn [code]; fmt_cases; cbv zeta.
  - assert (Ey : (y + 1) / 2 = y / 2) by divlia. cbn [sample_pos] in E5, E7. rewrite Ey in E5, E7.
    cbn [sample_pos] in E4, E6. assert (U2 = U0) as -> by congruence. assert (V2 = V0) as -> by congruence.
    read_byte Hp E0.
    read_byte Hp E1.
    read_byte Hp E2.
    read_byte Hp E3.
    erewrite read_plane; [|exact E4|lia|lia|lia|apply (Hp Cb x y); lia].
    erewrite read_plane; [|exact E6|lia|lia|lia|apply (Hp Cr x y); lia]. done.
  - read_byte Hp E0.
    read_byte Hp E1.
    read_byte Hp E2.
    read_byte Hp E3.
    read_byte Hp E4.
    read_byte Hp E5.
    read_byte Hp E6.
    read_byte Hp E7. done.
  - read_byte Hp E0.
    read_byte Hp E1.
    read_byte Hp E2.
    read_byte Hp E3.
    read_byte Hp E4.
    read_byte Hp E5.
    read_byte Hp E6.
    read_byte Hp E7. done.
Qed.

(** The colours of a block that are stored: NV12 keeps those of its first line. *)
Definition chroma_stores (U0 U2 V0 V2 : Z) : list store :=
  match dst with
  | NV12 => [(sample_pos dst ds h Cb x y, u8 U0); (sample_pos dst ds h Cr x y, u8 V0)]
  | _ => [(sample_pos dst ds h Cb x y, u8 U0); (sample_pos dst ds h Cb x (y + 1), u8 U2);
          (sample_pos dst ds h Cr x y, u8 V0); (sample_pos dst ds h Cr x (y + 1), u8 V2)]
  end.

Definition luma_stores (Y0 Y1 Y2 Y3 : Z) : list store :=
  [(sample_pos dst ds h Luma x y, u8 Y0); (sample_pos dst ds h Luma (x + 1) y, u8 Y1);
   (sample_pos dst ds h Luma x (y + 1), u8 Y2); (sample_pos dst ds h Luma (x + 1) (y + 1), u8 Y3)].

Lemma yuv_stores_at_positions Y0 Y1 Y2 Y3 U0 U1 U2 U3 V0 V1 V2 V3 :
  yuv_stores x y h w ds ((Y0, Y1, Y2, Y3), (U0, U1, U2, U3), (V0, V1, V2, V3)) (code dst)
  = luma_stores Y0 Y1 Y2 Y3 ++ chroma_stores U0 U2 V0 V2.
Proof.
  destruct block_in as (H1 & H2 & H3 & H4). destruct Hx as [_ Hx0], Hy as [_ Hy0].
  assert (Hp : forall k x' y', 0 <= x' < w -> 0 <= y' < h -> 0 <= sample_pos dst ds h k x' y' < 2 ^ 32)
    by (intros; apply pos_max; [lia|done..]).
  assert (Hpos : 0 <= ds * h) by (destruct dst; cbn [line_size] in Hds; nia).
  assert (Hpos2 : 0 <= y / 2 * ds) by (destruct dst; cbn [line_size] in Hds; nia).
  assert (Hs8 : forall e k x' y' v, 0 <= x' < w -> 0 <= y' < h -> e = sample_pos dst ds h k x' y' ->
            set8 e v = [(sample_pos dst ds h k x' y', u8 v)]).
  { intros e k x' y' v Hx' Hy' ->. unfold set8. by rewrite colour_u32_small by by apply Hp. }
  unfold yuv_stores, luma_stores, chroma_stores. destruct (YUV2RGB Y0 U0 V0) as [[R G] B].
  destruct dst; cbn [code]; fmt_cases; cbv zeta.
  - rewrite (Hs8 (y * ds + x) Luma x y), (Hs8 (y * ds + x + 1) Luma (x + 1) y),
      (Hs8 ((y + 1) * ds + x) Luma x (y + 1)), (Hs8 ((y + 1) * ds + x + 1) Luma (x + 1) (y + 1))
      by (lia || (cbn [sample_pos]; lia)).
    pose proof (Hp Cr x y ltac:(lia) ltac:(lia)) as Hc. cbn [sample_pos] in *. by rewrite !colour_u32_small by lia.
  - rewrite (Hs8 (y * ds + x * 2 + 1) Luma x y), (Hs8 (y * ds + x * 2 + 3) Luma (x + 1) y),
      (Hs8 ((y + 1) * ds + x * 2 + 1) Luma x (y + 1)), (Hs8 ((y + 1) * ds + x * 2 + 3) Luma (x + 1) (y + 1)),
      (Hs8 (y * ds + x * 2) Cb x y), (Hs8 ((y + 1) * ds + x * 2) Cb x (y + 1)),
      (Hs8 (y * ds + x * 2 + 2) Cr x y), (Hs8 ((y + 1) * ds + x * 2 + 2) Cr x (y + 1))
      by (lia || (cbn [sample_pos]; lia)). done.
  - rewrite (Hs8 (y * ds + x * 2) Luma x y), (Hs8 (y * ds + x * 2 + 2) Luma (x + 1) y),
      (Hs8 ((y + 1) * ds + x * 2) Luma x (y + 1)), (Hs8 ((y + 1) * ds + x * 2 + 2) Luma (x + 1) (y + 1)),
      (Hs8 (y * ds + x * 2 + 1) Cb x y), (Hs8 ((y + 1) * ds + x * 2 + 1) Cb x (y + 1)),
      (Hs8 (y * ds + x * 2 + 3) Cr x y), (Hs8 ((y + 1) * ds + x * 2 + 3) Cr x (y + 1))
      by (lia || (cbn [sample_pos]; lia)). done.
Qed.

(** What is to be stored at an offset: the sample of the source whose place
    in the destination it is. *)
Definition keeps_sample (o v : Z) : Prop :=
  exists k x' y', 0 <= x' < w /\ 0 <= y' < h /\ o = sample_pos dst ds h k x' y'
    /\ source k x' (source_line dst k y') = Some v.

Lemma keeps_sample_at k x' y' v :
  0 <= x' < w -> 0 <= y' < h -> source k x' (source_line dst k y') = Some v ->
  0 <= sample_pos dst ds h k x' y' < image_size dst ds h /\ keeps_sample (sample_pos dst ds h k x' y') (u8 v).
Proof.
  intros Hx' Hy' Hs. split; [apply (sample_pos_in ds w h Hwe Hhe); [lia|done|done]|].
  assert (0 <= source_line dst k y' < h).
  { apply Z.even_spec in Hhe as [m Hm]. unfold source_line. destruct dst, k; Z.div_mod_to_equations; lia. }
  destruct (source_some k x' (source_line dst k y')) as (v' & Hv & Hu); [done..|].
  exists k, x', y'. split; [done|]. split; [done|]. split; [done|].
  rewrite Hs in Hv. injection Hv as <-. by rewrite Hu.
Qed.

(** A block keeps the samples of its pixels, and stores all of them. *)
Lemma yuv_block_keeps :
  getStride (code src) w = Some ss -> getStride (code dst) w = Some ds ->
  exists sts, convertYuvBlock x y w h inp (code src) (code dst) = Some sts
    /\ Forall (fun st => 0 <= fst st < image_size dst ds h /\ keeps_sample (fst st) (snd st)) sts
    /\ forall k x' y', x' / 2 = x / 2 -> y' / 2 = y / 2 -> sample_pos dst ds h k x' y' ∈ offsets sts.
Proof.
  intros Ess Eds. destruct block_in as (H1 & H2 & H3 & H4). destruct Hx as [_ Hx0], Hy as [_ Hy0].
  destruct yuv_samples_ok as (Y0 & Y1 & Y2 & Y3 & U0 & U2 & V0 & V2 & Es & (E0 & E1 & E2 & E3) & (E4 & E5) & E6 & E7).
  exists (luma_stores Y0 Y1 Y2 Y3 ++ chroma_stores U0 U2 V0 V2). split; [|split].
  - unfold convertYuvBlock. rewrite Ess. cbn [mbind option_bind]. rewrite Es. cbn [mbind option_bind].
    rewrite Eds. cbn [mbind option_bind]. by rewrite yuv_stores_at_positions.
  - assert (Hl : forall y', source_line dst Luma y' = y') by by destruct dst.
    assert (Hy2 : y / 2 * 2 = y) by lia.
    unfold luma_stores. repeat (apply Forall_cons; split; [apply keeps_sample_at; rewrite ?Hl; (lia || done)|]).
    pose proof keeps_sample_at as Hkeep.
    unfold chroma_stores. destruct dst; repeat (apply Forall_cons; split; [|]); try done;
      apply Hkeep; cbn [source_line]; rewrite ?Hy2; (lia || done).
  - intros k x' y' Ex Ey. rewrite fmap_app, elem_of_app.
    assert (Cx : x' = x \/ x' = x + 1) by divlia. assert (Cy : y' = y \/ y' = y + 1) by divlia.
    destruct k.
    + left. unfold luma_stores. csimpl. destruct Cx as [-> | ->], Cy as [-> | ->]; in_list.
    + right. unfold chroma_stores. destruct dst; csimpl; cbn [sample_pos]; rewrite Ex, ?Ey;
        destruct Cy as [-> | ->]; in_list.
    + right. unfold chroma_stores. destruct dst; csimpl; cbn [sample_pos]; rewrite Ex, ?Ey;
        destruct Cy as [-> | ->]; in_list.
Qed.
End Block.

(** ** Conversions between YUV formats *)

Lemma convert_different w h inp inLength out outLength (src dst : yuv_format) :
  src <> dst ->
  convertFormat w h (Some inp) inLength (code src) (Some out) outLength (code dst)
  = (srcStride ← getStride (code src) w;
     out ← convert_blocks (fun xy => convertYuvBlock (fst xy) (snd xy) w h inp (code src) (code dst)) (blocks w h) out;
     Some (0, Some out)).
Proof.
  intros Hne. unfold convertFormat.
  replace (code dst =? code src) with false by (destruct src, dst; try done; by vm_compute).
  destruct (getStride (code src) w) as [s|]; [|done]. cbn [mbind option_bind]. f_equal.
  generalize out. induction (blocks w h) as [|[x y] l IH]; intros out'; [done|]. cbn [convert_blocks].
  replace (block_stores w h inp (code src) (code dst) s (x, y))
    with (convertYuvBlock x y w h inp (code src) (code dst)) by (by destruct src).
  cbn [fst snd]. destruct (convertYuvBlock x y w h inp (code src) (code dst)) as [sts|]; [|done]. cbn [mbind option_bind].
  destruct (put_all sts out') as [o|]; [|done]. cbn [mbind option_bind]. apply IH.
Qed.

(** A conversion between the YUV formats keeps every sample: brightness at
    every pixel, colours at every pair of pixels (of even lines, when the
    result is NV12).  It writes inside the frame and leaves the rest of the
    buffer as it was. *)
Theorem yuv_conversion_keeps_samples w h (src dst : yuv_format) inp out inLength outLength :
  0 < w <= 8192 -> 0 < h <= 8192 -> Z.even w = true -> Z.even h = true -> src <> dst ->
  Forall (fun b => 0 <= b < 256) inp ->
  (forall s, getStride (code src) w = Some s -> image_size src s h <= Z.of_nat (length inp)) ->
  (forall s, getStride (code dst) w = Some s -> image_size dst s h <= Z.of_nat (length out)) ->
  exists ss ds out', getStride (code src) w = Some ss /\ getStride (code dst) w = Some ds
    /\ convertFormat w h (Some inp) inLength (code src) (Some out) outLength (code dst) = Some (0, Some out')
    /\ length out' = length out
    /\ (forall k x y, 0 <= x < w -> 0 <= y < h ->
          load out' (sample_pos dst ds h k x y) = load inp (sample_pos src ss h k x (source_line dst k y)))
    /\ (forall o, image_size dst ds h <= o -> load out' o = load out o)
    /\ (Forall (fun b => 0 <= b < 256) out -> Forall (fun b => 0 <= b < 256) out').
Proof.
  intros Hw Hh Hwe Hhe Hne Hb Hi Ho.
  destruct (yuv_stride src w Hw Hwe) as (ss & Ess & Hss & Hss').
  destruct (yuv_stride dst w Hw Hwe) as (ds & Eds & Hds & Hds'). exists ss, ds.
  specialize (Hi ss Ess). specialize (Ho ds Eds). rewrite convert_different, Ess by done. cbn [mbind option_bind].
  pose proof (yuv_block_keeps w h inp src dst ss ds Hw Hh Hwe Hhe ltac:(lia) ltac:(lia) Hi Hb) as Hblock.
  destruct (convert_blocks_spec (keeps_sample w h inp src dst ss ds)
    (fun xy => convertYuvBlock (fst xy) (snd xy) w h inp (code src) (code dst)) (blocks w h) out) as (out' & -> & Hlen & Hout).
  { intros [x y] [Hx Hy]%blocks_spec. destruct (Hblock x y Hx Hy Ess Eds) as (sts & Es & Hf & _).
    exists sts. split; [done|]. eapply Forall_impl; [exact Hf|]. cbn. intros st [? ?]. split; [lia|done]. }
  exists out'. split_and!; try done.
  - intros k x y Hx Hy. destruct (Hout (sample_pos dst ds h k x y)) as [Hst _].
    assert (Hex : Z.even (2 * (x / 2)) = true /\ 0 <= 2 * (x / 2) < w) by (rewrite Z.even_mul; split; [done|divlia]).
    assert (Hey : Z.even (2 * (y / 2)) = true /\ 0 <= 2 * (y / 2) < h) by (rewrite Z.even_mul; split; [done|divlia]).
    destruct (Hblock _ _ Hex Hey Ess Eds) as (sts & Es & _ & Hcov).
    destruct (Hst (2 * (x / 2), 2 * (y / 2)) sts) as (v & Hv & k' & x' & y' & Hx' & Hy' & Epos & Hsrc).
    + by apply blocks_spec.
    + done.
    + apply Hcov; divlia.
    + rewrite Hv, <- Hsrc. unfold source. f_equal.
      destruct (sample_pos_unique ds w h Hwe Hhe dst k k' x x' y y') as (<- & Ex & Ex2 & Ey); [lia|done..|].
      rewrite <- Ey. destruct k; [by rewrite Ex|..]; destruct src; cbn [sample_pos]; by rewrite Ex2.
  - intros o Hge. apply (proj1 (proj2 (Hout o))). intros [x y] sts [Hx Hy]%blocks_spec Es Hin.
    destruct (Hblock x y Hx Hy Ess Eds) as (sts' & Es' & Hf & _). cbn [fst snd] in Es. rewrite Es in Es'.
    injection Es' as <-. apply list_elem_of_fmap in Hin as (st & -> & Hin).
    apply (proj1 (Forall_forall _ _) Hf) in Hin. lia.
  - intros Hout0. apply Forall_forall. intros v Hv. apply list_elem_of_lookup in Hv as [i Hv].
    assert (Hl : load out' (Z.of_nat i) = Some v).
    { unfold load. destruct (Z.ltb_spec (Z.of_nat i) 0); [lia|]. by rewrite Nat2Z.id. }
    destruct (proj2 (proj2 (Hout _)) v Hl) as [Hv'|(k & x & y & _ & _ & _ & Hs)].
    + exact (load_byte out _ _ Hout0 Hv').
    + exact (load_byte inp _ _ Hb Hs).
Qed.

(** C24: there and back again: nothing is lost between the packed formats, nor from
    NV12 to a packed format and back. *)
Theorem yuv_conversion_round_trip w h (src dst : yuv_format) inp out back n1 n2 n3 n4 :
  0 < w <= 8192 -> 0 < h <= 8192 -> Z.even w = true -> Z.even h = true -> src <> dst -> dst <> NV12 ->
  Forall (fun b => 0 <= b < 256) inp -> Forall (fun b => 0 <= b < 256) out ->
  (forall s, getStride (code src) w = Some s -> image_size src s h <= Z.of_nat (length inp)) ->
  (forall s, getStride (code dst) w = Some s -> image_size dst s h <= Z.of_nat (length out)) ->
  (forall s, getStride (code src) w = Some s -> image_size src s h <= Z.of_nat (length back)) ->
  exists ss out' back', getStride (code src) w = Some ss
    /\ convertFormat w h (Some inp) n1 (code src) (Some out) n2 (code dst) = Some (0, Some out')
    /\ convertFormat w h (Some out') n3 (code dst) (Some back) n4 (code src) = Some (0, Some back')
    /\ forall k x y, 0 <= x < w -> 0 <= y < h ->
         load back' (sample_pos src ss h k x y) = load inp (sample_pos src ss h k x y).
Proof.
  intros Hw Hh Hwe Hhe Hne Hnv Hbi Hbo Hi Ho Hbk.
  destruct (yuv_conversion_keeps_samples w h src dst inp out n1 n2 Hw Hh Hwe Hhe Hne Hbi Hi Ho)
    as (ss & ds & out' & Ess & Eds & E1 & Hlen & Hs1 & _ & Hb1).
  destruct (yuv_conversion_keeps_samples w h dst src out' back n3 n4 Hw Hh Hwe Hhe (not_eq_sym Hne) (Hb1 Hbo))
    as (ds' & ss' & back' & Eds' & Ess' & E2 & _ & Hs2 & _); [intros s Hs; rewrite Hlen; by apply Ho|done|].
  assert (ss' = ss) as -> by congruence. assert (ds' = ds) as -> by congruence.
  exists ss, out', back'. split_and!; try done. intros k x y Hx Hy. rewrite Hs2 by done.
  assert (Hsl : 0 <= source_line src k y < h).
  { apply Z.even_spec in Hhe as [m Hm]. unfold source_line. destruct src, k; Z.div_mod_to_equations; lia. }
  rewrite Hs1 by done. f_equal. destruct src, dst, k; try done; cbn [source_line sample_pos];
    by rewrite Z.div_mul by lia.
Qed.

(** Buffers of the size of a frame are large enough. *)
Theorem frame_holds_image f w h s :
  0 < w <= 8192 -> 0 < h <= 8192 -> Z.even w = true -> Z.even h = true -> getStride (code f) w = Some s ->
  exists n, getFrameSize (code f) w h false true false = Some n /\ image_size f s h <= n.
Proof.
  intros Hw Hh Hwe Hhe Hs. destruct (yuv_stride f w Hw Hwe) as (s' & Hs' & Hl & Hr).
  assert (s' = s) as -> by congruence.
  assert (Hp : isPlanarFormat (code f) = true -> s <= 16447).
  { destruct (stride_covers (code f) w) as (s2 & Hs2 & _ & _ & _ & _ & Hp); [by destruct f|done|].
    assert (s2 = s) as -> by congruence. done. }
  destruct (plain_size (code f) w h h false true s) as (n & Hn & H1 & _); [by destruct f|done|done|done|done|done|].
  exists n. split; [done|]. etrans; [|exact H1]. apply Z.even_spec in Hhe as [m ->].
  destruct f; cbn [code image_size]; unfold rows.
  - change (isPlanarFormat V4L2_PIX_FMT_NV12) with true. change (getBpp V4L2_PIX_FMT_NV12) with 12.
    change (getPlanarByte V4L2_PIX_FMT_NV12) with 1. cbn iota. rewrite Z.div_1_r.
    replace (2 * m * 12 / 8) with (3 * m) by divlia. replace (2 * m / 2) with m by divlia. lia.
  - change (isPlanarFormat V4L2_PIX_FMT_UYVY) with false. cbn iota. lia.
  - change (isPlanarFormat V4L2_PIX_FMT_YUYV) with false. cbn iota. lia.
Qed.

(** ** Bayer images of eight bits *)

Inductive bayer := RGGB | GRBG | GBRG | BGGR.

#[global] Instance bayer_eq_dec : EqDecision bayer.
Proof. solve_decision. Defined.

Definition bayer_code (o : bayer) : Z :=
  match o with
  | RGGB => V4L2_PIX_FMT_SRGGB8 | GRBG => V4L2_PIX_FMT_SGRBG8
  | GBRG => V4L2_PIX_FMT_SGBRG8 | BGGR => V4L2_PIX_FMT_SBGGR8
  end.

Inductive channel := ChR | ChGr | ChGb | ChB.

(** The column and the line of a channel in a block. *)
Definition channel_at (o : bayer) (c : channel) : Z * Z :=
  match o, c with
  | RGGB, ChR | GRBG, ChGr | GBRG, ChGb | BGGR, ChB => (0, 0)
  | RGGB, ChGr | GRBG, ChR | GBRG, ChB | BGGR, ChGb => (1, 0)
  | RGGB, ChGb | GRBG, ChB | GBRG, ChR | BGGR, ChGr => (0, 1)
  | RGGB, ChB | GRBG, ChGb | GBRG, ChGr | BGGR, ChR => (1, 1)
  end.

(** Where the channel of the block at [x] and [y] is stored. *)
Definition channel_pos (o : bayer) (s : Z) (c : channel) (x y : Z) : Z :=
  (y + snd (channel_at o c)) * s + (x + fst (channel_at o c)).

Lemma bayer_stride o w : 0 < w <= 8192 -> exists s, getStride (bayer_code o) w = Some s /\ w <= s <= 32831.
Proof.
  intros Hw. destruct (stride_covers (bayer_code o) w) as (s & Hs & _ & Hl & Hr & _); [by destruct o|done|].
  exists s. split; [done|]. unfold line_bits in Hl.
  replace (isPlanarFormat (bayer_code o)) with false in Hl by (by destruct o).
  replace (getBpp (bayer_code o)) with 8 in Hl by (by destruct o). lia.
Qed.

Lemma bayer_one_stride o o' w : getStride (bayer_code o) w = getStride (bayer_code o') w.
Proof. by destruct o, o'. Qed.

Lemma up_down d : 0 <= d < 256 -> u8 (Z.shiftr (u16 (Z.shiftl d 2)) 2) = d.
Proof.
  intros Hd. unfold u8, u16. rewrite Z.shiftl_mul_pow2, Z.shiftr_div_pow2 by lia. divlia.
Qed.

(** A store of the channel [c]. *)
Ltac keep_channel Hkeep c :=
  eapply (Hkeep c); [unfold channel_pos; cbn; lia|unfold channel_pos; cbn [channel_at fst snd]; rewrite ?Z.add_0_r; assumption].

Section Bayer.
Context (w h : Z) (inp : bytes) (src dst : bayer) (s : Z).
Context (Hw : 0 < w <= 8192) (Hh : 0 < h <= 8192) (Hwe : Z.even w = true) (Hhe : Z.even h = true).
Context (Hs : w <= s <= 32831) (Hin : s * h <= Z.of_nat (length inp)).
Context (Hbytes : Forall (fun b => 0 <= b < 256) inp).

Lemma pixel_in x y : 0 <= x < w -> 0 <= y < h -> 0 <= y * s + x < s * h /\ y * s + x < 2 ^ 32.
Proof.
  intros Hx Hy. assert (s * h <= 32831 * 8192) by (apply Z.mul_le_mono_nonneg; lia).
  pose proof (line_in s h y x Hy ltac:(lia)). lia.
Qed.

Lemma pixel_some x y : 0 <= x < w -> 0 <= y < h -> exists v, load inp (y * s + x) = Some v /\ 0 <= v < 256.
Proof.
  intros Hx Hy. destruct (pixel_in x y Hx Hy) as [H1 _]. destruct (load_in inp (y * s + x) ltac:(lia)) as [v Hv].
  exists v. split; [done|]. by eapply load_byte.
Qed.

(** What is to be stored: the same channel of the same block. *)
Definition keeps_channel (o v : Z) : Prop :=
  exists c x y, (Z.even x = true /\ 0 <= x < w) /\ (Z.even y = true /\ 0 <= y < h)
    /\ o = channel_pos dst s c x y /\ load inp (channel_pos src s c x y) = Some v.

Lemma bayer_block_keeps x y :
  Z.even x = true /\ 0 <= x < w -> Z.even y = true /\ 0 <= y < h -> getStride (bayer_code dst) w = Some s ->
  exists sts, block_stores w h inp (bayer_code src) (bayer_code dst) s (x, y) = Some sts
    /\ Forall (fun st => 0 <= fst st < s * h /\ keeps_channel (fst st) (snd st)) sts
    /\ forall c, channel_pos dst s c x y ∈ offsets sts.
Proof.
  intros Hx Hy Eds. assert (Hb : x + 1 < w /\ y + 1 < h).
  { destruct Hx as [Ex Hx], Hy as [Ey Hy]. apply Z.even_spec in Ex as [a ->], Ey as [b ->].
    apply Z.even_spec in Hwe as [c ->], Hhe as [d ->]. lia. }
  destruct (pixel_some x y) as (d0 & E0 & B0); [lia..|]. destruct (pixel_some (x + 1) y) as (d1 & E1 & B1); [lia..|].
  destruct (pixel_some x (y + 1)) as (d2 & E2 & B2); [lia..|].
  destruct (pixel_some (x + 1) (y + 1)) as (d3 & E3 & B3); [lia..|].
  pose proof (pixel_in x y ltac:(lia) ltac:(lia)) as P0. pose proof (pixel_in (x + 1) y ltac:(lia) ltac:(lia)) as P1.
  pose proof (pixel_in x (y + 1) ltac:(lia) ltac:(lia)) as P2.
  pose proof (pixel_in (x + 1) (y + 1) ltac:(lia) ltac:(lia)) as P3.
  assert (Eq : forall a b c d, quad8 x y s a b c d =
    [(y * s + x, u8 (Z.shiftr a 2)); (y * s + (x + 1), u8 (Z.shiftr b 2));
     ((y + 1) * s + x, u8 (Z.shiftr c 2)); ((y + 1) * s + (x + 1), u8 (Z.shiftr d 2))]).
  { intros a b c d. unfold quad8, set8. rewrite <- !Z.add_assoc, !colour_u32_small by lia. done. }
  assert (Er : block_stores w h inp (bayer_code src) (bayer_code dst) s (x, y)
    = convertBayerBlock x y w h (d0, d1, d2, d3) (bayer_code src) (bayer_code dst)).
  { unfold block_stores. replace (isRaw (bayer_code src)) with true by (by destruct src).
    replace (getBpp (bayer_code src)) with 8 by (by destruct src). cbn [Z.eqb Pos.eqb].
    erewrite read_bind; [|exact E0|lia|lia]. erewrite read_bind; [|exact E1|lia|lia].
    erewrite read_bind; [|exact E2|lia|lia]. erewrite read_bind; [|exact E3|lia|lia]. done. }
  assert (Hkeep : forall c o v, o = channel_pos dst s c x y -> load inp (channel_pos src s c x y) = Some v ->
    keeps_channel o v) by (intros c o v -> Hv; exists c, x, y; auto).
  rewrite Er. unfold convertBayerBlock. clear Er.
  destruct src; cbn [bayer_code]; unfold bayer_channels; fmt_cases; rewrite Eds; cbn [mbind option_bind];
    (eexists; split; [reflexivity|]); unfold bayer_stores;
    match goal with |- context [RGB2YUV ?R ?G ?B] => destruct (RGB2YUV R G B) as [[Y U] V] end;
    (destruct dst; cbn [bayer_code]; fmt_cases; rewrite Eq, !up_down by done);
    (split; [|intros c; unfold channel_pos; destruct c; cbn [channel_at fst snd]; rewrite ?Z.add_0_r; csimpl; in_list]).
  all: repeat (apply Forall_cons; split; [cbn [fst snd]; split; [lia|]|]); try done.
  all: first [keep_channel Hkeep ChR|keep_channel Hkeep ChGr|keep_channel Hkeep ChGb|keep_channel Hkeep ChB].
Qed.
End Bayer.

(** A conversion between the orders of eight-bit Bayer images moves every
    channel of every block to its place in the new order, without loss. *)
Theorem bayer_reorder_keeps_channels w h (src dst : bayer) inp out inLength outLength s :
  0 < w <= 8192 -> 0 < h <= 8192 -> Z.even w = true -> Z.even h = true -> src <> dst ->
  Forall (fun b => 0 <= b < 256) inp -> getStride (bayer_code src) w = Some s ->
  s * h <= Z.of_nat (length inp) -> s * h <= Z.of_nat (length out) ->
  exists out',
    convertFormat w h (Some inp) inLength (bayer_code src) (Some out) outLength (bayer_code dst) = Some (0, Some out')
    /\ length out' = length out
    /\ forall c x y, Z.even x = true /\ 0 <= x < w -> Z.even y = true /\ 0 <= y < h ->
         load out' (channel_pos dst s c x y) = load inp (channel_pos src s c x y).
Proof.
  intros Hw Hh Hwe Hhe Hne Hb Ess Hi Ho. destruct (bayer_stride src w Hw) as (s' & Ess' & Hs).
  assert (s' = s) as -> by congruence. clear Ess'.
  assert (Eds : getStride (bayer_code dst) w = Some s) by (by rewrite (bayer_one_stride dst src)).
  unfold convertFormat. replace (bayer_code dst =? bayer_code src) with false by (destruct src, dst; try done; by vm_compute).
  rewrite Ess. cbn [mbind option_bind].
  pose proof (bayer_block_keeps w h inp src dst s Hw Hh Hwe Hhe Hs Hi Hb) as Hblock.
  destruct (convert_blocks_spec (keeps_channel w h inp src dst s)
    (block_stores w h inp (bayer_code src) (bayer_code dst) s) (blocks w h) out) as (out' & -> & Hlen & Hout).
  { intros [x y] [Hx Hy]%blocks_spec. destruct (Hblock x y Hx Hy Eds) as (sts & Es & Hf & _).
    exists sts. split; [done|]. eapply Forall_impl; [exact Hf|]. cbn. intros st [? ?]. split; [lia|done]. }
  exists out'. split; [done|]. split; [done|]. intros c x y Hx Hy.
  destruct (Hblock x y Hx Hy Eds) as (sts & Es & _ & Hcov). destruct (Hout (channel_pos dst s c x y)) as [Hst _].
  destruct (Hst (x, y) sts) as (v & Hv & c' & x' & y' & Hx' & Hy' & Epos & Hsrc);
    [by apply blocks_spec|done|apply Hcov|].
  rewrite Hv, <- Hsrc. f_equal.
  assert (c = c' /\ x = x' /\ y = y') as (-> & -> & ->); [|done].
  destruct Hx as [Ex Hx], Hy as [Ey Hy], Hx' as [Ex' Hx'], Hy' as [Ey' Hy'].
  apply Z.even_spec in Hwe as [m Hm], Ex as [a Ha], Ey as [b Hb'], Ex' as [a' Ha'], Ey' as [b' Hb''].
  unfold channel_pos in Epos.
  assert (forall c, 0 <= fst (channel_at dst c) <= 1 /\ 0 <= snd (channel_at dst c) <= 1) as Hat
    by (intros []; destruct dst; cbn; lia).
  pose proof (Hat c). pose proof (Hat c'). apply line_unique in Epos as [El Ec]; [|lia..].
  assert (y = y' /\ x = x') as [-> ->] by lia. split; [|done].
  destruct dst, c, c'; cbn in El, Ec; first [done|lia].
Qed.

(** ** Colours *)

(** The conversions of colours stay within their ranges and do not overflow:
    YUV of any 16-bit colours is three bytes, RGB of any bytes has ten bits. *)
Theorem colours_in_range R G B Y U V :
  0 <= R < 65536 -> 0 <= G < 65536 -> 0 <= B < 65536 -> 0 <= Y < 256 -> 0 <= U < 256 -> 0 <= V < 256 ->
  (let '(y, u, v) := RGB2YUV R G B in 0 <= y < 256 /\ 0 <= u < 256 /\ 0 <= v < 256)
  /\ (let '(r, g, b) := YUV2RGB Y U V in 0 <= r < 1024 /\ 0 <= g < 1024 /\ 0 <= b < 1024)
  /\ Forall (fun z => - 2 ^ 31 <= z < 2 ^ 31)
       [257 * R + 504 * G + 98 * B; - 148 * R - 291 * G + 439 * B; 439 * R - 368 * G - 71 * B;
        9535 * (Y - 16) + 16531 * (U - 128); 9535 * (Y - 16) - 6660 * (V - 128) - 3203 * (U - 128);
        9535 * (Y - 16) + 13074 * (V - 128)].
Proof.
  intros HR HG HB HY HU HV.
  assert (Hclip : forall o hi, 0 <= hi -> 0 <= clip o hi <= hi).
  { intros o hi Hh. unfold clip. destruct (Z.ltb_spec hi o); [destruct (Z.ltb_spec hi 0); lia|].
    destruct (Z.ltb_spec o 0); lia. }
  split; [|split].
  - unfold RGB2YUV. split_and!; (eapply Z.le_lt_trans; [apply Hclip; lia|lia]) || apply Hclip; lia.
  - unfold YUV2RGB. split_and!; (eapply Z.le_lt_trans; [apply Hclip; lia|lia]) || apply Hclip; lia.
  - repeat constructor; cbn; lia.
Qed.

(** Grey has no colour: equal red, green and blue give U and V of 128, and U
    and V of 128 give equal red, green and blue. *)
Theorem grey_is_grey v Y :
  (snd (fst (RGB2YUV v v v)) = 128 /\ snd (RGB2YUV v v v) = 128)
  /\ exists g, YUV2RGB Y 128 128 = (g, g, g).
Proof.
  unfold RGB2YUV, YUV2RGB. cbn [fst snd]. split.
  - replace (-148 * v - 291 * v + 439 * v) with 0 by lia. replace (439 * v - 368 * v - 71 * v) with 0 by lia. done.
  - eexists. change (128 - 128) with 0. rewrite !Z.mul_0_r, !Z.sub_0_r, !Z.add_0_r. reflexivity.
Qed.

(** A grey value of the nominal range survives the way through RGB up to one. *)
Theorem grey_round_trip Y :
  16 <= Y <= 235 ->
  exists g, YUV2RGB Y 128 128 = (g, g, g) /\ Z.abs (fst (fst (RGB2YUV g g g)) - Y) <= 1.
Proof.
  intros HY. destruct (proj2 (grey_is_grey 0 Y)) as [g Hg]. exists g. split; [done|].
  assert (Hall : forallb (fun y => let '(g, _, _) := YUV2RGB y 128 128 in
      Z.abs (fst (fst (RGB2YUV g g g)) - y) <=? 1) (range 16 236) = true) by (vm_compute; reflexivity).
  rewrite forallb_forall in Hall. specialize (Hall Y). rewrite Hg in Hall. apply Z.leb_le, Hall.
  apply list_elem_of_In, elem_of_seqZ. lia.
Qed.

(** ** Where the conversion goes wrong *)

Lemma put_all_in l (buf buf' : bytes) st :
  put_all l buf = Some buf' -> st ∈ l -> 0 <= fst st < Z.of_nat (length buf).
Proof.
  revert buf. induction l as [|st' l IH]; intros buf; cbn [put_all]; [by intros _ ?%elem_of_nil|].
  unfold put. destruct (load buf (fst st')) as [v|] eqn:El; [|done]. cbn [mbind option_bind]. intros E Hin.
  apply elem_of_cons in Hin as [-> | Hin].
  - unfold load in El. destruct (Z.ltb_spec (fst st') 0); [done|]. apply lookup_lt_Some in El. lia.
  - apply (IH _ E) in Hin. by rewrite length_insert in Hin.
Qed.

Lemma put_all_length l (buf buf' : bytes) : put_all l buf = Some buf' -> length buf' = length buf.
Proof.
  revert buf. induction l as [|st l IH]; intros buf; cbn [put_all]; [by intros [= ->]|].
  unfold put. destruct (load buf (fst st)); [|done]. cbn [mbind option_bind]. intros E.
  by rewrite (IH _ E), length_insert.
Qed.

(** A conversion that goes through stored inside the buffer. *)
Lemma convert_blocks_in f l (buf buf' : bytes) xy sts st :
  convert_blocks f l buf = Some buf' -> xy ∈ l -> f xy = Some sts -> st ∈ sts -> 0 <= fst st < Z.of_nat (length buf).
Proof.
  revert buf. induction l as [|xy' l IH]; intros buf; cbn [convert_blocks]; [by intros _ ?%elem_of_nil|].
  destruct (f xy') as [sts'|] eqn:Ef; [|done]. cbn [mbind option_bind].
  destruct (put_all sts' buf) as [buf1|] eqn:Ep; [|done]. cbn [mbind option_bind]. intros E Hin Hf Hst.
  apply elem_of_cons in Hin as [-> | Hin].
  - rewrite Ef in Hf. injection Hf as ->. by eapply put_all_in.
  - rewrite <- (put_all_length _ _ _ Ep). by eapply IH.
Qed.

Definition ten_bit_bayer : list Z :=
  [V4L2_PIX_FMT_SRGGB10; V4L2_PIX_FMT_SGRBG10; V4L2_PIX_FMT_SGBRG10; V4L2_PIX_FMT_SBGGR10].

(** A ten-bit output is addressed in units of two bytes with a stride in bytes:
    the conversion needs about twice the bytes of the image. *)
Theorem ten_bit_output_overruns w h (src : yuv_format) dst inp out out' n1 n2 r ds :
  0 < w <= 8192 -> 0 < h <= 8192 -> Z.even w = true -> Z.even h = true -> dst ∈ ten_bit_bayer ->
  Forall (fun b => 0 <= b < 256) inp ->
  (forall s, getStride (code src) w = Some s -> image_size src s h <= Z.of_nat (length inp)) ->
  getStride dst w = Some ds -> 0 <= ds <= 32831 ->
  convertFormat w h (Some inp) n1 (code src) (Some out) n2 dst = Some (r, out') ->
  2 * ((h - 1) * ds + (w - 1)) < Z.of_nat (length out).
Proof.
  intros Hw Hh Hwe Hhe Hd Hb Hi Eds Hds. destruct (yuv_stride src w Hw Hwe) as (ss & Ess & Hss & Hss').
  specialize (Hi ss Ess). unfold convertFormat.
  assert (Hne : (dst =? code src) = false).
  { repeat (apply elem_of_cons in Hd as [-> | Hd]; [by destruct src; vm_compute|]). by apply elem_of_nil in Hd. }
  rewrite Hne, Ess. cbn [mbind option_bind].
  destruct (convert_blocks _ _ out) as [o|] eqn:Ec; [|done]. intros _.
  assert (Hbk : (Z.even (w - 2) = true /\ 0 <= w - 2 < w) /\ (Z.even (h - 2) = true /\ 0 <= h - 2 < h)).
  { apply Z.even_spec in Hwe as [a ->], Hhe as [b ->]. rewrite !Z.even_sub, !Z.even_mul. split; split; done || lia. }
  destruct Hbk as [Hx Hy].
  destruct (yuv_samples_ok w h inp src src ss ss Hw Hh Hwe Hhe ltac:(lia) ltac:(lia) Hi Hb (w - 2) (h - 2) Hx Hy)
    as (Y0 & Y1 & Y2 & Y3 & U0 & U2 & V0 & V2 & Es & _).
  assert (Hq : exists a b c d, block_stores w h inp (code src) dst ss (w - 2, h - 2)
      = Some (quad16 (w - 2) (h - 2) ds a b c d)).
  { unfold block_stores. replace (isRaw (code src)) with false by (by destruct src). unfold convertYuvBlock.
    rewrite Ess. cbn [mbind option_bind]. rewrite Es. cbn [mbind option_bind]. rewrite Eds. cbn [mbind option_bind].
    unfold yuv_stores. destruct (YUV2RGB Y0 U0 V0) as [[R G] B].
    repeat (apply elem_of_cons in Hd as [-> | Hd]; [fmt_cases; by eexists _, _, _, _|]). by apply elem_of_nil in Hd. }
  destruct Hq as (a & b & c & d & Hq).
  assert (Hst : (2 * (u32 ((h - 2 + 1) * ds) + (w - 2 + 1)) + 1, Z.shiftr d 8) ∈ quad16 (w - 2) (h - 2) ds a b c d)
    by (unfold quad16, set16; cbn [app]; in_list).
  pose proof (convert_blocks_in _ _ _ _ _ _ _ Ec (proj2 (blocks_spec w h _ _) (conj Hx Hy)) Hq Hst) as Hlen.
  cbn [fst] in Hlen. rewrite colour_u32_small in Hlen; [lia|].
  assert ((h - 2 + 1) * ds <= 8192 * 32831) by (apply Z.mul_le_mono_nonneg; lia). nia.
Qed.

(** So a frame of 1920 by 1080 is written past the end of a buffer of its
    size. *)
Theorem full_hd_overruns inp out n1 n2 n dst :
  dst ∈ ten_bit_bayer -> Forall (fun b => 0 <= b < 256) inp -> Z.of_nat (length inp) = 1920 * 1080 * 2 ->
  getFrameSize dst 1920 1080 false true false = Some n -> Z.of_nat (length out) = n ->
  convertFormat 1920 1080 (Some inp) n1 V4L2_PIX_FMT_UYVY (Some out) n2 dst = None.
Proof.
  intros Hd Hb Hi Hn Ho. destruct (convertFormat _ _ _ _ _ _ _ dst) as [[r out']|] eqn:E; [|done]. exfalso.
  assert (Hs : getStride dst 1920 = Some 3840 /\ n = 4151040).
  { repeat (apply elem_of_cons in Hd as [-> | Hd]; [split; [by vm_compute|vm_compute in Hn; by injection Hn as <-]|]).
    by apply elem_of_nil in Hd. }
  destruct Hs as [Hs ->]. apply (ten_bit_output_overruns 1920 1080 UYVY dst inp out out' n1 n2 r 3840) in E; try done; [lia|].
  intros s Es. vm_compute in Es. injection Es as <-. cbn [image_size]. lia.
Qed.

(** For a height that is even but no multiple of four, the planes of a YUV420
    image overlap: the U of the first pixels of the last two lines and the V
    of the first pixels are stored at the same offset. *)
Theorem yuv420_planes_overlap w h s Ys Ys' U0 U1 U2 U3 Us' V0 V1 V2 V3 Vs :
  0 < h <= 8192 -> h mod 4 = 2 -> 0 <= s <= 32831 ->
  (s * h + h / 4 * s, u8 ((U0 + U2) / 2)) ∈ yuv_stores 0 (h - 2) h w s (Ys, (U0, U1, U2, U3), Vs) V4L2_PIX_FMT_YUV420
  /\ (s * h + h / 4 * s, u8 ((V0 + V2) / 2)) ∈ yuv_stores 0 0 h w s (Ys', Us', (V0, V1, V2, V3)) V4L2_PIX_FMT_YUV420.
Proof.
  intros Hh Hm Hs. destruct Ys as [[[Y0 Y1] Y2] Y3], Ys' as [[[Y0' Y1'] Y2'] Y3'], Us' as [[[U0' U1'] U2'] U3'],
    Vs as [[[V0' V1'] V2'] V3'].
  unfold yuv_stores. destruct (YUV2RGB Y0 U0 V0') as [[R G] B], (YUV2RGB Y0' U0' V0) as [[R' G'] B'].
  fmt_cases. replace ((h - 2) mod 4 =? 0) with true by (symmetry; apply Z.eqb_eq; divlia).
  change (0 mod 4 =? 0) with true. cbv zeta. cbn iota. unfold set8. cbn [app].
  assert (Hb : 0 <= s * h <= 32831 * 8192) by (split; [nia|apply Z.mul_le_mono_nonneg; lia]).
  assert (Hq : 0 <= h / 4 <= 2048) by divlia.
  assert (Hb4 : 0 <= h / 4 * s <= 2048 * 32831) by (split; [nia|apply Z.mul_le_mono_nonneg; lia]).
  assert (E1 : u32 ((h - 2) / 4 * s + 0 / 2) = h / 4 * s).
  { replace ((h - 2) / 4) with (h / 4) by divlia. change (0 / 2) with 0. rewrite Z.add_0_r. apply colour_u32_small. lia. }
  assert (E2 : u32 (0 / 4 * s + 0 / 2) = 0) by done.
  rewrite E1, E2, (colour_u32_small (s * h)), (colour_u32_small (h + h / 4)), (colour_u32_small (s * (h + h / 4))), Z.add_0_r by lia.
  split; [in_list|]. replace (s * (h + h / 4) + 0) with (s * h + h / 4 * s) by lia. in_list.
Qed.

Definition bayer_formats : list Z :=
  [V4L2_PIX_FMT_SRGGB8; V4L2_PIX_FMT_SGRBG8; V4L2_PIX_FMT_SGBRG8; V4L2_PIX_FMT_SBGGR8].

(** The formats that can be written. *)
Definition output_formats : list Z :=
  bayer_formats ++ ten_bit_bayer ++ [V4L2_PIX_FMT_NV12; V4L2_PIX_FMT_UYVY; V4L2_PIX_FMT_YUYV; V4L2_PIX_FMT_YUV420].

Lemma no_stores x y h w s samples channels dst :
  dst ∉ output_formats -> yuv_stores x y h w s samples dst = [] /\ bayer_stores x y h w s channels dst = [].
Proof.
  intros Hd. unfold output_formats, bayer_formats, ten_bit_bayer in Hd. cbn [app] in Hd.
  rewrite !not_elem_of_cons in Hd. destruct_and! Hd.
  assert (Hf : forall a, dst <> a -> (dst =? a) = false) by (intros a; apply Z.eqb_neq).
  destruct samples as [[[[[Y0 Y1] Y2] Y3] [[[U0 U1] U2] U3]] [[[V0 V1] V2] V3]], channels as [[[R' Gr] Gb] B'].
  unfold yuv_stores, bayer_stores. destruct (YUV2RGB Y0 U0 V0) as [[R G] B], (RGB2YUV _ _ _) as [[Y U] V].
  split; by rewrite !Hf by done.
Qed.

(** Converting into any other format reports success and leaves the output as
    it was. *)
Theorem unsupported_output_ignored w h inp out n1 n2 src dst r out' :
  dst ∉ output_formats -> dst <> src ->
  convertFormat w h (Some inp) n1 src (Some out) n2 dst = Some (r, out') -> r = 0 /\ out' = Some out.
Proof.
  intros Hd Hne. unfold convertFormat. rewrite (proj2 (Z.eqb_neq dst src) Hne).
  destruct (getStride src w) as [ss|]; [|done]. cbn [mbind option_bind].
  destruct (convert_blocks _ _ out) as [o|] eqn:Ec; [|done]. cbn [mbind option_bind]. intros [= <- <-].
  split; [done|]. f_equal. revert out Ec. induction (blocks w h) as [|[x y] l IH]; intros out; cbn [convert_blocks];
    [by intros [= ->]|].
  destruct (block_stores w h inp src dst ss (x, y)) as [sts|] eqn:Eb; [|done]. cbn [mbind option_bind].
  assert (sts = []) as ->; [|by apply IH].
  revert Eb. unfold block_stores. destruct (isRaw src).
  - destruct (if getBpp src =? 8 then _ else _) as [d|]; [|done]. cbn [mbind option_bind]. unfold convertBayerBlock.
    destruct (bayer_channels src d) as [c|]; [|by intros [= <-]]. destruct (getStride dst w) as [ds|]; [|done].
    cbn [mbind option_bind]. intros [= <-]. by apply (no_stores x y h w ds ((0, 0, 0, 0), (0, 0, 0, 0), (0, 0, 0, 0)) c).
  - unfold convertYuvBlock. destruct (getStride src w) as [ss'|]; [|done]. cbn [mbind option_bind].
    destruct (yuv_samples x y h ss' inp src) as [[sm|]|]; [|by intros [= <-]|done]. cbn [mbind option_bind].
    destruct (getStride dst w) as [ds|]; [|done]. cbn [mbind option_bind]. intros [= <-].
    by apply (no_stores x y h w ds sm (0, 0, 0, 0)).
Qed.

(** A conversion to the same format copies the shorter of the two lengths. *)
Theorem same_format_copies w h f inp out n1 n2 out' r :
  convertFormat w h (Some inp) n1 f (Some out) n2 f = Some (r, out') ->
  r = 0 /\ exists o, out' = Some o /\ length o = length out /\ take (Nat.min n2 n1) o = take (Nat.min n2 n1) inp
    /\ drop (Nat.min n2 n1) o = drop (Nat.min n2 n1) out.
Proof.
  unfold convertFormat, MEMCPY_S. rewrite Z.eqb_refl. set (n := Nat.min n2 n1).
  destruct (Nat.leb_spec n (length out)); [|done]. destruct (Nat.leb_spec n (length inp)); [|done].
  cbn [andb mbind option_bind]. intros [= <- <-]. split; [done|]. eexists. split; [done|].
  rewrite length_app, length_take, length_drop. split; [lia|].
  rewrite take_app_le, drop_app_ge, length_take by (rewrite length_take; lia). rewrite take_take, Nat.min_id.
  split; [done|]. by replace (n - n `min` length inp)%nat with O by lia.
Qed.

(** A picture of two by two pixels goes to YUYV and back. *)
Definition example_picture : bytes := Z.of_nat <$> seq 0 128.

Lemma yuv_conversion_round_trip_witness :
  exists ss out' back', getStride (code UYVY) 2 = Some ss
    /\ convertFormat 2 2 (Some example_picture) 128 (code UYVY) (Some (replicate 128 0)) 128 (code YUYV) = Some (0, Some out')
    /\ convertFormat 2 2 (Some out') 128 (code YUYV) (Some (replicate 128 0)) 128 (code UYVY) = Some (0, Some back')
    /\ forall k x y, 0 <= x < 2 -> 0 <= y < 2 ->
         load back' (sample_pos UYVY ss 2 k x y) = load example_picture (sample_pos UYVY ss 2 k x y).
Proof.
  assert (Hb : forall l, forallb (fun x => (0 <=? x) && (x <? 256)) l = true -> Forall (fun x => 0 <= x < 256) l).
  { intros l Hl. apply Forall_forall. intros x Hx%list_elem_of_In. rewrite forallb_forall in Hl.
    specialize (Hl x Hx). lia. }
  assert (Hs : forall f n, (n = 128)%nat -> f = UYVY \/ f = YUYV ->
            forall s, getStride (code f) 2 = Some s -> image_size f s 2 <= Z.of_nat n).
  { intros f n -> [-> | ->] s; vm_compute; intros [= <-]; discriminate. }
  apply (yuv_conversion_round_trip 2 2 UYVY YUYV example_picture (replicate 128 0) (replicate 128 0) 128 128 128 128);
    try (discriminate || reflexivity || lia || (apply Hb; reflexivity)); intros s; apply Hs; auto.
Defined.
