(* ===== verification/SwImageProcessor.v ===== *)
(** * The software image processor

    src/core/SwImageProcessor.cpp: the processor that converts every input
    buffer to the formats of the output ports, on its own thread.  It is built
    from the queues (BufferQueue.v), the conversion (SwImageConverter.v) and the
    thread (Thread.v).  What it tells others is a list of [note]s.  [None] is
    what [convertFormat] leaves undefined, an access of an empty container, or a
    thread that sleeps on. *)

From S2P Require Import Prelude Errors OrderedMap V4l2Video SyncManager PixelFormats CaptureDevice BufferQueue SwImageConverter Thread.
From stdpp Require Import list gmap sorting.
#[local] Open Scope Z_scope.

(** ** Data *)

(** What is used of a [CameraBuffer]: its picture, and the field, time, sequence
    and request that [updateV4l2Buffer] copies. *)
Record CameraBuffer := Buffer {
  b_width : Z; b_height : Z; b_format : Z; b_addr : option bytes; b_size : nat;
  b_field : Z; b_timestamp : Z * Z; b_sequence : Z; b_request_fd : Z;
}.

Definition set_addr a b := Buffer (b_width b) (b_height b) (b_format b) a (b_size b) (b_field b) (b_timestamp b) (b_sequence b) (b_request_fd b).

Definition updateV4l2Buffer (from b : CameraBuffer) : CameraBuffer :=
  Buffer (b_width b) (b_height b) (b_format b) (b_addr b) (b_size b) (b_field from) (b_timestamp from) (b_sequence from) (b_request_fd from).

(** The buffers by address. *)
Abbreviation Store := (Z -> CameraBuffer).

Definition set_buf (a : Z) (b : CameraBuffer) (st : Store) : Store := fun x => if x =? a then b else st x.

Inductive note :=
| Available (consumer port buffer : Z)
| Requeued (producer port : Z) (buffer : CamBuffer).

Section SwImageProcessor.
Context (is_input_stream : Z -> bool).
Implicit Types (s : BufferQueue) (st : Store).

(** ** Starting and stopping *)

(** The type of memory of the first output port; [run] starts the thread. *)
Definition start {W} `{Producer W} (isISYSCompression : bool) s (t : Thread) (w : W) : option (Z * BufferQueue * Thread * W) :=
  port ← begin (mOutputFrameInfo s);
  info ← mOutputFrameInfo s !! port;
  if s_memType info =? V4L2_MEMORY_DMABUF then Some (BAD_VALUE, s, t, w) else
  '(ret, s, w) ← allocProducerBuffers isISYSCompression MAX_BUFFER_COUNT s w;
  if negb (ret =? OK) then Some (ret, s, t, w) else
  Some (0, set_running true s, snd (run t), w).

(** [stop] up to the wait for the thread, and after it. *)
Definition stop_begin s (t : Thread) : BufferQueue * Thread := (set_running false s, requestExit t).
Definition stop_end s : BufferQueue := clearBufferQueues s.

(** ** A frame *)

(** [pop] of every queue. *)
Fixpoint pop_ports (ps : list Z) (queue : gmap Z CameraBufQ) : option (gmap Z CameraBufQ) :=
  match ps with
  | [] => Some queue
  | p :: ps => q ← queue !! p; match q with [] => None | _ :: rest => pop_ports ps (<[p := rest]> queue) end
  end.
Definition pop_all (queue : gmap Z CameraBufQ) : option (gmap Z CameraBufQ) := pop_ports (ports queue) queue.

(** One output buffer: the status, the buffers and what the consumers hear. *)
Definition convert_output (src : Z) (port dst : Z) (consumers : list Z) st : option (Z * Store * list note) :=
  let i := st src in
  let o := st dst in
  '(ret, out) ← convertFormat (b_width i) (b_height i) (b_addr i) (b_size i) (b_format i) (b_addr o) (b_size o) (b_format o);
  let st := set_buf dst (set_addr out o) st in
  if ret <? 0 then Some (ret, st, []) else
  Some (OK, set_buf dst (updateV4l2Buffer (st src) (st dst)) st, (fun c => Available c port dst) <$> consumers).

(** The output buffers in the order of their ports; null pointers are left out. *)
Fixpoint convert_outputs (src : Z) (dsts : list (Z * CamBuffer)) (consumers : list Z) st : option (Z * Store * list note) :=
  match dsts with
  | [] => Some (OK, st, [])
  | (_, None) :: dsts => convert_outputs src dsts consumers st
  | (port, Some dst) :: dsts =>
      '(ret, st, ns) ← convert_output src port dst consumers st;
      if ret <? 0 then Some (ret, st, ns) else
      '(ret, st, ns') ← convert_outputs src dsts consumers st;
      Some (ret, st, ns ++ ns')
  end.

(** The entries of a map of fetched buffers, in order. *)
Definition entries (m : gmap Z CamBuffer) : list (Z * CamBuffer) :=
  omap (fun p => (p,.) <$> m !! p) (merge_sort Z.le (keys m)).

Definition processNewFrame s st (wakes : list wake) : option (Z * BufferQueue * Store * list note) :=
  '(ret, srcBuffers, dstBuffers, s, _) ← waitFreeBuffersInQueue is_input_stream ∅ ∅ s wakes;
  if negb (mThreadRunning s) then Some (-1, s, st, []) else
  if ret <? 0 then Some (-1, s, st, []) else
  inputPort ← begin srcBuffers;
  cInBuffer ← srcBuffers !! inputPort;
  outputs ← pop_all (mOutputQueue s);
  inputs ← pop_all (mInputQueue s);
  let s := set_queues inputs outputs s in
  match cInBuffer with
  | None => Some (BAD_VALUE, s, st, [])
  | Some src =>
      '(ret, st, ns) ← convert_outputs src (entries dstBuffers) (mBufferConsumerList s) st;
      if ret <? 0 then Some (ret, s, st, ns) else
      Some (OK, s, st, ns ++ match mBufferProducer s with Some p => [Requeued p inputPort cInBuffer] | None => [] end)
  end.

(** [threadLoop], and what the thread does with its answer. *)
Definition threadLoop s st wakes (t : Thread) : option (BufferQueue * Store * list note * Thread) :=
  '(ret, s, st, ns) ← processNewFrame s st wakes;
  Some (s, st, ns, loop_check (ret =? 0) t).
End SwImageProcessor.

(** ** Queues without their fronts *)

Lemma pop_ports_spec ps (q : gmap Z CameraBufQ) :
  NoDup ps -> (forall p, p ∈ ps -> exists b rest, q !! p = Some (b :: rest)) ->
  exists q', pop_ports ps q = Some q'
    /\ (forall p, p ∈ ps -> q' !! p = tail <$> q !! p) /\ (forall p, p ∉ ps -> q' !! p = q !! p).
Proof.
  intros Hn. revert q. induction Hn as [|p ps Hp Hn IH]; intros q Hq; cbn [pop_ports].
  { exists q. split_and!; [done|by intros p ?%elem_of_nil|done]. }
  destruct (Hq p ltac:(by left)) as (b & rest & Ep). rewrite Ep. cbn [mbind option_bind].
  destruct (IH (<[p := rest]> q)) as (q' & -> & H1 & H2).
  { intros p' Hp'. rewrite lookup_insert_ne by (intros ->; done). apply Hq. by right. }
  exists q'. split; [done|]. split.
  - intros p' [-> | Hp']%elem_of_cons; [by rewrite H2, lookup_insert_eq, Ep by done|].
    rewrite H1, lookup_insert_ne by (done || (intros ->; done)). done.
  - intros p' [Hne Hp']%not_elem_of_cons. by rewrite H2, lookup_insert_ne by done.
Qed.

Lemma pop_all_spec (q : gmap Z CameraBufQ) :
  (forall p l, q !! p = Some l -> exists b rest, l = b :: rest) -> pop_all q = Some (tail <$> q).
Proof.
  intros Hq. destruct (pop_ports_spec (ports q) q (ports_nodup q)) as (q' & Hp & H1 & H2).
  { intros p [l Hl]%in_ports. destruct (Hq p l Hl) as (b & rest & ->). eauto. }
  unfold pop_all. rewrite Hp. f_equal. apply map_eq. intros p. rewrite lookup_fmap.
  destruct (decide (p ∈ ports q)) as [Hin|Hin]; [by apply H1|]. rewrite H2 by done.
  rewrite in_ports in Hin. destruct (q !! p) as [l|]; [|done]. destruct Hin. by eexists.
Qed.

(** ** The output buffers *)

(** The buffers that are not null, with their ports. *)
Definition outputs (dsts : list (Z * CamBuffer)) : list (Z * Z) :=
  omap (fun e => (e.1,.) <$> e.2) dsts.

Definition deliveries (consumers : list Z) (outs : list (Z * Z)) : list note :=
  concat ((fun e => (fun c => Available c e.1 e.2) <$> consumers) <$> outs).

(** A buffer after it was converted into from [i]. *)
Definition converted (i o : CameraBuffer) (out : bytes) : CameraBuffer := updateV4l2Buffer i (set_addr (Some out) o).

Definition converts (i o : CameraBuffer) (out : bytes) : Prop :=
  convertFormat (b_width i) (b_height i) (b_addr i) (b_size i) (b_format i) (b_addr o) (b_size o) (b_format o)
  = Some (0, Some out).

Lemma convert_outputs_spec src dsts consumers st :
  NoDup (snd <$> outputs dsts) -> src ∉ (snd <$> outputs dsts) ->
  (forall e, e ∈ outputs dsts -> exists out, converts (st src) (st e.2) out) ->
  exists st', convert_outputs src dsts consumers st = Some (OK, st', deliveries consumers (outputs dsts))
    /\ (forall e out, e ∈ outputs dsts -> converts (st src) (st e.2) out -> st' e.2 = converted (st src) (st e.2) out)
    /\ (forall a, a ∉ snd <$> outputs dsts -> st' a = st a).
Proof.
  revert st. induction dsts as [|[port [dst|]] dsts IH]; intros st Hn Hs Hc; cbn [convert_outputs].
  - exists st. split_and!; [done|by intros e out ?%elem_of_nil|done].
  - change (outputs ((port, Some dst) :: dsts)) with ((port, dst) :: outputs dsts) in *. csimpl in Hn. csimpl in Hs.
    apply NoDup_cons in Hn as [Hd Hn]. apply not_elem_of_cons in Hs as [Hsd Hs].
    destruct (Hc (port, dst) ltac:(by left)) as [out Eo]. cbn [snd] in Eo.
    unfold convert_output. unfold converts in Eo. rewrite Eo. cbn [mbind option_bind Z.ltb Z.compare].
    set (st1 := set_buf dst (updateV4l2Buffer _ _) _).
    assert (Hst1 : forall a, a <> dst -> st1 a = st a).
    { intros a Ha. unfold st1, set_buf. by replace (a =? dst) with false by lia. }
    assert (Hst1d : st1 dst = converted (st src) (st dst) out).
    { unfold st1, set_buf, converted. rewrite Z.eqb_refl. by replace (src =? dst) with false by lia. }
    destruct (IH st1 Hn Hs) as (st' & -> & H1 & H2).
    { intros e He. rewrite (Hst1 src) by done. rewrite Hst1; [apply Hc; by right|].
      intros <-. apply Hd, list_elem_of_fmap. by exists e. }
    exists st'. split; [done|]. split.
    + intros e out' [-> | He]%elem_of_cons Eo'.
      * cbn [snd] in *. rewrite H2, Hst1d by done. unfold converts in Eo'. rewrite Eo in Eo'. by injection Eo' as <-.
      * assert (Hne : e.2 <> dst) by (intros <-; apply Hd, list_elem_of_fmap; by exists e).
        specialize (H1 e out' He). rewrite (Hst1 src), (Hst1 e.2) in H1 by done. by apply H1.
    + intros a [Ha1 Ha2]%not_elem_of_cons. by rewrite H2, Hst1.
  - change (outputs ((port, None) :: dsts)) with (outputs dsts) in *. by apply IH.
Qed.

(** ** Theorems *)

Section Theorems.
Context (is_input_stream : Z -> bool).
Implicit Types (s : BufferQueue) (st : Store).

(** Whatever the formats: when every conversion succeeds, the buffers that the
    wait fetched are converted into, their consumers hear of them in the order
    of the ports, and the input goes back to the producer. *)
Lemma conversions_go_through s st wakes cIn cOut s1 w1 port src :
  waitFreeBuffersInQueue is_input_stream ∅ ∅ s wakes = Some (OK, cIn, cOut, s1, w1) -> mThreadRunning s1 = true ->
  begin cIn = Some port -> cIn !! port = Some (Some src) ->
  NoDup (snd <$> outputs (entries cOut)) -> src ∉ (snd <$> outputs (entries cOut)) ->
  (forall e, e ∈ outputs (entries cOut) -> exists out, converts (st src) (st e.2) out) ->
  exists st',
    processNewFrame is_input_stream s st wakes
    = Some (OK, set_queues (tail <$> mInputQueue s1) (tail <$> mOutputQueue s1) s1, st',
            deliveries (mBufferConsumerList s1) (outputs (entries cOut))
            ++ match mBufferProducer s1 with Some p => [Requeued p port (Some src)] | None => [] end)
    /\ (forall e out, e ∈ outputs (entries cOut) -> converts (st src) (st e.2) out ->
          st' e.2 = converted (st src) (st e.2) out)
    /\ (forall a, a ∉ snd <$> outputs (entries cOut) -> st' a = st a).
Proof.
  intros Hwait Hr Hb Hp Hn Hs Hc. unfold processNewFrame. rewrite Hwait. cbn [mbind option_bind].
  rewrite Hr, Hb. cbn [negb Z.ltb Z.compare mbind option_bind]. rewrite Hp. cbn [mbind option_bind].
  apply fetched_are_oldest in Hwait as (Hf & _ & _). destruct (Hf Hr) as [|(_ & Hi & Ho & _)]; [done|].
  rewrite (pop_all_spec (mOutputQueue s1)) by (intros p l E; destruct (Ho p l E) as (b & rest & -> & _); eauto).
  rewrite (pop_all_spec (mInputQueue s1)) by (intros p l E; destruct (Hi p l E) as (b & rest & -> & _); eauto).
  cbn [mbind option_bind].
  destruct (convert_outputs_spec src (entries cOut) (mBufferConsumerList s1) st Hn Hs Hc) as (st' & E & H1 & H2).
  cbn [mBufferConsumerList set_queues]. rewrite E. cbn [mbind option_bind Z.ltb Z.compare].
  exists st'. split; [done|]. by split.
Qed.

(** A YUV picture of a buffer. *)
Definition picture (f : yuv_format) (w h : Z) (data : bytes) (b : CameraBuffer) : Prop :=
  b_width b = w /\ b_height b = h /\ b_format b = code f /\ b_addr b = Some data
  /\ Forall (fun x => 0 <= x < 256) data
  /\ forall stride, getStride (code f) w = Some stride -> image_size f stride h <= Z.of_nat (length data).

(** So the consumers of a YUV output get the picture of the input, with its
    sequence and time, in the output's format. *)
Theorem delivered_picture src dst w h inp out i o :
  0 < w <= 8192 -> 0 < h <= 8192 -> Z.even w = true -> Z.even h = true -> src <> dst ->
  picture src w h inp i -> picture dst w h out o ->
  exists out' ss ds, converts i o out' /\ picture dst w h out' (converted i o out')
    /\ b_sequence (converted i o out') = b_sequence i /\ b_timestamp (converted i o out') = b_timestamp i
    /\ getStride (code src) w = Some ss /\ getStride (code dst) w = Some ds
    /\ forall k x y, 0 <= x < w -> 0 <= y < h ->
         load out' (sample_pos dst ds h k x y) = load inp (sample_pos src ss h k x (source_line dst k y)).
Proof.
  intros Hw Hh Hwe Hhe Hne (Iw & Ih & If & Ia & Ib & Is) (Ow & Oh & Of & Oa & Ob & Os).
  destruct (yuv_conversion_keeps_samples w h src dst inp out (b_size i) (b_size o) Hw Hh Hwe Hhe Hne Ib Is Os)
    as (ss & ds & out' & Ess & Eds & E & Hlen & Hk & _ & Hb).
  exists out', ss, ds. split_and!; try done.
  - unfold converts. by rewrite Iw, Ih, If, Ia, Of, Oa.
  - split_and!; try done; [by apply Hb|]. intros n Hn. rewrite Hlen. by apply Os.
Qed.

(** The pictures at the fronts of the output queues, in the order of their
    ports; null pointers are left out. *)
Definition fronts (q : gmap Z CameraBufQ) : list (Z * Z) :=
  omap (fun p => b ← front_of q p; (p,.) <$> b) (ports q).

Lemma elem_of_fronts q p a : (p, a) ∈ fronts q <-> front_of q p = Some (Some a).
Proof.
  unfold fronts. rewrite list_elem_of_omap. split.
  - intros (p' & _ & H). destruct (front_of q p') as [[b|]|] eqn:E; cbn in H; by simplify_eq.
  - intros E. exists p. rewrite E. split; [|done]. apply in_ports. unfold front_of in E.
    destruct (q !! p); [by eexists|done].
Qed.

Lemma fronts_distinct q :
  (forall p p' a, front_of q p = Some (Some a) -> front_of q p' = Some (Some a) -> p = p') -> NoDup (snd <$> fronts q).
Proof.
  intros Hd. unfold fronts. pose proof (ports_nodup q) as Hn. induction Hn as [|p ps Hp Hn IH]; [constructor|].
  cbn [omap list_omap]. destruct (front_of q p) as [[a|]|] eqn:E; cbn [mbind option_bind fmap option_fmap option_map]; [|done..].
  csimpl. constructor; [|done]. intros ([p' a'] & -> & (x & Hx & E')%list_elem_of_omap)%list_elem_of_fmap.
  destruct (front_of q x) as [[b|]|] eqn:Ex; cbn in E'; simplify_eq. apply Hp. by rewrite (Hd p p' a').
Qed.

(** What the wait fetched of the output queues are their fronts. *)
Lemma fetched_fronts (m : gmap Z CamBuffer) (q : gmap Z CameraBufQ) :
  (forall p l, q !! p = Some l -> exists b rest, l = b :: rest /\ m !! p = Some b) ->
  (forall p, q !! p = None -> m !! p = None) -> outputs (entries m) = fronts q.
Proof.
  intros H1 H2. assert (Hk : forall p, is_Some (m !! p) <-> is_Some (q !! p)).
  { intros p. destruct (q !! p) as [l|] eqn:E; [|by rewrite H2].
    destruct (H1 p l E) as (b & rest & _ & ->). split; by eexists. }
  assert (Hs : merge_sort Z.le (keys m) = ports q).
  { unfold ports. apply (StronglySorted_unique Z.le); [apply (StronglySorted_merge_sort Z.le)..|].
    etrans; [apply merge_sort_Permutation|]. etrans; [|symmetry; apply merge_sort_Permutation]. apply NoDup_Permutation; [apply NoDup_fst_map_to_list..|].
    intros p. by rewrite !keys_spec. }
  unfold entries, outputs, fronts. rewrite Hs. clear Hs.
  assert (Hin : forall p, p ∈ ports q -> is_Some (q !! p)) by (intros p; by apply in_ports).
  induction (ports q) as [|p ps IH]; [done|]. cbn [omap list_omap].
  destruct (Hin p ltac:(by left)) as [l E]. destruct (H1 p l E) as (b & rest & -> & Em).
  specialize (IH (fun p' Hp => Hin p' ltac:(by right))). rewrite Em. unfold front_of at 1. rewrite E.
  cbn [fmap option_fmap option_map mbind option_bind head omap list_omap fst snd]. rewrite IH.
  by destruct b.
Qed.

(** The output buffer [o'] after a frame of input [i]: it has the picture of
    [i] in its own format [g] and the field, time, sequence and request of
    [i]; its size and format are those of [o]. *)
Definition delivered (f g : yuv_format) (w h : Z) (inp : bytes) (i o o' : CameraBuffer) : Prop :=
  b_field o' = b_field i /\ b_timestamp o' = b_timestamp i /\ b_sequence o' = b_sequence i
  /\ b_request_fd o' = b_request_fd i
  /\ b_width o' = b_width o /\ b_height o' = b_height o /\ b_format o' = b_format o /\ b_size o' = b_size o
  /\ exists out ss ds, b_addr o' = Some out /\ getStride (code f) w = Some ss /\ getStride (code g) w = Some ds
     /\ forall k x y, 0 <= x < w -> 0 <= y < h ->
          load out (sample_pos g ds h k x y) = load inp (sample_pos f ss h k x (source_line g k y)).

(** C26: a frame goes through.  Once the wait has found a buffer for every
    port, let the front of the first input queue be a picture in one of the
    formats NV12, UYVY and YUYV, of even sides up to 8192, and the fronts of
    the output queues null or different buffers with room for such a picture
    in one of the other two formats.  Then every queue gives its front; each of
    the output buffers gets the picture, sample by sample in its own format,
    with the field, time, sequence and request of the input; every consumer
    hears of each of them in the order of the ports; then the input goes back
    to the producer; and no other buffer changes.  (What other input ports
    give is not given back to the producer: see the finding on line 140.) *)
Theorem frame_goes_through s st wakes cIn cOut s1 w1 port src f w h inp :
  waitFreeBuffersInQueue is_input_stream ∅ ∅ s wakes = Some (OK, cIn, cOut, s1, w1) -> mThreadRunning s1 = true ->
  front_of (mInputQueue s1) port = Some (Some src) -> (forall p, is_Some (mInputQueue s1 !! p) -> port <= p) ->
  0 < w <= 8192 -> 0 < h <= 8192 -> Z.even w = true -> Z.even h = true -> picture f w h inp (st src) ->
  (forall p a, front_of (mOutputQueue s1) p = Some (Some a) ->
     a <> src /\ (forall p', front_of (mOutputQueue s1) p' = Some (Some a) -> p' = p)
     /\ exists g out, g <> f /\ picture g w h out (st a)) ->
  exists st',
    processNewFrame is_input_stream s st wakes
    = Some (OK, set_queues (tail <$> mInputQueue s1) (tail <$> mOutputQueue s1) s1, st',
            deliveries (mBufferConsumerList s1) (fronts (mOutputQueue s1))
            ++ match mBufferProducer s1 with Some p => [Requeued p port (Some src)] | None => [] end)
    /\ (forall p a g out, front_of (mOutputQueue s1) p = Some (Some a) -> picture g w h out (st a) ->
          delivered f g w h inp (st src) (st a) (st' a))
    /\ (forall a, (forall p, front_of (mOutputQueue s1) p <> Some (Some a)) -> st' a = st a).
Proof.
  intros Hwait Hr Hport Hfirst Hw Hh Hwe Hhe Hsrc Hout.
  pose proof (fetched_are_oldest _ _ _ _ _ _ _ _ _ _ Hwait) as (Hf & _ & _).
  destruct (Hf Hr) as [|(_ & Hi & Ho & Ni & No)]; [done|].
  pose proof (fetched_fronts cOut (mOutputQueue s1) Ho No) as Ef.
  assert (Hin : cIn !! port = Some (Some src)).
  { unfold front_of in Hport. destruct (mInputQueue s1 !! port) as [l|] eqn:E; [|done].
    destruct (Hi port l E) as (b & rest & -> & Ec). cbn in Hport. by simplify_eq. }
  assert (Hb : begin cIn = Some port).
  { apply begin_spec. split; [by eexists|]. intros p [b Hp]. apply Hfirst.
    destruct (mInputQueue s1 !! p) eqn:E; [by eexists|]. specialize (Ni p E). by rewrite Ni in Hp. }
  assert (Hmem : forall a, a ∈ snd <$> fronts (mOutputQueue s1) <-> exists p, front_of (mOutputQueue s1) p = Some (Some a)).
  { intros a. rewrite list_elem_of_fmap. split.
    - intros ([p b] & -> & Hp%elem_of_fronts). by exists p.
    - intros [p Hp%elem_of_fronts]. by exists (p, a). }
  destruct (conversions_go_through s st wakes cIn cOut s1 w1 port src Hwait Hr Hb Hin) as (st' & E & H1 & H2); rewrite ?Ef in *.
  - apply fronts_distinct. intros p p' a Hp Hp'. destruct (Hout p a Hp) as (_ & Hd & _). by rewrite (Hd p').
  - rewrite Hmem. intros [p Hp]. by apply Hout in Hp as [? _].
  - intros [p a] Hp%elem_of_fronts. destruct (Hout p a Hp) as (Hne & _ & g & out & Hg & Hpic).
    destruct (delivered_picture f g w h inp out (st src) (st a) Hw Hh Hwe Hhe ltac:(done) Hsrc Hpic) as (out' & _ & _ & Hc & _).
    by exists out'.
  - exists st'. split; [exact E|]. split.
    + intros p a g out Hp Hpic. destruct (Hout p a Hp) as (Hne & _ & g' & out' & Hg & Hpic').
      assert (g' = g) as -> by (destruct Hpic as (_ & _ & E1 & _), Hpic' as (_ & _ & E2 & _); rewrite E1 in E2; by destruct g, g').
      destruct (delivered_picture f g w h inp out (st src) (st a) Hw Hh Hwe Hhe ltac:(done) Hsrc Hpic)
        as (o & ss & ds & Hc & (_ & _ & _ & Ha & _) & _ & _ & Es & Ed & Hk).
      pose proof (H1 (p, a) o ltac:(by apply elem_of_fronts) Hc) as E1. cbn [snd] in E1. rewrite E1.
      split_and!; try done. by exists o, ss, ds.
    + intros a Ha. apply H2. rewrite Hmem. intros [p Hp]. by apply (Ha p).
Qed.

(** A wait that times out ends the thread for good: the flag still says that it
    runs, but [threadLoop] is not called again. *)
Theorem timeout_ends_thread s st t p :
  mThreadRunning s = true -> mInputQueue s !! p = Some [] -> (forall q, is_Some (mInputQueue s !! q) -> q = p) ->
  threadLoop is_input_stream s st [([], true)] t = Some (s, st, [], exit_loop t).
Proof.
  intros Hr Hp Hq. unfold threadLoop, processNewFrame, waitFreeBuffersInQueue. rewrite Hr. cbn [negb].
  assert (Hps : ports (mInputQueue s) = [p]).
  { pose proof (ports_nodup (mInputQueue s)) as Hn.
    assert (Hin : forall q, q ∈ ports (mInputQueue s) <-> q = p).
    { intros q. rewrite in_ports. split; [apply Hq|]. intros ->. by rewrite Hp. }
    destruct (ports (mInputQueue s)) as [|a [|b l]].
    - pose proof (proj2 (Hin p) eq_refl) as Hx. by apply elem_of_nil in Hx.
    - f_equal. apply Hin. by left.
    - apply NoDup_cons in Hn as [Hn _]. destruct Hn. rewrite (proj1 (Hin a) ltac:(by left)).
      rewrite (proj1 (Hin b) ltac:(by right; left)). by left. }
  rewrite Hps. cbn [wait_ports wait_port]. unfold front_of. rewrite Hp. cbn [mbind option_bind head do_others fst].
  rewrite Hr. cbn. by rewrite Hr.
Qed.

(** A null input buffer takes one buffer of every output with it: they are
    neither filled nor given to anybody. *)
Theorem null_input_loses_outputs s st wakes cIn cOut s1 w1 port :
  waitFreeBuffersInQueue is_input_stream ∅ ∅ s wakes = Some (OK, cIn, cOut, s1, w1) -> mThreadRunning s1 = true ->
  begin cIn = Some port -> cIn !! port = Some None ->
  processNewFrame is_input_stream s st wakes
  = Some (BAD_VALUE, set_queues (tail <$> mInputQueue s1) (tail <$> mOutputQueue s1) s1, st, []).
Proof.
  intros Hwait Hr Hb Hp. unfold processNewFrame. rewrite Hwait. cbn [mbind option_bind].
  rewrite Hr, Hb. cbn [negb Z.ltb Z.compare mbind option_bind]. rewrite Hp. cbn [mbind option_bind].
  apply fetched_are_oldest in Hwait as (Hf & _ & _). destruct (Hf Hr) as [|(_ & Hi & Ho & _)]; [done|].
  rewrite (pop_all_spec (mOutputQueue s1)) by (intros p l E; destruct (Ho p l E) as (b & rest & -> & _); eauto).
  rewrite (pop_all_spec (mInputQueue s1)) by (intros p l E; destruct (Hi p l E) as (b & rest & -> & _); eauto).
  done.
Qed.
End Theorems.

(** One input and one output, with a UYVY frame of two by two pixels. *)
Definition example_queues : BufferQueue := QueueOf (Some 9) [7; 8] ∅ ∅ {[0 := [Some 1]]} {[1 := [Some 2; None]]} ∅ true.
Definition example_store : Store := fun a =>
  Buffer 2 2 (code (if a =? 1 then UYVY else YUYV)) (Some (replicate 128 a)) 128 0 (a, 0) a 0.

Lemma frame_goes_through_witness :
  exists st',
    processNewFrame (fun _ => false) example_queues example_store []
    = Some (OK, set_queues {[0 := []]} {[1 := [None]]} example_queues, st',
            [Available 7 1 2; Available 8 1 2; Requeued 9 0 (Some 1)])
    /\ delivered UYVY YUYV 2 2 (replicate 128 1) (example_store 1) (example_store 2) (st' 2)
    /\ (forall a, a <> 2 -> st' a = example_store a).
Proof.
  assert (Hp : forall p a, front_of (mOutputQueue example_queues) p = Some (Some a) -> p = 1 /\ a = 2).
  { intros p a. unfold front_of, example_queues. cbn [mOutputQueue]. destruct (decide (p = 1)) as [->|Hne].
    - by intros [= <-].
    - rewrite lookup_singleton_ne by done. intros H. discriminate H. }
  assert (Hpic : forall a, a = 1 \/ a = 2 ->
    picture (if a =? 1 then UYVY else YUYV) 2 2 (replicate 128 a) (example_store a)).
  { intros a [-> | ->]; do 4 (split; [reflexivity|]);
      (split; [apply Forall_replicate; lia|]); intros stride; vm_compute; intros [= <-]; discriminate. }
  destruct (frame_goes_through (fun _ => false) example_queues example_store [] {[0 := Some 1]} {[1 := Some 2]}
    example_queues [] 0 1 UYVY 2 2 (replicate 128 1)) as (st' & E & H1 & H2); [reflexivity..| |lia|lia|done|done| | |].
  - intros p [l Hl]. unfold example_queues in Hl. cbn [mInputQueue] in Hl.
    destruct (decide (p = 0)) as [->|]; [done|]. rewrite lookup_singleton_ne in Hl by done. discriminate Hl.
  - exact (Hpic 1 ltac:(by left)).
  - intros p a [-> ->]%Hp. split; [done|]. split; [by intros p' [? _]%Hp|].
    exists YUYV, (replicate 128 2). split; [done|]. exact (Hpic 2 ltac:(by right)).
  - exists st'. split; [exact E|]. split.
    + exact (H1 1 2 YUYV (replicate 128 2) ltac:(reflexivity) (Hpic 2 ltac:(by right))).
    + intros a Ha. apply H2. intros p [_ ?]%Hp. done.
Defined.
