(* ===== verification/CameraStream.v ===== *)
(** * Streams

    src/core/CameraStream.cpp, with the parts of CameraBuffer.cpp it uses: a
    stream keeps a [CameraBuffer] for every buffer of the user, gives it to its
    producer, and tells its listeners when it comes back.

    User buffers and [CameraBuffer]s are objects with an address, since both are
    shared; 0 is the null pointer.  The calls that leave this code are kept in a
    log, with what the other component answered: [answer] decides that from all
    that was called before.  [None] is an access of an object that does not
    exist. *)

From S2P Require Import Prelude Errors SyncManager V4l2Video.
From stdpp Require Import list gmap.
#[local] Open Scope Z_scope.

(** ** Calls of other components *)

(** A source of buffers: the capture unit or a processor. *)
Inductive source := Producer | Processor (id : Z).

#[global] Instance source_eq_dec : EqDecision source.
Proof. solve_decision. Defined.

Inductive stream_call :=
| Qbuf (s : source) (port : Z) (buffer : option Z)
| AllocateMemory (s : source) (port buffer : Z)
| AddFrameAvailableListener (s : source) (streamId : Z)
| RemoveFrameAvailableListener (s : source) (streamId : Z)
| NotifyFrameAvailable (streamId buffer : Z).

(** ** Data *)

(** [camera_buffer_t]. *)
Record camera_buffer_t := UserBuffer {
  ub_id : Z;
  ub_memType : Z;
  ub_streamType : Z;
  ub_field : Z;
  ub_addr : Z;
  ub_dmafd : Z;
  ub_index : Z;
  ub_flags : Z;
  ub_timestamp : Z;
  ub_sequence : Z;
}.

(** What the stream uses of a [CameraBuffer]; [cb_cached] is whether the caches
    are kept up, that is, the two flags are clear. *)
Record CameraBuffer := Buffer {
  cb_user : Z;
  cb_memory : Z;
  cb_index : Z;
  cb_addr : Z;
  cb_fd : Z;
  cb_field : Z;
  cb_timestamp : Z * Z;
  cb_sequence : Z;
  cb_cached : bool;
  cb_setting_sequence : Z;
}.

Record CameraStream := StreamOf {
  mStreamId : Z;
  mPort : Z;
  mBufferProducer : option source;
  mUserBuffersPool : list Z;
  mBufferInProcessing : Z;
  mPrivacyBuffer : list Z;
}.

Definition CAMERA_STREAM_INPUT : Z := 1.
Definition BUFFER_FLAG_SW_READ : Z := 4.
Definition BUFFER_FLAG_SW_WRITE : Z := 8.

(** The objects, the next address of one, and the log.  [call] is the type of
    all calls of a program that has streams. *)
Record World {call : Type} := WorldOf {
  users : gmap Z camera_buffer_t;
  buffers : gmap Z CameraBuffer;
  next_buffer : Z;
  log : list (call * Z);
}.
Arguments World : clear implicits.

(** How the calls of streams are calls of the program. *)
Class StreamCalls (call : Type) := {
  of_stream : stream_call -> call;
  answer : list (call * Z) -> call -> Z;
}.

Section Stream.
Context {call : Type} `{StreamCalls call}.
#[local] Abbreviation World := (World call).
Implicit Types (s : CameraStream) (w : World) (u : camera_buffer_t) (o : CameraBuffer).

Definition set_users m w : World := WorldOf call m (buffers w) (next_buffer w) (log w).
Definition set_buffers m w : World := WorldOf call (users w) m (next_buffer w) (log w).

Definition do (c : call) w : Z * World :=
  let r := answer (log w) c in (r, WorldOf call (users w) (buffers w) (next_buffer w) (log w ++ [(c, r)])).
Definition do_stream (c : stream_call) : World -> Z * World := do (of_stream c).

Definition set_pool l s := StreamOf (mStreamId s) (mPort s) (mBufferProducer s) l (mBufferInProcessing s) (mPrivacyBuffer s).
Definition set_in_processing n s := StreamOf (mStreamId s) (mPort s) (mBufferProducer s) (mUserBuffersPool s) n (mPrivacyBuffer s).
Definition set_privacy l s := StreamOf (mStreamId s) (mPort s) (mBufferProducer s) (mUserBuffersPool s) (mBufferInProcessing s) l.
Definition setPort p s := StreamOf (mStreamId s) p (mBufferProducer s) (mUserBuffersPool s) (mBufferInProcessing s) (mPrivacyBuffer s).
Definition set_producer p s := StreamOf (mStreamId s) (mPort s) p (mUserBuffersPool s) (mBufferInProcessing s) (mPrivacyBuffer s).

(** [MAIN_PORT] is 0. *)
Definition new_CameraStream (streamId : Z) : CameraStream := StreamOf streamId 0 None [] 0 [].

Definition start_stream s w : Z * CameraStream * World := (OK, s, w).

Definition stop_stream s w : Z * CameraStream * World :=
  let s := set_in_processing 0 s in
  let w := match mBufferProducer s with
           | Some p => snd (do_stream (RemoveFrameAvailableListener p (mStreamId s)) w)
           | None => w
           end in
  (OK, set_pool [] s, w).

(** ** The buffers of the user *)

Definition same_memory o (own u : camera_buffer_t) : bool :=
  (cb_memory o =? u32 (ub_memType u))
  && (negb (ub_addr u =? 0) && (ub_addr own =? ub_addr u) || (0 <=? ub_dmafd u) && (ub_dmafd own =? ub_dmafd u)).

(** The search in the pool: the buffer, if it can be used again, and the pool. *)
Fixpoint search (ubuffer : Z) u (pool : list Z) w : option (option Z * list Z) :=
  match pool with
  | [] => Some (None, [])
  | b :: pool =>
      o ← buffers w !! b;
      if cb_user o =? ubuffer then
        own ← users w !! cb_user o;
        Some (if same_memory o own u then (Some b, b :: pool) else (None, pool))
      else
        '(found, rest) ← search ubuffer u pool w;
        Some (found, b :: rest)
  end.

(** [ubuffer->index] and the new object, which has the user's memory type. *)
Definition set_index i u : camera_buffer_t :=
  UserBuffer (ub_id u) (ub_memType u) (ub_streamType u) (ub_field u) (ub_addr u) (ub_dmafd u) i (ub_flags u) (ub_timestamp u) (ub_sequence u).

Definition new_buffer (memType index : Z) : CameraBuffer := Buffer 0 (u32 memType) index 0 0 0 (0, 0) 0 false (-1).

(** Memory of the user: the descriptor and the address, by type. *)
Definition user_memory u o : Z * Z :=
  if ub_memType u =? V4L2_MEMORY_USERPTR then (ub_addr u, cb_fd o)
  else if ub_memType u =? V4L2_MEMORY_DMABUF then (ub_addr u, ub_dmafd u)
  else (cb_addr o, cb_fd o).

(** The time of the user, in nanoseconds, as a [timeval]. *)
Definition timeval_of (ns : Z) : Z * Z := let sec := ns / 1000000000 in (sec, (ns - sec * 1000000000) / 1000).
Definition TIMEVAL2NSECS (t : Z * Z) : Z := fst t * 1000000000 + snd t * 1000.

Definition setUserBufferInfo (ubuffer : Z) u o : CameraBuffer :=
  let '(a, f) := user_memory u o in
  let given := (ub_streamType u =? CAMERA_STREAM_INPUT) || (0 <=? ub_sequence u) in
  Buffer ubuffer (cb_memory o) (cb_index o) a f (cb_field o)
    (if given && (0 <? ub_timestamp u) then timeval_of (ub_timestamp u) else cb_timestamp o)
    (if given then u32 (ub_sequence u) else cb_sequence o) (cb_cached o) (cb_setting_sequence o).

(** The caches are kept up for buffers that software reads or writes. *)
Definition updateFlags u o : CameraBuffer :=
  Buffer (cb_user o) (cb_memory o) (cb_index o) (cb_addr o) (cb_fd o) (cb_field o) (cb_timestamp o) (cb_sequence o)
    (negb (Z.land (ub_flags u) BUFFER_FLAG_SW_READ =? 0) || negb (Z.land (ub_flags u) BUFFER_FLAG_SW_WRITE =? 0))
    (cb_setting_sequence o).

Definition userBufferToCameraBuffer (ubuffer : Z) s w : option (option Z * CameraStream * World) :=
  if ubuffer =? 0 then Some (None, s, w) else
  u ← users w !! ubuffer;
  '(found, pool) ← search ubuffer u (mUserBuffersPool s) w;
  let '(b, pool, u, w) :=
    match found with
    | Some b => (b, pool, u, w)
    | None =>
        let index := Z.of_nat (length pool) in
        let u := set_index index u in
        let b := next_buffer w in
        (b, pool ++ [b], u,
         WorldOf call (<[ubuffer := u]> (users w)) (<[b := new_buffer (ub_memType u) index]> (buffers w)) (b + 1) (log w))
    end in
  o ← buffers w !! b;
  let o := updateFlags u (setUserBufferInfo ubuffer u o) in
  Some (Some b, set_pool pool s, set_buffers (<[b := o]> (buffers w)) w).

Definition allocateMemory (ubuffer : Z) s w : option (Z * CameraStream * World) :=
  '(b, s, w) ← userBufferToCameraBuffer ubuffer s w;
  match b with
  | None => Some (BAD_VALUE, s, w)
  | Some b =>
      match mBufferProducer s with
      | Some p => let '(r, w) := do_stream (AllocateMemory p (mPort s) b) w in Some (r, s, w)
      | None => Some (BAD_VALUE, s, w)
      end
  end.

(** ** Giving buffers away *)

Definition setSettingSequence (sequence : Z) o : CameraBuffer :=
  Buffer (cb_user o) (cb_memory o) (cb_index o) (cb_addr o) (cb_fd o) (cb_field o) (cb_timestamp o) (cb_sequence o) (cb_cached o) sequence.

(** [qbuf] up to the producer's answer, and the count of buffers, which is not
    under the mutex: the buffer may come back in between. *)
Definition qbuf_give (ubuffer sequence : Z) s w : option (Z * CameraStream * World) :=
  '(b, s, w) ← userBufferToCameraBuffer ubuffer s w;
  let w := match b with Some b => set_buffers (alter (setSettingSequence sequence) b (buffers w)) w | None => w end in
  Some (match mBufferProducer s with
        | Some p => let '(r, w) := do_stream (Qbuf p (mPort s) b) w in (r, s, w)
        | None => (BAD_VALUE, s, w)
        end).

Definition qbuf_count (ret : Z) s : CameraStream :=
  if bool_decide (is_Some (mBufferProducer s)) && (ret =? OK) then set_in_processing (mBufferInProcessing s + 1) s else s.

Definition qbuf_stream (ubuffer sequence : Z) s w : option (Z * CameraStream * World) :=
  '(ret, s, w) ← qbuf_give ubuffer sequence s w;
  Some (ret, qbuf_count ret s, w).

Definition setBufferProducer (producer : option source) s w : CameraStream * World :=
  let s := set_producer producer s in
  (s, match producer with Some p => snd (do_stream (AddFrameAvailableListener p (mStreamId s)) w) | None => w end).

(** ** Frames *)

Definition getPrivacyBuffer s : option Z * CameraStream :=
  match mPrivacyBuffer s with [] => (None, s) | b :: rest => (Some b, set_privacy rest s) end.

Definition updateUserBuffer o u : camera_buffer_t :=
  UserBuffer (ub_id u) (ub_memType u) (ub_streamType u) (cb_field o) (ub_addr u) (ub_dmafd u) (ub_index u) (ub_flags u)
    (TIMEVAL2NSECS (cb_timestamp o)) (if cb_setting_sequence o <? 0 then cb_sequence o else cb_setting_sequence o).

Definition doFrameAvailable (b : Z) s w : option (Z * CameraStream * World) :=
  o ← buffers w !! b;
  u ← users w !! cb_user o;
  let w := set_users (<[cb_user o := updateUserBuffer o u]> (users w)) w in
  let w := snd (do_stream (NotifyFrameAvailable (mStreamId s) b) w) in
  Some (OK, if 0 <? mBufferInProcessing s then set_in_processing (mBufferInProcessing s - 1) s else s, w).

(** [privacy]: the camera supports a privacy mode. *)
Definition onFrameAvailable (privacy : bool) (port b : Z) s w : option (Z * CameraStream * World) :=
  if negb (mPort s =? port) then Some (OK, s, w) else
  o ← buffers w !! b;
  u ← users w !! cb_user o;
  if negb (ub_id u =? mStreamId s) then Some (OK, s, w) else
  if privacy then
    match mPrivacyBuffer s with
    | [] => Some (OK, set_privacy [b] s, w)
    | front :: rest => doFrameAvailable front (set_privacy (rest ++ [b]) s) w
    end
  else doFrameAvailable b s w.
End Stream.

(** ** The pool *)

Section Pool.
Context {call : Type} `{StreamCalls call}.
Implicit Types (s : CameraStream) (w : World call) (u : camera_buffer_t) (o : CameraBuffer).

Definition user_of w (b : Z) : Z := default 0 (cb_user <$> buffers w !! b).

(** Every buffer of the pool exists, and so does its user buffer; no two have
    the same one. *)
Definition pool_ok s w : Prop :=
  NoDup (user_of w <$> mUserBuffersPool s)
  /\ forall b, b ∈ mUserBuffersPool s -> is_Some (buffers w !! b) /\ b < next_buffer w /\ is_Some (users w !! user_of w b).

Lemma user_of_spec w b o : buffers w !! b = Some o -> user_of w b = cb_user o.
Proof. intros E. unfold user_of. by rewrite E. Qed.

(** What the search finds, and what it leaves of the pool. *)
Lemma search_spec ubuffer u pool w :
  (forall b, b ∈ pool -> is_Some (buffers w !! b) /\ is_Some (users w !! user_of w b)) ->
  exists found rest, search ubuffer u pool w = Some (found, rest) /\
  match found with
  | Some b => rest = pool /\ b ∈ pool /\ user_of w b = ubuffer
  | None => rest = pool /\ ubuffer ∉ (user_of w <$> pool)
            \/ exists l1 b l2 o own, pool = l1 ++ b :: l2 /\ rest = l1 ++ l2 /\ user_of w b = ubuffer
                 /\ buffers w !! b = Some o /\ users w !! ubuffer = Some own /\ same_memory o own u = false
  end.
Proof.
  induction pool as [|b pool IH]; intros Hok; cbn [search].
  { exists None, []. split; [done|]. left. split; [done|]. apply not_elem_of_nil. }
  destruct (Hok b ltac:(by left)) as [[o Eo] [own Eu]]. pose proof (user_of_spec w b o Eo) as Eb.
  rewrite Eo. cbn [mbind option_bind]. destruct (Z.eqb_spec (cb_user o) ubuffer) as [E|E].
  - rewrite Eb in Eu. rewrite Eu. cbn [mbind option_bind]. destruct (same_memory o own u) eqn:Es.
    + exists (Some b), (b :: pool). split_and!; [done|done|by left|congruence].
    + exists None, pool. split; [done|]. right. exists [], b, pool, o, own. split_and!; (done || congruence).
  - destruct IH as (found & rest & -> & IH); [intros b' Hb; apply Hok; by right|]. cbn [mbind option_bind].
    exists found, (b :: rest). split; [done|]. destruct found as [f|].
    + destruct IH as (-> & Hf & Hu). split_and!; [done|by right|done].
    + destruct IH as [[-> Hn]|(l1 & b1 & l2 & o1 & own1 & -> & -> & H1)].
      * left. split; [done|]. csimpl. apply not_elem_of_cons. split; [congruence|done].
      * right. exists (b :: l1), b1, l2, o1, own1. destruct H1 as (? & ? & ? & ?). by split_and!.
Qed.

(** A buffer of the pool that agrees with the user's is the one that is found. *)
Lemma search_known ubuffer u pool w b o :
  (forall b, b ∈ pool -> is_Some (buffers w !! b) /\ is_Some (users w !! user_of w b)) ->
  NoDup (user_of w <$> pool) -> b ∈ pool -> buffers w !! b = Some o -> cb_user o = ubuffer ->
  users w !! ubuffer = Some u -> same_memory o u u = true ->
  search ubuffer u pool w = Some (Some b, pool).
Proof.
  intros Hok Hn Hb Eo Eu Hu Hs. destruct (search_spec ubuffer u pool w Hok) as (found & rest & E & Hf).
  pose proof (user_of_spec w b o Eo) as Hub. rewrite Eu in Hub. apply list_elem_of_lookup in Hb as Hb'.
  destruct Hb' as [i Hi]. assert (Hi' : (user_of w <$> pool) !! i = Some ubuffer) by (by rewrite list_lookup_fmap, Hi; cbn; rewrite Hub).
  assert (Hsame : forall b', b' ∈ pool -> user_of w b' = ubuffer -> b' = b).
  { intros b' [j Hj]%list_elem_of_lookup Hb'. assert (Hj' : (user_of w <$> pool) !! j = Some ubuffer) by (by rewrite list_lookup_fmap, Hj; cbn; rewrite Hb').
    pose proof (NoDup_lookup _ _ _ _ Hn Hi' Hj') as <-. congruence. }
  destruct found as [f|].
  - destruct Hf as (-> & Hf & Hfu). by rewrite E, (Hsame f Hf Hfu).
  - exfalso. destruct Hf as [[_ Hf]|(l1 & b1 & l2 & o1 & own1 & Hp & _ & Hb1 & Eo1 & Eown & Hs1)].
    + apply Hf, list_elem_of_lookup. by exists i.
    + assert (b1 = b) as ->; [|rewrite Eo in Eo1; rewrite Hu in Eown; injection Eo1 as <-; injection Eown as <-; by rewrite Hs in Hs1]. apply Hsame; [|done]. subst pool. apply elem_of_app. right. by left.
Qed.

Lemma same_memory_self o u :
  cb_memory o = u32 (ub_memType u) -> ub_addr u <> 0 \/ 0 <= ub_dmafd u -> same_memory o u u = true.
Proof.
  intros E Hm. unfold same_memory. rewrite E, !Z.eqb_refl, !andb_true_r. cbn [andb].
  destruct Hm as [Hm|Hm]; [by rewrite (proj2 (Z.eqb_neq _ _) Hm)|by rewrite (proj2 (Z.leb_le _ _) Hm), orb_true_r].
Qed.

(** A buffer, its user buffer changed or not, set up for the user's. *)
Lemma set_up_user ubuffer u o : cb_user (updateFlags u (setUserBufferInfo ubuffer u o)) = ubuffer.
Proof. unfold setUserBufferInfo. by destruct (user_memory u o). Qed.

Lemma set_up_index ubuffer u o : cb_index (updateFlags u (setUserBufferInfo ubuffer u o)) = cb_index o.
Proof. unfold setUserBufferInfo. by destruct (user_memory u o). Qed.
End Pool.

(** ** Theorems *)

Section Theorems.
Context {call : Type} `{StreamCalls call}.
Implicit Types (s : CameraStream) (w : World call) (u : camera_buffer_t) (o : CameraBuffer).

(** Queued again, a user buffer has the same [CameraBuffer], which keeps its
    index and takes the memory of the user as it is now; nothing is created. *)
Theorem known_buffer_reused s w ubuffer u b o :
  pool_ok s w -> ubuffer <> 0 -> users w !! ubuffer = Some u ->
  b ∈ mUserBuffersPool s -> buffers w !! b = Some o -> cb_user o = ubuffer ->
  cb_memory o = u32 (ub_memType u) -> ub_addr u <> 0 \/ 0 <= ub_dmafd u ->
  exists o', userBufferToCameraBuffer ubuffer s w = Some (Some b, s, set_buffers (<[b := o']> (buffers w)) w)
    /\ cb_index o' = cb_index o /\ cb_user o' = ubuffer
    /\ (ub_memType u = V4L2_MEMORY_USERPTR -> cb_addr o' = ub_addr u).
Proof.
  intros [Hn Hok] Hz Hu Hb Eo Eu Hm Hs. exists (updateFlags u (setUserBufferInfo ubuffer u o)).
  unfold userBufferToCameraBuffer. rewrite (proj2 (Z.eqb_neq _ _) Hz), Hu. cbn [mbind option_bind].
  rewrite (search_known ubuffer u _ w b o) by (done || (intros b' Hb'; by destruct (Hok b' Hb') as (? & _ & ?)) || by apply same_memory_self).
  cbn [mbind option_bind]. rewrite Eo. cbn [mbind option_bind]. split_and!.
  - by destruct s.
  - apply set_up_index.
  - apply set_up_user.
  - intros Ht. unfold setUserBufferInfo, user_memory. by rewrite Ht, Z.eqb_refl.
Qed.

(** Any user buffer gets a [CameraBuffer] of its own: it is in the pool, which
    still has one for each user buffer, and those of the others are as they
    were.  The pool grows by one at most. *)
Theorem pool_one_buffer_each s w ubuffer :
  pool_ok s w -> ubuffer <> 0 -> is_Some (users w !! ubuffer) ->
  (forall b, is_Some (buffers w !! b) -> b < next_buffer w) ->
  exists b s' w', userBufferToCameraBuffer ubuffer s w = Some (Some b, s', w') /\ pool_ok s' w'
    /\ b ∈ mUserBuffersPool s' /\ user_of w' b = ubuffer
    /\ (forall b', b' ∈ mUserBuffersPool s -> user_of w b' <> ubuffer ->
          b' ∈ mUserBuffersPool s' /\ buffers w' !! b' = buffers w !! b')
    /\ (length (mUserBuffersPool s') <= S (length (mUserBuffersPool s)))%nat
    /\ (forall b, is_Some (buffers w' !! b) -> b < next_buffer w').
Proof.
  intros [Hn Hok] Hz [u Hu] Hnext. unfold userBufferToCameraBuffer. rewrite (proj2 (Z.eqb_neq _ _) Hz), Hu. cbn [mbind option_bind].
  destruct (search_spec ubuffer u (mUserBuffersPool s) w) as (found & rest & -> & Hf).
  { intros b Hb. by destruct (Hok b Hb) as (? & _ & ?). }
  cbn [mbind option_bind]. destruct found as [b|].
  - destruct Hf as (-> & Hb & Hub). destruct (Hok b Hb) as ([o Eo] & Hlt & Hus). rewrite Eo. cbn [mbind option_bind].
    eexists b, _, _. split; [reflexivity|]. set (o' := updateFlags _ _).
    assert (Ho : cb_user o' = ubuffer) by apply set_up_user. clearbody o'.
    assert (Huser : forall b', user_of (set_buffers (<[b := o']> (buffers w)) w) b' = user_of w b').
    { intros b'. unfold user_of. cbn [buffers set_buffers]. destruct (decide (b' = b)) as [->|Hne].
      - rewrite lookup_insert_eq, Eo. cbn. pose proof (user_of_spec w b o Eo). congruence.
      - by rewrite lookup_insert_ne by congruence. }
    split_and!.
    + split; cbn [mUserBuffersPool set_pool].
      * rewrite (list_fmap_ext _ (user_of w)); [done|]. intros i x _. apply Huser.
      * intros b' Hb'. rewrite Huser. destruct (Hok b' Hb') as (Hb1 & Hb2 & Hb3). split_and!; [|done|done].
        cbn [buffers set_buffers]. rewrite lookup_insert_is_Some. destruct (decide (b = b')); [by left|by right].
    + done.
    + rewrite Huser. done.
    + intros b' Hb' Hne. split; [done|]. cbn [buffers set_buffers]. rewrite lookup_insert_ne; [done|]. congruence.
    + cbn. lia.
    + intros b' Hb'. cbn [buffers set_buffers next_buffer] in *. apply lookup_insert_is_Some in Hb' as [<-|[_ Hb']]; [done|by apply Hnext].
  - cbn [buffers]. rewrite lookup_insert_eq. cbn [mbind option_bind]. set (b := next_buffer w).
    set (u' := set_index _ u). set (o' := updateFlags _ _).
    assert (Ho : cb_user o' = ubuffer) by apply set_up_user. clearbody o' u'.
    eexists b, _, _. split; [reflexivity|]. cbn [buffers set_buffers users next_buffer]. rewrite insert_insert_eq.
    set (w' := set_buffers _ _).
    assert (Hold : forall b', is_Some (buffers w !! b') -> buffers w' !! b' = buffers w !! b' /\ user_of w' b' = user_of w b').
    { intros b' Hb'. pose proof (Hnext b' Hb'). assert (b' <> b) by (unfold b; lia). unfold user_of. cbn [buffers w' set_buffers].
      by rewrite lookup_insert_ne by congruence. }
    assert (Hub : user_of w' b = ubuffer).
    { unfold user_of. cbn [buffers w' set_buffers]. by rewrite lookup_insert_eq. }
    assert (Hsub : forall b', b' ∈ rest -> b' ∈ mUserBuffersPool s).
    { intros b' Hb'. destruct Hf as [[-> _]|(l1 & b1 & l2 & o1 & own1 & -> & -> & _)]; [done|].
      apply elem_of_app in Hb' as [Hb'|Hb']; apply elem_of_app; [by left|right; by right]. }
    assert (Hkeep : forall b', b' ∈ mUserBuffersPool s -> user_of w b' <> ubuffer -> b' ∈ rest).
    { intros b' Hb' Hne. destruct Hf as [[-> _]|(l1 & b1 & l2 & o1 & own1 & Hp & -> & Hu1 & _)]; [done|].
      rewrite Hp in Hb'. apply elem_of_app in Hb' as [Hb'|Hb']; apply elem_of_app; [by left|].
      apply elem_of_cons in Hb' as [-> | Hb']; [done|by right]. }
    assert (Hrest : (ubuffer ∉ (user_of w <$> rest)) /\ NoDup (user_of w <$> rest) /\ (length rest <= length (mUserBuffersPool s))%nat).
    { destruct Hf as [[-> Hf]|(l1 & b1 & l2 & o1 & own1 & Hp & -> & Hu1 & _)]; [done|].
      rewrite Hp, fmap_app, fmap_cons, Hu1 in Hn. rewrite Hp, fmap_app, !length_app. cbn [length].
      rewrite <- Permutation_middle in Hn. apply NoDup_cons in Hn as [Hn1 Hn2]. split_and!; [done|done|lia]. }
    assert (Eusers : user_of w' <$> rest = user_of w <$> rest).
    { apply list_fmap_ext. intros i b' Hi. apply Hold. apply Hok, Hsub. apply list_elem_of_lookup. by exists i. }
    destruct Hrest as (Hr1 & Hr2 & Hr3). split_and!.
    + split; cbn [mUserBuffersPool set_pool].
      * rewrite fmap_app, Eusers. cbn [fmap list_fmap]. rewrite Hub. apply NoDup_app. split; [done|]. split.
        { intros x Hx ->%list_elem_of_singleton. done. }
        apply NoDup_singleton.
      * intros b' [Hb'| ->%list_elem_of_singleton]%elem_of_app.
        -- destruct (Hok b' (Hsub b' Hb')) as (Hb1 & Hb2 & Hb3). destruct (Hold b' Hb1) as [E1 E2]. rewrite E1, E2. cbn [users next_buffer w' set_buffers].
           split_and!; [done|unfold b; lia|]. rewrite lookup_insert_is_Some. destruct (decide (ubuffer = user_of w b')); [by left|by right].
        -- rewrite Hub. cbn [users next_buffer w' set_buffers buffers]. rewrite !lookup_insert_eq. split_and!; [done|unfold b; lia|done].
    + cbn. apply elem_of_app. right. by apply list_elem_of_singleton.
    + done.
    + intros b' Hb' Hne. cbn [mUserBuffersPool set_pool]. split; [apply elem_of_app; left; by apply Hkeep|].
      apply Hold. by destruct (Hok b' Hb').
    + cbn [mUserBuffersPool set_pool]. rewrite length_app. cbn. lia.
    + intros b' Hb'. cbn [buffers w' set_buffers next_buffer] in *. apply lookup_insert_is_Some in Hb' as [<-|[_ Hb']]; [unfold b; lia|].
      specialize (Hnext b' Hb'). unfold b. lia.
Qed.

(** What the user gets back: the time of the frame to the microsecond, and the
    sequence of the settings that were queued with the buffer, or of the frame
    where there were none. *)
Theorem frame_returns_to_user s w b o u :
  0 <= mBufferInProcessing s -> buffers w !! b = Some o -> users w !! cb_user o = Some u ->
  exists s' w' u', doFrameAvailable b s w = Some (OK, s', w') /\ users w' = <[cb_user o := u']> (users w)
    /\ ub_addr u' = ub_addr u /\ ub_index u' = ub_index u /\ ub_field u' = cb_field o
    /\ ub_timestamp u' = TIMEVAL2NSECS (cb_timestamp o)
    /\ (cb_setting_sequence o < 0 -> ub_sequence u' = cb_sequence o)
    /\ (0 <= cb_setting_sequence o -> ub_sequence u' = cb_setting_sequence o)
    /\ mBufferInProcessing s' = Z.max 0 (mBufferInProcessing s - 1).
Proof.
  intros Hp Eo Eu. unfold doFrameAvailable. rewrite Eo. cbn [mbind option_bind]. rewrite Eu. cbn [mbind option_bind].
  eexists _, _, (updateUserBuffer o u). split_and!; try done; cbn [updateUserBuffer ub_sequence].
  - intros Hs. by rewrite (proj2 (Z.ltb_lt _ _) Hs).
  - intros Hs. by rewrite (proj2 (Z.ltb_ge _ _) Hs).
  - destruct (Z.ltb_spec 0 (mBufferInProcessing s)); cbn [mBufferInProcessing set_in_processing]; lia.
Qed.

(** The count of buffers is not taken together with giving the buffer away: one
    that comes back in between is counted for good. *)
Theorem count_drifts s w b o u p :
  mBufferProducer s = Some p -> mBufferInProcessing s = 0 -> buffers w !! b = Some o -> users w !! cb_user o = Some u ->
  exists s' w', doFrameAvailable b s w = Some (OK, s', w') /\ mBufferInProcessing (qbuf_count OK s') = 1.
Proof.
  intros Hp Hc Eo Eu. unfold doFrameAvailable. rewrite Eo. cbn [mbind option_bind]. rewrite Eu. cbn [mbind option_bind].
  rewrite Hc. eexists _, _. split; [reflexivity|]. cbn [Z.ltb Z.compare]. unfold qbuf_count. rewrite Hp.
  rewrite bool_decide_eq_true_2 by eauto. cbn [andb Z.eqb OK mBufferInProcessing set_in_processing]. by rewrite Hc.
Qed.

(** ** Privacy *)

Fixpoint deliver_all (port : Z) (bs : list Z) s w : option (CameraStream * World call) :=
  match bs with
  | [] => Some (s, w)
  | b :: bs => '(_, s, w) ← onFrameAvailable true port b s w; deliver_all port bs s w
  end.

(** The buffers are those of the stream. *)
Definition of_this_stream s w (b : Z) : Prop :=
  exists o u, buffers w !! b = Some o /\ users w !! cb_user o = Some u /\ ub_id u = mStreamId s.

Lemma of_this_stream_users s w w' b o u :
  buffers w' = buffers w -> users w' = <[cb_user o := updateUserBuffer o u]> (users w) -> users w !! cb_user o = Some u ->
  of_this_stream s w b -> of_this_stream s w' b.
Proof.
  intros Eb Eu Hu (o1 & u1 & H1 & H2 & H3). unfold of_this_stream. rewrite Eb, Eu.
  destruct (decide (cb_user o1 = cb_user o)) as [E|E].
  - exists o1, (updateUserBuffer o u). rewrite E, lookup_insert_eq. split_and!; [done|done|]. cbn. congruence.
  - exists o1, u1. by rewrite lookup_insert_ne by congruence.
Qed.

Definition note_of s (log0 : list (call * Z)) (b : Z) : call * Z :=
  (of_stream (NotifyFrameAvailable (mStreamId s) b), answer log0 (of_stream (NotifyFrameAvailable (mStreamId s) b))).

Lemma last_default (l : list Z) x d e : List.last (x :: l) d = List.last (x :: l) e.
Proof. revert x. induction l as [|y l IH]; intros x; [done|]. apply (IH y). Qed.

(** With a privacy mode one frame is held back: the user gets the frames in
    their order, each when the next one comes. *)
Theorem privacy_holds_one bs s w held :
  mPrivacyBuffer s = [held] -> of_this_stream s w held -> Forall (of_this_stream s w) bs ->
  exists s' w' notes, deliver_all (mPort s) bs s w = Some (s', w')
    /\ log w' = log w ++ notes
    /\ notes.*1 = of_stream ∘ NotifyFrameAvailable (mStreamId s) <$> removelast (held :: bs)
    /\ mPrivacyBuffer s' = [List.last (held :: bs) held].
Proof.
  revert s w held. induction bs as [|b bs IH]; intros s w held Hp Hh Hb.
  { exists s, w, []. split_and!; [done|by rewrite app_nil_r|done|done]. }
  apply Forall_cons in Hb as [Hb Hbs]. cbn [deliver_all]. unfold onFrameAvailable. rewrite Z.eqb_refl. cbn [negb].
  destruct Hb as (o & u & Eo & Eu & Hid). rewrite Eo. cbn [mbind option_bind]. rewrite Eu. cbn [mbind option_bind].
  rewrite Hid, Z.eqb_refl, Hp. cbn [negb app].
  destruct Hh as (oh & uh & Eoh & Euh & Hidh). unfold doFrameAvailable. rewrite Eoh. cbn [mbind option_bind]. rewrite Euh. cbn [mbind option_bind].
  set (w1 := snd _). set (s1 := if _ : bool then _ else _).
  assert (Hs1 : mPrivacyBuffer s1 = [b] /\ mStreamId s1 = mStreamId s /\ mPort s1 = mPort s).
  { unfold s1. by destruct (_ <? _). }
  destruct Hs1 as (Hs1 & Hs2 & Hs3).
  assert (Hthis : forall x, of_this_stream s w x -> of_this_stream s1 w1 x).
  { intros x Hx. apply (of_this_stream_users s w w1 x oh uh) in Hx; [|done..]. unfold of_this_stream. by rewrite Hs2. }
  destruct (IH s1 w1 b Hs1) as (s' & w' & notes & E & El & En & Ep).
  { apply Hthis. by exists o, u. }
  { eapply Forall_impl; [exact Hbs|]. exact Hthis. }
  rewrite Hs2 in En. rewrite Hs3 in E. rewrite E. eexists s', w', (_ :: notes). split; [done|]. split; [|split].
  - rewrite El. cbn [w1 snd do_stream do log set_users]. rewrite <- app_assoc. reflexivity.
  - cbn [fmap list_fmap fst]. rewrite En. reflexivity.
  - rewrite Ep. change (List.last (held :: b :: bs) held) with (List.last (b :: bs) held). f_equal. apply last_default.
Qed.
End Theorems.

(** ** Examples *)

(** A program of streams only, in which every call succeeds. *)
Definition obliging : StreamCalls stream_call := {| of_stream := id; answer := fun _ _ => OK |}.

Definition example_user (memType addr dmafd : Z) : camera_buffer_t := UserBuffer 0 memType 0 0 addr dmafd 0 0 0 (-1).

Definition set_user (ubuffer : Z) u (w : World stream_call) : World stream_call :=
  set_users (<[ubuffer := u]> (users w)) w.

Definition index_of (w : World stream_call) (b : Z) : option Z := cb_index <$> buffers w !! b.

(** Buffers 1 and 2 are queued, then the user gives 1 another type of memory: its
    [CameraBuffer] is replaced, and the new one gets the size of the pool as
    its index, which is that of 2. *)
Theorem index_used_twice :
  let w0 := WorldOf stream_call {[1 := example_user V4L2_MEMORY_USERPTR 4096 (-1); 2 := example_user V4L2_MEMORY_USERPTR 8192 (-1)]}
              ∅ 10 [] in
  (let '(s, w) := setBufferProducer (H := obliging) (Some Producer) (new_CameraStream 0) w0 in
   '(_, s, w) ← qbuf_stream (H := obliging) 1 0 s w;
   '(_, s, w) ← qbuf_stream (H := obliging) 2 1 s w;
   '(_, s, w) ← qbuf_stream (H := obliging) 1 2 s (set_user 1 (example_user V4L2_MEMORY_DMABUF 0 5) w);
   Some (mUserBuffersPool s, index_of w 11, index_of w 12)) = Some ([11; 12], Some 1, Some 1).
Proof. vm_compute. reflexivity. Qed.
