(* ===== verification/CameraDevice.v ===== *)
(** * The camera device

    src/core/CameraDevice.cpp: the object behind a camera that is open.  It
    keeps the state of the device and its streams (CameraStream.v), chooses what
    the source of frames has to deliver and whether a processor is needed, and
    starts and stops the parts of the camera in their order.

    The other parts are reached by calls, which are kept in the log of the
    [World] with what the part answered; [DeviceConfig] is the platform data,
    where a choice was made by an earlier call as a function of the log.  The
    processors belong to the processor manager, of which [live] are the ones
    that exist: a pointer to any other is dangling, and using it, like any
    access outside a container, is [None]. *)

From S2P Require Import Prelude Errors OrderedMap V4l2Video SyncManager PixelFormats CaptureDevice CaptureUnit Parameters CameraStream.
From stdpp Require Import list gmap sorting.
#[local] Open Scope Z_scope.

(** ** Calls of the parts *)

Inductive part := CaptureSource | CsiMeta | Sof | ThreeA | Lens | Sensor | Requests | Graph | Checker | Proc (id : Z).

#[global] Instance part_eq_dec : EqDecision part.
Proof. solve_decision. Defined.

Inductive event_type :=
| EVENT_ISYS_SOF | EVENT_ISYS_FRAME | EVENT_ISYS_ERROR | EVENT_PSYS_FRAME | EVENT_PSYS_STATS_BUF_READY
| EVENT_PSYS_STATS_SIS_BUF_READY | EVENT_PSYS_REQUEST_BUF_READY | EVENT_REQUEST_METADATA_READY | EVENT_META
| EVENT_DVS_READY | EVENT_3A_READY | EVENT_FRAME_AVAILABLE.

#[global] Instance event_type_eq_dec : EqDecision event_type.
Proof. solve_decision. Defined.

Inductive event_source := PartEvents (p : part) | StreamEvents (streamId : Z).

#[global] Instance event_source_eq_dec : EqDecision event_source.
Proof. solve_decision. Defined.

(** 3A has listeners of its own, by number. *)
Inductive listener := ByStats (n : Z) | BySof (n : Z) | ByDvs (n : Z) | ByRequests | ByDevice | ByProcessor (id : Z) | ByChecker.

#[global] Instance listener_eq_dec : EqDecision listener.
Proof. solve_decision. Defined.

Definition registration : Set := event_source * event_type * listener.

#[global] Instance registration_eq_dec : EqDecision registration.
Proof. unfold registration. apply _. Defined.

Inductive device_call :=
| OfStream (c : stream_call)
| Init (p : part) | Deinit (p : part) | Configure (p : part) | Start (p : part) | Stop (p : part)
| RequestExit (p : part)
| StopProcessing (id : Z)
| RemoveAllFrameAvailableListener
| RegisterListener (r : registration) | RemoveListener (r : registration)
| SelectMcConf (stream : stream_t) (mode mcId : Z) | SelectISysFormat (format : Z) | ReorderTuningConfig (mode : Z)
| ConfigureProducer (configs : gmap Z stream_t)
| CreateProcessor (id : Z) (psys : bool) | SetFrameInfo (id : Z) (inputs : gmap Z stream_t) (outputs : list (Z * stream_t))
| SetParameters (p : part) | ProcessorParameters (id : Z) | SetBufferProducer (id : Z) (producer : CameraStream.source)
| RegisterUserOutputBufs (id port : Z) (buffer : option Z)
| SetTestPattern (pattern : Z)
| ClearRequests | WaitFirstRequest | ProcessRequest (ubuffers : list Z) (settings : bool) | ResetSettings
| Notify (event : event_type).

(** ** Streams and platform data *)

(** A stream as the user asks for it. *)
Record stream_conf := StreamConf { c_stream : stream_t; c_usage : Z; c_streamType : Z }.

Record stream_config_t := StreamConfig { sc_streams : option (list stream_conf); operation_mode : Z }.

Definition CAMERA_STREAM_OPAQUE_RAW : Z := 4.
Definition MAX_STREAM_NUMBER : Z := 5.
Definition V4L2_FIELD_ANY : Z := 0.
Definition DEINTERLACE_OFF : Z := 0.
Definition DEINTERLACE_WEAVING : Z := 1.
Definition MONO_DS_MODE_OFF : Z := 0.

Inductive privacy_mode := NO_PRIVACY_MODE | CVF_BASED_PRIVACY_MODE | AE_BASED_PRIVACY_MODE.

#[global] Instance privacy_mode_eq_dec : EqDecision privacy_mode.
Proof. solve_decision. Defined.

Abbreviation Log := (list (device_call * Z)).

Class DeviceConfig := {
  device_answer : Log -> device_call -> Z;
  isIsysEnabled : bool;
  isFileSourceEnabled : bool;
  isPerframeControl : bool;
  psysAlignWithSof : bool;
  isSchedulerEnabled : bool;
  csiMetaEnabled : bool;
  getSupportPrivacy : privacy_mode;
  isSupportedStream : stream_conf -> bool;
  isISysSupportedResolution : Z -> Z -> bool;
  isISysSupportedFormat : Z -> bool;
  getISysOutput : Log -> stream_t;
  getISysFormat : Log -> Z;
  getISysBestResolution : Log -> Z -> Z -> Z -> Z * Z;
  dolShortEnabled : bool;
  dolMediumEnabled : bool;
  hasGraph : bool;
  getSelectedMcId : Log -> Z;
  getCSIOutputResolution : Log -> option (Z * Z);
  getConfigModes : Z -> list Z;
  usePsys : Z -> bool;
  statsListeners : list Z;
  sofListeners : list Z;
  dvsListeners : list Z;
  has3AReadySource : bool;
  isTestPatternSupported : bool;
  getSensorTestPattern : Z -> Z;
  isNeedToPreRegisterBuffer : bool;
  getReqWaitTimeout : Z;
  defaultParameters : Parameters;
  getResults : Log -> Z -> Parameters;
  addProcessorParameters : Log -> Z -> Parameters -> Parameters;
}.

#[global] Instance device_streams `{DeviceConfig} : StreamCalls device_call := {| of_stream := OfStream; answer := device_answer |}.

(** ** The device *)

Inductive device_state := DEVICE_UNINIT | DEVICE_INIT | DEVICE_CONFIGURE | DEVICE_START | DEVICE_STOP | DEVICE_BUFFER_READY.

#[global] Instance device_state_eq_dec : EqDecision device_state.
Proof. solve_decision. Defined.

(** [mState < DEVICE_CONFIGURE]. *)
Definition before_configure (st : device_state) : bool := bool_decide (st = DEVICE_UNINIT) || bool_decide (st = DEVICE_INIT).

(** [mStreams] are the first [mStreamNum] pointers of the array, which are the
    ones that are not null; [live] and [next_processor] are of the processor
    manager. *)
Record CameraDevice := DeviceOf {
  mState : device_state;
  mStreams : list CameraStream;
  mStreamIdToPortMap : gmap Z Z;
  mSortedStreamIds : list Z;
  mProcessors : list Z;
  mParameter : Parameters;
  mInputConfig : stream_t;
  live : list Z;
  next_processor : Z;
}.

Section Device.
Context `{DeviceConfig}.
#[local] Abbreviation World := (World device_call).
Implicit Types (d : CameraDevice) (w : World) (s : CameraStream).

Definition set_state st d := DeviceOf st (mStreams d) (mStreamIdToPortMap d) (mSortedStreamIds d) (mProcessors d) (mParameter d) (mInputConfig d) (live d) (next_processor d).
Definition set_streams l d := DeviceOf (mState d) l (mStreamIdToPortMap d) (mSortedStreamIds d) (mProcessors d) (mParameter d) (mInputConfig d) (live d) (next_processor d).
Definition set_sorted m l d := DeviceOf (mState d) (mStreams d) m l (mProcessors d) (mParameter d) (mInputConfig d) (live d) (next_processor d).
Definition set_processors l d := DeviceOf (mState d) (mStreams d) (mStreamIdToPortMap d) (mSortedStreamIds d) l (mParameter d) (mInputConfig d) (live d) (next_processor d).
Definition set_parameter p d := DeviceOf (mState d) (mStreams d) (mStreamIdToPortMap d) (mSortedStreamIds d) (mProcessors d) p (mInputConfig d) (live d) (next_processor d).
Definition set_live l n d := DeviceOf (mState d) (mStreams d) (mStreamIdToPortMap d) (mSortedStreamIds d) (mProcessors d) (mParameter d) (mInputConfig d) l n.

Definition no_stream : stream_t := Stream 0 0 0 0 0.

Definition new_CameraDevice : CameraDevice :=
  DeviceOf DEVICE_UNINIT [] ∅ [] [] new_Parameters (Stream (-1) 0 0 0 0) [] 0.

Definition mStreamNum d : Z := Z.of_nat (length (mStreams d)).

(** Calls in a row, whatever they answer. *)
Definition do_all (l : list device_call) w : World := foldl (fun w c => snd (do c w)) w l.

(** The processors are used: they have to exist. *)
Definition processors d : option (list Z) :=
  if forallb (fun id => bool_decide (id ∈ live d)) (mProcessors d) then Some (mProcessors d) else None.

(** [mProcessors.back()]. *)
Definition last_processor d : option Z := id ← last (mProcessors d); if bool_decide (id ∈ live d) then Some id else None.

(** ** Listeners *)

(** What [bindListeners] registers, in order; [unbindListeners] removes its own
    list. *)
Definition for_all {A B} (l : list A) (f : A -> list B) : list B := concat (f <$> l).

(** Both [mProducer] and the sources of frames in a file. *)
Definition from_file (l : listener) : list registration :=
  if isFileSourceEnabled then [(PartEvents CaptureSource, EVENT_ISYS_SOF, l)] else [].

Definition frame_registration d : option registration :=
  if isPerframeControl || negb isIsysEnabled
  then id ← last_processor d; Some (PartEvents (Proc id), EVENT_PSYS_FRAME, ByRequests)
  else Some (PartEvents CaptureSource, EVENT_ISYS_FRAME, ByRequests).

Definition first_registrations (ps : list Z) : list registration :=
  match ps with
  | [] => []
  | id :: _ => [(PartEvents (Proc id), EVENT_PSYS_REQUEST_BUF_READY, ByDevice); (PartEvents (Proc id), EVENT_REQUEST_METADATA_READY, ByDevice)]
  end.

Definition common_registrations (ps : list Z) : list registration :=
  for_all statsListeners (fun n => for_all ps (fun id =>
    [(PartEvents (Proc id), EVENT_PSYS_STATS_BUF_READY, ByStats n); (PartEvents (Proc id), EVENT_PSYS_STATS_SIS_BUF_READY, ByStats n)]))
  ++ ((fun id => (PartEvents (Proc id), EVENT_PSYS_STATS_BUF_READY, ByRequests)) <$> ps)
  ++ for_all sofListeners (fun n => (PartEvents Sof, EVENT_ISYS_SOF, BySof n) :: from_file (BySof n))
  ++ (if csiMetaEnabled then (fun id => (PartEvents CsiMeta, EVENT_META, ByProcessor id)) <$> ps else [])
  ++ (if psysAlignWithSof || isSchedulerEnabled
      then for_all ps (fun id => (PartEvents Sof, EVENT_ISYS_SOF, ByProcessor id) :: from_file (ByProcessor id)) else []).

Definition last_registrations (ps : list Z) (streams : nat) : list registration :=
  ((PartEvents Sof, EVENT_ISYS_SOF, ByRequests) :: from_file ByRequests)
  ++ for_all dvsListeners (fun n => (fun id => (PartEvents (Proc id), EVENT_DVS_READY, ByDvs n)) <$> ps)
  ++ (if bool_decide (getSupportPrivacy = AE_BASED_PRIVACY_MODE)
      then (if has3AReadySource then [(PartEvents ThreeA, EVENT_3A_READY, ByChecker)] else [])
           ++ ((fun i => (StreamEvents (Z.of_nat i), EVENT_FRAME_AVAILABLE, ByChecker)) <$> seq 0 streams)
      else []).

Definition bound d : option (list registration) :=
  ps ← processors d;
  frame ← frame_registration d;
  Some (common_registrations ps ++ [(PartEvents CaptureSource, EVENT_ISYS_ERROR, ByDevice)] ++ [frame]
        ++ first_registrations ps ++ last_registrations ps (length (mStreams d))).

Definition unbound d : option (list registration) :=
  ps ← processors d;
  frame ← frame_registration d;
  Some (common_registrations ps ++ first_registrations ps ++ [(PartEvents CaptureSource, EVENT_ISYS_ERROR, ByDevice)]
        ++ [frame] ++ last_registrations ps (length (mStreams d))).

Definition bindListeners d w : option World := l ← bound d; Some (do_all (RegisterListener <$> l) w).
Definition unbindListeners d w : option World := l ← unbound d; Some (do_all (RemoveListener <$> l) w).

(** ** Starting and stopping the parts *)

(** What is success: some tests are [< 0], others [!= OK]. *)
Definition accepts (p : part) (ret : Z) : bool :=
  match p with CsiMeta | Sof | ThreeA | Lens | Checker => ret =? OK | _ => 0 <=? ret end.

Fixpoint start_parts (l : list part) w : Z * World :=
  match l with
  | [] => (OK, w)
  | p :: l => let '(r, w) := do (Start p) w in if accepts p r then start_parts l w else (BAD_VALUE, w)
  end.

(** [CameraStream::start] only answers OK. *)
Definition startLocked d w : option (Z * World) :=
  w ← bindListeners d w;
  ps ← processors d;
  Some (start_parts ((Proc <$> ps) ++ [CaptureSource; CsiMeta; Sof]) w).

Definition stopLocked d w : option World :=
  ps ← processors d;
  let w := do_all ((StopProcessing <$> ps) ++ [Stop Sof; Stop CsiMeta; Stop CaptureSource] ++ ((fun id => Stop (Proc id)) <$> ps)) w in
  w ← unbindListeners d w;
  Some (do_all [ResetSettings] w).

Definition deleteStreams d w : CameraDevice * World :=
  (set_streams [] d, foldl (fun w s => snd (stop_stream s w)) w (mStreams d)).

Definition deleteProcessors d : CameraDevice := set_live [] (next_processor d) d.

(** ** Opening and closing *)

(** Calls that have to succeed, with the status of the first that does not. *)
Fixpoint require_all (l : list (part * device_call)) w : Z * World :=
  match l with
  | [] => (OK, w)
  | (p, c) :: l => let '(r, w) := do c w in if accepts p r then require_all l w else (r, w)
  end.

Definition init d w : Z * CameraDevice * World :=
  let '(r, w) := require_all [(CaptureSource, Init CaptureSource); (CsiMeta, Init CsiMeta); (Sof, Init Sof)] w in
  if negb (r =? OK) then (r, d, w) else
  let d := set_parameter defaultParameters d in
  let '(r, w) := do (Init ThreeA) w in
  if negb (r =? OK) then (r, d, w) else
  let w := if bool_decide (getSupportPrivacy = CVF_BASED_PRIVACY_MODE)
           then let '(r, w) := do (Init Checker) w in if r =? OK then snd (do (Start Checker) w) else w
           else w in
  (OK, set_state DEVICE_INIT d, do_all [Start Requests] w).

Definition deinit d w : option (CameraDevice * World) :=
  if bool_decide (mState d = DEVICE_UNINIT) then Some (d, w) else
  let w := do_all [Stop ThreeA] w in
  w ← (if bool_decide (mState d = DEVICE_START) then stopLocked d w else Some w);
  let w := if bool_decide (getSupportPrivacy = CVF_BASED_PRIVACY_MODE) then do_all [RequestExit Checker; Stop Checker] w else w in
  let w := do_all [RequestExit Requests; Stop Requests] w in
  let '(d, w) := deleteStreams d w in
  let d := deleteProcessors d in
  let w := do_all [Deinit ThreeA; Deinit Sof; Deinit CsiMeta; Deinit CaptureSource] w in
  Some (set_state DEVICE_UNINIT d, w).

Definition start d w : option (Z * CameraDevice * World) :=
  let w := do_all [WaitFirstRequest] w in
  if negb (bool_decide (mState d = DEVICE_BUFFER_READY)) then Some (BAD_VALUE, d, w) else
  if mStreamNum d =? 0 then Some (BAD_VALUE, d, w) else
  '(r, w) ← startLocked d w;
  if negb (r =? OK) then w ← stopLocked d w; Some (INVALID_OPERATION, d, w)
  else Some (OK, set_state DEVICE_START d, w).

Definition stop d w : option (Z * CameraDevice * World) :=
  let w := do_all [ClearRequests; Stop ThreeA; Stop Lens] w in
  w ← (if bool_decide (mState d = DEVICE_START) then stopLocked d w else Some w);
  Some (OK, set_state DEVICE_STOP d, w).

(** ** Choosing the streams *)

Definition is_input (c : stream_conf) : bool := c_streamType c =? CAMERA_STREAM_INPUT.
Definition is_opaque_raw (c : stream_conf) : bool := c_usage c =? CAMERA_STREAM_OPAQUE_RAW.

Definition area (c : stream_conf) : option Z := int (s_width (c_stream c) * s_height (c_stream c)).

(** [i] goes before the first stream that is smaller. *)
Fixpoint insert_sorted (streams : list stream_conf) (i : Z) (ids : list Z) : option (list Z) :=
  match ids with
  | [] => Some [i]
  | j :: rest =>
      stream ← streams !! Z.to_nat i; tmp ← streams !! Z.to_nat j;
      a ← area stream; b ← area tmp;
      if b <? a then Some (i :: j :: rest) else rest' ← insert_sorted streams i rest; Some (j :: rest')
  end.

(** A region to crop that was set and is switched on, or one that is not
    switched off, as the two tests have it. *)
Definition crop_is (v : Z) (p : Parameters) : bool := match getCropRegion p with (_, Some r) => flag r =? v | _ => false end.

Definition needs_support (p : Parameters) : bool := match getCropRegion p with (_, Some r) => flag r =? 0 | _ => true end.

(** The loop of [analyzeStream]: the status, the ids, and the input and raw
    streams, -1 for none. *)
Fixpoint sort_streams (p : Parameters) (streams : list stream_conf) (idx : list Z) (sorted : list Z) (input raw : Z)
  : option (Z * list Z * Z * Z) :=
  match idx with
  | [] => Some (OK, sorted, input, raw)
  | i :: idx =>
      c ← streams !! Z.to_nat i;
      if is_input c then
        if 0 <=? input then Some (BAD_VALUE, sorted, input, raw) else sort_streams p streams idx sorted i raw
      else if is_opaque_raw c then
        if 0 <=? raw then Some (BAD_VALUE, sorted, input, raw) else sort_streams p streams idx sorted input i
      else if needs_support p && negb (isSupportedStream c) then Some (BAD_VALUE, sorted, input, raw)
      else sorted ← insert_sorted streams i sorted; sort_streams p streams idx sorted input raw
  end.

Definition kPorts : list Z := [MAIN_PORT; SECOND_PORT; THIRD_PORT; FORTH_PORT].

(** The ids get the ports in their order. *)
Fixpoint assign_ports (ids ports : list Z) (m : gmap Z Z) : option (gmap Z Z) :=
  match ids, ports with
  | [], _ => Some m
  | i :: ids, p :: ports => assign_ports ids ports (<[i := p]> m)
  | _ :: _, [] => None
  end.

Definition analyzeStream (streams : list stream_conf) d : option (Z * CameraDevice) :=
  '(r, sorted, input, raw) ← sort_streams (mParameter d) streams (range 0 (Z.of_nat (length streams))) [] (-1) (-1);
  if negb (r =? OK) then Some (r, set_sorted ∅ sorted d) else
  let '(sorted, input) := if 0 <=? raw then (sorted ++ [raw], -1) else (sorted, input) in
  m ← assign_ports sorted kPorts ∅;
  let d := set_sorted m sorted d in
  if (input <? 0) && (negb isIsysEnabled && negb isFileSourceEnabled) then Some (BAD_VALUE, d) else
  if input <? 0 then Some (OK, d) else
  if bool_decide (sorted = []) then Some (BAD_VALUE, d) else
  c ← streams !! Z.to_nat input;
  if negb (isISysSupportedResolution (s_width (c_stream c)) (s_height (c_stream c))) then Some (BAD_VALUE, d) else
  Some (OK, set_sorted (<[input := MAIN_PORT]> m) (sorted ++ [input]) d).

(** ** Choosing what the source delivers *)

(** What the media controller is set up for. *)
Definition select_mc (biggest : stream_t) (mode mcId : Z) d w : World :=
  if crop_is 1 (mParameter d) then do_all [SelectMcConf (mInputConfig d) mode mcId] w
  else
    let matched :=
      if bool_decide (getConfigModes mode <> []) && hasGraph then
        match getCSIOutputResolution (log w) with
        | Some (cw, ch) => if (0 <? cw) && (0 <? ch) then Stream (s_format biggest) cw ch (s_field biggest) (s_memType biggest) else biggest
        | None => biggest
        end
      else biggest in
    do_all [SelectMcConf matched mode mcId] w.

(** The format, [None] when the one of the input is not supported. *)
Definition select_format (biggest : stream_t) d : option Z :=
  if negb (s_format (mInputConfig d) =? -1)
  then if isISysSupportedFormat (s_format (mInputConfig d)) then Some (s_format (mInputConfig d)) else None
  else Some (s_format biggest).

(** The size, [None] when the one of the input is not supported. *)
Definition select_resolution (biggest : stream_t) d w : option (Z * Z) :=
  let i := mInputConfig d in
  if (s_width i =? 0) && (s_height i =? 0)
  then Some (getISysBestResolution (log w) (s_width biggest) (s_height biggest) (s_field biggest))
  else if isISysSupportedResolution (s_width i) (s_height i) then Some (s_width i, s_height i) else None.

Definition selectProducerConfig (streams : list stream_conf) (mode mcId : Z) d w : option (gmap Z stream_t * World) :=
  input ← (if negb isIsysEnabled
           then id ← last (mSortedStreamIds d); c ← streams !! Z.to_nat id; Some (if is_input c then Some (c_stream c) else None)
           else Some None);
  match input with
  | Some s => Some ({[MAIN_PORT := s]}, w)
  | None =>
      id ← head (mSortedStreamIds d); c ← streams !! Z.to_nat id;
      let biggest := c_stream c in
      let w := select_mc biggest mode mcId d w in
      match select_format biggest d with
      | None => Some (∅, w)
      | Some format =>
          let w := do_all [SelectISysFormat format] w in
          let o := getISysOutput (log w) in
          let main := Stream (s_format o) (s_width o) (s_height o) (s_field biggest) (s_memType biggest) in
          if negb (s_width main =? 0) && negb (s_height main =? 0) then Some ({[MAIN_PORT := main]}, w) else
          match select_resolution biggest d w with
          | None => Some (∅, w)
          | Some (rw, rh) =>
              let main := Stream (getISysFormat (log w)) rw (getInterlaceHeight (s_field main) rh) (s_field main) (s_memType main) in
              let m := if dolShortEnabled then {[SECOND_PORT := main]} else ∅ in
              let m := if dolMediumEnabled then <[THIRD_PORT := main]> m else m in
              Some (<[MAIN_PORT := main]> m, w)
          end
      end
  end.

Definition same_picture (a b : stream_t) : bool :=
  (s_width a =? s_width b) && (s_height a =? s_height b) && (s_format a =? s_format b).

Definition isProcessorNeeded (streams : list stream_conf) (producerConfig : stream_t) d : bool :=
  crop_is 1 (mParameter d)
  || negb (s_field producerConfig =? V4L2_FIELD_ANY)
     && (default DEINTERLACE_OFF (snd (getDeinterlaceMode (mParameter d))) =? DEINTERLACE_WEAVING)
  || negb (s_field producerConfig =? V4L2_FIELD_ALTERNATE)
     && negb (forallb (fun c => same_picture producerConfig (c_stream c)) streams)
  || negb (default MONO_DS_MODE_OFF (snd (getMonoDsMode (mParameter d))) =? MONO_DS_MODE_OFF).

(** ** Configuring *)

Definition createStreams (streams : list stream_conf) d w : CameraDevice * World :=
  foldl (fun '(d, w) i =>
    (set_streams (mStreams d ++ [new_CameraStream i]) d,
     do_all [RegisterListener (StreamEvents i, EVENT_FRAME_AVAILABLE, ByRequests)] w))
    (d, w) (range 0 (Z.of_nat (length streams))).

(** The processor is the hardware one when it takes all formats. *)
Definition psys_usable (streams : list stream_conf) : bool :=
  forallb (fun c => is_input c || is_opaque_raw c || usePsys (s_format (c_stream c))) streams.

Definition createProcessors (streams : list stream_conf) d w : CameraDevice * World :=
  let id := next_processor d in
  let d := set_live (live d ++ [id]) (id + 1) d in
  (set_processors (live d) d, do_all [CreateProcessor id (psys_usable streams)] w).

(** The streams that are not input, by port, for the processor. *)
Definition output_configs (streams : list stream_conf) (m : gmap Z Z) : option (list (Z * stream_t)) :=
  l ← mapM (fun id => p ← m !! id; c ← streams !! Z.to_nat id; Some (p, c)) (merge_sort Z.le (keys m));
  Some ((fun e => (e.1, c_stream e.2)) <$> List.filter (fun e => negb (is_input e.2)) l).

Fixpoint configureProcessors (ids : list Z) (inputs : gmap Z stream_t) (outputs : list (Z * stream_t)) (producer : CameraStream.source) w
  : Z * World :=
  match ids with
  | [] => (OK, w)
  | id :: ids =>
      let w := do_all [SetFrameInfo id inputs outputs; SetParameters (Proc id)] w in
      let '(r, w) := do (Configure (Proc id)) w in
      if r <? 0 then (r, w) else
      configureProcessors ids inputs outputs (CameraStream.Processor id) (do_all [SetBufferProducer id producer] w)
  end.

(** One stream: its port and its producer. *)
Definition bind_stream (producer : CameraStream.source) (id port : Z) d w : option (CameraDevice * World) :=
  s ← mStreams d !! Z.to_nat id;
  let '(s, w) := setBufferProducer (Some producer) (setPort port s) w in
  Some (set_streams (<[Z.to_nat id := s]> (mStreams d)) d, w).

Definition stream_producer d : option CameraStream.source :=
  if bool_decide (mProcessors d = []) then Some CameraStream.Producer else id ← last_processor d; Some (CameraStream.Processor id).

Fixpoint bind_streams (ids : list Z) d w : option (CameraDevice * World) :=
  match ids with
  | [] => Some (d, w)
  | id :: ids =>
      port ← mStreamIdToPortMap d !! id;
      producer ← stream_producer d;
      '(d, w) ← bind_stream producer id port d w;
      bind_streams ids d w
  end.

Definition bindStreams d w := bind_streams (merge_sort Z.le (keys (mStreamIdToPortMap d))) d w.

Definition set_mmap (s : stream_t) : stream_t := Stream (s_format s) (s_width s) (s_height s) (s_field s) V4L2_MEMORY_MMAP.

(** From the choice of the source's output on. *)
Definition configure_parts (streams : list stream_conf) (mode mcId : Z) d w : option (Z * CameraDevice * World) :=
  '(configs, w) ← selectProducerConfig streams mode mcId d w;
  if bool_decide (configs = ∅) then Some (BAD_VALUE, d, w) else
  main ← configs !! MAIN_PORT;
  let needed := isProcessorNeeded streams main d in
  let configs := if needed then set_mmap <$> configs else configs in
  let w := do_all (ReorderTuningConfig <$> getConfigModes mode) w in
  let '(r, w) := do (ConfigureProducer configs) w in
  if r <? 0 then Some (BAD_VALUE, d, w) else
  let '(r, w) := do (Configure CsiMeta) w in
  if negb (r =? OK) then Some (r, d, w) else
  let '(r, w) := do (Configure Sensor) w in
  if negb (r =? OK) then Some (r, d, w) else
  let '(r, w) := do (Configure Sof) w in
  if negb (r =? OK) then Some (r, d, w) else
  let w := do_all [Configure ThreeA] w in
  '(r, d, w) ← (if needed then
      outputs ← output_configs streams (mStreamIdToPortMap d);
      let '(d, w) := createProcessors streams d w in
      let '(r, w) := configureProcessors (live d) configs outputs CameraStream.Producer w in
      Some (r, d, w)
    else Some (OK, d, w));
  if negb (r =? OK) then Some (r, d, w) else
  '(d, w) ← bindStreams d w;
  Some (OK, set_state DEVICE_CONFIGURE d, w).

Definition configurable (st : device_state) : bool :=
  bool_decide (st = DEVICE_STOP) || bool_decide (st = DEVICE_INIT) || bool_decide (st = DEVICE_CONFIGURE).

Definition configure (streamList : stream_config_t) d w : option (Z * CameraDevice * World) :=
  match sc_streams streamList with
  | None => Some (BAD_VALUE, d, w)
  | Some streams =>
      let n := Z.of_nat (length streams) in
      if (MAX_STREAM_NUMBER <? n) || (n <=? 0) then Some (BAD_VALUE, d, w) else
      if negb (configurable (mState d)) then Some (INVALID_OPERATION, d, w) else
      '(r, d) ← analyzeStream streams d;
      if negb (r =? OK) then Some (r, d, w) else
      let '(d, w) := deleteStreams d w in
      let d := deleteProcessors d in
      let w := do_all [RemoveAllFrameAvailableListener] w in
      let '(d, w) := createStreams streams d w in
      let w := do_all [Configure Requests] w in
      if hasGraph then
        let '(r, w) := do (Configure Graph) w in
        if negb (r =? OK) then Some (INVALID_OPERATION, d, w)
        else configure_parts streams (operation_mode streamList) (getSelectedMcId (log w)) d w
      else configure_parts streams (operation_mode streamList) (-1) d w
  end.

Definition configureInput (inputConfig : stream_t) d : Z * CameraDevice :=
  (OK, DeviceOf (mState d) (mStreams d) (mStreamIdToPortMap d) (mSortedStreamIds d) (mProcessors d) (mParameter d) inputConfig (live d) (next_processor d)).

(** ** Buffers *)

(** A method of one of the streams. *)
Definition on_stream {A} (id : Z) (f : CameraStream -> World -> option (A * CameraStream * World)) d w : option (A * CameraDevice * World) :=
  s ← mStreams d !! Z.to_nat id;
  '(a, s, w) ← f s w;
  Some (a, set_streams (<[Z.to_nat id := s]> (mStreams d)) d, w).

Definition allocateMemory (ubuffer : Z) d w : option (Z * CameraDevice * World) :=
  if before_configure (mState d) then Some (BAD_VALUE, d, w) else
  u ← users w !! ubuffer;
  if (ub_id u <? 0) || (mStreamNum d <=? ub_id u) then Some (BAD_VALUE, d, w) else
  on_stream (ub_id u) (CameraStream.allocateMemory ubuffer) d w.

(** The buffer among [ubuffers] for a stream: a wrong id in a buffer that is
    looked at before is an error. *)
Fixpoint find_buffer (streamId num : Z) (ubuffers : list Z) w : option (Z + option Z) :=
  match ubuffers with
  | [] => Some (inr None)
  | b :: ubuffers =>
      u ← users w !! b;
      if (ub_id u <? 0) || (num <? ub_id u) then Some (inl BAD_VALUE) else
      if ub_id u =? streamId then Some (inr (Some b)) else find_buffer streamId num ubuffers w
  end.

(** An empty buffer, 0, for the streams without one. *)
Fixpoint queue_streams (ids : list Z) (ubuffers : list Z) (sequence : Z) d w : option (Z * CameraDevice * World) :=
  match ids with
  | [] => Some (OK, d, w)
  | id :: ids =>
      found ← find_buffer id (mStreamNum d) ubuffers w;
      match found with
      | inl r => Some (r, d, w)
      | inr b =>
          '(r, d, w) ← on_stream id (qbuf_stream (default 0 b) sequence) d w;
          if r <? 0 then Some (r, d, w) else queue_streams ids ubuffers sequence d w
      end
  end.

Definition handleQueueBuffer (ubuffers : list Z) (sequence : Z) d w : option (Z * CameraDevice * World) :=
  if before_configure (mState d) then Some (BAD_VALUE, d, w)
  else queue_streams (range 0 (mStreamNum d)) ubuffers sequence d w.

(** Buffers are registered with the last processor. *)
Fixpoint register_buffers (ubuffers : list Z) d w : option (Z * CameraDevice * World) :=
  match ubuffers with
  | [] => Some (OK, d, w)
  | b :: ubuffers =>
      if b =? 0 then Some (BAD_VALUE, d, w) else
      u ← users w !! b;
      if (ub_id u <? 0) || (mStreamNum d <? ub_id u) then Some (BAD_VALUE, d, w) else
      '(cb, d, w) ← on_stream (ub_id u) (userBufferToCameraBuffer b) d w;
      w ← match mStreamIdToPortMap d !! ub_id u with
          | Some port => id ← last_processor d; Some (do_all [RegisterUserOutputBufs id port cb] w)
          | None => Some w
          end;
      register_buffers ubuffers d w
  end.

Definition registerBuffer (ubuffers : list Z) d w : option (Z * CameraDevice * World) :=
  if before_configure (mState d) then Some (BAD_VALUE, d, w) else
  if bool_decide (mProcessors d = []) then Some (OK, d, w) else register_buffers ubuffers d w.

(** The first part of [qbuf]: 3A has to run before there are buffers. *)
Definition prepare d w : Z * CameraDevice * World :=
  if bool_decide (mState d = DEVICE_CONFIGURE) || bool_decide (mState d = DEVICE_STOP) then
    let '(r, w) := do (Start Lens) w in
    if negb (r =? OK) then (r, d, w) else
    let '(r, w) := do (Start ThreeA) w in
    if negb (r =? OK) then (BAD_VALUE, d, w) else (OK, set_state DEVICE_BUFFER_READY d, w)
  else (OK, d, w).

Definition qbuf (ubuffers : list Z) (settings : bool) d w : option (Z * CameraDevice * World) :=
  let '(r, d, w) := prepare d w in
  if negb (r =? OK) then Some (r, d, w) else
  '(d, w) ← (if negb (bool_decide (mState d = DEVICE_START)) && isNeedToPreRegisterBuffer
             then '(_, d, w) ← registerBuffer ubuffers d w; Some (d, w) else Some (d, w));
  let '(r, w) := do (ProcessRequest ubuffers settings) w in
  Some (r, d, w).

(** What the request thread answers to each wait: a status, and the buffer.  It
    is asked again while the time runs out. *)
Fixpoint wait_frames (replies : list (Z * option Z)) : option (Z * option Z) :=
  match replies with
  | [] => None
  | (r, b) :: replies => if r =? TIMED_OUT then wait_frames replies else Some (r, b)
  end.

Definition dqbuf (streamId : Z) (settings : bool) (replies : list (Z * option Z)) d w : option (Z * option Z * option Parameters) :=
  if (streamId <? 0) || (mStreamNum d <? streamId) then Some (BAD_VALUE, None, None) else
  '(r, b) ← (if 0 <? getReqWaitTimeout then head replies else wait_frames replies);
  if negb (r =? OK) then Some (r, b, None) else
  match b with
  | None => Some (r, None, None)
  | Some b =>
      u ← users w !! b;
      Some (OK, Some b, if settings then Some (getResults (log w) (ub_sequence u)) else None)
  end.

(** ** Parameters *)

Definition setParameters (param : Parameters) d w : option (Z * CameraDevice * World) :=
  let d := set_parameter (Parameters.merge param (mParameter d)) d in
  let '(ret, w) := do (SetParameters ThreeA) w in
  ps ← processors d;
  let w := do_all ((fun id => SetParameters (Proc id)) <$> ps) w in
  match isTestPatternSupported, getTestPatternMode param with
  | true, (_, Some mode) =>
      let pattern := getSensorTestPattern mode in
      if 0 <=? pattern then let '(r, w) := do (SetTestPattern pattern) w in Some (Z.lor ret r, d, w) else Some (ret, d, w)
  | _, _ => Some (ret, d, w)
  end.

Definition getParameters (sequence : Z) d w : option (Z * Parameters * World) :=
  let param := mParameter d in
  let nParam := if bool_decide (mState d = DEVICE_STOP) then new_Parameters else getResults (log w) sequence in
  ps ← processors d;
  let '(param, w) := foldl (fun '(p, w) id => (addProcessorParameters (log w) id p, do_all [ProcessorParameters id] w))
                       (Parameters.merge nParam param, w) ps in
  Some (OK, param, w).

(** ** Events *)

Inductive event_data :=
| ProcessRequestEvent (ubuffers : list Z) (settingSeq testPattern : Z)
| CallbackEvent (e : event_type).

Definition has_callback_event (e : event_type) : bool :=
  match e with EVENT_PSYS_REQUEST_BUF_READY | EVENT_REQUEST_METADATA_READY | EVENT_ISYS_ERROR => true | _ => false end.

Definition handleEvent (callback : bool) (e : event_data) d w : option (CameraDevice * World) :=
  match e with
  | ProcessRequestEvent ubuffers settingSeq testPattern =>
      let pattern := getSensorTestPattern testPattern in
      let w := if isTestPatternSupported && (0 <=? pattern) then do_all [SetTestPattern pattern] w else w in
      '(_, d, w) ← handleQueueBuffer ubuffers settingSeq d w;
      Some (d, w)
  | CallbackEvent e => Some (d, if callback && has_callback_event e then do_all [Notify e] w else w)
  end.
End Device.
