(* ===== verification/CameraDeviceRuns.v ===== *)
(** * What the camera device does

    The theorems on CameraDevice.v: which parts run in which state, for any
    sequence of calls and any answers of the parts; the order and the ports of
    the streams; where the buffers of a request go. *)

From S2P Require Import Prelude Errors OrderedMap V4l2Video PixelFormats CaptureDevice CaptureUnit Parameters CameraStream CameraDevice.
From stdpp Require Import list gmap sorting.
#[local] Open Scope Z_scope.

(** ** Runs of the API *)

Inductive api :=
| OInit | ODeinit | OConfigureInput (s : stream_t) | OConfigure (l : stream_config_t) | OStart | OStop
| OAllocate (ubuffer : Z) | OQbuf (ubuffers : list Z) (settings : bool)
| OSetParameters (p : Parameters) | OGetParameters (sequence : Z) | OEvent (callback : bool) (e : event_data)
| OFrame (streamId port buffer : Z).

(** Whether a part runs, by what it was told and what it answered. *)
Definition running_step (p : part) (b : bool) (e : device_call * Z) : bool :=
  match e.1 with
  | Start q => if bool_decide (p = q) then accepts p e.2 else b
  | Stop q => if bool_decide (p = q) then false else b
  | _ => b
  end.
Definition running (p : part) (l : Log) : bool := foldl (running_step p) false l.

(** The states in which a part is meant to run. *)
Definition started d : bool := bool_decide (mState d = DEVICE_START).
Definition meant (d : CameraDevice) (p : part) : bool :=
  match p with
  | CaptureSource | CsiMeta | Sof => started d
  | Proc id => started d && bool_decide (id ∈ mProcessors d)
  | ThreeA => started d || bool_decide (mState d = DEVICE_BUFFER_READY)
  | _ => false
  end.
Definition controlled (p : part) : bool :=
  match p with CaptureSource | CsiMeta | Sof | Proc _ | ThreeA => true | _ => false end.

Section Runs.
Context `{DeviceConfig}.
#[local] Abbreviation World := (World device_call).
Implicit Types (d : CameraDevice) (w : World) (s : CameraStream).

(** A device is opened once, and used until it is closed. *)
Definition allowed (o : api) d : Prop :=
  match o with OInit => mState d = DEVICE_UNINIT | _ => mState d <> DEVICE_UNINIT end.

Definition apply_api (o : api) d w : option (CameraDevice * World) :=
  match o with
  | OInit => let '(_, d, w) := init d w in Some (d, w)
  | ODeinit => deinit d w
  | OConfigureInput s => Some (snd (configureInput s d), w)
  | OConfigure l => '(_, d, w) ← configure l d w; Some (d, w)
  | OStart => '(_, d, w) ← start d w; Some (d, w)
  | OStop => '(_, d, w) ← stop d w; Some (d, w)
  | OAllocate b => '(_, d, w) ← allocateMemory b d w; Some (d, w)
  | OQbuf bs settings => '(_, d, w) ← qbuf bs settings d w; Some (d, w)
  | OSetParameters p => '(_, d, w) ← setParameters p d w; Some (d, w)
  | OGetParameters sequence => '(_, _, w) ← getParameters sequence d w; Some (d, w)
  | OEvent callback e => handleEvent callback e d w
  | OFrame streamId port b =>
      '(_, d, w) ← on_stream streamId (onFrameAvailable (bool_decide (getSupportPrivacy <> NO_PRIVACY_MODE)) port b) d w;
      Some (d, w)
  end.

Inductive runs : list api -> CameraDevice -> World -> Prop :=
| runs_new w : log w = [] -> runs [] new_CameraDevice w
| runs_step os o d w d' w' : runs os d w -> allowed o d -> apply_api o d w = Some (d', w') -> runs (os ++ [o]) d' w'.

(** ** Quiet calls: those that neither start nor stop a part *)

Definition quiet_call (c : device_call) : Prop := match c with Start _ | Stop _ => False | _ => True end.

Definition quiet w w' : Prop := exists l, log w' = log w ++ l /\ Forall (fun e => quiet_call e.1) l.

#[global] Instance quiet_preorder : PreOrder quiet.
Proof.
  split.
  - intros w. exists []. split; [by rewrite app_nil_r|constructor].
  - intros w1 w2 w3 (l1 & E1 & F1) (l2 & E2 & F2). exists (l1 ++ l2). rewrite E2, E1, app_assoc. split; [done|].
    by apply Forall_app.
Qed.

Lemma quiet_refl w : quiet w w.
Proof. reflexivity. Qed.
#[local] Hint Resolve quiet_refl : core.

Lemma running_quiet p w w' : quiet w w' -> running p (log w') = running p (log w).
Proof.
  intros (l & -> & Hl). unfold running. rewrite foldl_app. generalize (foldl (running_step p) false (log w)). intros b.
  revert b. induction Hl as [|e l He Hl IH]; intros b; [done|]. cbn [foldl]. rewrite IH. destruct e as [c r]. cbn in He.
  unfold running_step. by destruct c.
Qed.

Lemma quiet_do c w : quiet_call c -> quiet w (snd (do c w)).
Proof. intros Hc. eexists. split; [reflexivity|]. by repeat constructor. Qed.

Lemma quiet_do_all l w : Forall quiet_call l -> quiet w (do_all l w).
Proof.
  intros Hl. revert w. induction Hl as [|c l Hc Hl IH]; intros w; [reflexivity|]. cbn [do_all foldl].
  etransitivity; [by apply (quiet_do c)|]. apply IH.
Qed.

Lemma quiet_fmap {A} (f : A -> device_call) l : (forall x, quiet_call (f x)) -> Forall quiet_call (f <$> l).
Proof. intros Hf. apply Forall_fmap, Forall_true. done. Qed.

Lemma quiet_log w w' : log w' = log w -> quiet w w'.
Proof. intros E. exists []. rewrite E, app_nil_r. by split. Qed.

(** ** What is quiet *)

Lemma log_user_buffer b s w r s' w' : userBufferToCameraBuffer b s w = Some (r, s', w') -> log w' = log w.
Proof.
  unfold userBufferToCameraBuffer. destruct (b =? 0); [by intros [= <- <- <-]|].
  destruct (users w !! b) as [u|]; [|done]. cbn [mbind option_bind].
  destruct (search b u (mUserBuffersPool s) w) as [[[f|] pool]|]; [| |done]; cbn [mbind option_bind].
  - destruct (buffers w !! f); [|done]. by intros [= <- <- <-].
  - cbn [buffers]. rewrite lookup_insert_eq. by intros [= <- <- <-].
Qed.

Lemma quiet_stream c w : quiet w (snd (do_stream c w)).
Proof. by apply quiet_do. Qed.

Lemma quiet_allocate b s w r s' w' : CameraStream.allocateMemory b s w = Some (r, s', w') -> quiet w w'.
Proof.
  unfold CameraStream.allocateMemory. destruct (userBufferToCameraBuffer b s w) as [[[cb s1] w1]|] eqn:E; [|done].
  apply log_user_buffer, quiet_log in E. cbn [mbind option_bind].
  destruct cb as [cb|]; [|by intros [= <- <- <-]]. destruct (mBufferProducer s1) as [p|]; [|by intros [= <- <- <-]].
  intros [= <- <- <-]. etransitivity; [exact E|]. by apply (quiet_do (OfStream _)).
Qed.

Lemma quiet_qbuf b q s w r s' w' : qbuf_stream b q s w = Some (r, s', w') -> quiet w w'.
Proof.
  unfold qbuf_stream, qbuf_give. destruct (userBufferToCameraBuffer b s w) as [[[cb s1] w1]|] eqn:E; [|done].
  apply log_user_buffer, quiet_log in E. cbn [mbind option_bind]. set (w2 := match cb with Some _ => _ | None => _ end).
  assert (E2 : quiet w w2) by (etransitivity; [exact E|]; apply quiet_log; by destruct cb).
  destruct (mBufferProducer s1) as [p|]; intros [= <- <- <-]; [|done].
  etransitivity; [exact E2|]. by apply (quiet_do (OfStream _)).
Qed.

Lemma quiet_frame b s w r s' w' : doFrameAvailable b s w = Some (r, s', w') -> quiet w w'.
Proof.
  unfold doFrameAvailable. destruct (buffers w !! b) as [o|]; [|done]. cbn [mbind option_bind].
  destruct (users w !! cb_user o); [|done]. intros [= <- <- <-]. etransitivity; [|apply quiet_stream].
  by apply quiet_log.
Qed.

Lemma quiet_available privacy port b s w r s' w' : onFrameAvailable privacy port b s w = Some (r, s', w') -> quiet w w'.
Proof.
  unfold onFrameAvailable. destruct (negb _); [by intros [= <- <- <-]|]. destruct (buffers w !! b) as [o|]; [|done].
  cbn [mbind option_bind]. destruct (users w !! cb_user o) as [u|]; [|done]. cbn [mbind option_bind].
  destruct (negb _); [by intros [= <- <- <-]|]. destruct privacy; [|apply quiet_frame].
  destruct (mPrivacyBuffer s); [by intros [= <- <- <-]|apply quiet_frame].
Qed.

Lemma quiet_stop_stream s w : quiet w (snd (stop_stream s w)).
Proof. unfold stop_stream. cbn [set_in_processing mBufferProducer]. destruct (mBufferProducer s); [apply quiet_stream|reflexivity]. Qed.

Lemma quiet_delete_streams d w : quiet w (snd (deleteStreams d w)).
Proof.
  unfold deleteStreams. cbn [snd]. revert w. induction (mStreams d) as [|s l IH]; intros w; cbn [foldl]; [done|].
  etransitivity; [apply quiet_stop_stream|apply IH].
Qed.

(** A method that is quiet is so for the device, which keeps its state. *)
Lemma on_stream_quiet {A} id (f : CameraStream -> World -> option (A * CameraStream * World)) d w r d' w' :
  (forall s w r s' w', f s w = Some (r, s', w') -> quiet w w') ->
  on_stream id f d w = Some (r, d', w') ->
  quiet w w' /\ mState d' = mState d /\ mProcessors d' = mProcessors d /\ length (mStreams d') = length (mStreams d).
Proof.
  intros Hf. unfold on_stream. destruct (mStreams d !! Z.to_nat id) as [s|]; [|done]. cbn [mbind option_bind].
  destruct (f s w) as [[[a s1] w1]|] eqn:E; [|done]. intros [= <- <- <-]. split; [by eapply Hf|]. split_and!; try done.
  cbn [mStreams set_streams]. apply length_insert.
Qed.

(** What a quiet step keeps. *)
Definition keeps d w d' w' : Prop :=
  quiet w w' /\ mState d' = mState d /\ mProcessors d' = mProcessors d /\ length (mStreams d') = length (mStreams d).

Lemma keeps_refl d w : keeps d w d w.
Proof. by split_and!. Qed.

Lemma keeps_trans d w d1 w1 d2 w2 : keeps d w d1 w1 -> keeps d1 w1 d2 w2 -> keeps d w d2 w2.
Proof. intros (? & ? & ? & ?) (? & ? & ? & ?). split_and!; [by etransitivity|congruence..]. Qed.

Lemma keeps_world d w w' : quiet w w' -> keeps d w d w'.
Proof. unfold keeps. auto. Qed.

Lemma keeps_queue ids bs q d w r d' w' : queue_streams ids bs q d w = Some (r, d', w') -> keeps d w d' w'.
Proof.
  revert d w. induction ids as [|id ids IH]; intros d w; cbn [queue_streams]; [intros [= <- <- <-]; apply keeps_refl|].
  destruct (find_buffer _ _ _ _) as [[r1|b]|]; [|cbn [mbind option_bind]|done]; [intros [= <- <- <-]; apply keeps_refl|].
  destruct (on_stream _ _ d w) as [[[r1 d1] w1]|] eqn:E; [|done]. cbn [mbind option_bind].
  apply on_stream_quiet in E; [|by intros; eapply quiet_qbuf].
  destruct (r1 <? 0); [by intros [= <- <- <-]|]. intros E2. eapply keeps_trans; [exact E|by eapply IH].
Qed.

Lemma keeps_handle bs q d w r d' w' : handleQueueBuffer bs q d w = Some (r, d', w') -> keeps d w d' w'.
Proof. unfold handleQueueBuffer. destruct (before_configure _); [intros [= <- <- <-]; apply keeps_refl|apply keeps_queue]. Qed.

Lemma keeps_register bs d w r d' w' : registerBuffer bs d w = Some (r, d', w') -> keeps d w d' w'.
Proof.
  unfold registerBuffer. destruct (before_configure _); [intros [= <- <- <-]; apply keeps_refl|].
  destruct (bool_decide _); [intros [= <- <- <-]; apply keeps_refl|].
  revert d w. induction bs as [|b bs IH]; intros d w; cbn [register_buffers]; [intros [= <- <- <-]; apply keeps_refl|].
  destruct (b =? 0); [intros [= <- <- <-]; apply keeps_refl|]. destruct (users w !! b) as [u|]; [|done]. cbn [mbind option_bind].
  destruct (_ || _); [intros [= <- <- <-]; apply keeps_refl|].
  destruct (on_stream _ _ d w) as [[[cb d1] w1]|] eqn:E; [|done]. cbn [mbind option_bind].
  apply on_stream_quiet in E; [|intros * Es; by eapply quiet_log, log_user_buffer].
  destruct (mStreamIdToPortMap d1 !! ub_id u) as [port|]; cbn [mbind option_bind].
  - destruct (last_processor d1) as [id|]; [|done]. cbn [mbind option_bind]. intros E2. eapply keeps_trans; [exact E|].
    eapply keeps_trans; [|by eapply IH]. apply keeps_world, quiet_do_all. by repeat constructor.
  - intros E2. eapply keeps_trans; [exact E|by eapply IH].
Qed.

Lemma keeps_set_parameters p d w r d' w' : setParameters p d w = Some (r, d', w') -> keeps d w d' w'.
Proof.
  unfold setParameters. cbn [do fst snd]. unfold processors. cbn [mProcessors live set_parameter].
  destruct (forallb _ _); [|done]. cbn [mbind option_bind].
  set (w1 := WorldOf _ _ _ _ _). set (w2 := do_all _ w1).
  assert (Hq : keeps d w (set_parameter (Parameters.merge p (mParameter d)) d) w2).
  { split_and!; try done. etransitivity; [by apply (quiet_do (SetParameters ThreeA))|]. apply quiet_do_all, quiet_fmap. done. }
  destruct isTestPatternSupported; [|by intros [= <- <- <-]].
  destruct (getTestPatternMode p) as [? [mode|]]; [|by intros [= <- <- <-]].
  destruct (0 <=? _); [|by intros [= <- <- <-]]. intros [= <- <- <-]. eapply keeps_trans; [exact Hq|].
  apply keeps_world. by apply (quiet_do (SetTestPattern _)).
Qed.

Lemma quiet_get_parameters q d w r p w' : getParameters q d w = Some (r, p, w') -> quiet w w'.
Proof.
  unfold getParameters. destruct (processors d) as [ps|]; [|done]. cbn [mbind option_bind].
  generalize (Parameters.merge (if bool_decide (mState d = DEVICE_STOP) then new_Parameters else getResults (log w) q) (mParameter d)).
  intros p0. destruct (foldl _ _ ps) as [p1 w1] eqn:E. intros [= <- <- <-]. revert w p0 E.
  induction ps as [|id ps IH]; intros w p0; cbn [foldl]; [by intros [= _ <-]|]. intros E. apply IH in E.
  etransitivity; [|exact E]. apply quiet_do_all. by repeat constructor.
Qed.

(** ** Configuring is quiet *)

Lemma quiet_select streams mode mcId d w m w' : selectProducerConfig streams mode mcId d w = Some (m, w') -> quiet w w'.
Proof.
  unfold selectProducerConfig. destruct (if negb isIsysEnabled then _ else _) as [[s0|]|]; [by intros [= _ <-]| |done].
  cbn [mbind option_bind]. destruct (head (mSortedStreamIds d)) as [id|]; [|done]. cbn [mbind option_bind].
  destruct (streams !! Z.to_nat id) as [c|]; [|done]. cbn [mbind option_bind].
  assert (Hs : quiet w (select_mc (c_stream c) mode mcId d w)).
  { unfold select_mc. destruct (crop_is 1 _); apply quiet_do_all; by repeat constructor. }
  destruct (select_format _ d) as [f|]; [|by intros [= _ <-]].
  set (w1 := do_all [SelectISysFormat f] _). assert (Hq : quiet w w1).
  { etransitivity; [exact Hs|]. apply quiet_do_all. by repeat constructor. }
  destruct (_ && _); [by intros [= _ <-]|]. destruct (select_resolution _ d w1) as [[rw rh]|]; by intros [= _ <-].
Qed.

Lemma quiet_configure_processors ids inputs outputs p w : quiet w (snd (configureProcessors ids inputs outputs p w)).
Proof.
  revert p w. induction ids as [|id ids IH]; intros p w; cbn [configureProcessors]; [done|].
  set (w1 := do_all _ w). assert (H1 : quiet w w1) by (apply quiet_do_all; by repeat constructor).
  destruct (do (Configure (Proc id)) w1) as [r w2] eqn:E.
  assert (H2 : quiet w w2). { etransitivity; [exact H1|]. pose proof (quiet_do (Configure (Proc id)) w1 I) as Hq. by rewrite E in Hq. }
  destruct (r <? 0); [done|]. etransitivity; [exact H2|]. etransitivity; [|apply IH]. apply quiet_do_all. by repeat constructor.
Qed.

Lemma bind_streams_quiet ids d w d' w' : bind_streams ids d w = Some (d', w') -> quiet w w' /\ mState d' = mState d.
Proof.
  revert d w. induction ids as [|id ids IH]; intros d w; cbn [bind_streams]; [by intros [= <- <-]|].
  destruct (mStreamIdToPortMap d !! id) as [port|]; [|done]. cbn [mbind option_bind].
  destruct (stream_producer d) as [p|]; [|done]. cbn [mbind option_bind]. unfold bind_stream.
  destruct (mStreams d !! Z.to_nat id) as [s|]; [|done]. cbn [mbind option_bind setBufferProducer fst snd].
  intros [Hq Hs]%IH. split; [|exact Hs]. etransitivity; [|exact Hq]. apply quiet_stream.
Qed.

Lemma create_streams_quiet l d w : quiet w (snd (createStreams l d w)) /\ mState (fst (createStreams l d w)) = mState d.
Proof.
  unfold createStreams. generalize (range 0 (Z.of_nat (length l))). intros is0. revert d w.
  induction is0 as [|i is0 IH]; intros d w; cbn [foldl]; [done|]. destruct (IH (set_streams (mStreams d ++ [new_CameraStream i]) d)
    (do_all [RegisterListener (StreamEvents i, EVENT_FRAME_AVAILABLE, ByRequests)] w)) as [IH1 IH2].
  split; [|exact IH2]. etransitivity; [|exact IH1]. apply quiet_do_all. by repeat constructor.
Qed.

Lemma analyze_state streams d r d' : analyzeStream streams d = Some (r, d') -> mState d' = mState d.
Proof.
  unfold analyzeStream. destruct (sort_streams _ _ _ _ _ _) as [[[[r0 so] inp] raw]|]; [|done]. cbn [mbind option_bind].
  destruct (negb _); [by intros [= _ <-]|].
  destruct (if 0 <=? raw then (so ++ [raw], -1) else (so, inp)) as [so' inp'].
  destruct (assign_ports so' kPorts ∅) as [m|]; [|done]. cbn [mbind option_bind].
  destruct (_ && _); [by intros [= _ <-]|]. destruct (inp' <? 0); [by intros [= _ <-]|].
  destruct (bool_decide _); [by intros [= _ <-]|]. destruct (streams !! _) as [c|]; [|done]. cbn [mbind option_bind].
  destruct (negb _); by intros [= _ <-].
Qed.

Lemma configure_parts_quiet streams mode mcId d w r d' w' :
  configure_parts streams mode mcId d w = Some (r, d', w') ->
  quiet w w' /\ (mState d' = mState d \/ mState d' = DEVICE_CONFIGURE).
Proof.
  unfold configure_parts. destruct (selectProducerConfig _ _ _ d w) as [[configs w1]|] eqn:E; [|done].
  apply quiet_select in E. cbn [mbind option_bind]. destruct (bool_decide _); [intros [= <- <- <-]; auto|].
  destruct (configs !! MAIN_PORT) as [main|]; [|done]. cbn [mbind option_bind].
  set (needed := isProcessorNeeded _ _ _). set (configs' := if needed then _ else _).
  set (w2 := do_all _ w1). assert (H2 : quiet w w2).
  { etransitivity; [exact E|]. apply quiet_do_all, quiet_fmap. done. }
  clearbody w2. cbn [do].
  set (w3 := WorldOf _ _ _ _ _). assert (H3 : quiet w w3) by (etransitivity; [exact H2|]; by apply (quiet_do (ConfigureProducer configs'))).
  clearbody w3. destruct (_ <? 0); [intros [= <- <- <-]; auto|].
  set (w4 := WorldOf _ _ _ _ (log w3 ++ _)). assert (H4 : quiet w w4) by (etransitivity; [exact H3|]; by apply (quiet_do (Configure CsiMeta))).
  clearbody w4. destruct (negb _); [intros [= <- <- <-]; auto|].
  set (w5 := WorldOf _ _ _ _ (log w4 ++ _)). assert (H5 : quiet w w5) by (etransitivity; [exact H4|]; by apply (quiet_do (Configure Sensor))).
  clearbody w5. destruct (negb _); [intros [= <- <- <-]; auto|].
  set (w6 := WorldOf _ _ _ _ (log w5 ++ _)). assert (H6 : quiet w w6) by (etransitivity; [exact H5|]; by apply (quiet_do (Configure Sof))).
  clearbody w6. destruct (negb _); [intros [= <- <- <-]; auto|].
  set (w7 := do_all _ w6). assert (H7 : quiet w w7) by (etransitivity; [exact H6|]; apply quiet_do_all; by repeat constructor).
  clearbody w7.
  match goal with |- mbind _ ?x = _ -> _ => destruct x as [[[r8 d8] w8]|] eqn:E8; [|done] end. cbn [mbind option_bind].
  assert (H8 : quiet w w8 /\ mState d8 = mState d).
  { destruct needed; [|by injection E8 as <- <- <-].
    destruct (output_configs _ _) as [outputs|]; [|done]. cbn [mbind option_bind createProcessors] in E8.
    destruct (configureProcessors _ _ _ _ _) as [r9 w9] eqn:E9. injection E8 as <- <- <-. split; [|done].
    match type of E9 with configureProcessors ?a ?b ?c ?e ?f = _ => pose proof (quiet_configure_processors a b c e f) as Hq end.
    rewrite E9 in Hq. etransitivity; [exact H7|]. etransitivity; [|exact Hq].
    apply quiet_do_all. by repeat constructor. }
  destruct H8 as [H8 Hs8]. destruct (negb _); [intros [= <- <- <-]; auto|].
  destruct (bindStreams d8 w8) as [[d9 w9]|] eqn:E9; [|done]. apply bind_streams_quiet in E9 as [H9 Hs9].
  cbn [mbind option_bind]. intros [= <- <- <-]. split; [by etransitivity|by right].
Qed.

(** A device that streams is not configured; else its state stays, or is
    DEVICE_CONFIGURE. *)
Lemma configure_quiet l d w r d' w' :
  configure l d w = Some (r, d', w') ->
  quiet w w' /\ (d' = d \/ configurable (mState d) = true /\ (mState d' = mState d \/ mState d' = DEVICE_CONFIGURE)).
Proof.
  unfold configure. destruct (sc_streams l) as [streams|]; [|intros [= <- <- <-]; auto].
  destruct (_ || _); [intros [= <- <- <-]; auto|].
  destruct (configurable (mState d)) eqn:Ec; cbn [negb]; [|intros [= <- <- <-]; auto].
  destruct (analyzeStream streams d) as [[r1 d1]|] eqn:E1; [|done]. apply analyze_state in E1. cbn [mbind option_bind].
  destruct (negb _); [intros [= <- <- <-]; auto|].
  destruct (deleteStreams d1 w) as [d2 w2] eqn:E2. pose proof (quiet_delete_streams d1 w) as H2. rewrite E2 in H2. cbn [snd] in H2.
  assert (Hs2 : mState d2 = mState d1) by (by injection E2 as <- <-).
  set (w3 := do_all _ w2). assert (H3 : quiet w w3) by (etransitivity; [exact H2|]; apply quiet_do_all; by repeat constructor).
  destruct (createStreams streams (deleteProcessors d2) w3) as [d4 w4] eqn:E4.
  destruct (create_streams_quiet streams (deleteProcessors d2) w3) as [H4 Hs4]. rewrite E4 in H4, Hs4. cbn [fst snd] in H4, Hs4.
  set (w5 := do_all _ w4). assert (H5 : quiet w w5).
  { etransitivity; [exact H3|]. etransitivity; [exact H4|]. apply quiet_do_all; by repeat constructor. }
  assert (Hs : mState d4 = mState d) by (rewrite Hs4; cbn; congruence). clearbody w5.
  destruct hasGraph; [cbn [do]; destruct (negb _)|].
  - intros [= <- <- <-]. split; [|auto]. etransitivity; [exact H5|]. by apply (quiet_do (Configure Graph)).
  - intros [Hq Hst]%configure_parts_quiet. split; [|right; split; [done|by rewrite <- Hs]].
    etransitivity; [exact H5|]. etransitivity; [|exact Hq]. by apply (quiet_do (Configure Graph)).
  - intros [Hq Hst]%configure_parts_quiet. split; [|right; split; [done|by rewrite <- Hs]]. by etransitivity.
Qed.

(** ** Starting and stopping *)

Lemma running_do p c w : running p (log (snd (do c w))) = running_step p (running p (log w)) (c, device_answer (log w) c).
Proof. unfold running. cbn [snd do log]. by rewrite foldl_app. Qed.

(** Calls that start nothing stop what they name. *)
Lemma running_do_all p l w :
  (forall q, Start q ∉ l) -> running p (log (do_all l w)) = running p (log w) && negb (existsb (fun c => match c with Stop q => bool_decide (p = q) | _ => false end) l).
Proof.
  revert w. induction l as [|c l IH]; intros w Hl; cbn [do_all foldl existsb]; [by rewrite andb_true_r|].
  change (foldl _ _ l) with (do_all l (snd (do c w))). rewrite IH, running_do by (intros q Hq; apply (Hl q); by right).
  unfold running_step. cbn [fst snd]. destruct c; try by rewrite orb_false_l.
  - destruct (Hl p0). by left.
  - case_bool_decide as E; [by rewrite andb_false_r|by rewrite orb_false_l].
Qed.

Lemma start_parts_running l w r w' p :
  start_parts l w = (r, w') ->
  (p ∉ l -> running p (log w') = running p (log w)) /\ (r = OK -> p ∈ l -> running p (log w') = true).
Proof.
  revert w. induction l as [|q l IH]; intros w; cbn [start_parts].
  { intros [= <- <-]. split; [done|]. by intros _ ?%elem_of_nil. }
  cbn [do fst snd]. set (w1 := WorldOf _ _ _ _ _). set (a := answer (log w) (Start q)).
  assert (E1 : running p (log w1) = if bool_decide (p = q) then accepts p a else running p (log w)).
  { unfold w1. cbn [log]. unfold running. rewrite foldl_app. reflexivity. }
  destruct (accepts q a) eqn:Ea.
  - intros E. apply IH in E as [H1 H2]. split.
    + intros [Hne Hn]%not_elem_of_cons. by rewrite H1, E1, bool_decide_eq_false_2.
    + intros Hr [->|Hp]%elem_of_cons; [|by apply H2]. destruct (decide (q ∈ l)) as [Hq|Hq]; [by apply H2|].
      by rewrite H1, E1, bool_decide_eq_true_2.
  - intros [= <- <-]. split; [|done]. intros [Hne Hn]%not_elem_of_cons. by rewrite E1, bool_decide_eq_false_2.
Qed.

Lemma processors_some d ps : processors d = Some ps -> ps = mProcessors d.
Proof. unfold processors. destruct (forallb _ _); [by intros [= <-]|done]. Qed.

(** The parts that [stopLocked] stops. *)
Definition stopped_parts d : list part := [Sof; CsiMeta; CaptureSource] ++ (Proc <$> mProcessors d).

Lemma in_stopped_parts d p :
  p ∈ stopped_parts d <-> match p with CaptureSource | CsiMeta | Sof => True | Proc id => id ∈ mProcessors d | _ => False end.
Proof.
  unfold stopped_parts. rewrite elem_of_app, list_elem_of_fmap, !elem_of_cons, elem_of_nil.
  split.
  - intros [Hp|(id & -> & Hid)]; [|done]. by destruct Hp as [->|[->|[->|[]]]].
  - destruct p; intros Hp; try done; try (left; by auto). right. by exists id.
Qed.

Lemma stopLocked_running d w w' p :
  stopLocked d w = Some w' -> running p (log w') = running p (log w) && negb (bool_decide (p ∈ stopped_parts d)).
Proof.
  unfold stopLocked. destruct (processors d) as [ps|] eqn:Ep; [|done]. apply processors_some in Ep as ->. cbn [mbind option_bind].
  set (w1 := do_all _ w). destruct (unbindListeners d w1) as [w2|] eqn:Eu; [|done]. cbn [mbind option_bind]. intros [= <-].
  assert (H1 : running p (log w1) = running p (log w) && negb (bool_decide (p ∈ stopped_parts d))).
  { unfold w1.
    replace ([Stop Sof; Stop CsiMeta; Stop CaptureSource] ++ ((fun id => Stop (Proc id)) <$> mProcessors d))
      with (Stop <$> stopped_parts d) by (unfold stopped_parts; by rewrite fmap_app, <- list_fmap_compose).
    rewrite running_do_all.
    - f_equal. f_equal. apply eq_true_iff_eq. rewrite existsb_exists, bool_decide_eq_true. split.
      + intros (c & Hc & Hp). apply list_elem_of_In, elem_of_app in Hc as [Hc|Hc]; apply list_elem_of_fmap in Hc as (q & -> & Hq); [done|].
        by apply bool_decide_eq_true in Hp as ->.
      + intros Hp. exists (Stop p). split; [|by apply bool_decide_eq_true]. apply list_elem_of_In, elem_of_app. right.
        by apply list_elem_of_fmap_2.
    - intros q [Hq|Hq]%elem_of_app; by apply list_elem_of_fmap in Hq as (? & ? & _). }
  rewrite <- H1. apply running_quiet. unfold unbindListeners in Eu. destruct (unbound d) as [l|]; [|done]. injection Eu as <-.
  etransitivity; [by apply (quiet_do_all (RemoveListener <$> l)), quiet_fmap|]. by apply (quiet_do ResetSettings).
Qed.

(** ** The invariant *)

(** Every part runs in exactly the states it is meant to; the lens was started
    where 3A was; a device that streams has streams. *)
Definition follows d w : Prop :=
  (forall p, controlled p = true -> running p (log w) = meant d p)
  /\ (meant d ThreeA = true -> running Lens (log w) = true)
  /\ (started d = true -> mStreams d <> []).

Lemma meant_state d d' p : mState d' = mState d -> mProcessors d' = mProcessors d -> meant d' p = meant d p.
Proof. intros Es Ep. destruct p; cbn [meant]; unfold started; by rewrite ?Es, ?Ep. Qed.

Lemma follows_keeps d w d' w' : keeps d w d' w' -> follows d w -> follows d' w'.
Proof.
  intros (Hq & Hs & Hp & Hl) (H1 & H2 & H3). split_and!.
  - intros p Hc. rewrite (running_quiet p w w') by done. rewrite (meant_state d d') by done. by apply H1.
  - rewrite (meant_state d d'), (running_quiet Lens w w') by done. apply H2.
  - unfold started in *. rewrite Hs. intros Hst. apply H3 in Hst. intros E. rewrite E in Hl. by destruct (mStreams d).
Qed.

(** Where no part is meant to run before or after a quiet step. *)
Lemma follows_idle d w d' w' :
  quiet w w' -> meant d ThreeA = false -> meant d' ThreeA = false -> follows d w -> follows d' w'.
Proof.
  intros Hq Hd Hd' (H1 & _ & _). cbn [meant] in Hd, Hd'. apply orb_false_iff in Hd as [Hd1 Hd2], Hd' as [Hd1' Hd2'].
  split_and!.
  - intros p Hc. rewrite (running_quiet p w w'), H1 by done.
    destruct p; try done; cbn [meant]; by rewrite ?Hd1, ?Hd1', ?Hd2, ?Hd2'.
  - cbn [meant]. by rewrite Hd1', Hd2'.
  - by rewrite Hd1'.
Qed.

Lemma meant_not_three d p : meant d ThreeA = false -> controlled p = true -> meant d p = false.
Proof. cbn [meant]. intros [Hs Hb]%orb_false_iff Hc. destruct p; try done; cbn [meant]; by rewrite ?Hs, ?Hb. Qed.

Lemma in_stopped d p : controlled p = true -> p <> ThreeA -> meant d p = true -> p ∈ stopped_parts d.
Proof.
  rewrite in_stopped_parts. intros Hc Hne Hm.
  destruct p; try done. cbn [meant] in Hm. by apply andb_true_iff in Hm as [_ Hm%bool_decide_eq_true].
Qed.

(** Stopping what may run, with 3A, leaves nothing running. *)
Lemma stop_all_running d w0 w w' l p :
  follows d w0 -> w = do_all l w0 -> (forall q, Start q ∉ l) -> Stop ThreeA ∈ l ->
  (if bool_decide (mState d = DEVICE_START) then stopLocked d w else Some w) = Some w' ->
  controlled p = true -> running p (log w') = false.
Proof.
  intros (Hf & _ & _) -> Hl Ht E Hc.
  assert (Hw : running p (log (do_all l w0)) = true -> running p (log w0) = true /\ p <> ThreeA).
  { rewrite running_do_all by done. intros [H1 H2]%andb_true_iff. split; [done|]. intros ->.
    apply negb_true_iff, not_true_iff_false in H2. destruct H2. apply existsb_exists. exists (Stop ThreeA).
    split; [by apply list_elem_of_In|]. by apply bool_decide_eq_true. }
  apply not_true_iff_false. intros Hr.
  case_bool_decide as Hs.
  - apply (stopLocked_running d _ w' p) in E. rewrite E in Hr. apply andb_true_iff in Hr as [Hr1 Hr2].
    apply Hw in Hr1 as [Hr1 Hne]. apply negb_true_iff, bool_decide_eq_false in Hr2. apply Hr2, in_stopped; try done.
    by rewrite <- Hf.
  - injection E as <-. apply Hw in Hr as [Hr Hne]. rewrite Hf in Hr by done.
    destruct p; try done; cbn [meant] in Hr; unfold started in Hr; by rewrite bool_decide_eq_false_2 in Hr.
Qed.

(** ** Every operation keeps it *)

Lemma running_other p c r (l : Log) :
  (forall q, c = Start q \/ c = Stop q -> q <> p) -> running p (l ++ [(c, r)]) = running p l.
Proof.
  intros Hne. unfold running. rewrite foldl_app. cbn [foldl]. unfold running_step at 1. cbn [fst].
  destruct c; try done; rewrite bool_decide_eq_false_2; try done; intros ->; by eapply Hne; eauto.
Qed.

(** Calls that start nothing leave what is stopped as it is. *)
Lemma stopped_stays p l w : (forall q, Start q ∉ l) -> running p (log w) = false -> running p (log (do_all l w)) = false.
Proof. intros Hl Hr. by rewrite running_do_all, Hr by done. Qed.

Ltac no_start := let q := fresh "q" in let Hq := fresh "Hq" in intros q Hq; repeat (apply elem_of_cons in Hq as [Hq|Hq]; [done|]); by apply elem_of_nil in Hq.

(** No part is meant to run where 3A is not. *)
Lemma follows_stopped d w :
  meant d ThreeA = false -> (forall p, controlled p = true -> running p (log w) = false) -> follows d w.
Proof.
  intros Hm Hr. split_and!.
  - intros p Hc. rewrite Hr by done. symmetry. by apply meant_not_three.
  - by rewrite Hm.
  - cbn [meant] in Hm. by apply orb_false_iff in Hm as [-> _].
Qed.

Lemma follows_init d w r d' w' : mState d = DEVICE_UNINIT -> init d w = (r, d', w') -> follows d w -> follows d' w'.
Proof.
  intros Hs E Hf.
  assert (Hd : meant d ThreeA = false) by (cbn [meant]; unfold started; by rewrite Hs).
  assert (Hr0 : forall p, controlled p = true -> running p (log w) = false).
  { intros p Hc. destruct Hf as (Hf & _ & _). rewrite Hf by done. by apply meant_not_three. }
  assert (Hreq : forall l w, Forall (fun e => quiet_call e.2) l -> quiet w (snd (require_all l w))).
  { intros l. induction l as [|[q c] l IH]; intros w0 Hl; cbn [require_all]; [done|]. apply Forall_cons in Hl as [Hc Hl].
    cbn [do]. destruct (accepts q _); [|by apply (quiet_do c)]. etransitivity; [by apply (quiet_do c)|]. by apply IH. }
  unfold init in E.
  destruct (require_all _ w) as [r1 w1] eqn:E1.
  assert (H1 : quiet w w1) by (pose proof (Hreq [(CaptureSource, Init CaptureSource); (CsiMeta, Init CsiMeta); (Sof, Init Sof)] w) as Hq; rewrite E1 in Hq; apply Hq; by repeat constructor).
  assert (Hr1 : forall p, controlled p = true -> running p (log w1) = false) by (intros p Hc; rewrite (running_quiet p w w1) by done; by apply Hr0).
  destruct (negb _); [injection E as <- <- <-; by apply follows_stopped|].
  cbn [do] in E. set (w2 := WorldOf _ _ _ _ _) in E.
  assert (Hr2 : forall p, controlled p = true -> running p (log w2) = false).
  { intros p Hc. rewrite (running_quiet p w1 w2); [by apply Hr1|]. by apply (quiet_do (Init ThreeA)). }
  clearbody w2. destruct (negb _); [injection E as <- <- <-; by apply follows_stopped|].
  injection E as <- <- <-. apply follows_stopped; [done|]. intros p Hc. cbn [log].
  assert (Hne : forall q, q = Requests \/ q = Checker -> q <> p) by (by intros q [->| ->] <-).
  rewrite running_other by (intros q [[= <-]|[=]]; auto). case_bool_decide; [|by apply Hr2].
  destruct (_ =? OK); cbn [log].
  - rewrite running_other by (intros q [[= <-]|[=]]; auto). rewrite running_other by (by intros q [[=]|[=]]). by apply Hr2.
  - rewrite running_other by (by intros q [[=]|[=]]). by apply Hr2.
Qed.

Lemma follows_stop d w r d' w' : stop d w = Some (r, d', w') -> follows d w -> follows d' w'.
Proof.
  intros E Hf. unfold stop in E. set (w1 := do_all _ w) in E.
  destruct (if bool_decide _ then stopLocked d w1 else _) as [w2|] eqn:E2; [|done]. injection E as <- <- <-.
  apply follows_stopped; [done|]. intros p Hc.
  eapply (stop_all_running d w w1 w2 [ClearRequests; Stop ThreeA; Stop Lens]); try done; [no_start|].
  right. by left.
Qed.

Lemma follows_deinit d w d' w' : deinit d w = Some (d', w') -> follows d w -> follows d' w'.
Proof.
  intros E Hf. unfold deinit in E. case_bool_decide as Hu; [by injection E as <- <-|]. set (w1 := do_all _ w) in E.
  destruct (if bool_decide _ then stopLocked d w1 else _) as [w2|] eqn:E2; [|done]. cbn [mbind option_bind] in E. cbv zeta in E.
  set (w3 := if bool_decide _ then _ else w2) in E. set (w4 := do_all _ w3) in E.
  destruct (deleteStreams d w4) as [d5 w5] eqn:E5. apply Some_inj, pair_equal_spec in E as [<- <-].
  apply follows_stopped; [done|]. intros p Hc. apply stopped_stays; [no_start|].
  pose proof (quiet_delete_streams d w4) as Hq. rewrite E5 in Hq. rewrite (running_quiet p w4) by exact Hq.
  apply stopped_stays; [no_start|].
  assert (H2 : running p (log w2) = false).
  { eapply (stop_all_running d w w1 w2 [Stop ThreeA]); try done; [no_start|]. by left. }
  unfold w3. destruct (bool_decide (getSupportPrivacy = _)); [|exact H2]. apply stopped_stays; [no_start|exact H2].
Qed.

Lemma follows_start d w r d' w' : start d w = Some (r, d', w') -> follows d w -> follows d' w'.
Proof.
  intros E Hf. unfold start in E. set (w0 := do_all _ w) in E.
  assert (Hk0 : keeps d w d w0) by (apply keeps_world, quiet_do_all; by repeat constructor).
  apply (follows_keeps _ _ _ _ Hk0) in Hf. clearbody w0.
  case_bool_decide as Hs; cbn [negb] in E; [|by injection E as <- <- <-].
  destruct (Z.eqb_spec (mStreamNum d) 0) as [|Hn]; [by injection E as <- <- <-|].
  unfold startLocked in E. destruct (bindListeners d w0) as [w1|] eqn:Eb; [|done]. cbn [mbind option_bind] in E.
  assert (Hk1 : keeps d w0 d w1).
  { apply keeps_world. unfold bindListeners in Eb. destruct (bound d) as [l|]; [|done]. injection Eb as <-.
    by apply (quiet_do_all (RegisterListener <$> l)), quiet_fmap. }
  apply (follows_keeps _ _ _ _ Hk1) in Hf. destruct (processors d) as [ps|] eqn:Ep; [|done]. cbn [mbind option_bind] in E.
  pose proof (processors_some _ _ Ep) as ->. destruct (start_parts _ w1) as [r2 w2] eqn:E2.
  assert (Hin : forall p, p ∈ (Proc <$> mProcessors d) ++ [CaptureSource; CsiMeta; Sof] <-> p ∈ stopped_parts d).
  { intros p. unfold stopped_parts. rewrite !elem_of_app, !elem_of_cons. tauto. }
  destruct Hf as (Hf1 & Hf2 & Hf3).
  assert (Hst : started d = false) by (unfold started; by rewrite Hs).
  assert (Hthree : meant d ThreeA = true) by (cbn [meant]; by rewrite Hs, orb_true_r).
  assert (Hout : forall p, controlled p = true -> p ∉ stopped_parts d -> running p (log w2) = bool_decide (p = ThreeA)).
  { intros p Hc Hp. rewrite <- Hin in Hp. rewrite (proj1 (start_parts_running _ _ _ _ p E2) Hp), Hf1 by done.
    destruct p; try done; cbn [meant]; rewrite ?Hst; try done; by rewrite Hs. }
  assert (Hno : (ThreeA ∉ stopped_parts d) /\ (Lens ∉ stopped_parts d)) by (rewrite !in_stopped_parts; auto).
  assert (Hlens : running Lens (log w2) = true).
  { rewrite (proj1 (start_parts_running _ _ _ _ Lens E2)) by (rewrite Hin; apply Hno). by apply Hf2. }
  destruct (Z.eqb_spec r2 OK) as [->|Hr]; cbn [negb] in E.
  - injection E as <- <- <-. split_and!.
    + intros p Hc. destruct (decide (p ∈ stopped_parts d)) as [Hp|Hp].
      * rewrite (proj2 (start_parts_running _ _ _ _ p E2)) by (done || by apply Hin). rewrite in_stopped_parts in Hp.
        destruct p; try done; cbn [meant mProcessors set_state]; unfold started; cbn [mState set_state].
        symmetry. by apply bool_decide_eq_true.
      * rewrite Hout by done. rewrite in_stopped_parts in Hp. destruct p; try done; [by destruct Hp..|].
        cbn [meant mProcessors set_state]. rewrite (bool_decide_eq_false_2 (_ = ThreeA)) by done. symmetry. apply andb_false_iff. right.
        by apply bool_decide_eq_false.
    + done.
    + intros _ Hnil. apply Hn. unfold mStreamNum. cbn [mStreams set_state] in Hnil. by rewrite Hnil.
  - destruct (stopLocked d w2) as [w3|] eqn:E3; [|done]. injection E as <- <- <-. split_and!.
    + intros p Hc. rewrite (stopLocked_running _ _ _ p E3). case_bool_decide as Hp.
      * rewrite andb_false_r. symmetry. destruct p; try done; cbn [meant]; rewrite ?Hst; try done. by destruct (proj1 Hno).
      * rewrite andb_true_r, Hout by done. destruct p; try done; cbn [meant]; rewrite ?Hst; try done; by rewrite Hs.
    + intros _. rewrite (stopLocked_running _ _ _ Lens E3), Hlens, bool_decide_eq_false_2 by apply Hno. done.
    + by rewrite Hst.
Qed.

Lemma do_log c w r w' : do c w = (r, w') -> log w' = log w ++ [(c, r)].
Proof. by intros [= <- <-]. Qed.

Lemma prepare_spec d w r d' w' :
  prepare d w = (r, d', w') -> follows d w -> follows d' w' /\ mStreams d' = mStreams d /\ mProcessors d' = mProcessors d.
Proof.
  intros E (H1 & H2 & H3). unfold prepare in E. destruct (_ || _) eqn:Eb; [|by injection E as <- <- <-].
  assert (Hd : started d = false /\ bool_decide (mState d = DEVICE_BUFFER_READY) = false).
  { apply orb_true_iff in Eb as [Eb|Eb]; apply bool_decide_eq_true in Eb; unfold started; by rewrite Eb. }
  destruct Hd as [Hd1 Hd2]. assert (Hd : meant d ThreeA = false) by (cbn [meant]; by rewrite Hd1, Hd2).
  destruct (do (Start Lens) w) as [r1 w1] eqn:E1. apply do_log in E1.
  assert (Hw1 : forall p, controlled p = true -> running p (log w1) = false).
  { intros p Hc. rewrite E1, running_other; [rewrite H1 by done; by apply meant_not_three|].
    intros q [[= <-]|[=]] <-. done. }
  destruct (Z.eqb_spec r1 OK) as [Er1|_]; cbn [negb] in E; [|injection E as <- <- <-; split; [by apply follows_stopped|done]].
  destruct (do (Start ThreeA) w1) as [r2 w2] eqn:E2. apply do_log in E2.
  assert (Hw2 : forall p, controlled p = true -> running p (log w2) = bool_decide (p = ThreeA) && (r2 =? OK)).
  { intros p Hc. rewrite E2. destruct (decide (p = ThreeA)) as [->|Hp].
    - rewrite (bool_decide_eq_true_2 (ThreeA = ThreeA)) by done. unfold running. rewrite foldl_app. reflexivity.
    - rewrite (bool_decide_eq_false_2 (p = ThreeA)) by done. cbn [andb]. rewrite running_other; [by apply Hw1|]. intros q [[= <-]|[=]] <-. done. }
  destruct (Z.eqb_spec r2 OK) as [Er2|Er2]; cbn [negb] in E; injection E as <- <- <-; (split; [|done]).
  - split_and!.
    + intros p Hc. rewrite Hw2, andb_true_r by done. destruct p; done.
    + intros _. rewrite E2, running_other by (by intros q [[= <-]|[=]]). rewrite E1.
      unfold running. rewrite foldl_app. cbn [foldl]. unfold running_step at 1. cbn [fst snd]. rewrite bool_decide_eq_true_2 by done.
      by apply Z.eqb_eq.
    + done.
  - apply follows_stopped; [done|]. intros p Hc. by rewrite Hw2, andb_false_r.
Qed.

Lemma follows_qbuf bs settings d w r d' w' : qbuf bs settings d w = Some (r, d', w') -> follows d w -> follows d' w'.
Proof.
  intros E Hf. unfold qbuf in E. destruct (prepare d w) as [[r1 d1] w1] eqn:E1.
  destruct (prepare_spec _ _ _ _ _ E1 Hf) as (Hf1 & _ & _).
  destruct (negb _); [by injection E as <- <- <-|].
  match type of E with mbind _ ?x = _ => destruct x as [[d2 w2]|] eqn:E2; [|done] end. cbn [mbind option_bind do] in E.
  assert (Hk : keeps d1 w1 d2 w2).
  { destruct (_ && _); [|injection E2 as <- <-; apply keeps_refl].
    destruct (registerBuffer bs d1 w1) as [[[r3 d3] w3]|] eqn:E3; [|done]. injection E2 as <- <-. by eapply keeps_register. }
  injection E as <- <- <-. eapply follows_keeps; [|exact Hf1]. eapply keeps_trans; [exact Hk|].
  apply keeps_world. by apply (quiet_do (ProcessRequest bs settings)).
Qed.

Lemma follows_configure l d w r d' w' : configure l d w = Some (r, d', w') -> follows d w -> follows d' w'.
Proof.
  intros [Hq Hd]%configure_quiet Hf. destruct Hd as [->|[Hc Hs]]; [by eapply follows_keeps; [by apply keeps_world|]|].
  assert (Hcf : forall d0, configurable (mState d0) = true -> meant d0 ThreeA = false).
  { intros d0 Hd0. cbn [meant]. unfold configurable, started in *. destruct (mState d0); done. }
  eapply follows_idle; [exact Hq|by apply Hcf| |exact Hf]. apply Hcf. destruct Hs as [->| ->]; [exact Hc|done].
Qed.

(** ** Theorems *)

(** C36: for a device that is initialised once, used, and closed, its calls one
    after the other and without an access outside a container: whatever the
    calls, in any order and in any state, and whatever the parts answer, each
    part runs in the states it is meant to (a part runs from a start it answers
    with success until it is stopped).  The source of frames, the SOF events,
    the meta data and the device's processors run exactly while the device is
    started, and do not run after a start that failed half way; 3A runs exactly
    while the device is started or has its first buffer, and the lens runs
    then; and a device that is started has streams. *)
Theorem parts_follow_device os d w :
  runs os d w ->
  (forall p, controlled p = true -> running p (log w) = meant d p)
  /\ (meant d ThreeA = true -> running Lens (log w) = true)
  /\ (mState d = DEVICE_START -> mStreams d <> []).
Proof.
  intros Hr. assert (follows d w) as (H1 & H2 & H3).
  - induction Hr as [w Hl|os o d w d' w' Hr IH Ha E].
    + apply follows_stopped; [done|]. by rewrite Hl.
    + destruct o; cbn [apply_api allowed] in *.
      * destruct (init d w) as [[r d1] w1] eqn:E1. injection E as <- <-. by eapply follows_init.
      * by eapply follows_deinit.
      * injection E as <- <-. eapply follows_keeps; [|exact IH]. by split_and!.
      * destruct (configure l d w) as [[[r d1] w1]|] eqn:E1; [|done]. injection E as <- <-. by eapply follows_configure.
      * destruct (start d w) as [[[r d1] w1]|] eqn:E1; [|done]. injection E as <- <-. by eapply follows_start.
      * destruct (stop d w) as [[[r d1] w1]|] eqn:E1; [|done]. injection E as <- <-. by eapply follows_stop.
      * destruct (allocateMemory ubuffer d w) as [[[r d1] w1]|] eqn:E1; [|done]. injection E as <- <-.
        unfold allocateMemory in E1. destruct (before_configure _); [by injection E1 as <- <- <-|].
        destruct (users w !! ubuffer) as [u|]; [|done]. cbn [mbind option_bind] in E1. destruct (_ || _); [by injection E1 as <- <- <-|].
        apply on_stream_quiet in E1; [|by intros; eapply quiet_allocate]. by eapply follows_keeps.
      * destruct (qbuf ubuffers settings d w) as [[[r d1] w1]|] eqn:E1; [|done]. injection E as <- <-. by eapply follows_qbuf.
      * destruct (setParameters p d w) as [[[r d1] w1]|] eqn:E1; [|done]. injection E as <- <-.
        eapply follows_keeps; [by eapply keeps_set_parameters|done].
      * destruct (getParameters sequence d w) as [[[r p] w1]|] eqn:E1; [|done]. injection E as <- <-.
        eapply follows_keeps; [by apply keeps_world; eapply quiet_get_parameters|done].
      * destruct e as [bs seq0 tp|e]; cbn [handleEvent] in E.
        -- set (w0 := if _ : bool then _ else w) in E.
           assert (Hk : keeps d w d w0). { apply keeps_world. unfold w0. destruct (_ && _); [|done]. apply quiet_do_all. by repeat constructor. }
           destruct (handleQueueBuffer bs seq0 d w0) as [[[r d1] w1]|] eqn:E1; [|done]. injection E as <- <-.
           eapply follows_keeps; [|exact IH]. eapply keeps_trans; [exact Hk|by eapply keeps_handle].
        -- injection E as <- <-. eapply follows_keeps; [|exact IH]. apply keeps_world.
           destruct (_ && _); [by apply (quiet_do (Notify e))|done].
      * destruct (on_stream _ _ d w) as [[[r d1] w1]|] eqn:E1; [|done]. injection E as <- <-.
        apply on_stream_quiet in E1; [|by intros; eapply quiet_available]. by eapply follows_keeps.
  - split_and!; [done..|]. intros Hs. apply H3. unfold started. by rewrite Hs.
Qed.

(** Stopping removes the listeners that starting registered, each as often,
    whatever the configuration is. *)
Theorem unbind_undoes_bind d :
  match bound d, unbound d with
  | Some l, Some l' => l ≡ₚ l'
  | None, None => True
  | _, _ => False
  end.
Proof.
  unfold bound, unbound. destruct (processors d) as [ps|]; [|done]. cbn [mbind option_bind].
  destruct (frame_registration d) as [f|]; [|done]. cbn [mbind option_bind].
  apply Permutation_app_head. rewrite !(app_assoc _ _ (last_registrations _ _)), (app_assoc [_]), app_assoc.
  apply Permutation_app_tail. rewrite <- (app_assoc _ [_] [_]). apply Permutation_app_comm.
Qed.

(** ** The order of the streams *)

(** The bigger picture first, and of two that are alike the one that came
    first. *)
Definition before (streams : list stream_conf) (i j : Z) : Prop :=
  exists c c' a b, streams !! Z.to_nat i = Some c /\ streams !! Z.to_nat j = Some c' /\ area c = Some a /\ area c' = Some b
    /\ (b < a \/ (a = b /\ i < j)).

Lemma before_trans streams i j k : before streams i j -> before streams j k -> before streams i k.
Proof.
  intros (c & c' & a & b & H1 & H2 & H3 & H4 & H5) (c2 & c3 & a' & b' & G1 & G2 & G3 & G4 & G5).
  simplify_eq. exists c, c3, a, b'. split_and!; try done. lia.
Qed.

Lemma insert_sorted_perm streams i ids l : insert_sorted streams i ids = Some l -> l ≡ₚ i :: ids.
Proof.
  revert l. induction ids as [|j ids IH]; intros l; cbn [insert_sorted]; [by intros [= <-]|].
  destruct (streams !! Z.to_nat i); [|done]. destruct (streams !! Z.to_nat j); [|done]. cbn [mbind option_bind].
  destruct (area s) as [a|]; [|done]. destruct (area s0) as [b|]; [|done]. cbn [mbind option_bind].
  destruct (b <? a); [by intros [= <-]|]. destruct (insert_sorted streams i ids) as [r|]; [|done]. intros [= <-].
  rewrite (IH r) by done. apply perm_swap.
Qed.

Lemma insert_sorted_sorted streams i ids l :
  insert_sorted streams i ids = Some l -> StronglySorted (before streams) ids -> Forall (fun j => j < i) ids ->
  StronglySorted (before streams) l.
Proof.
  revert l. induction ids as [|j ids IH]; intros l; cbn [insert_sorted]; [intros [= <-]; by repeat constructor|].
  destruct (streams !! Z.to_nat i) as [c|] eqn:Ei; [|done]. destruct (streams !! Z.to_nat j) as [c'|] eqn:Ej; [|done].
  cbn [mbind option_bind]. destruct (area c) as [a|] eqn:Ea; [|done]. destruct (area c') as [b|] eqn:Eb; [|done].
  cbn [mbind option_bind]. intros E Hs Hlt. apply StronglySorted_cons in Hs as [Hj Hs]. apply Forall_cons in Hlt as [Hji Hlt].
  destruct (Z.ltb_spec b a) as [Hba|Hba].
  - injection E as <-. assert (Hij : before streams i j) by (exists c, c', a, b; split_and!; auto).
    apply StronglySorted_cons. split; [|by apply StronglySorted_cons]. constructor; [done|].
    eapply Forall_impl; [exact Hj|]. intros k. by apply before_trans.
  - destruct (insert_sorted streams i ids) as [r|] eqn:Er; [|done]. injection E as <-.
    apply StronglySorted_cons. split; [|by apply IH]. rewrite (insert_sorted_perm _ _ _ _ Er). constructor; [|done].
    exists c', c, b, a. split_and!; try done. lia.
Qed.

(** The streams that get a picture. *)
Definition is_output (streams : list stream_conf) (i : Z) : bool :=
  match streams !! Z.to_nat i with Some c => negb (is_input c) && negb (is_opaque_raw c) | None => false end.

Lemma sort_streams_outputs p streams idx sorted input raw sorted' input' raw' :
  sort_streams p streams idx sorted input raw = Some (OK, sorted', input', raw') ->
  StronglySorted Z.lt idx -> Forall (fun j => Forall (Z.lt j) idx) sorted -> StronglySorted (before streams) sorted ->
  sorted' ≡ₚ sorted ++ List.filter (is_output streams) idx /\ StronglySorted (before streams) sorted'
  /\ (input' = input \/ is_output streams input' = false) /\ (raw' = raw \/ is_output streams raw' = false).
Proof.
  revert sorted input raw. induction idx as [|i idx IH]; intros sorted input raw; cbn [sort_streams List.filter].
  { intros [= <- <- <-]. rewrite app_nil_r. auto. }
  destruct (streams !! Z.to_nat i) as [c|] eqn:Ec; [|done]. cbn [mbind option_bind].
  assert (Ho : is_output streams i = negb (is_input c) && negb (is_opaque_raw c)) by (unfold is_output; by rewrite Ec).
  rewrite Ho. intros E [Hi Hidx]%StronglySorted_cons Hb Hs.
  assert (Hb' : Forall (fun j => Forall (Z.lt j) idx) sorted).
  { eapply Forall_impl; [exact Hb|]. by intros j [_ Hj]%Forall_cons. }
  destruct (is_input c).
  { destruct (0 <=? input); [done|]. apply IH in E as (E1 & E2 & E3 & E4); [|done..]. split_and!; [done..| |done].
    destruct E3 as [->|E3]; by right. }
  destruct (is_opaque_raw c).
  { destruct (0 <=? raw); [done|]. apply IH in E as (E1 & E2 & E3 & E4); [|done..]. split_and!; [done..|].
    destruct E4 as [->|E4]; by right. }
  destruct (needs_support p && negb (isSupportedStream c)); [done|].
  destruct (insert_sorted streams i sorted) as [r|] eqn:Er; [|done]. cbn [mbind option_bind negb andb] in *.
  assert (Hr : StronglySorted (before streams) r).
  { eapply insert_sorted_sorted; [done..|]. eapply Forall_impl; [exact Hb|]. by intros j [Hj _]%Forall_cons. }
  apply insert_sorted_perm in Er. apply IH in E as (E1 & E2); [|done| |done].
  - split; [|done]. rewrite E1, Er. cbn [app]. apply Permutation_middle.
  - rewrite Er. by constructor.
Qed.

Lemma assign_ports_other ids ports m m' id : assign_ports ids ports m = Some m' -> id ∉ ids -> m' !! id = m !! id.
Proof.
  revert ports m. induction ids as [|i ids IH]; intros ports m; cbn [assign_ports]; [by destruct ports; intros [= <-]|].
  destruct ports as [|p ports]; [done|]. intros E Hid. apply not_elem_of_cons in Hid as [Hi Hid].
  rewrite (IH _ _ E Hid). by apply lookup_insert_ne.
Qed.

Lemma assign_ports_lookup ids rest ports m m' k id :
  assign_ports (ids ++ rest) ports m = Some m' -> NoDup ids -> id ∉ rest -> ids !! k = Some id -> m' !! id = ports !! k.
Proof.
  revert ports m k. induction ids as [|i ids IH]; intros ports m k; [done|]. cbn [assign_ports app].
  destruct ports as [|p ports]; [done|]. intros E [Hi Hnd]%NoDup_cons Hr Hk. destruct k as [|k]; [|exact (IH _ _ k E Hnd Hr Hk)].
  injection Hk as <-. rewrite (assign_ports_other _ _ _ _ _ E); [apply lookup_insert_eq|]. by rewrite not_elem_of_app.
Qed.

Lemma assign_ports_long ids ports m : (length ports < length ids)%nat -> assign_ports ids ports m = None.
Proof.
  revert ports m. induction ids as [|i ids IH]; intros ports m; cbn [assign_ports length]; [lia|].
  destruct ports as [|p ports]; [done|]. cbn [length]. intros Hl. apply IH. lia.
Qed.

Definition outputs_of (streams : list stream_conf) : list Z :=
  List.filter (is_output streams) (range 0 (Z.of_nat (length streams))).

Lemma range_sorted lo n : StronglySorted Z.lt (range lo (lo + Z.of_nat n)).
Proof.
  revert lo. induction n as [|n IH]; intros lo; [rewrite range_nil by lia; constructor|].
  rewrite range_cons by lia. apply StronglySorted_cons. split.
  - apply Forall_forall. intros j. rewrite elem_of_range. lia.
  - replace (lo + Z.of_nat (S n)) with (lo + 1 + Z.of_nat n) by lia. apply IH.
Qed.

Lemma outputs_nodup streams : NoDup (outputs_of streams).
Proof.
  unfold outputs_of. apply NoDup_ListNoDup, List.NoDup_filter, NoDup_ListNoDup. unfold range. apply NoDup_seqZ.
Qed.

(** A configuration that is taken has its output streams by size, the biggest
    first and equal ones as they came, in front of the raw or the input stream;
    and the n-th of them has the n-th port. *)
Theorem streams_get_ports streams d d' :
  analyzeStream streams d = Some (OK, d') ->
  exists outs rest, mSortedStreamIds d' = outs ++ rest
    /\ outs ≡ₚ outputs_of streams
    /\ StronglySorted (before streams) outs
    /\ (forall k id, outs !! k = Some id -> mStreamIdToPortMap d' !! id = kPorts !! k).
Proof.
  unfold analyzeStream. destruct (sort_streams _ _ _ _ _ _) as [[[[r sorted] input] raw]|] eqn:Es; [|done].
  cbn [mbind option_bind]. destruct (Z.eqb_spec r OK) as [->|Hr]; cbn [negb]; [|by intros [= -> _]].
  apply sort_streams_outputs in Es as (Hp & Hs & Hi & Hw); [|apply (range_sorted 0)|constructor..]. cbn [app] in Hp.
  assert (Hnd : NoDup sorted) by (rewrite Hp; apply outputs_nodup).
  assert (Hout : forall k id, sorted !! k = Some id -> is_output streams id = true).
  { intros k id Hk%list_elem_of_lookup_2. rewrite Hp in Hk. by apply list_elem_of_In, filter_In in Hk as [_ Hk]. }
  destruct (Z.leb_spec 0 raw) as [Hraw|_].
  - destruct (assign_ports _ _ _) as [m|] eqn:Em; [|done]. cbn [mbind option_bind].
    intros E. assert (Ed : d' = set_sorted m (sorted ++ [raw]) d) by (cbn in E; by destruct (negb isIsysEnabled && _); simplify_eq).
    subst d'. exists sorted, [raw]. split_and!; [done..|]. intros k id Hk. eapply assign_ports_lookup; [done..| |done].
    rewrite list_elem_of_singleton. intros ->. apply Hout in Hk. destruct Hw as [->|Hw]; [lia|congruence].
  - destruct (assign_ports sorted _ _) as [m|] eqn:Em; [|done]. cbn [mbind option_bind]. rewrite <- (app_nil_r sorted) in Em.
    assert (Hm : forall k id, sorted !! k = Some id -> m !! id = kPorts !! k).
    { intros k id Hk. eapply assign_ports_lookup; [done..| |done]. apply not_elem_of_nil. }
    destruct (_ && _); [done|]. destruct (Z.ltb_spec input 0) as [_|Hin].
    { intros [= <-]. exists sorted, []. by rewrite app_nil_r. }
    destruct (bool_decide (sorted = [])); [done|]. destruct (streams !! Z.to_nat input); [|done]. cbn [mbind option_bind].
    destruct (negb _); [done|]. intros [= <-]. exists sorted, [input]. split_and!; [done..|]. intros k id Hk.
    cbn [mStreamIdToPortMap set_sorted]. rewrite lookup_insert_ne; [by apply Hm|]. intros ->. apply Hout in Hk.
    destruct Hi as [->|Hi]; [lia|congruence].
Qed.

(** Streams that are all pictures, and supported. *)
Definition plain (streams : list stream_conf) (i : Z) : Prop :=
  is_output streams i = true /\ forall c, streams !! Z.to_nat i = Some c -> isSupportedStream c = true.

Lemma sort_streams_plain p streams idx sorted input raw res :
  Forall (plain streams) idx -> sort_streams p streams idx sorted input raw = Some res ->
  exists sorted', res = (OK, sorted', input, raw).
Proof.
  intros Hp. revert sorted. induction Hp as [|i idx [Ho Hc] Hp IH]; intros sorted; cbn [sort_streams]; [intros [= <-]; by eexists|].
  unfold is_output in Ho. destruct (streams !! Z.to_nat i) as [c|]; [|done]. cbn [mbind option_bind].
  apply andb_true_iff in Ho as [H1%negb_true_iff H2%negb_true_iff]. rewrite H1, H2, (Hc c), andb_false_r by done.
  destruct (insert_sorted streams i sorted) as [r|]; [|done]. cbn [mbind option_bind]. apply IH.
Qed.

(** [configure] lets five streams pass, and when all are outputs the fifth is
    looked up behind the four ports. *)
Theorem five_outputs_undefined streams d :
  length streams = 5%nat -> Forall (plain streams) (range 0 5) -> analyzeStream streams d = None.
Proof.
  intros Hl Hall. unfold analyzeStream. rewrite Hl. change (Z.of_nat 5) with 5.
  destruct (sort_streams _ _ _ _ _ _) as [res|] eqn:Es; [|done].
  destruct (sort_streams_plain _ _ _ _ _ _ _ Hall Es) as [sorted ->]. cbn [mbind option_bind].
  apply sort_streams_outputs in Es as (Hp & _); [|apply (range_sorted 0 5)|constructor..].
  change (if 0 <=? -1 then (sorted ++ [-1], -1) else (sorted, -1)) with (sorted, -1).
  cbn [negb Z.eqb OK mbind option_bind]. rewrite assign_ports_long; [done|]. rewrite Hp. cbn [app].
  assert (Hf : forall l, Forall (plain streams) l -> List.filter (is_output streams) l = l).
  { induction 1 as [|i l [Ho _] _ IH]; [done|]. cbn [List.filter]. by rewrite Ho, IH. }
  rewrite Hf by done. change (length (range 0 5)) with 5%nat. cbn. lia.
Qed.

(** The id of a buffer is compared with the number of streams as if there were
    one more: the buffer that names it is looked up behind the streams. *)
Theorem register_off_by_one b bs d w u :
  before_configure (mState d) = false -> mProcessors d <> [] -> b <> 0 ->
  users w !! b = Some u -> ub_id u = mStreamNum d -> registerBuffer (b :: bs) d w = None.
Proof.
  intros Hs Hp Hb Hu Hid. unfold registerBuffer. rewrite Hs, bool_decide_eq_false_2 by done. cbn [register_buffers].
  rewrite (proj2 (Z.eqb_neq b 0) Hb), Hu. cbn [mbind option_bind]. rewrite Hid.
  assert (H0 : 0 <= mStreamNum d) by (unfold mStreamNum; lia).
  rewrite (proj2 (Z.ltb_ge _ _) H0), Z.ltb_irrefl. cbn [orb]. unfold on_stream, mStreamNum.
  rewrite Nat2Z.id, lookup_ge_None_2 by lia. done.
Qed.
End Runs.

(** ** A device *)

(** A source that delivers one format, whatever is asked for. *)
#[local] Instance sample_device : DeviceConfig := {|
  device_answer _ _ := OK;
  isIsysEnabled := true; isFileSourceEnabled := false; isPerframeControl := false; psysAlignWithSof := false;
  isSchedulerEnabled := false; csiMetaEnabled := false; getSupportPrivacy := NO_PRIVACY_MODE;
  isSupportedStream _ := true; isISysSupportedResolution _ _ := true; isISysSupportedFormat _ := true;
  getISysOutput _ := Stream 0 0 0 0 0; getISysFormat _ := 7; getISysBestResolution _ w h _ := (w, h);
  dolShortEnabled := false; dolMediumEnabled := false; hasGraph := false; getSelectedMcId _ := -1;
  getCSIOutputResolution _ := None; getConfigModes _ := [0]; usePsys _ := true;
  statsListeners := [0]; sofListeners := [0]; dvsListeners := []; has3AReadySource := false;
  isTestPatternSupported := false; getSensorTestPattern _ := -1; isNeedToPreRegisterBuffer := false; getReqWaitTimeout := 0;
  defaultParameters := new_Parameters; getResults _ _ := new_Parameters; addProcessorParameters _ _ p := p;
|}.

Definition sample_streams (format : Z) : stream_config_t :=
  StreamConfig (Some [StreamConf (Stream format 1280 720 0 2) 0 0; StreamConf (Stream format 1920 1080 0 2) 0 0]) 0.

(** What the source delivers. *)
Definition one_stream : stream_config_t := StreamConfig (Some [StreamConf (Stream 7 1920 1080 0 2) 0 0]) 0.

Definition apply_all (os : list api) (d : CameraDevice) (w : World device_call) : option (CameraDevice * World device_call) :=
  foldl (fun r o => '(d, w) ← r; apply_api o d w) (Some (d, w)) os.

Definition no_calls : World device_call := {| users := ∅; buffers := ∅; next_buffer := 1; log := [] |}.

Definition state_after (os : list api) : CameraDevice * World device_call :=
  default (new_CameraDevice, no_calls) (apply_all os new_CameraDevice no_calls).

Definition open_and_start : list api := [OInit; OConfigure one_stream; OQbuf [] true; OStart].

Lemma parts_follow_device_witness :
  runs open_and_start (fst (state_after open_and_start)) (snd (state_after open_and_start))
  /\ running CaptureSource (log (snd (state_after open_and_start))) = true
  /\ running Lens (log (snd (state_after open_and_start))) = true.
Proof.
  assert (Hr : runs open_and_start (fst (state_after open_and_start)) (snd (state_after open_and_start))).
  { apply (runs_step [OInit; OConfigure one_stream; OQbuf [] true] OStart
             (fst (state_after [OInit; OConfigure one_stream; OQbuf [] true])) (snd (state_after [OInit; OConfigure one_stream; OQbuf [] true])));
      [|by vm_compute|vm_compute; reflexivity].
    apply (runs_step [OInit; OConfigure one_stream] (OQbuf [] true)
             (fst (state_after [OInit; OConfigure one_stream])) (snd (state_after [OInit; OConfigure one_stream])));
      [|by vm_compute|vm_compute; reflexivity].
    apply (runs_step [OInit] (OConfigure one_stream) (fst (state_after [OInit])) (snd (state_after [OInit])));
      [|by vm_compute|vm_compute; reflexivity].
    apply (runs_step [] OInit new_CameraDevice no_calls); [by apply runs_new|done|vm_compute; reflexivity]. }
  destruct (parts_follow_device _ _ _ Hr) as (H1 & H2 & H3).
  split; [exact Hr|]. split; [rewrite H1; [vm_compute; reflexivity|reflexivity]|].
  apply H2. vm_compute. reflexivity.
Defined.

(** A configuration whose pictures the source delivers itself, after one that
    needed processing: the list of the processors is still the one of those that
    were deleted, and the streams are bound to the last of it. *)
Theorem stale_processors_used :
  (exists d w, apply_all [OInit; OConfigure (sample_streams 9); OConfigure (sample_streams 9)] new_CameraDevice no_calls = Some (d, w)
    /\ mState d = DEVICE_CONFIGURE)
  /\ (exists d w, apply_all [OInit; OConfigure one_stream] new_CameraDevice no_calls = Some (d, w)
    /\ mState d = DEVICE_CONFIGURE)
  /\ apply_all [OInit; OConfigure (sample_streams 9); OConfigure one_stream] new_CameraDevice no_calls = None.
Proof. split_and!; [do 2 eexists; split; vm_compute; reflexivity..|vm_compute; reflexivity]. Qed.
